(* ===== verification/_CoqProject ===== *)
-Q . S2P
Prelude.v
Mem.v
BitField.v
CString.v
Bitmap.v
PageAlloc.v
Phymm.v
X86Memory.v
Paging.v
Ioremap.v
Kmalloc.v
X86Malloc.v
KmallocLemmas.v
KmallocCorrect.v
KmallocGrow.v
KmallocThms.v
KmallocFree.v
KmallocSpec.v
Alloc.v
Gdt.v
Disk.v
Boot.v
Startup.v
ApBoot.v
Idt.v
Exception.v
Lapic.v
Cpu.v
Acpi.v
SmpBoot.v
Task64.v
LapicTimer.v
Vsprintf.v
Printk.v
Asm.v
Context.v
Preempt.v
Syscall.v
PrintAsm.v
ExcEntry.v
Spinlock.v
LinkedList.v
X86Task.v
Asm32.v
X86Switch.v
Keyboard.v
Console.v
NetChecksum.v
NetPacket.v
NetRecv.v
NetThread.v
NetStack.v
NetMain.v
NetSamples.v
