(* ===== verification/Prelude.v ===== *)
(** * x64_smp_os: a verification library

    The repository is an operating system for x86 machines with several
    processors.  A boot sector and loader start a 32-bit kernel
    (x86_kernel/), which either runs by itself or prepares long mode and jumps to
    the 64-bit kernel (x64_kenerl/); both share components/.  A network stack
    (netstack/) is a user program of its own: it sends and receives Ethernet frames
    through libpcap, and brings ARP, UDP and TCP.  This library models the C code
    of the two kernels, the assembly they start with and by which they switch tasks,
    take interrupts and system calls and gather arguments, the network stack and its
    sample programs, and proves what makes each part correct; the code is followed as
    it is, so where it does not do what its comments or its callers expect, a
    theorem states what it does.

    * How state is represented

    The kernels run on an identity mapping: a pointer is a physical address.
    [Mem] is memory as a finite map of bytes with little-endian loads and stores;
    code that reaches objects through pointers works on it (string.c, bitmap.c,
    phymm.c, memory.c, malloc.c, gdt.c, idt.c, page tables, video memory).  Tasks
    and list nodes, which the code handles whole, are maps from pointers to
    records.  Assembly runs on the processor of [Asm], or [Asm32] for the 32-bit
    kernel: registers, segments, GS bases, flags and memory.  The network stack's packets are lists of bytes and
    its globals a record; its threads are steps on them.  Machine integers are [Z] with the reduction written where the source
    truncates ([u8] ... [u64], [s8] ... [s64], in this file); bit-fields are
    [BitField].  Operations that can fail to return give an [outcome]: a lock never
    released, a read or write outside an object, a null pointer, a failed assertion.
    Operations return the new state; what they print is modelled only in [Printk],
    [Console] and [Exception], and as events in the network stack.

    * Files, and what each group of theorems shows

    Foundations
    - [Prelude] integers, automation, lists as C arrays, outcomes.
    - [Mem] memory and when an access sees a store; [BitField] fields of a word.
    - [CString] libs/string.c and lib/string.c: copies, comparisons and searches
      against lists of characters.

    Memory management
    - [Bitmap] libs/bitmap.c: the scan returns the first run that fits and marks
      exactly it.
    - [PageAlloc] the interface of a page manager: operations and laws.
    - [Phymm] kernel/phymm.c of the 64-bit kernel, an instance of it: over any
      client history no page is handed out twice; what mm_init sets up, and that
      its map is eight times too long.
    - [X86Memory] kernel/memory.c of the 32-bit kernel, another instance: the page
      counter counts.
    - [Paging] the tables of init/main.c and vm101012.c: the hardware walk over
      them is the identity on 32 and 4 MiB and nothing else.
    - [Ioremap] kernel/ioremap.c over any page manager: the tables stay a tree and
      one 2 MiB page is mapped.
    - [Kmalloc] mm/malloc.c of the 64-bit kernel, with [KmallocLemmas],
      [KmallocCorrect], [KmallocGrow], [KmallocThms], [KmallocFree] (lemmas) and
      [KmallocSpec] (theorems): the heap invariant, allocation and release on
      every branch against an abstract heap of buckets, live blocks disjoint.
    - [X86Malloc] the same file of the 32-bit kernel: a release loses buckets.
    - [Alloc] the interface of a heap to its clients, with a concrete heap for
      witnesses.

    From the boot sector to the 64-bit kernel
    - [Disk] the disk routine of boot.asm and setup.asm, over the interface of an ATA
      disk and an instance of it: the sectors asked for come to memory.
    - [Boot] boot.asm and setup.asm: memory map, descriptors, the three programs.
    - [Startup] head.asm, head64.asm and kernel_main: the 32-bit kernel ends at the
      64-bit one's first instruction in 64-bit mode.

    Processors
    - [Gdt] kernel/gdt.c: every selector constant picks its descriptor.
    - [Idt] both idt.c: every gate is well formed and goes to its handler.
    - [Exception] exceptionErrorCode.c: the report of an error code line by line,
      against the meaning of its bits.
    - [Lapic] the register accesses of kernel/apic.c: messages and timer.
    - [Cpu] cpu.c, gdt64.c, syscall.c: processor blocks, task segments, the
      segments that SYSCALL and SYSRET load (over the table [Gdt] leaves).
    - [Acpi] the table search and walk of apic.c, and apic_init composed of
      [Ioremap], [Lapic] and [Cpu].
    - [ApBoot] aps_boot.asm instruction by instruction over shared memory, from the
      start message to the C function: one at a time, stacks apart, and the
      interleaving by which a processor gets there in protected mode.
    - [SmpBoot] the boot lock of aps_boot.asm, x64_ap_main and ap_init's wait as a
      step relation: invariants over all interleavings, and the arrival that is lost.

    - [Asm] the instructions, and stacks as lists of words.
    - [Context] context.asm and the stacks built for iretq in sched64.asm: what is
      saved comes back, but for rcx and rdx; the first dispatch of a task; the way
      to user code.
    - [Syscall] unistd.c, syscall.asm and system_call.c between SYSCALL and SYSRET:
      the bytes of a write go out and the caller continues where it was.
    - [PrintAsm] prink.asm and printf.asm: printk formats the arguments where the
      calling convention puts them and sends the text.
    - [ExcEntry] interrupt.asm between an exception and the report of [Exception]; the
      test message handlers of apic_interrupts.asm, which lose registers.
    - [Spinlock] spinlock.asm as steps of several processors: mutual exclusion, and
      a processor that spins can get the lock.

    Tasks
    - [Task64] kernel/task64.c: choice of the next task, creation, clean-up.
    - [LapicTimer] the handlers of apic_interrupts.asm and sched64.asm as steps of
      a machine with several processors: no task on two of them, and how
      task_exit, which takes no lock, breaks that.
    - [Preempt] the same interrupt on the processor of [Asm]: a task that is
      preempted, its context moved to its own stack and its place stored in the
      descriptor, continues where it was.
    - [X86Task] task.c, sched.c and clock.c of the 32-bit kernel: sleep and wake,
      time slices, starvation.
    - [Asm32] the 32-bit processor, and a program logic that computes what a list of
      instructions does to stack, registers and task descriptor, sound for it.
    - [X86Switch] schedAsm.asm and int_isr.asm with it: a user task comes back after
      the clock, a kernel task on another task's stack, out of sleep nowhere; a
      system call loses its result.
    - [LinkedList] components/include/list.h: insertion, removal and safe
      iteration against lists.

    Devices and text
    - [Vsprintf] vsprintf.c of both kernels: digits and widths, reading back what
      was printed, termination.
    - [Printk] printk.c, serial.c and logger.c.
    - [Console] both console.c; [Keyboard] keyboard.c against an abstract keyboard.

    Network stack
    - [NetChecksum] the checksums of utils/util.cpp: a stored sum verifies.
    - [NetPacket] the builders of protocol/*.cpp and the state they use: frames
      sent have headers and checksums a receiver accepts.
    - [NetRecv] the handlers of received frames: when receiving a datagram is safe,
      and that it gives back what was sent.
    - [NetThread] thread/thread.cpp: waiting for and posting to a thread by name; a
      post ends the wait of the thread it is for and of no other.
    - [NetStack] the threads of main.cpp and protocol/entry.cpp as steps on the
      shared state: the handshake, the answer to ARP that can be lost, the monitor
      that stalls on data.
    - [NetMain] the start of main.cpp; concrete runs of the whole stack.
    - [NetSamples] client_server/*.cpp and netframework/main.cpp as sequences of
      socket calls: echoes are faithful, sockets are closed on every way out, and
      which clients are never served.

    * Interfaces

    [PageOps] and [PageLaws] stand between page managers and their clients,
    [AllocOps], [AllocLaws] and [AllocPlace] between the heap and the modules that
    allocate their objects.  Client theorems hold for every instance; [Phymm] and
    [X86Memory] discharge the page laws.  In [Cpu] and [SmpBoot] the heap's own
    bookkeeping is in its abstract state, and the blocks it returns are in memory.
    [Lapic] takes the device as a function from the writes made so far to the
    value a register reads as; any function is a device there.  [AtaOps] and
    [AtaLaws] stand between the disk and [Boot]; image_disk of [Disk] is an instance.
    The BIOS's memory map service, cpuid and the answers of socket calls are arguments.

    The calls of C functions from assembly are functions of the processor state with
    hypotheses of the calling convention ([getter_ok], [c_body_ok], [c_frame_ok], [c_call_ok]):
    the result in rax, the callee's registers and the stack above kept; where the
    code uses rdi behind a call, that too is a hypothesis ([getter_ok], and
    set_task_waiting in [Preempt]).  For
    pcap_open_live and pcap_sendpacket, pthread_self, inet_aton and the contents of
    the interface files the network modules take arguments; calloc is taken to
    succeed.

    * Bounds and fuel

    Loops over a count recurse on the count and need no fuel.  Searches for a
    terminator take the length of the string plus one; chains of buckets take one
    more than the longest chain, which [short_chains] bounds; the MADT walk takes
    one step a structure; format strings take their length plus one.  The
    theorems include that the fuel stated is enough; waits for the disk end for every
    fuel from a bound on, which its polls give.  Folding the carries of a
    checksum takes two rounds, which is enough for every frame.  Runs of the
    network stack's threads are explicit schedules.  The interrupt handlers and
    boot steps hold their lock from the first look at shared state to the last,
    and are single steps; task_exit, which does not, has its halves apart.

    * Not modelled

    - The entry jump of the 64-bit kernel and the port routines of io.asm: single
      instructions, which appear as the port accesses of their callers.  hardDiskRead
      and print_hex of boot.asm are never called.
    - What a processor does that runs 64-bit code in protected mode: the code is what
      the compiler made of x64_ap_main, an argument of [ApBoot] on which no theorem
      has a hypothesis.
    - #GP and other exceptions of the assembly: a return to an inner level or to a
      bad selector does not occur in what is proved.
    - The print functions of apic.c that only format table fields for the console.
    - Timing: delay loops and how fast a device answers.
    - The base that a load of the gs selector gives: [swapgs] exchanges the two
      bases, and no code looks at the user's.
    - netstack/testcode, which prints what the system answers, and the vendored
      libpcap headers. *)

From Stdlib Require Export ZArith Lia.
From stdpp Require Export base numbers list gmap strings.

#[global] Open Scope Z_scope.

(** ** Machine integers *)

(** Unsigned and two's-complement views of a [w]-bit register.  The C types of
    [include/linux/type.h] are integers in [Z] with these reductions written
    where the source truncates. *)
Definition u8 (z : Z) : Z := z mod 256.
Definition u16 (z : Z) : Z := z mod 65536.
Definition u32 (z : Z) : Z := z mod 4294967296.
Definition u64 (z : Z) : Z := z mod 18446744073709551616.

Definition s8 (z : Z) : Z := if u8 z <? 128 then u8 z else u8 z - 256.
Definition s16 (z : Z) : Z := if u16 z <? 32768 then u16 z else u16 z - 65536.
Definition s32 (z : Z) : Z :=
  if u32 z <? 2147483648 then u32 z else u32 z - 4294967296.
Definition s64 (z : Z) : Z :=
  if u64 z <? 9223372036854775808 then u64 z else u64 z - 18446744073709551616.

(** ** Constants of [include/linux/type.h] *)
Definition EOF : Z := -1.
Definition NULL : Z := 0.
Definition EOS : Z := 0.

(** C truth of an integer. *)
Definition truthy (z : Z) : bool := negb (z =? 0).

Declare Scope kernel_scope.
Delimit Scope kernel_scope with kernel.
Notation "a .& b" := (Z.land a b) (at level 53, left associativity) : kernel_scope.
Notation "a .| b" := (Z.lor a b) (at level 54, left associativity) : kernel_scope.
Notation "a .<< b" := (Z.shiftl a b) (at level 52, left associativity) : kernel_scope.
Notation "a .>> b" := (Z.shiftr a b) (at level 52, left associativity) : kernel_scope.

(** ** Automation *)

(** [zlia] decides linear goals with divisions and remainders by constants. *)
Ltac zlia := Z.div_mod_to_equations; lia.

(** [case_if] splits on the first boolean test of the goal, keeping a
    propositional equation. *)
Ltac bool_hyps :=
  repeat match goal with
  | H : (_ =? _) = true |- _ => apply Z.eqb_eq in H
  | H : (_ =? _) = false |- _ => apply Z.eqb_neq in H
  | H : (_ <? _) = true |- _ => apply Z.ltb_lt in H
  | H : (_ <? _) = false |- _ => apply Z.ltb_ge in H
  | H : (_ <=? _) = true |- _ => apply Z.leb_le in H
  | H : (_ <=? _) = false |- _ => apply Z.leb_gt in H
  | H : (_ >? _) = true |- _ => apply Z.gtb_lt in H
  | H : (_ >? _) = false |- _ => rewrite Z.gtb_ltb in H; apply Z.ltb_ge in H
  | H : (_ && _)%bool = true |- _ => apply andb_true_iff in H as [? ?]
  | H : negb _ = true |- _ => apply negb_true_iff in H
  | H : negb _ = false |- _ => apply negb_false_iff in H
  end.

Ltac case_if :=
  match goal with
  | |- context [if ?b then _ else _] => destruct b eqn:?; bool_hyps
  end.

Create HintDb kernel.
Create Rewrite HintDb kernel.
Create Rewrite HintDb fields.

Lemma u8_bound z : 0 <= u8 z < 256.
Proof. unfold u8. apply Z.mod_pos_bound. lia. Qed.
Lemma u16_bound z : 0 <= u16 z < 65536.
Proof. unfold u16. apply Z.mod_pos_bound. lia. Qed.
Lemma u32_bound z : 0 <= u32 z < 4294967296.
Proof. unfold u32. apply Z.mod_pos_bound. lia. Qed.
Lemma u64_bound z : 0 <= u64 z < 18446744073709551616.
Proof. unfold u64. apply Z.mod_pos_bound. lia. Qed.
#[export] Hint Resolve u8_bound u16_bound u32_bound u64_bound : kernel.

Lemma u8_small z : 0 <= z < 256 -> u8 z = z.
Proof. intros. unfold u8. by apply Z.mod_small. Qed.
Lemma u16_small z : 0 <= z < 65536 -> u16 z = z.
Proof. intros. unfold u16. by apply Z.mod_small. Qed.
Lemma u32_small z : 0 <= z < 4294967296 -> u32 z = z.
Proof. intros. unfold u32. by apply Z.mod_small. Qed.
Lemma u64_small z : 0 <= z < 18446744073709551616 -> u64 z = z.
Proof. intros. unfold u64. by apply Z.mod_small. Qed.
#[export] Hint Rewrite u8_small u16_small u32_small u64_small using lia : kernel.

Lemma u8_idem z : u8 (u8 z) = u8 z.
Proof. unfold u8. by rewrite Zmod_mod. Qed.
Lemma u32_idem z : u32 (u32 z) = u32 z.
Proof. unfold u32. by rewrite Zmod_mod. Qed.
Lemma u64_idem z : u64 (u64 z) = u64 z.
Proof. unfold u64. by rewrite Zmod_mod. Qed.
#[export] Hint Rewrite u8_idem u32_idem u64_idem : kernel.

Lemma s32_small z : -2147483648 <= z < 2147483648 -> s32 z = z.
Proof. intros. unfold s32, u32. case_if; zlia. Qed.
Lemma s32_bound z : -2147483648 <= s32 z < 2147483648.
Proof. unfold s32. pose proof (u32_bound z). case_if; lia. Qed.
Lemma u32_s32 z : u32 (s32 z) = u32 z.
Proof. unfold s32, u32. case_if; zlia. Qed.
Lemma s8_bound z : -128 <= s8 z < 128.
Proof. unfold s8. pose proof (u8_bound z). case_if; lia. Qed.
Lemma u8_s8 z : u8 (s8 z) = u8 z.
Proof. unfold s8, u8. case_if; zlia. Qed.
#[export] Hint Resolve s32_bound s8_bound : kernel.
#[export] Hint Rewrite u32_s32 u8_s8 : kernel.

(** ** Bits *)

Lemma testbit_u8_high z i : 0 <= z < 256 -> 8 <= i -> Z.testbit z i = false.
Proof.
  intros Hz Hi. rewrite <- (Z.mod_small z (2 ^ 8)) by lia.
  apply Z.mod_pow2_bits_high. lia.
Qed.

(** The mask test [x & (1 << i)] of the source is the bit test. *)
Lemma land_bit_testbit x i :
  0 <= i -> truthy (Z.land x (Z.shiftl 1 i)) = Z.testbit x i.
Proof.
  intros Hi. unfold truthy. rewrite Z.shiftl_1_l.
  destruct (Z.testbit x i) eqn:Hb.
  - apply negb_true_iff, Z.eqb_neq. intros H0.
    assert (Z.testbit (Z.land x (2 ^ i)) i = true) as H1.
    { rewrite Z.land_spec, Hb, Z.pow2_bits_true by lia. done. }
    rewrite H0, Z.testbit_0_l in H1. done.
  - apply negb_false_iff, Z.eqb_eq. apply Z.bits_inj'. intros n Hn.
    rewrite Z.land_spec, Z.testbit_0_l.
    destruct (decide (n = i)) as [->|Hne]; [by rewrite Hb|].
    rewrite Z.pow2_bits_false by lia. apply andb_false_r.
Qed.

Lemma lor_bit_testbit x i j :
  0 <= i -> Z.testbit (Z.lor x (Z.shiftl 1 i)) j = (Z.testbit x j || (j =? i))%bool.
Proof.
  intros Hi. rewrite Z.lor_spec, Z.shiftl_1_l, Z.pow2_bits_eqb by lia.
  by rewrite Z.eqb_sym.
Qed.

Lemma land_lnot_bit_testbit x i j :
  0 <= i -> 0 <= j ->
  Z.testbit (Z.land x (Z.lnot (Z.shiftl 1 i))) j = (Z.testbit x j && negb (j =? i))%bool.
Proof.
  intros Hi Hj. rewrite Z.land_spec, Z.lnot_spec by lia.
  rewrite Z.shiftl_1_l, Z.pow2_bits_eqb by lia. by rewrite Z.eqb_sym.
Qed.

(** [or] with bits below an aligned number adds them. *)
Lemma lor_low k a b : 0 <= k -> a mod 2 ^ k = 0 -> 0 <= b < 2 ^ k -> Z.lor a b = a + b.
Proof.
  intros Hk Ha Hb. pose proof (Z.add_lor_land a b) as E.
  assert (Z.land a b = 0) as E0; [|lia].
  apply Z.bits_inj'. intros i Hi. rewrite Z.land_spec, Z.bits_0.
  destruct (decide (i < k)).
  - assert (Z.testbit a i = false) as ->; [|done].
    rewrite <- (Z.mod_pow2_bits_low a k i) by lia. by rewrite Ha, Z.bits_0.
  - assert (Z.testbit b i = false) as ->; [|by rewrite andb_false_r].
    rewrite <- (Z.mod_small b (2 ^ k)) by done. apply Z.mod_pow2_bits_high. lia.
Qed.

Lemma testbit_u8 x i : 0 <= i < 8 -> Z.testbit (u8 x) i = Z.testbit x i.
Proof. intros. unfold u8. change 256 with (2 ^ 8). apply Z.mod_pow2_bits_low. lia. Qed.

(** ** Lists as C arrays *)

(** [a\[i\]] and [a\[i\] = v] with a [Z] index; out of range reads give the
    default and writes do nothing, so every use states its bound. *)
Definition znth {A} (d : A) (l : list A) (i : Z) : A :=
  if (0 <=? i) then default d (l !! Z.to_nat i) else d.
Definition zset {A} (l : list A) (i : Z) (v : A) : list A :=
  if (0 <=? i) then <[Z.to_nat i := v]> l else l.

Lemma length_zset {A} (l : list A) i v : length (zset l i v) = length l.
Proof. unfold zset. case_if; [apply length_insert|done]. Qed.

Lemma znth_zset_eq {A} (d : A) l i v :
  0 <= i < Z.of_nat (length l) -> znth d (zset l i v) i = v.
Proof.
  intros Hi. unfold znth, zset. destruct (0 <=? i) eqn:E; bool_hyps; [|lia].
  rewrite list_lookup_insert_eq by lia. done.
Qed.

Lemma znth_zset_ne {A} (d : A) l i j v : i <> j -> znth d (zset l i v) j = znth d l j.
Proof.
  intros Hij. unfold znth, zset.
  destruct (0 <=? i) eqn:E, (0 <=? j) eqn:F; bool_hyps; try done.
  rewrite list_lookup_insert_ne by lia. done.
Qed.
#[export] Hint Rewrite @length_zset : kernel.

(** ** Operations that may not return *)

(** What can stop a piece of kernel code: it spins on a lock nobody releases,
    it writes or reads outside its object, it follows a null pointer or an
    assertion fails. *)
Inductive fault := Deadlock | WildStore | WildLoad | NullDeref | AssertFailed.

Inductive outcome (A : Type) := Done (a : A) | Stuck (f : fault).
Arguments Done {A}.
Arguments Stuck {A}.

#[export] Instance outcome_ret : MRet outcome := @Done.
#[export] Instance outcome_bind : MBind outcome :=
  fun A B f o => match o with Done a => f a | Stuck e => Stuck e end.

#[export] Instance fault_eq_dec : EqDecision fault.
Proof. solve_decision. Defined.

Lemma outcome_bind_Done {A B} (o : outcome A) (k : A -> outcome B) b :
  (o ≫= k) = Done b -> exists a, o = Done a /\ k a = Done b.
Proof. destruct o as [a|e]; [|done]. intros. by exists a. Qed.

Lemma zset_lookup {A} (l : list A) i (v : A) j :
  0 <= i < Z.of_nat (length l) ->
  zset l i v !! j = if decide (j = Z.to_nat i) then Some v else l !! j.
Proof.
  intros Hi. unfold zset. destruct (0 <=? i) eqn:E; bool_hyps; [|lia].
  destruct (decide (j = Z.to_nat i)) as [->|Hne].
  - apply list_lookup_insert_eq. lia.
  - by apply list_lookup_insert_ne.
Qed.

Lemma znth_lookup {A} (d : A) l (i : nat) x : l !! i = Some x -> znth d l (Z.of_nat i) = x.
Proof.
  intros H. unfold znth. destruct (0 <=? Z.of_nat i) eqn:E; bool_hyps; [|lia].
  by rewrite Nat2Z.id, H.
Qed.

(** How many elements of a list satisfy [f]. *)
Definition count_if {A} (f : A -> bool) (l : list A) : Z := foldr (fun x n => Z.b2z (f x) + n) 0 l.

Lemma count_if_cons {A} (f : A -> bool) x l : count_if f (x :: l) = Z.b2z (f x) + count_if f l.
Proof. done. Qed.

Lemma count_if_insert {A} (f : A -> bool) l i x y : l !! i = Some x ->
  count_if f (<[i := y]> l) = count_if f l - Z.b2z (f x) + Z.b2z (f y).
Proof.
  revert i. induction l as [|z l IH]; intros [|i] Hi; cbn in Hi; simplify_eq.
  - change (<[0%nat := y]> (x :: l)) with (y :: l). rewrite !count_if_cons. lia.
  - change (<[S i := y]> (z :: l)) with (z :: <[i := y]> l). rewrite !count_if_cons, (IH i Hi). lia.
Qed.

Lemma count_if_bound {A} (f : A -> bool) l : 0 <= count_if f l <= Z.of_nat (length l).
Proof.
  induction l as [|z l IH]; [done|]. rewrite count_if_cons. cbn [length]. destruct (f z); cbn [Z.b2z]; lia.
Qed.

Lemma count_if_lt {A} (f : A -> bool) l i x : l !! i = Some x -> f x = false -> count_if f l < Z.of_nat (length l).
Proof.
  revert i. induction l as [|z l IH]; intros [|i] Hi Hf; cbn in Hi; simplify_eq; rewrite count_if_cons; cbn [length].
  - pose proof (count_if_bound f l). rewrite Hf. cbn [Z.b2z]. lia.
  - specialize (IH i Hi Hf). destruct (f z); cbn [Z.b2z]; lia.
Qed.

(** Resolves the decisions in the goal that the context settles. *)
Ltac simp_decide :=
  repeat first [rewrite decide_True by done | rewrite decide_False by (done || auto)].

(** ** Choosing from a list *)

(** [p] is the first of the elements of [l] satisfying [P] whose rank [rk] is
    the highest. *)
Definition first_best (P : Z -> Prop) (rk : Z -> Z) (l : list Z) (p : Z) : Prop :=
  P p /\ exists l1 l2, l = l1 ++ p :: l2 /\
    (forall q, q ∈ l1 -> P q -> rk q < rk p) /\ (forall q, q ∈ l2 -> P q -> rk q <= rk p).

Lemma first_best_snoc_skip P rk l p q :
  first_best P rk l p -> (P q -> rk q <= rk p) -> first_best P rk (l ++ [q]) p.
Proof.
  intros (Hp & l1 & l2 & -> & H1 & H2) Hq. split; [done|]. exists l1, (l2 ++ [q]).
  split; [by rewrite <- app_assoc|]. split; [done|].
  intros x Hx HPx. apply elem_of_app in Hx as [Hx|Hx]; [by apply H2|].
  apply list_elem_of_singleton in Hx as ->. auto.
Qed.

Lemma first_best_snoc_new P rk l p q :
  first_best P rk l p -> P q -> rk p < rk q -> first_best P rk (l ++ [q]) q.
Proof.
  intros (Hp & l1 & l2 & -> & H1 & H2) Hq Hlt. split; [done|]. exists (l1 ++ p :: l2), [].
  split; [done|]. split; [|by intros x ?%elem_of_nil].
  intros x Hx HPx. apply elem_of_app in Hx as [Hx|[->|Hx]%elem_of_cons].
  - specialize (H1 x Hx HPx). lia.
  - done.
  - specialize (H2 x Hx HPx). lia.
Qed.

Lemma first_best_snoc_first P rk l q :
  (forall x, x ∈ l -> ~ P x) -> P q -> first_best P rk (l ++ [q]) q.
Proof.
  intros Hn Hq. split; [done|]. exists l, []. split; [done|]. split.
  - intros x Hx HP. by destruct (Hn x Hx).
  - by intros x ?%elem_of_nil.
Qed.

Lemma first_best_elem P rk l p : first_best P rk l p -> p ∈ l.
Proof. intros (_ & l1 & l2 & -> & _). set_solver. Qed.
