(* ===== verification/Mem.v ===== *)
(** Byte-addressed physical memory: the kernel runs with an identity mapping, so
    every pointer of the source is a physical address and every object the
    source reaches through a pointer lives in this map.  Loads and stores are
    little-endian, as on x86. *)

From S2P Require Import Prelude.

Abbreviation mem := (gmap Z Z).

Definition ld8 (m : mem) (a : Z) : Z := u8 (default 0 (m !! a)).
Definition st8 (m : mem) (a v : Z) : mem := <[a := u8 v]> m.

(** [n]-byte little-endian access. *)
Fixpoint ldn (n : nat) (m : mem) (a : Z) : Z :=
  match n with
  | O => 0
  | S n' => ld8 m a + 256 * ldn n' m (a + 1)
  end.

Fixpoint stn (n : nat) (m : mem) (a v : Z) : mem :=
  match n with
  | O => m
  | S n' => stn n' (st8 m a v) (a + 1) (v / 256)
  end.

Definition ld16 := ldn 2.
Definition ld32 := ldn 4.
Definition ld64 := ldn 8.
Definition st16 := stn 2.
Definition st32 := stn 4.
Definition st64 := stn 8.

(** Consecutive bytes from an address. *)
Fixpoint bytes_at (m : mem) (a : Z) (n : nat) : list Z :=
  match n with
  | O => []
  | S n' => ld8 m a :: bytes_at m (a + 1) n'
  end.

(** Two memories agree on the half-open range [[lo, hi)]. *)
Definition agree (lo hi : Z) (m1 m2 : mem) : Prop :=
  forall a, lo <= a < hi -> ld8 m1 a = ld8 m2 a.

(** ** Lemmas *)

Lemma ld8_bound m a : 0 <= ld8 m a < 256.
Proof. apply u8_bound. Qed.
#[export] Hint Resolve ld8_bound : kernel.

Lemma ld8_st8 m a v b : ld8 (st8 m a v) b = if a =? b then u8 v else ld8 m b.
Proof.
  unfold ld8, st8. destruct (Z.eqb_spec a b) as [->|Hne].
  - rewrite lookup_insert_eq. simpl. apply u8_idem.
  - by rewrite lookup_insert_ne.
Qed.

Lemma ld8_st8_eq m a v : ld8 (st8 m a v) a = u8 v.
Proof. by rewrite ld8_st8, Z.eqb_refl. Qed.

Lemma ld8_st8_ne m a v b : a <> b -> ld8 (st8 m a v) b = ld8 m b.
Proof. intros H. rewrite ld8_st8. by apply Z.eqb_neq in H as ->. Qed.
#[export] Hint Rewrite ld8_st8_eq : kernel.
#[export] Hint Rewrite ld8_st8_ne using lia : kernel.

Lemma ld8_stn_ne n m a v b :
  (b < a \/ a + Z.of_nat n <= b) -> ld8 (stn n m a v) b = ld8 m b.
Proof.
  revert m a v. induction n as [|n IH]; intros m a v Hb; simpl; [done|].
  rewrite IH by lia. apply ld8_st8_ne. lia.
Qed.

Lemma ldn_ext n m1 m2 a :
  (forall b, a <= b < a + Z.of_nat n -> ld8 m1 b = ld8 m2 b) -> ldn n m1 a = ldn n m2 a.
Proof.
  revert a. induction n as [|n IH]; intros a H; simpl; [done|].
  rewrite H by lia. f_equal. f_equal. apply IH. intros. apply H. lia.
Qed.

Lemma ldn_shift n m m' a b :
  (forall i, 0 <= i < Z.of_nat n -> ld8 m' (b + i) = ld8 m (a + i)) -> ldn n m' b = ldn n m a.
Proof.
  revert a b. induction n as [|n IH]; intros a b H; cbn [ldn]; [done|].
  pose proof (H 0 ltac:(lia)) as H0. rewrite !Z.add_0_r in H0. rewrite H0. do 2 f_equal. apply IH. intros i Hi.
  replace (b + 1 + i) with (b + (1 + i)) by lia. rewrite H by lia. f_equal. lia.
Qed.

Lemma ldn_stn_ne n k m a v b :
  (b + Z.of_nat k <= a \/ a + Z.of_nat n <= b) -> ldn k (stn n m a v) b = ldn k m b.
Proof. intros H. apply ldn_ext. intros c Hc. apply ld8_stn_ne. lia. Qed.

Lemma ldn_zero n m a : (forall x, a <= x < a + Z.of_nat n -> ld8 m x = 0) -> ldn n m a = 0.
Proof.
  revert a. induction n as [|n IH]; intros a H; cbn [ldn]; [done|].
  rewrite H, IH; [done|intros; apply H; lia|lia].
Qed.

Lemma ldn_bound n m a : 0 <= ldn n m a < 256 ^ Z.of_nat n.
Proof.
  revert a. induction n as [|n IH]; intros a; simpl ldn; [lia|].
  specialize (IH (a + 1)). pose proof (ld8_bound m a).
  rewrite Nat2Z.inj_succ, Z.pow_succ_r by lia. lia.
Qed.

Lemma ldn_stn_eq n m a v : ldn n (stn n m a v) a = v mod 256 ^ Z.of_nat n.
Proof.
  revert m a v. induction n as [|n IH]; intros m a v.
  - simpl. by rewrite Z.mod_1_r.
  - cbn [ldn stn]. rewrite IH, ld8_stn_ne, ld8_st8_eq by lia. unfold u8.
    rewrite Nat2Z.inj_succ, Z.pow_succ_r by lia.
    rewrite Z.rem_mul_r by lia. done.
Qed.

Lemma ld32_st32 m a v : ld32 (st32 m a v) a = u32 v.
Proof. apply (ldn_stn_eq 4). Qed.
Lemma ld64_st64 m a v : ld64 (st64 m a v) a = u64 v.
Proof. apply (ldn_stn_eq 8). Qed.
Lemma ld16_st16 m a v : ld16 (st16 m a v) a = u16 v.
Proof. apply (ldn_stn_eq 2). Qed.
#[export] Hint Rewrite ld16_st16 ld32_st32 ld64_st64 : kernel.

Lemma ld32_bound m a : 0 <= ld32 m a < 4294967296.
Proof. apply (ldn_bound 4). Qed.
Lemma ld64_bound m a : 0 <= ld64 m a < 18446744073709551616.
Proof. apply (ldn_bound 8). Qed.
#[export] Hint Resolve ld32_bound ld64_bound : kernel.

(** Aligned words: a store changes the word it writes and no other. *)
Lemma ld64_st64_word m a v b : a mod 8 = 0 -> b mod 8 = 0 ->
  ld64 (st64 m a v) b = if decide (b = a) then u64 v else ld64 m b.
Proof.
  intros Ha Hb. destruct (decide (b = a)) as [->|Hne]; [apply ld64_st64|].
  apply ldn_stn_ne. zlia.
Qed.

Lemma ld32_st32_word m a v b : a mod 4 = 0 -> b mod 4 = 0 ->
  ld32 (st32 m a v) b = if decide (b = a) then u32 v else ld32 m b.
Proof.
  intros Ha Hb. destruct (decide (b = a)) as [->|Hne]; [apply ld32_st32|].
  apply ldn_stn_ne. zlia.
Qed.

(** An 8-byte load is its two 4-byte halves. *)
Lemma ld64_halves m a : ld64 m a = ld32 m a + 4294967296 * ld32 m (a + 4).
Proof.
  unfold ld64, ld32. cbn [ldn]. replace (a + 1 + 1 + 1 + 1) with (a + 4) by lia.
  lia.
Qed.

Lemma ld32_halves m a : ld32 m a = ld16 m a + 65536 * ld16 m (a + 2).
Proof. unfold ld32, ld16. cbn [ldn]. replace (a + 1 + 1) with (a + 2) by lia. lia. Qed.

(** Two 4-byte stores make an aligned 8-byte word. *)
Lemma ld64_two_st32 m a lo hi b : a mod 8 = 0 -> b mod 8 = 0 ->
  ld64 (st32 (st32 m a lo) (a + 4) hi) b =
    if decide (b = a) then u32 lo + 4294967296 * u32 hi else ld64 m b.
Proof.
  intros Ha Hb. rewrite !ld64_halves. rewrite !ld32_st32_word by zlia.
  destruct (decide (b = a)) as [->|Hne].
  - destruct (decide (a = a + 4)), (decide (a + 4 = a + 4)), (decide (a = a)); lia.
  - destruct (decide (b = a + 4)), (decide (b + 4 = a + 4)), (decide (b + 4 = a)); zlia.
Qed.

Lemma agree_refl lo hi m : agree lo hi m m.
Proof. done. Qed.
Lemma agree_sym lo hi m1 m2 : agree lo hi m1 m2 -> agree lo hi m2 m1.
Proof. intros H a Ha. symmetry. by apply H. Qed.
Lemma agree_trans lo hi m1 m2 m3 :
  agree lo hi m1 m2 -> agree lo hi m2 m3 -> agree lo hi m1 m3.
Proof. intros H1 H2 a Ha. rewrite H1, H2; done. Qed.
Lemma agree_sub lo hi lo' hi' m1 m2 :
  agree lo hi m1 m2 -> lo <= lo' -> hi' <= hi -> agree lo' hi' m1 m2.
Proof. intros H ?? a Ha. apply H. lia. Qed.
Lemma agree_stn lo hi n m a v :
  hi <= a \/ a + Z.of_nat n <= lo -> agree lo hi (stn n m a v) m.
Proof. intros H b Hb. apply ld8_stn_ne. lia. Qed.
Lemma agree_ldn lo hi n m1 m2 a :
  agree lo hi m1 m2 -> lo <= a -> a + Z.of_nat n <= hi -> ldn n m1 a = ldn n m2 a.
Proof. intros H ??. apply ldn_ext. intros. apply H. lia. Qed.
#[export] Hint Resolve agree_refl : kernel.

#[export] Instance agree_equiv lo hi : Equivalence (agree lo hi).
Proof.
  split; red; intros; [apply agree_refl | by apply agree_sym | by eapply agree_trans].
Qed.

Lemma length_bytes_at m a n : length (bytes_at m a n) = n.
Proof. revert a. induction n as [|n IH]; intros a; simpl; [done|]. by rewrite IH. Qed.

Lemma bytes_at_lookup m a n i :
  (i < n)%nat -> bytes_at m a n !! i = Some (ld8 m (a + Z.of_nat i)).
Proof.
  revert a i. induction n as [|n IH]; intros a [|i] Hi; simpl; try lia.
  - do 2 f_equal. lia.
  - rewrite IH by lia. do 2 f_equal. lia.
Qed.

Lemma bytes_at_ext m1 m2 a b n :
  (forall i, 0 <= i < Z.of_nat n -> ld8 m1 (a + i) = ld8 m2 (b + i)) ->
  bytes_at m1 a n = bytes_at m2 b n.
Proof.
  revert a b. induction n as [|n IH]; intros a b H; cbn [bytes_at]; [done|]. f_equal.
  - specialize (H 0 ltac:(lia)). by rewrite !Z.add_0_r in H.
  - apply IH. intros i Hi. specialize (H (i + 1) ltac:(lia)).
    rewrite <- !Z.add_assoc, (Z.add_comm 1). done.
Qed.

Arguments ldn : simpl never.
Arguments stn : simpl never.
