(* ===== verification/BitField.v ===== *)
(** C bit-fields: [lo] and [w] are a field's first bit and width in its storage
    unit.  A store replaces the field and keeps the rest of the unit, a load
    extracts it; descriptors in memory and the values of device registers are
    both made of them. *)

From S2P Require Import Prelude Mem.
#[local] Open Scope kernel_scope.

Definition getf (x lo w : Z) : Z := (x .>> lo) .& Z.ones w.
Definition setf (x lo w v : Z) : Z :=
  (x .& Z.lnot (Z.ones w .<< lo)) .| ((v .& Z.ones w) .<< lo).

(** The field of a byte in memory. *)
Definition ldf (m : mem) (a lo w : Z) : Z := getf (ld8 m a) lo w.
Definition stf (m : mem) (a lo w v : Z) : mem := st8 m a (setf (ld8 m a) lo w v).

(** ** Lemmas *)

Lemma getf_testbit x lo w i : 0 <= lo -> 0 <= w -> 0 <= i ->
  Z.testbit (getf x lo w) i = (Z.testbit x (i + lo) && (i <? w))%bool.
Proof.
  intros. unfold getf. rewrite Z.land_spec, Z.shiftr_spec by lia.
  rewrite Z.testbit_ones by lia. by destruct (Z.leb_spec 0 i); [|lia].
Qed.

Lemma setf_testbit x lo w v i : 0 <= lo -> 0 <= w -> 0 <= i ->
  Z.testbit (setf x lo w v) i =
    if ((lo <=? i) && (i <? lo + w))%bool then Z.testbit v (i - lo) else Z.testbit x i.
Proof.
  intros. unfold setf. rewrite Z.lor_spec, Z.land_spec, Z.lnot_spec by lia.
  rewrite !Z.shiftl_spec by lia. rewrite Z.land_spec.
  destruct (Z.leb_spec lo i).
  - rewrite Z.testbit_ones by lia.
    destruct (Z.leb_spec 0 (i - lo)), (Z.ltb_spec (i - lo) w), (Z.ltb_spec i (lo + w)); cbn; try lia;
      by rewrite ?andb_true_r, ?andb_false_r, ?orb_false_r.
  - rewrite !(Z.testbit_neg_r _ (i - lo)) by lia. cbn. by rewrite andb_true_r, orb_false_r.
Qed.

Lemma getf_bound x lo w : 0 <= w -> 0 <= getf x lo w < 2 ^ w.
Proof. intros. unfold getf. rewrite Z.land_ones by lia. apply Z.mod_pos_bound. lia. Qed.

Lemma getf_setf_eq x lo w v : 0 <= lo -> 0 <= w -> getf (setf x lo w v) lo w = v mod 2 ^ w.
Proof.
  intros. apply Z.bits_inj'. intros i Hi. rewrite getf_testbit, setf_testbit by lia.
  rewrite <- Z.land_ones by lia. rewrite Z.land_spec, Z.testbit_ones by lia.
  destruct (Z.leb_spec lo (i + lo)), (Z.ltb_spec i w), (Z.leb_spec 0 i),
    (Z.ltb_spec (i + lo) (lo + w)); cbn; try lia; rewrite ?andb_false_r; try done.
  by replace (i + lo - lo) with i by lia.
Qed.

Lemma getf_setf_ne x lo w v lo' w' : 0 <= lo -> 0 <= w -> 0 <= lo' -> 0 <= w' ->
  lo + w <= lo' \/ lo' + w' <= lo -> getf (setf x lo w v) lo' w' = getf x lo' w'.
Proof.
  intros. apply Z.bits_inj'. intros i Hi. rewrite !getf_testbit, setf_testbit by lia.
  destruct (Z.ltb_spec i w'); [|by rewrite !andb_false_r].
  destruct (Z.leb_spec lo (i + lo')), (Z.ltb_spec (i + lo') (lo + w)); cbn; try done. lia.
Qed.

Lemma getf_u8 x lo w : 0 <= lo -> 0 <= w -> lo + w <= 8 -> getf (u8 x) lo w = getf x lo w.
Proof.
  intros. apply Z.bits_inj'. intros i Hi. rewrite !getf_testbit by lia.
  destruct (Z.ltb_spec i w); [|by rewrite !andb_false_r]. by rewrite testbit_u8 by lia.
Qed.

Lemma getf_u32 x lo w : 0 <= lo -> 0 <= w -> lo + w <= 32 -> getf (u32 x) lo w = getf x lo w.
Proof.
  intros. apply Z.bits_inj'. intros i Hi. rewrite !getf_testbit by lia.
  destruct (Z.ltb_spec i w); [|by rewrite !andb_false_r].
  unfold u32. change 4294967296 with (2 ^ 32). by rewrite Z.mod_pow2_bits_low by lia.
Qed.

Lemma ldf_stf_eq m a lo w v : 0 <= lo -> 0 <= w -> lo + w <= 8 ->
  ldf (stf m a lo w v) a lo w = v mod 2 ^ w.
Proof. intros. unfold ldf, stf. rewrite ld8_st8_eq, getf_u8 by lia. by apply getf_setf_eq. Qed.

Lemma ldf_stf_ne m a lo w v lo' w' : 0 <= lo -> 0 <= w -> 0 <= lo' -> 0 <= w' ->
  lo' + w' <= 8 -> lo + w <= lo' \/ lo' + w' <= lo ->
  ldf (stf m a lo w v) a lo' w' = ldf m a lo' w'.
Proof. intros. unfold ldf, stf. rewrite ld8_st8_eq, getf_u8 by lia. by apply getf_setf_ne. Qed.

Lemma ld8_stf_ne m a lo w v b : a <> b -> ld8 (stf m a lo w v) b = ld8 m b.
Proof. apply ld8_st8_ne. Qed.

Lemma ldf_stf_other m a lo w v b lo' w' : a <> b ->
  ldf (stf m a lo w v) b lo' w' = ldf m b lo' w'.
Proof. intros. unfold ldf. by rewrite ld8_stf_ne. Qed.

Lemma ldf_stn_ne n m a v b lo w : b < a \/ a + Z.of_nat n <= b ->
  ldf (stn n m a v) b lo w = ldf m b lo w.
Proof. intros. unfold ldf. by rewrite ld8_stn_ne. Qed.

Lemma ldf_st8_ne m a v b lo w : a <> b -> ldf (st8 m a v) b lo w = ldf m b lo w.
Proof. intros. unfold ldf. by rewrite ld8_st8_ne. Qed.

Lemma ldn_stf_ne n m a lo w v b : a < b \/ b + Z.of_nat n <= a ->
  ldn n (stf m a lo w v) b = ldn n m b.
Proof. intros. apply ldn_ext. intros. apply ld8_stf_ne. lia. Qed.

Lemma ldn_st8_ne n m a v b : a < b \/ b + Z.of_nat n <= a -> ldn n (st8 m a v) b = ldn n m b.
Proof. intros. apply ldn_ext. intros. apply ld8_st8_ne. lia. Qed.

(** [fields] reads a field, byte or word through stores at fixed offsets of an
    object. *)
#[export] Hint Rewrite ldf_stf_eq ldf_stf_ne using lia : fields.
#[export] Hint Rewrite ldf_stf_other ldf_st8_ne ld8_stf_ne ld8_st8_ne using lia : fields.
#[export] Hint Rewrite ldf_stn_ne ldn_stn_ne ldn_stf_ne ldn_st8_ne ld8_stn_ne using lia : fields.
#[export] Hint Rewrite ld8_st8_eq ldn_stn_eq : fields.
Ltac fields := unfold st16, st32, st64, ld16, ld32, ld64; autorewrite with fields.
