(* ===== verification/CString.v ===== *)
(** String and memory routines: x64_kenerl/libs/string.c and
    x86_kernel/lib/string.c.  The two files share every routine but [memcmp].
    Loops over a byte count recurse on the count; loops that search for a
    terminator take fuel and return [None] when it runs out, and the theorems
    show that the length of the string plus one is enough. *)

From S2P Require Import Prelude Mem.

(** A [char] is signed on both targets. *)
Definition ldc (m : mem) (a : Z) : Z := s8 (ld8 m a).

(** ** memset, memcpy, memcmp, memchr *)

Fixpoint memset_loop (count : nat) (m : mem) (ptr ch : Z) : mem :=
  match count with
  | O => m
  | S c => memset_loop c (st8 m ptr ch) (ptr + 1) ch
  end.

(** The routines returning [dest] are modelled by the memory they leave. *)
Definition memset (m : mem) (dest ch count : Z) : mem :=
  memset_loop (Z.to_nat (u32 count)) m dest ch.

Fixpoint memcpy_loop (count : nat) (m : mem) (ptr src : Z) : mem :=
  match count with
  | O => m
  | S c => memcpy_loop c (st8 m ptr (ld8 m src)) (ptr + 1) (src + 1)
  end.

Definition memcpy (m : mem) (dest src count : Z) : mem :=
  memcpy_loop (Z.to_nat (u32 count)) m dest src.

Fixpoint memcmp_loop (count : nat) (m : mem) (su1 su2 res : Z) : Z :=
  match count with
  | O => res
  | S c =>
      let res' := ld8 m su1 - ld8 m su2 in
      if negb (res' =? 0) then res' else memcmp_loop c m (su1 + 1) (su2 + 1) res'
  end.

Definition memcmp (m : mem) (cs ct count : Z) : Z :=
  memcmp_loop (Z.to_nat (u32 count)) m cs ct 0.

(** [x86_kernel/lib/string.c] compares before it counts; the loop ends with the
    two pointers on the first difference or [count] bytes further. *)
Fixpoint x86_memcmp_loop (count : nat) (m : mem) (lptr rptr : Z) : Z * Z :=
  if ldc m lptr =? ldc m rptr then
    match count with
    | O => (lptr, rptr)
    | S c => x86_memcmp_loop c m (lptr + 1) (rptr + 1)
    end
  else (lptr, rptr).

Definition x86_memcmp (m : mem) (lhs rhs count : Z) : Z :=
  let '(lptr, rptr) := x86_memcmp_loop (Z.to_nat (u32 count)) m lhs rhs in
  if ldc m lptr <? ldc m rptr then -1
  else if ldc m lptr >? ldc m rptr then 1 else 0.

(** [memchr] has no return statement after its loop: [None] is the
    unspecified value of that path. *)
Fixpoint memchr_loop (count : nat) (m : mem) (ptr ch : Z) : option Z :=
  match count with
  | O => None
  | S c => if ldc m ptr =? ch then Some ptr else memchr_loop c m (ptr + 1) ch
  end.

Definition memchr (m : mem) (str ch count : Z) : option Z :=
  memchr_loop (Z.to_nat (u32 count)) m str ch.

(** ** NUL-terminated strings *)

(** The walk to the terminator of [strlen] and [strcat]. *)
Fixpoint find_eos (fuel : nat) (m : mem) (ptr : Z) : option Z :=
  match fuel with
  | O => None
  | S f => if ldc m ptr =? EOS then Some ptr else find_eos f m (ptr + 1)
  end.

Definition strlen (fuel : nat) (m : mem) (str : Z) : option Z :=
  ptr ← find_eos fuel m str; Some (u32 (ptr - str)).

(** The copy loop of [strcpy] and [strcat]: the byte is stored first and read
    again for the test. *)
Fixpoint copy_loop (fuel : nat) (m : mem) (ptr src : Z) : option mem :=
  match fuel with
  | O => None
  | S f =>
      let m' := st8 m ptr (ld8 m src) in
      if ldc m' src =? EOS then Some m' else copy_loop f m' (ptr + 1) (src + 1)
  end.

Definition strcpy (fuel : nat) (m : mem) (dest src : Z) : option mem :=
  copy_loop fuel m dest src.

Definition strcat (fuel : nat) (m : mem) (dest src : Z) : option mem :=
  ptr ← find_eos fuel m dest; copy_loop fuel m ptr src.

Fixpoint strcmp_loop (fuel : nat) (m : mem) (lhs rhs : Z) : option (Z * Z) :=
  match fuel with
  | O => None
  | S f =>
      if ((ldc m lhs =? ldc m rhs) && negb (ldc m lhs =? EOS) && negb (ldc m rhs =? EOS))%bool
      then strcmp_loop f m (lhs + 1) (rhs + 1)
      else Some (lhs, rhs)
  end.

Definition strcmp (fuel : nat) (m : mem) (lhs rhs : Z) : option Z :=
  '(l, r) ← strcmp_loop fuel m lhs rhs;
  Some (if ldc m l <? ldc m r then -1 else if ldc m l >? ldc m r then 1 else 0).

Fixpoint strchr (fuel : nat) (m : mem) (ptr ch : Z) : option Z :=
  match fuel with
  | O => None
  | S f =>
      if ldc m ptr =? ch then Some ptr
      else if ldc m ptr =? EOS then Some NULL
      else strchr f m (ptr + 1) ch
  end.

Fixpoint strrchr_loop (fuel : nat) (m : mem) (ptr ch last : Z) : option Z :=
  match fuel with
  | O => None
  | S f =>
      let last' := if ldc m ptr =? ch then ptr else last in
      if ldc m ptr =? EOS then Some last' else strrchr_loop f m (ptr + 1) ch last'
  end.

Definition strrchr (fuel : nat) (m : mem) (str ch : Z) : option Z :=
  strrchr_loop fuel m str ch NULL.

(** *** The 32-bit kernel's copy of the rest of the file *)

Definition x86_strcpy := strcpy.
Definition x86_strcat := strcat.
Definition x86_strlen := strlen.
Definition x86_strcmp := strcmp.
Definition x86_strchr := strchr.
Definition x86_strrchr := strrchr.
Definition x86_memset := memset.
Definition x86_memcpy := memcpy.
Definition x86_memchr := memchr.

(** ** Specifications *)

(** A C string: the bytes [s], none of them NUL, then a NUL. *)
Fixpoint cstr (m : mem) (p : Z) (s : list Z) : Prop :=
  match s with
  | [] => ld8 m p = 0
  | c :: s' => ld8 m p = c /\ c <> 0 /\ cstr m (p + 1) s'
  end.

(** Lexicographic comparison by signed character, the shorter string first. *)
Fixpoint str_compare (s1 s2 : list Z) : Z :=
  match s1, s2 with
  | [], [] => 0
  | [], c :: _ => if 0 <? s8 c then -1 else 1
  | c :: _, [] => if s8 c <? 0 then -1 else 1
  | c :: s1', d :: s2' =>
      if s8 c <? s8 d then -1 else if s8 c >? s8 d then 1 else str_compare s1' s2'
  end.

(** ** Lemmas *)

Lemma ldc_eos m a : (ldc m a =? EOS) = (ld8 m a =? 0).
Proof.
  unfold ldc, EOS, s8. pose proof (ld8_bound m a). rewrite u8_small by lia.
  case_if; destruct (Z.eqb_spec (ld8 m a) 0); lia.
Qed.

Lemma s8_inj_bytes a b : 0 <= a < 256 -> 0 <= b < 256 -> s8 a = s8 b -> a = b.
Proof. intros ?? H. rewrite <- (u8_small a), <- (u8_small b), <- (u8_s8 a), H, u8_s8; done. Qed.

Lemma memset_loop_ld8 n m p ch a :
  ld8 (memset_loop n m p ch) a =
    if ((p <=? a) && (a <? p + Z.of_nat n))%bool then u8 ch else ld8 m a.
Proof.
  revert m p. induction n as [|n IH]; intros m p; cbn [memset_loop].
  - destruct (p <=? a) eqn:?, (a <? p + Z.of_nat 0) eqn:?; bool_hyps; simpl; lia || done.
  - rewrite IH, ld8_st8.
    destruct (p + 1 <=? a) eqn:?, (a <? p + 1 + Z.of_nat n) eqn:?,
      (p <=? a) eqn:?, (a <? p + Z.of_nat (S n)) eqn:?, (p =? a) eqn:?;
      bool_hyps; simpl; lia || done.
Qed.

Lemma memset_ld8 m p ch n a :
  ld8 (memset m p ch n) a =
    if ((p <=? a) && (a <? p + u32 n))%bool then u8 ch else ld8 m a.
Proof.
  unfold memset. rewrite memset_loop_ld8, Z2Nat.id; [done|]. apply u32_bound.
Qed.

Lemma memcpy_loop_frame n m d s a :
  (a < d \/ d + Z.of_nat n <= a) -> ld8 (memcpy_loop n m d s) a = ld8 m a.
Proof.
  revert m d s. induction n as [|n IH]; intros m d s H; cbn [memcpy_loop]; [done|].
  rewrite IH by lia. apply ld8_st8_ne. lia.
Qed.

(** Forward copying is right whenever the destination does not start inside
    the source. *)
Lemma memcpy_loop_copies n m d s i :
  (d <= s \/ s + Z.of_nat n <= d) -> 0 <= i < Z.of_nat n ->
  ld8 (memcpy_loop n m d s) (d + i) = ld8 m (s + i).
Proof.
  revert m d s i. induction n as [|n IH]; intros m d s i Hd Hi; cbn [memcpy_loop]; [lia|].
  destruct (decide (i = 0)) as [->|Hne].
  - rewrite memcpy_loop_frame by lia. rewrite Z.add_0_r, ld8_st8_eq, Z.add_0_r.
    apply u8_small, ld8_bound.
  - replace (d + i) with (d + 1 + (i - 1)) by lia. rewrite IH by lia.
    replace (s + 1 + (i - 1)) with (s + i) by lia. apply ld8_st8_ne. lia.
Qed.

Lemma find_eos_cstr fuel m p s :
  cstr m p s -> (length s < fuel)%nat -> find_eos fuel m p = Some (p + Z.of_nat (length s)).
Proof.
  revert p s. induction fuel as [|fuel IH]; intros p s Hs Hf; [lia|].
  cbn [find_eos]. rewrite ldc_eos. destruct s as [|c s]; cbn [cstr length] in *.
  - rewrite Hs. simpl. f_equal. lia.
  - destruct Hs as (Hc & Hne & Hs). rewrite Hc. apply Z.eqb_neq in Hne as ->.
    rewrite (IH _ s Hs) by lia. f_equal. lia.
Qed.

Lemma cstr_agree m1 m2 p s :
  cstr m1 p s -> agree p (p + Z.of_nat (length s) + 1) m2 m1 -> cstr m2 p s.
Proof.
  revert p. induction s as [|c s IH]; intros p; cbn [cstr length]; intros Hs Ha.
  - rewrite Ha by lia. done.
  - destruct Hs as (Hc & Hne & Hs). repeat split; [|done|].
    + rewrite Ha by lia. done.
    + apply IH; [done|]. eapply agree_sub; [apply Ha| |]; lia.
Qed.

Lemma copy_loop_cstr fuel m d p s :
  cstr m p s -> (length s < fuel)%nat ->
  (d + Z.of_nat (length s) < p \/ p + Z.of_nat (length s) < d) ->
  exists m', copy_loop fuel m d p = Some m' /\ cstr m' d s /\
    forall a, a < d \/ d + Z.of_nat (length s) < a -> ld8 m' a = ld8 m a.
Proof.
  revert m d p s. induction fuel as [|fuel IH]; intros m d p s Hs Hf Hd; [lia|].
  cbn [copy_loop]. rewrite ldc_eos.
  destruct s as [|c s]; cbn [cstr length] in *.
  - rewrite Hs. rewrite ld8_st8_ne, Hs by lia. simpl. eexists. split; [done|]. split.
    + by rewrite ld8_st8_eq.
    + intros a Ha. apply ld8_st8_ne. lia.
  - destruct Hs as (Hc & Hne & Hs). rewrite ld8_st8_ne, Hc by lia.
    pose proof Hne as Hne'. apply Z.eqb_neq in Hne' as ->.
    destruct (IH (st8 m d c) (d + 1) (p + 1) s) as (m' & Hm & Hcs & Hfr); [|lia..|].
    { eapply cstr_agree; [done|]. intros a Ha. apply ld8_st8_ne. lia. }
    exists m'. split; [done|]. split; [split; [|split]|].
    + rewrite Hfr by lia. rewrite ld8_st8_eq. apply u8_small.
      rewrite <- Hc. apply ld8_bound.
    + done.
    + done.
    + intros a Ha. rewrite Hfr by lia. apply ld8_st8_ne. lia.
Qed.

Lemma memcmp_loop_zero n m a b :
  memcmp_loop n m a b 0 = 0 <-> bytes_at m a n = bytes_at m b n.
Proof.
  revert a b. induction n as [|n IH]; intros a b; cbn [memcmp_loop bytes_at]; [done|].
  destruct (ld8 m a - ld8 m b =? 0) eqn:E; bool_hyps; simpl.
  - rewrite E, IH. split; [|by intros [=]]. intros ->. f_equal. lia.
  - split; [lia|]. intros [= H _]. lia.
Qed.

Lemma x86_memcmp_loop_fst n m a b :
  exists k, (k <= n)%nat /\ x86_memcmp_loop n m a b = (a + Z.of_nat k, b + Z.of_nat k) /\
    bytes_at m a k = bytes_at m b k /\
    (ldc m (a + Z.of_nat k) = ldc m (b + Z.of_nat k) -> k = n).
Proof.
  revert a b. induction n as [|n IH]; intros a b; cbn [x86_memcmp_loop].
  - exists O. rewrite !Z.add_0_r. split; [lia|]. split; [by case_if|]. done.
  - destruct (ldc m a =? ldc m b) eqn:E; bool_hyps.
    + destruct (IH (a + 1) (b + 1)) as (k & Hk & -> & Hb & He).
      exists (S k). split; [lia|].
      replace (a + Z.of_nat (S k)) with (a + 1 + Z.of_nat k) by lia.
      replace (b + Z.of_nat (S k)) with (b + 1 + Z.of_nat k) by lia.
      split; [done|]. split; [|intros; f_equal; auto].
      cbn [bytes_at]. rewrite Hb. f_equal.
      apply s8_inj_bytes; [apply ld8_bound..|done].
    + exists O. rewrite !Z.add_0_r. split; [lia|]. done.
Qed.

Lemma strcmp_loop_compare fuel m a b s1 s2 :
  cstr m a s1 -> cstr m b s2 -> (length s1 < fuel)%nat ->
  Forall (fun c => 0 <= c < 256) s1 -> Forall (fun c => 0 <= c < 256) s2 ->
  strcmp fuel m a b = Some (str_compare s1 s2).
Proof.
  unfold strcmp. revert a b s1 s2.
  induction fuel as [|fuel IH]; intros a b s1 s2 H1 H2 Hf F1 F2; [lia|].
  cbn [strcmp_loop]. rewrite !ldc_eos.
  destruct s1 as [|c s1], s2 as [|d s2]; cbn [cstr str_compare length] in *.
  - unfold ldc. rewrite H1, H2. change (s8 0 =? s8 0) with true. cbn. by rewrite H1, H2.
  - destruct H2 as (Hd & Hne & H2). unfold ldc. rewrite H1, Hd.
    change (negb (0 =? 0)) with false. rewrite andb_false_r.
    cbn [andb mbind option_bind]. unfold ldc. rewrite H1, Hd.
    assert (s8 d <> 0) by (intros E; apply Hne, s8_inj_bytes; apply Forall_cons in F2 as [? _]; (done || lia)).
    change (s8 0) with 0 in *. repeat case_if; try done; lia.
  - destruct H1 as (Hc & Hne & H1). unfold ldc. rewrite H2, Hc.
    change (negb (0 =? 0)) with false. rewrite andb_false_r.
    cbn [andb mbind option_bind]. unfold ldc. rewrite H2, Hc.
    assert (s8 c <> 0) by (intros E; apply Hne, s8_inj_bytes; apply Forall_cons in F1 as [? _]; (done || lia)).
    change (s8 0) with 0 in *. repeat case_if; try done; lia.
  - destruct H1 as (Hc & Hcn & H1), H2 as (Hd & Hdn & H2).
    apply Forall_cons in F1 as [Hcb F1], F2 as [Hdb F2].
    assert (ldc m a = s8 c) as Ea by (unfold ldc; by rewrite Hc).
    assert (ldc m b = s8 d) as Eb by (unfold ldc; by rewrite Hd).
    rewrite Ea, Eb, Hc, Hd.
    apply Z.eqb_neq in Hcn as ->. apply Z.eqb_neq in Hdn as ->.
    destruct (s8 c =? s8 d) eqn:E; bool_hyps; cbn [andb negb].
    + rewrite (IH _ _ _ _ H1 H2) by (done || lia).
      rewrite E, Z.ltb_irrefl. f_equal. case_if; [lia|done].
    + cbn [mbind option_bind]. rewrite Ea, Eb. repeat case_if; done || lia.
Qed.

Lemma str_compare_eq s1 s2 :
  Forall (fun c => 0 <= c < 256) s1 -> Forall (fun c => 0 <= c < 256) s2 ->
  str_compare s1 s2 = 0 <-> s1 = s2.
Proof.
  intros F1. revert s2. induction F1 as [|c s1 Hc F1 IH]; intros [|d s2] F2;
    cbn [str_compare]; try done.
  - split; [|done]. case_if; lia.
  - split; [|done]. case_if; lia.
  - inv F2. split.
    + repeat case_if; try lia. intros H. f_equal; [|by apply IH].
      apply s8_inj_bytes; [done..|lia].
    + intros [= -> ->]. rewrite Z.ltb_irrefl. case_if; [lia|]. by apply IH.
Qed.

(** ** Theorems *)

(** [memcpy] copies [count] bytes in ascending order: when the
    destination does not start inside the source every destination byte is the
    old source byte, and no other byte changes. *)
Theorem memcpy_correct m dest src count :
  dest <= src \/ src + u32 count <= dest ->
  (forall i, 0 <= i < u32 count -> ld8 (memcpy m dest src count) (dest + i) = ld8 m (src + i)) /\
  (forall a, a < dest \/ dest + u32 count <= a -> ld8 (memcpy m dest src count) a = ld8 m a).
Proof.
  intros Hd. pose proof (u32_bound count). unfold memcpy. split; intros.
  - apply memcpy_loop_copies; rewrite Z2Nat.id; lia.
  - apply memcpy_loop_frame. rewrite Z2Nat.id; lia.
Qed.

Lemma memcpy_correct_witness :
  (2 <= 1 \/ 1 + u32 1 <= 2) /\ ld8 (memcpy {[1 := 7]} 2 1 1) (2 + 0) = 7.
Proof.
  assert (2 <= 1 \/ 1 + u32 1 <= 2) as Hd by (right; vm_compute; done).
  split; [exact Hd|].
  pose proof (proj1 (memcpy_correct {[1 := 7]} 2 1 1 Hd) 0) as H.
  etransitivity; [apply H; split; vm_compute; done|vm_compute; done].
Defined.

(** [strcat] terminates once the fuel covers both strings; it leaves at
    [dest] the concatenation of the two strings and changes nothing outside the
    bytes it appends, provided the source is disjoint from the space appended. *)
Theorem strcat_correct fuel m dest src s1 s2 :
  cstr m dest s1 -> cstr m src s2 ->
  (length s1 + length s2 < fuel)%nat ->
  (dest + Z.of_nat (length s1) + Z.of_nat (length s2) < src \/
   src + Z.of_nat (length s2) < dest + Z.of_nat (length s1)) ->
  exists m', strcat fuel m dest src = Some m' /\ cstr m' dest (s1 ++ s2) /\
    forall a, a < dest + Z.of_nat (length s1) \/
              dest + Z.of_nat (length s1) + Z.of_nat (length s2) < a -> ld8 m' a = ld8 m a.
Proof.
  intros H1 H2 Hf Hd. unfold strcat. rewrite (find_eos_cstr _ _ _ _ H1) by lia.
  cbn [mbind option_bind].
  destruct (copy_loop_cstr fuel m (dest + Z.of_nat (length s1)) src s2 H2) as
    (m' & Hm & Hc & Hfr); [lia..|].
  exists m'. split; [done|]. split; [|done]. clear Hm Hd Hf H2.
  revert dest H1 Hc Hfr. induction s1 as [|c s1 IH]; intros dest H1 Hc Hfr;
    cbn [cstr length app] in *.
  - by rewrite Z.add_0_r in Hc.
  - destruct H1 as (Hcc & Hne & H1). split; [by rewrite Hfr by lia|]. split; [done|].
    apply IH; [done| |].
    + replace (dest + 1 + Z.of_nat (length s1)) with (dest + Z.of_nat (S (length s1))) by lia.
      done.
    + intros a Ha. apply Hfr. lia.
Qed.

Lemma strcat_correct_witness :
  exists m', strcat 3 {[100 := 65; 200 := 66]} 100 200 = Some m' /\ cstr m' 100 [65; 66].
Proof.
  destruct (strcat_correct 3 {[100 := 65; 200 := 66]} 100 200 [65] [66]) as (m' & ? & ? & _).
  - vm_compute; done.
  - vm_compute; done.
  - simpl; lia.
  - left; simpl; lia.
  - by exists m'.
Defined.

(** [strcmp] terminates on two strings and returns their lexicographic
    comparison by signed character; the result is 0 exactly when the strings are
    equal. *)
Theorem strcmp_correct fuel m lhs rhs s1 s2 :
  cstr m lhs s1 -> cstr m rhs s2 -> (length s1 < fuel)%nat ->
  Forall (fun c => 0 <= c < 256) s1 -> Forall (fun c => 0 <= c < 256) s2 ->
  strcmp fuel m lhs rhs = Some (str_compare s1 s2) /\
  (strcmp fuel m lhs rhs = Some 0 <-> s1 = s2).
Proof.
  intros H1 H2 Hf F1 F2. rewrite (strcmp_loop_compare _ _ _ _ _ _ H1 H2) by done.
  split; [done|]. rewrite <- (str_compare_eq s1 s2) by done. split; [by intros [=]|by intros ->].
Qed.

Lemma strcmp_correct_witness :
  strcmp 2 {[100 := 65; 200 := 200]} 100 200 = Some 1.
Proof.
  destruct (strcmp_correct 2 {[100 := 65; 200 := 200]} 100 200 [65] [200]) as [H _];
    [vm_compute; done | vm_compute; done | simpl; lia | repeat constructor; lia .. | ].
  rewrite H. vm_compute. done.
Defined.

(** The [memcmp] of the 32-bit kernel tests the bytes before it tests
    the count, so it compares [count + 1] bytes: it returns 0 exactly when the
    two blocks and the byte after each of them are equal, whereas the 64-bit
    kernel's [memcmp] returns 0 exactly when the [count] bytes are equal. *)
Theorem x86_memcmp_compares_one_more m lhs rhs count :
  (x86_memcmp m lhs rhs count = 0 <->
     bytes_at m lhs (S (Z.to_nat (u32 count))) = bytes_at m rhs (S (Z.to_nat (u32 count)))) /\
  (memcmp m lhs rhs count = 0 <->
     bytes_at m lhs (Z.to_nat (u32 count)) = bytes_at m rhs (Z.to_nat (u32 count))).
Proof.
  split; [|apply memcmp_loop_zero]. unfold x86_memcmp.
  destruct (x86_memcmp_loop_fst (Z.to_nat (u32 count)) m lhs rhs) as (k & Hk & -> & Hb & He).
  set (n := Z.to_nat (u32 count)) in *. split.
  - intros H. assert (ldc m (lhs + Z.of_nat k) = ldc m (rhs + Z.of_nat k)) as E.
    { revert H. case_if; [lia|]. case_if; lia. }
    specialize (He E). subst k. apply list_eq. intros i.
    destruct (decide (i < n)%nat) as [Hi|Hi].
    + apply (f_equal (lookup i)) in Hb. rewrite !bytes_at_lookup in Hb by lia.
      rewrite !bytes_at_lookup by lia. done.
    + destruct (decide (i = n)) as [->|].
      * rewrite !bytes_at_lookup by lia. f_equal. apply s8_inj_bytes; [apply ld8_bound..|done].
      * rewrite !lookup_ge_None_2; rewrite ?length_bytes_at; [done|lia..].
  - intros H. apply (f_equal (lookup k)) in H. rewrite !bytes_at_lookup in H by lia.
    injection H as H. unfold ldc. rewrite H, Z.ltb_irrefl. case_if; [lia|done].
Qed.
