(* ===== verification/Bitmap.v ===== *)
(** The bitmap of x64_kenerl/libs/bitmap.c: a buffer of bytes in memory, a
    length in bytes and the number of its first bit. *)

From S2P Require Import Prelude Mem CString.
#[local] Open Scope kernel_scope.

(** [bitmap_t]: the address of the buffer, its length in bytes, the offset. *)
Record bitmap_t := BitmapT { bits : Z; length_ : Z; offset : Z }.

Definition bitmap_make (bits_ len off : Z) : bitmap_t := BitmapT bits_ (u32 len) (u32 off).

Definition bitmap_init (m : mem) (bits_ len start : Z) : mem * bitmap_t :=
  (memset m bits_ 0 len, bitmap_make bits_ len start).

Definition bitmap_test (m : mem) (map : bitmap_t) (index : Z) : bool :=
  let idx := u32 (u32 index - offset map) in
  let bytes := idx / 8 in
  let bit := u8 (idx mod 8) in
  truthy (ld8 m (bits map + bytes) .& (1 .<< bit)).

Definition bitmap_set (m : mem) (map : bitmap_t) (index : Z) (value : bool) : mem :=
  let idx := u32 (u32 index - offset map) in
  let bytes := idx / 8 in
  let bit := u8 (idx mod 8) in
  let old := ld8 m (bits map + bytes) in
  if value then st8 m (bits map + bytes) (old .| (1 .<< bit))
  else st8 m (bits map + bytes) (old .& Z.lnot (1 .<< bit)).

(** The search loop; [bits_left] counts down to 0, [next_bit] and [counter]
    are [u32].  The result is the bit after the run, or [None]. *)
Fixpoint scan_loop (bits_left : nat) (m : mem) (map : bitmap_t) (next_bit counter count : Z)
  : option Z :=
  match bits_left with
  | O => None
  | S left_ =>
      let counter' :=
        if negb (bitmap_test m map (u32 (offset map + next_bit))) then u32 (counter + 1) else 0 in
      let next' := u32 (next_bit + 1) in
      if counter' =? count then Some next' else scan_loop left_ m map next' counter' count
  end.

(** The marking loop. *)
Fixpoint mark_loop (n : nat) (m : mem) (map : bitmap_t) (next_bit : Z) : mem :=
  match n with
  | O => m
  | S n' =>
      mark_loop n' (bitmap_set m map (u32 (offset map + next_bit)) true) map (u32 (next_bit + 1))
  end.

(** [bits_left = map->length * 8] is a [u32] product and [start] an [int]. *)
Definition bitmap_scan (m : mem) (map : bitmap_t) (count : Z) : Z * mem :=
  match scan_loop (Z.to_nat (u32 (length_ map * 8))) m map 0 0 (u32 count) with
  | None => (EOF, m)
  | Some next_bit =>
      let start := s32 (next_bit - count) in
      if start =? EOF then (EOF, m)
      else (s32 (start + offset map),
            mark_loop (Z.to_nat (u32 count)) m map (u32 start))
  end.

(** ** Specification: the buffer as a sequence of bits *)

Definition nbits (map : bitmap_t) : Z := 8 * length_ map.
Definition bit (m : mem) (map : bitmap_t) (i : Z) : bool :=
  Z.testbit (ld8 m (bits map + i / 8)) (i mod 8).

(** A bitmap whose bit numbers fit a [u32] and whose results fit an [int]. *)
Definition bitmap_wf (map : bitmap_t) : Prop :=
  0 <= length_ map /\ 0 <= offset map /\ nbits map + offset map < 2147483648.

(** [count] clear bits starting at [i]. *)
Definition clear_run (m : mem) (map : bitmap_t) (i count : Z) : Prop :=
  forall j, i <= j < i + count -> bit m map j = false.

(** ** Lemmas *)

Section BitmapLemmas.
Context (map : bitmap_t) (Hwf : bitmap_wf map).

Lemma bitmap_index i :
  0 <= i < nbits map -> u32 (u32 (offset map + i) - offset map) = i.
Proof.
  destruct Hwf as (? & ? & ?). intros Hi. rewrite !u32_small; [lia|lia|].
  rewrite u32_small; lia.
Qed.

Lemma bitmap_test_bit m i :
  0 <= i < nbits map -> bitmap_test m map (offset map + i) = bit m map i.
Proof.
  intros Hi. unfold bitmap_test, bit. rewrite bitmap_index by done.
  rewrite land_bit_testbit by apply u8_bound. f_equal. unfold u8. zlia.
Qed.

Lemma bitmap_set_ld8 m i v a :
  0 <= i < nbits map ->
  ld8 (bitmap_set m map (offset map + i) v) a =
    if a =? bits map + i / 8
    then u8 (if v then ld8 m a .| (1 .<< (i mod 8)) else ld8 m a .& Z.lnot (1 .<< (i mod 8)))
    else ld8 m a.
Proof.
  intros Hi. unfold bitmap_set. rewrite bitmap_index by done.
  replace (u8 (i mod 8)) with (i mod 8) by (unfold u8; zlia).
  destruct v; rewrite ld8_st8, (Z.eqb_sym a); by case_if; subst.
Qed.

Lemma bitmap_set_bit m i v j :
  0 <= i < nbits map -> 0 <= j ->
  bit (bitmap_set m map (offset map + i) v) map j = if j =? i then v else bit m map j.
Proof.
  intros Hi Hj. unfold bit. rewrite bitmap_set_ld8 by done.
  destruct (bits map + j / 8 =? bits map + i / 8) eqn:E; bool_hyps.
  - assert (j mod 8 = i mod 8 <-> j = i) by zlia.
    assert (0 <= j mod 8 < 8) by zlia. assert (0 <= i mod 8) by zlia.
    rewrite testbit_u8 by done. destruct v.
    + rewrite lor_bit_testbit by done.
      destruct (j =? i) eqn:F, (j mod 8 =? i mod 8) eqn:G; bool_hyps;
        rewrite ?orb_true_r, ?orb_false_r; done || lia.
    + rewrite land_lnot_bit_testbit by lia.
      destruct (j =? i) eqn:F, (j mod 8 =? i mod 8) eqn:G; bool_hyps;
        cbn [negb]; rewrite ?andb_true_r, ?andb_false_r; done || lia.
  - case_if; [subst; lia|done].
Qed.

(** Setting a bit touches no byte outside the buffer. *)
Lemma bitmap_set_frame m i v a :
  0 <= i < nbits map -> a < bits map \/ bits map + length_ map <= a ->
  ld8 (bitmap_set m map (offset map + i) v) a = ld8 m a.
Proof.
  intros Hi Ha. rewrite bitmap_set_ld8 by done. unfold nbits in Hi.
  case_if; [|done]. zlia.
Qed.

Lemma mark_loop_bit n m i j :
  0 <= i -> i + Z.of_nat n <= nbits map -> 0 <= j ->
  bit (mark_loop n m map i) map j =
    if ((i <=? j) && (j <? i + Z.of_nat n))%bool then true else bit m map j.
Proof.
  destruct Hwf as (? & ? & ?).
  revert m i. induction n as [|n IH]; intros m i Hi Hn Hj; cbn [mark_loop].
  - destruct (i <=? j) eqn:?, (j <? i + Z.of_nat 0) eqn:?; bool_hyps; done || lia.
  - rewrite !u32_small by lia. rewrite IH, bitmap_set_bit by lia.
    destruct (i + 1 <=? j) eqn:?, (j <? i + 1 + Z.of_nat n) eqn:?,
      (i <=? j) eqn:?, (j <? i + Z.of_nat (S n)) eqn:?, (j =? i) eqn:?;
      bool_hyps; simpl; done || lia.
Qed.

Lemma mark_loop_frame n m i a :
  0 <= i -> i + Z.of_nat n <= nbits map -> a < bits map \/ bits map + length_ map <= a ->
  ld8 (mark_loop n m map i) a = ld8 m a.
Proof.
  destruct Hwf as (? & ? & ?).
  revert m i. induction n as [|n IH]; intros m i Hi Hn Ha; cbn [mark_loop]; [done|].
  rewrite !u32_small by lia. rewrite IH by lia. apply bitmap_set_frame; lia.
Qed.

(** The loop invariant of the search: the last [counter] bits before
    [next_bit] are clear, the bit before them is set (or they start the map), and
    no run of [count] bits ends by [next_bit]. *)
Definition scan_inv (m : mem) (next counter count : Z) : Prop :=
  0 <= counter < count /\ counter <= next /\
  clear_run m map (next - counter) counter /\
  (next - counter = 0 \/ bit m map (next - counter - 1) = true) /\
  (forall i, 0 <= i -> i + count <= next -> ~ clear_run m map i count).

Lemma scan_loop_spec n m next counter count :
  0 < count < 4294967296 -> scan_inv m next counter count ->
  next + Z.of_nat n = nbits map ->
  match scan_loop n m map next counter count with
  | Some e =>
      count <= e <= nbits map /\ clear_run m map (e - count) count /\
      forall i, 0 <= i < e - count -> ~ clear_run m map i count
  | None => forall i, 0 <= i -> i + count <= nbits map -> ~ clear_run m map i count
  end.
Proof.
  intros Hc. destruct Hwf as (? & ? & ?). revert next counter.
  induction n as [|n IH]; intros next counter (Hcnt & Hle & Hrun & Hedge & Hno) Hn;
    cbn [scan_loop].
  - intros i Hi Hic. apply Hno; lia.
  - rewrite (u32_small (offset map + next)), bitmap_test_bit by lia.
    rewrite (u32_small (next + 1)) by lia.
    destruct (bit m map next) eqn:Hbit; cbn [negb].
    + destruct (0 =? count) eqn:E; bool_hyps; [lia|].
      apply IH; [|lia]. split; [lia|]. split; [lia|]. split; [intros j Hj; lia|].
      split; [right; by replace (next + 1 - 0 - 1) with next by lia|].
      intros i Hi Hic Hcl. destruct (decide (i + count <= next)); [by eapply Hno|].
      rewrite Hcl in Hbit by lia. done.
    + rewrite (u32_small (counter + 1)) by lia.
      destruct (counter + 1 =? count) eqn:E; bool_hyps.
      * split; [lia|]. split.
        { intros j Hj. destruct (decide (j = next)) as [->|]; [done|]. apply Hrun. lia. }
        intros i Hi Hcl. destruct (decide (i + count <= next)); [eapply Hno; [..|done]; lia|].
        lia.
      * apply IH; [|lia]. split; [lia|]. split; [lia|].
        replace (next + 1 - (counter + 1)) with (next - counter) by lia.
        split; [|split; [done|]].
        { intros j Hj. destruct (decide (j = next)) as [->|]; [done|]. apply Hrun. lia. }
        intros i Hi Hic Hcl. destruct Hedge as [Hz|Hset]; [lia|].
        destruct (decide (i + count <= next)); [by eapply Hno|].
        rewrite Hcl in Hset by lia. done.
Qed.

End BitmapLemmas.

(** ** Theorems *)

(** [bitmap_init] clears every bit of the map. *)
Lemma bitmap_init_clear m b len start i :
  0 <= len < 4294967296 -> 0 <= i < 8 * len ->
  bit (bitmap_init m b len start).1 (bitmap_init m b len start).2 i = false.
Proof.
  intros Hl Hi. unfold bit, bitmap_init, bitmap_make. cbn [fst snd bits].
  rewrite memset_ld8, u32_small by lia.
  replace ((b <=? b + i / 8) && (b + i / 8 <? b + len))%bool with true by
    (symmetry; apply andb_true_iff; rewrite Z.leb_le, Z.ltb_lt; zlia).
  by rewrite Z.testbit_0_l.
Qed.

(** The set and test operations obey the laws of an array of bits: a bit reads
    back the value last written to it, every other bit of the map and every byte
    outside the buffer keep their value. *)
Theorem bitmap_set_test m map i v :
  bitmap_wf map -> 0 <= i < nbits map ->
  (forall j, 0 <= j < nbits map ->
     bitmap_test (bitmap_set m map (offset map + i) v) map (offset map + j) =
       if j =? i then v else bitmap_test m map (offset map + j)) /\
  (forall a, a < bits map \/ bits map + length_ map <= a ->
     ld8 (bitmap_set m map (offset map + i) v) a = ld8 m a).
Proof.
  intros Hwf Hi. split; intros.
  - rewrite !bitmap_test_bit by done. apply bitmap_set_bit; lia || done.
  - by apply bitmap_set_frame.
Qed.

Lemma bitmap_set_test_witness :
  bitmap_test (bitmap_set ∅ (BitmapT 100 2 5) (5 + 9) true) (BitmapT 100 2 5) (5 + 9) = true.
Proof.
  assert (bitmap_wf (BitmapT 100 2 5)) as Hwf by (repeat split; vm_compute; done).
  destruct (bitmap_set_test ∅ (BitmapT 100 2 5) 9 true Hwf ltac:(split; vm_compute; done)) as [H _].
  exact (H 9 ltac:(split; vm_compute; done)).
Defined.

(** C21: [bitmap_scan] is a first-fit search: either it returns [EOF], leaves the
    memory as it was, and no run of [count] clear bits exists; or it returns the
    number of the first bit of the lowest such run, sets exactly the bits of that
    run and touches no byte outside the buffer. *)
Theorem bitmap_scan_first_fit m map count :
  bitmap_wf map -> 0 < count < 4294967296 ->
  (bitmap_scan m map count = (EOF, m) /\
     forall i, 0 <= i -> i + count <= nbits map -> ~ clear_run m map i count) \/
  (exists i m', bitmap_scan m map count = (offset map + i, m') /\
     0 <= i /\ i + count <= nbits map /\ clear_run m map i count /\
     (forall k, 0 <= k < i -> ~ clear_run m map k count) /\
     (forall j, 0 <= j -> bit m' map j = ((i <=? j) && (j <? i + count) || bit m map j)%bool) /\
     (forall a, a < bits map \/ bits map + length_ map <= a -> ld8 m' a = ld8 m a)).
Proof.
  intros Hwf Hc. pose proof Hwf as (? & ? & ?). unfold nbits in *.
  unfold bitmap_scan. rewrite (u32_small (length_ map * 8)), (u32_small count) by lia.
  pose proof (scan_loop_spec map Hwf (Z.to_nat (length_ map * 8)) m 0 0 count Hc) as Hs.
  destruct (scan_loop _ _ _ _ _ _) as [e|].
  - right. destruct Hs as (He & Hrun & Hno); [|unfold nbits; lia|].
    { split; [lia|]. split; [lia|]. split; [intros j ?; lia|]. split; [by left|]. lia. }
    unfold nbits in He. rewrite (s32_small (e - count)) by lia.
    destruct (e - count =? EOF) eqn:E; bool_hyps; [unfold EOF in E; lia|].
    rewrite s32_small, u32_small by lia.
    exists (e - count), (mark_loop (Z.to_nat count) m map (e - count)).
    split; [f_equal; lia|]. do 2 (split; [lia|]). split; [done|]. split; [done|]. split.
    + intros j Hj. rewrite mark_loop_bit by (done || unfold nbits; lia).
      rewrite Z2Nat.id by lia. by case_if.
    + intros a Ha. apply mark_loop_frame; done || unfold nbits; lia.
  - left. split; [done|]. apply Hs; [|unfold nbits; lia].
    split; [lia|]. split; [lia|]. split; [intros j ?; lia|]. split; [by left|]. lia.
Qed.

Lemma bitmap_scan_first_fit_witness :
  bitmap_wf (BitmapT 100 1 0) /\
  (bitmap_scan {[100 := 5]} (BitmapT 100 1 0) 2).1 = 3.
Proof.
  assert (bitmap_wf (BitmapT 100 1 0)) as Hwf by (repeat split; vm_compute; done).
  split; [done|].
  destruct (bitmap_scan_first_fit {[100 := 5]} (BitmapT 100 1 0) 2 Hwf ltac:(lia))
    as [[H _] | (i & m' & H & _)].
  - vm_compute in H. done.
  - rewrite H. assert (bitmap_scan {[100 := 5]} (BitmapT 100 1 0) 2 = (3, {[100 := 29]})) as E
      by (vm_compute; done).
    rewrite E in H. injection H as H _. done.
Defined.
