(* ===== verification/PageAlloc.v ===== *)
(** The interface between the physical page manager and its clients
    ([kmalloc], [ioremap_nocache]): what [get_free_page] and [free_page]
    promise.  x64_kenerl/kernel/phymm.c implements it (file Phymm). *)

From S2P Require Import Prelude Mem.

Definition PAGE_SIZE : Z := 4096.

(** The two operations over a manager state [S] kept next to the memory. *)
Class PageOps (S : Type) := {
  get_free_page : S -> mem -> Z * S * mem;
  free_page : S -> mem -> Z -> S * mem
}.

(** Their laws.  [pa_free s m p] says the page at [p] may be handed out and
    [pa_page s p] that [p] is one of the pages managed; [pa_foot s a] that byte
    [a] belongs to the manager. *)
Class PageLaws (S : Type) `{PageOps S} := {
  pa_inv : S -> mem -> Prop;
  pa_page : S -> Z -> Prop;
  pa_free : S -> mem -> Z -> Prop;
  pa_foot : S -> Z -> Prop;

  pa_free_page s m p : pa_inv s m -> pa_free s m p -> pa_page s p;
  pa_page_ok s m p : pa_inv s m -> pa_page s p ->
    p mod PAGE_SIZE = 0 /\ 0 < p /\ p + PAGE_SIZE <= 4294967296 /\
    (forall a, p <= a < p + PAGE_SIZE -> ~ pa_foot s a);

  pa_get s m p s' m' : pa_inv s m -> get_free_page s m = (p, s', m') ->
    (p = 0 /\ s' = s /\ m' = m /\ forall q, ~ pa_free s m q) \/
    (pa_free s m p /\ pa_inv s' m' /\
     (forall q, pa_free s' m' q <-> pa_free s m q /\ q <> p) /\
     (forall q, pa_page s' q <-> pa_page s q) /\
     (forall a, pa_foot s' a <-> pa_foot s a) /\
     (forall a, ~ pa_foot s a -> ld8 m' a = ld8 m a));

  pa_put s m p s' m' : pa_inv s m -> pa_page s p -> ~ pa_free s m p ->
    free_page s m p = (s', m') ->
    pa_inv s' m' /\
    (forall q, pa_free s' m' q <-> pa_free s m q \/ q = p) /\
    (forall q, pa_page s' q <-> pa_page s q) /\
    (forall a, pa_foot s' a <-> pa_foot s a) /\
    (forall a, ~ pa_foot s a -> ld8 m' a = ld8 m a);

  (** Nothing outside its own bytes matters to the manager. *)
  pa_frame s m1 m2 : pa_inv s m1 -> (forall a, pa_foot s a -> ld8 m2 a = ld8 m1 a) ->
    pa_inv s m2 /\ forall q, pa_free s m2 q <-> pa_free s m1 q
}.
