(* ===== verification/Phymm.v ===== *)
(** Physical page manager of the 64-bit kernel: x64_kenerl/kernel/phymm.c. *)

From S2P Require Import Prelude Mem CString Bitmap PageAlloc.
#[local] Open Scope kernel_scope.

(** [ards_t]: one entry of the BIOS memory map, five [u32]. *)
Record ards_t := ArdsT {
  baseAddrLow : Z; baseAddrHigh : Z; lengthAddrLow : Z; lengthAddrHigh : Z; ards_type : Z
}.

Definition sizeof_ards : Z := 20.

Definition load_ards (m : mem) (a : Z) : ards_t :=
  ArdsT (ld32 m a) (ld32 m (a + 4)) (ld32 m (a + 8)) (ld32 m (a + 12)) (ld32 m (a + 16)).

(** [mem_ards_info_t] *)
Record mem_ards_info_t := MemArdsInfo { ards_num : Z; ards : Z }.

(** [mm_pages_manager_t] *)
Record mm_pages_manager_t := MmPagesManager {
  pm_start : Z; pm_length : Z; pm_bitsMap : Z; pm_map : bitmap_t
}.

Definition MEN_ARDS_NUM_ADDR : Z := 0x1100.
Definition MEN_ARDS_ADDR : Z := 0x1102.
Definition MEN_BITS_MAP : Z := 0x500.
Definition MEN_KERNEL_START : Z := 0x100000.
Definition MEN_MANAGER_START : Z := 0x300000.

(** [static mm_pages_manager_t g_pm;] before [mm_init]. *)
Definition g_pm_zero : mm_pages_manager_t := MmPagesManager 0 0 0 (BitmapT 0 0 0).

Section MmInit.
(** [x << 32] on a [u32] has no value in C: it is whatever the compiler makes
    of it. *)
Context (shl_u32_32 : Z -> Z).

Definition high_low (high low : Z) : Z := u32 (shl_u32_32 high) .| low.

(** The second loop of [mm_init], from entry [i]; the loop only prints in the
    first one. *)
Fixpoint mm_init_loop (n : nat) (i : Z) (m : mem) (info : mem_ards_info_t)
    (g_pm : mm_pages_manager_t) : mem * mm_pages_manager_t :=
  match n with
  | O => (m, g_pm)
  | S n' =>
      let e := load_ards m (ards info + i * sizeof_ards) in
      if MEN_KERNEL_START =? high_low (baseAddrHigh e) (baseAddrLow e) then
        let len := high_low (lengthAddrHigh e) (lengthAddrLow e) in
        let '(m', map) := bitmap_init m MEN_BITS_MAP (len .>> 12) 0 in
        (m', MmPagesManager MEN_MANAGER_START len MEN_BITS_MAP map)
      else mm_init_loop n' (i + 1) m info g_pm
  end.

Definition mm_init (m : mem) (g_pm : mm_pages_manager_t) : mem * mm_pages_manager_t :=
  let info := MemArdsInfo (ld16 m MEN_ARDS_NUM_ADDR) MEN_ARDS_ADDR in
  mm_init_loop (Z.to_nat (ards_num info)) 0 m info g_pm.
End MmInit.

(** [size_t idx] is a [u32], and so is [idx << 12]. *)
Definition phy_get_free_page (g_pm : mm_pages_manager_t) (m : mem)
  : Z * mm_pages_manager_t * mem :=
  let '(r, m') := bitmap_scan m (pm_map g_pm) 1 in
  let idx := u32 r in
  if idx =? u32 EOF then (NULL, g_pm, m')
  else (u64 (pm_start g_pm + u32 (idx .<< 12)), g_pm, m').

Definition phy_free_page (g_pm : mm_pages_manager_t) (m : mem) (p : Z)
  : mm_pages_manager_t * mem :=
  let idx := u32 (u64 (u64 p - pm_start g_pm) .>> 12) in
  (g_pm, bitmap_set m (pm_map g_pm) idx false).

#[export] Instance phy_ops : PageOps mm_pages_manager_t :=
  {| get_free_page := phy_get_free_page; free_page := phy_free_page |}.

(** ** Specification *)

(** A manager as [mm_init] leaves it, for a memory small enough that every
    page address fits 32 bits and the map ends below the first page. *)
Definition phy_inv (s : mm_pages_manager_t) (m : mem) : Prop :=
  bitmap_wf (pm_map s) /\ offset (pm_map s) = 0 /\ pm_start s = MEN_MANAGER_START /\
  bits (pm_map s) + length_ (pm_map s) <= MEN_MANAGER_START /\
  MEN_MANAGER_START + 4096 * nbits (pm_map s) <= 4294967296.

Definition page_index (s : mm_pages_manager_t) (i p : Z) : Prop :=
  0 <= i < nbits (pm_map s) /\ p = pm_start s + 4096 * i.

Definition phy_page (s : mm_pages_manager_t) (p : Z) : Prop := exists i, page_index s i p.
Definition phy_free (s : mm_pages_manager_t) (m : mem) (p : Z) : Prop :=
  exists i, page_index s i p /\ bit m (pm_map s) i = false.
Definition phy_foot (s : mm_pages_manager_t) (a : Z) : Prop :=
  bits (pm_map s) <= a < bits (pm_map s) + length_ (pm_map s).

(** ** Lemmas *)

Lemma phy_bit_frame s m1 m2 i :
  (forall a, phy_foot s a -> ld8 m2 a = ld8 m1 a) -> 0 <= i < nbits (pm_map s) ->
  bit m2 (pm_map s) i = bit m1 (pm_map s) i.
Proof.
  intros Hf Hi. unfold bit. rewrite Hf; [done|]. unfold phy_foot, nbits in *. zlia.
Qed.

Lemma phy_index_inj s i j p : page_index s i p -> page_index s j p -> i = j.
Proof. unfold page_index. lia. Qed.

Lemma run_one m map i : clear_run m map i 1 <-> bit m map i = false.
Proof.
  unfold clear_run. split; [intros H; apply H; lia|].
  intros H j Hj. by replace j with i by lia.
Qed.

Lemma shl12 i : 0 <= i -> i * 4096 < 4294967296 -> u32 (i .<< 12) = i * 4096.
Proof. intros. rewrite Z.shiftl_mul_pow2 by lia. apply u32_small. lia. Qed.

(** [get_free_page], branch by branch. *)
Lemma phy_get_spec s m :
  phy_inv s m ->
  (phy_get_free_page s m = (NULL, s, m) /\
     forall i, 0 <= i < nbits (pm_map s) -> bit m (pm_map s) i = true) \/
  (exists i m', phy_get_free_page s m = (pm_start s + 4096 * i, s, m') /\
     0 <= i < nbits (pm_map s) /\ bit m (pm_map s) i = false /\
     (forall k, 0 <= k < i -> bit m (pm_map s) k = true) /\
     (forall j, 0 <= j -> bit m' (pm_map s) j = ((j =? i) || bit m (pm_map s) j)%bool) /\
     (forall a, ~ phy_foot s a -> ld8 m' a = ld8 m a)).
Proof.
  intros (Hwf & Ho & Hs & Hb & Hn). unfold phy_get_free_page.
  destruct (bitmap_scan_first_fit m (pm_map s) 1 Hwf ltac:(lia))
    as [[-> Hno] | (i & m' & -> & Hi & Hle & Hrun & Hfirst & Hbits & Hfr)].
  - left. split; [done|]. intros i Hi. apply not_false_iff_true. rewrite <- run_one.
    apply Hno; lia.
  - right. pose proof Hwf as (? & ? & ?). rewrite Ho, Z.add_0_l. rewrite (u32_small i) by lia.
    destruct (i =? u32 EOF) eqn:E; bool_hyps; [unfold EOF in E; change (u32 (-1)) with 4294967295 in E; lia|].
    rewrite shl12 by (unfold MEN_MANAGER_START in *; lia).
    rewrite u64_small by (rewrite Hs; unfold MEN_MANAGER_START in *; lia).
    exists i, m'. split; [do 2 f_equal; lia|]. split; [lia|]. split; [by apply run_one|].
    split; [|split].
    + intros k Hk. apply not_false_iff_true. rewrite <- run_one. by apply Hfirst.
    + intros j Hj. rewrite Hbits by done. f_equal.
      destruct (i <=? j) eqn:?, (j <? i + 1) eqn:?, (j =? i) eqn:?; bool_hyps; done || lia.
    + intros a Ha. apply Hfr. unfold phy_foot in Ha. lia.
Qed.

Lemma phy_free_spec s m p i :
  phy_inv s m -> page_index s i p ->
  exists m', phy_free_page s m p = (s, m') /\
    (forall j, 0 <= j -> bit m' (pm_map s) j = (negb (j =? i) && bit m (pm_map s) j)%bool) /\
    (forall a, ~ phy_foot s a -> ld8 m' a = ld8 m a).
Proof.
  intros (Hwf & Ho & Hs & Hb & Hn) [Hi ->]. unfold phy_free_page.
  rewrite (u64_small (pm_start s + 4096 * i)) by (unfold MEN_MANAGER_START in *; lia).
  replace (pm_start s + 4096 * i - pm_start s) with (i * 4096) by lia.
  rewrite u64_small by (unfold MEN_MANAGER_START in *; lia).
  rewrite Z.shiftr_div_pow2 by lia. change (2 ^ 12) with 4096. rewrite Z.div_mul by lia.
  pose proof Hwf as (? & ? & ?). rewrite u32_small by lia.
  eexists. split; [done|].
  assert (bitmap_set m (pm_map s) i false = bitmap_set m (pm_map s) (offset (pm_map s) + i) false)
    as -> by (f_equal; lia).
  split.
  - intros j Hj. rewrite bitmap_set_bit by done. by case_if.
  - intros a Ha. apply bitmap_set_frame; [done..|]. unfold phy_foot in Ha. lia.
Qed.

(** The page manager keeps the promises of the interface. *)
#[export, refine] Instance phy_laws : PageLaws mm_pages_manager_t := {|
  pa_inv := phy_inv; pa_page := phy_page; pa_free := phy_free; pa_foot := phy_foot
|}.
Proof.
  - intros s m p _ (i & Hi & _). by exists i.
  - intros s m p (Hwf & Ho & Hs & Hb & Hn) (i & Hi & ->). unfold PAGE_SIZE, phy_foot.
    pose proof Hwf as (? & ? & ?). unfold MEN_MANAGER_START in *. rewrite Hs.
    split; [zlia|]. split; [lia|]. split; [lia|]. lia.
  - intros s m p s' m' Hinv Hget. change (phy_get_free_page s m = (p, s', m')) in Hget.
    destruct (phy_get_spec s m Hinv)
      as [[E Hall] | (i & m1 & E & Hi & Hbit & _ & Hbits & Hfr)]; rewrite E in Hget;
      injection Hget as <- <- <-.
    + left. repeat split; [done..|]. intros q (i & [Hi _] & Hb). by rewrite Hall in Hb.
    + right. split; [by exists i|]. split; [done|]. split; [|done].
      intros q. split.
      * intros (j & [Hj ->] & Hb). rewrite Hbits in Hb by lia.
        apply orb_false_iff in Hb as [Hne Hb]. bool_hyps. split; [by exists j|]. lia.
      * intros [(j & [Hj ->] & Hb) Hne]. exists j. split; [done|].
        rewrite Hbits by lia. rewrite Hb, orb_false_r. apply Z.eqb_neq. intros ->. done.
  - intros s m p s' m' Hinv (i & Hi) Hused Hput.
    change (phy_free_page s m p = (s', m')) in Hput.
    destruct (phy_free_spec s m p i Hinv Hi) as (m1 & E & Hbits & Hfr).
    rewrite E in Hput. injection Hput as <- <-. split; [done|]. split; [|done].
    intros q. split.
    + intros (j & Hj & Hb). pose proof Hj as [Hjr ->]. rewrite Hbits in Hb by lia.
      destruct (j =? i) eqn:F; bool_hyps; [right; destruct Hi; lia|].
      left. exists j. by split.
    + intros [(j & Hj & Hb) | ->].
      * pose proof Hj as [Hjr ->]. exists j. split; [done|].
        rewrite Hbits, Hb by lia. apply andb_false_r.
      * exists i. split; [done|]. destruct Hi. rewrite Hbits, Z.eqb_refl by lia. done.
  - intros s m1 m2 Hinv Hf. split; [done|]. intros q.
    split; intros (i & Hi & Hb); exists i; (split; [done|]); destruct Hi.
    + by rewrite <- (phy_bit_frame s m1 m2).
    + by rewrite (phy_bit_frame s m1 m2).
Defined.

Section MmInitLemmas.
Context (shl_u32_32 : Z -> Z) (shl_zero : shl_u32_32 0 = 0).

(** Entry [i] of the memory map that the loader left at [MEN_ARDS_ADDR]. *)
Definition ards_entry (m : mem) (i : Z) : ards_t :=
  load_ards m (MEN_ARDS_ADDR + i * sizeof_ards).

(** Entry [i] is the first one that starts at 1 MiB, and is [len] bytes long,
    [len] below 4 GiB. *)
Definition kernel_region (m : mem) (i len : Z) : Prop :=
  0 <= i < ld16 m MEN_ARDS_NUM_ADDR /\
  baseAddrLow (ards_entry m i) = MEN_KERNEL_START /\ baseAddrHigh (ards_entry m i) = 0 /\
  lengthAddrLow (ards_entry m i) = len /\ lengthAddrHigh (ards_entry m i) = 0 /\
  forall k, 0 <= k < i ->
    high_low shl_u32_32 (baseAddrHigh (ards_entry m k)) (baseAddrLow (ards_entry m k))
      <> MEN_KERNEL_START.

Lemma high_low_zero low : high_low shl_u32_32 0 low = low.
Proof. unfold high_low. rewrite shl_zero. done. Qed.

Lemma mm_init_loop_finds n k m num g i len :
  kernel_region m i len -> 0 <= k <= i -> i < k + Z.of_nat n ->
  mm_init_loop shl_u32_32 n k m (MemArdsInfo num MEN_ARDS_ADDR) g =
    (memset m MEN_BITS_MAP 0 (len .>> 12),
     MmPagesManager MEN_MANAGER_START len MEN_BITS_MAP
       (bitmap_make MEN_BITS_MAP (len .>> 12) 0)).
Proof.
  intros (Hi & Hbl & Hbh & Hll & Hlh & Hk). revert k.
  induction n as [|n IH]; intros k Hki Hn; [lia|]. cbn [mm_init_loop ards].
  fold (ards_entry m k).
  destruct (decide (k = i)) as [->|Hne].
  - rewrite Hbl, Hbh, Hll, Hlh, !high_low_zero, Z.eqb_refl. done.
  - specialize (Hk k ltac:(lia)). rewrite Z.eqb_sym. apply Z.eqb_neq in Hk as ->.
    apply IH; lia.
Qed.

Lemma mm_init_result m g i len :
  kernel_region m i len ->
  mm_init shl_u32_32 m g =
    (memset m MEN_BITS_MAP 0 (len / 4096),
     MmPagesManager MEN_MANAGER_START len MEN_BITS_MAP (BitmapT MEN_BITS_MAP (len / 4096) 0)).
Proof.
  intros Hr. pose proof Hr as (Hi & _ & _ & Hll & _).
  unfold mm_init. cbn [ards_num]. rewrite (mm_init_loop_finds _ _ _ _ _ i len Hr) by lia.
  rewrite Z.shiftr_div_pow2 by lia. change (2 ^ 12) with 4096.
  assert (0 <= len < 4294967296) by (rewrite <- Hll; apply ld32_bound).
  unfold bitmap_make. rewrite u32_small by zlia. done.
Qed.

Lemma mm_init_memory m i len a :
  kernel_region m i len ->
  ld8 (memset m MEN_BITS_MAP 0 (len / 4096)) a =
    if ((MEN_BITS_MAP <=? a) && (a <? MEN_BITS_MAP + len / 4096))%bool then 0 else ld8 m a.
Proof.
  intros (_ & _ & _ & Hll & _). rewrite memset_ld8, u32_small; [done|].
  assert (0 <= len < 4294967296) by (rewrite <- Hll; apply ld32_bound). zlia.
Qed.
End MmInitLemmas.

(** ** Allocation as a state machine *)

(** A client holding a list of pages: it may ask for a page, or give back one it
    holds, and may write anywhere outside the bitmap. *)
Inductive client_step (s : mm_pages_manager_t) : mem * list Z -> mem * list Z -> Prop :=
| client_get m held p m' :
    phy_get_free_page s m = (p, s, m') -> p <> NULL ->
    client_step s (m, held) (m', p :: held)
| client_free m h1 p h2 m' :
    phy_free_page s m p = (s, m') ->
    client_step s (m, h1 ++ p :: h2) (m', h1 ++ h2)
| client_write m held a v :
    ~ phy_foot s a ->
    client_step s (m, held) (st8 m a v, held).

Definition client_inv (s : mm_pages_manager_t) (st : mem * list Z) : Prop :=
  phy_inv s st.1 /\ NoDup st.2 /\
  forall p, p ∈ st.2 <-> phy_page s p /\ ~ phy_free s st.1 p.

Lemma client_step_inv s st st' :
  client_step s st st' -> client_inv s st -> client_inv s st'.
Proof.
  intros Hstep (Hinv & Hnd & Hheld). cbn [fst snd] in *.
  destruct Hstep as [m held p m' Hget Hp | m h1 p h2 m' Hput | m held a v Ha];
    cbn [fst snd] in *.
  - destruct (@pa_get _ _ phy_laws s m p s m' Hinv Hget) as [(-> & _) | (Hf & Hi' & Hfree & _)]; [done|].
    split; [done|]. cbn [fst snd]. split.
    + constructor; [|done]. rewrite Hheld. tauto.
    + intros q. rewrite elem_of_cons, Hheld. change (phy_free s m' q) with (@pa_free _ _ phy_laws s m' q).
      rewrite Hfree. destruct (decide (q = p)) as [->|Hne]; [|naive_solver].
      split; [|naive_solver]. intros _. split; [|naive_solver].
      by eapply (@pa_free_page _ _ phy_laws s m p).
  - assert (p ∈ h1 ++ p :: h2) as Hin by (rewrite elem_of_app, elem_of_cons; auto).
    apply Hheld in Hin as [Hpg Hnf].
    destruct (@pa_put _ _ phy_laws s m p s m' Hinv Hpg Hnf Hput) as (Hi' & Hfree & _).
    split; [done|]. cbn [fst snd].
    rewrite <- Permutation_middle in Hnd. apply NoDup_cons in Hnd as [Hni Hnd]. split; [done|].
    intros q. specialize (Hheld q). change (phy_free s m' q) with (@pa_free _ _ phy_laws s m' q).
    rewrite Hfree. rewrite elem_of_app, elem_of_cons in Hheld. rewrite elem_of_app in *.
    destruct (decide (q = p)) as [->|Hne]; naive_solver.
  - destruct (@pa_frame _ _ phy_laws s m (st8 m a v) Hinv) as [Hi' Hfree].
    { intros b Hb. apply ld8_st8_ne. by intros ->. }
    split; [done|]. split; [done|]. intros q. rewrite Hheld.
    change (phy_free s (st8 m a v) q) with (@pa_free _ _ phy_laws s (st8 m a v) q). by rewrite Hfree.
Qed.

(** ** Theorems *)

(** [get_free_page] returns the lowest free page of the managed range, 4096-byte
    aligned, marks that page and no other, and touches no byte outside the map;
    it returns [NULL], leaving memory as it was, exactly when every page of the
    map is in use. *)
Theorem get_free_page_correct s m :
  phy_inv s m ->
  (phy_get_free_page s m = (NULL, s, m) /\ forall p, phy_page s p -> ~ phy_free s m p) \/
  (exists p m', phy_get_free_page s m = (p, s, m') /\
     phy_free s m p /\ p mod PAGE_SIZE = 0 /\
     (forall q, phy_free s m q -> p <= q) /\
     (forall q, phy_free s m' q <-> phy_free s m q /\ q <> p) /\
     (forall a, ~ phy_foot s a -> ld8 m' a = ld8 m a)).
Proof.
  intros Hinv. destruct (phy_get_spec s m Hinv)
    as [[E Hall] | (i & m' & E & Hi & Hbit & Hlow & _ & Hfr)].
  - left. split; [done|]. intros p _ (i & [Hi _] & Hb). by rewrite Hall in Hb.
  - right. exists (pm_start s + 4096 * i), m'. split; [done|].
    destruct (@pa_get _ _ phy_laws s m _ s m' Hinv E) as [(Hz & _) | (Hf & _ & Hfree & _)].
    { destruct Hinv as (_ & _ & Hs & _). rewrite Hs in Hz.
      unfold MEN_MANAGER_START in Hz. lia. }
    split; [done|]. split; [by eapply (@pa_page_ok _ _ phy_laws s m), (@pa_free_page _ _ phy_laws s m)|].
    split; [|by split].
    intros q (j & [Hj ->] & Hb). destruct (decide (j < i)); [|lia].
    rewrite Hlow in Hb by lia. done.
Qed.

(** C6: Whatever a client does (allocate, free what it holds, write outside the
    map), starting with no page in use, it never holds a page twice, and the
    pages it holds are exactly the managed pages that are not free. *)
Theorem page_allocation_safe s st0 st :
  phy_inv s st0.1 -> st0.2 = [] -> (forall p, phy_page s p -> phy_free s st0.1 p) ->
  rtc (client_step s) st0 st ->
  NoDup st.2 /\ forall p, p ∈ st.2 <-> phy_page s p /\ ~ phy_free s st.1 p.
Proof.
  intros Hi He Hall Hr. assert (client_inv s st0) as Hinv.
  { split; [done|]. rewrite He. split; [constructor|]. intros p. rewrite elem_of_nil.
    naive_solver. }
  clear Hi He Hall. induction Hr as [st|st1 st2 st3 Hstep Hr IH]; [apply Hinv|].
  apply IH. by eapply client_step_inv.
Qed.

(** C38: Started on a memory map whose first entry at 1 MiB is [len] bytes long,
    [mm_init] leaves a manager that satisfies the page manager's invariant, with
    every page free, as long as its page addresses fit 32 bits. *)
Theorem mm_init_correct shl_u32_32 m i len m' s :
  shl_u32_32 0 = 0 -> kernel_region shl_u32_32 m i len -> len <= 0x1ff00000 ->
  mm_init shl_u32_32 m g_pm_zero = (m', s) ->
  phy_inv s m' /\ pm_start s = MEN_MANAGER_START /\ pm_length s = len /\
  forall p, phy_page s p -> phy_free s m' p.
Proof.
  intros Hs Hr Hl. rewrite (mm_init_result _ Hs _ _ _ _ Hr). intros [= <- <-].
  pose proof Hr as (_ & _ & _ & Hll & _).
  assert (0 <= len) by (rewrite <- Hll; apply ld32_bound).
  split; [|split; [done|split; [done|]]].
  - unfold phy_inv, bitmap_wf, nbits, MEN_BITS_MAP, MEN_MANAGER_START.
    cbn [pm_start pm_map bits length_ offset]. repeat split; zlia.
  - intros p (k & Hk & Hp). exists k. split; [done|]. unfold bit.
    rewrite (mm_init_memory _ _ _ _ _ Hr). unfold nbits in Hk.
    cbn [pm_map bits length_ pm_start] in *.
    replace (_ && _)%bool with true; [apply Z.testbit_0_l|].
    symmetry. apply andb_true_iff. rewrite Z.leb_le, Z.ltb_lt. zlia.
Qed.

(** [mm_init] passes the number of pages where [bitmap_init] wants a number of
    bytes.  The map therefore has eight bits per page: it offers pages beyond the
    end of the region, and clearing it wipes every byte from 0x500 on, one per
    page; above 123 MiB that includes the AP boot code at 0x8000. *)
Theorem mm_init_overcommits shl_u32_32 m i len m' s :
  shl_u32_32 0 = 0 -> kernel_region shl_u32_32 m i len -> 8192 <= len ->
  mm_init shl_u32_32 m g_pm_zero = (m', s) ->
  nbits (pm_map s) = 8 * (len / PAGE_SIZE) /\
  (exists p, phy_free s m' p /\ MEN_KERNEL_START + len <= p) /\
  (0x7b01000 <= len -> ld8 m' 0x8000 = 0).
Proof.
  intros Hs Hr Hl. rewrite (mm_init_result _ Hs _ _ _ _ Hr). intros [= <- <-].
  split; [done|]. split.
  - exists (MEN_MANAGER_START + 4096 * (8 * (len / 4096) - 1)). split.
    + exists (8 * (len / 4096) - 1). split; [split|].
      * unfold nbits. cbn [pm_map length_]. zlia.
      * done.
      * unfold bit. rewrite (mm_init_memory _ _ _ _ _ Hr).
        cbn [pm_map bits length_ pm_start] in *.
        replace (_ && _)%bool with true; [apply Z.testbit_0_l|].
        symmetry. apply andb_true_iff. rewrite Z.leb_le, Z.ltb_lt. zlia.
    + unfold MEN_MANAGER_START, MEN_KERNEL_START. zlia.
  - intros Hbig. rewrite (mm_init_memory _ _ _ _ _ Hr).
    replace (_ && _)%bool with true; [done|].
    symmetry. apply andb_true_iff. unfold MEN_BITS_MAP. rewrite Z.leb_le, Z.ltb_lt. zlia.
Qed.

(** A memory map with the usual low entry and 31 MiB at 1 MiB. *)
Definition demo_ards (len : Z) : mem :=
  st16 (st32 (st32 (st32 (st32 ∅ 0x110a 0x9fc00)
    0x1116 0x100000) 0x111e len) 0x1126 1) MEN_ARDS_NUM_ADDR 2.

Lemma demo_ards_region len : len = 0x1f00000 \/ len = 0x7ee0000 ->
  kernel_region (fun x => x) (demo_ards len) 1 len.
Proof.
  intros [-> | ->]; (split; [split; vm_compute; done|]); do 4 (split; [vm_compute; done|]);
    intros k Hk; assert (k = 0) as -> by lia; vm_compute; done.
Qed.

Lemma mm_init_correct_witness :
  phy_free (mm_init (fun x => x) (demo_ards 0x1f00000) g_pm_zero).2
           (mm_init (fun x => x) (demo_ards 0x1f00000) g_pm_zero).1 0x300000.
Proof.
  destruct (mm_init (fun x => x) (demo_ards 0x1f00000) g_pm_zero) as [m' s] eqn:E.
  destruct (mm_init_correct (fun x => x) (demo_ards 0x1f00000) 1 0x1f00000 m' s eq_refl
    (demo_ards_region _ (or_introl eq_refl)) ltac:(lia) E) as (Hi & Hst & _ & Hf).
  apply Hf. exists 0. unfold page_index. rewrite Hst. split; [|done].
  rewrite (mm_init_result (fun x => x) eq_refl _ _ _ _
    (demo_ards_region _ (or_introl eq_refl))) in E.
  apply (f_equal snd) in E. cbn [snd] in E. rewrite <- E. vm_compute. done.
Defined.

Lemma mm_init_overcommits_witness :
  ld8 (mm_init (fun x => x) (demo_ards 0x7ee0000) g_pm_zero).1 0x8000 = 0.
Proof.
  destruct (mm_init (fun x => x) (demo_ards 0x7ee0000) g_pm_zero) as [m' s] eqn:E.
  destruct (mm_init_overcommits (fun x => x) (demo_ards 0x7ee0000) 1 0x7ee0000 m' s eq_refl
    (demo_ards_region _ (or_intror eq_refl)) ltac:(lia) E) as (_ & _ & H).
  apply H. lia.
Defined.

(** A 32-MiB machine: 31 MiB above 0x100000, 7936 pages of 4 KiB. *)
Definition demo_pm : mm_pages_manager_t :=
  MmPagesManager MEN_MANAGER_START 0x1f00000 MEN_BITS_MAP (BitmapT MEN_BITS_MAP 7936 0).

Lemma demo_pm_inv m : phy_inv demo_pm m.
Proof. repeat split; vm_compute; done. Qed.

Lemma get_free_page_correct_witness :
  phy_inv demo_pm {[0x500 := 7]} /\
  phy_get_free_page demo_pm {[0x500 := 7]} = (0x303000, demo_pm, {[0x500 := 15]}).
Proof.
  split; [apply demo_pm_inv|].
  destruct (get_free_page_correct demo_pm {[0x500 := 7]} (demo_pm_inv _))
    as [[E _] | (p & m' & E & _)]; vm_compute in E; [done|]. vm_compute. done.
Defined.

Lemma page_allocation_safe_witness :
  NoDup [0x301000; 0x300000].
Proof.
  assert (forall p, phy_page demo_pm p -> phy_free demo_pm ∅ p) as Hall.
  { intros p (i & Hi & Hp). exists i. split; [done|]. apply Z.testbit_0_l. }
  destruct (page_allocation_safe demo_pm (∅, []) ({[0x500 := 3]}, [0x301000; 0x300000])
    (demo_pm_inv ∅) eq_refl Hall) as [H _]; [|exact H].
  eapply rtc_l; [eapply (client_get _ _ _ 0x300000 {[0x500 := 1]}); vm_compute; done|].
  eapply rtc_once. eapply client_get; vm_compute; done.
Defined.
