(* ===== verification/X86Memory.v ===== *)
(** Physical page manager of the 32-bit kernel: x86_kernel/kernel/memory.c, one
    byte of the map at 0x9000 a page, and a count of the pages in use. *)

From S2P Require Import Prelude Mem CString PageAlloc Phymm.
#[local] Open Scope kernel_scope.

(** ** Data *)

Record x86_pages_manager_t := X86PagesManager {
  phy_base : Z;
  phy_pages : Z;
  phy_pages_used : Z;
  phy_map_size : Z;
  phy_map : Z
}.

Definition MEM_VALID : Z := 1.
Definition MEM_MANAGER_ADDR : Z := 0x100000.
Definition MEM_MANAGER_MAP_ADD : Z := 0x00.

Definition g_mm_manager_zero : x86_pages_manager_t := X86PagesManager 0 0 0 0 0.

(** ** Operations *)

(** The search of [get_free_page], from byte [i] of the map. *)
Fixpoint find_clear (n : nat) (i : Z) (m : mem) (map : Z) : option Z :=
  match n with
  | O => None
  | S n' => if ld8 m (map + i) =? 0 then Some i else find_clear n' (i + 1) m map
  end.

Definition x86_get_free_page (s : x86_pages_manager_t) (m : mem) : Z * x86_pages_manager_t * mem :=
  match find_clear (Z.to_nat (phy_map_size s)) 0 m (phy_map s) with
  | None => (NULL, s, m)
  | Some i =>
      (u32 (phy_base s + u32 (i * PAGE_SIZE)),
       X86PagesManager (phy_base s) (phy_pages s) (u32 (phy_pages_used s + 1)) (phy_map_size s) (phy_map s),
       st8 m (phy_map s + i) 1)
  end.

(** [free_page] past its assertion *)
Definition x86_free_page (s : x86_pages_manager_t) (m : mem) (ptr : Z) : x86_pages_manager_t * mem :=
  let idx := u32 (ptr - phy_base s) .>> 12 in
  (X86PagesManager (phy_base s) (phy_pages s) (u32 (phy_pages_used s - 1)) (phy_map_size s) (phy_map s),
   st8 m (phy_map s + idx) 0).

Definition x86_free_page_asserted (s : x86_pages_manager_t) (m : mem) (ptr : Z)
  : outcome (x86_pages_manager_t * mem) :=
  if ptr =? NULL then Stuck AssertFailed else Done (x86_free_page s m ptr).

#[export] Instance x86_phy_ops : PageOps x86_pages_manager_t :=
  {| get_free_page := x86_get_free_page; free_page := x86_free_page |}.

Definition mm_manager_init (s : x86_pages_manager_t) (m : mem) : x86_pages_manager_t * mem :=
  let s := X86PagesManager (phy_base s) (phy_pages s) (phy_pages_used s) (phy_map_size s) 0x9000 in
  (s, memset m (phy_map s) 0 (phy_map_size s)).

(** The loop of [mm_init] over the memory map, from entry [i]; it goes through
    all of it, so the last entry that matches counts. *)
Fixpoint ards_loop (n : nat) (i : Z) (m : mem) (s : x86_pages_manager_t) : x86_pages_manager_t :=
  match n with
  | O => s
  | S n' =>
      let e := load_ards m (MEN_ARDS_ADDR + i * sizeof_ards) in
      let s :=
        if (baseAddrLow e =? MEM_MANAGER_ADDR) && (ards_type e =? MEM_VALID) then
          let pages := lengthAddrLow e / PAGE_SIZE in
          X86PagesManager MEM_MANAGER_ADDR pages 0 pages (phy_map s)
        else s in
      let s :=
        if (baseAddrLow e =? MEM_MANAGER_MAP_ADD) && (ards_type e =? MEM_VALID) then
          X86PagesManager (phy_base s) (phy_pages s) (phy_pages_used s) (phy_map_size s) MEM_MANAGER_MAP_ADD
        else s in
      ards_loop n' (i + 1) m s
  end.

(** The result is [mm_init]'s and the state. *)
Definition x86_mm_init (s : x86_pages_manager_t) (m : mem) : Z * x86_pages_manager_t * mem :=
  let s := ards_loop (Z.to_nat (ld16 m MEN_ARDS_NUM_ADDR)) 0 m s in
  if negb (phy_base s =? MEM_MANAGER_ADDR) || negb (phy_map s =? MEM_MANAGER_MAP_ADD) then (-1, s, m)
  else let '(s, m) := mm_manager_init s m in (0, s, m).

(** ** Specification *)

(** A manager as [mm_init] leaves it, with its map below the first page. *)
Definition x86_phy_inv (s : x86_pages_manager_t) : Prop :=
  phy_base s = MEM_MANAGER_ADDR /\ phy_map s = 0x9000 /\ 0 <= phy_map_size s /\
  0x9000 + phy_map_size s <= MEM_MANAGER_ADDR /\
  MEM_MANAGER_ADDR + 4096 * phy_map_size s <= 4294967296.

Definition x86_page_index (s : x86_pages_manager_t) (i p : Z) : Prop :=
  0 <= i < phy_map_size s /\ p = MEM_MANAGER_ADDR + 4096 * i.
Definition x86_phy_page (s : x86_pages_manager_t) (p : Z) : Prop := exists i, x86_page_index s i p.
Definition x86_phy_free (s : x86_pages_manager_t) (m : mem) (p : Z) : Prop :=
  exists i, x86_page_index s i p /\ ld8 m (phy_map s + i) = 0.
Definition x86_phy_foot (s : x86_pages_manager_t) (a : Z) : Prop :=
  phy_map s <= a < phy_map s + phy_map_size s.

(** ** Lemmas *)

Lemma find_clear_spec n i m map :
  (find_clear n i m map = None /\ forall j, i <= j < i + Z.of_nat n -> ld8 m (map + j) <> 0) \/
  (exists j, find_clear n i m map = Some j /\ i <= j < i + Z.of_nat n /\ ld8 m (map + j) = 0 /\
     forall k, i <= k < j -> ld8 m (map + k) <> 0).
Proof.
  revert i. induction n as [|n IH]; intros i; cbn [find_clear]; [left; split; [done|lia]|].
  destruct (ld8 m (map + i) =? 0) eqn:E; bool_hyps.
  - right. exists i. repeat split; try done; lia.
  - destruct (IH (i + 1)) as [[-> Hn]|(j & -> & Hj & Hz & Hk)]; [left|right].
    + split; [done|]. intros j Hj. destruct (decide (j = i)) as [->|]; [done|]. apply Hn. lia.
    + exists j. split; [done|]. split; [lia|]. split; [done|]. intros k Hki.
      destruct (decide (k = i)) as [->|]; [done|]. apply Hk. lia.
Qed.

(** [get_free_page], branch by branch. *)
Lemma x86_get_spec s m : x86_phy_inv s ->
  (x86_get_free_page s m = (NULL, s, m) /\ forall p, ~ x86_phy_free s m p) \/
  (exists i, 0 <= i < phy_map_size s /\ ld8 m (phy_map s + i) = 0 /\
     (forall k, 0 <= k < i -> ld8 m (phy_map s + k) <> 0) /\
     x86_get_free_page s m =
       (MEM_MANAGER_ADDR + 4096 * i,
        X86PagesManager (phy_base s) (phy_pages s) (u32 (phy_pages_used s + 1)) (phy_map_size s) (phy_map s),
        st8 m (phy_map s + i) 1)).
Proof.
  intros (Hb & Hm & Hn & Hmap & Hp). unfold x86_get_free_page.
  destruct (find_clear_spec (Z.to_nat (phy_map_size s)) 0 m (phy_map s))
    as [[-> Hno]|(i & -> & Hi & Hz & Hk)]; [left|right].
  - split; [done|]. intros p (i & [Hi _] & Hz). apply (Hno i); [lia|done].
  - exists i. split; [lia|]. split; [done|]. split; [done|]. rewrite Hb. do 2 f_equal.
    unfold MEM_MANAGER_ADDR, PAGE_SIZE in *. rewrite (u32_small (i * 4096)), u32_small; lia.
Qed.

Lemma x86_free_spec s m p i : x86_phy_inv s -> x86_page_index s i p ->
  x86_free_page s m p =
    (X86PagesManager (phy_base s) (phy_pages s) (u32 (phy_pages_used s - 1)) (phy_map_size s) (phy_map s),
     st8 m (phy_map s + i) 0).
Proof.
  intros (Hb & Hm & Hn & Hmap & Hp) [Hi ->]. unfold x86_free_page. rewrite Hb, Z.add_simpl_l.
  unfold MEM_MANAGER_ADDR in *. rewrite (u32_small (4096 * i)), Z.shiftr_div_pow2 by lia.
  replace (4096 * i / 2 ^ 12) with i by zlia. done.
Qed.

(** The interface of PageAlloc *)
#[export, refine] Instance x86_phy_laws : PageLaws x86_pages_manager_t :=
  {| pa_inv s _ := x86_phy_inv s; pa_page := x86_phy_page; pa_free := x86_phy_free;
     pa_foot := x86_phy_foot |}.
Proof.
  - intros s m p _ (i & Hi & _). by exists i.
  - intros s m p (Hb & Hm & Hn & Hmap & Hp) (i & Hi & ->). unfold PAGE_SIZE, MEM_MANAGER_ADDR, x86_phy_foot in *.
    rewrite Hm. split; [zlia|]. split; [lia|]. split; [lia|]. lia.
  - intros s m p s' m' Hi E. change (x86_get_free_page s m = (p, s', m')) in E.
    destruct (x86_get_spec s m Hi) as [[E' Hno]|(i & Hr & Hz & _ & E')]; rewrite E' in E; simplify_eq.
    + left. done.
    + right. split; [by exists i|]. split; [done|]. split; [|split; [done|split; [done|]]].
      * intros q. unfold x86_phy_free, x86_page_index. cbn [phy_map phy_map_size]. split.
        -- intros (j & [Hj ->] & Hzj). rewrite ld8_st8 in Hzj.
           destruct (phy_map s + i =? phy_map s + j) eqn:Ej; bool_hyps; [done|].
           split; [by exists j|]. lia.
        -- intros [(j & [Hj ->] & Hzj) Hne]. exists j. split; [done|]. rewrite ld8_st8_ne; [done|lia].
      * intros a Ha. apply ld8_st8_ne. unfold x86_phy_foot in Ha. lia.
  - intros s m p s' m' Hi (i & Hpi) _ E. change (x86_free_page s m p = (s', m')) in E.
    rewrite (x86_free_spec s m p i Hi Hpi) in E. simplify_eq. split; [done|].
    split; [|split; [done|split; [done|]]].
    + intros q. unfold x86_phy_free, x86_page_index. cbn [phy_map phy_map_size]. split.
      * intros (j & [Hj ->] & Hzj). destruct (decide (j = i)) as [->|Hne].
        { right. by destruct Hpi as [_ ->]. }
        left. exists j. split; [done|]. by rewrite ld8_st8_ne in Hzj by lia.
      * intros [(j & [Hj ->] & Hzj)| ->].
        -- exists j. split; [done|]. rewrite ld8_st8. by destruct (_ =? _).
        -- exists i. split; [done|]. by rewrite ld8_st8_eq.
    + intros a Ha. apply ld8_st8_ne. destruct Hpi. unfold x86_phy_foot in Ha. lia.
  - intros s m1 m2 Hi Hf. split; [done|]. intros q.
    split; intros (i & Hpi & Hz); exists i; (split; [done|]); destruct Hpi.
    + rewrite <- Hf; [done|]. unfold x86_phy_foot. lia.
    + rewrite Hf; [done|]. unfold x86_phy_foot. lia.
Defined.

(** ** Clients *)

(** A client holding pages asks for one, gives back one it holds, or writes
    outside the map. *)
Inductive x86_client_step :
    x86_pages_manager_t * mem * list Z -> x86_pages_manager_t * mem * list Z -> Prop :=
| x86_client_get s m held p s' m' :
    x86_get_free_page s m = (p, s', m') -> p <> NULL ->
    x86_client_step (s, m, held) (s', m', p :: held)
| x86_client_free s m h1 p h2 s' m' :
    x86_free_page_asserted s m p = Done (s', m') ->
    x86_client_step (s, m, h1 ++ p :: h2) (s', m', h1 ++ h2)
| x86_client_write s m held a v :
    ~ x86_phy_foot s a -> x86_client_step (s, m, held) (s, st8 m a v, held).

Definition x86_client_inv (st : x86_pages_manager_t * mem * list Z) : Prop :=
  let '(s, m, held) := st in
  x86_phy_inv s /\ NoDup held /\ (forall p, p ∈ held <-> x86_phy_page s p /\ ~ x86_phy_free s m p) /\
  phy_pages_used s = Z.of_nat (length held).

(** No more pages are held than there are. *)
Lemma held_bound s held : x86_phy_inv s -> NoDup held -> (forall p, p ∈ held -> x86_phy_page s p) ->
  Z.of_nat (length held) <= phy_map_size s.
Proof.
  intros (_ & _ & Hn & _) Hnd Hh.
  assert (length held <= length ((fun i => MEM_MANAGER_ADDR + 4096 * i)%Z <$> seqZ 0 (phy_map_size s)))%nat as Hl.
  { apply submseteq_length, NoDup_submseteq; [done|]. intros p Hp.
    destruct (Hh p Hp) as (i & Hi & ->). apply list_elem_of_fmap. exists i. split; [done|].
    apply elem_of_seqZ. lia. }
  rewrite length_fmap, length_seqZ in Hl. lia.
Qed.

Lemma x86_client_step_inv st st' : x86_client_step st st' -> x86_client_inv st -> x86_client_inv st'.
Proof.
  intros Hstep Hinv. destruct Hstep as [s m held p s' m' E Hp|s m h1 p h2 s' m' E|s m held a v Ha];
    destruct Hinv as (Hi & Hnd & Hh & Hu).
  - pose proof (held_bound s held Hi Hnd (fun q Hq => proj1 (proj1 (Hh q) Hq))) as Hb.
    destruct (@pa_get _ _ x86_phy_laws s m p s' m' Hi E) as [(-> & _)|(Hf & Hi' & Hfree & Hpg & _)]; [done|].
    destruct (x86_get_spec s m Hi) as [[E' _]|(i & _ & _ & _ & E')]; rewrite E' in E; simplify_eq.
    split; [done|]. split; [|split].
    + constructor; [|done]. rewrite Hh. tauto.
    + intros q. rewrite elem_of_cons, Hh.
      change (x86_phy_page s q) with (@pa_page _ _ x86_phy_laws s q). rewrite <- Hpg.
      change (x86_phy_free ?x ?y q) with (@pa_free _ _ x86_phy_laws x y q). rewrite Hfree.
      destruct (decide (q = MEM_MANAGER_ADDR + 4096 * i)) as [->|]; [|naive_solver].
      split; [|naive_solver]. intros _. split; [|naive_solver]. apply Hpg.
      by eapply (@pa_free_page _ _ x86_phy_laws s m).
    + cbn [phy_pages_used length]. rewrite Hu.
      destruct Hi as (_ & _ & _ & ? & _). rewrite u32_small; unfold MEM_MANAGER_ADDR in *; lia.
  - unfold x86_free_page_asserted in E. destruct (p =? NULL); [done|].
    assert (x86_free_page s m p = (s', m')) as E1 by congruence. clear E. rename E1 into E.
    assert (p ∈ h1 ++ p :: h2) as Hin by (rewrite elem_of_app, elem_of_cons; auto).
    apply Hh in Hin as [Hpg Hnf].
    destruct (@pa_put _ _ x86_phy_laws s m p s' m' Hi Hpg Hnf E) as (Hi' & Hfree & Hpage & _).
    pose proof Hpg as (i & Hpi). rewrite (x86_free_spec s m p i Hi Hpi) in E. simplify_eq.
    pose proof (held_bound s _ Hi Hnd (fun q Hq => proj1 (proj1 (Hh q) Hq))) as Hb.
    rewrite length_app in Hu, Hb. cbn [length] in Hu, Hb.
    rewrite <- Permutation_middle in Hnd. apply NoDup_cons in Hnd as [Hni Hnd].
    split; [done|]. split; [done|]. split.
    + intros q. specialize (Hh q).
      change (x86_phy_page ?x q) with (@pa_page _ _ x86_phy_laws x q) in *. rewrite Hpage.
      change (x86_phy_free ?x ?y q) with (@pa_free _ _ x86_phy_laws x y q) in *. rewrite Hfree.
      rewrite elem_of_app, elem_of_cons in Hh. rewrite elem_of_app in *.
      destruct (decide (q = p)) as [->|Hne]; naive_solver.
    + cbn [phy_pages_used]. rewrite length_app, Hu. destruct Hi as (_ & _ & _ & ? & _).
      rewrite u32_small; unfold MEM_MANAGER_ADDR in *; lia.
  - destruct (@pa_frame _ _ x86_phy_laws s m (st8 m a v) Hi) as [_ Hfree].
    { intros b Hb. apply ld8_st8_ne. by intros ->. }
    split; [done|]. split; [done|]. split; [|done]. intros q. rewrite Hh.
    change (x86_phy_free ?x ?y q) with (@pa_free _ _ x86_phy_laws x y q). by rewrite Hfree.
Qed.

Lemma ards_loop_spec n i m s : phy_map s = 0 -> phy_pages_used s = 0 -> 0 <= phy_map_size s ->
  let s' := ards_loop n i m s in phy_map s' = 0 /\ phy_pages_used s' = 0 /\ 0 <= phy_map_size s'.
Proof.
  revert i s. induction n as [|n IH]; intros i s H1 H2 H3; [done|]. cbn [ards_loop].
  apply IH; destruct (_ && _), (_ && _); cbn; try done; unfold load_ards; cbn;
    apply Z.div_pos; try (unfold PAGE_SIZE; lia); apply ld32_bound.
Qed.

(** C35: Once [mm_init] has succeeded, over a memory small enough for the map to end
    below the first page, no client ever holds a page twice, the pages it holds
    are the managed ones that are not free, and [phy_pages_used] counts them. *)
Theorem x86_pages_counted m0 s0 m s' m' held :
  x86_mm_init g_mm_manager_zero m0 = (0, s0, m) -> phy_map_size s0 <= 0xF7000 ->
  rtc x86_client_step (s0, m, []) (s', m', held) ->
  NoDup held /\ (forall p, p ∈ held <-> x86_phy_page s' p /\ ~ x86_phy_free s' m' p) /\
  phy_pages_used s' = Z.of_nat (length held).
Proof.
  intros E Hsz Hr. assert (x86_client_inv (s0, m, [])) as Hinv.
  { unfold x86_mm_init in E. set (s1 := ards_loop _ _ _ _) in E.
    destruct (ards_loop_spec (Z.to_nat (ld16 m0 MEN_ARDS_NUM_ADDR)) 0 m0 g_mm_manager_zero) as (H1 & H2 & H3);
      [done..|]. fold s1 in H1, H2, H3. clearbody s1. destruct (phy_base s1 =? MEM_MANAGER_ADDR) eqn:Eb; [|done].
    rewrite H1 in E. cbn in E. injection E as <- <-. cbn [phy_map_size] in Hsz. bool_hyps.
    assert (x86_phy_inv (X86PagesManager (phy_base s1) (phy_pages s1) (phy_pages_used s1) (phy_map_size s1) 0x9000))
      as Hi by (repeat split; cbn; unfold MEM_MANAGER_ADDR in *; lia).
    split; [done|]. split; [constructor|]. split; [|done]. intros p. rewrite elem_of_nil. split; [done|].
    intros [(i & Hpi) Hnf]. apply Hnf. exists i. split; [done|]. destruct Hpi as [Hpi _].
    cbn [phy_map phy_map_size] in *. rewrite memset_ld8, u32_small by lia.
    destruct (0x9000 <=? 0x9000 + i) eqn:?, (0x9000 + i <? 0x9000 + phy_map_size s1) eqn:?; bool_hyps; done || lia. }
  revert Hinv. generalize dependent (s0, m, @nil Z). intros st Hr Hinv. 
  assert (x86_client_inv (s', m', held)) as (_ & ? & ? & ?); [|done].
  clear - Hr Hinv. induction Hr; [done|]. eauto using x86_client_step_inv.
Qed.

(** Three pages of memory, of which a client takes one. *)
Definition small_ards : mem :=
  st32 (st32 (st32 (st16 ∅ MEN_ARDS_NUM_ADDR 1) MEN_ARDS_ADDR MEM_MANAGER_ADDR) (MEN_ARDS_ADDR + 8) 0x3000)
    (MEN_ARDS_ADDR + 16) MEM_VALID.
Definition small_mm : x86_pages_manager_t * mem :=
  let '(_, s, m) := x86_mm_init g_mm_manager_zero small_ards in (s, m).

Lemma x86_pages_counted_witness :
  let '(p, s, m) := x86_get_free_page (fst small_mm) (snd small_mm) in
  p = 0x100000 /\ phy_pages_used s = Z.of_nat (length [p]).
Proof.
  destruct (x86_get_free_page (fst small_mm) (snd small_mm)) as [[p s] m] eqn:E.
  assert (p = 0x100000) as Hp by (vm_compute in E; congruence).
  split; [exact Hp|].
  destruct (x86_pages_counted small_ards (fst small_mm) (snd small_mm) s m [p]) as (_ & _ & Hu).
  - vm_compute. reflexivity.
  - vm_compute. discriminate.
  - apply rtc_once. apply (x86_client_get _ _ [] p s m E). rewrite Hp. vm_compute. discriminate.
  - exact Hu.
Defined.
