(* ===== verification/Paging.v ===== *)
(** Page tables.  The walks of the memory unit, as the processor manuals
    describe them, are the specification; the tables the kernel builds at start
    are those of x86_kernel/init/main.c (four levels, for the 64-bit kernel) and
    x86_kernel/kernel/vm101012.c (two levels, for the 32-bit one). *)

From S2P Require Import Prelude Mem CString PageAlloc X86Memory.
#[local] Open Scope kernel_scope.

(** ** Address translation *)

(** The frame field of an entry, for frames of [size] bytes. *)
Definition frame (size e : Z) : Z := e mod 2 ^ 52 / size * size.

(** The slot of an address in the table at [tbl] of the level that maps
    [2 ^ shift] bytes an entry. *)
Definition slot (tbl shift va : Z) : Z := tbl + 8 * (va / 2 ^ shift mod 512).

(** Four-level walk; bit 0 is "present", bit 7 "this entry maps a large page". *)
Definition walk4 (m : mem) (cr3 va : Z) : option Z :=
  let e4 := ld64 m (slot cr3 39 va) in
  if negb (Z.odd e4) then None
  else
    let e3 := ld64 m (slot (frame 4096 e4) 30 va) in
    if negb (Z.odd e3) then None
    else if Z.testbit e3 7 then Some (frame (2 ^ 30) e3 + va mod 2 ^ 30)
    else
      let e2 := ld64 m (slot (frame 4096 e3) 21 va) in
      if negb (Z.odd e2) then None
      else if Z.testbit e2 7 then Some (frame (2 ^ 21) e2 + va mod 2 ^ 21)
      else
        let e1 := ld64 m (slot (frame 4096 e2) 12 va) in
        if negb (Z.odd e1) then None else Some (frame 4096 e1 + va mod 4096).

(** Two-level walk of 4-byte entries, without large pages. *)
Definition walk2 (m : mem) (cr3 va : Z) : option Z :=
  let pde := ld32 m (cr3 + 4 * (va / 2 ^ 22)) in
  if negb (Z.odd pde) then None
  else
    let pte := ld32 m (frame 4096 pde + 4 * (va / 2 ^ 12 mod 1024)) in
    if negb (Z.odd pte) then None else Some (frame 4096 pte + va mod 4096).

(** ** Four levels: [prepare_4level_page_table] *)

Definition FOUR_LEVEL_HEAD_TABLE_ADDR : Z := 0x90000.
Definition FIRST_PDPT_ADDR : Z := 0x91000.
Definition FIRST_PDT_ADDR : Z := 0x92000.

(** The loop over the directory entries, from entry [i]: two [int]s each. *)
Fixpoint fill_pdes (n : nat) (i : Z) (m : mem) : mem :=
  match n with
  | O => m
  | S n' =>
      fill_pdes n' (i + 1)
        (st32 (st32 m (FIRST_PDT_ADDR + 4 * (i * 2)) (i * 0x200000 .| 0x87))
           (FIRST_PDT_ADDR + 4 * (i * 2) + 4) 0)
  end.

(** The result is the memory and what is loaded in CR3. *)
Definition prepare_4level_page_table (m : mem) : mem * Z :=
  let m := memset m FOUR_LEVEL_HEAD_TABLE_ADDR 0 4096 in
  let m := st32 m FOUR_LEVEL_HEAD_TABLE_ADDR (FIRST_PDPT_ADDR .| 7) in
  let m := st32 m (FOUR_LEVEL_HEAD_TABLE_ADDR + 4) 0 in
  let m := memset m FIRST_PDPT_ADDR 0 4096 in
  let m := st32 m FIRST_PDPT_ADDR (FIRST_PDT_ADDR .| 7) in
  let m := st32 m (FIRST_PDPT_ADDR + 4) 0 in
  let m := memset m FIRST_PDT_ADDR 0 4096 in
  (fill_pdes 16 0 m, FOUR_LEVEL_HEAD_TABLE_ADDR).

(** ** Two levels: [vm101012_init] *)

Section Vm101012.
Context {S : Type} `{PageOps S}.

Fixpoint fill_ptes (n : nat) (i ptt : Z) (m : mem) : mem :=
  match n with
  | O => m
  | Datatypes.S n' => fill_ptes n' (i + 1) ptt (st32 m (ptt + 4 * i) (0x07 .| (i * PAGE_SIZE)))
  end.

(** The result is the page manager, the memory and what is loaded in CR3. *)
Definition vm101012_init (s : S) (m : mem) : S * mem * Z :=
  let '(pdt, s, m) := get_free_page s m in
  let m := memset m pdt 0 PAGE_SIZE in
  let '(ptt, s, m) := get_free_page s m in
  let m := memset m ptt 0 PAGE_SIZE in
  let m := fill_ptes 1024 0 ptt m in
  (s, st32 m pdt (0x07 .| ptt), pdt).
End Vm101012.

(** ** Lemmas *)

Lemma memset_zero_ld64 m p a : p mod 8 = 0 -> a mod 8 = 0 ->
  ld64 (memset m p 0 4096) a = if decide (p <= a < p + 4096) then 0 else ld64 m a.
Proof.
  intros Hp Ha. destruct (decide _) as [Hin|Hout].
  - apply ldn_zero. intros b Hb. rewrite memset_ld8. change (u32 4096) with 4096.
    destruct (p <=? b) eqn:?, (b <? p + 4096) eqn:?; bool_hyps; try done; zlia.
  - apply ldn_ext. intros b Hb. rewrite memset_ld8. change (u32 4096) with 4096.
    destruct (p <=? b) eqn:?, (b <? p + 4096) eqn:?; bool_hyps; try done. zlia.
Qed.

Lemma fill_pdes_spec n i m a : 0 <= i -> a mod 8 = 0 ->
  ld64 (fill_pdes n i m) a =
    if decide (FIRST_PDT_ADDR + 8 * i <= a < FIRST_PDT_ADDR + 8 * (i + Z.of_nat n))
    then u32 ((a - FIRST_PDT_ADDR) / 8 * 0x200000 .| 0x87) else ld64 m a.
Proof.
  revert i m. induction n as [|n IH]; intros i m Hi Ha; cbn [fill_pdes].
  - by rewrite decide_False by lia.
  - rewrite IH by lia. replace (FIRST_PDT_ADDR + 4 * (i * 2)) with (FIRST_PDT_ADDR + 8 * i) by lia.
    rewrite ld64_two_st32 by (unfold FIRST_PDT_ADDR; zlia).
    destruct (decide (a = FIRST_PDT_ADDR + 8 * i)) as [->|Hne].
    + rewrite decide_False, decide_True by lia. rewrite Z.add_simpl_l, (Z.mul_comm 8), Z.div_mul by lia.
      change (u32 0) with 0. lia.
    + repeat destruct (decide _); done || (unfold FIRST_PDT_ADDR in *; zlia).
Qed.

Lemma memset_4096_out m p a : a < p \/ p + 4096 <= a -> ld8 (memset m p 0 4096) a = ld8 m a.
Proof.
  intros Ha. rewrite memset_ld8. change (u32 4096) with 4096.
  destruct (p <=? a) eqn:?, (a <? p + 4096) eqn:?; bool_hyps; done || lia.
Qed.

Lemma fill_pdes_frame n i m a : 0 <= i -> a < FIRST_PDT_ADDR + 8 * i \/ FIRST_PDT_ADDR + 8 * (i + Z.of_nat n) <= a ->
  ld8 (fill_pdes n i m) a = ld8 m a.
Proof.
  revert i m. induction n as [|n IH]; intros i m Hi Ha; cbn [fill_pdes]; [done|].
  rewrite IH by lia. unfold st32. by rewrite !ld8_stn_ne by lia.
Qed.

Lemma prepare_frame m a : a < 0x90000 \/ 0x93000 <= a -> ld8 (fst (prepare_4level_page_table m)) a = ld8 m a.
Proof.
  intros Ha. unfold prepare_4level_page_table. cbv zeta. cbn [fst].
  rewrite fill_pdes_frame by (unfold FIRST_PDT_ADDR; lia).
  unfold FIRST_PDT_ADDR, FIRST_PDPT_ADDR, FOUR_LEVEL_HEAD_TABLE_ADDR, st32.
  by rewrite memset_4096_out, !ld8_stn_ne, memset_4096_out, !ld8_stn_ne, memset_4096_out by lia.
Qed.

Lemma prepare_cr3 m : snd (prepare_4level_page_table m) = 0x90000.
Proof. reflexivity. Qed.

(** The words of the three tables. *)
Lemma prepare_words m a : a mod 8 = 0 -> 0x90000 <= a < 0x93000 ->
  ld64 (fst (prepare_4level_page_table m)) a =
    if decide (a = 0x90000) then 0x91007 else if decide (a = 0x91000) then 0x92007
    else if decide (0x92000 <= a < 0x92080) then (a - 0x92000) / 8 * 0x200000 + 0x87 else 0.
Proof.
  intros Ha Hr. unfold prepare_4level_page_table. cbv zeta. cbn [fst]. rewrite fill_pdes_spec by lia.
  unfold FOUR_LEVEL_HEAD_TABLE_ADDR, FIRST_PDPT_ADDR, FIRST_PDT_ADDR.
  rewrite memset_zero_ld64 by done. rewrite ld64_two_st32 by done.
  rewrite memset_zero_ld64 by done. rewrite ld64_two_st32 by done. rewrite memset_zero_ld64 by done.
  change (u32 (0x91000 .| 7) + 4294967296 * u32 0) with 0x91007.
  change (u32 (0x92000 .| 7) + 4294967296 * u32 0) with 0x92007.
  destruct (decide (0x92000 + 8 * 0 <= a < _)) as [H2|H2].
  - rewrite (lor_low 21) by zlia. rewrite u32_small by zlia.
    repeat destruct (decide _); lia.
  - repeat destruct (decide _); lia.
Qed.

Lemma slot_word tbl k va : tbl mod 8 = 0 -> slot tbl k va mod 8 = 0.
Proof. unfold slot. intros. zlia. Qed.

(** The PDE of a 2 MiB page below 4 GiB. *)
Lemma large_pde i : 0 <= i < 2048 ->
  Z.odd (i * 0x200000 + 0x87) = true /\ Z.testbit (i * 0x200000 + 0x87) 7 = true /\
  frame (2 ^ 21) (i * 0x200000 + 0x87) = i * 2 ^ 21.
Proof.
  intros Hi. split; [|split].
  - rewrite Z.odd_add, Z.odd_mul. by rewrite andb_false_r.
  - rewrite <- (lor_low 21) by zlia. rewrite Z.lor_spec. apply orb_true_r.
  - unfold frame. rewrite (Z.mod_small _ (2 ^ 52)) by lia. zlia.
Qed.

(** An address is its three table indices and its place in a 2 MiB page. *)
Lemma address_split va : 0 <= va < 2 ^ 48 ->
  va = (va / 2 ^ 39 mod 512 * 262144 + va / 2 ^ 30 mod 512 * 512 + va / 2 ^ 21 mod 512) * 2 ^ 21 +
       va mod 2 ^ 21 /\
  0 <= va / 2 ^ 39 mod 512 < 512 /\ 0 <= va / 2 ^ 30 mod 512 < 512 /\
  0 <= va / 2 ^ 21 mod 512 < 512 /\ 0 <= va mod 2 ^ 21 < 2 ^ 21.
Proof.
  intros Hva. pose proof (Z.div_mod va (2 ^ 21) ltac:(lia)) as E.
  change (2 ^ 39) with (2 ^ 21 * 512 * 512). change (2 ^ 30) with (2 ^ 21 * 512).
  rewrite <- !Z.div_div by lia. set (q := va / 2 ^ 21) in *.
  assert (0 <= q < 134217728) as Hq by (unfold q; split; [apply Z.div_pos; lia|apply Z.div_lt_upper_bound; lia]).
  pose proof (Z.mod_pos_bound va (2 ^ 21) ltac:(lia)). set (r := va mod 2 ^ 21) in *.
  clearbody q r. subst va. clear Hva. zlia.
Qed.

(** The walk over any memory with these words. *)
Definition prepared_word (a : Z) : Z :=
  if decide (a = 0x90000) then 0x91007 else if decide (a = 0x91000) then 0x92007
  else if decide (0x92000 <= a < 0x92080) then (a - 0x92000) / 8 * 0x200000 + 0x87 else 0.

Lemma walk4_prepared m' va : (forall a, a mod 8 = 0 -> 0x90000 <= a < 0x93000 -> ld64 m' a = prepared_word a) ->
  0 <= va < 2 ^ 48 -> walk4 m' 0x90000 va = if va <? 0x2000000 then Some va else None.
Proof.
  intros Hw Hva. unfold prepared_word in Hw.
  pose proof (address_split va Hva) as (Eva & H4 & H3 & H2 & Hr). unfold walk4, slot.
  set (i4 := va / 2 ^ 39 mod 512) in *. set (i3 := va / 2 ^ 30 mod 512) in *.
  set (i2 := va / 2 ^ 21 mod 512) in *. set (o := va mod 2 ^ 21) in *. clearbody i4 i3 i2 o. clear Hva.
  rewrite Hw by zlia. destruct (decide (0x90000 + 8 * i4 = 0x90000)) as [E4|E4].
  2:{ rewrite !decide_False by lia. cbn [Z.odd negb]. destruct (va <? 0x2000000) eqn:El; bool_hyps; [lia|done]. }
  change (frame 4096 0x91007) with 0x91000. cbn [Z.odd negb]. rewrite Hw by zlia.
  rewrite (decide_False (P := 0x91000 + 8 * i3 = 0x90000)) by lia.
  destruct (decide (0x91000 + 8 * i3 = 0x91000)) as [E3|E3].
  2:{ rewrite decide_False by lia. cbn [Z.odd negb]. destruct (va <? 0x2000000) eqn:El; bool_hyps; [lia|done]. }
  change (frame 4096 0x92007) with 0x92000. change (Z.testbit 0x92007 7) with false.
  cbn [Z.odd negb]. rewrite Hw by zlia.
  rewrite (decide_False (P := 0x92000 + 8 * i2 = 0x90000)) by lia.
  rewrite (decide_False (P := 0x92000 + 8 * i2 = 0x91000)) by lia. destruct (decide _) as [E2|E2].
  - replace ((0x92000 + 8 * i2 - 0x92000) / 8) with i2 by zlia.
    destruct (large_pde i2 ltac:(lia)) as (-> & -> & ->). cbn [negb].
    destruct (va <? 0x2000000) eqn:El; bool_hyps; [f_equal; lia|lia].
  - cbn [Z.odd negb]. destruct (va <? 0x2000000) eqn:El; bool_hyps; [lia|done].
Qed.

(** [prepare_4level_page_table] maps the first 32 MiB to themselves and nothing
    else; only the three tables are written. *)
Theorem prepare_4level_identity m va : 0 <= va < 2 ^ 48 ->
  walk4 (fst (prepare_4level_page_table m)) (snd (prepare_4level_page_table m)) va =
    (if va <? 0x2000000 then Some va else None) /\
  forall a, a < 0x90000 \/ 0x93000 <= a -> ld8 (fst (prepare_4level_page_table m)) a = ld8 m a.
Proof.
  intros Hva. split; [|intros a; apply prepare_frame]. rewrite prepare_cr3. apply walk4_prepared; [|done].
  intros a Ha Hr. by apply prepare_words.
Qed.

Lemma prepare_4level_identity_witness :
  walk4 (fst (prepare_4level_page_table ∅)) (snd (prepare_4level_page_table ∅)) 0x123456 =
    (if 0x123456 <? 0x2000000 then Some 0x123456 else None) /\
  forall a, a < 0x90000 \/ 0x93000 <= a -> ld8 (fst (prepare_4level_page_table ∅)) a = ld8 ∅ a.
Proof. exact (prepare_4level_identity ∅ 0x123456 ltac:(lia)). Defined.

(** *** Two levels *)

Lemma memset_zero_ld32 m p a : p mod 4 = 0 -> a mod 4 = 0 ->
  ld32 (memset m p 0 4096) a = if decide (p <= a < p + 4096) then 0 else ld32 m a.
Proof.
  intros Hp Ha. destruct (decide _) as [Hin|Hout].
  - apply ldn_zero. intros b Hb. rewrite memset_ld8. change (u32 4096) with 4096.
    destruct (p <=? b) eqn:?, (b <? p + 4096) eqn:?; bool_hyps; try done; zlia.
  - apply ldn_ext. intros b Hb. rewrite memset_ld8. change (u32 4096) with 4096.
    destruct (p <=? b) eqn:?, (b <? p + 4096) eqn:?; bool_hyps; try done. zlia.
Qed.

Lemma fill_ptes_spec n i ptt m a : 0 <= i -> ptt mod 4 = 0 -> a mod 4 = 0 ->
  ld32 (fill_ptes n i ptt m) a =
    if decide (ptt + 4 * i <= a < ptt + 4 * (i + Z.of_nat n))
    then u32 (0x07 .| ((a - ptt) / 4 * PAGE_SIZE)) else ld32 m a.
Proof.
  revert i m. induction n as [|n IH]; intros i m Hi Hp Ha; cbn [fill_ptes].
  - by rewrite decide_False by lia.
  - rewrite IH by lia. rewrite ld32_st32_word by zlia.
    destruct (decide (a = ptt + 4 * i)) as [->|Hne].
    + rewrite decide_False, decide_True by lia. by rewrite Z.add_simpl_l, (Z.mul_comm 4), Z.div_mul by lia.
    + repeat destruct (decide _); done || zlia.
Qed.

Lemma small_pte p : 0 <= p < 2 ^ 32 -> p mod 4096 = 0 ->
  u32 (0x07 .| p) = p + 7 /\ Z.odd (p + 7) = true /\ frame 4096 (p + 7) = p.
Proof.
  intros Hp Hm. rewrite Z.lor_comm, (lor_low 12) by (change (2 ^ 12) with 4096; lia).
  split; [apply u32_small; zlia|]. split.
  - rewrite Z.odd_add. assert (Z.odd p = false) as ->; [|done].
    rewrite (Z.div_mod p 4096) by lia. rewrite Hm, Z.add_0_r, Z.odd_mul. done.
  - unfold frame. rewrite (Z.mod_small _ (2 ^ 52)) by zlia. zlia.
Qed.

(** The page tables of the two pages [pdt] and [ptt], whatever else is in
    memory, are the identity on the first 4 MiB. *)
Lemma vm_tables m pdt ptt va : 0 < pdt < 2 ^ 32 -> 0 < ptt < 2 ^ 32 ->
  pdt mod 4096 = 0 -> ptt mod 4096 = 0 -> pdt <> ptt -> 0 <= va < 2 ^ 32 ->
  (forall a, pdt <= a < pdt + 4096 -> a mod 4 = 0 -> ld32 m a = 0) ->
  walk2 (st32 (fill_ptes 1024 0 ptt m) pdt (0x07 .| ptt)) pdt va = if va <? 0x400000 then Some va else None.
Proof.
  intros Hd Ht Md Mt Hne Hva Hz. unfold walk2. set (i := va / 2 ^ 22). set (j := va / 2 ^ 12 mod 1024).
  assert (0 <= i < 1024 /\ 0 <= j < 1024 /\ va = (i * 1024 + j) * 4096 + va mod 4096) as (Hi & Hj & Eva).
  { unfold i, j. change (2 ^ 22) with (4096 * 1024). change (2 ^ 12) with 4096.
    rewrite <- Z.div_div by lia. clear - Hva. zlia. }
  clearbody i j. rewrite ld32_st32_word by zlia.
  destruct (decide (pdt + 4 * i = pdt)) as [E|E].
  2:{ rewrite fill_ptes_spec by zlia. rewrite decide_False, Hz by zlia. cbn [Z.odd negb].
      destruct (va <? 0x400000) eqn:El; bool_hyps; [zlia|done]. }
  destruct (small_pte ptt ltac:(lia) Mt) as (-> & -> & ->). cbn [negb].
  rewrite ld32_st32_word by zlia. rewrite decide_False by zlia.
  rewrite fill_ptes_spec by zlia. rewrite decide_True by zlia.
  replace ((ptt + 4 * j - ptt) / 4) with j by zlia.
  destruct (small_pte (j * PAGE_SIZE)) as (-> & -> & ->); [unfold PAGE_SIZE; lia|unfold PAGE_SIZE; zlia|].
  cbn [negb]. unfold PAGE_SIZE. destruct (va <? 0x400000) eqn:El; bool_hyps; [f_equal; zlia|zlia].
Qed.

Section VmTheorem.
Context {S : Type} `{PageLaws S}.

Lemma memset_page_frame s m p : pa_inv s m -> pa_page s p ->
  pa_inv s (memset m p 0 PAGE_SIZE) /\
  forall q, pa_free s (memset m p 0 PAGE_SIZE) q <-> pa_free s m q.
Proof.
  intros Hi Hp. apply pa_frame; [done|]. intros a Ha. rewrite memset_ld8.
  change (u32 PAGE_SIZE) with PAGE_SIZE.
  destruct (p <=? a) eqn:?, (a <? p + PAGE_SIZE) eqn:?; bool_hyps; try done.
  exfalso. destruct (pa_page_ok s m p Hi Hp) as (_ & _ & _ & Hf). eapply Hf; [|exact Ha]. lia.
Qed.

(** With two pages free, [vm101012_init] loads a page directory under which
    the first 4 MiB are mapped to themselves and nothing else is mapped. *)
Theorem vm101012_identity s m s' m' cr3 p q va :
  pa_inv s m -> pa_free s m p -> pa_free s m q -> p <> q -> 0 <= va < 2 ^ 32 ->
  vm101012_init s m = (s', m', cr3) ->
  walk2 m' cr3 va = if va <? 0x400000 then Some va else None.
Proof.
  intros Hi Hp Hq Hpq Hva. unfold vm101012_init.
  destruct (get_free_page s m) as [[pdt s1] m1] eqn:E1.
  destruct (pa_get _ _ _ _ _ Hi E1) as [(_ & _ & _ & Hn)|(Hf1 & Hi1 & Hfr1 & Hpg1 & _)]; [by destruct (Hn p)|].
  assert (pa_page s1 pdt) as Hg1 by (apply Hpg1; by eapply pa_free_page).
  destruct (memset_page_frame s1 m1 pdt Hi1 Hg1) as [Hi2 Hfr2].
  destruct (get_free_page s1 _) as [[ptt s2] m3] eqn:E2.
  destruct (pa_get _ _ _ _ _ Hi2 E2) as [(_ & _ & _ & Hn)|(Hf2 & Hi3 & _ & Hpg2 & Hft & Hfoot)].
  { exfalso. destruct (decide (p = pdt)) as [->|Hne]; [apply (Hn q)|apply (Hn p)]; apply Hfr2, Hfr1; auto. }
  assert (pa_page s1 ptt) as Hg2 by (by eapply pa_free_page).
  apply Hfr2, Hfr1 in Hf2 as [_ Hne].
  destruct (pa_page_ok _ _ _ Hi2 Hg1) as (M1 & P1 & L1 & F1).
  destruct (pa_page_ok _ _ _ Hi2 Hg2) as (M2 & P2 & L2 & F2). unfold PAGE_SIZE in M1, M2, L1, L2, F1.
  intros E. apply pair_equal_spec in E as [E <-]. apply pair_equal_spec in E as [<- <-]. clear E1 E2.
  apply vm_tables; [lia|lia|exact M1|exact M2|auto|exact Hva|].
  intros a Ha Hm. change PAGE_SIZE with 4096. rewrite memset_zero_ld32 by zlia.
  rewrite decide_False by zlia. assert (ld32 m3 a = ld32 (memset m1 pdt 0 PAGE_SIZE) a) as ->.
  { apply (ldn_ext 4). intros b Hb. apply Hfoot, F1. zlia. }
  change PAGE_SIZE with 4096. rewrite memset_zero_ld32 by zlia. by rewrite decide_True by lia.
Qed.
End VmTheorem.

(** Run over the three pages of X86Memory. *)
Lemma vm101012_identity_witness :
  let '(_, m', cr3) := vm101012_init (fst small_mm) (snd small_mm) in
  walk2 m' cr3 0x12345 = Some 0x12345.
Proof.
  destruct (vm101012_init (fst small_mm) (snd small_mm)) as [[s' m'] cr3] eqn:E.
  assert (x86_phy_inv (fst small_mm)) as Hi by (vm_compute; repeat split; discriminate).
  assert (phy_map_size (fst small_mm) = 3) as Hn by (vm_compute; reflexivity).
  assert (forall i, i = 0 \/ i = 1 -> x86_phy_free (fst small_mm) (snd small_mm) (0x100000 + 4096 * i)) as Hf.
  { intros i Hr. exists i. split; [split; [rewrite Hn; lia|reflexivity]|].
    destruct Hr as [-> | ->]; vm_compute; reflexivity. }
  exact (vm101012_identity (fst small_mm) (snd small_mm) s' m' cr3 0x100000 0x101000 0x12345
    Hi (Hf 0 (or_introl eq_refl)) (Hf 1 (or_intror eq_refl)) ltac:(lia) ltac:(lia) E).
Defined.
