(* ===== verification/Ioremap.v ===== *)
(** Device mappings of the 64-bit kernel: x64_kenerl/kernel/ioremap.c over the
    macros of include/linux/page.h.  Tables come from the page manager, through
    the interface PageAlloc; the tables of Paging are where it starts. *)

From S2P Require Import Prelude Mem CString PageAlloc Bitmap Phymm Paging.
#[local] Open Scope kernel_scope.

(** ** Operations *)

Definition PML4_G_E_ADDR (e : Z) : Z := u64 ((u64 (e .<< 12) .>> 24) .<< 12).
Definition PML4_VRT_TO_PML4_IDX (vrt : Z) : Z := (vrt .& 0xffffffffffff) .>> 39.
Definition PML4_VRT_TO_PDPT_IDX (vrt : Z) : Z := (vrt .& 0x7fffffffff) .>> 30.
Definition PML4_VRT_TO_PDT_IDX (vrt : Z) : Z := (vrt .& 0x3fffffff) .>> 21.
Definition PML4_VRT_TO_PDE_IDX (vrt : Z) : Z := (vrt .& 0x1fffff) .>> 12.

Definition getPML4Index_2M (phys_addr : Z) : Z * Z * Z :=
  (u32 (PML4_VRT_TO_PML4_IDX phys_addr), u32 (PML4_VRT_TO_PDPT_IDX phys_addr),
   u32 (PML4_VRT_TO_PDT_IDX phys_addr)).

Section Ioremap.
Context {S : Type} `{PageOps S}.

(** A table entry that is 0 gets a cleared page; whether there was one is not
    looked at. *)
Definition fill_entry (s : S) (m : mem) (entry : Z) : S * mem :=
  if ld64 m entry =? 0 then
    let '(page, s, m) := get_free_page s m in
    let m := memset m page 0 PAGE_SIZE in
    (s, st64 m entry (page .| 11))
  else (s, m).

(** One round of the loop of [_arch_ioremap_nocache]. *)
Definition map_2M (s : S) (m : mem) (align_addr : Z) : S * mem :=
  let '(pml4, pdpt, pdt) := getPML4Index_2M align_addr in
  let entry := FOUR_LEVEL_HEAD_TABLE_ADDR + pml4 * 8 in
  let '(s, m) := fill_entry s m entry in
  let entry := PML4_G_E_ADDR (ld64 m entry) + 8 * pdpt in
  let '(s, m) := fill_entry s m entry in
  let entry := PML4_G_E_ADDR (ld64 m entry) + 8 * pdt in
  (s, st64 m entry (align_addr .| 0x8B)).

Fixpoint map_loop (cout : nat) (s : S) (m : mem) (align_addr : Z) : S * mem :=
  match cout with
  | O => (s, m)
  | Datatypes.S c =>
      let '(s, m) := map_2M s m align_addr in map_loop c s m (u64 (align_addr + 0x200000))
  end.

Definition arch_ioremap_nocache (s : S) (m : mem) (align_addr cout : Z) : Z * S * mem :=
  let '(s, m) := map_loop (Z.to_nat cout) s m align_addr in (align_addr, s, m).

(** [size / mapSize + (size % mapSize > 0) ? 1 : 0]: the sum is the condition. *)
Definition ioremap_nocache (s : S) (m : mem) (phys_addr size : Z) : Z * S * mem :=
  let mapSize := 0x200000 in
  let alignAddr := phys_addr / mapSize * mapSize in
  let mapCout := if truthy (size / mapSize + Z.b2z (0 <? size mod mapSize)) then 1 else 0 in
  let '(_, s, m) := arch_ioremap_nocache s m alignAddr mapCout in (phys_addr, s, m).
End Ioremap.

(** ** The tables as a tree *)

(** The head table, the tables of its entries and the tables of theirs. *)
Inductive node := Root | L3 (i : Z) | L2 (i j : Z).
#[export] Instance node_eq_dec : EqDecision node.
Proof. solve_decision. Defined.

(** Where a node's address is kept, and the node's address. *)
Definition root : Z := FOUR_LEVEL_HEAD_TABLE_ADDR.
Definition entry3 (m : mem) (i : Z) : Z := ld64 m (root + 8 * i).
Definition entry2 (m : mem) (i j : Z) : Z := ld64 m (frame 4096 (entry3 m i) + 8 * j).
Definition addr (m : mem) (n : node) : Z :=
  match n with
  | Root => root
  | L3 i => frame 4096 (entry3 m i)
  | L2 i j => frame 4096 (entry2 m i j)
  end.
Definition node_ok (n : node) : Prop :=
  match n with Root => True | L3 i => 0 <= i < 512 | L2 i j => 0 <= i < 512 /\ 0 <= j < 512 end.
Definition live (m : mem) (n : node) : Prop :=
  match n with
  | Root => True
  | L3 i => entry3 m i <> 0
  | L2 i j => entry3 m i <> 0 /\ entry2 m i j <> 0
  end.

(** The directory entry of a 2 MiB page, 0 where there is no directory. *)
Definition pde (m : mem) (i j k : Z) : Z :=
  if entry3 m i =? 0 then 0
  else if entry2 m i j =? 0 then 0 else ld64 m (frame 4096 (entry2 m i j) + 8 * k).
Definition pde_of (m : mem) (va : Z) : Z :=
  pde m (va / 2 ^ 39 mod 512) (va / 2 ^ 30 mod 512) (va / 2 ^ 21 mod 512).

Section Tree.
Context {S : Type} `{PageLaws S}.
Implicit Types (s : S) (m : mem).

(** A page that is a table: the page manager neither uses it nor may hand it
    out. *)
Definition is_table (s : S) (m : mem) (t : Z) : Prop :=
  t mod 4096 = 0 /\ 0 < t /\ t + 4096 <= 4294967296 /\
  (forall a, t <= a < t + 4096 -> ~ pa_foot s a) /\ ~ pa_free s m t.

Definition good_entry (e : Z) : Prop := Z.odd e = true /\ Z.testbit e 7 = false.

Record pt_ok (s : S) (m : mem) : Prop := {
  pt_inv : pa_inv s m;
  pt_table n : node_ok n -> live m n -> is_table s m (addr m n);
  pt_good3 i : node_ok (L3 i) -> live m (L3 i) -> good_entry (entry3 m i);
  pt_good2 i j : node_ok (L2 i j) -> live m (L2 i j) -> good_entry (entry2 m i j);
  pt_inj n n' : node_ok n -> live m n -> node_ok n' -> live m n' -> addr m n = addr m n' -> n = n'
}.

(** ** Lemmas: words *)

Lemma new_entry p : 0 < p -> p + 4096 <= 4294967296 -> p mod 4096 = 0 ->
  u64 (p .| 11) = p + 11 /\ good_entry (p + 11) /\ frame 4096 (p + 11) = p /\ p + 11 <> 0.
Proof.
  intros Hp Hl Hm. rewrite (lor_low 12) by (change (2 ^ 12) with 4096; lia).
  split; [apply u64_small; lia|]. split; [|split; [|lia]].
  - split.
    + rewrite Z.odd_add. assert (Z.odd p = false) as ->; [|done].
      rewrite (Z.div_mod p 4096) by lia. by rewrite Hm, Z.add_0_r, Z.odd_mul.
    + rewrite <- (lor_low 12) by (change (2 ^ 12) with 4096; lia). rewrite Z.lor_spec.
      rewrite <- (Z.mod_pow2_bits_low p 12 7) by lia. change (2 ^ 12) with 4096. by rewrite Hm.
  - unfold frame. rewrite (Z.mod_small _ (2 ^ 52)) by lia. clear - Hm. zlia.
Qed.

(** Two tables are the same or do not overlap. *)
Lemma page_apart t t' a : t mod 4096 = 0 -> t' mod 4096 = 0 -> t <> t' ->
  t <= a < t + 4096 -> a < t' \/ t' + 4096 <= a.
Proof. intros. zlia. Qed.

(** What [fill_entry] does to an entry that is 0, when a page is free. *)
Lemma fill_new_words s m t e s' m' q :
  pa_inv s m -> is_table s m t -> t <= e < t + 4096 -> e mod 8 = 0 -> ld64 m e = 0 -> pa_free s m q ->
  fill_entry s m e = (s', m') ->
  exists p, pa_free s m p /\ (0 < p /\ p + 4096 <= 4294967296 /\ p mod 4096 = 0) /\ pa_inv s' m' /\
    (forall x, pa_free s' m' x <-> pa_free s m x /\ x <> p) /\
    (forall a, pa_foot s' a <-> pa_foot s a) /\ (forall a, p <= a < p + 4096 -> ~ pa_foot s a) /\
    ld64 m' e = p + 11 /\
    (forall a, a mod 8 = 0 -> p <= a < p + 4096 -> ld64 m' a = 0) /\
    (forall t' a, is_table s m t' -> t' <= a < t' + 4096 -> a mod 8 = 0 -> a <> e -> ld64 m' a = ld64 m a).
Proof.
  intros Hi Ht He Me Hz Hq. unfold fill_entry. apply Z.eqb_eq in Hz. rewrite Hz.
  destruct (get_free_page s m) as [[p s1] m1] eqn:Eg. intros E.
  apply pair_equal_spec in E as [<- <-].
  destruct (pa_get _ _ _ _ _ Hi Eg) as [(_ & _ & _ & Hn)|(Hf & Hi1 & Hfr & Hpg & Hft & Hout)]; [by destruct (Hn q)|].
  assert (pa_page s1 p) as Hp1 by (apply Hpg; by eapply pa_free_page).
  destruct (pa_page_ok _ _ _ Hi1 Hp1) as (Mp & Pp & Lp & Fp). unfold PAGE_SIZE in Mp, Lp, Fp.
  destruct (memset_page_frame s1 m1 p Hi1 Hp1) as [Hi2 Hfr2]. change PAGE_SIZE with 4096 in *.
  set (m2 := memset m1 p 0 4096) in *. destruct Ht as (Mt & Pt & Lt & Ft & Nt).
  assert (t <> p) as Htp by (intros ->; by apply Nt).
  destruct (pa_frame s1 m2 (st64 m2 e (p .| 11)) Hi2) as [Hi3 Hfr3].
  { intros a Ha. apply ld8_stn_ne. destruct (decide (a < e \/ e + 8 <= a)) as [|Hin]; [done|].
    exfalso. apply Hft in Ha. eapply Ft; [|exact Ha]. clear - Hin Me He Mt. zlia. }
  destruct (new_entry p Pp Lp Mp) as (Ev & _).
  assert (forall a, p <= a < p + 4096 -> ~ pa_foot s a) as Fps
    by (intros a Ha; rewrite <- Hft; by apply Fp).
  exists p. split; [done|]. split; [done|]. split; [done|]. split; [|split; [done|split; [done|split; [|split]]]].
  - intros x. rewrite Hfr3, Hfr2. apply Hfr.
  - by rewrite ld64_st64_word, decide_True.
  - intros a Ma Ha. rewrite ld64_st64_word by done. rewrite decide_False.
    + unfold m2. rewrite memset_zero_ld64 by (clear - Mp Ma; zlia). by rewrite decide_True by lia.
    + intros ->. destruct (page_apart t p e); lia.
  - intros t' a (Mt' & _ & _ & Ft' & Nt') Ha Ma Hne. rewrite ld64_st64_word, decide_False by done.
    unfold m2. rewrite memset_zero_ld64 by (clear - Mp Ma; zlia).
    assert (t' <> p) as Htp' by (intros ->; by apply Nt').
    pose proof (page_apart t' p a Mt' Mp Htp' Ha). rewrite decide_False by lia.
    apply (ldn_ext 8). intros b Hb. apply Hout, Ft'. clear - Ma Ha Hb Mt'. zlia.
Qed.

(** ** Lemmas: the tree *)

Definition parent (n : node) : node :=
  match n with Root | L3 _ => Root | L2 i _ => L3 i end.
Definition index (n : node) : Z := match n with Root => 0 | L3 i => i | L2 _ j => j end.
(** Where a node's entry is. *)
Definition slot_of m (n : node) : Z := addr m (parent n) + 8 * index n.

Lemma node_ok_parent n : node_ok n -> node_ok (parent n) /\ 0 <= index n < 512.
Proof. destruct n; cbn; lia. Qed.

Section Extend.
Context s m (Hok : pt_ok s m).

(** Two entries of live tables at the same place are the same entry. *)
Lemma entry_inj n n' k k' : node_ok n -> live m n -> node_ok n' -> live m n' ->
  0 <= k < 512 -> 0 <= k' < 512 -> addr m n + 8 * k = addr m n' + 8 * k' -> n = n' /\ k = k'.
Proof.
  intros Hn Hl Hn' Hl' Hk Hk' E.
  destruct (pt_table _ _ Hok n Hn Hl) as (M & _). destruct (pt_table _ _ Hok n' Hn' Hl') as (M' & _).
  assert (addr m n = addr m n') as Ea.
  { destruct (decide (addr m n = addr m n')) as [|Hne]; [done|].
    pose proof (page_apart _ _ (addr m n + 8 * k) M M' Hne). lia. }
  split; [by eapply pt_inj|lia].
Qed.

Context n q s' m' (Hn : node_ok n) (Hnr : n <> Root) (Hp : live m (parent n)) (Hnl : ~ live m n)
  (Hq : pa_free s m q) (E : fill_entry s m (slot_of m n) = (s', m')).

Lemma slot_zero : ld64 m (slot_of m n) = 0.
Proof.
  destruct (decide (ld64 m (slot_of m n) = 0)) as [|Hz]; [done|]. exfalso. apply Hnl.
  destruct n as [|i|i j]; [done|exact Hz|]. split; [exact Hp|exact Hz].
Qed.

(** The words of live tables after a new table has been linked. *)
Lemma extend_words : exists p,
  pa_free s m p /\ (0 < p /\ p + 4096 <= 4294967296 /\ p mod 4096 = 0) /\ pa_inv s' m' /\
  (forall x, pa_free s' m' x <-> pa_free s m x /\ x <> p) /\
  (forall a, pa_foot s' a <-> pa_foot s a) /\ (forall a, p <= a < p + 4096 -> ~ pa_foot s a) /\
  (forall k, 0 <= k < 512 -> ld64 m' (p + 8 * k) = 0) /\
  (forall n' k, node_ok n' -> live m n' -> 0 <= k < 512 ->
     ld64 m' (addr m n' + 8 * k) =
       if decide (n' = parent n /\ k = index n) then p + 11 else ld64 m (addr m n' + 8 * k)).
Proof.
  destruct (node_ok_parent n Hn) as [Hpn Hx].
  pose proof (pt_table _ _ Hok _ Hpn Hp) as Ht. pose proof Ht as (M & _).
  destruct (fill_new_words s m (addr m (parent n)) (slot_of m n) s' m' q) as
    (p & Hf & Hr & Hi & Hfr & Hft & Fp & Ee & Ez & Ew); try done.
  - apply (pt_inv _ _ Hok).
  - unfold slot_of. lia.
  - unfold slot_of. clear - M. zlia.
  - apply slot_zero.
  - exists p. split_and!; try done; try apply Hr.
    + intros k Hk. apply Ez; [destruct Hr as (_ & _ & Hr); clear - Hr; zlia|lia].
    + intros n' k Hn' Hl' Hk. destruct (decide _) as [[-> ->]|Hd]; [exact Ee|].
      pose proof (pt_table _ _ Hok _ Hn' Hl') as Ht'. pose proof Ht' as (M' & _).
      apply (Ew _ _ Ht'); [lia|clear - M'; zlia|]. intros Ea. apply Hd.
      by apply entry_inj.
Qed.
End Extend.

Lemma frame_same m m' i : entry3 m' i = entry3 m i -> addr m' (L3 i) = addr m (L3 i).
Proof. unfold addr. by intros ->. Qed.

(** The tree after page [p], all zeros, has been linked as node [n]. *)
Section Linked.
Context (m m' : mem) (n : node) (p : Z) (Hn : node_ok n) (Hnr : n <> Root) (Hp : live m (parent n)) (Hnl : ~ live m n).
Context (Efr : frame 4096 (p + 11) = p) (Hnz : p + 11 <> 0).
Context (Ez : forall k, 0 <= k < 512 -> ld64 m' (p + 8 * k) = 0).
Context (Ew : forall n' k, node_ok n' -> live m n' -> 0 <= k < 512 ->
  ld64 m' (addr m n' + 8 * k) =
    if decide (n' = parent n /\ k = index n) then p + 11 else ld64 m (addr m n' + 8 * k)).

Lemma linked_entry3 i : 0 <= i < 512 -> entry3 m' i = if decide (L3 i = n) then p + 11 else entry3 m i.
Proof.
  intros Hr. pose proof (Ew Root i I I Hr) as Er. cbn [addr] in Er. unfold entry3. rewrite Er.
  apply decide_ext. split; [intros [En ->]; destruct n; cbn in *; congruence|by intros <-].
Qed.

Lemma linked_entry2 i j : 0 <= i < 512 -> 0 <= j < 512 -> live m (L3 i) ->
  entry2 m' i j = if decide (L2 i j = n) then p + 11 else entry2 m i j.
Proof.
  intros Hri Hrj Hl. assert (L3 i <> n) as Hne by (intros <-; done).
  unfold entry2. rewrite linked_entry3, decide_False by done.
  change (frame 4096 (entry3 m i)) with (addr m (L3 i)). rewrite (Ew (L3 i) j Hri Hl Hrj).
  apply decide_ext. split; [|by intros <-]. intros [Er ->]. destruct n; cbn in *; congruence.
Qed.

Lemma linked_entry2_new i j : 0 <= i < 512 -> 0 <= j < 512 -> L3 i = n -> entry2 m' i j = 0.
Proof. intros Hri Hrj Hin. unfold entry2. rewrite linked_entry3, decide_True, Efr by done. by apply Ez. Qed.

Lemma linked_new : addr m' n = p /\ live m' n.
Proof.
  pose proof linked_entry3 as E3. pose proof linked_entry2 as E2. clear Ew Ez.
  destruct n as [|i|i j]; [done| |]; cbn in Hn, Hp.
  - cbn. by rewrite E3, decide_True.
  - assert (entry2 m' i j = p + 11) as Ee by (rewrite E2, decide_True by (lia || done); done).
    cbn. rewrite Ee, E3, decide_False by (lia || done). done.
Qed.

Lemma linked_old n' : node_ok n' -> live m n' -> live m' n' /\ addr m' n' = addr m n'.
Proof.
  destruct n' as [|i|i j]; intros Hn' Hl'; cbn in Hn'; [done| |].
  - pose proof (linked_entry3 i Hn') as Ei. rewrite decide_False in Ei by (intros <-; done).
    split; [unfold live in *; congruence|by apply frame_same].
  - destruct Hl' as [Hl3 Hl2]. pose proof (linked_entry3 i ltac:(lia)) as Ei.
    rewrite decide_False in Ei by (intros <-; done).
    pose proof (linked_entry2 i j ltac:(lia) ltac:(lia) Hl3) as Ee.
    rewrite decide_False in Ee by (intros <-; by apply Hnl). cbn. rewrite Ee, Ei. done.
Qed.

Lemma linked_only n' : node_ok n' -> live m' n' -> live m n' \/ n' = n.
Proof.
  destruct n' as [|i|i j]; intros Hn' Hl'; cbn in Hn'; [by left| |].
  - cbn in Hl'. rewrite linked_entry3 in Hl' by done. destruct (decide (L3 i = n)); [by right|by left].
  - destruct Hl' as [Hl3 Hl2]. destruct (decide (L3 i = n)) as [Hi3|Hi3].
    { by rewrite linked_entry2_new in Hl2 by (lia || done). }
    rewrite linked_entry3, decide_False in Hl3 by (lia || done).
    rewrite linked_entry2 in Hl2 by (lia || done). destruct (decide (L2 i j = n)); [by right|by left].
Qed.

Lemma linked_good3 i : node_ok (L3 i) -> live m' (L3 i) -> good_entry (p + 11) ->
  (live m (L3 i) -> good_entry (entry3 m i)) -> good_entry (entry3 m' i).
Proof.
  intros Hr Hl Hg Hm. rewrite linked_entry3 by done. destruct (decide (L3 i = n)); [done|].
  destruct (linked_only _ Hr Hl) as [Hlm|]; [by apply Hm|done].
Qed.

Lemma linked_good2 i j : node_ok (L2 i j) -> live m' (L2 i j) -> good_entry (p + 11) ->
  (live m (L2 i j) -> good_entry (entry2 m i j)) -> good_entry (entry2 m' i j).
Proof.
  intros Hr Hl Hg Hm. pose proof Hr as [Hri Hrj]. destruct (decide (L2 i j = n)) as [Hin|Hne].
  - rewrite linked_entry2, decide_True; [done..|]. by rewrite <- Hin in Hp.
  - destruct (linked_only _ Hr Hl) as [Hlm|]; [|done].
    rewrite linked_entry2, decide_False; [by apply Hm|done..|apply Hlm].
Qed.

Lemma linked_inj : (forall n', node_ok n' -> live m n' -> addr m n' <> p) ->
  (forall n1 n2, node_ok n1 -> live m n1 -> node_ok n2 -> live m n2 -> addr m n1 = addr m n2 -> n1 = n2) ->
  forall n1 n2, node_ok n1 -> live m' n1 -> node_ok n2 -> live m' n2 -> addr m' n1 = addr m' n2 -> n1 = n2.
Proof.
  intros Hap Hinj n1 n2 H1 L1' H2 L2' Ea. destruct linked_new as [Ean _].
  destruct (linked_only n1 H1 L1') as [M1| ->], (linked_only n2 H2 L2') as [M2| ->]; try done.
  - rewrite (proj2 (linked_old n1 H1 M1)), (proj2 (linked_old n2 H2 M2)) in Ea. by apply Hinj.
  - rewrite (proj2 (linked_old n1 H1 M1)), Ean in Ea. by destruct (Hap n1 H1 M1).
  - rewrite (proj2 (linked_old n2 H2 M2)), Ean in Ea. by destruct (Hap n2 H2 M2).
Qed.

Lemma linked_pde i j k :
  0 <= i < 512 -> 0 <= j < 512 -> 0 <= k < 512 -> pde m' i j k = pde m i j k.
Proof.
  intros Hi Hj Hk. unfold pde. rewrite linked_entry3 by done. destruct (decide (L3 i = n)) as [Hi3|Hi3].
  - assert (entry3 m i = 0) as -> by (destruct (decide (entry3 m i = 0)); [done|by destruct Hnl; rewrite <- Hi3]).
    rewrite linked_entry2_new by done. by destruct (p + 11 =? 0).
  - destruct (entry3 m i =? 0) eqn:E30; [done|]. bool_hyps.
    rewrite linked_entry2 by done. destruct (decide (L2 i j = n)) as [Hi2|Hi2].
    + assert (entry2 m i j = 0) as ->.
      { destruct (decide (entry2 m i j = 0)); [done|]. by destruct Hnl; rewrite <- Hi2. }
      rewrite Efr, Ez by done. by destruct (p + 11 =? 0).
    + destruct (entry2 m i j =? 0) eqn:E20; [done|]. bool_hyps.
      change (frame 4096 (entry2 m i j)) with (addr m (L2 i j)).
      rewrite (Ew (L2 i j) k) by (cbn; done). rewrite decide_False; [done|].
      intros [Er _]. by destruct n.
Qed.
End Linked.

(** Linking a new table to a live parent: the tree grows by that node, every
    other table stays where it was and no page gets mapped or unmapped. *)
Lemma extend s m n q s' m' :
  pt_ok s m -> node_ok n -> n <> Root -> live m (parent n) -> ~ live m n -> pa_free s m q ->
  fill_entry s m (slot_of m n) = (s', m') ->
  exists p, pt_ok s' m' /\ (forall x, pa_free s' m' x <-> pa_free s m x /\ x <> p) /\ live m' n /\
    (forall n', node_ok n' -> live m n' -> live m' n' /\ addr m' n' = addr m n') /\
    (forall n', node_ok n' -> live m' n' -> live m n' \/ n' = n) /\
    (forall i j k, 0 <= i < 512 -> 0 <= j < 512 -> 0 <= k < 512 -> pde m' i j k = pde m i j k).
Proof.
  intros Hok Hn Hnr Hp Hnl Hq E.
  destruct (extend_words s m Hok n q s' m' Hn Hnr Hp Hnl Hq E) as
    (p & Hf & (P0 & Pl & Pm) & Hi & Hfr & Hft & Fp & Ez & Ew).
  destruct (new_entry p P0 Pl Pm) as (_ & Hg & Efr & Hnz).
  destruct (linked_new m m' n p) as [Ean Hln]; [done..|].
  assert (forall n', node_ok n' -> live m n' -> live m' n' /\ addr m' n' = addr m n') as Hold
    by (by apply (linked_old m m' n p)).
  assert (forall n', node_ok n' -> live m' n' -> live m n' \/ n' = n) as Hnew
    by (by apply (linked_only m m' n p)).
  exists p. split_and!; try done; [|by apply (linked_pde m m' n p)]. split; [done| | | |].
  - intros n' Hn' Hl'. destruct (decide (n' = n)) as [->|Hne].
    + rewrite Ean. split_and!; try done; [intros a Ha; rewrite Hft; by apply Fp|]. rewrite Hfr. by intros [_ ?].
    + destruct (Hnew n' Hn' Hl') as [Hlm|]; [|done]. rewrite (proj2 (Hold n' Hn' Hlm)).
      destruct (pt_table _ _ Hok n' Hn' Hlm) as (M & Q & L & F & N). split_and!; try done.
      * intros a Ha. rewrite Hft. by apply F.
      * rewrite Hfr. tauto.
  - intros i Hr Hl. eapply (linked_good3 m m' n p); try done. by apply (pt_good3 _ _ Hok).
  - intros i j Hr Hl. eapply (linked_good2 m m' n p); try done. by apply (pt_good2 _ _ Hok).
  - apply (linked_inj m m' n p); try done; [|apply (pt_inj _ _ Hok)].
    intros n' Hn' Hlm Ea. destruct (pt_table _ _ Hok n' Hn' Hlm) as (_ & _ & _ & _ & N). apply N. by rewrite Ea.
Qed.

(** ** Lemmas: the operations *)

(** [k] pages are free. *)
Definition frees (k : nat) s m : Prop :=
  exists l, NoDup l /\ length l = k /\ forall x, x ∈ l -> pa_free s m x.

(** Taking one page leaves all the others. *)
Lemma frees_less k s m s' m' p : frees (Datatypes.S k) s m ->
  (forall x, pa_free s' m' x <-> pa_free s m x /\ x <> p) -> frees k s' m'.
Proof.
  intros (l & Hnd & Hlen & Hl) Hf.
  assert (exists l', NoDup l' /\ length l' = k /\ forall x, x ∈ l' -> x ∈ l /\ x <> p) as (l' & N & L & I).
  { destruct (decide (p ∈ l)) as [Hp|Hp].
    - apply list_elem_of_split in Hp as (l1 & l2 & ->). exists (l1 ++ l2).
      rewrite <- Permutation_middle in Hnd. apply NoDup_cons in Hnd as [Hn Hnd].
      rewrite length_app in *. cbn in Hlen. split; [done|]. split; [lia|]. set_solver.
    - destruct l as [|y l]; [done|]. exists l. apply NoDup_cons in Hnd as [_ Hnd].
      cbn in Hlen. split; [done|]. split; [lia|]. set_solver. }
  exists l'. split; [done|]. split; [done|]. intros x Hx. destruct (I x Hx). apply Hf. auto.
Qed.

Lemma frees_tail k s m : frees (Datatypes.S k) s m -> frees k s m.
Proof.
  intros ([|y l] & Hnd & Hlen & Hl); [done|]. apply NoDup_cons in Hnd as [_ Hnd].
  exists l. cbn in Hlen. split; [done|]. split; [lia|]. intros x Hx. apply Hl. by right.
Qed.

(** [fill_entry] at a node's entry makes the node live. *)
Lemma fill_ok s m n k s' m' :
  pt_ok s m -> node_ok n -> n <> Root -> live m (parent n) -> frees (Datatypes.S k) s m ->
  fill_entry s m (slot_of m n) = (s', m') ->
  pt_ok s' m' /\ frees k s' m' /\ live m' n /\
  (forall n', node_ok n' -> live m n' -> live m' n' /\ addr m' n' = addr m n') /\
  (forall i j k, 0 <= i < 512 -> 0 <= j < 512 -> 0 <= k < 512 -> pde m' i j k = pde m i j k).
Proof.
  intros Hok Hn Hnr Hp Hf E. destruct (decide (ld64 m (slot_of m n) = 0)) as [Ez|Ez].
  - assert (~ live m n) as Hnl by (destruct n; [done|intros H1; by apply H1|intros [_ H1]; by apply H1]).
    pose proof Hf as (l & Hnd & Hlen & Hl). destruct l as [|q l]; [done|].
    destruct (extend s m n q s' m' Hok Hn Hnr Hp Hnl (Hl q ltac:(left)) E)
      as (p & H1 & H2 & H3 & H4 & _ & H5).
    split; [done|]. split; [by eapply frees_less|]. done.
  - unfold fill_entry in E. apply Z.eqb_neq in Ez as Ez'. rewrite Ez' in E.
    apply pair_equal_spec in E as [<- <-]. split; [done|]. split; [by apply frees_tail|].
    split; [by destruct n|done].
Qed.

(** A store to a directory entry maps or unmaps that page alone. *)
Lemma store_pde s m i j k v :
  pt_ok s m -> 0 <= i < 512 -> 0 <= j < 512 -> 0 <= k < 512 -> live m (L2 i j) ->
  let m' := st64 m (addr m (L2 i j) + 8 * k) v in
  pt_ok s m' /\
  forall i' j' k', 0 <= i' < 512 -> 0 <= j' < 512 -> 0 <= k' < 512 ->
    pde m' i' j' k' = if decide (i' = i /\ j' = j /\ k' = k) then u64 v else pde m i' j' k'.
Proof.
  intros Hok Hi Hj Hk Hl m'. assert (node_ok (L2 i j)) as Hn by done.
  destruct (pt_table _ _ Hok _ Hn Hl) as (M & P0 & Pl & Fp & _).
  assert (forall n' x, node_ok n' -> live m n' -> 0 <= x < 512 ->
    ld64 m' (addr m n' + 8 * x) = if decide (n' = L2 i j /\ x = k) then u64 v else ld64 m (addr m n' + 8 * x)) as Ew.
  { intros n' x Hn' Hl' Hx. destruct (pt_table _ _ Hok _ Hn' Hl') as (M' & _).
    unfold m'. rewrite ld64_st64_word by (clear - M M'; zlia). apply decide_ext.
    split; [|by intros [-> ->]]. intros Ea. by apply (entry_inj s m Hok). }
  assert (forall i', 0 <= i' < 512 -> entry3 m' i' = entry3 m i') as E3.
  { intros i' Hr. pose proof (Ew Root i' I I Hr) as Er. rewrite decide_False in Er by (by intros [? _]). exact Er. }
  assert (forall i' j', 0 <= i' < 512 -> 0 <= j' < 512 -> live m (L3 i') -> entry2 m' i' j' = entry2 m i' j') as E2.
  { intros i' j' Hr Hr' Hl'. unfold entry2. rewrite E3 by done.
    pose proof (Ew (L3 i') j' Hr Hl' Hr') as Er. rewrite decide_False in Er by (by intros [? _]). exact Er. }
  assert (forall n', node_ok n' -> (live m' n' <-> live m n') /\ (live m n' -> addr m' n' = addr m n')) as Hsame.
  { intros [|i'|i' j'] Hn'; cbn in Hn'; [done| |]; cbn; rewrite E3 by lia; [done|].
    destruct (decide (entry3 m i' = 0)) as [Ez|Ez]; [by split; [split; intros [? _]|intros [? _]]|].
    rewrite E2 by (lia || done). done. }
  split.
  - destruct (pa_frame s m m' (pt_inv _ _ Hok)) as [Hi' Hfr].
    { intros a Ha. apply ld8_stn_ne. destruct (decide (a < addr m (L2 i j) + 8 * k \/ addr m (L2 i j) + 8 * k + 8 <= a));
        [done|]. exfalso. eapply Fp; [|exact Ha]. lia. }
    split; [done| | | |].
    + intros n' Hn' Hl'. destruct (Hsame n' Hn') as [Hll Ea]. apply Hll in Hl'. rewrite Ea by done.
      destruct (pt_table _ _ Hok _ Hn' Hl') as (? & ? & ? & ? & ?). split_and!; try done. by rewrite Hfr.
    + intros i' Hr Hl'. rewrite E3 by done. apply (pt_good3 _ _ Hok); [done|]. by apply (Hsame (L3 i')).
    + intros i' j' Hr Hl'. apply (Hsame (L2 i' j')) in Hl'; [|done]. destruct Hr as [Hr Hr'].
      rewrite E2; [by apply (pt_good2 _ _ Hok)|done|done|apply Hl'].
    + intros n1 n2 H1 L1' H2 L2' Ea. destruct (Hsame n1 H1) as [A1 B1], (Hsame n2 H2) as [A2 B2].
      apply A1 in L1'. apply A2 in L2'. rewrite B1, B2 in Ea by done. by eapply pt_inj.
  - intros i' j' k' Hr Hr' Hr2. unfold pde. rewrite E3 by done.
    destruct (entry3 m i' =? 0) eqn:Ez; bool_hyps.
    { rewrite decide_False; [done|]. intros (-> & _ & _). by destruct Hl. }
    rewrite E2 by done. destruct (entry2 m i' j' =? 0) eqn:Ez'; bool_hyps.
    { rewrite decide_False; [done|]. intros (-> & -> & _). by destruct Hl. }
    pose proof (Ew (L2 i' j') k' ltac:(done) ltac:(done) Hr2) as Er. cbn [addr] in Er. rewrite Er.
    apply decide_ext. naive_solver.
Qed.

(** *** Indices and entries as the macros of page.h compute them *)

Lemma g_e_addr e : 0 <= e < 2 ^ 64 -> PML4_G_E_ADDR e = frame 4096 e.
Proof.
  intros He. unfold PML4_G_E_ADDR, frame.
  rewrite !Z.shiftl_mul_pow2, Z.shiftr_div_pow2 by lia. unfold u64.
  change 18446744073709551616 with (2 ^ 52 * 2 ^ 12). rewrite !Z.mul_mod_distr_r by lia.
  pose proof (Z.mod_pos_bound e (2 ^ 52) ltac:(lia)) as Hb. set (x := e mod 2 ^ 52) in *. clearbody x.
  assert (x * 2 ^ 12 / 2 ^ 24 = x / 4096) as ->.
  { change (2 ^ 24) with (4096 * 2 ^ 12). by rewrite Z.div_mul_cancel_r. }
  assert (0 <= x / 4096 < 2 ^ 40) by (clear - Hb; zlia). by rewrite Z.mod_small by lia.
Qed.

Lemma index_bits va k n : 0 <= va -> 0 <= k -> 0 <= n ->
  (va .& Z.ones (k + n)) .>> k = va / 2 ^ k mod 2 ^ n.
Proof.
  intros. rewrite Z.land_ones, Z.shiftr_div_pow2, Z.pow_add_r by lia.
  rewrite Z.rem_mul_r by (apply Z.pow_nonzero || apply Z.pow_pos_nonneg; lia).
  rewrite Z.add_comm, (Z.mul_comm (2 ^ k)), Z.div_add_l by (apply Z.pow_nonzero; lia).
  rewrite (Z.div_small (va mod 2 ^ k)) by (apply Z.mod_pos_bound, Z.pow_pos_nonneg; lia). lia.
Qed.

Lemma indices va : 0 <= va < 2 ^ 48 ->
  getPML4Index_2M va = (va / 2 ^ 39 mod 512, va / 2 ^ 30 mod 512, va / 2 ^ 21 mod 512).
Proof.
  intros Hva. unfold getPML4Index_2M, PML4_VRT_TO_PML4_IDX, PML4_VRT_TO_PDPT_IDX, PML4_VRT_TO_PDT_IDX.
  change 0xffffffffffff with (Z.ones (39 + 9)). change 0x7fffffffff with (Z.ones (30 + 9)).
  change 0x3fffffff with (Z.ones (21 + 9)). rewrite !index_bits by lia. change (2 ^ 9) with 512.
  destruct (address_split va Hva) as (_ & H1 & H2 & H3 & _). by rewrite !u32_small by lia.
Qed.

(** Same 2 MiB page, same indices. *)
Lemma same_indices va vb : 0 <= va < 2 ^ 48 -> 0 <= vb < 2 ^ 48 ->
  (va / 2 ^ 39 mod 512 = vb / 2 ^ 39 mod 512 /\ va / 2 ^ 30 mod 512 = vb / 2 ^ 30 mod 512 /\
   va / 2 ^ 21 mod 512 = vb / 2 ^ 21 mod 512) <-> va / 2 ^ 21 = vb / 2 ^ 21.
Proof.
  intros Ha Hb. destruct (address_split va Ha) as (Ea & A1 & A2 & A3 & A4).
  destruct (address_split vb Hb) as (Eb & B1 & B2 & B3 & B4).
  assert (va / 2 ^ 21 = va / 2 ^ 39 mod 512 * 262144 + va / 2 ^ 30 mod 512 * 512 + va / 2 ^ 21 mod 512) as Qa
    by (symmetry; apply Z.div_unique with (va mod 2 ^ 21); lia).
  assert (vb / 2 ^ 21 = vb / 2 ^ 39 mod 512 * 262144 + vb / 2 ^ 30 mod 512 * 512 + vb / 2 ^ 21 mod 512) as Qb
    by (symmetry; apply Z.div_unique with (vb mod 2 ^ 21); lia).
  rewrite Qa at 2. rewrite Qb at 2. clear Ea Eb Qa Qb A4 B4. lia.
Qed.

(** *** One 2 MiB page *)

Lemma map_2M_ok s m a s' m' :
  pt_ok s m -> frees 2 s m -> 0 <= a < 2 ^ 48 -> a mod 2 ^ 21 = 0 -> map_2M s m a = (s', m') ->
  pt_ok s' m' /\ forall va, 0 <= va < 2 ^ 48 ->
    pde_of m' va = if decide (va / 2 ^ 21 = a / 2 ^ 21) then a + 0x8B else pde_of m va.
Proof.
  intros Hok Hf Ha Ma. unfold map_2M. rewrite indices by done.
  destruct (address_split a Ha) as (_ & H4 & H3 & H2 & _).
  set (i := a / 2 ^ 39 mod 512) in *. set (j := a / 2 ^ 30 mod 512) in *. set (k := a / 2 ^ 21 mod 512) in *.
  replace (FOUR_LEVEL_HEAD_TABLE_ADDR + i * 8) with (slot_of m (L3 i))
    by (unfold slot_of; cbn [parent index addr]; unfold root; lia).
  destruct (fill_entry s m (slot_of m (L3 i))) as [s1 m1] eqn:E1.
  destruct (fill_ok s m (L3 i) 1 s1 m1 Hok H4) as (Hok1 & Hf1 & Hl1 & Hold1 & Hpde1); [done..|].
  assert (slot_of m (L3 i) = slot_of m1 (L3 i)) as -> by done.
  rewrite g_e_addr by apply ld64_bound.
  change (frame 4096 (ld64 m1 (slot_of m1 (L3 i))) + 8 * j) with (slot_of m1 (L2 i j)).
  destruct (fill_entry s1 m1 (slot_of m1 (L2 i j))) as [s2 m2] eqn:E2.
  destruct (fill_ok s1 m1 (L2 i j) 0 s2 m2 Hok1) as (Hok2 & Hf2 & Hl2 & Hold2 & Hpde2); [done..|].
  assert (slot_of m1 (L2 i j) = slot_of m2 (L2 i j)) as ->.
  { unfold slot_of. cbn [parent]. by rewrite (proj2 (Hold2 (L3 i) H4 Hl1)). }
  rewrite g_e_addr by apply ld64_bound.
  change (frame 4096 (ld64 m2 (slot_of m2 (L2 i j)))) with (addr m2 (L2 i j)).
  intros E. apply pair_equal_spec in E as [<- <-].
  destruct (store_pde s2 m2 i j k (a .| 0x8B) Hok2 H4 H3 H2 Hl2) as [Hok3 Hpde3].
  split; [done|]. intros va Hva. destruct (address_split va Hva) as (_ & V4 & V3 & V2 & _).
  unfold pde_of. rewrite Hpde3, Hpde2, Hpde1 by done. rewrite (lor_low 21) by lia.
  rewrite u64_small by lia. apply decide_ext. rewrite <- same_indices by done. done.
Qed.

(** The walk of an address whose tables are in order, from its directory
    entry. *)
Lemma walk_pde s m va : pt_ok s m -> 0 <= va < 2 ^ 48 ->
  (Z.odd (pde_of m va) = false -> walk4 m root va = None) /\
  (Z.odd (pde_of m va) = true -> Z.testbit (pde_of m va) 7 = true ->
   walk4 m root va = Some (frame (2 ^ 21) (pde_of m va) + va mod 2 ^ 21)).
Proof.
  intros Hok Hva. destruct (address_split va Hva) as (_ & H4 & H3 & _). unfold pde_of, pde, walk4, slot.
  set (i := va / 2 ^ 39 mod 512) in *. set (j := va / 2 ^ 30 mod 512) in *. fold (entry3 m i) (entry2 m i j).
  destruct (entry3 m i =? 0) eqn:E3; bool_hyps; [by rewrite E3|].
  destruct (pt_good3 _ _ Hok i H4 E3) as [-> _]. cbn [negb].
  destruct (entry2 m i j =? 0) eqn:E2; bool_hyps; [by rewrite E2|].
  destruct (pt_good2 _ _ Hok i j (conj H4 H3) (conj E3 E2)) as [-> ->]. cbn [negb].
  split; [by intros ->|by intros -> ->].
Qed.
End Tree.

(** ** The tables at start *)

Lemma low_entry t : t = 0x91007 \/ t = 0x92007 -> good_entry t.
Proof. intros [-> | ->]; by split. Qed.

Lemma start_entries m i j : 0 <= i < 512 -> 0 <= j < 512 ->
  entry3 (fst (prepare_4level_page_table m)) i = (if decide (i = 0) then 0x91007 else 0) /\
  (i = 0 -> entry2 (fst (prepare_4level_page_table m)) i j = if decide (j = 0) then 0x92007 else 0).
Proof.
  intros Hi Hj.
  assert (entry3 (fst (prepare_4level_page_table m)) i = if decide (i = 0) then 0x91007 else 0) as E3.
  { unfold entry3, root, FOUR_LEVEL_HEAD_TABLE_ADDR. rewrite prepare_words by zlia.
    destruct (decide (i = 0)) as [->|Hne]; [done|]. by rewrite !decide_False by lia. }
  split; [exact E3|]. intros ->. unfold entry2. rewrite E3. cbn [decide decide_rel].
  rewrite decide_True by done. change (frame 4096 0x91007) with 0x91000. rewrite prepare_words by zlia.
  rewrite (decide_False (P := 0x91000 + 8 * j = 0x90000)) by lia.
  destruct (decide (j = 0)) as [->|Hne]; [done|]. by rewrite !decide_False by lia.
Qed.

(** Three tables, one entry each in the first two. *)
Lemma start_pt_ok {S : Type} `{PageLaws S} (s : S) (m0 : mem) :
  (forall i j, 0 <= i < 512 -> 0 <= j < 512 ->
     entry3 m0 i = (if decide (i = 0) then 0x91007 else 0) /\
     (i = 0 -> entry2 m0 i j = if decide (j = 0) then 0x92007 else 0)) ->
  pa_inv s m0 -> (forall a, 0x90000 <= a < 0x93000 -> ~ pa_foot s a) ->
  (forall t, t ∈ [0x90000; 0x91000; 0x92000] -> ~ pa_free s m0 t) -> pt_ok s m0.
Proof.
  intros He Hi Hft Hfr.
  assert (forall n, node_ok n -> live m0 n -> n = Root \/ n = L3 0 \/ n = L2 0 0) as Hlive.
  { intros [|i|i j] Hn Hl; cbn in *; [by left| |].
    - destruct (He i 0 ltac:(lia) ltac:(lia)) as [E3 _]. rewrite E3 in Hl.
      destruct (decide (i = 0)) as [->|]; [auto|done].
    - destruct (He i j ltac:(lia) ltac:(lia)) as [E3 E2], Hl as [Hl3 Hl2]. rewrite E3 in Hl3.
      destruct (decide (i = 0)) as [->|]; [|done]. rewrite E2 in Hl2 by done.
      destruct (decide (j = 0)) as [->|]; [auto|done]. }
  destruct (He 0 0 ltac:(lia) ltac:(lia)) as [E3 E2]. cbn [decide] in E3. specialize (E2 eq_refl).
  rewrite decide_True in E3, E2 by done.
  assert (addr m0 Root = 0x90000 /\ addr m0 (L3 0) = 0x91000 /\ addr m0 (L2 0 0) = 0x92000) as (A0 & A3 & A2)
    by (cbn; rewrite E3, E2; done).
  split; [done| | | |].
  - intros n Hn Hl. assert (addr m0 n ∈ [0x90000; 0x91000; 0x92000]) as Hin
      by (destruct (Hlive n Hn Hl) as [-> |[-> | ->]]; rewrite ?A0, ?A3, ?A2; set_solver).
    split_and!; try (intros a Ha; apply Hft); try (by apply Hfr);
      rewrite !elem_of_cons, elem_of_nil in Hin; destruct Hin as [E|[E|[E|[]]]]; rewrite E in *; done || lia.
  - intros i Hn Hl. destruct (Hlive (L3 i) Hn Hl) as [?|[?|?]]; simplify_eq. apply low_entry. auto.
  - intros i j Hn Hl. destruct (Hlive (L2 i j) Hn Hl) as [?|[?|?]]; simplify_eq. apply low_entry. auto.
  - intros n n' Hn Hl Hn' Hl' E.
    destruct (Hlive n Hn Hl) as [-> |[-> | ->]], (Hlive n' Hn' Hl') as [-> |[-> | ->]];
      rewrite ?A0, ?A3, ?A2 in E; done.
Qed.

(** The tables [prepare_4level_page_table] builds are in order for any page
    manager that keeps clear of them. *)
Lemma prepare_pt_ok {S : Type} `{PageLaws S} (s : S) m :
  pa_inv s (fst (prepare_4level_page_table m)) -> (forall a, 0x90000 <= a < 0x93000 -> ~ pa_foot s a) ->
  (forall t, t ∈ [0x90000; 0x91000; 0x92000] -> ~ pa_free s (fst (prepare_4level_page_table m)) t) ->
  pt_ok s (fst (prepare_4level_page_table m)).
Proof. apply start_pt_ok, start_entries. Qed.

(** ** Theorem *)

(** C7: With tables in order and two pages free, [ioremap_nocache] returns the
    address it is given, leaves the tables in order, maps the one 2 MiB page
    that holds the address to itself and changes the mapping of no other page,
    whatever the size asked for. *)
Theorem ioremap_maps_one_page {S : Type} `{PageLaws S} (s : S) m phys size p q v s' m' :
  pt_ok s m -> pa_free s m p -> pa_free s m q -> p <> q -> 0 <= phys < 2 ^ 48 -> 0 < size ->
  ioremap_nocache s m phys size = (v, s', m') ->
  v = phys /\ pt_ok s' m' /\
  (forall va, 0 <= va < 2 ^ 48 -> va / 2 ^ 21 = phys / 2 ^ 21 -> walk4 m' root va = Some va) /\
  (forall va, 0 <= va < 2 ^ 48 -> va / 2 ^ 21 <> phys / 2 ^ 21 -> pde_of m' va = pde_of m va).
Proof.
  intros Hok Hp Hq Hpq Hphys Hsize. unfold ioremap_nocache, arch_ioremap_nocache.
  assert (truthy (size / 0x200000 + Z.b2z (0 <? size mod 0x200000)) = true) as ->.
  { unfold truthy. apply negb_true_iff, Z.eqb_neq. destruct (0 <? size mod 0x200000) eqn:E; cbn [Z.b2z];
      bool_hyps; clear - E Hsize; zlia. }
  change (Z.to_nat 1) with 1%nat. cbn [map_loop]. change 0x200000 with (2 ^ 21).
  set (a := phys / 2 ^ 21 * 2 ^ 21).
  assert (0 <= a < 2 ^ 48 /\ a mod 2 ^ 21 = 0 /\ a / 2 ^ 21 = phys / 2 ^ 21) as (Ha & Ma & Qa)
    by (clear - Hphys; subst a; zlia).
  destruct (map_2M s m a) as [s1 m1] eqn:E1. intros E.
  apply pair_equal_spec in E as [E <-]. apply pair_equal_spec in E as [<- <-].
  assert (frees 2 s m) as Hf.
  { exists [p; q]. split; [repeat constructor; set_solver|]. split; [done|].
    intros x Hx. rewrite !elem_of_cons, elem_of_nil in Hx. naive_solver. }
  destruct (map_2M_ok s m a s1 m1 Hok Hf Ha Ma E1) as [Hok1 Hpde]. rewrite Qa in Hpde.
  split; [done|]. split; [done|]. split; intros va Hva Hsame; [|by rewrite Hpde, decide_False].
  destruct (walk_pde s1 m1 va Hok1 Hva) as [_ Hw]. rewrite Hpde, decide_True in Hw by done.
  assert (a + 0x8B = a / 2 ^ 21 * 0x200000 + 0x8B) as Ea by (clear - Ma; zlia).
  rewrite Hw; rewrite Ea.
  - f_equal. unfold frame. rewrite (Z.mod_small _ (2 ^ 52)) by (clear - Ha; zlia).
    rewrite Qa, <- Hsame. clear. zlia.
  - rewrite Z.odd_add, Z.odd_mul. by rewrite andb_false_r.
  - rewrite <- (lor_low 21) by (clear; zlia). rewrite Z.lor_spec. apply orb_true_r.
Qed.

(** The local APIC's registers, over the tables of the start and the page
    manager of a machine of 31 MiB. *)
Lemma ioremap_maps_one_page_witness :
  let m := fst (prepare_4level_page_table ∅) in
  let '(v, _, m') := ioremap_nocache demo_pm m 0xFEE00000 0x400 in
  v = 0xFEE00000 /\ walk4 m' root 0xFEE00020 = Some 0xFEE00020.
Proof.
  intros m. destruct (ioremap_nocache demo_pm m 0xFEE00000 0x400) as [[v s'] m'] eqn:E.
  assert (forall i, 0 <= i < 2 -> phy_free demo_pm m (0x300000 + 4096 * i)) as Hf.
  { intros i Hi. exists i. split; [split; [cbn; unfold nbits; cbn; lia|reflexivity]|].
    assert (i = 0 \/ i = 1) as [-> | ->] by lia; vm_compute; reflexivity. }
  destruct (@ioremap_maps_one_page _ _ phy_laws demo_pm m 0xFEE00000 0x400 0x300000 0x301000 v s' m')
    as (Hv & _ & Hw & _); [|exact (Hf 0 ltac:(lia))|exact (Hf 1 ltac:(lia))|lia|lia|lia|exact E|].
  - apply (@prepare_pt_ok _ _ phy_laws demo_pm ∅).
    + apply demo_pm_inv.
    + intros a Ha [H1 H2]. cbn in H1, H2. unfold MEN_BITS_MAP in *. lia.
    + intros t Ht (i & [Hi Et] & _). rewrite !elem_of_cons, elem_of_nil in Ht. cbn in Et.
      unfold MEN_MANAGER_START in Et. lia.
  - split; [exact Hv|]. apply Hw; [lia|reflexivity].
Defined.
