(* ===== verification/Kmalloc.v ===== *)
(** Kernel heap of the 64-bit kernel: x64_kenerl/mm/malloc.c.  Buckets of
    equal blocks, one page each, chained per size class; bucket descriptors and
    the free lists threaded through the blocks live in memory.  The page
    operations are those of the interface PageAlloc. *)

From S2P Require Import Prelude Mem CString PageAlloc.
#[local] Open Scope kernel_scope.

(** ** Data *)

(** [struct bucket_desc] is five fields, 32 bytes: their offsets. *)
Definition bd_page (d : Z) : Z := d.
Definition bd_next (d : Z) : Z := d + 8.
Definition bd_freeBlock (d : Z) : Z := d + 16.
Definition bd_refCnt (d : Z) : Z := d + 24.
Definition bd_blockSize (d : Z) : Z := d + 28.
Definition sizeof_bucket_desc : Z := 32.

Record bucket_dir := BucketDir { size : Z; chain : Z }.

Definition bucket_sizes : list Z := [16; 32; 64; 128; 256; 512; 1024; 2048; 4096].

(** [static struct bucket_dir g_bucket_dir\[\]] *)
Definition g_bucket_dir_init : list bucket_dir :=
  ((fun s => BucketDir s NULL) <$> bucket_sizes) ++ [BucketDir 0 NULL].

Definition null_dir : bucket_dir := BucketDir 0 NULL.

(** The static variables of malloc.c, the page manager's state and memory. *)
Record kheap (S : Type) := KHeap {
  g_bucket_dir : list bucket_dir;
  free_bucket_chain : Z;
  lock : Z;
  pm : S;
  hmem : mem
}.
Arguments KHeap {S}.
Arguments g_bucket_dir {S}.
Arguments free_bucket_chain {S}.
Arguments lock {S}.
Arguments pm {S}.
Arguments hmem {S}.

(** ** Operations *)

(** [for(;i < maxIndex - 1; ++i) free_chain\[i\].next = &free_chain\[i+1\];] *)
Fixpoint link_descs (n : nat) (i : Z) (m : mem) (free_chain : Z) : mem :=
  match n with
  | O => m
  | S n' =>
      let m' := st64 m (bd_next (free_chain + i * sizeof_bucket_desc))
                       (free_chain + (i + 1) * sizeof_bucket_desc) in
      link_descs n' (i + 1) m' free_chain
  end.

(** [for(; i < blockNums - 1; ++i) *((u32 * )(addr + i*bs)) = addr + (i+1)*bs;]
    with [addr], [bs] and the sums all [u32]. *)
Fixpoint carve_loop (n : nat) (i : Z) (m : mem) (addr bs : Z) : mem :=
  match n with
  | O => m
  | S n' => carve_loop n' (i + 1) (st32 m (u32 (addr + i * bs)) (u32 (addr + (i + 1) * bs))) addr bs
  end.

Definition carve (m : mem) (page bs : Z) : mem :=
  let blockNums := PAGE_SIZE / bs in
  let addr := u32 page in
  let m' := carve_loop (Z.to_nat (blockNums - 1)) 0 m addr bs in
  st32 m' (u32 (addr + (blockNums - 1) * bs)) (u32 NULL).

(** The directory scan: the index of the first entry of size at least [len],
    or of the sentinel. *)
Fixpoint find_dir (dirs : list bucket_dir) (len : Z) : nat :=
  match dirs with
  | [] => O
  | d :: ds => if size d =? 0 then O else if len <=? size d then O else S (find_dir ds len)
  end.

(** [for(; chain; chain = chain->next) if(chain->freeBlock) break;] *)
Fixpoint find_free_chain (fuel : nat) (m : mem) (c : Z) : option Z :=
  match fuel with
  | O => None
  | S f =>
      if c =? 0 then Some 0
      else if truthy (ld64 m (bd_freeBlock c)) then Some c
      else find_free_chain f m (ld64 m (bd_next c))
  end.

(** [for(;chain; chain = chain->next) if(chain->page == pageAlignAddr) break;] *)
Fixpoint find_page_chain (fuel : nat) (m : mem) (c pageAlignAddr : Z) : option Z :=
  match fuel with
  | O => None
  | S f =>
      if c =? 0 then Some 0
      else if ld64 m (bd_page c) =? pageAlignAddr then Some c
      else find_page_chain f m (ld64 m (bd_next c)) pageAlignAddr
  end.

(** The search for the predecessor of [c] in its chain, and its bypass. *)
Fixpoint unlink_loop (fuel : nat) (m : mem) (pos c : Z) : option mem :=
  match fuel with
  | O => None
  | S f =>
      let nxt := ld64 m (bd_next pos) in
      if nxt =? 0 then Some m
      else if nxt =? c then Some (st64 m (bd_next pos) (ld64 m (bd_next c)))
      else unlink_loop f m nxt c
  end.

Section Heap.
Context {S : Type} `{PageOps S}.

Definition construct_free_bucket_chain (s : S) (m : mem) : Z * S * mem :=
  let '(free_chain, s', m') := get_free_page s m in
  let maxIndex := PAGE_SIZE / sizeof_bucket_desc in
  let m'' := link_descs (Z.to_nat (maxIndex - 1)) 0 m' free_chain in
  (free_chain, s',
   st64 m'' (bd_next (free_chain + (maxIndex - 1) * sizeof_bucket_desc)) NULL).

(** The branch of [kmalloc] that adds a bucket to directory entry [i]; the
    result is the new descriptor, or [None] when no page was left for the
    blocks. *)
Definition grow (i : nat) (h : kheap S) : option Z * kheap S :=
  let d := default null_dir (g_bucket_dir h !! i) in
  let '(fbc, s1, m1) :=
    if free_bucket_chain h =? 0 then construct_free_bucket_chain (pm h) (hmem h)
    else (free_bucket_chain h, pm h, hmem h) in
  let c := fbc in
  let fbc' := ld64 m1 (bd_next fbc) in
  let m2 := memset m1 c 0 sizeof_bucket_desc in
  let m3 := st32 m2 (bd_blockSize c) (size d) in
  let '(page, s4, m4) := get_free_page s1 m3 in
  let m5 := st64 m4 (bd_page c) page in
  if page =? 0 then (None, KHeap (g_bucket_dir h) fbc' (lock h) s4 m5)
  else
    let m6 := carve m5 (ld64 m5 (bd_page c)) (ld32 m5 (bd_blockSize c)) in
    let m7 := st64 m6 (bd_freeBlock c) (ld64 m6 (bd_page c)) in
    let m8 := st64 m7 (bd_next c) (chain d) in
    (Some c, KHeap (<[i := BucketDir (size d) c]> (g_bucket_dir h)) fbc' (lock h) s4 m8).

(** The tail of [kmalloc]: take the first free block of bucket [c]. *)
Definition pop_block (c : Z) (m : mem) : Z * mem :=
  let retVal := ld64 m (bd_freeBlock c) in
  let m1 := st64 m (bd_freeBlock c) (ld64 m retVal) in
  (retVal, st32 m1 (bd_refCnt c) (ld32 m1 (bd_refCnt c) + 1)).

Definition set_mem (h : kheap S) (m : mem) : kheap S :=
  KHeap (g_bucket_dir h) (free_bucket_chain h) (lock h) (pm h) m.
Definition set_lock (h : kheap S) (l : Z) : kheap S :=
  KHeap (g_bucket_dir h) (free_bucket_chain h) l (pm h) (hmem h).

(** [spin_lock(&lock)] of a single caller: spins forever on a held lock. *)
Definition heap_lock (h : kheap S) : option (kheap S) :=
  if lock h =? 0 then Some (set_lock h 1) else None.

Definition kmalloc (fuel : nat) (len : Z) (h0 : kheap S) : option (Z * kheap S) :=
  h ← heap_lock h0;
  let i := find_dir (g_bucket_dir h) (u32 len) in
  let d := default null_dir (g_bucket_dir h !! i) in
  if size d =? 0 then Some (NULL, set_lock h 0)
  else
    c ← find_free_chain fuel (hmem h) (chain d);
    match (if c =? 0 then grow i h else (Some c, h)) with
    | (None, h') => Some (NULL, set_lock h' 0)
    | (Some c', h') =>
        let '(retVal, m) := pop_block c' (hmem h') in
        Some (retVal, set_lock (set_mem h' m) 0)
    end.

(** The middle of [kfree_s]: [ptr] becomes the first free block of bucket [c]. *)
Definition push_block (c ptr : Z) (m : mem) : mem :=
  let m1 := st32 m ptr (u32 (ld64 m (bd_freeBlock c))) in
  let m2 := st64 m1 (bd_freeBlock c) ptr in
  st32 m2 (bd_refCnt c) (ld32 m2 (bd_refCnt c) - 1).

(** [kzalloc] of include/linux/mm.h *)
Definition kzalloc (fuel : nat) (len : Z) (h : kheap S) : option (Z * kheap S) :=
  '(p, h') ← kmalloc fuel len h;
  if p =? 0 then Some (p, h') else Some (p, set_mem h' (memset (hmem h') p 0 len)).

(** The release of an empty bucket: its page goes back to the page manager,
    the bucket leaves the chain of entry [i] and joins the free descriptors. *)
Definition release_bucket (fuel : nat) (i : nat) (c : Z) (h : kheap S) : option (kheap S) :=
  let d := default null_dir (g_bucket_dir h !! i) in
  let '(s1, m1) := free_page (pm h) (hmem h) (ld64 (hmem h) (bd_page c)) in
  '(dirs2, m2) ←
    (if chain d =? c then
       Some (<[i := BucketDir (size d) (ld64 m1 (bd_next c))]> (g_bucket_dir h), m1)
     else m2 ← unlink_loop fuel m1 (chain d) c; Some (g_bucket_dir h, m2));
  Some (KHeap dirs2 c (lock h) s1 (st64 m2 (bd_next c) (free_bucket_chain h))).

Definition kfree_s (fuel : nat) (ptr len : Z) (h0 : kheap S) : option (kheap S) :=
  h ← heap_lock h0;
  let i := find_dir (g_bucket_dir h) (u32 len) in
  let d := default null_dir (g_bucket_dir h !! i) in
  if size d =? 0 then Some (set_lock h 0)
  else
    let pageAlignAddr := u32 ptr .& u32 (Z.lnot 0xfff) in
    c ← find_page_chain fuel (hmem h) (chain d) pageAlignAddr;
    if c =? 0 then Some (set_lock h 0)
    else
      let m3 := push_block c ptr (hmem h) in
      let h3 := set_mem h m3 in
      if ld32 m3 (bd_refCnt c) =? 0 then
        h4 ← release_bucket fuel i c h3; Some (set_lock h4 0)
      else Some (set_lock h3 0).
End Heap.

(** ** Abstract heap *)

(** A bucket: its descriptor, its page and its free blocks, first one first. *)
Record bucket := Bucket { b_desc : Z; b_page : Z; b_free : list Z }.

(** The buckets of each size class, the free descriptors, and the pages that
    hold descriptors. *)
Record aheap := AHeap { classes : list (list bucket); spares : list Z; dpages : list Z }.

Definition class_size (i : nat) : Z := default 0 (bucket_sizes !! i).
Definition hd0 (l : list Z) : Z := default 0 (head l).
Definition hd_desc (bs : list bucket) : Z := hd0 (b_desc <$> bs).
Definition page_of (a : Z) : Z := a - a mod PAGE_SIZE.

(** [a] is one of the blocks of size [sz] of the page at [p]. *)
Definition block_of (p sz a : Z) : Prop :=
  p <= a /\ a + sz <= p + PAGE_SIZE /\ (a - p) mod sz = 0.

(** Block [a] of class [i] is handed out. *)
Definition live (A : aheap) (i : nat) (a : Z) : Prop :=
  exists bs b, classes A !! i = Some bs /\ b ∈ bs /\
    block_of (b_page b) (class_size i) a /\ a ∉ b_free b.

(** The free list threaded through the first 8 bytes of its blocks. *)
Fixpoint free_ok (m : mem) (l : list Z) : Prop :=
  match l with
  | [] => True
  | a :: l' => ld64 m a = hd0 l' /\ free_ok m l'
  end.

Definition desc_ok (m : mem) (sz : Z) (b : bucket) (nxt : Z) : Prop :=
  ld64 m (bd_page (b_desc b)) = b_page b /\ ld64 m (bd_next (b_desc b)) = nxt /\
  ld64 m (bd_freeBlock (b_desc b)) = hd0 (b_free b) /\
  ld32 m (bd_refCnt (b_desc b)) = PAGE_SIZE / sz - Z.of_nat (length (b_free b)) /\
  ld32 m (bd_blockSize (b_desc b)) = sz.

Fixpoint chain_ok (m : mem) (sz : Z) (bs : list bucket) : Prop :=
  match bs with
  | [] => True
  | b :: bs' => desc_ok m sz b (hd_desc bs') /\ free_ok m (b_free b) /\ chain_ok m sz bs'
  end.

Fixpoint spares_ok (m : mem) (l : list Z) : Prop :=
  match l with
  | [] => True
  | d :: l' => ld64 m (bd_next d) = hd0 l' /\ spares_ok m l'
  end.

Definition free_wf (sz : Z) (b : bucket) : Prop :=
  NoDup (b_free b) /\ forall a, a ∈ b_free b -> block_of (b_page b) sz a.

Definition all_descs (A : aheap) : list Z :=
  concat (fmap (M:=list) b_desc <$> classes A) ++ spares A.
Definition all_pages (A : aheap) : list Z :=
  concat (fmap (M:=list) b_page <$> classes A) ++ dpages A.

(** A page whose blocks read as null pointers in their upper half: the
    free list is written with 4-byte stores and read with 8-byte loads. *)
Definition clean_block (m : mem) (a : Z) : Prop := ld32 m (a + 4) = 0.
Definition clean_page (m : mem) (p : Z) : Prop :=
  forall a, block_of p 16 a -> clean_block m a.

Section Rep.
Context {S : Type} `{PageLaws S}.

(** The heap [h] represents the abstract heap [A]. *)
Record heap_inv (h : kheap S) (A : aheap) : Prop := {
  hi_pm : pa_inv (pm h) (hmem h);
  hi_classes : length (classes A) = 9%nat;
  hi_dirs : g_bucket_dir h =
    zip_with BucketDir bucket_sizes (hd_desc <$> classes A) ++ [BucketDir 0 NULL];
  hi_chains : forall i bs, classes A !! i = Some bs -> chain_ok (hmem h) (class_size i) bs;
  hi_wf : forall i bs b, classes A !! i = Some bs -> b ∈ bs -> free_wf (class_size i) b;
  hi_spares : spares_ok (hmem h) (spares A);
  hi_fbc : free_bucket_chain h = hd0 (spares A);
  hi_descs : NoDup (all_descs A);
  hi_desc_at : forall d, d ∈ all_descs A -> d mod 32 = 0 /\ page_of d ∈ dpages A;
  hi_pages : NoDup (all_pages A);
  hi_page_at : forall p, p ∈ all_pages A -> pa_page (pm h) p /\ ~ pa_free (pm h) (hmem h) p
}.
End Rep.
