(* ===== verification/X86Malloc.v ===== *)
(** Kernel heap of the 32-bit kernel: x86_kernel/kernel/mm/malloc.c, the earlier
    form of the heap of Kmalloc: no lock, 4-byte pointers, and a release that
    takes the empty bucket for the first of its chain. *)

From S2P Require Import Prelude Mem CString PageAlloc X86Memory Kmalloc.
#[local] Open Scope kernel_scope.

(** ** Data *)

(** [struct bucket_desc] is five 4-byte fields. *)
Definition x86_page (d : Z) : Z := d.
Definition x86_next (d : Z) : Z := d + 4.
Definition x86_freeBlock (d : Z) : Z := d + 8.
Definition x86_refCnt (d : Z) : Z := d + 12.
Definition x86_blockSize (d : Z) : Z := d + 16.
Definition sizeof_x86_bucket_desc : Z := 20.

Definition x86_g_bucket_dir_init : list bucket_dir := g_bucket_dir_init.

Record x86_kheap (S : Type) := X86Heap {
  x86_g_bucket_dir : list bucket_dir;
  x86_free_bucket_chain : Z;
  x86_pm : S;
  x86_mem : mem
}.
Arguments X86Heap {S}.
Arguments x86_g_bucket_dir {S}.
Arguments x86_free_bucket_chain {S}.
Arguments x86_pm {S}.
Arguments x86_mem {S}.

(** ** Operations *)

(** [for(;i < maxIndex - 1; ++i) free_chain\[i\].next = &free_chain\[i+1\];] *)
Fixpoint x86_link_descs (n : nat) (i : Z) (m : mem) (free_chain : Z) : mem :=
  match n with
  | O => m
  | S n' =>
      let m := st32 m (x86_next (free_chain + i * sizeof_x86_bucket_desc))
                 (free_chain + (i + 1) * sizeof_x86_bucket_desc) in
      x86_link_descs n' (i + 1) m free_chain
  end.

Fixpoint x86_carve_loop (n : nat) (i : Z) (m : mem) (addr bs : Z) : mem :=
  match n with
  | O => m
  | S n' => x86_carve_loop n' (i + 1) (st32 m (u32 (addr + i * bs)) (u32 (addr + (i + 1) * bs))) addr bs
  end.

Definition x86_carve (m : mem) (page bs : Z) : mem :=
  let blockNums := PAGE_SIZE / bs in
  let addr := u32 page in
  let m := x86_carve_loop (Z.to_nat (blockNums - 1)) 0 m addr bs in
  st32 m (u32 (addr + (blockNums - 1) * bs)) (u32 NULL).

(** The two walks over a chain: to a bucket with a free block, to the bucket of
    a page. *)
Fixpoint x86_find_free (fuel : nat) (m : mem) (c : Z) : option Z :=
  match fuel with
  | O => None
  | S f =>
      if c =? 0 then Some 0
      else if truthy (ld32 m (x86_freeBlock c)) then Some c
      else x86_find_free f m (ld32 m (x86_next c))
  end.

Fixpoint x86_find_page (fuel : nat) (m : mem) (c pageAlignAddr : Z) : option Z :=
  match fuel with
  | O => None
  | S f =>
      if c =? 0 then Some 0
      else if ld32 m (x86_page c) =? pageAlignAddr then Some c
      else x86_find_page f m (ld32 m (x86_next c)) pageAlignAddr
  end.

Section Heap.
Context {S : Type} `{PageOps S}.
Implicit Types (h : x86_kheap S).

Definition x86_construct_free_bucket_chain (s : S) (m : mem) : Z * S * mem :=
  let '(free_chain, s, m) := get_free_page s m in
  let maxIndex := PAGE_SIZE / sizeof_x86_bucket_desc in
  let m := x86_link_descs (Z.to_nat (maxIndex - 1)) 0 m free_chain in
  (free_chain, s, st32 m (x86_next (free_chain + (maxIndex - 1) * sizeof_x86_bucket_desc)) NULL).

(** The branch of [kmalloc] that adds a bucket to entry [i]. *)
Definition x86_grow (i : nat) h : option Z * x86_kheap S :=
  let d := default null_dir (x86_g_bucket_dir h !! i) in
  let '(c, s, m) :=
    if x86_free_bucket_chain h =? 0 then x86_construct_free_bucket_chain (x86_pm h) (x86_mem h)
    else (x86_free_bucket_chain h, x86_pm h, x86_mem h) in
  let fbc := ld32 m (x86_next c) in
  let m := memset m c 0 sizeof_x86_bucket_desc in
  let m := st32 m (x86_blockSize c) (size d) in
  let '(page, s, m) := get_free_page s m in
  let m := st32 m (x86_page c) page in
  if page =? 0 then (None, X86Heap (x86_g_bucket_dir h) fbc s m)
  else
    let m := x86_carve m (ld32 m (x86_page c)) (ld32 m (x86_blockSize c)) in
    let m := st32 m (x86_freeBlock c) (ld32 m (x86_page c)) in
    let m := st32 m (x86_next c) (chain d) in
    (Some c, X86Heap (<[i := BucketDir (size d) c]> (x86_g_bucket_dir h)) fbc s m).

Definition x86_kmalloc (fuel : nat) (len : Z) h : option (Z * x86_kheap S) :=
  let i := find_dir (x86_g_bucket_dir h) (u32 len) in
  let d := default null_dir (x86_g_bucket_dir h !! i) in
  if size d =? 0 then Some (NULL, h)
  else
    c ← x86_find_free fuel (x86_mem h) (chain d);
    match (if c =? 0 then x86_grow i h else (Some c, h)) with
    | (None, h) => Some (NULL, h)
    | (Some c, h) =>
        let m := x86_mem h in
        let retVal := ld32 m (x86_freeBlock c) in
        let m := st32 m (x86_freeBlock c) (ld32 m retVal) in
        let m := st32 m (x86_refCnt c) (ld32 m (x86_refCnt c) + 1) in
        Some (retVal, X86Heap (x86_g_bucket_dir h) (x86_free_bucket_chain h) (x86_pm h) m)
    end.

(** [ptr] becomes the first free block of bucket [c]. *)
Definition x86_push_block (c ptr : Z) (m : mem) : mem :=
  let m := st32 m ptr (ld32 m (x86_freeBlock c)) in
  let m := st32 m (x86_freeBlock c) ptr in
  st32 m (x86_refCnt c) (ld32 m (x86_refCnt c) - 1).

Definition x86_kfree_s (fuel : nat) (ptr len : Z) h : option (x86_kheap S) :=
  let i := find_dir (x86_g_bucket_dir h) (u32 len) in
  let d := default null_dir (x86_g_bucket_dir h !! i) in
  if size d =? 0 then Some h
  else
    let pageAlignAddr := u32 ptr .& u32 (Z.lnot 0xfff) in
    c ← x86_find_page fuel (x86_mem h) (chain d) pageAlignAddr;
    if c =? 0 then Some h
    else
      let m := x86_push_block c ptr (x86_mem h) in
      if ld32 m (x86_refCnt c) =? 0 then
        let '(s, m) := free_page (x86_pm h) m (ld32 m (x86_page c)) in
        let dirs := <[i := BucketDir (size d) (ld32 m (x86_next c))]> (x86_g_bucket_dir h) in
        let m := st32 m (x86_next c) (x86_free_bucket_chain h) in
        Some (X86Heap dirs c s m)
      else Some (X86Heap (x86_g_bucket_dir h) (x86_free_bucket_chain h) (x86_pm h) m).
End Heap.

(** ** A released bucket takes those before it along *)

(** The descriptors from [c] are [l], none of them at 0. *)
Fixpoint x86_chain (m : mem) (c : Z) (l : list Z) : Prop :=
  match l with
  | [] => c = 0
  | d :: l => c = d /\ d <> 0 /\ x86_chain m (ld32 m (x86_next d)) l
  end.

(** The page of a pointer, as [kfree_s] computes it. *)
Definition page_of_ptr (ptr : Z) : Z := u32 ptr .& u32 (Z.lnot 0xfff).

Lemma x86_find_page_skip m l1 l2 c q fuel : x86_chain m c (l1 ++ l2) ->
  (forall d, d ∈ l1 -> ld32 m (x86_page d) <> q) ->
  x86_find_page (length l1 + fuel) m c q =
    x86_find_page fuel m (match l2 with [] => 0 | d :: _ => d end) q.
Proof.
  revert c. induction l1 as [|d l1 IH]; intros c Hc Hq; cbn [length Nat.add app] in *.
  - destruct l2 as [|d l2]; cbn in Hc; [by rewrite Hc|]. by destruct Hc as [-> _].
  - destruct Hc as (-> & Hd & Hc). cbn [x86_find_page].
    destruct (Z.eqb_spec d 0); [done|].
    destruct (Z.eqb_spec (ld32 m (x86_page d)) q) as [E|_]; [by destruct (Hq d); [left|]|].
    apply IH; [done|]. intros e He. apply Hq. by right.
Qed.

Section Lost.
Context {S : Type} `{PageLaws S}.
Implicit Types (h : x86_kheap S).

(** The block at [ptr] and the manager's bytes are off descriptor [d]. *)
Definition x86_apart h (ptr d : Z) : Prop :=
  (ptr + 4 <= d \/ d + 20 <= ptr) /\ forall a, d <= a < d + 20 -> ~ pa_foot (x86_pm h) a.

Lemma x86_push_fields c ptr m : ptr + 4 <= c \/ c + 20 <= ptr ->
  let m' := x86_push_block c ptr m in
  ld32 m' (x86_refCnt c) = u32 (ld32 m (x86_refCnt c) - 1) /\
  ld32 m' (x86_page c) = ld32 m (x86_page c) /\ ld32 m' (x86_next c) = ld32 m (x86_next c).
Proof.
  intros Hp m'. unfold m', x86_push_block, x86_refCnt, x86_page, x86_next, x86_freeBlock.
  rewrite ld32_st32. unfold ld32, st32. rewrite !ldn_stn_ne by lia. done.
Qed.

Lemma x86_chain_last m c l1 d : x86_chain m c (l1 ++ [d]) -> d <> 0 /\ ld32 m (x86_next d) = 0.
Proof.
  revert c. induction l1 as [|e l1 IH]; intros c Hc; cbn in Hc.
  - by destruct Hc as (-> & Hd & Hn).
  - destruct Hc as (_ & _ & Hc). by eapply IH.
Qed.

(** New buckets are put in front, so the oldest is the last of its chain.  When
    its last block is released, the chain of the size class becomes empty: the
    buckets in front of it stay out of reach, and every later release of a block
    of that size does nothing at all. *)
Theorem x86_kfree_s_loses_buckets h ptr len l1 c fuel :
  let i := find_dir (x86_g_bucket_dir h) (u32 len) in
  let d := default null_dir (x86_g_bucket_dir h !! i) in
  let m := x86_mem h in
  let q := page_of_ptr ptr in
  (i < length (x86_g_bucket_dir h))%nat -> size d <> 0 ->
  x86_chain m (chain d) (l1 ++ [c]) -> (forall e, e ∈ l1 -> ld32 m (x86_page e) <> q) ->
  ld32 m (x86_page c) = q -> ld32 m (x86_refCnt c) = 1 ->
  x86_apart h ptr c -> (forall a, ptr <= a < ptr + 4 -> ~ pa_foot (x86_pm h) a) ->
  pa_inv (x86_pm h) m -> pa_page (x86_pm h) q -> ~ pa_free (x86_pm h) m q ->
  (length l1 < fuel)%nat ->
  exists h', x86_kfree_s fuel ptr len h = Some h' /\
    x86_g_bucket_dir h' = <[i := BucketDir (size d) NULL]> (x86_g_bucket_dir h) /\
    pa_free (x86_pm h') (x86_mem h') q /\
    forall p fuel', find_dir (x86_g_bucket_dir h') (u32 len) = i ->
      x86_kfree_s (Datatypes.S fuel') p len h' = Some h'.
Proof.
  intros i d m q Hi Hsz Hc Hpg Hq Hr [Hap Hcf] Hpf Hinv Hpp Hnf Hfuel.
  destruct (x86_chain_last m (chain d) l1 c Hc) as [Hc0 Hnext].
  assert (x86_find_page fuel m (chain d) q = Some c) as Hfind.
  { replace fuel with (length l1 + Datatypes.S (fuel - length l1 - 1))%nat by lia.
    rewrite (x86_find_page_skip m l1 [c] (chain d) q) by done. cbn [x86_find_page].
    destruct (Z.eqb_spec c 0); [done|]. by rewrite Hq, Z.eqb_refl. }
  destruct (x86_push_fields c ptr m Hap) as (Hr' & Hq' & Hn').
  set (m1 := x86_push_block c ptr m) in *. rewrite Hr in Hr'. rewrite Hq in Hq'. rewrite Hnext in Hn'.
  assert (forall a, pa_foot (x86_pm h) a -> ld8 m1 a = ld8 m a) as Hfoot.
  { intros a Ha. unfold m1, x86_push_block, st32, x86_refCnt, x86_freeBlock.
    assert (~ c <= a < c + 20) by (intros Hx; by apply (Hcf a)).
    assert (~ ptr <= a < ptr + 4) by (intros Hx; by apply (Hpf a)).
    rewrite !ld8_stn_ne by lia. done. }
  destruct (pa_frame (x86_pm h) m m1 Hinv Hfoot) as [Hinv1 Hfree1].
  destruct (free_page (x86_pm h) m1 q) as [s2 m2] eqn:Ef.
  destruct (pa_put (x86_pm h) m1 q s2 m2) as (Hinv2 & Hfree2 & _ & Hft2 & Hm2); [done|done|by rewrite Hfree1|done|].
  assert (ld32 m2 (x86_next c) = 0) as Hn2.
  { rewrite <- Hn'. apply ldn_ext. intros a Ha. apply Hm2, Hcf. unfold x86_next in Ha. lia. }
  eexists. split; [|split; [|split]].
  - unfold x86_kfree_s. fold i. fold d. destruct (Z.eqb_spec (size d) 0); [contradiction|].
    fold (page_of_ptr ptr). fold q. fold m. rewrite Hfind. cbn [mbind option_bind].
    destruct (Z.eqb_spec c 0); [contradiction|]. fold m1. rewrite Hr', Hq'.
    change (u32 (1 - 1)) with 0. rewrite Z.eqb_refl, Ef. reflexivity.
  - cbn [x86_g_bucket_dir]. by rewrite Hn2.
  - cbn [x86_pm x86_mem]. apply (pa_frame s2 m2); [done| |apply Hfree2; by right].
    intros a Ha. apply ld8_stn_ne. apply Hft2 in Ha. unfold x86_next.
    assert (~ c <= a < c + 20) by (intros Hx; by apply (Hcf a)). lia.
  - intros p fuel' Hi'. cbn [x86_g_bucket_dir] in Hi'. unfold x86_kfree_s. cbn [x86_g_bucket_dir x86_mem].
    rewrite Hi', list_lookup_insert_eq by done. cbn [default from_option id size chain].
    destruct (Z.eqb_spec (size d) 0); [contradiction|]. rewrite Hn2. reflexivity.
Qed.
End Lost.

(** ** Witness *)

(** Three pages of memory: descriptors, and two buckets of two 2 KiB blocks; the
    older has one block left, the newer one block in use. *)
Definition heap_or {S} (h : x86_kheap S) (o : option (x86_kheap S)) : x86_kheap S := default h o.
Definition x86_heap0 : x86_kheap x86_pages_manager_t :=
  X86Heap x86_g_bucket_dir_init 0 (fst small_mm) (snd small_mm).
Definition x86_alloc (h : x86_kheap x86_pages_manager_t) : x86_kheap x86_pages_manager_t :=
  heap_or h (snd <$> x86_kmalloc 8 2048 h).
Definition x86_heap1 : x86_kheap x86_pages_manager_t :=
  heap_or x86_heap0 (x86_kfree_s 8 0x101000 2048 (x86_alloc (x86_alloc (x86_alloc x86_heap0)))).

(** The directory entry, the newer and the older bucket. *)
Example x86_heap1_chain : find_dir (x86_g_bucket_dir x86_heap1) (u32 2048) = 7%nat /\
  x86_g_bucket_dir x86_heap1 !! 7%nat = Some (BucketDir 2048 0x100014) /\
  ld32 (x86_mem x86_heap1) (x86_next 0x100014) = 0x100000 /\
  ld32 (x86_mem x86_heap1) (x86_refCnt 0x100014) = 1.
Proof. vm_compute. done. Qed.

Lemma x86_heap1_foot a : x86_phy_foot (x86_pm x86_heap1) a -> 0x9000 <= a < 0x9003.
Proof.
  unfold x86_phy_foot.
  assert (phy_map (x86_pm x86_heap1) = 0x9000) as -> by (vm_compute; reflexivity).
  assert (phy_map_size (x86_pm x86_heap1) = 3) as -> by (vm_compute; reflexivity). lia.
Qed.

Lemma x86_kfree_s_loses_buckets_witness : exists h',
  x86_kfree_s 8 0x101800 2048 x86_heap1 = Some h' /\
  forall p, x86_kfree_s 1 p 2048 h' = Some h'.
Proof.
  destruct (x86_kfree_s_loses_buckets x86_heap1 0x101800 2048 [0x100014] 0x100000 8) as (h' & E & Ed & _ & Hp).
  - vm_compute. lia.
  - vm_compute. discriminate.
  - cbn [app x86_chain]. split; [|split; [done|split; [|split; [done|]]]]; vm_compute; reflexivity.
  - intros e He. apply list_elem_of_singleton in He as ->. vm_compute. discriminate.
  - vm_compute. reflexivity.
  - vm_compute. reflexivity.
  - split; [right; lia|]. intros a Ha Hf. apply x86_heap1_foot in Hf. lia.
  - intros a Ha Hf. apply x86_heap1_foot in Hf. lia.
  - apply (bool_decide_unpack _). vm_compute. exact I.
  - exists 1. split; [|vm_compute; reflexivity].
    assert (phy_map_size (x86_pm x86_heap1) = 3) as -> by (vm_compute; reflexivity). lia.
  - intros (i & [Hi Ei] & Hz). change (page_of_ptr 0x101800) with 0x101000 in Ei.
    assert (i = 1) as -> by (unfold MEM_MANAGER_ADDR in Ei; lia). vm_compute in Hz. discriminate.
  - cbn. lia.
  - exists h'. split; [exact E|]. intros p. apply (Hp p 0%nat).
    rewrite Ed. vm_compute. reflexivity.
Defined.
