(* ===== verification/KmallocLemmas.v ===== *)
(** Lemmas on the heap representation of Kmalloc: geometry of pages, blocks and
    descriptors, framing of the linked structures, and the effect of the memory
    loops of malloc.c. *)

From S2P Require Import Prelude Mem CString PageAlloc Kmalloc.

(** ** Geometry *)

(** Memory [m'] differs from [m] only on [[lo, hi)]. *)
Definition same_out (lo hi : Z) (m' m : mem) : Prop :=
  forall x, x < lo \/ hi <= x -> ld8 m' x = ld8 m x.

Lemma same_out_agree lo hi m' m a b :
  same_out lo hi m' m -> b <= lo \/ hi <= a -> agree a b m' m.
Proof. intros H Hd x Hx. apply H. lia. Qed.

Lemma same_out_trans lo hi m1 m2 m3 :
  same_out lo hi m1 m2 -> same_out lo hi m2 m3 -> same_out lo hi m1 m3.
Proof. intros H1 H2 x Hx. by rewrite H1, H2. Qed.

Lemma same_out_stn lo hi n m a v :
  lo <= a -> a + Z.of_nat n <= hi -> same_out lo hi (stn n m a v) m.
Proof. intros ?? x Hx. apply ld8_stn_ne. lia. Qed.

Lemma same_out_refl lo hi m : same_out lo hi m m.
Proof. done. Qed.

Lemma same_out_memset lo hi m p ch n :
  lo <= p -> p + u32 n <= hi -> same_out lo hi (memset m p ch n) m.
Proof.
  intros ?? x Hx. rewrite memset_ld8.
  destruct (p <=? x) eqn:?, (x <? p + u32 n) eqn:?; bool_hyps; done || lia.
Qed.
#[export] Hint Resolve same_out_refl : kernel.

Lemma class_size_cases i :
  (i < 9)%nat -> class_size i ∈ bucket_sizes.
Proof.
  intros Hi. unfold class_size. do 9 (destruct i as [|i]; [cbn; set_solver|]). lia.
Qed.

Lemma class_size_pos i : (i < 9)%nat -> 16 <= class_size i <= 4096.
Proof.
  intros Hi. apply class_size_cases in Hi. unfold bucket_sizes in Hi.
  rewrite !elem_of_cons, elem_of_nil in Hi. lia.
Qed.

Lemma class_size_div i :
  (i < 9)%nat -> exists k, PAGE_SIZE = class_size i * k /\ 0 < k /\ class_size i mod 16 = 0.
Proof.
  intros Hi. exists (PAGE_SIZE / class_size i).
  do 9 (destruct i as [|i]; [repeat split; vm_compute; done|]). lia.
Qed.

Lemma class_size_mod i : (i < 9)%nat -> PAGE_SIZE mod class_size i = 0.
Proof. intros (k & -> & Hk & _)%class_size_div. rewrite Z.mul_comm. by apply Z_mod_mult. Qed.

(** How many blocks a page of the class holds. *)
Lemma class_count i : (i < 9)%nat -> 0 < PAGE_SIZE / class_size i <= 256.
Proof. intros Hi. do 9 (destruct i as [|i]; [vm_compute; done|]). lia. Qed.

Section Geometry.
Context (p sz a : Z) (Hp : p mod PAGE_SIZE = 0) (Hsz : 16 <= sz) (Hb : block_of p sz a).

Lemma block_page_of : page_of a = p.
Proof. destruct Hb as (? & ? & _). unfold page_of, PAGE_SIZE in *. zlia. Qed.

Lemma block_same_page x : a <= x < a + 16 -> page_of x = p.
Proof. destruct Hb as (? & ? & _). intros. unfold page_of, PAGE_SIZE in *. zlia. Qed.
End Geometry.

Lemma desc_same_page d x : d mod 32 = 0 -> d <= x < d + 32 -> page_of x = page_of d.
Proof. intros. unfold page_of, PAGE_SIZE. zlia. Qed.

Lemma descs_disjoint c d :
  c mod 32 = 0 -> d mod 32 = 0 -> c <> d -> d + 32 <= c \/ c + 32 <= d.
Proof. intros. zlia. Qed.

Lemma blocks_disjoint p sz a b :
  16 <= sz -> block_of p sz a -> block_of p sz b -> a <> b -> b + sz <= a \/ a + sz <= b.
Proof.
  intros Hsz (Ha & _ & Ham) (Hb & _ & Hbm) Hne.
  apply Z.mod_divide in Ham as [i Hi], Hbm as [j Hj]; [|lia..].
  assert (i <> j) by (intros ->; lia). nia.
Qed.

(** Objects on different pages do not overlap. *)
Lemma pages_disjoint lo hi a b :
  (forall x, a <= x < b -> page_of x <> page_of lo) ->
  (forall x, lo <= x < hi -> page_of x = page_of lo) ->
  a < b -> lo < hi -> b <= lo \/ hi <= a.
Proof.
  intros H1 H2 Hab Hlh.
  destruct (decide (b <= lo)) as [|Hn1]; [by left|].
  destruct (decide (hi <= a)) as [|Hn2]; [by right|].
  exfalso. apply (H1 (Z.max a lo)); [lia|]. apply H2. lia.
Qed.

(** ** Frames *)

Lemma free_ok_frame m m' l :
  free_ok m l -> (forall a, a ∈ l -> agree a (a + 8) m' m) -> free_ok m' l.
Proof.
  induction l as [|a l IH]; cbn [free_ok]; [done|]. intros [Ha Hl] Hf. split.
  - rewrite <- Ha. apply (agree_ldn a (a + 8) 8); [|lia..]. apply Hf. set_solver.
  - apply IH; [done|]. intros b Hb. apply Hf. set_solver.
Qed.

Lemma desc_ok_frame m m' sz b nxt :
  desc_ok m sz b nxt -> agree (b_desc b) (b_desc b + 32) m' m -> desc_ok m' sz b nxt.
Proof.
  intros (H1 & H2 & H3 & H4 & H5) Ha. unfold desc_ok.
  assert (forall k o, 0 <= o -> o + Z.of_nat k <= 32 ->
    ldn k m' (b_desc b + o) = ldn k m (b_desc b + o)) as E.
  { intros k o ??. eapply agree_ldn; [exact Ha|lia..]. }
  unfold bd_page, bd_next, bd_freeBlock, bd_refCnt, bd_blockSize, ld64, ld32 in *.
  rewrite <- (Z.add_0_r (b_desc b)) in H1 at 1. rewrite <- (Z.add_0_r (b_desc b)) at 1.
  rewrite !E by lia. done.
Qed.

Lemma chain_ok_frame m m' sz bs :
  chain_ok m sz bs ->
  (forall b, b ∈ bs -> agree (b_desc b) (b_desc b + 32) m' m /\
     forall a, a ∈ b_free b -> agree a (a + 8) m' m) ->
  chain_ok m' sz bs.
Proof.
  induction bs as [|b bs IH]; cbn [chain_ok]; [done|]. intros (Hd & Hfr & Hc) Hf.
  destruct (Hf b ltac:(set_solver)) as [Hdb Hab]. split; [|split].
  - by eapply desc_ok_frame.
  - by eapply free_ok_frame.
  - apply IH; [done|]. intros b' Hb'. apply Hf. set_solver.
Qed.

Lemma spares_ok_frame m m' l :
  spares_ok m l -> (forall d, d ∈ l -> agree d (d + 32) m' m) -> spares_ok m' l.
Proof.
  induction l as [|d l IH]; cbn [spares_ok]; [done|]. intros [Hd Hl] Hf. split.
  - rewrite <- Hd. unfold bd_next. eapply (agree_ldn d (d + 32) 8); [|lia..].
    apply Hf. set_solver.
  - apply IH; [done|]. intros b Hb. apply Hf. set_solver.
Qed.

(** A chain in the middle of which one bucket is replaced by another with the
    same descriptor. *)
Lemma chain_ok_replace m m' sz bs1 b b' bs2 :
  chain_ok m sz (bs1 ++ b :: bs2) -> b_desc b' = b_desc b ->
  (forall c, c ∈ bs1 \/ c ∈ bs2 -> agree (b_desc c) (b_desc c + 32) m' m /\
     forall a, a ∈ b_free c -> agree a (a + 8) m' m) ->
  desc_ok m' sz b' (hd_desc bs2) -> free_ok m' (b_free b') ->
  chain_ok m' sz (bs1 ++ b' :: bs2).
Proof.
  intros Hc Hdesc Hf Hd Hfr. induction bs1 as [|c bs1 IH]; cbn [app chain_ok] in *.
  - destruct Hc as (_ & _ & Hc). split; [done|]. split; [done|].
    eapply chain_ok_frame; [done|]. intros c Hcin. apply Hf. by right.
  - destruct Hc as (Hdc & Hfc & Hc).
    destruct (Hf c ltac:(left; set_solver)) as [Hac Hbc].
    split; [|split].
    + replace (hd_desc (bs1 ++ b' :: bs2)) with (hd_desc (bs1 ++ b :: bs2)).
      { by eapply desc_ok_frame. }
      unfold hd_desc. destruct bs1; cbn; [by rewrite Hdesc|done].
    + by eapply free_ok_frame.
    + apply IH; [done|]. intros c' Hc'. apply Hf. set_solver.
Qed.

Lemma chain_ok_desc m sz bs1 b bs2 :
  chain_ok m sz (bs1 ++ b :: bs2) -> desc_ok m sz b (hd_desc bs2) /\ free_ok m (b_free b).
Proof.
  induction bs1 as [|c bs1 IH]; cbn [app chain_ok].
  - intros (? & ? & _). done.
  - intros (_ & _ & H). by apply IH.
Qed.

(** ** Searches *)

Lemma find_free_chain_spec fuel m sz bs :
  chain_ok m sz bs -> (length bs < fuel)%nat -> Forall (fun b => b_desc b <> 0) bs ->
  Forall (fun b => Forall (fun a => a <> 0) (b_free b)) bs ->
  (find_free_chain fuel m (hd_desc bs) = Some 0 /\ Forall (fun b => b_free b = []) bs) \/
  (exists bs1 b bs2 r fl, bs = bs1 ++ b :: bs2 /\ b_free b = r :: fl /\
     find_free_chain fuel m (hd_desc bs) = Some (b_desc b)).
Proof.
  revert bs. induction fuel as [|fuel IH]; intros bs Hc Hf Hd Hn; [lia|].
  destruct bs as [|b bs]; [left; done|].
  apply Forall_cons in Hd as [Hdb Hd], Hn as [Hnb Hn].
  cbn [chain_ok length] in *. destruct Hc as ((_ & Hnx & Hfb & _) & _ & Hc).
  cbn [find_free_chain]. change (hd_desc (b :: bs)) with (b_desc b).
  apply Z.eqb_neq in Hdb as ->. rewrite Hfb.
  destruct (b_free b) as [|r fl] eqn:E.
  - cbn. rewrite Hnx. destruct (IH bs Hc ltac:(lia) Hd Hn)
      as [[-> Hall] | (bs1 & b' & bs2 & r & fl & -> & Hb' & ->)].
    + left. split; [done|]. by constructor.
    + right. by exists (b :: bs1), b', bs2, r, fl.
  - right. exists [], b, bs, r, fl. split; [done|]. split; [done|].
    apply Forall_cons in Hnb as [Hr _]. unfold hd0. cbn.
    unfold truthy. apply Z.eqb_neq in Hr as ->. done.
Qed.

Lemma find_page_chain_spec fuel m sz bs1 b bs2 :
  chain_ok m sz (bs1 ++ b :: bs2) -> (length bs1 < fuel)%nat ->
  Forall (fun b => b_desc b <> 0) (bs1 ++ b :: bs2) ->
  Forall (fun c => b_page c <> b_page b) bs1 ->
  find_page_chain fuel m (hd_desc (bs1 ++ b :: bs2)) (b_page b) = Some (b_desc b).
Proof.
  revert bs1. induction fuel as [|fuel IH]; intros bs1 Hc Hf Hd Hp; [lia|].
  destruct bs1 as [|c bs1]; cbn [app length chain_ok] in *.
  - apply Forall_cons in Hd as [Hdb _]. destruct Hc as ((Hpg & _) & _).
    cbn [find_page_chain]. change (hd_desc (b :: bs2)) with (b_desc b).
    apply Z.eqb_neq in Hdb as ->. by rewrite Hpg, Z.eqb_refl.
  - apply Forall_cons in Hd as [Hdb Hd], Hp as [Hpc Hp].
    destruct Hc as ((Hpg & Hnx & _) & _ & Hc).
    cbn [find_page_chain]. change (hd_desc (c :: bs1 ++ b :: bs2)) with (b_desc c).
    apply Z.eqb_neq in Hdb as ->. rewrite Hpg. apply Z.eqb_neq in Hpc as ->.
    rewrite Hnx. apply IH; [done|lia|done..].
Qed.

Lemma find_page_chain_none fuel m sz bs p :
  chain_ok m sz bs -> (length bs < fuel)%nat ->
  Forall (fun b => b_desc b <> 0) bs -> Forall (fun c => b_page c <> p) bs ->
  find_page_chain fuel m (hd_desc bs) p = Some 0.
Proof.
  revert bs. induction fuel as [|fuel IH]; intros bs Hc Hf Hd Hp; [lia|].
  destruct bs as [|c bs]; cbn [length chain_ok] in *; [done|].
  apply Forall_cons in Hd as [Hdb Hd], Hp as [Hpc Hp].
  destruct Hc as ((Hpg & Hnx & _) & _ & Hc).
  cbn [find_page_chain]. change (hd_desc (c :: bs)) with (b_desc c).
  apply Z.eqb_neq in Hdb as ->. rewrite Hpg. apply Z.eqb_neq in Hpc as ->.
  rewrite Hnx. apply IH; [done|lia|done..].
Qed.

(** ** Memory loops *)

Lemma link_descs_out n i m base :
  0 <= i ->
  same_out (base + i * 32) (base + (i + Z.of_nat n) * 32) (link_descs n i m base) m.
Proof.
  revert i m. induction n as [|n IH]; intros i m Hi x Hx; cbn [link_descs]; [done|].
  rewrite IH by lia. unfold st64, bd_next, sizeof_bucket_desc. apply ld8_stn_ne. lia.
Qed.

Lemma link_descs_next n i m base k :
  0 <= base -> base + (i + Z.of_nat n) * 32 < 18446744073709551616 ->
  0 <= i <= k -> k < i + Z.of_nat n ->
  ld64 (link_descs n i m base) (bd_next (base + k * 32)) = base + (k + 1) * 32.
Proof.
  revert i m. induction n as [|n IH]; intros i m Hb Hu Hi Hk; cbn [link_descs]; [lia|].
  destruct (decide (k = i)) as [->|Hne].
  - unfold ld64. rewrite (ldn_ext 8 _ (st64 m (bd_next (base + i * 32)) (base + (i + 1) * 32))).
    + fold ld64. rewrite ld64_st64. apply u64_small. lia.
    + intros x Hx. unfold sizeof_bucket_desc. apply link_descs_out; unfold bd_next in *; lia.
  - apply IH; lia.
Qed.

(** The blocks of a page in order: [n] of them, [bs] apart, from [a]. *)
Fixpoint block_list (n : nat) (a bs : Z) : list Z :=
  match n with
  | O => []
  | S n' => a :: block_list n' (a + bs) bs
  end.

Definition page_blocks (p bs : Z) : list Z := block_list (Z.to_nat (PAGE_SIZE / bs)) p bs.

Lemma length_block_list n a bs : length (block_list n a bs) = n.
Proof. revert a. induction n as [|n IH]; intros a; cbn; [done|]. by rewrite IH. Qed.

Lemma elem_of_block_list n a bs x :
  x ∈ block_list n a bs <-> exists k, 0 <= k < Z.of_nat n /\ x = a + k * bs.
Proof.
  revert a. induction n as [|n IH]; intros a; cbn [block_list].
  - rewrite elem_of_nil. split; [done|]. intros (k & ? & _). lia.
  - rewrite elem_of_cons, IH. split.
    + intros [->|(k & ? & ->)]; [exists 0; lia|]. exists (k + 1). lia.
    + intros (k & Hk & ->). destruct (decide (k = 0)) as [->|]; [left; lia|].
      right. exists (k - 1). lia.
Qed.

Lemma NoDup_block_list n a bs : 0 < bs -> NoDup (block_list n a bs).
Proof.
  intros Hb. revert a. induction n as [|n IH]; intros a; cbn; constructor; [|apply IH].
  rewrite elem_of_block_list. intros (k & ? & ?). nia.
Qed.

Section Carve.
Context (p bs n : Z) (Hp : 0 <= p) (Hp4 : p + n * bs <= 4294967296)
  (Hbs : 16 <= bs) (Hn : 0 < n).

Lemma carve_loop_out c i m :
  0 <= i -> i + Z.of_nat c <= n ->
  same_out (p + i * bs) (p + (i + Z.of_nat c) * bs) (carve_loop c i m p bs) m.
Proof.
  revert i m. induction c as [|c IH]; intros i m Hi Hc x Hx; cbn [carve_loop]; [done|].
  rewrite IH by nia. rewrite u32_small by nia. unfold st32. apply ld8_stn_ne. nia.
Qed.

(** The loop writes the low word of each block's link, and nothing else of it. *)
Lemma carve_loop_word c i m j :
  0 <= i <= j -> j < i + Z.of_nat c -> i + Z.of_nat c < n ->
  ld32 (carve_loop c i m p bs) (p + j * bs) = p + (j + 1) * bs.
Proof.
  revert i m. induction c as [|c IH]; intros i m Hi Hj Hc; cbn [carve_loop]; [lia|].
  destruct (decide (j = i)) as [->|Hne].
  - rewrite (u32_small (p + i * bs)) by nia. rewrite (u32_small (p + (i + 1) * bs)) by nia.
    unfold ld32. rewrite (ldn_ext 4 _ (st32 m (p + i * bs) (p + (i + 1) * bs))).
    + fold ld32. rewrite ld32_st32. apply u32_small. nia.
    + intros x Hx. apply carve_loop_out; nia.
  - apply IH; lia.
Qed.

Lemma carve_loop_other c i m j :
  0 <= i -> i + Z.of_nat c <= n -> 0 <= j ->
  ld32 (carve_loop c i m p bs) (p + j * bs + 4) = ld32 m (p + j * bs + 4).
Proof.
  revert i m. induction c as [|c IH]; intros i m Hi Hc Hj; cbn [carve_loop]; [done|].
  rewrite IH by lia. rewrite u32_small by nia. unfold ld32, st32. apply ldn_stn_ne.
  destruct (decide (j < i)); [left|right]; nia.
Qed.
End Carve.

Lemma block_count bs :
  0 < bs -> PAGE_SIZE mod bs = 0 -> PAGE_SIZE / bs * bs = PAGE_SIZE.
Proof. intros ? H. apply Z.mod_divide in H as [k Hk]; [|lia]. rewrite Hk, Z.div_mul; lia. Qed.

Lemma free_ok_block_list m n a bs :
  (forall k, 0 <= k -> k + 1 < Z.of_nat n -> ld64 m (a + k * bs) = a + (k + 1) * bs) ->
  ((0 < n)%nat -> ld64 m (a + (Z.of_nat n - 1) * bs) = 0) ->
  free_ok m (block_list n a bs).
Proof.
  revert a. induction n as [|n IH]; intros a Hl Hlast; cbn [block_list free_ok]; [done|].
  split.
  - destruct n as [|n]; cbn.
    + specialize (Hlast ltac:(lia)). rewrite <- Hlast. f_equal. lia.
    + specialize (Hl 0 ltac:(lia) ltac:(lia)). rewrite Z.mul_0_l, Z.add_0_r in Hl.
      rewrite Hl. unfold hd0. cbn. lia.
  - apply IH.
    + intros k Hk0 Hk. specialize (Hl (k + 1) ltac:(lia) ltac:(lia)).
      replace (a + bs + k * bs) with (a + (k + 1) * bs) by lia. rewrite Hl. lia.
    + intros Hn. specialize (Hlast ltac:(lia)). rewrite <- Hlast. f_equal. lia.
Qed.

Section CarvePage.
Context (m : mem) (p bs : Z) (Hp : 0 <= p) (Hp4 : p + PAGE_SIZE <= 4294967296)
  (Hbs : 16 <= bs) (Hdiv : PAGE_SIZE mod bs = 0).

Lemma carve_out : same_out p (p + PAGE_SIZE) (carve m p bs) m.
Proof.
  pose proof (block_count bs ltac:(lia) Hdiv) as Hc.
  assert (0 < PAGE_SIZE / bs) by (unfold PAGE_SIZE in *; nia).
  intros x Hx. unfold carve, PAGE_SIZE in *.
  rewrite (u32_small p) by lia. rewrite u32_small by nia.
  unfold st32. rewrite ld8_stn_ne by nia.
  pose proof (carve_loop_out p bs (4096 / bs) Hp ltac:(nia) Hbs ltac:(lia)
    (Z.to_nat (4096 / bs - 1)) 0 m ltac:(lia) ltac:(lia)) as Ho.
  apply Ho. nia.
Qed.

(** On a page whose links have null upper halves, [carve] threads all the
    blocks of the page, in address order. *)
Lemma carve_free_ok :
  (forall a, block_of p bs a -> clean_block m a) -> free_ok (carve m p bs) (page_blocks p bs).
Proof.
  intros Hcl. pose proof (block_count bs ltac:(lia) Hdiv) as Hc.
  assert (0 < PAGE_SIZE / bs) by (unfold PAGE_SIZE in *; nia).
  set (n := PAGE_SIZE / bs) in *.
  assert (forall k, 0 <= k < n -> ld32 (carve m p bs) (p + k * bs + 4) = 0) as Hhi.
  { intros k Hk. unfold carve. fold n. rewrite (u32_small p) by (unfold PAGE_SIZE in *; lia).
    rewrite u32_small by (unfold PAGE_SIZE in *; nia).
    unfold ld32, st32.
    rewrite ldn_stn_ne by (destruct (decide (k < n - 1)); [left|right]; nia). fold ld32.
    rewrite (carve_loop_other p bs n) by (unfold PAGE_SIZE in *; lia || nia).
    apply Hcl. unfold block_of. split; [nia|]. split; [unfold PAGE_SIZE in *; nia|].
    replace (p + k * bs - p) with (k * bs) by lia. apply Z.mod_mul. lia. }
  unfold page_blocks. fold n. apply free_ok_block_list; rewrite Z2Nat.id by lia.
  - intros k Hk0 Hk. rewrite ld64_halves, Hhi by lia. rewrite Z.mul_0_r, Z.add_0_r.
    unfold carve. fold n. rewrite (u32_small p) by (unfold PAGE_SIZE in *; lia).
    rewrite u32_small by (unfold PAGE_SIZE in *; nia).
    unfold ld32, st32. rewrite ldn_stn_ne by nia. fold ld32.
    apply (carve_loop_word p bs n); unfold PAGE_SIZE in *; lia || nia.
  - intros _. rewrite ld64_halves, Hhi by lia. unfold carve. fold n.
    rewrite (u32_small p) by (unfold PAGE_SIZE in *; lia).
    rewrite u32_small by (unfold PAGE_SIZE in *; nia). rewrite ld32_st32. done.
Qed.
End CarvePage.

Lemma page_blocks_wf p bs :
  0 <= p -> 16 <= bs -> PAGE_SIZE mod bs = 0 ->
  NoDup (page_blocks p bs) /\
  (forall a, a ∈ page_blocks p bs <-> block_of p bs a) /\
  Z.of_nat (length (page_blocks p bs)) = PAGE_SIZE / bs.
Proof.
  intros Hp Hbs Hdiv. pose proof (block_count bs ltac:(lia) Hdiv) as Hc.
  assert (0 < PAGE_SIZE / bs) by (unfold PAGE_SIZE in *; nia).
  unfold page_blocks. split; [apply NoDup_block_list; lia|].
  rewrite length_block_list, Z2Nat.id by lia. split; [|done].
  intros a. rewrite elem_of_block_list, Z2Nat.id by lia. unfold block_of. split.
  - intros (k & Hk & ->). split; [nia|]. split; [nia|].
    replace (p + k * bs - p) with (k * bs) by lia. apply Z.mod_mul. lia.
  - intros (Ha & Hb & Hm). apply Z.mod_divide in Hm as [k Hk]; [|lia].
    exists k. split; [nia|lia].
Qed.

(** ** Size classes *)

(** The size class [kmalloc] and [kfree_s] choose for [len]; 9 is none. *)
Definition class_of (len : Z) : nat := find_dir g_bucket_dir_init len.

Lemma find_dir_class cs len :
  length cs = 9%nat ->
  find_dir (zip_with BucketDir bucket_sizes cs ++ [BucketDir 0 NULL]) len = class_of len.
Proof.
  intros Hl. do 9 (destruct cs as [|? cs]; [discriminate|]). destruct cs; [done|discriminate].
Qed.

Lemma dirs_lookup cs i c :
  length cs = 9%nat -> cs !! i = Some c ->
  (zip_with BucketDir bucket_sizes cs ++ [BucketDir 0 NULL]) !! i =
    Some (BucketDir (class_size i) c).
Proof.
  intros Hl Hi. pose proof (lookup_lt_Some _ _ _ Hi) as Hlt.
  rewrite lookup_app_l by (rewrite length_zip_with, Hl; cbn; lia).
  rewrite lookup_zip_with. unfold class_size.
  destruct (lookup_lt_is_Some_2 bucket_sizes i) as [s Hs]; [cbn; lia|].
  by rewrite Hs, Hi.
Qed.

Lemma class_of_cases len :
  (class_of len = 9%nat /\ 4096 < len) \/
  ((class_of len < 9)%nat /\ len <= class_size (class_of len) /\
   forall j, (j < class_of len)%nat -> class_size j < len).
Proof.
  unfold class_of, g_bucket_dir_init, bucket_sizes.
  cbn -[Z.leb]. repeat match goal with
    | |- context [len <=? ?s] => destruct (len <=? s) eqn:?; bool_hyps
    end; first [left; split; [done|lia] | right];
  (split; [lia|split; [cbn; lia|]]); intros j Hj;
  repeat first [lia | destruct j as [|j]; [cbn; lia|]].
Qed.
