(* ===== verification/KmallocCorrect.v ===== *)
(** Correctness of the 64-bit kernel heap: [kmalloc] and [kfree_s] against the
    abstract heap of Kmalloc, over any page manager that keeps the laws of
    PageAlloc. *)

From S2P Require Import Prelude Mem CString PageAlloc Kmalloc KmallocLemmas.

(** ** Lists of lists *)

Lemma concat_insert_perm {X} (ls : list (list X)) i l :
  ls !! i = Some l -> exists rest, forall l', concat (<[i := l']> ls) ≡ₚ l' ++ rest.
Proof.
  revert i. induction ls as [|l0 ls IH]; intros [|i] Hi; simplify_eq/=.
  - by exists (concat ls).
  - destruct (IH i Hi) as [rest Hr]. exists (l0 ++ rest). intros l'. rewrite Hr.
    rewrite !app_assoc, (Permutation_app_comm l0 l'). done.
Qed.

Lemma elem_of_concat_lookup {X} (ls : list (list X)) x :
  x ∈ concat ls <-> exists i l, ls !! i = Some l /\ x ∈ l.
Proof.
  induction ls as [|l0 ls IH]; cbn [concat].
  - rewrite elem_of_nil. split; [done|]. intros (i & l & ? & _). done.
  - rewrite elem_of_app, IH. split.
    + intros [?|(i & l & ? & ?)]; [by exists O, l0|by exists (S i), l].
    + intros ([|i] & l & Hl & ?); simplify_eq/=; [by left|right; by exists i, l].
Qed.

Lemma elem_of_concat_fmap {X Y} (f : X -> Y) (ls : list (list X)) y :
  y ∈ concat (fmap (M:=list) f <$> ls) <-> exists i l x, ls !! i = Some l /\ x ∈ l /\ y = f x.
Proof.
  rewrite elem_of_concat_lookup. split.
  - intros (i & l & Hl & Hy). apply list_lookup_fmap_Some in Hl as (l' & -> & Hl').
    apply list_elem_of_fmap in Hy as (x & -> & Hx). by exists i, l', x.
  - intros (i & l & x & Hl & Hx & ->). exists i, (f <$> l). split.
    + by rewrite list_lookup_fmap, Hl.
    + by apply list_elem_of_fmap_2.
Qed.

Lemma concat_fmap_NoDup_inj {X Y} (f : X -> Y) (ls : list (list X)) i j l l' x x' :
  NoDup (concat (fmap (M:=list) f <$> ls)) -> ls !! i = Some l -> ls !! j = Some l' ->
  x ∈ l -> x' ∈ l' -> f x = f x' -> i = j /\ x = x'.
Proof.
  revert i j. induction ls as [|l0 ls IH]; intros i j Hnd Hi Hj Hx Hx' Hf; [done|].
  cbn in Hnd. apply NoDup_app in Hnd as (H0 & Hdisj & Hnd).
  destruct i as [|i], j as [|j]; simplify_eq/=.
  - split; [done|]. clear -H0 Hx Hx' Hf.
    apply list_elem_of_lookup in Hx as [a Ha], Hx' as [b Hb].
    assert (a = b) as <-.
    { eapply (NoDup_lookup _ a b (f x) H0); rewrite list_lookup_fmap; [by rewrite Ha|].
      rewrite Hb. cbn. by rewrite Hf. }
    congruence.
  - exfalso. apply (Hdisj (f x)); [by apply list_elem_of_fmap_2|].
    apply elem_of_concat_fmap. by exists j, l', x'.
  - exfalso. apply (Hdisj (f x')); [by apply list_elem_of_fmap_2|].
    apply elem_of_concat_fmap. exists i, l, x. done.
  - destruct (IH i j Hnd Hi Hj Hx Hx' Hf) as [-> ->]. done.
Qed.

Section Correct.
Context {S : Type} `{PL : PageLaws S}.
Implicit Types (h : kheap S) (A : aheap).

(** ** Consequences of the representation *)

Section Facts.
Context h A (HI : heap_inv h A).

Lemma hi_page_ok p :
  p ∈ all_pages A ->
  p mod PAGE_SIZE = 0 /\ 0 < p /\ p + PAGE_SIZE <= 4294967296 /\
  (forall a, p <= a < p + PAGE_SIZE -> ~ pa_foot (pm h) a).
Proof.
  intros Hp. destruct (hi_page_at _ _ HI p Hp) as [Hpg _].
  eapply pa_page_ok; [apply HI|done].
Qed.

Lemma hi_class_lt i bs : classes A !! i = Some bs -> (i < 9)%nat.
Proof. intros Hi. rewrite <- (hi_classes _ _ HI). by eapply lookup_lt_Some. Qed.

Lemma bucket_desc_in i bs b : classes A !! i = Some bs -> b ∈ bs -> b_desc b ∈ all_descs A.
Proof. intros. apply elem_of_app. left. apply elem_of_concat_fmap. by exists i, bs, b. Qed.

Lemma bucket_page_in i bs b : classes A !! i = Some bs -> b ∈ bs -> b_page b ∈ all_pages A.
Proof. intros. apply elem_of_app. left. apply elem_of_concat_fmap. by exists i, bs, b. Qed.

Lemma desc_page_in d : d ∈ all_descs A -> page_of d ∈ all_pages A.
Proof. intros Hd. apply elem_of_app. right. by apply (hi_desc_at _ _ HI). Qed.

Lemma desc_bounds d :
  d ∈ all_descs A -> 0 < d /\ d mod 32 = 0 /\ d + 32 <= 4294967296 /\
  forall a, d <= a < d + 32 -> ~ pa_foot (pm h) a.
Proof.
  intros Hd. destruct (hi_desc_at _ _ HI d Hd) as [Hm _].
  destruct (hi_page_ok _ (desc_page_in d Hd)) as (Hpm & Hp0 & Hp4 & Hf).
  unfold page_of, PAGE_SIZE in *. repeat split; try zlia.
  intros a Ha. apply Hf. zlia.
Qed.

Lemma descs_apart c d :
  c ∈ all_descs A -> d ∈ all_descs A -> c <> d -> d + 32 <= c \/ c + 32 <= d.
Proof. intros Hc Hd. apply descs_disjoint; by apply desc_bounds. Qed.

Lemma desc_block_apart d i bs b a :
  d ∈ all_descs A -> classes A !! i = Some bs -> b ∈ bs ->
  block_of (b_page b) (class_size i) a ->
  a + class_size i <= d \/ d + 32 <= a.
Proof.
  intros Hd Hi Hb Ha. pose proof (class_size_pos i (hi_class_lt _ _ Hi)) as Hsz.
  destruct (hi_page_ok _ (bucket_page_in _ _ _ Hi Hb)) as (Hpm & _ & _ & _).
  assert (page_of d <> b_page b) as Hne.
  { intros E. pose proof (hi_pages _ _ HI) as Hnd. apply NoDup_app in Hnd as (_ & Hdj & _).
    apply (Hdj (b_page b)); [apply elem_of_concat_fmap; by exists i, bs, b|].
    rewrite <- E. by apply (hi_desc_at _ _ HI). }
  destruct (hi_desc_at _ _ HI d Hd) as [Hdm _]. destruct Ha as (Ha1 & Ha2 & _).
  unfold page_of, PAGE_SIZE in *.
  destruct (decide (a + class_size i <= d)); [by left|].
  destruct (decide (d + 32 <= a)); [by right|]. exfalso. zlia.
Qed.

Lemma blocks_apart i j bs bs' b b' a a' :
  classes A !! i = Some bs -> classes A !! j = Some bs' -> b ∈ bs -> b' ∈ bs' ->
  block_of (b_page b) (class_size i) a -> block_of (b_page b') (class_size j) a' ->
  (i = j /\ a = a') \/ a' + class_size j <= a \/ a + class_size i <= a'.
Proof.
  intros Hi Hj Hb Hb' Ha Ha'.
  pose proof (class_size_pos i (hi_class_lt _ _ Hi)) as Hszi.
  pose proof (class_size_pos j (hi_class_lt _ _ Hj)) as Hszj.
  destruct (hi_page_ok _ (bucket_page_in _ _ _ Hi Hb)) as (Hpm & _).
  destruct (hi_page_ok _ (bucket_page_in _ _ _ Hj Hb')) as (Hpm' & _).
  destruct (decide (b_page b = b_page b')) as [E|Hne].
  - pose proof (hi_pages _ _ HI) as Hnd. apply NoDup_app in Hnd as (Hnd & _).
    destruct (concat_fmap_NoDup_inj b_page _ _ _ _ _ _ _ Hnd Hi Hj Hb Hb' E) as [-> ->].
    destruct (decide (a = a')) as [->|]; [by left|]. right.
    eapply blocks_disjoint; [|exact Ha|exact Ha'|done]. lia.
  - right. destruct Ha as (Ha1 & Ha2 & _), Ha' as (Ha1' & Ha2' & _). unfold PAGE_SIZE in *.
    destruct (decide (a' + class_size j <= a)); [by left|].
    destruct (decide (a + class_size i <= a')); [by right|]. exfalso. zlia.
Qed.

Lemma free_block_wf i bs b a :
  classes A !! i = Some bs -> b ∈ bs -> a ∈ b_free b -> block_of (b_page b) (class_size i) a.
Proof. intros Hi Hb Ha. by apply (hi_wf _ _ HI i bs b Hi Hb). Qed.

Lemma block_bounds i bs b a :
  classes A !! i = Some bs -> b ∈ bs -> block_of (b_page b) (class_size i) a ->
  0 < a /\ a + class_size i <= 4294967296 /\ page_of a = b_page b /\
  forall x, a <= x < a + class_size i -> ~ pa_foot (pm h) x.
Proof.
  intros Hi Hb Ha. pose proof (class_size_pos i (hi_class_lt _ _ Hi)) as Hsz.
  destruct (hi_page_ok _ (bucket_page_in _ _ _ Hi Hb)) as (Hpm & Hp0 & Hp4 & Hf).
  split; [destruct Ha; lia|]. split; [destruct Ha as (? & ? & _); lia|].
  split; [eapply block_page_of; [done| |done]; lia|].
  intros x Hx. apply Hf. destruct Ha as (? & ? & _). lia.
Qed.

(** A memory change inside one descriptor or one block is invisible to the
    page manager. *)
Lemma hi_pm_frame m' lo hi :
  same_out lo hi m' (hmem h) -> (forall x, lo <= x < hi -> ~ pa_foot (pm h) x) ->
  pa_inv (pm h) m' /\ forall q, pa_free (pm h) m' q <-> pa_free (pm h) (hmem h) q.
Proof.
  intros Hs Hf. apply pa_frame; [apply HI|]. intros a Ha. apply Hs.
  destruct (decide (a < lo)); [by left|]. destruct (decide (hi <= a)); [by right|].
  exfalso. apply (Hf a); [lia|done].
Qed.

(** The descriptor and free blocks of a bucket are untouched by a change
    inside another descriptor. *)
Lemma bucket_frame_desc m' c i bs b :
  same_out c (c + 32) m' (hmem h) -> c ∈ all_descs A ->
  classes A !! i = Some bs -> b ∈ bs -> b_desc b <> c ->
  agree (b_desc b) (b_desc b + 32) m' (hmem h) /\
  forall a, a ∈ b_free b -> agree a (a + 8) m' (hmem h).
Proof.
  intros Hs Hc Hi Hb Hne. split.
  - eapply same_out_agree; [done|].
    destruct (descs_apart c (b_desc b) Hc (bucket_desc_in _ _ _ Hi Hb)); [done|lia..].
  - intros a Ha. eapply same_out_agree; [done|].
    pose proof (free_block_wf _ _ _ _ Hi Hb Ha) as Hbl.
    pose proof (class_size_pos i (hi_class_lt _ _ Hi)).
    destruct (desc_block_apart c i bs b a Hc Hi Hb Hbl); lia.
Qed.

Lemma spares_frame_desc m' c :
  same_out c (c + 32) m' (hmem h) -> c ∈ all_descs A -> c ∉ spares A ->
  spares_ok m' (spares A).
Proof.
  intros Hs Hc Hn. eapply spares_ok_frame; [apply HI|]. intros d Hd.
  eapply same_out_agree; [done|].
  destruct (descs_apart c d Hc); [apply elem_of_app; by right|by intros ->|lia..].
Qed.

(** Handed-out blocks keep their contents when a descriptor changes. *)
Lemma live_frame_desc m' c j a :
  same_out c (c + 32) m' (hmem h) -> c ∈ all_descs A -> live A j a ->
  agree a (a + class_size j) m' (hmem h).
Proof.
  intros Hs Hc (bs & b & Hj & Hb & Ha & _). eapply same_out_agree; [done|].
  destruct (desc_block_apart c j bs b a Hc Hj Hb Ha); lia.
Qed.

Lemma bucket_not_spare i bs b : classes A !! i = Some bs -> b ∈ bs -> b_desc b ∉ spares A.
Proof.
  intros Hi Hb Hs. pose proof (hi_descs _ _ HI) as Hnd. apply NoDup_app in Hnd as (_ & Hdj & _).
  apply (Hdj (b_desc b)); [|done]. apply elem_of_concat_fmap. by exists i, bs, b.
Qed.

Lemma bucket_desc_inj i j bs bs' b b' :
  classes A !! i = Some bs -> classes A !! j = Some bs' -> b ∈ bs -> b' ∈ bs' ->
  b_desc b = b_desc b' -> i = j /\ b = b'.
Proof.
  intros. pose proof (hi_descs _ _ HI) as Hnd. apply NoDup_app in Hnd as (Hnd & _).
  by eapply (concat_fmap_NoDup_inj b_desc).
Qed.

Lemma bucket_page_inj i j bs bs' b b' :
  classes A !! i = Some bs -> classes A !! j = Some bs' -> b ∈ bs -> b' ∈ bs' ->
  b_page b = b_page b' -> i = j /\ b = b'.
Proof.
  intros. pose proof (hi_pages _ _ HI) as Hnd. apply NoDup_app in Hnd as (Hnd & _).
  by eapply (concat_fmap_NoDup_inj b_page).
Qed.
End Facts.

(** ** Taking a block *)

Definition set_class (A : aheap) (i : nat) (bs : list bucket) : aheap :=
  AHeap (<[i := bs]> (classes A)) (spares A) (dpages A).

(** Replacing a bucket by one with the same descriptor and page leaves the
    descriptors, pages and directory entries alone. *)
Lemma replace_bucket_lists A i bs1 b b' bs2 :
  classes A !! i = Some (bs1 ++ b :: bs2) -> b_desc b' = b_desc b -> b_page b' = b_page b ->
  let A' := set_class A i (bs1 ++ b' :: bs2) in
  all_descs A' = all_descs A /\ all_pages A' = all_pages A /\
  hd_desc <$> classes A' = hd_desc <$> classes A.
Proof.
  intros Hi Hd Hp A'.
  assert (forall Y (g : list bucket -> Y), g (bs1 ++ b' :: bs2) = g (bs1 ++ b :: bs2) ->
    g <$> classes A' = g <$> classes A) as E.
  { intros Y g Hg. cbn [A' set_class classes]. rewrite list_fmap_insert, Hg.
    apply list_insert_id. by rewrite list_lookup_fmap, Hi. }
  unfold all_descs, all_pages. split; [|split].
  - rewrite E; [done|]. by rewrite !fmap_app, !fmap_cons, Hd.
  - rewrite E; [done|]. by rewrite !fmap_app, !fmap_cons, Hp.
  - apply E. unfold hd_desc. by rewrite !fmap_app, !fmap_cons, Hd.
Qed.

(** The head of what is left of a free list is a 32-bit address, or 0. *)
Lemma free_tail_bound h A i bs b fl :
  heap_inv h A -> classes A !! i = Some bs -> b ∈ bs -> (forall a, a ∈ fl -> a ∈ b_free b) ->
  0 <= hd0 fl < 4294967296.
Proof.
  intros HI Hi Hin Hfl. destruct fl as [|a fl']; cbn; [lia|].
  pose proof (free_block_wf _ _ HI _ _ _ _ Hi Hin (Hfl a ltac:(by left))) as Hbl.
  pose proof (block_bounds _ _ HI _ _ _ _ Hi Hin Hbl).
  pose proof (class_size_pos i (hi_class_lt _ _ HI _ _ Hi)). lia.
Qed.

Lemma free_head_bound h A i bs b :
  heap_inv h A -> classes A !! i = Some bs -> b ∈ bs -> 0 <= hd0 (b_free b) < 4294967296.
Proof. intros HI Hi Hin. by apply (free_tail_bound h A i bs b). Qed.

Lemma pop_block_spec h A i bs1 b bs2 r fl :
  heap_inv h A -> classes A !! i = Some (bs1 ++ b :: bs2) -> b_free b = r :: fl ->
  exists m', pop_block (b_desc b) (hmem h) = (r, m') /\
    same_out (b_desc b) (b_desc b + 32) m' (hmem h) /\
    desc_ok m' (class_size i) (Bucket (b_desc b) (b_page b) fl) (hd_desc bs2) /\
    free_ok m' fl.
Proof.
  intros HI Hi Hb. assert (b ∈ bs1 ++ b :: bs2) as Hin by set_solver.
  pose proof (hi_chains _ _ HI i _ Hi) as Hc. apply chain_ok_desc in Hc as [Hd Hf].
  rewrite Hb in Hf. destruct Hf as [Hr Hfl].
  destruct Hd as (H1 & H2 & H3 & H4 & H5). rewrite Hb in *. cbn [length] in H4.
  unfold pop_block. rewrite H3. change (hd0 (r :: fl)) with r. rewrite Hr.
  set (c := b_desc b) in *.
  set (m1 := st64 (hmem h) (bd_freeBlock c) (hd0 fl)).
  assert (same_out c (c + 32) m1 (hmem h)) as Ho1.
  { apply (same_out_stn _ _ 8); unfold bd_freeBlock; lia. }
  set (m2 := st32 m1 (bd_refCnt c) (ld32 m1 (bd_refCnt c) + 1)).
  assert (same_out c (c + 32) m2 (hmem h)) as Ho2.
  { eapply same_out_trans; [|exact Ho1]. apply (same_out_stn _ _ 4); unfold bd_refCnt; lia. }
  exists m2. split; [done|]. split; [done|].
  assert (forall k o, (o + Z.of_nat k <= 16 \/ 28 <= o) -> ldn k m2 (c + o) = ldn k (hmem h) (c + o))
    as E.
  { intros k o Ho. unfold m2, m1, st32, st64, bd_refCnt, bd_freeBlock.
    rewrite !ldn_stn_ne by lia. done. }
  assert (ld32 m1 (bd_refCnt c) = ld32 (hmem h) (bd_refCnt c)) as Er.
  { unfold m1, st64, ld32, bd_refCnt, bd_freeBlock. apply ldn_stn_ne. lia. }
  pose proof (class_size_pos i (hi_class_lt _ _ HI _ _ Hi)) as Hsz.
  assert (0 <= hd0 fl < 4294967296) as Hfb
    by (eapply (free_tail_bound _ _ _ _ b); [done..|rewrite Hb; set_solver]).
  split; [repeat split|]; cbn [b_desc b_page b_free].
  - unfold bd_page, ld64. rewrite <- (Z.add_0_r c), E by lia. by rewrite Z.add_0_r.
  - unfold bd_next, ld64. rewrite E by lia. done.
  - unfold m2, st32, ld64, bd_refCnt, bd_freeBlock. rewrite ldn_stn_ne by lia.
    fold (bd_freeBlock c). fold ld64. unfold m1. rewrite ld64_st64. apply u64_small. lia.
  - unfold m2. rewrite ld32_st32, Er, H4. pose proof (class_count i (hi_class_lt _ _ HI _ _ Hi)).
    pose proof (ld32_bound (hmem h) (bd_refCnt c)) as Hb32.
    rewrite H4 in Hb32. rewrite u32_small by lia. lia.
  - unfold bd_blockSize, ld32. rewrite E by lia. done.
  - eapply free_ok_frame; [exact Hfl|]. intros a Ha. eapply same_out_agree; [exact Ho2|].
    assert (a ∈ b_free b) as Ha' by (rewrite Hb; set_solver).
    pose proof (free_block_wf _ _ HI _ _ _ _ Hi Hin Ha') as Hbl.
    destruct (desc_block_apart _ _ HI c i _ b a (bucket_desc_in _ _ _ _ Hi Hin) Hi Hin Hbl); lia.
Qed.

(** The other buckets of a chain have other descriptors. *)
Lemma other_desc h A i bs1 b bs2 c :
  heap_inv h A -> classes A !! i = Some (bs1 ++ b :: bs2) -> c ∈ bs1 \/ c ∈ bs2 -> b_desc c <> b_desc b.
Proof.
  intros HI Hi Hc E. pose proof (hi_descs _ _ HI) as Hnd. apply NoDup_app in Hnd as (Hnd & _).
  destruct (concat_insert_perm (fmap (M:=list) b_desc <$> classes A) i (b_desc <$> (bs1 ++ b :: bs2)))
    as [rest Hr]; [by rewrite list_lookup_fmap, Hi|].
  specialize (Hr (b_desc <$> (bs1 ++ b :: bs2))).
  rewrite list_insert_id in Hr by (by rewrite list_lookup_fmap, Hi).
  rewrite Hr in Hnd. apply NoDup_app in Hnd as (Hnd & _).
  rewrite fmap_app, fmap_cons in Hnd. apply NoDup_app in Hnd as (_ & Hdj & Hnd).
  destruct Hc as [Hc|Hc]; apply (list_elem_of_fmap_2 b_desc) in Hc.
  - rewrite E in Hc. apply (Hdj _ Hc). set_solver.
  - rewrite E in Hc. by apply NoDup_cons in Hnd as [Hnd _].
Qed.

(** The heap after a change inside the descriptor of one bucket whose free
    list becomes [fl]. *)
Lemma desc_change_inv h A i bs1 b bs2 fl m' :
  heap_inv h A -> classes A !! i = Some (bs1 ++ b :: bs2) ->
  same_out (b_desc b) (b_desc b + 32) m' (hmem h) ->
  desc_ok m' (class_size i) (Bucket (b_desc b) (b_page b) fl) (hd_desc bs2) ->
  free_ok m' fl -> free_wf (class_size i) (Bucket (b_desc b) (b_page b) fl) ->
  heap_inv (set_mem h m') (set_class A i (bs1 ++ Bucket (b_desc b) (b_page b) fl :: bs2)).
Proof.
  intros HI Hi Ho Hd Hf Hw. set (b' := Bucket (b_desc b) (b_page b) fl) in *.
  assert (b ∈ bs1 ++ b :: bs2) as Hin by set_solver.
  pose proof (bucket_desc_in _ _ _ _ Hi Hin) as Hc.
  destruct (replace_bucket_lists A i bs1 b b' bs2 Hi eq_refl eq_refl) as (Ed & Ep & Eh).
  destruct (desc_bounds _ _ HI _ Hc) as (_ & _ & _ & Hft).
  destruct (hi_pm_frame _ _ HI m' _ _ Ho Hft) as [Hpm Hfree].
  assert (forall j bs bb, classes A !! j = Some bs -> bb ∈ bs -> b_desc bb <> b_desc b ->
    agree (b_desc bb) (b_desc bb + 32) m' (hmem h) /\
    forall a, a ∈ b_free bb -> agree a (a + 8) m' (hmem h)) as Hfr.
  { intros. by eapply (bucket_frame_desc _ _ HI). }
  assert ((i < length (classes A))%nat) as Hlt by (by eapply lookup_lt_Some).
  split; cbn [pm hmem g_bucket_dir free_bucket_chain set_mem].
  - done.
  - cbn. rewrite length_insert. apply HI.
  - rewrite Eh. apply HI.
  - intros j bs Hj. cbn [set_class classes] in Hj. destruct (decide (j = i)) as [->|Hne].
    + rewrite list_lookup_insert_eq in Hj by done. injection Hj as <-.
      eapply chain_ok_replace; [by apply (hi_chains _ _ HI)|done| |done|done].
      intros c Hcc. eapply (Hfr i); [done|set_solver|].
      by eapply other_desc.
    + rewrite list_lookup_insert_ne in Hj by done.
      eapply chain_ok_frame; [by apply (hi_chains _ _ HI)|].
      intros bb Hbb. eapply (Hfr j); [done..|]. intros E.
      destruct (bucket_desc_inj _ _ HI _ _ _ _ _ _ Hj Hi Hbb Hin E). done.
  - intros j bs bb Hj Hbb. cbn [set_class classes] in Hj. destruct (decide (j = i)) as [->|Hne].
    + rewrite list_lookup_insert_eq in Hj by done. injection Hj as <-.
      apply elem_of_app in Hbb as [Hbb|Hbb]; [|apply elem_of_cons in Hbb as [->|Hbb]].
      * apply (hi_wf _ _ HI i _ bb Hi). set_solver.
      * done.
      * apply (hi_wf _ _ HI i _ bb Hi). set_solver.
    + rewrite list_lookup_insert_ne in Hj by done. by apply (hi_wf _ _ HI j bs bb).
  - apply (spares_frame_desc _ _ HI m' _ Ho Hc). by eapply (bucket_not_spare _ _ HI).
  - apply HI.
  - rewrite Ed. apply HI.
  - intros d. rewrite Ed. apply HI.
  - rewrite Ep. apply HI.
  - intros p. rewrite Ep. intros Hp. rewrite Hfree. by apply (hi_page_at _ _ HI).
Qed.

(** ** What is handed out *)

Definition keeps (A : aheap) (m' m : mem) : Prop :=
  forall j a, live A j a -> agree a (a + class_size j) m' m.

Lemma live_same_classes A A' j a : classes A' = classes A -> live A' j a <-> live A j a.
Proof. intros E. unfold live. by rewrite E. Qed.

Lemma live_pop h A i bs1 b bs2 r fl :
  heap_inv h A -> classes A !! i = Some (bs1 ++ b :: bs2) -> b_free b = r :: fl ->
  let A' := set_class A i (bs1 ++ Bucket (b_desc b) (b_page b) fl :: bs2) in
  ~ live A i r /\ forall j a, live A' j a <-> live A j a \/ (j = i /\ a = r).
Proof.
  intros HI Hi Hb A'. assert (b ∈ bs1 ++ b :: bs2) as Hin by set_solver.
  assert (r ∈ b_free b) as Hr by (rewrite Hb; set_solver).
  pose proof (free_block_wf _ _ HI _ _ _ _ Hi Hin Hr) as Hbl.
  pose proof (hi_wf _ _ HI _ _ _ Hi Hin) as [Hnd _]. rewrite Hb in Hnd.
  apply NoDup_cons in Hnd as [Hrf _].
  assert (i < length (classes A))%nat as Hlt by (by eapply lookup_lt_Some).
  split.
  { intros (bs & b2 & Hi2 & Hb2 & Hbl2 & Hnf). rewrite Hi in Hi2. injection Hi2 as <-.
    destruct (block_bounds _ _ HI _ _ _ _ Hi Hin Hbl) as (_ & _ & E1 & _).
    destruct (block_bounds _ _ HI _ _ _ _ Hi Hb2 Hbl2) as (_ & _ & E2 & _).
    destruct (bucket_page_inj _ _ HI _ _ _ _ _ _ Hi Hi Hin Hb2) as [_ <-]; [congruence|done]. }
  intros j a. unfold live at 1. cbn [A' set_class classes].
  destruct (decide (j = i)) as [->|Hne].
  - rewrite list_lookup_insert_eq by done. split.
    + intros (bs & b2 & [= <-] & Hb2 & Hbl2 & Hnf).
      destruct (decide (a = r)) as [->|Hna]; [by right|left].
      apply elem_of_app in Hb2 as [Hb2|Hb2]; [|apply elem_of_cons in Hb2 as [->|Hb2]].
      * exists (bs1 ++ b :: bs2), b2. repeat split; [done|set_solver|apply Hbl2..|done].
      * exists (bs1 ++ b :: bs2), b. repeat split; [done|set_solver|apply Hbl2..|].
        rewrite Hb. cbn in Hnf. set_solver.
      * exists (bs1 ++ b :: bs2), b2. repeat split; [done|set_solver|apply Hbl2..|done].
    + intros [(bs & b2 & Hi2 & Hb2 & Hbl2 & Hnf) | [_ ->]].
      * rewrite Hi in Hi2. injection Hi2 as <-.
        apply elem_of_app in Hb2 as [Hb2|Hb2]; [|apply elem_of_cons in Hb2 as [->|Hb2]].
        -- eexists _, b2. repeat split; [set_solver|apply Hbl2..|done].
        -- eexists _, (Bucket (b_desc b) (b_page b) fl).
           repeat split; [set_solver|apply Hbl2..|]. cbn. rewrite Hb in Hnf. set_solver.
        -- eexists _, b2. repeat split; [set_solver|apply Hbl2..|done].
      * eexists _, (Bucket (b_desc b) (b_page b) fl).
        repeat split; [set_solver|apply Hbl..|done].
  - rewrite list_lookup_insert_ne by done. unfold live. naive_solver.
Qed.

(** ** Changes outside the heap's own cells *)

Lemma mem_frame_inv h A m' :
  heap_inv h A ->
  (forall d, d ∈ all_descs A -> agree d (d + 32) m' (hmem h)) ->
  (forall i bs b a, classes A !! i = Some bs -> b ∈ bs -> a ∈ b_free b ->
     agree a (a + 8) m' (hmem h)) ->
  (forall x, pa_foot (pm h) x -> ld8 m' x = ld8 (hmem h) x) ->
  heap_inv (set_mem h m') A.
Proof.
  intros HI Hd Hf Hp. destruct (pa_frame (pm h) (hmem h) m' (hi_pm _ _ HI) Hp) as [Hpm Hfree].
  split; cbn [pm hmem g_bucket_dir free_bucket_chain set_mem]; try apply HI; [done|..].
  - intros i bs Hi. eapply chain_ok_frame; [by apply (hi_chains _ _ HI)|].
    intros b Hb. split; [apply Hd; by eapply bucket_desc_in|]. intros a Ha. by eapply Hf.
  - eapply spares_ok_frame; [apply HI|]. intros d Hin. apply Hd. apply elem_of_app. by right.
  - intros p Hpp. rewrite Hfree. by apply (hi_page_at _ _ HI).
Qed.

(** Writes to a page the heap does not own. *)
Lemma fresh_page_apart h A p lo hi :
  heap_inv h A -> p mod PAGE_SIZE = 0 -> p ∉ all_pages A ->
  (exists q, q ∈ all_pages A /\ q <= lo /\ hi <= q + PAGE_SIZE) ->
  hi <= p \/ p + PAGE_SIZE <= lo.
Proof.
  intros HI Hp Hn (q & Hq & Hlo & Hhi). destruct (hi_page_ok _ _ HI q Hq) as (Hqm & _).
  assert (q <> p) by (by intros ->). unfold PAGE_SIZE in *.
  destruct (decide (q + 4096 <= p)); [left; lia|]. right. zlia.
Qed.

Lemma desc_in_page h A d :
  heap_inv h A -> d ∈ all_descs A ->
  exists q, q ∈ all_pages A /\ q <= d /\ d + 32 <= q + PAGE_SIZE.
Proof.
  intros HI Hd. exists (page_of d). split; [by eapply desc_page_in|].
  destruct (hi_desc_at _ _ HI d Hd) as [Hm _]. unfold page_of, PAGE_SIZE. zlia.
Qed.

Lemma block_in_page h A i bs b a :
  heap_inv h A -> classes A !! i = Some bs -> b ∈ bs ->
  block_of (b_page b) (class_size i) a ->
  exists q, q ∈ all_pages A /\ q <= a /\ a + class_size i <= q + PAGE_SIZE.
Proof.
  intros HI Hi Hb Ha. exists (b_page b). split; [by eapply bucket_page_in|].
  by destruct Ha as (? & ? & _).
Qed.

Lemma fresh_page_inv h A p m' :
  heap_inv h A -> pa_page (pm h) p -> p ∉ all_pages A ->
  same_out p (p + PAGE_SIZE) m' (hmem h) ->
  heap_inv (set_mem h m') A /\ keeps A m' (hmem h).
Proof.
  intros HI Hpg Hn Ho.
  destruct (pa_page_ok _ _ p (hi_pm _ _ HI) Hpg) as (Hpm & _ & _ & Hft).
  split; [apply mem_frame_inv; [done|..]|].
  - intros d Hd. eapply same_out_agree; [done|].
    eapply (fresh_page_apart h A p d (d + 32)); [done..|]. by eapply desc_in_page.
  - intros i bs b a Hi Hb Ha. eapply same_out_agree; [done|].
    pose proof (free_block_wf _ _ HI _ _ _ _ Hi Hb Ha) as Hbl.
    pose proof (class_size_pos i (hi_class_lt _ _ HI _ _ Hi)).
    destruct (fresh_page_apart h A p a (a + class_size i) HI Hpm Hn) as [?|?];
      [by eapply block_in_page|lia..].
  - intros x Hx. apply Ho.
    destruct (decide (x < p)); [by left|]. destruct (decide (p + PAGE_SIZE <= x)); [by right|].
    exfalso. apply (Hft x); [lia|done].
  - intros j a (bs & b & Hj & Hb & Hbl & _). eapply same_out_agree; [done|].
    eapply (fresh_page_apart h A p a _); [done..|]. by eapply block_in_page.
Qed.

(** Writes to a descriptor slot that is in no list. *)
Lemma loose_desc_inv h A c m' :
  heap_inv h A -> c mod 32 = 0 -> page_of c ∈ dpages A -> c ∉ all_descs A ->
  same_out c (c + 32) m' (hmem h) ->
  heap_inv (set_mem h m') A /\ keeps A m' (hmem h).
Proof.
  intros HI Hc Hpg Hn Ho.
  assert (page_of c ∈ all_pages A) as Hcp by (apply elem_of_app; by right).
  destruct (hi_page_ok _ _ HI _ Hcp) as (Hpm & _ & _ & Hft).
  assert (forall i bs b a, classes A !! i = Some bs -> b ∈ bs ->
    block_of (b_page b) (class_size i) a -> a + class_size i <= c \/ c + 32 <= a) as Hap.
  { intros i bs b a Hi Hb Hbl.
    destruct (hi_page_ok _ _ HI _ (bucket_page_in _ _ _ _ Hi Hb)) as (Hbm & _).
    assert (page_of c <> b_page b) as Hne.
    { intros E. pose proof (hi_pages _ _ HI) as Hnd. apply NoDup_app in Hnd as (_ & Hdj & _).
      apply (Hdj (b_page b)); [apply elem_of_concat_fmap; by exists i, bs, b|].
      by rewrite <- E. }
    destruct Hbl as (? & ? & _). unfold page_of, PAGE_SIZE in *.
    destruct (decide (a + class_size i <= c)); [by left|].
    destruct (decide (c + 32 <= a)); [by right|]. exfalso.
    pose proof (class_size_pos i (hi_class_lt _ _ HI _ _ Hi)). zlia. }
  split; [apply mem_frame_inv; [done|..]|].
  - intros d Hd. eapply same_out_agree; [done|].
    destruct (hi_desc_at _ _ HI d Hd) as [Hdm _].
    destruct (descs_disjoint c d Hc Hdm); [by intros ->|lia..].
  - intros i bs b a Hi Hb Ha. eapply same_out_agree; [done|].
    pose proof (free_block_wf _ _ HI _ _ _ _ Hi Hb Ha) as Hbl.
    pose proof (class_size_pos i (hi_class_lt _ _ HI _ _ Hi)).
    destruct (Hap i bs b a Hi Hb Hbl); lia.
  - intros x Hx. apply Ho.
    destruct (decide (x < c)); [by left|]. destruct (decide (c + 32 <= x)); [by right|].
    exfalso. apply (Hft x); [|done]. unfold page_of, PAGE_SIZE in *. zlia.
  - intros j a (bs & b & Hj & Hb & Hbl & _). eapply same_out_agree; [done|].
    destruct (Hap j bs b a Hj Hb Hbl); lia.
Qed.

(** [get_free_page] leaves the heap alone and gives a page it does not own. *)
Lemma get_page_inv h A p s' m' :
  heap_inv h A -> get_free_page (pm h) (hmem h) = (p, s', m') ->
  heap_inv (KHeap (g_bucket_dir h) (free_bucket_chain h) (lock h) s' m') A /\
  keeps A m' (hmem h) /\
  (forall q, pa_free s' m' q <-> pa_free (pm h) (hmem h) q /\ q <> p) /\
  (forall q, pa_page (pm h) q -> forall x, q <= x < q + PAGE_SIZE -> ld8 m' x = ld8 (hmem h) x) /\
  ((p = 0 /\ forall q, ~ pa_free (pm h) (hmem h) q) \/
   (pa_free (pm h) (hmem h) p /\ pa_page s' p /\ p ∉ all_pages A)).
Proof.
  intros HI Hg.
  destruct (pa_get _ _ _ _ _ (hi_pm _ _ HI) Hg)
    as [(-> & -> & -> & Hno) | (Hf & Hi' & Hfree & Hpage & Hfoot & Hmem)].
  { split; [by destruct h|]. split; [done|].
    split; [intros q; split; [|naive_solver]; intros Hq; by destruct (Hno q)|].
    split; [done|]. by left. }
  assert (forall q, pa_page (pm h) q -> forall x, q <= x < q + PAGE_SIZE ->
    ld8 m' x = ld8 (hmem h) x) as Hpg.
  { intros q Hq x Hx. apply Hmem.
    destruct (pa_page_ok _ _ q (hi_pm _ _ HI) Hq) as (_ & _ & _ & Hft). by apply Hft. }
  assert (forall q, q ∈ all_pages A -> forall lo hi, q <= lo -> hi <= q + PAGE_SIZE ->
    agree lo hi m' (hmem h)) as Hag.
  { intros q Hq lo hi ?? x Hx. apply (Hpg q); [by apply (hi_page_at _ _ HI)|lia]. }
  split.
  { split; cbn [pm hmem g_bucket_dir free_bucket_chain]; try apply HI; [done|..].
    - intros i bs Hi. eapply chain_ok_frame; [by apply (hi_chains _ _ HI)|].
      intros b Hb. split.
      + destruct (desc_in_page h A (b_desc b) HI) as (q & Hq & ? & ?);
          [by eapply bucket_desc_in|]. by eapply Hag.
      + intros a Ha. pose proof (free_block_wf _ _ HI _ _ _ _ Hi Hb Ha) as Hbl.
        destruct (block_in_page h A _ _ _ _ HI Hi Hb Hbl) as (q & Hq & ? & ?).
        pose proof (class_size_pos i (hi_class_lt _ _ HI _ _ Hi)).
        eapply Hag; [done|lia..].
    - eapply spares_ok_frame; [apply HI|]. intros d Hd.
      destruct (desc_in_page h A d HI) as (q & Hq & ? & ?); [apply elem_of_app; by right|].
      by eapply Hag.
    - intros q Hq. destruct (hi_page_at _ _ HI q Hq) as [Hqp Hqf].
      split; [by apply Hpage|]. rewrite Hfree. naive_solver. }
  split.
  { intros j a (bs & b & Hj & Hb & Hbl & _).
    destruct (block_in_page h A _ _ _ _ HI Hj Hb Hbl) as (q & Hq & ? & ?). by eapply Hag. }
  split; [done|]. split; [done|]. right. split; [done|].
  split; [apply Hpage; by eapply pa_free_page; [apply HI|]|].
  intros Hin. by destruct (hi_page_at _ _ HI p Hin).
Qed.

(** ** Adding a bucket *)

(** The free pages of [h'] were free in [h], with the same contents. *)
Definition frees h' h : Prop :=
  (forall q, pa_page (pm h') q <-> pa_page (pm h) q) /\
  forall q, pa_free (pm h') (hmem h') q ->
    pa_free (pm h) (hmem h) q /\ agree q (q + PAGE_SIZE) (hmem h') (hmem h).

Lemma frees_trans h1 h2 h3 : frees h3 h2 -> frees h2 h1 -> frees h3 h1.
Proof.
  intros [P1 H1] [P2 H2]. split; [intros q; by rewrite P1, P2|]. intros q Hq.
  destruct (H1 q Hq) as [Hq1 Ha1]. destruct (H2 q Hq1) as [Hq2 Ha2].
  split; [done|]. by etransitivity.
Qed.

(** A write inside a page that is not free. *)
Lemma page_write_frees h A P m' :
  heap_inv h A -> pa_page (pm h) P -> ~ pa_free (pm h) (hmem h) P ->
  same_out P (P + PAGE_SIZE) m' (hmem h) -> frees (set_mem h m') h.
Proof.
  intros HI HP Hnf Ho.
  destruct (pa_page_ok _ _ P (hi_pm _ _ HI) HP) as (HPm & _ & _ & Hft).
  destruct (hi_pm_frame _ _ HI m' _ _ Ho Hft) as [_ Hfree].
  split; [done|]. cbn [pm hmem set_mem]. intros q Hq. apply Hfree in Hq. split; [done|].
  assert (q <> P) by (by intros ->).
  destruct (pa_page_ok _ _ q (hi_pm _ _ HI)) as (Hqm & _).
  { by eapply pa_free_page; [apply HI|]. }
  eapply same_out_agree; [done|]. unfold PAGE_SIZE in *.
  destruct (decide (q + 4096 <= P)); [by left|]. right. zlia.
Qed.

Lemma desc_same_out_page c m' m :
  c mod 32 = 0 -> same_out c (c + 32) m' m -> same_out (page_of c) (page_of c + PAGE_SIZE) m' m.
Proof. intros Hc Ho x Hx. apply Ho. unfold page_of, PAGE_SIZE in *. zlia. Qed.

(** A descriptor slot that belongs to no list. *)
Definition loose A (c : Z) : Prop :=
  c mod 32 = 0 /\ page_of c ∈ dpages A /\ c ∉ all_descs A.

Lemma loose_write h A c m' :
  heap_inv h A -> loose A c -> same_out c (c + 32) m' (hmem h) ->
  heap_inv (set_mem h m') A /\ keeps A m' (hmem h) /\ frees (set_mem h m') h.
Proof.
  intros HI (Hc & Hpg & Hn) Ho.
  destruct (loose_desc_inv h A c m' HI Hc Hpg Hn Ho) as [HI' Hk].
  split; [done|]. split; [done|].
  assert (page_of c ∈ all_pages A) as Hcp by (apply elem_of_app; by right).
  destruct (hi_page_at _ _ HI _ Hcp) as [HP Hnf].
  eapply page_write_frees; [done|done|done|]. by apply desc_same_out_page.
Qed.

Lemma fresh_write h A p m' :
  heap_inv h A -> pa_page (pm h) p -> ~ pa_free (pm h) (hmem h) p -> p ∉ all_pages A ->
  same_out p (p + PAGE_SIZE) m' (hmem h) ->
  heap_inv (set_mem h m') A /\ keeps A m' (hmem h) /\ frees (set_mem h m') h.
Proof.
  intros HI HP Hnf Hn Ho.
  destruct (fresh_page_inv h A p m' HI HP Hn Ho) as [HI' Hk].
  split; [done|]. split; [done|]. by eapply page_write_frees.
Qed.

Lemma get_page_step h A p s' m' :
  heap_inv h A -> get_free_page (pm h) (hmem h) = (p, s', m') ->
  let h' := KHeap (g_bucket_dir h) (free_bucket_chain h) (lock h) s' m' in
  heap_inv h' A /\ keeps A m' (hmem h) /\ frees h' h /\
  ((p = 0 /\ forall q, ~ pa_free (pm h') (hmem h') q) \/
   (p <> 0 /\ pa_free (pm h) (hmem h) p /\ agree p (p + PAGE_SIZE) m' (hmem h) /\
    pa_page s' p /\ ~ pa_free s' m' p /\ p ∉ all_pages A)).
Proof.
  intros HI Hg h'.
  destruct (get_page_inv h A p s' m' HI Hg) as (HI' & Hk & Hf & Hag & Hcase).
  assert (forall q, pa_page s' q <-> pa_page (pm h) q) as Hpg.
  { destruct (pa_get _ _ _ _ _ (hi_pm _ _ HI) Hg)
      as [(_ & -> & _) | (_ & _ & _ & Hpage & _)]; done. }
  split; [done|]. split; [done|]. split.
  { split; [done|]. intros q Hq. apply Hf in Hq as [Hq _]. split; [done|].
    intros x Hx. apply (Hag q); [by eapply pa_free_page; [apply HI|]|lia]. }
  destruct Hcase as [[-> Hno]|(Hpf & Hpp & Hn)]; [left|right].
  - split; [done|]. intros q Hq. apply Hf in Hq as [Hq _]. by apply (Hno q).
  - assert (pa_page (pm h) p) as HP by (eapply pa_free_page; [apply HI|done]).
    split; [|split; [done|split; [|split; [done|split; [|done]]]]].
    + destruct (pa_page_ok _ _ p (hi_pm _ _ HI) HP) as (_ & ? & _). lia.
    + intros x Hx. apply (Hag p); [done|lia].
    + intros Hq. apply Hf in Hq as [_ ?]. done.
Qed.

(** The first spare descriptor leaves its list. *)
Lemma drop_spare_inv h A c rest :
  heap_inv h A -> spares A = c :: rest ->
  let A' := AHeap (classes A) rest (dpages A) in
  heap_inv (KHeap (g_bucket_dir h) (hd0 rest) (lock h) (pm h) (hmem h)) A' /\
  loose A' c /\ c <> 0 /\ ld64 (hmem h) (bd_next c) = hd0 rest.
Proof.
  intros HI Hs A'.
  assert (all_descs A ≡ₚ c :: all_descs A') as Hp.
  { unfold all_descs. rewrite Hs. cbn. by rewrite <- Permutation_middle. }
  assert (c ∈ all_descs A) as Hc by (rewrite Hp; set_solver).
  pose proof (hi_descs _ _ HI) as Hnd. rewrite Hp in Hnd. apply NoDup_cons in Hnd as [Hn Hnd].
  pose proof (hi_spares _ _ HI) as Hso. rewrite Hs in Hso. destruct Hso as [Hnx Hso].
  split; [|split; [|split; [|done]]].
  - split; cbn; try apply HI; [done|done|done|].
    intros d Hd. apply (hi_desc_at _ _ HI). rewrite Hp. set_solver.
  - destruct (hi_desc_at _ _ HI c Hc). done.
  - destruct (desc_bounds _ _ HI c Hc). lia.
Qed.
End Correct.
