(* ===== verification/KmallocGrow.v ===== *)
(** The branch of [kmalloc] that adds a bucket: descriptor pages, the new
    bucket's page and its insertion in a size class. *)

From S2P Require Import Prelude Mem CString PageAlloc Kmalloc KmallocLemmas KmallocCorrect.

Section Grow.
Context {S : Type} `{PL : PageLaws S}.
Implicit Types (h : kheap S) (A : aheap).

(** ** A page of descriptors *)

Definition desc_list (p : Z) : list Z := page_blocks p sizeof_bucket_desc.

Lemma desc_list_elem p d :
  0 <= p -> d ∈ desc_list p <-> block_of p 32 d.
Proof. intros Hp. apply (page_blocks_wf p 32); [done|lia|done]. Qed.

Lemma spares_ok_block_list m n a bs :
  (forall k, 0 <= k -> k + 1 < Z.of_nat n ->
     ld64 m (bd_next (a + k * bs)) = a + (k + 1) * bs) ->
  ((0 < n)%nat -> ld64 m (bd_next (a + (Z.of_nat n - 1) * bs)) = 0) ->
  spares_ok m (block_list n a bs).
Proof.
  revert a. induction n as [|n IH]; intros a Hl Hlast; cbn [block_list spares_ok]; [done|].
  split.
  - destruct n as [|n]; cbn.
    + specialize (Hlast ltac:(lia)). rewrite <- Hlast. unfold bd_next. f_equal. lia.
    + specialize (Hl 0 ltac:(lia) ltac:(lia)). rewrite Z.mul_0_l, Z.add_0_r in Hl.
      rewrite Hl. unfold hd0. cbn. lia.
  - apply IH.
    + intros k Hk0 Hk. specialize (Hl (k + 1) ltac:(lia) ltac:(lia)).
      replace (a + bs + k * bs) with (a + (k + 1) * bs) by lia. rewrite Hl. lia.
    + intros Hn. specialize (Hlast ltac:(lia)). rewrite <- Hlast. unfold bd_next. f_equal. lia.
Qed.

(** What [construct_free_bucket_chain] writes on its page. *)
Definition link_page (m : mem) (p : Z) : mem :=
  st64 (link_descs 127 0 m p) (bd_next (p + 127 * 32)) NULL.

Lemma link_page_spec m p :
  0 <= p -> p + PAGE_SIZE <= 4294967296 ->
  same_out p (p + PAGE_SIZE) (link_page m p) m /\ spares_ok (link_page m p) (desc_list p).
Proof.
  intros Hp Hp4. unfold PAGE_SIZE in *. unfold link_page. split.
  - intros x Hx. unfold st64, bd_next. rewrite ld8_stn_ne by lia.
    apply (link_descs_out 127 0); lia.
  - apply (spares_ok_block_list _ 128); intros.
    + unfold sizeof_bucket_desc. rewrite <- (link_descs_next 127 0 m p k) by lia.
      unfold ld64, st64, bd_next. apply ldn_stn_ne. lia.
    + change (Z.of_nat 128 - 1) with 127. rewrite ld64_st64. done.
Qed.

(** A page of linked descriptors becomes the spare list. *)
Lemma add_desc_page_inv h A p :
  heap_inv h A -> spares A = [] -> pa_page (pm h) p -> ~ pa_free (pm h) (hmem h) p ->
  p ∉ all_pages A -> spares_ok (hmem h) (desc_list p) ->
  heap_inv (KHeap (g_bucket_dir h) p (lock h) (pm h) (hmem h))
    (AHeap (classes A) (desc_list p) (p :: dpages A)).
Proof.
  intros HI Hs HP Hnf Hn Hso.
  destruct (pa_page_ok _ _ p (hi_pm _ _ HI) HP) as (Hpm & Hp0 & Hp4 & _).
  destruct (page_blocks_wf p 32 ltac:(lia) ltac:(lia) eq_refl) as (Hnd & Hel & _).
  assert (all_pages (AHeap (classes A) (desc_list p) (p :: dpages A)) ≡ₚ p :: all_pages A) as Ep.
  { unfold all_pages. cbn. by rewrite <- Permutation_middle. }
  assert (forall d, d ∈ desc_list p -> d mod 32 = 0 /\ page_of d = p) as Hdp.
  { intros d Hd. apply Hel in Hd. split; [|eapply (block_page_of p 32); [done|lia|done]].
    destruct Hd as (_ & _ & H3). apply Z.mod_divide in H3 as [j Hj], Hpm as [k Hk];
      [|unfold PAGE_SIZE in *; lia..].
    replace d with ((j + k * 128) * 32) by (unfold PAGE_SIZE in *; lia).
    apply Z.mod_mul. lia. }
  split; cbn [pm hmem g_bucket_dir free_bucket_chain classes spares dpages];
    [apply HI..|done|reflexivity| | | |].
  - unfold all_descs. cbn [classes spares]. pose proof (hi_descs _ _ HI) as H0. unfold all_descs in H0.
    rewrite Hs, app_nil_r in H0. apply NoDup_app. split; [done|]. split; [|done].
    intros d Hd Hin. apply Hdp in Hin as [_ E]. apply Hn. rewrite <- E.
    eapply desc_page_in; [done|]. apply elem_of_app. by left.
  - intros d Hd. apply elem_of_app in Hd as [Hd|Hd].
    + destruct (hi_desc_at _ _ HI d) as [? ?]; [apply elem_of_app; by left|].
      split; [done|]. apply elem_of_cons. by right.
    + apply Hdp in Hd as [? E]. split; [done|]. cbn [dpages]. rewrite E.
      apply elem_of_cons. by left.
  - rewrite Ep. constructor; [done|apply HI].
  - intros q. rewrite Ep, elem_of_cons. intros [->|Hq]; [done|]. by apply (hi_page_at _ _ HI).
Qed.

(** ** A new bucket in a class *)

Definition push_bucket A (i : nat) (b : bucket) (bs : list bucket) : aheap :=
  AHeap (<[i := b :: bs]> (classes A)) (spares A) (dpages A).

Lemma push_bucket_lists A i b bs :
  classes A !! i = Some bs ->
  all_descs (push_bucket A i b bs) ≡ₚ b_desc b :: all_descs A /\
  all_pages (push_bucket A i b bs) ≡ₚ b_page b :: all_pages A.
Proof.
  intros Hi. unfold all_descs, all_pages, push_bucket. cbn [classes spares dpages].
  rewrite !list_fmap_insert. split.
  - destruct (concat_insert_perm (fmap (M:=list) b_desc <$> classes A) i (b_desc <$> bs))
      as [rest Hr]; [by rewrite list_lookup_fmap, Hi|].
    rewrite Hr. rewrite <- (list_insert_id _ _ _ (eq_trans (list_lookup_fmap _ _ _) (f_equal _ Hi))) at 1.
    rewrite Hr. done.
  - destruct (concat_insert_perm (fmap (M:=list) b_page <$> classes A) i (b_page <$> bs))
      as [rest Hr]; [by rewrite list_lookup_fmap, Hi|].
    rewrite Hr. rewrite <- (list_insert_id _ _ _ (eq_trans (list_lookup_fmap _ _ _) (f_equal _ Hi))) at 1.
    rewrite Hr. done.
Qed.

Lemma dirs_insert cs i c :
  length cs = 9%nat -> (i < 9)%nat ->
  <[i := BucketDir (class_size i) c]> (zip_with BucketDir bucket_sizes cs ++ [BucketDir 0 NULL]) =
  zip_with BucketDir bucket_sizes (<[i := c]> cs) ++ [BucketDir 0 NULL].
Proof.
  intros Hl Hi. do 9 (destruct cs as [|? cs]; [discriminate|]). destruct cs; [|discriminate].
  do 9 (destruct i as [|i]; [reflexivity|]). lia.
Qed.

Lemma add_bucket_inv h A i b bs :
  heap_inv h A -> classes A !! i = Some bs -> loose A (b_desc b) ->
  pa_page (pm h) (b_page b) -> ~ pa_free (pm h) (hmem h) (b_page b) -> b_page b ∉ all_pages A ->
  desc_ok (hmem h) (class_size i) b (hd_desc bs) -> free_ok (hmem h) (b_free b) ->
  free_wf (class_size i) b ->
  heap_inv (KHeap (<[i := BucketDir (class_size i) (b_desc b)]> (g_bucket_dir h))
              (free_bucket_chain h) (lock h) (pm h) (hmem h)) (push_bucket A i b bs).
Proof.
  intros HI Hi (Hc32 & Hcp & Hcn) HP Hnf Hn Hd Hf Hw.
  destruct (push_bucket_lists A i b bs Hi) as [Ed Ep].
  pose proof (hi_class_lt _ _ HI _ _ Hi) as Hlt.
  assert (i < length (classes A))%nat as Hlt' by (by eapply lookup_lt_Some).
  split; cbn [pm hmem g_bucket_dir free_bucket_chain].
  - apply HI.
  - cbn [push_bucket classes]. rewrite length_insert. apply HI.
  - rewrite (hi_dirs _ _ HI), dirs_insert by (rewrite ?length_fmap; apply HI || done).
    cbn [push_bucket classes]. by rewrite list_fmap_insert.
  - intros j l Hj. cbn [push_bucket classes] in Hj. destruct (decide (j = i)) as [->|Hne].
    + rewrite list_lookup_insert_eq in Hj by done. injection Hj as <-.
      split; [done|]. split; [done|]. by apply (hi_chains _ _ HI).
    + rewrite list_lookup_insert_ne in Hj by done. by apply (hi_chains _ _ HI).
  - intros j l b' Hj Hb'. cbn [push_bucket classes] in Hj. destruct (decide (j = i)) as [->|Hne].
    + rewrite list_lookup_insert_eq in Hj by done. injection Hj as <-.
      apply elem_of_cons in Hb' as [->|Hb']; [done|]. by apply (hi_wf _ _ HI i bs).
    + rewrite list_lookup_insert_ne in Hj by done. by apply (hi_wf _ _ HI j l).
  - apply HI.
  - apply HI.
  - rewrite Ed. constructor; [done|apply HI].
  - intros d. rewrite Ed, elem_of_cons. cbn [push_bucket dpages].
    intros [->|Hin]; [done|]. by apply (hi_desc_at _ _ HI).
  - rewrite Ep. constructor; [done|apply HI].
  - intros q. rewrite Ep, elem_of_cons. intros [->|Hq]; [done|]. by apply (hi_page_at _ _ HI).
Qed.

(** A new bucket hands out nothing. *)
Lemma live_push_bucket A i b bs j a :
  classes A !! i = Some bs -> (forall x, block_of (b_page b) (class_size i) x -> x ∈ b_free b) ->
  live (push_bucket A i b bs) j a <-> live A j a.
Proof.
  intros Hi Hall. assert (i < length (classes A))%nat as Hlt by (by eapply lookup_lt_Some).
  unfold live, push_bucket. cbn [classes]. destruct (decide (j = i)) as [->|Hne].
  - rewrite list_lookup_insert_eq by done. rewrite Hi. split.
    + intros (l & b' & [= <-] & Hb' & Hbl & Hnf). apply elem_of_cons in Hb' as [->|Hb'].
      * exfalso. by apply Hnf, Hall.
      * by exists bs, b'.
    + intros (l & b' & [= <-] & Hb' & Hbl & Hnf). exists (b :: bs), b'.
      repeat split; [set_solver|apply Hbl..|done].
  - by rewrite list_lookup_insert_ne by done.
Qed.

(** ** The descriptor [grow] uses *)

Lemma hd0_0 l : Forall (fun d => d <> 0) l -> (hd0 l =? 0) = match l with [] => true | _ => false end.
Proof. destruct l as [|d l]; [done|]. intros [Hd _]%Forall_cons. cbn. by apply Z.eqb_neq. Qed.

Definition take_desc h : Z * S * mem :=
  if free_bucket_chain h =? 0 then construct_free_bucket_chain (pm h) (hmem h)
  else (free_bucket_chain h, pm h, hmem h).

Lemma take_desc_spec h A :
  heap_inv h A -> (spares A <> [] \/ exists p, pa_free (pm h) (hmem h) p) ->
  exists c s1 m1 rest dp, take_desc h = (c, s1, m1) /\ c <> 0 /\
    let A1 := AHeap (classes A) rest dp in
    let h1 := KHeap (g_bucket_dir h) (ld64 m1 (bd_next c)) (lock h) s1 m1 in
    heap_inv h1 A1 /\ loose A1 c /\ keeps A m1 (hmem h) /\ frees h1 h.
Proof.
  intros HI Hav. unfold take_desc. rewrite (hi_fbc _ _ HI).
  destruct (spares A) as [|c rest] eqn:Hs.
  - cbn [hd0 head default]. change (default 0 None =? 0) with true. cbn iota.
    unfold construct_free_bucket_chain.
    destruct (get_free_page (pm h) (hmem h)) as [[p s'] m'] eqn:Hg.
    destruct (get_page_step h A p s' m' HI Hg) as (HI1 & Hk1 & Hf1 & [[-> Hno]|Hp]).
    { destruct Hav as [|[p Hp]]; [done|].
      destruct (pa_get _ _ _ _ _ (hi_pm _ _ HI) Hg) as [(_ & _ & _ & Hno')|(H0 & _)].
      - by destruct (Hno' p).
      - destruct (pa_page_ok _ _ 0 (hi_pm _ _ HI)) as (_ & ? & _); [|lia].
        by eapply pa_free_page; [apply HI|]. }
    destruct Hp as (Hp0 & _ & _ & HP & Hnf & Hn).
    destruct (pa_page_ok _ _ p (hi_pm _ _ HI1) HP) as (Hpm & Hpp & Hp4 & _).
    destruct (link_page_spec m' p ltac:(lia) Hp4) as [Hlo Hls].
    change (PAGE_SIZE / sizeof_bucket_desc) with 128. cbn [Z.to_nat Z.sub].
    change (Z.to_nat (128 - 1)) with 127%nat. change (128 - 1) with 127.
    change (127 * sizeof_bucket_desc) with (127 * 32). fold (link_page m' p).
    destruct (fresh_write _ A p (link_page m' p) HI1 HP Hnf Hn Hlo) as (HI2 & Hk2 & Hf2).
    cbn [pm hmem] in HP, Hnf.
    set (h2 := set_mem _ _) in HI2, Hf2.
    assert (~ pa_free (pm h2) (hmem h2) p) as Hnf2.
    { intros Hq. destruct Hf2 as [_ Hf2]. by apply Hf2 in Hq as [Hq _]. }
    pose proof (add_desc_page_inv h2 A p HI2 Hs HP Hnf2 Hn Hls) as HI3.
    destruct (drop_spare_inv _ _ p (block_list 127 (p + 32) 32) HI3 eq_refl)
      as (HI4 & Hloose & _ & Hnx). cbn [hmem h2 set_mem] in Hnx.
    exists p, s', (link_page m' p), (block_list 127 (p + 32) 32), (p :: dpages A).
    split; [done|]. split; [done|]. cbn zeta. rewrite Hnx.
    split; [exact HI4|]. split; [exact Hloose|]. split.
    + intros j a Hl. etransitivity; [by apply Hk2|by apply Hk1].
    + apply (frees_trans h (KHeap (g_bucket_dir h) (free_bucket_chain h) (lock h) s' m')); done.
  - destruct (drop_spare_inv h A c rest HI Hs) as (HI1 & Hloose & Hc0 & Hnx).
    change (hd0 (c :: rest)) with c. apply Z.eqb_neq in Hc0 as Hc. rewrite Hc.
    exists c, (pm h), (hmem h), rest, (dpages A). split; [done|]. split; [done|]. cbn zeta.
    rewrite Hnx. split; [done|]. split; [done|]. split; [done|]. split; [done|]. done.
Qed.

(** ** [grow] *)

(** The fresh descriptor: cleared, then its block size written. *)
Definition init_desc (m : mem) (c sz : Z) : mem :=
  st32 (memset m c 0 sizeof_bucket_desc) (bd_blockSize c) sz.

Lemma init_desc_spec m c sz :
  0 <= sz < 4294967296 ->
  same_out c (c + 32) (init_desc m c sz) m /\
  ld32 (init_desc m c sz) (bd_refCnt c) = 0 /\ ld32 (init_desc m c sz) (bd_blockSize c) = sz.
Proof.
  intros Hsz. unfold init_desc, bd_blockSize, bd_refCnt. split; [|split].
  - eapply same_out_trans; [apply (same_out_stn _ _ 4); lia|].
    apply same_out_memset; unfold sizeof_bucket_desc, u32; [lia|]. change (32 mod 4294967296) with 32. lia.
  - unfold ld32, st32. rewrite ldn_stn_ne by lia. apply ldn_zero. intros x Hx.
    rewrite memset_ld8. unfold sizeof_bucket_desc. change (u32 32) with 32.
    destruct (c <=? x) eqn:?, (x <? c + 32) eqn:?; bool_hyps; done || lia.
  - rewrite ld32_st32. by apply u32_small.
Qed.

(** The three pointer stores that complete the descriptor, around the carving
    of its page. *)
Definition fill_desc (m : mem) (c page bs nxt : Z) : mem :=
  let m5 := st64 m (bd_page c) page in
  let m6 := carve m5 (ld64 m5 (bd_page c)) (ld32 m5 (bd_blockSize c)) in
  st64 (st64 m6 (bd_freeBlock c) (ld64 m6 (bd_page c))) (bd_next c) nxt.

Lemma carve_clean m' m page sz :
  0 < page -> page + PAGE_SIZE <= 4294967296 -> 16 <= sz -> PAGE_SIZE mod sz = 0 -> sz mod 16 = 0 ->
  clean_page m page -> agree page (page + PAGE_SIZE) m' m ->
  free_ok (carve m' page sz) (page_blocks page sz).
Proof.
  intros Hp Hp4 Hsz Hdiv H16 Hcl Hag. apply carve_free_ok; [lia|done..|]. intros a Ha.
  assert (block_of page 16 a) as Hb16.
  { destruct Ha as (H1 & H2 & H3). split; [done|]. split; [lia|].
    apply Z.mod_divide in H3 as [k Hk], H16 as [j Hj]; [|lia..].
    rewrite Hk, Hj, Z.mul_assoc. apply Z.mod_mul. lia. }
  specialize (Hcl a Hb16). unfold clean_block in *. rewrite <- Hcl.
  destruct Hb16 as (? & ? & _). eapply (agree_ldn page (page + PAGE_SIZE) 4); [done|lia..].
Qed.

Lemma fill_desc_spec m c page sz nxt :
  0 < page -> page + PAGE_SIZE <= 4294967296 -> 16 <= sz -> PAGE_SIZE mod sz = 0 ->
  sz mod 16 = 0 -> 0 <= nxt < 18446744073709551616 ->
  c + 32 <= page \/ page + PAGE_SIZE <= c ->
  clean_page m page -> ld32 m (bd_blockSize c) = sz -> ld32 m (bd_refCnt c) = 0 ->
  (exists m6, same_out c (c + 32) (st64 m (bd_page c) page) m /\
     same_out page (page + PAGE_SIZE) m6 (st64 m (bd_page c) page) /\
     same_out c (c + 32) (fill_desc m c page sz nxt) m6) /\
  desc_ok (fill_desc m c page sz nxt) sz (Bucket c page (page_blocks page sz)) nxt /\
  free_ok (fill_desc m c page sz nxt) (page_blocks page sz).
Proof.
  intros Hp Hp4 Hsz Hdiv H16 Hnx Hap Hcl Hbs Hrc. unfold fill_desc.
  assert (page < 4294967296) by (unfold PAGE_SIZE in *; lia).
  set (m5 := st64 m (bd_page c) page).
  assert (same_out c (c + 32) m5 m) as Ho5 by (apply (same_out_stn _ _ 8); unfold bd_page; lia).
  assert (ld64 m5 (bd_page c) = page) as E1 by (unfold m5; rewrite ld64_st64; apply u64_small; lia).
  assert (forall o, 8 <= o -> ld32 m5 (c + o) = ld32 m (c + o)) as E5.
  { intros o Ho. unfold m5, ld32, st64, bd_page. apply ldn_stn_ne. lia. }
  assert (ld32 m5 (bd_blockSize c) = sz) as E2 by (unfold bd_blockSize in *; by rewrite E5 by lia).
  assert (ld32 m5 (bd_refCnt c) = 0) as E3 by (unfold bd_refCnt in *; by rewrite E5 by lia).
  rewrite E1, E2. set (m6 := carve m5 page sz).
  pose proof (carve_out m5 page sz ltac:(lia) Hp4 Hsz Hdiv) as Ho6. fold m6 in Ho6.
  assert (agree c (c + 32) m6 m5) as Ha6 by (eapply same_out_agree; [exact Ho6|lia]).
  assert (ld64 m6 (bd_page c) = page) as F1.
  { rewrite <- E1. eapply (agree_ldn _ _ 8); [exact Ha6|unfold bd_page; lia..]. }
  assert (ld32 m6 (bd_blockSize c) = sz) as F2.
  { rewrite <- E2. eapply (agree_ldn _ _ 4); [exact Ha6|unfold bd_blockSize; lia..]. }
  assert (ld32 m6 (bd_refCnt c) = 0) as F3.
  { rewrite <- E3. eapply (agree_ldn _ _ 4); [exact Ha6|unfold bd_refCnt; lia..]. }
  rewrite F1. set (m8 := st64 (st64 m6 (bd_freeBlock c) page) (bd_next c) nxt).
  assert (same_out c (c + 32) m8 m6) as Ho8.
  { eapply same_out_trans; [apply (same_out_stn _ _ 8)|apply (same_out_stn _ _ 8)];
      unfold bd_next, bd_freeBlock; lia. }
  assert (free_ok m6 (page_blocks page sz)) as Hf.
  { apply (carve_clean m5 m); try done. eapply same_out_agree; [exact Ho5|lia]. }
  destruct (page_blocks_wf page sz ltac:(lia) Hsz Hdiv) as (Hnd & Hel & Hlen).
  split; [by exists m6|]. split.
  - unfold desc_ok. cbn [b_desc b_page b_free]. rewrite Hlen.
    split; [|split; [|split; [|split]]].
    + rewrite <- F1. unfold m8, ld64, st64, bd_page, bd_next, bd_freeBlock.
      by rewrite !ldn_stn_ne by lia.
    + unfold m8. rewrite ld64_st64. by apply u64_small.
    + unfold m8. unfold ld64 at 1, st64 at 1, bd_next. rewrite ldn_stn_ne by (unfold bd_freeBlock; lia).
      fold ld64. rewrite ld64_st64, u64_small by lia.
      unfold page_blocks. pose proof (block_count sz ltac:(lia) Hdiv).
      assert (0 < PAGE_SIZE / sz) by (unfold PAGE_SIZE in *; nia).
      destruct (Z.to_nat (PAGE_SIZE / sz)) eqn:E; [lia|]. done.
    + rewrite Z.sub_diag, <- F3. unfold m8, ld32, st64, bd_refCnt, bd_next, bd_freeBlock.
      by rewrite !ldn_stn_ne by lia.
    + rewrite <- F2. unfold m8, ld32, st64, bd_blockSize, bd_next, bd_freeBlock.
      by rewrite !ldn_stn_ne by lia.
  - eapply free_ok_frame; [exact Hf|]. intros a Ha. apply Hel in Ha as (? & ? & _).
    eapply same_out_agree; [exact Ho8|lia].
Qed.

Lemma clean_page_agree m' m p : agree p (p + PAGE_SIZE) m' m -> clean_page m p -> clean_page m' p.
Proof.
  intros Hag Hc a Ha. specialize (Hc a Ha). unfold clean_block in *. rewrite <- Hc.
  destruct Ha as (? & ? & _). eapply (agree_ldn p (p + PAGE_SIZE) 4); [done|lia..].
Qed.

Definition free_clean h : Prop :=
  forall p, pa_free (pm h) (hmem h) p -> clean_page (hmem h) p.

Lemma free_clean_frees h h' : frees h' h -> free_clean h -> free_clean h'.
Proof.
  intros [_ Hf] Hc p Hp. destruct (Hf p Hp) as [Hp' Hag].
  by eapply clean_page_agree, Hc.
Qed.

Lemma loose_page_apart h A c p :
  heap_inv h A -> loose A c -> p mod PAGE_SIZE = 0 -> p ∉ all_pages A ->
  c + 32 <= p \/ p + PAGE_SIZE <= c.
Proof.
  intros HI (Hc & Hd & _) Hp Hn.
  eapply (fresh_page_apart h A p c (c + 32)); [done..|].
  exists (page_of c). split; [apply elem_of_app; by right|]. unfold page_of, PAGE_SIZE. zlia.
Qed.

(** A descriptor in hand is completed with a fresh clean page and put in front
    of its class. *)
Lemma fill_step h A i bs c p :
  heap_inv h A -> classes A !! i = Some bs -> loose A c ->
  pa_page (pm h) p -> ~ pa_free (pm h) (hmem h) p -> p ∉ all_pages A -> clean_page (hmem h) p ->
  ld32 (hmem h) (bd_blockSize c) = class_size i -> ld32 (hmem h) (bd_refCnt c) = 0 ->
  let m' := fill_desc (hmem h) c p (class_size i) (hd_desc bs) in
  heap_inv (KHeap (<[i := BucketDir (class_size i) c]> (g_bucket_dir h)) (free_bucket_chain h) (lock h) (pm h) m')
    (push_bucket A i (Bucket c p (page_blocks p (class_size i))) bs) /\
  keeps A m' (hmem h) /\ frees (set_mem h m') h.
Proof.
  intros HI Hi Hl HP Hnf Hn Hcl Hbsz Hrc m'. pose proof (hi_class_lt _ _ HI _ _ Hi) as Hlt.
  pose proof (class_size_pos i Hlt) as Hsz. pose proof (class_size_mod i Hlt) as Hdiv.
  destruct (class_size_div i Hlt) as (_ & _ & _ & H16).
  destruct (pa_page_ok _ _ p (hi_pm _ _ HI) HP) as (Hpm & Hpp & Hp4 & _).
  pose proof (loose_page_apart _ _ c p HI Hl Hpm Hn) as Hap.
  assert (0 <= hd_desc bs < 18446744073709551616) as Hhd.
  { destruct bs as [|b bs']; [unfold hd_desc, hd0; cbn; lia|]. unfold hd_desc, hd0. cbn.
    destruct (desc_bounds _ _ HI (b_desc b)); [|lia]. eapply bucket_desc_in; [done|set_solver]. }
  destruct (fill_desc_spec (hmem h) c p (class_size i) (hd_desc bs)) as ((m6 & Hoa & Hob & Hoc) & Hdok & Hfok);
    [lia..|done|done|lia|done|done|done|done|]. fold m' in Hoc, Hdok, Hfok.
  destruct (loose_write h A c _ HI Hl Hoa) as (HI5 & Hk5 & Hf5).
  assert (~ pa_free (pm h) (st64 (hmem h) (bd_page c) p) p) as Hnf5 by (intros [Hq _]%(proj2 Hf5); done).
  destruct (fresh_write (set_mem h _) A p m6 HI5 HP Hnf5 Hn Hob) as (HI6 & Hk6 & Hf6).
  destruct (loose_write _ A c m' HI6 Hl Hoc) as (HI8 & Hk8 & Hf8).
  pose proof (frees_trans _ _ _ Hf8 (frees_trans _ _ _ Hf6 Hf5)) as Hfr. split; [|split; [|done]].
  - apply (add_bucket_inv _ A i (Bucket c p (page_blocks p (class_size i))) bs HI8); try done.
    + intros [Hq _]%(proj2 Hfr). done.
    + destruct (page_blocks_wf p (class_size i) ltac:(lia) ltac:(lia) Hdiv) as (Hnd & Hel & _).
      split; [done|]. cbn [b_free b_page]. intros a. apply Hel.
  - intros j a Hlv. etransitivity; [by apply Hk8|]. etransitivity; [by apply Hk6|]. by apply Hk5.
Qed.

Lemma grow_spec h A i bs :
  heap_inv h A -> classes A !! i = Some bs -> free_clean h ->
  (spares A <> [] \/ exists p, pa_free (pm h) (hmem h) p) ->
  exists oc h', grow i h = (oc, h') /\ lock h' = lock h /\ frees h' h /\
  exists A1, classes A1 = classes A /\
  match oc with
  | None => heap_inv h' A1 /\ keeps A (hmem h') (hmem h) /\
      forall q, ~ pa_free (pm h') (hmem h') q
  | Some c => exists p, heap_inv h' (push_bucket A1 i (Bucket c p (page_blocks p (class_size i))) bs) /\
      keeps A (hmem h') (hmem h) /\ pa_free (pm h) (hmem h) p
  end.
Proof.
  intros HI Hi Hcl Hav.
  pose proof (hi_class_lt _ _ HI _ _ Hi) as Hlt.
  pose proof (class_size_pos i Hlt) as Hsz.
  destruct (class_size_div i Hlt) as (kk & Hkk & Hk0 & H16).
  destruct (take_desc_spec h A HI Hav) as (c & s1 & m1 & rest & dp & Et & Hc0 & HI1 & Hl & Hk1 & Hf1).
  set (A1 := AHeap (classes A) rest dp) in *. set (h1 := KHeap _ _ _ s1 m1) in *.
  unfold grow. fold (take_desc h). rewrite Et.
  assert (g_bucket_dir h !! i = Some (BucketDir (class_size i) (hd_desc bs))) as Hd.
  { rewrite (hi_dirs _ _ HI). apply dirs_lookup; [rewrite length_fmap; apply HI|].
    by rewrite list_lookup_fmap, Hi. }
  rewrite Hd. cbn [default size chain id]. cbv zeta. fold (init_desc m1 c (class_size i)).
  destruct (init_desc_spec m1 c (class_size i) ltac:(lia)) as (Ho3 & Hrc & Hbsz).
  set (m3 := init_desc m1 c (class_size i)) in *.
  destruct (loose_write h1 A1 c m3 HI1 Hl Ho3) as (HI3 & Hk3 & Hf3).
  destruct (get_free_page s1 m3) as [[p s4] m4] eqn:Hg.
  destruct (get_page_inv (set_mem h1 m3) A1 p s4 m4 HI3 Hg) as (_ & _ & _ & Hag & _).
  destruct (get_page_step (set_mem h1 m3) A1 p s4 m4 HI3 Hg) as (HI4 & Hk4 & Hf4 & Hcase).
  set (h4 := KHeap _ _ _ s4 m4) in *.
  assert (same_out c (c + 32) (st64 m4 (bd_page c) p) m4) as Ho5
    by (apply (same_out_stn _ _ 8); unfold bd_page; lia).
  destruct (loose_write h4 A1 c _ HI4 Hl Ho5) as (HI5 & Hk5 & Hf5).
  assert (frees (set_mem h4 (st64 m4 (bd_page c) p)) h) as Hf5'.
  { do 3 (eapply frees_trans; [eassumption|]). done. }
  assert (keeps A (st64 m4 (bd_page c) p) (hmem h)) as Hk5'.
  { intros j a Hlv. do 3 (etransitivity; [by apply Hk5 || by apply Hk4 || by apply Hk3|]).
    by apply Hk1. }
  destruct Hcase as [[-> Hno] | (Hp0 & Hpf & Hpag & HP & Hnf & Hn)].
  { eexists None, _. split; [reflexivity|]. split; [done|].
    split; [exact Hf5'|]. exists A1. split; [done|]. split; [exact HI5|]. split; [exact Hk5'|].
    cbn [pm hmem]. intros q Hq. destruct Hf5 as [_ Hf5]. apply Hf5 in Hq as [Hq _].
    by apply (Hno q). }
  apply Z.eqb_neq in Hp0 as ->. fold (fill_desc m4 c p (class_size i) (hd_desc bs)).
  assert (clean_page m4 p) as Hclp.
  { eapply clean_page_agree; [exact Hpag|]. eapply free_clean_frees; [|exact Hcl|exact Hpf].
    eapply frees_trans; [exact Hf3|exact Hf1]. }
  assert (agree c (c + 32) m4 m3) as Hag4.
  { intros x Hx. destruct Hl as (Hc32 & Hcp & _). apply (Hag (page_of c)).
    - apply (proj1 Hf3), (hi_page_at _ _ HI1), elem_of_app. by right.
    - unfold page_of, PAGE_SIZE. zlia. }
  assert (ld32 m4 (bd_blockSize c) = class_size i) as Hbsz4.
  { rewrite <- Hbsz. eapply (agree_ldn c (c + 32) 4); [done|unfold bd_blockSize; lia..]. }
  assert (ld32 m4 (bd_refCnt c) = 0) as Hrc4.
  { rewrite <- Hrc. eapply (agree_ldn c (c + 32) 4); [done|unfold bd_refCnt; lia..]. }
  destruct (fill_step h4 A1 i bs c p HI4 Hi Hl HP Hnf Hn Hclp Hbsz4 Hrc4) as (HI8 & Hk8 & Hf8).
  eexists (Some c), _. split; [done|]. split; [done|]. split.
  { exact (frees_trans _ _ _ Hf8 (frees_trans _ _ _ Hf4 (frees_trans _ _ _ Hf3 Hf1))). }
  exists A1. split; [done|]. exists p. split; [exact HI8|]. split.
  - intros j a Hlv. do 3 (etransitivity; [by apply Hk8 || by apply Hk4 || by apply Hk3|]). by apply Hk1.
  - apply (proj2 (frees_trans _ _ _ Hf3 Hf1)), Hpf.
Qed.
End Grow.
