(* ===== verification/KmallocThms.v ===== *)
(** What [kmalloc], [kzalloc] and [kfree_s] do, from the lemmas of
    KmallocCorrect and KmallocGrow. *)

From S2P Require Import Prelude Mem CString PageAlloc Kmalloc KmallocLemmas KmallocCorrect KmallocGrow.

Section Thms.
Context {S : Type} `{PL : PageLaws S}.
Implicit Types (h : kheap S) (A : aheap).

(** ** The lock and the initial heap *)

Lemma heap_inv_lock h A l : heap_inv h A -> heap_inv (set_lock h l) A.
Proof. intros HI. destruct HI. by split. Qed.

Lemma heap_inv_init (s : S) (m : mem) l :
  pa_inv s m ->
  heap_inv (KHeap g_bucket_dir_init NULL l s m) (AHeap (replicate 9 []) [] []).
Proof.
  intros Hi.
  assert (forall i bs, replicate 9 (@nil bucket) !! i = Some bs -> bs = []) as E.
  { intros i bs Hl. by apply lookup_replicate in Hl as [-> _]. }
  split; cbn [pm hmem g_bucket_dir free_bucket_chain classes spares dpages]; try done.
  - intros i bs Hl. by apply E in Hl as ->.
  - intros i bs b Hl Hb. apply E in Hl as ->. by apply elem_of_nil in Hb.
  - constructor.
  - intros d Hd. by apply elem_of_nil in Hd.
  - constructor.
  - intros d Hd. by apply elem_of_nil in Hd.
Qed.

Lemma live_init i a : ~ live (AHeap (replicate 9 []) [] []) i a.
Proof.
  intros (bs & b & Hl & Hb & _). apply lookup_replicate in Hl as [-> _].
  by apply elem_of_nil in Hb.
Qed.

(** ** Taking a block *)

Definition short_chains (fuel : nat) A : Prop :=
  forall i bs, classes A !! i = Some bs -> (length bs < fuel)%nat.

Lemma short_chains_set fuel A i bs sp dp :
  short_chains fuel A -> (length bs < fuel)%nat ->
  short_chains fuel (AHeap (<[i := bs]> (classes A)) sp dp).
Proof.
  intros Hs Hb j bs' Hj. cbn [classes] in Hj. apply list_lookup_insert_Some in Hj.
  destruct Hj as [(<- & <- & _)|(_ & Hj)]; [done|by eapply Hs].
Qed.

Lemma short_chains_S fuel A : short_chains fuel A -> short_chains (Datatypes.S fuel) A.
Proof. intros Hs j bs Hj. specialize (Hs j bs Hj). lia. Qed.

Lemma pop_step h A i bs1 b bs2 r fl :
  heap_inv h A -> classes A !! i = Some (bs1 ++ b :: bs2) -> b_free b = r :: fl ->
  exists m' A', pop_block (b_desc b) (hmem h) = (r, m') /\
    heap_inv (set_mem h m') A' /\ keeps A m' (hmem h) /\
    ~ live A i r /\ (forall j a, live A' j a <-> live A j a \/ (j = i /\ a = r)) /\
    0 < r /\ r + class_size i <= 4294967296 /\ frees (set_mem h m') h /\
    forall fuel, short_chains fuel A -> short_chains fuel A'.
Proof.
  intros HI Hi Hb. assert (b ∈ bs1 ++ b :: bs2) as Hin by set_solver.
  assert (r ∈ b_free b) as Hr by (rewrite Hb; set_solver).
  destruct (pop_block_spec h A i bs1 b bs2 r fl HI Hi Hb) as (m' & Ep & Ho & Hd & Hf).
  destruct (live_pop h A i bs1 b bs2 r fl HI Hi Hb) as [Hnl Hl].
  exists m', (set_class A i (bs1 ++ Bucket (b_desc b) (b_page b) fl :: bs2)).
  split; [done|]. split; [|split; [|split; [done|split; [done|]]]].
  - apply desc_change_inv; try done.
    destruct (hi_wf _ _ HI _ _ _ Hi Hin) as [Hnd Hbl]. rewrite Hb in Hnd, Hbl.
    apply NoDup_cons in Hnd as [_ Hnd]. split; [done|]. cbn. intros a Ha. apply Hbl. set_solver.
  - intros j a Hlv. eapply live_frame_desc; [done|exact Ho| |done]. by eapply bucket_desc_in.
  - pose proof (free_block_wf _ _ HI _ _ _ _ Hi Hin Hr) as Hbl.
    destruct (block_bounds _ _ HI _ _ _ _ Hi Hin Hbl) as (? & ? & _). split; [done|]. split; [done|].
    pose proof (bucket_desc_in _ _ _ _ Hi Hin) as Hc.
    destruct (hi_page_at _ _ HI _ (desc_page_in _ _ HI _ Hc)) as [HP Hnf].
    split.
    + eapply page_write_frees; [done|done|done|]. apply desc_same_out_page; [|done].
      by apply (hi_desc_at _ _ HI).
    + intros fuel Hs. apply short_chains_set; [done|]. specialize (Hs i _ Hi).
      rewrite length_app in *. done.
Qed.

Lemma class_nonzero h A i bs :
  heap_inv h A -> classes A !! i = Some bs ->
  Forall (fun b => b_desc b <> 0) bs /\ Forall (fun b => Forall (fun a => a <> 0) (b_free b)) bs.
Proof.
  intros HI Hi. rewrite !Forall_forall. split.
  - intros b Hb. destruct (desc_bounds _ _ HI (b_desc b)); [by eapply bucket_desc_in|lia].
  - intros b Hb. rewrite Forall_forall. intros a Ha.
    pose proof (free_block_wf _ _ HI _ _ _ _ Hi Hb Ha) as Hbl.
    destruct (block_bounds _ _ HI _ _ _ _ Hi Hb Hbl); lia.
Qed.

Lemma dir_lookup h A i bs :
  heap_inv h A -> classes A !! i = Some bs ->
  g_bucket_dir h !! i = Some (BucketDir (class_size i) (hd_desc bs)).
Proof.
  intros HI Hi. rewrite (hi_dirs _ _ HI). apply dirs_lookup; [rewrite length_fmap; apply HI|].
  by rewrite list_lookup_fmap, Hi.
Qed.

Lemma dir_sentinel h A : heap_inv h A -> g_bucket_dir h !! 9%nat = Some (BucketDir 0 NULL).
Proof.
  intros HI. rewrite (hi_dirs _ _ HI). rewrite lookup_app_r.
  - by rewrite length_zip_with, length_fmap, (hi_classes _ _ HI).
  - rewrite length_zip_with, length_fmap, (hi_classes _ _ HI). cbn. lia.
Qed.

Lemma find_dir_inv h A len : heap_inv h A -> find_dir (g_bucket_dir h) len = class_of len.
Proof.
  intros HI. rewrite (hi_dirs _ _ HI). apply find_dir_class.
  rewrite length_fmap. apply HI.
Qed.

(** [kmalloc] can obtain a descriptor. *)
Definition desc_available h A : Prop :=
  spares A <> [] \/ exists p, pa_free (pm h) (hmem h) p.

(** No block of class [i] is free. *)
Definition exhausted A (i : nat) : Prop :=
  forall bs, classes A !! i = Some bs -> Forall (fun b => b_free b = []) bs.

(** The first block of the page [grow] has just carved. *)
Lemma pop_fresh fuel h A A1 i bs c p :
  heap_inv h (push_bucket A1 i (Bucket c p (page_blocks p (class_size i))) bs) ->
  classes A1 = classes A -> classes A !! i = Some bs -> short_chains fuel A ->
  exists r m' A', pop_block c (hmem h) = (r, m') /\ heap_inv (set_mem h m') A' /\
    keeps A m' (hmem h) /\ frees (set_mem h m') h /\ short_chains (Datatypes.S fuel) A' /\
    0 < r /\ r + class_size i <= 4294967296 /\ ~ live A i r /\
    forall j a, live A' j a <-> live A j a \/ (j = i /\ a = r).
Proof.
  intros HI' Hc1 Hi Hsh. set (b := Bucket c p _) in *.
  assert (i < length (classes A1))%nat as Hlt by (rewrite Hc1; by eapply lookup_lt_Some).
  assert (classes (push_bucket A1 i b bs) !! i = Some ([] ++ b :: bs)) as Hib by (by apply list_lookup_insert_eq).
  pose proof (hi_class_lt _ _ HI' _ _ Hib) as Hi9. pose proof (class_size_mod i Hi9) as Hdiv.
  pose proof (class_size_pos i Hi9) as Hsz.
  destruct (hi_page_ok _ _ HI' p) as (_ & Hp0 & _ & _); [by eapply (bucket_page_in _ i (b :: bs) b); [done|set_solver]|].
  destruct (page_blocks_wf p (class_size i) ltac:(lia) ltac:(lia) Hdiv) as (_ & Hel & Hln).
  destruct (b_free b) as [|r fl] eqn:Hb.
  { exfalso. change (b_free b) with (page_blocks p (class_size i)) in Hb.
    rewrite Hb in Hln. cbn in Hln. pose proof (class_count i Hi9). lia. }
  destruct (pop_step h (push_bucket A1 i b bs) i [] b bs r fl HI' Hib Hb)
    as (m' & A' & Ep & HI2 & Hk2 & Hnl & Hlv & Hr1 & Hr2 & Hfs2 & Hsh2).
  assert (forall j a, live (push_bucket A1 i b bs) j a <-> live A j a) as Hlv2.
  { intros j a. rewrite live_push_bucket; [by apply live_same_classes|by rewrite Hc1|]. intros x Hx. by apply Hel. }
  exists r, m', A'. split_and!; try done.
  - intros j a Hlj. apply Hk2. by apply Hlv2.
  - apply Hsh2, short_chains_set; [|cbn; specialize (Hsh _ _ Hi); lia].
    apply short_chains_S. intros j l. rewrite Hc1. apply Hsh.
  - by rewrite <- Hlv2.
  - intros j a. by rewrite Hlv, Hlv2.
Qed.

Lemma kmalloc_small fuel len h A i bs :
  heap_inv h A -> lock h = 0 -> short_chains fuel A -> desc_available h A -> free_clean h ->
  class_of (u32 len) = i -> classes A !! i = Some bs ->
  exists r h' A', kmalloc fuel len h = Some (r, h') /\ lock h' = 0 /\ heap_inv h' A' /\
    keeps A (hmem h') (hmem h) /\ frees h' h /\ short_chains (Datatypes.S fuel) A' /\
    ((r = 0 /\ (forall j a, live A' j a <-> live A j a) /\
      exhausted A i /\ forall q, ~ pa_free (pm h') (hmem h') q) \/
     (0 < r /\ r + class_size i <= 4294967296 /\ ~ live A i r /\
      forall j a, live A' j a <-> live A j a \/ (j = i /\ a = r))).
Proof.
  intros HI Hl Hsh Hav Hcl Hlen Hi. unfold kmalloc, heap_lock. rewrite Hl. cbn [Z.eqb mbind option_bind].
  pose proof (heap_inv_lock h A 1 HI) as HI1.
  set (h1 := set_lock h 1) in *. rewrite (find_dir_inv h1 A _ HI1), Hlen, (dir_lookup _ _ _ _ HI1 Hi). cbn [default id size chain].
  pose proof (class_size_pos i (hi_class_lt _ _ HI _ _ Hi)) as Hsz.
  destruct (class_size i =? 0) eqn:E; bool_hyps; [lia|].
  destruct (class_nonzero _ _ _ _ HI1 Hi) as [Hn1 Hn2].
  destruct (find_free_chain_spec fuel (hmem h1) (class_size i) bs)
    as [[-> Hex] | (bs1 & b & bs2 & r & fl & -> & Hb & ->)]; try done.
  { by apply (hi_chains _ _ HI1). } { by eapply Hsh. }
  - cbn [mbind option_bind]. change (0 =? 0) with true. cbn iota.
    destruct (grow_spec h1 A i bs HI1 Hi Hcl Hav) as (oc & h' & -> & Hlk & Hfs & A1 & Hc1 & Hcase).
    assert (forall j a, live A1 j a <-> live A j a) as Hlv1 by (intros; by apply live_same_classes).
    destruct oc as [c|].
    + destruct Hcase as (p & HI' & Hk & _).
      destruct (pop_fresh fuel h' A A1 i bs c p HI' Hc1 Hi Hsh)
        as (r & m' & A' & -> & HI2 & Hk2 & Hfs2 & Hsh2 & Hr1 & Hr2 & Hnl & Hlv).
      eexists r, _, A'. split; [done|]. split; [done|]. split; [by apply heap_inv_lock|]. split.
      { intros j a Hlj. etransitivity; [by apply Hk2|by apply Hk]. }
      split; [exact (frees_trans _ _ _ Hfs2 Hfs)|]. split; [done|]. by right.
    + destruct Hcase as (HI' & Hk & Hno). eexists 0, _, A1. split; [done|]. split; [done|].
      split; [by apply heap_inv_lock|]. split; [done|]. split; [exact Hfs|].
      split; [apply short_chains_S; intros j l; rewrite Hc1; apply Hsh|]. left. split; [done|]. split; [done|].
      split; [|done]. intros bs' Hbs'. by simplify_eq.
  - cbn [mbind option_bind].
    assert ((b_desc b =? 0) = false) as ->.
    { apply Z.eqb_neq. rewrite Forall_forall in Hn1. apply Hn1. set_solver. }
    destruct (pop_step h1 A i bs1 b bs2 r fl HI1 Hi Hb)
      as (m' & A' & Ep & HI2 & Hk2 & Hnl & Hlv & Hr1 & Hr2 & Hfs2 & Hsh2).
    cbn iota. rewrite Ep. eexists r, _, A'. split; [done|]. split; [done|].
    split; [by apply heap_inv_lock|]. split; [done|]. split; [exact Hfs2|].
    split; [by apply short_chains_S, Hsh2|]. by right.
Qed.
End Thms.
