(* ===== verification/KmallocFree.v ===== *)
(** Lemmas on [kfree_s]: the block pushed on its bucket, and the release of a
    bucket none of whose blocks is in use. *)

From S2P Require Import Prelude Mem CString PageAlloc Kmalloc KmallocLemmas KmallocCorrect KmallocGrow KmallocThms.

Section Free.
Context {S : Type} `{PL : PageLaws S}.
Implicit Types (h : kheap S) (A : aheap).

(** ** Pushing the block *)

(** Writes inside a block that is handed out touch nothing of the heap. *)
Lemma live_block_write h A i ptr m' :
  heap_inv h A -> live A i ptr -> same_out ptr (ptr + class_size i) m' (hmem h) ->
  heap_inv (set_mem h m') A /\
  forall j a, live A j a -> a <> ptr -> agree a (a + class_size j) m' (hmem h).
Proof.
  intros HI (bs & b & Hi & Hb & Hbl & Hnf) Ho.
  destruct (block_bounds _ _ HI _ _ _ _ Hi Hb Hbl) as (_ & _ & _ & Hft).
  split; [apply mem_frame_inv; [done|..]|].
  - intros d Hd. eapply same_out_agree; [done|].
    destruct (desc_block_apart _ _ HI d i bs b ptr Hd Hi Hb Hbl); [by right|by left].
  - intros j bs' b' a Hj Hb' Ha. eapply same_out_agree; [done|].
    pose proof (free_block_wf _ _ HI _ _ _ _ Hj Hb' Ha) as Hbl'.
    pose proof (class_size_pos j (hi_class_lt _ _ HI _ _ Hj)).
    destruct (blocks_apart _ _ HI _ _ _ _ _ _ _ _ Hi Hj Hb Hb' Hbl Hbl') as [[<- <-]|Hd]; [|lia].
    exfalso. apply Hnf. rewrite Hi in Hj. injection Hj as <-.
    destruct (block_bounds _ _ HI _ _ _ _ Hi Hb Hbl) as (_ & _ & E1 & _).
    destruct (block_bounds _ _ HI _ _ _ _ Hi Hb' Hbl') as (_ & _ & E2 & _).
    destruct (bucket_page_inj _ _ HI _ _ _ _ _ _ Hi Hi Hb Hb') as [_ <-]; [congruence|done].
  - intros x Hx. apply Ho. destruct (decide (x < ptr)); [by left|].
    destruct (decide (ptr + class_size i <= x)); [by right|]. exfalso. apply (Hft x); [lia|done].
  - intros j a (bs' & b' & Hj & Hb' & Hbl' & _) Hne. eapply same_out_agree; [done|].
    destruct (blocks_apart _ _ HI _ _ _ _ _ _ _ _ Hi Hj Hb Hb' Hbl Hbl') as [[_ ->]|Hd]; [done|lia].
Qed.

(** The page of a bucket holds more blocks than a free list without one of them. *)
Lemma free_room h A i bs b ptr :
  heap_inv h A -> classes A !! i = Some bs -> b ∈ bs ->
  block_of (b_page b) (class_size i) ptr -> ptr ∉ b_free b ->
  Z.of_nat (length (b_free b)) < PAGE_SIZE / class_size i.
Proof.
  intros HI Hi Hin Hbl Hnf. pose proof (hi_class_lt _ _ HI _ _ Hi) as Hlt.
  pose proof (class_size_pos i Hlt). pose proof (class_size_mod i Hlt) as Hdiv.
  destruct (hi_page_ok _ _ HI _ (bucket_page_in _ _ _ _ Hi Hin)) as (_ & Hpp & _ & _).
  destruct (page_blocks_wf (b_page b) (class_size i) ltac:(lia) ltac:(lia) Hdiv) as (_ & Hel & Hln).
  rewrite <- Hln. apply Nat2Z.inj_lt. destruct (hi_wf _ _ HI _ _ _ Hi Hin) as [Hnd' Hbl'].
  assert (submseteq (ptr :: b_free b) (page_blocks (b_page b) (class_size i))) as Hsub.
  { apply NoDup_submseteq; [by constructor|]. intros a Ha. apply Hel.
    apply elem_of_cons in Ha as [->|Ha]; [done|by apply Hbl']. }
  apply submseteq_length in Hsub. cbn in Hsub. lia.
Qed.

(** The three stores of [push_block]: the link in the block, then the head and
    the count in the descriptor. *)
Lemma push_block_words m c ptr x :
  c + 32 <= ptr \/ ptr + 8 <= c -> 0 <= ptr < 18446744073709551616 -> 0 <= x < 4294967296 ->
  ld64 m (bd_freeBlock c) = x -> ld32 m (ptr + 4) = 0 ->
  let m1 := st32 m ptr (u32 x) in let m' := push_block c ptr m in
  same_out c (c + 32) m' m1 /\ ld64 m1 ptr = x /\
  (forall k o, 0 <= o -> o + Z.of_nat k <= 16 \/ (28 <= o /\ o + Z.of_nat k <= 32) ->
     ldn k m' (c + o) = ldn k m (c + o)) /\
  ld64 m' (bd_freeBlock c) = ptr /\ ld32 m' (bd_refCnt c) = u32 (ld32 m (bd_refCnt c) - 1).
Proof.
  intros Hap Hptr Hx Ex Hup m1 m'.
  assert (m' = st32 (st64 m1 (bd_freeBlock c) ptr) (bd_refCnt c)
    (ld32 (st64 m1 (bd_freeBlock c) ptr) (bd_refCnt c) - 1)) as Em by (unfold m', push_block; by rewrite Ex).
  rewrite Em. unfold bd_refCnt, bd_freeBlock. split_and!.
  - eapply same_out_trans; [apply (same_out_stn _ _ 4)|apply (same_out_stn _ _ 8)]; lia.
  - rewrite ld64_halves. unfold m1. rewrite ld32_st32, u32_idem, u32_small by done.
    unfold ld32 at 1, st32. rewrite ldn_stn_ne by lia. fold ld32. rewrite Hup. lia.
  - intros k o Ho ?. unfold m1, st32, st64. by rewrite !ldn_stn_ne by lia.
  - unfold ld64, st32. rewrite ldn_stn_ne by lia. fold ld64. rewrite ld64_st64. by apply u64_small.
  - rewrite ld32_st32. do 2 f_equal. unfold m1, ld32, st32, st64. by rewrite !ldn_stn_ne by lia.
Qed.

(** Away from the link and the descriptor nothing is stored; and bytes 4..7 of the
    block do not matter to what is stored. *)
Lemma push_block_ld8 m c ptr x : x < ptr \/ ptr + 4 <= x -> x < c \/ c + 32 <= x -> ld8 (push_block c ptr m) x = ld8 m x.
Proof. intros H1 H2. unfold push_block, st32, st64, bd_freeBlock, bd_refCnt. by rewrite !ld8_stn_ne by lia. Qed.

Lemma stn_same n m m' a v x : ld8 m' x = ld8 m x -> ld8 (stn n m' a v) x = ld8 (stn n m a v) x.
Proof.
  revert m m' a v. induction n as [|n IH]; intros m m' a v E; cbn [stn]; [done|]. apply IH. rewrite !ld8_st8.
  by destruct (a =? x).
Qed.

Lemma push_block_same m m' c ptr : c + 32 <= ptr \/ ptr + 8 <= c ->
  (forall x, x < ptr + 4 \/ ptr + 8 <= x -> ld8 m' x = ld8 m x) ->
  forall x, x < ptr + 4 \/ ptr + 8 <= x -> ld8 (push_block c ptr m') x = ld8 (push_block c ptr m) x.
Proof.
  intros Hap Hm x Hx. unfold push_block.
  assert (ld64 m' (bd_freeBlock c) = ld64 m (bd_freeBlock c)) as ->
    by (apply ldn_ext; intros y Hy; apply Hm; unfold bd_freeBlock in Hy; lia).
  set (v := u32 _). set (f m := st64 (st32 m ptr v) (bd_freeBlock c) ptr).
  change (ld8 (st32 (f m') (bd_refCnt c) (ld32 (f m') (bd_refCnt c) - 1)) x =
          ld8 (st32 (f m) (bd_refCnt c) (ld32 (f m) (bd_refCnt c) - 1)) x).
  assert (forall y, y < ptr + 4 \/ ptr + 8 <= y -> ld8 (f m') y = ld8 (f m) y) as Hf.
  { intros y Hy. unfold f, st64, st32. by do 2 apply stn_same; apply Hm. }
  assert (ld32 (f m') (bd_refCnt c) = ld32 (f m) (bd_refCnt c)) as ->
    by (apply ldn_ext; intros y Hy; apply Hf; unfold bd_refCnt in Hy; lia).
  apply stn_same. by apply Hf.
Qed.

(** What that leaves of the bucket: its free list has the block in front. *)
Lemma push_block_desc m b i ptr nxt :
  desc_ok m (class_size i) b nxt -> (i < 9)%nat ->
  b_desc b + 32 <= ptr \/ ptr + 8 <= b_desc b -> 0 <= ptr < 18446744073709551616 ->
  0 <= hd0 (b_free b) < 4294967296 -> Z.of_nat (length (b_free b)) < PAGE_SIZE / class_size i ->
  ld32 m (ptr + 4) = 0 ->
  desc_ok (push_block (b_desc b) ptr m) (class_size i)
    (Bucket (b_desc b) (b_page b) (ptr :: b_free b)) nxt.
Proof.
  intros (H1 & H2 & H3 & H4 & H5) Hi Hap Hptr Hx Hroom Hup.
  destruct (push_block_words m (b_desc b) ptr _ Hap Hptr Hx H3 Hup) as (_ & _ & E & Ef & Er).
  pose proof (class_count i Hi).
  repeat split; cbn [b_desc b_page b_free length hd0]; [| |done| |].
  - rewrite <- H1. specialize (E 8%nat 0). rewrite Z.add_0_r in E. apply E; lia.
  - rewrite <- H2. apply E; lia.
  - rewrite Er, H4, u32_small by lia. lia.
  - rewrite <- H5. apply E; lia.
Qed.

Lemma push_step h A i bs1 b bs2 ptr :
  heap_inv h A -> classes A !! i = Some (bs1 ++ b :: bs2) ->
  block_of (b_page b) (class_size i) ptr -> ptr ∉ b_free b -> ld32 (hmem h) (ptr + 4) = 0 ->
  let m' := push_block (b_desc b) ptr (hmem h) in
  let b' := Bucket (b_desc b) (b_page b) (ptr :: b_free b) in
  heap_inv (set_mem h m') (set_class A i (bs1 ++ b' :: bs2)) /\
  ld32 m' (bd_refCnt (b_desc b)) =
    PAGE_SIZE / class_size i - (Z.of_nat (length (b_free b)) + 1) /\
  forall j a, live A j a -> a <> ptr -> agree a (a + class_size j) m' (hmem h).
Proof.
  intros HI Hi Hbl Hnf Hup m' b'. assert (b ∈ bs1 ++ b :: bs2) as Hin by set_solver.
  pose proof (hi_class_lt _ _ HI _ _ Hi) as Hlt. pose proof (class_size_pos i Hlt) as Hsz.
  assert (live A i ptr) as Hlive by (by exists (bs1 ++ b :: bs2), b).
  destruct (block_bounds _ _ HI _ _ _ _ Hi Hin Hbl) as (Hp0 & Hp4 & _ & _).
  pose proof (hi_chains _ _ HI i _ Hi) as Hch. apply chain_ok_desc in Hch as [Hd Hfr].
  set (c := b_desc b) in *. pose proof (bucket_desc_in _ _ _ _ Hi Hin) as Hc. fold c in Hc.
  pose proof (desc_block_apart _ _ HI c i _ b ptr Hc Hi Hin Hbl) as Hap.
  assert (0 <= hd0 (b_free b) < 4294967296) as Hx by (by eapply free_head_bound).
  assert (c + 32 <= ptr \/ ptr + 8 <= c) as Hap' by lia.
  assert (desc_ok m' (class_size i) b' (hd_desc bs2)) as Hd'
    by (apply push_block_desc; try done; [lia|by eapply free_room]).
  destruct (push_block_words (hmem h) c ptr _ Hap' ltac:(lia) Hx (proj1 (proj2 (proj2 Hd))) Hup)
    as (Ho2 & Hlink & _). fold m' in Ho2. set (m1 := st32 (hmem h) ptr _) in *.
  assert (same_out ptr (ptr + class_size i) m1 (hmem h)) as Ho1 by (apply (same_out_stn _ _ 4); lia).
  destruct (live_block_write h A i ptr m1 HI Hlive Ho1) as [HI1 Hk1].
  assert (forall a, a ∈ ptr :: b_free b -> block_of (b_page b) (class_size i) a) as Hbls.
  { intros a Ha. apply elem_of_cons in Ha as [->|Ha]; [done|]. by eapply (free_block_wf _ _ HI). }
  assert (free_ok m' (ptr :: b_free b)) as Hfok.
  { eapply (free_ok_frame m1).
    - split; [done|]. eapply free_ok_frame; [exact Hfr|]. intros a Ha.
      eapply same_out_agree; [exact Ho1|]. pose proof (Hbls a ltac:(by right)) as Hbl'.
      destruct (blocks_apart _ _ HI _ _ _ _ _ _ _ _ Hi Hi Hin Hin Hbl Hbl') as [[_ <-]|?]; [done|lia].
    - intros a Ha. eapply same_out_agree; [exact Ho2|].
      destruct (desc_block_apart _ _ HI c i _ b a Hc Hi Hin (Hbls a Ha)); lia. }
  split; [|split].
  - apply (desc_change_inv (set_mem h m1) A i bs1 b bs2 (ptr :: b_free b) m'); try done.
    split; [|exact Hbls]. constructor; [done|]. by destruct (hi_wf _ _ HI _ _ _ Hi Hin).
  - destruct Hd' as (_ & _ & _ & Er & _). unfold b', c in *. cbn [b_desc b_free length] in Er. lia.
  - intros j a Hlv Hne. etransitivity; [|by apply Hk1].
    eapply (live_frame_desc _ _ HI1); [exact Ho2|done|done].
Qed.

(** Whatever the block holds: the push leaves the heap it would leave had bytes 4..7
    been clear, but for those bytes. *)
Lemma push_any h A i bs1 b bs2 ptr :
  heap_inv h A -> classes A !! i = Some (bs1 ++ b :: bs2) ->
  block_of (b_page b) (class_size i) ptr -> ptr ∉ b_free b ->
  let md := push_block (b_desc b) ptr (hmem h) in
  let b' := Bucket (b_desc b) (b_page b) (ptr :: b_free b) in
  (exists mc, heap_inv (set_mem h mc) (set_class A i (bs1 ++ b' :: bs2)) /\
     (forall x, x < ptr + 4 \/ ptr + 8 <= x -> ld8 md x = ld8 mc x) /\
     (ld32 (hmem h) (ptr + 4) = 0 -> mc = md)) /\
  ld32 md (bd_refCnt (b_desc b)) = PAGE_SIZE / class_size i - (Z.of_nat (length (b_free b)) + 1) /\
  ld64 md (bd_freeBlock (b_desc b)) = ptr /\ ld64 md (bd_page (b_desc b)) = b_page b /\
  ld32 md (ptr + 4) = ld32 (hmem h) (ptr + 4) /\
  forall j a, live A j a -> a <> ptr -> agree a (a + class_size j) md (hmem h).
Proof.
  intros HI Hi Hbl Hnf md b'. assert (b ∈ bs1 ++ b :: bs2) as Hin by (clear; set_solver).
  pose proof (hi_class_lt _ _ HI _ _ Hi) as Hlt. pose proof (class_size_pos i Hlt) as Hsz.
  assert (live A i ptr) as Hlive by (by exists (bs1 ++ b :: bs2), b).
  pose proof (bucket_desc_in _ _ _ _ Hi Hin) as Hc.
  pose proof (desc_block_apart _ _ HI _ i _ b ptr Hc Hi Hin Hbl) as Hap.
  assert (b_desc b + 32 <= ptr \/ ptr + 8 <= b_desc b) as Hap' by lia.
  assert (exists mc, heap_inv (set_mem h mc) (set_class A i (bs1 ++ b' :: bs2)) /\
    (forall x, x < ptr + 4 \/ ptr + 8 <= x -> ld8 md x = ld8 mc x) /\ (ld32 (hmem h) (ptr + 4) = 0 -> mc = md) /\
    ld32 mc (bd_refCnt (b_desc b)) = PAGE_SIZE / class_size i - (Z.of_nat (length (b_free b)) + 1)) as (mc & HI' & Hs & Hcl & Er).
  { destruct (decide (ld32 (hmem h) (ptr + 4) = 0)) as [Hup|Hup].
    - exists md. destruct (push_step h A i bs1 b bs2 ptr HI Hi Hbl Hnf Hup) as (H1 & H2 & _). by split_and!.
    - set (mz := st32 (hmem h) (ptr + 4) 0).
      assert (same_out ptr (ptr + class_size i) mz (hmem h)) as Ho by (apply (same_out_stn _ _ 4); lia).
      destruct (live_block_write h A i ptr mz HI Hlive Ho) as [HIz _].
      destruct (push_step (set_mem h mz) A i bs1 b bs2 ptr HIz Hi Hbl Hnf) as (H1 & H2 & _); [apply ld32_st32|].
      exists (push_block (b_desc b) ptr mz). split; [exact H1|]. split; [|by split].
      apply push_block_same; [done|]. intros x Hx. symmetry. apply (ld8_stn_ne 4). lia. }
  assert (forall k o, 0 <= o -> o + Z.of_nat k <= 32 -> ldn k md (b_desc b + o) = ldn k mc (b_desc b + o)) as Hd.
  { intros k o H1 H2. apply ldn_ext. intros x Hx. apply Hs. lia. }
  pose proof (hi_chains _ _ HI' i (bs1 ++ b' :: bs2)) as Hch. cbn [set_class classes] in Hch.
  rewrite list_lookup_insert_eq in Hch by (by eapply lookup_lt_Some). specialize (Hch eq_refl).
  apply chain_ok_desc in Hch as [(D1 & _ & D3 & _) _]. cbn [hmem set_mem b' b_desc b_page b_free hd0] in D1, D3.
  split; [by exists mc|]. split; [etrans; [apply (Hd 4%nat 24); lia|exact Er]|].
  split; [etrans; [apply (Hd 8%nat 16); lia|exact D3]|].
  split; [replace (bd_page (b_desc b)) with (b_desc b + 0) by (unfold bd_page; lia); etrans; [apply (Hd 8%nat 0); lia|];
    rewrite Z.add_0_r; exact D1|]. split.
  - apply ldn_ext. intros x Hx. apply push_block_ld8; lia.
  - intros j a (bs' & y & Hj & Hy & Hbly & _) Hne x Hx.
    destruct (blocks_apart _ _ HI _ _ _ _ _ _ _ _ Hi Hj Hin Hy Hbl Hbly) as [[_ ?]|?]; [by destruct Hne|].
    pose proof (desc_block_apart _ _ HI _ j _ y a Hc Hj Hy Hbly). apply push_block_ld8; lia.
Qed.

(** ** Releasing an empty bucket *)

(** The store that takes [b] out of its chain, [None] when it is first. *)
Definition unlinked (m : mem) (bs1 : list bucket) (b : bucket) : mem :=
  match last bs1 with
  | None => m
  | Some pr => st64 m (bd_next (b_desc pr)) (ld64 m (bd_next (b_desc b)))
  end.

(** The [next] fields of a chain are all the loops follow. *)
Fixpoint nexts_ok (m : mem) (bs : list bucket) : Prop :=
  match bs with
  | [] => True
  | b :: bs' => ld64 m (bd_next (b_desc b)) = hd_desc bs' /\ nexts_ok m bs'
  end.

Lemma nexts_of_chain m m' sz bs :
  chain_ok m sz bs -> (forall b, b ∈ bs -> agree (b_desc b) (b_desc b + 32) m' m) -> nexts_ok m' bs.
Proof.
  induction bs as [|b bs IH]; [done|]. intros ((_ & Hn & _) & _ & Hc) Ha. split; [|apply IH; set_solver].
  rewrite <- Hn. apply (agree_ldn (b_desc b) (b_desc b + 32) 8); [apply Ha; set_solver|unfold bd_next; lia..].
Qed.

Lemma unlink_loop_spec fuel m bs1 pr b bs2 :
  nexts_ok m (bs1 ++ pr :: b :: bs2) -> (length bs1 < fuel)%nat ->
  Forall (fun x => b_desc x <> 0) (bs1 ++ pr :: b :: bs2) ->
  Forall (fun x => b_desc x <> b_desc b) (bs1 ++ [pr]) ->
  unlink_loop fuel m (hd_desc (bs1 ++ pr :: b :: bs2)) (b_desc b) =
    Some (st64 m (bd_next (b_desc pr)) (ld64 m (bd_next (b_desc b)))).
Proof.
  revert bs1. induction fuel as [|fuel IH]; intros bs1 Hc Hf Hn Hd; [lia|].
  destruct bs1 as [|x bs1]; cbn [app length nexts_ok] in *; cbn [unlink_loop].
  - destruct Hc as (Hnx & _ & _).
    change (hd_desc (pr :: b :: bs2)) with (b_desc pr). rewrite Hnx.
    change (hd_desc (b :: bs2)) with (b_desc b).
    apply Forall_cons in Hn as [_ [Hb _]%Forall_cons]. apply Z.eqb_neq in Hb as ->.
    by rewrite Z.eqb_refl.
  - destruct Hc as (Hnx & Hc).
    change (hd_desc (x :: bs1 ++ pr :: b :: bs2)) with (b_desc x). rewrite Hnx.
    apply Forall_cons in Hn as [_ Hn], Hd as [_ Hd].
    assert (hd_desc (bs1 ++ pr :: b :: bs2) <> 0 /\ hd_desc (bs1 ++ pr :: b :: bs2) <> b_desc b)
      as [E1 E2].
    { destruct bs1 as [|y bs1]; cbn [app] in *.
      - apply Forall_cons in Hn as [? _], Hd as [? _]. done.
      - apply Forall_cons in Hn as [? _], Hd as [? _]. done. }
    apply Z.eqb_neq in E1 as ->. apply Z.eqb_neq in E2 as ->. apply IH; [done|lia|done..].
Qed.

(** The chain without [b], in a memory where every other descriptor and free
    block reads as before, up to the predecessor's [next]. *)
Lemma chain_ok_unlink m m' sz bs1 b bs2 :
  chain_ok m sz (bs1 ++ b :: bs2) ->
  (forall x, x ∈ bs1 ++ bs2 -> forall a, a ∈ b_free x -> agree a (a + 8) m' m) ->
  (forall x, x ∈ bs2 -> agree (b_desc x) (b_desc x + 32) m' m) ->
  (forall x, x ∈ bs1 -> last bs1 <> Some x -> agree (b_desc x) (b_desc x + 32) m' m) ->
  (forall x, last bs1 = Some x ->
     ld64 m' (bd_next (b_desc x)) = hd_desc bs2 /\
     agree (b_desc x) (b_desc x + 8) m' m /\ agree (b_desc x + 16) (b_desc x + 32) m' m) ->
  NoDup (b_desc <$> bs1) ->
  chain_ok m' sz (bs1 ++ bs2).
Proof.
  intros Hc Hfr H2 H1 Hl Hnd. induction bs1 as [|x bs1 IH]; cbn [app chain_ok] in *.
  - destruct Hc as (_ & _ & Hc). eapply chain_ok_frame; [done|]. intros x Hx.
    split; [by apply H2|]. apply Hfr. set_solver.
  - destruct Hc as (Hd & Hf & Hc). rewrite fmap_cons in Hnd.
    apply NoDup_cons in Hnd as [Hnx Hnd]. split; [|split].
    + destruct bs1 as [|y bs1].
      * destruct (Hl x eq_refl) as (E & Ha1 & Ha2). cbn [app].
        destruct Hd as (D1 & D2 & D3 & D4 & D5).
        split; [|split; [done|split; [|split]]].
        -- rewrite <- D1. eapply (agree_ldn _ _ 8); [exact Ha1|unfold bd_page; lia..].
        -- rewrite <- D3. eapply (agree_ldn _ _ 8); [exact Ha2|unfold bd_freeBlock; lia..].
        -- rewrite <- D4. eapply (agree_ldn _ _ 4); [exact Ha2|unfold bd_refCnt; lia..].
        -- rewrite <- D5. eapply (agree_ldn _ _ 4); [exact Ha2|unfold bd_blockSize; lia..].
      * eapply desc_ok_frame; [exact Hd|]. apply H1; [set_solver|].
        intros E. apply Hnx. rewrite (last_cons_cons x y) in E.
        apply list_elem_of_fmap_2, last_Some_elem_of. done.
    + eapply free_ok_frame; [exact Hf|]. apply Hfr. set_solver.
    + apply IH; [done|..|done].
      * intros y Hy. apply Hfr. set_solver.
      * intros y Hy Hne. apply H1; [set_solver|]. destruct bs1 as [|z bs1]; [set_solver|].
        by rewrite last_cons_cons.
      * intros y Hy. apply Hl. destruct bs1 as [|z bs1]; [done|]. by rewrite last_cons_cons.
Qed.

(** A class without its empty bucket, in a memory [m2] where the page manager
    has taken the page back. *)
Definition drop_bucket A (i : nat) (bs1 : list bucket) (b : bucket) (bs2 : list bucket) : aheap :=
  AHeap (<[i := bs1 ++ bs2]> (classes A)) (b_desc b :: spares A) (dpages A).

Lemma drop_bucket_lists A i bs1 b bs2 :
  classes A !! i = Some (bs1 ++ b :: bs2) ->
  all_descs A ≡ₚ all_descs (drop_bucket A i bs1 b bs2) /\
  all_pages A ≡ₚ b_page b :: all_pages (drop_bucket A i bs1 b bs2).
Proof.
  intros Hi. unfold all_descs, all_pages, drop_bucket. cbn [classes spares dpages].
  rewrite !list_fmap_insert.
  pose proof (eq_trans (list_lookup_fmap (fmap (M:=list) b_desc) (classes A) i) (f_equal _ Hi)) as Ed.
  pose proof (eq_trans (list_lookup_fmap (fmap (M:=list) b_page) (classes A) i) (f_equal _ Hi)) as Ep.
  cbn [fmap option_fmap option_map] in Ed, Ep.
  destruct (concat_insert_perm _ i _ Ed) as [rd Hrd], (concat_insert_perm _ i _ Ep) as [rp Hrp].
  split.
  - rewrite <- (list_insert_id _ _ _ Ed) at 1. rewrite !Hrd, !fmap_app, fmap_cons.
    rewrite <- !app_assoc. cbn [app]. solve_Permutation.
  - rewrite <- (list_insert_id _ _ _ Ep) at 1. rewrite !Hrp, !fmap_app, fmap_cons.
    rewrite <- !app_assoc. cbn [app]. by rewrite <- Permutation_middle.
Qed.

Lemma live_drop_bucket h A i bs1 b bs2 j a :
  heap_inv h A -> classes A !! i = Some (bs1 ++ b :: bs2) ->
  (forall x, block_of (b_page b) (class_size i) x -> x ∈ b_free b) ->
  live (drop_bucket A i bs1 b bs2) j a <-> live A j a.
Proof.
  intros HI Hi Hall. assert (i < length (classes A))%nat as Hlt by (by eapply lookup_lt_Some).
  unfold live, drop_bucket. cbn [classes]. destruct (decide (j = i)) as [->|Hne].
  - rewrite list_lookup_insert_eq by done. rewrite Hi. split.
    + intros (l & b' & [= <-] & Hb' & Hbl). exists (bs1 ++ b :: bs2), b'.
      split; [done|]. split; [set_solver|done].
    + intros (l & b' & [= <-] & Hb' & Hbl & Hnf). exists (bs1 ++ bs2), b'.
      split; [done|]. split; [|done].
      apply elem_of_app in Hb' as [?|[->|?]%elem_of_cons]; [set_solver| |set_solver].
      exfalso. by apply Hnf, Hall.
  - by rewrite list_lookup_insert_ne by done.
Qed.

(** The memory [release_bucket] leaves: away from the page manager's bytes and from
    the page given back it differs from the old one in two [next] fields.  What the
    page itself holds, in [md], does not matter. *)
Section Released.
Context h A (HI : heap_inv h A) (i : nat) (bs1 : list bucket) (b : bucket) (bs2 : list bucket)
  (Hi : classes A !! i = Some (bs1 ++ b :: bs2)) (md : mem) (s1 : S) (m1 : mem)
  (Hmd : same_out (b_page b) (b_page b + PAGE_SIZE) md (hmem h))
  (Hfp : free_page (pm h) md (b_page b) = (s1, m1)).

Definition released : mem :=
  st64 (unlinked m1 bs1 b) (bd_next (b_desc b)) (free_bucket_chain h).

Lemma in_chain x : x ∈ bs1 \/ x = b \/ x ∈ bs2 -> x ∈ bs1 ++ b :: bs2.
Proof. clear; set_solver. Qed.

Lemma released_put :
  pa_inv s1 m1 /\
  (forall q, pa_free s1 m1 q <-> pa_free (pm h) (hmem h) q \/ q = b_page b) /\
  (forall q, pa_page s1 q <-> pa_page (pm h) q) /\
  (forall a, pa_foot s1 a <-> pa_foot (pm h) a) /\
  (forall a, ~ pa_foot (pm h) a -> a < b_page b \/ b_page b + PAGE_SIZE <= a -> ld8 m1 a = ld8 (hmem h) a).
Proof.
  assert (b_page b ∈ all_pages A) as Hin by (eapply bucket_page_in; [done|]; apply in_chain; by right; left).
  destruct (hi_page_at _ _ HI (b_page b) Hin) as [HP Hnf].
  destruct (pa_page_ok _ _ _ (hi_pm _ _ HI) HP) as (_ & _ & _ & Hft).
  destruct (pa_frame (pm h) (hmem h) md (hi_pm _ _ HI)) as [Hmi Hmf].
  { intros x Hx. apply Hmd. destruct (decide (x < b_page b)); [by left|]. right.
    destruct (decide (b_page b + PAGE_SIZE <= x)); [done|]. exfalso. apply (Hft x); [lia|done]. }
  destruct (pa_put (pm h) md (b_page b) s1 m1 Hmi HP) as (H1 & H2 & H3 & H4 & H5); [by rewrite Hmf|done|].
  split; [done|]. split; [intros q; by rewrite H2, Hmf|]. split; [done|]. split; [done|].
  intros a Ha Hout. rewrite H5 by done. by apply Hmd.
Qed.

Lemma last_in x : last bs1 = Some x -> x ∈ bs1 ++ b :: bs2.
Proof. intros E. apply in_chain. left. by apply last_Some_elem_of. Qed.

(** Bytes outside the two fields and the page manager are unchanged. *)
Lemma released_ld8 x :
  ~ pa_foot (pm h) x -> x < b_page b \/ b_page b + PAGE_SIZE <= x -> ~ (b_desc b + 8 <= x < b_desc b + 16) ->
  (forall pr, last bs1 = Some pr -> ~ (b_desc pr + 8 <= x < b_desc pr + 16)) ->
  ld8 released x = ld8 (hmem h) x.
Proof.
  intros Hf Hout Hc Hpr. destruct released_put as (_ & _ & _ & _ & Hm).
  unfold released, st64, bd_next. rewrite ld8_stn_ne by lia. unfold unlinked.
  destruct (last bs1) as [pr|] eqn:E; [|by apply Hm].
  specialize (Hpr pr eq_refl). unfold st64, bd_next. rewrite ld8_stn_ne by lia. by apply Hm.
Qed.

Lemma chain_descs_NoDup : NoDup (b_desc <$> (bs1 ++ b :: bs2)).
Proof.
  pose proof (hi_descs _ _ HI) as Hnd. apply NoDup_app in Hnd as (Hnd & _).
  destruct (concat_insert_perm (fmap (M:=list) b_desc <$> classes A) i (b_desc <$> (bs1 ++ b :: bs2)))
    as [rest Hr]; [by rewrite list_lookup_fmap, Hi|].
  specialize (Hr (b_desc <$> (bs1 ++ b :: bs2))).
  rewrite list_insert_id in Hr by (by rewrite list_lookup_fmap, Hi).
  rewrite Hr in Hnd. by apply NoDup_app in Hnd as (Hnd & _).
Qed.

Lemma pred_ne pr : last bs1 = Some pr -> b_desc pr <> b_desc b.
Proof.
  intros E Heq. pose proof chain_descs_NoDup as Hnd. rewrite fmap_app, fmap_cons in Hnd.
  apply NoDup_app in Hnd as (_ & Hdj & _). apply (Hdj (b_desc pr)).
  - by apply list_elem_of_fmap_2, last_Some_elem_of.
  - rewrite Heq. set_solver.
Qed.

(** Descriptors and the blocks of other buckets are not in the page. *)
Lemma desc_off_page d x : d ∈ all_descs A -> d <= x < d + 32 -> x < b_page b \/ b_page b + PAGE_SIZE <= x.
Proof.
  intros Hd Hx. destruct (hi_desc_at _ _ HI d Hd) as [Hdm Hdp].
  destruct (hi_page_ok _ _ HI _ (bucket_page_in _ _ _ _ Hi (in_chain b ltac:(by right; left)))) as (Hpm & _).
  assert (page_of d <> b_page b) as Hne.
  { intros E. pose proof (hi_pages _ _ HI) as Hnd. apply NoDup_app in Hnd as (_ & Hdj & _).
    apply (Hdj (b_page b)); [apply elem_of_concat_fmap; exists i, (bs1 ++ b :: bs2), b|by rewrite <- E].
    split; [done|]. split; [apply in_chain; by right; left|done]. }
  unfold page_of, PAGE_SIZE in *. destruct (decide (x < b_page b)); [by left|]. right.
  destruct (decide (b_page b + 4096 <= x)); [done|]. exfalso. zlia.
Qed.

Lemma block_off_page j bs b' a x :
  classes A !! j = Some bs -> b' ∈ bs -> b' <> b -> block_of (b_page b') (class_size j) a -> a <= x < a + class_size j ->
  x < b_page b \/ b_page b + PAGE_SIZE <= x.
Proof.
  intros Hj Hb' Hne (H1 & H2 & _) Hx.
  destruct (hi_page_ok _ _ HI _ (bucket_page_in _ _ _ _ Hi (in_chain b ltac:(by right; left)))) as (Hpm & _).
  destruct (hi_page_ok _ _ HI _ (bucket_page_in _ _ _ _ Hj Hb')) as (Hpm' & _).
  assert (b_page b' <> b_page b) as Hnp.
  { intros E. apply Hne. by destruct (bucket_page_inj _ _ HI _ _ _ _ _ _ Hj Hi Hb' (in_chain b ltac:(by right; left)) E). }
  unfold PAGE_SIZE in *. destruct (decide (x < b_page b)); [by left|]. right.
  destruct (decide (b_page b + 4096 <= x)); [done|]. exfalso. zlia.
Qed.

(** Another descriptor reads as before. *)
Lemma released_desc d :
  d ∈ all_descs A -> d <> b_desc b -> (forall pr, last bs1 = Some pr -> d <> b_desc pr) ->
  agree d (d + 32) released (hmem h).
Proof.
  intros Hd Hne Hpr x Hx. destruct (desc_bounds _ _ HI d Hd) as (_ & _ & _ & Hft).
  assert (b_desc b ∈ all_descs A) as Hb.
  { eapply bucket_desc_in; [exact Hi|]. apply in_chain. by right; left. }
  apply released_ld8; [by apply Hft|by apply (desc_off_page d x)| |].
  - destruct (descs_apart _ _ HI d (b_desc b) Hd Hb Hne); lia.
  - intros pr E. assert (b_desc pr ∈ all_descs A) as Hp.
    { eapply bucket_desc_in; [exact Hi|]. by apply last_in. }
    destruct (descs_apart _ _ HI d (b_desc pr) Hd Hp (Hpr pr E)); lia.
Qed.

(** So does a block of any other bucket. *)
Lemma released_block j bs b' a :
  classes A !! j = Some bs -> b' ∈ bs -> b' <> b -> block_of (b_page b') (class_size j) a ->
  agree a (a + class_size j) released (hmem h).
Proof.
  intros Hj Hb' Hne Hbl x Hx. destruct (block_bounds _ _ HI _ _ _ _ Hj Hb' Hbl) as (_ & _ & _ & Hft).
  assert (b_desc b ∈ all_descs A) as Hb.
  { eapply bucket_desc_in; [exact Hi|]. apply in_chain. by right; left. }
  apply released_ld8; [by apply Hft|by apply (block_off_page j bs b' a x)| |].
  - destruct (desc_block_apart _ _ HI _ _ _ _ _ Hb Hj Hb' Hbl); lia.
  - intros pr E. assert (b_desc pr ∈ all_descs A) as Hp.
    { eapply bucket_desc_in; [exact Hi|]. by apply last_in. }
    destruct (desc_block_apart _ _ HI _ _ _ _ _ Hp Hj Hb' Hbl); lia.
Qed.

Lemma released_next : ld64 released (bd_next (b_desc b)) = hd0 (spares A).
Proof.
  unfold released. rewrite ld64_st64, (hi_fbc _ _ HI). apply u64_small.
  destruct (spares A) as [|d l] eqn:E; [cbn; lia|]. cbn.
  destruct (desc_bounds _ _ HI d); [|lia]. apply elem_of_app. right. rewrite E. set_solver.
Qed.

Lemma desc_next_at_b m :
  (forall a, b_desc b <= a < b_desc b + 32 -> ld8 m a = ld8 (hmem h) a) ->
  ld64 m (bd_next (b_desc b)) = hd_desc bs2.
Proof.
  intros Hm. pose proof (hi_chains _ _ HI i _ Hi) as Hch.
  apply chain_ok_desc in Hch as [(_ & <- & _) _]. apply (agree_ldn (b_desc b) (b_desc b + 32) 8);
    [exact Hm|unfold bd_next; lia..].
Qed.

Lemma m1_desc d : d ∈ all_descs A -> agree d (d + 32) m1 (hmem h).
Proof.
  intros Hd x Hx. destruct released_put as (_ & _ & _ & _ & Hm). apply Hm; [by apply (desc_bounds _ _ HI d Hd)|].
  by apply (desc_off_page d x).
Qed.

Lemma released_pred pr :
  last bs1 = Some pr ->
  ld64 released (bd_next (b_desc pr)) = hd_desc bs2 /\
  agree (b_desc pr) (b_desc pr + 8) released (hmem h) /\
  agree (b_desc pr + 16) (b_desc pr + 32) released (hmem h).
Proof.
  intros E. pose proof (pred_ne pr E) as Hne.
  assert (b_desc pr ∈ all_descs A) as Hp by (eapply bucket_desc_in; [exact Hi|]; by apply last_in).
  assert (b_desc b ∈ all_descs A) as Hb.
  { eapply bucket_desc_in; [exact Hi|]. apply in_chain. by right; left. }
  destruct (desc_bounds _ _ HI _ Hp) as (_ & _ & _ & Hft).
  pose proof (descs_apart _ _ HI _ _ Hp Hb Hne) as Hap.
  assert (0 <= hd_desc bs2 < 18446744073709551616) as Hhd.
  { destruct bs2 as [|x l] eqn:E2; [unfold hd_desc, hd0; cbn; lia|]. unfold hd_desc, hd0. cbn.
    destruct (desc_bounds _ _ HI (b_desc x)); [|lia]. eapply bucket_desc_in; [exact Hi|].
    apply elem_of_app. right. apply elem_of_cons. right. apply elem_of_cons. by left. }
  split; [|split].
  - unfold released. unfold ld64, st64, bd_next. rewrite ldn_stn_ne by lia. fold ld64.
    unfold unlinked. rewrite E, (desc_next_at_b m1); [|by apply m1_desc].
    rewrite ld64_st64. by apply u64_small.
  - intros x Hx. apply released_ld8; [apply Hft; lia|apply (desc_off_page _ _ Hp); lia|lia|]. intros pr' E'. simplify_eq. lia.
  - intros x Hx. apply released_ld8; [apply Hft; lia|apply (desc_off_page _ _ Hp); lia|lia|]. intros pr' E'. simplify_eq. lia.
Qed.
End Released.

Section Release.
Context h A (HI : heap_inv h A) (i : nat) (bs1 : list bucket) (b : bucket) (bs2 : list bucket)
  (Hi : classes A !! i = Some (bs1 ++ b :: bs2)) (md : mem) (s1 : S) (m1 : mem)
  (Hmd : same_out (b_page b) (b_page b + PAGE_SIZE) md (hmem h))
  (Hfp : free_page (pm h) md (b_page b) = (s1, m1)).

Let m3 := released h bs1 b m1.

Lemma released_pm :
  pa_inv s1 m3 /\
  forall q, pa_free s1 m3 q <-> pa_free (pm h) (hmem h) q \/ q = b_page b.
Proof.
  destruct (released_put h A HI i bs1 b bs2 Hi md s1 m1 Hmd Hfp) as (Hinv & Hfree & Hpage & Hfoot & Hm).
  destruct (pa_frame s1 m1 m3 Hinv) as [H1 H2].
  { intros x Hx. apply Hfoot in Hx.
    assert (forall d, d ∈ all_descs A -> ~ (d + 8 <= x < d + 16)) as Hd.
    { intros d Hd Hin. destruct (desc_bounds _ _ HI d Hd) as (_ & _ & _ & Hft).
      apply (Hft x); [lia|done]. }
    assert (forall y, y ∈ bs1 ++ b :: bs2 -> b_desc y ∈ all_descs A) as Hin
      by (intros; by eapply bucket_desc_in).
    unfold m3, released, unlinked.
    assert (~ (b_desc b + 8 <= x < b_desc b + 16)) by (apply Hd, Hin, in_chain; by right; left).
    unfold st64, bd_next. rewrite ld8_stn_ne by lia.
    destruct (last bs1) as [pr|] eqn:E; [|done].
    assert (~ (b_desc pr + 8 <= x < b_desc pr + 16)) by (by apply Hd, Hin, last_in).
    apply ld8_stn_ne. lia. }
  split; [done|]. intros q. by rewrite H2.
Qed.

Lemma chain_member_ne x : x ∈ bs1 ++ bs2 -> b_desc x <> b_desc b.
Proof.
  intros Hx E. pose proof (chain_descs_NoDup h A HI i bs1 b bs2 Hi) as Hnd.
  rewrite fmap_app, fmap_cons, <- Permutation_middle in Hnd. apply NoDup_cons in Hnd as [Hn _].
  apply Hn. rewrite <- E, <- fmap_app. by apply list_elem_of_fmap_2.
Qed.

Lemma pred_only x pr :
  x ∈ bs1 ++ bs2 -> last bs1 = Some pr -> b_desc x = b_desc pr -> x = pr.
Proof.
  intros Hx E Hd. assert (x ∈ bs1 ++ b :: bs2) as Hx' by set_solver.
  by destruct (bucket_desc_inj _ _ HI _ _ _ _ _ _ Hi Hi Hx' (last_in bs1 b bs2 pr E) Hd).
Qed.

Lemma released_member x :
  x ∈ bs1 ++ bs2 -> last bs1 <> Some x -> agree (b_desc x) (b_desc x + 32) m3 (hmem h).
Proof.
  intros Hx Hl. eapply (released_desc h A HI i bs1 b bs2 Hi md s1 m1 Hmd Hfp).
  - eapply bucket_desc_in; [done|]. set_solver.
  - by apply chain_member_ne.
  - intros pr E Hd. apply Hl. by rewrite (pred_only x pr Hx E Hd).
Qed.

Lemma released_chain : chain_ok m3 (class_size i) (bs1 ++ bs2).
Proof.
  pose proof (class_size_pos i (hi_class_lt _ _ HI _ _ Hi)) as Hsz.
  apply (chain_ok_unlink (hmem h) m3 _ bs1 b bs2).
  - by apply (hi_chains _ _ HI).
  - intros x Hx a Ha. assert (x ∈ bs1 ++ b :: bs2) as Hx' by set_solver.
    eapply agree_sub; [eapply (released_block h A HI i bs1 b bs2 Hi md s1 m1 Hmd Hfp i _ x a);
      [done|done|intros ->; by apply (chain_member_ne b)|by eapply free_block_wf]|lia|lia].
  - intros x Hx. apply released_member; [set_solver|]. intros E.
    pose proof (chain_descs_NoDup h A HI i bs1 b bs2 Hi) as Hnd.
    rewrite fmap_app, fmap_cons in Hnd. apply NoDup_app in Hnd as (_ & Hdj & _).
    apply (Hdj (b_desc x)); [by apply list_elem_of_fmap_2, last_Some_elem_of|].
    apply elem_of_cons. right. by apply list_elem_of_fmap_2.
  - intros x Hx Hne. apply released_member; [set_solver|done].
  - intros x E. by apply (released_pred h A HI i bs1 b bs2 Hi md s1 m1 Hmd Hfp).
  - pose proof (chain_descs_NoDup h A HI i bs1 b bs2 Hi) as Hnd.
    rewrite fmap_app in Hnd. by apply NoDup_app in Hnd as (? & _).
Qed.

(** Buckets of other classes are untouched. *)
Lemma released_other j bs x :
  j <> i -> classes A !! j = Some bs -> x ∈ bs ->
  agree (b_desc x) (b_desc x + 32) m3 (hmem h) /\
  forall a, a ∈ b_free x -> agree a (a + 8) m3 (hmem h).
Proof.
  intros Hne Hj Hx.
  pose proof (class_size_pos j (hi_class_lt _ _ HI _ _ Hj)) as Hsz.
  assert (forall y, y ∈ bs1 ++ b :: bs2 -> b_desc x <> b_desc y) as Hd.
  { intros y Hy E. by destruct (bucket_desc_inj _ _ HI _ _ _ _ _ _ Hj Hi Hx Hy E). }
  split.
  - eapply (released_desc h A HI i bs1 b bs2 Hi md s1 m1 Hmd Hfp).
    + by eapply bucket_desc_in.
    + apply Hd, in_chain. by right; left.
    + intros pr E. by apply Hd, last_in.
  - intros a Ha. eapply agree_sub; [eapply (released_block h A HI i bs1 b bs2 Hi md s1 m1 Hmd Hfp j _ x a);
      [done|done| |by eapply free_block_wf]|lia|lia]. intros ->. by apply (Hd b), eq_refl; apply in_chain; right; left.
Qed.

Lemma release_inv :
  heap_inv (KHeap (<[i := BucketDir (class_size i) (hd_desc (bs1 ++ bs2))]> (g_bucket_dir h))
              (b_desc b) (lock h) s1 m3) (drop_bucket A i bs1 b bs2).
Proof.
  destruct (drop_bucket_lists A i bs1 b bs2 Hi) as [Ed Ep].
  destruct (released_put h A HI i bs1 b bs2 Hi md s1 m1 Hmd Hfp) as (_ & _ & Hpage & _ & _).
  destruct released_pm as [Hpm Hfree].
  pose proof (hi_class_lt _ _ HI _ _ Hi) as Hlt.
  assert (i < length (classes A))%nat as Hlt' by (by eapply lookup_lt_Some).
  split; cbn [pm hmem g_bucket_dir free_bucket_chain].
  - done.
  - cbn [drop_bucket classes]. rewrite length_insert. apply HI.
  - rewrite (hi_dirs _ _ HI), dirs_insert by (rewrite ?length_fmap; apply HI || done).
    cbn [drop_bucket classes]. by rewrite list_fmap_insert.
  - intros j l Hj. cbn [drop_bucket classes] in Hj. destruct (decide (j = i)) as [->|Hne].
    + rewrite list_lookup_insert_eq in Hj by done. injection Hj as <-. apply released_chain.
    + rewrite list_lookup_insert_ne in Hj by done.
      eapply chain_ok_frame; [by apply (hi_chains _ _ HI)|]. intros x Hx. by eapply released_other.
  - intros j l x Hj Hx. cbn [drop_bucket classes] in Hj. destruct (decide (j = i)) as [->|Hne].
    + rewrite list_lookup_insert_eq in Hj by done. injection Hj as <-.
      apply (hi_wf _ _ HI i _ x Hi). set_solver.
    + rewrite list_lookup_insert_ne in Hj by done. by apply (hi_wf _ _ HI j l x).
  - cbn [drop_bucket spares spares_ok]. split; [by apply (released_next h A HI i bs1 b bs2 Hi md s1 m1 Hmd Hfp)|].
    eapply spares_ok_frame; [apply HI|]. intros d Hd.
    assert (forall y, y ∈ bs1 ++ b :: bs2 -> d <> b_desc y) as Hne.
    { intros y Hy ->. by apply (bucket_not_spare _ _ HI _ _ _ Hi Hy). }
    eapply (released_desc h A HI i bs1 b bs2 Hi md s1 m1 Hmd Hfp).
    + apply elem_of_app. by right.
    + apply Hne, in_chain. by right; left.
    + intros pr E. by apply Hne, last_in.
  - done.
  - rewrite <- Ed. apply HI.
  - intros d Hd. rewrite <- Ed in Hd. by apply (hi_desc_at _ _ HI).
  - pose proof (hi_pages _ _ HI) as Hnd. rewrite Ep in Hnd. by apply NoDup_cons in Hnd as [_ ?].
  - intros p Hp. pose proof (hi_pages _ _ HI) as Hnd. rewrite Ep in Hnd.
    apply NoDup_cons in Hnd as [Hn _].
    destruct (hi_page_at _ _ HI p) as [HP Hnf]; [rewrite Ep; set_solver|].
    rewrite Hpage, Hfree. split; [done|]. intros [?| ->]; [done|]. done.
Qed.
End Release.

(** ** [release_bucket] as run by [kfree_s] *)

Lemma release_bucket_run fuel h A i bs1 b bs2 md s1 m1 :
  heap_inv h A -> classes A !! i = Some (bs1 ++ b :: bs2) -> (length bs1 <= fuel)%nat ->
  same_out (b_page b) (b_page b + PAGE_SIZE) md (hmem h) ->
  free_page (pm h) md (b_page b) = (s1, m1) ->
  release_bucket fuel i (b_desc b) (set_mem h md) =
  Some (KHeap (<[i := BucketDir (class_size i) (hd_desc (bs1 ++ bs2))]> (g_bucket_dir h))
          (b_desc b) (lock h) s1 (released h bs1 b m1)).
Proof.
  intros HI Hi Hf Hmd Hfp. pose proof (in_chain bs1 b bs2 b ltac:(by right; left)) as Hin.
  pose proof (hi_chains _ _ HI i _ Hi) as Hch. pose proof Hch as [(Hpg & _) _]%chain_ok_desc.
  assert (ld64 md (bd_page (b_desc b)) = b_page b) as Hpg'.
  { rewrite <- Hpg. apply ldn_ext. intros x Hx. apply Hmd. unfold bd_page in Hx.
    eapply (desc_off_page h A HI i bs1 b bs2 Hi (b_desc b)); [by eapply bucket_desc_in|lia]. }
  unfold release_bucket. cbn [pm hmem set_mem g_bucket_dir free_bucket_chain lock].
  rewrite (dir_lookup _ _ _ _ HI Hi), Hpg', Hfp. cbn [default id size chain].
  assert (nexts_ok m1 (bs1 ++ b :: bs2)) as Hc1.
  { apply (nexts_of_chain (hmem h) _ (class_size i)); [done|]. intros x Hx.
    apply (m1_desc h A HI i bs1 b bs2 Hi md s1 m1 Hmd Hfp). by eapply bucket_desc_in. }
  destruct (class_nonzero _ _ _ _ HI Hi) as [Hn0 _].
  unfold released, unlinked. destruct bs1 as [|x bs1' _] using rev_ind.
  - cbn [app last]. change (hd_desc (b :: bs2)) with (b_desc b). rewrite Z.eqb_refl.
    cbn [mbind option_bind]. destruct Hc1 as [-> _]. done.
  - rewrite last_snoc. rewrite <- !app_assoc in Hc1, Hn0, Hi |- *. cbn [app] in *.
    pose proof (chain_descs_NoDup h A HI i (bs1' ++ [x]) b bs2) as Hnd.
    rewrite <- app_assoc in Hnd. specialize (Hnd Hi).
    assert (Forall (fun y => b_desc y <> b_desc b) (bs1' ++ [x])) as Hne.
    { change (bs1' ++ x :: b :: bs2) with (bs1' ++ [x] ++ b :: bs2) in Hnd.
      rewrite app_assoc, fmap_app, fmap_cons in Hnd. apply NoDup_app in Hnd as (_ & Hdj & _).
      rewrite Forall_forall. intros y Hy E. apply (Hdj (b_desc y)); [by apply list_elem_of_fmap_2|].
      rewrite E. set_solver. }
    assert (hd_desc (bs1' ++ x :: b :: bs2) = hd_desc ((bs1' ++ [x]) ++ bs2)) as Eh
      by (destruct bs1'; done).
    assert ((hd_desc (bs1' ++ x :: b :: bs2) =? b_desc b) = false) as ->.
    { apply Z.eqb_neq. destruct bs1' as [|y l]; cbn [app] in Hne;
        apply Forall_cons in Hne as [? _]; done. }
    rewrite (unlink_loop_spec fuel m1 bs1' x b bs2); [|done| |done|done].
    2:{ rewrite length_app in Hf. cbn in Hf. lia. }
    cbn [mbind option_bind]. rewrite <- Eh, list_insert_id; [done|]. by apply (dir_lookup h A).
Qed.

(** ** Facts for [kfree_s] *)

Lemma page_mask x : 0 <= x < 4294967296 -> Z.land (u32 x) (u32 (Z.lnot 0xfff)) = page_of x.
Proof.
  intros Hx. rewrite u32_small by done. unfold page_of, PAGE_SIZE.
  replace (x - x mod 4096) with (Z.shiftl (Z.shiftr x 12) 12).
  2:{ rewrite Z.shiftl_mul_pow2, Z.shiftr_div_pow2 by lia. change (2 ^ 12) with 4096. zlia. }
  change (u32 (Z.lnot 0xfff)) with (Z.shiftl (Z.ones 20) 12).
  apply Z.bits_inj'. intros n Hn. rewrite Z.land_spec, !Z.shiftl_spec by lia.
  destruct (decide (n < 12)).
  { rewrite (Z.testbit_neg_r (Z.ones 20)), (Z.testbit_neg_r (Z.shiftr x 12)) by lia.
    apply andb_false_r. }
  rewrite Z.shiftr_spec, Z.testbit_ones by lia. replace (n - 12 + 12) with n by lia.
  destruct (decide (n < 32)).
  - replace (0 <=? n - 12) with true by lia. replace (n - 12 <? 20) with true by lia.
    apply andb_true_r.
  - replace (Z.testbit x n) with false; [done|]. symmetry.
    rewrite <- (Z.mod_small x (2 ^ 32)) by lia. apply Z.mod_pow2_bits_high. lia.
Qed.

Lemma all_free_iff i b :
  (i < 9)%nat -> 0 <= b_page b -> free_wf (class_size i) b ->
  Z.of_nat (length (b_free b)) = PAGE_SIZE / class_size i <->
  (forall x, block_of (b_page b) (class_size i) x -> x ∈ b_free b).
Proof.
  intros Hi Hp [Hnd Hbl]. pose proof (class_size_pos i Hi) as Hsz.
  destruct (class_size_div i Hi) as (k & Hk1 & Hk0 & _).
  assert (PAGE_SIZE mod class_size i = 0) as Hdiv by (by apply class_size_mod).
  destruct (page_blocks_wf (b_page b) (class_size i) Hp ltac:(lia) Hdiv) as (Hnd' & Hel & Hln).
  assert (b_free b ⊆+ page_blocks (b_page b) (class_size i)) as Hsub.
  { apply NoDup_submseteq; [done|]. intros a Ha. by apply Hel, Hbl. }
  rewrite <- Hln. split.
  - intros E x Hx. apply Hel in Hx.
    assert (b_free b ≡ₚ page_blocks (b_page b) (class_size i)) as ->; [|done].
    apply submseteq_length_Permutation; [done|lia].
  - intros Hall. f_equal. apply Nat.le_antisymm; [by apply submseteq_length|].
    apply submseteq_length, NoDup_submseteq; [done|]. intros a Ha. by apply Hall, Hel.
Qed.

(** The block pushed is the one that stops being handed out. *)
Lemma live_push h A i bs1 b bs2 ptr :
  heap_inv h A -> classes A !! i = Some (bs1 ++ b :: bs2) ->
  block_of (b_page b) (class_size i) ptr ->
  let A' := set_class A i (bs1 ++ Bucket (b_desc b) (b_page b) (ptr :: b_free b) :: bs2) in
  forall j a, live A' j a <-> live A j a /\ ~ (j = i /\ a = ptr).
Proof.
  intros HI Hi Hbl A' j a. assert (b ∈ bs1 ++ b :: bs2) as Hin by set_solver.
  assert (i < length (classes A))%nat as Hlt by (by eapply lookup_lt_Some).
  assert (forall y, y ∈ bs1 ++ b :: bs2 -> block_of (b_page y) (class_size i) ptr -> y = b) as Huniq.
  { intros y Hy Hbly. destruct (block_bounds _ _ HI _ _ _ _ Hi Hin Hbl) as (_ & _ & E1 & _).
    destruct (block_bounds _ _ HI _ _ _ _ Hi Hy Hbly) as (_ & _ & E2 & _).
    destruct (bucket_page_inj _ _ HI _ _ _ _ _ _ Hi Hi Hy Hin) as [_ <-]; [congruence|done]. }
  unfold live at 1. cbn [A' set_class classes]. destruct (decide (j = i)) as [->|Hne].
  2:{ rewrite list_lookup_insert_ne by done. unfold live. naive_solver. }
  rewrite list_lookup_insert_eq by done.
  pose proof (hi_descs _ _ HI) as Hnd. split.
  - intros (l & y & [= <-] & Hy & Hbly & Hnf).
    assert (y ∈ bs1 ++ b :: bs2 \/ y = Bucket (b_desc b) (b_page b) (ptr :: b_free b)) as [Hy'| ->]
      by set_solver.
    + split; [by exists (bs1 ++ b :: bs2), y|]. intros [_ ->].
      pose proof (Huniq y Hy' Hbly) as ->.
      apply elem_of_app in Hy as [Hy|[Hy|Hy]%elem_of_cons].
      * pose proof (chain_descs_NoDup h A HI i bs1 b bs2 Hi) as Hn. rewrite fmap_app in Hn.
        apply NoDup_app in Hn as (_ & Hdj & _). apply (Hdj (b_desc b)); set_solver.
      * apply (f_equal b_free) in Hy. cbn in Hy. apply (f_equal length) in Hy. cbn in Hy. lia.
      * pose proof (chain_descs_NoDup h A HI i bs1 b bs2 Hi) as Hn. rewrite fmap_app, fmap_cons in Hn.
        apply NoDup_app in Hn as (_ & _ & Hn). apply NoDup_cons in Hn as [Hn _]. set_solver.
    + cbn [b_page b_free] in *. split; [|set_solver].
      exists (bs1 ++ b :: bs2), b. repeat split; [done..|apply Hbly|apply Hbly|apply Hbly|]. set_solver.
  - intros [(l & y & Hl & Hy & Hbly & Hnf) Hne]. rewrite Hi in Hl. injection Hl as <-.
    assert (y = b \/ y ∈ bs1 \/ y ∈ bs2) as [-> |Hy'] by set_solver.
    + eexists _, (Bucket (b_desc b) (b_page b) (ptr :: b_free b)).
      repeat split; [set_solver|apply Hbly..|]. cbn. naive_solver set_solver.
    + eexists _, y. repeat split; [set_solver|apply Hbly..|done].
Qed.
End Free.
