(* ===== verification/KmallocSpec.v ===== *)
(** The kernel heap's contract: what [kmalloc], [kzalloc] and [kfree_s] do to
    the set of blocks handed out, that handed-out blocks never overlap, and two
    ways the code leaves its contract. *)

From S2P Require Import Prelude Mem CString PageAlloc Bitmap Phymm Kmalloc KmallocLemmas KmallocCorrect KmallocGrow KmallocThms KmallocFree.

Section Spec.
Context {S : Type} `{PL : PageLaws S}.
Implicit Types (h : kheap S) (A : aheap).

(** C1: [kmalloc] returns: it refuses a length above 4096, and for any other it
    either hands out a block of the smallest class that fits, taken from no
    one, or answers NULL with the class exhausted and no page left. *)
Theorem kmalloc_correct fuel len h A :
  heap_inv h A -> lock h = 0 -> short_chains fuel A -> desc_available h A -> free_clean h ->
  0 <= len < 4294967296 ->
  exists r h' A', kmalloc fuel len h = Some (r, h') /\ lock h' = 0 /\ heap_inv h' A' /\
    keeps A (hmem h') (hmem h) /\ free_clean h' /\ short_chains (Datatypes.S fuel) A' /\
    ((r = 0 /\ (forall j a, live A' j a <-> live A j a) /\
      (4096 < len \/ exhausted A (class_of len) /\ forall q, ~ pa_free (pm h') (hmem h') q)) \/
     (exists i, 0 < r /\ r + class_size i <= 4294967296 /\ len <= class_size i /\
      (forall j, (j < i)%nat -> class_size j < len) /\ ~ live A i r /\
      forall j a, live A' j a <-> live A j a \/ (j = i /\ a = r))).
Proof.
  intros HI Hl Hsh Hav Hcl Hlen. pose proof (u32_small len Hlen) as Eu.
  destruct (class_of_cases len) as [[Hc Hbig] | (Hc & Hfit & Hleast)].
  - exists 0, (set_lock (set_lock h 1) 0), A. split; [|split; [done|split; [|split; [done|split; [done|split]]]]].
    + unfold kmalloc, heap_lock. rewrite Hl, Eu. cbn [Z.eqb mbind option_bind].
      pose proof (heap_inv_lock h A 1 HI) as HI1.
      by rewrite (find_dir_inv _ A _ HI1), Hc, (dir_sentinel _ _ HI1).
    + by apply heap_inv_lock, heap_inv_lock.
    + by apply short_chains_S.
    + left. split; [done|]. split; [done|]. by left.
  - destruct (lookup_lt_is_Some_2 (classes A) (class_of len)) as [bs Hbs];
      [by rewrite (hi_classes _ _ HI)|].
    destruct (kmalloc_small fuel len h A (class_of len) bs) as (r & h' & A' & E & Hl' & HI' & Hk & Hfs & Hsh' & Hcase);
      [done..|by rewrite Eu|done|].
    exists r, h', A'. split; [done|]. split; [done|]. split; [done|]. split; [done|].
    split; [by eapply free_clean_frees|]. split; [done|].
    destruct Hcase as [(-> & Hlv & Hex & Hno)|(Hr & Hr4 & Hnl & Hlv)].
    + left. split; [done|]. split; [done|]. by right.
    + right. by exists (class_of len).
Qed.

(** The bucket of a block that is handed out is found. *)
Lemma kfree_find fuel h A i bs1 b bs2 ptr :
  heap_inv h A -> classes A !! i = Some (bs1 ++ b :: bs2) -> b_page b = page_of ptr ->
  (length (bs1 ++ b :: bs2) < fuel)%nat ->
  find_page_chain fuel (hmem h) (hd_desc (bs1 ++ b :: bs2)) (page_of ptr) = Some (b_desc b).
Proof.
  intros HI Hi Epg Hf. rewrite <- Epg. rewrite length_app in Hf. cbn in Hf.
  destruct (class_nonzero _ _ _ _ HI Hi) as [Hn0 _].
  eapply (find_page_chain_spec fuel (hmem h) (class_size i)); [by apply (hi_chains _ _ HI)|lia|done|].
  rewrite Forall_forall. intros x Hx E.
  assert (x ∈ bs1 ++ b :: bs2 /\ b ∈ bs1 ++ b :: bs2) as [Hx' Hin] by (clear -Hx; set_solver).
  destruct (bucket_page_inj _ _ HI _ _ _ _ _ _ Hi Hi Hx' Hin E) as [_ ->].
  pose proof (chain_descs_NoDup h A HI i bs1 b bs2 Hi) as Hn. rewrite fmap_app in Hn.
  apply NoDup_app in Hn as (_ & Hdj & _). apply (Hdj (b_desc b)); clear -Hx; set_solver.
Qed.

(** Its bucket is empty afterwards just when no other block of its page is out. *)
Lemma last_block h A i bs1 b bs2 ptr :
  heap_inv h A -> classes A !! i = Some (bs1 ++ b :: bs2) -> block_of (b_page b) (class_size i) ptr ->
  ptr ∉ b_free b ->
  (PAGE_SIZE / class_size i - (Z.of_nat (length (b_free b)) + 1) = 0 <->
     forall x, block_of (b_page b) (class_size i) x -> x ∈ ptr :: b_free b) /\
  ((forall x, block_of (b_page b) (class_size i) x -> x ∈ ptr :: b_free b) <->
     forall a, live A i a -> page_of a = page_of ptr -> a = ptr).
Proof.
  intros HI Hi Hbl Hnf. assert (b ∈ bs1 ++ b :: bs2) as Hin by (clear; set_solver).
  pose proof (hi_class_lt _ _ HI _ _ Hi) as Hlt.
  destruct (hi_page_ok _ _ HI _ (bucket_page_in _ _ _ _ Hi Hin)) as (_ & Hpp & _ & _).
  destruct (block_bounds _ _ HI _ _ _ _ Hi Hin Hbl) as (_ & _ & Epg & _). split.
  - pose proof (all_free_iff i (Bucket (b_desc b) (b_page b) (ptr :: b_free b)) Hlt) as Hall.
    cbn [b_page b_free length] in *. rewrite <- Hall; [lia|lia|]. destruct (hi_wf _ _ HI _ _ _ Hi Hin) as [Hnd Hw].
    split; [by constructor|]. intros x [->|Hx]%elem_of_cons; [done|by apply Hw].
  - split.
    + intros Hall a (l & y & Hl & Hy & Hbly & Hny) Ea. rewrite Hi in Hl. injection Hl as <-.
      destruct (block_bounds _ _ HI _ _ _ _ Hi Hy Hbly) as (_ & _ & Ey & _).
      destruct (bucket_page_inj _ _ HI _ _ _ _ _ _ Hi Hi Hy Hin) as [_ ->]; [congruence|].
      by apply Hall, elem_of_cons in Hbly as [?|?].
    + intros Honly x Hx. apply elem_of_cons. destruct (decide (x ∈ b_free b)) as [|Hn]; [by right|left].
      apply Honly; [by exists (bs1 ++ b :: bs2), b|].
      destruct (block_bounds _ _ HI _ _ _ _ Hi Hin Hx) as (_ & _ & -> & _). by rewrite Epg.
Qed.

(** A bucket none of whose blocks is in use is released, whatever the bytes 4..7 of
    the block pushed last. *)
Lemma release_pushed fuel h A i bs1 b bs2 ptr mc md :
  heap_inv (set_mem h mc) A -> classes A !! i = Some (bs1 ++ b :: bs2) -> block_of (b_page b) (class_size i) ptr ->
  8 <= class_size i -> (forall x, x < ptr + 4 \/ ptr + 8 <= x -> ld8 md x = ld8 mc x) ->
  (forall x, block_of (b_page b) (class_size i) x -> x ∈ b_free b) -> (length bs1 <= fuel)%nat ->
  exists h', release_bucket fuel i (b_desc b) (set_mem h md) = Some h' /\
    (exists A', heap_inv h' A' /\ forall j a, live A' j a <-> live A j a) /\
    (forall j a, live A j a -> agree a (a + class_size j) (hmem h') md) /\ pa_free (pm h') (hmem h') (b_page b).
Proof.
  intros HI Hi (H1 & H2 & _) Hsz Hsame Hall Hf. destruct (free_page (pm h) md (b_page b)) as [s1 m1] eqn:Hfp.
  assert (same_out (b_page b) (b_page b + PAGE_SIZE) md (hmem (set_mem h mc))) as Hmd
    by (intros x Hx; apply Hsame; lia).
  pose proof (release_bucket_run fuel _ A i bs1 b bs2 md s1 m1 HI Hi Hf Hmd Hfp) as Hrun.
  eexists. split; [exact Hrun|]. split; [|split].
  - eexists. split; [by apply (release_inv _ A HI i bs1 b bs2 Hi md)|]. intros j a. by eapply live_drop_bucket.
  - intros j a (l & y & Hj & Hy & Hbly & Hny).
    assert (y <> b) as Hyb.
    { intros ->. apply Hny, Hall. destruct (decide (j = i)) as [->|Hji]; [exact Hbly|].
      by destruct (bucket_page_inj _ _ HI _ _ _ _ _ _ Hj Hi Hy (in_chain bs1 b bs2 b ltac:(by right; left)) eq_refl). }
    intros x Hx. etrans; [by eapply (released_block _ A HI i bs1 b bs2 Hi md s1 m1 Hmd Hfp)|].
    symmetry. apply Hsame. pose proof (block_off_page _ A HI i bs1 b bs2 Hi j l y a x Hj Hy Hyb Hbly Hx). lia.
  - destruct (released_pm _ A HI i bs1 b bs2 Hi md s1 m1 Hmd Hfp) as [_ Hfr]. apply Hfr. by right.
Qed.

(** The link of a pushed block is its own bytes 4..7 over the old head. *)
Lemma pushed_link m c ptr : 0 <= ptr < 18446744073709551616 -> c + 32 <= ptr \/ ptr + 8 <= c ->
  ld64 m (bd_freeBlock c) = ptr -> ld32 m (ptr + 4) <> 0 ->
  let (r, m') := pop_block c m in r = ptr /\ 4294967296 <= (pop_block c m').1.
Proof.
  intros Hp Hap Ef Hup. unfold pop_block. rewrite Ef. split; [done|]. cbn [fst].
  unfold ld64 at 1, st32, bd_refCnt, bd_freeBlock. rewrite ldn_stn_ne by lia. fold ld64. rewrite ld64_st64.
  rewrite u64_small by apply ld64_bound. rewrite ld64_halves.
  pose proof (ld32_bound m ptr). pose proof (ld32_bound m (ptr + 4)). lia.
Qed.

(** C2: Handing a block back.  [kfree_s] returns, every other block that is handed out
    keeps its contents, and the page of a block that was the last of it to be in use is
    given back.  The block itself is linked to the free ones with a 4-byte store that
    is read back with 8 bytes.  If its bytes 4..7 are zero, or it is the last of its
    page, the heap is in order afterwards and exactly that block has stopped being
    handed out.  If the client has left anything else there, the free list is broken:
    of the next two blocks taken from the bucket the first is this one and the second
    an address of 4 GiB or more, which is no block. *)
Theorem kfree_s_correct fuel ptr len h A :
  heap_inv h A -> lock h = 0 -> short_chains fuel A -> 0 <= len < 4294967296 -> live A (class_of len) ptr ->
  let last := forall a, live A (class_of len) a -> page_of a = page_of ptr -> a = ptr in
  exists h', kfree_s fuel ptr len h = Some h' /\ lock h' = 0 /\
    (forall j a, live A j a -> a <> ptr -> agree a (a + class_size j) (hmem h') (hmem h)) /\
    (last -> pa_free (pm h') (hmem h') (page_of ptr)) /\
    (ld32 (hmem h) (ptr + 4) = 0 \/ last -> exists A', heap_inv h' A' /\
       forall j a, live A' j a <-> live A j a /\ ~ (j = class_of len /\ a = ptr)) /\
    (ld32 (hmem h) (ptr + 4) <> 0 -> ~ last -> exists c, c ∈ all_descs A /\ ld64 (hmem h') (bd_page c) = page_of ptr /\
       let (r, m) := pop_block c (hmem h') in r = ptr /\ 4294967296 <= (pop_block c m).1).
Proof.
  intros HI Hl Hsh Hlen (bs & b & Hi & Hin & Hbl & Hnf) last. set (i := class_of len) in *.
  pose proof Hin as (bs1 & bs2 & ->)%list_elem_of_split.
  pose proof (heap_inv_lock h A 1 HI) as HI1. set (h1 := set_lock h 1) in *.
  destruct (last_block h A i bs1 b bs2 ptr HI Hi Hbl Hnf) as [Hlast1 Hlast2]. fold last in Hlast2.
  destruct (push_any h1 A i bs1 b bs2 ptr HI1 Hi Hbl Hnf) as ((mc & HIc & Hsame & Hcl) & Er & Ef & Ep & Eu & Hk).
  change (hmem h1) with (hmem h) in *. set (md := push_block (b_desc b) ptr (hmem h)) in *.
  set (b' := Bucket (b_desc b) (b_page b) (ptr :: b_free b)) in *.
  set (A2 := set_class A i (bs1 ++ b' :: bs2)) in *.
  pose proof (live_push h A i bs1 b bs2 ptr HI Hi Hbl) as Hlv2. fold b' in Hlv2. fold A2 in Hlv2.
  pose proof (hi_class_lt _ _ HI _ _ Hi) as Hlt. pose proof (class_size_pos i Hlt) as Hsz.
  destruct (block_bounds _ _ HI _ _ _ _ Hi Hin Hbl) as (Hp0 & Hp4 & Epg & _).
  pose proof (bucket_desc_in _ _ _ _ Hi Hin) as Hc. destruct (desc_bounds _ _ HI _ Hc) as (Hd0 & _).
  pose proof (desc_block_apart _ _ HI _ i _ b ptr Hc Hi Hin Hbl) as Hap.
  specialize (Hsh _ _ Hi). unfold kfree_s, heap_lock. rewrite Hl. cbn [Z.eqb mbind option_bind]. fold h1.
  rewrite (find_dir_inv h1 A _ HI1), (u32_small len Hlen). fold i.
  rewrite (dir_lookup _ _ _ _ HI1 Hi). cbn [default id size chain].
  destruct (class_size i =? 0) eqn:E; bool_hyps; [lia|]. clear E.
  rewrite page_mask, (kfree_find fuel h1 A i bs1 b bs2 ptr HI1 Hi (eq_sym Epg) Hsh) by lia. cbn [mbind option_bind].
  assert ((b_desc b =? 0) = false) as -> by (apply Z.eqb_neq; lia).
  change (hmem h1) with (hmem h). fold md. rewrite Er. destruct (_ =? 0) eqn:E; bool_hyps.
  - pose proof (proj1 Hlast1 E) as Hall.
    assert (classes A2 !! i = Some (bs1 ++ b' :: bs2)) as Hi2 by (apply list_lookup_insert_eq; by eapply lookup_lt_Some).
    destruct (release_pushed fuel h1 A2 i bs1 b' bs2 ptr mc md HIc Hi2 Hbl ltac:(lia) Hsame Hall)
      as (h' & Hrun & (A3 & HI3 & Hlv3) & Hk3 & Hfr); [rewrite length_app in Hsh; lia|].
    change (b_desc b') with (b_desc b) in Hrun. change (b_page b') with (b_page b) in Hfr. rewrite <- Epg in Hfr.
    rewrite Hrun. cbn [mbind option_bind]. eexists. split; [done|]. split; [done|]. split; [|split; [done|split]].
    + intros j a Hlj Hne. etransitivity; [|by apply Hk]. apply Hk3, Hlv2. split; [done|by intros [_ ?]].
    + intros _. exists A3. split; [by apply heap_inv_lock|]. intros j a. by rewrite Hlv3, Hlv2.
    + intros _ Hn. exfalso. apply Hn, Hlast2, Hall.
  - assert (~ last) as Hnl by (intros Hla; by apply E, Hlast1, Hlast2).
    eexists. split; [done|]. split; [done|]. split; [exact Hk|]. split; [done|]. split.
    + intros [Hup|?]; [|done]. exists A2. rewrite (Hcl Hup) in HIc. split; [by apply heap_inv_lock|done].
    + intros Hup _. exists (b_desc b). split; [done|]. split; [by rewrite Epg|].
      apply pushed_link; [lia|lia|exact Ef|]. cbn [hmem set_lock set_mem]. by rewrite Eu.
Qed.

(** C8: Handed-out blocks are apart from one another, from the heap's descriptors
    and from the page manager, and lie in the low 4 GiB. *)
Theorem heap_blocks_disjoint h A i j a a' :
  heap_inv h A -> live A i a -> live A j a' -> i <> j \/ a <> a' ->
  (a + class_size i <= a' \/ a' + class_size j <= a) /\
  (forall d, d ∈ all_descs A -> a + class_size i <= d \/ d + sizeof_bucket_desc <= a) /\
  (forall x, a <= x < a + class_size i -> ~ pa_foot (pm h) x /\ 0 < x < 4294967296).
Proof.
  intros HI (bs & b & Hi & Hb & Hbl & _) (bs' & b' & Hj & Hb' & Hbl' & _) Hne.
  destruct (block_bounds _ _ HI _ _ _ _ Hi Hb Hbl) as (Hp0 & Hp4 & _ & Hft).
  split; [|split].
  - destruct (blocks_apart _ _ HI _ _ _ _ _ _ _ _ Hi Hj Hb Hb' Hbl Hbl') as [[-> ->]|?]; [|lia].
    by destruct Hne.
  - intros d Hd. by eapply desc_block_apart.
  - intros x Hx. split; [by apply Hft|lia].
Qed.
End Spec.

(** ** Witnesses: the heap over the page manager of phymm.c *)

Definition demo_heap : kheap mm_pages_manager_t := KHeap g_bucket_dir_init NULL 0 demo_pm ∅.
Definition empty_heap : aheap := AHeap (replicate 9 []) [] [].

Lemma demo_heap_inv : heap_inv demo_heap empty_heap.
Proof. apply heap_inv_init. apply (demo_pm_inv ∅). Qed.

Lemma demo_clean : free_clean demo_heap.
Proof. intros p _ a _. apply ldn_zero. done. Qed.

Lemma demo_available : desc_available demo_heap empty_heap.
Proof. right. exists 0x300000. exists 0. split; [split; [split|]; vm_compute; done|vm_compute; done]. Qed.

Lemma empty_short fuel : short_chains (Datatypes.S fuel) empty_heap.
Proof. intros i bs Hl. apply lookup_replicate in Hl as [-> _]. cbn. lia. Qed.

(** A heap with two blocks of 16 bytes handed out. *)
Definition demo_facts (r : Z * kheap mm_pages_manager_t) : Z * mm_pages_manager_t * bool * option (Z * Z) :=
  let '(a, h1) := r in
  (a, pm h1, bit (hmem h1) (pm_map (pm h1)) 2,
   '(b, h2) ← kmalloc 3 16 h1; Some (b, ld32 (hmem h2) 0x301014)).

Lemma demo_run : demo_facts <$> kmalloc 2 16 demo_heap =
  Some (0x301000, demo_pm, false, Some (0x301010, 0)).
Proof. vm_compute. reflexivity. Qed.

Lemma demo_one :
  exists h1 A1, demo_facts (0x301000, h1) = (0x301000, demo_pm, false, Some (0x301010, 0)) /\
    heap_inv h1 A1 /\ lock h1 = 0 /\ short_chains 3 A1 /\ live A1 0 0x301000 /\ free_clean h1.
Proof.
  destruct (kmalloc_small 2 16 demo_heap empty_heap 0 [] demo_heap_inv eq_refl (empty_short 1)
    demo_available demo_clean eq_refl eq_refl)
    as (a & h1 & A1 & E1 & Hl1 & HI1 & _ & Hf1 & Hs1 & Hcase1).
  pose proof demo_run as F. rewrite E1 in F. clear E1. cbn [fmap option_fmap option_map] in F.
  assert (demo_facts (a, h1) = (0x301000, demo_pm, false, Some (0x301010, 0))) as F' by congruence.
  assert (a = 0x301000) as -> by (unfold demo_facts in F'; congruence).
  exists h1, A1. split; [exact F'|]. split; [exact HI1|]. split; [exact Hl1|].
  split; [exact Hs1|]. destruct Hcase1 as [[E0 _]|(_ & _ & _ & Hlv1)]; [clear -E0; lia|].
  split; [apply Hlv1; right; done|]. eapply free_clean_frees; [exact Hf1|apply demo_clean].
Qed.

Lemma demo_two :
  exists h A, heap_inv h A /\ lock h = 0 /\
    short_chains 4 A /\ live A 0 0x301000 /\ live A 0 0x301010 /\ ld32 (hmem h) 0x301014 = 0.
Proof.
  destruct demo_one as (h1 & A1 & F & HI1 & Hl1 & Hs1 & Hlv1 & Hcl1). unfold demo_facts in F.
  assert (pm h1 = demo_pm) as Epm by congruence.
  assert (pa_free (pm h1) (hmem h1) 0x302000) as Hfree.
  { exists 2. split; [rewrite Epm; split; [split|]; vm_compute; done|congruence]. }
  assert (exists bs, classes A1 !! 0%nat = Some bs) as [bs Hbs].
  { apply lookup_lt_is_Some. rewrite (hi_classes _ _ HI1). lia. }
  destruct (kmalloc_small 3 16 h1 A1 0 bs HI1 Hl1 Hs1) as (b & h2 & A2 & E2 & Hl2 & HI2 & _ & _ & Hs2 & Hcase2);
    [right; exists 0x302000; exact Hfree|exact Hcl1|reflexivity|exact Hbs|].
  rewrite E2 in F. cbn [mbind option_bind] in F. clear E2.
  assert (b = 0x301010) as -> by congruence.
  assert (ld32 (hmem h2) 0x301014 = 0) as E3 by congruence.
  exists h2, A2. split; [exact HI2|]. split; [exact Hl2|]. split; [exact Hs2|].
  destruct Hcase2 as [[E0 _]|(_ & _ & _ & Hlv2)]; [clear -E0; lia|].
  split; [apply Hlv2; left; exact Hlv1|]. split; [apply Hlv2; right; done|exact E3].
Qed.

(** The block handed back clean, and with seven in its second word. *)
Lemma kfree_s_correct_witness :
  exists (h : kheap mm_pages_manager_t) (A : aheap), (exists h' A', kfree_s 4 0x301010 16 h = Some h' /\ live A' 0 0x301000 /\ heap_inv h' A' /\ ~ live A' 0 0x301010) /\
    exists (h' : kheap mm_pages_manager_t) (c : Z), kfree_s 4 0x301010 16 (set_mem h (st32 (hmem h) 0x301014 7)) = Some h' /\
      4294967296 <= (pop_block c (pop_block c (hmem h')).2).1.
Proof.
  destruct demo_two as (h & A & HI & Hl & Hs & Hl1 & Hl2 & Hup).
  exists h, A. split.
  - destruct (kfree_s_correct 4 0x301010 16 h A HI Hl Hs ltac:(lia) Hl2)
      as (h' & E & _ & _ & _ & H & _). destruct H as (A' & HI' & Hlv); [by left|].
    exists h', A'. split; [exact E|]. split; [|split; [done|]].
    + apply Hlv. split; [exact Hl1|]. intros [_ ?]. lia.
    + intros Hn. apply Hlv in Hn as [_ Hn]. by apply Hn.
  - assert (same_out 0x301010 (0x301010 + class_size 0) (st32 (hmem h) 0x301014 7) (hmem h)) as Ho
      by (apply (same_out_stn _ _ 4); [lia|vm_compute; discriminate]).
    destruct (live_block_write h A 0 0x301010 _ HI Hl2 Ho) as [HI7 _].
    destruct (kfree_s_correct 4 0x301010 16 _ A HI7 Hl Hs ltac:(lia) Hl2)
      as (h' & E & _ & _ & _ & _ & H). destruct H as (c & _ & _ & H).
    + cbn [hmem set_mem]. change (0x301010 + 4) with 0x301014. rewrite ld32_st32. by vm_compute.
    + intros Hn. discriminate (Hn 0x301000 Hl1 eq_refl).
    + exists h', c. split; [exact E|]. destruct (pop_block c (hmem h')) as [r m]. apply H.
Defined.

Lemma heap_blocks_disjoint_witness :
  exists h A, heap_inv h A /\ live A 0 0x301000 /\ live A 0 0x301010 /\
    forall d, d ∈ all_descs A -> 0x301000 + 16 <= d \/ d + 32 <= 0x301000.
Proof.
  destruct demo_two as (h & A & HI & Hl & Hs & Hl1 & Hl2 & Hup).
  exists h, A. split; [done|]. split; [done|]. split; [done|].
  apply (heap_blocks_disjoint h A 0 0 0x301000 0x301010 HI Hl1 Hl2). right. lia.
Defined.

Lemma kmalloc_correct_witness :
  heap_inv demo_heap empty_heap /\
  exists h', kmalloc 1 20 demo_heap = Some (0x301000, h') /\ lock h' = 0.
Proof.
  split; [apply demo_heap_inv|].
  destruct (kmalloc_correct 1 20 demo_heap empty_heap demo_heap_inv eq_refl (empty_short 0)
    demo_available demo_clean ltac:(lia)) as (r & h' & A' & E & Hl & _).
  exists h'. split; [|done]. rewrite E. do 2 f_equal.
  assert (fst <$> kmalloc 1 20 demo_heap = Some 0x301000) as E' by (vm_compute; done).
  rewrite E in E'. cbn in E'. congruence.
Defined.
(** ** Two ways out of the contract *)

(** The free list is written with 4-byte stores and read with 8-byte loads: on
    a page that is not clear, the address of the second block carries the old
    bytes 4..7 of the first one in its upper half. *)
Theorem carve_keeps_upper_half m p bs :
  0 <= p -> p + PAGE_SIZE <= 4294967296 -> 16 <= bs -> 2 * bs <= PAGE_SIZE ->
  PAGE_SIZE mod bs = 0 ->
  ld64 (carve m p bs) p = p + bs + 4294967296 * ld32 m (p + 4).
Proof.
  intros Hp Hp4 Hbs Hb2 Hdiv. pose proof (block_count bs ltac:(lia) Hdiv) as Hc.
  set (n := PAGE_SIZE / bs) in *. assert (2 <= n) by nia.
  unfold carve. fold n. rewrite (u32_small p) by (unfold PAGE_SIZE in *; lia).
  rewrite (u32_small (p + (n - 1) * bs)) by (unfold PAGE_SIZE in *; nia).
  unfold ld64, st32. rewrite ldn_stn_ne by nia. fold ld64. rewrite ld64_halves.
  pose proof (carve_loop_word p bs n Hp ltac:(lia) Hbs ltac:(lia) (Z.to_nat (n - 1)) 0 m 0
    ltac:(lia) ltac:(lia) ltac:(lia)) as Hw.
  pose proof (carve_loop_other p bs n Hp ltac:(lia) Hbs ltac:(lia) (Z.to_nat (n - 1)) 0 m 0
    ltac:(lia) ltac:(lia) ltac:(lia)) as Ho.
  rewrite Z.mul_0_l, Z.add_0_r in Hw, Ho. rewrite Hw, Ho. lia.
Qed.

Lemma carve_keeps_upper_half_witness :
  ld64 (carve {[0x301004 := 7]} 0x301000 16) 0x301000 = 0x700301010.
Proof.
  rewrite carve_keeps_upper_half; [vm_compute; reflexivity|..]; vm_compute; congruence || reflexivity.
Defined.

(** With no page left for descriptors, [construct_free_bucket_chain] links
    them all the same, over the page at address 0. *)
Theorem construct_without_page {S} `{PageOps S} (s s' : S) (m m' : mem) k :
  get_free_page s m = (NULL, s', m') -> 0 <= k < 127 ->
  let '(chain, s1, m1) := construct_free_bucket_chain s m in
  chain = NULL /\ s1 = s' /\ ld64 m1 (k * 32 + 8) = (k + 1) * 32.
Proof.
  intros Hg Hk. unfold construct_free_bucket_chain. rewrite Hg. split; [done|]. split; [done|].
  change (Z.to_nat _) with 127%nat. change (PAGE_SIZE / sizeof_bucket_desc - 1) with 127.
  pose proof (link_descs_next 127 0 m' 0 k ltac:(lia) ltac:(lia) ltac:(lia) ltac:(lia)) as Hn.
  unfold bd_next in *. rewrite !Z.add_0_l in Hn. rewrite <- Hn.
  unfold ld64, st64, NULL, sizeof_bucket_desc. apply ldn_stn_ne. lia.
Qed.

Definition no_pages : mm_pages_manager_t := MmPagesManager MEN_MANAGER_START 0 MEN_BITS_MAP (BitmapT MEN_BITS_MAP 0 0).

Lemma construct_without_page_witness :
  ld64 (construct_free_bucket_chain no_pages (∅ : mem)).2 40 = 64.
Proof.
  pose proof (construct_without_page (H := phy_ops) no_pages no_pages (∅ : mem) ∅ 1
    ltac:(vm_compute; reflexivity) ltac:(lia)) as Hc.
  destruct (construct_free_bucket_chain no_pages (∅ : mem)) as [[c s] m]. apply Hc.
Defined.
