(* ===== verification/Alloc.v ===== *)
(** The interface between the kernel heap and the modules that allocate their
    objects with it (tasks, per-CPU blocks, TSS): [kzalloc] and [kfree_s] over a
    heap state, and the blocks it has handed out. *)

From S2P Require Import Prelude.

Class AllocOps (H : Type) := {
  kzalloc : H -> Z -> Z * H;
  kfree_s : H -> Z -> Z -> H
}.

(** [al_live h p n] says the block at [p], obtained for [n] bytes, is handed
    out.  A release must give the length again, up to its size class: with
    another one the heap does not find the block and does nothing. *)
Class AllocLaws (H : Type) `{AllocOps H} := {
  al_class : Z -> Z;
  al_live : H -> Z -> Z -> Prop;
  al_kzalloc h n p h' : kzalloc h n = (p, h') ->
    (p = NULL /\ forall q k, al_live h' q k <-> al_live h q k) \/
    (0 < p < 4294967296 /\ (forall k, ~ al_live h p k) /\
     forall q k, al_live h' q k <-> al_live h q k \/ (q = p /\ k = n));
  al_kfree_s h p n k q j : al_live h p k -> al_class n = al_class k ->
    al_live (kfree_s h p n) q j <-> al_live h q j /\ q <> p;
  al_kfree_s_lost h p n k q j : al_live h p k -> al_class n <> al_class k ->
    al_live (kfree_s h p n) q j <-> al_live h q j
}.

(** ** A concrete heap for the witnesses: the list of live blocks, from 1 MiB
    on, the next one 64 KiB above the highest *)

Definition top_block (h : list (Z * Z)) : Z := foldr (fun b m => Z.max (fst b) m) 983040 h.
Definition pow2_class (n : Z) : Z := Z.log2_up (Z.max n 16).

#[export] Instance list_alloc : AllocOps (list (Z * Z)) := {|
  kzalloc h n :=
    let p := top_block h + 65536 in
    if p <? 4294967296 then (p, (p, n) :: h) else (NULL, h);
  kfree_s h p n := filter (fun b => ~ (fst b = p /\ pow2_class n = pow2_class (snd b))) h
|}.

Lemma top_block_le h p n : (p, n) ∈ h -> p <= top_block h.
Proof.
  induction h as [|q h IH]; [by intros ?%elem_of_nil|].
  rewrite elem_of_cons. cbn. intros [<-|Hp]; [cbn; lia|]. specialize (IH Hp).
  change (foldr (fun b m => Z.max (fst b) m) 983040 h) with (top_block h). lia.
Qed.

Lemma top_block_low h : 983040 <= top_block h.
Proof.
  induction h as [|q h IH]; cbn; [lia|].
  change (foldr (fun b m => Z.max (fst b) m) 983040 h) with (top_block h). lia.
Qed.

(** The blocks of a heap have distinct addresses. *)
Definition list_live (h : list (Z * Z)) (p n : Z) : Prop :=
  (p, n) ∈ h /\ forall k, (p, k) ∈ h -> k = n.

#[export, refine] Instance list_alloc_laws : AllocLaws (list (Z * Z)) :=
  {| al_class := pow2_class; al_live := list_live |}.
Proof.
  - intros h n p h' E. cbn in E. pose proof (top_block_low h).
    destruct (top_block h + 65536 <? 4294967296) eqn:El; bool_hyps; simplify_eq; [|by left].
    right. split; [lia|]. split; [intros k [Hp _]; apply top_block_le in Hp; lia|].
    assert (forall k, (top_block h + 65536, k) ∉ h) as Hf
      by (intros k Hp; apply top_block_le in Hp; lia).
    intros q k. unfold list_live. setoid_rewrite elem_of_cons. split.
    + intros [[E|Hq] Hu]; [right; by simplify_eq|left; split; [done|]]. intros j Hj. apply Hu. by right.
    + intros [[Hq Hu]|[-> ->]].
      * split; [by right|]. intros j [E|Hj]; [|by apply Hu]. simplify_eq. by destruct (Hf k).
      * split; [by left|]. intros j [E|Hj]; [by simplify_eq|]. by destruct (Hf j).
  - intros h p n k q j [Hp Hu] Hc. unfold list_live. cbn. setoid_rewrite list_elem_of_filter. cbn.
    split.
    + intros [[Hn Hq] Hq']. assert (q <> p) as Hne.
      { intros ->. apply Hn. split; [done|]. by rewrite Hc, (Hu j Hq). }
      split; [split; [done|]|done]. intros i Hi. apply Hq'. split; [|done]. by intros [? _].
    + intros [[Hq Hq'] Hne]. split; [split; [by intros [? _]|done]|]. intros i [_ Hi]. by apply Hq'.
  - intros h p n k q j [Hp Hu] Hc. unfold list_live. cbn. setoid_rewrite list_elem_of_filter. cbn.
    assert (forall i, (q, i) ∈ h -> ~ (q = p /\ pow2_class n = pow2_class i)) as Hk.
    { intros i Hi [-> E]. apply Hc. by rewrite E, (Hu i Hi). }
    split.
    + intros [[_ Hq] Hq']. split; [done|]. intros i Hi. apply Hq'. split; [by apply Hk|done].
    + intros [Hq Hq']. split; [split; [by apply Hk|done]|]. intros i [_ Hi]. by apply Hq'.
Defined.

Lemma list_live_in h p n : NoDup (fst <$> h) -> (p, n) ∈ h -> list_live h p n.
Proof.
  intros Hnd Hp. split; [done|]. intros k Hk.
  apply list_elem_of_lookup in Hp as [i Hi], Hk as [j Hj].
  assert (i = j) as <-; [|by simplify_eq].
  eapply NoDup_lookup; [exact Hnd|rewrite list_lookup_fmap, Hi|rewrite list_lookup_fmap, Hj]; done.
Qed.

(** ** Where the blocks are *)

(** Blocks of at most a page lie in the heap's range and off one another. *)
Class AllocPlace (H : Type) `{AllocLaws H} := {
  al_lo : Z;
  al_hi : Z;
  al_in h n p h' : kzalloc h n = (p, h') -> p <> NULL -> 0 < n <= 4096 -> al_lo <= p /\ p + n <= al_hi;
  al_off h n p h' q k : kzalloc h n = (p, h') -> p <> NULL -> 0 < n <= 4096 ->
    al_live h q k -> 0 < k <= 4096 -> p + n <= q \/ q + k <= p
}.

#[export, refine] Instance list_alloc_place : AllocPlace (list (Z * Z)) :=
  {| al_lo := 1048576; al_hi := 4294971392 |}.
Proof.
  - intros h n p h' E Hp Hn. cbn in E. pose proof (top_block_low h).
    destruct (top_block h + 65536 <? 4294967296) eqn:El; bool_hyps; simplify_eq; lia.
  - intros h n p h' q k E Hp Hn [Hq _] Hk. cbn in E. apply top_block_le in Hq.
    destruct (top_block h + 65536 <? 4294967296) eqn:El; bool_hyps; simplify_eq; lia.
Defined.
