(* ===== verification/Gdt.v ===== *)
(** Segment descriptors of the boot kernel: x86_kernel/kernel/gdt.c and
    include/linux/gdt.h, in both configurations.  [g_gdt] and [g_tss] are the
    addresses of the two static variables; the tables are in memory, the GDTR is
    the pair of the limit and the base that [sgdt] stores and [lgdt] loads. *)

From S2P Require Import Prelude Mem CString BitField PageAlloc Alloc.
#[local] Open Scope kernel_scope.

(** ** Data *)

(** The fields of a [gdt_segment_desciptor] at [desc]. *)
Definition segment_limit_0_15 (m : mem) (desc v : Z) : mem := st16 m desc v.
Definition base_address_0_15 (m : mem) (desc v : Z) : mem := st16 m (desc + 2) v.
Definition base_address_16_23 (m : mem) (desc v : Z) : mem := st8 m (desc + 4) v.
Definition seg_type (m : mem) (desc v : Z) : mem := stf m (desc + 5) 0 4 v.
Definition seg_S (m : mem) (desc v : Z) : mem := stf m (desc + 5) 4 1 v.
Definition seg_DPL (m : mem) (desc v : Z) : mem := stf m (desc + 5) 5 2 v.
Definition seg_P (m : mem) (desc v : Z) : mem := stf m (desc + 5) 7 1 v.
Definition segment_limit_16_19 (m : mem) (desc v : Z) : mem := stf m (desc + 6) 0 4 v.
Definition seg_AVL (m : mem) (desc v : Z) : mem := stf m (desc + 6) 4 1 v.
Definition seg_L (m : mem) (desc v : Z) : mem := stf m (desc + 6) 5 1 v.
Definition seg_DB (m : mem) (desc v : Z) : mem := stf m (desc + 6) 6 1 v.
Definition seg_G (m : mem) (desc v : Z) : mem := stf m (desc + 6) 7 1 v.
Definition base_address_24_31 (m : mem) (desc v : Z) : mem := st8 m (desc + 7) v.

(** [static gdtr_value *g_gdtr = (gdtr_value * )0x9E000] *)
Definition g_gdtr : Z := 0x9E000.
Definition gdt_max_offset (m : mem) : Z := ld16 m g_gdtr.
Definition gdt_base_addr (m : mem) : Z := ld64 m (g_gdtr + 2).

Definition KERNEL_CODE_SECTOR : Z := (1 .<< 3) .| 0.
Definition KERNEL_DATA_SECTOR : Z := (2 .<< 3) .| 0.
Definition KERNEL_X64_CODE_SECTOR : Z := (3 .<< 3) .| 0.
Definition KERNEL_X64_DATA_SECTOR : Z := (4 .<< 3) .| 0.
Definition USER_X64_DATA_SECTOR : Z := (5 .<< 3) .| 3.
Definition USER_X64_CODE_SECTOR : Z := (6 .<< 3) .| 3.
Definition X64_TSS_SECTOR : Z := (7 .<< 3) .| 3.
Definition USER_CODE_SECTOR : Z := (3 .<< 3) .| 3.
Definition USER_DATA_SECTOR : Z := (4 .<< 3) .| 3.
Definition TSS_SECTOR : Z := (5 .<< 3) .| 3.

(** ** Operations *)

(** One function a descriptor, a line a field in the order of the source. *)
Definition build_user_cs_segment_desc (m : mem) (desc : Z) : mem :=
  let m := segment_limit_0_15 m desc 0xffff in
  let m := segment_limit_16_19 m desc 0xf in
  let m := base_address_0_15 m desc 0 in
  let m := base_address_16_23 m desc 0 in
  let m := base_address_24_31 m desc 0 in
  let m := seg_S m desc 1 in
  let m := seg_type m desc 8 in
  let m := seg_DPL m desc 3 in
  let m := seg_P m desc 1 in
  let m := seg_AVL m desc 0 in
  let m := seg_DB m desc 1 in
  seg_G m desc 1.

Definition build_user_ss_segment_desc (m : mem) (desc : Z) : mem :=
  let m := segment_limit_0_15 m desc 0xffff in
  let m := segment_limit_16_19 m desc 0xf in
  let m := base_address_0_15 m desc 0 in
  let m := base_address_16_23 m desc 0 in
  let m := base_address_24_31 m desc 0 in
  let m := seg_S m desc 1 in
  let m := seg_type m desc 2 in
  let m := seg_DPL m desc 3 in
  let m := seg_P m desc 1 in
  let m := seg_AVL m desc 0 in
  let m := seg_DB m desc 1 in
  seg_G m desc 1.

(** [stack] is what [kmalloc(PAGE_SIZE)] returned. *)
Definition build_tss_segment_desc (g_tss stack : Z) (m : mem) (desc : Z) : mem :=
  let m := st32 m (g_tss + 8) KERNEL_DATA_SECTOR in
  let m := st32 m (g_tss + 4) (u32 (stack + PAGE_SIZE)) in
  let m := segment_limit_0_15 m desc 0xffff in
  let m := segment_limit_16_19 m desc 0xf in
  let base := u32 g_tss in
  let m := base_address_0_15 m desc (base .& 0xffff) in
  let m := base_address_16_23 m desc ((base .>> 16) .& 0xff) in
  let m := base_address_24_31 m desc ((base .>> 24) .& 0xff) in
  let m := seg_S m desc 0 in
  let m := seg_type m desc 9 in
  let m := seg_DPL m desc 0 in
  let m := seg_P m desc 1 in
  let m := seg_AVL m desc 0 in
  let m := seg_DB m desc 1 in
  seg_G m desc 1.

Definition build_x64_r0_cs_desc (m : mem) (desc : Z) : mem :=
  let m := segment_limit_0_15 m desc 0 in
  let m := segment_limit_16_19 m desc 0 in
  let m := base_address_0_15 m desc 0 in
  let m := base_address_16_23 m desc 0 in
  let m := base_address_24_31 m desc 0 in
  let m := seg_S m desc 1 in
  let m := seg_type m desc 8 in
  let m := seg_DPL m desc 0 in
  let m := seg_P m desc 1 in
  let m := seg_AVL m desc 0 in
  let m := seg_L m desc 1 in
  let m := seg_DB m desc 0 in
  seg_G m desc 1.

Definition build_x64_r0_ds_desc (m : mem) (desc : Z) : mem :=
  let m := segment_limit_0_15 m desc 0 in
  let m := segment_limit_16_19 m desc 0 in
  let m := base_address_0_15 m desc 0 in
  let m := base_address_16_23 m desc 0 in
  let m := base_address_24_31 m desc 0 in
  let m := seg_S m desc 1 in
  let m := seg_type m desc 2 in
  let m := seg_DPL m desc 0 in
  let m := seg_P m desc 1 in
  let m := seg_AVL m desc 0 in
  let m := seg_L m desc 1 in
  let m := seg_DB m desc 0 in
  seg_G m desc 1.

Definition build_x64_r3_cs_desc (m : mem) (desc : Z) : mem :=
  let m := segment_limit_0_15 m desc 0 in
  let m := segment_limit_16_19 m desc 0 in
  let m := base_address_0_15 m desc 0 in
  let m := base_address_16_23 m desc 0 in
  let m := base_address_24_31 m desc 0 in
  let m := seg_S m desc 1 in
  let m := seg_type m desc 8 in
  let m := seg_DPL m desc 3 in
  let m := seg_P m desc 1 in
  let m := seg_AVL m desc 0 in
  let m := seg_L m desc 1 in
  let m := seg_DB m desc 0 in
  seg_G m desc 1.

Definition build_x64_r3_ds_desc (m : mem) (desc : Z) : mem :=
  let m := segment_limit_0_15 m desc 0 in
  let m := segment_limit_16_19 m desc 0 in
  let m := base_address_0_15 m desc 0 in
  let m := base_address_16_23 m desc 0 in
  let m := base_address_24_31 m desc 0 in
  let m := seg_S m desc 1 in
  let m := seg_type m desc 2 in
  let m := seg_DPL m desc 3 in
  let m := seg_P m desc 1 in
  let m := seg_AVL m desc 0 in
  let m := seg_L m desc 1 in
  let m := seg_DB m desc 0 in
  seg_G m desc 1.

(** [sgdt] and [lgdt] of 32-bit code: a limit and a 32-bit base, though
    [gdtr_value] has room for 64 bits. *)
Definition sgdt (gdtr : Z * Z) (m : mem) : mem :=
  st32 (st16 m g_gdtr (fst gdtr)) (g_gdtr + 2) (snd gdtr).
Definition lgdt (m : mem) : Z * Z := (ld16 m g_gdtr, ld32 m (g_gdtr + 2)).

(** The three lines of [gdt_init] that append a descriptor. *)
Definition add_desc (g_gdt : Z) (build : mem -> Z -> mem) (m : mem) : mem :=
  let m := st16 m g_gdtr (gdt_max_offset m + 8) in
  let idx := gdt_max_offset m / 8 - 1 in
  build m (g_gdt + 8 * idx).

(** The lines before and after the descriptors are added. *)
Definition gdt_copy (g_gdt : Z) (m : mem) (gdtr : Z * Z) : mem :=
  let m := sgdt gdtr m in
  let base := u32 (gdt_base_addr m) in
  memcpy m g_gdt base (gdt_max_offset m).
Definition gdt_load (g_gdt : Z) (m : mem) : mem * (Z * Z) :=
  let m := st64 m (g_gdtr + 2) (u32 g_gdt) in
  let m := st16 m g_gdtr (gdt_max_offset m) in
  (m, lgdt m).

(** [gdt_init] with CONFIG_ARCH_X64, as configs/autoconf.h has it *)
Definition gdt_init (g_gdt : Z) (m : mem) (gdtr : Z * Z) : mem * (Z * Z) :=
  let m := gdt_copy g_gdt m gdtr in
  let m := add_desc g_gdt build_x64_r0_cs_desc m in
  let m := add_desc g_gdt build_x64_r0_ds_desc m in
  let m := add_desc g_gdt build_x64_r3_ds_desc m in
  let m := add_desc g_gdt build_x64_r3_cs_desc m in
  gdt_load g_gdt m.

(** [gdt_init] without it *)
Definition gdt_init_x86 {H} `{AllocOps H} (g_gdt g_tss : Z) (h : H) (m : mem) (gdtr : Z * Z)
  : H * mem * (Z * Z) :=
  let m := gdt_copy g_gdt m gdtr in
  let m := add_desc g_gdt build_user_cs_segment_desc m in
  let m := add_desc g_gdt build_user_ss_segment_desc m in
  let '(stack, h) := kzalloc h PAGE_SIZE in
  let m := add_desc g_gdt (build_tss_segment_desc g_tss stack) m in
  let '(m, gdtr) := gdt_load g_gdt m in
  (h, m, gdtr).

(** ** What the processor reads *)

(** A descriptor's fields, decoded. *)
Record segment := Seg {
  s_limit : Z; s_base : Z; s_type : Z; s_S : Z; s_DPL : Z; s_P : Z; s_AVL : Z;
  s_L : Z; s_DB : Z; s_G : Z
}.

Definition load_segment (m : mem) (a : Z) : segment :=
  Seg (ld16 m a + 65536 * ldf m (a + 6) 0 4)
      (ld16 m (a + 2) + 65536 * ld8 m (a + 4) + 16777216 * ld8 m (a + 7))
      (ldf m (a + 5) 0 4) (ldf m (a + 5) 4 1) (ldf m (a + 5) 5 2) (ldf m (a + 5) 7 1)
      (ldf m (a + 6) 4 1) (ldf m (a + 6) 5 1) (ldf m (a + 6) 6 1) (ldf m (a + 6) 7 1).

(** The descriptor a selector names: its index must be within the limit. *)
Definition select (m : mem) (gdtr : Z * Z) (sel : Z) : option segment :=
  let off := 8 * (sel / 8) in
  if off + 7 <=? fst gdtr then Some (load_segment m (snd gdtr + off)) else None.

(** The code and data segments of long mode, of privilege level [dpl]. *)
Definition code64 (dpl : Z) : segment := Seg 0 0 8 1 dpl 1 0 1 0 1.
Definition data64 (dpl : Z) : segment := Seg 0 0 2 1 dpl 1 0 1 0 1.
(** The four segments of the 64-bit kernel and its tasks are in the table. *)
Definition long_mode_gdt (m : mem) (gdtr : Z * Z) : Prop :=
  select m gdtr KERNEL_X64_CODE_SECTOR = Some (code64 0) /\
  select m gdtr KERNEL_X64_DATA_SECTOR = Some (data64 0) /\
  select m gdtr USER_X64_DATA_SECTOR = Some (data64 3) /\
  select m gdtr USER_X64_CODE_SECTOR = Some (code64 3).
(** Those of 32-bit code, the fourth byte's bit 5 being whatever it was. *)
Definition code32 (dpl l : Z) : segment := Seg 0xfffff 0 8 1 dpl 1 0 l 1 1.
Definition data32 (dpl l : Z) : segment := Seg 0xfffff 0 2 1 dpl 1 0 l 1 1.
Definition tss32 (base l : Z) : segment := Seg 0xfffff base 9 0 0 1 0 l 1 1.

Lemma load_segment_ext m1 m2 a b :
  (forall i, 0 <= i < 8 -> ld8 m1 (a + i) = ld8 m2 (b + i)) -> load_segment m1 a = load_segment m2 b.
Proof.
  intros E. unfold load_segment, ldf, ld16. unfold ldn. rewrite <- !Z.add_assoc.
  pose proof (E 0 ltac:(lia)) as E0. rewrite !Z.add_0_r in E0. rewrite E0.
  by rewrite !E by lia.
Qed.

(** [build] writes at [d] the descriptor [s] of the bit the 32-bit functions
    leave alone, and nothing outside it but [foot]. *)
Definition builds (foot : Z -> Prop) (build : mem -> Z -> mem) (s : Z -> segment) : Prop :=
  forall m d, (forall a, d <= a < d + 8 -> ~ foot a) ->
    load_segment (build m d) d = s (ldf m (d + 6) 5 1) /\
    forall a, a < d \/ d + 8 <= a -> ~ foot a -> ld8 (build m d) a = ld8 m a.

Ltac unfold_fields :=
  unfold segment_limit_0_15, base_address_0_15, base_address_16_23, seg_type, seg_S, seg_DPL,
    seg_P, segment_limit_16_19, seg_AVL, seg_L, seg_DB, seg_G, base_address_24_31; cbv zeta.
Ltac built :=
  intros m d Hf; unfold_fields; split; [unfold load_segment; fields; reflexivity|];
  intros a Ha Hn; fields; done.

Lemma r0_cs_builds : builds (fun _ => False) build_x64_r0_cs_desc (fun _ => code64 0).
Proof. unfold builds, build_x64_r0_cs_desc. built. Qed.
Lemma r0_ds_builds : builds (fun _ => False) build_x64_r0_ds_desc (fun _ => data64 0).
Proof. unfold builds, build_x64_r0_ds_desc. built. Qed.
Lemma r3_cs_builds : builds (fun _ => False) build_x64_r3_cs_desc (fun _ => code64 3).
Proof. unfold builds, build_x64_r3_cs_desc. built. Qed.
Lemma r3_ds_builds : builds (fun _ => False) build_x64_r3_ds_desc (fun _ => data64 3).
Proof. unfold builds, build_x64_r3_ds_desc. built. Qed.
Lemma user_cs_builds : builds (fun _ => False) build_user_cs_segment_desc (code32 3).
Proof. unfold builds, build_user_cs_segment_desc. built. Qed.
Lemma user_ss_builds : builds (fun _ => False) build_user_ss_segment_desc (data32 3).
Proof. unfold builds, build_user_ss_segment_desc. built. Qed.

(** The two words of the task segment that [build_tss_segment_desc] writes. *)
Definition tss_foot (g_tss a : Z) : Prop := g_tss + 4 <= a < g_tss + 12.

Lemma base_bytes b : 0 <= b < 4294967296 ->
  (b .& 0xffff) mod 65536 + 65536 * u8 ((b .>> 16) .& 0xff) + 16777216 * u8 ((b .>> 24) .& 0xff) = b.
Proof.
  intros. change 0xffff with (Z.ones 16). change 0xff with (Z.ones 8).
  rewrite !Z.land_ones, !Z.shiftr_div_pow2 by lia. unfold u8.
  change (2 ^ 16) with 65536. change (2 ^ 24) with 16777216. change (2 ^ 8) with 256. zlia.
Qed.

Lemma tss_builds g_tss stack : 0 <= g_tss < 4294967296 ->
  builds (tss_foot g_tss) (build_tss_segment_desc g_tss stack) (tss32 g_tss).
Proof.
  intros Hg m d Hf. unfold build_tss_segment_desc. unfold_fields.
  assert (d + 8 <= g_tss + 4 \/ g_tss + 12 <= d \/ g_tss + 4 = g_tss + 12) as Hd.
  { unfold tss_foot in Hf. destruct (decide (d + 8 <= g_tss + 4)); [by left|].
    destruct (decide (g_tss + 12 <= d)); [by right; left|].
    exfalso. apply (Hf (Z.max d (g_tss + 4))); lia. }
  split.
  - unfold load_segment. fields. rewrite u32_small by lia.
    change (256 ^ Z.of_nat 2) with 65536. by rewrite base_bytes by lia.
  - unfold tss_foot. intros a Ha Hn. by fields.
Qed.

(** ** The table as it grows *)

Section Table.
Variables (g_gdt : Z) (foot : Z -> Prop).
Hypothesis gdt_place : 0 <= g_gdt /\ g_gdt + 2048 <= 4294967296.
Hypothesis gdtr_apart : g_gdt + 2048 <= g_gdtr \/ g_gdtr + 10 <= g_gdt.
Hypothesis foot_apart : forall a, foot a ->
  ~ g_gdt <= a < g_gdt + 2048 /\ ~ g_gdtr <= a < g_gdtr + 10.

(** Entries [i], [i + 1], ... are those of [l], and the limit counts them. *)
Definition table (m : mem) (l : list segment) : Prop :=
  ld16 m g_gdtr = 8 * Z.of_nat (length l) /\
  forall i s, l !! i = Some s -> load_segment m (g_gdt + 8 * Z.of_nat i) = s.

(** Bytes past the table, and those the functions have no business with. *)
Definition beyond (n : nat) (a : Z) : Prop :=
  ~ g_gdt <= a < g_gdt + 8 * Z.of_nat n /\ ~ g_gdtr <= a < g_gdtr + 10 /\ ~ foot a.

Lemma add_desc_table build s m l :
  builds foot build s -> table m l -> (length l < 255)%nat ->
  let d := g_gdt + 8 * Z.of_nat (length l) in
  table (add_desc g_gdt build m) (l ++ [s (ldf m (d + 6) 5 1)]) /\
  forall a, beyond (S (length l)) a -> ld8 (add_desc g_gdt build m) a = ld8 m a.
Proof.
  intros Hb [Hn Hl] Hlen d. unfold add_desc, gdt_max_offset. rewrite Hn.
  set (m1 := st16 m g_gdtr _).
  assert (ld16 m1 g_gdtr = 8 * Z.of_nat (length l) + 8) as ->.
  { unfold m1. rewrite ld16_st16. apply u16_small. lia. }
  replace (g_gdt + _) with d by (unfold d; zlia).
  destruct (Hb m1 d) as [Hs Hout]; [intros a Ha Hf; apply foot_apart in Hf; lia|].
  assert (forall a, ~ g_gdtr <= a < g_gdtr + 2 -> ld8 m1 a = ld8 m a) as Hm1
    by (intros; apply ld8_stn_ne; lia).
  assert (forall a, a < d \/ d + 8 <= a -> ~ g_gdtr <= a < g_gdtr + 2 -> ~ foot a ->
    ld8 (build m1 d) a = ld8 m a) as Hk by (intros; rewrite Hout, Hm1 by done; done).
  split; [split|].
  - unfold ld16. rewrite (ldn_ext 2 _ m1).
    + rewrite length_app. cbn [length]. unfold m1. fold ld16. rewrite ld16_st16. rewrite u16_small; lia.
    + intros b Hx. apply Hout; [lia|]. intros Hf. apply foot_apart in Hf. lia.
  - intros i s' Hi. destruct (decide (i < length l)%nat) as [Hi'|Hi'].
    + rewrite lookup_app_l in Hi by lia. rewrite <- (Hl i s' Hi). apply load_segment_ext.
      intros j Hj. apply Hk; [lia|lia|]. intros Hf. apply foot_apart in Hf. lia.
    + apply lookup_app_Some in Hi as [Hi|[_ Hi]]; [apply lookup_lt_Some in Hi; lia|].
      apply list_lookup_singleton_Some in Hi as [Hi <-]. replace i with (length l) by lia.
      fold d. rewrite Hs. unfold ldf. by rewrite Hm1 by lia.
  - intros a (Ha & Ha' & Hf). apply Hk; [lia|lia|done].
Qed.

Lemma table_select m l i s r : table m l -> l !! i = Some s -> 0 <= r < 8 ->
  select m (8 * Z.of_nat (length l), g_gdt) (8 * Z.of_nat i + r) = Some s.
Proof.
  intros [_ Hl] Hi Hr. unfold select. cbn [fst snd]. pose proof (lookup_lt_Some _ _ _ Hi).
  replace (8 * ((8 * Z.of_nat i + r) / 8)) with (8 * Z.of_nat i) by zlia.
  destruct (_ <=? _) eqn:E; bool_hyps; [|lia]. by rewrite (Hl i s Hi).
Qed.

(** [gdt_copy] moves the three descriptors of setup.asm to the table. *)
Definition setup_table (m : mem) (base : Z) : list segment :=
  [load_segment m base; load_segment m (base + 8); load_segment m (base + 16)].

Lemma gdt_copy_table m base :
  0 <= base < 4294967296 -> base + 24 <= g_gdt \/ g_gdt + 2048 <= base ->
  base + 24 <= g_gdtr \/ g_gdtr + 10 <= base ->
  table (gdt_copy g_gdt m (24, base)) (setup_table m base) /\
  forall a, beyond 3 a -> ld8 (gdt_copy g_gdt m (24, base)) a = ld8 m a.
Proof.
  intros Hb Ha Hg. unfold gdt_copy. set (m1 := sgdt _ m).
  assert (gdt_max_offset m1 = 24) as ->.
  { unfold m1, sgdt, gdt_max_offset. fields. reflexivity. }
  assert (u32 (gdt_base_addr m1) = base) as ->.
  { unfold gdt_base_addr. rewrite ld64_halves. unfold m1, sgdt. cbn [snd].
    rewrite ld32_st32. unfold u32. rewrite Z.mul_comm, Z_mod_plus_full, Zmod_mod. by apply Z.mod_small. }
  assert (forall a, ~ g_gdtr <= a < g_gdtr + 10 -> ld8 m1 a = ld8 m a) as Hm1.
  { intros a Hn. unfold m1, sgdt. fields. done. }
  unfold memcpy. change (Z.to_nat (u32 24)) with 24%nat. split; [split|].
  - cbn [length setup_table]. unfold ld16.
    rewrite (ldn_ext 2 _ m1) by (intros; apply memcpy_loop_frame; lia).
    unfold m1, sgdt. fields. reflexivity.
  - intros i s Hi.
    assert (i < 3)%nat by (apply lookup_lt_Some in Hi; done).
    assert (s = load_segment m (base + 8 * Z.of_nat i)) as ->.
    { destruct i as [|[|[|i]]]; cbn in Hi; simplify_eq; rewrite ?Z.add_0_r; done. }
    apply load_segment_ext. intros j Hj. rewrite <- !Z.add_assoc.
    rewrite memcpy_loop_copies by lia. apply Hm1. lia.
  - intros a (H1 & H2 & _). rewrite memcpy_loop_frame by lia. by apply Hm1.
Qed.

Lemma gdt_load_table m l m' gdtr : table m l -> (length l <= 255)%nat ->
  gdt_load g_gdt m = (m', gdtr) ->
  table m' l /\ gdtr = (8 * Z.of_nat (length l), g_gdt) /\ gdt_base_addr m' = g_gdt /\
  forall a, beyond (length l) a -> ld8 m' a = ld8 m a.
Proof.
  intros [Hn Hl] Hlen E. unfold gdt_load in E. set (m1 := st64 m _ _) in E.
  assert (gdt_max_offset m1 = 8 * Z.of_nat (length l)) as Hm.
  { unfold m1, gdt_max_offset. fields. done. }
  rewrite Hm in E. set (m2 := st16 m1 _ _) in E. apply pair_equal_spec in E as [<- <-].
  assert (forall a, ~ g_gdtr <= a < g_gdtr + 10 -> ld8 m2 a = ld8 m a) as Hout
    by (intros; unfold m2, m1; by fields).
  assert (ld16 m2 g_gdtr = 8 * Z.of_nat (length l)) as Hm2.
  { unfold m2. rewrite ld16_st16. apply u16_small. lia. }
  assert (ld64 m2 (g_gdtr + 2) = g_gdt) as Hb.
  { unfold m2, m1. fields. unfold u32. change (256 ^ Z.of_nat 8) with 18446744073709551616. zlia. }
  split; [split|]; [done| |split; [|split; [done|]]].
  - intros i s Hi. rewrite <- (Hl i s Hi). apply load_segment_ext. intros j Hj. apply Hout.
    apply lookup_lt_Some in Hi. lia.
  - unfold lgdt. rewrite Hm2. f_equal. rewrite ld64_halves in Hb.
    pose proof (ld32_bound m2 (g_gdtr + 2)). pose proof (ld32_bound m2 (g_gdtr + 2 + 4)). lia.
  - intros a (_ & H2 & _). by apply Hout.
Qed.
End Table.

Lemma beyond_le g_gdt foot n k a : (n <= k)%nat -> beyond g_gdt foot k a -> beyond g_gdt foot n a.
Proof. intros Hn (H1 & H2 & H3). split; [lia|done]. Qed.

(** [add_desc_table] for a function that writes nothing but its descriptor. *)
Lemma add_plain g_gdt build s m l :
  0 <= g_gdt /\ g_gdt + 2048 <= 4294967296 ->
  g_gdt + 2048 <= g_gdtr \/ g_gdtr + 10 <= g_gdt ->
  builds (fun _ => False) build s -> table g_gdt m l -> (length l < 255)%nat ->
  table g_gdt (add_desc g_gdt build m)
    (l ++ [s (ldf m (g_gdt + 8 * Z.of_nat (length l) + 6) 5 1)]) /\
  forall a, beyond g_gdt (fun _ => False) (S (length l)) a ->
    ld8 (add_desc g_gdt build m) a = ld8 m a.
Proof. intros. by apply add_desc_table. Qed.

(** ** Theorems *)

(** The tables after the four additions. *)
Lemma gdt_init_spec g_gdt m base m' gdtr :
  0 <= g_gdt /\ g_gdt + 2048 <= 4294967296 ->
  g_gdt + 2048 <= g_gdtr \/ g_gdtr + 10 <= g_gdt ->
  0 <= base < 4294967296 -> base + 24 <= g_gdt \/ g_gdt + 2048 <= base ->
  base + 24 <= g_gdtr \/ g_gdtr + 10 <= base ->
  gdt_init g_gdt m (24, base) = (m', gdtr) ->
  select m' gdtr KERNEL_CODE_SECTOR = Some (load_segment m (base + 8)) /\
  select m' gdtr KERNEL_DATA_SECTOR = Some (load_segment m (base + 16)) /\
  long_mode_gdt m' gdtr /\
  select m' gdtr X64_TSS_SECTOR = None /\
  gdtr = (56, g_gdt) /\ gdt_max_offset m' = 56 /\ gdt_base_addr m' = g_gdt /\
  forall a, beyond g_gdt (fun _ => False) 7 a -> ld8 m' a = ld8 m a.
Proof.
  intros Hp Hr Hb Ha Hg E. unfold gdt_init in E.
  destruct (gdt_copy_table g_gdt (fun _ => False) Hr m base) as [T0 F0]; [done..|].
  revert E T0 F0. generalize (gdt_copy g_gdt m (24, base)). intros m0 E T0 F0.
  destruct (add_plain _ _ _ _ _ Hp Hr r0_cs_builds T0 ltac:(cbn; lia)) as [T1 F1].
  destruct (add_plain _ _ _ _ _ Hp Hr r0_ds_builds T1 ltac:(cbn; lia)) as [T2 F2].
  destruct (add_plain _ _ _ _ _ Hp Hr r3_ds_builds T2 ltac:(cbn; lia)) as [T3 F3].
  destruct (add_plain _ _ _ _ _ Hp Hr r3_cs_builds T3 ltac:(cbn; lia)) as [T4 F4].
  destruct (gdt_load_table g_gdt (fun _ => False) Hp Hr _ _ _ _ T4 ltac:(cbn; lia) E)
    as (T5 & Hgd & Hba & F5).
  pose proof (fun i s r => table_select g_gdt _ _ i s r T5) as Hs. cbn in Hgd. subst gdtr.
  split; [exact (Hs 1%nat _ 0 eq_refl ltac:(lia))|].
  split; [exact (Hs 2%nat _ 0 eq_refl ltac:(lia))|].
  split; [split; [|split; [|split]]|].
  { exact (Hs 3%nat _ 0 eq_refl ltac:(lia)). }
  { exact (Hs 4%nat _ 0 eq_refl ltac:(lia)). }
  { exact (Hs 5%nat _ 3 eq_refl ltac:(lia)). }
  { exact (Hs 6%nat _ 3 eq_refl ltac:(lia)). }
  split; [done|]. split; [done|]. split; [apply T5|]. split; [done|].
  intros a Hbe. cbn in F0, F1, F2, F3, F4, F5.
  rewrite F5, F4, F3, F2, F1, F0; try done; revert Hbe; apply beyond_le; lia.
Qed.

(** C32: [gdt_init], entered with the table of setup.asm, loads a GDTR under
    which every selector constant of the file picks the descriptor it is named
    for: the two of setup.asm as they were, and long-mode code and data segments
    of privilege level 0 and 3; the TSS selector is past the limit until
    init_tss_current_core appends its descriptor.  The pointer left at 0x9E000 is
    what the 64-bit kernel finds, and nothing but the table and it changes. *)
Theorem gdt_init_correct g_gdt m base m' gdtr :
  0 <= g_gdt /\ g_gdt + 2048 <= 4294967296 ->
  g_gdt + 2048 <= g_gdtr \/ g_gdtr + 10 <= g_gdt ->
  0 <= base < 4294967296 -> base + 24 <= g_gdt \/ g_gdt + 2048 <= base ->
  base + 24 <= g_gdtr \/ g_gdtr + 10 <= base ->
  gdt_init g_gdt m (24, base) = (m', gdtr) ->
  select m' gdtr KERNEL_CODE_SECTOR = Some (load_segment m (base + 8)) /\
  select m' gdtr KERNEL_DATA_SECTOR = Some (load_segment m (base + 16)) /\
  long_mode_gdt m' gdtr /\
  select m' gdtr X64_TSS_SECTOR = None /\
  gdtr = (56, g_gdt) /\ gdt_max_offset m' = 56 /\ gdt_base_addr m' = g_gdt /\
  forall a, beyond g_gdt (fun _ => False) 7 a -> ld8 m' a = ld8 m a.
Proof. apply gdt_init_spec. Qed.

(** [gdt_init] without CONFIG_ARCH_X64: the same for the selectors of the 32-bit
    kernel, with the task segment at [g_tss] holding the ring 0 stack; bit 5 of the byte 6, reserved in this mode, stays what it was. *)
Theorem gdt_init_x86_correct {H} `{AllocOps H} g_gdt g_tss (h : H) m base h' m' gdtr stack :
  0 <= g_gdt /\ g_gdt + 2048 <= 4294967296 ->
  g_gdt + 2048 <= g_gdtr \/ g_gdtr + 10 <= g_gdt ->
  0 <= g_tss < 4294967296 ->
  (forall a, tss_foot g_tss a -> ~ g_gdt <= a < g_gdt + 2048 /\ ~ g_gdtr <= a < g_gdtr + 10) ->
  0 <= base < 4294967296 -> base + 24 <= g_gdt \/ g_gdt + 2048 <= base ->
  base + 24 <= g_gdtr \/ g_gdtr + 10 <= base ->
  kzalloc h PAGE_SIZE = (stack, h') ->
  gdt_init_x86 g_gdt g_tss h m (24, base) = (h', m', gdtr) ->
  select m' gdtr KERNEL_CODE_SECTOR = Some (load_segment m (base + 8)) /\
  select m' gdtr KERNEL_DATA_SECTOR = Some (load_segment m (base + 16)) /\
  (exists l, select m' gdtr USER_CODE_SECTOR = Some (code32 3 l)) /\
  (exists l, select m' gdtr USER_DATA_SECTOR = Some (data32 3 l)) /\
  (exists l, select m' gdtr TSS_SECTOR = Some (tss32 g_tss l)) /\
  gdtr = (48, g_gdt) /\
  forall a, beyond g_gdt (tss_foot g_tss) 6 a -> ld8 m' a = ld8 m a.
Proof.
  intros Hp Hr Ht Hf Hb Ha Hg Ek E. unfold gdt_init_x86 in E. rewrite Ek in E.
  destruct (gdt_load _ _) as [m5 gdtr5] eqn:El. apply pair_equal_spec in E as [[_ ->]%pair_equal_spec ->].
  destruct (gdt_copy_table g_gdt (tss_foot g_tss) Hr m base) as [T0 F0]; [done..|].
  revert El T0 F0. generalize (gdt_copy g_gdt m (24, base)). intros m0 El T0 F0.
  destruct (add_plain _ _ _ _ _ Hp Hr user_cs_builds T0 ltac:(cbn; lia)) as [T1 F1].
  destruct (add_plain _ _ _ _ _ Hp Hr user_ss_builds T1 ltac:(cbn; lia)) as [T2 F2].
  destruct (add_desc_table g_gdt _ Hr Hf _ _ _ _ (tss_builds g_tss stack Ht) T2 ltac:(cbn; lia))
    as [T3 F3].
  destruct (gdt_load_table g_gdt (tss_foot g_tss) Hp Hr _ _ _ _ T3 ltac:(cbn; lia) El)
    as (T5 & Hgd & _ & F5).
  pose proof (fun i s r => table_select g_gdt _ _ i s r T5) as Hs. cbn in Hgd. subst gdtr.
  split; [exact (Hs 1%nat _ 0 eq_refl ltac:(lia))|].
  split; [exact (Hs 2%nat _ 0 eq_refl ltac:(lia))|].
  split; [eexists; exact (Hs 3%nat _ 3 eq_refl ltac:(lia))|].
  split; [eexists; exact (Hs 4%nat _ 3 eq_refl ltac:(lia))|].
  split; [eexists; exact (Hs 5%nat _ 3 eq_refl ltac:(lia))|].
  split; [done|]. intros a Hbe. cbn in F0, F1, F2, F3, F5.
  assert (forall n, (n <= 6)%nat -> beyond g_gdt (fun _ => False) n a) as Hw
    by (intros; destruct Hbe as (? & ? & _); split; [lia|tauto]).
  rewrite F5, F3, F2, F1, F0; try (apply Hw; lia); try done; revert Hbe; apply beyond_le; lia.
Qed.

(** ** Witnesses *)

Lemma gdt_init_correct_witness :
  exists m' gdtr, gdt_init 0x20000 ∅ (24, 0x7000) = (m', gdtr) /\
    select m' gdtr USER_X64_CODE_SECTOR = Some (code64 3).
Proof.
  destruct (gdt_init 0x20000 ∅ (24, 0x7000)) as [m' gdtr] eqn:E. exists m', gdtr. split; [done|].
  refine (_ (gdt_init_correct 0x20000 ∅ 0x7000 m' gdtr _ _ _ _ _ E)); unfold g_gdtr; try lia.
  intros (_ & _ & (_ & _ & _ & Hs) & _). exact Hs.
Defined.

Lemma gdt_init_x86_correct_witness :
  exists h' m' gdtr, gdt_init_x86 0x20000 0x30000 [] ∅ (24, 0x7000) = (h', m', gdtr) /\
    exists l, select m' gdtr TSS_SECTOR = Some (tss32 0x30000 l).
Proof.
  destruct (gdt_init_x86 0x20000 0x30000 [] ∅ (24, 0x7000)) as [[h' m'] gdtr] eqn:E.
  exists h', m', gdtr. split; [done|].
  assert (h' = [(1048576, 4096)]) as ->.
  { change h' with (fst (fst (h', m', gdtr))). rewrite <- E. vm_compute. reflexivity. }
  refine (_ (gdt_init_x86_correct 0x20000 0x30000 [] ∅ 0x7000 _ m' gdtr 1048576 _ _ _ _ _ _ _ _ E));
    unfold tss_foot, g_gdtr; try lia; try reflexivity.
  intros (_ & _ & _ & _ & Hs & _). exact Hs.
Defined.
