(* ===== verification/Disk.v ===== *)
(** The disk routine of the boot sector and of the loader: read_hd, the same text in
    x86_kernel/boot/boot.asm and x86_kernel/loader/setup.asm, over the interface of
    an ATA disk read through its ports. *)

From S2P Require Import Prelude Mem.
#[local] Open Scope kernel_scope.

(** ** The device *)

(** What the processor does with it: a byte out, a byte in, a word in. *)
Class AtaOps (D : Type) := {
  out8 : D -> Z -> Z -> D;
  in8 : D -> Z -> Z * D;
  in16 : D -> Z -> Z * D
}.

Definition HD_DATA : Z := 0x1f0.
Definition HD_STATUS : Z := 0x1f7.
(** BSY and DRQ of the status. *)
Definition HD_READY_MASK : Z := 0x88.
Definition HD_READY : Z := 0x08.

Definition out_all {D} {ops : AtaOps D} (d : D) (l : list (Z * Z)) : D := foldl (fun d '(p, v) => out8 d p v) d l.

(** ** The routine *)

(** [mov cx, v] and [mov cl, v] on the register ecx. *)
Definition set_cx (ecx v : Z) : Z := 65536 * (ecx / 65536) + u16 v.
Definition set_cl (ecx v : Z) : Z := 256 * (ecx / 256) + u8 v.

Section ReadHd.
Context {D : Type} {ops : AtaOps D}.
(** 32-bit code counts in ecx, 16-bit code in cx. *)
Context (wide : bool).

(** [loop]: the counter afterwards, and whether it jumps. *)
Definition loop_dec (ecx : Z) : Z := if wide then u32 (ecx - 1) else set_cx ecx (ecx - 1).
Definition loop_taken (ecx : Z) : bool := truthy (if wide then ecx else u16 ecx).

Record hd_state := HdState { hd : D; hmem : mem; ecx : Z; edi : Z }.

(** The bytes sent, in order, for sector [c] on and [bl] sectors; ecx afterwards. *)
Definition hd_command (c bl : Z) : list (Z * Z) * Z :=
  let c16 := c .>> 16 in
  let c24 := c16 .>> 8 in
  let c24 := set_cl c24 (c24 .& 0x0f) in
  ([(0x1f2, u8 bl); (0x1f3, u8 c); (0x1f4, u8 (c .>> 8)); (0x1f5, u8 c16); (0x1f6, 0xe0 .| u8 c24); (0x1f7, 0x20)],
   c24).

(** [.wait_hd_prepare] *)
Fixpoint wait_hd_prepare (fuel : nat) (d : D) : option D :=
  match fuel with
  | O => None
  | S f =>
      let '(al, d) := in8 d HD_STATUS in
      if (al .& HD_READY_MASK) =? HD_READY then Some d else wait_hd_prepare f d
  end.

(** [.read_word] of [read_hd_data] *)
Fixpoint read_words (fuel : nat) (s : hd_state) : option hd_state :=
  match fuel with
  | O => None
  | S f =>
      let '(ax, d) := in16 (hd s) HD_DATA in
      let s := HdState d (st16 (hmem s) (edi s) (u16 ax)) (loop_dec (ecx s)) (u32 (edi s + 2)) in
      if loop_taken (ecx s) then read_words f s else Some s
  end.
Definition read_hd_data (fuel : nat) (s : hd_state) : option hd_state :=
  read_words fuel (HdState (hd s) (hmem s) (set_cx (ecx s) 256) (edi s)).

(** [.start_read]: cx is kept on the stack while a sector is read. *)
Fixpoint start_read (fuel n : nat) (s : hd_state) : option hd_state :=
  match n with
  | O => None
  | S n' =>
      let cx := u16 (ecx s) in
      d ← wait_hd_prepare fuel (hd s);
      s ← read_hd_data fuel (HdState d (hmem s) (ecx s) (edi s));
      let s := HdState (hd s) (hmem s) (loop_dec (set_cx (ecx s) cx)) (edi s) in
      if loop_taken (ecx s) then start_read fuel n' s else Some s
  end.

(** [read_hd]: to [edi s] from sector [ecx s], [bl] sectors. *)
Definition read_hd (fuel : nat) (s : hd_state) (bl : Z) : option hd_state :=
  let '(l, c) := hd_command (ecx s) bl in
  start_read fuel fuel (HdState (out_all (hd s) l) (hmem s) (set_cl c bl) (edi s)).
End ReadHd.
Arguments HdState {D}.
Arguments hd {D}.
Arguments hmem {D}.
Arguments ecx {D}.
Arguments edi {D}.

(** ** What a disk promises *)

(** [k] readings of the status say that it is not ready, the next says it is. *)
Inductive polls {D} {ops : AtaOps D} : D -> nat -> D -> Prop :=
| polls_ready d st d' : in8 d HD_STATUS = (st, d') -> st .& HD_READY_MASK = HD_READY -> polls d 0 d'
| polls_again d st d1 k d' : in8 d HD_STATUS = (st, d1) -> st .& HD_READY_MASK <> HD_READY -> polls d1 k d' -> polls d (S k) d'.

(** The task file of a read of [n] sectors from [lba]: count, the four parts of the
    address with the LBA mode bits, the command. *)
Definition ata_read (lba n : Z) : list (Z * Z) :=
  [(0x1f2, n); (0x1f3, lba mod 256); (0x1f4, lba / 256 mod 256); (0x1f5, lba / 65536 mod 256);
   (0x1f6, 0xe0 + lba / 16777216); (0x1f7, 0x20)].

(** A disk that works: [owes d ss] says that it gets the sectors [ss] ready one by
    one ([owes d \[\]]: it is idle), [offers d ws ss] that the words [ws] are to be
    read and the sectors [ss] follow. *)
Class AtaLaws (D : Type) {ops : AtaOps D} := {
  sector : D -> Z -> list Z;
  owes : D -> list (list Z) -> Prop;
  offers : D -> list Z -> list (list Z) -> Prop;
  sector_words d lba : length (sector d lba) = 256%nat /\ Forall (fun w => 0 <= w < 65536) (sector d lba);
  law_command d lba n : owes d [] -> 0 <= lba < 268435456 -> 0 < n < 256 ->
    owes (out_all d (ata_read lba n)) (sector d <$> seqZ lba n) /\ forall x, sector (out_all d (ata_read lba n)) x = sector d x;
  law_poll d s ss : owes d (s :: ss) -> exists k d', polls d k d' /\ offers d' s ss /\ forall x, sector d' x = sector d x;
  law_word d w ws ss : offers d (w :: ws) ss -> exists d', in16 d HD_DATA = (w, d') /\
    (if decide (ws = []) then owes d' ss else offers d' ws ss) /\ forall x, sector d' x = sector d x
}.

(** Words stored one after the other. *)
Fixpoint store_words (m : mem) (a : Z) (ws : list Z) : mem :=
  match ws with
  | [] => m
  | w :: ws' => store_words (st16 m a w) (a + 2) ws'
  end.

(** ** Lemmas *)

Lemma store_words_out m a ws x : x < a \/ a + 2 * Z.of_nat (length ws) <= x -> ld8 (store_words m a ws) x = ld8 m x.
Proof.
  revert m a. induction ws as [|w ws IH]; intros m a H; cbn [store_words length] in *; [done|].
  rewrite IH by lia. apply (ld8_stn_ne 2). lia.
Qed.

Lemma store_words_word m a ws i w :
  Forall (fun w => 0 <= w < 65536) ws -> ws !! i = Some w -> ld16 (store_words m a ws) (a + 2 * Z.of_nat i) = w.
Proof.
  revert m a i. induction ws as [|w0 ws IH]; intros m a i Hf Hi; [done|].
  apply Forall_cons in Hf as [Hw Hf]. cbn [store_words]. destruct i as [|i].
  - injection Hi as ->. rewrite Z.add_0_r. transitivity (ld16 (st16 m a w) a); [apply ldn_ext; intros x Hx; apply store_words_out; lia|].
    rewrite ld16_st16. by apply u16_small.
  - replace (a + 2 * Z.of_nat (S i)) with (a + 2 + 2 * Z.of_nat i) by lia. by apply IH.
Qed.

Lemma store_words_app m a ws1 ws2 :
  store_words m a (ws1 ++ ws2) = store_words (store_words m a ws1) (a + 2 * Z.of_nat (length ws1)) ws2.
Proof.
  revert m a. induction ws1 as [|w ws1 IH]; intros m a; cbn [app store_words length].
  - by rewrite Z.add_0_r.
  - rewrite IH. f_equal. lia.
Qed.

Lemma set_cx_small c v : 0 <= c < 65536 -> 0 <= v < 65536 -> set_cx c v = v.
Proof. intros Hc Hv. unfold set_cx. rewrite u16_small, Z.div_small by done. lia. Qed.
Lemma set_cl_small c v : 0 <= c < 256 -> 0 <= v < 256 -> set_cl c v = v.
Proof. intros Hc Hv. unfold set_cl. rewrite u8_small, Z.div_small by done. lia. Qed.

Lemma loop_dec_small wide c : 1 <= c < 65536 -> loop_dec wide c = c - 1.
Proof. intros Hc. unfold loop_dec. destruct wide; [apply u32_small|apply set_cx_small]; lia. Qed.
Lemma loop_taken_small wide c : 0 <= c < 65536 -> loop_taken wide c = truthy c.
Proof. intros Hc. unfold loop_taken. destruct wide; [done|]. by rewrite u16_small. Qed.

Lemma hd_command_ata lba n : 0 <= lba < 268435456 -> 0 < n < 256 -> hd_command lba n = (ata_read lba n, lba / 16777216).
Proof.
  intros Hl Hn. unfold hd_command, ata_read. cbv zeta. rewrite Z.shiftr_shiftr by lia.
  rewrite !Z.shiftr_div_pow2 by lia. change (2 ^ 16) with 65536. change (2 ^ 8) with 256. change (2 ^ (16 + 8)) with 16777216.
  assert (0 <= lba / 16777216 < 16) as Hb by zlia.
  assert ((lba / 16777216) .& 15 = lba / 16777216) as E by (change 15 with (Z.ones 4); rewrite Z.land_ones by lia; apply Z.mod_small; lia).
  rewrite E, set_cl_small, (u8_small n), (u8_small (lba / 16777216)), (lor_low 4 0xe0) by (done || lia). done.
Qed.

Section Correct.
Context {D : Type} {ops : AtaOps D} {laws : AtaLaws D} (wide : bool).
Implicit Types (d : D) (s : hd_state (D := D)).

Lemma polls_wait d k d' fuel : polls d k d' -> (k < fuel)%nat -> wait_hd_prepare fuel d = Some d'.
Proof.
  intros H. revert fuel. induction H as [d st d' E Hst|d st d1 k d' E Hst _ IH]; intros [|fuel] Hf; try lia;
    cbn [wait_hd_prepare]; rewrite E.
  - by rewrite (proj2 (Z.eqb_eq _ _) Hst).
  - rewrite (proj2 (Z.eqb_neq _ _) Hst). apply IH. lia.
Qed.

Lemma read_words_spec ws d m e ss :
  offers d ws ss -> ws <> [] -> Forall (fun w => 0 <= w < 65536) ws -> Z.of_nat (length ws) < 65536 ->
  0 <= e -> e + 2 * Z.of_nat (length ws) < 4294967296 ->
  exists d', (forall fuel, (length ws <= fuel)%nat -> read_words wide fuel (HdState d m (Z.of_nat (length ws)) e) =
      Some (HdState d' (store_words m e ws) 0 (e + 2 * Z.of_nat (length ws)))) /\
    owes d' ss /\ forall x, sector d' x = sector d x.
Proof.
  revert d m e. induction ws as [|w ws IH]; intros d m e Ho Hne Hf Hs He Hhi; cbn [length] in *; [done|].
  apply Forall_cons in Hf as [Hw Hf]. destruct (law_word d w ws ss Ho) as (d1 & E & Hn & Hsec).
  assert (forall fuel, (0 < fuel)%nat -> read_words wide fuel (HdState d m (Z.of_nat (S (length ws))) e) =
    let s := HdState d1 (st16 m e w) (Z.of_nat (length ws)) (e + 2) in
    if truthy (Z.of_nat (length ws)) then read_words wide (pred fuel) s else Some s) as Step.
  { intros [|fuel] Hfu; [lia|]. cbn [read_words hd hmem ecx edi pred]. rewrite E, loop_dec_small, u16_small, u32_small by lia.
    replace (Z.of_nat (S (length ws)) - 1) with (Z.of_nat (length ws)) by lia. by rewrite loop_taken_small by lia. }
  destruct (decide (ws = [])) as [->|Hne2].
  - exists d1. split; [|by split]. intros fuel Hfu. rewrite Step by lia. cbn. do 2 f_equal; lia.
  - destruct (IH d1 (st16 m e w) (e + 2) Hn Hne2 Hf) as (d2 & E2 & Ho2 & Hs2); [lia..|].
    exists d2. split; [|split; [done|intros x; by rewrite Hs2]]. intros fuel Hfu. rewrite Step by lia.
    assert (truthy (Z.of_nat (length ws)) = true) as ->
      by (destruct ws; [done|]; unfold truthy; apply negb_true_iff, Z.eqb_neq; cbn [length]; lia).
    cbv zeta. rewrite E2 by lia. cbn [store_words]. do 2 f_equal. lia.
Qed.

Definition sector_ok (s : list Z) : Prop := length s = 256%nat /\ Forall (fun w => 0 <= w < 65536) s.

Lemma start_read_spec ss d m e :
  owes d ss -> ss <> [] -> Forall sector_ok ss -> Z.of_nat (length ss) < 256 ->
  0 <= e -> e + 512 * Z.of_nat (length ss) < 4294967296 ->
  exists F d', (forall fuel n, (F <= fuel)%nat -> (length ss <= n)%nat ->
      start_read wide fuel n (HdState d m (Z.of_nat (length ss)) e) =
      Some (HdState d' (store_words m e (concat ss)) 0 (e + 512 * Z.of_nat (length ss)))) /\
    owes d' [] /\ forall x, sector d' x = sector d x.
Proof.
  revert d m e. induction ss as [|s ss IH]; intros d m e Ho Hne Hf Hl He Hhi; cbn [length] in *; [done|].
  apply Forall_cons in Hf as [[Hs256 Hsw] Hf]. destruct (law_poll d s ss Ho) as (k & d1 & Hp & Ho1 & S1).
  destruct (read_words_spec s d1 m e ss Ho1) as (d2 & E2 & Ho2 & S2); [by intros ->|done|lia..|].
  rewrite Hs256 in E2. set (e2 := e + 512) in *.
  assert (forall fuel n, (k + 256 <= fuel)%nat -> (0 < n)%nat ->
    start_read wide fuel n (HdState d m (Z.of_nat (S (length ss))) e) =
    let s' := HdState d2 (store_words m e s) (Z.of_nat (length ss)) e2 in
    if truthy (Z.of_nat (length ss)) then start_read wide fuel (pred n) s' else Some s') as Step.
  { intros fuel [|n] Hfu Hn; [lia|]. cbn [start_read hd hmem ecx edi pred].
    rewrite (polls_wait d k d1) by (done || lia). cbn [mbind option_bind]. unfold read_hd_data. cbn [hd hmem ecx edi].
    rewrite set_cx_small by lia. change 256 with (Z.of_nat 256) at 1. rewrite E2 by lia. cbn [mbind option_bind hd hmem ecx edi].
    rewrite (u16_small (Z.of_nat _)), set_cx_small, loop_dec_small by lia.
    replace (Z.of_nat (S (length ss)) - 1) with (Z.of_nat (length ss)) by lia. by rewrite loop_taken_small by lia. }
  destruct (decide (ss = [])) as [->|Hne2].
  - exists (k + 256)%nat, d2. split; [|split; [done|intros x; by rewrite S2, S1]].
    intros fuel n Hfu Hn. rewrite Step by lia. cbn [concat app length]. rewrite app_nil_r. reflexivity.
  - destruct (IH d2 (store_words m e s) e2 Ho2 Hne2 Hf) as (F & d3 & E3 & Ho3 & S3); [unfold e2; lia..|].
    exists (k + 256 + F)%nat, d3. split; [|split; [done|intros x; by rewrite S3, S2, S1]].
    intros fuel n Hfu Hn. rewrite Step by lia.
    assert (truthy (Z.of_nat (length ss)) = true) as ->
      by (destruct ss; [done|]; unfold truthy; apply negb_true_iff, Z.eqb_neq; cbn [length]; lia).
    cbv zeta. rewrite E3 by lia. cbn [concat]. rewrite store_words_app, Hs256. unfold e2. do 2 f_equal. lia.
Qed.

(** A read of [n] sectors from [lba] leaves their words in memory from [e] on. *)
Lemma read_hd_spec d m e lba n :
  owes d [] -> 0 <= lba < 268435456 -> 0 < n < 256 -> 0 <= e -> e + 512 * n < 4294967296 ->
  exists F d', (forall fuel, (F <= fuel)%nat -> read_hd wide fuel (HdState d m lba e) n =
      Some (HdState d' (store_words m e (concat (sector d <$> seqZ lba n))) 0 (e + 512 * n))) /\
    owes d' [] /\ forall x, sector d' x = sector d x.
Proof.
  intros Ho Hlba Hn He Hhi. destruct (law_command d lba n Ho Hlba Hn) as [Ho1 S1].
  assert (length (sector d <$> seqZ lba n) = Z.to_nat n) as Hlen by (by rewrite length_fmap, length_seqZ).
  destruct (start_read_spec _ _ m e Ho1) as (F & d' & E & Ho2 & S2).
  - intros E. rewrite E in Hlen. cbn in Hlen. lia.
  - apply Forall_fmap, Forall_forall. intros x _. apply sector_words.
  - rewrite Hlen. lia.
  - done.
  - rewrite Hlen. lia.
  - rewrite Hlen, Z2Nat.id in E by lia. exists (F + Z.to_nat n)%nat, d'. split; [|split; [done|intros x; by rewrite S2, S1]].
    intros fuel Hfu. unfold read_hd. cbn [ecx edi hmem hd]. rewrite hd_command_ata by done. cbv beta iota.
    rewrite set_cl_small by (try lia; zlia). rewrite E by lia. done.
Qed.
End Correct.

(** ** A disk *)

(** An image behind the ports: the task file as written, the sectors to hand out,
    the words left of the current one, and for how many readings of the status each
    sector is not ready. *)
Record image_disk := ImageDisk {
  image : Z -> list Z; task_file : Z -> Z; queue : list (list Z); words_left : list Z; delay : nat; delay_left : nat
}.
Definition image_sector (d : image_disk) (lba : Z) : list Z := (fun i => u16 (nth i (image d lba) 0)) <$> seq 0 256.

Definition image_lba (t : Z -> Z) : Z :=
  t 0x1f3 + 256 * t 0x1f4 + 65536 * t 0x1f5 + 16777216 * (t 0x1f6 mod 16).
Definition image_out8 (d : image_disk) (port v : Z) : image_disk :=
  if (port =? HD_STATUS) && (v =? 0x20) then
    let t := task_file d in
    let n := if t 0x1f2 =? 0 then 256 else t 0x1f2 in
    ImageDisk (image d) t (image_sector d <$> seqZ (image_lba t) n) [] (delay d) (delay d)
  else ImageDisk (image d) (fun p => if p =? port then v else task_file d p) (queue d) (words_left d) (delay d) (delay_left d).
Definition image_in8 (d : image_disk) (port : Z) : Z * image_disk :=
  if negb (port =? HD_STATUS) then (task_file d port, d)
  else match words_left d, queue d, delay_left d with
  | _ :: _, _, _ => (0x58, d)
  | [], [], _ => (0x50, d)
  | [], _ :: _, S k => (0xd0, ImageDisk (image d) (task_file d) (queue d) [] (delay d) k)
  | [], s :: q, O => (0x58, ImageDisk (image d) (task_file d) q s (delay d) (delay d))
  end.
Definition image_in16 (d : image_disk) (port : Z) : Z * image_disk :=
  match words_left d with
  | w :: ws => if port =? HD_DATA then (w, ImageDisk (image d) (task_file d) (queue d) ws (delay d) (delay_left d)) else (0, d)
  | [] => (0, d)
  end.
#[export] Instance image_ops : AtaOps image_disk := {| out8 := image_out8; in8 := image_in8; in16 := image_in16 |}.

Definition image_owes (d : image_disk) (ss : list (list Z)) : Prop :=
  queue d = ss /\ words_left d = [] /\ Forall sector_ok ss.
Definition image_offers (d : image_disk) (ws : list Z) (ss : list (list Z)) : Prop :=
  queue d = ss /\ words_left d = ws /\ ws <> [] /\ Forall sector_ok ss.

Lemma image_sector_words d lba :
  length (image_sector d lba) = 256%nat /\ Forall (fun w => 0 <= w < 65536) (image_sector d lba).
Proof.
  split; [by unfold image_sector; rewrite length_fmap, length_seq|].
  apply Forall_fmap, Forall_forall. intros i _. apply u16_bound.
Qed.

Lemma image_poll d s ss : image_owes d (s :: ss) ->
  exists k d', polls d k d' /\ image_offers d' s ss /\ forall x, image_sector d' x = image_sector d x.
Proof.
  remember (delay_left d) as k eqn:Hk. revert d Hk.
  induction k as [|k IH]; intros [im t q w de dl] Hk (Hq & Hw & Hf); cbn in Hk, Hq, Hw; subst.
  - pose proof (Forall_cons_1 _ _ _ Hf) as [[Hl _] Hf2]. eexists 0%nat, _. split; [by eapply polls_ready|].
    split; [split; [done|]; split; [done|]; split; [by intros ->|done]|done].
  - destruct (IH (ImageDisk im t (s :: ss) [] de k) eq_refl) as (j & d' & Hp & Ho & Hsec); [by split|].
    exists (S j), d'. split; [|by split]. by eapply polls_again.
Qed.

Lemma image_word d w ws ss : image_offers d (w :: ws) ss -> exists d', in16 d HD_DATA = (w, d') /\
  (if decide (ws = []) then image_owes d' ss else image_offers d' ws ss) /\ forall x, image_sector d' x = image_sector d x.
Proof.
  destruct d as [im t q wl de dl]. intros (Hq & Hw & _ & Hf). cbn in Hq, Hw. subst. eexists. split; [reflexivity|].
  split; [|done]. by case_decide as E; [rewrite E|].
Qed.

Lemma image_command d lba n : image_owes d [] -> 0 <= lba < 268435456 -> 0 < n < 256 ->
  image_owes (out_all d (ata_read lba n)) (image_sector d <$> seqZ lba n) /\
  forall x, image_sector (out_all d (ata_read lba n)) x = image_sector d x.
Proof.
  destruct d as [im t q wl de dl]. intros _ Hl Hn. split; [|done]. split; [|split; [done|]].
  - change (image_sector (ImageDisk im t q wl de dl) <$>
      seqZ (lba mod 256 + 256 * (lba / 256 mod 256) + 65536 * (lba / 65536 mod 256) + 16777216 * ((0xe0 + lba / 16777216) mod 16))
        (if n =? 0 then 256 else n) = image_sector (ImageDisk im t q wl de dl) <$> seqZ lba n).
    rewrite (proj2 (Z.eqb_neq n 0)) by lia. f_equal. f_equal. zlia.
  - apply Forall_fmap, Forall_forall. intros x _. apply image_sector_words.
Qed.

#[export] Instance image_laws : AtaLaws image_disk :=
  {| sector := image_sector; owes := image_owes; offers := image_offers; sector_words := image_sector_words;
     law_command := image_command; law_poll := image_poll; law_word := image_word |}.
