(* ===== verification/Boot.v ===== *)
(** The way to the kernels: x86_kernel/boot/boot.asm, the boot sector, and
    x86_kernel/loader/setup.asm, which asks the BIOS for the memory map, enters
    protected mode and reads the kernels from the disk of [Disk]. *)

From S2P Require Import Prelude Mem BitField PageAlloc Phymm Gdt Disk.
#[local] Open Scope kernel_scope.

Definition second_part_addr : Z := 0x500.
Definition KERNEL_ADDR : Z := 0x1200.
Definition X64_KERNEL_ADDR : Z := 0x100000.
Definition AP_BOOT_ADDR : Z := 0x8000.
Definition CODE_SECTOR : Z := 8.
Definition DATA_SECTOR : Z := 16.

(** ** Text through the BIOS *)

(** [print_str]: the bytes given to int 0x10, up to the terminator. *)
Fixpoint print_str (fuel : nat) (m : mem) (si : Z) : option (list Z) :=
  match fuel with
  | O => None
  | S f =>
      let al := ld8 m si in
      if al =? 0 then Some [] else r ← print_str f m (u16 (si + 1)); Some (al :: r)
  end.

(** ** boot.asm *)

Section Boot.
Context {D : Type} {ops : AtaOps D}.

(** [_start] up to its jump, with [msg] in memory: the bytes printed and what the
    disk and memory are. *)
Definition boot_start (fuel : nat) (d : D) (m : mem) (msg : Z) : option (list Z * D * mem) :=
  text ← print_str fuel m msg;
  s ← read_hd false fuel (HdState d m 1 second_part_addr) 2;
  Some (104 :: text, hd s, hmem s).
End Boot.

(** ** setup.asm *)

(** int 0x15 with eax = 0xe820: from ebx the entry written at es:di, the number of
    bytes in ecx and the next ebx, or the carry flag. *)
Section MemoryCheck.
Context (e820 : Z -> option (ards_t * Z * Z)).

Definition store_ards (m : mem) (a : Z) (e : ards_t) : mem :=
  let m := st32 m a (baseAddrLow e) in
  let m := st32 m (a + 4) (baseAddrHigh e) in
  let m := st32 m (a + 8) (lengthAddrLow e) in
  let m := st32 m (a + 12) (lengthAddrHigh e) in
  st32 m (a + 16) (ards_type e).

(** [.loop]; a carry prints a message and hangs. *)
Fixpoint memory_check_loop (fuel : nat) (m : mem) (ebx edi : Z) : outcome mem :=
  match fuel with
  | O => Stuck Deadlock
  | S f =>
      match e820 ebx with
      | None => Stuck AssertFailed
      | Some (e, ecx, ebx) =>
          let m := store_ards m (u16 edi) e in
          let m := st16 m MEN_ARDS_NUM_ADDR (u16 (ld16 m MEN_ARDS_NUM_ADDR + 1)) in
          let edi := u32 (edi + ecx) in
          if ebx =? 0 then Done m else memory_check_loop f m ebx edi
      end
  end.
Definition memoryCheck (fuel : nat) (m : mem) : outcome mem :=
  memory_check_loop fuel (st16 m MEN_ARDS_NUM_ADDR 0) 0 MEN_ARDS_ADDR.
End MemoryCheck.

(** The eight bytes of a descriptor of the section .gdt. *)
Definition CFG_CODE_SEG_LIMIT : Z := 0xfffff.
Definition CFG_CODE_SEG_BASE : Z := 0.
Definition gdt_entry (m : mem) (a access flags : Z) : mem :=
  let m := st16 m a (CFG_CODE_SEG_LIMIT .& 0xffff) in
  let m := st16 m (a + 2) (CFG_CODE_SEG_BASE .& 0xffff) in
  let m := st8 m (a + 4) ((CFG_CODE_SEG_BASE .>> 16) .& 0xff) in
  let m := st8 m (a + 5) access in
  let m := st8 m (a + 6) (flags .| ((CFG_CODE_SEG_LIMIT .>> 16) .& 0x0f)) in
  st8 m (a + 7) ((CFG_CODE_SEG_BASE .>> 24) .& 0xff).
Definition setup_gdt (m : mem) (gdt_base : Z) : mem :=
  let m := st64 m gdt_base 0 in
  let m := gdt_entry m (gdt_base + 8) 0x98 0x40 in
  gdt_entry m (gdt_base + 16) 0x92 0xc0.
(** What lgdt loads from [gdt_ptr]: [$ - gdt_base], which is the size. *)
Definition setup_gdtr (gdt_base : Z) : Z * Z := (24, gdt_base).

Section Setup.
Context {D : Type} {ops : AtaOps D}.

(** [protected_mode] up to its jump: the places, first sectors and numbers. *)
Definition setup_reads : list (Z * Z * Z) := [(KERNEL_ADDR, 3, 50); (X64_KERNEL_ADDR, 54, 200); (AP_BOOT_ADDR, 255, 2)].
Definition protected_mode (fuel : nat) (d : D) (m : mem) : option (D * mem) :=
  foldl (fun r '(edi, ecx, bl) =>
    '(d, m) ← r; s ← read_hd true fuel (HdState d m ecx edi) bl; Some (hd s, hmem s)) (Some (d, m)) setup_reads.

(** [enter_protected_mode]: the byte sent to port 0x92, which opens the A20 line, and
    cr0. *)
Definition enter_protected_mode (al cr0 : Z) : Z * Z := (u8 (al .| 2), cr0 .| 1).

(** What the kernel's [kernel_start] is entered with. *)
Record loaded := Loaded { l_gdtr : Z * Z; l_a20 : Z; l_cr0 : Z; l_disk : D; l_mem : mem; l_cs : Z; l_eip : Z }.

(** [setup_start] after its message, with what port 0x92 and cr0 hold. *)
Definition setup_start (e820 : Z -> option (ards_t * Z * Z)) (gdt_base al cr0 : Z) (fuel : nat) (d : D) (m : mem) : outcome loaded :=
  m ← memoryCheck e820 fuel m;
  let '(a20, cr0) := enter_protected_mode al cr0 in
  match protected_mode fuel d m with
  | Some (d, m) => Done (Loaded (setup_gdtr gdt_base) a20 cr0 d m CODE_SECTOR KERNEL_ADDR)
  | None => Stuck Deadlock
  end.
End Setup.
Arguments l_gdtr {D}.
Arguments l_a20 {D}.
Arguments l_cr0 {D}.
Arguments l_disk {D}.
Arguments l_mem {D}.
Arguments l_cs {D}.
Arguments l_eip {D}.
Arguments Loaded {D}.

(** ** The memory map *)

Record ards_ok (e : ards_t) : Prop := {
  ao_bl : 0 <= baseAddrLow e < 4294967296; ao_bh : 0 <= baseAddrHigh e < 4294967296;
  ao_ll : 0 <= lengthAddrLow e < 4294967296; ao_lh : 0 <= lengthAddrHigh e < 4294967296;
  ao_type : 0 <= ards_type e < 4294967296
}.

Lemma store_ards_out m a e x : x < a \/ a + 20 <= x -> ld8 (store_ards m a e) x = ld8 m x.
Proof. intros H. unfold store_ards, st32. rewrite !ld8_stn_ne by lia. done. Qed.

Lemma load_store_ards m a e : ards_ok e -> load_ards (store_ards m a e) a = e.
Proof.
  intros []. unfold load_ards, store_ards, ld32, st32.
  repeat first [rewrite (ldn_stn_eq 4) | rewrite (ldn_stn_ne 4 4) by lia].
  change (256 ^ Z.of_nat 4) with 4294967296. rewrite !Z.mod_small by done. by destruct e.
Qed.

Lemma load_ards_same m1 m2 a : (forall x, a <= x < a + 20 -> ld8 m1 x = ld8 m2 x) -> load_ards m1 a = load_ards m2 a.
Proof. intros H. unfold load_ards, ld32. f_equal; apply ldn_ext; intros x Hx; apply H; lia. Qed.

Section MemoryMap.
Context (e820 : Z -> option (ards_t * Z * Z)).

(** The BIOS goes through the entries [l], each of 20 bytes, when it is called with
    [ebx] and then with what it answered; 0 ends the map. *)
Inductive ards_chain : Z -> list ards_t -> Prop :=
| chain_last ebx e : e820 ebx = Some (e, 20, 0) -> ards_ok e -> ards_chain ebx [e]
| chain_next ebx e ebx' l : e820 ebx = Some (e, 20, ebx') -> ebx' <> 0 -> ards_ok e -> ards_chain ebx' l -> ards_chain ebx (e :: l).

Lemma memory_check_step ebx e ebx' k m fuel : e820 ebx = Some (e, 20, ebx') -> ards_ok e -> 0 <= k <= 2999 ->
  ld16 m MEN_ARDS_NUM_ADDR = k -> exists m2,
  memory_check_loop e820 (S fuel) m ebx (MEN_ARDS_ADDR + k * 20) =
    (if ebx' =? 0 then Done m2 else memory_check_loop e820 fuel m2 ebx' (MEN_ARDS_ADDR + (k + 1) * 20)) /\
  m2 = st16 (store_ards m (MEN_ARDS_ADDR + k * 20) e) MEN_ARDS_NUM_ADDR (k + 1) /\
  load_ards m2 (MEN_ARDS_ADDR + k * 20) = e /\ ld16 m2 MEN_ARDS_NUM_ADDR = k + 1 /\
  forall x, x < MEN_ARDS_NUM_ADDR \/ MEN_ARDS_ADDR <= x < MEN_ARDS_ADDR + k * 20 \/
    MEN_ARDS_ADDR + (k + 1) * 20 <= x -> ld8 m2 x = ld8 m x.
Proof.
  unfold MEN_ARDS_ADDR. intros E He Hk Hn.
  assert (ld16 (store_ards m (0x1102 + k * 20) e) MEN_ARDS_NUM_ADDR = k) as Hn'
    by (transitivity (ld16 m MEN_ARDS_NUM_ADDR); [|done]; unfold MEN_ARDS_NUM_ADDR; apply ldn_ext; intros x Hx; apply store_ards_out; lia).
  eexists. split; [|split; [reflexivity|]].
  - cbn [memory_check_loop]. rewrite E, (u16_small (_ + _)) by lia. cbv zeta.
    rewrite Hn', u16_small, u32_small by lia. destruct (ebx' =? 0); [done|]. f_equal. lia.
  - unfold MEN_ARDS_NUM_ADDR in *. split; [|split; [by rewrite ld16_st16; apply u16_small; lia|]].
    + rewrite <- (load_store_ards m (0x1102 + k * 20) e He) at 2. apply load_ards_same. intros x Hx. apply (ld8_stn_ne 2). lia.
    + intros x Hx. unfold st16. rewrite ld8_stn_ne, store_ards_out by lia. done.
Qed.

Lemma memory_check_loop_spec l ebx k m :
  ards_chain ebx l -> 0 <= k -> k + Z.of_nat (length l) <= 3000 -> ld16 m MEN_ARDS_NUM_ADDR = k ->
  exists m', (forall fuel, (length l <= fuel)%nat -> memory_check_loop e820 fuel m ebx (MEN_ARDS_ADDR + k * 20) = Done m') /\
    ld16 m' MEN_ARDS_NUM_ADDR = k + Z.of_nat (length l) /\
    (forall i e, l !! i = Some e -> load_ards m' (MEN_ARDS_ADDR + (k + Z.of_nat i) * 20) = e) /\
    forall x, x < MEN_ARDS_NUM_ADDR \/ MEN_ARDS_ADDR <= x < MEN_ARDS_ADDR + k * 20 \/
      MEN_ARDS_ADDR + (k + Z.of_nat (length l)) * 20 <= x -> ld8 m' x = ld8 m x.
Proof.
  intros Hc. revert k m. induction Hc as [ebx e E He|ebx e ebx' l E Hne He Hc IH]; intros k m H0 Hk Hn; cbn [length] in *;
    destruct (memory_check_step ebx e _ k m 0 E He ltac:(lia) Hn) as (m2 & _ & Em2 & Hl & Hn2 & Hout).
  - exists m2. split; [|split; [lia|split; [|exact Hout]]].
    + intros [|fuel] Hf; [lia|]. destruct (memory_check_step ebx e 0 k m fuel E He ltac:(lia) Hn) as (m2' & E2 & Em2' & _).
      by rewrite E2, Em2', Em2.
    + intros [|i] e' Hi; [|done]. injection Hi as <-. by rewrite Z.add_0_r.
  - destruct (IH (k + 1) m2) as (m' & E' & Hn3 & Hl3 & Hout3); [lia..|].
    exists m'. split; [|split; [lia|split]].
    + intros [|fuel] Hf; [lia|]. destruct (memory_check_step ebx e ebx' k m fuel E He ltac:(lia) Hn) as (m2' & E2 & Em2' & _).
      rewrite E2, (proj2 (Z.eqb_neq ebx' 0)), Em2', <- Em2 by done. apply E'. lia.
    + intros [|i] e' Hi.
      * injection Hi as <-. rewrite Z.add_0_r, <- Hl. apply load_ards_same. intros x Hx. apply Hout3. lia.
      * rewrite <- (Hl3 i e' Hi). f_equal. lia.
    + intros x Hx. rewrite Hout3 by lia. apply Hout. lia.
Qed.

(** What [memoryCheck] leaves: the number of entries and the entries. *)
Definition ards_in (m : mem) (l : list ards_t) : Prop :=
  ld16 m MEN_ARDS_NUM_ADDR = Z.of_nat (length l) /\
  forall i e, l !! i = Some e -> load_ards m (MEN_ARDS_ADDR + Z.of_nat i * sizeof_ards) = e.

Lemma memoryCheck_spec l m : ards_chain 0 l -> Z.of_nat (length l) <= 3000 ->
  exists m', (forall fuel, (length l <= fuel)%nat -> memoryCheck e820 fuel m = Done m') /\ ards_in m' l /\
    forall x, x < MEN_ARDS_NUM_ADDR \/ MEN_ARDS_ADDR + Z.of_nat (length l) * 20 <= x -> ld8 m' x = ld8 m x.
Proof.
  intros Hc Hl. destruct (memory_check_loop_spec l 0 0 (st16 m MEN_ARDS_NUM_ADDR 0) Hc) as (m' & E & Hn & Hi & Hout);
    [lia|lia|by rewrite ld16_st16|].
  exists m'. split; [exact E|]. split; [split; [exact Hn|exact Hi]|].
  intros x Hx. rewrite Hout by lia. apply (ld8_stn_ne 2). unfold MEN_ARDS_ADDR, MEN_ARDS_NUM_ADDR in *. lia.
Qed.
End MemoryMap.

(** ** What the loader leaves *)

(** The words [ws] at [a] and on. *)
Definition words_in (m : mem) (a : Z) (ws : list Z) : Prop :=
  forall i w, ws !! i = Some w -> ld16 m (a + 2 * Z.of_nat i) = w.

Lemma words_in_store m a ws : Forall (fun w => 0 <= w < 65536) ws -> words_in (store_words m a ws) a ws.
Proof. intros Hf i w Hi. by apply store_words_word. Qed.

Lemma words_in_same m1 m2 a ws : (forall x, a <= x < a + 2 * Z.of_nat (length ws) -> ld8 m2 x = ld8 m1 x) ->
  words_in m1 a ws -> words_in m2 a ws.
Proof.
  intros H Hw i w Hi. rewrite <- (Hw i w Hi). pose proof (lookup_lt_Some _ _ _ Hi).
  apply ldn_ext. intros x Hx. apply H. lia.
Qed.

Lemma ards_in_same m1 m2 l : ards_in m1 l ->
  (forall x, MEN_ARDS_NUM_ADDR <= x < MEN_ARDS_ADDR + 20 * Z.of_nat (length l) -> ld8 m2 x = ld8 m1 x) -> ards_in m2 l.
Proof.
  unfold MEN_ARDS_ADDR, MEN_ARDS_NUM_ADDR, ards_in, sizeof_ards. intros [Hn Hi] H. split.
  - rewrite <- Hn. apply ldn_ext. unfold MEN_ARDS_NUM_ADDR in *. intros x Hx. apply H. lia.
  - intros i e He. rewrite <- (Hi i e He). pose proof (lookup_lt_Some _ _ _ He). apply load_ards_same.
    unfold MEN_ARDS_ADDR in *. intros x Hx. apply H. lia.
Qed.

(** The memory map in the form in which phymm.c's mm_init needs it. *)
Lemma ards_in_kernel_region m l i e len : ards_in m l -> l !! i = Some e ->
  baseAddrLow e = MEN_KERNEL_START -> baseAddrHigh e = 0 -> lengthAddrLow e = len -> lengthAddrHigh e = 0 ->
  (forall j e', (j < i)%nat -> l !! j = Some e' -> high_low (fun x => x) (baseAddrHigh e') (baseAddrLow e') <> MEN_KERNEL_START) ->
  kernel_region (fun x => x) m (Z.of_nat i) len.
Proof.
  intros [Hn Hl] Hi H1 H2 H3 H4 Hb. pose proof (lookup_lt_Some _ _ _ Hi) as Hlt. unfold kernel_region, ards_entry.
  rewrite (Hl i e Hi), Hn. split; [lia|]. do 4 (split; [done|]). intros k Hk.
  destruct (lookup_lt_is_Some_2 l (Z.to_nat k)) as [e' He']; [lia|].
  pose proof (Hl _ _ He') as E. rewrite Z2Nat.id in E by lia. rewrite E. apply (Hb (Z.to_nat k)); [lia|done].
Qed.

(** ** The descriptors *)

Lemma gdt_entry_out m a acc fl x : x < a \/ a + 8 <= x -> ld8 (gdt_entry m a acc fl) x = ld8 m x.
Proof. intros H. unfold gdt_entry, st16. by rewrite !ld8_st8_ne, !ld8_stn_ne by lia. Qed.

Ltac entry_segment := unfold load_segment, ldf, gdt_entry; fields; reflexivity.
Lemma code_segment m a : load_segment (gdt_entry m a 0x98 0x40) a = Seg 0xfffff 0 8 1 0 1 0 0 1 0.
Proof. entry_segment. Qed.
Lemma data_segment m a : load_segment (gdt_entry m a 0x92 0xc0) a = Seg 0xfffff 0 2 1 0 1 0 0 1 1.
Proof. entry_segment. Qed.

(** The code segment is 1 MiB of 32-bit execute-only code, its limit counted in
    bytes; the data segment is the whole of memory; the limit of the table, one
    byte too long, brings no third. *)
Lemma setup_gdt_segments m base :
  let m' := setup_gdt m base in
  select m' (setup_gdtr base) CODE_SECTOR = Some (Seg 0xfffff 0 8 1 0 1 0 0 1 0) /\
  select m' (setup_gdtr base) DATA_SECTOR = Some (Seg 0xfffff 0 2 1 0 1 0 0 1 1) /\
  select m' (setup_gdtr base) 24 = None.
Proof.
  intros m'. unfold m', setup_gdt. split; [|split; [|done]].
  - transitivity (Some (load_segment (gdt_entry (st64 m base 0) (base + 8) 0x98 0x40) (base + 8))); [|by rewrite code_segment].
    unfold select. cbn [setup_gdtr fst snd]. change (8 * (CODE_SECTOR / 8)) with 8. cbn [Z.leb Z.add Pos.add Z.compare Pos.compare Pos.compare_cont Pos.succ].
    f_equal. apply load_segment_ext. intros i Hi. apply gdt_entry_out. lia.
  - transitivity (Some (load_segment (gdt_entry (gdt_entry (st64 m base 0) (base + 8) 0x98 0x40) (base + 16) 0x92 0xc0) (base + 16)));
      [reflexivity|by rewrite data_segment].
Qed.

(** The two segments are read from the table's 24 bytes only. *)
Lemma select_same m1 m2 base sel : (forall x, base <= x < base + 24 -> ld8 m2 x = ld8 m1 x) ->
  sel = CODE_SECTOR \/ sel = DATA_SECTOR -> select m2 (setup_gdtr base) sel = select m1 (setup_gdtr base) sel.
Proof.
  intros H [-> | ->]; unfold select; cbn [setup_gdtr fst snd];
    [change (8 * (CODE_SECTOR / 8)) with 8|change (8 * (DATA_SECTOR / 8)) with 16];
    cbn [Z.leb Z.add Pos.add Z.compare Pos.compare Pos.compare_cont Pos.succ];
    f_equal; apply load_segment_ext; intros i Hi; apply H; lia.
Qed.

Section Loader.
Context {D : Type} {ops : AtaOps D} {laws : AtaLaws D}.
Implicit Types (d : D).

Definition disk_words d (lba n : Z) : list Z := concat (sector d <$> seqZ lba n).

Lemma disk_words_ok d lba n : 0 <= n -> Z.of_nat (length (disk_words d lba n)) = 256 * n /\
  Forall (fun w => 0 <= w < 65536) (disk_words d lba n).
Proof.
  intros Hn. unfold disk_words. assert (length (seqZ lba n) = Z.to_nat n) as Hl by apply length_seqZ.
  assert (Z.of_nat (length (seqZ lba n)) = n) as Hl' by lia. rewrite <- Hl' at 2. clear Hl Hl' Hn. generalize (seqZ lba n).
  induction l as [|x l [IH1 IH2]]; [by split|]. rewrite fmap_cons. cbn [concat length].
  destruct (sector_words d x) as [H1 H2]. split; [rewrite length_app; lia|]. by apply Forall_app.
Qed.

Lemma disk_words_same d d' lba n : (forall x, sector d' x = sector d x) -> disk_words d' lba n = disk_words d lba n.
Proof. intros H. unfold disk_words. f_equal. by apply list_fmap_ext. Qed.

Lemma disk_words_first d lba n i w : 0 < n -> sector d lba !! i = Some w -> disk_words d lba n !! i = Some w.
Proof.
  intros Hn Hi. unfold disk_words. rewrite seqZ_cons by done. rewrite fmap_cons. cbn [concat].
  by apply lookup_app_l_Some.
Qed.

Lemma protected_mode_spec d m : owes d [] -> exists F d',
  (forall fuel, (F <= fuel)%nat -> protected_mode fuel d m = Some (d',
     store_words (store_words (store_words m KERNEL_ADDR (disk_words d 3 50)) X64_KERNEL_ADDR (disk_words d 54 200))
       AP_BOOT_ADDR (disk_words d 255 2))) /\
  owes d' [] /\ forall x, sector d' x = sector d x.
Proof.
  intros Ho. unfold protected_mode, setup_reads. cbn [foldl mbind option_bind].
  destruct (read_hd_spec true d m KERNEL_ADDR 3 50 Ho) as (F1 & d1 & E1 & O1 & S1); [done..|].
  set (m1 := store_words m KERNEL_ADDR _) in *.
  destruct (read_hd_spec true d1 m1 X64_KERNEL_ADDR 54 200 O1) as (F2 & d2 & E2 & O2 & S2); [done..|].
  fold (disk_words d1 54 200) in E2. rewrite (disk_words_same d d1) in E2 by done. set (m2 := store_words m1 _ _) in *.
  destruct (read_hd_spec true d2 m2 AP_BOOT_ADDR 255 2 O2) as (F3 & d3 & E3 & O3 & S3); [done..|].
  fold (disk_words d2 255 2) in E3. rewrite (disk_words_same d d2) in E3 by (intros x; by rewrite S2, S1).
  exists (F1 + F2 + F3)%nat, d3. split; [|split; [done|intros x; by rewrite S3, S2, S1]].
  intros fuel Hf. rewrite E1 by lia. cbn [mbind option_bind hd hmem]. rewrite E2 by lia. cbn [mbind option_bind hd hmem].
  rewrite E3 by lia. reflexivity.
Qed.

(** The three programs in memory after the reads, and what lies below them. *)
Lemma loaded_words d m1 :
  let m' := store_words (store_words (store_words m1 KERNEL_ADDR (disk_words d 3 50)) X64_KERNEL_ADDR (disk_words d 54 200))
              AP_BOOT_ADDR (disk_words d 255 2) in
  words_in m' KERNEL_ADDR (disk_words d 3 50) /\ words_in m' X64_KERNEL_ADDR (disk_words d 54 200) /\
  words_in m' AP_BOOT_ADDR (disk_words d 255 2) /\ forall x, x < KERNEL_ADDR -> ld8 m' x = ld8 m1 x.
Proof.
  intros m'. destruct (disk_words_ok d 3 50 ltac:(lia)) as [L1 W1]. destruct (disk_words_ok d 54 200 ltac:(lia)) as [L2 W2].
  destruct (disk_words_ok d 255 2 ltac:(lia)) as [L3 W3]. unfold m'. split; [|split; [|split; [by apply words_in_store|]]].
  - apply words_in_same with (store_words m1 KERNEL_ADDR (disk_words d 3 50)); [|by apply words_in_store].
    unfold KERNEL_ADDR, X64_KERNEL_ADDR, AP_BOOT_ADDR. intros x Hx. by rewrite !store_words_out by lia.
  - eapply words_in_same; [|by apply (words_in_store (store_words m1 KERNEL_ADDR (disk_words d 3 50)))].
    unfold X64_KERNEL_ADDR, AP_BOOT_ADDR. intros x Hx. by rewrite store_words_out by lia.
  - unfold KERNEL_ADDR, X64_KERNEL_ADDR, AP_BOOT_ADDR. intros x Hx. by rewrite !store_words_out by lia.
Qed.

(** C18: What the loader leaves: the sectors of the three programs where the jumps expect
    them, the processor in protected mode with the A20 line open and the two segments
    of the section .gdt.  The memory map is kept only if it has at most 12 entries: of
    the thirteenth the type is two words of the kernel. *)
Theorem setup_start_correct e820 l d m0 base al cr0 :
  owes d [] -> ards_chain e820 0 l -> Z.of_nat (length l) <= 3000 -> 0x500 <= base -> base + 24 <= 0x900 ->
  exists F r, (forall fuel, (F <= fuel)%nat -> setup_start e820 base al cr0 fuel d (setup_gdt m0 base) = Done r) /\
    words_in (l_mem r) KERNEL_ADDR (disk_words d 3 50) /\ words_in (l_mem r) X64_KERNEL_ADDR (disk_words d 54 200) /\
    words_in (l_mem r) AP_BOOT_ADDR (disk_words d 255 2) /\
    Z.testbit (l_cr0 r) 0 = true /\ Z.testbit (l_a20 r) 1 = true /\
    select (l_mem r) (l_gdtr r) (l_cs r) = Some (Seg 0xfffff 0 8 1 0 1 0 0 1 0) /\
    select (l_mem r) (l_gdtr r) DATA_SECTOR = Some (Seg 0xfffff 0 2 1 0 1 0 0 1 1) /\
    ((length l <= 12)%nat -> ards_in (l_mem r) l) /\
    ((12 < length l)%nat -> forall w1 w2, sector d 3 !! 1%nat = Some w1 -> sector d 3 !! 2%nat = Some w2 ->
      ards_type (load_ards (l_mem r) (MEN_ARDS_ADDR + 12 * sizeof_ards)) = w1 + 65536 * w2).
Proof.
  intros Ho Hc Hl Hb0 Hb1. destruct (memoryCheck_spec e820 l (setup_gdt m0 base) Hc Hl) as (m1 & E1 & Hards & Hf).
  destruct (protected_mode_spec d m1 Ho) as (F & d' & E2 & _).
  destruct (loaded_words d m1) as (Hk & Hx & Ha & Hout). set (m' := store_words _ AP_BOOT_ADDR _) in *.
  assert (forall sel, sel = CODE_SECTOR \/ sel = DATA_SECTOR ->
    select m' (setup_gdtr base) sel = select (setup_gdt m0 base) (setup_gdtr base) sel) as Hs.
  { intros sel. apply select_same. intros x Hx'. unfold MEN_ARDS_NUM_ADDR, KERNEL_ADDR in *. rewrite Hout, Hf by lia. done. }
  destruct (setup_gdt_segments m0 base) as (S1 & S2 & _).
  exists (length l + F)%nat, (Loaded (setup_gdtr base) (u8 (al .| 2)) (cr0 .| 1) d' m' CODE_SECTOR KERNEL_ADDR).
  cbn [l_mem l_cr0 l_a20 l_gdtr l_cs]. split; [|do 3 (split; [done|])].
  - intros fuel Hfu. unfold setup_start. rewrite E1 by lia. cbn [mbind outcome_bind enter_protected_mode]. by rewrite E2 by lia.
  - split; [by rewrite Z.lor_spec, orb_true_r|]. split; [unfold u8; change 256 with (2 ^ 8); by rewrite Z.mod_pow2_bits_low, Z.lor_spec, orb_true_r by lia|].
    rewrite !Hs by auto. split; [exact S1|]. split; [exact S2|]. split.
    + intros H12. apply ards_in_same with m1; [done|].
      intros x Hx'. apply Hout. unfold MEN_ARDS_NUM_ADDR, MEN_ARDS_ADDR, KERNEL_ADDR in *. lia.
    + intros _ w1 w2 H1 H2. unfold load_ards. cbn [ards_type]. rewrite ld32_halves.
      rewrite <- (Hk 1%nat w1), <- (Hk 2%nat w2) by (by apply disk_words_first). reflexivity.
Qed.

Lemma print_str_spec m si text fuel : bytes_at m si (length text) = text -> 0 ∉ text ->
  ld8 m (si + Z.of_nat (length text)) = 0 -> 0 <= si -> si + Z.of_nat (length text) < 65536 -> (length text < fuel)%nat ->
  print_str fuel m si = Some text.
Proof.
  revert si fuel. induction text as [|c text IH]; intros si [|fuel] Hb Hn Hz H0 Hhi Hf; cbn [length bytes_at print_str] in *;
    try lia.
  - rewrite Z.add_0_r in Hz. by rewrite Hz.
  - injection Hb as Hc Hb. apply not_elem_of_cons in Hn as [Hc0 Hn]. rewrite Hc, (proj2 (Z.eqb_neq c 0)), u16_small by (done || lia).
    rewrite IH; [done| |done|rewrite <- Hz; f_equal; lia|lia|lia|lia]. by rewrite Hb.
Qed.

(** The boot sector greets and leaves the loader, sectors 1 and 2, at the place it
    jumps to. *)
Lemma boot_start_correct d m msg text :
  owes d [] -> bytes_at m msg (length text) = text -> 0 ∉ text ->
  ld8 m (msg + Z.of_nat (length text)) = 0 -> 0 <= msg -> msg + Z.of_nat (length text) < 65536 ->
  exists F d', (forall fuel, (F <= fuel)%nat -> boot_start fuel d m msg =
      Some (104 :: text, d', store_words m second_part_addr (disk_words d 1 2))) /\
    owes d' [] /\ forall x, sector d' x = sector d x.
Proof.
  intros Ho Hb Hn Hz H0 Hhi. destruct (read_hd_spec false d m second_part_addr 1 2 Ho) as (F1 & d1 & E1 & O1 & S1); [done..|].
  exists (S (length text) + F1)%nat, d1. split; [|by split]. intros fuel Hf. unfold boot_start.
  rewrite (print_str_spec m msg text) by (done || lia). cbn [mbind option_bind]. rewrite E1 by lia. reflexivity.
Qed.
End Loader.

(** ** A machine *)

Definition demo_disk : image_disk := ImageDisk (fun lba => [lba; lba + 1; lba + 2]) (fun _ => 0) [] [] 1 0.
Definition demo_map : list ards_t := [ArdsT 0 0 0x9fc00 0 1; ArdsT 0x100000 0 0x1f00000 0 1].
Definition demo_e820 (ebx : Z) : option (ards_t * Z * Z) :=
  if ebx =? 0 then Some (ArdsT 0 0 0x9fc00 0 1, 20, 7) else Some (ArdsT 0x100000 0 0x1f00000 0 1, 20, 0).

Lemma setup_start_correct_witness :
  exists F r, (forall fuel, (F <= fuel)%nat -> setup_start demo_e820 0x50d 0 0x10 fuel demo_disk (setup_gdt ∅ 0x50d) = Done r) /\
    words_in (l_mem r) KERNEL_ADDR (disk_words demo_disk 3 50) /\ words_in (l_mem r) X64_KERNEL_ADDR (disk_words demo_disk 54 200) /\
    words_in (l_mem r) AP_BOOT_ADDR (disk_words demo_disk 255 2) /\
    Z.testbit (l_cr0 r) 0 = true /\ Z.testbit (l_a20 r) 1 = true /\
    select (l_mem r) (l_gdtr r) (l_cs r) = Some (Seg 0xfffff 0 8 1 0 1 0 0 1 0) /\
    select (l_mem r) (l_gdtr r) DATA_SECTOR = Some (Seg 0xfffff 0 2 1 0 1 0 0 1 1) /\
    ((length demo_map <= 12)%nat -> ards_in (l_mem r) demo_map) /\
    ((12 < length demo_map)%nat -> forall w1 w2, sector demo_disk 3 !! 1%nat = Some w1 -> sector demo_disk 3 !! 2%nat = Some w2 ->
      ards_type (load_ards (l_mem r) (MEN_ARDS_ADDR + 12 * sizeof_ards)) = w1 + 65536 * w2).
Proof.
  apply (setup_start_correct demo_e820 demo_map demo_disk ∅ 0x50d 0 0x10).
  - split; [reflexivity|]. split; [reflexivity|constructor].
  - apply (chain_next demo_e820 0 (ArdsT 0 0 0x9fc00 0 1) 7); [reflexivity|lia|by split|].
    apply (chain_last demo_e820 7); [reflexivity|by split].
  - cbn. lia.
  - lia.
  - lia.
Defined.
