(* ===== verification/Startup.v ===== *)
(** From the 32-bit kernel's first instruction to the 64-bit kernel's:
    x86_kernel/kernel/asm/head.asm programs the interrupt controllers, kernel_main and
    enter_ia32e of init/main.c and kernel/asm/head64.asm enter long mode. *)

From S2P Require Import Prelude Mem BitField PageAlloc Alloc Paging Gdt Disk Phymm Boot.
#[local] Open Scope kernel_scope.

(** ** head.asm: the interrupt controllers *)

(** The writes of [.init_8289a] and [.shield_interrupt], in order. *)
Definition init_8289a : list (Z * Z) :=
  [(0x20, 0x11); (0x0a, 0x11); (0x21, 0x20); (0xa1, 0x28); (0x21, 0x04); (0xa1, 0x02); (0x21, 0x03); (0xa1, 0x03)].
Definition shield_interrupt : list (Z * Z) := [(0x21, 0xfc); (0xa1, 0xff)].
Definition kernel_start : list (Z * Z) := init_8289a ++ shield_interrupt.

(** An 8259A: the initialization word its data port expects, if any, the first
    vector, the mask, automatic end of interrupt. *)
Inductive icw := ICW2 | ICW3 | ICW4 | Ready.
Record pic := Pic { expects : icw; vector : Z; imr : Z; auto_eoi : bool }.

(** The command port: a word with bit 4 starts the initialization (as
    [kernel_start] does it, cascaded and with a fourth word). *)
Definition pic_command (p : pic) (v : Z) : pic :=
  if Z.testbit v 4 then Pic ICW2 (vector p) 0 false else p.
Definition pic_data (p : pic) (v : Z) : pic :=
  match expects p with
  | ICW2 => Pic ICW3 (v .& 0xf8) (imr p) (auto_eoi p)
  | ICW3 => Pic ICW4 (vector p) (imr p) (auto_eoi p)
  | ICW4 => Pic Ready (vector p) (imr p) (Z.testbit v 1)
  | Ready => Pic Ready (vector p) v (auto_eoi p)
  end.

(** Master and slave at their ports. *)
Definition pics_out (ps : pic * pic) (w : Z * Z) : pic * pic :=
  let '(m, s) := ps in
  let '(port, v) := w in
  if port =? 0x20 then (pic_command m v, s) else if port =? 0x21 then (pic_data m v, s)
  else if port =? 0xa0 then (m, pic_command s v) else if port =? 0xa1 then (m, pic_data s v) else (m, s).

(** The master gives vectors 0x20 to 0x27 and lets the clock and the keyboard
    through; the slave never sees a first word: its vectors stay the BIOS's, and its
    mask, the last of four words it took for masks, is closed. *)
Lemma kernel_start_pics m s : expects s = Ready ->
  foldl pics_out (m, s) kernel_start = (Pic Ready 0x20 0xfc true, Pic Ready (vector s) 0xff (auto_eoi s)).
Proof. destruct s as [e v i a]. cbn. intros ->. reflexivity. Qed.

(** ** Long mode *)

(** The control registers and IA32_EFER. *)
Record ctl := Ctl { cr0 : Z; cr3 : Z; cr4 : Z; efer : Z }.
Definition PE : Z := 0.
Definition PG : Z := 31.
Definition PAE : Z := 5.
Definition LME : Z := 8.
Definition LMA : Z := 10.

(** [mov cr0, v]: turning paging on with LME set makes LMA set, and needs PAE;
    turning it off clears LMA. *)
Definition mov_cr0 (v : Z) (c : ctl) : option ctl :=
  if Z.testbit v PG then
    if Z.testbit (cr0 c) PG then Some (Ctl v (cr3 c) (cr4 c) (efer c))
    else if Z.testbit (efer c) LME then
      if Z.testbit (cr4 c) PAE then Some (Ctl v (cr3 c) (cr4 c) (Z.setbit (efer c) LMA)) else None
    else Some (Ctl v (cr3 c) (cr4 c) (efer c))
  else Some (Ctl v (cr3 c) (cr4 c) (Z.clearbit (efer c) LMA)).

(** The three pieces of inline assembly of [enter_ia32e], which aps_boot.asm
    repeats. *)
Definition bts_cr4_pae (c : ctl) : ctl := Ctl (cr0 c) (cr3 c) (Z.setbit (cr4 c) 5) (efer c).
Definition bts_efer_lme (c : ctl) : ctl := Ctl (cr0 c) (cr3 c) (cr4 c) (Z.setbit (efer c) 8).
Definition or_cr0_pg (c : ctl) : option ctl := mov_cr0 (cr0 c .| 0x80000000) c.
Definition mov_cr3 (v : Z) (c : ctl) : ctl := Ctl (cr0 c) v (cr4 c) (efer c).

Definition enter_ia32e (m : mem) (c : ctl) : option (mem * ctl) :=
  let '(m, cr3) := prepare_4level_page_table m in
  let c := mov_cr3 cr3 c in
  c ← or_cr0_pg (bts_efer_lme (bts_cr4_pae c)); Some (m, c).

Definition check_ia32e_status (c : ctl) : Z := Z.b2z (Z.testbit (efer c) 10).

(** [check_x64_support]: cpuid gives eax, ebx, ecx and edx; [jl] compares signed.
    [None]: the message, and it hangs. *)
Definition check_x64_support (cpuid : Z -> Z * Z * Z * Z) : option (list (Z * Z * Z * Z)) :=
  let '(eax, _, _, _) := cpuid 0x80000000 in
  if s32 eax <? s32 0x80000008 then None
  else
    let '(_, _, _, edx) := cpuid 0x80000001 in
    if negb (Z.testbit edx 29) then None
    else Some [cpuid 0x80000002; cpuid 0x80000003; cpuid 0x80000004].

(** [enter_x64_mode]: the far return goes to the two words pushed. *)
Definition enter_x64_mode : Z * Z := (KERNEL_X64_CODE_SECTOR, 0x100000).

(** What runs at a jump: by the code segment and LMA. *)
Inductive cpu_mode := Real16 | Prot32 | Compat32 | Long64.
Definition mode_of (c : ctl) (cs : option segment) : option cpu_mode :=
  if negb (Z.testbit (cr0 c) PE) then Some Real16
  else match cs with
  | None => None
  | Some s =>
      if negb ((s_P s =? 1) && (s_S s =? 1) && Z.testbit (s_type s) 3) then None
      else if negb (Z.testbit (efer c) LMA) then Some Prot32
      else if negb (s_L s =? 1) then Some Compat32
      else if s_DB s =? 0 then Some Long64 else None
  end.

(** [kernel_main], with the descriptor table it is entered with: memory, the
    registers and the far address it ends at. *)
Definition kernel_main (cpuid : Z -> Z * Z * Z * Z) (g_gdt : Z) (m : mem) (gdtr : Z * Z) (c : ctl)
  : option (mem * (Z * Z) * ctl * (Z * Z)) :=
  _ ← check_x64_support cpuid;
  '(m, c) ← enter_ia32e m c;
  let '(m, gdtr) := gdt_init g_gdt m gdtr in
  (* check_ia32e_status only prints *)
  Some (m, gdtr, c, enter_x64_mode).

(** ** Into long mode *)

(** Bits of the registers that the code sets and leaves. *)
Lemma or_pg_bit v i : 0 <= i -> Z.testbit (v .| 0x80000000) i = (Z.testbit v i || (i =? 31))%bool.
Proof. intros Hi. change 0x80000000 with (1 .<< 31). by apply lor_bit_testbit. Qed.

(** From protected mode without paging, the three steps make long mode active. *)
Lemma long_mode_on c : Z.testbit (cr0 c) PE = true -> Z.testbit (cr0 c) PG = false ->
  exists c', or_cr0_pg (bts_efer_lme (bts_cr4_pae c)) = Some c' /\ cr3 c' = cr3 c /\ Z.testbit (cr0 c') PE = true /\
    Z.testbit (cr0 c') PG = true /\ Z.testbit (cr4 c') PAE = true /\ Z.testbit (efer c') LMA = true.
Proof.
  unfold PE, PG, PAE, LMA. intros Hpe Hpg. unfold or_cr0_pg, mov_cr0, bts_efer_lme, bts_cr4_pae, PG, LME, PAE, LMA. cbn [cr0 cr3 cr4 efer].
  rewrite or_pg_bit, orb_true_r, Hpg, !Z.setbit_eq by lia. eexists. split; [reflexivity|]. cbn [cr0 cr3 cr4 efer].
  rewrite !or_pg_bit, Hpe, orb_true_r, !Z.setbit_eq by lia. done.
Qed.

(** The order matters: paging before LME, or without PAE, does not make it active. *)
Lemma paging_without_lme c c' : Z.testbit (cr0 c) PG = false -> Z.testbit (efer c) LME = false -> Z.testbit (efer c) LMA = false ->
  or_cr0_pg c = Some c' -> Z.testbit (efer c') LMA = false.
Proof.
  intros Hpg Hl Hm. unfold or_cr0_pg, mov_cr0. rewrite Hpg, Hl. case_if; intros [= <-]; cbn [efer]; [done|].
  by apply Z.clearbit_eq.
Qed.

(** A processor that answers with a number below 2^31, as those without extended
    functions may, gets past the first test, which compares signed numbers. *)
Lemma check_x64_support_signed cpuid eax ebx ecx edx : cpuid 0x80000000 = (eax, ebx, ecx, edx) -> 0 <= eax < 0x80000000 ->
  check_x64_support cpuid = None -> exists a b c d, cpuid 0x80000001 = (a, b, c, d) /\ Z.testbit d 29 = false.
Proof.
  intros E Ha. unfold check_x64_support. rewrite E, s32_small by lia. change (s32 0x80000008) with (-2147483640).
  rewrite (proj2 (Z.ltb_ge eax (-2147483640))) by lia. destruct (cpuid 0x80000001) as [[[a b] c] d]. intros H.
  exists a, b, c, d. split; [done|]. by destruct (Z.testbit d 29).
Qed.

(** C17: Entered from setup.asm on a processor with long mode, [kernel_main] ends with a
    jump to the 64-bit kernel in 64-bit mode, the 32-bit code having become
    compatibility mode, on page tables that map the first 32 MiB to themselves. *)
Theorem kernel_main_long_mode cpuid g_gdt m0 base c eax ebx ecx edx a b cx d :
  let m := setup_gdt m0 base in
  cpuid 0x80000000 = (eax, ebx, ecx, edx) -> 0x80000008 <= eax < 4294967296 ->
  cpuid 0x80000001 = (a, b, cx, d) -> Z.testbit d 29 = true ->
  Z.testbit (cr0 c) PE = true -> Z.testbit (cr0 c) PG = false ->
  0 <= g_gdt -> g_gdt + 2048 <= 0x90000 -> 0 <= base -> base + 24 <= g_gdt ->
  exists m' gdtr' c' cs rip, kernel_main cpuid g_gdt m (setup_gdtr base) c = Some (m', gdtr', c', (cs, rip)) /\
    rip = X64_KERNEL_ADDR /\ mode_of c' (select m' gdtr' cs) = Some Long64 /\
    mode_of c' (select m' gdtr' CODE_SECTOR) = Some Compat32 /\ check_ia32e_status c' = 1 /\
    forall va, 0 <= va < 2 ^ 48 -> walk4 m' (cr3 c') va = if va <? 0x2000000 then Some va else None.
Proof.
  intros m Ec Ha Ed Hd Hpe Hpg Hg0 Hg1 Hb0 Hb1. unfold kernel_main, check_x64_support, enter_ia32e. rewrite Ec, Ed, Hd.
  rewrite (proj2 (Z.ltb_ge (s32 eax) (s32 0x80000008))) by (unfold s32, u32; repeat case_if; zlia).
  cbn [negb mbind option_bind]. pose proof (prepare_cr3 m) as Ecr. destruct (prepare_4level_page_table m) as [m1 r3] eqn:Ep. cbn [snd] in Ecr.
  destruct (long_mode_on (mov_cr3 r3 c)) as (c' & -> & E3 & Pe & _ & _ & Lma); [done..|]. cbn [mbind option_bind].
  assert (m1 = fst (prepare_4level_page_table m)) as Em1 by (by rewrite Ep).
  destruct (gdt_init g_gdt m1 (setup_gdtr base)) as [m' gdtr'] eqn:Eg.
  destruct (gdt_init_spec g_gdt m1 base m' gdtr') as (S1 & _ & (S3 & _) & _ & _ & _ & _ & Hf);
    [unfold g_gdtr; lia..|exact Eg|].
  assert (load_segment m1 (base + 8) = Seg 0xfffff 0 8 1 0 1 0 0 1 0) as Es1.
  { destruct (setup_gdt_segments m0 base) as [H _]. change (Some (load_segment m (base + 8)) = Some (Seg 0xfffff 0 8 1 0 1 0 0 1 0)) in H.
    apply Some_inj in H. rewrite <- H. apply load_segment_ext. intros i Hi. rewrite Em1. apply prepare_frame. lia. }
  eexists m', gdtr', c', _, _. split; [reflexivity|]. split; [done|]. unfold mode_of. rewrite Pe, Lma. cbn [negb].
  change CODE_SECTOR with KERNEL_CODE_SECTOR. rewrite S1, S3, Es1. split; [done|]. split; [done|].
  split; [unfold check_ia32e_status; change 10 with LMA; by rewrite Lma|]. intros va Hva. rewrite E3. cbn [mov_cr3 cr3]. rewrite Ecr.
  apply walk4_prepared; [|done]. intros x Hx Hr. transitivity (ld64 m1 x).
  - apply ldn_ext. intros y Hy. apply Hf. unfold beyond, g_gdtr. lia.
  - rewrite Em1. by apply prepare_words.
Qed.

Definition demo_cpuid (leaf : Z) : Z * Z * Z * Z := if leaf =? 0x80000000 then (0x80000008, 0, 0, 0) else (0, 0, 0, 0x20100800).

Lemma kernel_main_long_mode_witness :
  exists m' gdtr' c' cs rip, kernel_main demo_cpuid 0x6000 (setup_gdt ∅ 0x600) (setup_gdtr 0x600) (Ctl 0x60000011 0 0 0) =
      Some (m', gdtr', c', (cs, rip)) /\
    rip = X64_KERNEL_ADDR /\ mode_of c' (select m' gdtr' cs) = Some Long64 /\
    mode_of c' (select m' gdtr' CODE_SECTOR) = Some Compat32 /\ check_ia32e_status c' = 1 /\
    forall va, 0 <= va < 2 ^ 48 -> walk4 m' (cr3 c') va = if va <? 0x2000000 then Some va else None.
Proof.
  apply (kernel_main_long_mode demo_cpuid 0x6000 ∅ 0x600 (Ctl 0x60000011 0 0 0) 0x80000008 0 0 0 0 0 0 0x20100800);
    first [reflexivity | lia].
Defined.
