(* ===== verification/ApBoot.v ===== *)
(** The assembly the other processors start in, x86_kernel/boot/aps_boot.asm, as steps
    of processors that share memory: from the start message to the jump to the
    64-bit kernel's C function, of which [SmpBoot] models the rest.  A processor can
    get to that function in 32-bit mode, where the compiled 64-bit code means
    something else; what it does there is a parameter, and nothing is asked of it. *)

From S2P Require Import Prelude Mem BitField PageAlloc Alloc Gdt Disk Phymm Boot Paging Startup.
#[local] Open Scope kernel_scope.

Definition ap_entry : Z := 0xA000.
Definition ap_boot_lock_word : Z := 0xb000.
Definition ap_count_word : Z := 0x9F000.
Definition X64_STACK_SIZE : Z := 128.

(** ** One processor *)

(** The labels between which the instructions touch no shared word, or one. *)
Inductive ap_label :=
| aps_start          (* up to the first [mov eax, 1] in protected mode *)
| spin_lock32        (* .spin_lock: *)
| load_offset        (* mov eax, [ap_stack_offset] ... mov ebp, esp *)
| store_offset       (* add eax, 128; mov [ap_stack_offset], eax *)
| spin_unlock32      (* .spin_unlock: *)
| enter_64           (* .enter_64_long_mode: up to retf and [mov eax, 1] *)
| spin_lock64        (* spin_lock: *)
| spin_pause         (* spin_pause: pause; jmp spin_lock *)
| inc_count          (* inc dword [0x9F000] *)
| jump_entry         (* spin_unlock: mov rax, [0xA000]; jmp rax *)
| in_c               (* x64_ap_main, up to the store that frees the boot lock *)
| released
| astray.            (* x64_ap_main's code run in 32-bit mode *)
#[export] Instance ap_label_eq_dec : EqDecision ap_label.
Proof. solve_decision. Defined.

Record ap := Ap {
  at_ : ap_label; a_eax : Z; a_esp : Z; a_rip : Z; a_cs : Z; a_ds : Z; a_gdtr : Z * Z; a_ctl : ctl
}.

Section Ap.
(** Where the two words of the section .data are, and the label [long_mode]. *)
Context (ap_stack_lock ap_stack_offset long_mode : Z).
(** A step of a processor that runs the compiled 64-bit code of the kernel in 32-bit
    mode: to memory and to itself it may do anything. *)
Context (prot_code : mem -> ap -> option (mem * ap)).
Implicit Types (m : mem) (a : ap).

Definition goto (l : ap_label) a : ap := Ap l (a_eax a) (a_esp a) (a_rip a) (a_cs a) (a_ds a) (a_gdtr a) (a_ctl a).
Definition set_eax (v : Z) a : ap := Ap (at_ a) (u32 v) (a_esp a) (a_rip a) (a_cs a) (a_ds a) (a_gdtr a) (a_ctl a).
Definition set_esp (v : Z) a : ap := Ap (at_ a) (a_eax a) (u32 v) (a_rip a) (a_cs a) (a_ds a) (a_gdtr a) (a_ctl a).
Definition set_ctl (c : ctl) a : ap := Ap (at_ a) (a_eax a) (a_esp a) (a_rip a) (a_cs a) (a_ds a) (a_gdtr a) c.

(** [xchg eax, [w]; test eax, eax; jnz busy] *)
Definition try_lock (w : Z) (free busy : ap_label) m a : mem * ap :=
  let old := ld32 m w in
  let m := st32 m w (a_eax a) in
  (m, set_eax old (goto (if old =? 0 then free else busy) a)).

(** [aps_start] to [protected_mode]: lgdt in 16-bit code takes 24 bits of the base;
    the far jump and the moves load the selectors; eax is 1. *)
Definition step_start m a : option ap :=
  let gdtr := (ld16 m g_gdtr, ld32 m (g_gdtr + 2) .& 0xffffff) in
  c ← mov_cr0 (cr0 (a_ctl a) .| 1) (a_ctl a);
  Some (Ap spin_lock32 1 (a_esp a) (a_rip a) CODE_SECTOR DATA_SECTOR gdtr c).

(** [push v] in 32-bit code. *)
Definition push32 (v : Z) m a : mem * ap :=
  let a := set_esp (a_esp a - 4) a in (st32 m (a_esp a) v, a).
(** [.enter_64_long_mode]: PAE, the tables of the boot processor, LME, paging, and a
    far return to [long_mode] in the segment 0x18. *)
Definition step_enter m a : option (mem * ap) :=
  c ← or_cr0_pg (bts_efer_lme (mov_cr3 0x90000 (bts_cr4_pae (a_ctl a))));
  let a := set_ctl c a in
  let '(m, a) := push32 0x18 m a in
  let '(m, a) := push32 long_mode m a in
  let eip := ld32 m (a_esp a) in
  let cs := ld32 m (a_esp a + 4) in
  if eip =? long_mode then Some (m, Ap spin_lock64 1 (u32 (a_esp a + 8)) eip cs 0x20 (a_gdtr a) (a_ctl a)) else None.

(** One step.  The test that fails in 32-bit code goes to [spin_pause], not to
    [.spin_pause]: to the instructions from [spin_lock] on, which are encoded as in
    32-bit code but for a prefix of the last load, there a [dec eax].  Of
    x64_ap_main, which is 64-bit code, only the release is a step here; in 32-bit
    mode it is other code. *)
Definition ap_step m a : option (mem * ap) :=
  match at_ a with
  | aps_start => a ← step_start m a; Some (m, a)
  | spin_lock32 => Some (try_lock ap_stack_lock load_offset spin_pause m a)
  | load_offset => let v := ld32 m ap_stack_offset in Some (m, goto store_offset (set_esp v (set_eax v a)))
  | store_offset =>
      let a := set_eax (a_eax a + X64_STACK_SIZE) a in
      Some (st32 m ap_stack_offset (a_eax a), goto spin_unlock32 a)
  | spin_unlock32 => Some (st32 m ap_stack_lock 0, goto enter_64 a)
  | enter_64 => step_enter m a
  | spin_pause => Some (m, goto spin_lock64 a)
  | spin_lock64 => Some (try_lock ap_boot_lock_word inc_count spin_pause m a)
  | inc_count => Some (st32 m ap_count_word (ld32 m ap_count_word + 1), goto jump_entry a)
  | jump_entry =>
      let rip := if Z.testbit (efer (a_ctl a)) LMA then ld64 m ap_entry else ld32 m ap_entry in
      Some (m, Ap in_c (a_eax a) (a_esp a) rip (a_cs a) (a_ds a) (a_gdtr a) (a_ctl a))
  | in_c =>
      if Z.testbit (efer (a_ctl a)) LMA then Some (st32 m ap_boot_lock_word 0, goto released a)
      else '(m, a) ← prot_code m a; Some (m, goto astray a)
  | released => None
  | astray => '(m, a) ← prot_code m a; Some (m, goto astray a)
  end.

(** ** The machine *)

Record machine := Machine { b_mem : mem; b_aps : list ap }.
(** Processor [i] makes a step if it can. *)
Definition machine_step (M : machine) (i : nat) : machine :=
  match b_aps M !! i with
  | None => M
  | Some a => match ap_step (b_mem M) a with
              | None => M
              | Some (m, a) => Machine m (<[i := a]> (b_aps M))
              end
  end.
Definition run_aps (sched : list nat) (M : machine) : machine := foldl machine_step M sched.

(** ** The shared words *)

(** All that the steps read of memory. *)
Record words := Words { w_lock : Z; w_offset : Z; w_boot : Z; w_count : Z; w_entry : Z; w_gdtr : Z * Z }.
Definition words_of m : words :=
  Words (ld32 m ap_stack_lock) (ld32 m ap_stack_offset) (ld32 m ap_boot_lock_word) (ld32 m ap_count_word) (ld64 m ap_entry)
    (ld16 m g_gdtr, ld32 m (g_gdtr + 2) .& 0xffffff).
Definition set_lock v (w : words) := Words v (w_offset w) (w_boot w) (w_count w) (w_entry w) (w_gdtr w).
Definition set_offset v (w : words) := Words (w_lock w) v (w_boot w) (w_count w) (w_entry w) (w_gdtr w).
Definition set_boot v (w : words) := Words (w_lock w) (w_offset w) v (w_count w) (w_entry w) (w_gdtr w).
Definition set_count v (w : words) := Words (w_lock w) (w_offset w) (w_boot w) v (w_entry w) (w_gdtr w).

(** The steps on the words, those of [prot_code] apart. *)
Definition word_step (w : words) a : option (words * ap) :=
  match at_ a with
  | aps_start =>
      c ← mov_cr0 (cr0 (a_ctl a) .| 1) (a_ctl a);
      Some (w, Ap spin_lock32 1 (a_esp a) (a_rip a) CODE_SECTOR DATA_SECTOR (w_gdtr w) c)
  | spin_lock32 => Some (set_lock (u32 (a_eax a)) w, set_eax (w_lock w) (goto (if w_lock w =? 0 then load_offset else spin_pause) a))
  | load_offset => Some (w, goto store_offset (set_esp (w_offset w) (set_eax (w_offset w) a)))
  | store_offset => let a := set_eax (a_eax a + X64_STACK_SIZE) a in Some (set_offset (a_eax a) w, goto spin_unlock32 a)
  | spin_unlock32 => Some (set_lock 0 w, goto enter_64 a)
  | enter_64 =>
      c ← or_cr0_pg (bts_efer_lme (mov_cr3 0x90000 (bts_cr4_pae (a_ctl a))));
      Some (w, Ap spin_lock64 1 (a_esp a) long_mode 0x18 0x20 (a_gdtr a) c)
  | spin_pause => Some (w, goto spin_lock64 a)
  | spin_lock64 => Some (set_boot (u32 (a_eax a)) w, set_eax (w_boot w) (goto (if w_boot w =? 0 then inc_count else spin_pause) a))
  | inc_count => Some (set_count (u32 (w_count w + 1)) w, goto jump_entry a)
  | jump_entry =>
      Some (w, Ap in_c (a_eax a) (a_esp a) (if Z.testbit (efer (a_ctl a)) LMA then w_entry w else u32 (w_entry w))
        (a_cs a) (a_ds a) (a_gdtr a) (a_ctl a))
  | in_c => if Z.testbit (efer (a_ctl a)) LMA then Some (set_boot 0 w, goto released a) else None
  | released | astray => None
  end.

(** The two words lie in the two sectors of the program. *)
Context (Hlock : 0x8000 <= ap_stack_lock /\ ap_stack_lock + 4 <= 0x8400) (Hoff : 0x8000 <= ap_stack_offset /\ ap_stack_offset + 4 <= 0x8400).
Context (Hapart : ap_stack_lock + 4 <= ap_stack_offset \/ ap_stack_offset + 4 <= ap_stack_lock).
Context (Hlong : 0 <= long_mode < 4294967296).

Ltac word_ne := unfold ap_boot_lock_word, ap_count_word, ap_entry, g_gdtr in *; rewrite ?ld32_st32; try reflexivity;
  unfold ld32, ld16, ld64, st32; rewrite ?(ldn_stn_ne 4 4), ?(ldn_stn_ne 4 2), ?(ldn_stn_ne 4 8) by lia; reflexivity.
Lemma words_set_lock m v : words_of (st32 m ap_stack_lock v) = set_lock (u32 v) (words_of m).
Proof. unfold words_of, set_lock. cbn [w_lock w_offset w_boot w_count w_entry w_gdtr]. f_equal; [word_ne..|]. f_equal; [|f_equal]; word_ne. Qed.
Lemma words_set_offset m v : words_of (st32 m ap_stack_offset v) = set_offset (u32 v) (words_of m).
Proof. unfold words_of, set_offset. cbn [w_lock w_offset w_boot w_count w_entry w_gdtr]. f_equal; [word_ne..|]. f_equal; [|f_equal]; word_ne. Qed.
Lemma words_set_boot m v : words_of (st32 m ap_boot_lock_word v) = set_boot (u32 v) (words_of m).
Proof. unfold words_of, set_boot. cbn [w_lock w_offset w_boot w_count w_entry w_gdtr]. f_equal; [word_ne..|]. f_equal; [|f_equal]; word_ne. Qed.
Lemma words_set_count m v : words_of (st32 m ap_count_word v) = set_count (u32 v) (words_of m).
Proof. unfold words_of, set_count. cbn [w_lock w_offset w_boot w_count w_entry w_gdtr]. f_equal; [word_ne..|]. f_equal; [|f_equal]; word_ne. Qed.
(** A push on a stack between the program and the entry word. *)
Lemma words_push m x v : 0x8400 <= x -> x + 4 <= ap_entry -> words_of (st32 m x v) = words_of m.
Proof. intros H1 H2. unfold words_of. f_equal; [word_ne..|]. f_equal; [|f_equal]; word_ne. Qed.

Lemma try_lock_words w0 free busy m a :
  try_lock w0 free busy m a = (st32 m w0 (a_eax a), set_eax (ld32 m w0) (goto (if ld32 m w0 =? 0 then free else busy) a)).
Proof. done. Qed.

Lemma push32_twice v1 v2 m a : 0x8408 <= a_esp a <= ap_entry ->
  let m1 := st32 m (a_esp a - 4) v1 in
  (let '(m, a) := push32 v1 m a in push32 v2 m a) =
    (st32 m1 (a_esp a - 8) v2, set_esp (a_esp a - 8) a).
Proof.
  intros He m1. unfold ap_entry in He. unfold push32. cbn [a_esp set_esp at_ a_eax a_rip a_cs a_ds a_gdtr a_ctl].
  rewrite (u32_small (a_esp a - 4)), (u32_small (a_esp a - 4 - 4)) by lia. unfold set_esp. cbn [a_esp at_ a_eax a_rip a_cs a_ds a_gdtr a_ctl].
  replace (a_esp a - 4 - 4) with (a_esp a - 8) by lia. done.
Qed.

(** A step works on the words as [word_step] says, when its stack is where it should
    be. *)
Lemma step_enter_words m a : 0x8408 <= a_esp a <= ap_entry ->
  match or_cr0_pg (bts_efer_lme (mov_cr3 0x90000 (bts_cr4_pae (a_ctl a)))) with
  | None => step_enter m a = None
  | Some c => exists m', step_enter m a = Some (m', Ap spin_lock64 1 (a_esp a) long_mode 0x18 0x20 (a_gdtr a) c) /\
                words_of m' = words_of m
  end.
Proof.
  unfold ap_entry. intros He. unfold step_enter. destruct (or_cr0_pg _) as [c|]; [|done]. cbn [mbind option_bind].
  pose proof (push32_twice 0x18 long_mode m (set_ctl c a) He) as E. cbv zeta in E. cbn [a_esp set_ctl] in E.
  destruct (push32 0x18 m (set_ctl c a)) as [m1 a1]. rewrite E. cbn [a_esp set_esp a_gdtr a_ctl set_ctl].
  rewrite (u32_small (a_esp a - 8)), ld32_st32, (u32_small long_mode), Z.eqb_refl by lia.
  replace (a_esp a - 8 + 4) with (a_esp a - 4) by lia. replace (a_esp a - 8 + 8) with (a_esp a) by lia.
  unfold ld32 at 1, st32 at 1. rewrite (ldn_stn_ne 4 4) by lia. fold (ld32 (st32 m (a_esp a - 4) 0x18) (a_esp a - 4)).
  rewrite ld32_st32, (u32_small (a_esp a)) by lia. eexists. split; [reflexivity|].
  rewrite !words_push; [done|unfold ap_entry; lia..].
Qed.

Definition has_lma a : bool := Z.testbit (efer (a_ctl a)) LMA.
Definition strays a : Prop := at_ a = astray \/ at_ a = in_c /\ has_lma a = false.

Lemma ap_step_words m a : (at_ a = enter_64 -> 0x8408 <= a_esp a <= ap_entry) ->
  (ap_step m a = None /\ word_step (words_of m) a = None) \/
  (exists m' a', ap_step m a = Some (m', a') /\ word_step (words_of m) a = Some (words_of m', a')) \/
  strays a /\ word_step (words_of m) a = None /\ forall m' a', ap_step m a = Some (m', a') -> at_ a' = astray.
Proof.
  intros He. unfold ap_step, word_step, step_start. destruct (at_ a) eqn:Ea;
    try (right; left; eexists _, _; split; [reflexivity|]; cbn [set_eax a_eax goto];
         rewrite ?words_set_lock, ?words_set_offset, ?words_set_boot, ?words_set_count; reflexivity).
  - destruct (mov_cr0 _ _) as [c|]; [right; left|by left]. eexists _, _. by split.
  - right. left. eexists _, _. split; [reflexivity|]. cbn [set_eax a_eax]. rewrite words_set_offset, u32_idem. reflexivity.
  - pose proof (step_enter_words m a (He eq_refl)) as H. destruct (or_cr0_pg _) as [c|].
    + right. left. destruct H as (m' & -> & Hw). eexists _, _. split; [reflexivity|]. cbn [mbind option_bind]. by rewrite Hw.
    + left. by rewrite H.
  - right. left. eexists _, _. split; [reflexivity|]. cbn [words_of w_entry]. destruct (Z.testbit _ _); [done|]. do 3 f_equal.
    rewrite ld64_halves. unfold u32. rewrite Z.mul_comm, Z.mod_add by lia. apply Z.mod_small, ld32_bound.
  - destruct (Z.testbit _ _) eqn:El; right; [left|right].
    + eexists _, _. split; [reflexivity|]. by rewrite words_set_boot.
    + split; [by right|]. split; [done|]. intros m' a'. by destruct (prot_code m a) as [[m1 a1]|]; [intros [= _ <-]|].
  - by left.
  - right. right. split; [by left|]. split; [done|]. intros m' a'. by destruct (prot_code m a) as [[m1 a1]|]; [intros [= _ <-]|].
Qed.

(** ** The invariant *)

(** In the two critical sections; with a stack; with a stack that the offset is past. *)
Definition holds_stack_lock a : bool :=
  match at_ a with load_offset | store_offset | spin_unlock32 => true | _ => false end.
Definition holds_boot_lock a : bool := match at_ a with inc_count | jump_entry | in_c => true | _ => false end.
Definition has_stack a : bool :=
  match at_ a with
  | aps_start | spin_lock32 | load_offset => false
  | store_offset | spin_unlock32 | enter_64 => true
  | _ => has_lma a
  end.
Definition bumped a : bool := has_stack a && negb (bool_decide (at_ a = store_offset)).

(** Protected mode as setup.asm has it; the 64-bit mode of the boot processor. *)
Record prot a : Prop := {
  pr_pe : Z.testbit (cr0 (a_ctl a)) PE = true; pr_pg : Z.testbit (cr0 (a_ctl a)) PG = false;
  pr_lma : has_lma a = false; pr_cs : a_cs a = CODE_SECTOR
}.
Record long a : Prop := {
  lg_pe : Z.testbit (cr0 (a_ctl a)) PE = true; lg_lma : has_lma a = true; lg_cr3 : cr3 (a_ctl a) = 0x90000;
  lg_cs : a_cs a = KERNEL_X64_CODE_SECTOR; lg_ds : a_ds a = KERNEL_X64_DATA_SECTOR
}.
Definition own_stack (k : Z) a : Prop := exists j, 0 <= j < k /\ a_esp a = 0x9000 + X64_STACK_SIZE * j.

Definition ap_ok (w : words) (k : Z) a : Prop :=
  (at_ a = aps_start \/ a_gdtr a = w_gdtr w) /\
  match at_ a with
  | aps_start => Z.testbit (cr0 (a_ctl a)) PG = false /\ has_lma a = false
  | spin_lock32 => prot a /\ a_eax a = 1
  | load_offset => prot a
  | store_offset => prot a /\ a_esp a = w_offset w /\ a_eax a = w_offset w
  | spin_unlock32 | enter_64 => prot a /\ own_stack k a
  | spin_lock64 | spin_pause => (prot a \/ long a /\ own_stack k a) /\ a_eax a = 1
  | inc_count | jump_entry => prot a \/ long a /\ own_stack k a
  | in_c => prot a /\ a_rip a = u32 (w_entry w) \/ long a /\ own_stack k a /\ a_rip a = w_entry w
  | released => long a /\ own_stack k a
  | astray => False
  end.

Record aps_ok (w : words) (l : list ap) : Prop := {
  ak_len : Z.of_nat (length l) <= 32;
  ak_lock : w_lock w = 0 \/ w_lock w = 1;
  ak_boot : w_boot w = 0 \/ w_boot w = 1;
  ak_offset : w_offset w = 0x9000 + X64_STACK_SIZE * count_if bumped l;
  ak_ok i a : l !! i = Some a -> ap_ok w (count_if bumped l) a;
  ak_stack_lock i a : l !! i = Some a -> holds_stack_lock a = true -> w_lock w = 1;
  ak_boot_lock i a : l !! i = Some a -> holds_boot_lock a = true -> w_boot w = 1;
  ak_stack_mutex i j a b : l !! i = Some a -> l !! j = Some b -> holds_stack_lock a = true -> holds_stack_lock b = true -> i = j;
  ak_boot_mutex i j a b : l !! i = Some a -> l !! j = Some b -> holds_boot_lock a = true -> holds_boot_lock b = true -> i = j;
  ak_apart i j a b : l !! i = Some a -> l !! j = Some b -> has_stack a = true -> has_stack b = true -> i <> j -> a_esp a <> a_esp b
}.

Lemma bumped_own w k a : ap_ok w k a -> bumped a = true -> own_stack k a.
Proof.
  intros [_ Hok]. assert (prot a -> has_lma a = false) as Hp by apply pr_lma. unfold bumped, has_stack.
  destruct (at_ a); rewrite ?bool_decide_false by done; cbn [andb negb]; rewrite ?andb_true_r; intros Hb; try done;
    intuition congruence.
Qed.

Lemma own_stack_mono k k' a : own_stack k a -> k <= k' -> own_stack k' a.
Proof. intros (j & Hj & E) Hk. exists j. split; [lia|done]. Qed.

(** What does not concern the words or the stacks of others. *)
Lemma ap_ok_other w w' k k' b : ap_ok w k b -> k <= k' -> w_entry w' = w_entry w -> w_gdtr w' = w_gdtr w ->
  (w_offset w' = w_offset w \/ at_ b <> store_offset) -> ap_ok w' k' b.
Proof.
  intros [Hg Hok] Hk He Hgd Ho. split; [by rewrite Hgd|]. destruct (at_ b); rewrite ?He; try done;
    try (destruct Ho as [->|?]; done); intuition eauto using own_stack_mono.
Qed.

Lemma aps_ok_update w l i a w' a' k : aps_ok w l -> l !! i = Some a -> count_if bumped l = k ->
  w_entry w' = w_entry w -> w_gdtr w' = w_gdtr w -> (w_lock w' = 0 \/ w_lock w' = 1) -> (w_boot w' = 0 \/ w_boot w' = 1) ->
  (bumped a = true -> bumped a' = true) ->
  w_offset w' = w_offset w + X64_STACK_SIZE * (Z.b2z (bumped a') - Z.b2z (bumped a)) ->
  (w_offset w' = w_offset w \/ holds_stack_lock a = true) ->
  (w_lock w' = 1 \/ w_lock w' = w_lock w \/ holds_stack_lock a = true) ->
  (w_boot w' = 1 \/ w_boot w' = w_boot w \/ holds_boot_lock a = true) ->
  (holds_stack_lock a' = true -> w_lock w' = 1 /\ (holds_stack_lock a = true \/ w_lock w = 0)) ->
  (holds_boot_lock a' = true -> w_boot w' = 1 /\ (holds_boot_lock a = true \/ w_boot w = 0)) ->
  (has_stack a' = true -> has_stack a = true /\ a_esp a' = a_esp a \/ holds_stack_lock a = true /\ a_esp a' = w_offset w) ->
  ap_ok w' (k - Z.b2z (bumped a) + Z.b2z (bumped a')) a' ->
  aps_ok w' (<[i := a']> l).
Proof.
  intros [Hlen Hl Hb Ho Hok HsL HbL Hsm Hbm Hap] Hi <- He Hg Hl' Hb' Hbu Ho' Hoc Hlc Hbc Hs1 Hb1 Hst Ha'.
  pose proof (count_if_insert bumped l i a a' Hi) as Hk.
  assert (forall j b, <[i := a']> l !! j = Some b -> (j = i /\ b = a') \/ (j <> i /\ l !! j = Some b)) as Hc.
  { intros j b Hj. destruct (decide (j = i)) as [->|Hne]; [left|right].
    - rewrite list_lookup_insert_eq in Hj by (by eapply lookup_lt_Some). by injection Hj as <-.
    - by rewrite list_lookup_insert_ne in Hj. }
  split.
  - by rewrite length_insert.
  - done.
  - done.
  - rewrite Hk, Ho', Ho. lia.
  - intros j b Hj. destruct (Hc j b Hj) as [[-> ->]|[Hne Hj']]; [by rewrite Hk|].
    apply (ap_ok_other w) with (count_if bumped l); [by apply (Hok j)| |done|done|].
    + rewrite Hk. destruct (bumped a); [rewrite Hbu by done|]; destruct (bumped a'); cbn; lia.
    + destruct Hoc as [|Hh]; [by left|right]. intros Eb. apply Hne. apply (Hsm j i b a); try done. unfold holds_stack_lock. by rewrite Eb.
  - intros j b Hj Hh. destruct (Hc j b Hj) as [[-> ->]|[Hne Hj']]; [by apply Hs1|].
    destruct Hlc as [|[-> |Hh2]]; [done|by apply (HsL j b)|]. destruct Hne. by apply (Hsm j i b a).
  - intros j b Hj Hh. destruct (Hc j b Hj) as [[-> ->]|[Hne Hj']]; [by apply Hb1|].
    destruct Hbc as [|[-> |Hh2]]; [done|by apply (HbL j b)|]. destruct Hne. by apply (Hbm j i b a).
  - assert (forall j b, j <> i -> l !! j = Some b -> holds_stack_lock b = true -> holds_stack_lock a' = true -> False) as Hx.
    { intros j b Hne Hj Hh Hh'. destruct (Hs1 Hh') as [_ [Hh2|H0]]; [apply Hne; by apply (Hsm j i b a)|].
      rewrite (HsL j b) in H0; done. }
    intros j1 j2 b1 b2 H1 H2 Hh1 Hh2. destruct (Hc _ _ H1) as [[-> ->]|[N1 H1']], (Hc _ _ H2) as [[-> ->]|[N2 H2']]; [done|..].
    + destruct (Hx j2 b2); done.
    + destruct (Hx j1 b1); done.
    + by apply (Hsm j1 j2 b1 b2).
  - assert (forall j b, j <> i -> l !! j = Some b -> holds_boot_lock b = true -> holds_boot_lock a' = true -> False) as Hx.
    { intros j b Hne Hj Hh Hh'. destruct (Hb1 Hh') as [_ [Hh2|H0]]; [apply Hne; by apply (Hbm j i b a)|].
      rewrite (HbL j b) in H0; done. }
    intros j1 j2 b1 b2 H1 H2 Hh1 Hh2. destruct (Hc _ _ H1) as [[-> ->]|[N1 H1']], (Hc _ _ H2) as [[-> ->]|[N2 H2']]; [done|..].
    + destruct (Hx j2 b2); done.
    + destruct (Hx j1 b1); done.
    + by apply (Hbm j1 j2 b1 b2).
  - assert (forall j b, j <> i -> l !! j = Some b -> has_stack b = true -> has_stack a' = true -> a_esp b <> a_esp a') as Hx.
    { intros j b Hne Hj Hh Hh'. destruct (Hst Hh') as [[Hs0 ->]|[Hh2 ->]]; [by apply (Hap j i b a)|].
      destruct (bumped b) eqn:Eb.
      - destruct (bumped_own _ _ _ (Hok j b Hj) Eb) as (n & Hn & ->). rewrite Ho. unfold X64_STACK_SIZE. lia.
      - exfalso. apply Hne. apply (Hsm j i b a); try done. unfold bumped in Eb. rewrite Hh in Eb. cbn in Eb.
        apply negb_false_iff, bool_decide_eq_true in Eb. unfold holds_stack_lock. by rewrite Eb. }
    intros j1 j2 b1 b2 H1 H2 Hh1 Hh2 Hne. destruct (Hc _ _ H1) as [[-> ->]|[N1 H1']], (Hc _ _ H2) as [[-> ->]|[N2 H2']]; [done|..].
    + intros E. by apply (Hx j2 b2).
    + by apply (Hx j1 b1).
    + by apply (Hap j1 j2 b1 b2).
Qed.

Lemma mov_cr0_pe c c' : Z.testbit (cr0 c) PG = false -> Z.testbit (efer c) LMA = false -> mov_cr0 (cr0 c .| 1) c = Some c' ->
  Z.testbit (cr0 c') PE = true /\ Z.testbit (cr0 c') PG = false /\ Z.testbit (efer c') LMA = false.
Proof.
  intros Hpg Hl. unfold mov_cr0. change 1 with (1 .<< 0). rewrite lor_bit_testbit, Hpg by lia. change (PG =? 0) with false. cbn [orb].
  intros [= <-]. cbn [cr0 efer]. rewrite !lor_bit_testbit, Hpg by (unfold PE, PG; lia). split; [apply orb_true_r|].
  split; [done|]. by rewrite Z.clearbit_eq.
Qed.

(** The side conditions of [aps_ok_update] that computation settles. *)
Ltac labels :=
  unfold bumped, has_stack, holds_stack_lock, holds_boot_lock, set_eax, set_esp, goto, has_lma;
  cbn [at_ a_eax a_esp a_rip a_cs a_ds a_gdtr a_ctl set_lock set_offset set_boot set_count w_lock w_offset w_boot w_count w_entry w_gdtr];
  repeat match goal with
  | |- context [bool_decide (?x = ?y)] => let b := eval vm_compute in (bool_decide (x = y)) in change (bool_decide (x = y)) with b
  end; cbn [negb andb Z.b2z]; rewrite ?andb_true_r.
Ltac settle := intros; first [done | lia | (cbn [Z.b2z]; lia) | by left | by right; left | by right; right | by (split; [done|left]) | by (left; split)].

Ltac update Hinv Hi Hk := apply (aps_ok_update _ _ _ _ _ _ _ Hinv Hi Hk); labels; try settle.

(** The label does not matter to the mode. *)
Lemma prot_same a a' : prot a -> a_ctl a' = a_ctl a -> a_cs a' = a_cs a -> prot a'.
Proof. intros [] E1 E2. split; unfold has_lma in *; by rewrite ?E1, ?E2. Qed.
Lemma long_same a a' : long a -> a_ctl a' = a_ctl a -> a_cs a' = a_cs a -> a_ds a' = a_ds a -> long a'.
Proof. intros [] E1 E2 E3. split; unfold has_lma in *; by rewrite ?E1, ?E2, ?E3. Qed.
Lemma own_stack_same k k' a a' : own_stack k a -> k <= k' -> a_esp a' = a_esp a -> own_stack k' a'.
Proof. intros (j & Hj & E) Hk E'. exists j. split; [lia|]. by rewrite E'. Qed.
Lemma prot_lma a : prot a -> Z.testbit (efer (a_ctl a)) LMA = false.
Proof. apply pr_lma. Qed.
Lemma long_lma a : long a -> Z.testbit (efer (a_ctl a)) LMA = true.
Proof. apply lg_lma. Qed.

Section WordStep.
Context (w : words) (l : list ap) (i : nat) (Hinv : aps_ok w l).

Lemma start_ok a w' a' : l !! i = Some a -> at_ a = aps_start \/ at_ a = enter_64 -> word_step w a = Some (w', a') ->
  aps_ok w' (<[i := a']> l).
Proof.
  intros Hi Hlb Hstep. destruct (ak_ok _ _ Hinv i a Hi) as [Hg Hok]. destruct a as [lb eax esp rip0 cs ds g c].
  assert (exists k, count_if bumped l = k) as [k Hk] by eauto. rewrite Hk in Hok.
  unfold word_step in Hstep. cbn [at_ a_eax a_esp a_rip a_cs a_ds a_gdtr a_ctl] in *.
  pose proof (ak_lock _ _ Hinv) as Hl. pose proof (ak_boot _ _ Hinv) as Hb. destruct Hlb as [-> | ->].
  - destruct (mov_cr0 _ _) as [c'|] eqn:Ec; [|done]. injection Hstep as <- <-. destruct Hok as [H1 H2].
    destruct (mov_cr0_pe c c' H1 H2 Ec) as (P1 & P2 & P3). update Hinv Hi Hk. split; [by right|]. by split.
  - destruct Hok as [Hp Hown].
    destruct (long_mode_on (mov_cr3 0x90000 c)) as (c' & Ec & E3 & P1 & _ & _ & P2); [apply Hp|apply Hp|].
    replace (mov_cr3 589824 (bts_cr4_pae c)) with (bts_cr4_pae (mov_cr3 0x90000 c)) in Hstep by reflexivity.
    rewrite Ec in Hstep. injection Hstep as <- <-. update Hinv Hi Hk; rewrite ?P2; try settle.
    split; [by destruct Hg; [done|right]|]. split; [right|done]. split; [by split|].
    apply own_stack_same with k (Ap enter_64 eax esp rip0 cs ds g c); [done|cbn [Z.b2z]; lia|done].
Qed.

Lemma stack_lock_ok a w' a' : l !! i = Some a -> at_ a = spin_lock32 \/ at_ a = load_offset \/ at_ a = store_offset \/ at_ a = spin_unlock32 ->
  word_step w a = Some (w', a') -> aps_ok w' (<[i := a']> l).
Proof.
  intros Hi Hlb Hstep. destruct (ak_ok _ _ Hinv i a Hi) as [Hg Hok]. pose proof (ak_stack_lock _ _ Hinv i a Hi) as HL.
  destruct a as [lb eax esp rip0 cs ds g c]. assert (exists k, count_if bumped l = k) as [k Hk] by eauto. rewrite Hk in Hok.
  pose proof (ak_offset _ _ Hinv) as Ho. rewrite Hk in Ho. pose proof (count_if_bound bumped l) as Hkb. rewrite Hk in Hkb.
  pose proof (ak_len _ _ Hinv) as Hlen. unfold X64_STACK_SIZE in Ho. assert (u32 (w_offset w) = w_offset w) as Hu by (apply u32_small; lia).
  unfold word_step in Hstep. unfold holds_stack_lock in HL. cbn [at_ a_eax a_esp a_rip a_cs a_ds a_gdtr a_ctl] in *.
  pose proof (ak_lock _ _ Hinv) as Hl. pose proof (ak_boot _ _ Hinv) as Hb. destruct Hlb as [-> |[-> |[-> | ->]]].
  - injection Hstep as <- <-. destruct Hok as [Hp ->]. pose proof (prot_lma _ Hp) as Hlm. cbn [a_ctl] in Hlm. change (u32 1) with 1.
    destruct Hl as [Hl|Hl]; rewrite Hl; cbn [Z.eqb]; update Hinv Hi Hk; rewrite ?Hlm; try settle.
    + split; [by destruct Hg; [done|right]|]. by apply (prot_same _ _ Hp).
    + split; [by destruct Hg; [done|right]|]. split; [left|done]. by apply (prot_same _ _ Hp).
  - injection Hstep as <- <-. specialize (HL eq_refl). update Hinv Hi Hk; rewrite ?Hu; try settle.
    split; [by destruct Hg; [done|right]|]. split; [by apply (prot_same _ _ Hok)|done].
  - injection Hstep as <- <-. specialize (HL eq_refl). destruct Hok as (Hp & -> & ->). unfold X64_STACK_SIZE.
    update Hinv Hi Hk; rewrite ?(u32_small (w_offset w + 128)) by lia; rewrite ?(u32_small (w_offset w + 128)) by lia; unfold X64_STACK_SIZE; try settle.
    split; [by destruct Hg; [done|right]|]. split; [by apply (prot_same _ _ Hp)|]. exists k. unfold X64_STACK_SIZE. cbn [a_esp]. lia.
  - injection Hstep as <- <-. destruct Hok as [Hp Hown]. update Hinv Hi Hk.
    split; [by destruct Hg; [done|right]|]. split; [by apply (prot_same _ _ Hp)|]. apply (own_stack_same _ _ _ _ Hown); [lia|done].
Qed.

Lemma long_ok a w' a' : l !! i = Some a ->
  at_ a = spin_lock64 \/ at_ a = spin_pause \/ at_ a = inc_count \/ at_ a = jump_entry \/ at_ a = in_c ->
  word_step w a = Some (w', a') -> aps_ok w' (<[i := a']> l).
Proof.
  intros Hi Hlb Hstep. destruct (ak_ok _ _ Hinv i a Hi) as [Hg Hok]. pose proof (ak_boot_lock _ _ Hinv i a Hi) as HB.
  destruct a as [lb eax esp rip0 cs ds g c]. assert (exists k, count_if bumped l = k) as [k Hk] by eauto. rewrite Hk in Hok.
  unfold word_step in Hstep. unfold holds_boot_lock in HB. cbn [at_ a_eax a_esp a_rip a_cs a_ds a_gdtr a_ctl] in *.
  pose proof (ak_lock _ _ Hinv) as Hl. pose proof (ak_boot _ _ Hinv) as Hb.
  assert (forall a', a_ctl a' = c -> a_cs a' = cs -> a_ds a' = ds -> a_esp a' = esp ->
    (prot (Ap lb eax esp rip0 cs ds g c) \/ long (Ap lb eax esp rip0 cs ds g c) /\ own_stack k (Ap lb eax esp rip0 cs ds g c)) ->
    forall k', k <= k' -> prot a' \/ long a' /\ own_stack k' a') as Hkeep.
  { intros a0 E1 E2 E3 E4 [Hp|[Hlg Hown]] k' Hk'; [left; by apply (prot_same _ _ Hp)|right].
    split; [by apply (long_same _ _ Hlg)|by apply (own_stack_same _ _ _ _ Hown)]. }
  destruct Hlb as [-> |[-> |[-> |[-> | ->]]]].
  - injection Hstep as <- <-. destruct Hok as [Hp ->]. change (u32 1) with 1.
    destruct Hb as [Hb|Hb]; rewrite Hb; cbn [Z.eqb]; update Hinv Hi Hk.
    + split; [by destruct Hg; [done|right]|]. apply Hkeep; done || lia.
    + split; [by destruct Hg; [done|right]|]. split; [apply Hkeep; done || lia|done].
  - injection Hstep as <- <-. destruct Hok as [Hp ->]. update Hinv Hi Hk.
    split; [by destruct Hg; [done|right]|]. split; [apply Hkeep; done || lia|done].
  - injection Hstep as <- <-. specialize (HB eq_refl). update Hinv Hi Hk.
    split; [by destruct Hg; [done|right]|]. apply Hkeep; done || lia.
  - apply Some_inj, pair_equal_spec in Hstep as [<- <-]. specialize (HB eq_refl). update Hinv Hi Hk.
    split; [by destruct Hg; [done|right]|]. cbn [at_]. destruct Hok as [Hp|[Hlg Hown]].
    + left. pose proof (prot_lma _ Hp) as E. cbn [a_ctl] in E. split; [by apply (prot_same _ _ Hp)|]. cbn [a_rip]. by rewrite E.
    + right. pose proof (long_lma _ Hlg) as E. cbn [a_ctl] in E. split; [by apply (long_same _ _ Hlg)|].
      split; [apply (own_stack_same _ _ _ _ Hown); done || lia|]. cbn [a_rip]. by rewrite E.
  - destruct (Z.testbit (efer c) LMA) eqn:E; [|done]. injection Hstep as <- <-. specialize (HB eq_refl).
    destruct Hok as [[Hp _]|(Hlg & Hown & _)]; [pose proof (prot_lma _ Hp) as E2; cbn [a_ctl] in E2; congruence|]. update Hinv Hi Hk.
    split; [by destruct Hg; [done|right]|]. split; [by apply (long_same _ _ Hlg)|].
    apply (own_stack_same _ _ _ _ Hown); done || lia.
Qed.

Lemma word_step_ok a w' a' : l !! i = Some a -> word_step w a = Some (w', a') -> aps_ok w' (<[i := a']> l).
Proof.
  intros Hi Hs. destruct (at_ a) eqn:Ea;
    first [apply (start_ok a); auto; fail | apply (stack_lock_ok a); auto; fail | apply (long_ok a); auto 7; fail | idtac].
  all: unfold word_step in Hs; by rewrite Ea in Hs.
Qed.
End WordStep.

(** Every step of every processor keeps the invariant, and an entry of the stack
    program is where [ap_step_words] needs it. *)
Lemma enter_stack w l i a : aps_ok w l -> l !! i = Some a -> at_ a = enter_64 -> 0x8408 <= a_esp a <= ap_entry.
Proof.
  intros Hinv Hi Ea. destruct (ak_ok _ _ Hinv i a Hi) as [_ Hok]. rewrite Ea in Hok. destruct Hok as [_ (j & Hj & ->)].
  pose proof (count_if_bound bumped l). pose proof (ak_len _ _ Hinv). unfold X64_STACK_SIZE, ap_entry. lia.
Qed.

Lemma machine_step_words M i : aps_ok (words_of (b_mem M)) (b_aps M) ->
  let M' := machine_step M i in
  M' = M \/ (exists a a', b_aps M !! i = Some a /\ word_step (words_of (b_mem M)) a = Some (words_of (b_mem M'), a') /\
    b_aps M' = <[i := a']> (b_aps M)) \/
  exists a a', b_aps M !! i = Some a /\ at_ a = in_c /\ b_aps M' !! i = Some a' /\ at_ a' = astray.
Proof.
  intros Hok M'. unfold M', machine_step. destruct (b_aps M !! i) as [a|] eqn:Hi; [|by left].
  destruct (ap_step_words (b_mem M) a) as [[-> _]|[(m' & a' & -> & E)|([Ea|[Ea _]] & _ & Hst)]]; [|by left| | |].
  - intros Ea. by apply (enter_stack _ _ i _ Hok).
  - right. left. exists a, a'. by split.
  - destruct (ak_ok _ _ Hok i a Hi) as [_ H]. by rewrite Ea in H.
  - destruct (ap_step (b_mem M) a) as [[m' a']|]; [|by left]. right. right. exists a, a'. split; [done|]. split; [done|].
    cbn [b_aps]. rewrite list_lookup_insert_eq by (by eapply lookup_lt_Some). split; [done|]. by eapply Hst.
Qed.

(** A processor that has gone astray stays so. *)
Lemma astray_step M i k a : b_aps M !! i = Some a -> at_ a = astray ->
  exists a', b_aps (machine_step M k) !! i = Some a' /\ at_ a' = astray.
Proof.
  intros Hi Ea. unfold machine_step. destruct (b_aps M !! k) as [b|] eqn:Hk; [|by eexists].
  destruct (ap_step (b_mem M) b) as [[m' b']|] eqn:Eb; [|by eexists]. cbn [b_aps].
  destruct (decide (i = k)) as [->|Hne]; [|rewrite list_lookup_insert_ne by done; by eexists].
  rewrite list_lookup_insert_eq by (by eapply lookup_lt_Some). eexists. split; [done|]. rewrite Hi in Hk. injection Hk as <-.
  unfold ap_step in Eb. rewrite Ea in Eb. by destruct (prot_code (b_mem M) a) as [[m1 a1]|]; [injection Eb as _ <-|].
Qed.

Lemma astray_run sched M i a : b_aps M !! i = Some a -> at_ a = astray ->
  exists a', b_aps (run_aps sched M) !! i = Some a' /\ at_ a' = astray.
Proof.
  revert M a. induction sched as [|k sched IH]; intros M a Hi Ea; [by eexists|].
  destruct (astray_step M i k a Hi Ea) as (a' & Hi' & Ea'). by apply (IH (machine_step M k) a').
Qed.

Definition none_astray M : Prop := forall i a, b_aps M !! i = Some a -> at_ a <> astray.

(** A run at whose end nobody is astray is made of steps on the words. *)
Lemma run_ok_entry sched M : aps_ok (words_of (b_mem M)) (b_aps M) -> none_astray (run_aps sched M) ->
  let M' := run_aps sched M in
  aps_ok (words_of (b_mem M')) (b_aps M') /\ w_entry (words_of (b_mem M')) = w_entry (words_of (b_mem M)).
Proof.
  revert M. induction sched as [|i sched IH]; intros M Hok Hna; [by split|].
  change (run_aps (i :: sched) M) with (run_aps sched (machine_step M i)) in *. cbv zeta.
  destruct (machine_step_words M i Hok) as [E|[(a & a' & Hi & Hs & El)|(a & a' & _ & _ & Hi' & Ea')]].
  - rewrite E in *. by apply IH.
  - destruct (IH (machine_step M i)) as [H1 H2]; [rewrite El; by apply (word_step_ok _ _ i Hok a)|done|].
    split; [done|]. rewrite H2. unfold word_step in Hs. clear -Hs.
    generalize dependent (words_of (b_mem (machine_step M i))). intros w' Hs.
    destruct (at_ a); try (destruct (mov_cr0 _ _)); try (destruct (or_cr0_pg _)); try (destruct (Z.testbit _ _)); cbn in Hs; by simplify_eq.
  - exfalso. destruct (astray_run sched _ i a' Hi' Ea') as (b & Hb & Eb). by apply (Hna i b).
Qed.

(** The machine as it is when the start message has been sent to [n] processors. *)
Record aps_init M (e : Z) : Prop := {
  ai_len : (length (b_aps M) <= 32)%nat;
  ai_lock : ld32 (b_mem M) ap_stack_lock = 0;
  ai_offset : ld32 (b_mem M) ap_stack_offset = 0x9000;
  ai_boot : ld32 (b_mem M) ap_boot_lock_word = 0;
  ai_entry : ld64 (b_mem M) ap_entry = e;
  ai_aps i a : b_aps M !! i = Some a -> at_ a = aps_start /\ Z.testbit (cr0 (a_ctl a)) PG = false /\ has_lma a = false
}.

Lemma aps_init_ok M e : aps_init M e -> aps_ok (words_of (b_mem M)) (b_aps M).
Proof.
  intros [Hn Hl Ho Hb He Ha].
  assert (forall i a, b_aps M !! i = Some a -> holds_stack_lock a = false /\ holds_boot_lock a = false /\ has_stack a = false /\ bumped a = false) as H.
  { intros i a Hi. destruct (Ha i a Hi) as (E & _). unfold holds_stack_lock, holds_boot_lock, bumped, has_stack. by rewrite E. }
  assert (count_if bumped (b_aps M) = 0) as Hk.
  { clear -H. induction (b_aps M) as [|a l IH]; [done|]. rewrite count_if_cons, IH.
    - destruct (H 0%nat a eq_refl) as (_ & _ & _ & ->). done.
    - intros i b Hi. by apply (H (S i)). }
  split; cbn [words_of w_lock w_offset w_boot]; rewrite ?Hk; try (by left); try lia.
  - intros i a Hi. destruct (Ha i a Hi) as (E & E2). split; [by left|]. by rewrite E.
  - intros i a Hi Hh. destruct (H i a Hi) as (E & _). congruence.
  - intros i a Hi Hh. destruct (H i a Hi) as (_ & E & _). congruence.
  - intros i j a b Hi _ Hh. destruct (H i a Hi) as (E & _). congruence.
  - intros i j a b Hi _ Hh. destruct (H i a Hi) as (_ & E & _). congruence.
  - intros i j a b Hi _ Hh. destruct (H i a Hi) as (_ & _ & E & _). congruence.
Qed.

Lemma prot_mode a s : prot a -> s_P s = 1 -> s_S s = 1 -> s_type s = 8 -> mode_of (a_ctl a) (Some s) = Some Prot32.
Proof. intros [H1 _ H3 _] E1 E2 E3. unfold mode_of. unfold has_lma in H3. by rewrite H1, H3, E1, E2, E3. Qed.
Lemma long_mode_of a : long a -> mode_of (a_ctl a) (Some (code64 0)) = Some Long64.
Proof. intros [H1 H2 _ _ _]. unfold mode_of. unfold has_lma in H2. by rewrite H1, H2. Qed.

Lemma in_c_cases w k a : ap_ok w k a -> at_ a = in_c \/ at_ a = released -> mode_of (a_ctl a) (Some (code64 0)) = Some Long64 ->
  long a /\ own_stack k a.
Proof.
  intros [_ Hok] Ha Hm. assert (prot a -> False) as Hp by (intros H; rewrite (prot_mode a (code64 0) H) in Hm; done).
  destruct Ha as [E|E]; rewrite E in Hok; tauto.
Qed.

(** C4: In whatever order the processors take their steps, those that are in the C
    function or past it in 64-bit mode are there with the selectors and page tables
    of the boot processor, at its entry point, on stacks of 128 bytes that are
    theirs alone; a processor there that is not in 64-bit mode is still in the
    protected mode it came through; one processor at a time is in.  This is of every
    state up to the first step that a processor in protected mode makes in the C
    function, behind which nothing is known of memory. *)
Theorem ap_boot_safe sched M e : aps_init M e -> none_astray (run_aps sched M) ->
  let l := b_aps (run_aps sched M) in
  (forall i a, l !! i = Some a -> at_ a = in_c ->
    mode_of (a_ctl a) (Some (code64 0)) = Some Long64 /\ a_rip a = e /\ a_cs a = KERNEL_X64_CODE_SECTOR /\
      a_ds a = KERNEL_X64_DATA_SECTOR /\ cr3 (a_ctl a) = 0x90000 \/
    mode_of (a_ctl a) (Some (Seg 0xfffff 0 8 1 0 1 0 0 1 0)) = Some Prot32 /\ a_rip a = u32 e /\ a_cs a = CODE_SECTOR) /\
  (forall i a, l !! i = Some a -> at_ a = in_c \/ at_ a = released -> mode_of (a_ctl a) (Some (code64 0)) = Some Long64 ->
    exists j, 0 <= j < 32 /\ a_esp a = 0x9000 + X64_STACK_SIZE * j /\
      forall k b, l !! k = Some b -> at_ b = in_c \/ at_ b = released -> mode_of (a_ctl b) (Some (code64 0)) = Some Long64 ->
        k <> i -> a_esp a + X64_STACK_SIZE <= a_esp b \/ a_esp b + X64_STACK_SIZE <= a_esp a) /\
  (forall i k a b, l !! i = Some a -> l !! k = Some b -> at_ a = in_c -> at_ b = in_c -> i = k).
Proof.
  intros Hinit Hna l. destruct (run_ok_entry sched M (aps_init_ok M e Hinit) Hna) as [Hok He]. fold l in Hok.
  cbn [words_of w_entry] in He. rewrite (ai_entry _ _ Hinit) in He.
  clearbody l. pose proof (count_if_bound bumped l) as Hk. pose proof (ak_len _ _ Hok) as Hlen. split; [|split].
  - intros i a Hi Ea. destruct (ak_ok _ _ Hok i a Hi) as [_ H]. rewrite Ea in H. cbn [words_of w_entry] in H. rewrite He in H.
    destruct H as [[Hp Hr]|(Hlg & _ & Hr)]; [right|left].
    + split; [by apply prot_mode|]. split; [done|apply Hp].
    + split; [by apply long_mode_of|]. split; [done|]. split; [apply Hlg|]. split; apply Hlg.
  - intros i a Hi Ea Hm. destruct (in_c_cases _ _ a (ak_ok _ _ Hok i a Hi) Ea Hm) as [Hlg (j & Hj & Ej)].
    exists j. split; [lia|]. split; [done|]. intros k b Hb Eb Hmb Hne.
    destruct (in_c_cases _ _ b (ak_ok _ _ Hok k b Hb) Eb Hmb) as [Hlb (j' & Hj' & Ej')].
    assert (forall a, long a -> at_ a = in_c \/ at_ a = released -> has_stack a = true) as Hs.
    { intros x Hx Ex. unfold has_stack. pose proof (lg_lma _ Hx). by destruct Ex as [-> | ->]. }
    pose proof (ak_apart _ _ Hok k i b a Hb Hi (Hs b Hlb Eb) (Hs a Hlg Ea) Hne). unfold X64_STACK_SIZE in *. lia.
  - intros i k a b Hi Hb Ea Eb. apply (ak_boot_mutex _ _ Hok i k a b); try done; unfold holds_boot_lock; [by rewrite Ea|by rewrite Eb].
Qed.

(** ** The processor that comes second *)

Lemma machine_step_do M i a w' a' : b_aps M !! i = Some a -> word_step (words_of (b_mem M)) a = Some (w', a') -> at_ a <> enter_64 ->
  words_of (b_mem (machine_step M i)) = w' /\ b_aps (machine_step M i) = <[i := a']> (b_aps M).
Proof.
  intros Hi Hs Ha. unfold machine_step. rewrite Hi. destruct (ap_step_words (b_mem M) a) as [[_ E]|[(m' & a2 & E1 & E2)|(_ & E & _)]]; [done|congruence| |congruence].
  rewrite E1. rewrite Hs in E2. injection E2 as -> ->. done.
Qed.

(** Processor [i] is in the C function in 32-bit mode; the others are not in and
    never were. *)
Record lost M (i : nat) (a : ap) (c : Z) : Prop := {
  lo_ok : aps_ok (words_of (b_mem M)) (b_aps M);
  lo_ap : b_aps M !! i = Some a;
  lo_at : at_ a = in_c /\ prot a;
  lo_others k b : b_aps M !! k = Some b -> k <> i -> at_ b <> released;
  lo_count : w_count (words_of (b_mem M)) = c
}.

Lemma not_holding M i a c k b : lost M i a c -> b_aps M !! k = Some b -> k <> i -> holds_boot_lock b = false.
Proof.
  intros [Hok Hi [Ea _] _ _] Hb Hne. destruct (holds_boot_lock b) eqn:E; [|done].
  destruct Hne. apply (ak_boot_mutex _ _ Hok k i b a); try done. unfold holds_boot_lock. by rewrite Ea.
Qed.

(** A processor that does not hold the boot lock leaves the counter alone and does
    not get past the C function. *)
Lemma word_step_outside w b w' b' : holds_boot_lock b = false -> word_step w b = Some (w', b') ->
  w_count w' = w_count w /\ at_ b' <> released.
Proof.
  unfold holds_boot_lock, word_step. intros Hh Hs.
  destruct (at_ b); try done; try (destruct (mov_cr0 _ _)); try (destruct (or_cr0_pg _)); cbn in Hs; simplify_eq; try done.
  - by destruct (w_lock w =? 0).
  - by destruct (w_boot w =? 0).
Qed.

(** The steps of the others leave it so. *)
Lemma lost_step M i a c k : lost M i a c -> k <> i -> lost (machine_step M k) i a c.
Proof.
  intros HL Hne.
  destruct (machine_step_words M k (lo_ok _ _ _ _ HL)) as [E|[(b & b' & Hb & Hs & El)|(b & b' & Hb & Eb & _)]]; [by rewrite E in *| |].
  - destruct (word_step_outside _ _ _ _ (not_holding _ _ _ _ _ _ HL Hb Hne) Hs) as [Hc Hr].
    pose proof (word_step_ok _ _ k (lo_ok _ _ _ _ HL) b _ b' Hb Hs) as Hok'. rewrite <- El in Hok'.
    destruct HL as [_ Hi Ha Ho Hc0]. split; [exact Hok'|by rewrite El, list_lookup_insert_ne by done|done| |by rewrite Hc].
    intros j d Hj Hnj. rewrite El in Hj. destruct (decide (j = k)) as [->|Hnk].
    + rewrite list_lookup_insert_eq in Hj by (by eapply lookup_lt_Some). by injection Hj as <-.
    + rewrite list_lookup_insert_ne in Hj by done. by apply (Ho j).
  - pose proof (not_holding _ _ _ _ _ _ HL Hb Hne) as Hh. unfold holds_boot_lock in Hh. by rewrite Eb in Hh.
Qed.

Lemma lost_run M i a c sched : lost M i a c -> i ∉ sched -> lost (run_aps sched M) i a c.
Proof.
  revert M. induction sched as [|k sched IH]; intros M H Hn; [done|]. apply not_elem_of_cons in Hn as [Hk Hn].
  apply (IH (machine_step M k)); [by apply lost_step|done].
Qed.

(** Words and the first two processors known, and a step from there. *)
Definition two_is M (w : words) (a0 a1 : ap) (l : list ap) : Prop := words_of (b_mem M) = w /\ b_aps M = a0 :: a1 :: l.
Lemma two_step0 M w w' a0 a0' a1 l : two_is M w a0 a1 l -> word_step w a0 = Some (w', a0') -> at_ a0 <> enter_64 ->
  two_is (machine_step M 0) w' a0' a1 l.
Proof. intros [<- El] Hs Ha. destruct (machine_step_do M 0 a0 w' a0') as [E1 E2]; [by rewrite El|done|done|]. split; [done|]. by rewrite E2, El. Qed.
Lemma two_step1 M w w' a0 a1 a1' l : two_is M w a0 a1 l -> word_step w a1 = Some (w', a1') -> at_ a1 <> enter_64 ->
  two_is (machine_step M 1) w' a0 a1' l.
Proof. intros [<- El] Hs Ha. destruct (machine_step_do M 1 a1 w' a1') as [E1 E2]; [by rewrite El|done|done|]. split; [done|]. by rewrite E2, El. Qed.

Lemma mov_cr0_start c : Z.testbit (cr0 c) PG = false -> exists c', mov_cr0 (cr0 c .| 1) c = Some c'.
Proof.
  intros H. unfold mov_cr0. change 1 with (1 .<< 0). rewrite lor_bit_testbit, H by lia. change (PG =? 0) with false. by eexists.
Qed.

Lemma contended_run M e a0 a1 l : aps_init M e -> b_aps M = a0 :: a1 :: l -> exists c1,
  lost (run_aps [0; 0; 1; 1; 1; 1; 1; 1]%nat M) 1
    (Ap in_c 0 (a_esp a1) (u32 e) CODE_SECTOR DATA_SECTOR (w_gdtr (words_of (b_mem M))) c1)
    (u32 (ld32 (b_mem M) ap_count_word + 1)).
Proof.
  intros Hinit El. pose proof (run_ok_entry [0; 0; 1; 1; 1; 1; 1; 1]%nat M (aps_init_ok M e Hinit)) as Hok. cbv zeta in Hok.
  destruct (ai_aps _ _ Hinit 0 a0) as (E0 & P0 & _); [by rewrite El|]. destruct (ai_aps _ _ Hinit 1 a1) as (E1 & P1 & L1); [by rewrite El|].
  destruct (mov_cr0_start _ P0) as [c0 C0]. destruct (mov_cr0_start _ P1) as [c1 C1].
  destruct (mov_cr0_pe _ _ P1 L1 C1) as (Q1 & Q2 & Q3). exists c1.
  set (gd := w_gdtr _) in *. set (cnt := ld32 (b_mem M) ap_count_word) in *.
  assert (two_is M (Words 0 0x9000 0 cnt e gd) a0 a1 l) as S0.
  { split; [|done]. unfold gd, words_of. by rewrite (ai_lock _ _ Hinit), (ai_offset _ _ Hinit), (ai_boot _ _ Hinit), (ai_entry _ _ Hinit). }
  clearbody gd cnt.
  set (b0 lb eax := Ap lb eax (a_esp a0) (a_rip a0) CODE_SECTOR DATA_SECTOR gd c0).
  set (b1 lb eax rip := Ap lb eax (a_esp a1) rip CODE_SECTOR DATA_SECTOR gd c1).
  pose proof (two_step0 _ _ (Words 0 0x9000 0 cnt e gd) _ (b0 spin_lock32 1) _ _ S0 ltac:(unfold word_step; rewrite E0, C0; reflexivity)
    ltac:(by rewrite E0)) as S1.
  pose proof (two_step0 _ _ (Words 1 0x9000 0 cnt e gd) _ (b0 load_offset 0) _ _ S1 eq_refl ltac:(done)) as S2.
  pose proof (two_step1 _ _ (Words 1 0x9000 0 cnt e gd) _ _ (b1 spin_lock32 1 (a_rip a1)) _ S2 ltac:(unfold word_step; rewrite E1, C1; reflexivity)
    ltac:(by rewrite E1)) as S3.
  pose proof (two_step1 _ _ (Words 1 0x9000 0 cnt e gd) _ _ (b1 spin_pause 1 (a_rip a1)) _ S3 eq_refl ltac:(done)) as S4.
  pose proof (two_step1 _ _ (Words 1 0x9000 0 cnt e gd) _ _ (b1 spin_lock64 1 (a_rip a1)) _ S4 eq_refl ltac:(done)) as S5.
  pose proof (two_step1 _ _ (Words 1 0x9000 1 cnt e gd) _ _ (b1 inc_count 0 (a_rip a1)) _ S5 eq_refl ltac:(done)) as S6.
  pose proof (two_step1 _ _ (Words 1 0x9000 1 (u32 (cnt + 1)) e gd) _ _ (b1 jump_entry 0 (a_rip a1)) _ S6 eq_refl ltac:(done)) as S7.
  pose proof (two_step1 _ _ (Words 1 0x9000 1 (u32 (cnt + 1)) e gd) _ _ (b1 in_c 0 (u32 e)) _ S7
    ltac:(unfold b1, word_step; cbn [at_ a_ctl a_eax a_esp a_cs a_ds a_gdtr]; rewrite Q3; reflexivity) ltac:(done)) as S8.
  change (machine_step (machine_step (machine_step (machine_step (machine_step (machine_step (machine_step (machine_step M 0) 0) 1) 1) 1) 1) 1) 1)
    with (run_aps [0; 0; 1; 1; 1; 1; 1; 1]%nat M) in S8. generalize dependent (run_aps [0; 0; 1; 1; 1; 1; 1; 1]%nat M). intros M8 Hok [W8 A8].
  assert (none_astray M8) as Hna.
  { intros [|[|k]] b; rewrite A8; [by intros [= <-]..|]. intros Hb.
    destruct (ai_aps _ _ Hinit (S (S k)) b) as (Eb & _); [by rewrite El|]. by rewrite Eb. }
  split; [by apply Hok|by rewrite A8|by split| |by rewrite W8].
  intros k b Hb Hk. rewrite A8 in Hb. destruct k as [|[|k]]; [by injection Hb as <-|done|].
  destruct (ai_aps _ _ Hinit (S (S k)) b) as (Eb & _); [by rewrite El|]. by rewrite Eb.
Qed.

(** C37: The second of two processors that finds the first in the stack section gets to
    the C function without having left protected mode or got a stack, and holds the
    boot lock there.  What the compiled 64-bit code then does in 32-bit mode is not
    known; but as long as this processor has not made a step of it, no other gets
    into the function or is counted, whatever steps the others make. *)
Theorem ap_contention_in_protected_mode M e : aps_init M e -> (2 <= length (b_aps M))%nat ->
  exists sched a a1, let M1 := run_aps sched M in
    b_aps M !! 1%nat = Some a /\ b_aps M1 !! 1%nat = Some a1 /\ at_ a1 = in_c /\
    mode_of (a_ctl a1) (Some (Seg 0xfffff 0 8 1 0 1 0 0 1 0)) = Some Prot32 /\ a_rip a1 = u32 e /\ a_esp a1 = a_esp a /\
    forall sched', 1%nat ∉ sched' -> let M2 := run_aps sched' M1 in
      b_aps M2 !! 1%nat = Some a1 /\ ld32 (b_mem M2) ap_boot_lock_word = 1 /\
      ld32 (b_mem M2) ap_count_word = u32 (ld32 (b_mem M) ap_count_word + 1) /\
      forall i b, b_aps M2 !! i = Some b -> i <> 1%nat -> at_ b <> in_c /\ at_ b <> released /\ at_ b <> astray.
Proof.
  intros Hinit Hn. destruct (b_aps M) as [|a0 [|a1 l]] eqn:El; cbn [length] in Hn; [lia..|].
  destruct (contended_run M e a0 a1 l Hinit El) as [c1 HL]. exists [0; 0; 1; 1; 1; 1; 1; 1]%nat, a1. eexists. intros M1.
  destruct (lo_at _ _ _ _ HL) as [_ Hp]. split; [done|]. split; [exact (lo_ap _ _ _ _ HL)|]. split; [done|].
  split; [by apply prot_mode|]. split; [done|]. split; [done|]. intros sched' Hs.
  pose proof (lost_run _ _ _ _ sched' HL Hs) as HL2. fold M1 in HL2. intros M2. fold M2 in HL2. clearbody M2. clear Hp.
  pose proof (lo_ok _ _ _ _ HL2) as Hok.
  split; [exact (lo_ap _ _ _ _ HL2)|]. split; [by apply (ak_boot_lock _ _ Hok 1%nat _ (lo_ap _ _ _ _ HL2))|].
  split; [exact (lo_count _ _ _ _ HL2)|].
  intros i b Hi Hne. split; [|split; [by apply (lo_others _ _ _ _ HL2 i)|]].
  - intros Eb. pose proof (not_holding _ _ _ _ _ _ HL2 Hi Hne) as Hh. unfold holds_boot_lock in Hh. by rewrite Eb in Hh.
  - intros Eb. destruct (ak_ok _ _ Hok i b Hi) as [_ H]. by rewrite Eb in H.
Qed.

(** ** One after the other *)

(** Words and processor [i] known. *)
Definition one_is M (w : words) (i : nat) (a : ap) (l : list ap) : Prop := words_of (b_mem M) = w /\ b_aps M = <[i := a]> l /\ (i < length l)%nat.
Lemma one_step M w w' i a a' l : one_is M w i a l -> word_step w a = Some (w', a') ->
  (at_ a = enter_64 -> 0x8408 <= a_esp a <= ap_entry) -> one_is (machine_step M i) w' i a' l.
Proof.
  intros (<- & El & Hl) Hs Ha. unfold machine_step. rewrite El, list_lookup_insert_eq by done.
  destruct (ap_step_words (b_mem M) a Ha) as [[_ E]|[(m' & a2 & E1 & E2)|(_ & E & _)]]; [congruence| |congruence]. rewrite E1.
  rewrite Hs in E2. injection E2 as -> ->. split; [done|]. split; [|done]. cbn [b_aps]. by rewrite list_insert_insert_eq.
Qed.

(** The ten steps of a processor that finds both locks free. *)
Lemma alone_run M i a o cnt e gd : words_of (b_mem M) = Words 0 o 0 cnt e gd -> 0x9000 <= o -> o + 128 <= ap_entry ->
  b_aps M !! i = Some a -> at_ a = aps_start -> Z.testbit (cr0 (a_ctl a)) PG = false -> has_lma a = false ->
  let M' := run_aps (replicate 10 i) M in
  words_of (b_mem M') = Words 0 (o + 128) 0 (u32 (cnt + 1)) e gd /\
  exists a', b_aps M' = <[i := a']> (b_aps M) /\ at_ a' = released /\ long a' /\ a_esp a' = o.
Proof.
  intros Hw Ho1 Ho2 Hi Ea Hpg Hl M'. destruct (mov_cr0_start _ Hpg) as [c1 C1].
  destruct (mov_cr0_pe _ _ Hpg Hl C1) as (Q1 & Q2 & Q3). unfold ap_entry in *.
  destruct (long_mode_on (mov_cr3 0x90000 c1)) as (c2 & C2 & E3 & R1 & _ & _ & R2); [done|done|].
  assert (one_is M (Words 0 o 0 cnt e gd) i a (b_aps M)) as S0.
  { split; [done|]. split; [by rewrite list_insert_id|by eapply lookup_lt_Some]. }
  pose proof (u32_small o ltac:(lia)) as Uo. pose proof (u32_small (o + 128) ltac:(lia)) as Uo2.
  set (b1 lb eax esp := Ap lb eax esp (a_rip a) CODE_SECTOR DATA_SECTOR gd c1).
  set (b2 lb eax rip := Ap lb eax o rip 0x18 0x20 gd c2).
  pose proof (one_step _ _ (Words 0 o 0 cnt e gd) _ _ (b1 spin_lock32 1 (a_esp a)) _ S0
    ltac:(unfold word_step; rewrite Ea, C1; reflexivity) ltac:(by rewrite Ea)) as S1.
  pose proof (one_step _ _ (Words 1 o 0 cnt e gd) _ _ (b1 load_offset 0 (a_esp a)) _ S1 eq_refl ltac:(done)) as S2.
  pose proof (one_step _ _ (Words 1 o 0 cnt e gd) _ _ (b1 store_offset o o) _ S2
    ltac:(unfold word_step, b1, goto, set_esp, set_eax; cbn [at_ a_eax a_esp a_rip a_cs a_ds a_gdtr a_ctl w_offset]; rewrite Uo; reflexivity) ltac:(done)) as S3.
  pose proof (one_step _ _ (Words 1 (o + 128) 0 cnt e gd) _ _ (b1 spin_unlock32 (o + 128) o) _ S3
    ltac:(unfold word_step, b1, goto, set_esp, set_eax, set_offset, X64_STACK_SIZE; cbn [at_ a_eax a_esp a_rip a_cs a_ds a_gdtr a_ctl w_offset]; rewrite Uo2; reflexivity) ltac:(done)) as S4.
  pose proof (one_step _ _ (Words 0 (o + 128) 0 cnt e gd) _ _ (b1 enter_64 (o + 128) o) _ S4 eq_refl ltac:(done)) as S5.
  pose proof (one_step _ _ (Words 0 (o + 128) 0 cnt e gd) _ _ (b2 spin_lock64 1 long_mode) _ S5
    ltac:(unfold word_step, b1; cbn [at_ a_ctl a_esp a_gdtr]; change (mov_cr3 589824 (bts_cr4_pae c1)) with (bts_cr4_pae (mov_cr3 0x90000 c1)); rewrite C2; reflexivity)
    ltac:(intros _; unfold b1, ap_entry; cbn [a_esp]; lia)) as S6.
  pose proof (one_step _ _ (Words 0 (o + 128) 1 cnt e gd) _ _ (b2 inc_count 0 long_mode) _ S6 eq_refl ltac:(done)) as S7.
  pose proof (one_step _ _ (Words 0 (o + 128) 1 (u32 (cnt + 1)) e gd) _ _ (b2 jump_entry 0 long_mode) _ S7 eq_refl ltac:(done)) as S8.
  pose proof (one_step _ _ (Words 0 (o + 128) 1 (u32 (cnt + 1)) e gd) _ _ (b2 in_c 0 e) _ S8
    ltac:(unfold b2, word_step; cbn [at_ a_ctl a_eax a_esp a_cs a_ds a_gdtr]; rewrite R2; reflexivity) ltac:(done)) as S9.
  pose proof (one_step _ _ (Words 0 (o + 128) 0 (u32 (cnt + 1)) e gd) _ _ (b2 released 0 e) _ S9
    ltac:(unfold b2, word_step; cbn [at_ a_ctl]; rewrite R2; reflexivity) ltac:(done)) as (W & A & _).
  split; [exact W|]. exists (b2 released 0 e). split; [exact A|]. split; [done|]. split; [|done].
  by split; unfold has_lma, b2; cbn [a_ctl a_cs a_ds].
Qed.

Definition in_turn (n : nat) : list nat := concat (replicate 10 <$> seq 0 n).

Lemma in_turn_run M e n : aps_init M e -> (n <= length (b_aps M))%nat -> let M' := run_aps (in_turn n) M in
  words_of (b_mem M') = Words 0 (0x9000 + 128 * Z.of_nat n) 0 (u32 (ld32 (b_mem M) ap_count_word + Z.of_nat n)) e (w_gdtr (words_of (b_mem M))) /\
  forall i, ((n <= i)%nat -> b_aps M' !! i = b_aps M !! i) /\
    ((i < n)%nat -> exists a, b_aps M' !! i = Some a /\ at_ a = released /\ long a /\ a_esp a = 0x9000 + 128 * Z.of_nat i).
Proof.
  intros Hinit. induction n as [|n IH]; intros Hn.
  - cbv zeta. change (run_aps (in_turn 0) M) with M. split; [|intros i; split; [done|lia]]. unfold words_of. cbn [w_gdtr].
    rewrite (ai_lock _ _ Hinit), (ai_offset _ _ Hinit), (ai_boot _ _ Hinit), (ai_entry _ _ Hinit).
    change (Z.of_nat 0) with 0. rewrite Z.mul_0_r, !Z.add_0_r, u32_small by apply ld32_bound. done.
  - destruct (IH ltac:(lia)) as [Hw Ha]. cbv zeta.
    assert (run_aps (in_turn (S n)) M = run_aps (replicate 10 n) (run_aps (in_turn n) M)) as ->.
    { unfold run_aps, in_turn. rewrite seq_S, fmap_app, concat_app, foldl_app. cbn [fmap list_fmap concat]. by rewrite app_nil_r. }
    set (M1 := run_aps (in_turn n) M) in *. destruct (lookup_lt_is_Some_2 (b_aps M) n ltac:(lia)) as [a Hi].
    destruct (ai_aps _ _ Hinit n a Hi) as (Ea & Pa & La). pose proof (ai_len _ _ Hinit) as Hlen.
    assert (b_aps M1 !! n = Some a) as Hi1 by (by rewrite (proj1 (Ha n))).
    destruct (alone_run M1 n a _ _ _ _ Hw ltac:(lia) ltac:(unfold ap_entry; lia) Hi1 Ea Pa La) as (Hw' & a' & El & Ra & Lg & Es).
    split.
    + rewrite Hw'. f_equal; [lia|]. unfold u32. rewrite Zplus_mod_idemp_l. f_equal. lia.
    + intros i. rewrite El. destruct (decide (i = n)) as [->|Hne].
      * split; [lia|]. intros _. exists a'. by rewrite list_lookup_insert_eq by (by eapply lookup_lt_Some).
      * rewrite list_lookup_insert_ne by done. split; intros H; apply Ha; lia.
Qed.

(** If the processors come one after the other, each leaving the C function's first
    part before the next starts, all of them arrive in 64-bit mode, on the stack of
    their turn, and are counted. *)
Theorem aps_boot_in_turn M e : aps_init M e ->
  let M' := run_aps (in_turn (length (b_aps M))) M in
  ld32 (b_mem M') ap_count_word = u32 (ld32 (b_mem M) ap_count_word + Z.of_nat (length (b_aps M))) /\
  ld32 (b_mem M') ap_boot_lock_word = 0 /\
  forall i, (i < length (b_aps M))%nat -> exists a, b_aps M' !! i = Some a /\ at_ a = released /\
    mode_of (a_ctl a) (Some (code64 0)) = Some Long64 /\ a_esp a = 0x9000 + X64_STACK_SIZE * Z.of_nat i.
Proof.
  intros Hinit M'. destruct (in_turn_run M e _ Hinit (le_n _)) as [Hw Ha]. fold M' in Hw, Ha. clearbody M'. split; [|split].
  - by injection Hw.
  - by injection Hw.
  - intros i Hi. destruct (proj2 (Ha i) Hi) as (a & Hia & Ra & Lg & Es). exists a. split; [done|]. split; [done|]. split; [by apply long_mode_of|done].
Qed.
End Ap.

(** ** Two processors *)

Definition demo_ap : ap := Ap aps_start 0 0 0x8000 0x800 0 (0, 0) (Ctl 0x60000010 0 0 0).
Definition demo_machine : machine :=
  Machine (st64 (st32 (st32 (st32 ∅ 0x8200 0) 0x8204 0x9000) ap_boot_lock_word 0) ap_entry 0x101000) [demo_ap; demo_ap].
Lemma demo_init : aps_init 0x8200 0x8204 demo_machine 0x101000.
Proof.
  split; [cbn; lia|by vm_compute..|].
  intros [|[|i]] a Hi; [injection Hi as <-; by vm_compute..|done].
Qed.

(** A processor that has gone astray counts in eax, say. *)
Definition demo_prot (m : mem) (a : ap) : option (mem * ap) := Some (m, set_eax (a_eax a + 1) a).

(** The first processor alone, up to the C function. *)
Definition demo_sched : list nat := replicate 9 0%nat.
Definition demo_in_c : ap :=
  Ap in_c 0 0x9000 0x101000 0x18 0x20 (0, 0) (Ctl 0xe0000011 0x90000 0x20 0x500).
Lemma demo_arrives : b_aps (run_aps 0x8200 0x8204 0x8100 demo_prot demo_sched demo_machine) = [demo_in_c; demo_ap].
Proof. by vm_compute. Qed.

Lemma ap_boot_safe_witness :
  mode_of (a_ctl demo_in_c) (Some (code64 0)) = Some Long64 /\ a_rip demo_in_c = 0x101000 \/
  mode_of (a_ctl demo_in_c) (Some (Seg 0xfffff 0 8 1 0 1 0 0 1 0)) = Some Prot32 /\ a_rip demo_in_c = u32 0x101000.
Proof.
  destruct (ap_boot_safe 0x8200 0x8204 0x8100 demo_prot ltac:(lia) ltac:(lia) ltac:(lia) ltac:(lia) demo_sched demo_machine 0x101000 demo_init) as (H & _).
  { intros i a. rewrite demo_arrives. destruct i as [|[|i]]; [by intros [= <-]..|done]. }
  rewrite demo_arrives in H. destruct (H 0%nat demo_in_c eq_refl eq_refl) as [(H1 & H2 & _)|(H1 & H2 & _)]; [left|right]; by split.
Defined.

Lemma ap_contention_in_protected_mode_witness :
  exists sched, forall sched', 1%nat ∉ sched' ->
    let M2 := run_aps 0x8200 0x8204 0x8100 demo_prot sched' (run_aps 0x8200 0x8204 0x8100 demo_prot sched demo_machine) in
    ld32 (b_mem M2) ap_boot_lock_word = 1 /\ ld32 (b_mem M2) ap_count_word = u32 (ld32 (b_mem demo_machine) ap_count_word + 1).
Proof.
  destruct (ap_contention_in_protected_mode 0x8200 0x8204 0x8100 demo_prot ltac:(lia) ltac:(lia) ltac:(lia) ltac:(lia) demo_machine 0x101000 demo_init)
    as (sched & a & a1 & H); [cbn; lia|]. exists sched. intros sched' Hs. destruct H as (_ & _ & _ & _ & _ & _ & H).
  destruct (H sched' Hs) as (_ & H1 & H2 & _). by split.
Defined.

Lemma aps_boot_in_turn_witness :
  ld32 (b_mem (run_aps 0x8200 0x8204 0x8100 demo_prot (in_turn 2) demo_machine)) ap_count_word =
    u32 (ld32 (b_mem demo_machine) ap_count_word + 2).
Proof.
  refine (proj1 (aps_boot_in_turn 0x8200 0x8204 0x8100 demo_prot _ _ _ _ demo_machine 0x101000 demo_init)); lia.
Defined.
