(* ===== verification/Idt.v ===== *)
(** Interrupt descriptor tables: x64_kenerl/kernel/idt.c and
    x86_kernel/kernel/idt.c with their headers.  The addresses of the entry
    points, which the assembly files define, are arguments. *)

From S2P Require Import Prelude Mem BitField.
#[local] Open Scope kernel_scope.

(** ** The 64-bit kernel *)

(** The entry points init_idt names; [inter_entry] are those of the processor's
    exceptions. *)
Record entries := Entries {
  general_interrupt_handler : Z;
  inter_entry : Z -> Z;
  clock_handler_entry : Z;
  IPI_TEST_handler_entry : Z;
  IPI_TEST_handler_entry1 : Z;
  lapic_timer_entry : Z;
  lapic_sched_broadcast_entry : Z
}.

Definition INTER_ID_TIMER : Z := 0x20.
Definition INTER_ID_IPI_TEST : Z := 0xA0.
Definition INTER_ID_IPI_TEST1 : Z := 0xA1.
Definition INTER_ID_LAPIC_TIMER : Z := 0xA2.
Definition INTER_ID_SCHED_BROADCAST : Z := 0xA3.
Definition INTER_ID_0X80 : Z := 0x80.

(** The fields of an [idt_item_t] at [item]. *)
Definition offset0 (m : mem) (item v : Z) : mem := st16 m item v.
Definition selector (m : mem) (item v : Z) : mem := st16 m (item + 2) v.
Definition ist (m : mem) (item v : Z) : mem := st8 m (item + 4) v.
Definition gate_type (m : mem) (item v : Z) : mem := stf m (item + 5) 0 4 v.
Definition segment_bit (m : mem) (item v : Z) : mem := stf m (item + 5) 4 1 v.
Definition dpl (m : mem) (item v : Z) : mem := stf m (item + 5) 5 2 v.
Definition present (m : mem) (item v : Z) : mem := stf m (item + 5) 7 1 v.
Definition offset1 (m : mem) (item v : Z) : mem := st16 m (item + 6) v.
Definition offset2 (m : mem) (item v : Z) : mem := st32 m (item + 8) v.

(** The ports and bytes [send_eoi] writes. *)
Definition PIC_M_CTRL : Z := 0x20.
Definition PIC_S_CTRL : Z := 0xa0.
Definition PIC_EOI : Z := 0x20.
Definition send_eoi (idt_index : Z) : list (Z * Z) :=
  if ((0x20 <=? idt_index) && (idt_index <? 0x28))%bool then [(PIC_M_CTRL, PIC_EOI)]
  else if ((0x28 <=? idt_index) && (idt_index <? 0x30))%bool
  then [(PIC_M_CTRL, PIC_EOI); (PIC_S_CTRL, PIC_EOI)]
  else [].
Definition clock_interrupt_handler : list (Z * Z) := send_eoi 0x20.

Section Idt64.
Variables (e : entries) (g_idtItems : Z).

(** The [switch]: the handler, which the case of 0x80 leaves as the round before
    had it, and the memory that case writes. *)
Definition choose (i handler : Z) (m : mem) (item : Z) : Z * mem :=
  if ((0 <=? i) && (i <=? 21))%bool then (inter_entry e i, m)
  else if i =? INTER_ID_TIMER then (clock_handler_entry e, m)
  else if i =? INTER_ID_0X80 then (handler, dpl m item 3)
  else if i =? INTER_ID_IPI_TEST then (IPI_TEST_handler_entry e, m)
  else if i =? INTER_ID_IPI_TEST1 then (IPI_TEST_handler_entry1 e, m)
  else if i =? INTER_ID_LAPIC_TIMER then (lapic_timer_entry e, m)
  else if i =? INTER_ID_SCHED_BROADCAST then (lapic_sched_broadcast_entry e, m)
  else (general_interrupt_handler e, m).

Definition fill_item (m : mem) (item handler : Z) : mem :=
  let m := offset0 m item (handler .& 0xffff) in
  let m := selector m item 0x18 in
  let m := ist m item 0 in
  let m := gate_type m item 14 in
  let m := segment_bit m item 0 in
  let m := dpl m item 0 in
  let m := present m item 1 in
  let m := offset1 m item ((handler .>> 16) .& 0xffff) in
  offset2 m item ((handler .>> 32) .& 0xffffffff).

Fixpoint items_loop (n : nat) (i handler : Z) (m : mem) : mem :=
  match n with
  | O => m
  | S n' =>
      let item := g_idtItems + 16 * i in
      let '(handler, m) := choose i handler m item in
      items_loop n' (i + 1) handler (fill_item m item handler)
  end.

(** Memory and the IDTR; the interrupt flag is set after it is loaded. *)
Definition init_idt (m : mem) : mem * (Z * Z) :=
  (items_loop 256 0 (general_interrupt_handler e) m, (256 * 16 - 1, g_idtItems)).
Definition init_ap_idt : Z * Z := (256 * 16 - 1, g_idtItems).
End Idt64.

(** ** The 32-bit kernel *)

Record x86_entries := X86Entries {
  interrupt_handle : Z;
  clock_handle : Z;
  key_board_handle : Z;
  syscall_handle : Z;
  assert_handle : Z
}.

Definition isr_offset_0_15 (m : mem) (item v : Z) : mem := st16 m item v.
Definition segment_selector (m : mem) (item v : Z) : mem := st16 m (item + 2) v.
Definition x86_type (m : mem) (item v : Z) : mem := stf m (item + 5) 0 4 v.
Definition x86_S (m : mem) (item v : Z) : mem := stf m (item + 5) 4 1 v.
Definition x86_DPL (m : mem) (item v : Z) : mem := stf m (item + 5) 5 2 v.
Definition x86_P (m : mem) (item v : Z) : mem := stf m (item + 5) 7 1 v.
Definition isr_offset_16_31 (m : mem) (item v : Z) : mem := st16 m (item + 6) v.

Section Idt32.
Variables (e : x86_entries) (g_idt_table : Z).

Definition x86_choose (i : Z) : Z :=
  if i =? 0x20 then clock_handle e
  else if i =? 0x21 then key_board_handle e
  else if i =? 0x80 then syscall_handle e
  else if i =? 0x81 then assert_handle e
  else interrupt_handle e.

Definition x86_fill_item (m : mem) (item i handle : Z) : mem :=
  let m := isr_offset_0_15 m item (handle .& 0xffff) in
  let m := isr_offset_16_31 m item ((handle .>> 16) .& 0xffff) in
  let m := segment_selector m item (1 .<< 3) in
  let m := x86_type m item 14 in
  let m := x86_S m item 0 in
  let m := x86_DPL m item (if i =? 0x80 then 3 else 0) in
  x86_P m item 1.

Fixpoint x86_items_loop (n : nat) (i : Z) (m : mem) : mem :=
  match n with
  | O => m
  | S n' => x86_items_loop n' (i + 1) (x86_fill_item m (g_idt_table + 8 * i) i (x86_choose i))
  end.

Definition x86_init_idt (m : mem) : mem * (Z * Z) :=
  (x86_items_loop 255 0 m, (255 * 8 - 1, u32 g_idt_table)).
End Idt32.

(** ** What the processor reads *)

Record gate := Gate { g_offset : Z; g_selector : Z; g_type : Z; g_S : Z; g_DPL : Z; g_P : Z }.

(** The high half of the offset and the interrupt stack entry of a 64-bit gate
    are part of it. *)
Definition load_gate64 (m : mem) (a : Z) : gate * Z :=
  (Gate (ld16 m a + 65536 * ld16 m (a + 6) + 4294967296 * ld32 m (a + 8)) (ld16 m (a + 2))
     (ldf m (a + 5) 0 4) (ldf m (a + 5) 4 1) (ldf m (a + 5) 5 2) (ldf m (a + 5) 7 1),
   ld8 m (a + 4)).
Definition load_gate32 (m : mem) (a : Z) : gate :=
  Gate (ld16 m a + 65536 * ld16 m (a + 6)) (ld16 m (a + 2))
    (ldf m (a + 5) 0 4) (ldf m (a + 5) 4 1) (ldf m (a + 5) 5 2) (ldf m (a + 5) 7 1).

(** An interrupt gate to [h] in the segment [sel], for callers of level [d]. *)
Definition int_gate (h sel d : Z) : gate := Gate h sel 14 0 d 1.

(** The handler of a vector. *)
Definition handler_of (e : entries) (i : Z) : Z :=
  if i <=? 21 then inter_entry e i
  else if i =? 0x20 then clock_handler_entry e
  else if i =? 0xA0 then IPI_TEST_handler_entry e
  else if i =? 0xA1 then IPI_TEST_handler_entry1 e
  else if i =? 0xA2 then lapic_timer_entry e
  else if i =? 0xA3 then lapic_sched_broadcast_entry e
  else general_interrupt_handler e.

(** ** Lemmas *)

Lemma land_16 v : v .& 0xffff = v mod 65536.
Proof. change 0xffff with (Z.ones 16). by rewrite Z.land_ones. Qed.
Lemma land_32 v : v .& 0xffffffff = v mod 4294967296.
Proof. change 0xffffffff with (Z.ones 32). by rewrite Z.land_ones. Qed.

Ltac item_fields :=
  unfold offset0, selector, ist, gate_type, segment_bit, dpl, present, offset1, offset2,
    isr_offset_0_15, segment_selector, x86_type, x86_S, x86_DPL, x86_P, isr_offset_16_31; cbv zeta.

Lemma fill_item_gate m item h : 0 <= h < 18446744073709551616 ->
  load_gate64 (fill_item m item h) item = (int_gate h 0x18 0, 0) /\
  forall a, a < item \/ item + 12 <= a -> ld8 (fill_item m item h) a = ld8 m a.
Proof.
  intros Hh. unfold fill_item. item_fields. split; [|intros a Ha; by fields].
  unfold load_gate64. fields. rewrite !land_16, land_32, !Z.shiftr_div_pow2 by lia.
  change (256 ^ Z.of_nat 2) with 65536. change (256 ^ Z.of_nat 4) with 4294967296.
  change (2 ^ 16) with 65536. change (2 ^ 32) with 4294967296. unfold int_gate.
  f_equal. f_equal. zlia.
Qed.

Lemma x86_fill_item_gate m item i h : 0 <= h < 4294967296 ->
  load_gate32 (x86_fill_item m item i h) item = int_gate h 8 (if i =? 0x80 then 3 else 0) /\
  forall a, a < item \/ item + 8 <= a -> ld8 (x86_fill_item m item i h) a = ld8 m a.
Proof.
  intros Hh. unfold x86_fill_item. item_fields. split; [|intros a Ha; by fields].
  unfold load_gate32. fields. rewrite !land_16, !Z.shiftr_div_pow2 by lia.
  change (256 ^ Z.of_nat 2) with 65536. change (2 ^ 16) with 65536. unfold int_gate.
  f_equal; [zlia|]. by destruct (i =? 128).
Qed.

Lemma choose_spec e i h m item : 0 <= i -> (i = 0x80 -> h = general_interrupt_handler e) ->
  fst (choose e i h m item) = handler_of e i /\
  forall a, a < item \/ item + 16 <= a -> ld8 (snd (choose e i h m item)) a = ld8 m a.
Proof.
  intros Hi Hh. unfold choose, handler_of, INTER_ID_TIMER, INTER_ID_0X80, INTER_ID_IPI_TEST,
    INTER_ID_IPI_TEST1, INTER_ID_LAPIC_TIMER, INTER_ID_SCHED_BROADCAST.
  destruct (Z.leb_spec 0 i), (Z.leb_spec i 21); try lia; cbn [andb]; [by split|].
  destruct (Z.eqb_spec i 0x20); [by split|]. destruct (Z.eqb_spec i 0x80) as [->|].
  - split; [by apply Hh|]. intros a Ha. unfold dpl. cbn [snd]. by fields.
  - repeat match goal with |- context [i =? ?k] => destruct (Z.eqb_spec i k); [by split|] end. by split.
Qed.

Lemma load_gate64_ext m1 m2 a : (forall x, a <= x < a + 12 -> ld8 m1 x = ld8 m2 x) ->
  load_gate64 m1 a = load_gate64 m2 a.
Proof.
  intros E. unfold load_gate64, ldf, ld16, ld32.
  rewrite !(ldn_ext _ m1 m2) by (intros; apply E; lia). by rewrite !E by lia.
Qed.

Lemma load_gate32_ext m1 m2 a : (forall x, a <= x < a + 8 -> ld8 m1 x = ld8 m2 x) ->
  load_gate32 m1 a = load_gate32 m2 a.
Proof.
  intros E. unfold load_gate32, ldf, ld16.
  rewrite !(ldn_ext _ m1 m2) by (intros; apply E; lia). by rewrite !E by lia.
Qed.

Lemma items_loop_spec e items n i h m :
  (forall j, 0 <= handler_of e j < 18446744073709551616) -> 0 <= i ->
  (i = 0 \/ h = handler_of e (i - 1)) ->
  let m' := items_loop e items n i h m in
  (forall j, i <= j < i + Z.of_nat n ->
     load_gate64 m' (items + 16 * j) = (int_gate (handler_of e j) 0x18 0, 0)) /\
  forall a, a < items + 16 * i \/ items + 16 * (i + Z.of_nat n) <= a -> ld8 m' a = ld8 m a.
Proof.
  intros Hb. revert i h m. induction n as [|n IH]; intros i h m Hi Hh m'; [split; [lia|done]|].
  unfold m'. cbn [items_loop]. set (item := items + 16 * i).
  destruct (choose_spec e i h m item Hi) as [Hc Hf].
  { intros ->. destruct Hh as [| ->]; [lia|done]. }
  destruct (choose e i h m item) as [h1 m1]. cbn [fst snd] in Hc, Hf. subst h1.
  destruct (fill_item_gate m1 item (handler_of e i) (Hb i)) as [Hg Hf'].
  destruct (IH (i + 1) (handler_of e i) (fill_item m1 item (handler_of e i))) as [IHg IHf];
    [lia|right; f_equal; lia|].
  split.
  - intros j Hj. destruct (decide (j = i)) as [->|Hne]; [|apply IHg; lia].
    rewrite <- Hg. apply load_gate64_ext. intros x Hx. apply IHf. unfold item in Hx. lia.
  - intros a Ha. unfold item in *. rewrite IHf, Hf', Hf by lia. done.
Qed.

(** C33: Every one of the 256 entries is a well-formed interrupt gate of the kernel's
    64-bit code segment to the handler of its vector; vector 0x80 too is closed
    to user mode, its privilege level being overwritten.  The IDTR covers the
    table, which is all that is written. *)
Theorem init_idt_correct e items m m' idtr :
  (forall j, 0 <= handler_of e j < 18446744073709551616) ->
  init_idt e items m = (m', idtr) ->
  (forall j, 0 <= j < 256 -> load_gate64 m' (items + 16 * j) = (int_gate (handler_of e j) 0x18 0, 0)) /\
  idtr = (16 * 256 - 1, items) /\ init_ap_idt items = idtr /\
  forall a, a < items \/ items + 4096 <= a -> ld8 m' a = ld8 m a.
Proof.
  intros Hb E. unfold init_idt in E. apply pair_equal_spec in E as [<- <-].
  destruct (items_loop_spec e items 256 0 (general_interrupt_handler e) m Hb) as [Hg Hf]; [lia|by left|].
  split; [intros j Hj; by apply Hg|]. split; [done|]. split; [done|]. intros a Ha. apply Hf. lia.
Qed.

Lemma x86_items_loop_spec e table n i m : (forall j, 0 <= x86_choose e j < 4294967296) ->
  let m' := x86_items_loop e table n i m in
  (forall j, i <= j < i + Z.of_nat n ->
     load_gate32 m' (table + 8 * j) = int_gate (x86_choose e j) 8 (if j =? 0x80 then 3 else 0)) /\
  forall a, a < table + 8 * i \/ table + 8 * (i + Z.of_nat n) <= a -> ld8 m' a = ld8 m a.
Proof.
  intros Hb. revert i m. induction n as [|n IH]; intros i m m'; [split; [lia|done]|].
  unfold m'. cbn [x86_items_loop].
  destruct (x86_fill_item_gate m (table + 8 * i) i _ (Hb i)) as [Hg Hf].
  destruct (IH (i + 1) (x86_fill_item m (table + 8 * i) i (x86_choose e i))) as [IHg IHf].
  split.
  - intros j Hj. destruct (decide (j = i)) as [->|Hne]; [|apply IHg; lia].
    rewrite <- Hg. apply load_gate32_ext. intros x Hx. apply IHf. lia.
  - intros a Ha. rewrite IHf, Hf by lia. done.
Qed.

(** The 32-bit table: the 255 entries are interrupt gates of the code segment,
    the system call's open to user mode and no other; the limit stops short of
    vector 255, which has no entry. *)
Theorem x86_init_idt_correct e table m m' idtr :
  (forall j, 0 <= x86_choose e j < 4294967296) -> 0 <= table < 4294967296 ->
  x86_init_idt e table m = (m', idtr) ->
  (forall j, 0 <= j < 255 ->
     load_gate32 m' (table + 8 * j) = int_gate (x86_choose e j) 8 (if j =? 0x80 then 3 else 0)) /\
  idtr = (2039, table) /\ (forall j, 0 <= j -> 8 * j + 7 <= fst idtr <-> j < 255) /\
  forall a, a < table \/ table + 2040 <= a -> ld8 m' a = ld8 m a.
Proof.
  intros Hb Ht E. unfold x86_init_idt in E. apply pair_equal_spec in E as [<- <-].
  destruct (x86_items_loop_spec e table 255 0 m Hb) as [Hg Hf].
  split; [intros j Hj; by apply Hg|]. rewrite u32_small by lia.
  split; [done|]. split; [cbn; lia|]. intros a Ha. apply Hf. lia.
Qed.

(** ** Witnesses *)

Definition demo_entries : entries :=
  Entries 0x100000 (fun i => 0x101000 + 16 * Z.min (Z.max i 0) 21) 0x102000 0x103000 0x104000 0x105000 0x106000.

Lemma init_idt_correct_witness :
  fst (load_gate64 (fst (init_idt demo_entries 0x200000 ∅)) (0x200000 + 16 * 0xA2)) =
    int_gate 0x105000 0x18 0.
Proof.
  destruct (init_idt_correct demo_entries 0x200000 ∅ (fst (init_idt demo_entries 0x200000 ∅))
    (snd (init_idt demo_entries 0x200000 ∅))) as (Hg & _).
  - intros j. unfold handler_of, demo_entries.
    repeat match goal with |- context [if ?b then _ else _] => destruct b end; cbn; lia.
  - exact (surjective_pairing _).
  - rewrite (Hg 0xA2) by lia. reflexivity.
Defined.

Lemma x86_init_idt_correct_witness :
  load_gate32 (fst (x86_init_idt (X86Entries 0x1000 0x2000 0x3000 0x4000 0x5000) 0x20000 ∅))
    (0x20000 + 8 * 0x80) = int_gate 0x4000 8 3.
Proof.
  destruct (x86_init_idt_correct (X86Entries 0x1000 0x2000 0x3000 0x4000 0x5000) 0x20000 ∅
    (fst (x86_init_idt (X86Entries 0x1000 0x2000 0x3000 0x4000 0x5000) 0x20000 ∅))
    (snd (x86_init_idt (X86Entries 0x1000 0x2000 0x3000 0x4000 0x5000) 0x20000 ∅)))
    as (Hg & _).
  - intros j. unfold x86_choose.
    repeat match goal with |- context [if ?b then _ else _] => destruct b end; cbn; lia.
  - lia.
  - exact (surjective_pairing _).
  - rewrite (Hg 0x80) by lia. reflexivity.
Defined.
