(* ===== verification/Exception.v ===== *)
(** Exception reports of the 64-bit kernel:
    x64_kenerl/kernel/exceptionErrorCode.c over the bit-fields of its header.  A
    report is the list of what is printed: a format (its line end left out) with
    its arguments, or a dump of the stack. *)

From S2P Require Import Prelude BitField.
#[local] Open Scope string_scope.
#[local] Open Scope list_scope.
#[local] Open Scope Z_scope.
#[local] Open Scope kernel_scope.

Inductive event := Say (fmt : string) (args : list Z) | Dump (stack n : Z).
#[export] Instance event_eq_dec : EqDecision event.
Proof. solve_decision. Defined.

(** The fields of [normal_errCode], [PF_errCode] and [CP_errCode]. *)
Definition EXT (code : Z) : Z := getf code 0 1.
Definition IDT (code : Z) : Z := getf code 1 1.
Definition pf_P (code : Z) : Z := getf code 0 1.
Definition pf_WR (code : Z) : Z := getf code 1 1.
Definition pf_US (code : Z) : Z := getf code 2 1.
Definition pf_RSVD (code : Z) : Z := getf code 3 1.
Definition pf_ID (code : Z) : Z := getf code 4 1.
Definition pf_PK (code : Z) : Z := getf code 5 1.
Definition pf_SS (code : Z) : Z := getf code 6 1.
Definition pf_HLAT (code : Z) : Z := getf code 7 1.
Definition pf_SGX (code : Z) : Z := getf code 15 1.
Definition CPEC (code : Z) : Z := getf code 0 15.
Definition ENCL (code : Z) : Z := getf code 15 1.

Definition say (s : string) : event := Say s [].

(** [if(bit) printk(yes); else printk(no);] *)
Definition either (bit : Z) (yes no : string) : event := say (if truthy bit then yes else no).

(** [cpu] is what [get_lapic_id] returns. *)
Definition handle_normal_errcode (cpu error_code stack id : Z) : list event :=
  [Say "####################### cpu %d : Normal exception %d : code 0x%x #######################"
     [cpu; id; error_code];
   either (EXT error_code)
     "### EIT 1: external event caused the fault."
     "### EIT 0: a software interrupt (INT n, INT3, or INTO) caused the fault.";
   if truthy (IDT error_code) then say "### IDT 1: Fault caused by IDT descriptor"
   else either (error_code .& 4)
     "### TI 1: Fault caused by LDT descriptor."
     "### TI 0: Fault caused by GDT descriptor.";
   Say "### Selector index: %u." [u16 ((error_code .>> 3) .& 0x1FFF)];
   Say "### stack dump %.8p: " [stack];
   Dump stack 6].

Definition handle_PF_errcode (cpu error_code stack id : Z) : list event :=
  [Say "####################### cpu %d : Page fault %d : code 0x%x #######################"
     [cpu; id; error_code];
   either (pf_P error_code)
     "### P 1: The fault was caused by a non-present page."
     "### P 0: The fault was caused by a page-level protection violation.";
   either (pf_WR error_code)
     "### WR 1: The access causing the fault was a write."
     "### WR 0: The access causing the fault was a read.";
   either (pf_US error_code)
     "### US 1: A user-mode access caused the fault."
     "### US 0: A supervisor-mode access caused the fault.";
   either (pf_RSVD error_code)
     "### RSVD 1: The fault was caused by a reserved bit set to 1 in some paging-structure entry."
     "### RSVD 0: The fault was not caused by reserved bit violation.";
   either (pf_ID error_code)
     "### ID 1: The fault was not caused by an instruction fetch."
     "### ID 0: The fault was caused by an instruction fetch.";
   either (pf_PK error_code)
     "### PK 1: The fault was not caused by protection keys."
     "### PK 0: There was a protection-key violation.";
   either (pf_SS error_code)
     "### SS 1: The fault was caused by a shadow-stack access."
     "### SS 0: The fault was not caused by a shadow-stack access.";
   either (pf_HLAT error_code)
     "### HLAT 1: The fault occurred during HLAT paging."
     "### HLAT 0: The fault occurred during ordinary paging or due to access rights.";
   either (pf_SGX error_code)
     "### HLAT 1: The fault resulted from violation of SGX-specific access-control requirements."
     "### HLAT 0: The fault is not related to SGX.";
   Say "### stack dump %.8p: " [stack];
   Dump (u64 (stack + 8)) 5].

(** [if(cond) printk(s);] *)
Definition when (b : bool) (s : string) : list event := if b then [say s] else [].

Definition handle_CP_errcode (cpu error_code stack id : Z) : list event :=
  [Say "####################### cpu %d : Control protection %d : code 0x%x #######################"
     [cpu; id; error_code]] ++
  when (CPEC error_code =? 1) "### CPEC 1: The #CP was caused by a near RET instruction." ++
  when (CPEC error_code =? 2) "### CPEC 2: The #CP was caused by a FAR RET or IRET instruction." ++
  when (CPEC error_code =? 3)
    "### CPEC 3: The #CP was due to missing ENDBRANCH at target of an indirect call or jump instruction." ++
  when (CPEC error_code =? 4)
    "### CPEC 4: The #CP was caused by a shadow-stack-restore token check failure in the RSTORSSP instruction." ++
  when (CPEC error_code =? 5)
    "### CPEC 5: The #CP was caused by a supervisor shadow stack token check failure in the SETSSBSY instruction." ++
  when (truthy (ENCL error_code)) "### ENCL 1: The #CP occurred during enclave execution." ++
  [Say "### stack dump %.8p: " [stack]; Dump stack 6].

(** ** What the processor means *)

(** A page fault as the processor encodes it: the page was present (a protection
    violation), the access a write, from user mode, ... an instruction fetch, by
    protection keys. *)
Record page_fault := PageFault {
  was_present : bool; was_write : bool; was_user : bool; was_reserved : bool;
  was_fetch : bool; was_keys : bool; was_shadow : bool; was_hlat : bool; was_sgx : bool
}.
Definition fault_code (f : page_fault) : Z :=
  Z.b2z (was_present f) + 2 * Z.b2z (was_write f) + 4 * Z.b2z (was_user f) +
  8 * Z.b2z (was_reserved f) + 16 * Z.b2z (was_fetch f) + 32 * Z.b2z (was_keys f) +
  64 * Z.b2z (was_shadow f) + 128 * Z.b2z (was_hlat f) + 32768 * Z.b2z (was_sgx f).

(** A selector error code: external, of the IDT, of the LDT, and the index. *)
Definition selector_code (ext idt ldt : bool) (index : Z) : Z :=
  Z.b2z ext + 2 * Z.b2z idt + 4 * Z.b2z ldt + 8 * index.

(** ** Theorems *)

Lemma fault_bits f :
  pf_P (fault_code f) = Z.b2z (was_present f) /\ pf_WR (fault_code f) = Z.b2z (was_write f) /\
  pf_US (fault_code f) = Z.b2z (was_user f) /\ pf_RSVD (fault_code f) = Z.b2z (was_reserved f) /\
  pf_ID (fault_code f) = Z.b2z (was_fetch f) /\ pf_PK (fault_code f) = Z.b2z (was_keys f) /\
  pf_SS (fault_code f) = Z.b2z (was_shadow f) /\
  pf_HLAT (fault_code f) = Z.b2z (was_hlat f) /\ pf_SGX (fault_code f) = Z.b2z (was_sgx f).
Proof. by destruct f as [[] [] [] [] [] [] [] [] []]. Qed.

(** The report of a page fault is right about the kind of access, the reserved
    bits and shadow stacks, and says the opposite of what happened about
    presence, instruction fetches and protection keys. *)
Theorem page_fault_report cpu f stack id :
  let r := handle_PF_errcode cpu (fault_code f) stack id in
  r !! 1%nat = Some (say (if was_present f
    then "### P 1: The fault was caused by a non-present page."
    else "### P 0: The fault was caused by a page-level protection violation.")) /\
  r !! 2%nat = Some (say (if was_write f
    then "### WR 1: The access causing the fault was a write."
    else "### WR 0: The access causing the fault was a read.")) /\
  r !! 3%nat = Some (say (if was_user f
    then "### US 1: A user-mode access caused the fault."
    else "### US 0: A supervisor-mode access caused the fault.")) /\
  r !! 4%nat = Some (say (if was_reserved f
    then "### RSVD 1: The fault was caused by a reserved bit set to 1 in some paging-structure entry."
    else "### RSVD 0: The fault was not caused by reserved bit violation.")) /\
  r !! 5%nat = Some (say (if was_fetch f
    then "### ID 1: The fault was not caused by an instruction fetch."
    else "### ID 0: The fault was caused by an instruction fetch.")) /\
  r !! 6%nat = Some (say (if was_keys f
    then "### PK 1: The fault was not caused by protection keys."
    else "### PK 0: There was a protection-key violation.")) /\
  r !! 7%nat = Some (say (if was_shadow f
    then "### SS 1: The fault was caused by a shadow-stack access."
    else "### SS 0: The fault was not caused by a shadow-stack access.")).
Proof.
  intros r. unfold r, handle_PF_errcode, either. clear r.
  destruct (fault_bits f) as (-> & -> & -> & -> & -> & -> & -> & _).
  split; [by destruct (was_present f)|]. split; [by destruct (was_write f)|].
  split; [by destruct (was_user f)|]. split; [by destruct (was_reserved f)|].
  split; [by destruct (was_fetch f)|]. split; [by destruct (was_keys f)|]. by destruct (was_shadow f).
Qed.

(** The report of a selector error names the event, the table and the index
    that were encoded. *)
Theorem selector_report cpu ext idt ldt index stack id : 0 <= index < 8192 ->
  let code := selector_code ext idt ldt index in
  let r := handle_normal_errcode cpu code stack id in
  r !! 1%nat = Some (say (if ext then "### EIT 1: external event caused the fault."
    else "### EIT 0: a software interrupt (INT n, INT3, or INTO) caused the fault.")) /\
  r !! 2%nat = Some (say (if idt then "### IDT 1: Fault caused by IDT descriptor"
    else if ldt then "### TI 1: Fault caused by LDT descriptor."
    else "### TI 0: Fault caused by GDT descriptor.")) /\
  r !! 3%nat = Some (Say "### Selector index: %u." [index]).
Proof.
  intros Hi code r. unfold r, handle_normal_errcode. clear r.
  assert (EXT code = Z.b2z ext /\ IDT code = Z.b2z idt /\ truthy (code .& 4) = ldt /\
    u16 ((code .>> 3) .& 0x1FFF) = index) as (-> & -> & Hl & ->).
  { unfold EXT, IDT, getf, code. change 0x1FFF with (Z.ones 13). rewrite !Z.land_ones, !Z.shiftr_div_pow2 by lia.
    change 4 with (1 .<< 2). rewrite land_bit_testbit, Z.testbit_odd, Z.shiftr_div_pow2 by lia.
    change (2 ^ 0) with 1. change (2 ^ 1) with 2. change (2 ^ 2) with 4. change (2 ^ 3) with 8.
    change (2 ^ 13) with 8192. unfold selector_code, u16.
    split; [destruct ext, idt, ldt; cbn [Z.b2z]; zlia|].
    split; [destruct ext, idt, ldt; cbn [Z.b2z]; zlia|].
    split; [|destruct ext, idt, ldt; cbn [Z.b2z]; zlia].
    assert ((Z.b2z ext + 2 * Z.b2z idt + 4 * Z.b2z ldt + 8 * index) / 4 = Z.b2z ldt + 2 * index) as ->
      by (destruct ext, idt, ldt; cbn [Z.b2z]; zlia).
    rewrite Z.odd_add, Z.odd_mul. by destruct ldt. }
  split; [by destruct ext|]. split; [|done]. unfold either. rewrite Hl. by destruct idt, ldt.
Qed.

(** A control-protection code prints at most one cause, of its own number. *)
Lemma control_protection_causes cpu error_code stack id :
  (length (handle_CP_errcode cpu error_code stack id) <= 5)%nat.
Proof.
  unfold handle_CP_errcode, when. rewrite !length_app. cbn [length].
  generalize (CPEC error_code). intros c.
  destruct (Z.eqb_spec c 1), (Z.eqb_spec c 2), (Z.eqb_spec c 3), (Z.eqb_spec c 4), (Z.eqb_spec c 5),
    (truthy (ENCL error_code)); subst; cbn; try lia; done.
Qed.
