(* ===== verification/Lapic.v ===== *)
(** The local APIC as the 64-bit kernel programs it: the register accesses of
    x64_kenerl/kernel/apic.c over the bit-fields of include/linux/apic.h, and the
    MSR accesses of kernel/cpu.c they need.

    A processor is its MSRs, its descriptor-table and task registers and the
    writes it has made to device registers, latest first.  What a device register
    reads as is the device's business: [dev] gives it from the writes so far. *)

From S2P Require Import Prelude BitField.
#[local] Open Scope kernel_scope.

(** ** Data *)

Record proc := Proc {
  msrs : gmap Z Z;
  writes : list (Z * Z);
  gdtr : Z * Z;
  tr : Z
}.

(** [edx:eax] *)
Definition rdmsr (p : proc) (msr : Z) : Z * Z :=
  let v := u64 (default 0 (msrs p !! msr)) in (u32 v, v .>> 32).
Definition wrmsr (p : proc) (msr low high : Z) : proc :=
  Proc (<[msr := u32 low + 4294967296 * u32 high]> (msrs p)) (writes p) (gdtr p) (tr p).

Definition read_msr (p : proc) (msr : Z) : Z :=
  let '(low, high) := rdmsr p msr in (high .<< 32) .| low.
Definition write_msr (p : proc) (msr value : Z) : proc :=
  let low := u32 value in
  let high := u32 (value .>> 32) in
  wrmsr p msr low high.

Record local_apic_t := LocalApic { apicUid : Z; apicId : Z; lapic_flags : Z }.
Record io_apic_t := IoApic { ioApicId : Z; ioApicAddress : Z; globalSystemInterruptBase : Z }.

Record apic_info_t := ApicInfo {
  localInterruptControllerAddress : Z;
  lapic_num : Z;
  lapic : list local_apic_t;
  ioapic_num : Z;
  ioapic : list io_apic_t
}.

Definition g_apicInfo_init : apic_info_t :=
  ApicInfo 0 0 (replicate 100 (LocalApic 0 0 0)) 0 (replicate 100 (IoApic 0 0 0)).

(** The fields of [lapic_ICR_l_t] and [lapic_lvt_timer_t] as 32-bit words. *)
Definition icr_vector (x v : Z) : Z := setf x 0 8 v.
Definition delivery_mode (x v : Z) : Z := setf x 8 3 v.
Definition delivery_status (x : Z) : Z := getf x 12 1.
Definition level (x v : Z) : Z := setf x 14 1 v.
Definition trigger_mode (x v : Z) : Z := setf x 15 1 v.
Definition destination_shortland (x v : Z) : Z := setf x 18 2 v.
Definition lvt_vector (x v : Z) : Z := setf x 0 8 v.
Definition lvt_mask (x v : Z) : Z := setf x 16 1 v.
Definition timer_mode (x v : Z) : Z := setf x 17 2 v.

Definition LAPIC_ID_OFFSET_L : Z := 0x20.
Definition LAPIC_EOI_OFFSET : Z := 0xB0.
Definition LAPIC_SVR_OFFSET : Z := 0xF0.
Definition LAPIC_ICR_OFFSET_L : Z := 0x300.
Definition LAPIC_ICR_OFFSET_H : Z := 0x310.
Definition LAPIC_LVT_TIMER_OFFSET : Z := 0x320.
Definition LAPIC_TIMER_DCR_OFFSET : Z := 0x3E0.
Definition LAPIC_TIMER_ICR_OFFSET : Z := 0x380.

(** ** Operations *)

Section Device.
Variable dev : list (Z * Z) -> Z -> Z.

Definition reg_read (p : proc) (a : Z) : Z := u32 (dev (writes p) a).
Definition reg_write (p : proc) (a v : Z) : proc :=
  Proc (msrs p) ((a, u32 v) :: writes p) (gdtr p) (tr p).

Definition read_apic_base (p : proc) : Z :=
  let '(eax, edx) := rdmsr p 0x1B in (edx .<< 32) .| (eax .& 0xFFFFF000).

Definition get_apic_register_addr (p : proc) (offset : Z) : Z := u64 (read_apic_base p + offset).

Definition check_IPI_success (p : proc) (info : apic_info_t) : bool :=
  let base := localInterruptControllerAddress info in
  negb (truthy (delivery_status (reg_read p (base + LAPIC_ICR_OFFSET_L)))).

(** One message: the high word of the command register is always 0. *)
Definition send_IPI (p : proc) (base icr_val_l : Z) : proc :=
  let p := reg_write p (base + LAPIC_ICR_OFFSET_H) 0 in
  reg_write p (base + LAPIC_ICR_OFFSET_L) icr_val_l.

Definition get_lapic_id (p : proc) : Z :=
  reg_read p (get_apic_register_addr p LAPIC_ID_OFFSET_L) .>> 24.

Definition lapic_send_eoi (p : proc) : Z * proc :=
  (0, reg_write p (u64 (read_apic_base p + LAPIC_EOI_OFFSET)) 0).

Definition ap_local_apic_init (p : proc) : Z * proc :=
  let SVR := get_apic_register_addr p LAPIC_SVR_OFFSET in
  (0, reg_write p SVR (reg_read p SVR .| (1 .<< 8))).

Definition apic_broadcast_message_interrupt (p : proc) (info : apic_info_t) (vector : Z) : Z * proc :=
  let base := read_apic_base p in
  let icr_val_l := icr_vector 0 vector in
  let icr_val_l := delivery_mode icr_val_l 0 in
  let icr_val_l := trigger_mode icr_val_l 1 in
  let icr_val_l := level icr_val_l 0 in
  let icr_val_l := destination_shortland icr_val_l 2 in
  let p := send_IPI p base icr_val_l in
  if check_IPI_success p info then (0, p) else (-1, p).

(** The body of the two timer functions: [mode] is what they store in
    [timer_mode]. *)
Definition lapic_timer_start (p : proc) (mode vector count : Z) : Z * proc :=
  let lvt := lvt_vector 0 vector in
  let lvt := lvt_mask lvt 0 in
  let lvt := timer_mode lvt mode in
  let LVT := get_apic_register_addr p LAPIC_LVT_TIMER_OFFSET in
  let DCR := get_apic_register_addr p LAPIC_TIMER_DCR_OFFSET in
  let ICR := get_apic_register_addr p LAPIC_TIMER_ICR_OFFSET in
  let p := reg_write p LVT lvt in
  let p := reg_write p DCR 0 in
  let p := reg_write p ICR count in
  (0, p).
Definition lapic_timer_one_shot_start (p : proc) (vector count : Z) : Z * proc :=
  lapic_timer_start p 0 vector count.
Definition lapic_timer_cycle_start (p : proc) (vector count : Z) : Z * proc :=
  lapic_timer_start p 1 vector count.

(** [ap_init] up to its wait: the message for the other processors, three
    times, and the counter they are to increment cleared. *)
Definition APS_BOOI_CODE_ENTRY : Z := 0x8000.
Definition init_IPI : Z := destination_shortland (delivery_mode 0 5) 3.
Definition sipi_IPI : Z :=
  destination_shortland (icr_vector (delivery_mode 0 6) (APS_BOOI_CODE_ENTRY .>> 12)) 3.
Definition third_IPI : Z :=
  destination_shortland (icr_vector (delivery_mode 0 5) (APS_BOOI_CODE_ENTRY .>> 12)) 3.

Definition ap_init_send (p : proc) (info : apic_info_t) : option Z * proc :=
  let base := localInterruptControllerAddress info in
  let p := send_IPI p base init_IPI in
  if negb (check_IPI_success p info) then (Some (-1), p)
  else
    let p := send_IPI p base sipi_IPI in
    if negb (check_IPI_success p info) then (Some (-1), p)
    else
      let p := send_IPI p base third_IPI in
      if negb (check_IPI_success p info) then (Some (-1), p) else (None, p).

(** The wait: [couts i] is the counter at the [i]-th look.  [None] is out of
    fuel. *)
Fixpoint ap_wait (fuel : nat) (i : nat) (couts : nat -> Z) (info : apic_info_t) : option nat :=
  match fuel with
  | O => None
  | S f =>
      if u16 (couts i) <? u32 (lapic_num info - 1) then ap_wait f (S i) couts info else Some i
  end.
End Device.

(** ** Lemmas *)

Lemma u32_lor_split v : 0 <= v < 18446744073709551616 ->
  ((v .>> 32) .<< 32) .| u32 v = v.
Proof.
  intros. rewrite Z.shiftr_div_pow2, Z.shiftl_mul_pow2 by lia.
  rewrite (lor_low 32); unfold u32; change (2 ^ 32) with 4294967296; zlia.
Qed.

Lemma read_msr_value p b : read_msr p b = u64 (default 0 (msrs p !! b)).
Proof. unfold read_msr, rdmsr. apply u32_lor_split, u64_bound. Qed.

Lemma write_msr_value p msr v : msrs (write_msr p msr v) = <[msr := u64 v]> (msrs p).
Proof.
  unfold write_msr, wrmsr. cbn [msrs]. f_equal.
  rewrite !u32_idem, Z.shiftr_div_pow2 by lia. change (2 ^ 32) with 4294967296.
  unfold u64, u32. zlia.
Qed.

Lemma read_write_msr p msr v b :
  read_msr (write_msr p msr v) b = if decide (b = msr) then u64 v else read_msr p b.
Proof.
  rewrite !read_msr_value, write_msr_value. destruct (decide (b = msr)) as [->|Hne].
  - rewrite lookup_insert_eq. apply u64_idem.
  - by rewrite lookup_insert_ne by done.
Qed.

(** The base is the MSR with its low twelve bits cleared. *)
Lemma read_apic_base_value p :
  read_apic_base p = read_msr p 0x1B - read_msr p 0x1B mod 4096.
Proof.
  rewrite read_msr_value. unfold read_apic_base, rdmsr. pose proof (u64_bound (default 0 (msrs p !! 0x1B))).
  generalize dependent (u64 (default 0 (msrs p !! 0x1B))). intros v Hv.
  assert (u32 v .& 0xFFFFF000 = u32 v / 4096 * 4096) as ->.
  { pose proof (u32_bound v) as Hu. revert Hu. generalize (u32 v). intros x Hx.
    change 4096 with (2 ^ 12). rewrite <- Z.shiftr_div_pow2, <- Z.shiftl_mul_pow2 by lia.
    apply Z.bits_inj'. intros i Hi. rewrite Z.land_spec, Z.shiftl_spec by lia.
    change 0xFFFFF000 with (Z.ldiff (Z.ones 32) (Z.ones 12)).
    rewrite Z.ldiff_spec, !Z.testbit_ones by lia.
    destruct (Z.ltb_spec i 12).
    - rewrite (Z.testbit_neg_r _ (i - 12)) by lia. destruct (0 <=? i), (i <? 32); cbn; apply andb_false_r.
    - rewrite Z.shiftr_spec by lia. replace (i - 12 + 12) with i by lia.
      destruct (Z.leb_spec 0 i), (Z.ltb_spec i 32); cbn; try lia; rewrite ?andb_true_r; [done|].
      rewrite andb_false_r, <- (Z.mod_small x (2 ^ 32)) by lia. by rewrite Z.mod_pow2_bits_high by lia. }
  rewrite Z.shiftr_div_pow2, Z.shiftl_mul_pow2 by lia.
  rewrite (lor_low 32); unfold u32; change (2 ^ 32) with 4294967296; zlia.
Qed.

(** ** What the local APIC receives *)

(** An interrupt command and a timer entry, by the fields of the two words. *)
Record ipi := Ipi { i_vector : Z; i_mode : Z; i_level : Z; i_trigger : Z; i_shorthand : Z }.
Definition decode_ipi (w : Z) : ipi :=
  Ipi (getf w 0 8) (getf w 8 3) (getf w 14 1) (getf w 15 1) (getf w 18 2).

(** A message of [send_IPI] in the writes. *)
Definition message (base : Z) (w : Z) : list (Z * Z) :=
  [(base + LAPIC_ICR_OFFSET_L, u32 w); (base + LAPIC_ICR_OFFSET_H, 0)].

(** Decides the fields of a word built by stores. *)
Ltac word :=
  unfold decode_ipi, icr_vector, delivery_mode, level, trigger_mode, destination_shortland,
    lvt_vector, lvt_mask, timer_mode;
  repeat first [rewrite getf_u32 by lia | rewrite getf_setf_eq by lia | rewrite getf_setf_ne by lia].

Section Device.
Variable dev : list (Z * Z) -> Z -> Z.

(** What the device says of the message just written. *)
Definition delivered (p : proc) (info : apic_info_t) : bool := check_IPI_success dev p info.

(** Sends a broadcast of [vector] to every processor but this one, fixed
    delivery, level-triggered and deasserted; the result tells whether the
    device took it.  Nothing else of the processor changes. *)
Theorem apic_broadcast_correct p info vector r p' : 0 <= vector < 256 ->
  apic_broadcast_message_interrupt dev p info vector = (r, p') ->
  exists w, decode_ipi w = Ipi vector 0 0 1 2 /\
    p' = Proc (msrs p) (message (read_apic_base p) w ++ writes p) (gdtr p) (tr p) /\
    (r = 0 /\ delivered p' info = true \/ r = -1 /\ delivered p' info = false).
Proof.
  intros Hv E. unfold apic_broadcast_message_interrupt in E.
  eexists (destination_shortland (level (trigger_mode (delivery_mode (icr_vector 0 vector) 0) 1) 0) 2).
  split; [word; f_equal; apply Z.mod_small; lia|].
  destruct (check_IPI_success _ _ _) eqn:Ec; apply pair_equal_spec in E as [<- <-];
    (split; [done|]); [by left|by right].
Qed.

(** The words [ap_init] sends. *)
Definition ap_words : list Z := [init_IPI; sipi_IPI; third_IPI].
Definition messages (base : Z) (ws : list Z) : list (Z * Z) :=
  foldl (fun acc w => message base w ++ acc) [] ws.

(** [ap_init] sends INIT to all the others, then SIPI with the page of the AP
    boot code, then a second INIT where its comment announces a SIPI; it stops
    with -1 after the first that is not delivered. *)
Theorem ap_init_messages p info r p' :
  ap_init_send dev p info = (r, p') ->
  (decode_ipi <$> ap_words) = [Ipi 0 5 0 0 3; Ipi 8 6 0 0 3; Ipi 8 5 0 0 3] /\
  exists n, (1 <= n <= 3)%nat /\
    p' = Proc (msrs p)
      (messages (localInterruptControllerAddress info) (firstn n ap_words) ++ writes p) (gdtr p) (tr p) /\
    (r = None /\ n = 3%nat /\ delivered p' info = true \/ r = Some (-1) /\ delivered p' info = false).
Proof.
  intros E. split; [reflexivity|]. unfold ap_init_send in E.
  destruct (negb _) eqn:E1 in E.
  { apply pair_equal_spec in E as [<- <-]. exists 1%nat. split; [lia|]. split; [done|].
    right. split; [done|]. by apply negb_true_iff. }
  destruct (negb _) eqn:E2 in E.
  { apply pair_equal_spec in E as [<- <-]. exists 2%nat. split; [lia|]. split; [done|].
    right. split; [done|]. by apply negb_true_iff. }
  exists 3%nat. split; [lia|].
  destruct (negb _) eqn:E3 in E; apply pair_equal_spec in E as [<- <-]; (split; [done|]).
  - right. split; [done|]. by apply negb_true_iff.
  - left. split; [done|]. split; [done|]. by apply negb_false_iff.
Qed.

(** The timer functions program the vector, the mode (0 one shot, 1 periodic),
    no mask and divide by two, and start the count by writing it last. *)
Theorem lapic_timer_correct p mode vector count r p' :
  0 <= vector < 256 -> 0 <= mode < 2 ->
  (if mode =? 0 then lapic_timer_one_shot_start p vector count
   else lapic_timer_cycle_start p vector count) = (r, p') ->
  r = 0 /\ exists w, getf w 0 8 = vector /\ getf w 16 1 = 0 /\ getf w 17 2 = mode /\
    let at_ off := get_apic_register_addr p off in
    p' = Proc (msrs p)
      ([(at_ LAPIC_TIMER_ICR_OFFSET, u32 count); (at_ LAPIC_TIMER_DCR_OFFSET, 0);
        (at_ LAPIC_LVT_TIMER_OFFSET, u32 w)] ++ writes p) (gdtr p) (tr p).
Proof.
  intros Hv Hm E.
  assert (lapic_timer_start p mode vector count = (r, p')) as E'.
  { destruct (Z.eqb_spec mode 0) as [->|]; [done|]. by replace mode with 1 by lia. }
  clear E. unfold lapic_timer_start in E'. apply pair_equal_spec in E' as [<- <-]. split; [done|].
  exists (timer_mode (lvt_mask (lvt_vector 0 vector) 0) mode).
  split; [word; apply Z.mod_small; lia|]. split; [by word|]. split; [|done].
  word. apply Z.mod_small. lia.
Qed.

(** The SVR's bit 8 is set, its other bits stay. *)
Lemma ap_local_apic_enables p r p' i : 0 <= i < 32 ->
  ap_local_apic_init dev p = (r, p') ->
  exists v, writes p' = (get_apic_register_addr p LAPIC_SVR_OFFSET, v) :: writes p /\
    Z.testbit v i =
      (Z.testbit (reg_read dev p (get_apic_register_addr p LAPIC_SVR_OFFSET)) i || (i =? 8))%bool.
Proof.
  intros Hi E. apply pair_equal_spec in E as [_ <-]. eexists. split; [reflexivity|].
  unfold u32 at 1. change 4294967296 with (2 ^ 32). rewrite Z.mod_pow2_bits_low by lia.
  apply lor_bit_testbit. lia.
Qed.
End Device.

(** ** Witnesses *)

Definition demo_proc : proc := Proc {[ 0x1B := 0xFEE00900 ]} [] (0, 0) 0.
Definition demo_info : apic_info_t := ApicInfo 0xFEE00000 2 [] 1 [].
(** A device that is never busy. *)
Definition idle_dev (_ : list (Z * Z)) (_ : Z) : Z := 0.

Lemma apic_broadcast_correct_witness : exists w,
  decode_ipi w = Ipi 0xA3 0 0 1 2 /\
  writes (snd (apic_broadcast_message_interrupt idle_dev demo_proc demo_info 0xA3)) =
    message 0xFEE00000 w.
Proof.
  destruct (apic_broadcast_correct idle_dev demo_proc demo_info 0xA3 0
    (snd (apic_broadcast_message_interrupt idle_dev demo_proc demo_info 0xA3))) as (w & Hw & Hp & _).
  - lia.
  - reflexivity.
  - exists w. split; [exact Hw|]. rewrite Hp. reflexivity.
Defined.

Lemma ap_init_messages_witness : exists n, (1 <= n <= 3)%nat /\
  writes (snd (ap_init_send idle_dev demo_proc demo_info)) =
    messages 0xFEE00000 (firstn n ap_words).
Proof.
  destruct (ap_init_messages idle_dev demo_proc demo_info None
    (snd (ap_init_send idle_dev demo_proc demo_info))) as (_ & n & Hn & Hp & _); [reflexivity|].
  exists n. split; [exact Hn|]. rewrite Hp. cbn [writes demo_proc]. apply app_nil_r.
Defined.

Lemma lapic_timer_correct_witness : exists w, getf w 0 8 = 0xA2 /\ getf w 17 2 = 1.
Proof.
  destruct (lapic_timer_correct demo_proc 1 0xA2 5000000 0
    (snd (lapic_timer_cycle_start demo_proc 0xA2 5000000))) as (_ & w & Hv & _ & Hm & _);
    [lia|lia|reflexivity|]. exists w. split; [exact Hv|exact Hm].
Defined.
