(* ===== verification/Cpu.v ===== *)
(** Per-processor set-up of the 64-bit kernel: x64_kenerl/kernel/cpu.c (the
    processor block), kernel/gdt64.c (the task segments) and kernel/syscall.c.
    The processor is that of Lapic; the GDT it extends is the one Gdt leaves.
    Memory is shared by the processors; the heap is the interface Alloc, its
    blocks cleared in memory as kzalloc does. *)

From S2P Require Import Prelude Mem CString BitField PageAlloc Alloc Gdt Lapic.
#[local] Open Scope kernel_scope.

(** ** Data *)

Definition IA32_GS_BASE : Z := 0xC0000101.
Definition IA32_KERNEL_GS_BASE : Z := 0xC0000102.
Definition IA32_MSR_EFER : Z := 0xC0000080.
Definition IA32_MSR_STAR : Z := 0xC0000081.
Definition IA32_MSR_LSTAR : Z := 0xC0000082.
Definition IA32_MSR_FMASK : Z := 0xC0000084.

(** Offsets in [kpcr_t], [tss_t] and [tss_descriptor_t], all packed. *)
Definition sizeof_kpcr_t : Z := 56.
Definition kpcr_cpuid (k : Z) : Z := k.
Definition kpcr_stack (k : Z) : Z := k + 24.
Definition kpcr_tss_stack (k : Z) : Z := k + 48.
Definition sizeof_tss_t : Z := 104.
Definition tss_rsp0 (t : Z) : Z := t + 4.
Definition TSS_INDEX : Z := 7.

Definition SYSCALL_SELECTOR : Z := (3 .<< 3) .| 0.
Definition SYSRET_SELECTOR : Z := (4 .<< 3) .| 3.

(** What the processors share: memory, the heap, [g_kpcrs] and the static
    [tss_index] of init_tss_current_core. *)
Record kernel (H : Type) := Kernel { kmem : mem; kheap : H; g_kpcrs : list Z; tss_index : Z }.
Arguments Kernel {H}.
Arguments kmem {H}.
Arguments kheap {H}.
Arguments g_kpcrs {H}.
Arguments tss_index {H}.

(** ** Operations *)

Section Cpu.
Context {H : Type} `{AllocOps H}.
Variable dev : list (Z * Z) -> Z -> Z.
Implicit Types (g : kernel H) (p : proc).

Definition set_kmem g m : kernel H := Kernel m (kheap g) (g_kpcrs g) (tss_index g).

(** [kzalloc] of include/linux/mm.h *)
Definition kzalloc_mem g (len : Z) : Z * kernel H :=
  let '(b, h) := kzalloc (kheap g) len in
  let m := if b =? NULL then kmem g else memset (kmem g) b 0 len in
  (b, Kernel m h (g_kpcrs g) (tss_index g)).

Definition kpcr_swapgs p : proc :=
  let gs := default 0 (msrs p !! IA32_GS_BASE) in
  let kgs := default 0 (msrs p !! IA32_KERNEL_GS_BASE) in
  Proc (<[IA32_GS_BASE := kgs]> (<[IA32_KERNEL_GS_BASE := gs]> (msrs p))) (writes p) (Lapic.gdtr p) (tr p).
Definition gs_base p : Z := default 0 (msrs p !! IA32_GS_BASE).
Definition kpcr_get_offset g p (offset : Z) : Z := ld64 (kmem g) (gs_base p + offset).
Definition kpcr_set_offset g p (offset val : Z) : kernel H :=
  set_kmem g (st64 (kmem g) (gs_base p + offset) val).

(** [kpcr_create]; the store to [g_kpcrs] past its 100 entries is not checked. *)
Definition kpcr_create g p : outcome (Z * kernel H * proc) :=
  let cpuid := get_lapic_id dev p in
  let '(kpcr, g) := kzalloc_mem g sizeof_kpcr_t in
  if kpcr =? NULL then Done (NULL, g, p)
  else
    let g := set_kmem g (st64 (kmem g) (kpcr_cpuid kpcr) cpuid) in
    let '(stack, g) := kzalloc_mem g PAGE_SIZE in
    let g := set_kmem g (st64 (kmem g) (kpcr_stack kpcr) stack) in
    let p := write_msr p IA32_KERNEL_GS_BASE kpcr in
    if cpuid <? Z.of_nat (length (g_kpcrs g)) then
      Done (kpcr, Kernel (kmem g) (kheap g) (zset (g_kpcrs g) cpuid kpcr) (tss_index g), p)
    else Stuck WildStore.

Definition build_x64_tss_desc (m : mem) (base desc : Z) : mem :=
  let m := st16 m desc 104 in
  let m := st16 m (desc + 2) (base .& 0xFFFF) in
  let m := st8 m (desc + 4) ((base .>> 16) .& 0xFF) in
  let m := st8 m (desc + 5) 0x89 in
  let m := st8 m (desc + 6) 0 in
  let m := st8 m (desc + 7) ((base .>> 24) .& 0xFF) in
  let m := st32 m (desc + 8) (base .>> 32) in
  st32 m (desc + 12) 0.

(** [lgdt] of 64-bit code loads the whole pointer. *)
Definition lgdt64 (m : mem) : Z * Z := (gdt_max_offset m, gdt_base_addr m).

(** Its stores up to [lgdt]. *)
Definition tss_install (m : mem) (tss stk : Z) : mem :=
  let m := st64 m (tss_rsp0 tss) (u64 (stk + PAGE_SIZE)) in
  let desc := u64 (gdt_base_addr m + gdt_max_offset m) in
  let m := build_x64_tss_desc m tss desc in
  st16 m g_gdtr (gdt_max_offset m + 16).

(** [init_tss_current_core]; neither allocation is checked, a null [tss] is
    written through. *)
Definition init_tss_current_core g p : kernel H * proc :=
  let '(tss, g) := kzalloc_mem g sizeof_tss_t in
  let '(stk, g) := kzalloc_mem g PAGE_SIZE in
  let m := tss_install (kmem g) tss stk in
  let tss_selector := u16 (tss_index g .<< 3) in
  let p := Proc (msrs p) (writes p) (lgdt64 m) tss_selector in
  let g := Kernel m (kheap g) (g_kpcrs g) (s32 (tss_index g + 2)) in
  let p := kpcr_swapgs p in
  let g := kpcr_set_offset g p 48 (ld64 (kmem g) (tss_rsp0 tss)) in
  let p := kpcr_swapgs p in
  (g, p).

(** [syscall_init]; [entry] is the address of syscall_entry. *)
Definition syscall_init p (entry : Z) : proc :=
  let val := read_msr p IA32_MSR_EFER in
  let val := val .| 1 in
  let p := write_msr p IA32_MSR_EFER val in
  let p := write_msr p IA32_MSR_LSTAR entry in
  let val := (SYSRET_SELECTOR .<< 48) .| (SYSCALL_SELECTOR .<< 32) in
  let p := write_msr p IA32_MSR_STAR val in
  write_msr p IA32_MSR_FMASK 0x00047700.
End Cpu.

(** ** What the processor reads *)

(** A 16-byte task-segment descriptor. *)
Record tss_segment := TssSeg { t_limit : Z; t_base : Z; t_type : Z; t_S : Z; t_DPL : Z; t_P : Z }.
Definition load_tss (m : mem) (a : Z) : tss_segment :=
  TssSeg (ld16 m a + 65536 * ldf m (a + 6) 0 4)
    (ld16 m (a + 2) + 65536 * ld8 m (a + 4) + 16777216 * ld8 m (a + 7) + 4294967296 * ld32 m (a + 8))
    (ldf m (a + 5) 0 4) (ldf m (a + 5) 4 1) (ldf m (a + 5) 5 2) (ldf m (a + 5) 7 1).

(** The task segment the task register names: both halves within the limit. *)
Definition select_tss (m : mem) (gdtr : Z * Z) (sel : Z) : option tss_segment :=
  let off := 8 * (sel / 8) in
  if off + 15 <=? fst gdtr then Some (load_tss m (snd gdtr + off)) else None.

(** An available 64-bit TSS at [b]. *)
Definition tss64 (b : Z) : tss_segment := TssSeg 104 b 9 0 0 1.

(** SYSCALL and SYSRET to 64-bit code take their segments from the STAR register. *)
Definition syscall_cs (star : Z) : Z := getf star 32 16 .& 0xFFFC.
Definition syscall_ss (star : Z) : Z := getf star 32 16 + 8.
Definition sysret_cs (star : Z) : Z := (getf star 48 16 + 16) .| 3.
Definition sysret_ss (star : Z) : Z := (getf star 48 16 + 8) .| 3.

Lemma load_tss_ext m1 m2 a : (forall x, a <= x < a + 16 -> ld8 m1 x = ld8 m2 x) ->
  load_tss m1 a = load_tss m2 a.
Proof.
  intros E. unfold load_tss, ldf, ld16, ld32.
  rewrite !(ldn_ext _ m1 m2) by (intros; apply E; lia). by rewrite !E by lia.
Qed.

Lemma build_tss_loads m base desc : 0 <= base < 18446744073709551616 ->
  load_tss (build_x64_tss_desc m base desc) desc = tss64 base.
Proof.
  intros Hb. unfold build_x64_tss_desc, load_tss. fields.
  change (256 ^ Z.of_nat 2) with 65536. change (256 ^ Z.of_nat 4) with 4294967296.
  assert (forall v, v .& 0xFFFF = v mod 65536) as E1
    by (intros; change 0xFFFF with (Z.ones 16); by rewrite Z.land_ones).
  assert (forall v, v .& 0xFF = v mod 256) as E2
    by (intros; change 0xFF with (Z.ones 8); by rewrite Z.land_ones).
  rewrite E1, !E2, !Z.shiftr_div_pow2 by lia. unfold u8, tss64.
  change (2 ^ 16) with 65536. change (2 ^ 24) with 16777216. change (2 ^ 32) with 4294967296.
  unfold ldf. fields. f_equal. zlia.
Qed.

Lemma build_tss_frame m base desc a : a < desc \/ desc + 16 <= a ->
  ld8 (build_x64_tss_desc m base desc) a = ld8 m a.
Proof. intros. unfold build_x64_tss_desc. by fields. Qed.

(** ** One processor *)

Definition apart (a n b k : Z) : Prop := a + n <= b \/ b + k <= a.

Section OneCpu.
Context {H : Type} `{AllocOps H}.
Implicit Types (g : kernel H) (p : proc).

(** The GDT has room for [n] task segments past the seven descriptors, and
    [tss_index] is the next one's. *)
Definition gdt_state g (base n : Z) : Prop :=
  gdt_max_offset (kmem g) = 56 + 16 * n /\ gdt_base_addr (kmem g) = base /\
  tss_index g = TSS_INDEX + 2 * n.

Definition kernel_gs p : Z := default 0 (msrs p !! IA32_KERNEL_GS_BASE).

(** The table, its pointer, the block and the processor block do not overlap. *)
Record tss_place (base tss stk k : Z) : Prop := {
  tp_base : 0 <= base /\ base + 2048 <= 4294967296;
  tp_tss : 0 < tss < 4294967296;
  tp_stk : 0 < stk < 4294967296;
  tp_gdtr : apart base 2048 g_gdtr 10;
  tp_tss_gdt : apart tss 104 base 2048 /\ apart tss 104 g_gdtr 10;
  tp_stk_gdt : apart stk 4096 base 2048 /\ apart stk 4096 g_gdtr 10;
  tp_k : apart (k + 48) 8 base 2048 /\ apart (k + 48) 8 g_gdtr 10 /\ apart (k + 48) 8 tss 104
}.

(** Bytes [init_tss_current_core] may write. *)
Definition tss_writes (base n tss stk k a : Z) : Prop :=
  tss <= a < tss + 104 \/ stk <= a < stk + 4096 \/ base + 56 + 16 * n <= a < base + 72 + 16 * n \/
  g_gdtr <= a < g_gdtr + 2 \/ k + 48 <= a < k + 56.

Lemma swapgs_gs p : gs_base (kpcr_swapgs p) = kernel_gs p.
Proof. unfold gs_base, kpcr_swapgs. cbn [msrs]. by rewrite lookup_insert_eq. Qed.

Lemma swapgs_twice p r :
  default 0 (msrs (kpcr_swapgs (kpcr_swapgs p)) !! r) = default 0 (msrs p !! r).
Proof.
  unfold kpcr_swapgs. cbn [msrs].
  destruct (decide (r = IA32_GS_BASE)) as [->|H1].
  - rewrite lookup_insert_eq, lookup_insert_ne, lookup_insert_eq by done. done.
  - rewrite lookup_insert_ne by done. destruct (decide (r = IA32_KERNEL_GS_BASE)) as [->|H2].
    + by rewrite !lookup_insert_eq.
    + by rewrite !lookup_insert_ne by done.
Qed.

Lemma tss_install_spec m base n tss stk :
  0 <= base /\ base + 2048 <= 4294967296 -> apart base 2048 g_gdtr 10 ->
  0 < tss < 4294967296 -> 0 < stk < 4294967296 ->
  apart tss 104 base 2048 -> apart tss 104 g_gdtr 10 ->
  gdt_max_offset m = 56 + 16 * n -> gdt_base_addr m = base -> 0 <= n < 124 ->
  let m' := tss_install m tss stk in
  gdt_max_offset m' = 72 + 16 * n /\ gdt_base_addr m' = base /\
  load_tss m' (base + 56 + 16 * n) = tss64 tss /\ ld64 m' (tss_rsp0 tss) = stk + PAGE_SIZE /\
  forall a, ~ tss <= a < tss + 104 -> ~ base + 56 + 16 * n <= a < base + 72 + 16 * n ->
    ~ g_gdtr <= a < g_gdtr + 2 -> ld8 m' a = ld8 m a.
Proof.
  intros Hb Hg Ht Hs Htb Htg Ho Hba Hn m'. unfold m', tss_install. clear m'.
  set (m1 := st64 m _ _). unfold apart, gdt_max_offset, gdt_base_addr, tss_rsp0, PAGE_SIZE in *.
  assert (forall a, ~ tss <= a < tss + 104 -> ld8 m1 a = ld8 m a) as F1.
  { intros a Ha. unfold m1. fields. done. }
  assert (ld16 m1 g_gdtr = 56 + 16 * n) as O1.
  { rewrite <- Ho. apply ldn_ext. intros. apply F1. lia. }
  assert (ld64 m1 (g_gdtr + 2) = base) as B1.
  { rewrite <- Hba. apply ldn_ext. intros. apply F1. lia. }
  assert (ld64 m1 (tss + 4) = stk + 4096) as R1.
  { unfold m1. rewrite ld64_st64, u64_idem. apply u64_small. lia. }
  rewrite O1, B1, u64_small by lia. set (d := base + (56 + 16 * n)).
  set (m2 := build_x64_tss_desc m1 tss d).
  assert (forall a, a < d \/ d + 16 <= a -> ld8 m2 a = ld8 m1 a) as F2 by apply build_tss_frame.
  assert (ld16 m2 g_gdtr = 56 + 16 * n) as O2.
  { rewrite <- O1. apply ldn_ext. intros. apply F2. lia. }
  rewrite O2. set (m3 := st16 m2 _ _).
  assert (forall a, ~ g_gdtr <= a < g_gdtr + 2 -> ld8 m3 a = ld8 m2 a) as F3.
  { intros a Ha. unfold m3. fields. done. }
  split; [unfold m3; rewrite ld16_st16, u16_small; lia|].
  split. { rewrite <- B1. apply ldn_ext. intros. rewrite F3, F2 by lia. done. }
  split. { replace (base + 56 + 16 * n) with d by lia. rewrite (load_tss_ext m3 m2) by (intros; apply F3; lia).
    apply build_tss_loads. lia. }
  split. { rewrite <- R1. apply ldn_ext. intros. rewrite F3, F2 by lia. done. }
  intros a ???. rewrite F3, F2, F1 by lia. done.
Qed.

(** [init_tss_current_core], both blocks obtained: the descriptor appended at
    [gdt_max_offset] is that of this processor's TSS, the task register selects
    it, the kernel stack of the TSS is also in the processor block, and the GS
    bases are as before. *)
Lemma init_tss_spec g p g' p' base n tss h1 stk h2 :
  kzalloc (kheap g) 104 = (tss, h1) -> kzalloc h1 4096 = (stk, h2) ->
  tss_place base tss stk (kernel_gs p) -> gdt_state g base n -> 0 <= n < 124 ->
  init_tss_current_core g p = (g', p') ->
  gdt_state g' base (n + 1) /\ kheap g' = h2 /\ g_kpcrs g' = g_kpcrs g /\
  tr p' = 56 + 16 * n /\ Lapic.gdtr p' = (72 + 16 * n, base) /\ writes p' = writes p /\
  (forall r, default 0 (msrs p' !! r) = default 0 (msrs p !! r)) /\
  load_tss (kmem g') (base + 56 + 16 * n) = tss64 tss /\
  ld64 (kmem g') (tss_rsp0 tss) = stk + PAGE_SIZE /\
  ld64 (kmem g') (kpcr_tss_stack (kernel_gs p)) = stk + PAGE_SIZE /\
  forall a, ~ tss_writes base n tss stk (kernel_gs p) a -> ld8 (kmem g') a = ld8 (kmem g) a.
Proof.
  intros E1 E2 [Hb Ht Hs Hg [Ht1 Ht2] [Hs1 Hs2] (Hk1 & Hk2 & Hk3)] (Ho & Hba & Hi) Hn E.
  unfold init_tss_current_core, kzalloc_mem in E. change sizeof_tss_t with 104 in E.
  change PAGE_SIZE with 4096 in E. rewrite E1 in E. cbn [kheap kmem g_kpcrs tss_index] in E.
  rewrite E2 in E. cbn [kheap kmem g_kpcrs tss_index] in E.
  destruct (Z.eqb_spec tss NULL) as [->|_]; [unfold NULL in *; lia|].
  destruct (Z.eqb_spec stk NULL) as [->|_]; [unfold NULL in *; lia|].
  set (m0 := memset (memset (kmem g) tss 0 104) stk 0 4096) in E.
  assert (forall a, ~ tss <= a < tss + 104 -> ~ stk <= a < stk + 4096 -> ld8 m0 a = ld8 (kmem g) a) as F0.
  { intros a ??. unfold m0. rewrite !memset_ld8. change (u32 4096) with 4096. change (u32 104) with 104.
    destruct (Z.leb_spec stk a), (Z.ltb_spec a (stk + 4096)), (Z.leb_spec tss a), (Z.ltb_spec a (tss + 104));
      cbn; lia || done. }
  unfold apart in *.
  destruct (tss_install_spec m0 base n tss stk) as (O3 & B3 & L3 & R3 & F3); try assumption.
  { rewrite <- Ho. apply ldn_ext. intros. apply F0; lia. }
  { rewrite <- Hba. apply ldn_ext. intros. apply F0; lia. }
  revert E O3 B3 L3 R3 F3. generalize (tss_install m0 tss stk). intros m3 E O3 B3 L3 R3 F3.
  apply pair_equal_spec in E as [<- <-]. unfold kpcr_set_offset, set_kmem. cbn [kmem kheap g_kpcrs tss_index].
  rewrite swapgs_gs. set (k := kernel_gs p) in *. change (kernel_gs _) with k.
  unfold kpcr_tss_stack. rewrite R3. set (m4 := st64 m3 _ _).
  assert (forall a, ~ k + 48 <= a < k + 56 -> ld8 m4 a = ld8 m3 a) as F4.
  { intros a Ha. unfold m4. fields. done. }
  unfold gdt_state, gdt_max_offset, gdt_base_addr in *. cbn [kmem tss_index].
  split; [split; [|split]|].
  { rewrite (ldn_ext 2 _ m3) by (intros; apply F4; lia). unfold ld16 in O3. lia. }
  { rewrite <- B3. apply ldn_ext. intros. apply F4. lia. }
  { rewrite Hi. unfold TSS_INDEX. rewrite s32_small; lia. }
  split; [done|]. split; [done|].
  split. { unfold kpcr_swapgs. cbn [tr]. rewrite Hi. unfold TSS_INDEX. rewrite Z.shiftl_mul_pow2 by lia. rewrite u16_small; lia. }
  split. { unfold kpcr_swapgs. cbn [Lapic.gdtr]. unfold lgdt64, gdt_max_offset, gdt_base_addr. by rewrite O3, B3. }
  split; [done|]. split; [intros; rewrite swapgs_twice; done|].
  split. { rewrite <- L3. apply load_tss_ext. intros. apply F4. lia. }
  split. { rewrite <- R3. apply ldn_ext. intros. apply F4. unfold tss_rsp0 in *. lia. }
  split. { unfold m4. rewrite ld64_st64. apply u64_small. unfold PAGE_SIZE. lia. }
  intros a Ha. unfold tss_writes in Ha. rewrite F4, F3, F0 by lia. done.
Qed.
End OneCpu.

(** ** System calls *)

(** The flags the kernel is entered without: TF, IF, DF, IOPL, NT and AC. *)
Definition masked_flags : list Z := [8; 9; 10; 12; 13; 14; 18].

(** After [syscall_init], on the GDT of the boot kernel: SYSCALL enters
    syscall_entry with the kernel's code and data segments and the flags above
    clear; SYSRET returns to the user's.  EFER gets its bit 0, and no other
    register changes. *)
Theorem syscall_init_correct p entry m gdtr :
  long_mode_gdt m gdtr -> 0 <= entry < 18446744073709551616 ->
  let p' := syscall_init p entry in
  let star := read_msr p' IA32_MSR_STAR in
  read_msr p' IA32_MSR_LSTAR = entry /\
  select m gdtr (syscall_cs star) = Some (code64 0) /\
  select m gdtr (syscall_ss star) = Some (data64 0) /\
  select m gdtr (sysret_cs star) = Some (code64 3) /\
  select m gdtr (sysret_ss star) = Some (data64 3) /\
  (forall i, 0 <= i -> Z.testbit (read_msr p' IA32_MSR_EFER) i =
    ((i =? 0) || Z.testbit (read_msr p IA32_MSR_EFER) i)%bool) /\
  (forall f i, i ∈ masked_flags -> Z.testbit (Z.ldiff f (read_msr p' IA32_MSR_FMASK)) i = false) /\
  forall r, r ∉ [IA32_MSR_EFER; IA32_MSR_STAR; IA32_MSR_LSTAR; IA32_MSR_FMASK] ->
    read_msr p' r = read_msr p r.
Proof.
  intros (Hkc & Hkd & Hud & Huc) He p' star.
  assert (forall r, read_msr p' r =
    if decide (r = IA32_MSR_FMASK) then 0x47700
    else if decide (r = IA32_MSR_STAR) then (35 .<< 48) .| (24 .<< 32)
    else if decide (r = IA32_MSR_LSTAR) then entry
    else if decide (r = IA32_MSR_EFER) then u64 (read_msr p IA32_MSR_EFER .| 1)
    else read_msr p r) as Hr.
  { intros r. unfold p', syscall_init. rewrite !read_write_msr. repeat case_decide; try done.
    by apply u64_small. }
  assert (star = (35 .<< 48) .| (24 .<< 32)) as -> by (unfold star; by rewrite Hr).
  split; [by rewrite Hr|]. do 4 (split; [done|]). split; [|split].
  - intros i Hi.
    assert (read_msr p' IA32_MSR_EFER = u64 (read_msr p IA32_MSR_EFER .| 1)) as -> by (by rewrite Hr).
    rewrite read_msr_value. unfold u64.
    change 18446744073709551616 with (2 ^ 64). destruct (decide (i < 64)).
    + rewrite Z.mod_pow2_bits_low, Z.lor_spec by lia. change 1 with (2 ^ 0) at 1. rewrite (Z.pow2_bits_eqb 0 i) by lia.
      by rewrite orb_comm, Z.eqb_sym.
    + rewrite !Z.mod_pow2_bits_high by lia. destruct (Z.eqb_spec i 0); [lia|done].
  - intros f i Hi. rewrite Hr. rewrite Z.ldiff_spec. cbn. unfold masked_flags in Hi.
    repeat (apply elem_of_cons in Hi as [->|Hi]; [apply andb_false_r|]). by apply elem_of_nil in Hi.
  - intros r Hn. rewrite Hr. rewrite !not_elem_of_cons in Hn. destruct Hn as (?&?&?&?&_).
    by rewrite !decide_False by done.
Qed.

(** ** The processor block *)

Section Kpcr.
Context {H : Type} `{AllocPlace H}.
Variable dev : list (Z * Z) -> Z -> Z.
Implicit Types (g : kernel H) (p : proc).

Definition in_heap (a : Z) : Prop := al_lo <= a < al_hi.

Lemma kzalloc_mem_spec g n b g' : 0 < n <= 4096 -> kzalloc_mem g n = (b, g') -> b <> NULL ->
  kzalloc (kheap g) n = (b, kheap g') /\ g_kpcrs g' = g_kpcrs g /\ tss_index g' = tss_index g /\
  al_lo <= b /\ b + n <= al_hi /\ 0 < b < 4294967296 /\ al_live (kheap g') b n /\
  (forall q k, al_live (kheap g) q k -> al_live (kheap g') q k /\ (0 < k <= 4096 -> apart b n q k)) /\
  (forall a, b <= a < b + n -> ld8 (kmem g') a = 0) /\
  forall a, ~ b <= a < b + n -> ld8 (kmem g') a = ld8 (kmem g) a.
Proof.
  intros Hn E Hb. unfold kzalloc_mem in E. destruct (kzalloc (kheap g) n) as [b1 h] eqn:Ek.
  apply pair_equal_spec in E as [<- <-]. cbn [kheap kmem g_kpcrs tss_index].
  destruct (Z.eqb_spec b1 NULL) as [->|_]; [done|].
  destruct (al_in _ _ _ _ Ek Hb Hn) as [Hl Hh]. pose proof Ek as El.
  apply al_kzalloc in El as [[-> _]|(Hr & Hf & El)]; [done|].
  assert (u32 n = n) as En by (apply u32_small; lia).
  split; [done|]. split; [done|]. split; [done|]. split; [done|]. split; [done|]. split; [done|].
  split; [apply El; by right|]. split.
  - intros q k Hq. split; [apply El; by left|]. intros Hk. unfold apart. by eapply al_off.
  - split; intros a Ha; rewrite memset_ld8, En;
      destruct (Z.leb_spec b1 a), (Z.ltb_spec a (b1 + n)); cbn; lia || done.
Qed.

(** [kpcr_create], both blocks obtained: the block is cleared but for the
    processor's id and its stack, a page of its own; the hidden GS base and the
    entry of [g_kpcrs] point to it.  Only the two blocks change. *)
Lemma kpcr_create_spec g p k g' p' :
  kpcr_create dev g p = Done (k, g', p') -> k <> NULL -> ld64 (kmem g') (kpcr_stack k) <> NULL ->
  let stk := ld64 (kmem g') (kpcr_stack k) in
  ld64 (kmem g') (kpcr_cpuid k) = get_lapic_id dev p /\
  (forall off, off ∈ [8; 16; 32; 40; 48] -> ld64 (kmem g') (k + off) = 0) /\
  kernel_gs p' = k /\
  (forall r, r <> IA32_KERNEL_GS_BASE -> read_msr p' r = read_msr p r) /\
  g_kpcrs g' !! Z.to_nat (get_lapic_id dev p) = Some k /\ tss_index g' = tss_index g /\
  al_live (kheap g') k sizeof_kpcr_t /\ al_live (kheap g') stk PAGE_SIZE /\
  apart stk PAGE_SIZE k sizeof_kpcr_t /\
  (al_lo <= k /\ k + sizeof_kpcr_t <= al_hi) /\ (al_lo <= stk /\ stk + PAGE_SIZE <= al_hi) /\
  (forall q j, al_live (kheap g) q j -> al_live (kheap g') q j) /\
  forall a, ~ k <= a < k + sizeof_kpcr_t -> ~ stk <= a < stk + PAGE_SIZE ->
    ld8 (kmem g') a = ld8 (kmem g) a.
Proof.
  intros E Hk. unfold kpcr_create in E. set (id := get_lapic_id dev p) in *.
  assert (0 <= id < 256) as Hid.
  { unfold id, get_lapic_id, reg_read. pose proof (u32_bound (dev (writes p)
      (get_apic_register_addr p LAPIC_ID_OFFSET_L))) as Hu.
    rewrite Z.shiftr_div_pow2 by lia. change (2 ^ 24) with 16777216. zlia. }
  destruct (kzalloc_mem g sizeof_kpcr_t) as [k0 g1] eqn:E1.
  destruct (Z.eqb_spec k0 NULL) as [->|Hk0]; [by simplify_eq|].
  set (g2 := set_kmem g1 _) in E. destruct (kzalloc_mem g2 PAGE_SIZE) as [stk g3] eqn:E2.
  destruct (_ <? _) eqn:El in E; [|done]. bool_hyps.
  unfold set_kmem in E. cbn [kmem kheap g_kpcrs tss_index] in E, El.
  apply (f_equal (fun o => match o with Done x => x | Stuck _ => (k0, g, p) end)) in E.
  apply pair_equal_spec in E as [E <-]. apply pair_equal_spec in E as [<- <-].
  cbn [kmem kheap g_kpcrs tss_index]. unfold kpcr_stack, kpcr_cpuid. rewrite ld64_st64. intros Hs.
  assert (stk <> NULL) as Hs' by (intros ->; by apply Hs).
  apply kzalloc_mem_spec in E1 as (_ & Eg1 & Et1 & Hl1 & Hh1 & Hr1 & Hv1 & Ho1 & Z1 & F1);
    [|unfold sizeof_kpcr_t; lia|done].
  apply kzalloc_mem_spec in E2 as (_ & Eg2 & Et2 & Hl2 & Hh2 & Hr2 & Hv2 & Ho2 & _ & F2);
    [|unfold PAGE_SIZE; lia|done].
  destruct (Ho2 k0 sizeof_kpcr_t Hv1) as [Hv Ha]. specialize (Ha ltac:(unfold sizeof_kpcr_t; lia)).
  unfold g2, set_kmem in *. cbn [kmem g_kpcrs tss_index] in *. clear g2.
  rewrite u64_small in * by lia. unfold kpcr_cpuid, sizeof_kpcr_t, PAGE_SIZE, apart in *.
  split. { rewrite <- (u64_small id), <- (ld64_st64 (kmem g1) k0 id) by lia.
    apply ldn_ext. intros b Hb. fields. apply F2. lia. }
  split. { intros off Hoff. apply ldn_zero. intros x Hx.
    repeat (apply elem_of_cons in Hoff as [->|Hoff];
      [fields; rewrite F2 by lia; fields; apply Z1; lia|]). by apply elem_of_nil in Hoff. }
  split. { unfold kernel_gs. rewrite write_msr_value, lookup_insert_eq. apply u64_small. lia. }
  split; [intros r Hr; by rewrite read_write_msr, decide_False by done|].
  split. { unfold zset. destruct (Z.leb_spec 0 id); [|lia]. rewrite list_lookup_insert_eq; [done|lia]. }
  split; [by rewrite Et2, Et1|]. split; [done|]. split; [done|]. split; [lia|].
  split; [done|]. split; [done|]. split; [intros q j Hq; by apply Ho2, Ho1|].
  intros a Hk' Hs2. fields. rewrite F2 by lia. fields. by apply F1.
Qed.
End Kpcr.

(** ** Witnesses *)

(** A GDT of the boot kernel at 0x20000. *)
Definition demo_gdt : mem * (Z * Z) := gdt_init 0x20000 ∅ (24, 0x7000).

Lemma syscall_init_correct_witness :
  read_msr (syscall_init demo_proc 0x123456) IA32_MSR_LSTAR = 0x123456 /\
  select (fst demo_gdt) (snd demo_gdt)
    (sysret_cs (read_msr (syscall_init demo_proc 0x123456) IA32_MSR_STAR)) = Some (code64 3).
Proof.
  destruct (syscall_init_correct demo_proc 0x123456 (fst demo_gdt) (snd demo_gdt))
    as (Hl & _ & _ & Hc & _).
  - split; [vm_compute; reflexivity|split; [vm_compute; reflexivity|split; vm_compute; reflexivity]].
  - lia.
  - split; [exact Hl|exact Hc].
Defined.

(** Processor 5, on an empty heap. *)
Definition demo_dev (_ : list (Z * Z)) (_ : Z) : Z := 0x05000000.
Definition demo_kernel : kernel (list (Z * Z)) := Kernel ∅ [] (replicate 100 0) TSS_INDEX.
Definition demo_block : Z * kernel (list (Z * Z)) * proc :=
  match kpcr_create demo_dev demo_kernel demo_proc with
  | Done r => r
  | Stuck _ => (NULL, demo_kernel, demo_proc)
  end.

Lemma demo_block_done : kpcr_create demo_dev demo_kernel demo_proc =
  Done (fst (fst demo_block), snd (fst demo_block), snd demo_block).
Proof.
  unfold demo_block. destruct (kpcr_create _ _ _) as [[[k g] p]|f] eqn:E; [done|].
  apply (f_equal (fun o => match o with Done _ => true | Stuck _ => false end)) in E.
  vm_compute in E. discriminate.
Qed.

Example demo_block_spec :
  ld64 (kmem (snd (fst demo_block))) (fst (fst demo_block)) = 5 /\
  kernel_gs (snd demo_block) = fst (fst demo_block).
Proof.
  destruct (kpcr_create_spec demo_dev demo_kernel demo_proc _ _ _ demo_block_done) as (Hc & _ & Hm & _).
  - vm_compute. discriminate.
  - vm_compute. discriminate.
  - split; [exact Hc|exact Hm].
Defined.
