(* ===== verification/Acpi.v ===== *)
(** Finding the processors: the ACPI tables in x64_kenerl/kernel/apic.c, the
    search for the root pointer, the checksum, the walk over the MADT, and
    apic_init, which composes them with ioremap_nocache and kpcr_create.  What
    the print functions write to the console is not modelled; the walk, which is
    named for printing, is what fills [g_apicInfo]. *)

From S2P Require Import Prelude Mem CString PageAlloc Alloc Phymm Paging Ioremap Lapic Cpu.
#[local] Open Scope kernel_scope.

Definition EBDA_RSDP_ADDRESS : Z := 0x40E.
Definition EBDA_RSDP_ADDRESS_END : Z := 0x80E.
Definition BDA_RSDP_ADDRESS : Z := 0xE0000.
Definition BDA_RSDP_ADDRESS_END : Z := 0x100000.

(** Offsets in the packed [rsdp_t], [rsdt_t] and [madt_t]. *)
Definition rsdp_revision (p : Z) : Z := p + 15.
Definition rsdp_rsdt_address (p : Z) : Z := p + 16.
Definition rsdt_length (p : Z) : Z := p + 4.
Definition sizeof_rsdt_t : Z := 36.
Definition rsdt_entry (p i : Z) : Z := p + 36 + 4 * i.
Definition madt_length (p : Z) : Z := p + 4.
Definition madt_address (p : Z) : Z := p + 36.
Definition madt_structure (p : Z) : Z := p + 44.

(** ** Operations *)

(** The [switch] of [get_rsdp_address]: the letters of "RSD PTR". *)
Definition rsdp_next (state c : Z) : Z :=
  match state with
  | 0 => if c =? 82 then 1 else state
  | 1 => if c =? 83 then state + 1 else 0
  | 2 => if c =? 68 then state + 1 else 0
  | 3 => if c =? 32 then state + 1 else 0
  | 4 => if c =? 80 then state + 1 else 0
  | 5 => if c =? 84 then state + 1 else 0
  | 6 => if c =? 82 then state + 1 else 0
  | _ => state
  end.

Fixpoint rsdp_loop (n : nat) (i state : Z) (m : mem) (data : Z) : Z :=
  match n with
  | O => NULL
  | S n' =>
      let state := rsdp_next state (ldc m (data + i)) in
      if state =? 7 then data + i - 6 else rsdp_loop n' (i + 1) state m data
  end.

Definition get_rsdp_address (m : mem) (data msize : Z) : Z :=
  rsdp_loop (Z.to_nat (u32 msize)) 0 0 m data.

Fixpoint sum_loop (n : nat) (m : mem) (data : Z) (sum : Z) : Z :=
  match n with
  | O => sum
  | S n' => sum_loop n' m (data + 1) (u8 (sum + ld8 m data))
  end.
Definition sum (m : mem) (data len : Z) : Z := sum_loop (Z.to_nat (u32 len)) m data 0.

Definition load_local_apic (m : mem) (pos : Z) : local_apic_t :=
  LocalApic (ld8 m (pos + 2)) (ld8 m (pos + 3)) (ld32 m (pos + 4)).
Definition load_io_apic (m : mem) (pos : Z) : io_apic_t :=
  IoApic (ld8 m (pos + 2)) (ld32 m (pos + 4)) (ld32 m (pos + 8)).

(** The [switch] of the walk; the arrays have 100 entries and the index is not
    checked. *)
Definition add_controller (m : mem) (pos : Z) (info : apic_info_t) : outcome apic_info_t :=
  let 'ApicInfo base ln la inum io := info in
  if ld8 m pos =? 0 then
    if ln <? Z.of_nat (length la)
    then Done (ApicInfo base (u32 (ln + 1)) (zset la ln (load_local_apic m pos)) inum io)
    else Stuck WildStore
  else if ld8 m pos =? 1 then
    if inum <? Z.of_nat (length io)
    then Done (ApicInfo base ln la (u32 (inum + 1)) (zset io inum (load_io_apic m pos)))
    else Stuck WildStore
  else Done info.

(** [None] is out of fuel: a structure of length 0 is looked at for ever. *)
Fixpoint walk_loop (fuel : nat) (m : mem) (pos end_ : Z) (info : apic_info_t)
  : option (outcome apic_info_t) :=
  match fuel with
  | O => None
  | S f =>
      match add_controller m pos info with
      | Stuck e => Some (Stuck e)
      | Done info =>
          let pos := u64 (pos + ld8 m (pos + 1)) in
          if end_ <=? pos then Some (Done info) else walk_loop f m pos end_ info
      end
  end.

Definition set_base (info : apic_info_t) (base : Z) : apic_info_t :=
  ApicInfo base (lapic_num info) (lapic info) (ioapic_num info) (ioapic info).

Definition print_interrupt_controller_info (fuel : nat) (m : mem) (madt : Z) (info : apic_info_t)
  : option (outcome apic_info_t) :=
  let start := madt_structure madt in
  let end_ := u64 (ld32 m (madt_length madt) + madt) in
  walk_loop fuel m start end_ (set_base info (ld32 m (madt_address madt))).

(** The search for "APIC", a string constant at [lit]. *)
Fixpoint find_madt (n : nat) (i : Z) (m : mem) (rsdt lit : Z) : Z :=
  match n with
  | O => NULL
  | S n' =>
      if memcmp m (ld32 m (rsdt_entry rsdt i)) lit 4 =? 0 then ld32 m (rsdt_entry rsdt i)
      else find_madt n' (i + 1) m rsdt lit
  end.

Section Init.
Context {P H : Type} {pops : PageOps P} {aops : AllocOps H}.
Variable dev : list (Z * Z) -> Z -> Z.
Variable lit : Z.

(** What [apic_init] works on: the page manager, the kernel's memory and heap,
    [g_apicInfo] and the processor. *)
Record apic_state := ApicState {
  a_pages : P;
  a_kernel : kernel H;
  a_info : apic_info_t;
  a_proc : proc
}.

(** The tables found, checked and mapped: the MADT, or where it gave up. *)
Definition find_rsdp (m : mem) : Z :=
  let p := get_rsdp_address m EBDA_RSDP_ADDRESS (EBDA_RSDP_ADDRESS_END - EBDA_RSDP_ADDRESS) in
  if p =? NULL then get_rsdp_address m BDA_RSDP_ADDRESS (BDA_RSDP_ADDRESS_END - BDA_RSDP_ADDRESS) else p.

Definition set_pages (st : apic_state) (s : P) (m : mem) : apic_state :=
  ApicState s (set_kmem (a_kernel st) m) (a_info st) (a_proc st).
Definition set_info (st : apic_state) (info : apic_info_t) : apic_state :=
  ApicState (a_pages st) (a_kernel st) info (a_proc st).
Definition mem_of (st : apic_state) : mem := kmem (a_kernel st).

(** The rest of [apic_init], on what the search returned. *)
Definition apic_init_at (fuel : nat) (st : apic_state) (p_rsdp : Z)
  : option (outcome (Z * apic_state)) :=
  if p_rsdp =? NULL then Some (Done (-1, st))
  else if negb (ld8 (mem_of st) (rsdp_revision p_rsdp) =? 0) then Some (Done (-1, st))
  else if negb (sum (mem_of st) p_rsdp 20 =? 0) then Some (Done (-1, st))
  else
    let '(vrt, s, m) := ioremap_nocache (a_pages st) (mem_of st)
      (ld32 (mem_of st) (rsdp_rsdt_address p_rsdp)) PAGE_SIZE in
    let st := set_pages st s m in
    if vrt =? NULL then Some (Done (-1, st))
    else
      let entryNums := s32 (u64 (ld32 m (rsdt_length vrt) - sizeof_rsdt_t) / 4) in
      let madt := find_madt (Z.to_nat entryNums) 0 m vrt lit in
      if madt =? NULL then Some (Done (-1, st))
      else
        match print_interrupt_controller_info fuel m madt (a_info st) with
        | None => None
        | Some (Stuck e) => Some (Stuck e)
        | Some (Done info) =>
            let '(base, s, m) := ioremap_nocache (a_pages st) m
              (localInterruptControllerAddress info) PAGE_SIZE in
            let st := set_info (set_pages st s m) (set_base info (u32 base)) in
            match kpcr_create dev (a_kernel st) (a_proc st) with
            | Stuck e => Some (Stuck e)
            | Done (_, g, p) =>
                let p := kpcr_swapgs (kpcr_swapgs p) in
                Some (Done (0, ApicState (a_pages st) g (a_info st) p))
            end
        end.

Definition apic_init (fuel : nat) (st : apic_state) : option (outcome (Z * apic_state)) :=
  apic_init_at fuel st (find_rsdp (mem_of st)).
End Init.

(** ** The root pointer *)

(** "RSD PTR" *)
Definition signature : list Z := [82; 83; 68; 32; 80; 84; 82].

(** [k] bytes before [i] are the first [k] letters. *)
Definition matched (m : mem) (data i : Z) (k : nat) : Prop :=
  forall j, (j < k)%nat -> signature !! j = Some (ldc m (data + i - Z.of_nat k + Z.of_nat j)).

Definition occurs (m : mem) (data i : Z) : Prop := matched m data (i + 7) 7.

(** What the state says: it counts letters that are there. *)
Lemma rsdp_next_matched m data i k : (k < 7)%nat -> matched m data i k ->
  exists k', rsdp_next (Z.of_nat k) (ldc m (data + i)) = Z.of_nat k' /\ (k' <= 7)%nat /\
    matched m data (i + 1) k' /\
    (signature !! k = Some (ldc m (data + i)) -> k' = S k) /\
    (signature !! k <> Some (ldc m (data + i)) -> k' = 0%nat).
Proof.
  intros Hk Hm. set (c := ldc m (data + i)) in *.
  assert (signature !! k = Some c -> matched m data (i + 1) (S k)) as Hy.
  { intros Hc j Hj. destruct (decide (j = k)) as [->|Hn].
    - rewrite Hc. unfold c. do 2 f_equal. lia.
    - rewrite Hm by lia. do 2 f_equal. lia. }
  assert (matched m data (i + 1) 0) as H0 by (intros j Hj; lia).
  destruct (decide (signature !! k = Some c)) as [Hc|Hc].
  - exists (S k). split; [|split; [lia|]; split; [by apply Hy|]; done].
    destruct k as [|[|[|[|[|[|[|k]]]]]]]; [..|lia]; cbn in Hc; apply (inj Some) in Hc as <-; done.
  - exists 0%nat. split; [|split; [lia|]; split; [done|]; done].
    destruct k as [|[|[|[|[|[|[|k]]]]]]]; [..|lia]; cbn in Hc; unfold rsdp_next; cbn;
      match goal with |- context [?x =? ?l] => destruct (Z.eqb_spec x l); [congruence|done] end.
Qed.

Lemma rsdp_loop_S n i k m data : (k < 7)%nat -> matched m data i k -> exists k',
  matched m data (i + 1) k' /\ (k' <= 7)%nat /\
  (signature !! k = Some (ldc m (data + i)) -> k' = S k) /\
  (signature !! k <> Some (ldc m (data + i)) -> k' = 0%nat) /\
  rsdp_loop (S n) i (Z.of_nat k) m data =
    if decide (k' = 7%nat) then data + i - 6 else rsdp_loop n (i + 1) (Z.of_nat k') m data.
Proof.
  intros Hk Hm. destruct (rsdp_next_matched m data i k Hk Hm) as (k' & E & Hk' & Hm' & H1 & H2).
  exists k'. do 4 (split; [done|]). cbn [rsdp_loop]. rewrite E.
  destruct (decide (k' = 7%nat)) as [->|Hn]; [done|]. destruct (Z.eqb_spec (Z.of_nat k') 7); [lia|done].
Qed.

(** What is returned is an occurrence. *)
Lemma rsdp_loop_sound n i k m data : (k < 7)%nat -> matched m data i k ->
  rsdp_loop n i (Z.of_nat k) m data = NULL \/
  exists j, i - Z.of_nat k <= j /\ j + 7 <= i + Z.of_nat n /\ occurs m data j /\
    rsdp_loop n i (Z.of_nat k) m data = data + j.
Proof.
  revert i k. induction n as [|n IH]; intros i k Hk Hm; [by left|].
  destruct (rsdp_loop_S n i k m data Hk Hm) as (k' & Hm' & Hk' & Hy & Hn & ->).
  assert (Z.of_nat k' <= Z.of_nat k + 1) as Hle.
  { destruct (decide (signature !! k = Some (ldc m (data + i)))) as [E|E];
      [rewrite (Hy E)|rewrite (Hn E)]; lia. }
  destruct (decide (k' = 7%nat)) as [->|Hne].
  - right. exists (i - 6). split; [lia|]. split; [lia|]. split; [|lia].
    unfold occurs. by replace (i - 6 + 7) with (i + 1) by lia.
  - destruct (IH (i + 1) k' ltac:(lia) Hm') as [E|(j & H1 & H2 & H3 & H4)]; [by left|].
    right. exists j. split; [lia|]. split; [lia|done].
Qed.

(** From a state that has counted the start of an occurrence, the rest is read. *)
Lemma rsdp_loop_hit k n i m data : (k < 7)%nat -> (7 - k <= n)%nat -> matched m data i k ->
  occurs m data (i - Z.of_nat k) -> rsdp_loop n i (Z.of_nat k) m data = data + (i - Z.of_nat k).
Proof.
  intros Hk. revert n i. assert (exists d, (d = 7 - k)%nat) as [d Hd] by eauto. revert k Hk Hd.
  induction d as [|d IH]; intros k Hk Hd n i Hn Hm Ho; [lia|].
  destruct n as [|n]; [lia|]. destruct (rsdp_loop_S n i k m data Hk Hm) as (k' & Hm' & _ & Hy & _ & ->).
  assert (k' = S k) as ->.
  { apply Hy. rewrite (Ho k) by lia. do 2 f_equal. lia. }
  destruct (decide (S k = 7%nat)) as [E|E]; [lia|].
  rewrite (IH (S k)) by (try lia; try done; by replace (i + 1 - Z.of_nat (S k)) with (i - Z.of_nat k) by lia).
  lia.
Qed.

(** The first occurrence is found unless the bytes before it end in a proper
    start of the signature: the letter that breaks off a match is not looked at
    again. *)
Lemma rsdp_loop_finds d n i k m data a : (k < 7)%nat -> matched m data i k -> 0 <= i - Z.of_nat k ->
  a = i + Z.of_nat d -> (d + 7 <= n)%nat -> occurs m data a ->
  (forall j, 0 <= j < a -> ~ occurs m data j) ->
  (forall p, (1 <= p <= 5)%nat -> Z.of_nat p <= a -> ~ matched m data a p) ->
  rsdp_loop n i (Z.of_nat k) m data = data + a.
Proof.
  revert n i k. induction d as [|d IH]; intros n i k Hk Hm Hi Ha Hn Ho Hf Hp.
  - replace a with i in * by lia.
    assert (k = 0%nat) as ->.
    { destruct (decide (k = 6%nat)) as [->|H6].
      - exfalso. apply (Hf (i - 6)); [lia|]. unfold occurs. replace (i - 6 + 7) with (i + 1) by lia.
        intros j Hj. destruct (decide (j = 6%nat)) as [->|Hj'].
        + specialize (Ho 0%nat ltac:(lia)). cbn in Ho |- *. rewrite Ho. do 2 f_equal. lia.
        + rewrite Hm by lia. do 2 f_equal. lia.
      - destruct (decide (k = 0%nat)); [done|]. exfalso. apply (Hp k); [lia|lia|done]. }
    rewrite (rsdp_loop_hit 0); [f_equal; lia|lia|lia|done|]. by rewrite Z.sub_0_r.
  - destruct n as [|n]; [lia|]. destruct (rsdp_loop_S n i k m data Hk Hm) as (k' & Hm' & Hk' & Hy & Hno & ->).
    assert (0 <= i + 1 - Z.of_nat k') as Hi'.
    { destruct (decide (signature !! k = Some (ldc m (data + i)))) as [E|E];
        [rewrite (Hy E)|rewrite (Hno E)]; lia. }
    destruct (decide (k' = 7%nat)) as [->|Hne].
    + exfalso. apply (Hf (i - 6)); [lia|]. unfold occurs. by replace (i - 6 + 7) with (i + 1) by lia.
    + apply (IH n (i + 1) k'); try done; lia.
Qed.

(** [get_rsdp_address] returns null or the address of an occurrence of "RSD PTR"
    in the range; it returns the first occurrence when no proper start of the
    signature, of up to five letters, ends just before it. *)
Theorem get_rsdp_address_correct m data msize : 0 <= msize < 4294967296 ->
  let r := get_rsdp_address m data msize in
  (r = NULL \/ exists j, 0 <= j /\ j + 7 <= msize /\ r = data + j /\ occurs m data j) /\
  (forall a, 0 <= a -> a + 7 <= msize -> occurs m data a ->
     (forall j, 0 <= j < a -> ~ occurs m data j) ->
     (forall p, (1 <= p <= 5)%nat -> Z.of_nat p <= a -> ~ matched m data a p) -> r = data + a).
Proof.
  intros Hs r. unfold r, get_rsdp_address. rewrite u32_small by lia.
  assert (matched m data 0 0) as H0 by (intros j Hj; lia). split.
  - destruct (rsdp_loop_sound (Z.to_nat msize) 0 0 m data ltac:(lia) H0) as [E|(j & ?&?&?&?)]; [by left|].
    right. exists j. split; [lia|]. split; [lia|done].
  - intros a Ha Hb Ho Hf Hp. apply (rsdp_loop_finds (Z.to_nat a) _ 0 0); try done; lia.
Qed.

(** ** Checksums *)

Fixpoint bytes_sum (l : list Z) : Z := match l with [] => 0 | b :: l => b + bytes_sum l end.

Lemma sum_loop_value n m data s : sum_loop n m data s mod 256 = (s + bytes_sum (bytes_at m data n)) mod 256.
Proof.
  revert data s. induction n as [|n IH]; intros data s; cbn [sum_loop bytes_at bytes_sum].
  - f_equal. lia.
  - rewrite IH. unfold u8. rewrite Zplus_mod_idemp_l. f_equal. lia.
Qed.

Lemma sum_loop_bound n m data s : 0 <= s < 256 -> 0 <= sum_loop n m data s < 256.
Proof. revert data s. induction n as [|n IH]; intros data s Hs; [done|]. apply IH, u8_bound. Qed.

Lemma sum_value m data len : 0 <= len < 4294967296 ->
  sum m data len = bytes_sum (bytes_at m data (Z.to_nat len)) mod 256.
Proof.
  intros. unfold sum. rewrite u32_small by done.
  pose proof (sum_loop_bound (Z.to_nat len) m data 0 ltac:(lia)).
  rewrite <- (Z.mod_small (sum_loop _ _ _ _) 256) by lia. apply sum_loop_value.
Qed.

(** ** The MADT *)

(** The structures from [pos] to [end_], each as long as its second byte says. *)
Inductive structures (m : mem) (end_ : Z) : Z -> list Z -> Prop :=
| st_last pos : end_ <= pos + ld8 m (pos + 1) -> structures m end_ pos [pos]
| st_more pos l : pos + ld8 m (pos + 1) < end_ -> structures m end_ (pos + ld8 m (pos + 1)) l ->
    structures m end_ pos (pos :: l).

Definition local_apics (m : mem) (l : list Z) : list local_apic_t :=
  load_local_apic m <$> filter (fun pos => ld8 m pos = 0) l.
Definition io_apics (m : mem) (l : list Z) : list io_apic_t :=
  load_io_apic m <$> filter (fun pos => ld8 m pos = 1) l.

(** [info] holds [xs] and [ys]. *)
Definition holds_apics (info : apic_info_t) (base : Z) (xs : list local_apic_t) (ys : list io_apic_t) : Prop :=
  localInterruptControllerAddress info = base /\
  lapic_num info = Z.of_nat (length xs) /\ length (lapic info) = 100%nat /\
  take (length xs) (lapic info) = xs /\
  ioapic_num info = Z.of_nat (length ys) /\ length (ioapic info) = 100%nat /\
  take (length ys) (ioapic info) = ys.

Lemma take_zset {A} (l : list A) (xs : list A) x : take (length xs) l = xs -> (length xs < length l)%nat ->
  take (length (xs ++ [x])) (zset l (Z.of_nat (length xs)) x) = xs ++ [x].
Proof.
  intros Ht Hl. unfold zset. destruct (Z.leb_spec 0 (Z.of_nat (length xs))); [|lia].
  rewrite Nat2Z.id, length_app. cbn [length]. rewrite Nat.add_1_r.
  rewrite (take_S_r _ _ x) by (apply list_lookup_insert_eq; lia).
  rewrite take_insert_ge by lia. by rewrite Ht.
Qed.

(** One structure: recorded when there is room, a write past the array when
    not. *)
Lemma add_controller_spec m pos info base xs ys : holds_apics info base xs ys ->
  (length (xs ++ local_apics m [pos]) <= 100)%nat -> (length (ys ++ io_apics m [pos]) <= 100)%nat ->
  exists info', add_controller m pos info = Done info' /\
    holds_apics info' base (xs ++ local_apics m [pos]) (ys ++ io_apics m [pos]).
Proof.
  destruct info as [b ln la inum io]. intros (Hb & Hn & Hl & Ht & Hi & Hl' & Ht').
  cbn [localInterruptControllerAddress lapic_num lapic ioapic_num ioapic] in *.
  unfold local_apics, io_apics, add_controller. rewrite !filter_cons, !filter_nil.
  destruct (Z.eqb_spec (ld8 m pos) 0) as [E0|E0], (Z.eqb_spec (ld8 m pos) 1) as [E1|E1]; [lia|..].
  - rewrite decide_True, decide_False by lia. cbn [fmap list_fmap]. rewrite !length_app. cbn [length].
    intros Hx Hy. rewrite Hn. destruct (Z.ltb_spec (Z.of_nat (length xs)) (Z.of_nat (length la))); [|lia].
    eexists. split; [done|]. rewrite app_nil_r. split; [done|]. cbn [lapic_num lapic ioapic_num ioapic].
    split; [rewrite u32_small by lia; rewrite length_app; cbn [length]; lia|].
    split; [by rewrite length_zset|]. split; [apply take_zset; [done|lia]|done].
  - rewrite decide_False, decide_True by lia. cbn [fmap list_fmap]. rewrite !length_app. cbn [length].
    intros Hx Hy. rewrite Hi. destruct (Z.ltb_spec (Z.of_nat (length ys)) (Z.of_nat (length io))); [|lia].
    eexists. split; [done|]. rewrite app_nil_r. split; [done|]. cbn [lapic_num lapic ioapic_num ioapic].
    split; [done|]. split; [done|]. split; [done|].
    split; [rewrite u32_small by lia; rewrite length_app; cbn [length]; lia|].
    split; [by rewrite length_zset|]. apply take_zset; [done|lia].
  - rewrite !decide_False by done. cbn [fmap list_fmap]. rewrite !app_nil_r. intros _ _.
    by eexists.
Qed.

Lemma apics_cons m pos l : local_apics m (pos :: l) = local_apics m [pos] ++ local_apics m l /\
  io_apics m (pos :: l) = io_apics m [pos] ++ io_apics m l.
Proof.
  unfold local_apics, io_apics. rewrite !filter_cons, !filter_nil. by repeat case_decide.
Qed.

Lemma walk_spec m end_ pos l fuel info base xs ys : structures m end_ pos l ->
  0 <= pos -> end_ < 18446744073709551360 -> pos < 18446744073709551360 -> (length l <= fuel)%nat ->
  holds_apics info base xs ys ->
  (length (xs ++ local_apics m l) <= 100)%nat -> (length (ys ++ io_apics m l) <= 100)%nat ->
  exists info', walk_loop fuel m pos end_ info = Some (Done info') /\
    holds_apics info' base (xs ++ local_apics m l) (ys ++ io_apics m l).
Proof.
  intros Hs. revert fuel info xs ys. induction Hs as [pos He|pos l He Hs IH];
    intros fuel info xs ys Hp Hend Hp2 Hf Hh Hx Hy; (destruct fuel as [|fuel]; [cbn in Hf; lia|]);
    cbn [walk_loop]; pose proof (ld8_bound m (pos + 1)).
  - destruct (add_controller_spec m pos info base xs ys Hh Hx Hy) as (i1 & -> & H1).
    rewrite u64_small by lia. destruct (Z.leb_spec end_ (pos + ld8 m (pos + 1))); [|lia]. eauto.
  - destruct (apics_cons m pos l) as [El Ei]. rewrite El in *. rewrite Ei in *.
    rewrite !app_assoc in *. rewrite !length_app in Hx, Hy.
    destruct (add_controller_spec m pos info base xs ys Hh) as (i1 & -> & H1);
      [rewrite length_app; lia|rewrite length_app; lia|].
    rewrite u64_small by lia. destruct (Z.leb_spec end_ (pos + ld8 m (pos + 1))); [lia|].
    apply IH; [lia|lia|lia|cbn in Hf; lia|done|rewrite !length_app; lia|rewrite !length_app; lia].
Qed.

(** C34: When the structures of the MADT end at its length and there are at most 100
    of each kind, the walk (with a step for each) ends and has stored the local
    APICs and the I/O APICs in the order of the table, with their numbers and
    the address of the registers. *)
Theorem madt_walk_correct m madt l fuel :
  structures m (ld32 m (madt_length madt) + madt) (madt_structure madt) l ->
  0 <= madt < 4294967296 -> (length l <= fuel)%nat ->
  (length (local_apics m l) <= 100)%nat -> (length (io_apics m l) <= 100)%nat ->
  exists info, print_interrupt_controller_info fuel m madt g_apicInfo_init = Some (Done info) /\
    holds_apics info (ld32 m (madt_address madt)) (local_apics m l) (io_apics m l).
Proof.
  intros Hs Hm Hf Hl Hi. unfold print_interrupt_controller_info. pose proof (ld32_bound m (madt_length madt)).
  rewrite u64_small by lia. unfold madt_structure in *.
  apply (walk_spec m _ _ l fuel _ _ [] [] Hs); try done; try lia.
Qed.

(** A structure of length 0 that is no APIC keeps the walk where it is. *)
Lemma walk_zero_length m pos end_ info fuel : 0 <= pos < end_ -> end_ < 18446744073709551616 ->
  ld8 m (pos + 1) = 0 -> 2 <= ld8 m pos -> walk_loop fuel m pos end_ info = None.
Proof.
  intros Hp He Hz Ht. revert info. induction fuel as [|fuel IH]; intros info; [done|]. cbn [walk_loop].
  destruct info as [b ln la inum io]. unfold add_controller.
  destruct (Z.eqb_spec (ld8 m pos) 0); [lia|]. destruct (Z.eqb_spec (ld8 m pos) 1); [lia|].
  rewrite Hz, Z.add_0_r, u64_small by lia. destruct (Z.leb_spec end_ pos); [lia|apply IH].
Qed.

(** ** apic_init *)

Section InitThm.
Context {P H : Type} {pops : PageOps P} {aops : AllocOps H}.
Variable dev : list (Z * Z) -> Z -> Z.
Variable lit : Z.
Implicit Types st : @apic_state P H.

Lemma rsdp_found m data msize : 0 <= msize < 4294967296 -> get_rsdp_address m data msize <> NULL ->
  occurs m (get_rsdp_address m data msize) 0 /\
  data <= get_rsdp_address m data msize <= data + msize - 7.
Proof.
  intros Hs. unfold get_rsdp_address. rewrite u32_small by lia. intros Hn.
  assert (matched m data 0 0) as H0 by (intros j Hj; lia).
  destruct (rsdp_loop_sound (Z.to_nat msize) 0 0 m data ltac:(lia) H0) as [E|(j & Hj & Hj' & Ho & E)]; [done|].
  change (Z.of_nat 0) with 0 in E. rewrite E. split; [|lia]. intros k Hk. rewrite (Ho k Hk). do 2 f_equal. lia.
Qed.

Lemma find_rsdp_occurs m : find_rsdp m <> NULL -> occurs m (find_rsdp m) 0 /\
  (0x40E <= find_rsdp m <= 0x807 \/ 0xE0000 <= find_rsdp m <= 0xFFFF9).
Proof.
  unfold find_rsdp.
  pose proof (rsdp_found m EBDA_RSDP_ADDRESS (EBDA_RSDP_ADDRESS_END - EBDA_RSDP_ADDRESS)
    ltac:(unfold EBDA_RSDP_ADDRESS, EBDA_RSDP_ADDRESS_END; lia)) as H1.
  pose proof (rsdp_found m BDA_RSDP_ADDRESS (BDA_RSDP_ADDRESS_END - BDA_RSDP_ADDRESS)
    ltac:(unfold BDA_RSDP_ADDRESS, BDA_RSDP_ADDRESS_END; lia)) as H2.
  revert H1 H2. generalize (get_rsdp_address m EBDA_RSDP_ADDRESS (EBDA_RSDP_ADDRESS_END - EBDA_RSDP_ADDRESS)).
  generalize (get_rsdp_address m BDA_RSDP_ADDRESS (BDA_RSDP_ADDRESS_END - BDA_RSDP_ADDRESS)).
  unfold EBDA_RSDP_ADDRESS, EBDA_RSDP_ADDRESS_END, BDA_RSDP_ADDRESS, BDA_RSDP_ADDRESS_END.
  intros q p H1 H2. destruct (Z.eqb_spec p NULL) as [_|E]; intros Hn.
  - destruct (H2 Hn). split; [assumption|lia].
  - destruct (H1 E). split; [assumption|lia].
Qed.

(** What the search and the checks have to find. *)
Definition rsdp_good (m : mem) (p : Z) : Prop :=
  p <> NULL /\ ld8 m (rsdp_revision p) = 0 /\ bytes_sum (bytes_at m p 20) mod 256 = 0.
Definition tables_num (m : mem) (rsdt : Z) : Z := s32 (u64 (ld32 m (rsdt_length rsdt) - sizeof_rsdt_t) / 4).
(** Table [i] of the RSDT carries the signature of the MADT. *)
Definition is_madt (m : mem) (rsdt i : Z) : Prop := bytes_at m (ld32 m (rsdt_entry rsdt i)) 4 = bytes_at m lit 4.
Definition first_madt (m : mem) (rsdt i : Z) : Prop :=
  0 <= i < tables_num m rsdt /\ is_madt m rsdt i /\ forall k, 0 <= k < i -> ~ is_madt m rsdt k.

Lemma find_madt_none n i m rsdt : (forall k, i <= k < i + Z.of_nat n -> ~ is_madt m rsdt k) -> find_madt n i m rsdt lit = NULL.
Proof.
  revert i. induction n as [|n IH]; intros i Hno; cbn [find_madt]; [done|].
  destruct (Z.eqb_spec (memcmp m (ld32 m (rsdt_entry rsdt i)) lit 4) 0) as [E|_].
  - apply memcmp_loop_zero in E. exfalso. apply (Hno i); [lia|exact E].
  - apply IH. intros k Hk. apply Hno. lia.
Qed.

Lemma find_madt_first d n i m rsdt : (d < n)%nat -> is_madt m rsdt (i + Z.of_nat d) ->
  (forall k, i <= k < i + Z.of_nat d -> ~ is_madt m rsdt k) ->
  find_madt n i m rsdt lit = ld32 m (rsdt_entry rsdt (i + Z.of_nat d)).
Proof.
  revert n i. induction d as [|d IH]; intros [|n] i Hd Hm Hno; [lia| |lia|]; cbn [find_madt].
  - rewrite Z.add_0_r in *. apply memcmp_loop_zero in Hm. unfold memcmp. change (Z.to_nat (u32 4)) with 4%nat. by rewrite Hm.
  - destruct (Z.eqb_spec (memcmp m (ld32 m (rsdt_entry rsdt i)) lit 4) 0) as [E|_].
    + apply memcmp_loop_zero in E. exfalso. apply (Hno i); [lia|exact E].
    + replace (i + Z.of_nat (S d)) with (i + 1 + Z.of_nat d) in * by lia. apply IH; [lia|done|]. intros k Hk. apply Hno. lia.
Qed.

Lemma find_madt_at m rsdt i : first_madt m rsdt i ->
  find_madt (Z.to_nat (tables_num m rsdt)) 0 m rsdt lit = ld32 m (rsdt_entry rsdt i).
Proof.
  intros (Hi & Hm & Hno). rewrite (find_madt_first (Z.to_nat i)); [f_equal; f_equal; lia|lia|by rewrite Z.add_0_l, Z2Nat.id by lia|].
  intros k Hk. apply Hno. lia.
Qed.

Lemma kpcr_create_total g q : get_lapic_id dev q < Z.of_nat (length (g_kpcrs g)) ->
  exists k g' q', kpcr_create dev g q = Done (k, g', q').
Proof.
  intros Hid. unfold kpcr_create, kzalloc_mem. destruct (kzalloc (kheap g) _) as [k h1]. cbn [fst snd].
  destruct (k =? NULL); [by eexists _, _, _|].
  cbn [kheap set_kmem kmem g_kpcrs]. destruct (kzalloc _ PAGE_SIZE) as [stk h2].
  cbn [kheap set_kmem kmem g_kpcrs]. destruct (Z.ltb_spec (get_lapic_id dev q) (Z.of_nat (length (g_kpcrs g)))); [|lia].
  by eexists _, _, _.
Qed.

Section InitAt.
Context (fuel : nat) st (p : Z).
Let m := mem_of st.
Let rsdt : Z := ld32 m (rsdp_rsdt_address p).

Lemma init_bad_rsdp : ~ rsdp_good m p -> apic_init_at dev lit fuel st p = Some (Done (-1, st)).
Proof.
  intros Hb. unfold apic_init_at. destruct (Z.eqb_spec p NULL) as [|Hn]; [done|]. fold m.
  destruct (Z.eqb_spec (ld8 m (rsdp_revision p)) 0) as [Hr|]; [|done].
  destruct (Z.eqb_spec (sum m p 20) 0) as [Hs|]; [|done]. rewrite sum_value in Hs by done. by destruct Hb.
Qed.

Context (s1 : P) (m1 : mem) (E1 : ioremap_nocache (a_pages st) m rsdt PAGE_SIZE = (rsdt, s1, m1)) (Hgood : rsdp_good m p).

Lemma init_good : apic_init_at dev lit fuel st p =
  (let st1 := set_pages st s1 m1 in
  if rsdt =? NULL then Some (Done (-1, st1))
  else
    let madt := find_madt (Z.to_nat (tables_num m1 rsdt)) 0 m1 rsdt lit in
    if madt =? NULL then Some (Done (-1, st1))
    else
      match print_interrupt_controller_info fuel m1 madt (a_info st) with
      | None => None
      | Some (Stuck e) => Some (Stuck e)
      | Some (Done info) =>
          let '(base, s2, m2) := ioremap_nocache s1 m1 (localInterruptControllerAddress info) PAGE_SIZE in
          match kpcr_create dev (set_kmem (a_kernel st) m2) (a_proc st) with
          | Stuck e => Some (Stuck e)
          | Done (_, g, q) =>
              Some (Done (0, ApicState s2 g (set_base info (u32 base)) (kpcr_swapgs (kpcr_swapgs q))))
          end
      end).
Proof.
  destruct Hgood as (Hn & Hr & Hs). unfold apic_init_at. fold m. apply Z.eqb_neq in Hn as ->. rewrite Hr, sum_value by done.
  change (Z.to_nat 20) with 20%nat. rewrite Hs. cbn [Z.eqb negb]. fold rsdt. rewrite E1. cbv zeta.
  destruct (rsdt =? NULL); [done|]. unfold tables_num. destruct (find_madt _ 0 m1 rsdt lit =? NULL); [done|].
  cbn [a_info set_pages]. destruct (print_interrupt_controller_info _ _ _ _) as [[info|e]|]; [|done..].
  cbn [a_pages set_pages]. destruct (ioremap_nocache s1 m1 _ PAGE_SIZE) as [[base s2] m2]. done.
Qed.

Lemma init_no_madt :
  rsdt = NULL \/ (forall i, 0 <= i < tables_num m1 rsdt -> ~ is_madt m1 rsdt i) \/
  (exists i, first_madt m1 rsdt i /\ ld32 m1 (rsdt_entry rsdt i) = NULL) ->
  apic_init_at dev lit fuel st p = Some (Done (-1, set_pages st s1 m1)).
Proof.
  intros Hno. rewrite init_good. cbv zeta. destruct (Z.eqb_spec rsdt NULL) as [|Hn]; [done|].
  assert (find_madt (Z.to_nat (tables_num m1 rsdt)) 0 m1 rsdt lit = NULL) as ->; [|done].
  destruct Hno as [?|[Hno|(i & Hf & Hz)]]; [done| |by rewrite (find_madt_at _ _ _ Hf)].
  apply find_madt_none. intros k Hk. apply Hno. lia.
Qed.

Lemma init_madt i l : rsdt <> NULL -> first_madt m1 rsdt i ->
  let madt := ld32 m1 (rsdt_entry rsdt i) in
  madt <> NULL -> a_info st = g_apicInfo_init ->
  structures m1 (ld32 m1 (madt_length madt) + madt) (madt_structure madt) l -> (length l <= fuel)%nat ->
  (length (local_apics m1 l) <= 100)%nat -> (length (io_apics m1 l) <= 100)%nat ->
  get_lapic_id dev (a_proc st) < Z.of_nat (length (g_kpcrs (a_kernel st))) ->
  let base := ld32 m1 (madt_address madt) in
  exists s2 m2 k g q info, ioremap_nocache s1 m1 base PAGE_SIZE = (base, s2, m2) /\
    kpcr_create dev (set_kmem (a_kernel st) m2) (a_proc st) = Done (k, g, q) /\
    holds_apics info base (local_apics m1 l) (io_apics m1 l) /\
    apic_init_at dev lit fuel st p = Some (Done (0, ApicState s2 g info (kpcr_swapgs (kpcr_swapgs q)))).
Proof.
  intros Hn Hf madt Hmz Hi Hs Hfu Hl Hio Hid base. rewrite init_good. cbv zeta. apply Z.eqb_neq in Hn as ->.
  rewrite (find_madt_at _ _ _ Hf). fold madt. pose proof (ld32_bound m1 (rsdt_entry rsdt i)) as Hmb. fold madt in Hmb.
  apply Z.eqb_neq in Hmz as ->. rewrite Hi. unfold print_interrupt_controller_info. fold base.
  pose proof (ld32_bound m1 (madt_length madt)). rewrite u64_small by lia.
  destruct (walk_spec m1 _ _ l fuel (set_base g_apicInfo_init base) base [] [] Hs) as (info & -> & Hh);
    [unfold madt_structure; lia|lia|unfold madt_structure; lia|done|done|done|done|].
  pose proof Hh as (Hb & Hrest). rewrite Hb. unfold ioremap_nocache.
  destruct (arch_ioremap_nocache s1 m1 _ _) as [[r s2] m2].
  destruct (kpcr_create_total (set_kmem (a_kernel st) m2) (a_proc st) Hid) as (k & g & q & Ek). rewrite Ek.
  eexists s2, m2, k, g, q, _. split; [done|]. split; [done|]. split; [|done].
  pose proof (ld32_bound m1 (madt_address madt)) as Hbb. fold base in Hbb. rewrite (u32_small base Hbb).
  destruct info as [b ln la inum io]. cbn in *. by subst b.
Qed.
End InitAt.

(** C39: [apic_init] on every machine.  The root pointer, if one is found, is a place
    with its signature in one of the two areas.  Without one, or with one of another
    revision than 0 or whose first 20 bytes do not sum to 0, the answer is -1 and
    nothing has changed.  With a good one the page of the RSDT is mapped; if its
    address is zero, or no table of it or the table at address zero carries the
    MADT's signature first, the answer is -1 and only the mapping has changed.  Else,
    when the structures of the first such table end at its length, at most 100 are of
    each kind, and the processor's id is below the number of entries of g_kpcrs, the
    answer is 0: g_apicInfo holds the APICs of the table, the page of their registers
    is mapped, and the processor's block is the one kpcr_create makes then - none, with
    the same answer, when it gets no memory. *)
Theorem apic_init_correct fuel st :
  let m := mem_of st in
  let p := find_rsdp m in
  let rsdt := ld32 m (rsdp_rsdt_address p) in
  (p <> NULL -> occurs m p 0 /\ (0x40E <= p <= 0x807 \/ 0xE0000 <= p <= 0xFFFF9)) /\
  (~ rsdp_good m p -> apic_init dev lit fuel st = Some (Done (-1, st))) /\
  (rsdp_good m p -> exists s1 m1, ioremap_nocache (a_pages st) m rsdt PAGE_SIZE = (rsdt, s1, m1) /\
    (rsdt = NULL \/ (forall i, 0 <= i < tables_num m1 rsdt -> ~ is_madt m1 rsdt i) \/
     (exists i, first_madt m1 rsdt i /\ ld32 m1 (rsdt_entry rsdt i) = NULL) ->
     apic_init dev lit fuel st = Some (Done (-1, set_pages st s1 m1))) /\
    forall i l, rsdt <> NULL -> first_madt m1 rsdt i ->
      let madt := ld32 m1 (rsdt_entry rsdt i) in
      madt <> NULL -> a_info st = g_apicInfo_init ->
      structures m1 (ld32 m1 (madt_length madt) + madt) (madt_structure madt) l -> (length l <= fuel)%nat ->
      (length (local_apics m1 l) <= 100)%nat -> (length (io_apics m1 l) <= 100)%nat ->
      get_lapic_id dev (a_proc st) < Z.of_nat (length (g_kpcrs (a_kernel st))) ->
      let base := ld32 m1 (madt_address madt) in
      exists s2 m2 k g q info, ioremap_nocache s1 m1 base PAGE_SIZE = (base, s2, m2) /\
        kpcr_create dev (set_kmem (a_kernel st) m2) (a_proc st) = Done (k, g, q) /\
        holds_apics info base (local_apics m1 l) (io_apics m1 l) /\
        apic_init dev lit fuel st = Some (Done (0, ApicState s2 g info (kpcr_swapgs (kpcr_swapgs q))))).
Proof.
  intros m p rsdt. unfold apic_init. change (find_rsdp (mem_of st)) with p.
  pose proof (find_rsdp_occurs m) as Ho. fold p in Ho. clearbody p. split; [exact Ho|]. split; [apply init_bad_rsdp|].
  intros Hg. destruct (ioremap_nocache (a_pages st) m rsdt PAGE_SIZE) as [[v s1] m1] eqn:E1.
  assert (v = rsdt) as ->.
  { unfold ioremap_nocache in E1. destruct (arch_ioremap_nocache _ _ _ _) as [[? ?] ?]. by injection E1 as <- _ _. }
  exists s1, m1. split; [done|]. split.
  - intros Hno. by apply init_no_madt.
  - intros i l Hn Hf Hmz Hi Hs Hfu Hl Hio Hid. exact (init_madt fuel st p s1 m1 E1 Hg i l Hn Hf Hmz Hi Hs Hfu Hl Hio Hid).
Qed.
End InitThm.


(** ** Witnesses *)

Fixpoint put_bytes (m : mem) (a : Z) (l : list Z) : mem :=
  match l with [] => m | b :: l => put_bytes (st8 m a b) (a + 1) l end.

(** "R RSD PTR": the letter before the signature does not disturb it, while the
    R of "RRSD PTR" does. *)
Definition sig_mem : mem := put_bytes ∅ 0x1000 [82; 32; 82; 83; 68; 32; 80; 84; 82; 32].
Definition lost_mem : mem := put_bytes ∅ 0x1000 [82; 82; 83; 68; 32; 80; 84; 82; 32].

Example rsdp_lost : occurs lost_mem 0x1000 1 /\ get_rsdp_address lost_mem 0x1000 0x100 = NULL.
Proof.
  split; [|vm_compute; reflexivity]. intros j Hj.
  destruct j as [|[|[|[|[|[|[|j]]]]]]]; [vm_compute; reflexivity..|lia].
Qed.

Lemma get_rsdp_address_correct_witness : get_rsdp_address sig_mem 0x1000 0x100 = 0x1000 + 2.
Proof.
  destruct (get_rsdp_address_correct sig_mem 0x1000 0x100) as [_ H]; [lia|]. apply H; [lia|lia|..].
  - intros j Hj. destruct j as [|[|[|[|[|[|[|j]]]]]]]; [vm_compute; reflexivity..|lia].
  - intros j Hj Ho. assert (j = 0 \/ j = 1) as [-> | ->] by lia.
    + specialize (Ho 1%nat ltac:(lia)). vm_compute in Ho. discriminate.
    + specialize (Ho 0%nat ltac:(lia)). vm_compute in Ho. discriminate.
  - intros p Hp Hpa Hm. assert (p = 1 \/ p = 2)%nat as [-> | ->] by lia.
    + specialize (Hm 0%nat ltac:(lia)). vm_compute in Hm. discriminate.
    + specialize (Hm 1%nat ltac:(lia)). vm_compute in Hm. discriminate.
Defined.

(** Tables of a machine of one processor: the root pointer at 0x500, an RSDT at
    0x3000, a MADT at 0x4000 with a local APIC and an I/O APIC, "APIC" at 0x5000. *)
Definition acpi_mem : mem :=
  let m := put_bytes ∅ 0x500 [82; 83; 68; 32; 80; 84; 82; 32; 177; 0; 0; 0; 0; 0; 0; 0; 0; 48] in
  let m := st32 (st32 m 0x3004 40) 0x3024 0x4000 in
  let m := st32 (st32 (put_bytes m 0x4000 [65; 80; 73; 67]) 0x4004 64) 0x4024 0xFEE00000 in
  let m := put_bytes m 0x402C [0; 8; 0; 0; 1; 0; 0; 0; 1; 12; 1; 0; 0; 0; 192; 254] in
  put_bytes m 0x5000 [65; 80; 73; 67].

Lemma madt_walk_correct_witness : exists info,
  print_interrupt_controller_info 2 acpi_mem 0x4000 g_apicInfo_init = Some (Done info) /\
  lapic_num info = 1 /\ take 1 (ioapic info) = [IoApic 1 0xFEC00000 0].
Proof.
  destruct (madt_walk_correct acpi_mem 0x4000 [0x402C; 0x4034] 2) as (info & E & _ & Hn & _ & _ & _ & _ & Hi).
  - apply st_more; [vm_compute; reflexivity|].
    change (madt_structure 0x4000 + ld8 acpi_mem (madt_structure 0x4000 + 1)) with 0x4034.
    apply st_last. vm_compute. discriminate.
  - lia.
  - cbn. lia.
  - vm_compute. lia.
  - vm_compute. lia.
  - exists info. split; [exact E|]. split; [exact Hn|exact Hi].
Defined.

Definition acpi_state : @apic_state mm_pages_manager_t (list (Z * Z)) :=
  ApicState demo_pm (Kernel (fst (prepare_4level_page_table acpi_mem)) [] (replicate 100 0) TSS_INDEX)
    g_apicInfo_init demo_proc.
Definition result_or {A} (d : A) (o : option (outcome A)) : A :=
  match o with Some (Done r) => r | _ => d end.
Definition acpi_run : Z * @apic_state mm_pages_manager_t (list (Z * Z)) :=
  result_or (-1, acpi_state) (apic_init demo_dev 0x5000 2 acpi_state).
(** The same tables behind a root pointer with a wrong sum. *)
Definition bad_state : @apic_state mm_pages_manager_t (list (Z * Z)) :=
  set_pages acpi_state demo_pm (st8 (mem_of acpi_state) 0x500 0).

Lemma acpi_rsdp : find_rsdp (mem_of acpi_state) = 0x500.
Proof. vm_compute. reflexivity. Qed.
Lemma acpi_good : rsdp_good (mem_of acpi_state) 0x500 /\ ld32 (mem_of acpi_state) (rsdp_rsdt_address 0x500) = 0x3000.
Proof. repeat split; vm_compute; [discriminate|reflexivity..]. Qed.

(** What is read behind the mapping of the RSDT. *)
Definition acpi_mem1 : mem := (ioremap_nocache (a_pages acpi_state) (mem_of acpi_state) 0x3000 PAGE_SIZE).2.
Definition acpi_facts (m : mem) : Z * Z * bool * Z * Z * list Z :=
  (tables_num m 0x3000, ld32 m (rsdt_entry 0x3000 0), bool_decide (bytes_at m 0x4000 4 = bytes_at m 0x5000 4),
   ld32 m (madt_length 0x4000), ld32 m (madt_address 0x4000), bytes_at m 0x402C 16).
Lemma acpi_facts_at m n t b len base bs : acpi_facts m = (n, t, b, len, base, bs) ->
  tables_num m 0x3000 = n /\ ld32 m (rsdt_entry 0x3000 0) = t /\
  bool_decide (bytes_at m 0x4000 4 = bytes_at m 0x5000 4) = b /\ ld32 m (madt_length 0x4000) = len /\
  ld32 m (madt_address 0x4000) = base /\ bytes_at m 0x402C 16 = bs.
Proof. unfold acpi_facts. intros E. by repeat apply pair_equal_spec in E as [E ?]. Qed.
Lemma acpi_tables : acpi_facts acpi_mem1 = (1, 0x4000, true, 64, 0xFEE00000, [0; 8; 0; 0; 1; 0; 0; 0; 1; 12; 1; 0; 0; 0; 192; 254]).
Proof. vm_compute. reflexivity. Qed.

Lemma apic_init_correct_witness :
  apic_init demo_dev 0x5000 2 bad_state = Some (Done (-1, bad_state)) /\
  exists s2 g info q, apic_init demo_dev 0x5000 2 acpi_state = Some (Done (0, ApicState s2 g info q)) /\
    lapic_num info = 1 /\ take 1 (ioapic info) = [IoApic 1 0xFEC00000 0].
Proof.
  split.
  - destruct (apic_init_correct demo_dev 0x5000 2 bad_state) as (_ & H & _). apply H.
    intros (Hn & _). apply Hn. vm_compute. reflexivity.
  - destruct (apic_init_correct demo_dev 0x5000 2 acpi_state) as (_ & _ & H).
    rewrite acpi_rsdp in H. destruct acpi_good as [Hg Hr]. rewrite Hr in H.
    destruct (H Hg) as (s1 & m1 & E1 & _ & H1).
    assert (m1 = acpi_mem1) as -> by (unfold acpi_mem1; rewrite E1; reflexivity). clear E1 H.
    destruct (acpi_facts_at _ _ _ _ _ _ _ acpi_tables) as (T1 & T2 & T3 & T4 & T5 & T6). apply bool_decide_eq_true in T3. specialize (H1 0 [0x402C; 0x4034]). cbv zeta in H1. rewrite T2, T4 in H1.
    destruct H1 as (s2 & m2 & k & g & q & info & _ & _ & (_ & Hn & _ & _ & _ & _ & Hi) & E).
    + discriminate.
    + split; [rewrite T1; lia|]. split; [unfold is_madt; rewrite T2; exact T3|lia].
    + discriminate.
    + reflexivity.
    + apply st_more; [vm_compute; reflexivity|].
      replace (madt_structure 0x4000 + ld8 acpi_mem1 (madt_structure 0x4000 + 1)) with 0x4034 by (vm_compute; reflexivity).
      apply st_last. vm_compute. discriminate.
    + cbn. lia.
    + vm_compute. lia.
    + vm_compute. lia.
    + vm_compute. reflexivity.
    + exists s2, g, info, (kpcr_swapgs (kpcr_swapgs q)). split; [exact E|].
      split; [rewrite Hn; vm_compute; reflexivity|].
      replace (length (io_apics acpi_mem1 [0x402C; 0x4034])) with 1%nat in Hi by (vm_compute; reflexivity).
      rewrite Hi. vm_compute. reflexivity.
Defined.
