(* ===== verification/SmpBoot.v ===== *)
(** Start of the other processors: x64_kenerl/kernel/apic.c:ap_init,
    x86_kernel/boot/aps_boot.asm and init/main.c:x64_ap_main as steps of a machine
    whose processors share memory.  The boot lock is the word at 0xb000, taken in
    aps_boot.asm and released by x64_ap_main; the counter of arrived processors is
    the word at 0x9F000.  The code before the lock, and the processors that never get
    here in 64-bit mode, are in [ApBoot]; here each that spins is in 64-bit mode. *)

From S2P Require Import Prelude Mem CString BitField PageAlloc Alloc Gdt Lapic Cpu.
#[local] Open Scope kernel_scope.

Definition ap_boot_lock : Z := 0xb000.
Definition ap_couts : Z := 0x9F000.
Definition INTER_ID_LAPIC_TIMER : Z := 0xA2.

(** Where a processor is: spinning on the lock; past it; counted; at the points
    of x64_ap_main before and after its block and its TSS are set; done. *)
Inductive ap_pc := Spin | Locked | Counted | SetUp | HasKpcr | HasTss | Idle.
#[export] Instance ap_pc_eq_dec : EqDecision ap_pc.
Proof. solve_decision. Defined.

(** Where the boot processor is in [ap_init]: its messages sent, the counter
    cleared, the wait over. *)
Inductive bsp_pc := Sent | Waiting | Started.

Record cpu := Cpu { c_proc : proc; c_pc : ap_pc }.
Record smp (H : Type) := Smp { s_g : kernel H; s_cpus : list cpu; s_bsp : bsp_pc }.
Arguments Smp {H}.
Arguments s_g {H}.
Arguments s_cpus {H}.
Arguments s_bsp {H}.

Section Smp.
Context {H : Type} {aops : AllocOps H} {alaws : AllocLaws H} {aplace : AllocPlace H}.
Variable dev : nat -> list (Z * Z) -> Z -> Z.
Variables (entry : Z) (info : apic_info_t).
Implicit Types (g : kernel H) (p : proc) (s : smp H).

(** The first lines of [x64_ap_main], on the processor alone. *)
Definition ap_setup (i : nat) p : proc :=
  let p := syscall_init p entry in
  let '(_, p) := ap_local_apic_init (dev i) p in
  let '(_, p) := lapic_timer_cycle_start p INTER_ID_LAPIC_TIMER 5000000 in
  p.

Definition set_cpu s (i : nat) (c : cpu) g : smp H := Smp g (<[i := c]> (s_cpus s)) (s_bsp s).

(** Processor 0 is the boot processor, and is [Idle] here; its own steps are the
    clear, the wait and the allocations it makes at any time (task_init runs as
    soon as the wait is over).  A processor goes on past an allocation only if it
    succeeded: x64_ap_main does not look, and the theorems are about a machine
    with memory enough. *)
Inductive smp_step : smp H -> smp H -> Prop :=
| step_lock s i p : s_cpus s !! i = Some (Cpu p Spin) -> ld32 (kmem (s_g s)) ap_boot_lock = 0 ->
    smp_step s (set_cpu s i (Cpu p Locked) (set_kmem (s_g s) (st32 (kmem (s_g s)) ap_boot_lock 1)))
| step_count s i p : s_cpus s !! i = Some (Cpu p Locked) ->
    smp_step s (set_cpu s i (Cpu p Counted)
      (set_kmem (s_g s) (st32 (kmem (s_g s)) ap_couts (ld32 (kmem (s_g s)) ap_couts + 1))))
| step_setup s i p : s_cpus s !! i = Some (Cpu p Counted) ->
    smp_step s (set_cpu s i (Cpu (ap_setup i p) SetUp) (s_g s))
| step_kpcr s i p k g' p' : s_cpus s !! i = Some (Cpu p SetUp) ->
    kpcr_create (dev i) (s_g s) p = Done (k, g', p') -> k <> NULL ->
    ld64 (kmem g') (kpcr_stack k) <> NULL ->
    smp_step s (set_cpu s i (Cpu p' HasKpcr) g')
| step_tss s i p tss h1 stk h2 g' p' : s_cpus s !! i = Some (Cpu p HasKpcr) ->
    kzalloc (kheap (s_g s)) sizeof_tss_t = (tss, h1) -> tss <> NULL ->
    kzalloc h1 PAGE_SIZE = (stk, h2) -> stk <> NULL ->
    init_tss_current_core (s_g s) p = (g', p') ->
    smp_step s (set_cpu s i (Cpu p' HasTss) g')
| step_unlock s i p : s_cpus s !! i = Some (Cpu p HasTss) ->
    smp_step s (set_cpu s i (Cpu p Idle) (set_kmem (s_g s) (st32 (kmem (s_g s)) ap_boot_lock 0)))
| step_alloc s n b g' : 0 < n <= 4096 -> kzalloc_mem (s_g s) n = (b, g') -> b <> NULL ->
    smp_step s (Smp g' (s_cpus s) (s_bsp s))
| step_clear s : s_bsp s = Sent ->
    smp_step s (Smp (set_kmem (s_g s) (st16 (kmem (s_g s)) ap_couts 0)) (s_cpus s) Waiting)
| step_wait s : s_bsp s = Waiting ->
    u32 (lapic_num info - 1) <= ld16 (kmem (s_g s)) ap_couts ->
    smp_step s (Smp (s_g s) (s_cpus s) Started).
End Smp.

(** ** Counting processors *)

Definition tally (f : ap_pc -> bool) (l : list cpu) : Z := count_if (fun c => f (c_pc c)) l.

Lemma tally_cons f c l : tally f (c :: l) = Z.b2z (f (c_pc c)) + tally f l.
Proof. done. Qed.

Lemma tally_insert f l i c c' : l !! i = Some c ->
  tally f (<[i := c']> l) = tally f l - Z.b2z (f (c_pc c)) + Z.b2z (f (c_pc c')).
Proof. apply (count_if_insert (fun c => f (c_pc c))). Qed.

Lemma tally_bound f l : 0 <= tally f l <= Z.of_nat (length l).
Proof. apply count_if_bound. Qed.

Lemma tally_lt f l i c : l !! i = Some c -> f (c_pc c) = false -> tally f l < Z.of_nat (length l).
Proof. apply (count_if_lt (fun c => f (c_pc c))). Qed.

(** In the critical section; counted; with a TSS of its own. *)
Definition holds (pc : ap_pc) : bool :=
  match pc with Spin | Idle => false | _ => true end.
Definition past (pc : ap_pc) : bool :=
  match pc with Spin | Locked => false | _ => true end.
Definition has_tss (pc : ap_pc) : bool :=
  match pc with HasTss | Idle => true | _ => false end.

(** ** The invariant *)

Section Invariant.
Context {H : Type} {aops : AllocOps H} {alaws : AllocLaws H} {aplace : AllocPlace H}.
Variable dev : nat -> list (Z * Z) -> Z -> Z.
Variables (entry : Z) (info : apic_info_t) (base : Z).
Implicit Types (g : kernel H) (p : proc) (s : smp H) (m : mem).

Hypothesis gdt_place : 0 <= base /\ base + 2048 <= 4294967296.
Hypothesis gdt_apart : apart base 2048 g_gdtr 10.
Hypothesis words_apart : apart base 2048 ap_boot_lock 4 /\ apart base 2048 ap_couts 4.
Hypothesis heap_apart : forall a, in_heap a ->
  ~ base <= a < base + 2048 /\ ~ g_gdtr <= a < g_gdtr + 10 /\
  ~ ap_boot_lock <= a < ap_boot_lock + 4 /\ ~ ap_couts <= a < ap_couts + 4.

(** [p] runs on the [j]-th task segment, whose TSS is at [t]. *)
Definition tss_at m p (j t : Z) : Prop :=
  tr p = 56 + 16 * j /\ Lapic.gdtr p = (72 + 16 * j, base) /\ load_tss m (base + 56 + 16 * j) = tss64 t.

Record tables_ok g (cpus : list cpu) : Prop := {
  to_len : Z.of_nat (length cpus) <= 124;
  to_gdt : gdt_state g base (tally has_tss cpus);
  to_tss i c : cpus !! i = Some c -> has_tss (c_pc c) = true ->
    exists j t, 0 <= j < tally has_tss cpus /\ tss_at (kmem g) (c_proc c) j t;
  to_dist i j c d : cpus !! i = Some c -> cpus !! j = Some d -> has_tss (c_pc c) = true ->
    has_tss (c_pc d) = true -> i <> j -> tr (c_proc c) <> tr (c_proc d)
}.

Record lock_ok m (cpus : list cpu) : Prop := {
  lo_lock i c : cpus !! i = Some c -> holds (c_pc c) = true -> ld32 m ap_boot_lock = 1;
  lo_mutex i j c d : cpus !! i = Some c -> cpus !! j = Some d -> holds (c_pc c) = true ->
    holds (c_pc d) = true -> i = j;
  lo_count : ld32 m ap_couts <= tally past cpus - 1
}.

Definition kpcr_ok (h : H) (cpus : list cpu) : Prop :=
  forall i c, cpus !! i = Some c -> c_pc c = HasKpcr ->
    let k := kernel_gs (c_proc c) in
    al_live h k sizeof_kpcr_t /\ al_lo <= k /\ k + sizeof_kpcr_t <= al_hi.

Record smp_ok s : Prop := {
  so_tables : tables_ok (s_g s) (s_cpus s);
  so_lock : lock_ok (kmem (s_g s)) (s_cpus s);
  so_kpcr : kpcr_ok (kheap (s_g s)) (s_cpus s);
  so_started : s_bsp s = Started -> u32 (lapic_num info - 1) <= tally past (s_cpus s) - 1
}.

(** ** Steps that leave the tables alone *)

Definition same_tables m m' : Prop := forall a,
  base <= a < base + 2048 \/ g_gdtr <= a < g_gdtr + 10 -> ld8 m' a = ld8 m a.

Lemma tables_mem g g' cpus : tables_ok g cpus -> same_tables (kmem g) (kmem g') ->
  tss_index g' = tss_index g -> tables_ok g' cpus.
Proof.
  intros [Hlen (H1 & H2 & H3) Ht Hd] Hs Hi. pose proof (tally_bound has_tss cpus).
  split; [done| |intros i c Hc Hp|done].
  - split; [|split].
    + rewrite <- H1. apply ldn_ext. intros. apply Hs. lia.
    + rewrite <- H2. apply ldn_ext. intros. apply Hs. lia.
    + by rewrite Hi.
  - destruct (Ht i c Hc Hp) as (j & t & Hj & Htr & Hg & Hl). exists j, t. split; [done|].
    split; [done|]. split; [done|]. rewrite <- Hl. apply load_tss_ext. intros. apply Hs. lia.
Qed.

Lemma lookup_insert_cases {A} (l : list A) i j x y : <[i := x]> l !! j = Some y ->
  (i = j /\ y = x) \/ (i <> j /\ l !! j = Some y).
Proof.
  intros E. destruct (decide (i = j)) as [<-|Hn].
  - left. split; [done|]. apply list_lookup_insert_Some in E as [(_ & -> & _)|[Hn _]]; done.
  - right. by rewrite list_lookup_insert_ne in E.
Qed.

Lemma tables_cpu g cpus i c c' : tables_ok g cpus -> cpus !! i = Some c ->
  has_tss (c_pc c') = has_tss (c_pc c) -> (has_tss (c_pc c) = true -> c_proc c' = c_proc c) ->
  tables_ok g (<[i := c']> cpus).
Proof.
  intros [Hlen Hg Ht Hd] Hc Hh Hp.
  assert (tally has_tss (<[i := c']> cpus) = tally has_tss cpus) as E
    by (rewrite (tally_insert _ _ _ _ _ Hc), Hh; lia).
  split; [by rewrite length_insert|by rewrite E| |].
  - intros j d Hj Hd'. rewrite E. apply lookup_insert_cases in Hj as [[<- ->]|[Hn Hj]]; [|by apply (Ht j)].
    rewrite Hp by congruence. apply (Ht i); congruence.
  - intros j k d e Hj Hk Hdt Het Hn.
    apply lookup_insert_cases in Hj as [[<- ->]|[Hn1 Hj]]; apply lookup_insert_cases in Hk as [[<- ->]|[Hn2 Hk]];
      [done| | |by apply (Hd j k)].
    + rewrite Hp by congruence. apply (Hd i k); congruence.
    + rewrite Hp by congruence. apply (Hd j i); congruence.
Qed.

Lemma kpcr_cpu (h h' : H) cpus i c' : kpcr_ok h cpus -> c_pc c' <> HasKpcr ->
  (forall q k, al_live h q k -> al_live h' q k) -> kpcr_ok h' (<[i := c']> cpus).
Proof.
  intros Hk Hc Hl j d Hj Hd. apply lookup_insert_cases in Hj as [[<- ->]|[Hn Hj]]; [done|].
  destruct (Hk j d Hj Hd) as [Hv Hr]. split; [by apply Hl|done].
Qed.

(** A processor inside moves on inside; one that is out stays out. *)
Lemma lock_cpu m m' cpus i c c' : lock_ok m cpus -> cpus !! i = Some c ->
  (holds (c_pc c') = true -> holds (c_pc c) = true) -> past (c_pc c') = past (c_pc c) ->
  ld32 m' ap_boot_lock = ld32 m ap_boot_lock -> ld32 m' ap_couts = ld32 m ap_couts ->
  lock_ok m' (<[i := c']> cpus).
Proof.
  intros [Hl Hm Hn] Hc Hh Hp E1 E2. split.
  - intros j d Hj Hd. rewrite E1. apply lookup_insert_cases in Hj as [[<- ->]|[Hne Hj]]; [|by apply (Hl j d)].
    by apply (Hl i c); auto.
  - intros j k d e Hj Hk Hd He.
    apply lookup_insert_cases in Hj as [[<- ->]|[Hn1 Hj]]; apply lookup_insert_cases in Hk as [[<- ->]|[Hn2 Hk]];
      [done| | |by apply (Hm j k d e)].
    + apply (Hm i k c e); auto.
    + apply (Hm j i d c); auto.
  - rewrite E2, (tally_insert _ _ _ _ _ Hc), Hp. lia.
Qed.

(** ** The steps *)

Lemma in_heap_off a lo n : al_lo <= lo -> lo + n <= al_hi -> lo <= a < lo + n -> in_heap a.
Proof. unfold in_heap. lia. Qed.

(** Writes to the heap and to the two words miss the tables. *)
Lemma heap_same m m' : (forall a, ~ in_heap a -> ld8 m' a = ld8 m a) ->
  same_tables m m' /\ ld32 m' ap_boot_lock = ld32 m ap_boot_lock /\ ld32 m' ap_couts = ld32 m ap_couts.
Proof.
  intros Hf. split; [|split].
  - intros a Ha. apply Hf. intros Hh. apply heap_apart in Hh. lia.
  - apply ldn_ext. intros a Ha. apply Hf. intros Hh. apply heap_apart in Hh. lia.
  - apply ldn_ext. intros a Ha. apply Hf. intros Hh. apply heap_apart in Hh. lia.
Qed.

Lemma word_same m a v n : (a = ap_boot_lock \/ a = ap_couts) -> (n <= 4)%nat -> same_tables m (stn n m a v).
Proof.
  intros Ha Hn b Hb. apply ld8_stn_ne. unfold apart, ap_boot_lock, ap_couts, g_gdtr in *.
  destruct Ha as [-> | ->]; lia.
Qed.

Lemma step_lock_ok s i p : smp_ok s -> s_cpus s !! i = Some (Cpu p Spin) ->
  ld32 (kmem (s_g s)) ap_boot_lock = 0 ->
  smp_ok (set_cpu s i (Cpu p Locked) (set_kmem (s_g s) (st32 (kmem (s_g s)) ap_boot_lock 1))).
Proof.
  intros [Ht [Hl Hm Hn] Hk Hs] Hi H0. split; cbn [s_g s_cpus s_bsp set_cpu kmem kheap set_kmem].
  - eapply tables_cpu; [|exact Hi|done|done]. eapply tables_mem; [exact Ht| |done].
    by apply (word_same _ _ _ 4); [left|].
  - assert (forall j c, s_cpus s !! j = Some c -> holds (c_pc c) = true -> False) as Hno.
    { intros j c Hj Hc. rewrite (Hl j c Hj Hc) in H0. done. }
    split.
    + intros. apply ld32_st32.
    + intros j k d e Hj Hk' Hd He.
      apply lookup_insert_cases in Hj as [[<- ->]|[Hn1 Hj]]; [|by destruct (Hno j d)].
      apply lookup_insert_cases in Hk' as [[<- ->]|[Hn2 Hk']]; [done|by destruct (Hno k e)].
    + rewrite (tally_insert _ _ _ _ _ Hi). cbn [c_pc past]. unfold ld32, st32.
      rewrite ldn_stn_ne by (unfold ap_couts, ap_boot_lock; lia). unfold ld32 in Hn. lia.
  - by apply (kpcr_cpu (kheap (s_g s))).
  - intros E. rewrite (tally_insert _ _ _ _ _ Hi). cbn [c_pc past]. specialize (Hs E). lia.
Qed.

Lemma step_count_ok s i p : smp_ok s -> s_cpus s !! i = Some (Cpu p Locked) ->
  smp_ok (set_cpu s i (Cpu p Counted)
    (set_kmem (s_g s) (st32 (kmem (s_g s)) ap_couts (ld32 (kmem (s_g s)) ap_couts + 1)))).
Proof.
  intros [Ht [Hl Hm Hn] Hk Hs] Hi. split; cbn [s_g s_cpus s_bsp set_cpu kmem kheap set_kmem].
  - eapply tables_cpu; [|exact Hi|done|done]. eapply tables_mem; [exact Ht| |done].
    by apply (word_same _ _ _ 4); [right|].
  - set (m := kmem (s_g s)) in *. split.
    + intros j c Hj Hc. unfold ld32, st32. rewrite ldn_stn_ne by (unfold ap_couts, ap_boot_lock; lia).
      apply lookup_insert_cases in Hj as [[<- ->]|[Hne Hj]]; [by apply (Hl i _ Hi)|by apply (Hl j c)].
    + intros j k d e Hj Hk' Hd He.
      apply lookup_insert_cases in Hj as [[<- ->]|[Hn1 Hj]]; apply lookup_insert_cases in Hk' as [[<- ->]|[Hn2 Hk']];
        [done| | |by apply (Hm j k d e)].
      * by apply (Hm i k _ e Hi).
      * by apply (Hm j i d _ Hj Hi).
    + rewrite (tally_insert _ _ _ _ _ Hi), ld32_st32. cbn [c_pc past Z.b2z].
      pose proof (ld32_bound m ap_couts). unfold u32. zlia.
  - by apply (kpcr_cpu (kheap (s_g s))).
  - intros E. rewrite (tally_insert _ _ _ _ _ Hi). cbn [c_pc past Z.b2z]. specialize (Hs E). lia.
Qed.

(** Moves inside the critical section that leave the tables and the words. *)
Lemma step_inside_ok s i c c' g' : smp_ok s -> s_cpus s !! i = Some c ->
  has_tss (c_pc c) = false -> has_tss (c_pc c') = false ->
  holds (c_pc c) = true -> past (c_pc c') = past (c_pc c) ->
  tss_index g' = tss_index (s_g s) ->
  (forall a, ~ in_heap a -> ld8 (kmem g') a = ld8 (kmem (s_g s)) a) ->
  kpcr_ok (kheap g') (<[i := c']> (s_cpus s)) ->
  smp_ok (set_cpu s i c' g').
Proof.
  intros [Ht Hlk Hk Hs] Hi Hc Hc' Hh Hp Ex Hf Hk'. destruct (heap_same _ _ Hf) as (Hst & E1 & E2).
  split; cbn [s_g s_cpus s_bsp set_cpu].
  - eapply tables_cpu; [|exact Hi|congruence|congruence]. by eapply tables_mem.
  - by eapply lock_cpu.
  - done.
  - intros E. rewrite (tally_insert _ _ _ _ _ Hi), Hp. specialize (Hs E). lia.
Qed.

Lemma step_setup_ok s i p : smp_ok s -> s_cpus s !! i = Some (Cpu p Counted) ->
  smp_ok (set_cpu s i (Cpu (ap_setup dev entry i p) SetUp) (s_g s)).
Proof.
  intros Hok Hi. eapply step_inside_ok; try done.
  apply (kpcr_cpu (kheap (s_g s))); [apply Hok|done|done].
Qed.

Lemma step_kpcr_ok s i p k g' p' : smp_ok s -> s_cpus s !! i = Some (Cpu p SetUp) ->
  kpcr_create (dev i) (s_g s) p = Done (k, g', p') -> k <> NULL -> ld64 (kmem g') (kpcr_stack k) <> NULL ->
  smp_ok (set_cpu s i (Cpu p' HasKpcr) g').
Proof.
  intros Hok Hi E Hk Hs.
  destruct (kpcr_create_spec (dev i) _ _ _ _ _ E Hk Hs)
    as (_ & _ & Hgs & _ & _ & Ex & Hv & _ & _ & Hr & Hr' & Hlive & Hf).
  eapply step_inside_ok; try done.
  - intros a Ha. apply Hf; intros Hb; apply Ha; unfold in_heap; lia.
  - intros j c Hj Hc. apply lookup_insert_cases in Hj as [[<- ->]|[Hn Hj]].
    + cbn [c_proc]. by rewrite Hgs.
    + destruct (so_kpcr _ Hok j c Hj Hc) as [Hv' Hr2]. split; [by apply Hlive|done].
Qed.

Lemma step_unlock_ok s i p : smp_ok s -> s_cpus s !! i = Some (Cpu p HasTss) ->
  smp_ok (set_cpu s i (Cpu p Idle) (set_kmem (s_g s) (st32 (kmem (s_g s)) ap_boot_lock 0))).
Proof.
  intros [Ht [Hl Hm Hn] Hk Hs] Hi. split; cbn [s_g s_cpus s_bsp set_cpu kmem kheap set_kmem].
  - eapply tables_cpu; [|exact Hi|done|done]. eapply tables_mem; [exact Ht| |done].
    by apply (word_same _ _ _ 4); [left|].
  - assert (forall j c, <[i := Cpu p Idle]> (s_cpus s) !! j = Some c -> holds (c_pc c) = true -> False) as Hno.
    { intros j c Hj Hc. apply lookup_insert_cases in Hj as [[<- ->]|[Hne Hj]]; [done|].
      apply Hne. by apply (Hm i j _ c Hi). }
    split.
    + intros j c Hj Hc. by destruct (Hno j c).
    + intros j k c d Hj _ Hc _. by destruct (Hno j c).
    + rewrite (tally_insert _ _ _ _ _ Hi). cbn [c_pc past]. unfold ld32, st32.
      rewrite ldn_stn_ne by (unfold ap_couts, ap_boot_lock; lia). unfold ld32 in Hn. lia.
  - by apply (kpcr_cpu (kheap (s_g s))).
  - intros E. rewrite (tally_insert _ _ _ _ _ Hi). cbn [c_pc past]. specialize (Hs E). lia.
Qed.

Lemma step_alloc_ok s n b g' : smp_ok s -> 0 < n <= 4096 -> kzalloc_mem (s_g s) n = (b, g') ->
  b <> NULL -> smp_ok (Smp g' (s_cpus s) (s_bsp s)).
Proof.
  intros [Ht [Hl Hm Hn] Hk Hs] Hr E Hb.
  destruct (kzalloc_mem_spec _ _ _ _ Hr E Hb) as (_ & _ & Ex & Hlo & Hhi & _ & _ & Hlive & _ & Hf).
  destruct (heap_same (kmem (s_g s)) (kmem g')) as (Hst & E1 & E2).
  { intros a Ha. apply Hf. intros Hx. apply Ha. unfold in_heap. lia. }
  split; cbn [s_g s_cpus s_bsp].
  - by eapply tables_mem.
  - split; [intros i c Hi Hc; rewrite E1; by apply (Hl i c)|done|by rewrite E2].
  - intros i c Hi Hc. destruct (Hk i c Hi Hc) as [Hv Hr']. split; [by apply Hlive|done].
  - done.
Qed.

Lemma st16_clears m a : ld32 (st16 m a 0) a <= ld32 m a.
Proof.
  unfold ld32, st16. unfold ldn. autorewrite with fields.
  replace (a + 1 + 1) with (a + 2) by lia. replace (a + 2 + 1) with (a + 3) by lia.
  rewrite (ld8_stn_ne 2 _ _ _ (a + 2)), (ld8_stn_ne 2 _ _ _ (a + 3)) by lia.
  unfold stn. rewrite (ld8_st8_ne _ (a + 1) _ a), !ld8_st8_eq by lia.
  pose proof (ld8_bound m a). pose proof (ld8_bound m (a + 1)). change (u8 0) with 0.
  change (u8 (0 / 256)) with 0. lia.
Qed.

Lemma step_clear_ok s : smp_ok s -> s_bsp s = Sent ->
  smp_ok (Smp (set_kmem (s_g s) (st16 (kmem (s_g s)) ap_couts 0)) (s_cpus s) Waiting).
Proof.
  intros [Ht [Hl Hm Hn] Hk Hs] E. split; cbn [s_g s_cpus s_bsp kmem kheap set_kmem]; [|split|done|done].
  - eapply tables_mem; [exact Ht| |done]. by apply (word_same _ _ _ 2); [right|lia].
  - intros i c Hi Hc. unfold ld32, st16. rewrite ldn_stn_ne by (unfold ap_couts, ap_boot_lock; lia).
    by apply (Hl i c).
  - done.
  - pose proof (st16_clears (kmem (s_g s)) ap_couts). lia.
Qed.

Lemma ld16_le_ld32 m a : ld16 m a <= ld32 m a.
Proof.
  unfold ld16, ld32, ldn. pose proof (ld8_bound m (a + 1 + 1)). pose proof (ld8_bound m (a + 1 + 1 + 1)). lia.
Qed.

Lemma step_wait_ok s : smp_ok s -> u32 (lapic_num info - 1) <= ld16 (kmem (s_g s)) ap_couts ->
  smp_ok (Smp (s_g s) (s_cpus s) Started).
Proof.
  intros [Ht Hl Hk Hs] Hw. split; [done..|]. cbn [s_cpus]. intros _.
  pose proof (ld16_le_ld32 (kmem (s_g s)) ap_couts). pose proof (lo_count _ _ Hl). lia.
Qed.

(** Where the two blocks of [init_tss_current_core] are. *)
Lemma tss_blocks s i p tss h1 stk h2 : smp_ok s -> s_cpus s !! i = Some (Cpu p HasKpcr) ->
  kzalloc (kheap (s_g s)) sizeof_tss_t = (tss, h1) -> tss <> NULL ->
  kzalloc h1 PAGE_SIZE = (stk, h2) -> stk <> NULL ->
  tss_place base tss stk (kernel_gs p) /\
  (forall n a, tss_writes base n tss stk (kernel_gs p) a ->
     in_heap a \/ base + 56 + 16 * n <= a < base + 72 + 16 * n \/ g_gdtr <= a < g_gdtr + 2) /\
  forall q k, al_live (kheap (s_g s)) q k -> al_live h2 q k.
Proof.
  intros Hok Hi E1 Ht E2 Hs. destruct (so_kpcr _ Hok i _ Hi eq_refl) as (Hv & Hk1 & Hk2). cbn [c_proc] in *.
  unfold sizeof_tss_t, sizeof_kpcr_t, PAGE_SIZE in *.
  destruct (al_in _ _ _ _ E1 Ht ltac:(lia)) as [Ht1 Ht2], (al_in _ _ _ _ E2 Hs ltac:(lia)) as [Hs1 Hs2].
  pose proof (al_off _ _ _ _ _ _ E1 Ht ltac:(lia) Hv ltac:(lia)) as Ho.
  apply al_kzalloc in E1 as [[-> _]|(Hr1 & _ & El1)]; [done|].
  apply al_kzalloc in E2 as [[-> _]|(Hr2 & _ & El2)]; [done|].
  assert (forall lo n, 0 < n -> al_lo <= lo -> lo + n <= al_hi ->
    apart lo n base 2048 /\ apart lo n g_gdtr 10) as Hap.
  { intros lo n Hn Hlo Hhi. unfold apart. split.
    - destruct (decide (lo + n <= base)); [by left|]. destruct (decide (base + 2048 <= lo)); [by right|].
      destruct (heap_apart (Z.max lo base)) as [Hx _]; [unfold in_heap|]; lia.
    - destruct (decide (lo + n <= g_gdtr)); [by left|]. destruct (decide (g_gdtr + 10 <= lo)); [by right|].
      destruct (heap_apart (Z.max lo g_gdtr)) as (_ & Hx & _); [unfold in_heap|]; lia. }
  split; [|split].
  - split; [done..|apply Hap; lia|apply Hap; lia|]. split; [apply Hap; lia|]. split; [apply Hap; lia|].
    unfold apart. lia.
  - intros n a [Ha|[Ha|[Ha|[Ha|Ha]]]]; [left|left|right; left|right; right|left]; unfold in_heap; lia.
  - intros q k Hq. apply El2. left. apply El1. by left.
Qed.

(** A word outside the heap and the tables is not touched either. *)
Lemma tss_step_word s i p tss h1 stk h2 g' p' w : smp_ok s -> s_cpus s !! i = Some (Cpu p HasKpcr) ->
  kzalloc (kheap (s_g s)) sizeof_tss_t = (tss, h1) -> tss <> NULL ->
  kzalloc h1 PAGE_SIZE = (stk, h2) -> stk <> NULL ->
  init_tss_current_core (s_g s) p = (g', p') ->
  apart base 2048 w 4 -> apart g_gdtr 10 w 4 -> (forall a, w <= a < w + 4 -> ~ in_heap a) ->
  ld32 (kmem g') w = ld32 (kmem (s_g s)) w.
Proof.
  intros Hok Hi E1 Ht E2 Hs E Hw1 Hw2 Hh.
  destruct (tss_blocks s i p tss h1 stk h2 Hok Hi E1 Ht E2 Hs) as (Hpl & Hw & _).
  destruct (so_tables _ Hok) as [Hlen Hgdt _ _]. pose proof (tally_lt has_tss _ _ _ Hi eq_refl) as Hn.
  pose proof (tally_bound has_tss (s_cpus s)) as Hn0.
  destruct (init_tss_spec (s_g s) p g' p' base _ tss h1 stk h2 E1 E2 Hpl Hgdt ltac:(lia) E)
    as (_ & _ & _ & _ & _ & _ & _ & _ & _ & _ & Hf).
  apply ldn_ext. intros a Ha. apply Hf. unfold apart in *. intros [Hx|Hx]%Hw; [by apply (Hh a)|lia].
Qed.

Lemma lock_word_apart : apart base 2048 ap_boot_lock 4 /\ apart g_gdtr 10 ap_boot_lock 4 /\
  forall a, ap_boot_lock <= a < ap_boot_lock + 4 -> ~ in_heap a.
Proof.
  split; [apply words_apart|]. split; [right; unfold ap_boot_lock, g_gdtr; lia|].
  intros a Ha Hh. apply heap_apart in Hh. lia.
Qed.

Lemma couts_word_apart : apart base 2048 ap_couts 4 /\ apart g_gdtr 10 ap_couts 4 /\
  forall a, ap_couts <= a < ap_couts + 4 -> ~ in_heap a.
Proof.
  split; [apply words_apart|]. split; [left; unfold ap_couts, g_gdtr; lia|].
  intros a Ha Hh. apply heap_apart in Hh. lia.
Qed.

Lemma step_tss_ok s i p tss h1 stk h2 g' p' : smp_ok s -> s_cpus s !! i = Some (Cpu p HasKpcr) ->
  kzalloc (kheap (s_g s)) sizeof_tss_t = (tss, h1) -> tss <> NULL ->
  kzalloc h1 PAGE_SIZE = (stk, h2) -> stk <> NULL ->
  init_tss_current_core (s_g s) p = (g', p') ->
  smp_ok (set_cpu s i (Cpu p' HasTss) g').
Proof.
  intros Hok Hi E1 Ht E2 Hs E.
  assert (forall w, apart base 2048 w 4 /\ apart g_gdtr 10 w 4 /\ (forall a, w <= a < w + 4 -> ~ in_heap a) ->
    ld32 (kmem g') w = ld32 (kmem (s_g s)) w) as Hword
    by (intros w (?&?&?); by eapply tss_step_word).
  destruct (tss_blocks s i p tss h1 stk h2 Hok Hi E1 Ht E2 Hs) as (Hpl & Hw & Hlive).
  destruct Hok as [[Hlen Hgdt Htss Hdist] Hlk Hk Hst]. set (n := tally has_tss (s_cpus s)) in *.
  pose proof (tally_lt has_tss _ _ _ Hi eq_refl) as Hn. fold n in Hn.
  pose proof (tally_bound has_tss (s_cpus s)) as Hn0. fold n in Hn0.
  destruct (init_tss_spec (s_g s) p g' p' base n tss h1 stk h2 E1 E2 Hpl Hgdt ltac:(lia) E)
    as (Hg' & Eh & _ & Htr & Hgr & _ & _ & Hld & _ & _ & Hf).
  assert (tally has_tss (<[i := Cpu p' HasTss]> (s_cpus s)) = n + 1) as En
    by (rewrite (tally_insert _ _ _ _ _ Hi); cbn [c_pc has_tss Z.b2z]; lia).
  assert (forall a, ~ in_heap a -> ~ base + 56 + 16 * n <= a < base + 72 + 16 * n ->
    ~ g_gdtr <= a < g_gdtr + 2 -> ld8 (kmem g') a = ld8 (kmem (s_g s)) a) as Hm
    by (intros a ???; apply Hf; intros [?|[?|?]]%Hw; done).
  assert (forall j c, s_cpus s !! j = Some c -> has_tss (c_pc c) = true ->
    exists k t, 0 <= k < n /\ tss_at (kmem g') (c_proc c) k t) as Hold.
  { intros j c Hj Hc. destruct (Htss j c Hj Hc) as (k & t & Hkn & Hr & Hg & Hl). exists k, t.
    split; [lia|]. split; [done|]. split; [done|]. rewrite <- Hl. apply load_tss_ext. intros a Ha.
    apply Hm; [intros Hh; apply heap_apart in Hh|..]; unfold apart in *; lia. }
  split; cbn [s_g s_cpus s_bsp set_cpu].
  - split; [by rewrite length_insert|by rewrite En| |].
    + intros j c Hj Hc. rewrite En. apply lookup_insert_cases in Hj as [[<- ->]|[Hne Hj]].
      * exists n, tss. split; [lia|]. done.
      * destruct (Hold j c Hj Hc) as (k & t & ? & ?). exists k, t. split; [lia|done].
    + assert (forall j c, s_cpus s !! j = Some c -> has_tss (c_pc c) = true -> tr (c_proc c) <> tr p') as Hne.
      { intros j c Hj Hc. destruct (Hold j c Hj Hc) as (k & t & ? & -> & _). lia. }
      intros j k c d Hj Hk' Hc Hd Hjk.
      apply lookup_insert_cases in Hj as [[<- ->]|[Hn1 Hj]]; apply lookup_insert_cases in Hk' as [[<- ->]|[Hn2 Hk']];
        [done| |by eapply Hne|by apply (Hdist j k)].
      cbn [c_proc]. intros Eq. by eapply Hne.
  - eapply lock_cpu; [exact Hlk|exact Hi|done|done| |].
    + apply Hword, lock_word_apart.
    + apply Hword, couts_word_apart.
  - rewrite Eh. by apply (kpcr_cpu (kheap (s_g s))).
  - intros Est. rewrite (tally_insert _ _ _ _ _ Hi). cbn [c_pc past Z.b2z]. specialize (Hst Est). lia.
Qed.

Lemma smp_step_ok s s' : smp_ok s -> smp_step dev entry info s s' -> smp_ok s'.
Proof.
  intros Hok Hs. destruct Hs.
  - by apply step_lock_ok.
  - by apply step_count_ok.
  - by apply step_setup_ok.
  - by eapply step_kpcr_ok.
  - by eapply step_tss_ok.
  - by apply step_unlock_ok.
  - by eapply step_alloc_ok.
  - by apply step_clear_ok.
  - by apply step_wait_ok.
Qed.

(** The machine when [ap_init] has sent its messages: the boot processor, in
    slot 0, has its TSS in place; the others are in aps_boot.asm. *)
Definition boot_start s : Prop :=
  exists bsp aps t, s_cpus s = Cpu bsp Idle :: ((fun p => Cpu p Spin) <$> aps) /\
    (length aps <= 123)%nat /\ s_bsp s = Sent /\ gdt_state (s_g s) base 1 /\
    tss_at (kmem (s_g s)) bsp 0 t /\ ld32 (kmem (s_g s)) ap_boot_lock = 0 /\
    ld32 (kmem (s_g s)) ap_couts = 0.

Lemma tally_spin f aps : f Spin = false -> tally f ((fun p => Cpu p Spin) <$> aps) = 0.
Proof.
  intros Hf. induction aps as [|p aps IH]; [done|]. rewrite fmap_cons, tally_cons, IH. cbn [c_pc].
  by rewrite Hf.
Qed.

Lemma boot_start_ok s : boot_start s -> smp_ok s.
Proof.
  intros (bsp & aps & t & Ec & Hl & Hb & Hg & Ht & Hlk & Hct).
  assert (forall i c, s_cpus s !! i = Some c -> (i = O /\ c = Cpu bsp Idle) \/ c_pc c = Spin) as Hc.
  { rewrite Ec. intros [|i] c Hi; cbn in Hi; [left; by simplify_eq|right].
    apply list_lookup_fmap_Some in Hi as (p & -> & _). done. }
  assert (forall f, f Spin = false -> f Idle = true -> tally f (s_cpus s) = 1) as Htl.
  { intros f Hf Hi. rewrite Ec, tally_cons, tally_spin by done. cbn [c_pc]. by rewrite Hi. }
  split.
  - split.
    + rewrite Ec. cbn [length]. rewrite length_fmap. lia.
    + by rewrite Htl.
    + intros i c Hi Hh. rewrite Htl by done. exists 0, t. split; [lia|].
      destruct (Hc i c Hi) as [[_ ->]|Hp]; [done|]. by rewrite Hp in Hh.
    + intros i j c d Hi Hj Hh Hh' Hn. destruct (Hc i c Hi) as [[-> _]|Hp]; [|by rewrite Hp in Hh].
      destruct (Hc j d Hj) as [[-> _]|Hp]; [done|by rewrite Hp in Hh'].
  - split.
    + intros i c Hi Hh. exfalso. destruct (Hc i c Hi) as [[_ ->]|Hp]; [done|by rewrite Hp in Hh].
    + intros i j c d Hi _ Hh _. exfalso. destruct (Hc i c Hi) as [[_ ->]|Hp]; [done|by rewrite Hp in Hh].
    + rewrite Htl by done. lia.
  - intros i c Hi Hp. by destruct (Hc i c Hi) as [[_ ->]|Hp']; [|rewrite Hp' in Hp].
  - by rewrite Hb.
Qed.

Lemma smp_reach_ok s s' : boot_start s -> rtc (smp_step dev entry info) s s' -> smp_ok s'.
Proof.
  intros Hs Hr. apply boot_start_ok in Hs. induction Hr as [s|s s1 s2 Hst _ IH]; [done|].
  apply IH. by eapply smp_step_ok.
Qed.

(** ** Theorems *)

(** C3: Whatever the interleaving of the processors' steps: at most one is between
    taking and releasing the boot lock; every processor that has set its task
    register selects the descriptor of a TSS, and no two select the same; when
    ap_init leaves its wait, [lapic_num] - 1 processors have at least counted
    themselves. *)
Theorem smp_boot_correct s s' : boot_start s -> rtc (smp_step dev entry info) s s' ->
  (forall i j c d, s_cpus s' !! i = Some c -> s_cpus s' !! j = Some d ->
     holds (c_pc c) = true -> holds (c_pc d) = true -> i = j) /\
  (forall i c, s_cpus s' !! i = Some c -> has_tss (c_pc c) = true -> exists t,
     select_tss (kmem (s_g s')) (Lapic.gdtr (c_proc c)) (tr (c_proc c)) = Some (tss64 t)) /\
  (forall i j c d, s_cpus s' !! i = Some c -> s_cpus s' !! j = Some d -> i <> j ->
     has_tss (c_pc c) = true -> has_tss (c_pc d) = true -> tr (c_proc c) <> tr (c_proc d)) /\
  (s_bsp s' = Started -> u32 (lapic_num info - 1) <= tally past (s_cpus s') - 1).
Proof.
  intros Hs Hr. destruct (smp_reach_ok s s' Hs Hr) as [[_ _ Ht Hd] [_ Hm _] _ Hst].
  split; [done|]. split; [|split; [|done]].
  - intros i c Hi Hc. destruct (Ht i c Hi Hc) as (j & t & Hj & Htr & Hg & Hl). exists t.
    unfold select_tss. rewrite Htr, Hg. cbn [fst snd].
    replace (8 * ((56 + 16 * j) / 8)) with (56 + 16 * j) by zlia.
    destruct (_ <=? _) eqn:E; bool_hyps; [|lia]. by rewrite Z.add_assoc, Hl.
  - intros i j c d Hi Hj Hn Hc He. by apply (Hd i j).
Qed.

(** Every processor has counted itself, the wait goes on. *)
Definition stuck_wait s : Prop :=
  s_bsp s = Waiting /\ ld16 (kmem (s_g s)) ap_couts < u32 (lapic_num info - 1) /\
  forall i c, s_cpus s !! i = Some c -> past (c_pc c) = true.

Lemma stuck_cpu s i c c' g' : stuck_wait s -> s_cpus s !! i = Some c -> past (c_pc c') = true ->
  ld32 (kmem g') ap_couts = ld32 (kmem (s_g s)) ap_couts -> stuck_wait (set_cpu s i c' g').
Proof.
  intros (Hb & Hw & Hp) Hi Hc E. split; [done|]. cbn [s_g s_cpus set_cpu]. split.
  - assert (forall m, ld16 m ap_couts = ld32 m ap_couts mod 65536) as E16.
    { intros m. unfold ld16, ld32, ldn. pose proof (ld8_bound m ap_couts).
      pose proof (ld8_bound m (ap_couts + 1)). zlia. }
    by rewrite E16, E, <- E16.
  - intros j d Hj. apply lookup_insert_cases in Hj as [[<- ->]|[Hn Hj]]; [done|by apply (Hp j)].
Qed.

Lemma stuck_step s s' : smp_ok s -> stuck_wait s -> smp_step dev entry info s s' -> stuck_wait s'.
Proof.
  intros Hok Hst Hs.
  assert (forall m, ld32 (st32 m ap_boot_lock 1) ap_couts = ld32 m ap_couts /\
    ld32 (st32 m ap_boot_lock 0) ap_couts = ld32 m ap_couts) as Hlk
    by (intros m; split; apply ldn_stn_ne; unfold ap_couts, ap_boot_lock; lia).
  destruct Hs as [s i p Hi|s i p Hi|s i p Hi|s i p k g' p' Hi E Hk Hn|s i p tss h1 stk h2 g' p' Hi E1 Ht E2 Hs' E|
    s i p Hi|s n b g' Hr E Hn|s Hb|s Hb Hw].
  - destruct Hst as (_ & _ & Hp). by specialize (Hp _ _ Hi).
  - destruct Hst as (_ & _ & Hp). by specialize (Hp _ _ Hi).
  - by eapply stuck_cpu.
  - eapply stuck_cpu; [done..|].
    destruct (kpcr_create_spec (dev i) _ _ _ _ _ E Hk Hn)
      as (_ & _ & _ & _ & _ & _ & _ & _ & _ & Hr & Hr' & _ & Hf).
    apply heap_same. intros a Ha. apply Hf; intros Hb; apply Ha; unfold in_heap; lia.
  - eapply stuck_cpu; [done..|]. destruct couts_word_apart as (?&?&?). by eapply tss_step_word.
  - eapply stuck_cpu; [done..|]. apply Hlk.
  - destruct Hst as (Hb & Hw & Hp). split; [done|]. split; [|done]. cbn [s_g].
    destruct (kzalloc_mem_spec _ _ _ _ Hr E Hn) as (_ & _ & _ & Hlo & Hhi & _ & _ & _ & _ & Hf).
    unfold ld16 in *. rewrite (ldn_ext 2 _ (kmem (s_g s))); [done|]. intros a Ha. apply Hf. intros Hx.
    destruct couts_word_apart as (_ & _ & Hc). apply (Hc a); [lia|unfold in_heap; lia].
  - destruct Hst as (Hb' & _). congruence.
  - destruct Hst as (_ & Hw' & _). lia.
Qed.

(** C36: The counter is cleared after the messages are sent: when a processor has
    counted itself before, and all have, [ap_init] waits for ever. *)
Theorem ap_init_waits_forever s0 s s' : boot_start s0 -> rtc (smp_step dev entry info) s0 s ->
  stuck_wait s -> rtc (smp_step dev entry info) s s' -> s_bsp s' = Waiting.
Proof.
  intros H0 Hr Hw Hr'. assert (smp_ok s) as Hok by (by eapply smp_reach_ok). clear H0 Hr.
  induction Hr' as [s|s s1 s2 Hs _ IH]; [apply Hw|].
  apply IH; [by eapply stuck_step|by eapply smp_step_ok].
Qed.
End Invariant.

(** ** Witnesses *)

(** Two processors on an empty heap above 1 MiB, the GDT at 0x20000; the boot
    processor's TSS is at 0x30000. *)
Definition smp_mem : mem :=
  build_x64_tss_desc (st64 (st16 ∅ g_gdtr 72) (g_gdtr + 2) 0x20000) 0x30000 (0x20000 + 56).
Definition smp_kernel : kernel (list (Z * Z)) := Kernel smp_mem [] (replicate 100 0) 9.
Definition smp_bsp : proc := Proc ∅ [] (72, 0x20000) 56.
Definition smp_ap : proc := Proc {[ 0x1B := 0xFEE00900 ]} [] (0, 0) 0.
Definition smp_start : smp (list (Z * Z)) := Smp smp_kernel [Cpu smp_bsp Idle; Cpu smp_ap Spin] Sent.
Definition smp_dev (i : nat) (_ : list (Z * Z)) (_ : Z) : Z := Z.of_nat i * 16777216.

Lemma smp_heap_apart (a : Z) : in_heap (H := list (Z * Z)) a ->
  ~ 0x20000 <= a < 0x20000 + 2048 /\ ~ g_gdtr <= a < g_gdtr + 10 /\
  ~ ap_boot_lock <= a < ap_boot_lock + 4 /\ ~ ap_couts <= a < ap_couts + 4.
Proof. unfold in_heap, g_gdtr, ap_boot_lock, ap_couts. cbn [al_lo al_hi list_alloc_place]. lia. Qed.

Lemma smp_start_ok : boot_start 0x20000 smp_start.
Proof.
  exists smp_bsp, [smp_ap], 0x30000. split; [done|]. split; [cbn; lia|]. split; [done|].
  split; [split; [|split]; vm_compute; reflexivity|].
  split; [split; [|split]; vm_compute; reflexivity|]. split; vm_compute; reflexivity.
Qed.

(** The other processor takes the lock and counts itself, then the counter is
    cleared. *)
Definition smp_locked := set_cpu smp_start 1 (Cpu smp_ap Locked)
  (set_kmem smp_kernel (st32 smp_mem ap_boot_lock 1)).
Definition smp_counted := set_cpu smp_locked 1 (Cpu smp_ap Counted)
  (set_kmem (s_g smp_locked) (st32 (kmem (s_g smp_locked)) ap_couts (ld32 (kmem (s_g smp_locked)) ap_couts + 1))).
Definition smp_cleared := Smp (set_kmem (s_g smp_counted) (st16 (kmem (s_g smp_counted)) ap_couts 0))
  (s_cpus smp_counted) Waiting.

Lemma smp_steps : rtc (smp_step smp_dev 0x123456 demo_info) smp_start smp_cleared.
Proof.
  eapply rtc_l; [apply (step_lock _ _ _ smp_start 1 smp_ap); [done|vm_compute; reflexivity]|].
  eapply rtc_l; [by apply (step_count _ _ _ smp_locked 1 smp_ap)|].
  eapply rtc_l; [by apply (step_clear _ _ _ smp_counted)|]. apply rtc_refl.
Qed.

Lemma smp_boot_correct_witness : exists t,
  select_tss (kmem (s_g smp_cleared)) (Lapic.gdtr smp_bsp) (tr smp_bsp) = Some (tss64 t).
Proof.
  destruct (smp_boot_correct smp_dev 0x123456 demo_info 0x20000
    ltac:(lia) ltac:(left; unfold g_gdtr; lia)
    ltac:(split; [right; unfold ap_boot_lock; lia|left; unfold ap_couts; lia])
    smp_heap_apart smp_start smp_cleared smp_start_ok smp_steps) as (_ & Hs & _).
  exact (Hs 0%nat (Cpu smp_bsp Idle) eq_refl eq_refl).
Defined.

(** And goes on. *)
Definition smp_next := set_cpu smp_cleared 1 (Cpu (ap_setup smp_dev 0x123456 1 smp_ap) SetUp) (s_g smp_cleared).

Lemma ap_init_waits_forever_witness : s_bsp smp_next = Waiting.
Proof.
  apply (ap_init_waits_forever smp_dev 0x123456 demo_info 0x20000
    ltac:(lia) ltac:(left; unfold g_gdtr; lia)
    ltac:(split; [right; unfold ap_boot_lock; lia|left; unfold ap_couts; lia])
    smp_heap_apart smp_start smp_cleared smp_next smp_start_ok smp_steps).
  - split; [done|]. split; [vm_compute; reflexivity|].
    intros [|[|i]] c Hi; cbn in Hi; simplify_eq; done.
  - apply rtc_once. by apply (step_setup _ _ _ smp_cleared 1 smp_ap).
Defined.
