(* ===== verification/Task64.v ===== *)
(** Tasks of the 64-bit kernel: x64_kenerl/kernel/task64.c and
    include/linux/task64.h.  The task table holds pointers; the tasks
    themselves live in a store of objects, allocated through the interface
    Alloc. *)

From S2P Require Import Prelude Alloc.

(** ** Data *)

Inductive task_state_t :=
  TASK_INIT | TASK_RUNNING | TASK_READY | TASK_BLOCKED | TASK_SLEEPING | TASK_WAITING | TASK_DIED.

#[export] Instance task_state_eq_dec : EqDecision task_state_t.
Proof. solve_decision. Defined.

Record task_context_t := TaskContext {
  c_rflags : Z; c_rip : Z; c_rax : Z; c_rbx : Z; c_rcx : Z; c_rdx : Z; c_rdi : Z; c_rsi : Z;
  c_rbp : Z; c_rsp : Z; c_r8 : Z; c_r9 : Z; c_r10 : Z; c_r11 : Z; c_r12 : Z; c_r13 : Z;
  c_r14 : Z; c_r15 : Z; c_cs : Z; c_ss : Z; c_ds : Z; c_fs : Z; c_gs : Z
}.

Record task_t := Task {
  context : task_context_t;
  name : list Z;
  pid : Z;
  function : Z;
  esp0 : Z;
  esp3 : Z;
  cs : Z;
  ss : Z;
  ds : Z;
  stack : Z;
  stack_length : Z;
  user_stack : Z;
  user_stack_length : Z;
  counter : Z;
  priority : Z;
  state : task_state_t;
  fisrt_sched : bool
}.

(** Packed: 23 + 13 quadwords, 64 bytes of name, the state, the flag and the
    list node. *)
Definition sizeof_task_t : Z := 23 * 8 + 64 + 13 * 8 + 4 + 1 + 16.
Definition TASK_MAX_NUMS : Z := 100.

Definition zero_context : task_context_t :=
  TaskContext 0 0 0 0 0 0 0 0 0 0 0 0 0 0 0 0 0 0 0 0 0 0 0.
(** What [kzalloc(sizeof(task_t))] returns. *)
Definition zero_task : task_t :=
  Task zero_context (replicate 64 0) 0 0 0 0 0 0 0 0 0 0 0 0 0 TASK_INIT false.

Definition set_state (s : task_state_t) (t : task_t) : task_t :=
  Task (context t) (name t) (pid t) (function t) (esp0 t) (esp3 t) (cs t) (ss t) (ds t)
    (stack t) (stack_length t) (user_stack t) (user_stack_length t) (counter t) (priority t)
    s (fisrt_sched t).
Definition set_counter (c : Z) (t : task_t) : task_t :=
  Task (context t) (name t) (pid t) (function t) (esp0 t) (esp3 t) (cs t) (ss t) (ds t)
    (stack t) (stack_length t) (user_stack t) (user_stack_length t) c (priority t)
    (state t) (fisrt_sched t).
Definition set_esp0 (e : Z) (t : task_t) : task_t :=
  Task (context t) (name t) (pid t) (function t) e (esp3 t) (cs t) (ss t) (ds t)
    (stack t) (stack_length t) (user_stack t) (user_stack_length t) (counter t) (priority t)
    (state t) (fisrt_sched t).
Definition set_first (b : bool) (t : task_t) : task_t :=
  Task (context t) (name t) (pid t) (function t) (esp0 t) (esp3 t) (cs t) (ss t) (ds t)
    (stack t) (stack_length t) (user_stack t) (user_stack_length t) (counter t) (priority t)
    (state t) b.

(** [g_task] with the objects its pointers reach, and the heap. *)
Record task_ctx_t (H : Type) := TaskCtx {
  tasks : list Z;
  task_lock : Z;
  store : gmap Z task_t;
  heap : H
}.
Arguments TaskCtx {H}.
Arguments tasks {H}.
Arguments task_lock {H}.
Arguments store {H}.
Arguments heap {H}.

Section Ops.
Context {H : Type}.
Implicit Types (g : task_ctx_t H).

(** [*task] and an update of [*task]. *)
Definition deref g (p : Z) : task_t := default zero_task (store g !! p).
Definition upd g (p : Z) (f : task_t -> task_t) : task_ctx_t H :=
  TaskCtx (tasks g) (task_lock g) (<[p := f (deref g p)]> (store g)) (heap g).
Definition with_lock g (l : Z) : task_ctx_t H := TaskCtx (tasks g) l (store g) (heap g).

(** [spin_lock] as seen by its single caller. *)
Definition lock_tasks g : outcome (task_ctx_t H) :=
  if task_lock g =? 0 then Done (with_lock g 1) else Stuck Deadlock.
Definition unlock_tasks g : task_ctx_t H := with_lock g 0.

(** The search of [get_free_task_index], from index [i]. *)
Fixpoint free_index (ts : list Z) (i : Z) : Z :=
  match ts with
  | [] => -1
  | p :: ts' => if p =? NULL then i else free_index ts' (i + 1)
  end.
Definition get_free_task_index g : Z := free_index (tasks g) 0.

(** ** The scheduler *)

(** First loop: the ready task of highest priority so far and whether a
    waiting one was seen. *)
Definition scan_ready g (acc : Z * bool) (p : Z) : Z * bool :=
  let '(highPrioTask, hasWaitTask) := acc in
  if p =? NULL then acc
  else match state (deref g p) with
  | TASK_WAITING => (highPrioTask, true)
  | TASK_READY =>
      if highPrioTask =? NULL then (p, hasWaitTask)
      else if priority (deref g highPrioTask) <? priority (deref g p) then (p, hasWaitTask)
      else acc
  | _ => acc
  end.

(** Second loop: every waiting task becomes ready with a full counter. *)
Definition reset_waiting (acc : Z * task_ctx_t H) (p : Z) : Z * task_ctx_t H :=
  let '(highPrioTask, g) := acc in
  if p =? NULL then acc
  else match state (deref g p) with
  | TASK_WAITING =>
      let g' := upd g p (fun t => set_state TASK_READY (set_counter (priority t) t)) in
      if highPrioTask =? NULL then (p, g')
      else if priority (deref g' highPrioTask) <? priority (deref g' p) then (p, g')
      else (highPrioTask, g')
  | _ => acc
  end.

Definition get_next_ready_task g : outcome (Z * task_ctx_t H) :=
  let '(highPrioTask, hasWaitTask) := foldl (scan_ready g) (NULL, false) (tasks g) in
  sel ← (if highPrioTask =? NULL then
           if hasWaitTask : bool then Done (foldl reset_waiting (NULL, g) (tasks g))
           else
             let t0 := znth NULL (tasks g) 0 in
             if t0 =? NULL then Stuck NullDeref
             else Done (if decide (state (deref g t0) = TASK_READY) then t0 else NULL, g)
         else Done (highPrioTask, g));
  let '(p, g') := sel in
  if p =? NULL then Done (NULL, g')
  else Done (p, upd g' p (set_state TASK_RUNNING)).

(** [add_task]: the table has 100 entries, any other index is outside it. *)
Definition add_task g (task : Z) : outcome (task_ctx_t H) :=
  g1 ← lock_tasks g;
  let i := pid (deref g1 task) in
  if (i <? TASK_MAX_NUMS) then
    Done (unlock_tasks (TaskCtx (zset (tasks g1) i task) (task_lock g1) (store g1) (heap g1)))
  else Stuck WildStore.

(** [strcpy(task->name, name)] into the 64-byte array. *)
Definition put_name (nm : list Z) (t : task_t) : outcome task_t :=
  if Z.of_nat (length nm) <? 64 then
    Done (Task (context t) (nm ++ 0 :: drop (S (length nm)) (name t)) (pid t) (function t) (esp0 t)
      (esp3 t) (cs t) (ss t) (ds t) (stack t) (stack_length t) (user_stack t)
      (user_stack_length t) (counter t) (priority t) (state t) (fisrt_sched t))
  else Stuck WildStore.

(** The fields [ktask_create] fills in, between the name and [add_task]. *)
Definition fill_task (function' stk ustk stack_size prio idx : Z) (t : task_t) : task_t :=
  Task (context t) (name t) (u64 idx) function' (u64 (stk + stack_size)) (u64 (ustk + stack_size))
    24 32 32 stk stack_size ustk stack_size (u64 prio) (u64 prio) TASK_READY true.

Definition with_heap g (h : H) : task_ctx_t H := TaskCtx (tasks g) (task_lock g) (store g) h.

Context `{AllocOps H}.

(** [ktask_create]; [prio] is the [int] argument, [stack_size] a [size_t]. *)
Definition ktask_create g (nm : list Z) (function' stack_size prio : Z)
  : outcome (Z * task_ctx_t H) :=
  let '(task, h1) := kzalloc (heap g) sizeof_task_t in
  if task =? NULL then Done (NULL, with_heap g h1)
  else
    let '(stk, h2) := kzalloc h1 stack_size in
    if stk =? NULL then Done (NULL, with_heap g (kfree_s h2 task sizeof_task_t))
    else
      let '(ustk, h3) := kzalloc h2 stack_size in
      if ustk =? NULL then
        Done (NULL, with_heap g (kfree_s (kfree_s h3 stk stack_size) task sizeof_task_t))
      else
        named ← put_name nm zero_task;
        let t := fill_task function' stk ustk stack_size prio (get_free_task_index g) named in
        let g1 := TaskCtx (tasks g) (task_lock g) (<[task := t]> (store g)) h3 in
        g2 ← add_task g1 task;
        Done (task, g2).

(** [utask_create] has the same body. *)
Definition utask_create := ktask_create.

(** [task_clean]: the block is released before its [pid] is read. *)
Definition task_clean g (task : Z) : outcome (task_ctx_t H) :=
  g1 ← lock_tasks g;
  let g2 := upd g1 task (set_state TASK_DIED) in
  let t := deref g2 task in
  let h := kfree_s (kfree_s (heap g2) (stack t) (stack_length t)) task sizeof_task_t in
  if (pid t <? TASK_MAX_NUMS) then
    Done (unlock_tasks (TaskCtx (zset (tasks g2) (pid t) NULL) (task_lock g2) (store g2) h))
  else Stuck WildStore.

(** [task_init]: fourteen kernel tasks of priority 3 with one-page stacks. *)
Definition init_names : list (list Z) :=
  (fun c => [105; 110; 105; 116; c]) <$>
    [48; 49; 50; 51; 52; 53; 54; 55; 56; 57; 97; 98; 99; 100].
Definition task_init (idle_thread init_thread : Z) g : outcome (Z * task_ctx_t H) :=
  g' ← foldl (fun o '(nm, f) => g ← o; r ← ktask_create g nm f 4096 3; Done (snd r))
         (Done (with_lock g 0)) (zip init_names (idle_thread :: replicate 13 init_thread));
  Done (0, g').
End Ops.

Section Accessors.
Context {H : Type}.
Implicit Types (g : task_ctx_t H).

Definition get_first_sched_flag g (task : Z) : bool := fisrt_sched (deref g task).
Definition reset_first_sched_flag g (task : Z) : task_ctx_t H := upd g task (set_first false).
Definition set_task_running g (task : Z) : task_ctx_t H := upd g task (set_state TASK_RUNNING).
Definition set_task_waiting g (task : Z) : task_ctx_t H := upd g task (set_state TASK_WAITING).
Definition get_task_esp0 g (task : Z) : Z := esp0 (deref g task).
Definition get_task_esp0_button g (task : Z) : Z := stack (deref g task).
Definition get_task_esp3 g (task : Z) : Z := esp3 (deref g task).
Definition set_task_esp0 g (task e : Z) : task_ctx_t H := upd g task (set_esp0 e).
Definition set_task_esp3 g (task e : Z) : task_ctx_t H := upd g task (set_esp0 e).
Definition get_task_cs g (task : Z) : Z := cs (deref g task).
Definition get_task_funtion g (task : Z) : Z := function (deref g task).
Definition get_task_ss g (task : Z) : Z := ss (deref g task).
(** The returned value is the new counter read as [int64_t]; the callers in
    apic_interrupts.asm compare the register unsigned. *)
Definition decrease_task_couter g (task : Z) : Z * task_ctx_t H :=
  let g' := upd g task (fun t => set_counter (u64 (counter t - 1)) t) in
  (s64 (counter (deref g' task)), g').
Definition reset_task_counter g (task : Z) : task_ctx_t H :=
  upd g task (fun t => set_counter (priority t) t).
End Accessors.

(** ** Specification of the choice *)

Section Scheduler.
Context {H : Type}.
Implicit Types (g : task_ctx_t H).

Definition ready g (p : Z) : Prop := p <> NULL /\ state (deref g p) = TASK_READY.
Definition waiting g (p : Z) : Prop := p <> NULL /\ state (deref g p) = TASK_WAITING.
#[export] Instance ready_dec g p : Decision (ready g p).
Proof. unfold ready. apply _. Defined.
#[export] Instance waiting_dec g p : Decision (waiting g p).
Proof. unfold waiting. apply _. Defined.
Definition prio g (p : Z) : Z := priority (deref g p).

Lemma deref_upd g p f q :
  deref (upd g p f) q = if decide (q = p) then f (deref g p) else deref g q.
Proof.
  unfold deref at 1, upd. cbn [store]. destruct (decide (q = p)) as [->|Hne].
  - by rewrite lookup_insert_eq.
  - by rewrite lookup_insert_ne by done.
Qed.

(** What the first loop has found after the entries [l]. *)
Definition scanned g (l : list Z) (acc : Z * bool) : Prop :=
  (acc.2 = true <-> exists q, q ∈ l /\ waiting g q) /\
  ((acc.1 = NULL /\ forall q, q ∈ l -> ~ ready g q) \/
   (acc.1 <> NULL /\ first_best (ready g) (prio g) l acc.1)).

Lemma scan_ready_step g l acc q :
  scanned g l acc -> scanned g (l ++ [q]) (scan_ready g acc q).
Proof.
  destruct acc as [hp hw]. unfold scanned, scan_ready. cbn [fst snd]. intros [Hw Hh].
  assert (forall P : Z -> Prop, (exists x, x ∈ l ++ [q] /\ P x) <-> (exists x, x ∈ l /\ P x) \/ P q)
    as Hex.
  { intros P. setoid_rewrite elem_of_app. setoid_rewrite list_elem_of_singleton. naive_solver. }
  rewrite Hex. destruct (q =? NULL) eqn:Eq; bool_hyps.
  { split; [rewrite <- Hw; unfold waiting; tauto|].
    destruct Hh as [[-> Hn]|[Hn Hb]]; [left|right]; (split; [done|]).
    - intros x Hx. apply elem_of_app in Hx as [Hx|Hx]; [by apply Hn|].
      apply list_elem_of_singleton in Hx as ->. by intros [? _].
    - apply first_best_snoc_skip; [done|]. by intros [? _]. }
  assert (state (deref g q) <> TASK_READY -> (hp = NULL /\ (forall x, x ∈ l ++ [q] -> ~ ready g x)) \/
    (hp <> NULL /\ first_best (ready g) (prio g) (l ++ [q]) hp)) as Hskip.
  { intros Hs. destruct Hh as [[-> Hn]|[Hn Hb]]; [left|right]; (split; [done|]).
    - intros x Hx. apply elem_of_app in Hx as [Hx|Hx]; [by apply Hn|].
      apply list_elem_of_singleton in Hx as ->. by intros [_ ?].
    - apply first_best_snoc_skip; [done|]. by intros [_ ?]. }
  destruct (state (deref g q)) eqn:Es;
    try (assert (~ waiting g q) by (intros [_ ?]; congruence);
      cbn [fst snd]; split; [rewrite <- Hw; tauto|apply Hskip; congruence]).
  2:{ cbn [fst snd]. split; [split; [intros _; right; by split|done]|apply Hskip; congruence]. }
  clear Hskip. assert (ready g q) as Hr by done. assert (~ waiting g q) as Hnw.
  { intros [_ ?]. congruence. }
  destruct (hp =? NULL) eqn:Eh; bool_hyps.
  - destruct Hh as [[_ Hn]|[Hn _]]; [|done]. cbn [fst snd]. split; [rewrite <- Hw; tauto|].
    right. split; [done|]. by apply first_best_snoc_first.
  - destruct Hh as [[? _]|[_ Hb]]; [done|].
    destruct (priority (deref g hp) <? priority (deref g q)) eqn:El; bool_hyps; cbn [fst snd];
      (split; [rewrite <- Hw; tauto|]); right; (split; [done|]).
    + by eapply first_best_snoc_new.
    + by apply first_best_snoc_skip.
Qed.

Lemma scan_ready_spec g l : scanned g l (foldl (scan_ready g) (NULL, false) l).
Proof.
  induction l as [|q l IH] using rev_ind.
  - split; cbn; [|left; split; [done|by intros q ?%elem_of_nil]].
    split; [done|]. by intros (q & ?%elem_of_nil & _).
  - rewrite foldl_snoc. by apply scan_ready_step.
Qed.

(** The second loop gives every waiting task of the table a full counter. *)
Definition refill (t : task_t) : task_t := set_state TASK_READY (set_counter (priority t) t).

Definition refilled_upto (l : list Z) g g' : Prop :=
  tasks g' = tasks g /\ task_lock g' = task_lock g /\ heap g' = heap g /\
  forall q, (q ∈ l /\ waiting g q -> deref g' q = refill (deref g q)) /\
            (~ (q ∈ l /\ waiting g q) -> deref g' q = deref g q).

Lemma refilled_prio l g g' q : refilled_upto l g g' -> prio g' q = prio g q.
Proof.
  intros (_ & _ & _ & Hd). unfold prio. destruct (Hd q) as [H1 H2].
  destruct (decide (q ∈ l /\ waiting g q)) as [Hq|Hq]; [by rewrite H1|by rewrite H2].
Qed.

Definition reset_done g (l : list Z) (acc : Z * task_ctx_t H) : Prop :=
  refilled_upto l g acc.2 /\
  ((acc.1 = NULL /\ forall q, q ∈ l -> ~ waiting g q) \/
   (acc.1 <> NULL /\ first_best (waiting g) (prio g) l acc.1)).

Lemma refilled_skip l g g' q :
  refilled_upto l g g' -> (waiting g q -> q ∈ l) -> refilled_upto (l ++ [q]) g g'.
Proof.
  intros (Ha & Hb & Hc & Hd) Hq. split; [done|]. split; [done|]. split; [done|].
  intros x. destruct (Hd x) as [H1 H2]. rewrite elem_of_app, list_elem_of_singleton.
  split; intros Hx; [apply H1|apply H2].
  - destruct Hx as [[?| ->] ?]; auto.
  - tauto.
Qed.

Lemma reset_waiting_step g l acc q :
  reset_done g l acc -> reset_done g (l ++ [q]) (reset_waiting acc q).
Proof.
  destruct acc as [hp g']. unfold reset_done, reset_waiting. cbn [fst snd]. intros [Hr Hh].
  assert ((waiting g q -> q ∈ l) -> refilled_upto (l ++ [q]) g g' /\
    ((hp = NULL /\ forall x, x ∈ l ++ [q] -> ~ waiting g x) \/
     (hp <> NULL /\ first_best (waiting g) (prio g) (l ++ [q]) hp))) as Hskip.
  { intros Hq. split; [by apply refilled_skip|].
    destruct Hh as [[-> Hn]|[Hn Hb]]; [left|right]; (split; [done|]).
    - intros x Hx Hw. apply elem_of_app in Hx as [Hx|Hx]; [by apply (Hn x)|].
      apply list_elem_of_singleton in Hx as ->. by apply (Hn q); [apply Hq|].
    - apply first_best_snoc_skip; [done|]. intros Hw. specialize (Hq Hw).
      destruct Hb as (_ & l1 & l2 & -> & H1 & H2).
      apply elem_of_app in Hq as [Hx|[->|Hx]%elem_of_cons];
        [specialize (H1 q Hx Hw); lia|lia|by apply H2]. }
  destruct (q =? NULL) eqn:Eq; bool_hyps; [apply Hskip; by intros [? _]|].
  destruct Hr as (Ht & Hl & Hhp & Hd).
  destruct (decide (state (deref g' q) = TASK_WAITING)) as [Es|Es].
  2:{ assert (waiting g q -> q ∈ l) as Hq.
      { intros [Hn Hw]. destruct (decide (q ∈ l)) as [|Hnl]; [done|]. exfalso. apply Es.
        destruct (Hd q) as [_ H2]. rewrite H2; [done|tauto]. }
      destruct (state (deref g' q)); first [by destruct Es|exact (Hskip Hq)]. }
  rewrite Es. assert (waiting g q /\ q ∉ l) as [Hw Hnl].
  { destruct (Hd q) as [H1 H2]. destruct (decide (q ∈ l)), (decide (waiting g q)) as [Hw|Hw];
      try (split; done).
    - rewrite H1 in Es by done. done.
    - rewrite H2 in Es by tauto. by destruct Hw.
    - rewrite H2 in Es by tauto. by destruct Hw. }
  assert (deref g' q = deref g q) as Edq by (apply Hd; tauto).
  fold refill. set (g2 := upd g' q _).
  assert (refilled_upto (l ++ [q]) g g2) as Hr2.
  { split; [done|]. split; [done|]. split; [done|]. intros x. unfold g2. rewrite deref_upd.
    rewrite elem_of_app, list_elem_of_singleton. destruct (Hd x) as [H1 H2].
    destruct (decide (x = q)) as [->|Hne]; [rewrite Edq|]; split; intros Hx; [done|tauto| |].
    - apply H1. tauto.
    - apply H2. tauto. }
  destruct (hp =? NULL) eqn:Eh; bool_hyps.
  - destruct Hh as [[_ Hn]|[? _]]; [|done]. split; [done|]. right. split; [done|].
    by apply first_best_snoc_first.
  - destruct Hh as [[? _]|[_ Hb]]; [done|].
    fold (prio g2 hp) (prio g2 q). rewrite !(refilled_prio _ _ _ _ Hr2).
    destruct (prio g hp <? prio g q) eqn:El; bool_hyps; (split; [done|]); right; (split; [done|]).
    + by eapply first_best_snoc_new.
    + by apply first_best_snoc_skip.
Qed.

Lemma reset_waiting_spec g l : reset_done g l (foldl reset_waiting (NULL, g) l).
Proof.
  induction l as [|q l IH] using rev_ind.
  - split; cbn; [|left; split; [done|by intros q ?%elem_of_nil]].
    repeat (split; [done|]). intros q. split; [|done]. by intros [?%elem_of_nil _].
  - rewrite foldl_snoc. by apply reset_waiting_step.
Qed.

(** The three outcomes of the choice. *)
Lemma get_next_cases g :
  (exists p, first_best (ready g) (prio g) (tasks g) p /\
     get_next_ready_task g = Done (p, set_task_running g p)) \/
  ((forall q, q ∈ tasks g -> ~ ready g q) /\
   exists p g1, first_best (waiting g) (prio g) (tasks g) p /\ refilled_upto (tasks g) g g1 /\
     get_next_ready_task g = Done (p, set_task_running g1 p)) \/
  ((forall q, q ∈ tasks g -> ~ ready g q /\ ~ waiting g q) /\
   get_next_ready_task g =
     if znth NULL (tasks g) 0 =? NULL then Stuck NullDeref else Done (NULL, g)).
Proof.
  unfold get_next_ready_task. pose proof (scan_ready_spec g (tasks g)) as Hs.
  destruct (foldl (scan_ready g) (NULL, false) (tasks g)) as [hp hw]. destruct Hs as [Hw Hh].
  cbn [fst snd] in *. destruct Hh as [[-> Hn]|[Hhp Hb]].
  2:{ left. exists hp. split; [done|]. apply Z.eqb_neq in Hhp. rewrite Hhp.
      cbn [mbind outcome_bind]. by rewrite Hhp. }
  right. change (NULL =? NULL) with true. cbn iota. destruct hw.
  - left. split; [done|]. pose proof (reset_waiting_spec g (tasks g)) as [Hr Hh].
    destruct (foldl reset_waiting (NULL, g) (tasks g)) as [p g1]. cbn [fst snd] in *.
    destruct Hh as [[_ Hnw]|[Hp Hb]].
    { destruct (proj1 Hw eq_refl) as (q & Hq & Hwq). by destruct (Hnw q Hq). }
    exists p, g1. split; [done|]. split; [done|]. apply Z.eqb_neq in Hp.
    cbn [mbind outcome_bind]. by rewrite Hp.
  - right. assert (forall q, q ∈ tasks g -> ~ waiting g q) as Hnw.
    { intros q Hq Hwq. assert (false = true) as E; [|done]. apply Hw. by exists q. }
    split; [by split; [apply Hn|apply Hnw]|].
    destruct (znth NULL (tasks g) 0 =? NULL) eqn:E0; [done|]. bool_hyps.
    destruct (decide _) as [Hr|Hr]; [|done]. exfalso.
    unfold znth in *. cbn in E0, Hr. destruct (tasks g) as [|t ts]; [done|].
    apply (Hn t); [set_solver|]. by split.
Qed.

(** C9: The scheduler's choice.  A ready task: the first one of highest priority.
    Otherwise, if tasks wait, all of them get a full counter and the first of
    highest priority is taken.  Otherwise no task, the table read at index 0.
    The task taken becomes RUNNING and nothing else changes. *)
Theorem get_next_ready_task_correct g :
  (exists p, first_best (ready g) (prio g) (tasks g) p /\
     get_next_ready_task g = Done (p, set_task_running g p)) \/
  ((forall q, q ∈ tasks g -> ~ ready g q) /\
   exists p g1, first_best (waiting g) (prio g) (tasks g) p /\ refilled_upto (tasks g) g g1 /\
     get_next_ready_task g = Done (p, set_task_running g1 p)) \/
  ((forall q, q ∈ tasks g -> ~ ready g q /\ ~ waiting g q) /\
   get_next_ready_task g =
     if znth NULL (tasks g) 0 =? NULL then Stuck NullDeref else Done (NULL, g)).
Proof. exact (get_next_cases g). Qed.
End Scheduler.

(** ** Creating and cleaning a task *)

Lemma free_index_spec ts i :
  (free_index ts i = -1 /\ NULL ∉ ts) \/
  (exists k, free_index ts i = i + Z.of_nat k /\ ts !! k = Some NULL /\
     forall j q, (j < k)%nat -> ts !! j = Some q -> q <> NULL).
Proof.
  revert i. induction ts as [|p ts IH]; intros i; cbn [free_index].
  - left. split; [done|]. apply not_elem_of_nil.
  - destruct (p =? NULL) eqn:E; bool_hyps.
    + right. exists O. subst p. split; [lia|]. split; [done|]. lia.
    + destruct (IH (i + 1)) as [[-> Hn]|(k & -> & Hk & Hj)]; [left|right].
      * split; [done|]. rewrite not_elem_of_cons. auto.
      * exists (S k). split; [lia|]. split; [done|]. intros [|j] q Hlt Hq; cbn in Hq.
        -- by simplify_eq.
        -- eapply (Hj j); [lia|done].
Qed.

Section Life.
Context {H : Type} `{AllocLaws H}.
Implicit Types (g : task_ctx_t H).

(** The table has [TASK_MAX_NUMS] entries. *)
Definition table_ok g : Prop := length (tasks g) = Z.to_nat TASK_MAX_NUMS.

(** The name that [put_name] leaves in a cleared task. *)
Lemma named_task nm : Z.of_nat (length nm) < 64 ->
  nm ++ 0 :: drop (S (length nm)) (replicate 64 0) = nm ++ replicate (64 - length nm) 0.
Proof.
  intros Hnm. f_equal. rewrite drop_replicate.
  change (0 :: replicate (64 - S (length nm)) 0) with (replicate (S (64 - S (length nm))) 0).
  f_equal. lia.
Qed.

(** The end of [ktask_create], with the three blocks in hand. *)
Lemma store_task g nm f stack_size pr p stk ustk h :
  table_ok g -> task_lock g = 0 -> Z.of_nat (length nm) < 64 ->
  let t := fill_task f stk ustk stack_size pr (get_free_task_index g)
    (Task zero_context (nm ++ replicate (64 - length nm) 0)
       0 0 0 0 0 0 0 0 0 0 0 0 0 TASK_INIT false) in
  let r := add_task (TaskCtx (tasks g) (task_lock g) (<[p := t]> (store g)) h) p in
  ((NULL ∉ tasks g) /\ r = Stuck WildStore) \/
  (exists k g', r = Done g' /\ task_lock g' = 0 /\ heap g' = h /\
     tasks g !! k = Some NULL /\ (forall j q, (j < k)%nat -> tasks g !! j = Some q -> q <> NULL) /\
     tasks g' = <[k := p]> (tasks g) /\ (forall q, q <> p -> deref g' q = deref g q) /\
     deref g' p = Task zero_context (nm ++ replicate (64 - length nm) 0) (Z.of_nat k) f
       (u64 (stk + stack_size)) (u64 (ustk + stack_size)) 24 32 32 stk stack_size ustk stack_size
       (u64 pr) (u64 pr) TASK_READY true).
Proof.
  intros Ht Hl Hnm. unfold get_free_task_index. cbv zeta.
  unfold add_task, lock_tasks. cbn [task_lock]. rewrite Hl. cbn [Z.eqb mbind outcome_bind].
  unfold deref. cbn [with_lock store tasks heap task_lock]. rewrite lookup_insert_eq. cbn [default id fill_task pid].
  destruct (free_index_spec (tasks g) 0) as [[-> Hn]|(k & -> & Hk & Hj)]; [by left|right].
  rewrite Z.add_0_l. pose proof (lookup_lt_Some _ _ _ Hk) as Hlt. rewrite Ht in Hlt.
  unfold TASK_MAX_NUMS in *. rewrite u64_small by lia.
  destruct (Z.of_nat k <? 100) eqn:Ek; bool_hyps; [|lia].
  eexists k, _. split; [done|]. split; [done|]. split; [done|]. split; [done|]. split; [done|].
  split; [|split].
  - cbn [tasks unlock_tasks with_lock]. unfold zset.
    destruct (0 <=? Z.of_nat k) eqn:E0; bool_hyps; [|lia]. by rewrite Nat2Z.id.
  - intros q Hq. cbn. by rewrite lookup_insert_ne by done.
  - cbn [store unlock_tasks with_lock]. rewrite lookup_insert_eq. cbn [default id].
    unfold fill_task. cbn [context name]. by rewrite u64_small by lia.
Qed.

(** [ktask_create] with a name that fits: a task comes out ready, named, with
    full counter, both stacks and a place in the first free slot, or nothing is
    kept of a failed allocation.  A full table makes it store outside it. *)
Theorem ktask_create_correct g nm f stack_size pr :
  table_ok g -> task_lock g = 0 -> Z.of_nat (length nm) < 64 ->
  (exists g', ktask_create g nm f stack_size pr = Done (NULL, g') /\ tasks g' = tasks g /\
     store g' = store g /\ task_lock g' = 0 /\
     forall q k, al_live (heap g') q k <-> al_live (heap g) q k) \/
  ((NULL ∉ tasks g) /\ ktask_create g nm f stack_size pr = Stuck WildStore) \/
  (exists p k g' stk ustk, ktask_create g nm f stack_size pr = Done (p, g') /\
     task_lock g' = 0 /\ p <> NULL /\ (forall n, ~ al_live (heap g) p n) /\
     tasks g !! k = Some NULL /\ (forall j q, (j < k)%nat -> tasks g !! j = Some q -> q <> NULL) /\
     tasks g' = <[k := p]> (tasks g) /\ (forall q, q <> p -> deref g' q = deref g q) /\
     deref g' p = Task zero_context (nm ++ replicate (64 - length nm) 0) (Z.of_nat k) f
       (u64 (stk + stack_size)) (u64 (ustk + stack_size)) 24 32 32 stk stack_size ustk stack_size
       (u64 pr) (u64 pr) TASK_READY true /\
     NoDup [p; stk; ustk] /\
     forall q n, al_live (heap g') q n <->
       al_live (heap g) q n \/ (q, n) ∈ [(p, sizeof_task_t); (stk, stack_size); (ustk, stack_size)]).
Proof.
  intros Ht Hl Hnm. unfold ktask_create.
  destruct (kzalloc (heap g) sizeof_task_t) as [p h1] eqn:E1.
  apply al_kzalloc in E1 as [[-> Hl1]|(Hp & Hnl1 & Hl1)].
  { left. exists (with_heap g h1). done. }
  replace (p =? NULL) with false by (symmetry; apply Z.eqb_neq; unfold NULL; lia).
  destruct (kzalloc h1 stack_size) as [stk h2] eqn:E2.
  apply al_kzalloc in E2 as [[-> Hl2]|(Hs & Hnl2 & Hl2)].
  { left. eexists. split; [done|]. split; [done|]. split; [done|]. split; [done|].
    intros q n. cbn [heap with_heap].
    rewrite (al_kfree_s h2 p _ sizeof_task_t) by (done || (rewrite Hl2, Hl1; by right)).
    rewrite Hl2, Hl1. split; [tauto|]. intros Hq. split; [by left|]. intros ->. by apply (Hnl1 n). }
  replace (stk =? NULL) with false by (symmetry; apply Z.eqb_neq; unfold NULL; lia).
  assert (stk <> p) as Hne1 by (intros ->; eapply Hnl2, Hl1; by right).
  destruct (kzalloc h2 stack_size) as [ustk h3] eqn:E3.
  apply al_kzalloc in E3 as [[-> Hl3]|(Hu & Hnl3 & Hl3)].
  { left. eexists. split; [done|]. split; [done|]. split; [done|]. split; [done|].
    intros q n. cbn [heap with_heap].
    assert (al_live h3 stk stack_size) by (rewrite Hl3, Hl2; by right).
    rewrite (al_kfree_s _ p _ sizeof_task_t); [|by rewrite (al_kfree_s h3 stk _ stack_size), Hl3, Hl2, Hl1 by done; auto|done].
    rewrite (al_kfree_s h3 stk _ stack_size) by done. rewrite Hl3, Hl2, Hl1. split; [tauto|].
    intros Hq. split; [split; [by left; left|]|]; intros ->; [|by apply (Hnl1 n)].
    apply (Hnl2 n). rewrite Hl1. by left. }
  replace (ustk =? NULL) with false by (symmetry; apply Z.eqb_neq; unfold NULL; lia).
  assert (ustk <> p) as Hne2 by (intros ->; eapply Hnl3, Hl2; left; apply Hl1; by right).
  assert (ustk <> stk) as Hne3 by (intros ->; eapply Hnl3, Hl2; by right).
  right. unfold put_name. destruct (Z.of_nat (length nm) <? 64) eqn:E; bool_hyps; [|lia].
  cbn [mbind outcome_bind context name pid function esp0 esp3 cs ss ds stack stack_length user_stack
    user_stack_length counter priority state fisrt_sched zero_task]. rewrite named_task by done.
  destruct (store_task g nm f stack_size pr p stk ustk h3 Ht Hl Hnm)
    as [[Hn Es]|(k & g' & Es & Hlk & Eh & Hk)]; cbv zeta in Es; rewrite Es; [by left|right].
  exists p, k, g', stk, ustk. split; [done|]. split; [done|]. split; [unfold NULL; lia|]. split; [done|].
  destruct Hk as (?&?&?&?&?). do 5 (split; [done|]). split; [repeat constructor; set_solver|].
  intros q n. rewrite Eh, Hl3, Hl2, Hl1, !elem_of_cons, elem_of_nil, !pair_equal_spec. tauto.
Qed.

Lemma task_clean_Done g p g1 :
  task_clean g p = Done g1 ->
  tasks g1 = zset (tasks g) (pid (deref g p)) NULL /\
  forall q, deref g1 q = if decide (q = p) then set_state TASK_DIED (deref g p) else deref g q.
Proof.
  unfold task_clean, lock_tasks. destruct (task_lock g =? 0); [|done]. cbn [mbind outcome_bind].
  assert (forall q, deref (upd (with_lock g 1) p (set_state TASK_DIED)) q =
    if decide (q = p) then set_state TASK_DIED (deref g p) else deref g q) as Hd
    by (intros; by rewrite deref_upd).
  rewrite Hd, decide_True by done. cbn [pid set_state].
  destruct (_ <? _); [|done]. intros [= <-]. split; [done|]. exact Hd.
Qed.

(** [task_clean] empties the task's slot and gives back its kernel stack and
    its own block, but not its user stack. *)
Theorem task_clean_leaks_user_stack g p :
  task_lock g = 0 -> 0 <= pid (deref g p) < TASK_MAX_NUMS -> table_ok g ->
  al_live (heap g) p sizeof_task_t ->
  al_live (heap g) (stack (deref g p)) (stack_length (deref g p)) ->
  al_live (heap g) (user_stack (deref g p)) (user_stack_length (deref g p)) ->
  NoDup [p; stack (deref g p); user_stack (deref g p)] ->
  exists g', task_clean g p = Done g' /\ task_lock g' = 0 /\
    tasks g' = <[Z.to_nat (pid (deref g p)) := NULL]> (tasks g) /\
    state (deref g' p) = TASK_DIED /\
    (forall q, q <> p -> deref g' q = deref g q) /\
    (forall q n, al_live (heap g') q n <-> al_live (heap g) q n /\ q <> p /\ q <> stack (deref g p)) /\
    al_live (heap g') (user_stack (deref g p)) (user_stack_length (deref g p)).
Proof.
  intros Hl Hp Ht Hlp Hls Hlu Hnd. set (t := deref g p) in *.
  apply NoDup_cons in Hnd as [Hn1 Hnd]. apply NoDup_cons in Hnd as [Hn2 _].
  assert (p <> stack t /\ p <> user_stack t /\ stack t <> user_stack t) as (Hd1 & Hd2 & Hd3) by set_solver.
  unfold task_clean, lock_tasks. rewrite Hl. cbn [Z.eqb mbind outcome_bind].
  assert (deref (upd (with_lock g 1) p (set_state TASK_DIED)) p = set_state TASK_DIED t) as ->.
  { rewrite deref_upd. by rewrite decide_True. }
  cbn [pid set_state stack stack_length]. destruct (pid t <? TASK_MAX_NUMS) eqn:E; bool_hyps; [|lia].
  assert (forall q n, al_live (kfree_s (kfree_s (heap g) (stack t) (stack_length t)) p sizeof_task_t) q n <->
    al_live (heap g) q n /\ q <> p /\ q <> stack t) as Hlive.
  { intros q n. rewrite (al_kfree_s _ p _ sizeof_task_t); [|by rewrite (al_kfree_s _ _ _ (stack_length t))|done].
    rewrite (al_kfree_s _ _ _ (stack_length t)) by done. tauto. }
  eexists. split; [done|]. split; [done|]. split; [|split; [|split; [|split]]].
  - cbn. unfold zset. destruct (0 <=? pid t) eqn:E0; bool_hyps; [done|lia].
  - change (state (deref (upd (with_lock g 1) p (set_state TASK_DIED)) p) = TASK_DIED).
    rewrite deref_upd. by rewrite decide_True.
  - intros q Hq. change (deref (upd (with_lock g 1) p (set_state TASK_DIED)) q = deref g q).
    rewrite deref_upd. by rewrite decide_False.
  - exact Hlive.
  - apply Hlive. auto.
Qed.
End Life.

(** ** Witnesses *)

Definition empty_ctx : task_ctx_t (list (Z * Z)) := TaskCtx (replicate 100 NULL) 0 ∅ [].
Definition one_task_ctx : task_ctx_t (list (Z * Z)) :=
  match ktask_create empty_ctx [105; 110] 0x1000 4096 3 with
  | Done (_, g) => g | Stuck _ => empty_ctx end.

Lemma ktask_create_correct_witness :
  exists g', ktask_create empty_ctx [105; 110] 0x1000 4096 3 = Done (1048576, g') /\
    state (deref g' 1048576) = TASK_READY.
Proof.
  destruct (ktask_create_correct empty_ctx [105; 110] 0x1000 4096 3 eq_refl eq_refl ltac:(cbn; lia))
    as [(g' & E & _) | [[_ E] | (p & k & g' & stk & ustk & E & _ & _ & _ & _ & _ & _ & _ & Hd & _)]].
  - vm_compute in E. discriminate.
  - vm_compute in E. discriminate.
  - exists g'. assert (p = 1048576) as ->; [|split; [exact E|by rewrite Hd]].
    vm_compute in E. congruence.
Defined.

Lemma task_clean_leaks_user_stack_witness :
  exists g', task_clean one_task_ctx 1048576 = Done g' /\ al_live (heap g') 1179648 4096.
Proof.
  assert (heap one_task_ctx = [(1179648, 4096); (1114112, 4096); (1048576, 373)]) as Hh by (vm_compute; reflexivity).
  destruct (task_clean_leaks_user_stack one_task_ctx 1048576) as (g' & E & _ & _ & _ & _ & _ & Hu);
    [vm_compute; reflexivity|vm_compute; split; [discriminate|reflexivity]|vm_compute; reflexivity|..].
  - rewrite Hh. split; [set_solver|]. intros k Hk. set_solver.
  - rewrite Hh. change (stack (deref one_task_ctx 1048576)) with 1114112.
    change (stack_length (deref one_task_ctx 1048576)) with 4096. split; [set_solver|]. intros k Hk. set_solver.
  - rewrite Hh. change (user_stack (deref one_task_ctx 1048576)) with 1179648.
    change (user_stack_length (deref one_task_ctx 1048576)) with 4096. split; [set_solver|]. intros k Hk. set_solver.
  - vm_compute. repeat constructor; set_solver.
  - exists g'. split; [exact E|]. exact Hu.
Defined.
