(* ===== verification/LapicTimer.v ===== *)
(** The scheduling interrupts of the 64-bit kernel on several processors:
    lapic_timer_entry and lapic_sched_broadcast_entry of
    x64_kenerl/asm/apic_interrupts.asm, task_exit of asm/sched64.asm, over the
    per-processor block of include/linux/cpu.h.  Each handler holds taskspinlock
    from its first look at the tasks to its last, so it is one step here;
    task_exit does not, and its two halves are also given apart. *)

From S2P Require Import Prelude Alloc Task64.

(** ** State *)

Record kpcr_t := Kpcr {
  cpuid : Z;
  k_esp0 : Z;
  k_esp3 : Z;
  k_stack : Z;
  k_task : Z;
  temp : Z;
  tss_stack : Z
}.

Definition set_k_task (p : Z) (k : kpcr_t) : kpcr_t :=
  Kpcr (cpuid k) (k_esp0 k) (k_esp3 k) (k_stack k) p (temp k) (tss_stack k).
Definition set_k_stack (sp : Z) (k : kpcr_t) : kpcr_t :=
  Kpcr (cpuid k) (k_esp0 k) (k_esp3 k) sp (k_task k) (temp k) (tss_stack k).

Record machine (H : Type) := Machine { ctx : task_ctx_t H; cpus : list kpcr_t }.
Arguments Machine {H}.
Arguments ctx {H}.
Arguments cpus {H}.

Section Handlers.
Context {H : Type} `{AllocOps H}.
Implicit Types (g : task_ctx_t H) (M : machine H).

(** The saved context is 25 quadwords. *)
Definition frame_bytes : Z := 25 * 8.

(** The first dispatch of a task clears its flag. *)
Definition dispatch g (p : Z) : task_ctx_t H :=
  if get_first_sched_flag g p then reset_first_sched_flag g p else g.

Definition set_cpu M (c : nat) (f : kpcr_t -> kpcr_t) g : machine H :=
  Machine g (alter f c (cpus M)).

(** [try_to_switch_task] *)
Definition try_to_switch_task M (c : nat) g : outcome (machine H) :=
  r ← get_next_ready_task g;
  let '(p, g1) := r in
  if p =? NULL then Done (Machine g1 (cpus M))
  else Done (set_cpu M c (set_k_task p) (dispatch (set_task_running g1 p) p)).

(** [lapic_timer_entry] on processor [c], whose context was saved at [rsp];
    [cross] is the mark store_context_to_stack pushes when the interrupt came
    from another privilege level. *)
Definition lapic_timer_entry M (c : nat) (rsp : Z) (cross : bool) : outcome (machine H) :=
  match cpus M !! c with
  | None => Done M
  | Some k =>
      if k_task k =? NULL then try_to_switch_task M c (ctx M)
      else
        let '(n, g1) := decrease_task_couter (ctx M) (k_task k) in
        if 0 <? u64 n then Done (Machine g1 (cpus M))
        else
          let sp := if cross then u64 (get_task_esp0_button g1 (k_task k) + frame_bytes) else rsp in
          let g2 := set_task_esp0 (set_task_waiting g1 (k_task k)) (k_task k) sp in
          try_to_switch_task M c g2
  end.

(** [lapic_sched_broadcast_entry] *)
Definition lapic_sched_broadcast_entry M (c : nat) (rsp : Z) : outcome (machine H) :=
  match cpus M !! c with
  | None => Done M
  | Some k =>
      if k_task k =? NULL then
        r ← get_next_ready_task (ctx M);
        let '(p, g1) := r in
        if p =? NULL then Done (Machine g1 (cpus M))
        else
          Done (set_cpu M c (fun k => set_k_stack rsp (set_k_task p k))
                  (dispatch (set_task_running g1 p) p))
      else Done M
  end.

(** [task_exit] *)
Definition task_exit M (c : nat) : outcome (machine H) :=
  match cpus M !! c with
  | None => Done M
  | Some k =>
      g1 ← task_clean (ctx M) (k_task k);
      let M1 := set_cpu M c (set_k_task NULL) g1 in
      r ← get_next_ready_task g1;
      let '(p, g2) := r in
      if p =? NULL then Done (Machine g2 (cpus M1))
      else Done (set_cpu M1 c (set_k_task p) (dispatch g2 p))
  end.

(** The interrupts as steps of the machine. *)
Inductive kstep : machine H -> machine H -> Prop :=
| step_timer M M' c rsp cross : lapic_timer_entry M c rsp cross = Done M' -> kstep M M'
| step_broadcast M M' c rsp : lapic_sched_broadcast_entry M c rsp = Done M' -> kstep M M'
| step_exit M M' c k : cpus M !! c = Some k -> k_task k <> NULL ->
    task_exit M c = Done M' -> kstep M M'.

(** ** Each task on one processor *)

(** The table entry of a task is its [pid]; the tasks on processors are in the
    table and marked running; no two processors share one. *)
Record sched_ok M : Prop := {
  so_pids : forall i p, tasks (ctx M) !! i = Some p -> p <> NULL ->
    pid (deref (ctx M) p) = Z.of_nat i;
  so_run : forall c k, cpus M !! c = Some k -> k_task k <> NULL ->
    k_task k ∈ tasks (ctx M) /\ state (deref (ctx M) (k_task k)) = TASK_RUNNING;
  so_dist : forall c c' k k', cpus M !! c = Some k -> cpus M !! c' = Some k' -> c <> c' ->
    k_task k <> NULL -> k_task k <> k_task k'
}.

(** [g'] has the same table and the same [pid]s as [g]. *)
Definition same_table g g' : Prop :=
  tasks g' = tasks g /\ forall q, pid (deref g' q) = pid (deref g q).

Lemma same_table_trans g1 g2 g3 : same_table g1 g2 -> same_table g2 g3 -> same_table g1 g3.
Proof. intros [T1 P1] [T2 P2]. split; [congruence|]. intros q. by rewrite P2, P1. Qed.

Lemma same_table_upd g p f : (forall t, pid (f t) = pid t) -> same_table g (upd g p f).
Proof.
  intros Hf. split; [done|]. intros q. rewrite deref_upd.
  destruct (decide (q = p)) as [->|]; [apply Hf|done].
Qed.

Lemma same_table_running g p : same_table g (set_task_running g p).
Proof. by apply (same_table_upd g p (set_state TASK_RUNNING)). Qed.
Lemma same_table_waiting g p : same_table g (set_task_waiting g p).
Proof. by apply (same_table_upd g p (set_state TASK_WAITING)). Qed.
Lemma same_table_esp0 g p e : same_table g (set_task_esp0 g p e).
Proof. by apply (same_table_upd g p (set_esp0 e)). Qed.

Lemma same_table_dispatch g p : same_table g (dispatch g p).
Proof. unfold dispatch. destruct (get_first_sched_flag g p); [by apply same_table_upd|done]. Qed.

Lemma refilled_same_table g g1 : refilled_upto (tasks g) g g1 -> same_table g g1.
Proof.
  intros (Ht & _ & _ & Hd). split; [done|]. intros q. destruct (Hd q) as [H1 H2].
  destruct (decide (q ∈ tasks g /\ waiting g q)) as [Hq|Hq]; [by rewrite H1|by rewrite H2].
Qed.

Lemma state_refilled g g1 q :
  refilled_upto (tasks g) g g1 -> state (deref g q) = TASK_RUNNING ->
  state (deref g1 q) = TASK_RUNNING.
Proof.
  intros (_ & _ & _ & Hd) Hs. destruct (Hd q) as [_ H2]. rewrite H2; [done|].
  intros [_ [_ ?]]. congruence.
Qed.

(** What [get_next_ready_task] gives: nothing, when no task of the table
    waits, or a task of the table that was not running, now marked so. *)
Lemma get_next_running g p g' :
  get_next_ready_task g = Done (p, g') ->
  same_table g g' /\
  (forall q, state (deref g q) = TASK_RUNNING -> state (deref g' q) = TASK_RUNNING /\ q <> p \/ p = NULL /\ g' = g) /\
  (p <> NULL -> p ∈ tasks g /\ state (deref g' p) = TASK_RUNNING) /\
  (p = NULL -> g' = g /\ forall q, q ∈ tasks g -> ~ waiting g q).
Proof.
  intros E. destruct (get_next_cases g)
    as [(p' & Hb & E') | [(_ & p' & g1 & Hb & Hr & E') | (Hno & E')]]; rewrite E' in E.
  - injection E as -> <-. pose proof (first_best_elem _ _ _ _ Hb). destruct Hb as [[Hn Hs] _].
    split; [by apply same_table_upd|]. split; [|split; [|done]].
    + intros q Hq. left. unfold set_task_running. rewrite deref_upd.
      destruct (decide (q = p)) as [->|]; [congruence|done].
    + intros _. split; [done|]. unfold set_task_running. rewrite deref_upd. by rewrite decide_True.
  - injection E as -> <-. pose proof (first_best_elem _ _ _ _ Hb). destruct Hb as [[Hn Hs] _].
    split; [eapply same_table_trans; [by apply refilled_same_table|by apply same_table_upd]|].
    split; [|split; [|done]].
    + intros q Hq. left. unfold set_task_running. rewrite deref_upd.
      destruct (decide (q = p)) as [->|]; [congruence|]. split; [|done]. by eapply state_refilled.
    + intros _. split; [done|]. unfold set_task_running. rewrite deref_upd. by rewrite decide_True.
  - destruct (_ =? NULL); [done|]. injection E as <- <-. split; [done|].
    split; [by right|]. split; [done|]. intros _. split; [done|]. intros q Hq. by apply Hno.
Qed.

Lemma dispatch_state g p q : state (deref (dispatch g p) q) = state (deref g q).
Proof.
  unfold dispatch. destruct (get_first_sched_flag g p); [|done].
  unfold reset_first_sched_flag. rewrite deref_upd. destruct (decide (q = p)) as [->|]; done.
Qed.

Lemma set_running_state g p q :
  state (deref (set_task_running g p) q) = if decide (q = p) then TASK_RUNNING else state (deref g q).
Proof. unfold set_task_running. rewrite deref_upd. by destruct (decide (q = p)). Qed.

(** The tasks of the processors other than [c], in the tasks [g]. *)
Definition others_ok M (c : nat) g : Prop :=
  (forall i p, tasks g !! i = Some p -> p <> NULL -> pid (deref g p) = Z.of_nat i) /\
  (forall c' k', c' <> c -> cpus M !! c' = Some k' -> k_task k' <> NULL ->
     k_task k' ∈ tasks g /\ state (deref g (k_task k')) = TASK_RUNNING) /\
  (forall c1 c2 k1 k2, cpus M !! c1 = Some k1 -> cpus M !! c2 = Some k2 -> c1 <> c2 ->
    k_task k1 <> NULL -> k_task k1 <> k_task k2).

Lemma sched_ok_others M c : sched_ok M -> others_ok M c (ctx M).
Proof. intros [Hp Hr Hd]. split; [done|]. split; [|done]. intros c' k' _. apply Hr. Qed.

Lemma others_ok_same_table M c g g' :
  others_ok M c g -> same_table g g' ->
  (forall c' k', c' <> c -> cpus M !! c' = Some k' -> k_task k' <> NULL ->
     state (deref g' (k_task k')) = TASK_RUNNING) -> others_ok M c g'.
Proof.
  intros (Hp & Hr & Hd) [Ht Hpid] Hs. split; [|split; [|done]].
  - intros i p Hi Hn. rewrite Ht in Hi. rewrite Hpid. by apply Hp.
  - intros c' k' Hc Hk Hn. rewrite Ht. split; [by apply (Hr c' k')|by apply (Hs c' k')].
Qed.

(** Processor [c] is given a task none of the others runs, or none. *)
Lemma sched_ok_set M c k g p f :
  cpus M !! c = Some k -> others_ok M c g -> k_task (f k) = p ->
  (p <> NULL -> p ∈ tasks g /\ state (deref g p) = TASK_RUNNING /\
     forall c' k', c' <> c -> cpus M !! c' = Some k' -> k_task k' <> p) ->
  sched_ok (set_cpu M c f g).
Proof.
  intros Hc (Hpid & Hr & Hd) Hf Hp.
  assert (forall c' k', alter f c (cpus M) !! c' = Some k' ->
    (c' = c /\ k_task k' = p) \/ (c' <> c /\ cpus M !! c' = Some k')) as Hl.
  { intros c' k' Hk. destruct (decide (c' = c)) as [->|Hne].
    - rewrite list_lookup_alter_eq, Hc in Hk. cbn in Hk. left. split; [done|]. congruence.
    - rewrite list_lookup_alter_ne in Hk by done. by right. }
  split; unfold set_cpu; cbn [ctx cpus]; [done|..].
  - intros c' k' Hk Hn. destruct (Hl c' k' Hk) as [[-> E]|[Hne Hk']].
    + rewrite E in *. by destruct (Hp Hn) as (? & ? & _).
    + by apply (Hr c').
  - intros c1 c2 k1 k2 H1 H2 Hne Hn1.
    destruct (Hl c1 k1 H1) as [[-> E1]|[Hc1 Hk1]], (Hl c2 k2 H2) as [[-> E2]|[Hc2 Hk2]].
    + done.
    + rewrite E1 in *. destruct (Hp Hn1) as (_ & _ & Hx). apply not_eq_sym. by eapply Hx.
    + rewrite E2. destruct (decide (p = NULL)) as [->|Hpn]; [done|].
      destruct (Hp Hpn) as (_ & _ & Hx). by eapply Hx.
    + by eapply (Hd c1 c2).
Qed.

(** The common tail of the handlers: a task is chosen for [c] and dispatched. *)
Lemma switch_ok M c k g p g1 f :
  cpus M !! c = Some k -> others_ok M c g -> get_next_ready_task g = Done (p, g1) ->
  p <> NULL -> k_task (f k) = p ->
  sched_ok (set_cpu M c f (dispatch (set_task_running g1 p) p)) /\
  sched_ok (set_cpu M c f (dispatch g1 p)).
Proof.
  intros Hc Ho E Hp Hf. destruct (get_next_running g p g1 E) as (Hst & Hrun & Hsel & _).
  destruct (Hsel Hp) as [Hin Hs]. pose proof Ho as (_ & Hr & _).
  assert (forall c' k', c' <> c -> cpus M !! c' = Some k' -> k_task k' <> NULL ->
    k_task k' <> p /\ state (deref g1 (k_task k')) = TASK_RUNNING) as Hoth.
  { intros c' k' Hne Hk Hn. destruct (Hr c' k' Hne Hk Hn) as [_ Hsk].
    destruct (Hrun _ Hsk) as [[? ?]|[? _]]; done. }
  assert (forall g2, same_table g1 g2 -> (forall q, state (deref g1 q) = TASK_RUNNING ->
    state (deref g2 q) = TASK_RUNNING) -> sched_ok (set_cpu M c f g2)) as Hgen.
  { intros g2 Hst2 Hs2. pose proof (same_table_trans _ _ _ Hst Hst2) as Hst3.
    eapply sched_ok_set; [done| |done|].
    - eapply others_ok_same_table; [exact Ho|done|]. intros c' k' Hne Hk Hn. by apply Hs2, (Hoth c' k').
    - intros _. destruct Hst3 as [-> _]. split; [done|]. split; [by apply Hs2|].
      intros c' k' Hne Hk. destruct (decide (k_task k' = NULL)) as [E0|Hn]; [congruence|].
      by apply (Hoth c' k'). }
  split; apply Hgen.
  - eapply same_table_trans; [apply same_table_running|apply same_table_dispatch].
  - intros q Hq. rewrite dispatch_state, set_running_state. by destruct (decide (q = p)).
  - apply same_table_dispatch.
  - intros q Hq. by rewrite dispatch_state.
Qed.

Lemma timer_ok M M' c rsp cross :
  sched_ok M -> lapic_timer_entry M c rsp cross = Done M' -> sched_ok M'.
Proof.
  intros HM. unfold lapic_timer_entry. destruct (cpus M !! c) as [k|] eqn:Hc; [|by intros [= <-]].
  assert (forall g, others_ok M c g -> forall M', try_to_switch_task M c g = Done M' ->
    (k_task k <> NULL -> waiting g (k_task k) /\ k_task k ∈ tasks g) -> sched_ok M') as Hswitch.
  { clear M'. intros g Ho M' E Hw. unfold try_to_switch_task in E.
    apply outcome_bind_Done in E as ([p g1] & E1 & E2).
    destruct (p =? NULL) eqn:Ep; bool_hyps; injection E2 as <-.
    - subst p. destruct (get_next_running g NULL g1 E1) as (_ & _ & _ & Hno).
      destruct (Hno eq_refl) as [-> Hnw].
      destruct (decide (k_task k = NULL)) as [E0|Hn].
      + replace (Machine g (cpus M)) with (set_cpu M c id g).
        2:{ unfold set_cpu. f_equal. apply list_alter_id. done. }
        by eapply sched_ok_set.
      + destruct (Hw Hn) as [Hwk Hin]. by destruct (Hnw _ Hin).
    - eapply (switch_ok M c k g p g1); done. }
  destruct (k_task k =? NULL) eqn:Ek; bool_hyps.
  { intros E. eapply Hswitch; [by apply sched_ok_others|done|done]. }
  destruct (decrease_task_couter (ctx M) (k_task k)) as [n g1] eqn:Ed.
  assert (same_table (ctx M) g1 /\ forall q, state (deref g1 q) = state (deref (ctx M) q)) as [Hst Hs1].
  { unfold decrease_task_couter in Ed. injection Ed as _ <-. split; [by apply same_table_upd|].
    intros q. rewrite deref_upd. by destruct (decide (q = k_task k)) as [->|]. }
  pose proof (so_run _ HM c k Hc Ek) as [Hin Hsk].
  destruct (0 <? u64 n) eqn:En; bool_hyps.
  { intros [= <-]. replace (Machine g1 (cpus M)) with (set_cpu M c id g1).
    2:{ unfold set_cpu. f_equal. apply list_alter_id. done. }
    eapply sched_ok_set; [done| |done|].
    - eapply others_ok_same_table; [by apply sched_ok_others|done|].
      intros c' k' Hne Hk Hn. rewrite Hs1. by apply (so_run _ HM c').
    - intros _. destruct Hst as [-> _]. rewrite Hs1. split; [done|]. split; [done|].
      intros c' k' Hne Hk E. by apply (so_dist _ HM c c' k k'). }
  set (g2 := set_task_esp0 _ _ _). intros E.
  assert (same_table (ctx M) g2) as Hst2.
  { eapply same_table_trans; [exact Hst|]. eapply same_table_trans; [apply same_table_waiting|apply same_table_esp0]. }
  assert (forall q, state (deref g2 q) = if decide (q = k_task k) then TASK_WAITING else state (deref g1 q)) as Hs2.
  { intros q. unfold g2, set_task_esp0, set_task_waiting. rewrite !deref_upd.
    destruct (decide (q = k_task k)) as [->|]; [|done]. by rewrite decide_True. }
  eapply Hswitch; [|exact E|].
  - eapply others_ok_same_table; [by apply sched_ok_others|done|].
    intros c' k' Hne Hk Hn. rewrite Hs2, decide_False, Hs1.
    + by apply (so_run _ HM c').
    + intros Eq. by apply (so_dist _ HM c c' k k').
  - intros _. destruct Hst2 as [-> _]. split; [|done]. split; [done|]. by rewrite Hs2, decide_True.
Qed.

Lemma broadcast_ok M M' c rsp :
  sched_ok M -> lapic_sched_broadcast_entry M c rsp = Done M' -> sched_ok M'.
Proof.
  intros HM. unfold lapic_sched_broadcast_entry.
  destruct (cpus M !! c) as [k|] eqn:Hc; [|by intros [= <-]].
  destruct (k_task k =? NULL) eqn:Ek; bool_hyps; [|by intros [= <-]].
  intros E. apply outcome_bind_Done in E as ([p g1] & E1 & E2).
  destruct (p =? NULL) eqn:Ep; bool_hyps; injection E2 as <-.
  - subst p. destruct (get_next_running _ NULL g1 E1) as (_ & _ & _ & Hno).
    destruct (Hno eq_refl) as [-> _]. by destruct M.
  - eapply (switch_ok M c k (ctx M) p g1); try done. by apply sched_ok_others.
Qed.

(** [task_clean] on the task of [c]: its slot is emptied, nothing else moves. *)
Lemma task_clean_others M c k g1 :
  sched_ok M -> cpus M !! c = Some k -> k_task k <> NULL ->
  task_clean (ctx M) (k_task k) = Done g1 -> others_ok M c g1.
Proof.
  intros HM Hc Hk E. destruct (task_clean_Done _ _ _ E) as [Ht Hd].
  destruct (so_run _ HM c k Hc Hk) as [Hin _].
  apply list_elem_of_lookup in Hin as [i Hi]. pose proof (so_pids _ HM i _ Hi Hk) as Hpid.
  pose proof (lookup_lt_Some _ _ _ Hi) as Hlt.
  assert (forall j, tasks g1 !! j = if decide (j = i) then Some NULL else tasks (ctx M) !! j) as Htl.
  { intros j. rewrite Ht, Hpid, zset_lookup by lia. by rewrite Nat2Z.id. }
  assert (forall q, pid (deref g1 q) = pid (deref (ctx M) q)) as Hp.
  { intros q. rewrite Hd. by destruct (decide (q = k_task k)) as [->|]. }
  split; [|split; [|apply HM]].
  - intros j p Hj Hpn. rewrite Htl in Hj. rewrite Hp. destruct (decide (j = i)); [congruence|].
    by apply (so_pids _ HM).
  - intros c' k' Hne Hk' Hn. destruct (so_run _ HM c' k' Hk' Hn) as [Hin' Hs].
    assert (k_task k' <> k_task k) as Hx by (by apply (so_dist _ HM c' c)).
    split; [|by rewrite Hd, decide_False].
    apply list_elem_of_lookup in Hin' as [j Hj]. apply list_elem_of_lookup. exists j.
    rewrite Htl, decide_False; [done|]. intros ->. congruence.
Qed.

Lemma exit_ok M M' c k :
  sched_ok M -> cpus M !! c = Some k -> k_task k <> NULL -> task_exit M c = Done M' -> sched_ok M'.
Proof.
  intros HM Hc Hk. unfold task_exit. rewrite Hc. intros E.
  apply outcome_bind_Done in E as (g1 & E1 & E).
  apply outcome_bind_Done in E as ([p g2] & E2 & E).
  pose proof (task_clean_others M c k g1 HM Hc Hk E1) as Ho.
  assert (sched_ok (set_cpu M c (set_k_task NULL) g1)) as HM1 by (by eapply sched_ok_set).
  destruct (p =? NULL) eqn:Ep; bool_hyps; injection E as <-.
  - subst p. destruct (get_next_running _ NULL g2 E2) as (_ & _ & _ & Hno).
    destruct (Hno eq_refl) as [-> _]. exact HM1.
  - eapply (switch_ok (set_cpu M c (set_k_task NULL) g1) c (set_k_task NULL k) g1 p g2); try done.
    + cbn. by rewrite list_lookup_alter_eq, Hc.
    + apply (sched_ok_others _ c HM1).
Qed.

(** C5: However the interrupts interleave, no task is ever on two processors, and
    a task on a processor is in the table, marked running. *)
Theorem no_task_on_two_cpus M M' :
  sched_ok M -> rtc kstep M M' -> sched_ok M'.
Proof.
  intros HM Hr. induction Hr as [|M M1 M2 Hs _ IH]; [done|]. apply IH.
  destruct Hs as [M M' c rsp cross E|M M' c rsp E|M M' c k Hc Hk E].
  - by eapply timer_ok.
  - by eapply broadcast_ok.
  - by eapply exit_ok.
Qed.

(** A processor whose task used up its time never goes idle: it gets a task,
    the old one being among the candidates. *)
Theorem timer_switches M c k rsp cross :
  sched_ok M -> cpus M !! c = Some k -> k_task k <> NULL ->
  counter (deref (ctx M) (k_task k)) = 1 ->
  exists M' k', lapic_timer_entry M c rsp cross = Done M' /\ cpus M' !! c = Some k' /\
    k_task k' ∈ tasks (ctx M) /\ k_task k' <> NULL /\
    state (deref (ctx M') (k_task k')) = TASK_RUNNING.
Proof.
  intros HM Hc Hk Hcnt. unfold lapic_timer_entry. rewrite Hc.
  apply Z.eqb_neq in Hk as Hk0. rewrite Hk0.
  unfold decrease_task_couter. rewrite deref_upd, decide_True by done.
  cbn [counter set_counter]. rewrite Hcnt. change (u64 (s64 (u64 (1 - 1)))) with 0.
  change (0 <? 0) with false. cbn iota. set (g1 := upd _ _ _). set (g2 := set_task_esp0 _ _ _).
  destruct (so_run _ HM c k Hc Hk) as [Hin _].
  assert (tasks g2 = tasks (ctx M)) as Ht by done.
  assert (waiting g2 (k_task k)) as Hw.
  { split; [done|]. unfold g2, set_task_esp0, set_task_waiting. rewrite !deref_upd.
    by rewrite !decide_True. }
  unfold try_to_switch_task. assert (exists p g', get_next_ready_task g2 = Done (p, g')) as (p & g' & E).
  { destruct (get_next_cases g2) as [(p & _ & ->)|[(_ & p & g' & _ & _ & ->)|(Hno & _)]]; [eauto..|].
    by destruct (Hno (k_task k)) as [_ []]. }
  rewrite E. cbn [mbind outcome_bind]. destruct (get_next_running _ _ _ E) as (_ & _ & Hs & Hno).
  destruct (decide (p = NULL)) as [->|Hp].
  { destruct (Hno eq_refl) as [_ Hn]. by destruct (Hn (k_task k)). }
  destruct (Hs Hp) as [Hpin Hps]. apply Z.eqb_neq in Hp as Hp0. rewrite Hp0.
  eexists _, (set_k_task p k). split; [done|].
  split; [cbn; by rewrite list_lookup_alter_eq, Hc|]. split; [by rewrite <- Ht|].
  split; [done|]. cbn [ctx set_cpu k_task set_k_task].
  rewrite dispatch_state, set_running_state. by destruct (decide (p = p)).
Qed.

(** ** The race in task_exit *)

(** [task_exit] calls [get_next_ready_task] without taskspinlock.  Its reading
    part, which stores to nothing while some task is ready, and its writing
    part on processor [c]. *)
Definition exit_scan g : Z := fst (foldl (scan_ready g) (NULL, false) (tasks g)).
Definition exit_take M (c : nat) (p : Z) : machine H :=
  set_cpu M c (set_k_task p) (dispatch (set_task_running (ctx M) p) p).

(** The two parts in a row are what [task_exit] does after [task_clean]. *)
Lemma exit_scan_take M c :
  exit_scan (ctx M) <> NULL ->
  (r ← get_next_ready_task (ctx M);
   let '(p, g2) := r in
   if p =? NULL then Done (Machine g2 (cpus M))
   else Done (set_cpu M c (set_k_task p) (dispatch g2 p))) =
  Done (exit_take M c (exit_scan (ctx M))).
Proof.
  unfold exit_scan, get_next_ready_task. destruct (foldl _ _ _) as [p hw]. cbn [fst]. intros Hp.
  apply Z.eqb_neq in Hp. rewrite Hp. cbn [mbind outcome_bind]. rewrite Hp.
  cbn [mbind outcome_bind]. by rewrite Hp.
Qed.

(** Two processors that leave their tasks together both scan before either
    marks: they run the same task. *)
Theorem task_exit_race M c c' k k' :
  c <> c' -> cpus M !! c = Some k -> cpus M !! c' = Some k' ->
  exit_scan (ctx M) <> NULL ->
  let p := exit_scan (ctx M) in
  let M2 := exit_take (exit_take M c p) c' p in
  ~ sched_ok M2 /\ exists k1 k2, cpus M2 !! c = Some k1 /\ cpus M2 !! c' = Some k2 /\
    k_task k1 = p /\ k_task k2 = p.
Proof.
  intros Hne Hc Hc' Hp p M2.
  assert (cpus M2 !! c = Some (set_k_task p k)) as H1.
  { cbn. rewrite list_lookup_alter_ne, list_lookup_alter_eq by done. by rewrite Hc. }
  assert (cpus M2 !! c' = Some (set_k_task p k')) as H2.
  { cbn. rewrite list_lookup_alter_eq, list_lookup_alter_ne by done. by rewrite Hc'. }
  split; [|by exists (set_k_task p k), (set_k_task p k')].
  intros HM. by apply (so_dist _ HM c c' _ _ H1 H2 Hne).
Qed.
End Handlers.

(** ** Witnesses *)

Definition demo_create (nm : list Z) (g : task_ctx_t (list (Z * Z))) : task_ctx_t (list (Z * Z)) :=
  match ktask_create g nm 0x1000 4096 1 with Done (_, g') => g' | Stuck _ => g end.
(** Two tasks, two idle processors. *)
Definition demo_machine : machine (list (Z * Z)) :=
  Machine (demo_create [98] (demo_create [97] empty_ctx))
    [Kpcr 0 0 0 0 NULL 0 0; Kpcr 1 0 0 0 NULL 0 0].

Lemma demo_machine_ok : sched_ok demo_machine.
Proof.
  split.
  - intros i p Hi Hp.
    assert (forallb (fun '(i, p) => (p =? NULL) || (pid (deref (ctx demo_machine) p) =? Z.of_nat i))%bool
      (imap (fun i p => (i, p)) (tasks (ctx demo_machine))) = true) as Hall by (vm_compute; reflexivity).
    rewrite forallb_forall in Hall. specialize (Hall (i, p)).
    assert (In (i, p) (imap (fun i p => (i, p)) (tasks (ctx demo_machine)))) as Hin.
    { apply list_elem_of_In, list_elem_of_lookup. exists i. by rewrite list_lookup_imap, Hi. }
    specialize (Hall Hin). apply orb_true_iff in Hall as [E|E]; bool_hyps; done.
  - intros [|[|c]] k Hk Hn; cbn in Hk; simplify_eq; by destruct Hn.
  - intros [|[|c]] c' k k' Hk Hk' Hne Hn; cbn in Hk; simplify_eq; by destruct Hn.
Qed.

(** One timer interrupt on each processor. *)
Definition demo_after : machine (list (Z * Z)) :=
  match (M ← lapic_timer_entry demo_machine 0 4096 false; lapic_timer_entry M 1 8192 false) with
  | Done M => M | Stuck _ => demo_machine end.

Lemma demo_after_steps : rtc kstep demo_machine demo_after.
Proof.
  destruct (lapic_timer_entry demo_machine 0 4096 false) as [M1|e] eqn:E1; [|vm_compute in E1; discriminate].
  eapply rtc_l; [eapply step_timer; exact E1|]. apply rtc_once, (step_timer _ _ 1 8192 false).
  unfold demo_after. rewrite E1. cbn [mbind outcome_bind].
  destruct (lapic_timer_entry M1 1 8192 false) as [M2|e] eqn:E2; [reflexivity|].
  apply (f_equal (fun o => match o with Done M => lapic_timer_entry M 1 8192 false | Stuck e => Stuck e end)) in E1.
  rewrite E2 in E1. vm_compute in E1. discriminate.
Qed.

Lemma no_task_on_two_cpus_witness :
  sched_ok demo_after /\ map k_task (cpus demo_after) = [1048576; 1245184].
Proof.
  split; [|vm_compute; reflexivity].
  apply (no_task_on_two_cpus demo_machine demo_after demo_machine_ok demo_after_steps).
Defined.

Lemma demo_after_ok : sched_ok demo_after.
Proof.
  destruct (lapic_timer_entry demo_machine 0 4096 false) as [M1|e] eqn:E1; [|vm_compute in E1; discriminate].
  pose proof (timer_ok _ _ _ _ _ demo_machine_ok E1) as H1.
  unfold demo_after. rewrite E1. cbn [mbind outcome_bind].
  destruct (lapic_timer_entry M1 1 8192 false) as [M2|e] eqn:E2; [|apply demo_machine_ok].
  exact (timer_ok _ _ _ _ _ H1 E2).
Qed.

Lemma timer_switches_witness :
  exists M' k', lapic_timer_entry demo_after 0 12288 false = Done M' /\ cpus M' !! 0%nat = Some k' /\
    k_task k' <> NULL.
Proof.
  destruct (timer_switches demo_after 0 (Kpcr 0 0 0 0 1048576 0 0) 12288 false demo_after_ok)
    as (M' & k' & E & Hk & _ & Hn & _); [vm_compute; reflexivity|discriminate|vm_compute; reflexivity|].
  exists M', k'. split; [exact E|]. split; [exact Hk|exact Hn].
Defined.

Lemma task_exit_race_witness :
  ~ sched_ok (exit_take (exit_take demo_machine 0 1048576) 1 1048576).
Proof.
  refine (proj1 (task_exit_race demo_machine 0 1 (Kpcr 0 0 0 0 NULL 0 0) (Kpcr 1 0 0 0 NULL 0 0)
    _ _ _ _)); vm_compute; congruence || reflexivity.
Defined.
