(* ===== verification/Vsprintf.v ===== *)
(** Formatted output: vsprintf.c, the same file in both kernels
    (x64_kenerl/libs, x86_kernel/kernel), over the two va_arg macros of
    x64_kenerl/include/libs/stdarg.h and x86_kernel/include/lib/stdarg.h.  The
    format is the list of its bytes before the terminator, the output the list
    of bytes stored from [buf] on; strings and the targets of %n are in memory. *)

From S2P Require Import Prelude Mem CString.
#[local] Open Scope kernel_scope.

(** ** Characters *)

Definition ch_plus : Z := 43.
Definition ch_minus : Z := 45.
Definition ch_space : Z := 32.
Definition ch_hash : Z := 35.
Definition ch_0 : Z := 48.
Definition ch_star : Z := 42.
Definition ch_dot : Z := 46.
Definition ch_percent : Z := 37.

Definition is_digit (c : Z) : bool := (48 <=? c) && (c <=? 57).

Definition ZEROPAD : Z := 1.
Definition SIGN : Z := 2.
Definition PLUS : Z := 4.
Definition SPACE : Z := 8.
Definition LEFT : Z := 16.
Definition SPECIAL : Z := 32.
Definition SMALL : Z := 64.
Definition has (type_ flag : Z) : bool := truthy (type_ .& flag).

(** [skip_atoi]: the digits at the head of the text, as an [int]. *)
Fixpoint skip_atoi (s : list Z) (i : Z) : Z * list Z :=
  match s with
  | c :: s' => if is_digit c then skip_atoi s' (s32 (i * 10 + c - 48)) else (i, s)
  | [] => (i, [])
  end.

(** ** number *)

(** [digits\[d\]] for the two alphabets. *)
Definition digit (small : bool) (d : Z) : Z :=
  if d <? 10 then 48 + d else if small then 97 + (d - 10) else 65 + (d - 10).

(** [while(num != 0) tmp\[i++\] = digits\[do_div(num, base)\];] with the
    unsigned 32-bit [div]; the last digit comes first. *)
Fixpoint digits_loop (fuel : nat) (small : bool) (num base : Z) : list Z :=
  match fuel with
  | O => []
  | S f => if num =? 0 then [] else digit small (num mod base) :: digits_loop f small (num / base) base
  end.

(** [while(size-- > 0) *str++ = c;]: the characters and the size left. *)
Definition emit_while (size c : Z) : list Z * Z :=
  (replicate (Z.to_nat size) c, if 0 <? size then -1 else size - 1).

(** [number]: the characters it appends, [None] for the null result of a bad
    base.  32 rounds bring any 32-bit number to 0. *)
Definition number (num base size precision type_ : Z) : option (list Z) :=
  let small := has type_ SMALL in
  let type1 := if has type_ LEFT then type_ .& Z.lnot ZEROPAD else type_ in
  if (base <? 2) || (36 <? base) then None
  else
    let c := if has type1 ZEROPAD then ch_0 else ch_space in
    let neg := has type1 SIGN && (num <? 0) in
    let num1 := if neg then s32 (- num) else num in
    let sign := if neg then ch_minus
                else if has type1 PLUS then ch_plus else if has type1 SPACE then ch_space else 0 in
    let size1 := if truthy sign then size - 1 else size in
    let size2 := if has type1 SPECIAL then
                   if base =? 16 then size1 - 2 else if base =? 8 then size1 - 1 else size1
                 else size1 in
    let tmp := if num1 =? 0 then [ch_0] else digits_loop 32 small (u32 num1) base in
    let i := Z.of_nat (length tmp) in
    let precision1 := if precision <? i then i else precision in
    let size3 := size2 - precision1 in
    let '(lead, size4) := if negb (has type1 (ZEROPAD + LEFT)) then emit_while size3 ch_space
                          else ([], size3) in
    let signs := if truthy sign then [sign] else [] in
    let prefix := if has type1 SPECIAL then
                    if base =? 8 then [ch_0]
                    else if base =? 16 then [ch_0; digit small 33] else []
                  else [] in
    let '(pad, size5) := if negb (has type1 LEFT) then emit_while size4 c else ([], size4) in
    let zeros := replicate (Z.to_nat (precision1 - i)) ch_0 in
    let '(trail, _) := emit_while size5 ch_space in
    Some (lead ++ signs ++ prefix ++ pad ++ zeros ++ rev tmp ++ trail).

(** ** Arguments *)

(** The argument area: the slots after the format, and the next one. *)
Record va_list := VaList { slots : nat -> Z; ap : nat }.

(** How [va_arg] moves: the x64 macro steps over the slot it reads. *)
Definition va_arg_x64 (a : va_list) : Z * va_list := (slots a (ap a), VaList (slots a) (S (ap a))).
(** The x86 macro adds [max(sizeof(t), 4) - sizeof(va_list)], which is 0 for
    every type [vsprintf] reads. *)
Definition DELIVER_TYPE_SIZE (s : Z) : Z := if s <? 4 then 4 else s.
Definition va_arg_x86 (a : va_list) : Z * va_list :=
  (slots a (ap a), VaList (slots a) (ap a + Z.to_nat ((DELIVER_TYPE_SIZE 4 - 4) / 4))).

Section Vsprintf.
Context (va_arg : va_list -> Z * va_list).

(** What the conversions read and write. *)
Record fstate := FState { out : list Z; args : va_list; fmem : mem }.

Definition emit (s : fstate) (cs : list Z) : fstate := FState (out s ++ cs) (args s) (fmem s).
Definition with_args (s : fstate) (a : va_list) : fstate := FState (out s) a (fmem s).

(** The [repeat] label: the flags at the head of the text. *)
Fixpoint flags_loop (fmt : list Z) (flags : Z) : Z * list Z :=
  match fmt with
  | c :: rest =>
      if c =? ch_minus then flags_loop rest (flags .| LEFT)
      else if c =? ch_plus then flags_loop rest (flags .| PLUS)
      else if c =? ch_space then flags_loop rest (flags .| SPACE)
      else if c =? ch_hash then flags_loop rest (flags .| SPECIAL)
      else if c =? ch_0 then flags_loop rest (flags .| ZEROPAD)
      else (flags, fmt)
  | [] => (flags, [])
  end.

(** The field width: a [*] reads an argument but is not stepped over. *)
Definition get_width (fmt : list Z) (flags : Z) (a : va_list) : Z * Z * list Z * va_list :=
  match fmt with
  | c :: rest =>
      if is_digit c then let '(w, fmt') := skip_atoi fmt 0 in (w, flags, fmt', a)
      else if c =? ch_star then
        let '(v, a') := va_arg a in
        let w := s32 v in
        if w <? 0 then (s32 (- w), flags .| LEFT, fmt, a') else (w, flags, fmt, a')
      else (-1, flags, fmt, a)
  | [] => (-1, flags, fmt, a)
  end.

Definition get_precision (fmt : list Z) (a : va_list) : Z * list Z * va_list :=
  match fmt with
  | c :: rest =>
      if c =? ch_dot then
        let '(p, fmt', a') :=
          match rest with
          | d :: _ =>
              if is_digit d then let '(p, f) := skip_atoi rest 0 in (p, f, a)
              else if d =? ch_star then let '(v, a1) := va_arg a in (s32 v, rest, a1)
              else (-1, rest, a)
          | [] => (-1, rest, a)
          end in
        (if p <? 0 then 0 else p, fmt', a')
      else (-1, fmt, a)
  | [] => (-1, fmt, a)
  end.

(** ['h'], ['l'], ['L'] are stepped over and ignored. *)
Definition skip_qualifier (fmt : list Z) : list Z :=
  match fmt with
  | c :: rest => if (c =? 104) || (c =? 108) || (c =? 76) then rest else fmt
  | [] => []
  end.

(** A call of [number] with the next argument, converted to its [int]. *)
Definition conv_number (s : fstate) (base width precision flags : Z) : option fstate :=
  let '(v, a) := va_arg (args s) in
  cs ← number (s32 v) base width precision flags;
  Some (emit (with_args s a) cs).

(** [%c]: both loops run while [--field_width > 0]. *)
Definition conv_char (s : fstate) (width flags : Z) : fstate :=
  let '(v, a) := va_arg (args s) in
  let pad := replicate (Z.to_nat (width - 1)) ch_space in
  emit (with_args s a) (if has flags LEFT then u8 v :: pad else pad ++ [u8 v]).

(** [%s] *)
Definition conv_string (sfuel : nat) (s : fstate) (width precision flags : Z) : option fstate :=
  let '(v, a) := va_arg (args s) in
  n ← strlen sfuel (fmem s) v;
  let len := if precision <? 0 then n else if precision <? n then precision else n in
  let pad := replicate (Z.to_nat (width - len)) ch_space in
  let text := bytes_at (fmem s) v (Z.to_nat len) in
  Some (emit (with_args s a) (if has flags LEFT then text ++ pad else pad ++ text)).

(** The conversion character at the head of the text, and what is left of it. *)
Definition convert (sfuel : nat) (s : fstate) (fmt : list Z) (width precision flags : Z)
  : option (fstate * list Z) :=
  match fmt with
  | [] => Some (emit s [ch_percent], [])
  | c :: rest =>
      s' ←
        (if c =? 99 then Some (conv_char s width flags)
         else if c =? 115 then conv_string sfuel s width precision flags
         else if c =? 111 then conv_number s 8 width precision flags
         else if c =? 112 then
           if width =? -1 then conv_number s 16 8 precision (flags .| ZEROPAD)
           else conv_number s 16 width precision flags
         else if c =? 120 then conv_number s 16 width precision (flags .| SMALL)
         else if c =? 88 then conv_number s 16 width precision flags
         else if (c =? 100) || (c =? 105) then conv_number s 10 width precision (flags .| SIGN)
         else if c =? 117 then conv_number s 10 width precision flags
         else if c =? 110 then
           let '(v, a) := va_arg (args s) in
           Some (FState (out s) a (st32 (fmem s) v (Z.of_nat (length (out s)))))
         else Some (emit s (if c =? ch_percent then [c] else [ch_percent; c])));
      Some (s', rest)
  end.

(** The main loop; each round takes at least one byte of the format. *)
Fixpoint vsprintf_loop (fuel sfuel : nat) (s : fstate) (fmt : list Z) : option fstate :=
  match fuel with
  | O => None
  | S f =>
      match fmt with
      | [] => Some s
      | c :: rest =>
          if negb (c =? ch_percent) then vsprintf_loop f sfuel (emit s [c]) rest
          else
            let '(flags, fmt1) := flags_loop rest 0 in
            let '(width, flags', fmt2, a1) := get_width fmt1 flags (args s) in
            let '(precision, fmt3, a2) := get_precision fmt2 a1 in
            let fmt4 := skip_qualifier fmt3 in
            '(s', fmt5) ← convert sfuel (with_args s a2) fmt4 width precision flags';
            vsprintf_loop f sfuel s' fmt5
      end
  end.

(** [vsprintf(buf, fmt, args)]: the bytes written before the terminator, the
    memory (changed by %n) and the count returned. *)
Definition vsprintf (sfuel : nat) (m : mem) (fmt : list Z) (a : va_list)
  : option (list Z * mem * Z) :=
  s ← vsprintf_loop (S (length fmt)) sfuel (FState [] a m) fmt;
  Some (out s, fmem s, Z.of_nat (length (out s))).
End Vsprintf.

(** Each kernel has its own copy of the file, over its own [va_arg]. *)
Definition x64_vsprintf := vsprintf va_arg_x64.
Definition x86_skip_atoi := skip_atoi.
Definition x86_number := number.
Definition x86_vsprintf := vsprintf va_arg_x86.

(** ** Digits *)

(** The value of digits in a base, the first one lowest. *)
Fixpoint digits_value (base : Z) (ds : list Z) : Z :=
  match ds with [] => 0 | d :: ds' => d + base * digits_value base ds' end.

Lemma digits_loop_length fuel small num base : (length (digits_loop fuel small num base) <= fuel)%nat.
Proof.
  revert num. induction fuel as [|f IH]; intros num; cbn [digits_loop]; [cbn; lia|].
  destruct (num =? 0); cbn [length]; [lia|]. specialize (IH (num / base)). lia.
Qed.

(** Enough rounds give every digit. *)
Lemma digits_loop_value fuel small num base :
  2 <= base -> 0 <= num < base ^ Z.of_nat fuel ->
  exists ds, digits_loop fuel small num base = digit small <$> ds /\
    digits_value base ds = num /\ Forall (fun d => 0 <= d < base) ds.
Proof.
  intros Hb. revert num. induction fuel as [|f IH]; intros num Hn; cbn [digits_loop].
  - exists []. cbn in Hn. split; [done|]. split; [cbn; lia|done].
  - destruct (num =? 0) eqn:E; bool_hyps; [by exists []|].
    rewrite Nat2Z.inj_succ, Z.pow_succ_r in Hn by lia.
    destruct (IH (num / base)) as (ds & -> & Hv & Hf).
    { split; [apply Z.div_pos; lia|]. apply Z.div_lt_upper_bound; lia. }
    exists (num mod base :: ds). split; [done|]. cbn [digits_value]. rewrite Hv.
    split; [pose proof (Z.div_mod num base); lia|].
    constructor; [apply Z.mod_pos_bound; lia|done].
Qed.

Lemma s32_eq x y : u32 x = u32 y -> s32 x = s32 y.
Proof. unfold s32. by intros ->. Qed.

Lemma skip_atoi_app ds rest i :
  Forall (fun d => 0 <= d < 10) ds ->
  (match rest with c :: _ => is_digit c = false | [] => True end) ->
  skip_atoi ((digit false <$> rev ds) ++ rest) (s32 i) =
    (s32 (i * 10 ^ Z.of_nat (length ds) + digits_value 10 ds), rest).
Proof.
  intros Hf Hr. revert i. induction ds as [|d ds IH] using rev_ind; intros i.
  - cbn [rev fmap list_fmap app length digits_value]. rewrite Z.mul_1_r, Z.add_0_r.
    destruct rest as [|c rest]; [done|]. cbn [skip_atoi app]. by rewrite Hr.
  - apply Forall_app in Hf as [Hf Hd]. apply Forall_cons in Hd as [Hd _].
    rewrite rev_app_distr. cbn [rev app fmap list_fmap]. cbn [skip_atoi].
    assert (digit false d = 48 + d) as ->.
    { unfold digit. destruct (d <? 10) eqn:E; bool_hyps; [done|lia]. }
    replace (is_digit (48 + d)) with true
      by (symmetry; unfold is_digit; apply andb_true_iff; split; apply Z.leb_le; lia).
    replace (s32 (s32 i * 10 + (48 + d) - 48)) with (s32 (i * 10 + d)).
    2:{ apply s32_eq. unfold u32. replace (s32 i * 10 + (48 + d) - 48) with (s32 i * 10 + d) by lia.
        rewrite <- (Zplus_mod_idemp_l (s32 i * 10)), <- (Zmult_mod_idemp_l (s32 i)).
        change (s32 i mod 4294967296) with (u32 (s32 i)). rewrite u32_s32. unfold u32.
        by rewrite Zmult_mod_idemp_l, Zplus_mod_idemp_l. }
    change (list_fmap Z Z (digit false) (rev ds)) with (digit false <$> rev ds). rewrite (IH Hf).
    f_equal. f_equal. rewrite length_app. cbn [length].
    replace (Z.of_nat (length ds + 1)) with (Z.succ (Z.of_nat (length ds))) by lia.
    rewrite Z.pow_succ_r by lia.
    assert (forall l x, digits_value 10 (l ++ [x]) = digits_value 10 l + 10 ^ Z.of_nat (length l) * x) as ->.
    { clear. induction l as [|y l IH]; intros x; cbn [app digits_value length].
      - change (10 ^ Z.of_nat 0) with 1. lia.
      - rewrite IH. replace (Z.of_nat (S (length l))) with (Z.succ (Z.of_nat (length l))) by lia.
        rewrite Z.pow_succ_r by lia. lia. }
    lia.
Qed.

(** The digits of [number]'s buffer for a non-negative or wrapped number. *)
Definition number_tmp (small : bool) (num base : Z) : list Z :=
  if num =? 0 then [ch_0] else digits_loop 32 small (u32 num) base.

Lemma pow_fits base : 2 <= base -> 4294967296 <= base ^ Z.of_nat 32.
Proof.
  intros Hb. change 4294967296 with (2 ^ Z.of_nat 32). apply Z.pow_le_mono_l. lia.
Qed.

Lemma number_tmp_value small num base :
  2 <= base -> exists ds, number_tmp small num base = digit small <$> ds /\
    digits_value base ds = u32 num /\ Forall (fun d => 0 <= d < base) ds.
Proof.
  intros Hb. unfold number_tmp. destruct (num =? 0) eqn:E; bool_hyps.
  - subst num. exists [0]. split; [done|]. split; [change (u32 0) with 0; cbn [digits_value]; lia|]. repeat constructor; lia.
  - apply digits_loop_value; [done|]. pose proof (pow_fits base Hb). pose proof (u32_bound num). lia.
Qed.

Lemma number_tmp_length small num base : (length (number_tmp small num base) <= 32)%nat.
Proof. unfold number_tmp. destruct (num =? 0); [cbn; lia|apply digits_loop_length]. Qed.

(** ** number *)

(** What [number] prints before the digits: the sign and the base mark. *)
Definition number_sign (num type_ : Z) : list Z :=
  if has type_ SIGN && (num <? 0) then [ch_minus]
  else if has type_ PLUS then [ch_plus] else if has type_ SPACE then [ch_space] else [].
Definition number_mark (base type_ : Z) : list Z :=
  if has type_ SPECIAL then
    if base =? 8 then [ch_0] else if base =? 16 then [ch_0; digit (has type_ SMALL) 33] else []
  else [].
Definition number_abs (num type_ : Z) : Z :=
  if has type_ SIGN && (num <? 0) then s32 (- num) else num.

Lemma has_clear_zeropad type_ flag :
  Z.land ZEROPAD flag = 0 -> has (type_ .& Z.lnot ZEROPAD) flag = has type_ flag.
Proof.
  intros Hf. unfold has. f_equal. rewrite <- Z.land_assoc. f_equal.
  apply Z.bits_inj'. intros n Hn. rewrite Z.land_spec, Z.lnot_spec by done.
  apply (f_equal (fun z => Z.testbit z n)) in Hf. rewrite Z.land_spec, Z.testbit_0_l in Hf.
  destruct (Z.testbit ZEROPAD n), (Z.testbit flag n); done.
Qed.

(** [number] as the parts it prints.  The padding is before the sign, between
    the mark and the digits, or at the end. *)
Definition number_text (num base size precision type_ : Z) : list Z :=
  let ds := number_tmp (has type_ SMALL) (number_abs num type_) base in
  let i := Z.of_nat (length ds) in
  let sign := number_sign num type_ in
  let mark := number_mark base type_ in
  let zeros := replicate (Z.to_nat (precision - i)) ch_0 in
  let pad := Z.to_nat (size - Z.of_nat (length sign + length mark) - Z.max precision i) in
  if has type_ LEFT then sign ++ mark ++ zeros ++ rev ds ++ replicate pad ch_space
  else if has type_ ZEROPAD then sign ++ mark ++ replicate pad ch_0 ++ zeros ++ rev ds
  else replicate pad ch_space ++ sign ++ mark ++ zeros ++ rev ds.

Lemma has_lor x a b : has x (a .| b) = (has x a || has x b)%bool.
Proof.
  unfold has, truthy. rewrite Z.land_lor_distr_r, <- negb_andb. f_equal.
  apply eq_true_iff_eq. rewrite andb_true_iff, !Z.eqb_eq. apply Z.lor_eq_0_iff.
Qed.

Lemma emit_neg size c : size < 0 -> fst (emit_while size c) = [] /\ snd (emit_while size c) < 0.
Proof.
  intros Hs. unfold emit_while. cbn. replace (Z.to_nat size) with O by lia.
  split; [done|]. destruct (0 <? size) eqn:E; bool_hyps; lia.
Qed.

Lemma emit_snd size c : snd (emit_while size c) < 0.
Proof. unfold emit_while. cbn. destruct (0 <? size) eqn:E; bool_hyps; lia. Qed.

(** What is left of the flags once LEFT has cleared ZEROPAD. *)
Lemma left_flags type_ :
  let type1 := if has type_ LEFT then type_ .& Z.lnot ZEROPAD else type_ in
  (forall flag, Z.land ZEROPAD flag = 0 -> has type1 flag = has type_ flag) /\
  has type1 ZEROPAD = (negb (has type_ LEFT) && has type_ ZEROPAD)%bool /\
  has type1 (ZEROPAD + LEFT) = (has type_ LEFT || has type_ ZEROPAD)%bool.
Proof.
  intros type1.
  assert (forall flag, Z.land ZEROPAD flag = 0 -> has type1 flag = has type_ flag) as Ht.
  { intros flag Hf. unfold type1. destruct (has type_ LEFT); [by apply has_clear_zeropad|done]. }
  assert (has type1 ZEROPAD = negb (has type_ LEFT) && has type_ ZEROPAD)%bool as Hz.
  { unfold type1. destruct (has type_ LEFT); [|done]. unfold has. rewrite <- Z.land_assoc.
    change (Z.lnot ZEROPAD .& ZEROPAD) with 0. by rewrite Z.land_0_r. }
  split; [done|]. split; [done|]. change (ZEROPAD + LEFT) with (ZEROPAD .| LEFT).
  rewrite has_lor, Hz, (Ht LEFT) by done. by destruct (has type_ LEFT), (has type_ ZEROPAD).
Qed.

(** The sign is one character or none. *)
Lemma sign_width (neg plus space : bool) :
  let sign := if neg then ch_minus else if plus then ch_plus else if space then ch_space else 0 in
  let text := if neg then [ch_minus] else if plus then [ch_plus] else if space then [ch_space] else [] in
  (forall s, (if truthy sign then s - 1 else s) = s - Z.of_nat (length text)) /\
  (if truthy sign then [sign] else []) = text.
Proof. destruct neg, plus, space; split; (reflexivity || intros s; cbv -[Z.sub]; lia). Qed.

Lemma mark_width base type_ s :
  (if has type_ SPECIAL then if base =? 16 then s - 2 else if base =? 8 then s - 1 else s else s) =
  s - Z.of_nat (length (number_mark base type_)).
Proof.
  unfold number_mark. destruct (has type_ SPECIAL); [|cbn; lia].
  destruct (base =? 16) eqn:E16, (base =? 8) eqn:E8; bool_hyps; cbn; lia.
Qed.

Lemma number_eq num base size precision type_ :
  2 <= base <= 36 -> number num base size precision type_ = Some (number_text num base size precision type_).
Proof.
  intros Hb. unfold number.
  replace ((base <? 2) || (36 <? base))%bool with false
    by (symmetry; apply orb_false_iff; split; apply Z.ltb_ge; lia).
  destruct (left_flags type_) as (Ht & Hz & Hzl). cbv zeta in Ht, Hz, Hzl.
  set (type1 := if has type_ LEFT then type_ .& Z.lnot ZEROPAD else type_) in *.
  rewrite (Ht SIGN), (Ht PLUS), (Ht SPACE), (Ht SPECIAL), (Ht LEFT), Hz, Hzl by done.
  fold (number_abs num type_). fold (number_tmp (has type_ SMALL) (number_abs num type_) base).
  unfold number_text. set (ds := number_tmp _ _ _). set (i := Z.of_nat (length ds)).
  destruct (sign_width (has type_ SIGN && (num <? 0)) (has type_ PLUS) (has type_ SPACE)) as [Esz Esg].
  cbv zeta in Esz, Esg. fold (number_sign num type_) in Esz, Esg.
  cbv zeta. rewrite Esz, Esg, mark_width. fold (number_mark base type_).
  replace (if precision <? i then i else precision) with (Z.max precision i)
    by (destruct (precision <? i) eqn:E; bool_hyps; lia).
  replace (Z.to_nat (Z.max precision i - i)) with (Z.to_nat (precision - i)) by lia.
  set (sz := size - _ - _ - _).
  replace (Z.to_nat (size - Z.of_nat (length (number_sign num type_) + length (number_mark base type_)) -
    Z.max precision i)) with (Z.to_nat sz) by (unfold sz; lia).
  pose proof (emit_snd sz ch_space) as Hs1. pose proof (emit_snd sz ch_0) as Hs2.
  destruct (has type_ LEFT) eqn:EL, (has type_ ZEROPAD) eqn:EZ; cbn [negb orb andb].
  - reflexivity.
  - reflexivity.
  - destruct (emit_while sz ch_0) as [l s1] eqn:E. cbn [snd] in Hs2.
    destruct (emit_neg s1 ch_space Hs2) as [En _]. destruct (emit_while s1 ch_space) as [l2 s2].
    cbn [fst] in En. subst l2. injection E as <- _. by rewrite app_nil_l, !app_nil_r.
  - destruct (emit_while sz ch_space) as [l s1] eqn:E. cbn [snd] in Hs1.
    destruct (emit_neg s1 ch_space Hs1) as [En Hn]. destruct (emit_while s1 ch_space) as [l2 s2].
    cbn [fst snd] in En, Hn. subst l2.
    destruct (emit_neg s2 ch_space Hn) as [En _]. destruct (emit_while s2 ch_space) as [l3 s3].
    cbn [fst] in En. subst l3. injection E as <- _. by rewrite !app_nil_r.
Qed.

(** C25: [number] prints the sign, the base mark, the digits of the number in the
    base and the padding: in all the field width when that is larger.  Its
    36-byte buffer never overflows. *)
Theorem number_correct num base size precision type_ :
  2 <= base <= 36 ->
  exists ds, number num base size precision type_ = Some (number_text num base size precision type_) /\
    number_tmp (has type_ SMALL) (number_abs num type_) base = digit (has type_ SMALL) <$> ds /\
    digits_value base ds = u32 (number_abs num type_) /\ (length ds <= 36)%nat /\
    Z.of_nat (length (number_text num base size precision type_)) =
      Z.max size (Z.of_nat (length (number_sign num type_) + length (number_mark base type_)) +
        Z.max precision (Z.of_nat (length ds))).
Proof.
  intros Hb.
  destruct (number_tmp_value (has type_ SMALL) (number_abs num type_) base ltac:(lia))
    as (ds & E & Hv & _). exists ds.
  pose proof (number_tmp_length (has type_ SMALL) (number_abs num type_) base) as Hl.
  split; [by apply number_eq|]. split; [done|]. split; [done|].
  rewrite E, length_fmap in Hl. split; [lia|].
  unfold number_text. rewrite E, length_fmap. clear E Hv.
  destruct (has type_ LEFT), (has type_ ZEROPAD);
    rewrite !length_app, !length_replicate, length_rev, length_fmap; lia.
Qed.

Lemma number_correct_witness :
  number (-42) 10 6 (-1) SIGN = Some [32; 32; 32; 45; 52; 50] /\
  Z.of_nat (length (number_text (-42) 10 6 (-1) SIGN)) = 6.
Proof.
  destruct (number_correct (-42) 10 6 (-1) SIGN ltac:(lia)) as (ds & E & _ & _ & _ & _).
  split; [rewrite E; vm_compute; reflexivity|vm_compute; reflexivity].
Defined.

(** C30: What [%d] prints is read back by [skip_atoi]: a sign for a negative number
    and the digits of its absolute value. *)
Theorem number_skip_atoi num :
  -2147483648 <= num < 2147483648 ->
  exists ds, number num 10 (-1) (-1) SIGN = Some ((if num <? 0 then [ch_minus] else []) ++ ds) /\
    skip_atoi ds 0 = (s32 (Z.abs num), []) /\ Forall (fun c => is_digit c = true) ds.
Proof.
  intros Hn. set (t := number_tmp (has SIGN SMALL) (number_abs num SIGN) 10). exists (rev t).
  destruct (number_tmp_value (has SIGN SMALL) (number_abs num SIGN) 10 ltac:(lia)) as (ds & E & Hv & Hf).
  fold t in E. split; [|split].
  - rewrite number_eq by lia. f_equal. unfold number_text. fold t.
    change (has SIGN LEFT) with false. change (has SIGN ZEROPAD) with false. cbn iota.
    assert (number_sign num SIGN = if num <? 0 then [ch_minus] else []) as ->.
    { unfold number_sign. change (has SIGN SIGN) with true. change (has SIGN PLUS) with false.
      change (has SIGN SPACE) with false. by destruct (num <? 0). }
    change (number_mark 10 SIGN) with (@nil Z).
    replace (Z.to_nat (-1 - Z.of_nat (length t))) with O by lia.
    replace (Z.to_nat (-1 - _ - _)) with O by lia. cbn [replicate app]. done.
  - rewrite E. replace (rev (digit (has SIGN SMALL) <$> ds)) with (digit (has SIGN SMALL) <$> rev ds)
      by apply map_rev. change (skip_atoi (digit (has SIGN SMALL) <$> rev ds) (s32 0) = (s32 (Z.abs num), [])).
    rewrite <- (app_nil_r (_ <$> _)). change (has SIGN SMALL) with false. rewrite skip_atoi_app by done.
    rewrite Z.mul_0_l, Z.add_0_l, Hv. f_equal. unfold number_abs. change (has SIGN SIGN) with true.
    apply s32_eq. rewrite u32_idem. destruct (num <? 0) eqn:E0; bool_hyps; cbn [andb].
    + rewrite u32_s32. f_equal. lia.
    + f_equal. lia.
  - rewrite E. apply Forall_rev, Forall_fmap. eapply Forall_impl; [exact Hf|]. cbn. intros d Hd.
    unfold digit. destruct (d <? 10) eqn:E0; bool_hyps; [|lia].
    unfold is_digit. apply andb_true_iff. split; apply Z.leb_le; lia.
Qed.

Lemma number_skip_atoi_witness : skip_atoi [52; 50] 0 = (42, []).
Proof.
  destruct (number_skip_atoi 42 ltac:(lia)) as (ds & E & Hs & _).
  vm_compute in E. injection E as <-. exact Hs.
Defined.

(** ** The main loop *)


Section Total.
Context (va_arg : va_list -> Z * va_list).








(** Text without conversions is copied. *)
Lemma vsprintf_literal fuel sfuel s fmt :
  (length fmt < fuel)%nat -> ch_percent ∉ fmt ->
  vsprintf_loop va_arg fuel sfuel s fmt = Some (emit s fmt).
Proof.
  revert s fmt. induction fuel as [|f IH]; intros s fmt Hf Hn; [lia|].
  destruct fmt as [|c rest]; cbn [vsprintf_loop].
  - unfold emit. rewrite app_nil_r. by destruct s.
  - apply not_elem_of_cons in Hn as [Hc Hn]. cbn [length] in Hf.
    destruct (c =? ch_percent) eqn:E; bool_hyps; [by destruct Hc|]. cbn [negb].
    rewrite IH by (lia || done). unfold emit. cbn. by rewrite <- app_assoc.
Qed.
End Total.


(** ** The two argument macros *)

Definition percent_d : list Z := [37; 100].

(** "%d %d": the 64-bit kernel prints its two arguments, the 32-bit one prints
    the first argument twice. *)
Theorem va_arg_x86_does_not_advance sfuel m (sl : nat -> Z) x y :
  number (s32 (sl 0%nat)) 10 (-1) (-1) SIGN = Some x ->
  number (s32 (sl 1%nat)) 10 (-1) (-1) SIGN = Some y ->
  (cs ← vsprintf va_arg_x64 sfuel m (percent_d ++ [ch_space] ++ percent_d) (VaList sl 0);
   Some (fst (fst cs))) = Some (x ++ [ch_space] ++ y) /\
  (cs ← vsprintf va_arg_x86 sfuel m (percent_d ++ [ch_space] ++ percent_d) (VaList sl 0);
   Some (fst (fst cs))) = Some (x ++ [ch_space] ++ x).
Proof.
  intros Hx Hy. unfold percent_d, vsprintf.
  change va_arg_x86 with (fun a => (slots a (ap a), VaList (slots a) (ap a + 0))).
  split; cbn -[number]; unfold conv_number, va_arg_x64; cbn -[number];
    change (0 .| SIGN) with SIGN; rewrite Hx; cbn -[number];
    change (0 .| SIGN) with SIGN; rewrite ?Hx, ?Hy; cbn; by rewrite <- !app_assoc.
Qed.

Lemma va_arg_x86_does_not_advance_witness :
  vsprintf va_arg_x86 0 ∅ [37; 100; 32; 37; 100] (VaList (fun i => if decide (i = 0%nat) then 1 else 2) 0) =
  Some ([49; 32; 49], ∅, 3).
Proof.
  destruct (va_arg_x86_does_not_advance 0 ∅ (fun i => if decide (i = 0%nat) then 1 else 2) [49] [50])
    as [_ E]; [vm_compute; reflexivity..|]. vm_compute. reflexivity.
Defined.
