(* ===== verification/Printk.v ===== *)
(** The users of vsprintf: x64_kenerl/kernel/printk.c, driver/serial.c and
    components/logger/logger.c, x86_kernel/kernel/printk.c and lib/stdio.c.
    What they print is the list of bytes handed to the device. *)

From Stdlib Require Ascii String.
From S2P Require Import Prelude Mem CString Vsprintf.
#[local] Open Scope kernel_scope.

(** The bytes of a string literal. *)
Definition bytes (s : string) : list Z := (fun c => Z.of_N (Ascii.N_of_ascii c)) <$> String.list_ascii_of_string s.

(** ** The serial port *)

Definition SERIAL_PORT : Z := 0x3F8.

(** The port writes of [init_serial], in order. *)
Definition init_serial : list (Z * Z) :=
  [(SERIAL_PORT + 1, 0x00); (SERIAL_PORT + 3, 0x80); (SERIAL_PORT + 0, 0x03);
   (SERIAL_PORT + 1, 0x00); (SERIAL_PORT + 3, 0x03); (SERIAL_PORT + 2, 0xC7);
   (SERIAL_PORT + 4, 0x0B)].

(** The status register is read from the device: [lsr] lists its successive
    values, one per read of port SERIAL_PORT + 5. *)
Definition serial_received (lsr : Z) : Z := lsr .& 1.
Definition is_transmit_empty (lsr : Z) : Z := lsr .& 0x20.

(** [while (is_transmit_empty() == 0); outByte(SERIAL_PORT, a);]: the write and
    the readings left, [None] while the device never gets ready. *)
Fixpoint write_serial (lsr : list Z) (a : Z) : option ((Z * Z) * list Z) :=
  match lsr with
  | [] => None
  | v :: rest => if is_transmit_empty v =? 0 then write_serial rest a
                 else Some ((SERIAL_PORT, u8 a), rest)
  end.

Fixpoint read_serial (lsr : list Z) (data : Z) : option (Z * list Z) :=
  match lsr with
  | [] => None
  | v :: rest => if serial_received v =? 0 then read_serial rest data else Some (s8 data, rest)
  end.

(** [serial_printk] over the first [count] bytes at [str]. *)
Fixpoint serial_loop (lsr : list Z) (cs : list Z) : option (list (Z * Z)) :=
  match cs with
  | [] => Some []
  | c :: cs' =>
      '(w, lsr') ← write_serial lsr c;
      ws ← serial_loop lsr' cs';
      Some (w :: ws)
  end.
Definition serial_printk (lsr : list Z) (m : mem) (str count : Z) : option (list (Z * Z)) :=
  serial_loop lsr (bytes_at m str (Z.to_nat (u32 count))).

(** [data_out] of printk.c *)
Definition data_out := serial_printk.

(** A device that is always ready gets the bytes in order. *)
Lemma serial_loop_ready lsr cs :
  Forall (fun v => is_transmit_empty v <> 0) lsr -> (length cs <= length lsr)%nat ->
  serial_loop lsr cs = Some ((fun c => (SERIAL_PORT, u8 c)) <$> cs).
Proof.
  revert lsr. induction cs as [|c cs IH]; intros lsr Hr Hl; cbn [serial_loop]; [done|].
  destruct lsr as [|v lsr]; cbn in Hl; [lia|]. apply Forall_cons in Hr as [Hv Hr].
  cbn [write_serial]. apply Z.eqb_neq in Hv as ->. cbn [mbind option_bind].
  rewrite IH by (done || lia). done.
Qed.

(** ** printk *)

(** [va_num]: the percent signs of a format. *)
Fixpoint va_num (format : list Z) : Z :=
  match format with
  | [] => 0
  | p :: rest => (if p =? ch_percent then 1 else 0) + va_num rest
  end.

Definition slots_of (vs : list Z) : nat -> Z := fun i => default 0 (vs !! i).

(** [printk] of the 64-bit kernel: asm/prink.asm (see [PrintAsm]) gathers the arguments into
    8-byte slots and hands the buffer to [data_out]. *)
Definition printk (sfuel : nat) (m : mem) (fmt : list Z) (vs : list Z) : option (list Z) :=
  '(cs, _, _) ← vsprintf va_arg_x64 sfuel m fmt (VaList (slots_of vs) 0); Some cs.

(** [printk] and [printf] of the 32-bit kernel *)
Definition x86_printk (sfuel : nat) (m : mem) (fmt : list Z) (vs : list Z) : option (list Z * Z) :=
  '(cs, _, n) ← vsprintf va_arg_x86 sfuel m fmt (VaList (slots_of vs) 0); Some (cs, n).
Definition STDOUT_FILENO : Z := 1.
(** The bytes go to [write(STDOUT_FILENO, buf, i)]. *)
Definition x86_printf (sfuel : nat) (m : mem) (fmt : list Z) (vs : list Z)
  : option ((Z * list Z) * Z) :=
  '(cs, n) ← x86_printk sfuel m fmt vs; Some ((STDOUT_FILENO, cs), n).

(** A run of calls, their output in a row. *)
Definition print_all (os : list (option (list Z))) : option (list Z) :=
  foldr (fun o acc => x ← o; r ← acc; Some (x ++ r)) (Some []) os.

Definition print_mem (sfuel : nat) (m : mem) (addr size str : Z) : option (list Z) :=
  print_all
    ((fst <$> x86_printk sfuel m (bytes "%s [") [str]) ::
     ((fun b => fst <$> x86_printk sfuel m (bytes "%02x ") [b]) <$> bytes_at m addr (Z.to_nat size)) ++
     [fst <$> x86_printk sfuel m (bytes "]." ++ [10]) []]).

(** ** logger.c *)

Definition print_hex (sfuel : nat) (m : mem) (buf len : Z) : option (list Z) :=
  if len =? 0 then Some []
  else print_all
    (((fun b => printk sfuel m (bytes "%.2x") [b]) <$> bytes_at m buf (Z.to_nat len)) ++
     [printk sfuel m (bytes " %d." ++ [10]) [len]]).

(** The [u64] array at [buf]. *)
Fixpoint qwords_at (m : mem) (a : Z) (n : nat) : list Z :=
  match n with O => [] | S n' => ld64 m a :: qwords_at m (a + 8) n' end.

Definition print_hex_qword (sfuel : nat) (m : mem) (buf len : Z) : option (list Z) :=
  if len =? 0 then Some []
  else print_all
    (((fun q => printk sfuel m (bytes "0x%.16x ") [q]) <$> qwords_at m buf (Z.to_nat len)) ++
     [printk sfuel m (bytes " %d." ++ [10]) [len]]).

(** [memcpy(str, buf, len)] into 100 zeroed bytes, with no bound on [len]:
    [None] when it runs over the array.  The string printed ends at the first
    zero byte. *)
Fixpoint until_zero (l : list Z) : list Z :=
  match l with
  | [] => []
  | c :: l' => if c =? EOS then [] else c :: until_zero l'
  end.
Definition local_string (m : mem) (buf len : Z) : option (list Z) :=
  if u32 len <? 100 then
    Some (until_zero (bytes_at m buf (Z.to_nat (u32 len))))
  else None.

Definition print_nstring_label (m : mem) (buf len : Z) (label : list Z) : option (list Z) :=
  if len =? 0 then Some []
  else cs ← local_string m buf len; Some (bytes "[" ++ label ++ bytes "]:" ++ cs ++ bytes "." ++ [10]).

Definition print_nstring (m : mem) (buf len : Z) : option (list Z) :=
  if len =? 0 then Some []
  else cs ← local_string m buf len; Some (cs ++ bytes "." ++ [10]).

(** ** print_hex_qword shows 32 bits *)

Lemma printk_qword sfuel m q :
  printk sfuel m (bytes "0x%.16x ") [q] = printk sfuel m (bytes "0x%.16x ") [u32 q].
Proof.
  unfold printk, vsprintf. change (bytes "0x%.16x ") with [48; 120; 37; 46; 49; 54; 120; 32].
  cbn -[number]. unfold conv_number, va_arg_x64, slots_of. cbn -[number].
  replace (s32 (u32 q)) with (s32 q); [done|]. apply s32_eq. by rewrite u32_idem.
Qed.

Lemma print_all_ext (f g : Z -> option (list Z)) l tl :
  (forall x, f x = g x) -> print_all ((f <$> l) ++ tl) = print_all ((g <$> l) ++ tl).
Proof.
  intros E. induction l as [|x l IH]; [done|]. cbn. rewrite E. unfold print_all in IH. cbn in IH.
  by rewrite IH.
Qed.

(** Two arrays of quadwords with the same low halves print alike: the 16
    digits shown never include the high half of a word. *)
Theorem print_hex_qword_drops_high_half sfuel m buf buf' len :
  u32 <$> qwords_at m buf (Z.to_nat len) = u32 <$> qwords_at m buf' (Z.to_nat len) ->
  print_hex_qword sfuel m buf len = print_hex_qword sfuel m buf' len.
Proof.
  intros E. unfold print_hex_qword. destruct (len =? 0); [done|].
  assert (forall a, print_all (((fun q => printk sfuel m (bytes "0x%.16x ") [q]) <$> qwords_at m a (Z.to_nat len)) ++
    [printk sfuel m (bytes " %d." ++ [10]) [len]]) =
    print_all (((fun q => printk sfuel m (bytes "0x%.16x ") [q]) <$> (u32 <$> qwords_at m a (Z.to_nat len))) ++
    [printk sfuel m (bytes " %d." ++ [10]) [len]])) as Hu.
  { intros a. rewrite <- list_fmap_compose. apply print_all_ext. intros x. apply printk_qword. }
  by rewrite !Hu, E.
Qed.

Lemma print_hex_qword_drops_high_half_witness :
  let m := st64 (st64 ∅ 0x1000 0x100000005) 0x2000 5 in
  print_hex_qword 1 m 0x1000 1 = print_hex_qword 1 m 0x2000 1.
Proof.
  intros m. apply (print_hex_qword_drops_high_half 1 m 0x1000 0x2000 1). vm_compute. reflexivity.
Defined.
