(* ===== verification/Asm.v ===== *)
(** The processor as the assembly files of x64_kenerl/asm use it: the general and
    segment registers, the two GS bases, RFLAGS, RIP and memory; one function per
    kind of instruction, and the lemmas that read a stack as a list of words. *)

From stdpp Require Import functions.
From S2P Require Import Prelude Mem.
#[local] Open Scope kernel_scope.

(** ** State *)

Inductive reg := RAX | RBX | RCX | RDX | RSI | RDI | RBP | RSP | R8 | R9 | R10 | R11 | R12 | R13 | R14 | R15.
Inductive sreg := CS | DS | ES | SS | FS | GS.
#[export] Instance reg_eq_dec : EqDecision reg.
Proof. solve_decision. Defined.
#[export] Instance sreg_eq_dec : EqDecision sreg.
Proof. solve_decision. Defined.

Record core := Core {
  reg_of : reg -> Z;
  sreg_of : sreg -> Z;
  gs_base : Z;
  kernel_gs_base : Z;
  rflags : Z;
  rip : Z;
  cmem : mem
}.

(** ** Instructions *)

Definition set_reg (r : reg) (v : Z) (c : core) : core :=
  Core (<[r := u64 v]> (reg_of c)) (sreg_of c) (gs_base c) (kernel_gs_base c) (rflags c) (rip c) (cmem c).
Definition set_sreg (r : sreg) (v : Z) (c : core) : core :=
  Core (reg_of c) (<[r := u16 v]> (sreg_of c)) (gs_base c) (kernel_gs_base c) (rflags c) (rip c) (cmem c).
Definition set_mem (m : mem) (c : core) : core :=
  Core (reg_of c) (sreg_of c) (gs_base c) (kernel_gs_base c) (rflags c) (rip c) m.
Definition set_rip (a : Z) (c : core) : core :=
  Core (reg_of c) (sreg_of c) (gs_base c) (kernel_gs_base c) (rflags c) a (cmem c).
Definition set_rflags (f : Z) (c : core) : core :=
  Core (reg_of c) (sreg_of c) (gs_base c) (kernel_gs_base c) f (rip c) (cmem c).

Definition rsp (c : core) : Z := reg_of c RSP.
(** Registers moved and loaded, words stored. *)
Definition mov (d s : reg) (c : core) : core := set_reg d (reg_of c s) c.
Definition mov_from_sreg (d : reg) (s : sreg) (c : core) : core := set_reg d (sreg_of c s) c.
Definition mov_to_sreg (d : sreg) (s : reg) (c : core) : core := set_sreg d (reg_of c s) c.
Definition load (d : reg) (a : Z) (c : core) : core := set_reg d (ld64 (cmem c) (u64 a)) c.
Definition store (a v : Z) (c : core) : core := set_mem (st64 (cmem c) (u64 a) v) c.

Definition push (v : Z) (c : core) : core :=
  let c := set_reg RSP (rsp c - 8) c in
  set_mem (st64 (cmem c) (rsp c) v) c.
Definition push_reg (r : reg) (c : core) : core := push (reg_of c r) c.
(** The word popped goes to the register when the stack pointer has moved. *)
Definition top (c : core) : Z := ld64 (cmem c) (rsp c).
Definition drop_top (c : core) : core := set_reg RSP (rsp c + 8) c.
Definition pop (r : reg) (c : core) : core := set_reg r (top c) (drop_top c).

(** [call] with the address of the instruction behind it, and [ret]. *)
Definition call (ra target : Z) (c : core) : core := set_rip target (push ra c).
Definition ret (c : core) : core := set_rip (top c) (drop_top c).
Definition swapgs (c : core) : core :=
  Core (reg_of c) (sreg_of c) (kernel_gs_base c) (gs_base c) (rflags c) (rip c) (cmem c).

(** ** Words on a stack *)

(** The words at consecutive addresses, all below 2^64. *)
Fixpoint words_at (m : mem) (a : Z) (ws : list Z) : Prop :=
  match ws with
  | [] => True
  | w :: ws' => ld64 m a = w /\ words_at m (a + 8) ws'
  end.
Definition stack_is (c : core) (ws : list Z) : Prop :=
  words_at (cmem c) (rsp c) ws /\ 0 <= rsp c /\ rsp c + 8 * Z.of_nat (length ws) < 18446744073709551616.

(** Registers hold what they can hold. *)
Record core_ok (c : core) : Prop := {
  ok_regs : forall r, 0 <= reg_of c r < 18446744073709551616;
  ok_sregs : forall r, 0 <= sreg_of c r < 65536
}.

(** ** Lemmas *)

(** Words copied byte by byte. *)
Lemma words_at_copy m m' a b ws :
  (forall i, 0 <= i < 8 * Z.of_nat (length ws) -> ld8 m' (b + i) = ld8 m (a + i)) -> words_at m a ws -> words_at m' b ws.
Proof.
  revert a b. induction ws as [|w ws IH]; intros a b H; cbn [words_at length] in *; [done|]. intros [<- Hw]. split.
  - apply ldn_shift. intros i Hi. apply H. lia.
  - apply (IH (a + 8)); [|done]. intros i Hi. replace (b + 8 + i) with (b + (8 + i)) by lia. rewrite H by lia. f_equal. lia.
Qed.

Lemma words_at_agree m m' a ws :
  (forall x, a <= x < a + 8 * Z.of_nat (length ws) -> ld8 m' x = ld8 m x) -> words_at m a ws -> words_at m' a ws.
Proof. intros H. apply words_at_copy. intros i Hi. apply H. lia. Qed.

Lemma words_at_app m a ws1 ws2 :
  words_at m a (ws1 ++ ws2) <-> words_at m a ws1 /\ words_at m (a + 8 * Z.of_nat (length ws1)) ws2.
Proof.
  revert a. induction ws1 as [|w ws1 IH]; intros a; cbn [app words_at length].
  - rewrite Z.add_0_r. tauto.
  - rewrite IH. replace (a + 8 + 8 * Z.of_nat (length ws1)) with (a + 8 * Z.of_nat (S (length ws1))) by lia. tauto.
Qed.

Lemma words_at_lookup m a ws i w : words_at m a ws -> ws !! i = Some w -> ld64 m (a + 8 * Z.of_nat i) = w.
Proof.
  revert a i. induction ws as [|w' ws IH]; intros a i Hw Hi; [done|]. destruct Hw as [Hw Hl], i as [|i].
  - injection Hi as ->. by rewrite Z.add_0_r.
  - rewrite <- (IH (a + 8) i Hl Hi). f_equal. lia.
Qed.

Lemma words_at_store m a ws i v :
  words_at m a ws -> (i < length ws)%nat -> words_at (st64 m (a + 8 * Z.of_nat i) v) a (<[i := u64 v]> ws).
Proof.
  revert a i. induction ws as [|w ws IH]; intros a i Hw Hi; cbn [length] in Hi; [lia|]. destruct Hw as [Hw Hl], i as [|i].
  - rewrite Z.add_0_r. split; [apply ld64_st64|]. eapply words_at_agree; [|exact Hl].
    intros x Hx. apply (ld8_stn_ne 8). lia.
  - split.
    + rewrite <- Hw. apply (ldn_stn_ne 8 8). lia.
    + replace (a + 8 * Z.of_nat (S i)) with (a + 8 + 8 * Z.of_nat i) by lia. apply IH; [done|lia].
Qed.

Lemma reg_set_eq r v c : reg_of (set_reg r v c) r = u64 v.
Proof. cbn. by rewrite fn_lookup_insert. Qed.
Lemma reg_set_ne r r' v c : r <> r' -> reg_of (set_reg r v c) r' = reg_of c r'.
Proof. intros H. cbn. by rewrite fn_lookup_insert_ne. Qed.
Lemma rsp_set v c : rsp (set_reg RSP v c) = u64 v.
Proof. apply reg_set_eq. Qed.
Lemma sreg_set_eq r v c : sreg_of (set_sreg r v c) r = u16 v.
Proof. cbn. by rewrite fn_lookup_insert. Qed.
Lemma sreg_set_ne r r' v c : r <> r' -> sreg_of (set_sreg r v c) r' = sreg_of c r'.
Proof. intros H. cbn. by rewrite fn_lookup_insert_ne. Qed.

(** What a push leaves: the word above the stack, everything else the same. *)
Lemma push_stack v c ws :
  8 <= rsp c -> stack_is c ws ->
  stack_is (push v c) (u64 v :: ws) /\ rsp (push v c) = rsp c - 8.
Proof.
  intros Hlo (Hw & H0 & Hhi).
  assert (rsp (push v c) = rsp c - 8) as Hr by (etrans; [exact (rsp_set (rsp c - 8) c)|]; apply u64_small; lia).
  split; [|done]. unfold stack_is. rewrite Hr. split; [|cbn [length]; lia].
  unfold push. cbn [cmem set_mem set_reg words_at]. rewrite rsp_set, u64_small by lia.
  split; [apply ld64_st64|]. replace (rsp c - 8 + 8) with (rsp c) by lia.
  eapply words_at_agree; [|exact Hw]. intros x Hx. apply (ld8_stn_ne 8). lia.
Qed.

Lemma push_reg_other v c r : r <> RSP -> reg_of (push v c) r = reg_of c r.
Proof. intros H. apply (reg_set_ne RSP r (rsp c - 8) c). congruence. Qed.

(** A pop reads the first word and leaves the rest. *)
Lemma top_stack c w ws : stack_is c (w :: ws) -> top c = w.
Proof. by intros ((H & _) & _). Qed.

Lemma drop_top_stack c w ws :
  stack_is c (w :: ws) -> stack_is (drop_top c) ws /\ rsp (drop_top c) = rsp c + 8.
Proof.
  intros ((_ & Hw) & H0 & Hhi). cbn [length] in Hhi.
  assert (rsp (drop_top c) = rsp c + 8) as Hr by (etrans; [exact (rsp_set (rsp c + 8) c)|]; apply u64_small; lia).
  split; [|done]. unfold stack_is. rewrite Hr. split; [exact Hw|]. lia.
Qed.

(** ** What a stretch of code leaves *)

(** The stack pointer, the words from it up, the other registers and the segment
    registers. *)
Record conf (c : core) (sp : Z) (ws : list Z) (f : reg -> Z) (s : sreg -> Z) : Prop := {
  conf_rsp : rsp c = sp;
  conf_stack : stack_is c ws;
  conf_regs : forall r, r <> RSP -> reg_of c r = f r;
  conf_sregs : forall r, sreg_of c r = s r
}.

Section Conf.
Context (c : core) (sp : Z) (ws : list Z) (f : reg -> Z) (s : sreg -> Z) (Hc : conf c sp ws f s).

Lemma conf_push v : 8 <= sp -> conf (push v c) (sp - 8) (u64 v :: ws) f s.
Proof.
  intros Hsp. destruct Hc as [<- Hs Hf Hg]. destruct (push_stack v c ws Hsp Hs) as [H1 H2].
  split; [done|done| |done]. intros r Hr. rewrite push_reg_other by done. by apply Hf.
Qed.

Lemma conf_push_reg r : 8 <= sp -> r <> RSP -> 0 <= f r < 18446744073709551616 ->
  conf (push_reg r c) (sp - 8) (f r :: ws) f s.
Proof.
  intros Hsp Hr Hb. unfold push_reg. rewrite (conf_regs _ _ _ _ _ Hc) by done.
  replace (f r :: ws) with (u64 (f r) :: ws) by (by rewrite u64_small). by apply conf_push.
Qed.

Lemma conf_set r v : r <> RSP -> conf (set_reg r v c) sp ws (<[r := u64 v]> f) s.
Proof.
  intros Hr. destruct Hc as [<- (Hw & H0 & Hl) Hf Hg].
  assert (rsp (set_reg r v c) = rsp c) as E by (by apply reg_set_ne).
  split; [done| | |done].
  - unfold stack_is. by rewrite E.
  - intros r' Hr'. destruct (decide (r = r')) as [<-|Hne].
    + by rewrite reg_set_eq, fn_lookup_insert.
    + rewrite reg_set_ne, fn_lookup_insert_ne by done. by apply Hf.
Qed.

Lemma conf_set_small r v : r <> RSP -> 0 <= v < 18446744073709551616 -> conf (set_reg r v c) sp ws (<[r := v]> f) s.
Proof. intros Hr Hv. rewrite <- (u64_small v) at 2 by done. by apply conf_set. Qed.

Lemma conf_set_sreg r v : conf (set_sreg r v c) sp ws f (<[r := u16 v]> s).
Proof.
  destruct Hc as [<- Hs Hf Hg]. split; [done..|]. intros r'. destruct (decide (r = r')) as [<-|Hne].
  - by rewrite sreg_set_eq, fn_lookup_insert.
  - rewrite sreg_set_ne, fn_lookup_insert_ne by done. apply Hg.
Qed.

Lemma conf_swapgs : conf (swapgs c) sp ws f s.
Proof. destruct Hc as [H1 H2 H3 H4]. by split. Qed.
Lemma conf_set_rip a : conf (set_rip a c) sp ws f s.
Proof. destruct Hc as [H1 H2 H3 H4]. by split. Qed.

(** A word of the stack is read. *)
Lemma conf_word i w : ws !! i = Some w -> ld64 (cmem c) (sp + 8 * Z.of_nat i) = w /\ 0 <= w < 18446744073709551616.
Proof.
  intros Hi. assert (ld64 (cmem c) (sp + 8 * Z.of_nat i) = w) as E.
  { destruct Hc as [<- (Hw & _) _ _]. by apply words_at_lookup with ws. }
  split; [done|]. rewrite <- E. apply ld64_bound.
Qed.

Lemma conf_bound : 0 <= sp /\ sp + 8 * Z.of_nat (length ws) < 18446744073709551616.
Proof. by destruct Hc as [<- (_ & ? & ?) _ _]. Qed.

Lemma conf_load r i w : r <> RSP -> ws !! i = Some w -> conf (load r (rsp c + 8 * Z.of_nat i) c) sp ws (<[r := w]> f) s.
Proof.
  intros Hr Hi. pose proof conf_bound as [H0 H1]. pose proof (lookup_lt_Some _ _ _ Hi) as Hl.
  destruct (conf_word i w Hi) as [E Hb]. unfold load. rewrite (conf_rsp _ _ _ _ _ Hc), u64_small, E by lia.
  by apply conf_set_small.
Qed.

(** A word of the stack is overwritten. *)
Lemma conf_store i v : (i < length ws)%nat -> conf (store (rsp c + 8 * Z.of_nat i) v c) sp (<[i := u64 v]> ws) f s.
Proof.
  intros Hi. pose proof conf_bound as [H0 H1]. destruct Hc as [<- (Hw & _ & _) Hf Hg].
  split; [done| |done|done]. unfold stack_is. rewrite length_insert. split; [|done].
  cbn [store set_mem cmem]. change (rsp (store _ _ _)) with (rsp c). rewrite u64_small by lia.
  by apply words_at_store.
Qed.
End Conf.

Section ConfPop.
Context (c : core) (sp w : Z) (ws : list Z) (f : reg -> Z) (s : sreg -> Z) (Hc : conf c sp (w :: ws) f s).

Lemma conf_drop_top : conf (drop_top c) (sp + 8) ws f s.
Proof.
  destruct Hc as [<- Hs Hf Hg]. destruct (drop_top_stack c w ws Hs) as [H1 H2]. split; [done|done| |done].
  intros r Hr. unfold drop_top. rewrite reg_set_ne by done. by apply Hf.
Qed.

Lemma conf_top : top c = w /\ 0 <= w < 18446744073709551616.
Proof.
  destruct (conf_word _ _ _ _ _ Hc 0 w eq_refl) as [E Hb]. split; [|done].
  by rewrite (top_stack _ _ _ (conf_stack _ _ _ _ _ Hc)).
Qed.

Lemma conf_pop r : r <> RSP -> conf (pop r c) (sp + 8) ws (<[r := w]> f) s.
Proof. intros Hr. unfold pop. destruct conf_top as [-> Hb]. by apply conf_set_small; [apply conf_drop_top|..]. Qed.

Lemma conf_ret : conf (ret c) (sp + 8) ws f s /\ rip (ret c) = w.
Proof. unfold ret. destruct conf_top as [-> Hb]. split; [|done]. apply conf_set_rip, conf_drop_top. Qed.
End ConfPop.

(** A word apart from the stack is kept by a push. *)
Lemma conf_push_keep v c sp ws f s a :
  conf c sp ws f s -> 8 <= sp -> a + 8 <= sp - 8 \/ sp <= a -> ld64 (cmem (push v c)) a = ld64 (cmem c) a.
Proof.
  intros Hc Hsp Ha. pose proof (conf_bound _ _ _ _ _ Hc) as [H0 H1]. unfold push. cbn [cmem set_mem set_reg].
  rewrite rsp_set, (conf_rsp _ _ _ _ _ Hc), u64_small by lia. apply (ldn_stn_ne 8 8). lia.
Qed.

(** Registers pushed, and popped, in the order of a list. *)
Definition pushes (rs : list reg) (c : core) : core := foldl (fun c r => push_reg r c) c rs.
Definition pops (rs : list reg) (c : core) : core := foldl (fun c r => pop r c) c rs.

Lemma conf_pushes c sp ws f s rs :
  conf c sp ws f s -> 8 * Z.of_nat (length rs) <= sp -> RSP ∉ rs -> (forall r, 0 <= f r < 18446744073709551616) ->
  conf (pushes rs c) (sp - 8 * Z.of_nat (length rs)) (rev (f <$> rs) ++ ws) f s.
Proof.
  revert c sp ws. induction rs as [|r rs IH]; intros c sp ws Hc Hsp Hn Hb.
  - cbn [length] in *. replace (sp - 8 * Z.of_nat 0) with sp by lia. done.
  - apply not_elem_of_cons in Hn as [Hr Hn]. cbn [length] in *. cbn [pushes foldl fmap list_fmap rev].
    replace (sp - 8 * Z.of_nat (S (length rs))) with (sp - 8 - 8 * Z.of_nat (length rs)) by lia.
    rewrite <- app_assoc. apply IH; [|lia|done|done]. by apply conf_push_reg; [..|lia|congruence|].
Qed.

(** What the pops assign, the last one to a register counting. *)
Fixpoint assign (rs : list reg) (vs : list Z) (f : reg -> Z) : reg -> Z :=
  match rs, vs with
  | r :: rs', v :: vs' => assign rs' vs' (<[r := v]> f)
  | _, _ => f
  end.

Lemma conf_pops c sp vs ws f s rs :
  conf c sp (vs ++ ws) f s -> length vs = length rs -> RSP ∉ rs ->
  conf (pops rs c) (sp + 8 * Z.of_nat (length rs)) ws (assign rs vs f) s.
Proof.
  revert c sp vs f. induction rs as [|r rs IH]; intros c sp vs f Hc Hl Hn.
  - destruct vs; [|done]. cbn [length]. replace (sp + 8 * Z.of_nat 0) with sp by lia. exact Hc.
  - destruct vs as [|v vs]; [done|]. apply not_elem_of_cons in Hn as [Hr Hn]. injection Hl as Hl.
    cbn [pops foldl assign length]. replace (sp + 8 * Z.of_nat (S (length rs))) with (sp + 8 + 8 * Z.of_nat (length rs)) by lia.
    apply (IH (pop r c)); [|done|done]. apply conf_pop; [exact Hc|congruence].
Qed.
