(* ===== verification/Context.v ===== *)
(** Contexts on the stack: x64_kenerl/asm/context.asm (store_context_to_stack,
    restore_context_from_stack), and the stacks first_sched_task of
    asm/sched64.asm and move_to_user_state build for their iretq.  A routine is
    the sequence of its instructions over the processor of [Asm]. *)

From stdpp Require Import functions.
From S2P Require Import Prelude Mem Asm.
#[local] Open Scope kernel_scope.

(** ** context.asm *)

Definition USER_X64_DATA_SECTOR : Z := (5 .<< 3) .| 3.
Definition USER_X64_CODE_SECTOR : Z := (6 .<< 3) .| 3.

(** The registers in the order they are pushed after rax. *)
Definition saved_regs : list reg := [RDI; RBX; RCX; RDX; RSI; RBP; R8; R9; R10; R11; R12; R13; R14; R15].

Definition push_sreg (s : sreg) (c : core) : core := push_reg RCX (mov_from_sreg RCX s c).

(** Entered by a call: the return address is on the stack. *)
Definition save_registers (c : core) : core :=
  let c := push_reg RAX c in
  let c := load RAX (rsp c + 8) c in
  let c := pushes saved_regs c in
  let c := push_sreg DS c in
  let c := push_sreg FS c in
  push_sreg GS c.
(** The privilege levels of the interrupted code and of this. *)
Definition compare_levels (c : core) : core :=
  let c := load RDI (rsp c + (18 * 8 + 16)) c in
  let c := mov_from_sreg RCX CS c in
  let c := set_reg RDI (reg_of c RDI .& 7) c in
  set_reg RCX (reg_of c RCX .& 7) c.
Definition mark_level (c : core) : core :=
  if reg_of c RDI =? reg_of c RCX then
    let c := mov_from_sreg RDI SS c in
    let c := push_reg RDI c in
    push 0 c
  else push 1 c.
Definition store_context_to_stack (c : core) : core :=
  ret (push_reg RAX (mark_level (compare_levels (save_registers c)))).

Definition pop_sreg (s : sreg) (c : core) : core := mov_to_sreg s RDI (pop RDI c).

Definition restored_regs : list reg := [R15; R14; R13; R12; R11; R10; R9; R8; RBP; RSI; RDX; RDX].

Definition restore_context_from_stack (c : core) : core :=
  let c := pop RBX c in
  let c := pop RAX c in
  let c := if reg_of c RAX =? 1 then c else pop_sreg SS c in
  let c := pop_sreg GS c in
  let c := pop_sreg FS c in
  let c := pop_sreg DS c in
  let c := pops restored_regs c in
  let c := store (rsp c + 24) (reg_of c RBX) c in
  let c := pop RBX c in
  let c := pop RDI c in
  let c := pop RAX c in
  ret c.

(** ** Lemmas: saving *)

Lemma conf_push_sreg c sp ws f s x :
  conf c sp ws f s -> 8 <= sp -> 0 <= s x < 65536 ->
  conf (push_sreg x c) (sp - 8) (s x :: ws) (<[RCX := s x]> f) s.
Proof.
  intros Hc Hsp Hx. unfold push_sreg, mov_from_sreg. rewrite (conf_sregs _ _ _ _ _ Hc).
  assert (conf (set_reg RCX (s x) c) sp ws (<[RCX := s x]> f) s) as H1 by (apply conf_set_small; [done|done|lia]).
  pose proof (conf_push_reg _ _ _ _ _ H1 RCX Hsp) as H2. rewrite fn_lookup_insert in H2. apply H2; [done|lia].
Qed.

(** The words above the frame, and what the registers hold: rax, rcx and rdi are
    used. *)
Definition context_words (cross : bool) (ra : Z) (f : reg -> Z) (s : sreg -> Z) : list Z :=
  (if cross then [1] else [0; s SS]) ++ [s GS; s FS; s DS] ++ rev (f <$> saved_regs) ++ [f RAX; ra].

(** The interrupted code ran on another privilege level. *)
Definition crossed (csv : Z) (s : sreg -> Z) : bool := negb ((csv .& 7) =? (s CS .& 7)).

Lemma land7_bound z : 0 <= z .& 7 < 8.
Proof. change 7 with (Z.ones 3). rewrite Z.land_ones by lia. apply Z.mod_pos_bound. lia. Qed.

Lemma save_registers_spec c sp ra frame f s :
  conf c sp (ra :: frame) f s -> 144 <= sp ->
  (forall r, 0 <= f r < 18446744073709551616) -> (forall r, 0 <= s r < 65536) ->
  exists f1, conf (save_registers c) (sp - 144)
    ([s GS; s FS; s DS] ++ rev (f <$> saved_regs) ++ [f RAX; ra] ++ frame) f1 s /\ f1 RAX = ra.
Proof.
  intros Hc Hsp Hf Hs. destruct (conf_word _ _ _ _ _ Hc 0 ra eq_refl) as [_ Hra]. unfold save_registers. cbv zeta.
  pose proof (conf_push_reg _ _ _ _ _ Hc RAX ltac:(lia) ltac:(done) (Hf RAX)) as H1. set (c1 := push_reg RAX c) in *.
  pose proof (conf_load _ _ _ _ _ H1 RAX 1 ra ltac:(done) eq_refl) as H2.
  change (8 * Z.of_nat 1) with 8 in H2. set (c2 := load RAX _ c1) in *.
  assert (forall r, 0 <= (<[RAX := ra]> f) r < 18446744073709551616) as Hf2.
  { intros r. destruct (decide (RAX = r)) as [<-|Hne]; [by rewrite fn_lookup_insert|rewrite fn_lookup_insert_ne by done; apply Hf]. }
  pose proof (conf_pushes _ _ _ _ _ saved_regs H2) as H3. change (8 * Z.of_nat (length saved_regs)) with 112 in H3.
  specialize (H3 ltac:(lia) ltac:(set_solver) Hf2).
  pose proof (conf_push_sreg _ _ _ _ _ DS H3 ltac:(lia) (Hs DS)) as H4.
  pose proof (conf_push_sreg _ _ _ _ _ FS H4 ltac:(lia) (Hs FS)) as H5.
  pose proof (conf_push_sreg _ _ _ _ _ GS H5 ltac:(lia) (Hs GS)) as H6.
  eexists. split; [replace (sp - 144) with (sp - 8 - 112 - 8 - 8 - 8) by lia; exact H6|].
  by rewrite !fn_lookup_insert_ne, fn_lookup_insert by done.
Qed.

Lemma compare_levels_spec c sp ws f s csv :
  conf c sp ws f s -> ws !! 20%nat = Some csv -> (forall r, 0 <= s r < 65536) ->
  conf (compare_levels c) sp ws (<[RCX := s CS .& 7]> (<[RDI := csv .& 7]> (<[RCX := s CS]> (<[RDI := csv]> f)))) s.
Proof.
  intros Hc Hcs Hs. unfold compare_levels. cbv zeta.
  pose proof (conf_load _ _ _ _ _ Hc RDI 20 csv ltac:(done) Hcs) as H1. change (8 * Z.of_nat 20) with (18 * 8 + 16) in H1.
  set (c1 := load RDI _ c) in *. unfold mov_from_sreg. rewrite (conf_sregs _ _ _ _ _ H1 CS).
  assert (0 <= s CS < 18446744073709551616) as Hcsb by (specialize (Hs CS); lia).
  pose proof (conf_set_small _ _ _ _ _ H1 RCX _ ltac:(done) Hcsb) as H2. set (c2 := set_reg RCX _ c1) in *.
  rewrite (conf_regs _ _ _ _ _ H2 RDI) by done.
  assert (0 <= csv .& 7 < 18446744073709551616 /\ 0 <= s CS .& 7 < 18446744073709551616) as [B1 B2]
    by (pose proof (land7_bound csv); pose proof (land7_bound (s CS)); lia).
  pose proof (conf_set_small _ _ _ _ _ H2 RDI _ ltac:(done) B1) as H3.
  set (c3 := set_reg RDI _ c2) in *.
  pose proof (conf_set_small _ _ _ _ _ H3 RCX _ ltac:(done) B2) as H4.
  assert (reg_of c3 RCX = s CS) as ->; [|exact H4]. by rewrite (conf_regs _ _ _ _ _ H3).
Qed.

Lemma mark_level_spec c sp ws f s :
  conf c sp ws f s -> 16 <= sp -> (forall r, 0 <= s r < 65536) ->
  let cross := negb (f RDI =? f RCX) in
  conf (mark_level c) (sp - if cross then 8 else 16) ((if cross then [1] else [0; s SS]) ++ ws)
    (if cross then f else <[RDI := s SS]> f) s.
Proof.
  intros Hc Hsp Hs. unfold mark_level. rewrite !(conf_regs _ _ _ _ _ Hc) by done.
  destruct (f RDI =? f RCX); cbn [negb].
  - unfold mov_from_sreg. rewrite (conf_sregs _ _ _ _ _ Hc SS).
    pose proof (conf_set_small _ _ _ _ _ Hc RDI (s SS) ltac:(done) ltac:(specialize (Hs SS); lia)) as H1.
    pose proof (conf_push_reg _ _ _ _ _ H1 RDI ltac:(lia) ltac:(done)) as H2.
    rewrite fn_lookup_insert in H2. specialize (H2 ltac:(specialize (Hs SS); lia)).
    pose proof (conf_push _ _ _ _ _ H2 0 ltac:(lia)) as H3. replace (sp - 16) with (sp - 8 - 8) by lia. exact H3.
  - exact (conf_push _ _ _ _ _ Hc 1 ltac:(lia)).
Qed.

(** The whole routine: the words are on the stack above the interrupt's frame, the
    caller is returned to. *)
Lemma store_context_spec c sp ra frame f s csv :
  conf c sp (ra :: frame) f s -> frame !! 1%nat = Some csv -> 176 <= sp ->
  (forall r, 0 <= f r < 18446744073709551616) -> (forall r, 0 <= s r < 65536) ->
  let cross := crossed csv s in
  exists f1, conf (store_context_to_stack c) (sp - (if cross then 152 else 160)) (context_words cross ra f s ++ frame) f1 s /\
    rip (store_context_to_stack c) = ra.
Proof.
  intros Hc Hcs Hsp Hf Hs cross. destruct (conf_word _ _ _ _ _ Hc 0 ra eq_refl) as [_ Hra].
  destruct (save_registers_spec c sp ra frame f s Hc ltac:(lia) Hf Hs) as (f1 & H1 & E1).
  pose proof (compare_levels_spec _ _ _ _ _ csv H1 Hcs Hs) as H2.
  pose proof (mark_level_spec _ _ _ _ _ H2 ltac:(lia) Hs) as H3. cbv zeta in H3.
  rewrite fn_lookup_insert, fn_lookup_insert_ne, fn_lookup_insert in H3 by done.
  fold (crossed csv s) in H3. fold cross in H3. unfold store_context_to_stack.
  set (c3 := mark_level _) in *. match type of H3 with conf _ _ _ ?x _ => set (f3 := x) in H3 end.
  assert (f3 RAX = ra) as E3 by (unfold f3; destruct cross; rewrite ?fn_lookup_insert_ne by done; exact E1).
  pose proof (conf_push_reg _ _ _ _ _ H3 RAX ltac:(destruct cross; lia) ltac:(done)) as H4. rewrite E3 in H4. specialize (H4 Hra).
  destruct (conf_ret _ _ _ _ _ _ H4) as [H5 E5]. exists f3. split; [|exact E5].
  replace (sp - (if cross then 152 else 160)) with (sp - 144 - (if cross then 8 else 16) - 8 + 8) by (destruct cross; lia).
  unfold context_words. rewrite <- !app_assoc in *. exact H5.
Qed.

(** ** Lemmas: restoring *)

Lemma conf_pop_sreg c sp w ws f s x :
  conf c sp (w :: ws) f s -> 0 <= w < 65536 -> conf (pop_sreg x c) (sp + 8) ws (<[RDI := w]> f) (<[x := w]> s).
Proof.
  intros Hc Hw. unfold pop_sreg, mov_to_sreg. pose proof (conf_pop _ _ _ _ _ _ Hc RDI ltac:(done)) as H1.
  rewrite (conf_regs _ _ _ _ _ H1) by done. rewrite fn_lookup_insert.
  pose proof (conf_set_sreg _ _ _ _ _ H1 x w) as H2. by rewrite u16_small in H2.
Qed.

(** The segment registers of the mark and above it. *)
Definition restored_sregs (cross : bool) (s s2 : sreg -> Z) : sreg -> Z :=
  <[DS := s DS]> (<[FS := s FS]> (<[GS := s GS]> (if cross then s2 else <[SS := s SS]> s2))).
Definition restored_file (f f2 : reg -> Z) : reg -> Z :=
  fun r => match r with RCX => f2 RCX | RDX => f RCX | _ => f r end.

Lemma restore_segments_spec c sp ra ra2 frame f s f2 s2 cross :
  conf c sp (ra2 :: context_words cross ra f s ++ frame) f2 s2 -> (forall r, 0 <= s r < 65536) ->
  let c1 := pop RAX (pop RBX c) in
  exists f3, conf (pop_sreg DS (pop_sreg FS (pop_sreg GS (if reg_of c1 RAX =? 1 then c1 else pop_sreg SS c1))))
      (sp + (if cross then 40 else 48)) (rev (f <$> saved_regs) ++ [f RAX; ra] ++ frame) f3 (restored_sregs cross s s2) /\
    f3 RBX = ra2 /\ f3 RCX = f2 RCX.
Proof.
  intros Hc Hs c1. pose proof (conf_pop _ _ _ _ _ _ Hc RBX ltac:(done)) as H1.
  unfold context_words in H1. rewrite <- !app_assoc in H1. destruct cross.
  - pose proof (conf_pop _ _ _ _ _ _ H1 RAX ltac:(done)) as H2. fold c1 in H2.
    rewrite (conf_regs _ _ _ _ _ H2), fn_lookup_insert by done. change (1 =? 1) with true. cbn iota.
    pose proof (conf_pop_sreg _ _ _ _ _ _ GS H2 (Hs GS)) as H3.
    pose proof (conf_pop_sreg _ _ _ _ _ _ FS H3 (Hs FS)) as H4.
    pose proof (conf_pop_sreg _ _ _ _ _ _ DS H4 (Hs DS)) as H5.
    eexists. split; [replace (sp + 40) with (sp + 8 + 8 + 8 + 8 + 8) by lia; exact H5|].
    split; [by rewrite !fn_lookup_insert_ne, fn_lookup_insert by done|by rewrite !fn_lookup_insert_ne by done].
  - pose proof (conf_pop _ _ _ _ _ _ H1 RAX ltac:(done)) as H2. fold c1 in H2.
    rewrite (conf_regs _ _ _ _ _ H2), fn_lookup_insert by done. change (0 =? 1) with false. cbn iota.
    pose proof (conf_pop_sreg _ _ _ _ _ _ SS H2 (Hs SS)) as H2'.
    pose proof (conf_pop_sreg _ _ _ _ _ _ GS H2' (Hs GS)) as H3.
    pose proof (conf_pop_sreg _ _ _ _ _ _ FS H3 (Hs FS)) as H4.
    pose proof (conf_pop_sreg _ _ _ _ _ _ DS H4 (Hs DS)) as H5.
    eexists. split; [replace (sp + 48) with (sp + 8 + 8 + 8 + 8 + 8 + 8) by lia; exact H5|].
    split; [by rewrite !fn_lookup_insert_ne, fn_lookup_insert by done|by rewrite !fn_lookup_insert_ne by done].
Qed.

Lemma restore_context_spec c sp ra ra2 frame f s f2 s2 cross :
  conf c sp (ra2 :: context_words cross ra f s ++ frame) f2 s2 -> (forall r, 0 <= s r < 65536) ->
  conf (restore_context_from_stack c) (sp + (if cross then 168 else 176)) frame
    (restored_file f f2) (restored_sregs cross s s2) /\
  rip (restore_context_from_stack c) = ra2.
Proof.
  intros Hc Hs. destruct (conf_word _ _ _ _ _ Hc 0 ra2 eq_refl) as [_ Hra2].
  destruct (restore_segments_spec _ _ _ _ _ _ _ _ _ _ Hc Hs) as (f3 & H1 & E1 & E2). cbv zeta in H1.
  unfold restore_context_from_stack. cbv zeta. set (c1 := pop_sreg DS _) in *.
  set (sp1 := sp + (if cross then 40 else 48)) in *.
  set (vs := [f R15; f R14; f R13; f R12; f R11; f R10; f R9; f R8; f RBP; f RSI; f RDX; f RCX]).
  change (rev (f <$> saved_regs) ++ [f RAX; ra] ++ frame) with (vs ++ [f RBX; f RDI; f RAX; ra] ++ frame) in H1.
  pose proof (conf_pops _ _ _ _ _ _ restored_regs H1 eq_refl ltac:(set_solver)) as H2.
  change (8 * Z.of_nat (length restored_regs)) with 96 in H2. set (c2 := pops restored_regs c1) in *.
  pose proof (conf_store _ _ _ _ _ H2 3 (reg_of c2 RBX) ltac:(cbn; lia)) as H3.
  change (8 * Z.of_nat 3) with 24 in H3. set (c3 := store _ _ c2) in *.
  rewrite (conf_regs _ _ _ _ _ H2) in H3 by done. cbn [insert list_insert app] in H3.
  change (assign restored_regs vs f3 RBX) with (f3 RBX) in H3. rewrite E1, u64_small in H3 by done.
  pose proof (conf_pop _ _ _ _ _ _ H3 RBX ltac:(done)) as H4.
  pose proof (conf_pop _ _ _ _ _ _ H4 RDI ltac:(done)) as H5.
  pose proof (conf_pop _ _ _ _ _ _ H5 RAX ltac:(done)) as H6.
  destruct (conf_ret _ _ _ _ _ _ H6) as [[G1 G2 G3 G4] E6]. split; [|exact E6]. split; [|done| |done].
  - rewrite G1. unfold sp1. destruct cross; lia.
  - intros r Hr. rewrite G3 by done. destruct r; try reflexivity; [|done]. exact E2.
Qed.

(** ** Theorems *)

(** C10: Contexts.  What store_context_to_stack saves, restore_context_from_stack
    gives back, whatever ran in between and left the words alone: the stack is
    that of the interrupt again, rip the caller of the second routine, and every
    register and ds, fs, gs (and ss, without a change of level) as at the
    interrupt - except rcx and rdx.  The saved rcx ends in rdx, because the second
    routine pops rdx twice: rcx keeps what the code in between left. *)
Theorem context_roundtrip c sp ra frame f s csv c2 ra2 f2 s2 :
  conf c sp (ra :: frame) f s -> frame !! 1%nat = Some csv -> 176 <= sp ->
  (forall r, 0 <= f r < 18446744073709551616) -> (forall r, 0 <= s r < 65536) ->
  let cross := crossed csv s in
  exists sp1 saved f1, conf (store_context_to_stack c) sp1 (saved ++ frame) f1 s /\
    rip (store_context_to_stack c) = ra /\ sp1 + 8 * Z.of_nat (length saved) = sp + 8 /\
    length saved = (if cross then 20%nat else 21%nat) /\ head saved = Some (if cross then 1 else 0) /\
    (conf c2 (sp1 - 8) (ra2 :: saved ++ frame) f2 s2 ->
     let c3 := restore_context_from_stack c2 in
     stack_is c3 frame /\ rsp c3 = sp + 8 /\ rip c3 = ra2 /\
     (forall r, r <> RSP -> r <> RCX -> r <> RDX -> reg_of c3 r = f r) /\
     reg_of c3 RDX = f RCX /\ reg_of c3 RCX = f2 RCX /\
     (forall x, x = DS \/ x = FS \/ x = GS \/ x = SS /\ cross = false -> sreg_of c3 x = s x)).
Proof.
  intros Hc Hcs Hsp Hf Hs cross. destruct (store_context_spec _ _ _ _ _ _ _ Hc Hcs Hsp Hf Hs) as (f1 & H1 & E1).
  cbv zeta in H1. fold cross in H1.
  exists (sp - if cross then 152 else 160), (context_words cross ra f s), f1.
  split; [exact H1|]. split; [exact E1|]. split; [unfold context_words; destruct cross; cbn; lia|].
  split; [by destruct cross|]. split; [by destruct cross|]. intros H2 c3.
  destruct (restore_context_spec _ _ _ _ _ _ _ _ _ _ H2 Hs) as [[G1 G2 G3 G4] G5]. fold c3 in G1, G2, G3, G4, G5.
  split; [done|]. split; [rewrite G1; destruct cross; lia|]. split; [done|].
  split; [intros r Hr H3 H4; rewrite G3 by done; by destruct r|]. split; [by rewrite G3|]. split; [by rewrite G3|].
  intros x Hx. rewrite G4. unfold restored_sregs. destruct Hx as [->|[->|[->|[-> Hcr]]]]; [done..|]. rewrite Hcr. done.
Qed.

(** ** Stacks for iretq *)

(** [pushfq] and [iretq]; the latter pops five words in 64-bit mode. *)
Definition pushfq (c : core) : core := push (rflags c) c.
Definition iretq (c : core) : core :=
  let word i := ld64 (cmem c) (u64 (rsp c + 8 * i)) in
  let c' := set_rflags (word 2) (set_rip (word 0) c) in
  set_reg RSP (word 3) (set_sreg SS (word 4) (set_sreg CS (word 1) c')).
(** [mov ax, v] *)
Definition mov_ax (v : Z) (c : core) : core := set_reg RAX ((reg_of c RAX - u16 (reg_of c RAX)) + u16 v) c.

Definition user_segments (c : core) : core :=
  let c := mov_ax USER_X64_DATA_SECTOR c in
  mov_to_sreg GS RAX (mov_to_sreg FS RAX (mov_to_sreg ES RAX (mov_to_sreg DS RAX c))).

Lemma conf_user_segments c sp ws f s :
  conf c sp ws f s -> exists f', conf (user_segments c) sp ws f'
    (<[GS := 0x2b]> (<[FS := 0x2b]> (<[ES := 0x2b]> (<[DS := 0x2b]> s)))) /\ rflags (user_segments c) = rflags c.
Proof.
  intros Hc. unfold user_segments. cbv zeta. eexists. split; [|done].
  pose proof (conf_set _ _ _ _ _ Hc RAX (reg_of c RAX - u16 (reg_of c RAX) + u16 USER_X64_DATA_SECTOR) ltac:(done)) as H7.
  fold (mov_ax USER_X64_DATA_SECTOR c) in H7.
  assert (u16 (reg_of (mov_ax USER_X64_DATA_SECTOR c) RAX) = 0x2b) as E7.
  { unfold mov_ax. rewrite reg_set_eq. unfold u16, u64. change (USER_X64_DATA_SECTOR mod 65536) with 43. zlia. }
  revert H7 E7. generalize (mov_ax USER_X64_DATA_SECTOR c) as c7. intros c7 H7 E7. unfold mov_to_sreg. cbn [set_sreg reg_of].
  pose proof (conf_set_sreg _ _ _ _ _ (conf_set_sreg _ _ _ _ _ (conf_set_sreg _ _ _ _ _
    (conf_set_sreg _ _ _ _ _ H7 DS (reg_of c7 RAX)) ES (reg_of c7 RAX)) FS (reg_of c7 RAX)) GS (reg_of c7 RAX)) as H8.
  rewrite E7 in H8. exact H8.
Qed.

Section Dispatch.
(** A call of one of the functions that read a field of the task rdi points to:
    [get_task_cs] and so on of kernel/task64.c, the fields being arguments.  The
    assembly relies on them to leave rdi alone, which the calling convention does
    not promise. *)
Context (getter : (Z -> Z) -> core -> core).
Context (depth : Z).
Context (task_cs task_ss task_esp0 task_esp3 task_function : Z -> Z) (task_exit x64_user_main : Z).

Definition load_task (c : core) : core := swapgs (load RDI (gs_base (swapgs c) + 32) (swapgs c)).

Definition sched_kernel_task (c : core) : core :=
  let c := push_reg RAX (getter task_ss c) in
  let c := getter task_esp0 c in
  let c := set_reg RAX (reg_of c RAX - 8) c in
  let c := set_reg RCX task_exit c in
  let c := store (reg_of c RAX) (reg_of c RCX) c in
  let c := push_reg RAX c in
  let c := pop RAX (pushfq c) in
  let c := set_reg RAX (Z.lxor (reg_of c RAX) (reg_of c RAX)) c in
  let c := set_reg RAX (reg_of c RAX .| 0x200) c in
  let c := push_reg RAX c in
  let c := push_reg RAX (getter task_cs c) in
  let c := push_reg RAX (getter task_function c) in
  let c := getter task_ss c in
  iretq (mov_to_sreg FS RAX (mov_to_sreg GS RAX (mov_to_sreg DS RAX c))).

Definition first_sched_task (c : core) : core :=
  let c := getter task_cs (load_task c) in
  let c := mov_from_sreg RCX CS c in
  let c := set_reg RAX (reg_of c RAX .& 7) c in
  let c := set_reg RCX (reg_of c RCX .& 7) c in
  if reg_of c RAX =? reg_of c RCX then sched_kernel_task c else iretq c.

Definition move_to_user_state (c : core) : core :=
  let c := push USER_X64_DATA_SECTOR c in
  let c := push_reg RAX (getter task_esp3 (load_task c)) in
  let c := pushfq c in
  let c := push USER_X64_CODE_SECTOR c in
  let c := push x64_user_main c in
  iretq (user_segments c).

(** What is asked of the calls: the value in rax, memory as before except for
    [depth] bytes below the stack pointer, rdi and the callee's registers kept. *)
Definition callee_saved (r : reg) : bool :=
  match r with RBX | RBP | R12 | R13 | R14 | R15 => true | _ => false end.
Record getter_ok : Prop := {
  get_value fld c : reg_of (getter fld c) RAX = u64 (fld (reg_of c RDI));
  get_regs fld c r : callee_saved r = true \/ r = RDI \/ r = RSP -> reg_of (getter fld c) r = reg_of c r;
  get_sregs fld c : sreg_of (getter fld c) = sreg_of c;
  get_gs fld c : gs_base (getter fld c) = gs_base c /\ kernel_gs_base (getter fld c) = kernel_gs_base c;
  get_rflags fld c : rflags (getter fld c) = rflags c;
  get_mem fld c a : rsp c <= a \/ a < rsp c - depth -> ld8 (cmem (getter fld c)) a = ld8 (cmem c) a
}.
Context (Hget : getter_ok).

Lemma conf_getter c sp ws f s fld :
  conf c sp ws f s -> exists f', conf (getter fld c) sp ws f' s /\ f' RAX = u64 (fld (f RDI)) /\ f' RDI = f RDI /\
    0 <= f' RAX < 18446744073709551616.
Proof.
  intros [<- (Hw & H0 & Hl) Hf Hs]. pose proof Hget as [Hv Hr Hsr _ _ Hm]. exists (reg_of (getter fld c)).
  assert (rsp (getter fld c) = rsp c) as E by (apply Hr; by right; right).
  split; [|rewrite Hv, (Hr fld c RDI), Hf by (done || by right; left); split; [done|]; split; [done|apply u64_bound]].
  split; [done| |done|by intros r; rewrite Hsr].
  unfold stack_is. rewrite E. split; [|done]. eapply words_at_agree; [|exact Hw]. intros x Hx. apply Hm. lia.
Qed.

(** The five words [iretq] takes. *)
Lemma iretq_spec c sp w0 w1 w2 w3 w4 ws f s :
  conf c sp (w0 :: w1 :: w2 :: w3 :: w4 :: ws) f s ->
  rip (iretq c) = w0 /\ sreg_of (iretq c) CS = u16 w1 /\ rflags (iretq c) = w2 /\ rsp (iretq c) = w3 /\
  sreg_of (iretq c) SS = u16 w4 /\ cmem (iretq c) = cmem c /\
  (forall x, x <> CS -> x <> SS -> sreg_of (iretq c) x = s x).
Proof.
  intros Hc. pose proof (conf_bound _ _ _ _ _ Hc) as [H0 H1]. cbn [length] in H1.
  assert (forall i w, (w0 :: w1 :: w2 :: w3 :: w4 :: ws) !! i = Some w -> (i < 5)%nat ->
    ld64 (cmem c) (u64 (rsp c + 8 * Z.of_nat i)) = w) as Hi.
  { intros i w Hw Hi5. rewrite (conf_rsp _ _ _ _ _ Hc), u64_small by lia. by apply (conf_word _ _ _ _ _ Hc). }
  pose proof (conf_word _ _ _ _ _ Hc 3 w3 eq_refl) as [_ Hb3].
  pose proof (Hi 0%nat w0 eq_refl ltac:(lia)) as I0. pose proof (Hi 1%nat w1 eq_refl ltac:(lia)) as I1.
  pose proof (Hi 2%nat w2 eq_refl ltac:(lia)) as I2. pose proof (Hi 3%nat w3 eq_refl ltac:(lia)) as I3.
  pose proof (Hi 4%nat w4 eq_refl ltac:(lia)) as I4. unfold iretq.
  change (8 * Z.of_nat 0) with (8 * 0) in I0. change (8 * Z.of_nat 1) with (8 * 1) in I1.
  change (8 * Z.of_nat 2) with (8 * 2) in I2. change (8 * Z.of_nat 3) with (8 * 3) in I3.
  change (8 * Z.of_nat 4) with (8 * 4) in I4. rewrite I0, I1, I2, I3, I4. split; [done|].
  split; [|split; [done|split; [|split; [|split; [done|]]]]].
  - cbn. rewrite fn_lookup_insert_ne, fn_lookup_insert by done. done.
  - etrans; [apply rsp_set|]. by apply u64_small.
  - cbn. by rewrite fn_lookup_insert.
  - intros x Hx1 Hx2. cbn. rewrite !fn_lookup_insert_ne by congruence. apply (conf_sregs _ _ _ _ _ Hc).
Qed.

(** A word apart from the stack is kept by a call. *)
Lemma getter_keep fld c a : a + 8 <= rsp c - depth \/ rsp c <= a -> 0 <= depth ->
  ld64 (cmem (getter fld c)) a = ld64 (cmem c) a.
Proof. intros Ha Hd. apply ldn_ext. intros b Hb. apply (get_mem Hget). lia. Qed.

Lemma conf_load_task c sp ws f s p :
  conf c sp ws f s -> 0 <= kernel_gs_base c -> kernel_gs_base c + 32 < 18446744073709551616 ->
  ld64 (cmem c) (kernel_gs_base c + 32) = p ->
  conf (load_task c) sp ws (<[RDI := p]> f) s /\ cmem (load_task c) = cmem c /\ rflags (load_task c) = rflags c.
Proof.
  intros Hc Hg0 Hg1 Hp. split; [|done]. unfold load_task. apply conf_swapgs. unfold load.
  cbn [cmem swapgs gs_base]. rewrite u64_small, Hp by lia.
  apply conf_set_small; [by apply conf_swapgs|done|]. rewrite <- Hp. apply ld64_bound.
Qed.

Section Start.
Context (p : Z) (Hdepth : 0 <= depth).
Context (Hcs : 0 <= task_cs p < 65536) (Hss : 0 <= task_ss p < 65536).
Context (Hfn : 0 <= task_function p < 18446744073709551616) (Hexit : 0 <= task_exit < 18446744073709551616).
Context (He : 8 <= task_esp0 p < 18446744073709551616).

(** A field of the task is pushed; a word apart from the stack is kept. *)
Lemma conf_push_getter c sp ws f s fld a :
  conf c sp ws f s -> f RDI = p -> 8 + depth <= sp -> 0 <= fld p < 18446744073709551616 ->
  a + 8 <= sp - 8 - depth \/ sp <= a ->
  exists f', conf (push_reg RAX (getter fld c)) (sp - 8) (fld p :: ws) f' s /\ f' RDI = p /\
    ld64 (cmem (push_reg RAX (getter fld c))) a = ld64 (cmem c) a.
Proof.
  intros Hc Hdi Hsp Hb Ha. destruct (conf_getter _ _ _ _ _ fld Hc) as (f1 & H1 & E1 & D1 & B1).
  rewrite Hdi, u64_small in E1 by done. pose proof (conf_push_reg _ _ _ _ _ H1 RAX ltac:(lia) ltac:(done) B1) as H2.
  rewrite E1 in H2. exists f1. split; [exact H2|]. split; [congruence|].
  unfold push_reg. rewrite (conf_push_keep _ _ _ _ _ _ _ H1) by lia. apply getter_keep; [|done].
  rewrite (conf_rsp _ _ _ _ _ Hc). lia.
Qed.

(** Up to the first two words pushed, and task_exit put on the task's stack. *)
Lemma sched_kernel_task_exit c sp f s :
  conf c sp [] f s -> f RDI = p -> 48 + depth <= sp ->
  task_esp0 p <= sp - 40 - depth \/ sp <= task_esp0 p - 8 ->
  let c := push_reg RAX (getter task_ss c) in
  let c := getter task_esp0 c in
  let c := set_reg RAX (reg_of c RAX - 8) c in
  let c := set_reg RCX task_exit c in
  let c := store (reg_of c RAX) (reg_of c RCX) c in
  exists f1, conf (push_reg RAX c) (sp - 16) [task_esp0 p - 8; task_ss p] f1 s /\ f1 RDI = p /\
    ld64 (cmem (push_reg RAX c)) (task_esp0 p - 8) = task_exit.
Proof.
  intros Hc Hdi Hsp Hfar.
  destruct (conf_push_getter c sp [] f s task_ss (task_esp0 p - 8) Hc Hdi) as (f1 & H2 & D1 & _); [lia..|].
  destruct (conf_getter _ _ _ _ _ task_esp0 H2) as (f2 & H3 & E3 & D3 & B3). rewrite D1, u64_small in E3 by lia.
  cbv zeta. set (c3 := getter task_esp0 _) in *.
  rewrite (conf_regs _ _ _ _ _ H3 RAX), E3 by done.
  pose proof (conf_set_small _ _ _ _ _ H3 RAX (task_esp0 p - 8) ltac:(done) ltac:(lia)) as H4. set (c4 := set_reg RAX _ c3) in *.
  pose proof (conf_set_small _ _ _ _ _ H4 RCX task_exit ltac:(done) Hexit) as H5. set (c5 := set_reg RCX _ c4) in *.
  rewrite (conf_regs _ _ _ _ _ H5 RAX), (conf_regs _ _ _ _ _ H5 RCX) by done.
  rewrite (fn_lookup_insert_ne _ RCX RAX), !fn_lookup_insert by done.
  set (c6 := store _ _ c5).
  assert (ld64 (cmem c6) (task_esp0 p - 8) = task_exit) as Hm.
  { unfold c6. cbn [store set_mem cmem]. rewrite (u64_small (task_esp0 p - 8)) by lia. rewrite ld64_st64. by apply u64_small. }
  assert (conf c6 (sp - 8) [task_ss p] (<[RCX := task_exit]> (<[RAX := task_esp0 p - 8]> f2)) s) as H6.
  { destruct H5 as [G1 (G2 & G3 & G4) G5 G6]. split; [done| |done|done]. split; [|done].
    eapply words_at_agree; [|exact G2]. intros x Hx. change (rsp c6) with (rsp c5) in Hx. rewrite G1 in Hx.
    unfold c6. cbn [length] in Hx. cbn [store set_mem cmem]. rewrite (u64_small (task_esp0 p - 8)) by lia.
    apply (ld8_stn_ne 8). lia. }
  pose proof (conf_push_reg _ _ _ _ _ H6 RAX ltac:(lia) ltac:(done)) as H7.
  rewrite (fn_lookup_insert_ne _ RCX RAX), fn_lookup_insert in H7 by done. specialize (H7 ltac:(lia)).
  eexists. split; [replace (sp - 16) with (sp - 8 - 8) by lia; exact H7|].
  split; [rewrite !fn_lookup_insert_ne by done; congruence|].
  unfold push_reg. rewrite (conf_push_keep _ _ _ _ _ _ _ H6) by lia. exact Hm.
Qed.

(** The rest of the words, for iretq. *)
Lemma sched_kernel_task_spec c sp f s :
  conf c sp [] f s -> f RDI = p -> 48 + depth <= sp ->
  task_esp0 p <= sp - 40 - depth \/ sp <= task_esp0 p - 8 ->
  let c' := sched_kernel_task c in
  rip c' = task_function p /\ sreg_of c' CS = task_cs p /\ sreg_of c' SS = task_ss p /\ rflags c' = 0x200 /\
  rsp c' = task_esp0 p - 8 /\ ld64 (cmem c') (task_esp0 p - 8) = task_exit /\
  sreg_of c' DS = task_ss p /\ sreg_of c' FS = task_ss p /\ sreg_of c' GS = task_ss p.
Proof.
  intros Hc Hdi Hsp Hfar. destruct (sched_kernel_task_exit c sp f s Hc Hdi Hsp Hfar) as (f1 & H1 & D1 & M1).
  unfold sched_kernel_task. cbv zeta in *. set (c1 := push_reg RAX (store _ _ _)) in *.
  pose proof (conf_push _ _ _ _ _ H1 (rflags c1) ltac:(lia)) as H2. fold (pushfq c1) in H2.
  assert (ld64 (cmem (pushfq c1)) (task_esp0 p - 8) = task_exit) as M2
    by (unfold pushfq; rewrite (conf_push_keep _ _ _ _ _ _ _ H1) by lia; exact M1).
  pose proof (conf_pop _ _ _ _ _ _ H2 RAX ltac:(done)) as H3. set (c3 := pop RAX _) in *. rewrite !Z.lxor_nilpotent.
  pose proof (conf_set_small _ _ _ _ _ H3 RAX 0 ltac:(done) ltac:(lia)) as H4.
  rewrite reg_set_eq. change (u64 0 .| 0x200) with 0x200. set (c4 := set_reg RAX 0 c3) in *.
  pose proof (conf_set_small _ _ _ _ _ H4 RAX 0x200 ltac:(done) ltac:(lia)) as H5. set (c5 := set_reg RAX 0x200 c4) in *.
  pose proof (conf_push_reg _ _ _ _ _ H5 RAX ltac:(lia) ltac:(done)) as H6.
  rewrite fn_lookup_insert in H6. specialize (H6 ltac:(lia)).
  assert (ld64 (cmem (push_reg RAX c5)) (task_esp0 p - 8) = task_exit) as M6
    by (unfold push_reg; rewrite (conf_push_keep _ _ _ _ _ _ _ H5) by lia; exact M2).
  set (c6 := push_reg RAX c5) in *. set (f6 := <[RAX := 0x200]> _) in H6.
  assert (f6 RDI = p) as D6 by (unfold f6; rewrite !fn_lookup_insert_ne by done; exact D1).
  destruct (conf_push_getter c6 _ _ _ _ task_cs (task_esp0 p - 8) H6 D6) as (f8 & H8 & D8 & M8); [lia..|].
  set (c8 := push_reg RAX (getter task_cs c6)) in *. rewrite M6 in M8.
  destruct (conf_push_getter c8 _ _ _ _ task_function (task_esp0 p - 8) H8 D8) as (f10 & H10 & D10 & M10); [lia..|].
  set (c10 := push_reg RAX (getter task_function c8)) in *. rewrite M8 in M10.
  destruct (conf_getter _ _ _ _ _ task_ss H10) as (f11 & H11 & E11 & D11 & B11). rewrite D10, u64_small in E11 by lia.
  assert (ld64 (cmem (getter task_ss c10)) (task_esp0 p - 8) = task_exit) as M11
    by (rewrite getter_keep; [exact M10|rewrite (conf_rsp _ _ _ _ _ H10); lia|lia]).
  set (c11 := getter task_ss c10) in *.
  assert (reg_of c11 RAX = task_ss p) as EA by (by rewrite (conf_regs _ _ _ _ _ H11)).
  unfold mov_to_sreg. rewrite EA.
  change (reg_of (set_sreg DS (task_ss p) c11) RAX) with (reg_of c11 RAX). rewrite EA.
  change (reg_of (set_sreg GS (task_ss p) (set_sreg DS (task_ss p) c11)) RAX) with (reg_of c11 RAX). rewrite EA.
  pose proof (conf_set_sreg _ _ _ _ _ (conf_set_sreg _ _ _ _ _ (conf_set_sreg _ _ _ _ _ H11 DS (task_ss p)) GS (task_ss p)) FS (task_ss p)) as H12.
  destruct (iretq_spec _ _ _ _ _ _ _ _ _ _ H12) as (I0 & I1 & I2 & I3 & I4 & I5 & I6).
  rewrite u16_small in I1, I4 by lia. split_and!; try done.
  all: rewrite I6 by done; rewrite u16_small by lia; reflexivity.
Qed.

(** The first dispatch of a kernel task.  The iretq of first_sched_task goes to
    the task's function in its segments, with interrupts enabled, on the task's
    own stack; the word on top of that stack is the address of task_exit, so the
    function's return goes there. *)
Theorem first_sched_task_correct c sp f s :
  conf c sp [] f s -> 0 <= kernel_gs_base c -> kernel_gs_base c + 32 < 18446744073709551616 ->
  ld64 (cmem c) (kernel_gs_base c + 32) = p -> 48 + depth <= sp ->
  task_esp0 p <= sp - 40 - depth \/ sp <= task_esp0 p - 8 ->
  (task_cs p .& 7) = (s CS .& 7) -> 0 <= s CS < 65536 ->
  let c' := first_sched_task c in
  rip c' = task_function p /\ sreg_of c' CS = task_cs p /\ sreg_of c' SS = task_ss p /\ rflags c' = 0x200 /\
  rsp c' = task_esp0 p - 8 /\
  (forall x, x = DS \/ x = FS \/ x = GS -> sreg_of c' x = task_ss p) /\
  rip (ret c') = task_exit /\ rsp (ret c') = task_esp0 p.
Proof.
  intros Hc Hg0 Hg1 Hp Hsp Hfar Hlev Hs c'.
  destruct (conf_load_task c sp [] f s p Hc Hg0 Hg1 Hp) as (H1 & _ & _).
  destruct (conf_getter _ _ _ _ _ task_cs H1) as (f2 & H2 & E2 & D2 & B2).
  rewrite fn_lookup_insert, u64_small in E2 by lia. rewrite fn_lookup_insert in D2. set (c2 := getter task_cs (load_task c)) in *.
  assert (exists c3 f3, c' = sched_kernel_task c3 /\ conf c3 sp [] f3 s /\ f3 RDI = p) as (c3 & f3 & Ec & H3 & D3).
  { unfold c', first_sched_task. fold c2. cbv zeta. unfold mov_from_sreg. rewrite (conf_sregs _ _ _ _ _ H2).
    pose proof (conf_set_small _ _ _ _ _ H2 RCX (s CS) ltac:(done) ltac:(lia)) as H3. set (c3 := set_reg RCX (s CS) c2) in *.
    rewrite (conf_regs _ _ _ _ _ H3 RAX), fn_lookup_insert_ne, E2 by done.
    pose proof (conf_set_small _ _ _ _ _ H3 RAX (task_cs p .& 7) ltac:(done) ltac:(pose proof (land7_bound (task_cs p)); lia)) as H4.
    set (c4 := set_reg RAX _ c3) in *. rewrite (conf_regs _ _ _ _ _ H4 RCX), fn_lookup_insert_ne, fn_lookup_insert by done.
    pose proof (conf_set_small _ _ _ _ _ H4 RCX (s CS .& 7) ltac:(done) ltac:(pose proof (land7_bound (s CS)); lia)) as H5.
    set (c5 := set_reg RCX _ c4) in *. rewrite (conf_regs _ _ _ _ _ H5 RAX), (conf_regs _ _ _ _ _ H5 RCX) by done.
    rewrite (fn_lookup_insert_ne _ RCX RAX), !fn_lookup_insert, Hlev, Z.eqb_refl by done.
    eexists _, _. split; [reflexivity|]. split; [exact H5|]. by rewrite !fn_lookup_insert_ne. }
  destruct (sched_kernel_task_spec c3 sp f3 s H3 D3 Hsp Hfar) as (I0 & I1 & I2 & I3 & I4 & I5 & I6 & I7 & I8).
  rewrite <- Ec in *. split; [exact I0|]. split; [exact I1|]. split; [exact I2|]. split; [exact I3|]. split; [exact I4|].
  split; [intros x [->|[->| ->]]; done|]. split.
  - unfold ret, top. rewrite I4. exact I5.
  - etrans; [exact (rsp_set (rsp c' + 8) c')|]. rewrite I4, u64_small by lia. lia.
Qed.

(** The way to user code: iretq goes to x64_user_main in the user segments, on
    the user stack of the running task, the flags as they were. *)
Theorem move_to_user_state_correct c sp f s :
  conf c sp [] f s -> 0 <= kernel_gs_base c -> kernel_gs_base c + 32 < 18446744073709551616 ->
  ld64 (cmem c) (kernel_gs_base c + 32) = p -> 40 + depth <= sp ->
  sp <= kernel_gs_base c + 32 \/ kernel_gs_base c + 40 <= sp - 8 ->
  0 <= task_esp3 p < 18446744073709551616 -> 0 <= x64_user_main < 18446744073709551616 ->
  0 <= rflags c < 18446744073709551616 ->
  let c' := move_to_user_state c in
  rip c' = x64_user_main /\ sreg_of c' CS = 0x33 /\ sreg_of c' SS = 0x2b /\ rsp c' = task_esp3 p /\
  rflags c' = rflags c /\ forall x, x = DS \/ x = ES \/ x = FS \/ x = GS -> sreg_of c' x = 0x2b.
Proof.
  intros Hc Hg0 Hg1 Hp Hsp Hapart He3 Hum Hfl c'.
  pose proof (conf_push _ _ _ _ _ Hc USER_X64_DATA_SECTOR ltac:(lia)) as H1. set (c1 := push USER_X64_DATA_SECTOR c) in *.
  assert (ld64 (cmem c1) (kernel_gs_base c1 + 32) = p) as Hp1
    by (change (kernel_gs_base c1) with (kernel_gs_base c); etrans; [|exact Hp]; apply (conf_push_keep _ _ _ _ _ _ _ Hc); lia).
  destruct (conf_load_task c1 _ _ f s p H1 Hg0 Hg1 Hp1) as (H2 & _ & F2).
  destruct (conf_push_getter (load_task c1) _ _ _ _ task_esp3 (sp + 8) H2) as (f3 & H3 & _ & _);
    [by rewrite fn_lookup_insert|lia|lia|lia|].
  assert (rflags (push_reg RAX (getter task_esp3 (load_task c1))) = rflags c) as F3.
  { change (rflags (getter task_esp3 (load_task c1)) = rflags c). rewrite (get_rflags Hget). exact F2. }
  unfold c', move_to_user_state. fold c1. cbv zeta. set (c3 := push_reg RAX _) in *.
  pose proof (conf_push _ _ _ _ _ H3 (rflags c3) ltac:(lia)) as H4. fold (pushfq c3) in H4. rewrite F3, (u64_small (rflags c)) in H4 by done.
  pose proof (conf_push _ _ _ _ _ H4 USER_X64_CODE_SECTOR ltac:(lia)) as H5.
  pose proof (conf_push _ _ _ _ _ H5 x64_user_main ltac:(lia)) as H6. rewrite (u64_small x64_user_main) in H6 by done.
  destruct (conf_user_segments _ _ _ _ _ H6) as (f8 & H8 & _).
  destruct (iretq_spec _ _ _ _ _ _ _ _ _ _ H8) as (I0 & I1 & I2 & I3 & I4 & _ & I6).
  split; [exact I0|]. split; [exact I1|]. split; [exact I4|]. split; [exact I3|]. split; [exact I2|].
  intros x [->|[->|[->| ->]]]; by rewrite I6.
Qed.
End Start.
End Dispatch.

(** ** Witnesses *)

(** A processor interrupted in user code: the frame is above the return address at
    4096, rcx and rdx differ. *)
Definition demo_core : core :=
  Core (fun r => match r with RSP => 4096 | RCX => 7 | RDX => 9 | _ => 1 end)
    (fun x => match x with CS => 16 | _ => 8 end) 0 8192 0x202 0 (st64 (st64 ∅ 4112 51) 8224 3).
Definition demo_frame : list Z := [0; 51; 0; 0; 0].

Lemma demo_core_conf : conf demo_core 4096 (0 :: demo_frame) (reg_of demo_core) (sreg_of demo_core).
Proof. split; [done| |done|done]. split; [by vm_compute|]. by vm_compute. Qed.

Lemma demo_core_regs r : 0 <= reg_of demo_core r < 18446744073709551616.
Proof. by destruct r. Qed.
Lemma demo_core_sregs r : 0 <= sreg_of demo_core r < 65536.
Proof. by destruct r. Qed.

Lemma context_roundtrip_witness :
  let c2 := push 5 (store_context_to_stack demo_core) in
  let c3 := restore_context_from_stack c2 in
  rip c3 = 5 /\ rsp c3 = 4104 /\ reg_of c3 RDX = 7 /\ reg_of demo_core RDX = 9.
Proof.
  intros c2 c3. destruct (context_roundtrip demo_core 4096 0 demo_frame (reg_of demo_core) (sreg_of demo_core) 51
    c2 5 (reg_of c2) (sreg_of c2) demo_core_conf eq_refl ltac:(lia) demo_core_regs demo_core_sregs)
    as (sp1 & saved & f1 & H1 & _ & Hsp & Hl & _ & H).
  change (crossed 51 (sreg_of demo_core)) with true in Hl. rewrite Hl in Hsp.
  destruct H as (_ & Hs & Hr & _ & Hdx & _).
  - destruct (conf_push _ _ _ _ _ H1 5 ltac:(lia)) as [G1 G2 _ _]. by split.
  - split; [exact Hr|]. split; [exact Hs|]. split; [exact Hdx|reflexivity].
Defined.

(** A call that only loads the field. *)
Definition demo_getter (fld : Z -> Z) (c : core) : core := set_reg RAX (fld (reg_of c RDI)) c.

Lemma demo_getter_ok : getter_ok demo_getter 0.
Proof.
  split; try done. intros fld c r Hr. apply reg_set_ne. intros <-. naive_solver.
Qed.

Lemma demo_core_empty : conf demo_core 4096 [] (reg_of demo_core) (sreg_of demo_core).
Proof. by split. Qed.

(** Its task is the one at 3. *)
Lemma demo_core_task : ld64 (cmem demo_core) (kernel_gs_base demo_core + 32) = 3.
Proof. by vm_compute. Qed.

Lemma first_sched_task_correct_witness :
  let c' := first_sched_task demo_getter (fun _ => 16) (fun _ => 24) (fun _ => 65536) (fun _ => 4096000) 777 demo_core in
  rip c' = 4096000 /\ rsp c' = 65528 /\ rip (ret c') = 777.
Proof.
  pose proof (first_sched_task_correct demo_getter 0 (fun _ => 16) (fun _ => 24) (fun _ => 65536) (fun _ => 4096000)
    777 demo_getter_ok 3) as H. cbv beta in H.
  specialize (H ltac:(lia) ltac:(lia) ltac:(lia) ltac:(lia) ltac:(lia) ltac:(lia) demo_core 4096 _ _ demo_core_empty).
  specialize (H ltac:(done) ltac:(done) demo_core_task ltac:(lia) ltac:(by right) eq_refl ltac:(done)). cbv zeta in *.
  destruct H as (H1 & _ & _ & _ & H2 & _ & H3 & _). split; [exact H1|]. split; [exact H2|exact H3].
Defined.

Lemma move_to_user_state_correct_witness :
  let c' := move_to_user_state demo_getter (fun _ => 30000) 555 demo_core in
  rip c' = 555 /\ sreg_of c' CS = 0x33 /\ rsp c' = 30000.
Proof.
  pose proof (move_to_user_state_correct demo_getter 0 (fun _ => 30000) 555 demo_getter_ok 3 ltac:(lia)
    demo_core 4096 _ _ demo_core_empty) as H. cbv beta in H.
  specialize (H ltac:(done) ltac:(done) demo_core_task ltac:(lia) ltac:(by left) ltac:(lia) ltac:(lia) ltac:(done)). cbv zeta in *.
  destruct H as (H1 & H2 & _ & H3 & _). split; [exact H1|]. split; [exact H2|exact H3].
Defined.
