(* ===== verification/Preempt.v ===== *)
(** A task preempted and resumed: the part of lapic_timer_entry
    (x64_kenerl/asm/apic_interrupts.asm) that moves the saved context to the
    task's own stack and stores its place in the task's descriptor, and sched_task of asm/sched64.asm that returns to it, over
    the processor of [Asm] and the routines of [Context]. *)

From stdpp Require Import functions.
From S2P Require Import Prelude Mem CString Asm Context.
#[local] Open Scope kernel_scope.

(** ** The task descriptor *)

(** Offsets in the packed task_t: the saved stack pointer, the start of the
    task's kernel stack, its state. *)
Definition task_esp0 : Z := 264.
Definition task_stack : Z := 304.
Definition task_state : Z := 352.
Definition TASK_WAITING : Z := 5.

Section Preempt.
(** As in [Context]: a call of a function that reads a field of the task rdi points
    to.  [c_frame] is what a C function without such promises leaves of the
    registers and of its part of the stack, [rdi_frame] the same for
    set_task_waiting, behind which the assembly still uses rdi. *)
Context (getter : (Z -> Z) -> core -> core) (c_frame rdi_frame : core -> core) (depth : Z).
(** Addresses: of restore_context_from_stack, and behind its call. *)
Context (restore_addr sched_ret : Z).

(** ** The routines *)

(** get_task_esp0 and get_task_esp0_button: the field is read in memory. *)
Definition call_get (off : Z) (c : core) : core := getter (fun q => ld64 (cmem c) (u64 (q + off))) c.
Definition call_memcpy (c : core) : core :=
  c_frame (set_mem (memcpy (cmem c) (reg_of c RDI) (reg_of c RSI) (reg_of c RDX)) c).
Definition call_set_task_waiting (c : core) : core :=
  rdi_frame (set_mem (st32 (cmem c) (u64 (reg_of c RDI + task_state)) TASK_WAITING) c).
Definition call_set_task_esp0 (c : core) : core :=
  c_frame (set_mem (st64 (cmem c) (u64 (reg_of c RDI + task_esp0)) (reg_of c RSI)) c).

Definition load_gs_task (c : core) : core := load RDI (gs_base c + 32) c.

(** A context whose mark says that the level changed is copied to the task's
    stack. *)
Definition move_context (c : core) : core :=
  let c := call_get task_stack (load_gs_task (swapgs c)) in
  let c := set_reg RDX (25 * 8) c in
  let c := mov RSI RSP c in
  let c := set_reg RDI (reg_of c RAX + 25 * 8) c in
  let c := call_memcpy c in
  let c := call_get task_stack (load_gs_task c) in
  let c := set_reg RAX (reg_of c RAX + 25 * 8) c in
  swapgs (mov RSP RAX c).
Definition select_stack (c : core) : core :=
  let c := load RAX (rsp c) c in
  if reg_of c RAX =? 1 then move_context c else c.
(** .noskip: the task waits, and its descriptor names the stack. *)
Definition keep_context (c : core) : core :=
  let c := call_set_task_waiting (load_gs_task (swapgs c)) in
  let c := mov RSI RSP c in
  swapgs (call_set_task_esp0 c).
(** From the end of the time slice to the choice of the next task. *)
Definition switch_stack (c : core) : core := keep_context (select_stack c).

(** [sched_task] *)
Definition sched_task (c : core) : core :=
  let c := call_get task_esp0 (load_gs_task (swapgs c)) in
  let c := swapgs (mov RSP RAX c) in
  iretq (restore_context_from_stack (call sched_ret restore_addr c)).

(** ** Hypotheses *)

Record c_frame_ok (frame : core -> core) : Prop := {
  cf_regs c r : callee_saved r = true \/ r = RSP -> reg_of (frame c) r = reg_of c r;
  cf_sregs c : sreg_of (frame c) = sreg_of c;
  cf_gs c : gs_base (frame c) = gs_base c /\ kernel_gs_base (frame c) = kernel_gs_base c;
  cf_mem c a : rsp c <= a \/ a < rsp c - depth -> ld8 (cmem (frame c)) a = ld8 (cmem c) a
}.
Context (Hget : getter_ok getter depth) (Hframe : c_frame_ok c_frame) (Hdepth : 0 <= depth).
Context (Hrdi : c_frame_ok rdi_frame) (Hkept : forall c, reg_of (rdi_frame c) RDI = reg_of c RDI).

(** The running task is found behind [gs]. *)
Record gs_task (m : mem) (g p : Z) : Prop := {
  gt_range : 0 <= g /\ g + 32 < 18446744073709551616;
  gt_fields : 0 <= p /\ p + 356 < 18446744073709551616;
  gt_task : ld64 m (g + 32) = p
}.
(** That word and the fields of the task the routines use; memory apart from
    them. *)
Definition own (g p x : Z) : Prop := g + 32 <= x < g + 40 \/ p + task_esp0 <= x < p + task_state + 4.
Definition apart (g p a b : Z) : Prop :=
  (g + 40 <= a \/ b <= g + 32) /\ (p + task_state + 4 <= a \/ b <= p + task_esp0).

(** ** Lemmas *)

Lemma apart_own g p a b x : apart g p a b -> own g p x -> x < a \/ b <= x.
Proof. unfold apart, own, task_esp0, task_state. lia. Qed.
Lemma apart_within g p a b a' b' : apart g p a b -> a <= a' -> b' <= b -> apart g p a' b'.
Proof. unfold apart. lia. Qed.

Lemma conf_load_gs c sp ws f s g p :
  conf c sp ws f s -> gs_base c = g -> gs_task (cmem c) g p -> conf (load_gs_task c) sp ws (<[RDI := p]> f) s.
Proof.
  intros Hc <- [H1 _ H2]. unfold load_gs_task, load. rewrite u64_small, H2 by lia.
  apply conf_set_small; [done|done|]. rewrite <- H2. apply ld64_bound.
Qed.

Lemma gs_task_same m m' g p : gs_task m g p -> (forall x, own g p x -> ld8 m' x = ld8 m x) -> gs_task m' g p.
Proof. intros [H1 H2 H3] H. split; [done|done|]. rewrite <- H3. apply ldn_ext. intros x Hx. apply H. left. lia. Qed.

Lemma field_same m m' g p off : task_esp0 <= off <= task_stack ->
  (forall x, own g p x -> ld8 m' x = ld8 m x) -> ld64 m' (p + off) = ld64 m (p + off).
Proof.
  intros Ho H. apply ldn_ext. intros x Hx. apply H. right. unfold task_esp0, task_stack, task_state in *. lia.
Qed.

(** A field of the running task: the function returns it, rdi is the task. *)
Lemma conf_get_field c sp ws f s g p off :
  conf c sp ws f s -> gs_base c = g -> gs_task (cmem c) g p -> apart g p (sp - depth) sp ->
  task_esp0 <= off <= task_stack ->
  exists f', conf (call_get off (load_gs_task c)) sp ws f' s /\ f' RAX = ld64 (cmem c) (p + off) /\
    gs_base (call_get off (load_gs_task c)) = g /\
    kernel_gs_base (call_get off (load_gs_task c)) = kernel_gs_base c /\
    (forall x, x < sp - depth \/ sp <= x -> ld8 (cmem (call_get off (load_gs_task c))) x = ld8 (cmem c) x).
Proof.
  intros Hc Hg Ht Ha Ho. pose proof (conf_load_gs _ _ _ _ _ _ _ Hc Hg Ht) as H1. unfold call_get.
  set (fld := fun q => ld64 _ _). destruct (conf_getter _ _ Hget _ _ _ _ _ fld H1) as (f' & H2 & E & _ & _).
  rewrite fn_lookup_insert in E.
  assert (fld p = ld64 (cmem c) (p + off)) as Ef.
  { unfold fld. pose proof (gt_fields _ _ _ Ht). unfold task_esp0, task_stack in *. by rewrite u64_small by lia. }
  rewrite Ef, u64_small in E by apply ld64_bound.
  destruct (get_gs _ _ Hget fld (load_gs_task c)) as [G1 G2].
  exists f'. split; [exact H2|]. split; [exact E|]. split; [by rewrite G1|]. split; [by rewrite G2|].
  intros x Hx. rewrite (get_mem _ _ Hget); [done|]. rewrite (conf_rsp _ _ _ _ _ H1). lia.
Qed.

(** [mov rsp, rax] goes to a stack with known words. *)
Lemma conf_new_stack c sp ws f s sp' ws' :
  conf c sp ws f s -> f RAX = sp' -> 0 <= sp' -> sp' + 8 * Z.of_nat (length ws') < 18446744073709551616 ->
  words_at (cmem c) sp' ws' -> conf (mov RSP RAX c) sp' ws' f s.
Proof.
  intros [H1 H2 H3 H4] E H0 Hl Hw. assert (rsp (mov RSP RAX c) = sp') as Hr.
  { unfold mov. etrans; [apply rsp_set|]. rewrite H3, E by done. apply u64_small. lia. }
  split; [done| | |done].
  - unfold stack_is. rewrite Hr. by split.
  - intros r Hne. unfold mov. rewrite reg_set_ne by congruence. by apply H3.
Qed.

Lemma conf_set_mem m c sp ws f s :
  conf c sp ws f s -> (forall x, sp <= x < sp + 8 * Z.of_nat (length ws) -> ld8 m x = ld8 (cmem c) x) ->
  conf (set_mem m c) sp ws f s.
Proof.
  intros [H1 (H2 & H3 & H4) H5 H6] Hm. split; [done| |done|done]. split; [|done].
  eapply words_at_agree; [|exact H2]. intros x Hx. apply Hm. by rewrite <- H1.
Qed.

Lemma conf_frame frame c sp ws f s : c_frame_ok frame -> conf c sp ws f s ->
  exists f', conf (frame c) sp ws f' s /\ f' = reg_of (frame c) /\
    forall x, x < sp - depth \/ sp <= x -> ld8 (cmem (frame c)) x = ld8 (cmem c) x.
Proof.
  intros [G1 G3 G4 G5] [H1 (H2 & H3 & H4) H5 H6]. exists (reg_of (frame c)).
  assert (rsp (frame c) = rsp c) as E by (apply G1; by right).
  split; [|split; [done|intros x Hx; apply G5; lia]]. split; [congruence| |done|intros x; by rewrite G3].
  unfold stack_is. rewrite E. split; [|done]. eapply words_at_agree; [|exact H2]. intros x Hx. apply G5. lia.
Qed.

Section Move.
Context (g p sp st : Z) (ws : list Z) (s : sreg -> Z).
Let B : Z := st + 200.
Context (Hlen : length ws = 25%nat) (Hp : 0 <= st) (HB : B + 200 < 18446744073709551616).
Context (Hapart : B + 200 <= sp - depth \/ sp + 200 <= B).
Context (Hold : apart g p (sp - depth) sp) (Hnew : apart g p B (B + 200)).

(** The call of memcpy: the words are also at the new place. *)
Lemma call_memcpy_spec c f :
  conf c sp ws f s -> f RDI = B -> f RSI = sp -> f RDX = 200 ->
  exists f', conf (call_memcpy c) sp ws f' s /\ words_at (cmem (call_memcpy c)) B ws /\
    gs_base (call_memcpy c) = gs_base c /\ kernel_gs_base (call_memcpy c) = kernel_gs_base c /\
    (forall x, own g p x -> ld8 (cmem (call_memcpy c)) x = ld8 (cmem c) x).
Proof.
  intros Hc E1 E2 E3. unfold call_memcpy. rewrite !(conf_regs _ _ _ _ _ Hc), E1, E2, E3 by done.
  destruct (memcpy_correct (cmem c) B sp 200) as [M1 M2]; [change (u32 200) with 200; lia|].
  change (u32 200) with 200 in M1, M2. generalize dependent (memcpy (cmem c) B sp 200). intros m M1 M2.
  assert (conf (set_mem m c) sp ws f s) as H1.
  { apply conf_set_mem; [done|]. rewrite Hlen. intros x Hx. apply M2. lia. }
  assert (words_at m B ws) as H2.
  { destruct (conf_stack _ _ _ _ _ Hc) as (Hw & _). rewrite (conf_rsp _ _ _ _ _ Hc) in Hw. revert Hw.
    apply words_at_copy. rewrite Hlen. intros i Hi. apply M1. lia. }
  destruct (conf_frame _ _ _ _ _ _ Hframe H1) as (f' & H3 & _ & Hm). cbn [cmem set_mem] in Hm.
  destruct (cf_gs _ Hframe (set_mem m c)) as [G1 G2].
  exists f'. split; [exact H3|]. split; [|split; [by rewrite G1|split; [by rewrite G2|]]].
  - eapply words_at_agree; [|exact H2]. rewrite Hlen. intros x Hx. apply Hm. lia.
  - intros x Hx. pose proof (apart_own _ _ _ _ _ Hold Hx). pose proof (apart_own _ _ _ _ _ Hnew Hx).
    rewrite Hm by lia. apply M2. lia.
Qed.

Lemma move_context_spec c f :
  conf c sp ws f s -> kernel_gs_base c = g -> gs_task (cmem c) g p -> ld64 (cmem c) (p + task_stack) = st ->
  exists f', conf (move_context c) B ws f' s /\ kernel_gs_base (move_context c) = g /\
    gs_task (cmem (move_context c)) g p.
Proof.
  intros Hc Hg Ht Est. assert (gs_base (swapgs c) = g) as Hg' by exact Hg.
  assert (task_esp0 <= task_stack <= task_stack) as Ho by (unfold task_esp0, task_stack; lia).
  destruct (conf_get_field (swapgs c) _ _ _ _ g p task_stack (conf_swapgs _ _ _ _ _ Hc) Hg' Ht Hold Ho)
    as (f1 & H1 & E1 & G1 & K1 & M1). cbn [cmem swapgs] in E1, M1. rewrite Est in E1.
  unfold move_context. cbv zeta. set (c1 := call_get task_stack _) in *.
  pose proof (conf_set_small _ _ _ _ _ H1 RDX 200 ltac:(done) ltac:(lia)) as H2.
  change (25 * 8) with 200 in *. set (c2 := set_reg RDX 200 c1) in *.
  pose proof (conf_bound _ _ _ _ _ Hc) as [S0 S1]. rewrite Hlen in S1.
  assert (conf (mov RSI RSP c2) sp ws (<[RSI := sp]> (<[RDX := 200]> f1)) s) as H3.
  { unfold mov. change (reg_of c2 RSP) with (rsp c2). rewrite (conf_rsp _ _ _ _ _ H2). apply conf_set_small; [done|done|lia]. }
  set (c3 := mov RSI RSP c2) in *. assert (reg_of c3 RAX + 200 = B) as EB.
  { rewrite (conf_regs _ _ _ _ _ H3), !fn_lookup_insert_ne, E1 by done. unfold B. lia. }
  rewrite EB. pose proof (conf_set_small _ _ _ _ _ H3 RDI B ltac:(done) ltac:(unfold B in *; lia)) as H4.
  set (c4 := set_reg RDI B c3) in *.
  destruct (call_memcpy_spec c4 _ H4) as (f5 & H5 & W5 & G5 & K5 & M5).
  { by rewrite fn_lookup_insert. }
  { by rewrite fn_lookup_insert_ne, fn_lookup_insert. }
  { by rewrite !fn_lookup_insert_ne, fn_lookup_insert by done. }
  assert (forall x, own g p x -> ld8 (cmem (call_memcpy c4)) x = ld8 (cmem c) x) as Hown.
  { intros x Hx. rewrite M5 by done. change (cmem c4) with (cmem c1). apply M1. exact (apart_own _ _ _ _ _ Hold Hx). }
  set (c5 := call_memcpy c4) in *.
  destruct (conf_get_field c5 _ _ _ _ g p task_stack H5 ltac:(rewrite G5; exact G1) (gs_task_same _ _ _ _ Ht Hown) Hold Ho)
    as (f6 & H6 & E6 & G6 & K6 & M6). rewrite (field_same (cmem c) _ g p _ Ho Hown), Est in E6.
  set (c6 := call_get task_stack (load_gs_task c5)) in *.
  assert (reg_of c6 RAX + 200 = B) as EB6 by (rewrite (conf_regs _ _ _ _ _ H6), E6 by done; unfold B; lia).
  rewrite EB6. pose proof (conf_set_small _ _ _ _ _ H6 RAX B ltac:(done) ltac:(unfold B in *; lia)) as H7.
  eexists. split; [|split; [exact G6|]].
  - apply conf_swapgs. eapply conf_new_stack; [exact H7|by rewrite fn_lookup_insert|unfold B; lia|rewrite Hlen; lia|].
    change (cmem (set_reg RAX B c6)) with (cmem c6). eapply words_at_agree; [|exact W5]. rewrite Hlen. intros x Hx.
    apply M6. lia.
  - change (gs_task (cmem c6) g p). apply (gs_task_same (cmem c)); [done|]. intros x Hx. rewrite M6; [by apply Hown|].
    exact (apart_own _ _ _ _ _ Hold Hx).
Qed.
End Move.

(** The two stores in the descriptor, and nothing of the words on the stack. *)
Lemma keep_context_spec c sp ws f s g p :
  conf c sp ws f s -> kernel_gs_base c = g -> gs_task (cmem c) g p ->
  apart g p (sp - depth) (sp + 8 * Z.of_nat (length ws)) ->
  exists f', conf (keep_context c) sp ws f' s /\ ld64 (cmem (keep_context c)) (p + task_esp0) = sp /\
    ld32 (cmem (keep_context c)) (p + task_state) = TASK_WAITING.
Proof.
  intros Hc Hg Ht [_ Ha]. pose proof (conf_bound _ _ _ _ _ Hc) as [S0 S1]. pose proof (gt_fields _ _ _ Ht) as Hb.
  pose proof (conf_load_gs (swapgs c) _ _ _ _ g p (conf_swapgs _ _ _ _ _ Hc) Hg Ht) as H1.
  unfold keep_context. cbv zeta. set (c1 := load_gs_task (swapgs c)) in *. unfold call_set_task_waiting.
  rewrite (conf_regs _ _ _ _ _ H1), fn_lookup_insert by done. unfold task_esp0, task_state in *. rewrite (u64_small (p + 352)) by lia.
  set (m2 := st32 (cmem c1) (p + 352) TASK_WAITING) in *.
  assert (conf (set_mem m2 c1) sp ws (<[RDI := p]> f) s) as H2.
  { apply conf_set_mem; [exact H1|]. intros x Hx. apply (ld8_stn_ne 4). lia. }
  destruct (conf_frame _ _ _ _ _ _ Hrdi H2) as (f3 & H3 & E3 & M3). cbn [cmem set_mem] in M3.
  assert (f3 RDI = p) as D3.
  { rewrite E3, Hkept, (conf_regs _ _ _ _ _ H2) by done. by rewrite fn_lookup_insert. }
  clear E3. set (c3 := rdi_frame _) in *.
  assert (conf (mov RSI RSP c3) sp ws (<[RSI := sp]> f3) s) as H4.
  { unfold mov. change (reg_of c3 RSP) with (rsp c3). rewrite (conf_rsp _ _ _ _ _ H3). apply conf_set_small; [done|done|lia]. }
  set (c4 := mov RSI RSP c3) in *. unfold call_set_task_esp0, task_esp0.
  rewrite !(conf_regs _ _ _ _ _ H4), fn_lookup_insert, fn_lookup_insert_ne, D3 by done.
  rewrite (u64_small (p + 264)) by lia. change (cmem c4) with (cmem c3). set (m5 := st64 (cmem c3) (p + 264) sp).
  assert (conf (set_mem m5 c4) sp ws (<[RSI := sp]> f3) s) as H5.
  { apply conf_set_mem; [exact H4|]. intros x Hx. apply (ld8_stn_ne 8). lia. }
  destruct (conf_frame _ _ _ _ _ _ Hframe H5) as (f6 & H6 & _ & M6). cbn [cmem set_mem] in M6.
  exists f6. split; [by apply conf_swapgs|]. change (cmem (swapgs ?c)) with (cmem c). split.
  - transitivity (ld64 m5 (p + 264)); [apply ldn_ext; intros x Hx; apply M6; lia|].
    unfold m5. rewrite ld64_st64. apply u64_small. lia.
  - transitivity (ld32 m2 (p + 352)); [|by unfold m2; rewrite ld32_st32].
    apply ldn_ext. intros x Hx. rewrite M6 by lia. unfold m5. etrans; [apply (ld8_stn_ne 8); lia|]. apply M3. lia.
Qed.

Lemma iretq_regs c r : r <> RSP -> reg_of (iretq c) r = reg_of c r.
Proof. intros Hr. unfold iretq. rewrite reg_set_ne by congruence. reflexivity. Qed.

(** What the interrupted code finds again. *)
Record resumed (c : core) (f : reg -> Z) (s : sreg -> Z) (rip0 cs0 fl0 sp0 ss0 : Z) : Prop := {
  re_rip : rip c = rip0;
  re_cs : sreg_of c CS = u16 cs0;
  re_rflags : rflags c = fl0;
  re_rsp : rsp c = sp0;
  re_ss : sreg_of c SS = u16 ss0;
  re_regs : forall r, r <> RSP -> r <> RCX -> r <> RDX -> reg_of c r = f r;
  re_sregs : forall x, x = DS \/ x = FS \/ x = GS -> sreg_of c x = s x
}.

Section Resume.
Context (g p : Z) (cross : bool) (ra : Z) (f : reg -> Z) (s : sreg -> Z) (rip0 cs0 fl0 sp0 ss0 : Z).
Let ws : list Z := context_words cross ra f s ++ [rip0; cs0; fl0; sp0; ss0].
Let size : Z := if cross then 200 else 208.
Context (Hs : forall x, 0 <= s x < 65536).

Lemma sched_task_spec c e sp2 f2 s2 :
  conf c sp2 [] f2 s2 -> kernel_gs_base c = g -> gs_task (cmem c) g p -> apart g p (sp2 - depth) sp2 ->
  ld64 (cmem c) (p + task_esp0) = e ->
  words_at (cmem c) e ws -> 8 <= e -> e + size < 18446744073709551616 ->
  e + size <= sp2 - depth \/ sp2 <= e ->
  resumed (sched_task c) f s rip0 cs0 fl0 sp0 ss0 /\ reg_of (sched_task c) RDX = f RCX.
Proof.
  intros Hc Hg Ht Ha He Hw H8 Hhi Hap. assert (gs_base (swapgs c) = g) as Hg' by exact Hg.
  assert (8 * Z.of_nat (length ws) = size) as Hlen by (unfold ws, size, context_words; by destruct cross).
  destruct (conf_get_field (swapgs c) _ _ _ _ g p task_esp0 (conf_swapgs _ _ _ _ _ Hc) Hg' Ht Ha)
    as (f1 & H1 & E1 & _ & _ & M1); [unfold task_esp0, task_stack; lia|]. cbn [cmem swapgs] in E1, M1. rewrite He in E1.
  unfold sched_task. cbv zeta. set (c1 := call_get task_esp0 _) in *.
  assert (conf (swapgs (mov RSP RAX c1)) e ws f1 s2) as H2.
  { apply conf_swapgs. eapply conf_new_stack; [exact H1|exact E1|lia|lia|].
    eapply words_at_agree; [|exact Hw]. intros x Hx. apply M1. lia. }
  set (c2 := swapgs (mov RSP RAX c1)) in *.
  assert (conf (call sched_ret restore_addr c2) (e - 8) (u64 sched_ret :: ws) f1 s2) as H3
    by exact (conf_set_rip _ _ _ _ _ (conf_push _ _ _ _ _ H2 sched_ret H8) restore_addr).
  destruct (restore_context_spec _ _ _ _ _ _ _ _ _ _ H3 Hs) as [H4 _].
  destruct (iretq_spec _ _ _ _ _ _ _ _ _ _ H4) as (I0 & I1 & I2 & I3 & I4 & _ & I6).
  pose proof (conf_regs _ _ _ _ _ H4) as R. set (c3 := restore_context_from_stack _) in *.
  pose proof (iretq_regs c3) as Hr.
  clearbody c3. split; [|rewrite Hr, R by done; reflexivity]. split; [exact I0|exact I1|exact I2|exact I3|exact I4|..].
  - intros r N1 N2 N3. rewrite Hr, R by done. by destruct r.
  - intros x [->|[->| ->]]; by rewrite I6.
Qed.
End Resume.

(** Where the task's stack starts, and that a copied context finds room on it
    apart from the interrupt's stack [sp] and from the descriptor. *)
Record stack_room (m : mem) (g p sp st : Z) : Prop := {
  sr_stack : ld64 m (p + task_stack) = st;
  sr_range : 0 <= st /\ st + 400 < 18446744073709551616;
  sr_sp : st + 400 <= sp - depth \/ sp <= st;
  sr_apart : apart g p (st + 200 - depth) (st + 400)
}.

Lemma switch_stack_spec c sp w ws f s g p st :
  conf c sp (w :: ws) f s -> kernel_gs_base c = g -> gs_task (cmem c) g p ->
  apart g p (sp - depth) (sp + 8 * Z.of_nat (S (length ws))) ->
  (w = 1 -> length ws = 24%nat /\ stack_room (cmem c) g p sp st) ->
  let sp' := if w =? 1 then st + 200 else sp in
  exists f', conf (switch_stack c) sp' (w :: ws) f' s /\
    ld64 (cmem (switch_stack c)) (p + task_esp0) = sp' /\ ld32 (cmem (switch_stack c)) (p + task_state) = TASK_WAITING.
Proof.
  intros Hc Hg Ht Ha H. unfold switch_stack, select_stack. cbv zeta.
  pose proof (conf_load _ _ _ _ _ Hc RAX 0 w ltac:(done) eq_refl) as H1.
  change (8 * Z.of_nat 0) with 0 in H1. rewrite Z.add_0_r in H1. rewrite (conf_regs _ _ _ _ _ H1), fn_lookup_insert by done.
  destruct (w =? 1) eqn:E; [apply Z.eqb_eq in E|by eapply keep_context_spec]. destruct (H E) as (Hl & [Est Hr Hap Hn]).
  destruct (move_context_spec g p sp st (w :: ws) s) with (c := load RAX (rsp c) c) (f := <[RAX := w]> f)
    as (f2 & H2 & K2 & T2); try done; [cbn; lia|lia|lia|lia|..].
  - eapply apart_within; [exact Ha|lia..].
  - eapply apart_within; [exact Hn|lia..].
  - eapply keep_context_spec; [exact H2|exact K2|exact T2|]. cbn [length]. rewrite Hl.
    eapply apart_within; [exact Hn|lia..].
Qed.

(** ** The theorem *)

(** C11: A preempted task comes back.  store_context_to_stack leaves a context; when
    the calls behind it have left those words alone and the time slice is over,
    switch_stack ends on the place that holds it - 200 bytes above the start of the
    task's own stack if the level changed, else where it was -, has stored that
    place in the task's esp0 and made the task wait.  When any processor later runs
    sched_task for that task, the words and the esp0 field being as they were left,
    the task continues at the interrupted instruction with its code segment, flags,
    stack and data segments - and every register but rcx and rdx, rdx being what rcx
    was.  Assumed of the memory: the descriptor and the word behind gs are apart from
    the stacks in use; of the calls: the calling convention, and that
    set_task_waiting keeps rdi, which the code uses behind it. *)
Theorem preempted_task_resumes c sp ra rip0 cs0 fl0 sp0 ss0 f s g p st :
  conf c sp [ra; rip0; cs0; fl0; sp0; ss0] f s -> 176 <= sp ->
  (forall r, 0 <= f r < 18446744073709551616) -> (forall x, 0 <= s x < 65536) ->
  let cross := crossed cs0 s in
  let sp1 := sp - (if cross then 152 else 160) in
  let size := if cross then 200 else 208 in
  exists words f1, conf (store_context_to_stack c) sp1 words f1 s /\ rip (store_context_to_stack c) = ra /\
  forall c1 f1, conf c1 sp1 words f1 s -> kernel_gs_base c1 = g -> gs_task (cmem c1) g p ->
  apart g p (sp1 - depth) (sp1 + size) -> (cross = true -> stack_room (cmem c1) g p sp1 st) ->
  let c2 := switch_stack c1 in
  let kept := if cross then st + 200 else sp1 in
  rsp c2 = kept /\ ld64 (cmem c2) (p + task_esp0) = kept /\ ld32 (cmem c2) (p + task_state) = TASK_WAITING /\
  forall c3 sp3 f3 s3 g3, conf c3 sp3 [] f3 s3 -> kernel_gs_base c3 = g3 -> gs_task (cmem c3) g3 p ->
  apart g3 p (sp3 - depth) sp3 -> kept + size <= sp3 - depth \/ sp3 <= kept ->
  (forall x, kept <= x < kept + size \/ p + task_esp0 <= x < p + task_esp0 + 8 -> ld8 (cmem c3) x = ld8 (cmem c2) x) ->
  resumed (sched_task c3) f s rip0 cs0 fl0 sp0 ss0 /\ reg_of (sched_task c3) RDX = f RCX.
Proof.
  intros Hc Hsp Hf Hs cross sp1 size. pose proof (conf_bound _ _ _ _ _ Hc) as [_ Hhi]. cbn [length] in Hhi.
  destruct (store_context_spec _ _ _ _ _ _ _ Hc eq_refl Hsp Hf Hs) as (f1 & H1 & R1). cbv zeta in H1.
  fold cross in H1. fold sp1 in H1. eexists _, f1. split; [exact H1|]. split; [exact R1|]. clear H1 R1 f1.
  intros c1 f1 H1 Hg Ht Ha Hcr c2 kept.
  set (w := if cross then 1 else 0). set (vs := (if cross then [] else [s SS]) ++ [s GS; s FS; s DS] ++ rev (f <$> saved_regs) ++
    [f RAX; ra] ++ [rip0; cs0; fl0; sp0; ss0]).
  assert (context_words cross ra f s ++ [rip0; cs0; fl0; sp0; ss0] = w :: vs) as Ew by (unfold context_words, vs, w; by destruct cross).
  assert (8 * Z.of_nat (length (w :: vs)) = size) as Hlen by (unfold vs, size; by destruct cross).
  rewrite Ew in H1. destruct (switch_stack_spec c1 sp1 w vs f1 s g p st H1 Hg Ht) as (f2 & H2 & S2 & W2).
  { change (S (length vs)) with (length (w :: vs)). by rewrite Hlen. }
  { intros E. destruct cross; [|done]. split; [done|]. by apply Hcr. }
  assert ((if w =? 1 then st + 200 else sp1) = kept) as E2 by (by unfold w, kept; destruct cross).
  rewrite E2 in H2, S2. fold c2 in H2, S2, W2. split; [exact (conf_rsp _ _ _ _ _ H2)|]. split; [exact S2|]. split; [exact W2|].
  intros c3 sp3 f3 s3 g3 H3 Hg3 Ht3 Ha3 Hap Hm. destruct (conf_stack _ _ _ _ _ H2) as (Wd & _).
  rewrite (conf_rsp _ _ _ _ _ H2) in Wd.
  assert (8 <= kept /\ kept + size < 18446744073709551616) as [K1 K2].
  { unfold kept, size, sp1 in *. destruct cross; [destruct (Hcr eq_refl) as [_ ? _ _]|]; lia. }
  eapply (sched_task_spec g3 p cross ra f s rip0 cs0 fl0 sp0 ss0 Hs c3 kept sp3 f3 s3 H3 Hg3 Ht3 Ha3); try done.
  - rewrite <- S2. apply ldn_ext. intros x Hx. apply Hm. right. lia.
  - rewrite Ew. eapply words_at_agree; [|exact Wd]. intros x Hx. apply Hm. left. lia.
Qed.
End Preempt.

(** ** Witness *)

Lemma cmem_set_reg r v c : cmem (set_reg r v c) = cmem c.
Proof. reflexivity. Qed.

Lemma conf_empty sp c : 0 <= sp < 18446744073709551616 -> conf (set_reg RSP sp c) sp [] (reg_of c) (sreg_of c).
Proof.
  intros Hsp. assert (rsp (set_reg RSP sp c) = sp) as E by (etrans; [apply rsp_set|by apply u64_small]).
  split; [done|split; [exact I|rewrite E; cbn; lia]| |done]. intros r Hr. apply reg_set_ne. congruence.
Qed.

(** Interrupted in user code at 1000, with its stack at 7000; the task at 12288 has
    its stack at 20000, the stack of the processor is at 16384 when it resumes. *)
Definition preempt_words : list Z := [0; 1000; 51; 0x202; 7000; 43].
Definition preempt_mem : mem :=
  st64 (st64 (st64 (st64 (st64 (st64 (st64 ∅ 4104 1000) 4112 51) 4120 0x202) 4128 7000) 4136 43) 8224 12288) 12592 20000.
Definition preempt_core : core :=
  Core (reg_of demo_core) (sreg_of demo_core) 0 8192 0x202 0 preempt_mem.
Definition preempt_switched : core := switch_stack demo_getter id id (store_context_to_stack preempt_core).
Definition preempt_resumed : core := sched_task demo_getter 0 0 (set_reg RSP 16384 preempt_switched).

Lemma preempt_core_conf : conf preempt_core 4096 preempt_words (reg_of demo_core) (sreg_of demo_core).
Proof. split; [done| |done|done]. split; [by vm_compute|]. by vm_compute. Qed.

Lemma preempted_task_resumes_witness :
  rsp preempt_switched = 20200 /\ ld64 (cmem preempt_switched) 12552 = 20200 /\
  ld32 (cmem preempt_switched) 12640 = TASK_WAITING /\ rip preempt_resumed = 1000 /\ rsp preempt_resumed = 7000 /\
  sreg_of preempt_resumed CS = 51 /\ reg_of preempt_resumed RDX = 7 /\ reg_of demo_core RDX = 9.
Proof.
  assert (c_frame_ok 0 id) as Hf by (by split).
  destruct (preempted_task_resumes demo_getter id id 0 0 0 demo_getter_ok Hf ltac:(lia) Hf ltac:(done)
    preempt_core 4096 0 1000 51 0x202 7000 43 _ _ 8192 12288 20000 preempt_core_conf ltac:(lia) demo_core_regs demo_core_sregs)
    as (words & f1 & H1 & _ & H).
  destruct (H (store_context_to_stack preempt_core) f1 H1 eq_refl) as (H2 & H3 & H4 & H5).
  { split; [lia|lia|by vm_compute]. }
  { by vm_compute; split; left + right. }
  { intros _. split; [by vm_compute|lia|right; by vm_compute|by vm_compute; split; left + right]. }
  unfold preempt_resumed, preempt_switched. change (crossed 51 (sreg_of demo_core)) with true in H2, H3, H5. cbn iota in H2, H3, H5.
  remember (switch_stack _ _ _ _) as c2 eqn:E. split; [exact H2|]. split; [exact H3|]. split; [exact H4|].
  destruct (H5 (set_reg RSP 16384 c2) 16384 (reg_of c2) (sreg_of c2) 8192) as [R8 R9].
  - apply conf_empty. lia.
  - rewrite E. vm_compute. reflexivity.
  - rewrite E. split; [lia|lia|by vm_compute].
  - by vm_compute; split; left + right.
  - right. lia.
  - intros x _. by rewrite cmem_set_reg.
  - split; [exact (re_rip _ _ _ _ _ _ _ _ R8)|]. split; [exact (re_rsp _ _ _ _ _ _ _ _ R8)|].
    split; [exact (re_cs _ _ _ _ _ _ _ _ R8)|]. split; [exact R9|reflexivity].
Defined.
