(* ===== verification/Syscall.v ===== *)
(** System calls of the 64-bit kernel: the stub of x64_kenerl/libs/unistd.c, the
    entry of asm/syscall.asm with the SYSCALL and SYSRET instructions it lies
    between, and kernel/system_call.c.  The registers SYSCALL works with are the
    ones Cpu's syscall_init sets. *)

From stdpp Require Import functions.
From S2P Require Import Prelude Mem PageAlloc Alloc Gdt Lapic Cpu Printk Asm.
#[local] Open Scope kernel_scope.

(** ** Data *)

Definition __NR_write : Z := 1.

(** The model specific registers SYSCALL and SYSRET use. *)
Record syscall_msrs := SyscallMsrs { star : Z; lstar : Z; fmask : Z }.

(** ** The instructions *)

(** SYSCALL: the address of the next instruction goes to rcx, the flags to r11. *)
Definition syscall (ms : syscall_msrs) (c : core) : core :=
  let c := set_reg RCX (rip c) c in
  let c := set_reg R11 (rflags c) c in
  let c := set_rflags (Z.ldiff (rflags c) (fmask ms)) (set_rip (lstar ms) c) in
  let sel := (star ms .>> 32) .& 0xFFFF in
  set_sreg SS (sel + 8) (set_sreg CS (sel .& 0xFFFC) c).
(** SYSRET with a 64-bit operand. *)
Definition sysret (ms : syscall_msrs) (c : core) : core :=
  let c := set_rip (reg_of c RCX) c in
  let c := set_rflags ((reg_of c R11 .& 0x3C7FD7) .| 2) c in
  let sel := (star ms .>> 48) .& 0xFFFF in
  set_sreg SS ((sel + 8) .| 3) (set_sreg CS ((sel + 16) .| 3) c).

Section Syscall.
(** The registers and memory a C function leaves when it returns a value, up to
    its [ret]; its use of the stack is [depth] bytes. *)
Context (c_body : Z -> core -> core) (depth : Z).
(** Where sys_write and the table are, and the address behind the call. *)
Context (sys_write_addr system_call_table ra : Z) (ms : syscall_msrs).
(** What the serial port's line status register reads as. *)
Context (lsr : list Z).

(** ** system_call.c *)

(** [sys_write]: the bytes go out, [count] is returned. *)
Definition sys_write (c : core) : outcome (core * list (Z * Z)) :=
  match data_out lsr (cmem c) (reg_of c RSI) (reg_of c RDX) with
  | None => Stuck Deadlock
  | Some out => Done (ret (c_body (reg_of c RDX) c), out)
  end.

(** What the entry calls: only the functions of the table are known. *)
Definition call_function (target : Z) (c : core) : outcome (core * list (Z * Z)) :=
  if target =? NULL then Stuck NullDeref
  else if target =? sys_write_addr then sys_write c
  else Stuck WildStore.

(** ** syscall.asm *)

(** [syscall_entry] up to its call, and behind it. *)
Definition syscall_enter (c : core) : core :=
  let c := swapgs c in
  let c := store (gs_base c + 40) (rsp c) c in
  let c := load RSP (gs_base c + 48) c in
  let c := swapgs c in
  let c := push_reg RCX c in
  let c := push_reg R11 c in
  let c := mov RCX R10 c in
  set_reg RAX (reg_of c RAX * 8 + system_call_table) c.
Definition syscall_leave (c : core) : core :=
  let c := pop R11 c in
  let c := pop RCX c in
  let c := swapgs c in
  let c := load RSP (gs_base c + 40) c in
  let c := swapgs c in
  sysret ms c.

Definition syscall_entry (c : core) : outcome (core * list (Z * Z)) :=
  let c := syscall_enter c in
  let target := ld64 (cmem c) (u64 (reg_of c RAX)) in
  r ← call_function target (call ra target c);
  let '(c, out) := r in
  Done (syscall_leave c, out).

(** ** unistd.c *)

(** [write] with the inline assembly's operands; the result is an [int]. *)
Definition write (fd buf count : Z) (c : core) : outcome (Z * core * list (Z * Z)) :=
  let c := set_reg RAX __NR_write c in
  let c := set_reg RDX count c in
  let c := set_reg RSI buf c in
  let c := set_reg RDI fd c in
  r ← syscall_entry (syscall ms c);
  let '(c, out) := r in
  Done (s32 (reg_of c RAX), c, out).

(** ** Hypotheses *)

(** What is asked of a C function: the value in rax, the callee's registers, rsp
    and the segments kept, memory changed in its part of the stack only. *)
Record c_body_ok : Prop := {
  cb_value v c : reg_of (c_body v c) RAX = u64 v;
  cb_regs v c r : (r = RBX \/ r = RBP \/ r = RSP \/ r = R12 \/ r = R13 \/ r = R14 \/ r = R15) ->
    reg_of (c_body v c) r = reg_of c r;
  cb_sregs v c : sreg_of (c_body v c) = sreg_of c;
  cb_gs v c : gs_base (c_body v c) = gs_base c /\ kernel_gs_base (c_body v c) = kernel_gs_base c;
  cb_mem v c a : rsp c <= a \/ a < rsp c - depth -> ld8 (cmem (c_body v c)) a = ld8 (cmem c) a
}.

(** ** Lemmas *)

(** Memory the same outside two intervals. *)
Definition same_outside (lo1 hi1 lo2 hi2 : Z) (m m' : mem) : Prop :=
  forall a, ~ (lo1 <= a < hi1) -> ~ (lo2 <= a < hi2) -> ld8 m' a = ld8 m a.

Lemma push_same v c sp ws f s lo1 hi1 lo2 hi2 m :
  conf c sp ws f s -> 8 <= sp -> lo1 <= sp - 8 -> sp <= hi1 -> same_outside lo1 hi1 lo2 hi2 m (cmem c) ->
  same_outside lo1 hi1 lo2 hi2 m (cmem (push v c)).
Proof.
  intros Hc Hsp H1 H2 Hm a Ha1 Ha2. rewrite <- Hm by done. pose proof (conf_bound _ _ _ _ _ Hc) as [H0 H3].
  unfold push. cbn [cmem set_mem set_reg]. rewrite rsp_set, (conf_rsp _ _ _ _ _ Hc), u64_small by lia.
  apply (ld8_stn_ne 8). lia.
Qed.

(** The user's stack pointer is kept in the processor's block, the kernel stack
    taken from it. *)
Lemma syscall_enter_spec c ksp :
  let k := kernel_gs_base c in
  (forall r, 0 <= reg_of c r < 18446744073709551616) -> 0 <= k -> k + 56 < 18446744073709551616 ->
  ld64 (cmem c) (k + 48) = ksp -> 16 <= ksp -> ksp <= k + 40 \/ k + 48 <= ksp - 16 ->
  conf (syscall_enter c) (ksp - 16) [reg_of c R11; reg_of c RCX]
    (<[RAX := u64 (reg_of c RAX * 8 + system_call_table)]> (<[RCX := reg_of c R10]> (reg_of c))) (sreg_of c) /\
  ld64 (cmem (syscall_enter c)) (k + 40) = rsp c /\
  same_outside (ksp - 16) ksp (k + 40) (k + 48) (cmem c) (cmem (syscall_enter c)) /\
  kernel_gs_base (syscall_enter c) = k /\ gs_base (syscall_enter c) = gs_base c.
Proof.
  intros k Hr Hk0 Hk1 Hksp Hlo Hapart. unfold syscall_enter. cbv zeta.
  assert (0 <= ksp < 18446744073709551616) as Hkb by (rewrite <- Hksp; apply ld64_bound).
  set (c2 := store _ _ _). assert (cmem c2 = st64 (cmem c) (k + 40) (rsp c)) as M2.
  { unfold c2. cbn [store set_mem cmem swapgs gs_base]. by rewrite u64_small by lia. }
  assert (load RSP (gs_base c2 + 48) c2 = set_reg RSP ksp c2) as E3.
  { unfold load. change (gs_base c2) with k. rewrite u64_small, M2 by lia. f_equal. rewrite <- Hksp.
    apply (ldn_stn_ne 8 8). lia. }
  rewrite E3. set (c3 := swapgs (set_reg RSP ksp c2)).
  assert (conf c3 ksp [] (reg_of c) (sreg_of c)) as H3.
  { assert (rsp c3 = ksp) as R3 by (etrans; [exact (rsp_set ksp c2)|by apply u64_small]).
    split; [done| | |done].
    - unfold stack_is. rewrite R3. split; [done|cbn [length]; lia].
    - intros r Hne. change (reg_of (set_reg RSP ksp c2) r = reg_of c r). by rewrite reg_set_ne by done. }
  assert (same_outside (ksp - 16) ksp (k + 40) (k + 48) (cmem c) (cmem c3)) as S3.
  { intros a _ Ha. change (ld8 (cmem c2) a = ld8 (cmem c) a). rewrite M2. apply (ld8_stn_ne 8). lia. }
  assert (ld64 (cmem c3) (k + 40) = rsp c) as L3.
  { change (ld64 (cmem c2) (k + 40) = rsp c). rewrite M2, ld64_st64. apply u64_small, Hr. }
  assert (kernel_gs_base c3 = k /\ gs_base c3 = gs_base c) as [K3 G3] by done. clearbody c3. clear E3 M2 c2.
  pose proof (conf_push_reg _ _ _ _ _ H3 RCX ltac:(lia) ltac:(done) (Hr RCX)) as H4.
  pose proof (push_same (reg_of c3 RCX) _ _ _ _ _ (ksp - 16) ksp (k + 40) (k + 48) _ H3 ltac:(lia) ltac:(lia) ltac:(lia) S3) as S4.
  assert (ld64 (cmem (push_reg RCX c3)) (k + 40) = rsp c) as L4
    by (rewrite <- L3; apply (conf_push_keep _ _ _ _ _ _ _ H3); lia).
  fold (push_reg RCX c3) in S4. set (c4 := push_reg RCX c3) in *.
  assert (kernel_gs_base c4 = k /\ gs_base c4 = gs_base c) as [K4 G4] by done. clearbody c4.
  pose proof (conf_push_reg _ _ _ _ _ H4 R11 ltac:(lia) ltac:(done) (Hr R11)) as H5.
  pose proof (push_same (reg_of c4 R11) _ _ _ _ _ (ksp - 16) ksp (k + 40) (k + 48) _ H4 ltac:(lia) ltac:(lia) ltac:(lia) S4) as S5.
  assert (ld64 (cmem (push_reg R11 c4)) (k + 40) = rsp c) as L5
    by (rewrite <- L4; apply (conf_push_keep _ _ _ _ _ _ _ H4); lia).
  fold (push_reg R11 c4) in S5. set (c5 := push_reg R11 c4) in *.
  assert (kernel_gs_base c5 = k /\ gs_base c5 = gs_base c) as [K5 G5] by done. clearbody c5.
  unfold mov. rewrite (conf_regs _ _ _ _ _ H5 R10) by done.
  pose proof (conf_set_small _ _ _ _ _ H5 RCX _ ltac:(done) (Hr R10)) as H6. set (c6 := set_reg RCX _ c5) in *.
  rewrite (conf_regs _ _ _ _ _ H6 RAX), fn_lookup_insert_ne by done.
  pose proof (conf_set _ _ _ _ _ H6 RAX (reg_of c RAX * 8 + system_call_table) ltac:(done)) as H7.
  split; [replace (ksp - 16) with (ksp - 8 - 8) by lia; exact H7|]. split; [exact L5|]. split; [exact S5|]. done.
Qed.

Lemma syscall_leave_spec c sp w1 w2 ws f s usp :
  let k := kernel_gs_base c in
  conf c sp (w1 :: w2 :: ws) f s -> 0 <= k -> k + 56 < 18446744073709551616 -> ld64 (cmem c) (k + 40) = usp ->
  let c' := syscall_leave c in
  rip c' = w2 /\ rflags c' = (w1 .& 0x3C7FD7) .| 2 /\ rsp c' = usp /\ cmem c' = cmem c /\
  sreg_of c' CS = u16 ((((star ms .>> 48) .& 0xFFFF) + 16) .| 3) /\
  sreg_of c' SS = u16 ((((star ms .>> 48) .& 0xFFFF) + 8) .| 3) /\
  kernel_gs_base c' = k /\ gs_base c' = gs_base c /\
  (forall r, r <> RSP -> r <> R11 -> r <> RCX -> reg_of c' r = f r).
Proof.
  intros k Hc Hk0 Hk1 Husp. unfold syscall_leave. cbv zeta.
  pose proof (conf_pop _ _ _ _ _ _ Hc R11 ltac:(done)) as H1. pose proof (conf_pop _ _ _ _ _ _ H1 RCX ltac:(done)) as H2.
  set (c2 := pop RCX (pop R11 c)) in *.
  assert (cmem c2 = cmem c /\ kernel_gs_base c2 = k /\ gs_base c2 = gs_base c) as (M2 & K2 & G2) by done. clearbody c2.
  assert (load RSP (gs_base (swapgs c2) + 40) (swapgs c2) = set_reg RSP usp (swapgs c2)) as E3.
  { unfold load. change (gs_base (swapgs c2)) with (kernel_gs_base c2). change (cmem (swapgs c2)) with (cmem c2).
    rewrite K2, M2, u64_small, Husp by lia. done. }
  rewrite E3. set (c3 := swapgs (set_reg RSP usp (swapgs c2))).
  assert (forall r, r <> RSP -> reg_of c3 r = reg_of c2 r) as R3.
  { intros r Hr. change (reg_of (set_reg RSP usp (swapgs c2)) r = reg_of (swapgs c2) r). by rewrite reg_set_ne. }
  assert (rsp c3 = usp) as S3.
  { etrans; [exact (rsp_set usp (swapgs c2))|]. apply u64_small. rewrite <- Husp. apply ld64_bound. }
  assert (cmem c3 = cmem c /\ kernel_gs_base c3 = k /\ gs_base c3 = gs_base c) as (M3 & K3 & G3) by (by rewrite <- M2, <- K2, <- G2).
  clearbody c3. unfold sysret. cbv zeta.
  change (reg_of (set_rip (reg_of c3 RCX) c3) R11) with (reg_of c3 R11).
  rewrite !R3, (conf_regs _ _ _ _ _ H2 RCX), (conf_regs _ _ _ _ _ H2 R11) by done.
  rewrite fn_lookup_insert, fn_lookup_insert_ne, fn_lookup_insert by done.
  do 2 (split; [done|]). split; [exact S3|]. split; [exact M3|]. split; [|split; [|split; [exact K3|split; [exact G3|]]]].
  - cbn [set_sreg sreg_of set_rflags set_rip]. by rewrite fn_lookup_insert_ne, fn_lookup_insert by done.
  - cbn [set_sreg sreg_of set_rflags set_rip]. by rewrite fn_lookup_insert.
  - intros r H3 H4 H5. cbn [set_sreg reg_of set_rflags set_rip].
    rewrite R3, (conf_regs _ _ _ _ _ H2), !fn_lookup_insert_ne by congruence. done.
Qed.

(** The C function between the call and its return. *)
Lemma call_sys_write c sp ws f s buf count target :
  c_body_ok -> conf c sp ws f s -> 8 <= sp -> 0 <= ra < 18446744073709551616 -> target <> NULL -> target = sys_write_addr ->
  f RSI = buf -> f RDX = count -> 0 <= count < 2147483648 -> 0 <= depth ->
  (forall a, buf <= a < buf + count -> a < sp - 8 \/ sp <= a) ->
  Forall (fun v => is_transmit_empty v <> 0) lsr -> (Z.to_nat count <= length lsr)%nat ->
  exists c' f', call_function target (call ra target c) =
      Done (c', (fun b => (SERIAL_PORT, u8 b)) <$> bytes_at (cmem c) buf (Z.to_nat count)) /\
    conf c' sp ws f' s /\ f' RAX = count /\
    (forall r, (r = RBX \/ r = RBP \/ r = R12 \/ r = R13 \/ r = R14 \/ r = R15) -> f' r = f r) /\
    kernel_gs_base c' = kernel_gs_base c /\ gs_base c' = gs_base c /\
    (forall a, a < sp - 8 - depth \/ sp <= a -> ld8 (cmem c') a = ld8 (cmem c) a).
Proof.
  intros Hb Hc Hsp Hra Hn Ht Hsi Hdx Hcount Hd Hbuf Hready Hlen.
  pose proof (conf_push _ _ _ _ _ Hc ra Hsp) as H1. rewrite (u64_small ra) in H1 by done.
  pose proof (conf_set_rip _ _ _ _ _ H1 target) as H2. fold (call ra target c) in H2.
  assert (forall a, a < sp - 8 \/ sp <= a -> ld8 (cmem (call ra target c)) a = ld8 (cmem c) a) as M2.
  { intros a Ha. pose proof (conf_bound _ _ _ _ _ Hc) as [B0 B1]. unfold call, push. cbn [set_rip cmem set_mem set_reg].
    rewrite rsp_set, (conf_rsp _ _ _ _ _ Hc), u64_small by lia. apply (ld8_stn_ne 8). lia. }
  assert (kernel_gs_base (call ra target c) = kernel_gs_base c /\ gs_base (call ra target c) = gs_base c) as [K2 G2] by done.
  set (c2 := call ra target c) in *. clearbody c2.
  unfold call_function. apply Z.eqb_neq in Hn as ->. rewrite Ht, Z.eqb_refl. unfold sys_write, data_out, serial_printk.
  rewrite !(conf_regs _ _ _ _ _ H2), Hsi, Hdx, u32_small by (done || lia).
  rewrite serial_loop_ready by (rewrite ?length_bytes_at; done).
  rewrite (bytes_at_ext (cmem c2) (cmem c) buf buf) by (intros i Hi; apply M2, Hbuf; lia).
  destruct Hb as [Hv Hregs Hsr Hgs Hm]. set (c3 := c_body count c2).
  assert (rsp c3 = rsp c2) as R3 by (apply Hregs; tauto).
  assert (conf c3 (sp - 8) (ra :: ws) (reg_of c3) s) as H3.
  { split; [by rewrite R3, (conf_rsp _ _ _ _ _ H2)| |done|intros r; unfold c3; rewrite Hsr; apply (conf_sregs _ _ _ _ _ H2)].
    destruct (conf_stack _ _ _ _ _ H2) as (W & B0 & B1). unfold stack_is. rewrite R3. split; [|done].
    eapply words_at_agree; [|exact W]. intros x Hx. apply Hm. lia. }
  destruct (conf_ret _ _ _ _ _ _ H3) as [H4 _]. replace (sp - 8 + 8) with sp in H4 by lia.
  exists (ret c3), (reg_of c3). split; [done|]. split; [exact H4|]. split; [unfold c3; rewrite Hv; apply u64_small; lia|].
  split; [intros r Hr; unfold c3; rewrite Hregs, (conf_regs _ _ _ _ _ H2) by (tauto || (intros ->; naive_solver)); done|].
  destruct (Hgs count c2) as [G3 K3]. split; [change (kernel_gs_base c3 = kernel_gs_base c); unfold c3; congruence|].
  split; [change (gs_base c3 = gs_base c); unfold c3; congruence|].
  intros a Ha. rewrite <- (M2 a) by lia. change (cmem (ret c3)) with (cmem c3). apply Hm. rewrite (conf_rsp _ _ _ _ _ H2). lia.
Qed.

(** The registers [write] gives the entry. *)
Lemma syscall_regs fd buf count c :
  (forall r, 0 <= reg_of c r < 18446744073709551616) -> 0 <= rip c < 18446744073709551616 ->
  0 <= rflags c < 18446744073709551616 -> 0 <= buf < 18446744073709551616 -> 0 <= count < 2147483648 ->
  let c1 := syscall ms (set_reg RDI fd (set_reg RSI buf (set_reg RDX count (set_reg RAX __NR_write c)))) in
  reg_of c1 RAX = 1 /\ reg_of c1 RSI = buf /\ reg_of c1 RDX = count /\ reg_of c1 RCX = rip c /\
  reg_of c1 R11 = rflags c /\ (forall r, 0 <= reg_of c1 r < 18446744073709551616) /\
  (forall r, (r = RBX \/ r = RBP \/ r = RSP \/ r = R12 \/ r = R13 \/ r = R14 \/ r = R15) -> reg_of c1 r = reg_of c r).
Proof.
  intros Hr Hip Hfl Hbuf Hcount. unfold syscall. cbv zeta. cbn [set_sreg set_rflags set_rip reg_of rflags rip set_reg].
  rewrite !(u64_small (rip c)), !(u64_small (rflags c)), !(u64_small buf), !(u64_small count), !(u64_small __NR_write)
    by (done || lia).
  split_and!; try reflexivity.
  - intros r. destruct r; repeat first [rewrite fn_lookup_insert | rewrite fn_lookup_insert_ne by done];
      first [apply Hr | apply u64_bound | lia | done].
  - intros r Hc. rewrite !fn_lookup_insert_ne by naive_solver. done.
Qed.

(** C14: A write from user code.  With the processor's block, the kernel stack and
    the call table in their places, apart from each other and from the buffer, and
    the registers syscall_init sets, write sends the bytes of the buffer to the
    serial port and returns their number; the user goes on behind the instruction
    in its own segments, on its own stack, with the callee-saved registers as
    before and no memory changed but the kernel's stack and the place its stack
    pointer was kept. *)
Theorem write_correct fd buf count c ksp :
  let k := kernel_gs_base c in
  c_body_ok -> star ms = (Cpu.SYSRET_SELECTOR .<< 48) .| (Cpu.SYSCALL_SELECTOR .<< 32) ->
  core_ok c -> 0 <= rip c < 18446744073709551616 -> 0 <= rflags c < 18446744073709551616 ->
  0 <= k -> k + 56 < 18446744073709551616 -> ld64 (cmem c) (k + 48) = ksp -> 24 + depth <= ksp -> 0 <= depth ->
  ksp <= k + 40 \/ k + 48 <= ksp - 24 - depth ->
  0 <= system_call_table -> system_call_table + 16 < 18446744073709551616 ->
  ld64 (cmem c) (system_call_table + 8) = sys_write_addr -> sys_write_addr <> NULL ->
  (forall a, system_call_table + 8 <= a < system_call_table + 16 \/ buf <= a < buf + count ->
     ~ (ksp - 24 - depth <= a < ksp) /\ ~ (k + 40 <= a < k + 48)) ->
  0 <= ra < 18446744073709551616 -> 0 <= buf -> 0 <= count < 2147483648 -> buf + count < 18446744073709551616 ->
  Forall (fun v => is_transmit_empty v <> 0) lsr -> (Z.to_nat count <= length lsr)%nat ->
  exists c', write fd buf count c = Done (count, c', (fun b => (SERIAL_PORT, u8 b)) <$> bytes_at (cmem c) buf (Z.to_nat count)) /\
    rip c' = rip c /\ rsp c' = rsp c /\ rflags c' = (rflags c .& 0x3C7FD7) .| 2 /\
    sreg_of c' CS = 0x33 /\ sreg_of c' SS = 0x2b /\
    (forall r, (r = RBX \/ r = RBP \/ r = R12 \/ r = R13 \/ r = R14 \/ r = R15) -> reg_of c' r = reg_of c r) /\
    kernel_gs_base c' = k /\ gs_base c' = gs_base c /\
    same_outside (ksp - 24 - depth) ksp (k + 40) (k + 48) (cmem c) (cmem c').
Proof.
  intros k Hb Hstar [Hr _] Hip Hfl Hk0 Hk1 Hksp Hlo Hd Hapart Ht0 Ht1 Htab Hn Hplace Hra Hbuf Hcount Hbc Hready Hlen.
  destruct (syscall_regs fd buf count c Hr Hip Hfl ltac:(lia) Hcount) as (Eax & Esi & Edx & Ecx & E11 & Hr1 & Hcal).
  unfold write. cbv zeta in *. set (c1 := syscall ms _) in *.
  assert (cmem c1 = cmem c /\ kernel_gs_base c1 = k /\ gs_base c1 = gs_base c) as (M1 & K1 & G1) by done. clearbody c1.
  pose proof (syscall_enter_spec c1 ksp) as En. cbv zeta in En. rewrite K1, M1 in En.
  destruct (En Hr1 Hk0 Hk1 Hksp) as (H2 & L2 & S2 & K2 & G2); [lia..|]. clear En.
  unfold syscall_entry. cbv zeta. set (c2 := syscall_enter c1) in *. clearbody c2. set (f2 := <[RAX := _]> _) in H2.
  rewrite (conf_regs _ _ _ _ _ H2 RAX) by done.
  assert (f2 RAX = system_call_table + 8) as ->
    by (unfold f2; rewrite fn_lookup_insert, Eax, u64_small by lia; lia).
  assert (ld64 (cmem c2) (u64 (system_call_table + 8)) = sys_write_addr) as ->.
  { rewrite u64_small, <- Htab by lia. apply ldn_ext. intros b Hb'. apply S2; destruct (Hplace b); lia. }
  destruct (call_sys_write c2 _ _ _ _ buf count sys_write_addr Hb H2) as (c3 & f3 & E3 & H3 & A3 & F3 & K3 & G3 & M3);
    try (done || lia); [by intros a Ha; destruct (Hplace a); lia|].
  rewrite E3. cbn [mbind outcome_bind].
  assert (ld64 (cmem c3) (k + 40) = rsp c1) as L3.
  { rewrite <- L2. apply ldn_ext. intros b Hb'. apply M3. lia. }
  pose proof (syscall_leave_spec c3 _ _ _ _ _ _ (rsp c1) H3) as Lv. cbv zeta in Lv. rewrite K3, K2 in Lv.
  destruct (Lv Hk0 Hk1 L3) as (V1 & V2 & V3 & V4 & V5 & V6 & V7 & V8 & V9). clear Lv.
  rewrite Hstar in V5, V6. exists (syscall_leave c3). split; [|split_and!].
  - rewrite V9, A3, s32_small by (done || lia). do 3 f_equal. apply bytes_at_ext. intros i Hi.
    rewrite Z2Nat.id in Hi by lia. destruct (Hplace (buf + i)) as [P1 P2]; [lia|]. apply S2; lia.
  - by rewrite V1.
  - rewrite V3. apply Hcal. tauto.
  - by rewrite V2, E11.
  - rewrite V5. by vm_compute.
  - rewrite V6. by vm_compute.
  - intros r Hc. rewrite <- (Hcal r) by tauto. destruct Hc as [->|[->|[->|[->|[->| ->]]]]];
      (rewrite V9, F3 by (done || tauto)); reflexivity.
  - exact V7.
  - by rewrite V8, G3, G2.
  - rewrite V4. intros a Ha1 Ha2. rewrite M3 by lia. apply S2; lia.
Qed.

(** The number is not checked: the entry calls what the table's word holds, for 0,
    where the table has no function, the null pointer. *)
Lemma syscall_number_unchecked c ksp :
  let k := kernel_gs_base c in
  (forall r, 0 <= reg_of c r < 18446744073709551616) -> 0 <= k -> k + 56 < 18446744073709551616 ->
  ld64 (cmem c) (k + 48) = ksp -> 24 <= ksp -> ksp <= k + 40 \/ k + 48 <= ksp - 16 ->
  let a := u64 (reg_of c RAX * 8 + system_call_table) in
  a + 8 <= ksp - 16 \/ ksp <= a -> a + 8 <= k + 40 \/ k + 48 <= a -> ld64 (cmem c) a = NULL ->
  syscall_entry c = Stuck NullDeref.
Proof.
  intros k Hr Hk0 Hk1 Hksp Hlo Hapart a Ha1 Ha2 Hn.
  destruct (syscall_enter_spec c ksp Hr Hk0 Hk1 Hksp ltac:(lia) Hapart) as (H2 & _ & S2 & _).
  unfold syscall_entry. cbv zeta. set (c2 := syscall_enter c) in *. clearbody c2.
  rewrite (conf_regs _ _ _ _ _ H2 RAX), fn_lookup_insert by done. fold a. rewrite (u64_small a) by apply u64_bound.
  assert (ld64 (cmem c2) a = NULL) as ->; [|done].
  rewrite <- Hn. apply ldn_ext. intros b Hb. apply S2; lia.
Qed.
End Syscall.

(** ** A witness *)

(** A C function that only returns its value. *)
Definition demo_body (v : Z) (c : core) : core := set_reg RAX v c.

Lemma demo_body_ok : c_body_ok demo_body 0.
Proof. split; try done. intros v c r Hr. apply reg_set_ne. intros <-. naive_solver. Qed.

(** A user at 0x4000 with a stack at 0x3000, its text at 0x9000; the processor's
    block is at 0x5000, the kernel stack below 0x8000, the table at 0x6000. *)
Definition demo_user : core :=
  Core (fun r => match r with RSP => 0x3000 | _ => 2 end) (fun _ => 0x2b) 0 0x5000 0x202 0x4000
    (st16 (st64 (st64 ∅ 0x5030 0x8000) 0x6008 0x7000) 0x9000 0x6968).
Definition demo_msrs : syscall_msrs := SyscallMsrs ((Cpu.SYSRET_SELECTOR .<< 48) .| (Cpu.SYSCALL_SELECTOR .<< 32)) 0x7100 0x47700.

Lemma demo_user_ok : core_ok demo_user.
Proof. split; intros r; by destruct r. Qed.

Lemma write_correct_witness : exists c',
  write demo_body 0x7000 0x6000 0x7150 demo_msrs [32; 32] 1 0x9000 2 demo_user = Done (2, c', [(SERIAL_PORT, 0x68); (SERIAL_PORT, 0x69)]) /\
  rip c' = 0x4000 /\ rsp c' = 0x3000 /\ sreg_of c' CS = 0x33.
Proof.
  pose proof (write_correct demo_body 0 0x7000 0x6000 0x7150 demo_msrs [32; 32] 1 0x9000 2 demo_user 0x8000
    demo_body_ok eq_refl demo_user_ok) as H. cbv zeta in H.
  specialize (H ltac:(done) ltac:(done) ltac:(done) ltac:(done) ltac:(by vm_compute) ltac:(lia) ltac:(lia) ltac:(by right)
    ltac:(lia) ltac:(lia) ltac:(by vm_compute) ltac:(done) ltac:(cbn; lia) ltac:(lia) ltac:(lia) ltac:(lia) ltac:(lia)
    ltac:(by repeat constructor) ltac:(done)).
  destruct H as (c' & Hw & H1 & H2 & _ & H3 & _). exists c'. split; [exact Hw|]. split; [exact H1|]. split; [exact H2|exact H3].
Defined.
