(* ===== verification/PrintAsm.v ===== *)
(** printk of x64_kenerl/asm/prink.asm and printf of x64_kenerl/libs/asm/printf.asm: the
    assembly that makes one row of slots of the arguments of a variadic call, for the
    va_arg of [Vsprintf], over the processor of [Asm]. *)

From Stdlib Require Import FunctionalExtensionality.
From stdpp Require Import functions.
From S2P Require Import Prelude Mem CString PageAlloc Alloc Gdt Lapic Cpu Vsprintf Printk Asm Syscall.
#[local] Open Scope kernel_scope.

(** Bytes stored one after the other. *)
Fixpoint store_bytes (m : mem) (a : Z) (bs : list Z) : mem :=
  match bs with
  | [] => m
  | b :: bs' => store_bytes (st8 m a b) (a + 1) bs'
  end.

Section PrintAsm.
(** What a C function leaves, up to its ret, and the depth of its stack; the
    addresses behind the two calls. *)
Context (c_body : Z -> core -> core) (depth : Z) (ra1 ra2 : Z).
(** How long strings are at most, and the readings of the serial port's status. *)
Context (sfuel : nat) (lsr : list Z).

(** The seven pushes: the return address is moved below the six registers. *)
Definition gather (c : core) : core :=
  let c := load RAX (rsp c) c in
  let c := set_reg RSP (rsp c + 8) c in
  pushes [R9; R8; RCX; RDX; RSI; RDI; RAX] c.
(** The arguments of vsprintf: the place of the second argument, the format, the
    buffer. *)
Definition vsprintf_args (buf : Z) (c : core) : core :=
  let c := mov RDX RSP c in
  let c := set_reg RDX (reg_of c RDX + 16) c in
  let c := load RSI (rsp c + 8) c in
  set_reg RDI buf c.

(** [call vsprintf]: the text and its terminator are in the buffer, the count in
    rax. *)
Definition call_vsprintf (c : core) : option core :=
  let c := push ra1 c in
  n ← strlen sfuel (cmem c) (reg_of c RSI);
  let fmt := bytes_at (cmem c) (reg_of c RSI) (Z.to_nat n) in
  let slots := fun i => ld64 (cmem c) (reg_of c RDX + 8 * Z.of_nat i) in
  '(cs, m, r) ← x64_vsprintf sfuel (cmem c) fmt (VaList slots 0);
  Some (ret (c_body r (set_mem (store_bytes m (reg_of c RDI) (cs ++ [0])) c))).

(** [call data_out] *)
Definition call_data_out (c : core) : option (core * list (Z * Z)) :=
  let c := push ra2 c in
  ws ← data_out lsr (cmem c) (reg_of c RDI) (reg_of c RSI);
  Some (ret (c_body 0 c), ws).

(** The stack as the caller left it, the return address back at its place. *)
Definition scatter (c : core) : core :=
  let c := load RAX (rsp c) c in
  let c := set_reg RSP (rsp c + 48) c in
  let c := store (rsp c) (reg_of c RAX) c in
  ret c.

Definition printk_asm (g_printBuffer : Z) (c : core) : option (core * list (Z * Z)) :=
  c ← call_vsprintf (vsprintf_args g_printBuffer (gather c));
  let c := mov RSI RAX c in
  let c := set_reg RDI g_printBuffer c in
  '(c, ws) ← call_data_out c;
  Some (scatter c, ws).

(** printf of a task: [write] has the buffer and 0, the standard input, for its
    file. *)
Definition printf_asm (write : Z -> Z -> Z -> core -> outcome (Z * core * list (Z * Z))) (printfBuffer : Z) (c : core)
  : outcome (core * list (Z * Z)) :=
  match call_vsprintf (vsprintf_args printfBuffer (gather c)) with
  | None => Stuck Deadlock
  | Some c =>
      let c := mov RDX RAX c in
      let c := set_reg RSI printfBuffer c in
      let c := set_reg RDI 0 c in
      let c := push ra2 c in
      r ← write (reg_of c RDI) (reg_of c RSI) (reg_of c RDX) c;
      let '(_, c, ws) := r in
      Done (scatter (ret c), ws)
  end.

(** ** Lemmas *)

Lemma store_bytes_out m a bs x : x < a \/ a + Z.of_nat (length bs) <= x -> ld8 (store_bytes m a bs) x = ld8 m x.
Proof.
  revert m a. induction bs as [|b bs IH]; intros m a H; cbn [store_bytes length] in *; [done|].
  rewrite IH by lia. apply ld8_st8_ne. lia.
Qed.

Lemma store_bytes_text m a cs bs : bytes_at (store_bytes m a (cs ++ bs)) a (length cs) = u8 <$> cs.
Proof.
  revert m a. induction cs as [|b cs IH]; intros m a; [done|]. cbn [app store_bytes length bytes_at fmap list_fmap]. f_equal.
  - rewrite store_bytes_out by lia. apply ld8_st8_eq.
  - apply IH.
Qed.

(** Where the System V convention puts the variadic arguments behind the format. *)
Definition abi_arg (m : mem) (sp : Z) (f : reg -> Z) (i : nat) : Z :=
  match i with
  | 0%nat => f RSI | 1%nat => f RDX | 2%nat => f RCX | 3%nat => f R8 | 4%nat => f R9
  | S (S (S (S (S j)))) => ld64 m (sp + 8 + 8 * Z.of_nat j)
  end.

Lemma pushes_frame c sp ws f s rs :
  conf c sp ws f s -> 8 * Z.of_nat (length rs) <= sp -> RSP ∉ rs -> (forall r, 0 <= f r < 18446744073709551616) ->
  (forall x, x < sp - 8 * Z.of_nat (length rs) \/ sp <= x -> ld8 (cmem (pushes rs c)) x = ld8 (cmem c) x) /\
  gs_base (pushes rs c) = gs_base c /\ kernel_gs_base (pushes rs c) = kernel_gs_base c.
Proof.
  revert c sp ws. induction rs as [|r rs IH]; intros c sp ws Hc Hsp Hn Hb; [done|].
  apply not_elem_of_cons in Hn as [Hr Hn]. cbn [length] in *. pose proof (conf_bound _ _ _ _ _ Hc) as [H0 H1].
  pose proof (conf_push_reg _ _ _ _ _ Hc r ltac:(lia) ltac:(congruence) (Hb r)) as H2.
  destruct (IH _ _ _ H2 ltac:(lia) Hn Hb) as (M & G & K). split; [|by split].
  intros x Hx. change (pushes (r :: rs) c) with (pushes rs (push_reg r c)). rewrite M by lia.
  unfold push_reg, push. cbn [cmem set_mem set_reg]. rewrite rsp_set, (conf_rsp _ _ _ _ _ Hc), u64_small by lia.
  apply (ld8_stn_ne 8). lia.
Qed.

Lemma gather_spec c sp ra ws f s : conf c sp (ra :: ws) f s -> 48 <= sp -> (forall r, 0 <= f r < 18446744073709551616) ->
  conf (gather c) (sp - 48) ([ra; f RDI; f RSI; f RDX; f RCX; f R8; f R9] ++ ws) (<[RAX := ra]> f) s /\
  (forall x, x < sp - 48 \/ sp + 8 <= x -> ld8 (cmem (gather c)) x = ld8 (cmem c) x) /\
  gs_base (gather c) = gs_base c /\ kernel_gs_base (gather c) = kernel_gs_base c.
Proof.
  intros Hc Hsp Hb. pose proof (conf_load _ _ _ _ _ Hc RAX 0 ra ltac:(done) eq_refl) as H1.
  change (8 * Z.of_nat 0) with 0 in H1. rewrite Z.add_0_r in H1. pose proof (conf_top _ _ _ _ _ _ Hc) as [_ Hra].
  pose proof (conf_drop_top _ _ _ _ _ _ H1) as H2. set (rs := [R9; R8; RCX; RDX; RSI; RDI; RAX]).
  assert (forall r, 0 <= (<[RAX := ra]> f) r < 18446744073709551616) as Hb'.
  { intros r. destruct (decide (r = RAX)) as [->|Hne]; [by rewrite fn_lookup_insert|by rewrite fn_lookup_insert_ne]. }
  assert (RSP ∉ rs) as Hn by (unfold rs; set_solver). assert (8 * Z.of_nat (length rs) = 56) as Hl by done.
  pose proof (conf_pushes _ _ _ _ _ rs H2 ltac:(lia) Hn Hb') as H3.
  destruct (pushes_frame _ _ _ _ _ rs H2 ltac:(lia) Hn Hb') as (M & G & K). rewrite Hl in H3, M.
  replace (sp + 8 - 56) with (sp - 48) in H3, M by lia. split; [|split; [exact M|by split]]. exact H3.
Qed.

(** A C function called, from its call to the instruction behind. *)
Lemma c_call c sp ws f s ra v m : c_body_ok c_body depth -> conf c sp ws f s -> 8 + depth <= sp -> 0 <= depth ->
  0 <= ra < 18446744073709551616 -> 0 <= v < 18446744073709551616 ->
  (forall x, sp - 8 <= x < sp + 8 * Z.of_nat (length ws) -> ld8 m x = ld8 (cmem (push ra c)) x) ->
  let c' := ret (c_body v (set_mem m (push ra c))) in exists f',
  conf c' sp ws f' s /\ f' RAX = v /\
  (forall r, (r = RBX \/ r = RBP \/ r = R12 \/ r = R13 \/ r = R14 \/ r = R15) -> f' r = f r) /\
  (forall x, x < sp - 8 - depth \/ sp - 8 <= x -> ld8 (cmem c') x = ld8 m x) /\
  gs_base c' = gs_base c /\ kernel_gs_base c' = kernel_gs_base c.
Proof.
  intros Hb Hc Hsp Hd Hra Hv Hm c'. pose proof (conf_push _ _ _ _ _ Hc ra ltac:(lia)) as H1. rewrite u64_small in H1 by done.
  set (c1 := set_mem m (push ra c)) in *. set (c2 := c_body v c1) in *.
  pose proof (conf_bound _ _ _ _ _ H1) as [B0 B1]. cbn [length] in B1.
  assert (conf c1 (sp - 8) (ra :: ws) f s) as H2.
  { destruct H1 as [R (W & B) F S]. split; [done| |done|done]. split; [|done]. eapply words_at_agree; [|exact W].
    change (rsp (push ra c)) with (rsp c1) in *. cbn [length]. intros x Hx. apply Hm. change (rsp c1 = sp - 8) in R. lia. }
  assert (forall x, x < sp - 8 - depth \/ sp - 8 <= x -> ld8 (cmem c2) x = ld8 m x) as M2.
  { intros x Hx. unfold c2. rewrite (cb_mem _ _ Hb); [done|]. rewrite (conf_rsp _ _ _ _ _ H2). lia. }
  assert (rsp c2 = sp - 8) as R2.
  { unfold rsp, c2. rewrite (cb_regs _ _ Hb) by tauto. exact (conf_rsp _ _ _ _ _ H2). }
  assert (conf c2 (sp - 8) (ra :: ws) (reg_of c2) s) as H3.
  { destruct H2 as [R (W & B) F S]. split; [done| |done|intros r; unfold c2; by rewrite (cb_sregs _ _ Hb)].
    split; [|cbn [length]; lia]. rewrite R2. eapply words_at_agree; [|rewrite R in W; exact W]. intros x Hx. apply M2. lia. }
  pose proof (conf_drop_top _ _ _ _ _ _ H3) as H4. replace (sp - 8 + 8) with sp in H4 by lia.
  exists (reg_of c2). split; [exact (conf_set_rip _ _ _ _ _ H4 (top c2))|]. split; [|split; [|split; [exact M2|]]].
  - unfold c2. rewrite (cb_value _ _ Hb). by apply u64_small.
  - intros r Hr. unfold c2. rewrite (cb_regs _ _ Hb) by tauto. apply (conf_regs _ _ _ _ _ H2). naive_solver.
  - exact (cb_gs _ _ Hb v c1).
Qed.

Lemma conf_skip c sp ws1 ws f s : conf c sp (ws1 ++ ws) f s ->
  conf (set_reg RSP (rsp c + 8 * Z.of_nat (length ws1)) c) (sp + 8 * Z.of_nat (length ws1)) ws f s.
Proof.
  intros Hc. pose proof (conf_bound _ _ _ _ _ Hc) as [H0 H1]. rewrite length_app in H1. destruct Hc as [<- (Hw & _) Hf Hg].
  assert (rsp (set_reg RSP (rsp c + 8 * Z.of_nat (length ws1)) c) = rsp c + 8 * Z.of_nat (length ws1)) as E
    by (rewrite rsp_set; apply u64_small; lia).
  split; [done| | |done].
  - unfold stack_is. rewrite E. split; [|lia]. by apply words_at_app in Hw as [_ Hw].
  - intros r Hr. rewrite reg_set_ne by done. by apply Hf.
Qed.

Lemma scatter_spec c sp ra w1 w2 w3 w4 w5 w6 ws f s :
  conf c (sp - 48) (ra :: w1 :: w2 :: w3 :: w4 :: w5 :: w6 :: ws) f s ->
  conf (scatter c) (sp + 8) ws (<[RAX := ra]> f) s /\ rip (scatter c) = ra /\
  (forall x, x < sp \/ sp + 8 <= x -> ld8 (cmem (scatter c)) x = ld8 (cmem c) x).
Proof.
  intros Hc. pose proof (conf_load _ _ _ _ _ Hc RAX 0 ra ltac:(done) eq_refl) as H1.
  change (8 * Z.of_nat 0) with 0 in H1. rewrite Z.add_0_r in H1. pose proof (conf_top _ _ _ _ _ _ Hc) as [_ Hra].
  pose proof (conf_skip _ _ [ra; w1; w2; w3; w4; w5] _ _ _ H1) as H2. cbn [length] in H2.
  change (8 * Z.of_nat 6) with 48 in H2. replace (sp - 48 + 48) with sp in H2 by lia. unfold scatter. cbv zeta.
  set (c2 := set_reg RSP _ _) in *. assert (reg_of c2 RAX = ra) as Ea by (rewrite (conf_regs _ _ _ _ _ H2) by done; by rewrite fn_lookup_insert).
  rewrite Ea. pose proof (conf_store _ _ _ _ _ H2 0 ra ltac:(cbn [length]; lia)) as H3.
  change (8 * Z.of_nat 0) with 0 in H3. rewrite Z.add_0_r in H3. rewrite u64_small in H3 by done.
  pose proof (conf_bound _ _ _ _ _ H2) as [B0 B1]. cbn [length] in B1.
  destruct (conf_ret _ _ _ _ _ _ H3) as [H4 E4]. split; [exact H4|]. split; [exact E4|].
  intros x Hx. cbn [ret set_rip drop_top set_reg cmem store set_mem]. rewrite (conf_rsp _ _ _ _ _ H2), u64_small by lia.
  change (cmem c2) with (cmem c). apply (ld8_stn_ne 8). lia.
Qed.

Lemma vsprintf_args_spec c sp ra fmt ws f s buf : conf c sp (ra :: fmt :: ws) f s -> 0 <= buf < 18446744073709551616 ->
  sp + 16 < 18446744073709551616 ->
  let c' := vsprintf_args buf c in exists f', conf c' sp (ra :: fmt :: ws) f' s /\
  f' RDX = sp + 16 /\ f' RSI = fmt /\ f' RDI = buf /\ (forall r, r <> RDX -> r <> RSI -> r <> RDI -> f' r = f r) /\
  cmem c' = cmem c /\ gs_base c' = gs_base c /\ kernel_gs_base c' = kernel_gs_base c.
Proof.
  intros Hc Hbuf Hsp c'. pose proof (conf_bound _ _ _ _ _ Hc) as [B0 B1]. unfold c', vsprintf_args, mov. cbv zeta.
  change (reg_of c RSP) with (rsp c). rewrite (conf_rsp _ _ _ _ _ Hc).
  pose proof (conf_set_small _ _ _ _ _ Hc RDX sp ltac:(done) ltac:(lia)) as H1. rewrite (conf_regs _ _ _ _ _ H1 RDX), fn_lookup_insert by done.
  pose proof (conf_set_small _ _ _ _ _ H1 RDX (sp + 16) ltac:(done) ltac:(lia)) as H2.
  pose proof (conf_load _ _ _ _ _ H2 RSI 1 fmt ltac:(done) eq_refl) as H3. change (8 * Z.of_nat 1) with 8 in H3.
  pose proof (conf_set_small _ _ _ _ _ H3 RDI buf ltac:(done) Hbuf) as H4. eexists. split; [exact H4|].
  split; [|split; [|split; [|split; [|done]]]]; [rewrite ?fn_lookup_insert_ne, fn_lookup_insert by done; done..|by rewrite fn_lookup_insert|].
  intros r N1 N2 N3. by rewrite !fn_lookup_insert_ne by done.
Qed.

Section Call.
Context (c : core) (sp ra : Z) (ws : list Z) (f : reg -> Z) (s : sreg -> Z) (buf : Z) (fmt cs : list Z).
Hypotheses (Hb : c_body_ok c_body depth) (Hc : conf c sp (ra :: ws) f s) (Hf : forall r, 0 <= f r < 18446744073709551616).
Hypotheses (Hd : 0 <= depth) (Hra : 0 <= ra1 < 18446744073709551616) (Hra2 : 0 <= ra2 < 18446744073709551616).
Hypotheses (Hsp : 64 + depth <= sp) (Hbuf : 0 <= buf) (Hroom : buf + 1024 <= sp - 56 - depth) (Hlen : Z.of_nat (length cs) < 1024).
(** The format is the string rdi points to, and the text of it and of the arguments
    is [cs], whatever is in the frame of printk. *)
Hypothesis (Htext : forall m, (forall x, x < sp - 56 \/ sp + 8 <= x -> ld8 m x = ld8 (cmem c) x) ->
  strlen sfuel m (f RDI) = Some (Z.of_nat (length fmt)) /\ bytes_at m (f RDI) (length fmt) = fmt /\
  x64_vsprintf sfuel m fmt (VaList (abi_arg (cmem c) sp f) 0) = Some (cs, m, Z.of_nat (length cs))).

(** The slots va_arg steps through are the arguments of the call. *)
Lemma gathered_slots c2 r1 f2 : conf c2 (sp - 48 - 8) ([r1; ra; f RDI; f RSI; f RDX; f RCX; f R8; f R9] ++ ws) f2 s ->
  (forall x, x < sp - 56 \/ sp + 8 <= x -> ld8 (cmem c2) x = ld8 (cmem c) x) ->
  (fun i => ld64 (cmem c2) (sp - 32 + 8 * Z.of_nat i)) = abi_arg (cmem c) sp f.
Proof.
  intros H2 Hm. apply functional_extensionality. intros i.
  assert (forall k w, (k < 5)%nat -> ([r1; ra; f RDI; f RSI; f RDX; f RCX; f R8; f R9] ++ ws) !! (k + 3)%nat = Some w ->
    ld64 (cmem c2) (sp - 32 + 8 * Z.of_nat k) = w) as Hw.
  { intros k w Hk E. destruct (conf_word _ _ _ _ _ H2 _ _ E) as [<- _]. f_equal. lia. }
  destruct i as [|[|[|[|[|j]]]]]; try (apply Hw; [lia|reflexivity]).
  cbn [abi_arg]. apply ldn_shift. intros k Hk. replace (sp - 32 + 8 * Z.of_nat (S (S (S (S (S j))))) + k) with (sp + 8 + 8 * Z.of_nat j + k) by lia.
  apply Hm. lia.
Qed.

(** Up to the return of vsprintf. *)
Lemma printed : exists c1 f1, call_vsprintf (vsprintf_args buf (gather c)) = Some c1 /\
  conf c1 (sp - 48) ([ra; f RDI; f RSI; f RDX; f RCX; f R8; f R9] ++ ws) f1 s /\ f1 RAX = Z.of_nat (length cs) /\
  (forall r, (r = RBX \/ r = RBP \/ r = R12 \/ r = R13 \/ r = R14 \/ r = R15) -> f1 r = f r) /\
  bytes_at (cmem c1) buf (length cs) = u8 <$> cs /\
  (forall x, x < buf \/ buf + 1024 <= x < sp - 56 - depth \/ sp + 8 <= x -> ld8 (cmem c1) x = ld8 (cmem c) x) /\
  gs_base c1 = gs_base c /\ kernel_gs_base c1 = kernel_gs_base c.
Proof.
  destruct (gather_spec c sp ra ws f s Hc ltac:(lia) Hf) as (H1 & M1 & G1 & K1). pose proof (conf_bound _ _ _ _ _ Hc) as [B0 B1]. cbn [length] in B1.
  destruct (vsprintf_args_spec _ _ _ _ _ _ _ buf H1 ltac:(lia) ltac:(lia)) as (f2 & H2 & E1 & E2 & E3 & F2 & M2 & G2 & K2).
  generalize dependent (vsprintf_args buf (gather c)). intros c2 H2 M2 G2 K2. unfold call_vsprintf. set (c3 := push ra1 c2).
  pose proof (conf_push _ _ _ _ _ H2 ra1 ltac:(lia)) as H3. fold c3 in H3.
  assert (forall x, x < sp - 56 \/ sp + 8 <= x -> ld8 (cmem c3) x = ld8 (cmem c) x) as M3.
  { intros x Hx. rewrite <- M1 by lia. rewrite <- M2. unfold c3, push. cbn [cmem set_mem set_reg].
    rewrite rsp_set, (conf_rsp _ _ _ _ _ H2), u64_small by lia. apply (ld8_stn_ne 8). lia. }
  assert (reg_of c3 RSI = f RDI /\ reg_of c3 RDX = sp - 32 /\ reg_of c3 RDI = buf) as (R1 & R2 & R3).
  { rewrite !(conf_regs _ _ _ _ _ H3), E1, E2, E3 by done. split; [done|split; [lia|done]]. }
  rewrite R1, R2, R3. destruct (Htext (cmem c3) M3) as (-> & Hfmt & Hv). cbn [mbind option_bind]. rewrite Nat2Z.id, Hfmt.
  assert ((fun i => ld64 (cmem c3) (sp - 32 + 8 * Z.of_nat i)) = abi_arg (cmem c) sp f) as ->.
    by (by apply gathered_slots with (u64 ra1) f2; [exact H3|]).
  rewrite Hv. cbn [mbind option_bind]. set (m := store_bytes (cmem c3) buf (cs ++ [0])).
  assert (forall x, x < buf \/ buf + 1024 <= x -> ld8 m x = ld8 (cmem c3) x) as Mm.
  { intros x Hx. apply store_bytes_out. rewrite length_app. cbn [length]. lia. }
  destruct (c_call c2 _ _ _ _ ra1 (Z.of_nat (length cs)) m Hb H2) as (f4 & H4 & A4 & F4 & M4 & G4 & K4); [lia..| |].
  { intros x Hx. apply Mm. lia. }
  exists (ret (c_body (Z.of_nat (length cs)) (set_mem m c3))), f4. split; [reflexivity|]. split; [exact H4|]. split; [exact A4|]. split; [|split; [|split; [|split]]].
  - intros r Hr. rewrite (F4 r Hr). destruct Hr as [->|[->|[->|[->|[->| ->]]]]]; rewrite F2 by done; by apply fn_lookup_insert_ne.
  - rewrite <- (store_bytes_text (cmem c3) buf cs [0]). apply bytes_at_ext. intros x Hx. apply M4. lia.
  - intros x Hx. fold c3. rewrite M4, Mm by lia. apply M3. lia.
  - transitivity (gs_base c2); [exact G4|exact (eq_trans G2 G1)].
  - transitivity (kernel_gs_base c2); [exact K4|exact (eq_trans K2 K1)].
Qed.

Hypotheses (Hready : Forall (fun v => is_transmit_empty v <> 0) lsr) (Hlsr : (length cs <= length lsr)%nat).

(** The call of the buffer's way out. *)
Lemma data_out_text m : bytes_at m buf (length cs) = u8 <$> cs ->
  data_out lsr m buf (Z.of_nat (length cs)) = Some ((fun x => (SERIAL_PORT, u8 x)) <$> cs).
Proof.
  intros E. unfold data_out, serial_printk. rewrite u32_small, Nat2Z.id, E by lia.
  rewrite serial_loop_ready by (rewrite ?length_fmap; done). f_equal. rewrite <- list_fmap_compose. apply list_fmap_ext.
  intros _ x _. unfold compose. by rewrite u8_idem.
Qed.
End Call.

(** C15: printk prints the text of its format with its arguments where the calling
    convention puts them, five in registers and the others on the stack, and
    returns to its caller with the stack, the callee's registers and the segments as
    they were; it writes its frame and the buffer. *)
Theorem printk_correct c sp ra ws f s buf fmt cs :
  c_body_ok c_body depth -> conf c sp (ra :: ws) f s -> (forall r, 0 <= f r < 18446744073709551616) ->
  0 <= depth -> 0 <= ra1 < 18446744073709551616 -> 0 <= ra2 < 18446744073709551616 -> 64 + depth <= sp ->
  0 <= buf -> buf + 1024 <= sp - 56 - depth -> Z.of_nat (length cs) < 1024 ->
  (forall m, (forall x, x < sp - 56 \/ sp + 8 <= x -> ld8 m x = ld8 (cmem c) x) ->
    strlen sfuel m (f RDI) = Some (Z.of_nat (length fmt)) /\ bytes_at m (f RDI) (length fmt) = fmt /\
    x64_vsprintf sfuel m fmt (VaList (abi_arg (cmem c) sp f) 0) = Some (cs, m, Z.of_nat (length cs))) ->
  Forall (fun v => is_transmit_empty v <> 0) lsr -> (length cs <= length lsr)%nat ->
  exists c' f', printk_asm buf c = Some (c', (fun x => (SERIAL_PORT, u8 x)) <$> cs) /\
    rip c' = ra /\ conf c' (sp + 8) ws f' s /\
    (forall r, (r = RBX \/ r = RBP \/ r = R12 \/ r = R13 \/ r = R14 \/ r = R15) -> f' r = f r) /\
    (forall x, x < buf \/ buf + 1024 <= x < sp - 56 - depth \/ sp + 8 <= x -> ld8 (cmem c') x = ld8 (cmem c) x) /\
    gs_base c' = gs_base c /\ kernel_gs_base c' = kernel_gs_base c.
Proof.
  intros Hb Hc Hf Hd Hra Hra2 Hsp Hbuf Hroom Hlen Htext Hready Hlsr.
  destruct (printed c sp ra ws f s buf fmt cs Hb Hc Hf Hd Hra Hsp Hbuf Hroom Hlen Htext) as (c1 & f1 & E1 & H1 & A1 & F1 & T1 & M1 & G1 & K1).
  pose proof (conf_bound _ _ _ _ _ H1) as [B0 B1]. cbn [length app] in B1. unfold printk_asm. rewrite E1. cbn [mbind option_bind].
  unfold mov. rewrite (conf_regs _ _ _ _ _ H1 RAX), A1 by done.
  pose proof (conf_set_small _ _ _ _ _ H1 RSI (Z.of_nat (length cs)) ltac:(done) ltac:(lia)) as H2.
  pose proof (conf_set_small _ _ _ _ _ H2 RDI buf ltac:(done) ltac:(lia)) as H3. set (c3 := set_reg RDI buf _) in *.
  assert (cmem c3 = cmem c1 /\ gs_base c3 = gs_base c1 /\ kernel_gs_base c3 = kernel_gs_base c1) as (M3 & G3 & K3) by done. clearbody c3.
  unfold call_data_out. set (c4 := push ra2 c3).
  pose proof (conf_push _ _ _ _ _ H3 ra2 ltac:(lia)) as H4. fold c4 in H4.
  rewrite (conf_regs _ _ _ _ _ H4 RDI), (conf_regs _ _ _ _ _ H4 RSI), !fn_lookup_insert, fn_lookup_insert_ne, fn_lookup_insert by done.
  assert (forall x, x < sp - 56 \/ sp - 48 <= x -> ld8 (cmem c4) x = ld8 (cmem c1) x) as M4.
  { intros x Hx. rewrite <- M3. unfold c4, push. cbn [cmem set_mem set_reg]. rewrite rsp_set, (conf_rsp _ _ _ _ _ H3), u64_small by lia.
    apply (ld8_stn_ne 8). lia. }
  assert (bytes_at (cmem c4) buf (length cs) = u8 <$> cs) as T4.
  { rewrite <- T1. apply bytes_at_ext. intros x Hx. apply M4. lia. }
  rewrite (data_out_text buf cs Hlen Hready Hlsr _ T4). cbn [mbind option_bind].
  destruct (c_call c3 _ _ _ _ ra2 0 (cmem c4) Hb H3) as (f5 & H5 & _ & F5 & M5 & G5 & K5); [lia..|done|].
  fold c4 in H5, M5, G5, K5. replace (set_mem (cmem c4) c4) with c4 in * by (by destruct c4).
  set (c5 := ret (c_body 0 c4)) in *. cbn [app] in H5. destruct (scatter_spec _ _ _ _ _ _ _ _ _ _ _ _ H5) as (H6 & R6 & M6).
  eexists _, _. split; [reflexivity|]. split; [exact R6|]. split; [exact H6|]. split; [|split; [|split]].
  - intros r Hr. rewrite <- (F1 r Hr). transitivity (f5 r); [|rewrite (F5 r Hr)];
      destruct Hr as [->|[->|[->|[->|[->| ->]]]]]; by rewrite ?fn_lookup_insert_ne by done.
  - intros x Hx. rewrite M6, M5, M4 by lia. by apply M1.
  - transitivity (gs_base c5); [reflexivity|]. exact (eq_trans G5 (eq_trans G3 G1)).
  - transitivity (kernel_gs_base c5); [reflexivity|]. exact (eq_trans K5 (eq_trans K3 K1)).
Qed.

(** printf gives its text to write with the file number 0. *)
Lemma printf_calls_write write c sp ra ws f s buf fmt cs :
  c_body_ok c_body depth -> conf c sp (ra :: ws) f s -> (forall r, 0 <= f r < 18446744073709551616) ->
  0 <= depth -> 0 <= ra1 < 18446744073709551616 -> 0 <= ra2 < 18446744073709551616 -> 64 + depth <= sp ->
  0 <= buf -> buf + 1024 <= sp - 56 - depth -> Z.of_nat (length cs) < 1024 ->
  (forall m, (forall x, x < sp - 56 \/ sp + 8 <= x -> ld8 m x = ld8 (cmem c) x) ->
    strlen sfuel m (f RDI) = Some (Z.of_nat (length fmt)) /\ bytes_at m (f RDI) (length fmt) = fmt /\
    x64_vsprintf sfuel m fmt (VaList (abi_arg (cmem c) sp f) 0) = Some (cs, m, Z.of_nat (length cs))) ->
  exists c1 f1, printf_asm write buf c =
      (r ← write 0 buf (Z.of_nat (length cs)) c1; let '(_, c, ws) := r in Done (scatter (ret c), ws)) /\
    conf c1 (sp - 56) (ra2 :: [ra; f RDI; f RSI; f RDX; f RCX; f R8; f R9] ++ ws) f1 s /\
    bytes_at (cmem c1) buf (length cs) = u8 <$> cs.
Proof.
  intros Hb Hc Hf Hd Hra Hra2 Hsp Hbuf Hroom Hlen Htext.
  destruct (printed c sp ra ws f s buf fmt cs Hb Hc Hf Hd Hra Hsp Hbuf Hroom Hlen Htext) as (c1 & f1 & E1 & H1 & A1 & F1 & T1 & M1 & _).
  pose proof (conf_bound _ _ _ _ _ H1) as [B0 B1]. unfold printf_asm. rewrite E1. unfold mov. rewrite (conf_regs _ _ _ _ _ H1 RAX), A1 by done.
  pose proof (conf_set_small _ _ _ _ _ H1 RDX (Z.of_nat (length cs)) ltac:(done) ltac:(lia)) as H2.
  pose proof (conf_set_small _ _ _ _ _ H2 RSI buf ltac:(done) ltac:(lia)) as H3.
  pose proof (conf_set_small _ _ _ _ _ H3 RDI 0 ltac:(done) ltac:(lia)) as H4. set (c4 := set_reg RDI 0 _) in *.
  assert (cmem c4 = cmem c1) as M4 by done. clearbody c4. pose proof (conf_push _ _ _ _ _ H4 ra2 ltac:(lia)) as H5.
  rewrite u64_small in H5 by done. replace (sp - 48 - 8) with (sp - 56) in H5 by lia.
  assert (forall x, x < sp - 56 -> ld8 (cmem (push ra2 c4)) x = ld8 (cmem c1) x) as M5.
  { intros x Hx. rewrite <- M4. unfold push. cbn [cmem set_mem set_reg]. rewrite rsp_set, (conf_rsp _ _ _ _ _ H4), u64_small by lia.
    apply (ld8_stn_ne 8). lia. }
  set (c5 := push ra2 c4) in *. clearbody c5. cbv zeta.
  rewrite (conf_regs _ _ _ _ _ H5 RDI), (conf_regs _ _ _ _ _ H5 RSI), (conf_regs _ _ _ _ _ H5 RDX) by done.
  rewrite fn_lookup_insert, fn_lookup_insert_ne, fn_lookup_insert, !fn_lookup_insert_ne, fn_lookup_insert by done.
  exists c5. eexists. split; [reflexivity|]. split; [exact H5|]. rewrite <- T1. apply bytes_at_ext. intros x Hx. apply M5. lia.
Qed.
End PrintAsm.

(** ** A call *)

(** printk("%d", 7) with the format at 0x2000, the buffer at 0x3000, the stack at
    0x5000. *)
Definition demo_caller : core :=
  Core (fun r => match r with RSP => 0x5000 | RDI => 0x2000 | RSI => 7 | _ => 1 end) (fun _ => 0x10) 0 0 0x202 0x4000
    (st64 (st8 (st8 ∅ 0x2000 37) 0x2001 100) 0x5000 0x1234).

Lemma demo_caller_conf : conf demo_caller 0x5000 [0x1234] (reg_of demo_caller) (sreg_of demo_caller).
Proof. split; [done| |done|done]. split; [|by vm_compute]. by vm_compute. Qed.

Lemma demo_text m : (forall x, x < 0x5000 - 56 \/ 0x5000 + 8 <= x -> ld8 m x = ld8 (cmem demo_caller) x) ->
  strlen 8 m 0x2000 = Some (Z.of_nat 2) /\ bytes_at m 0x2000 2 = [37; 100] /\
  x64_vsprintf 8 m [37; 100] (VaList (abi_arg (cmem demo_caller) 0x5000 (reg_of demo_caller)) 0) = Some ([55], m, Z.of_nat 1).
Proof.
  intros Hm. pose proof (Hm 0x2000 ltac:(lia)) as H0. pose proof (Hm 0x2001 ltac:(lia)) as H1. pose proof (Hm 0x2002 ltac:(lia)) as H2.
  split; [|split; [|reflexivity]].
  - unfold strlen. cbn [find_eos]. unfold ldc. change (0x2000 + 1) with 0x2001. change (0x2001 + 1) with 0x2002.
    rewrite H0, H1, H2. reflexivity.
  - cbn [bytes_at]. change (0x2000 + 1) with 0x2001. by rewrite H0, H1.
Qed.

Lemma printk_correct_witness : exists c' f',
  printk_asm demo_body 0x7150 0x7160 8 [32] 0x3000 demo_caller = Some (c', [(SERIAL_PORT, 55)]) /\ rip c' = 0x1234 /\
  conf c' 0x5008 [] f' (sreg_of demo_caller).
Proof.
  pose proof (printk_correct demo_body 0 0x7150 0x7160 8 [32] demo_caller 0x5000 0x1234 [] (reg_of demo_caller) (sreg_of demo_caller)
    0x3000 [37; 100] [55] demo_body_ok demo_caller_conf ltac:(intros r; by destruct r) ltac:(lia) ltac:(lia) ltac:(lia) ltac:(lia)
    ltac:(lia) ltac:(lia) ltac:(cbn; lia) demo_text ltac:(by repeat constructor) ltac:(cbn; lia)) as (c' & f' & E & R & C & _).
  exists c', f'. split; [exact E|]. split; [exact R|exact C].
Defined.
