(* ===== verification/ExcEntry.v ===== *)
(** The ways into the exception reports: x64_kenerl/asm/interrupt.asm over the
    processor of [Asm], from what the processor does at an exception to the arguments
    of the C functions of [Exception]; the handlers of the test messages between
    processors in x64_kenerl/asm/apic_interrupts.asm. *)

From stdpp Require Import functions.
From S2P Require Import Prelude Mem BitField CString PageAlloc Alloc Gdt Lapic Cpu Vsprintf Printk Asm Context Exception Syscall PrintAsm.
#[local] Open Scope string_scope.
#[local] Open Scope list_scope.
#[local] Open Scope Z_scope.
#[local] Open Scope kernel_scope.

(** ** What the processor does *)

(** The vectors with an error code. *)
Definition has_code (v : Z) : bool := bool_decide (v ∈ [8; 10; 11; 12; 13; 14; 17; 21]).

(** An exception or interrupt through a gate of the segment [cs] to [handler]: the
    stack is the level's own, aligned, or from the task segment when the level
    changes ([outer]); the gate clears the interrupt flag. *)
Definition deliver (outer : option Z) (cs handler : Z) (code : option Z) (c : core) : core :=
  let old_ss := sreg_of c SS in
  let old_rsp := rsp c in
  let top := match outer with Some esp0 => esp0 | None => 16 * (rsp c / 16) end in
  let c' := push old_ss (set_reg RSP top c) in
  let c' := push old_rsp c' in
  let c' := push (rflags c) c' in
  let c' := push (sreg_of c CS) c' in
  let c' := push (rip c) c' in
  let c' := match code with Some e => push e c' | None => c' end in
  let c' := match outer with Some _ => set_sreg SS 0 c' | None => c' end in
  set_rip handler (set_sreg CS cs (set_rflags (Z.clearbit (rflags c) 9) c')).

(** ** interrupt.asm *)

(** The processor goes on, or it stays in [jmp $]. *)
Inductive after := Back (c : core) | Hangs (c : core).

Section Entries.
(** The number of the processor, and the address behind a call. *)
Context (cpu ra : Z).

(** The C function with its arguments in rdi, rsi and rdx, the first a u32. *)
Definition call_report (report : Z -> Z -> Z -> Z -> list event) (c : core) : list event * core :=
  (report cpu (u32 (reg_of c RDI)) (reg_of c RSI) (reg_of c RDX), push ra c).

(** [cli; jmp $] *)
Definition halt (c : core) : after := Hangs (set_rflags (Z.clearbit (rflags c) 9) c).

Definition _inter_entry (c : core) : list event * after :=
  let c := mov RDX RSI c in
  let c := mov RSI RSP c in
  let c := load RDI (rsp c) c in
  let '(l, c) := call_report handle_normal_errcode c in
  (l, halt c).
(** Those that do not leave their number to [_inter_entry]. *)
Definition own_entry (id : Z) (report : Z -> Z -> Z -> Z -> list event) (c : core) : list event * after :=
  let c := set_reg RDX id c in
  let c := mov RSI RSP c in
  let c := load RDI (rsp c) c in
  let '(l, c) := call_report report c in
  (l, halt c).
Definition inter_entry (id : Z) (c : core) : list event * after :=
  if id =? 14 then own_entry 14 handle_PF_errcode c
  else if id =? 21 then own_entry 21 handle_CP_errcode c
  else _inter_entry (set_reg RSI id c).

(** Every vector without an entry of its own: a line, and the processor stays. *)
Definition general_interrupt_handler (msg : Z) (c : core) : list event * after :=
  ([say "general_interrupt_msg."], Hangs (push ra (set_reg RDI msg c))).
Definition clock_handler_entry (c : core) : list event * after := ([], Back (iretq c)).
End Entries.

(** ** apic_interrupts.asm *)

Section Ipi.
(** What a C function leaves, up to its ret; the address behind a call. *)
Context (dev : list (Z * Z) -> Z -> Z) (c_body : Z -> core -> core) (ra : Z).
Definition call_c (v : Z) (c : core) : core := ret (c_body v (push ra c)).

(** The two test handlers, with their message: what is printed, the local APIC, and
    how it ends.  [v] is what printk leaves in rax. *)
Definition IPI_TEST_handler_entry (fmt : string) (msg v : Z) (p : proc) (c : core) : list event * proc * after :=
  let c := call_c (get_lapic_id dev p) c in
  let c := mov RSI RAX c in
  let c := set_reg RDI msg c in
  let l := [Say fmt [reg_of c RSI]] in
  let c := call_c v c in
  let '(r, p) := lapic_send_eoi p in
  let c := call_c r c in
  (l, p, Back (iretq c)).
Definition ipi_test_interrupt_msg : string := "ipi_test_interrupt_msg apic id %d.".
Definition ipi_test_interrupt_msg1 : string := "ipi_test_interrupt_msg1 apic id %d.".
Definition IPI_TEST_handler_entry1 : Z -> Z -> proc -> core -> list event * proc * after :=
  IPI_TEST_handler_entry ipi_test_interrupt_msg1.
End Ipi.

(** ** Theorems *)

(** The words an exception leaves on the stack. *)
Definition frame (code : option Z) (c : core) : list Z :=
  match code with Some e => [e] | None => [] end ++ [rip c; sreg_of c CS; rflags c; rsp c; sreg_of c SS].

Definition frame_top (outer : option Z) (c : core) : Z :=
  match outer with Some esp0 => esp0 | None => 16 * (rsp c / 16) end.

(** A processor whose registers hold what they can hold, with a stack of [top] below
    2^64 for the exception. *)
Record can_take (outer : option Z) (code : option Z) (c : core) : Prop := {
  ct_ok : core_ok c;
  ct_rip : 0 <= rip c < 18446744073709551616;
  ct_flags : 0 <= rflags c < 18446744073709551616;
  ct_code : match code with Some e => 0 <= e < 4294967296 | None => True end;
  ct_top : 56 <= frame_top outer c < 18446744073709551616 - 8
}.

Lemma frame_pushed code top c : let c' := set_reg RSP top c in
  core_ok c -> 0 <= rip c < 18446744073709551616 -> 0 <= rflags c < 18446744073709551616 ->
  match code with Some e => 0 <= e < 4294967296 | None => True end -> 56 <= top < 18446744073709551616 - 8 ->
  conf (let c2 := push (rip c) (push (sreg_of c CS) (push (rflags c) (push (rsp c) (push (sreg_of c SS) c')))) in
        match code with Some e => push e c2 | None => c2 end)
    (top - 8 * Z.of_nat (length (frame code c))) (frame code c) (reg_of c) (sreg_of c).
Proof.
  intros c' [Hr Hs] Hrip Hfl Hcode Htop.
  assert (conf c' top [] (reg_of c) (sreg_of c)) as H0.
  { split; [unfold c'; rewrite rsp_set, u64_small; lia| | |done].
    - unfold stack_is, c'. rewrite rsp_set, u64_small by lia. cbn. lia.
    - intros r Hr'. by apply reg_set_ne. }
  pose proof (Hs SS) as Bss. pose proof (Hs CS) as Bcs. pose proof (Hr RSP) as Bsp. fold (rsp c) in Bsp.
  pose proof (conf_push _ _ _ _ _ H0 (sreg_of c SS) ltac:(lia)) as H1.
  pose proof (conf_push _ _ _ _ _ H1 (rsp c) ltac:(lia)) as H2.
  pose proof (conf_push _ _ _ _ _ H2 (rflags c) ltac:(lia)) as H3.
  pose proof (conf_push _ _ _ _ _ H3 (sreg_of c CS) ltac:(lia)) as H4.
  pose proof (conf_push _ _ _ _ _ H4 (rip c) ltac:(lia)) as H5.
  rewrite !u64_small in H5 by lia. destruct code as [e|]; cbn [frame app length].
  - pose proof (conf_push _ _ _ _ _ H5 e ltac:(lia)) as H6. rewrite u64_small in H6 by lia.
    replace (top - 8 * Z.of_nat 6) with (top - 8 - 8 - 8 - 8 - 8 - 8) by lia. exact H6.
  - replace (top - 8 * Z.of_nat 5) with (top - 8 - 8 - 8 - 8 - 8) by lia. exact H5.
Qed.

Lemma conf_set_rflags c sp ws f s v : conf c sp ws f s -> conf (set_rflags v c) sp ws f s.
Proof. intros [H1 H2 H3 H4]. by split. Qed.

(** What the handler starts with: the frame on its stack, the registers of the
    interrupted code. *)
Lemma deliver_conf outer cs handler code c : can_take outer code c -> exists s,
  conf (deliver outer cs handler code c) (frame_top outer c - 8 * Z.of_nat (length (frame code c))) (frame code c) (reg_of c) s /\
  rflags (deliver outer cs handler code c) = Z.clearbit (rflags c) 9 /\
  rip (deliver outer cs handler code c) = handler /\ s CS = u16 cs /\
  forall x, x <> CS -> x <> SS -> s x = sreg_of c x.
Proof.
  intros [Hok Hrip Hfl Hcode Htop]. pose proof (frame_pushed code (frame_top outer c) c Hok Hrip Hfl Hcode Htop) as H.
  cbv zeta in H. unfold deliver, frame_top in *. set (c1 := match code with Some e => _ | None => _ end) in *.
  destruct outer as [esp0|]; cbv zeta.
  - eexists. split; [apply conf_set_rip, conf_set_sreg, conf_set_rflags; apply (conf_set_sreg _ _ _ _ _ H SS 0)|].
    split; [done|]. split; [done|]. split; [by rewrite fn_lookup_insert|].
    intros x H1 H2. by rewrite !fn_lookup_insert_ne by congruence.
  - eexists. split; [apply conf_set_rip, conf_set_sreg, conf_set_rflags; exact H|]. split; [done|]. split; [done|].
    split; [by rewrite fn_lookup_insert|]. intros x H1 H2. by rewrite fn_lookup_insert_ne by congruence.
Qed.

(** The three arguments of a report: the first word of the stack, its place, the
    vector. *)
Lemma call_report_spec cpu ra report c sp w ws f s :
  conf c sp (w :: ws) f s -> 8 <= sp ->
  fst (call_report cpu ra report (load RDI (rsp (mov RSI RSP c)) (mov RSI RSP c))) =
    report cpu (u32 w) sp (f RDX).
Proof.
  intros Hc H8. pose proof (conf_bound _ _ _ _ _ Hc) as [Hb0 Hb1]. cbn [length] in Hb1.
  pose proof (conf_rsp _ _ _ _ _ Hc) as Er. destruct (conf_word _ _ _ _ _ Hc 0 w eq_refl) as [Ew Hw].
  change (8 * Z.of_nat 0) with 0 in Ew. rewrite Z.add_0_r in Ew.
  unfold call_report. cbn [fst]. unfold load.
  replace (rsp (mov RSI RSP c)) with (rsp c) by (symmetry; by apply reg_set_ne).
  rewrite reg_set_eq, !reg_set_ne by done. unfold mov. rewrite reg_set_eq, reg_set_ne by done.
  fold (rsp c). cbn [set_reg cmem]. rewrite Er, (u64_small sp), Ew, (u64_small w) by lia.
  by rewrite (conf_regs _ _ _ _ _ Hc) by done.
Qed.

(** The report made for each vector. *)
Definition report_of (v : Z) : Z -> Z -> Z -> Z -> list event :=
  if v =? 14 then handle_PF_errcode else if v =? 21 then handle_CP_errcode else handle_normal_errcode.

Lemma inter_entry_spec cpu ra v c sp w ws f s :
  conf c sp (w :: ws) f s -> 8 <= sp -> 0 <= v <= 21 -> rflags c = Z.clearbit (rflags c) 9 ->
  fst (inter_entry cpu ra v c) = report_of v cpu (u32 w) sp v /\
  exists c', snd (inter_entry cpu ra v c) = Hangs c' /\ Z.testbit (rflags c') 9 = false.
Proof.
  intros Hc H8 Hv Hfl.
  assert (forall (r : Z -> Z -> Z -> Z -> list event) c0, conf c0 sp (w :: ws) (<[RDX := v]> f) s \/ conf c0 sp (w :: ws) (<[RDX := v]> (<[RSI := v]> f)) s ->
    fst (call_report cpu ra r (load RDI (rsp (mov RSI RSP c0)) (mov RSI RSP c0))) = r cpu (u32 w) sp v) as Hcall.
  { intros r c0 [H|H]; rewrite (call_report_spec _ _ _ _ _ _ _ _ _ H H8); by rewrite fn_lookup_insert. }
  assert (forall c0, Z.testbit (rflags (set_rflags (Z.clearbit (rflags c0) 9) c0)) 9 = false) as Hif
    by (intros c0; apply Z.clearbit_eq).
  unfold inter_entry, report_of, own_entry, _inter_entry, halt.
  destruct (Z.eqb_spec v 14) as [->|N1]; [|destruct (Z.eqb_spec v 21) as [->|N2]].
  - split; [|by eexists]. apply Hcall. left. apply conf_set_small; [exact Hc|done|lia].
  - split; [|by eexists]. apply Hcall. left. apply conf_set_small; [exact Hc|done|lia].
  - split; [|by eexists]. apply Hcall. right.
    pose proof (conf_set_small _ _ _ _ _ Hc RSI v ltac:(done) ltac:(lia)) as H1.
    unfold mov. rewrite (conf_regs _ _ _ _ _ H1) by done. rewrite fn_lookup_insert.
    apply conf_set_small; [exact H1|done|lia].
Qed.

(** C26: From an exception of any vector below 22, in kernel or user code, to its report:
    the processor stays in the entry with interrupts off, and the report is made with
    the number of the vector and the frame's address.  It gives the error code for
    the vectors that have one; for the others what it calls the code is the low half
    of the address of the interrupted instruction. *)
Theorem exception_report_correct cpu ra outer cs handler v e c :
  let code := if has_code v then Some e else None in
  0 <= v <= 21 -> can_take outer code c ->
  let c1 := deliver outer cs handler code c in
  let stack := frame_top outer c - (if has_code v then 48 else 40) in
  fst (inter_entry cpu ra v c1) = report_of v cpu (if has_code v then e else u32 (rip c)) stack v /\
  words_at (cmem c1) stack (frame code c) /\
  exists c', snd (inter_entry cpu ra v c1) = Hangs c' /\ Z.testbit (rflags c') 9 = false.
Proof.
  intros code Hv Ht c1 stack. destruct (deliver_conf outer cs handler code c Ht) as (s & Hc & Hfl & _). fold c1 in Hc, Hfl.
  assert (frame_top outer c - 8 * Z.of_nat (length (frame code c)) = stack) as Es
    by (unfold stack, code; destruct (has_code v); cbn [frame app length]; lia). rewrite Es in Hc.
  assert (8 <= stack) as H8 by (unfold stack; destruct Ht as [_ _ _ _ Htop]; destruct (has_code v); lia).
  assert (rflags c1 = Z.clearbit (rflags c1) 9) as Hf9.
  { rewrite Hfl. apply Z.bits_inj'. intros i Hi. destruct (Z.eq_dec i 9) as [->|Hn]; [by rewrite !Z.clearbit_eq|].
    by rewrite !Z.clearbit_neq by lia. }
  destruct (conf_stack _ _ _ _ _ Hc) as (Hw & _). rewrite (conf_rsp _ _ _ _ _ Hc) in Hw.
  destruct Ht as [_ _ _ Hcode _]. clearbody c1. unfold code in *. clear code.
  destruct (has_code v); cbn [frame app] in Hc;
    destruct (inter_entry_spec cpu ra v c1 _ _ _ _ _ Hc H8 Hv Hf9) as [E H]; rewrite E; [rewrite u32_small by lia|]; done.
Qed.

Definition demo_core : core :=
  Core (fun r => match r with RSP => 0x8037 | _ => 7 end) (fun r => match r with CS => 0x18 | _ => 0x20 end) 0 0 0x202 0x101234 ∅.
Lemma demo_can_take outer : match outer with Some t => t = 0x7000 | None => True end -> forall code,
  match code with Some e => e = 3 | None => True end -> can_take outer code demo_core.
Proof.
  intros Ho code Hc. split; [split|cbn..].
  - intros r. destruct r; cbn; lia.
  - intros r. destruct r; cbn; lia.
  - lia.
  - lia.
  - destruct code; [lia|done].
  - destruct outer as [t|]; cbn; [lia|]. change (0x8037 / 16) with 0x803. lia.
Qed.
(** A page fault in kernel code, and a division by zero in user code. *)
Lemma exception_report_correct_witness :
  fst (inter_entry 2 0x100100 14 (deliver None 0x18 0x100000 (Some 3) demo_core)) = handle_PF_errcode 2 3 0x8000 14 /\
  fst (inter_entry 2 0x100100 0 (deliver (Some 0x7000) 0x18 0x100000 None demo_core)) =
    handle_normal_errcode 2 0x101234 0x6fd8 0.
Proof.
  split.
  - exact (proj1 (exception_report_correct 2 0x100100 None 0x18 0x100000 14 3 demo_core ltac:(lia) (demo_can_take None I (Some 3) eq_refl))).
  - exact (proj1 (exception_report_correct 2 0x100100 (Some 0x7000) 0x18 0x100000 0 3 demo_core ltac:(lia) (demo_can_take (Some 0x7000) eq_refl None I))).
Defined.

(** The way back from a frame without an error code. *)
Lemma iretq_back outer c c1 sp f s : can_take outer None c -> conf c1 sp (frame None c) f s ->
  (forall x, x <> CS -> x <> SS -> s x = sreg_of c x) ->
  rip (iretq c1) = rip c /\ rflags (iretq c1) = rflags c /\ rsp (iretq c1) = rsp c /\
  (forall x, sreg_of (iretq c1) x = sreg_of c x) /\ forall r, r <> RSP -> reg_of (iretq c1) r = f r.
Proof.
  intros Ht Hc Hs. cbn [frame app] in Hc. destruct (iretq_spec _ _ _ _ _ _ _ _ _ _ Hc) as (I0 & I1 & I2 & I3 & I4 & _ & I6).
  destruct Ht as [[_ Hsr] _ _ _ _]. do 3 (split; [done|]). split.
  - intros x. pose proof (Hsr CS). pose proof (Hsr SS). destruct (decide (x = CS)) as [->|H1]; [by rewrite I1, u16_small|].
    destruct (decide (x = SS)) as [->|H2]; [by rewrite I4, u16_small|]. rewrite I6 by done. by apply Hs.
  - intros r Hr. unfold iretq. rewrite reg_set_ne by congruence. cbn [set_sreg set_rflags set_rip reg_of].
    by apply (conf_regs _ _ _ _ _ Hc).
Qed.

(** The clock's handler returns at once: the interrupted code goes on unchanged, in
    its segments, on its stack, with its flags and registers. *)
Theorem clock_interrupt_roundtrip outer cs handler c : can_take outer None c ->
  exists c', clock_handler_entry (deliver outer cs handler None c) = ([], Back c') /\
    rip c' = rip c /\ rflags c' = rflags c /\ (forall r, reg_of c' r = reg_of c r) /\
    (forall x, sreg_of c' x = sreg_of c x).
Proof.
  intros Ht. destruct (deliver_conf outer cs handler None c Ht) as (s & Hc & _ & _ & _ & Hs).
  destruct (iretq_back outer c _ _ _ _ Ht Hc Hs) as (I0 & I2 & I3 & I4 & I5).
  eexists. split; [reflexivity|]. do 2 (split; [done|]). split; [|done].
  intros r. destruct (decide (r = RSP)) as [->|Hr]; [exact I3|by apply I5].
Qed.

Section IpiCorrect.
Context (c_body : Z -> core -> core) (depth ra : Z).
Context (Hb : c_body_ok c_body depth) (Hd : 0 <= depth) (Hra : 0 <= ra < 18446744073709551616).

Lemma call_c_conf c sp ws f s v : conf c sp ws f s -> 8 + depth <= sp -> 0 <= v < 18446744073709551616 -> exists f',
  conf (call_c c_body ra v c) sp ws f' s /\ f' RAX = v /\
  forall r, (r = RBX \/ r = RBP \/ r = R12 \/ r = R13 \/ r = R14 \/ r = R15) -> f' r = f r.
Proof.
  intros Hc Hsp Hv. destruct (c_call c_body depth c sp ws f s ra v (cmem (push ra c)) Hb Hc Hsp Hd Hra Hv) as (f' & H & H1 & H2 & _);
    [done|]. exists f'. split; [exact H|by split].
Qed.

Lemma get_lapic_id_small dev p : 0 <= get_lapic_id dev p < 18446744073709551616.
Proof.
  unfold get_lapic_id, reg_read, u32. rewrite Z.shiftr_div_pow2 by lia. change (2 ^ 24) with 16777216.
  pose proof (Z.mod_pos_bound (dev (writes p) (get_apic_register_addr p LAPIC_ID_OFFSET_L)) 4294967296 ltac:(lia)). zlia.
Qed.

(** A message between processors prints the processor's number and goes back to the
    interrupted instruction with its flags, stack, segments and the registers a C
    function keeps.  The others are not saved: rax is 0, whatever it held. *)
Theorem ipi_test_loses_registers dev fmt msg v outer cs handler p c :
  can_take outer None c -> 56 + depth <= frame_top outer c -> 0 <= v < 18446744073709551616 -> exists c',
  IPI_TEST_handler_entry dev c_body ra fmt msg v p (deliver outer cs handler None c) =
    ([Say fmt [get_lapic_id dev p]], snd (lapic_send_eoi p), Back c') /\
  rip c' = rip c /\ rflags c' = rflags c /\ rsp c' = rsp c /\ (forall x, sreg_of c' x = sreg_of c x) /\
  (forall r, (r = RBX \/ r = RBP \/ r = R12 \/ r = R13 \/ r = R14 \/ r = R15) -> reg_of c' r = reg_of c r) /\
  reg_of c' RAX = 0.
Proof.
  intros Ht Hroom Hv. destruct (deliver_conf outer cs handler None c Ht) as (s & Hc & _ & _ & _ & Hs).
  set (c0 := deliver _ _ _ _ _) in *. clearbody c0. pose proof (get_lapic_id_small dev p) as Hid.
  change (8 * Z.of_nat (length (frame None c))) with 40 in Hc.
  destruct (call_c_conf _ _ _ _ _ (get_lapic_id dev p) Hc ltac:(lia) Hid) as (f1 & H1 & A1 & S1).
  unfold IPI_TEST_handler_entry, mov. rewrite (conf_regs _ _ _ _ _ H1), A1 by done.
  pose proof (conf_set_small _ _ _ _ _ H1 RSI (get_lapic_id dev p) ltac:(done) Hid) as H2.
  pose proof (conf_set _ _ _ _ _ H2 RDI msg ltac:(done)) as H3.
  cbv zeta. rewrite (conf_regs _ _ _ _ _ H3), fn_lookup_insert_ne, fn_lookup_insert by done.
  destruct (call_c_conf _ _ _ _ _ v H3 ltac:(lia) Hv) as (f4 & H4 & _ & S4). cbn [lapic_send_eoi fst snd].
  destruct (call_c_conf _ _ _ _ _ 0 H4 ltac:(lia) ltac:(lia)) as (f5 & H5 & A5 & S5).
  destruct (iretq_back outer c _ _ _ _ Ht H5 Hs) as (I0 & I2 & I3 & I4 & I5).
  eexists. split; [reflexivity|]. do 4 (split; [done|]). split; [|by rewrite I5].
  intros r Hr. assert (r <> RSP) as Hn by naive_solver. rewrite I5 by done. rewrite S5, S4 by done.
  rewrite !fn_lookup_insert_ne by naive_solver. by apply S1.
Qed.
End IpiCorrect.
