(* ===== verification/Spinlock.v ===== *)
(** Spin locks of the 64-bit kernel: x64_kenerl/asm/spinlock.asm, one step per
    instruction that other processors can come between, on a doubleword of the
    memory the processors share. *)

From stdpp Require Import relations.
From S2P Require Import Prelude Mem.

(** ** Data *)

(** Where a processor is: outside; at [mov eax, 1]; at [xchg]; at the test, with
    what it got in eax; at [pause]; behind spin_lock, with the lock. *)
Inductive lock_pc := Outside | Begin | Exchange | Tested (eax : Z) | Pausing | Inside.
#[export] Instance lock_pc_eq_dec : EqDecision lock_pc.
Proof. solve_decision. Defined.

Record lock_state := LockState { lmem : mem; pcs : list lock_pc }.

Section Spinlock.
(** The lock's address. *)
Context (handle : Z).

(** ** spinlock.asm *)

Definition spin_lock_init (m : mem) : mem := st32 m handle 0.
Definition spin_lock_destroy (m : mem) : mem := st32 m handle 0.
Definition spin_unlock (m : mem) : mem := st32 m handle 0.

(** One instruction of [spin_lock] of a processor that is in it. *)
Definition spin_lock_step (m : mem) (pc : lock_pc) : option (mem * lock_pc) :=
  match pc with
  | Begin => Some (m, Exchange)
  | Exchange => Some (st32 m handle 1, Tested (ld32 m handle))
  | Tested eax => Some (m, if eax =? 0 then Inside else Pausing)
  | Pausing => Some (m, Begin)
  | Outside | Inside => None
  end.

Definition set_pc (s : lock_state) (m : mem) (i : nat) (pc : lock_pc) : lock_state := LockState m (<[i := pc]> (pcs s)).

Inductive lock_step : relation lock_state :=
| step_enter s i : pcs s !! i = Some Outside -> lock_step s (set_pc s (lmem s) i Begin)
| step_lock s i pc m pc' : pcs s !! i = Some pc -> spin_lock_step (lmem s) pc = Some (m, pc') ->
    lock_step s (set_pc s m i pc')
| step_unlock s i : pcs s !! i = Some Inside -> lock_step s (set_pc s (spin_unlock (lmem s)) i Outside).

(** ** The invariant *)

(** The processor has the lock, or is about to see that it has. *)
Definition holds (pc : lock_pc) : Prop := pc = Inside \/ pc = Tested 0.

(** The word is 0 and nobody has the lock, or it is 1 and one processor has. *)
Definition lock_ok (s : lock_state) : Prop :=
  (ld32 (lmem s) handle = 0 /\ forall i pc, pcs s !! i = Some pc -> ~ holds pc) \/
  (ld32 (lmem s) handle = 1 /\ exists i pc, pcs s !! i = Some pc /\ holds pc /\
     forall j pc', pcs s !! j = Some pc' -> holds pc' -> j = i).

Lemma set_pc_lookup s m i pc pc0 j pc' :
  pcs s !! i = Some pc0 -> pcs (set_pc s m i pc) !! j = Some pc' ->
  j = i /\ pc' = pc \/ j <> i /\ pcs s !! j = Some pc'.
Proof.
  intros Hi. cbn. destruct (decide (j = i)) as [->|Hne].
  - rewrite list_lookup_insert_eq by (by eapply lookup_lt_Some). intros [= ->]. by left.
  - rewrite list_lookup_insert_ne by done. by right.
Qed.

Lemma set_pc_self s m i pc pc0 : pcs s !! i = Some pc0 -> pcs (set_pc s m i pc) !! i = Some pc.
Proof. intros Hi. cbn. apply list_lookup_insert_eq. by eapply lookup_lt_Some. Qed.

(** A step that leaves the word and who has the lock as they were. *)
Lemma lock_ok_same s m i pc pc0 :
  lock_ok s -> pcs s !! i = Some pc0 -> ld32 m handle = ld32 (lmem s) handle -> (holds pc <-> holds pc0) ->
  lock_ok (set_pc s m i pc).
Proof.
  intros Hok Hi Hm Hh. destruct Hok as [[Hw Hn]|[Hw (k & pck & Hk & Hhk & Hu)]].
  - left. cbn [lmem set_pc]. split; [congruence|]. intros j pc' Hj Hp.
    destruct (set_pc_lookup _ _ _ _ _ _ _ Hi Hj) as [[-> ->]|[_ Hj']]; [|by eapply Hn].
    by eapply (Hn i pc0 Hi), Hh.
  - right. cbn [lmem set_pc]. split; [congruence|].
    assert (forall j pc', pcs (set_pc s m i pc) !! j = Some pc' -> holds pc' -> j = k) as Huniq.
    { intros j pc' Hj Hp. destruct (set_pc_lookup _ _ _ _ _ _ _ Hi Hj) as [[-> ->]|[_ Hj']]; [|by eapply Hu].
      eapply Hu; [exact Hi|by apply Hh]. }
    destruct (decide (k = i)) as [->|Hne].
    + exists i, pc. split; [by eapply set_pc_self|]. split; [|exact Huniq]. apply Hh. congruence.
    + exists k, pck. split; [cbn; by rewrite list_lookup_insert_ne|done].
Qed.

Lemma lock_step_ok s s' : lock_ok s -> lock_step s s' -> lock_ok s'.
Proof.
  intros Hok H. revert Hok. destruct H as [s i Hi|s i pc m pc' Hi Hs|s i Hi]; intros Hok.
  - eapply lock_ok_same; [done|exact Hi|done|]. unfold holds. naive_solver.
  - destruct pc as [| | |eax| |]; cbn [spin_lock_step] in Hs; try done; injection Hs as <- <-.
    + eapply lock_ok_same; [done|exact Hi|done|]. unfold holds. naive_solver.
    + assert (ld32 (st32 (lmem s) handle 1) handle = 1) as Hw by apply ld32_st32.
      destruct Hok as [[H0 Hn]|[H1 Hu]].
      * rewrite H0. right. split; [exact Hw|]. exists i, (Tested 0). split; [by eapply set_pc_self|]. split; [by right|].
        intros j pc' Hj Hp. destruct (set_pc_lookup _ _ _ _ _ _ _ Hi Hj) as [[-> _]|[_ Hj']]; [done|].
        by destruct (Hn _ _ Hj').
      * rewrite H1. eapply lock_ok_same; [by right|exact Hi|congruence|]. unfold holds. naive_solver.
    + eapply lock_ok_same; [done|exact Hi|done|]. unfold holds.
      destruct (Z.eqb_spec eax 0) as [->|Hne]; naive_solver.
    + eapply lock_ok_same; [done|exact Hi|done|]. unfold holds. naive_solver.
  - left. cbn [lmem set_pc]. split; [apply ld32_st32|]. intros j pc' Hj Hp.
    destruct (set_pc_lookup _ _ _ _ _ _ _ Hi Hj) as [[-> ->]|[Hne Hj']]; [unfold holds in Hp; naive_solver|].
    destruct Hok as [[_ Hn]|[_ (k & pck & _ & _ & Hu)]]; [by eapply Hn|].
    apply Hne. rewrite (Hu j pc' Hj' Hp). symmetry. eapply Hu; [exact Hi|by left].
Qed.

Lemma lock_steps_ok s s' : lock_ok s -> rtc lock_step s s' -> lock_ok s'.
Proof. intros Hok H. induction H as [|s1 s2 s3 Hs _ IH]; [done|]. by apply IH, (lock_step_ok s1). Qed.

(** The state after [spin_lock_init], nobody in the routines. *)
Definition lock_start (m : mem) (n : nat) : lock_state := LockState (spin_lock_init m) (replicate n Outside).

Lemma lock_start_ok m n : lock_ok (lock_start m n).
Proof.
  left. split; [apply ld32_st32|]. intros i pc Hi. apply lookup_replicate in Hi as [-> _]. unfold holds. naive_solver.
Qed.

(** From the first instruction, with the word free, three steps get the lock. *)
Lemma lock_taken s i :
  pcs s !! i = Some Begin -> ld32 (lmem s) handle = 0 ->
  exists s', rtc lock_step s s' /\ pcs s' !! i = Some Inside /\ forall j, j <> i -> pcs s' !! j = pcs s !! j.
Proof.
  intros Hi Hw. set (s1 := set_pc s (lmem s) i Exchange).
  assert (pcs s1 !! i = Some Exchange) as H1 by (by eapply set_pc_self).
  set (s2 := set_pc s1 (st32 (lmem s1) handle 1) i (Tested 0)).
  assert (pcs s2 !! i = Some (Tested 0)) as H2 by (by eapply set_pc_self).
  exists (set_pc s2 (lmem s2) i Inside). split; [|split; [by eapply set_pc_self|]].
  - apply rtc_l with s1; [by eapply step_lock|]. apply rtc_l with s2; [eapply step_lock; [exact H1|]|].
    + cbn [spin_lock_step]. change (lmem s1) with (lmem s). by rewrite Hw.
    + eapply rtc_once, step_lock; [exact H2|done].
  - intros j Hj. cbn. by rewrite !list_lookup_insert_ne.
Qed.

(** C16: The lock.  In every run of any number of processors at most one is behind
    spin_lock at a time; and a processor that spins can get it: once the holder,
    if there is one, has unlocked, the spinning one takes it in its own steps. *)
Theorem spin_lock_correct m n s :
  rtc lock_step (lock_start m n) s ->
  (forall i j, pcs s !! i = Some Inside -> pcs s !! j = Some Inside -> i = j) /\
  (forall i, pcs s !! i = Some Inside -> ld32 (lmem s) handle = 1) /\
  (forall i, pcs s !! i = Some Begin -> (forall j pc, pcs s !! j = Some pc -> ~ holds pc) ->
    exists s', rtc lock_step s s' /\ pcs s' !! i = Some Inside) /\
  (forall i j, pcs s !! i = Some Begin -> pcs s !! j = Some Inside ->
    exists s', rtc lock_step s s' /\ pcs s' !! i = Some Inside /\ pcs s' !! j = Some Outside).
Proof.
  intros Hr. pose proof (lock_steps_ok _ _ (lock_start_ok m n) Hr) as Hok. split_and!.
  - intros i j Hi Hj. destruct Hok as [[_ Hn]|[_ (k & pck & _ & _ & Hu)]]; [by destruct (Hn i Inside Hi); left|].
    rewrite (Hu i Inside Hi), (Hu j Inside Hj) by (by left). done.
  - intros i Hi. destruct Hok as [[_ Hn]|[Hw _]]; [by destruct (Hn i Inside Hi); left|done].
  - intros i Hi Hno. destruct Hok as [[Hw _]|[_ (k & pck & Hk & Hh & _)]]; [|by destruct (Hno _ _ Hk)].
    destruct (lock_taken s i Hi Hw) as (s' & H1 & H2 & _). eauto.
  - intros i j Hi Hj. set (s1 := set_pc s (spin_unlock (lmem s)) j Outside).
    assert (i <> j) as Hne by (intros ->; congruence).
    assert (pcs s1 !! i = Some Begin) as H1 by (cbn; by rewrite list_lookup_insert_ne).
    destruct (lock_taken s1 i H1) as (s' & H2 & H3 & H4); [apply ld32_st32|].
    exists s'. split; [|split; [done|]].
    + eapply rtc_l; [|exact H2]. by apply step_unlock.
    + rewrite H4 by done. by eapply set_pc_self.
Qed.
End Spinlock.

(** ** A witness *)

(** Two processors: one has the lock, the other spins. *)
Definition demo_lock : lock_state := LockState (st32 (spin_lock_init 64 ∅) 64 1) [Inside; Begin].

Lemma demo_lock_reached : rtc (lock_step 64) (lock_start 64 ∅ 2) demo_lock.
Proof.
  set (m0 := spin_lock_init 64 ∅). set (m1 := st32 m0 64 1).
  apply rtc_l with (LockState m0 [Begin; Outside]); [exact (step_enter 64 (LockState m0 [Outside; Outside]) 0 eq_refl)|].
  apply rtc_l with (LockState m0 [Exchange; Outside]);
    [exact (step_lock 64 (LockState m0 [Begin; Outside]) 0 _ _ _ eq_refl eq_refl)|].
  apply rtc_l with (LockState m1 [Tested 0; Outside]).
  { assert (ld32 m0 64 = 0) as H0 by apply ld32_st32.
    apply (step_lock 64 (LockState m0 [Exchange; Outside]) 0 _ m1 (Tested 0) eq_refl). cbn [spin_lock_step lmem]. by rewrite H0. }
  apply rtc_l with (LockState m1 [Inside; Outside]);
    [exact (step_lock 64 (LockState m1 [Tested 0; Outside]) 0 _ _ _ eq_refl eq_refl)|].
  apply rtc_once. exact (step_enter 64 (LockState m1 [Inside; Outside]) 1 eq_refl).
Qed.

Lemma spin_lock_correct_witness : exists s', rtc (lock_step 64) demo_lock s' /\ pcs s' !! 1%nat = Some Inside.
Proof.
  destruct (spin_lock_correct 64 ∅ 2 demo_lock demo_lock_reached) as (_ & _ & _ & H).
  destruct (H 1%nat 0%nat eq_refl eq_refl) as (s' & H1 & H2 & _). exists s'. split; [exact H1|exact H2].
Defined.
