(* ===== verification/LinkedList.v ===== *)
(** Circular doubly linked lists: components/include/list.h.  Nodes are
    addresses in a store of [struct list_head]; an element embeds its node at
    an offset, as [container_of] undoes. *)

From S2P Require Import Prelude.

(** ** Nodes *)

Record list_head := ListHead { next : Z; prev : Z }.

Abbreviation nodes := (gmap Z list_head).
Definition node (s : nodes) (p : Z) : list_head := default (ListHead NULL NULL) (s !! p).
Definition nx (s : nodes) (p : Z) : Z := next (node s p).
Definition pv (s : nodes) (p : Z) : Z := prev (node s p).
(** [p->next = v] and [p->prev = v] *)
Definition set_next (s : nodes) (p v : Z) : nodes := <[p := ListHead v (pv s p)]> s.
Definition set_prev (s : nodes) (p v : Z) : nodes := <[p := ListHead (nx s p) v]> s.

(** ** Operations *)

Definition LIST_HEAD_INIT (name : Z) : list_head := ListHead name name.

(** [list->next = list->prev = list] *)
Definition INIT_LIST_HEAD (s : nodes) (list : Z) : nodes :=
  set_next (set_prev s list list) list list.

Definition list_add_ (s : nodes) (entry prev next : Z) : nodes :=
  let s1 := set_prev s next entry in
  let s2 := set_next s1 entry next in
  let s3 := set_prev s2 entry prev in
  set_next s3 prev entry.

Definition list_add (s : nodes) (entry head : Z) : nodes := list_add_ s entry head (nx s head).
Definition list_add_tail (s : nodes) (entry head : Z) : nodes := list_add_ s entry (pv s head) head.

Definition list_del_ (s : nodes) (prev next : Z) : nodes :=
  let s1 := set_prev s next prev in set_next s1 prev next.

Definition list_del (s : nodes) (entry : Z) : nodes := list_del_ s (pv s entry) (nx s entry).
Definition list_del_init (s : nodes) (entry : Z) : nodes :=
  INIT_LIST_HEAD (list_del_ s (pv s entry) (nx s entry)) entry.
Definition list_move_tail (s : nodes) (list head : Z) : nodes :=
  list_add_tail (list_del_ s (pv s list) (nx s list)) list head.
Definition list_empty (s : nodes) (head : Z) : bool := nx s head =? head.

(** [container_of(ptr, type, member)] with the member at offset [off]. *)
Definition container_of (ptr off : Z) : Z := ptr - off.
Definition list_entry := container_of.
Definition list_first_entry (s : nodes) (ptr off : Z) : Z := list_entry (nx s ptr) off.
Definition list_last_entry (s : nodes) (ptr off : Z) : Z := list_entry (pv s ptr) off.

(** [list_for_each_entry]: [body] is run on each [pos], in a state that holds
    the nodes; [None] when the fuel runs out. *)
Section ForEach.
Context {St : Type} (nodes_of : St -> nodes) (body : St -> Z -> St) (head off : Z).

Fixpoint for_each_from (fuel : nat) (st : St) (pos : Z) : option St :=
  match fuel with
  | O => None
  | S f =>
      if pos + off =? head then Some st
      else
        let st' := body st pos in
        for_each_from f st' (container_of (nx (nodes_of st') (pos + off)) off)
  end.
Definition list_for_each_entry (fuel : nat) (st : St) : option St :=
  for_each_from fuel st (container_of (nx (nodes_of st) head) off).
Definition list_for_each_entry_continue (fuel : nat) (st : St) (pos : Z) : option St :=
  for_each_from fuel st (container_of (nx (nodes_of st) (pos + off)) off).

(** The next element is read before the body runs. *)
Fixpoint for_each_safe_from (fuel : nat) (st : St) (pos tmp : Z) : option St :=
  match fuel with
  | O => None
  | S f =>
      if pos + off =? head then Some st
      else
        let st' := body st pos in
        for_each_safe_from f st' tmp (container_of (nx (nodes_of st') (tmp + off)) off)
  end.
Definition list_for_each_entry_safe (fuel : nat) (st : St) : option St :=
  let pos := container_of (nx (nodes_of st) head) off in
  for_each_safe_from fuel st pos (container_of (nx (nodes_of st) (pos + off)) off).

Fixpoint for_each_back_from (fuel : nat) (st : St) (pos : Z) : option St :=
  match fuel with
  | O => None
  | S f =>
      if pos + off =? head then Some st
      else
        let st' := body st pos in
        for_each_back_from f st' (container_of (pv (nodes_of st') (pos + off)) off)
  end.
Definition list_for_each_entry_reverse (fuel : nat) (st : St) : option St :=
  for_each_back_from fuel st (container_of (pv (nodes_of st) head) off).
Definition list_for_each_entry_continue_reverse (fuel : nat) (st : St) (pos : Z) : option St :=
  for_each_back_from fuel st (container_of (pv (nodes_of st) (pos + off)) off).
End ForEach.

(** ** Lists in the store *)

(** Each node of [c] points forward to the one after it, and that one back. *)
Fixpoint links (s : nodes) (c : list Z) : Prop :=
  match c with
  | x :: (y :: _) as t => nx s x = y /\ pv s y = x /\ links s t
  | _ => True
  end.

(** The list of head [head] holds the entries [l]. *)
Definition is_list (s : nodes) (head : Z) (l : list Z) : Prop :=
  NoDup (head :: l) /\ links s (head :: l ++ [head]).

(** ** Lemmas *)

Lemma nx_set_next s p v q : nx (set_next s p v) q = if decide (q = p) then v else nx s q.
Proof.
  unfold nx, node, set_next. destruct (decide (q = p)) as [->|]; [by rewrite lookup_insert_eq|].
  by rewrite lookup_insert_ne.
Qed.
Lemma pv_set_next s p v q : pv (set_next s p v) q = pv s q.
Proof.
  unfold set_next. destruct (decide (q = p)) as [->|]; unfold pv at 1, node.
  - by rewrite lookup_insert_eq.
  - by rewrite lookup_insert_ne.
Qed.
Lemma pv_set_prev s p v q : pv (set_prev s p v) q = if decide (q = p) then v else pv s q.
Proof.
  unfold pv, node, set_prev. destruct (decide (q = p)) as [->|]; [by rewrite lookup_insert_eq|].
  by rewrite lookup_insert_ne.
Qed.
Lemma nx_set_prev s p v q : nx (set_prev s p v) q = nx s q.
Proof.
  unfold set_prev. destruct (decide (q = p)) as [->|]; unfold nx at 1, node.
  - by rewrite lookup_insert_eq.
  - by rewrite lookup_insert_ne.
Qed.

Ltac simp_nodes := repeat first [rewrite nx_set_next | rewrite pv_set_next | rewrite pv_set_prev |
  rewrite nx_set_prev | rewrite decide_True by done | rewrite decide_False by done].

Lemma nx_list_add_ s e p n q :
  nx (list_add_ s e p n) q = if decide (q = p) then e else if decide (q = e) then n else nx s q.
Proof. unfold list_add_. by simp_nodes. Qed.
Lemma pv_list_add_ s e p n q :
  pv (list_add_ s e p n) q = if decide (q = e) then p else if decide (q = n) then e else pv s q.
Proof. unfold list_add_. by simp_nodes. Qed.
Lemma nx_list_del_ s p n q : nx (list_del_ s p n) q = if decide (q = p) then n else nx s q.
Proof. unfold list_del_. by simp_nodes. Qed.
Lemma pv_list_del_ s p n q : pv (list_del_ s p n) q = if decide (q = n) then p else pv s q.
Proof. unfold list_del_. by simp_nodes. Qed.

#[local] Arguments nx : simpl never.
#[local] Arguments pv : simpl never.

Lemma links_join s a p b : links s (a ++ p :: b) <-> links s (a ++ [p]) /\ links s (p :: b).
Proof.
  induction a as [|x a IH]; [cbn; tauto|].
  destruct a as [|y a]; cbn in *; tauto.
Qed.

Lemma links_cons2 s x y c : links s (x :: y :: c) <-> nx s x = y /\ pv s y = x /\ links s (y :: c).
Proof. done. Qed.

(** Only the [next] of all nodes but the last and the [prev] of all but the
    first count. *)
Lemma links_frame s s' x a p :
  links s (x :: a ++ [p]) -> (forall q, q ∈ x :: a -> nx s' q = nx s q) ->
  (forall q, q ∈ a ++ [p] -> pv s' q = pv s q) -> links s' (x :: a ++ [p]).
Proof.
  revert x. induction a as [|y a IH]; intros x Hl Hn Hp; cbn [app] in *.
  - rewrite links_cons2 in *. rewrite Hn, Hp by set_solver. split; [apply Hl|]. split; [apply Hl|done].
  - rewrite links_cons2 in *. destruct Hl as (H1 & H2 & Hl). rewrite Hn, Hp by set_solver.
    split; [done|]. split; [done|]. apply IH; [done|..]; intros q Hq; [apply Hn|apply Hp]; set_solver.
Qed.

Lemma is_list_nx s head l : is_list s head l -> nx s head = hd head l.
Proof. intros [_ Hl]. destruct l; cbn in Hl; apply Hl. Qed.

Lemma is_list_pv s head l : is_list s head l -> pv s head = List.last l head.
Proof.
  intros [_ Hl]. induction l as [|x l _] using rev_ind; [by destruct Hl as (_ & ? & _)|].
  rewrite List.last_last. rewrite <- app_assoc in Hl.
  change (head :: l ++ [x] ++ [head]) with ((head :: l) ++ x :: [head]) in Hl.
  apply links_join in Hl as [_ Hl]. cbn in Hl. by destruct Hl as (_ & ? & _).
Qed.

(** The two neighbours of an entry, and the two parts of the ring. *)
Lemma ring_split s head l1 e l2 :
  is_list s head (l1 ++ e :: l2) ->
  pv s e = List.last l1 head /\ nx s e = hd head l2 /\
  links s (head :: l1 ++ [e]) /\ links s (e :: l2 ++ [head]).
Proof.
  intros [_ Hl]. rewrite <- app_assoc in Hl. cbn [app] in Hl.
  change (head :: l1 ++ e :: l2 ++ [head]) with ((head :: l1) ++ e :: (l2 ++ [head])) in Hl.
  apply links_join in Hl as [H1 H2]. cbn [app] in H1. split; [|split; [|done]].
  - destruct l1 as [|x l1 _] using rev_ind; [by destruct H1 as (_ & ? & _)|].
    rewrite List.last_last. rewrite <- app_assoc in H1.
    change (head :: l1 ++ [x] ++ [e]) with ((head :: l1) ++ x :: [e]) in H1.
    apply links_join in H1 as [_ H1]. by destruct H1 as (_ & ? & _).
  - destruct l2; cbn in H2; apply H2.
Qed.

(** ** The operations on represented lists *)

Lemma list_add_ok s e head l :
  is_list s head l -> e ∉ head :: l -> is_list (list_add s e head) head (e :: l).
Proof.
  intros HL He. pose proof (is_list_nx _ _ _ HL) as Hn. destruct HL as [Hnd Hl].
  apply NoDup_cons in Hnd as [Hh Hnd]. assert (e <> head /\ (e ∉ l)) as [Heh Hel] by set_solver.
  split; [constructor; [set_solver|by constructor]|].
  unfold list_add. rewrite Hn. cbn [app]. rewrite !links_cons2.
  rewrite nx_list_add_, pv_list_add_, decide_True, decide_True by done.
  split; [done|]. split; [done|]. destruct l as [|x l]; cbn [hd app] in *.
  - rewrite links_cons2, nx_list_add_, pv_list_add_.
    rewrite (decide_False (P := e = head)), (decide_True (P := e = e)) by done.
    rewrite (decide_False (P := head = e)), (decide_True (P := head = head)) by auto. done.
  - rewrite links_cons2 in *. destruct Hl as (_ & _ & Hl).
    apply NoDup_cons in Hnd as [Hx Hnd]. assert (x <> e /\ x <> head) as [Hxe Hxh] by set_solver.
    rewrite nx_list_add_, pv_list_add_.
    rewrite (decide_False (P := e = head)), (decide_True (P := e = e)) by done.
    rewrite (decide_False (P := x = e)), (decide_True (P := x = x)) by done.
    split; [done|]. split; [done|].
    eapply links_frame; [done|..]; intros q Hq.
    + rewrite nx_list_add_, !decide_False; [done|set_solver|set_solver].
    + rewrite pv_list_add_, !decide_False; [done|set_solver|set_solver].
Qed.

(** Inserting [e] before the head: the last entry, or the head itself, is its
    predecessor. *)
Lemma list_add_tail_ok s e head l :
  is_list s head l -> e ∉ head :: l -> is_list (list_add_tail s e head) head (l ++ [e]).
Proof.
  intros HL He. pose proof (is_list_pv _ _ _ HL) as Hp. destruct HL as [Hnd Hl].
  assert (e <> head) as Heh by set_solver. pose proof (proj1 (NoDup_cons _ _) Hnd) as [Hh Hndl].
  split.
  { constructor; [set_solver|]. apply NoDup_app. split; [done|]. split; [set_solver|].
    apply NoDup_singleton. }
  unfold list_add_tail. rewrite Hp. rewrite <- app_assoc. cbn [app].
  destruct l as [|x l _] using rev_ind.
  - cbn [links List.last app]. rewrite !nx_list_add_, !pv_list_add_.
    simp_decide. done.
  - rewrite List.last_last, <- !app_assoc in *. cbn [app] in *.
    change (head :: l ++ x :: [head]) with ((head :: l) ++ x :: [head]) in Hl.
    change (head :: l ++ x :: e :: [head]) with ((head :: l) ++ x :: e :: [head]).
    apply links_join in Hl as [H1 H2]. apply links_join. cbn [app] in *.
    assert (x <> e /\ x <> head /\ (x ∉ l)) as (Hxe & Hxh & Hxl).
    { apply NoDup_app in Hndl as (_ & Hd & _). repeat split; set_solver. }
    split.
    + eapply links_frame; [done|..]; intros q Hq.
      * rewrite nx_list_add_, !decide_False; [done|set_solver|]. intros ->. set_solver.
      * rewrite pv_list_add_, !decide_False; [done|set_solver|set_solver].
    + cbn [links]. rewrite !nx_list_add_, !pv_list_add_. simp_decide. done.
Qed.

(** The two halves of a ring around an unlinked entry. *)
Lemma links_del_left s head l1 l2 e :
  links s (head :: l1 ++ [e]) -> (head ∉ l1) -> NoDup l1 -> (forall x, x ∈ l1 -> x ∉ l2) ->
  links (list_del_ s (List.last l1 head) (hd head l2)) (head :: l1).
Proof.
  intros H1 Hh1 Hnd1 Hdj. destruct l1 as [|x l1 _] using rev_ind; [done|].
  rewrite List.last_last. rewrite <- app_assoc in H1.
  change (head :: l1 ++ [x] ++ [e]) with ((head :: l1) ++ x :: [e]) in H1.
  apply links_join in H1 as [H1 _]. cbn [app] in H1. apply NoDup_app in Hnd1 as (_ & Hd1 & _).
  eapply links_frame; [exact H1|..]; intros q Hq.
  - rewrite nx_list_del_, decide_False; [done|]. intros ->.
    apply elem_of_cons in Hq as [->|Hq]; [set_solver|]. apply (Hd1 x Hq). set_solver.
  - rewrite pv_list_del_, decide_False; [done|]. intros ->.
    destruct l2 as [|y l2]; cbn [hd] in Hq; [set_solver|]. apply (Hdj y); set_solver.
Qed.

Lemma links_del_right s head l1 l2 e p :
  links s (e :: l2 ++ [head]) -> (head ∉ l2) -> NoDup l2 -> (forall x, x ∈ l1 -> x ∉ l2) ->
  p ∈ head :: l1 -> links (list_del_ s p (hd head l2)) (l2 ++ [head]).
Proof.
  intros H2 Hh2 Hnd2 Hdj Hp. destruct l2 as [|y l2]; [done|]. cbn [app hd] in *. rewrite links_cons2 in H2.
  destruct H2 as (_ & _ & H2). apply NoDup_cons in Hnd2 as [Hy Hnd2].
  eapply links_frame; [exact H2|..]; intros q Hq.
  - rewrite nx_list_del_, decide_False; [done|]. intros ->.
    apply elem_of_cons in Hp as [E|Hp]; [rewrite E in Hq; set_solver|]. apply (Hdj _ Hp). set_solver.
  - rewrite pv_list_del_, decide_False; [done|]. intros ->. set_solver.
Qed.

(** Unlinking an entry joins its neighbours. *)
Lemma list_del_parts s head l1 e l2 :
  is_list s head (l1 ++ e :: l2) ->
  is_list (list_del s e) head (l1 ++ l2) /\ nx (list_del s e) e = nx s e /\
  pv (list_del s e) e = pv s e.
Proof.
  intros HL. destruct (ring_split _ _ _ _ _ HL) as (Hp & Hn & H1 & H2).
  destruct HL as [Hnd _]. apply NoDup_cons in Hnd as [Hh Hnd].
  pose proof Hnd as Hnd'. rewrite <- Permutation_middle in Hnd'. apply NoDup_cons in Hnd' as [He Hnd'].
  apply NoDup_app in Hnd' as (Hnd1 & Hdj & Hnd2).
  assert (e <> head /\ (head ∉ l1) /\ (head ∉ l2) /\ (e ∉ l1) /\ (e ∉ l2)) as (Heh & Hh1 & Hh2 & He1 & He2)
    by (repeat split; set_solver).
  assert (List.last l1 head ∈ head :: l1) as Hlast.
  { clear. destruct l1 as [|x l _] using rev_ind; [set_solver|]. rewrite List.last_last. set_solver. }
  assert (hd head l2 ∈ l2 ++ [head]) as Hhd by (clear; destruct l2; set_solver).
  unfold list_del. rewrite Hp, Hn. split; [|split].
  - split.
    { constructor; [set_solver|]. apply NoDup_app. done. }
    assert (links (list_del_ s (List.last l1 head) (hd head l2)) (head :: l1)) as G1
      by (by eapply links_del_left).
    assert (links (list_del_ s (List.last l1 head) (hd head l2)) (l2 ++ [head])) as G2
      by (by eapply links_del_right).
    assert (nx (list_del_ s (List.last l1 head) (hd head l2)) (List.last l1 head) = hd head l2 /\
      pv (list_del_ s (List.last l1 head) (hd head l2)) (hd head l2) = List.last l1 head) as [Gn Gp].
    { rewrite nx_list_del_, pv_list_del_. by rewrite !decide_True. }
    destruct l1 as [|x l1 _] using rev_ind.
    + destruct l2 as [|y l2]; cbn [app hd List.last] in *; rewrite links_cons2; done.
    + rewrite List.last_last in *. rewrite <- app_assoc. cbn [app].
      destruct l2 as [|y l2]; cbn [app hd] in *.
      * change (head :: l1 ++ [x] ++ [head]) with ((head :: l1) ++ x :: [head]).
        rewrite <- app_assoc. apply (links_join _ (head :: l1) x [head]). split; [exact G1|]. done.
      * rewrite <- app_assoc. cbn [app].
        apply (links_join _ (head :: l1) x (y :: l2 ++ [head])). split; [exact G1|].
        rewrite links_cons2. done.
  - rewrite nx_list_del_, decide_False; [done|]. set_solver.
  - rewrite pv_list_del_, decide_False; [done|]. set_solver.
Qed.

Lemma links_init s e : links (INIT_LIST_HEAD s e) [e; e].
Proof.
  unfold INIT_LIST_HEAD. cbn [links]. simp_nodes. simp_decide. done.
Qed.

Lemma is_list_frame s s' head l :
  is_list s head l -> (forall q, q ∈ head :: l -> nx s' q = nx s q /\ pv s' q = pv s q) ->
  is_list s' head l.
Proof.
  intros [Hnd Hl] Hf. split; [done|]. eapply links_frame; [done|..]; intros q Hq; apply Hf; set_solver.
Qed.

(** Insertion at either end, and the emptiness test. *)
Theorem list_insert_correct s e head l :
  is_list s head l -> e ∉ head :: l ->
  is_list (list_add s e head) head (e :: l) /\
  is_list (list_add_tail s e head) head (l ++ [e]) /\
  (list_empty s head = true <-> l = []) /\
  is_list (INIT_LIST_HEAD s head) head [].
Proof.
  intros HL He. split; [by apply list_add_ok|]. split; [by apply list_add_tail_ok|]. split.
  - unfold list_empty. rewrite (is_list_nx _ _ _ HL), Z.eqb_eq. destruct HL as [Hnd _].
    apply NoDup_cons in Hnd as [Hh _]. destruct l as [|x l]; cbn; [done|].
    split; [intros ->; set_solver|done].
  - split; [apply NoDup_singleton|apply links_init].
Qed.

(** Removal: the entry leaves the list, which closes up.  [list_del] leaves the
    entry's own pointers as they were; [list_del_init] makes it a list of its
    own; [list_move_tail] puts it last. *)
Theorem list_del_correct s head l1 e l2 :
  is_list s head (l1 ++ e :: l2) ->
  is_list (list_del s e) head (l1 ++ l2) /\
  (nx (list_del s e) e = hd head l2 /\ pv (list_del s e) e = List.last l1 head) /\
  is_list (list_del_init s e) head (l1 ++ l2) /\ is_list (list_del_init s e) e [] /\
  is_list (list_move_tail s e head) head (l1 ++ l2 ++ [e]).
Proof.
  intros HL. destruct (list_del_parts s head l1 e l2 HL) as (Hd & Hn & Hp).
  destruct (ring_split _ _ _ _ _ HL) as (Ep & En & _).
  assert (e ∉ head :: l1 ++ l2) as He.
  { destruct HL as [Hnd _]. rewrite <- Permutation_middle, Permutation_swap in Hnd.
    by apply NoDup_cons in Hnd as [He _]. }
  split; [done|]. split; [by rewrite Hn, Hp|]. split; [|split].
  - eapply is_list_frame; [exact Hd|]. intros q Hq. unfold list_del_init, list_del, INIT_LIST_HEAD.
    assert (q <> e) by (by intros ->). by simp_nodes.
  - split; [apply NoDup_singleton|apply links_init].
  - unfold list_move_tail. fold (list_del s e). rewrite app_assoc. by apply list_add_tail_ok.
Qed.

(** ** Traversal *)

Section Safe.
Context (head off : Z) (f : Z -> bool).

(** A loop body that records the element and deletes it when [f] says so. *)
Definition visit_del (st : nodes * list Z) (pos : Z) : nodes * list Z :=
  (if f pos then list_del (fst st) (pos + off) else fst st, snd st ++ [pos]).

Definition kept (l : list Z) : list Z := filter (fun n => f (n - off) = false) l.

Lemma safe_loop rest done_ s v fuel tmp :
  is_list s head (done_ ++ rest) -> (length rest < fuel)%nat -> tmp + off = hd head (tail rest) ->
  exists s', for_each_safe_from fst visit_del head off fuel (s, v) (hd head rest - off) tmp =
      Some (s', v ++ ((fun n => n - off) <$> rest)) /\
    is_list s' head (done_ ++ kept rest).
Proof.
  revert done_ s v fuel tmp. induction rest as [|n rest IH]; intros done_ s v fuel tmp HL Hf Ht.
  - destruct fuel as [|fuel]; [lia|]. cbn [for_each_safe_from hd].
    replace (head - off + off =? head) with true by (symmetry; apply Z.eqb_eq; lia).
    exists s. by rewrite app_nil_r.
  - destruct fuel as [|fuel]; [cbn in Hf; lia|]. cbn [for_each_safe_from hd tail] in *.
    assert (n <> head) as Hn.
    { destruct HL as [Hnd _]. apply NoDup_cons in Hnd as [Hh _]. intros ->. set_solver. }
    replace (n - off + off =? head) with false by (symmetry; apply Z.eqb_neq; lia).
    unfold visit_del at 1 2 3. cbn [fst snd]. replace (n - off + off) with n by lia.
    set (s1 := if f (n - off) then list_del s n else s).
    set (done1 := done_ ++ if f (n - off) then [] else [n]).
    assert (is_list s1 head (done1 ++ rest)) as HL1.
    { unfold s1, done1. destruct (f (n - off)).
      - rewrite app_nil_r. by apply list_del_parts.
      - by rewrite <- app_assoc. }
    destruct rest as [|m rest].
    + cbn [hd tail] in Ht. replace tmp with (head - off) by lia.
      destruct fuel as [|fuel]; [cbn in Hf; lia|]. cbn [for_each_safe_from].
      replace (head - off + off =? head) with true by (symmetry; apply Z.eqb_eq; lia).
      exists s1. split; [done|]. rewrite app_nil_r in HL1. unfold done1 in HL1. unfold kept.
      rewrite filter_cons. destruct (f (n - off)) eqn:E.
      * rewrite decide_False by congruence. done.
      * rewrite decide_True by done. done.
    + cbn [hd tail] in Ht. destruct (ring_split _ _ _ _ _ HL1) as (_ & En & _).
      destruct (IH done1 s1 (v ++ [n - off]) fuel (container_of (nx s1 (tmp + off)) off) HL1)
        as (s' & E & HL'); [cbn in *; lia|rewrite Ht, En; unfold container_of; cbn; lia|].
      exists s'. cbn [hd] in E. replace tmp with (m - off) by lia.
      replace (m - off + off) with m in * by lia. rewrite Ht in E.
      split; [etransitivity; [exact E|by rewrite <- app_assoc]|]. unfold done1 in HL'. rewrite <- app_assoc in HL'.
      unfold kept in *. rewrite (filter_cons _ n). destruct (f (n - off)) eqn:Ef.
      * rewrite decide_False by congruence. exact HL'.
      * rewrite decide_True by done. exact HL'.
Qed.

(** The safe loop visits every element once, in order, although its body
    deletes some of them; those left are the ones it kept. *)
Theorem list_for_each_entry_safe_correct s l :
  is_list s head l ->
  exists s', list_for_each_entry_safe fst visit_del head off (S (length l)) (s, []) =
      Some (s', (fun n => n - off) <$> l) /\ is_list s' head (kept l).
Proof.
  intros HL. unfold list_for_each_entry_safe. cbn [fst]. rewrite (is_list_nx _ _ _ HL).
  unfold container_of at 1 2. destruct l as [|n l]; cbn [hd].
  - cbn [for_each_safe_from length]. replace (head - off + off =? head) with true by (symmetry; apply Z.eqb_eq; lia).
    by exists s.
  - destruct (ring_split s head [] n l HL) as (_ & En & _).
    apply (safe_loop (n :: l) [] s [] (S (length (n :: l)))); [done|lia|].
    unfold container_of. cbn [fst tail]. replace (n - off + off) with n by lia. rewrite En. lia.
Qed.
End Safe.

(** ** Witnesses *)

Definition demo_list : nodes := list_add_tail (list_add_tail (INIT_LIST_HEAD ∅ 100) 200 100) 300 100.

Lemma demo_list_ok : is_list demo_list 100 [200; 300].
Proof.
  split; [repeat constructor; set_solver|]. repeat split; vm_compute; reflexivity.
Qed.

Lemma list_insert_correct_witness : is_list (list_add demo_list 400 100) 100 [400; 200; 300].
Proof. apply (list_insert_correct demo_list 400 100 [200; 300] demo_list_ok). set_solver. Defined.

Lemma list_del_correct_witness :
  is_list (list_del demo_list 200) 100 [300] /\ nx (list_del demo_list 200) 200 = 300.
Proof.
  destruct (list_del_correct demo_list 100 [] 200 [300] demo_list_ok) as (H & [Hn _] & _).
  split; [exact H|exact Hn].
Defined.

Lemma list_for_each_entry_safe_correct_witness :
  exists s', list_for_each_entry_safe fst (visit_del 8 (fun p => p =? 192)) 100 8 3 (demo_list, []) =
    Some (s', [192; 292]) /\ is_list s' 100 [300].
Proof.
  exact (list_for_each_entry_safe_correct 100 8 (fun p => p =? 192) demo_list [200; 300] demo_list_ok).
Defined.
