(* ===== verification/X86Task.v ===== *)
(** Tasks of the 32-bit kernel: x86_kernel/kernel/task.c, kernel/sched.c,
    kernel/chr_drv/clock.c and include/linux/task.h.  As in Task64 the table
    holds pointers to tasks in a store, allocated through Alloc. *)

From S2P Require Import Prelude Alloc.
#[local] Open Scope kernel_scope.

(** ** Data *)

Definition TASK_MAX_NUMS : Z := 4.
Definition PAGE_SIZE : Z := 4096.

Inductive task_state_e :=
  TASK_INIT | TASK_RUNNING | TASK_READY | TASK_BLOCKED | TASK_SLEEPING | TASK_WAITING | TASK_DIED.

#[export] Instance task_state_e_eq_dec : EqDecision task_state_e.
Proof. solve_decision. Defined.

Record tss_t := Tss {
  backlink : Z; t_esp0 : Z; ss0 : Z; esp1 : Z; ss1 : Z; esp2 : Z; ss2 : Z; cr3 : Z;
  eip : Z; flags : Z; eax : Z; ebx : Z; ecx : Z; edx : Z; esp : Z; ebp : Z; esi : Z; edi : Z;
  es : Z; cs : Z; ss : Z; ds : Z; fs : Z; gs : Z; ldtr : Z; trace : Z; reversed : Z;
  iobase : Z; ssp : Z
}.

Record task_t := Task {
  context : tss_t;
  name : list Z;
  pid : Z;
  state : task_state_e;
  function : Z;
  stack : Z;
  user_stack : Z;
  stackSize : Z;
  fist_sched : Z;
  priority : Z;
  counter : Z;
  esp0 : Z;
  ebp0 : Z;
  esp3 : Z;
  ebp3 : Z;
  runPL : Z
}.

(** 26 words and three halfwords of context, then the fields. *)
Definition sizeof_task_t : Z := (25 * 4 + 2 + 2 + 4) + 16 + 14 * 4.

Definition set_state (s : task_state_e) (t : task_t) : task_t :=
  Task (context t) (name t) (pid t) s (function t) (stack t) (user_stack t) (stackSize t)
    (fist_sched t) (priority t) (counter t) (esp0 t) (ebp0 t) (esp3 t) (ebp3 t) (runPL t).
Definition set_counter (c : Z) (t : task_t) : task_t :=
  Task (context t) (name t) (pid t) (state t) (function t) (stack t) (user_stack t) (stackSize t)
    (fist_sched t) (priority t) c (esp0 t) (ebp0 t) (esp3 t) (ebp3 t) (runPL t).
Definition set_fist (f : Z) (t : task_t) : task_t :=
  Task (context t) (name t) (pid t) (state t) (function t) (stack t) (user_stack t) (stackSize t)
    f (priority t) (counter t) (esp0 t) (ebp0 t) (esp3 t) (ebp3 t) (runPL t).
Definition set_PL (pl : Z) (t : task_t) : task_t :=
  Task (context t) (name t) (pid t) (state t) (function t) (stack t) (user_stack t) (stackSize t)
    (fist_sched t) (priority t) (counter t) (esp0 t) (ebp0 t) (esp3 t) (ebp3 t) pl.

(** The global variables of task.c, sched.c and clock.c, the objects and the
    heap. *)
Record sys (H : Type) := Sys {
  g_tasks : list Z;
  CURRENT : Z;
  cpu_tickes : Z;
  store : gmap Z task_t;
  heap : H
}.
Arguments Sys {H}.
Arguments g_tasks {H}.
Arguments CURRENT {H}.
Arguments cpu_tickes {H}.
Arguments store {H}.
Arguments heap {H}.

Definition zero_tss : tss_t := Tss 0 0 0 0 0 0 0 0 0 0 0 0 0 0 0 0 0 0 0 0 0 0 0 0 0 0 0 0 0.
Definition null_task : task_t := Task zero_tss [] 0 TASK_INIT 0 0 0 0 0 0 0 0 0 0 0 0.

(** Timer constants of clock.c *)
Definition HZ : Z := 100.
Definition OSCILLATOR : Z := 1193182.
Definition CLOCK_COUNTER : Z := OSCILLATOR / HZ.
Definition jiffy : Z := 1000 / HZ.

(** The port writes of [clock_init]. *)
Definition clock_init : list (Z * Z) :=
  [(0x43, 0x34); (0x40, CLOCK_COUNTER .& 0xff); (0x40, (CLOCK_COUNTER .>> 8) .& 0xff)].

Section Ops.
Context {H : Type}.
Implicit Types (g : sys H).

Definition deref g (p : Z) : task_t := default null_task (store g !! p).
Definition upd g (p : Z) (f : task_t -> task_t) : sys H :=
  Sys (g_tasks g) (CURRENT g) (cpu_tickes g) (<[p := f (deref g p)]> (store g)) (heap g).
Definition set_CURRENT g (p : Z) : sys H :=
  Sys (g_tasks g) p (cpu_tickes g) (store g) (heap g).

Definition clock_hander g : sys H :=
  Sys (g_tasks g) (CURRENT g) (s32 (cpu_tickes g + 1)) (store g) (heap g).

Fixpoint free_index (ts : list Z) (i : Z) : Z :=
  match ts with
  | [] => -1
  | p :: ts' => if p =? NULL then i else free_index ts' (i + 1)
  end.
Definition get_free_task_index g : Z := free_index (g_tasks g) 0.

(** The loops of [get_next_ready_task] start at index 1. *)
Definition scan_ready g (acc : Z * bool) (p : Z) : Z * bool :=
  let '(highPrioTask, hasWaitTask) := acc in
  if p =? NULL then acc
  else match state (deref g p) with
  | TASK_WAITING => (highPrioTask, true)
  | TASK_READY =>
      if highPrioTask =? NULL then (p, hasWaitTask)
      else if priority (deref g highPrioTask) <? priority (deref g p) then (p, hasWaitTask)
      else acc
  | _ => acc
  end.

(** The second loop refills the counters; the states stay WAITING. *)
Definition reset_waiting (acc : Z * sys H) (p : Z) : Z * sys H :=
  let '(highPrioTask, g) := acc in
  if p =? NULL then acc
  else match state (deref g p) with
  | TASK_WAITING =>
      let g' := upd g p (fun t => set_counter (priority t) t) in
      if highPrioTask =? NULL then (p, g')
      else if priority (deref g' highPrioTask) <? priority (deref g' p) then (p, g')
      else (highPrioTask, g')
  | _ => acc
  end.

Definition get_next_ready_task g : Z * sys H :=
  let '(highPrioTask, hasWaitTask) := foldl (scan_ready g) (NULL, false) (drop 1 (g_tasks g)) in
  if highPrioTask =? NULL then
    if hasWaitTask : bool then foldl reset_waiting (NULL, g) (drop 1 (g_tasks g))
    else (znth NULL (g_tasks g) 0, g)
  else (highPrioTask, g).

(** [sched]: the next task is chosen before the current one is made ready. *)
Definition sched g : outcome (sys H) :=
  let '(next, g1) := get_next_ready_task g in
  let g2 := if CURRENT g1 =? NULL then g1 else upd g1 (CURRENT g1) (set_state TASK_READY) in
  let g3 := if next =? NULL then g2 else set_CURRENT g2 next in
  if CURRENT g3 =? NULL then Stuck NullDeref
  else Done (upd g3 (CURRENT g3) (set_state TASK_RUNNING)).

Definition sched_by_sleep g : outcome (sys H) :=
  let '(next, g1) := get_next_ready_task g in
  let g2 := set_CURRENT g1 next in
  if next =? NULL then Stuck NullDeref else Done (upd g2 next (set_state TASK_RUNNING)).

Definition get_first_sched_flag g (task : Z) : Z * sys H :=
  if fist_sched (deref g task) =? 0 then (0, g) else (1, upd g task (set_fist 0)).
Definition set_task_ready g (task : Z) : sys H := upd g task (set_state TASK_READY).
Definition get_esp3 g (task : Z) : Z := esp3 (deref g task).
Definition set_runPL g (task PL : Z) : sys H := upd g task (set_PL PL).
Definition get_runPL g (task : Z) : Z := runPL (deref g task).

(** [task_wakeup], one table entry: [cpu_tickes] is an [int], compared with the
    [size_t] counter as unsigned. *)
Definition wake_one g (p : Z) : sys H :=
  if p =? NULL then g
  else match state (deref g p) with
  | TASK_SLEEPING =>
      if counter (deref g p) <=? u32 (cpu_tickes g)
      then upd g p (fun t => set_counter (priority t) (set_state TASK_READY t)) else g
  | _ => g
  end.
Definition task_wakeup g : sys H := foldl wake_one g (drop 1 (g_tasks g)).

Definition sub_task_counter g (task : Z) : Z * sys H :=
  let g1 := task_wakeup g in
  if counter (deref g1 task) =? 0 then (1, upd g1 task (set_state TASK_WAITING))
  else (0, upd g1 task (fun t => set_counter (u32 (counter t - 1)) t)).

(** [task_sleep]: [task_deal_sleep] saves the registers and calls
    [sched_by_sleep]. *)
Definition task_sleep g (ms : Z) : outcome (sys H) :=
  if CURRENT g =? NULL then Done g
  else
    sched_by_sleep
      (upd g (CURRENT g) (fun t =>
         set_state TASK_SLEEPING (set_counter (u32 (cpu_tickes g + ms ÷ jiffy)) t))).

(** The timer interrupt, [clock_handle] of asm/int_isr.asm: only when the
    running task's time is over, or no task runs yet, does it go on to
    [clock_hander] and [sched]. *)
Definition clock_interrupt g : outcome (sys H) :=
  if CURRENT g =? NULL then sched (clock_hander g)
  else
    let '(r, g1) := sub_task_counter g (CURRENT g) in
    if r =? 1 then sched (clock_hander g1) else Done g1.

Fixpoint clock_run (n : nat) g : outcome (sys H) :=
  match n with
  | O => Done g
  | S n' => g1 ← clock_interrupt g; clock_run n' g1
  end.

Context `{AllocOps H}.

(** [strcpy(newTask->name, name)] into 16 bytes *)
Definition put_name (nm old : list Z) : outcome (list Z) :=
  if Z.of_nat (length nm) <? 16 then Done (nm ++ 0 :: drop (S (length nm)) old) else Stuck WildStore.

(** The fields [ktask_create] and [utask_create] store; [junk] is what the
    block of [kmalloc] held. *)
Definition fill_task (junk : task_t) (nm : list Z) (func stk ustk size prio idx code data : Z) : task_t :=
  let c := context junk in
  let sp := u32 (stk + PAGE_SIZE - 1) in
  let sp3 := u32 (ustk + size - 1) in
  Task (Tss (backlink c) (t_esp0 c) (ss0 c) (esp1 c) (ss1 c) (esp2 c) (ss2 c) (cr3 c) func
          (flags c) (eax c) (ebx c) (ecx c) (edx c) sp (ebp c) (esi c) (edi c) data code data data
          data data (ldtr c) (trace c) (reversed c) (iobase c) (ssp c))
    nm idx TASK_READY func stk ustk size 1 prio prio sp sp sp3 sp3 (runPL junk).

(** Both creators, which differ in the selectors they store. *)
Definition task_create (code data : Z) (junk : task_t) g (nm : list Z) (func size prio : Z)
  : outcome (Z * sys H) :=
  let idx := get_free_task_index g in
  if idx <? 0 then Done (NULL, g)
  else
    let size1 := if PAGE_SIZE <? size then PAGE_SIZE else size in
    let with_heap h := Sys (g_tasks g) (CURRENT g) (cpu_tickes g) (store g) h in
    let '(newTask, h1) := kzalloc (heap g) sizeof_task_t in
    if newTask =? NULL then Done (NULL, with_heap h1)
    else
      let '(stk, h2) := kzalloc h1 PAGE_SIZE in
      if stk =? NULL then Done (NULL, with_heap (kfree_s h2 newTask sizeof_task_t))
      else
        let '(ustk, h3) := kzalloc h2 size1 in
        if ustk =? NULL then
          Done (NULL, with_heap (kfree_s (kfree_s h3 stk PAGE_SIZE) newTask sizeof_task_t))
        else
          nm' ← put_name nm (name junk);
          let t := fill_task junk nm' func stk ustk size1 prio idx code data in
          Done (newTask, Sys (zset (g_tasks g) idx newTask) (CURRENT g) (cpu_tickes g)
                           (<[newTask := t]> (store g)) h3).

Definition KERNEL_CODE_SECTOR : Z := 1 .<< 3.
Definition KERNEL_DATA_SECTOR : Z := 2 .<< 3.
Definition USER_CODE_SECTOR : Z := (3 .<< 3) .| 3.
Definition USER_DATA_SECTOR : Z := (4 .<< 3) .| 3.
Definition ktask_create := task_create KERNEL_CODE_SECTOR KERNEL_DATA_SECTOR.
Definition utask_create := task_create USER_CODE_SECTOR USER_DATA_SECTOR.

(** [task_exit]: the kernel stack, a page, is given back with [stackSize]. *)
Definition task_exit g (task : Z) : outcome (sys H) :=
  let t := deref g task in
  let ts := zset (g_tasks g) (pid t) NULL in
  let h := kfree_s (kfree_s (heap g) (stack t) (stackSize t)) task sizeof_task_t in
  let '(next, g2) := get_next_ready_task (Sys ts (CURRENT g) (cpu_tickes g) (store g) h) in
  if next =? NULL then Stuck NullDeref
  else Done (upd (set_CURRENT g2 next) next (set_state TASK_RUNNING)).

(** [create_idle]: the three tasks made at start. *)
Definition create_idle (junk : task_t) g (idle init user : Z) : outcome (sys H) :=
  '(t1, g1) ← ktask_create junk g [105; 100; 108; 101] idle 2048 1;
  let g1 := set_runPL g1 t1 0 in
  '(t2, g2) ← ktask_create junk g1 [105; 110; 105; 116] init 2048 3;
  let g2 := set_runPL g2 t2 3 in
  '(t3, g3) ← ktask_create junk g2 [117; 115; 101; 114; 32; 116; 97; 115; 107] user 2048 2;
  Done (set_runPL g3 t3 0).
Definition init_task := create_idle.
End Ops.

(** ** The choice of the next task *)

Section Scheduler.
Context {H : Type}.
Implicit Types (g : sys H).

Lemma x86_deref_upd g p f q :
  deref (upd g p f) q = if decide (q = p) then f (deref g p) else deref g q.
Proof.
  unfold deref at 1, upd. cbn [store]. destruct (decide (q = p)) as [->|Hne].
  - by rewrite lookup_insert_eq.
  - by rewrite lookup_insert_ne by done.
Qed.

(** [o] beats [q]: [q] is no entry, not ready or of lower priority. *)
Definition beats g (o q : Z) : Prop :=
  q = NULL \/ state (deref g q) <> TASK_READY \/ priority (deref g q) < priority (deref g o).

Lemma scan_keeps g l o w :
  o <> NULL -> (forall q, q ∈ l -> q = o \/ beats g o q) -> fst (foldl (scan_ready g) (o, w) l) = o.
Proof.
  intros Ho. revert w. induction l as [|q l IH]; intros w Hl; [done|]. cbn [foldl].
  assert (exists w', scan_ready g (o, w) q = (o, w')) as [w' ->].
  { unfold scan_ready. destruct (q =? NULL) eqn:E; [by eexists|]. bool_hyps.
    apply Z.eqb_neq in Ho. rewrite Ho. destruct (state (deref g q)) eqn:Es; try by eexists.
    destruct (_ <? _) eqn:El; [|by eexists]. bool_hyps.
    destruct (Hl q) as [->|[?|[?|?]]]; [left|lia|done|congruence|lia]. }
  apply IH. intros x Hx. apply Hl. by right.
Qed.

Lemma scan_best g l o acc :
  o ∈ l -> o <> NULL -> state (deref g o) = TASK_READY ->
  (forall q, q ∈ l -> q = o \/ beats g o q) ->
  (fst acc = NULL \/ priority (deref g (fst acc)) < priority (deref g o)) ->
  fst (foldl (scan_ready g) acc l) = o.
Proof.
  intros Hin Ho Hs. revert acc. induction l as [|q l IH]; intros [hp w] Hl Ha; [by apply elem_of_nil in Hin|].
  cbn [foldl fst] in *. assert (forall x, x ∈ l -> x = o \/ beats g o x) as Hl' by (intros; apply Hl; by right).
  destruct (decide (q = o)) as [->|Hne].
  - assert (scan_ready g (hp, w) o = (o, w)) as ->; [|by apply scan_keeps].
    unfold scan_ready. rewrite Hs. apply Z.eqb_neq in Ho. rewrite Ho.
    destruct (hp =? NULL) eqn:E; [done|]. bool_hyps. destruct Ha as [?|Ha]; [done|].
    apply Z.ltb_lt in Ha. by rewrite Ha.
  - apply elem_of_cons in Hin as [?|Hin]; [done|]. apply IH; [done|done|].
    destruct (Hl q) as [?|Hq]; [left|done|]. unfold scan_ready.
    destruct (q =? NULL) eqn:E; bool_hyps; [done|].
    destruct (state (deref g q)) eqn:Es; try done.
    destruct Hq as [?|[?|?]]; [done|congruence|].
    destruct (hp =? NULL); [by right|]. destruct (_ <? _); [by right|done].
Qed.

(** The second loop neither runs nor changes anything when a task is ready. *)
Lemma get_next_best g o :
  o ∈ drop 1 (g_tasks g) -> o <> NULL -> state (deref g o) = TASK_READY ->
  (forall q, q ∈ drop 1 (g_tasks g) -> q = o \/ beats g o q) ->
  get_next_ready_task g = (o, g).
Proof.
  intros Hin Ho Hs Hl. unfold get_next_ready_task.
  pose proof (scan_best g _ o (NULL, false) Hin Ho Hs Hl (or_introl eq_refl)) as E.
  destruct (foldl _ _ _) as [hp w]. cbn [fst] in E. subst hp. apply Z.eqb_neq in Ho. by rewrite Ho.
Qed.

Lemma wakeup_none g : (forall q, q ∈ drop 1 (g_tasks g) -> state (deref g q) <> TASK_SLEEPING) ->
  task_wakeup g = g.
Proof.
  unfold task_wakeup. induction (drop 1 (g_tasks g)) as [|q l IH]; intros Hl; [done|]. cbn [foldl].
  assert (wake_one g q = g) as ->; [|apply IH; intros; apply Hl; by right].
  unfold wake_one. destruct (q =? NULL); [done|]. specialize (Hl q ltac:(left)).
  by destruct (state (deref g q)).
Qed.
End Scheduler.

Section Behaviour.
Context {H : Type}.
Implicit Types (g : sys H).

(** ** Waking *)

Definition due g (q : Z) : Prop :=
  q <> NULL /\ state (deref g q) = TASK_SLEEPING /\ counter (deref g q) <= u32 (cpu_tickes g).
#[local] Instance due_dec g q : Decision (due g q).
Proof. unfold due. apply _. Defined.

Definition woken (t : task_t) : task_t := set_counter (priority t) (set_state TASK_READY t).

Definition same_globals g' g : Prop :=
  g_tasks g' = g_tasks g /\ CURRENT g' = CURRENT g /\ cpu_tickes g' = cpu_tickes g /\
  heap g' = heap g.

Lemma wake_spec g l : same_globals (foldl wake_one g l) g /\
  forall q, deref (foldl wake_one g l) q =
    if decide (q ∈ l /\ due g q) then woken (deref g q) else deref g q.
Proof.
  induction l as [|p l [Hg IH]] using rev_ind.
  - split; [by repeat split|]. intros q. by rewrite decide_False by (intros [[]%elem_of_nil _]).
  - rewrite foldl_snoc. set (g1 := foldl wake_one g l) in *. destruct Hg as (Ht & Hc & Hk & Hh).
    assert (forall q, wake_one g1 p = g1 -> ~ due g p \/ p ∈ l -> 
      deref (wake_one g1 p) q = if decide (q ∈ l ++ [p] /\ due g q) then woken (deref g q) else deref g q)
      as Hskip.
    { intros q -> Hp. rewrite IH. apply decide_ext. rewrite elem_of_app, list_elem_of_singleton.
      split; [tauto|]. intros [[?| ->] ?]; tauto. }
    unfold wake_one in *. destruct (p =? NULL) eqn:Ep; bool_hyps.
    { split; [by repeat split|]. intros q. apply Hskip; [done|]. left. by intros [? _]. }
    pose proof (IH p) as Ep1. destruct (decide (p ∈ l /\ due g p)) as [Hin|Hin].
    { rewrite Ep1 in *. cbn [state woken set_counter set_state] in *.
      split; [by repeat split|]. intros q. apply Hskip; tauto. }
    rewrite Ep1 in *. destruct (decide (due g p)) as [Hd|Hd].
    + assert (Hd' := Hd). destruct Hd' as (_ & Hs & Hle). rewrite Hs, Hk. apply Z.leb_le in Hle as ->.
      split; [by repeat split|]. intros q. rewrite x86_deref_upd, Ep1.
      destruct (decide (q = p)) as [->|Hne].
      * rewrite decide_True; [done|]. split; [set_solver|done].
      * rewrite IH. apply decide_ext. rewrite elem_of_app, list_elem_of_singleton. tauto.
    + destruct (state (deref g p)) eqn:Es;
        try (split; [by repeat split|]; intros q; apply Hskip; [done|by left]).
      destruct (counter (deref g p) <=? u32 (cpu_tickes g1)) eqn:El; bool_hyps.
      { destruct Hd. split; [done|]. split; [done|]. by rewrite <- Hk. }
      split; [by repeat split|]. intros q. apply Hskip; [done|tauto].
Qed.

(** [task_wakeup] wakes exactly the sleeping tasks at indices from 1 on whose
    time has come: they become READY with a full counter. *)
Theorem task_wakeup_correct g :
  same_globals (task_wakeup g) g /\
  (forall q, q ∈ drop 1 (g_tasks g) -> due g q -> deref (task_wakeup g) q = woken (deref g q)) /\
  (forall q, ~ (q ∈ drop 1 (g_tasks g) /\ due g q) -> deref (task_wakeup g) q = deref g q).
Proof.
  destruct (wake_spec g (drop 1 (g_tasks g))) as [Hg Hd]. split; [done|].
  split; intros q Hq; [intros Hdue|]; unfold task_wakeup; rewrite Hd.
  - by rewrite decide_True.
  - by rewrite decide_False.
Qed.

(** ** Time slices *)

Lemma sub_counter_running g p :
  state (deref g p) = TASK_RUNNING -> 0 < counter (deref g p) < 4294967296 ->
  fst (sub_task_counter g p) = 0 /\
  let g' := snd (sub_task_counter g p) in
  same_globals g' g /\ state (deref g' p) = TASK_RUNNING /\
  counter (deref g' p) = counter (deref g p) - 1.
Proof.
  intros Hs Hc. unfold sub_task_counter. destruct (wake_spec g (drop 1 (g_tasks g))) as [Hg Hd].
  fold (task_wakeup g) in *. assert (deref (task_wakeup g) p = deref g p) as E.
  { rewrite Hd, decide_False; [done|]. intros (_ & _ & Hx & _). congruence. }
  rewrite E. destruct (counter (deref g p) =? 0) eqn:E0; bool_hyps; [lia|]. cbn [fst snd].
  split; [done|]. split; [done|]. rewrite x86_deref_upd, E, decide_True by done. cbn.
  split; [done|]. apply u32_small. lia.
Qed.

(** A running task keeps the processor for as many timer interrupts as its
    counter says; and the tick count does not move meanwhile, so a sleeping
    task's time does not pass. *)
Theorem slice_stops_the_clock g n :
  CURRENT g <> NULL -> state (deref g (CURRENT g)) = TASK_RUNNING ->
  Z.of_nat n <= counter (deref g (CURRENT g)) < 4294967296 ->
  exists g', clock_run n g = Done g' /\ CURRENT g' = CURRENT g /\
    counter (deref g' (CURRENT g)) = counter (deref g (CURRENT g)) - Z.of_nat n /\
    cpu_tickes g' = cpu_tickes g.
Proof.
  revert g. induction n as [|n IH]; intros g Hc Hs Hn.
  { exists g. repeat split; try done. lia. }
  destruct (sub_counter_running g (CURRENT g) Hs ltac:(lia)) as (Er & (Ht & Hcur & Hk & Hh) & Hs' & Hc').
  cbn [clock_run]. unfold clock_interrupt. apply Z.eqb_neq in Hc as Hc0. rewrite Hc0.
  destruct (sub_task_counter g (CURRENT g)) as [r g1]. cbn [fst snd] in *. subst r.
  cbn [Z.eqb mbind outcome_bind]. rewrite <- Hcur in Hs'.
  destruct (IH g1) as (g' & E & E1 & E2 & E3); [congruence|done| |].
  { rewrite Hcur, Hc'. lia. }
  exists g'. rewrite Hcur in *. split; [done|]. split; [congruence|]. split; [|congruence].
  rewrite E2, Hc'. lia.
Qed.

(** ** Starvation *)

(** Task [a] runs, [b] is ready, and so is [c], of lower priority. *)
Record starved g (a b c : Z) : Prop := {
  sv_tasks : drop 1 (g_tasks g) ≡ₚ [a; b; c];
  sv_nodup : NoDup [NULL; a; b; c];
  sv_a : priority (deref g c) < priority (deref g a);
  sv_b : priority (deref g c) < priority (deref g b);
  sv_cur : CURRENT g = a;
  sv_run : state (deref g a) = TASK_RUNNING;
  sv_ready : state (deref g b) = TASK_READY;
  sv_low : state (deref g c) = TASK_READY
}.

Lemma starved_ne g a b c : starved g a b c ->
  a <> NULL /\ b <> NULL /\ c <> NULL /\ a <> b /\ a <> c /\ b <> c.
Proof.
  intros Hst. pose proof (sv_nodup _ _ _ _ Hst) as Hn.
  rewrite !NoDup_cons, !not_elem_of_cons in Hn.
  destruct Hn as ((? & ? & ? & _) & (? & ? & _) & (? & _) & _). split_and!; congruence.
Qed.

Lemma starved_wakeup g a b c : starved g a b c -> task_wakeup g = g.
Proof.
  intros Hst. apply wakeup_none. intros q Hq. rewrite (sv_tasks _ _ _ _ Hst) in Hq.
  rewrite !elem_of_cons, elem_of_nil in Hq.
  destruct Hq as [->|[->|[->|[]]]]; [rewrite (sv_run _ _ _ _ Hst)|rewrite (sv_ready _ _ _ _ Hst)|
    rewrite (sv_low _ _ _ _ Hst)]; done.
Qed.

(** At the end of its time slice [a], made WAITING by [sub_task_counter], is
    made READY again by [sched], and [b] takes over. *)
Lemma starved_sched g a b c : starved g a b c ->
  exists g', sched (clock_hander (upd g a (set_state TASK_WAITING))) = Done g' /\
    starved g' b a c.
Proof.
  intros Hst. destruct (starved_ne _ _ _ _ Hst) as (Ha & Hb & Hc & Hab & Hac & Hbc).
  destruct Hst as [Ht Hn Hpa Hpb Hcur Hr Hrb Hrc].
  set (g1 := clock_hander _).
  assert (forall q, deref g1 q = if decide (q = a) then set_state TASK_WAITING (deref g a) else deref g q)
    as Hd by (intros; apply x86_deref_upd).
  unfold sched. rewrite (get_next_best g1 b).
  - assert (CURRENT g1 = a) as -> by done. apply Z.eqb_neq in Ha as Ha0, Hb as Hb0.
    rewrite Ha0, Hb0. cbn [CURRENT set_CURRENT]. rewrite Hb0.
    eexists. split; [done|].
    assert (forall q, deref (upd (set_CURRENT (upd g1 a (set_state TASK_READY)) b) b
        (set_state TASK_RUNNING)) q = if decide (q = b) then set_state TASK_RUNNING (deref g b)
        else if decide (q = a) then set_state TASK_READY (deref g a) else deref g q) as Hd'.
    { intros q. rewrite x86_deref_upd.
      change (deref (set_CURRENT (upd g1 a (set_state TASK_READY)) b))
        with (deref (upd g1 a (set_state TASK_READY))). rewrite !x86_deref_upd, !Hd.
      destruct (decide (q = b)) as [->|]; [by simp_decide|].
      destruct (decide (q = a)) as [->|]; by simp_decide. }
    split; try (rewrite !Hd'; simp_decide; done).
    + cbn. rewrite Ht. apply perm_swap.
    + rewrite !NoDup_cons in *. set_solver.
    + done.
  - cbn. rewrite Ht. set_solver.
  - done.
  - rewrite Hd. by simp_decide.
  - intros q Hq. change (q ∈ drop 1 (g_tasks g)) in Hq. rewrite Ht in Hq.
    rewrite !elem_of_cons, elem_of_nil in Hq. unfold beats. rewrite !Hd. simp_decide.
    destruct Hq as [->|[->|[->|[]]]]; [right|by left|right]; simp_decide; [|by right; right].
    by right; left.
Qed.

Lemma starved_step g a b c : starved g a b c ->
  exists g', clock_interrupt g = Done g' /\ (starved g' a b c \/ starved g' b a c).
Proof.
  intros Hst. destruct (starved_ne _ _ _ _ Hst) as (Ha & Hb & Hc & Hab & Hac & Hbc).
  unfold clock_interrupt. rewrite (sv_cur _ _ _ _ Hst). apply Z.eqb_neq in Ha as Ha0. rewrite Ha0.
  unfold sub_task_counter. rewrite (starved_wakeup _ _ _ _ Hst).
  destruct (counter (deref g a) =? 0).
  - destruct (starved_sched _ _ _ _ Hst) as (g' & E & Hst'). exists g'. split; [exact E|by right].
  - eexists. split; [done|]. left. destruct Hst as [Ht Hn Hpa Hpb Hcur Hr Hrb Hrc].
    split; try done; rewrite !x86_deref_upd; simp_decide; done.
Qed.

Lemma starved_run n g a b c : starved g a b c \/ starved g b a c ->
  exists g', clock_run n g = Done g' /\ (starved g' a b c \/ starved g' b a c).
Proof.
  revert g. induction n as [|n IH]; intros g Hst; [by exists g|].
  assert (exists g1, clock_interrupt g = Done g1 /\ (starved g1 a b c \/ starved g1 b a c))
    as (g1 & E & H1).
  { destruct Hst as [Hst|Hst]; destruct (starved_step _ _ _ _ Hst) as (g1 & E & Hg); exists g1; tauto. }
  cbn [clock_run]. rewrite E. by apply IH.
Qed.

(** The first interrupt, with no task running yet, starts the best task. *)
Lemma first_interrupt g a b c :
  drop 1 (g_tasks g) ≡ₚ [a; b; c] -> NoDup [NULL; a; b; c] -> CURRENT g = NULL ->
  (forall q, q ∈ [a; b; c] -> state (deref g q) = TASK_READY) ->
  priority (deref g c) < priority (deref g b) < priority (deref g a) ->
  exists g1, clock_interrupt g = Done g1 /\ starved g1 a b c.
Proof.
  intros Ht Hn Hcur Hs Hp. assert (a <> NULL /\ b <> NULL /\ a <> b /\ a <> c) as (Ha & Hb & Hab & Hac).
  { rewrite !NoDup_cons, !not_elem_of_cons in Hn.
    destruct Hn as ((? & ? & ? & _) & (? & ? & _) & _). split_and!; congruence. }
  unfold clock_interrupt, sched. rewrite Hcur. cbn [Z.eqb].
  set (g1 := clock_hander g). rewrite (get_next_best g1 a).
  - assert (CURRENT g1 = NULL) as -> by done. apply Z.eqb_neq in Ha as Ha0. rewrite Ha0.
    cbn [Z.eqb CURRENT set_CURRENT NULL]. rewrite Ha0. eexists. split; [done|].
    split; try (rewrite !x86_deref_upd; simp_decide; change (deref (set_CURRENT g1 a)) with (deref g);
      cbn [priority state set_state]; first [lia|apply Hs; set_solver|done]); done.
  - cbn. rewrite Ht. set_solver.
  - done.
  - change (deref g1) with (deref g). apply Hs. set_solver.
  - intros q Hq. change (q ∈ drop 1 (g_tasks g)) in Hq. rewrite Ht in Hq.
    rewrite !elem_of_cons, elem_of_nil in Hq. unfold beats. change (deref g1) with (deref g).
    destruct Hq as [->|[->|[->|[]]]]; [by left|right|right]; right; right; lia.
Qed.

(** With three tasks besides the idle one, all ready, the two of highest
    priority take turns for ever: whatever the number of timer interrupts, the
    third one stays ready and never runs. *)
Theorem clock_starves_third_task g a b c n :
  drop 1 (g_tasks g) ≡ₚ [a; b; c] -> NoDup [NULL; a; b; c] -> CURRENT g = NULL ->
  (forall q, q ∈ [a; b; c] -> state (deref g q) = TASK_READY) ->
  priority (deref g c) < priority (deref g b) < priority (deref g a) ->
  exists g', clock_run (S n) g = Done g' /\ (CURRENT g' = a \/ CURRENT g' = b) /\
    state (deref g' c) = TASK_READY.
Proof.
  intros Ht Hn Hcur Hs Hp.
  assert (exists g1, clock_interrupt g = Done g1 /\ starved g1 a b c) as (g1 & E & Hst).
  { apply first_interrupt; done. }
  cbn [clock_run]. rewrite E. cbn [mbind outcome_bind]. clear E.
  assert (exists g', clock_run n g1 = Done g' /\ (starved g' a b c \/ starved g' b a c)) as (g' & E' & Hst').
  { apply starved_run. by left. }
  exists g'. split; [done|]. destruct Hst' as [Hst'|Hst']; rewrite (sv_cur _ _ _ _ Hst');
    rewrite (sv_low _ _ _ _ Hst'); auto.
Qed.
End Behaviour.

(** ** Leaving *)

Section Exit.
Context {H : Type} `{AllocLaws H}.
Implicit Types (g : sys H).

Definition waiting g (q : Z) : Prop := q <> NULL /\ state (deref g q) = TASK_WAITING.

Lemma scan_waiting g l acc : snd (foldl (scan_ready g) acc l) = true ->
  snd acc = true \/ exists q, q ∈ l /\ waiting g q.
Proof.
  revert acc. induction l as [|p l IH]; intros acc E; [by left|]. cbn [foldl] in E.
  destruct (IH _ E) as [E1|(q & Hq & Hw)]; [|right; exists q; split; [by right|done]].
  destruct acc as [hp w]. unfold scan_ready in E1.
  destruct (p =? NULL) eqn:Ep; bool_hyps; [by left|].
  destruct (state (deref g p)) eqn:Es; try by left.
  - destruct (hp =? NULL); [by left|]. destruct (_ <? _); by left.
  - right. exists p. split; [left|done].
Qed.

(** The second loop finds a task when one waits, and leaves the heap alone. *)
Lemma reset_some l acc :
  heap (snd (foldl reset_waiting acc l)) = heap (snd acc) /\
  (fst acc <> NULL \/ (exists q, q ∈ l /\ waiting (snd acc) q) ->
   fst (foldl reset_waiting acc l) <> NULL).
Proof.
  revert acc. induction l as [|p l IH]; intros [hp g]; cbn [foldl fst snd].
  { split; [done|]. intros [?|(q & []%elem_of_nil & _)]. done. }
  destruct (IH (reset_waiting (hp, g) p)) as [Eh Hs]. rewrite Eh.
  assert (heap (snd (reset_waiting (hp, g) p)) = heap g /\
    (hp <> NULL \/ waiting g p -> fst (reset_waiting (hp, g) p) <> NULL) /\
    (forall q, waiting g q -> waiting (snd (reset_waiting (hp, g) p)) q)) as (E1 & E2 & E3).
  { unfold reset_waiting. destruct (p =? NULL) eqn:Ep; bool_hyps.
    { split; [done|]. split; [intros [?|[? _]]; done|done]. }
    destruct (state (deref g p)) eqn:Es;
      try (split; [done|]; split; [intros [?|[_ ?]]; [done|congruence]|done]).
    assert (forall q, waiting g q -> waiting (upd g p (fun t => set_counter (priority t) t)) q) as Hk.
    { intros q [Hq Hw]. split; [done|]. rewrite x86_deref_upd. by destruct (decide (q = p)) as [->|]. }
    destruct (hp =? NULL) eqn:Eh0; bool_hyps; [by split_and!|]. destruct (_ <? _); by split_and!. }
  split; [done|]. intros Hx. apply Hs. destruct Hx as [?|(q & Hq & Hw)]; [left; auto|].
  apply elem_of_cons in Hq as [->|Hq]; [left; auto|]. right. exists q. auto.
Qed.

Lemma get_next_some g : znth NULL (g_tasks g) 0 <> NULL ->
  fst (get_next_ready_task g) <> NULL /\ heap (snd (get_next_ready_task g)) = heap g.
Proof.
  intros Hidle. unfold get_next_ready_task.
  pose proof (scan_waiting g (drop 1 (g_tasks g)) (NULL, false)) as Hw.
  destruct (foldl (scan_ready g) _ _) as [hp w]. cbn [snd] in Hw.
  destruct (hp =? NULL) eqn:E; bool_hyps; [|done]. destruct w; [|done].
  destruct (reset_some (drop 1 (g_tasks g)) (NULL, g)) as [Eh Hs]. split; [|done].
  apply Hs. right. by destruct (Hw eq_refl) as [?|?].
Qed.

(** [task_exit] gives the kernel stack back with the length of the user stack:
    when the two lengths are of different size classes the heap finds no such
    block.  The kernel stack stays allocated, like the user stack, which is
    never given back; another task runs all the same. *)
Theorem task_exit_leaks_stacks g p :
  let t := deref g p in
  al_live (heap g) p sizeof_task_t -> al_live (heap g) (stack t) PAGE_SIZE ->
  al_live (heap g) (user_stack t) (stackSize t) -> NoDup [p; stack t; user_stack t] ->
  al_class (stackSize t) <> al_class PAGE_SIZE ->
  znth NULL (zset (g_tasks g) (pid t) NULL) 0 <> NULL ->
  exists g', task_exit g p = Done g' /\ CURRENT g' <> NULL /\
    (forall q n, al_live (heap g') q n <-> al_live (heap g) q n /\ q <> p) /\
    al_live (heap g') (stack t) PAGE_SIZE /\ al_live (heap g') (user_stack t) (stackSize t).
Proof.
  intros t Hlp Hls Hlu Hnd Hc Hidle. unfold task_exit. fold t.
  set (h := kfree_s (kfree_s (heap g) (stack t) (stackSize t)) p sizeof_task_t).
  assert (forall q n, al_live h q n <-> al_live (heap g) q n /\ q <> p) as Hh.
  { intros q n. unfold h. rewrite (al_kfree_s _ p _ sizeof_task_t).
    - by rewrite (al_kfree_s_lost _ _ _ PAGE_SIZE).
    - by rewrite (al_kfree_s_lost _ _ _ PAGE_SIZE).
    - done. }
  pose proof (get_next_some (Sys (zset (g_tasks g) (pid t) NULL) (CURRENT g) (cpu_tickes g) (store g) h) Hidle)
    as [Hn Eh].
  destruct (get_next_ready_task _) as [next g2]. cbn [fst snd heap] in Hn, Eh.
  apply Z.eqb_neq in Hn as Hn0. rewrite Hn0. eexists. split; [done|]. split; [done|].
  cbn [heap upd set_CURRENT]. rewrite Eh. rewrite !NoDup_cons, !not_elem_of_cons in Hnd.
  destruct Hnd as ((? & ? & _) & (? & _) & _). split; [exact Hh|]. split; apply Hh; auto.
Qed.
End Exit.

(** ** Witnesses *)

Definition boot : sys (list (Z * Z)) := Sys (replicate 4 NULL) NULL 0 ∅ [].
Definition booted : sys (list (Z * Z)) :=
  match init_task null_task boot 0x1000 0x2000 0x3000 with Done g => g | Stuck _ => boot end.
Definition three_tasks : sys (list (Z * Z)) :=
  match ktask_create null_task booted [120] 0x4000 2048 1 with Done (_, g) => g | Stuck _ => boot end.

Lemma clock_starves_third_task_witness :
  exists g', clock_run 50 three_tasks = Done g' /\ (CURRENT g' = 1245184 \/ CURRENT g' = 1441792) /\
    state (deref g' 1638400) = TASK_READY.
Proof.
  apply (clock_starves_third_task three_tasks 1245184 1441792 1638400 49).
  - vm_compute. reflexivity.
  - vm_compute. repeat constructor; set_solver.
  - vm_compute. reflexivity.
  - intros q Hq. rewrite !elem_of_cons, elem_of_nil in Hq.
    destruct Hq as [->|[->|[->|[]]]]; vm_compute; reflexivity.
  - vm_compute. split; reflexivity.
Defined.

Definition first_running : sys (list (Z * Z)) :=
  match clock_interrupt three_tasks with Done g => g | Stuck _ => boot end.

Lemma slice_stops_the_clock_witness :
  exists g', clock_run 3 first_running = Done g' /\ CURRENT g' = 1245184 /\ cpu_tickes g' = 1.
Proof.
  destruct (slice_stops_the_clock first_running 3) as (g' & E & E1 & _ & E2).
  - vm_compute. discriminate.
  - vm_compute. reflexivity.
  - vm_compute. split; [discriminate|reflexivity].
  - exists g'. split; [exact E|]. split; [exact E1|exact E2].
Defined.

Lemma task_exit_leaks_stacks_witness :
  exists g', task_exit first_running 1245184 = Done g' /\ al_live (heap g') 1310720 4096 /\
    al_live (heap g') 1376256 2048.
Proof.
  assert (forall p n, (p, n) ∈ heap first_running -> al_live (heap first_running) p n) as Hl.
  { intros p n. apply list_live_in. apply (bool_decide_unpack (NoDup _)). vm_compute. exact I. }
  destruct (task_exit_leaks_stacks first_running 1245184) as (g' & E & _ & _ & H1 & H2).
  - apply Hl. vm_compute. do 8 right. left.
  - apply Hl. vm_compute. do 7 right. left.
  - apply Hl. vm_compute. do 6 right. left.
  - apply (bool_decide_unpack (NoDup _)). vm_compute. exact I.
  - vm_compute. discriminate.
  - vm_compute. discriminate.
  - exists g'. split; [exact E|]. split; [exact H1|exact H2].
Defined.
