(* ===== verification/Asm32.v ===== *)
(** The 32-bit processor as x86_kernel/kernel/asm uses it: instructions over
    registers, segments, flags and memory, and a program logic for them.  A view
    names the words of the stack, the registers, and the words of the descriptor
    CURRENT points to; [wp] computes what a list of instructions does to a view,
    and [wps_sound] carries it to the processor. *)

From S2P Require Import Prelude Mem.
#[local] Open Scope kernel_scope.

(** ** State *)

Inductive reg := EAX | EBX | ECX | EDX | ESI | EDI | EBP | ESP.
Inductive sreg := CS | DS | ES | SS | FS | GS.
#[export] Instance reg_eq_dec : EqDecision reg.
Proof. solve_decision. Defined.
#[export] Instance sreg_eq_dec : EqDecision sreg.
Proof. solve_decision. Defined.

Definition reg_eqb (a b : reg) : bool :=
  match a, b with
  | EAX, EAX | EBX, EBX | ECX, ECX | EDX, EDX | ESI, ESI | EDI, EDI | EBP, EBP | ESP, ESP => true
  | _, _ => false
  end.
Definition sreg_eqb (a b : sreg) : bool :=
  match a, b with
  | CS, CS | DS, DS | ES, ES | SS, SS | FS, FS | GS, GS => true
  | _, _ => false
  end.

Record core := Core {
  reg_of : reg -> Z;
  sreg_of : sreg -> Z;
  eflags : Z;
  eip : Z;
  cmem : mem
}.

Definition put (r : reg) (v : Z) (f : reg -> Z) : reg -> Z := fun x => if reg_eqb r x then v else f x.
Definition sput (r : sreg) (v : Z) (f : sreg -> Z) : sreg -> Z := fun x => if sreg_eqb r x then v else f x.
Definition dput (i : nat) (v : Z) (d : nat -> Z) : nat -> Z := fun j => if Nat.eqb i j then v else d j.

Definition set_reg (r : reg) (v : Z) (c : core) : core :=
  Core (put r (u32 v) (reg_of c)) (sreg_of c) (eflags c) (eip c) (cmem c).
Definition set_sreg (r : sreg) (v : Z) (c : core) : core :=
  Core (reg_of c) (sput r (u16 v) (sreg_of c)) (eflags c) (eip c) (cmem c).
Definition set_mem (m : mem) (c : core) : core := Core (reg_of c) (sreg_of c) (eflags c) (eip c) m.
Definition set_eflags (f : Z) (c : core) : core := Core (reg_of c) (sreg_of c) f (eip c) (cmem c).
Definition set_eip (a : Z) (c : core) : core := Core (reg_of c) (sreg_of c) (eflags c) a (cmem c).
Definition esp (c : core) : Z := reg_of c ESP.

(** ** Flags *)

Definition IF : Z := 0x200.
(** CF, PF, AF, ZF, SF and OF. *)
Definition STATUS : Z := 0x8D5.
Definition bit_if (b : bool) (z : Z) : Z := if b then z else 0.
Definition low_ones (z : Z) : Z := foldr (fun i n => Z.b2z (Z.testbit z i) + n) 0 [0; 1; 2; 3; 4; 5; 6; 7].
(** PF, ZF and SF. *)
Definition result_flags (z : Z) : Z :=
  bit_if (Z.even (low_ones z)) 0x4 .| bit_if (z =? 0) 0x40 .| bit_if (0x80000000 <=? z) 0x80.
Definition sub_flags (a b : Z) : Z :=
  bit_if (a <? b) 1 .| result_flags (u32 (a - b)) .| bit_if (a mod 16 <? b mod 16) 0x10 .|
  bit_if (negb (s32 a - s32 b =? s32 (a - b))) 0x800.
Definition add_flags (a b : Z) : Z :=
  bit_if (4294967296 <=? a + b) 1 .| result_flags (u32 (a + b)) .| bit_if (16 <=? a mod 16 + b mod 16) 0x10 .|
  bit_if (negb (s32 a + s32 b =? s32 (a + b))) 0x800.
Definition with_status (st fl : Z) : Z := Z.ldiff fl STATUS .| st.
Definition zero_flag (fl : Z) : bool := Z.testbit fl 6.

(** ** Instructions *)

(** Memory operands are dwords at [base + 4 * k]; [CURRENT] is a global; [AddEsp k]
    adds [4 * k].  A call
    is the effect of the called function up to behind its [ret]. *)
Inductive instr :=
| MovRR (d s : reg)
| MovRI (d : reg) (z : Z)
| Load (d base : reg) (k : nat)
| Store (base : reg) (k : nat) (s : reg)
| LoadCurrent (d : reg)
| LoadAx (base : reg) (k : nat)
| MovAx (z : Z)
| PushR (r : reg)
| PushI (z : Z)
| PopR (r : reg)
| PushF
| AddEsp (k : nat)
| AddI (r : reg) (z : Z)
| AndI (r : reg) (z : Z)
| OrI (r : reg) (z : Z)
| XorR (r : reg)
| FromSeg (d : reg) (s : sreg)
| AxFromSeg (s : sreg)
| ToSeg (s : sreg) (r : reg)
| CmpI (r : reg) (z : Z)
| CmpR (a b : reg)
| Cli
| Sti
| Call (fn : core -> core).

Section Machine.
(** Where the global CURRENT is. *)
Context (CURRENT : Z).

Definition push (v : Z) (c : core) : core :=
  let c := set_reg ESP (esp c - 4) c in set_mem (st32 (cmem c) (esp c) v) c.
Definition pop (r : reg) (c : core) : core :=
  let v := ld32 (cmem c) (esp c) in set_reg r v (set_reg ESP (esp c + 4) c).
Definition at_mem (base : reg) (k : nat) (c : core) : Z := u32 (reg_of c base + 4 * Z.of_nat k).
Definition alu (st : Z) (c : core) : core := set_eflags (with_status st (eflags c)) c.
Definition low16 (old v : Z) : Z := old - u16 old + u16 v.

Definition exec (i : instr) (c : core) : core :=
  match i with
  | MovRR d s => set_reg d (reg_of c s) c
  | MovRI d z => set_reg d z c
  | Load d base k => set_reg d (ld32 (cmem c) (at_mem base k c)) c
  | Store base k s => set_mem (st32 (cmem c) (at_mem base k c) (reg_of c s)) c
  | LoadCurrent d => set_reg d (ld32 (cmem c) CURRENT) c
  | LoadAx base k => set_reg EAX (low16 (reg_of c EAX) (ld32 (cmem c) (at_mem base k c))) c
  | MovAx z => set_reg EAX (low16 (reg_of c EAX) z) c
  | PushR r => push (reg_of c r) c
  | PushI z => push z c
  | PopR r => pop r c
  | PushF => push (eflags c) c
  | AddEsp k => alu (add_flags (esp c) (4 * Z.of_nat k)) (set_reg ESP (esp c + 4 * Z.of_nat k) c)
  | AddI r z => alu (add_flags (reg_of c r) z) (set_reg r (reg_of c r + z) c)
  | AndI r z => alu (result_flags (reg_of c r .& z)) (set_reg r (reg_of c r .& z) c)
  | OrI r z => alu (result_flags (reg_of c r .| z)) (set_reg r (reg_of c r .| z) c)
  | XorR r => alu (result_flags 0) (set_reg r 0 c)
  | FromSeg d s => set_reg d (sreg_of c s) c
  | AxFromSeg s => set_reg EAX (low16 (reg_of c EAX) (sreg_of c s)) c
  | ToSeg s r => set_sreg s (reg_of c r) c
  | CmpI r z => alu (sub_flags (reg_of c r) (u32 z)) c
  | CmpR a b => alu (sub_flags (reg_of c a) (reg_of c b)) c
  | Cli => set_eflags (Z.ldiff (eflags c) IF) c
  | Sti => set_eflags (eflags c .| IF) c
  | Call fn => fn c
  end.
Definition run (l : list instr) (c : core) : core := foldl (fun c i => exec i c) c l.

Definition ret (c : core) : core := set_eip (ld32 (cmem c) (esp c)) (set_reg ESP (esp c + 4) c).

(** [iretd] in protected mode, without the checks that raise #GP: the stack
    pointer and segment are popped too when the privilege level changes, and then
    data segments of a more privileged level are lost; [dpl] is the level of a
    selector's descriptor. *)
Definition cpl (c : core) : Z := sreg_of c CS .& 3.
Definition iretd (dpl : Z -> Z) (c : core) : core :=
  let word i := ld32 (cmem c) (u32 (esp c + 4 * i)) in
  let c' := set_eflags (word 2) (set_sreg CS (word 1) (set_eip (word 0) c)) in
  if cpl c' =? cpl c then set_reg ESP (esp c + 12) c'
  else
    let keep x := if dpl (sreg_of c x) <? cpl c' then 0 else sreg_of c x in
    set_reg ESP (word 3) (set_sreg SS (word 4)
      (set_sreg DS (keep DS) (set_sreg ES (keep ES) (set_sreg FS (keep FS) (set_sreg GS (keep GS) c'))))).

(** A gate taken: from an outer level the stack of the TSS is taken, with the old
    one on it; interrupts are off behind it. *)
Definition interrupt (kcs kss esp0 : Z) (c : core) : core :=
  let c' := if cpl c =? kcs .& 3 then c
            else push (esp c) (push (sreg_of c SS) (set_reg ESP esp0 (set_sreg SS kss c))) in
  let c' := push (eip c) (push (sreg_of c CS) (push (eflags c) c')) in
  set_eflags (Z.ldiff (eflags c) IF) (set_sreg CS kcs c').

(** ** Views *)

(** The words of the stack from esp, the registers but esp, the segments, the
    flags, and the words of the descriptor. *)
Record view := View {
  v_sp : Z;
  v_ws : list Z;
  v_reg : reg -> Z;
  v_seg : sreg -> Z;
  v_fl : Z;
  v_d : nat -> Z
}.

Fixpoint words_at (m : mem) (a : Z) (ws : list Z) : Prop :=
  match ws with
  | [] => True
  | w :: ws' => ld32 m a = w /\ words_at m (a + 4) ws'
  end.

(** The stack from [lo] to [hi], the descriptor at [p], of 45 words. *)
Context (lo hi p : Z).

Definition in_desc (a : Z) : Prop := p <= a < p + 180.
Definition in_current (a : Z) : Prop := CURRENT <= a < CURRENT + 4.

Record layout : Prop := {
  lay_stack : 0 <= lo <= hi /\ hi < 4294967296;
  lay_desc : 0 <= p /\ p + 180 < 4294967296;
  lay_current : 0 <= CURRENT /\ CURRENT + 4 < 4294967296;
  lay_stack_desc : p + 180 <= lo \/ hi <= p;
  lay_stack_current : CURRENT + 4 <= lo \/ hi <= CURRENT;
  lay_desc_current : CURRENT + 4 <= p \/ p + 180 <= CURRENT
}.

Record rep (c : core) (v : view) : Prop := {
  rep_sp : esp c = v_sp v;
  rep_range : lo <= v_sp v /\ v_sp v + 4 * Z.of_nat (length (v_ws v)) <= hi;
  rep_words : words_at (cmem c) (v_sp v) (v_ws v);
  rep_regs : forall r, r <> ESP -> reg_of c r = v_reg v r;
  rep_bound : forall r, r <> ESP -> 0 <= v_reg v r < 4294967296;
  rep_segs : forall x, sreg_of c x = v_seg v x;
  rep_seg_bound : forall x, 0 <= v_seg v x < 65536;
  rep_fl : eflags c = v_fl v;
  rep_fl_bound : 0 <= v_fl v < 4294967296;
  rep_desc : forall i, (i < 45)%nat -> ld32 (cmem c) (p + 4 * Z.of_nat i) = v_d v i;
  rep_current : ld32 (cmem c) CURRENT = p
}.

Definition with_reg (r : reg) (x : Z) (v : view) : view :=
  View (v_sp v) (v_ws v) (put r x (v_reg v)) (v_seg v) (v_fl v) (v_d v).
Definition with_seg (s : sreg) (x : Z) (v : view) : view :=
  View (v_sp v) (v_ws v) (v_reg v) (sput s x (v_seg v)) (v_fl v) (v_d v).
Definition with_fl (x : Z) (v : view) : view :=
  View (v_sp v) (v_ws v) (v_reg v) (v_seg v) x (v_d v).
Definition with_stack (sp : Z) (ws : list Z) (v : view) : view :=
  View sp ws (v_reg v) (v_seg v) (v_fl v) (v_d v).
Definition with_desc (i : nat) (x : Z) (v : view) : view :=
  View (v_sp v) (v_ws v) (v_reg v) (v_seg v) (v_fl v) (dput i x (v_d v)).

(** What a called function asks of a view and does to it. *)
Definition call_spec (fn : core -> core) (P : view -> Prop) (R : view -> view -> Prop) : Prop :=
  forall c v, rep c v -> P v -> exists v', rep (fn c) v' /\ R v v'.

Definition word_at (base : reg) (k : nat) (v : view) (Q : Z -> Prop) : Prop :=
  if reg_eqb base ESP then
    match v_ws v !! k with Some w => Q w | None => False end
  else v_reg v base = p /\ (k < 45)%nat /\ Q (v_d v k).
Definition pushed (x : Z) (v : view) (Q : view -> Prop) : Prop :=
  lo <= v_sp v - 4 /\ Q (with_stack (v_sp v - 4) (x :: v_ws v) v).
Definition not_esp (r : reg) : Prop := reg_eqb r ESP = false.

Definition wp (i : instr) (v : view) (Q : view -> Prop) : Prop :=
  match i with
  | MovRR d s => not_esp d /\ Q (with_reg d (if reg_eqb s ESP then v_sp v else v_reg v s) v)
  | MovRI d z => not_esp d /\ 0 <= z < 4294967296 /\ Q (with_reg d z v)
  | Load d base k => not_esp d /\ word_at base k v (fun w => Q (with_reg d w v))
  | Store base k s => not_esp base /\ not_esp s /\ v_reg v base = p /\ (k < 45)%nat /\ Q (with_desc k (v_reg v s) v)
  | LoadCurrent d => not_esp d /\ Q (with_reg d p v)
  | LoadAx base k => word_at base k v (fun w => Q (with_reg EAX (low16 (v_reg v EAX) w) v))
  | MovAx z => Q (with_reg EAX (low16 (v_reg v EAX) z) v)
  | PushR r => not_esp r /\ pushed (v_reg v r) v Q
  | PushI z => 0 <= z < 4294967296 /\ pushed z v Q
  | PopR r => not_esp r /\ match v_ws v with [] => False | w :: ws => Q (with_reg r w (with_stack (v_sp v + 4) ws v)) end
  | PushF => pushed (v_fl v) v Q
  | AddEsp k => (k <= length (v_ws v))%nat /\
      Q (with_fl (with_status (add_flags (v_sp v) (4 * Z.of_nat k)) (v_fl v))
           (with_stack (v_sp v + 4 * Z.of_nat k) (drop k (v_ws v)) v))
  | AddI r z => not_esp r /\
      Q (with_fl (with_status (add_flags (v_reg v r) z) (v_fl v)) (with_reg r (u32 (v_reg v r + z)) v))
  | AndI r z => not_esp r /\ 0 <= z < 4294967296 /\
      Q (with_fl (with_status (result_flags (v_reg v r .& z)) (v_fl v)) (with_reg r (v_reg v r .& z) v))
  | OrI r z => not_esp r /\ 0 <= z < 4294967296 /\
      Q (with_fl (with_status (result_flags (v_reg v r .| z)) (v_fl v)) (with_reg r (v_reg v r .| z) v))
  | XorR r => not_esp r /\ Q (with_fl (with_status (result_flags 0) (v_fl v)) (with_reg r 0 v))
  | FromSeg d s => not_esp d /\ Q (with_reg d (v_seg v s) v)
  | AxFromSeg s => Q (with_reg EAX (low16 (v_reg v EAX) (v_seg v s)) v)
  | ToSeg s r => not_esp r /\ Q (with_seg s (u16 (v_reg v r)) v)
  | CmpI r z => not_esp r /\ Q (with_fl (with_status (sub_flags (v_reg v r) (u32 z)) (v_fl v)) v)
  | CmpR a b => not_esp a /\ not_esp b /\
      Q (with_fl (with_status (sub_flags (v_reg v a) (v_reg v b)) (v_fl v)) v)
  | Cli => Q (with_fl (Z.ldiff (v_fl v) IF) v)
  | Sti => Q (with_fl (v_fl v .| IF) v)
  | Call fn => exists P R, call_spec fn P R /\ P v /\ forall v', R v v' -> Q v'
  end.
Fixpoint wps (l : list instr) (v : view) (Q : view -> Prop) : Prop :=
  match l with
  | [] => Q v
  | i :: l' => wp i v (fun v' => wps l' v' Q)
  end.

(** ** Soundness *)

Context (Hlay : layout).

Lemma not_esp_ne r : not_esp r -> r <> ESP.
Proof. unfold not_esp. by intros H ->. Qed.
Lemma put_eq r x f : put r x f r = x.
Proof. unfold put. by destruct r. Qed.
Lemma put_ne r x f r' : r <> r' -> put r x f r' = f r'.
Proof. unfold put. by destruct r, r'. Qed.
Lemma sput_cases s x f y : sput s x f y = x /\ s = y \/ sput s x f y = f y /\ s <> y.
Proof. unfold sput. destruct s, y; ((left; done) || (right; done)). Qed.

Lemma high_bits a i : 0 <= a < 4294967296 -> 32 <= i -> Z.testbit a i = false.
Proof. intros Ha Hi. rewrite <- (Z.mod_small a (2 ^ 32)) by done. apply Z.mod_pow2_bits_high. lia. Qed.
Lemma bits_bound z : (forall i, 32 <= i -> Z.testbit z i = false) -> 0 <= z < 4294967296.
Proof.
  intros H. assert (z = z mod 2 ^ 32) as ->; [|apply Z.mod_pos_bound; lia].
  apply Z.bits_inj'. intros i Hi. destruct (decide (i < 32)).
  - by rewrite Z.mod_pow2_bits_low by lia.
  - rewrite Z.mod_pow2_bits_high by lia. apply H. lia.
Qed.
Lemma lor_bound a b : 0 <= a < 4294967296 -> 0 <= b < 4294967296 -> 0 <= a .| b < 4294967296.
Proof. intros Ha Hb. apply bits_bound. intros i Hi. rewrite Z.lor_spec. by rewrite !high_bits. Qed.
Lemma ldiff_bound a b : 0 <= a < 4294967296 -> 0 <= Z.ldiff a b < 4294967296.
Proof. intros Ha. apply bits_bound. intros i Hi. rewrite Z.ldiff_spec. by rewrite high_bits. Qed.
Lemma land_bound a b : 0 <= a < 4294967296 -> 0 <= a .& b < 4294967296.
Proof. intros Ha. apply bits_bound. intros i Hi. rewrite Z.land_spec. by rewrite high_bits. Qed.
Lemma bit_if_bound b z : 0 <= z < 4294967296 -> 0 <= bit_if b z < 4294967296.
Proof. destruct b; cbn; lia. Qed.
Lemma result_flags_bound z : 0 <= result_flags z < 4294967296.
Proof. unfold result_flags. repeat apply lor_bound; apply bit_if_bound; lia. Qed.
Lemma sub_flags_bound a b : 0 <= sub_flags a b < 4294967296.
Proof. unfold sub_flags. repeat apply lor_bound; apply bit_if_bound; lia. Qed.
Lemma add_flags_bound a b : 0 <= add_flags a b < 4294967296.
Proof. unfold add_flags. repeat apply lor_bound; apply bit_if_bound; lia. Qed.

Lemma words32_agree m m' a ws :
  (forall x, a <= x < a + 4 * Z.of_nat (length ws) -> ld8 m' x = ld8 m x) -> words_at m a ws -> words_at m' a ws.
Proof.
  revert a. induction ws as [|w ws IH]; intros a H; cbn [words_at length] in *; [done|]. intros [<- Hw]. split.
  - apply ldn_ext. intros x Hx. apply H. lia.
  - apply IH; [|done]. intros x Hx. apply H. lia.
Qed.
Lemma words32_lookup m a ws i w : words_at m a ws -> ws !! i = Some w -> ld32 m (a + 4 * Z.of_nat i) = w.
Proof.
  revert a i. induction ws as [|w' ws IH]; intros a i Hw Hi; [done|]. destruct Hw as [Hw Hl], i as [|i].
  - injection Hi as ->. by rewrite Z.add_0_r.
  - rewrite <- (IH (a + 4) i Hl Hi). f_equal. lia.
Qed.
Lemma words_at_drop m a ws k : words_at m a ws -> words_at m (a + 4 * Z.of_nat k) (drop k ws).
Proof.
  revert a k. induction ws as [|w ws IH]; intros a k Hw; [by rewrite drop_nil|]. destruct k as [|k].
  - by rewrite Z.add_0_r.
  - cbn [drop]. replace (a + 4 * Z.of_nat (S k)) with (a + 4 + 4 * Z.of_nat k) by lia. apply IH. by destruct Hw.
Qed.

Section Rep.
Context (c : core) (v : view) (Hr : rep c v).

Lemma rep_set r x : not_esp r -> 0 <= x < 4294967296 -> rep (set_reg r x c) (with_reg r x v).
Proof.
  intros Hn Hx. apply not_esp_ne in Hn. destruct Hr as [R1 R2 R3 R4 R5 R6 R7 R8 R9 R10 R11]. split; try done.
  - cbn. unfold esp in *. cbn. by rewrite put_ne.
  - intros r' Hr'. cbn. rewrite u32_small by done. destruct (decide (r = r')) as [<-|Hne].
    + by rewrite !put_eq.
    + rewrite !put_ne by done. by apply R4.
  - intros r' Hr'. cbn. destruct (decide (r = r')) as [<-|Hne]; [by rewrite put_eq|]. rewrite put_ne by done. by apply R5.
Qed.

Lemma rep_set_u32 r x : not_esp r -> rep (set_reg r x c) (with_reg r (u32 x) v).
Proof.
  intros Hn. assert (set_reg r x c = set_reg r (u32 x) c) as ->.
  { unfold set_reg. rewrite (u32_small (u32 x)) by apply u32_bound. done. }
  apply rep_set; [done|apply u32_bound].
Qed.

Lemma rep_ax w : rep (set_reg EAX (low16 (reg_of c EAX) w) c) (with_reg EAX (low16 (v_reg v EAX) w) v).
Proof.
  rewrite (rep_regs _ _ Hr) by done. apply rep_set; [done|]. pose proof (rep_bound _ _ Hr EAX ltac:(done)).
  unfold low16, u16. zlia.
Qed.

Lemma rep_seg s x : rep (set_sreg s x c) (with_seg s (u16 x) v).
Proof.
  destruct Hr as [R1 R2 R3 R4 R5 R6 R7 R8 R9 R10 R11]. split; try done.
  - intros y. cbn. unfold sput. by rewrite R6.
  - intros y. cbn. destruct (sput_cases s (u16 x) (v_seg v) y) as [[-> _]|[-> _]]; [apply u16_bound|done].
Qed.

Lemma rep_eflags x : 0 <= x < 4294967296 -> rep (set_eflags x c) (with_fl x v).
Proof. intros Hx. by destruct Hr as [R1 R2 R3 R4 R5 R6 R7 R8 R9 R10 R11]; split. Qed.

Lemma rep_alu st : 0 <= st < 4294967296 -> rep (alu st c) (with_fl (with_status st (v_fl v)) v).
Proof.
  intros Hst. unfold alu. rewrite (rep_fl _ _ Hr). apply rep_eflags. unfold with_status.
  apply lor_bound; [apply ldiff_bound, (rep_fl_bound _ _ Hr)|done].
Qed.

(** Memory changes outside what the view names. *)
Lemma rep_mem m : (forall a, v_sp v <= a < v_sp v + 4 * Z.of_nat (length (v_ws v)) \/ in_desc a \/ in_current a ->
  ld8 m a = ld8 (cmem c) a) -> rep (set_mem m c) v.
Proof.
  intros Hm. destruct Hr as [R1 R2 R3 R4 R5 R6 R7 R8 R9 R10 R11]. split; try done.
  - eapply words32_agree; [|exact R3]. intros a Ha. apply Hm. by left.
  - intros i Hi. rewrite <- R10 by done. apply ldn_ext. intros a Ha. apply Hm. right; left. unfold in_desc. lia.
  - rewrite <- R11. apply ldn_ext. intros a Ha. apply Hm. right; right. unfold in_current. lia.
Qed.

(** The stack pointer moves over known words. *)
Lemma rep_esp sp ws : lo <= sp -> sp + 4 * Z.of_nat (length ws) <= hi -> words_at (cmem c) sp ws ->
  rep (set_reg ESP sp c) (with_stack sp ws v).
Proof.
  intros H1 H2 H3. pose proof (lay_stack Hlay). destruct Hr as [R1 R2 R3 R4 R5 R6 R7 R8 R9 R10 R11]. split; try done.
  - change (u32 sp = sp). apply u32_small. lia.
  - intros r Hn. cbn. rewrite put_ne by congruence. by apply R4.
Qed.

Lemma rep_drop k : (k <= length (v_ws v))%nat ->
  rep (set_reg ESP (esp c + 4 * Z.of_nat k) c) (with_stack (v_sp v + 4 * Z.of_nat k) (drop k (v_ws v)) v).
Proof.
  intros Hk. rewrite (rep_sp _ _ Hr). pose proof (rep_range _ _ Hr).
  apply rep_esp; [lia|rewrite length_drop; lia|]. apply words_at_drop, (rep_words _ _ Hr).
Qed.

Lemma rep_push x : lo <= v_sp v - 4 -> 0 <= x < 4294967296 ->
  rep (push x c) (with_stack (v_sp v - 4) (x :: v_ws v) v).
Proof.
  intros Hlo Hx. pose proof (lay_stack Hlay). destruct Hlay as [L1 L2 L3 L4 L5 L6].
  pose proof (rep_range _ _ Hr) as [B1 B2].
  assert (esp (set_reg ESP (esp c - 4) c) = v_sp v - 4) as E.
  { rewrite <- (rep_sp _ _ Hr) in *. change (u32 (esp c - 4) = esp c - 4). apply u32_small. lia. }
  unfold push. rewrite E. cbn [cmem set_reg]. set (m := st32 (cmem c) (v_sp v - 4) x).
  assert (forall a, a < v_sp v - 4 \/ v_sp v <= a -> ld8 m a = ld8 (cmem c) a) as Hm
    by (intros a Ha; apply (ld8_stn_ne 4); lia).
  assert (rep (set_mem m c) v) as H1.
  { apply rep_mem. intros a [Ha|[Ha|Ha]]; apply Hm; unfold in_desc, in_current in Ha; lia. }
  destruct H1 as [R1 R2 R3 R4 R5 R6 R7 R8 R9 R10 R11]. split; try done.
  - cbn. lia.
  - cbn [v_sp v_ws with_stack words_at]. split.
    + cbn. unfold m. rewrite ld32_st32. by apply u32_small.
    + replace (v_sp v - 4 + 4) with (v_sp v) by lia. exact R3.
  - intros r Hn. cbn. rewrite put_ne by congruence. by apply R4.
Qed.

Lemma rep_word_at base k Q : word_at base k v Q ->
  exists w, ld32 (cmem c) (at_mem base k c) = w /\ 0 <= w < 4294967296 /\ Q w.
Proof.
  pose proof (lay_stack Hlay). pose proof (lay_desc Hlay). unfold word_at, at_mem. destruct (reg_eqb base ESP) eqn:E.
  - assert (base = ESP) as -> by (by destruct base). change (reg_of c ESP) with (esp c).
    destruct (v_ws v !! k) as [w|] eqn:Ek; [|done]. intros HQ. exists w. pose proof (rep_range _ _ Hr).
    pose proof (lookup_lt_Some _ _ _ Ek). rewrite (rep_sp _ _ Hr), u32_small by lia.
    pose proof (words32_lookup _ _ _ _ _ (rep_words _ _ Hr) Ek) as <-. split; [done|]. split; [apply ld32_bound|done].
  - intros (Hb & Hk & HQ). exists (v_d v k). rewrite (rep_regs _ _ Hr), Hb, u32_small by (done || lia || by apply not_esp_ne).
    rewrite (rep_desc _ _ Hr) by done. split; [done|]. rewrite <- (rep_desc _ _ Hr) by done. split; [apply ld32_bound|].
    by rewrite (rep_desc _ _ Hr).
Qed.

Lemma rep_desc_store k x : (k < 45)%nat -> 0 <= x < 4294967296 ->
  rep (set_mem (st32 (cmem c) (p + 4 * Z.of_nat k) x) c) (with_desc k x v).
Proof.
  intros Hk Hx. pose proof (lay_stack Hlay). destruct Hlay as [L1 L2 L3 L4 L5 L6].
  pose proof (rep_range _ _ Hr). destruct Hr as [R1 R2 R3 R4 R5 R6 R7 R8 R9 R10 R11]. split; try done.
  - eapply words32_agree; [|exact R3]. intros a Ha. cbn [v_sp v_ws with_desc] in Ha. apply (ld8_stn_ne 4). lia.
  - intros i Hi. cbn. unfold dput. destruct (Nat.eqb k i) eqn:E.
    + apply Nat.eqb_eq in E as <-. rewrite ld32_st32. by apply u32_small.
    + apply Nat.eqb_neq in E. rewrite <- R10 by done. apply (ldn_stn_ne 4 4). lia.
  - etrans; [|exact R11]. apply (ldn_stn_ne 4 4). lia.
Qed.

Lemma rep_store base k s : not_esp base -> not_esp s -> v_reg v base = p -> (k < 45)%nat ->
  rep (set_mem (st32 (cmem c) (at_mem base k c) (reg_of c s)) c) (with_desc k (v_reg v s) v).
Proof.
  intros Hb Hs Hp Hk. pose proof (lay_desc Hlay). apply not_esp_ne in Hb, Hs.
  unfold at_mem. rewrite !(rep_regs _ _ Hr), Hp, u32_small by (done || lia). apply rep_desc_store; [done|].
  by apply (rep_bound _ _ Hr).
Qed.

Lemma pushed_sound x Q : 0 <= x < 4294967296 -> pushed x v Q -> exists v', rep (push x c) v' /\ Q v'.
Proof. intros Hx [Hlo HQ]. eexists. split; [by apply rep_push|exact HQ]. Qed.

End Rep.

Lemma rep_pop c v r w ws : rep c v -> not_esp r -> v_ws v = w :: ws ->
  rep (pop r c) (with_reg r w (with_stack (v_sp v + 4) ws v)).
Proof.
  intros Hr Hn Hw. pose proof (rep_drop c v Hr 1) as H1. pose proof (rep_words _ _ Hr) as H2. rewrite Hw in H1, H2.
  specialize (H1 ltac:(cbn; lia)). change (4 * Z.of_nat 1) with 4 in H1. cbn [drop] in H1. destruct H2 as [<- _].
  rewrite <- (rep_sp _ _ Hr) in *. unfold pop. apply rep_set; [exact H1|done|apply ld32_bound].
Qed.

(** One instruction, and a routine. *)
Lemma wp_sound i c v Q : rep c v -> wp i v Q -> exists v', rep (exec i c) v' /\ Q v'.
Proof.
  intros Hr. destruct i; cbn [wp exec]; intros Hw.
  - destruct Hw as [Hd HQ]. eexists. split; [|exact HQ]. destruct (reg_eqb s ESP) eqn:E.
    + assert (s = ESP) as -> by (by destruct s). change (reg_of c ESP) with (esp c). rewrite (rep_sp _ _ Hr).
      apply rep_set; [done|done|]. pose proof (rep_range _ _ Hr). pose proof (lay_stack Hlay). lia.
    + rewrite (rep_regs _ _ Hr) by (by apply not_esp_ne). apply rep_set; [done|done|]. by apply (rep_bound _ _ Hr), not_esp_ne.
  - destruct Hw as (Hd & Hz & HQ). eexists. split; [|exact HQ]. by apply rep_set.
  - destruct Hw as [Hd Hw]. destruct (rep_word_at _ _ Hr _ _ _ Hw) as (w & -> & Hb & HQ).
    eexists. split; [|exact HQ]. by apply rep_set.
  - destruct Hw as (Hb & Hs & Hp & Hk & HQ). eexists. split; [|exact HQ]. by apply rep_store.
  - destruct Hw as [Hd HQ]. eexists. split; [|exact HQ]. rewrite (rep_current _ _ Hr). apply rep_set; [done|done|].
    pose proof (lay_desc Hlay). lia.
  - destruct (rep_word_at _ _ Hr _ _ _ Hw) as (w & -> & Hb & HQ). eexists. split; [|exact HQ].
    by apply rep_ax.
  - eexists. split; [|exact Hw]. by apply rep_ax.
  - destruct Hw as [Hn Hw]. apply not_esp_ne in Hn. rewrite (rep_regs _ _ Hr) by done.
    apply (pushed_sound _ _ Hr); [by apply (rep_bound _ _ Hr)|done].
  - destruct Hw as [Hz Hw]. by apply (pushed_sound _ _ Hr).
  - destruct Hw as [Hn Hw]. destruct (v_ws v) as [|w ws] eqn:E; [done|]. eexists. split; [|exact Hw]. by apply rep_pop.
  - rewrite (rep_fl _ _ Hr). apply (pushed_sound _ _ Hr); [apply (rep_fl_bound _ _ Hr)|done].
  - destruct Hw as (Hk & HQ). eexists. split; [|exact HQ]. rewrite (rep_sp _ _ Hr) at 1.
    exact (rep_alu _ _ (rep_drop _ _ Hr k Hk) _ (add_flags_bound _ _)).
  - destruct Hw as [Hn HQ]. eexists. split; [|exact HQ]. rewrite !(rep_regs _ _ Hr) by (by apply not_esp_ne).
    exact (rep_alu _ _ (rep_set_u32 _ _ Hr _ _ Hn) _ (add_flags_bound _ _)).
  - destruct Hw as (Hn & Hz & HQ). eexists. split; [|exact HQ]. apply not_esp_ne in Hn as Hn'. rewrite !(rep_regs _ _ Hr) by done.
    refine (rep_alu _ _ (rep_set _ _ Hr _ _ Hn _) _ (result_flags_bound _)). by apply land_bound, (rep_bound _ _ Hr).
  - destruct Hw as (Hn & Hz & HQ). eexists. split; [|exact HQ]. apply not_esp_ne in Hn as Hn'. rewrite !(rep_regs _ _ Hr) by done.
    refine (rep_alu _ _ (rep_set _ _ Hr _ _ Hn _) _ (result_flags_bound _)). apply lor_bound; [by apply (rep_bound _ _ Hr)|done].
  - destruct Hw as [Hn HQ]. eexists. split; [|exact HQ].
    exact (rep_alu _ _ (rep_set _ _ Hr _ 0 Hn ltac:(lia)) _ (result_flags_bound _)).
  - destruct Hw as [Hd HQ]. eexists. split; [|exact HQ]. rewrite (rep_segs _ _ Hr). apply rep_set; [done|done|].
    pose proof (rep_seg_bound _ _ Hr s). lia.
  - eexists. split; [|exact Hw]. rewrite (rep_segs _ _ Hr). by apply rep_ax.
  - destruct Hw as [Hn HQ]. eexists. split; [|exact HQ]. rewrite (rep_regs _ _ Hr) by (by apply not_esp_ne). by apply rep_seg.
  - destruct Hw as [Hn HQ]. eexists. split; [|exact HQ]. rewrite (rep_regs _ _ Hr) by (by apply not_esp_ne).
    apply rep_alu; [done|apply sub_flags_bound].
  - destruct Hw as (Ha & Hb & HQ). eexists. split; [|exact HQ]. rewrite !(rep_regs _ _ Hr) by (by apply not_esp_ne).
    apply rep_alu; [done|apply sub_flags_bound].
  - eexists. split; [|exact Hw]. rewrite (rep_fl _ _ Hr). apply rep_eflags; [done|]. apply ldiff_bound, (rep_fl_bound _ _ Hr).
  - eexists. split; [|exact Hw]. rewrite (rep_fl _ _ Hr). apply rep_eflags; [done|]. by apply lor_bound; [apply (rep_fl_bound _ _ Hr)|].
  - destruct Hw as (P & R & HR & HP & HQ). destruct (HR _ _ Hr HP) as (v' & H1 & H2). exists v'. split; [done|by apply HQ].
Qed.

Lemma wps_sound l c v Q : rep c v -> wps l v Q -> exists v', rep (run l c) v' /\ Q v'.
Proof.
  revert c v. induction l as [|i l IH]; intros c v Hr Hw; [by exists v|]. cbn [wps] in Hw.
  destruct (wp_sound _ _ _ _ Hr Hw) as (v1 & H1 & H2). exact (IH _ _ H1 H2).
Qed.
End Machine.

Lemma wps_cons CURRENT lo hi p i l v Q :
  wp CURRENT lo hi p i v (fun v' => wps CURRENT lo hi p l v' Q) -> wps CURRENT lo hi p (i :: l) v Q.
Proof. done. Qed.
Lemma wps_nil CURRENT lo hi p v (Q : view -> Prop) : Q v -> wps CURRENT lo hi p [] v Q.
Proof. done. Qed.

(** [wp_run] goes through the instructions of a view whose components are known,
    up to a call or the end; the side conditions are computed or linear. *)
Ltac wp_simpl :=
  cbv [wp word_at pushed with_reg with_fl with_stack with_seg with_desc v_sp v_ws v_reg v_seg v_fl v_d];
  cbn [put sput dput reg_eqb sreg_eqb Nat.eqb lookup list_lookup drop].
Ltac wp_side :=
  match goal with
  | |- wps _ _ _ _ _ _ _ => idtac
  | |- _ /\ _ => split; [solve [reflexivity | lia | cbn; lia | done]|wp_side]
  end.
Ltac wp_run :=
  repeat (apply wps_cons; wp_simpl; wp_side; wp_simpl);
  try (match goal with |- wps _ _ _ _ [] _ _ => apply wps_nil end;
       cbn [v_sp v_ws v_reg v_seg v_fl v_d put sput dput reg_eqb sreg_eqb Nat.eqb]).

(** ** Lemmas on flags and returns *)

Lemma result_zero z : Z.testbit (result_flags z) 6 = (z =? 0).
Proof.
  unfold result_flags. rewrite !Z.lor_spec. destruct (Z.even _), (z =? 0), (0x80000000 <=? z); reflexivity.
Qed.

Lemma zero_flag_sub a b fl : 0 <= a < 4294967296 -> 0 <= b < 4294967296 ->
  zero_flag (with_status (sub_flags a b) fl) = (a =? b).
Proof.
  intros Ha Hb. unfold zero_flag, with_status, sub_flags. rewrite !Z.lor_spec, Z.ldiff_spec, result_zero.
  replace (u32 (a - b) =? 0) with (a =? b).
  - change (Z.testbit STATUS 6) with true. cbn [negb]. rewrite andb_false_r.
    by destruct (a <? b), (a =? b), (a mod 16 <? b mod 16), (s32 a - s32 b =? s32 (a - b)).
  - unfold u32. destruct (decide (a = b)) as [->|Hne]; [by rewrite Z.sub_diag, !Z.eqb_refl|].
    rewrite !(proj2 (Z.eqb_neq _ _)); [done| |done]. zlia.
Qed.

(** The status flags are the last ones set, whatever other bits are set behind. *)
Lemma status_of st fl : (with_status st fl .| IF) .& STATUS = st .& STATUS.
Proof.
  apply Z.bits_inj'. intros i Hi. unfold with_status. rewrite !Z.land_spec, !Z.lor_spec, Z.ldiff_spec.
  destruct (Z.testbit STATUS i) eqn:E; [|by rewrite !andb_false_r]. rewrite !andb_true_r. rewrite andb_false_r. cbn.
  assert (Z.testbit IF i = false) as ->; [|by rewrite orb_false_r].
  change (Z.testbit (2 ^ 9) i = false). apply Z.pow2_bits_false. intros <-. by vm_compute in E.
Qed.
Lemma if_set fl : Z.testbit (fl .| IF) 9 = true.
Proof. rewrite Z.lor_spec. apply orb_true_r. Qed.

Section Lemmas.
Context (CURRENT lo hi p : Z) (Hlay : layout CURRENT lo hi p).
Abbreviation rep := (rep CURRENT lo hi p).

Lemma rep_new_stack lo' hi' c v sp : layout CURRENT lo' hi' p -> rep c v -> lo' <= sp <= hi' ->
  Asm32.rep CURRENT lo' hi' p (set_reg ESP sp c) (with_stack sp [] v).
Proof.
  intros Hl [R1 R2 R3 R4 R5 R6 R7 R8 R9 R10 R11] Hsp. pose proof (lay_stack _ _ _ _ Hl). split; try done.
  - change (u32 sp = sp). apply u32_small. lia.
  - cbn. lia.
  - intros r Hn. cbn. rewrite put_ne by congruence. by apply R4.
Qed.

Lemma rep_word c v i w : rep c v -> v_ws v !! i = Some w -> ld32 (cmem c) (u32 (esp c + 4 * Z.of_nat i)) = w /\ 0 <= w < 4294967296.
Proof.
  intros Hr Hi. assert (word_at p ESP i v (fun x => x = w)) as Hw by (unfold word_at; by rewrite Hi).
  destruct (rep_word_at _ _ _ _ Hlay _ _ Hr _ _ _ Hw) as (x & Hx & Hb & ->). done.
Qed.

(** Any processor with CURRENT in place has a view of the words known. *)
Lemma rep_self c ws : (forall r, 0 <= reg_of c r < 4294967296) -> (forall x, 0 <= sreg_of c x < 65536) ->
  0 <= eflags c < 4294967296 -> ld32 (cmem c) CURRENT = p -> lo <= esp c ->
  esp c + 4 * Z.of_nat (length ws) <= hi -> words_at (cmem c) (esp c) ws ->
  rep c (View (esp c) ws (reg_of c) (sreg_of c) (eflags c) (fun i => ld32 (cmem c) (p + 4 * Z.of_nat i))).
Proof. intros Hb Hs Hf Hcur Hlo Hhi Hw. split; try done. intros r _. apply Hb. Qed.

(** What iretd leaves: the rest of the registers and memory are as they were. *)
Record returned (c c' : core) (ip cs fl sp ss : Z) : Prop := {
  ret_eip : eip c' = ip;
  ret_cs : sreg_of c' CS = u16 cs;
  ret_fl : eflags c' = fl;
  ret_esp : esp c' = sp;
  ret_ss : sreg_of c' SS = ss;
  ret_regs : forall r, r <> ESP -> reg_of c' r = reg_of c r;
  ret_mem : cmem c' = cmem c
}.

Lemma iretd_same dpl c v w0 w1 w2 ws : rep c v -> v_ws v = w0 :: w1 :: w2 :: ws ->
  u16 w1 .& 3 = v_seg v CS .& 3 ->
  returned c (iretd dpl c) w0 w1 w2 (v_sp v + 12) (v_seg v SS) /\
  forall x, x <> CS -> sreg_of (iretd dpl c) x = v_seg v x.
Proof.
  intros Hr Hw Hl. pose proof (rep_word c v 0 w0 Hr) as [E0 _]; [by rewrite Hw|].
  pose proof (rep_word c v 1 w1 Hr) as [E1 _]; [by rewrite Hw|]. pose proof (rep_word c v 2 w2 Hr) as [E2 _]; [by rewrite Hw|].
  change (4 * Z.of_nat 0) with (4 * 0) in E0. change (4 * Z.of_nat 1) with (4 * 1) in E1.
  change (4 * Z.of_nat 2) with (4 * 2) in E2. unfold iretd. rewrite E0, E1, E2. cbv zeta.
  set (c1 := set_eflags _ _). assert (cpl c1 = cpl c) as ->.
  { unfold cpl. change (sreg_of c1 CS) with (u16 w1). by rewrite (rep_segs _ _ _ _ _ _ Hr). }
  rewrite Z.eqb_refl. pose proof (rep_range _ _ _ _ _ _ Hr) as [B1 B2]. rewrite Hw in B2. cbn [length] in B2.
  pose proof (lay_stack _ _ _ _ Hlay). split; [split; try done|].
  - change (u32 (esp c + 12) = v_sp v + 12). rewrite (rep_sp _ _ _ _ _ _ Hr). apply u32_small. lia.
  - change (sreg_of c SS = v_seg v SS). apply (rep_segs _ _ _ _ _ _ Hr).
  - intros r Hn. cbn. by rewrite put_ne by congruence.
  - intros x Hx. destruct x; try done; apply (rep_segs _ _ _ _ _ _ Hr).
Qed.

Lemma iretd_outer dpl c v w0 w1 w2 w3 w4 ws : rep c v -> v_ws v = w0 :: w1 :: w2 :: w3 :: w4 :: ws ->
  u16 w1 .& 3 <> v_seg v CS .& 3 ->
  returned c (iretd dpl c) w0 w1 w2 w3 (u16 w4) /\
  forall x, x <> CS -> x <> SS ->
    sreg_of (iretd dpl c) x = if dpl (v_seg v x) <? u16 w1 .& 3 then 0 else v_seg v x.
Proof.
  intros Hr Hw Hl. assert (forall i w, v_ws v !! i = Some w ->
    ld32 (cmem c) (u32 (esp c + 4 * Z.of_nat i)) = w /\ 0 <= w < 4294967296) as Hi by (intros; by apply rep_word with v).
  rewrite Hw in Hi. pose proof (Hi 0%nat w0 eq_refl) as [E0 _]. pose proof (Hi 1%nat w1 eq_refl) as [E1 _].
  pose proof (Hi 2%nat w2 eq_refl) as [E2 _]. pose proof (Hi 3%nat w3 eq_refl) as [E3 B3].
  pose proof (Hi 4%nat w4 eq_refl) as [E4 _].
  change (4 * Z.of_nat 0) with (4 * 0) in E0. change (4 * Z.of_nat 1) with (4 * 1) in E1.
  change (4 * Z.of_nat 2) with (4 * 2) in E2. change (4 * Z.of_nat 3) with (4 * 3) in E3.
  change (4 * Z.of_nat 4) with (4 * 4) in E4. unfold iretd. rewrite E0, E1, E2, E3, E4. cbv zeta.
  set (c1 := set_eflags _ _). assert (cpl c1 = u16 w1 .& 3) as -> by done.
  assert (cpl c = v_seg v CS .& 3) as -> by (unfold cpl; by rewrite (rep_segs _ _ _ _ _ _ Hr)).
  apply Z.eqb_neq in Hl. rewrite Hl. rewrite !(rep_segs _ _ _ _ _ _ Hr). split; [split; try done|].
  - change (u32 w3 = w3). by apply u32_small.
  - intros r Hn. cbn. by rewrite put_ne by congruence.
  - intros x H1 H2. destruct x; try done.
    all: cbn; apply u16_small; pose proof (rep_seg_bound _ _ _ _ _ _ Hr DS); pose proof (rep_seg_bound _ _ _ _ _ _ Hr ES);
      pose proof (rep_seg_bound _ _ _ _ _ _ Hr FS); pose proof (rep_seg_bound _ _ _ _ _ _ Hr GS); case_if; lia.
Qed.

(** Of four words the outer return takes the last as the stack pointer. *)
Lemma iretd_outer_esp dpl c v w0 w1 w2 w3 ws : rep c v -> v_ws v = w0 :: w1 :: w2 :: w3 :: ws ->
  u16 w1 .& 3 <> v_seg v CS .& 3 -> esp (iretd dpl c) = w3 /\ eip (iretd dpl c) = w0.
Proof.
  intros Hr Hw Hl. pose proof (rep_word c v 0 w0 Hr) as [E0 _]; [by rewrite Hw|].
  pose proof (rep_word c v 1 w1 Hr) as [E1 _]; [by rewrite Hw|]. pose proof (rep_word c v 3 w3 Hr) as [E3 B3]; [by rewrite Hw|].
  change (4 * Z.of_nat 0) with (4 * 0) in E0. change (4 * Z.of_nat 1) with (4 * 1) in E1.
  change (4 * Z.of_nat 3) with (4 * 3) in E3. unfold iretd. rewrite E0, E1, E3. cbv zeta.
  set (c1 := set_eflags _ _). assert (cpl c1 = u16 w1 .& 3) as -> by done.
  assert (cpl c = v_seg v CS .& 3) as -> by (unfold cpl; by rewrite (rep_segs _ _ _ _ _ _ Hr)).
  apply Z.eqb_neq in Hl. rewrite Hl. split; [|done]. change (u32 w3 = w3). by apply u32_small.
Qed.

(** A gate taken from an outer level. *)
Lemma interrupt_outer kcs kss esp0 c :
  (forall r, 0 <= reg_of c r < 4294967296) -> (forall x, 0 <= sreg_of c x < 65536) -> 0 <= eflags c < 4294967296 ->
  0 <= eip c < 4294967296 -> ld32 (cmem c) CURRENT = p -> cpl c <> kcs .& 3 -> lo <= esp0 - 20 -> esp0 <= hi ->
  rep (interrupt kcs kss esp0 c)
    (View (esp0 - 20) [eip c; sreg_of c CS; eflags c; esp c; sreg_of c SS] (reg_of c)
       (sput CS (u16 kcs) (sput SS (u16 kss) (sreg_of c))) (Z.ldiff (eflags c) IF)
       (fun i => ld32 (cmem c) (p + 4 * Z.of_nat i))).
Proof.
  intros Hb Hs Hf Hip Hcur Hl Hlo Hhi. pose proof (lay_stack _ _ _ _ Hlay). unfold interrupt.
  rewrite (proj2 (Z.eqb_neq _ _)) by done.
  assert (rep (set_reg ESP esp0 (set_sreg SS kss c)) (View esp0 [] (reg_of c) (sput SS (u16 kss) (sreg_of c)) (eflags c)
    (fun i => ld32 (cmem c) (p + 4 * Z.of_nat i)))) as H0.
  { split; try done.
    - change (u32 esp0 = esp0). apply u32_small. lia.
    - cbn. lia.
    - intros r Hn. cbn. by rewrite put_ne by congruence.
    - intros r _. apply Hb.
    - intros x. cbn. destruct (sput_cases SS (u16 kss) (sreg_of c) x) as [[-> _]|[-> _]]; [apply u16_bound|apply Hs]. }
  assert (0 <= esp c < 4294967296) as He by apply Hb. assert (0 <= sreg_of c SS < 4294967296) as Hss by (specialize (Hs SS); lia).
  assert (0 <= sreg_of c CS < 4294967296) as Hcs by (specialize (Hs CS); lia).
  pose proof (rep_push _ _ _ _ Hlay _ _ H0 _ ltac:(cbn; lia) Hss) as H1. cbn [with_stack v_sp v_ws v_reg v_seg v_fl v_d] in H1.
  pose proof (rep_push _ _ _ _ Hlay _ _ H1 _ ltac:(cbn; lia) He) as H2. cbn [with_stack v_sp v_ws v_reg v_seg v_fl v_d] in H2.
  set (c2 := push (esp c) _) in *.
  pose proof (rep_push _ _ _ _ Hlay _ _ H2 _ ltac:(cbn; lia) Hf) as H3. cbn [with_stack v_sp v_ws v_reg v_seg v_fl v_d] in H3.
  pose proof (rep_push _ _ _ _ Hlay _ _ H3 _ ltac:(cbn; lia) Hcs) as H4. cbn [with_stack v_sp v_ws v_reg v_seg v_fl v_d] in H4.
  pose proof (rep_push _ _ _ _ Hlay _ _ H4 _ ltac:(cbn; lia) Hip) as H5. cbn [with_stack v_sp v_ws v_reg v_seg v_fl v_d] in H5.
  change (sreg_of c2 CS) with (sreg_of c CS). change (eip c2) with (eip c). change (eflags c2) with (eflags c).
  replace (esp0 - 4 - 4 - 4 - 4 - 4) with (esp0 - 20) in H5 by lia.
  exact (rep_eflags _ _ _ _ _ _ (rep_seg _ _ _ _ _ _ H5 CS kcs) _ (ldiff_bound _ IF Hf)).
Qed.

Lemma run_instrs_app l1 l2 c : run CURRENT (l1 ++ l2) c = run CURRENT l2 (run CURRENT l1 c).
Proof. apply foldl_app. Qed.

(** ** Calls of C functions *)

Definition bounded (c : core) : Prop :=
  (forall r, 0 <= reg_of c r < 4294967296) /\ 0 <= eflags c < 4294967296.
Definition callee_saved (r : reg) : bool :=
  match r with EBX | ESI | EDI | EBP | ESP => true | _ => false end.

(** The calling convention, and that the function leaves the stack it was called
    on, the task's saved registers and CURRENT alone. *)
Record c_call_ok (fn : core -> core) : Prop := {
  cc_regs c r : callee_saved r = true -> reg_of (fn c) r = reg_of c r;
  cc_segs c : sreg_of (fn c) = sreg_of c;
  cc_bounded c : bounded c -> bounded (fn c);
  cc_mem c a : esp c <= a < hi \/ p <= a < p + 108 \/ CURRENT <= a < CURRENT + 4 ->
    ld8 (cmem (fn c)) a = ld8 (cmem c) a
}.
Definition c_called (v v' : view) : Prop :=
  v_sp v' = v_sp v /\ v_ws v' = v_ws v /\ (forall r, r = EBX \/ r = ESI \/ r = EDI \/ r = EBP -> v_reg v' r = v_reg v r) /\
  (forall x, v_seg v' x = v_seg v x) /\ forall i, (i < 27)%nat -> v_d v' i = v_d v i.

Lemma rep_bounded c v : rep c v -> bounded c.
Proof.
  intros Hr. pose proof (lay_stack _ _ _ _ Hlay). pose proof (rep_range _ _ _ _ _ _ Hr). split.
  - intros r. destruct (decide (r = ESP)) as [->|Hn].
    + change (reg_of c ESP) with (esp c). rewrite (rep_sp _ _ _ _ _ _ Hr). lia.
    + rewrite (rep_regs _ _ _ _ _ _ Hr) by done. by apply (rep_bound _ _ _ _ _ _ Hr).
  - rewrite (rep_fl _ _ _ _ _ _ Hr). apply (rep_fl_bound _ _ _ _ _ _ Hr).
Qed.

Lemma c_call_spec fn P (R : view -> view -> Prop) : c_call_ok fn ->
  (forall c v v', rep c v -> P v -> rep (fn c) v' -> c_called v v' -> R v v') ->
  call_spec CURRENT lo hi p fn P R.
Proof.
  intros [F1 F2 F3 F4] HR c v Hr HP. destruct (F3 c (rep_bounded c v Hr)) as [B1 B2].
  pose proof (rep_range _ _ _ _ _ _ Hr) as HB. pose proof (lay_stack _ _ _ _ Hlay) as HS.
  destruct (id Hr) as [R1 R2 R3 R4 R5 R6 R7 R8 R9 R10 R11].
  set (v' := View (v_sp v) (v_ws v) (reg_of (fn c)) (v_seg v) (eflags (fn c)) (fun i => ld32 (cmem (fn c)) (p + 4 * Z.of_nat i))).
  assert (rep (fn c) v') as Hr'.
  { split; [|done| |done|intros r _; apply B1|intros x; rewrite F2; apply R6|done|done|done|done|].
    - etrans; [exact (F1 c ESP eq_refl)|exact R1].
    - eapply words32_agree; [|exact R3]. intros a Ha. apply F4. left. cbn in Ha. rewrite R1. lia.
    - etrans; [|exact R11]. apply ldn_ext. intros a Ha. apply F4. lia. }
  exists v'. split; [done|]. apply (HR c v v'); [done..|]. split; [done|]. split; [done|]. split; [|split; [done|]].
  - intros r Hc. cbn. rewrite <- R4 by (intros ->; naive_solver). apply F1. destruct Hc as [->|[->|[->| ->]]]; done.
  - intros i Hi. cbn. rewrite <- R10 by lia. apply ldn_ext. intros a Ha. apply F4. lia.
Qed.

(** A function of which more is known: it has no effect but on its own part of
    the stack, and leaves ecx too. *)
Record c_frame_ok (fn : core -> core) : Prop := {
  fr_regs c r : callee_saved r = true \/ r = ECX -> reg_of (fn c) r = reg_of c r;
  fr_segs c : sreg_of (fn c) = sreg_of c;
  fr_bounded c : bounded c -> bounded (fn c);
  fr_mem c a : a < lo \/ esp c <= a -> ld8 (cmem (fn c)) a = ld8 (cmem c) a
}.

Lemma frame_rep fn c v : c_frame_ok fn -> rep c v ->
  exists f fl, rep (fn c) (View (v_sp v) (v_ws v) f (v_seg v) fl (v_d v)) /\ f ECX = v_reg v ECX /\
    forall a, a < lo \/ v_sp v <= a -> ld8 (cmem (fn c)) a = ld8 (cmem c) a.
Proof.
  intros [F1 F2 F3 F4] Hr. destruct (F3 c (rep_bounded c v Hr)) as [B1 B2]. destruct (id Hlay) as [L1 L2 L3 L4 L5 L6].
  destruct (id Hr) as [R1 R2 R3 R4 R5 R6 R7 R8 R9 R10 R11]. exists (reg_of (fn c)), (eflags (fn c)).
  split; [|split; [by etrans; [apply F1; right|by apply R4]|intros a Ha; apply F4; lia]].
  split; [|done| |done|intros r _; apply B1|intros x; rewrite F2; apply R6|done|done|done| |]; cbn [v_sp v_ws v_d] in *.
  - etrans; [apply (F1 c ESP); by left|exact R1].
  - eapply words32_agree; [|exact R3]. intros a Ha. apply F4. lia.
  - intros i Hi. rewrite <- R10 by done. apply ldn_ext. intros a Ha. apply F4. lia.
  - etrans; [|exact R11]. apply ldn_ext. intros a Ha. apply F4. lia.
Qed.
End Lemmas.
