(* ===== verification/X86Switch.v ===== *)
(** Task switches of the 32-bit kernel: sched_task, task_deal_sleep and
    mov_to_user_mode of x86_kernel/kernel/asm/schedAsm.asm, clock_handle and
    syscall_handle of asm/int_isr.asm, on the processor of [Asm32].  Registers
    are kept in the task's descriptor, whose words the code reaches by index. *)

From S2P Require X86Task.
From S2P Require Import Prelude Mem Asm32.
#[local] Open Scope kernel_scope.

(** ** Routines *)

Section Routines.
(** The global CURRENT and the table of system calls; labels of the assembly. *)
Context (CURRENT system_call_table : Z).
Context (task_exit_label wakup_return call_user_function : Z).
(** The level of a selector's descriptor. *)
Context (dpl : Z -> Z).
(** What C functions leave: one without effects on the tasks, sub_task_counter of
    task.c, and the function at an address of the table. *)
Context (c_frame sub_task_counter : core -> core) (functions : Z -> core -> core).

(** [get_first_sched_flag] and [get_esp3] of task.c: the argument is on the stack;
    fist_sched and esp3 are at 148 and 168. *)
Definition get_first_sched_flag (c : core) : core :=
  let task := ld32 (cmem c) (esp c) in
  if ld32 (cmem c) (task + 148) =? 0 then set_reg EAX 0 (c_frame c)
  else set_reg EAX 1 (c_frame (set_mem (st32 (cmem c) (task + 148) 0) c)).
Definition get_esp3 (c : core) : core :=
  set_reg EAX (ld32 (cmem c) (ld32 (cmem c) (esp c) + 168)) (c_frame c).

Definition zf (c : core) : bool := zero_flag (eflags c).

(** The flags with interrupts on, through a register. *)
Definition push_flags_on (r : reg) : list instr :=
  [PushF; Load r ESP 0; AddEsp 1; OrI r 0x200; PushR r].

(** [.task_not_fist_sched], and the end of syscall_handle, which is the same. *)
Definition restore_scene : list instr :=
  [LoadCurrent EAX; Load EBX EAX 11; Load EDX EAX 13; Load EBP EAX 15; Load ESI EAX 16; Load EDI EAX 17;
   Load ECX EAX 20; PushR ECX; Load ECX EAX 14; PushR ECX] ++ push_flags_on ECX ++
  [XorR ECX; Load ECX EAX 19; PushR ECX; Load ECX EAX 8; PushR ECX;
   Load ECX EAX 12; PushR ECX; Load ECX EAX 10; PushR ECX;
   LoadAx EAX 20; ToSeg DS EAX; ToSeg ES EAX; ToSeg FS EAX; ToSeg GS EAX; PopR EAX; PopR ECX].

(** [.task_fist_sched], behind the change of the stack. *)
Definition first_scene : list instr :=
  [LoadAx ECX 20; ToSeg DS EAX; ToSeg SS EAX; ToSeg ES EAX; ToSeg FS EAX; ToSeg GS EAX;
   MovRI EAX task_exit_label; PushR EAX] ++ push_flags_on EAX ++
  [XorR EAX; Load EAX ECX 19; PushR EAX; Load EAX ECX 8; PushR EAX].

Definition sched_task (c : core) : core :=
  let c := run CURRENT [LoadCurrent EAX; CmpI EAX 0] c in
  if zf c then ret c
  else
    let c := run CURRENT [LoadCurrent ECX; PushR ECX; Call get_first_sched_flag; CmpI EAX 0] c in
    if zf c then iretd dpl (run CURRENT restore_scene c)
    else iretd dpl (run CURRENT first_scene (exec CURRENT (Load ESP ECX 14) c)).

(** The registers that [.save_task_scene] of clock_handle and the other two
    routines store first; eax is on the stack. *)
Definition save_registers : list instr :=
  [Store EAX 11 EBX; Store EAX 12 ECX; Store EAX 13 EDX; Store EAX 15 EBP; Store EAX 16 ESI; Store EAX 17 EDI;
   MovRR ECX EAX; PopR EAX; Store ECX 10 EAX].

(** [task_deal_sleep] up to the call of sched_by_sleep, and behind it. *)
Definition sleep_save : list instr :=
  [PushR EAX; LoadCurrent EAX] ++ save_registers ++
  [MovRI EAX wakup_return; Store ECX 8 EAX; PushF; Load EAX ESP 0; Store ECX 9 EAX; AddEsp 1;
   MovRR EAX ESP; Store ECX 14 EAX].
Definition wakup (c : core) : core := ret (run CURRENT [Sti] c).

(** [mov_to_user_mode] *)
Definition to_user_words : list instr :=
  [LoadCurrent EAX; PushR EAX; Call get_esp3; AddEsp 1; MovRI ECX X86Task.USER_DATA_SECTOR; PushR ECX; PushR EAX; PushF;
   MovRI ECX X86Task.USER_CODE_SECTOR; PushR ECX; PushI call_user_function;
   MovAx X86Task.USER_DATA_SECTOR; ToSeg DS EAX; ToSeg ES EAX; ToSeg FS EAX; ToSeg GS EAX].
Definition mov_to_user_mode (c : core) : core := iretd dpl (run CURRENT to_user_words c).

(** [clock_handle]: back to the interrupted code, or on to clock_hander and
    sched. *)
Inductive clock_result := Back (c : core) | ToSched (c : core).

Definition clock_save : list instr :=
  PopR EAX :: save_registers ++
  [Load EAX ESP 0; Store ECX 8 EAX; Load EAX ESP 2; Store ECX 9 EAX; Load EAX ESP 1; Store ECX 19 EAX;
   XorR EBX; FromSeg EBX CS; AndI EAX 3; AndI EBX 3; CmpR EAX EBX].
Definition save_outer_stack : list instr :=
  [Load EAX ESP 3; Store ECX 14 EAX; Load EAX ESP 4; Store ECX 20 EAX].
Definition save_own_stack : list instr :=
  [MovRR EAX ESP; AddI EAX 12; Store ECX 14 EAX; XorR EAX; FromSeg EAX SS; Store ECX 20 EAX].

Definition clock_handle (c : core) : clock_result :=
  let c := run CURRENT [PushR EAX; LoadCurrent EAX; CmpI EAX 0] c in
  if zf c then ToSched (run CURRENT [PopR EAX] c)
  else
    let c := run CURRENT [PushR EAX; Call sub_task_counter; CmpI EAX 1] c in
    if zf c then
      let c := run CURRENT clock_save c in
      ToSched (run CURRENT (if zf c then save_own_stack else save_outer_stack) c)
    else Back (iretd dpl (run CURRENT [AddEsp 1; PopR EAX] c)).

(** [syscall_handle]: the call is through the table, without a test of the
    number. *)
Definition call_table (c : core) : core :=
  functions (ld32 (cmem c) (u32 (system_call_table + 4 * reg_of c EAX))) c.
Definition syscall_save : list instr :=
  [PushR EAX; LoadCurrent EAX] ++ save_registers ++
  [Load EAX ESP 0; Store ECX 8 EAX; Load EAX ESP 1; Store ECX 19 EAX; Load EAX ESP 2; Store ECX 9 EAX;
   Load EAX ESP 3; Store ECX 14 EAX; Load EAX ESP 4; Store ECX 20 EAX].
Definition syscall_call : list instr :=
  [AxFromSeg SS; ToSeg DS EAX; ToSeg ES EAX; ToSeg FS EAX; ToSeg GS EAX;
   LoadCurrent EAX; Load EBX EAX 11; Load ECX EAX 12; Load EDX EAX 13; Load EAX EAX 10;
   PushR EDX; PushR ECX; PushR EBX; Call call_table; AddEsp 3].
Definition syscall_handle (c : core) : core :=
  iretd dpl (run CURRENT (syscall_save ++ syscall_call ++ restore_scene) c).
End Routines.

(** ** Lemmas *)

Lemma u16_low16 old v : 0 <= old -> u16 (low16 old v) = u16 v.
Proof. intros H. unfold low16, u16. zlia. Qed.

Section Restore.
Context (CURRENT lo hi p : Z) (Hlay : layout CURRENT lo hi p).

Lemma restore_scene_spec c v : rep CURRENT lo hi p c v -> lo <= v_sp v - 28 ->
  exists v', rep CURRENT lo hi p (run CURRENT restore_scene c) v' /\
    v_sp v' = v_sp v - 20 /\
    v_ws v' = v_d v 8%nat :: v_d v 19%nat :: v_fl v .| IF :: v_d v 14%nat :: v_d v 20%nat :: v_ws v /\
    (v_reg v' EAX = v_d v 10%nat /\ v_reg v' EBX = v_d v 11%nat /\ v_reg v' ECX = v_d v 12%nat /\
     v_reg v' EDX = v_d v 13%nat /\ v_reg v' EBP = v_d v 15%nat /\ v_reg v' ESI = v_d v 16%nat /\
     v_reg v' EDI = v_d v 17%nat) /\
    (forall x, v_seg v' x = match x with CS => v_seg v CS | SS => v_seg v SS | _ => u16 (v_d v 20%nat) end) /\
    v_d v' = v_d v.
Proof.
  intros Hr Hlo. apply (wps_sound _ _ _ _ Hlay restore_scene c v _ Hr). pose proof (lay_desc _ _ _ _ Hlay).
  destruct v as [sp ws f s fl d]. cbn [v_sp v_ws v_reg v_seg v_fl v_d] in *.
  unfold restore_scene, push_flags_on. cbn [app]. wp_run.
  split; [lia|]. split; [done|]. split; [done|]. split; [|done].
  intros x. destruct x; cbn; rewrite ?u16_low16 by lia; done.
Qed.

(** ** Calls *)

Context (c_frame : core -> core) (Hframe : c_frame_ok lo c_frame).

(** The first argument is the task CURRENT points to. *)
Definition task_arg (v : view) : Prop := head (v_ws v) = Some p.

Lemma task_arg_word c v : rep CURRENT lo hi p c v -> task_arg v -> ld32 (cmem c) (esp c) = p.
Proof.
  intros Hr Ha. unfold task_arg in Ha. destruct (v_ws v) as [|w ws] eqn:E; [done|]. injection Ha as ->.
  pose proof (rep_words _ _ _ _ _ _ Hr) as Hw. rewrite E in Hw. rewrite (rep_sp _ _ _ _ _ _ Hr). by destruct Hw.
Qed.

Lemma first_flag_spec : call_spec CURRENT lo hi p (get_first_sched_flag c_frame) task_arg
  (fun v v' => v_sp v' = v_sp v /\ v_ws v' = v_ws v /\ v_reg v' EAX = (if v_d v 37%nat =? 0 then 0 else 1) /\
    v_reg v' ECX = v_reg v ECX /\ v_seg v' = v_seg v /\ forall i, (i < 45)%nat -> i <> 37%nat -> v_d v' i = v_d v i).
Proof.
  intros c v Hr Ha. unfold get_first_sched_flag. rewrite (task_arg_word c v Hr Ha).
  pose proof (rep_desc _ _ _ _ _ _ Hr 37 ltac:(lia)) as E. change (p + 4 * Z.of_nat 37) with (p + 148) in E. rewrite E.
  destruct (v_d v 37 =? 0).
  - destruct (frame_rep _ _ _ _ Hlay _ _ _ Hframe Hr) as (f & fl & H1 & E1 & _).
    eexists. split; [exact (rep_set _ _ _ _ _ _ H1 EAX 0 eq_refl ltac:(lia))|]. cbn. by rewrite E1.
  - pose proof (rep_desc_store _ _ _ _ Hlay _ _ Hr 37 0 ltac:(lia) ltac:(lia)) as H1.
    change (p + 4 * Z.of_nat 37) with (p + 148) in H1.
    destruct (frame_rep _ _ _ _ Hlay _ _ _ Hframe H1) as (f & fl & H2 & E2 & _).
    eexists. split; [exact (rep_set _ _ _ _ _ _ H2 EAX 1 eq_refl ltac:(lia))|]. cbn. rewrite E2.
    split_and!; try done. intros i Hi Hne. unfold dput. destruct (Nat.eqb_spec 37 i); [lia|done].
Qed.

Lemma esp3_spec : call_spec CURRENT lo hi p (get_esp3 c_frame) task_arg
  (fun v v' => v_sp v' = v_sp v /\ v_ws v' = v_ws v /\ v_reg v' EAX = v_d v 42%nat /\ v_seg v' = v_seg v).
Proof.
  intros c v Hr Ha. unfold get_esp3. rewrite (task_arg_word c v Hr Ha).
  pose proof (rep_desc _ _ _ _ _ _ Hr 42 ltac:(lia)) as E. change (p + 4 * Z.of_nat 42) with (p + 168) in E. rewrite E.
  destruct (frame_rep _ _ _ _ Hlay _ _ _ Hframe Hr) as (f & fl & H1 & _).
  eexists. split; [refine (rep_set _ _ _ _ _ _ H1 EAX _ eq_refl _); rewrite <- E; apply ld32_bound|done].
Qed.

(** The tests that begin sched_task: a task is there, and it is not the first time,
    or it is. *)
Lemma sched_enter_spec c v : rep CURRENT lo hi p c v -> p <> 0 -> lo <= v_sp v - 4 ->
  exists c1 v1, rep CURRENT lo hi p c1 v1 /\
    (forall wu dpl, sched_task CURRENT wu dpl c_frame c =
       if v_d v 37%nat =? 0 then iretd dpl (run CURRENT restore_scene c1)
       else iretd dpl (run CURRENT (first_scene wu) (exec CURRENT (Load ESP ECX 14) c1))) /\
    v_sp v1 = v_sp v - 4 /\ v_ws v1 = p :: v_ws v /\ v_reg v1 ECX = p /\ v_seg v1 = v_seg v /\
    (exists fl, v_fl v1 = with_status (sub_flags (if v_d v 37%nat =? 0 then 0 else 1) 0) fl) /\
    forall i, (i < 45)%nat -> i <> 37%nat -> v_d v1 i = v_d v i.
Proof.
  intros Hr Hp Hlo. pose proof (lay_desc _ _ _ _ Hlay) as Hd. destruct v as [sp ws f s fl d]. cbn [v_sp v_ws v_reg v_seg v_fl v_d] in *.
  destruct (wps_sound _ _ _ _ Hlay [LoadCurrent EAX; CmpI EAX 0] c _
    (fun v => v = View sp ws (put EAX p f) s (with_status (sub_flags p 0) fl) d) Hr) as (v0 & H0 & ->).
  { wp_run. done. }
  destruct (wps_sound _ _ _ _ Hlay [LoadCurrent ECX; PushR ECX; Call (get_first_sched_flag c_frame); CmpI EAX 0] _ _
    (fun v1 => v_sp v1 = sp - 4 /\ v_ws v1 = p :: ws /\ v_reg v1 ECX = p /\ v_seg v1 = s /\
      (exists fl, v_fl v1 = with_status (sub_flags (if d 37%nat =? 0 then 0 else 1) 0) fl) /\
      forall i, (i < 45)%nat -> i <> 37%nat -> v_d v1 i = d i) H0) as (v1 & H1 & HQ).
  { wp_run. apply wps_cons. cbn [wp]. eexists _, _. split; [apply first_flag_spec|]. split; [done|].
    intros [sp1 ws1 f1 s1 fl1 d1] (E1 & E2 & E3 & E4 & E5 & E6). cbn [v_sp v_ws v_reg v_seg v_fl v_d] in *.
    wp_run. rewrite E1, E2, E3, E4, E5. split_and!; try done. by eexists. }
  eexists _, v1. split; [exact H1|]. split; [|exact HQ]. intros wu dpl. unfold sched_task. unfold zf. rewrite (rep_fl _ _ _ _ _ _ H0). cbn [v_fl].
  rewrite zero_flag_sub by lia. rewrite (proj2 (Z.eqb_neq p 0)) by done.
  rewrite (rep_fl _ _ _ _ _ _ H1). destruct HQ as (_ & _ & _ & _ & (fl1 & ->) & _).
  destruct (d 37%nat =? 0); by rewrite zero_flag_sub by lia.
Qed.

(** ** The clock interrupt *)

Context (sub_task_counter : core -> core) (Hsub : c_call_ok CURRENT hi p sub_task_counter).

(** The scene in the descriptor: where the code was, its flags and segment, its
    registers - ecx and edx as the C function before left them - and its stack. *)
Definition saved_scene (d : nat -> Z) (f : reg -> Z) (ip cs fl sp ss cx dx : Z) : Prop :=
  d 8%nat = ip /\ d 9%nat = fl /\ d 19%nat = cs /\ d 10%nat = f EAX /\ d 11%nat = f EBX /\ d 12%nat = cx /\
  d 13%nat = dx /\ d 15%nat = f EBP /\ d 16%nat = f ESI /\ d 17%nat = f EDI /\ d 14%nat = sp /\ d 20%nat = ss.

Lemma clock_enter_spec c v : rep CURRENT lo hi p c v -> p <> 0 -> lo <= v_sp v - 8 ->
  forall answer, (forall c, reg_of (sub_task_counter c) EAX = answer) ->
  exists c1 v1, rep CURRENT lo hi p c1 v1 /\
    (forall dpl, clock_handle CURRENT dpl sub_task_counter c =
      if answer =? 1 then
        let c := run CURRENT clock_save c1 in
        ToSched (run CURRENT (if zf c then save_own_stack else save_outer_stack) c)
      else Back (iretd dpl (run CURRENT [AddEsp 1; PopR EAX] c1))) /\
    v_sp v1 = v_sp v - 8 /\ v_ws v1 = p :: v_reg v EAX :: v_ws v /\ (forall x, v_seg v1 x = v_seg v x) /\
    (forall r, r = EBX \/ r = ESI \/ r = EDI \/ r = EBP -> v_reg v1 r = v_reg v r) /\
    exists fl, v_fl v1 = with_status (sub_flags answer 1) fl.
Proof.
  intros Hr Hp Hlo answer Hans. pose proof (lay_desc _ _ _ _ Hlay) as Hd.
  pose proof (rep_bound _ _ _ _ _ _ Hr EAX ltac:(done)) as Hax.
  destruct v as [sp ws f s fl d]. cbn [v_sp v_ws v_reg v_seg v_fl v_d] in *.
  destruct (wps_sound _ _ _ _ Hlay [PushR EAX; LoadCurrent EAX; CmpI EAX 0] c _
    (fun v => v = View (sp - 4) (f EAX :: ws) (put EAX p f) s (with_status (sub_flags p 0) fl) d) Hr) as (v0 & H0 & ->).
  { wp_run. done. }
  destruct (wps_sound _ _ _ _ Hlay [PushR EAX; Call sub_task_counter; CmpI EAX 1] _ _
    (fun v1 => v_sp v1 = sp - 8 /\ v_ws v1 = p :: f EAX :: ws /\ (forall x, v_seg v1 x = s x) /\
      (forall r, r = EBX \/ r = ESI \/ r = EDI \/ r = EBP -> v_reg v1 r = f r) /\
      exists fl, v_fl v1 = with_status (sub_flags answer 1) fl) H0) as (v1 & H1 & HQ).
  { wp_run. apply wps_cons. cbn [wp]. exists (fun _ => True), (fun v v' => c_called v v' /\ v_reg v' EAX = answer).
    split; [|split; [done|]].
    - apply (c_call_spec _ _ _ _ Hlay); [exact Hsub|]. intros c' v v' _ _ H' Hc. split; [done|].
      rewrite <- (Hans c'). symmetry. by apply (rep_regs _ _ _ _ _ _ H').
    - intros [sp1 ws1 f1 s1 fl1 d1] [(E1 & E2 & E3 & E4 & E5) E6]. cbn [v_sp v_ws v_reg v_seg v_fl v_d] in *.
      wp_run. rewrite E1, E2, E6. split_and!; try done; [lia| |by eexists].
      intros r Hr'. rewrite E3 by done. unfold put. by destruct Hr' as [->|[->|[->| ->]]]. }
  eexists _, v1. split; [exact H1|]. split; [|exact HQ]. intros dpl. unfold clock_handle.
 unfold zf at 1 2. rewrite (rep_fl _ _ _ _ _ _ H0). cbn [v_fl].
  rewrite zero_flag_sub, (proj2 (Z.eqb_neq p 0)) by (done || lia).
  destruct HQ as (_ & _ & _ & _ & (fl1 & Hfl)). rewrite (rep_fl _ _ _ _ _ _ H1), Hfl.
  assert (0 <= answer < 4294967296) as Hb.
  { pose proof (cc_bounded _ _ _ _ Hsub) as Hb. destruct (Hb c (rep_bounded _ _ _ _ Hlay _ _ Hr)) as [Hb' _].
    rewrite <- (Hans c). apply Hb'. }
  by rewrite zero_flag_sub by lia.
Qed.

(** The time slice is over: the scene is saved, the stack as at the interrupt. *)
Lemma clock_save_spec c v ip cs fl ws : rep CURRENT lo hi p c v -> p <> 0 -> lo <= v_sp v - 8 ->
  (forall c, reg_of (sub_task_counter c) EAX = 1) -> v_ws v = ip :: cs :: fl :: ws ->
  let cross := negb ((cs .& 3) =? (v_seg v CS .& 3)) in
  (cross = true -> exists sp3 ss3 ws', ws = sp3 :: ss3 :: ws') ->
  exists c1 v1 cx dx, rep CURRENT lo hi p c1 v1 /\ (forall dpl, clock_handle CURRENT dpl sub_task_counter c = ToSched c1) /\
    v_sp v1 = v_sp v /\ v_ws v1 = v_ws v /\
    saved_scene (v_d v1) (v_reg v) ip cs fl (if cross then nth 0 ws 0 else v_sp v + 12)
      (if cross then nth 1 ws 0 else v_seg v SS) cx dx.
Proof.
  intros Hr Hp Hlo Hans Hws cross Hcr. destruct (clock_enter_spec c v Hr Hp Hlo 1 Hans) as (c1 & v1 & H1 & Ec & E1 & E2 & E3 & E4 & _).
  pose proof (rep_range _ _ _ _ _ _ Hr) as HB. rewrite Hws in HB. cbn [length] in HB.
  pose proof (lay_stack _ _ _ _ Hlay) as HS. pose proof (rep_seg_bound _ _ _ _ _ _ Hr CS) as Hcs.
  destruct (rep_word _ _ _ _ Hlay c v 1 cs Hr ltac:(by rewrite Hws)) as [_ Hcsw].
  pose proof (E4 EBX ltac:(tauto)) as E4b. pose proof (E4 ESI ltac:(tauto)) as E4s.
  pose proof (E4 EDI ltac:(tauto)) as E4d. pose proof (E4 EBP ltac:(tauto)) as E4p. clear E4.
  destruct v1 as [sp1 ws1 f1 s1 fl1 d1], v as [sp ws0 f s fl0 d]. cbn [v_sp v_ws v_reg v_seg v_fl v_d] in *. subst ws0 sp1 ws1.
  destruct (wps_sound _ _ _ _ Hlay clock_save c1 _ (fun v2 => v_sp v2 = sp /\ v_ws v2 = ip :: cs :: fl :: ws /\ v_seg v2 = s1 /\
      v_reg v2 ECX = p /\ (exists fl, v_fl v2 = with_status (sub_flags (cs .& 3) (s1 CS .& 3)) fl) /\
      v_d v2 = dput 19 cs (dput 9 fl (dput 8 ip (dput 10 (f EAX) (dput 17 (f1 EDI) (dput 16 (f1 ESI) (dput 15 (f1 EBP)
        (dput 13 (f1 EDX) (dput 12 (f1 ECX) (dput 11 (f1 EBX) d1)))))))))) H1) as (v2 & H2 & Q1 & Q2 & Q3 & Q4 & (fl2 & Q5) & Q6).
  { unfold clock_save, save_registers. cbn [app]. wp_run. split_and!; try done; [lia|by eexists]. }
  assert (zf (run CURRENT clock_save c1) = negb cross) as Ezf.
  { unfold zf. rewrite (rep_fl _ _ _ _ _ _ H2), Q5, E3, zero_flag_sub.
    - unfold cross. by rewrite negb_involutive.
    - apply land_bound. lia.
    - apply land_bound. lia. }
  destruct v2 as [sp2 ws2 f2 s2 fl2' d2]. cbn [v_sp v_ws v_reg v_seg v_fl v_d] in *. subst sp2 ws2 s2 d2.
  destruct (wps_sound _ _ _ _ Hlay (if negb cross then save_own_stack else save_outer_stack) _ _
    (fun v3 => v_sp v3 = sp /\ v_ws v3 = ip :: cs :: fl :: ws /\ saved_scene (v_d v3) f ip cs fl (if cross then nth 0 ws 0 else sp + 12)
      (if cross then nth 1 ws 0 else s SS) (f1 ECX) (f1 EDX)) H2) as (v3 & H3 & Q7 & Q8 & Q9).
  { unfold saved_scene, save_own_stack, save_outer_stack. destruct cross; cbn [negb].
    - destruct (Hcr eq_refl) as (sp3 & ss3 & ws' & ->). wp_run. rewrite E4b, E4s, E4d, E4p. split_and!; done.
    - wp_run. rewrite E4b, E4s, E4d, E4p, E3, u32_small by lia. split_and!; done. }
  exists (run CURRENT (if negb cross then save_own_stack else save_outer_stack) (run CURRENT clock_save c1)), v3, (f1 ECX), (f1 EDX).
  split; [exact H3|]. split; [|done]. intros dpl. rewrite (Ec dpl). cbv zeta. by rewrite Ezf.
Qed.

(** ** Going on with a task *)

Definition scene_reg (d : nat -> Z) (r : reg) : Z :=
  match r with
  | EAX => d 10%nat | EBX => d 11%nat | ECX => d 12%nat | EDX => d 13%nat
  | EBP => d 15%nat | ESI => d 16%nat | EDI => d 17%nat | ESP => d 14%nat
  end.

(** A task whose descriptor holds [d] goes on: on its own stack only if its level is
    another one, else on the running stack, at [ksp]. *)
Record goes_on (c' : core) (dpl : Z -> Z) (d : nat -> Z) (ksp cs ss : Z) : Prop := {
  go_eip : eip c' = d 8%nat;
  go_cs : sreg_of c' CS = u16 (d 19%nat);
  go_regs : forall r, r <> ESP -> reg_of c' r = scene_reg d r;
  go_if : Z.testbit (eflags c') 9 = true;
  go_stack : if u16 (d 19%nat) .& 3 =? cs .& 3
    then esp c' = ksp /\ ld32 (cmem c') ksp = d 14%nat /\ sreg_of c' SS = ss
    else esp c' = d 14%nat /\ sreg_of c' SS = u16 (d 20%nat);
  go_segs : forall x, x <> CS -> x <> SS -> sreg_of c' x =
    if (negb (u16 (d 19%nat) .& 3 =? cs .& 3) && (dpl (u16 (d 20%nat)) <? u16 (d 19%nat) .& 3))%bool then 0
    else u16 (d 20%nat)
}.

(** The end of both routines that restore a scene. *)
Lemma restore_returns c v dpl : rep CURRENT lo hi p c v -> lo <= v_sp v - 28 ->
  goes_on (iretd dpl (run CURRENT restore_scene c)) dpl (v_d v) (v_sp v - 8) (v_seg v CS) (v_seg v SS) /\
  eflags (iretd dpl (run CURRENT restore_scene c)) = v_fl v .| IF.
Proof.
  intros Hr Hlo. destruct (restore_scene_spec c v Hr Hlo) as (v2 & H2 & E1 & E2 & E3 & E4 & E5).
  set (c2 := run CURRENT restore_scene c) in *. clearbody c2.
  assert (forall r, r <> ESP -> v_reg v2 r = scene_reg (v_d v) r) as Hreg.
  { intros r Hn. destruct r; try done; by apply E3. }
  destruct (rep_word _ _ _ _ Hlay c2 v2 3 (v_d v 14) H2 ltac:(by rewrite E2)) as [Hw _].
  rewrite (rep_sp _ _ _ _ _ _ H2), E1 in Hw. pose proof (rep_range _ _ _ _ _ _ H2) as HB. rewrite E1, E2 in HB. cbn [length] in HB.
  pose proof (lay_stack _ _ _ _ Hlay). rewrite u32_small in Hw by lia.
  replace (v_sp v - 20 + 4 * Z.of_nat 3) with (v_sp v - 8) in Hw by lia.
  destruct (Z.eqb_spec (u16 (v_d v 19) .& 3) (v_seg v CS .& 3)) as [El|El].
  - destruct (iretd_same _ _ _ _ Hlay dpl c2 v2 _ _ _ _ H2 E2) as [[G1 G2 G3 G4 G5 G6 G7] Hx]; [by rewrite E4|].
    split; [|exact G3]. split; rewrite ?El, ?Z.eqb_refl; try done.
    + intros r Hn. rewrite G6, (rep_regs _ _ _ _ _ _ H2) by done. by apply Hreg.
    + rewrite G3. apply if_set.
    + rewrite G4, G5, G7, E1, E4. split; [lia|done].
    + intros x N1 N2. rewrite Hx, E4 by done. cbn [negb andb]. by destruct x.
  - destruct (iretd_outer _ _ _ _ Hlay dpl c2 v2 _ _ _ _ _ _ H2 E2) as [[G1 G2 G3 G4 G5 G6 G7] Hx]; [by rewrite E4|].
    split; [|exact G3]. apply Z.eqb_neq in El. split; rewrite ?El; try done.
    + intros r Hn. rewrite G6, (rep_regs _ _ _ _ _ _ H2) by done. by apply Hreg.
    + rewrite G3. apply if_set.
    + intros x N1 N2. rewrite Hx, E4 by done. cbn [negb andb]. by destruct x.
Qed.

Lemma sched_resume_spec c v wu dpl : rep CURRENT lo hi p c v -> p <> 0 -> lo <= v_sp v - 32 -> v_d v 37%nat = 0 ->
  let c' := sched_task CURRENT wu dpl c_frame c in
  goes_on c' dpl (v_d v) (v_sp v - 12) (v_seg v CS) (v_seg v SS) /\ eflags c' .& STATUS = 0x44.
Proof.
  intros Hr Hp Hlo Hf c'. destruct (sched_enter_spec c v Hr Hp ltac:(lia)) as (c1 & v1 & H1 & Ec & E1 & E2 & E3 & E4 & (fl & E5) & E6).
  assert (c' = iretd dpl (run CURRENT restore_scene c1)) as -> by (unfold c'; by rewrite Ec, Hf).
  destruct (restore_returns c1 v1 dpl H1 ltac:(lia)) as [[G1 G2 G3 G4 G5 G6] Hfl].
  rewrite E1, E4, !E6 in * by lia. split.
  - replace (v_sp v - 4 - 8) with (v_sp v - 12) in G5 by lia. split; try done.
    intros r Hn. rewrite G3 by done. destruct r; cbn; by rewrite E6 by lia.
  - rewrite Hfl, E5, Hf, status_of. reflexivity.
Qed.

(** ** System calls *)

Context (system_call_table : Z) (functions : Z -> core -> core).
Context (Hfun : forall a, c_call_ok CURRENT hi p (functions a)).

Lemma call_table_ok : c_call_ok CURRENT hi p (call_table system_call_table functions).
Proof.
  split; unfold call_table.
  - intros c r. apply (cc_regs _ _ _ _ (Hfun _)).
  - intros c. apply (cc_segs _ _ _ _ (Hfun _)).
  - intros c. apply (cc_bounded _ _ _ _ (Hfun _)).
  - intros c a. apply (cc_mem _ _ _ _ (Hfun _)).
Qed.

Lemma syscall_call_spec c v ip cs fl sp3 ss3 ws : rep CURRENT lo hi p c v -> lo <= v_sp v - 12 ->
  v_ws v = ip :: cs :: fl :: sp3 :: ss3 :: ws ->
  exists v', rep CURRENT lo hi p (run CURRENT (syscall_save ++ syscall_call system_call_table functions) c) v' /\
    v_sp v' = v_sp v /\ v_ws v' = v_ws v /\ v_seg v' CS = v_seg v CS /\ v_seg v' SS = v_seg v SS /\
    saved_scene (v_d v') (v_reg v) ip cs fl sp3 ss3 (v_reg v ECX) (v_reg v EDX) /\
    exists f, v_fl v' = with_status (add_flags (v_sp v - 12) 12) f.
Proof.
  intros Hr Hlo Hws. destruct v as [sp ws0 f s fl0 d]. cbn [v_sp v_ws v_reg v_seg v_fl v_d] in *. subst ws0.
  apply (wps_sound _ _ _ _ Hlay _ _ _ _ Hr). unfold syscall_save, syscall_call, save_registers. cbn [app]. wp_run.
  apply wps_cons. cbn [wp]. exists (fun _ => True), c_called.
  split; [apply (c_call_spec _ _ _ _ Hlay); [exact call_table_ok|done]|]. split; [done|].
  intros [sp1 ws1 f1 s1 fl1 d1] (E1 & E2 & _ & E4 & E5). cbn [v_sp v_ws v_reg v_seg v_fl v_d] in *. subst sp1 ws1.
  wp_run. unfold saved_scene. rewrite !E4, !E5 by lia. cbn [sput sreg_eqb dput Nat.eqb].
  split_and!; try done; try lia. exists fl1. do 2 f_equal. lia.
Qed.
Lemma syscall_handle_run dpl c : syscall_handle CURRENT system_call_table dpl functions c =
  iretd dpl (run CURRENT restore_scene (run CURRENT (syscall_save ++ syscall_call system_call_table functions) c)).
Proof. unfold syscall_handle. rewrite app_assoc, run_instrs_app. reflexivity. Qed.

Lemma syscall_handle_spec c v ip cs fl sp3 ss3 ws dpl : rep CURRENT lo hi p c v -> lo <= v_sp v - 28 ->
  v_ws v = ip :: cs :: fl :: sp3 :: ss3 :: ws ->
  exists d, goes_on (syscall_handle CURRENT system_call_table dpl functions c) dpl d (v_sp v - 8) (v_seg v CS) (v_seg v SS) /\
    saved_scene d (v_reg v) ip cs fl sp3 ss3 (v_reg v ECX) (v_reg v EDX) /\
    eflags (syscall_handle CURRENT system_call_table dpl functions c) .& STATUS = add_flags (v_sp v - 12) 12 .& STATUS.
Proof.
  intros Hr Hlo Hws. rewrite syscall_handle_run.
  destruct (syscall_call_spec c v ip cs fl sp3 ss3 ws Hr ltac:(lia) Hws) as (v1 & H1 & E1 & E2 & E3 & E4 & Hd & (f & E5)).
  destruct (restore_returns _ v1 dpl H1 ltac:(lia)) as [G1 G2]. rewrite E1, E3, E4 in G1.
  exists (v_d v1). split; [exact G1|]. split; [exact Hd|]. by rewrite G2, E5, status_of.
Qed.

(** ** First dispatch, sleep, user mode *)

(** The words built on the task's own stack, from [lo2] to [hi2]. *)
Lemma first_scene_spec lo2 hi2 c v wu : layout CURRENT lo2 hi2 p -> rep CURRENT lo hi p c v -> v_reg v ECX = p ->
  lo2 <= v_d v 14%nat - 16 -> v_d v 14%nat <= hi2 -> 0 <= wu < 4294967296 ->
  exists v', rep CURRENT lo2 hi2 p (run CURRENT (first_scene wu) (exec CURRENT (Load ESP ECX 14) c)) v' /\
    v_sp v' = v_d v 14%nat - 16 /\ v_ws v' = [v_d v 8%nat; v_d v 19%nat; v_fl v .| IF; wu] /\
    (forall x, v_seg v' x = match x with CS => v_seg v CS | _ => u16 (v_d v 20%nat) end).
Proof.
  intros Hl2 Hr Hc Hlo2 Hhi2 Hwu. pose proof (lay_desc _ _ _ _ Hlay). pose proof (lay_stack _ _ _ _ Hl2).
  assert (exec CURRENT (Load ESP ECX 14) c = set_reg ESP (v_d v 14) c) as ->.
  { cbn [exec]. unfold at_mem. rewrite (rep_regs _ _ _ _ _ _ Hr), Hc, u32_small by (done || lia).
    by rewrite (rep_desc _ _ _ _ _ _ Hr) by lia. }
  pose proof (rep_new_stack _ _ _ _ lo2 hi2 c v (v_d v 14) Hl2 Hr ltac:(lia)) as H1.
  pose proof (rep_bound _ _ _ _ _ _ Hr EAX ltac:(done)) as Hax.
  destruct v as [sp ws f s fl d]. cbn [with_stack v_sp v_ws v_reg v_seg v_fl v_d] in *.
  apply (wps_sound _ _ _ _ Hl2 _ _ _ _ H1). unfold first_scene, push_flags_on. cbn [app]. wp_run.
  split; [lia|]. split; [done|]. intros x. by destruct x; cbn; rewrite ?u16_low16 by lia.
Qed.

Lemma sleep_save_spec c v wk : rep CURRENT lo hi p c v -> lo <= v_sp v - 4 -> 0 <= wk < 4294967296 ->
  exists v', rep CURRENT lo hi p (run CURRENT (sleep_save wk) c) v' /\ v_sp v' = v_sp v /\ v_ws v' = v_ws v /\
    (forall x, v_seg v' x = v_seg v x) /\
    saved_scene (v_d v') (v_reg v) wk (v_d v 19%nat) (v_fl v) (v_sp v) (v_d v 20%nat) (v_reg v ECX) (v_reg v EDX) /\
    v_d v' 37%nat = v_d v 37%nat.
Proof.
  intros Hr Hlo Hwk. pose proof (lay_stack _ _ _ _ Hlay). pose proof (rep_range _ _ _ _ _ _ Hr).
  destruct v as [sp ws f s fl d]. cbn [v_sp v_ws v_reg v_seg v_fl v_d] in *.
  apply (wps_sound _ _ _ _ Hlay _ _ _ _ Hr). unfold sleep_save, save_registers, saved_scene. cbn [app]. wp_run.
  split_and!; done || lia.
Qed.

Lemma to_user_words_spec c v cuf : rep CURRENT lo hi p c v -> lo <= v_sp v - 20 -> 0 <= cuf < 4294967296 ->
  exists v' fl, rep CURRENT lo hi p (run CURRENT (to_user_words cuf c_frame) c) v' /\
    v_ws v' = cuf :: X86Task.USER_CODE_SECTOR :: fl :: v_d v 42%nat :: X86Task.USER_DATA_SECTOR :: v_ws v /\
    forall x, v_seg v' x = match x with CS => v_seg v CS | SS => v_seg v SS | _ => X86Task.USER_DATA_SECTOR end.
Proof.
  intros Hr Hlo Hcuf. pose proof (lay_desc _ _ _ _ Hlay). destruct v as [sp ws f s fl d].
  cbn [v_sp v_ws v_reg v_seg v_fl v_d] in *.
  assert (0 <= d 42%nat) as Hd by (rewrite <- (rep_desc _ _ _ _ _ _ Hr) by lia; apply ld32_bound).
  destruct (wps_sound _ _ _ _ Hlay (to_user_words cuf c_frame) c _ (fun v' => exists fl,
    v_ws v' = cuf :: X86Task.USER_CODE_SECTOR :: fl :: d 42%nat :: X86Task.USER_DATA_SECTOR :: ws /\
    forall x, v_seg v' x = match x with CS => s CS | SS => s SS | _ => X86Task.USER_DATA_SECTOR end) Hr)
    as (v' & H1 & fl' & H2).
  { unfold to_user_words. wp_run. apply wps_cons. cbn [wp]. eexists _, _. split; [apply esp3_spec|]. split; [done|].
    intros [sp1 ws1 f1 s1 fl1 d1] (E1 & E2 & E3 & E4). cbn [v_sp v_ws v_reg v_seg v_fl v_d] in *. subst sp1 ws1 s1.
    change X86Task.USER_DATA_SECTOR with 35. change X86Task.USER_CODE_SECTOR with 27. wp_run.
    eexists. split; [by rewrite E3|]. intros x. destruct x; cbn; try done; by rewrite u16_low16 by (by rewrite E3). }
  exists v', fl'. done.
Qed.
End Restore.

Lemma land3_u16 z : u16 z .& 3 = z .& 3.
Proof. change 3 with (Z.ones 2). rewrite !Z.land_ones by lia. unfold u16. zlia. Qed.

(** ** Theorems *)

(** C12: Task switches of the 32-bit kernel.  A clock interrupt at the end of a time
    slice saves the scene of the interrupted code in its descriptor; when the task
    is scheduled again, on the kernel stack of whoever was interrupted then, it
    continues at its instruction, in its segment, with its registers but ecx and
    edx, which are those sub_task_counter left.  A user task has its stack again.
    A kernel task has not: it goes on on the stack of the other one, because iretd
    to the same level pops no stack pointer.  The status flags are those of the
    comparison in sched_task, not the task's. *)
Theorem x86_task_switch CURRENT p lo hi sub_task_counter c v ip cs fl ws :
  layout CURRENT lo hi p -> p <> 0 -> c_call_ok CURRENT hi p sub_task_counter ->
  (forall c, reg_of (sub_task_counter c) EAX = 1) ->
  rep CURRENT lo hi p c v -> lo <= v_sp v - 8 -> v_ws v = ip :: cs :: fl :: ws ->
  let cross := negb ((cs .& 3) =? (v_seg v CS .& 3)) in
  (cross = true -> exists sp3 ss3 ws', ws = sp3 :: ss3 :: ws') ->
  exists c1 v1 cx dx, (forall dpl, clock_handle CURRENT dpl sub_task_counter c = ToSched c1) /\
  rep CURRENT lo hi p c1 v1 /\ v_sp v1 = v_sp v /\ v_ws v1 = v_ws v /\
  forall lo2 hi2 c_frame c2 v2 wu dpl, layout CURRENT lo2 hi2 p -> c_frame_ok lo2 c_frame -> rep CURRENT lo2 hi2 p c2 v2 ->
  (forall i, (i < 27)%nat -> v_d v2 i = v_d v1 i) -> v_d v2 37%nat = 0 -> lo2 <= v_sp v2 - 32 ->
  v_seg v2 CS .& 3 = v_seg v CS .& 3 ->
  let c' := sched_task CURRENT wu dpl c_frame c2 in
  eip c' = ip /\ sreg_of c' CS = u16 cs /\
  (forall r, r <> ESP -> reg_of c' r = match r with ECX => cx | EDX => dx | _ => v_reg v r end) /\
  (if cross then esp c' = nth 0 ws 0 /\ sreg_of c' SS = u16 (nth 1 ws 0)
   else esp c' = v_sp v2 - 12 /\ sreg_of c' SS = v_seg v2 SS /\ ld32 (cmem c') (v_sp v2 - 12) = v_sp v + 12) /\
  eflags c' .& STATUS = 0x44 /\ Z.testbit (eflags c') 9 = true /\
  ((cross = true -> cs .& 3 <= dpl (u16 (nth 1 ws 0))) ->
   forall x, x <> CS -> x <> SS -> sreg_of c' x = u16 (if cross then nth 1 ws 0 else v_seg v SS)).
Proof.
  intros Hlay Hp Hsub Hans Hr Hlo Hws cross Hcr.
  destruct (clock_save_spec _ _ _ _ Hlay _ Hsub c v ip cs fl ws Hr Hp Hlo Hans Hws Hcr)
    as (c1 & v1 & cx & dx & H1 & Ec & E1 & E2 & (D8 & D9 & D19 & D10 & D11 & D12 & D13 & D15 & D16 & D17 & D14 & D20)).
  fold cross in D14, D20. exists c1, v1, cx, dx. split; [exact Ec|]. split; [exact H1|]. split; [exact E1|]. split; [exact E2|].
  intros lo2 hi2 c_frame c2 v2 wu dpl Hlay2 Hfr H2 Hd Hf Hlo2 Hcpl c'.
  destruct (sched_resume_spec _ _ _ _ Hlay2 _ Hfr c2 v2 wu dpl H2 Hp Hlo2 Hf) as [[G1 G2 G3 G4 G5 G6] G7]. fold c' in G1, G2, G3, G4, G5, G6, G7.
  rewrite !Hd in * by lia. rewrite land3_u16, D19, Hcpl in G5, G6. unfold cross in *. clear cross.
  split; [by rewrite G1|]. split; [by rewrite G2, D19|]. split.
  { intros r Hn. rewrite G3 by done. destruct r; cbn; rewrite ?Hd by lia; done. }
  rewrite D14, D20 in *. split; [|split; [done|split; [done|]]].
  - destruct (_ =? _); cbn [negb] in *; [|done]. by destruct G5 as (-> & -> & ->).
  - intros Hdpl x N1 N2. rewrite G6 by done. destruct (_ =? _); cbn [negb andb] in *; [done|].
    specialize (Hdpl eq_refl). rewrite (proj2 (Z.ltb_ge _ _)) by done. done.
Qed.

(** A user task whose scene is intact is where it was. *)
Lemma goes_on_user c' dpl d ksp kcs kss f ip cs fl sp ss :
  goes_on c' dpl d ksp kcs kss -> saved_scene d f ip cs fl sp ss (f ECX) (f EDX) ->
  0 <= cs < 65536 -> 0 <= ss < 65536 -> cs .& 3 <> kcs .& 3 ->
  eip c' = ip /\ (forall r, r <> ESP -> reg_of c' r = f r) /\ esp c' = sp /\ sreg_of c' CS = cs /\ sreg_of c' SS = ss /\
  (cs .& 3 <= dpl ss -> forall x, x <> CS -> sreg_of c' x = ss).
Proof.
  intros [G1 G2 G3 G4 G5 G6] (D8 & D9 & D19 & D10 & D11 & D12 & D13 & D15 & D16 & D17 & D14 & D20) Hcs Hss Hl.
  rewrite land3_u16, D19, D20, (proj2 (Z.eqb_neq _ _) Hl) in G5, G6. rewrite u16_small in G5, G6 by done. cbn [negb andb] in G6.
  destruct G5 as [G5 G7]. split; [congruence|]. split.
  { intros r Hn. rewrite G3 by done. by destruct r. }
  split; [congruence|]. split; [rewrite G2, D19; by apply u16_small|]. split; [done|].
  intros Hd x Hx. destruct (decide (x = SS)) as [->|Hn]; [done|]. rewrite G6 by done. by rewrite (proj2 (Z.ltb_ge _ _)).
Qed.

(** C13: System calls of the 32-bit kernel.  Between int 0x80 and its return any
    function of the table may run: the user continues behind the instruction in its
    own segments, on its own stack, with all its registers - eax, too: it still
    holds the number of the call, the function's result is lost.  The status flags
    are those of the addition to the kernel's stack pointer. *)
Theorem x86_syscall_back CURRENT p lo hi system_call_table functions dpl kcs kss esp0 c :
  layout CURRENT lo hi p -> (forall a, c_call_ok CURRENT hi p (functions a)) ->
  (forall r, 0 <= reg_of c r < 4294967296) -> (forall x, 0 <= sreg_of c x < 65536) -> 0 <= eflags c < 4294967296 ->
  0 <= eip c < 4294967296 -> ld32 (cmem c) CURRENT = p -> cpl c <> kcs .& 3 -> lo <= esp0 - 48 -> esp0 <= hi ->
  let c' := syscall_handle CURRENT system_call_table dpl functions (interrupt kcs kss esp0 c) in
  eip c' = eip c /\ (forall r, reg_of c' r = reg_of c r) /\ sreg_of c' CS = sreg_of c CS /\ sreg_of c' SS = sreg_of c SS /\
  Z.testbit (eflags c') 9 = true /\ eflags c' .& STATUS = add_flags (esp0 - 32) 12 .& STATUS /\
  (cpl c <= dpl (sreg_of c SS) -> forall x, x <> CS -> sreg_of c' x = sreg_of c SS).
Proof.
  intros Hlay Hfun Hb Hs Hfl Hip Hcur Hl Hlo Hhi.
  pose proof (interrupt_outer _ _ _ _ Hlay kcs kss esp0 c Hb Hs Hfl Hip Hcur Hl ltac:(lia) Hhi) as H0.
  destruct (syscall_handle_spec _ _ _ _ Hlay system_call_table functions Hfun _ _ _ _ _ _ _ _ dpl H0 ltac:(cbn; lia) eq_refl)
    as (d & G1 & G2 & G3).
  cbv zeta. generalize dependent (syscall_handle CURRENT system_call_table dpl functions (interrupt kcs kss esp0 c)).
  clear H0. intros c' G1 G3. cbn [v_sp v_seg v_reg sput sreg_eqb] in G1, G2, G3.
  assert (sreg_of c CS .& 3 <> u16 kcs .& 3) as Hl' by (rewrite land3_u16; exact Hl).
  destruct (goes_on_user _ _ _ _ _ _ _ _ _ _ _ _ G1 G2 (Hs CS) (Hs SS) Hl') as (A1 & A2 & A3 & A4 & A5 & A6).
  split; [exact A1|]. split.
  { intros r. destruct (decide (r = ESP)) as [->|Hn]; [exact A3|by apply A2]. }
  split; [exact A4|]. split; [exact A5|]. split; [exact (go_if _ _ _ _ _ _ G1)|]. split; [|exact A6].
  replace (esp0 - 32) with (esp0 - 20 - 12) by lia. exact G3.
Qed.

(** The first dispatch of a task, on its own stack.  A kernel task starts at its
    function with interrupts on, and the word on top of its stack is the address
    of the exit code, so that the function's return goes there.  For a task of an
    outer level, as utask_create makes them, that word is taken as the stack
    pointer. *)
Theorem x86_first_dispatch CURRENT p lo hi lo2 hi2 c_frame c v wu dpl :
  layout CURRENT lo hi p -> layout CURRENT lo2 hi2 p -> p <> 0 -> c_frame_ok lo c_frame ->
  rep CURRENT lo hi p c v -> lo <= v_sp v - 4 -> v_d v 37%nat <> 0 ->
  lo2 <= v_d v 14%nat - 16 -> v_d v 14%nat <= hi2 -> 0 <= wu < 4294967296 ->
  let c' := sched_task CURRENT wu dpl c_frame c in
  eip c' = v_d v 8%nat /\
  if v_d v 19%nat .& 3 =? v_seg v CS .& 3 then
    sreg_of c' CS = u16 (v_d v 19%nat) /\ (forall x, x <> CS -> sreg_of c' x = u16 (v_d v 20%nat)) /\
    Z.testbit (eflags c') 9 = true /\ eip (ret c') = wu /\ esp (ret c') = v_d v 14%nat
  else esp c' = wu.
Proof.
  intros Hl Hl2 Hp Hfr Hr Hlo Hf Hlo2 Hhi2 Hwu. cbv zeta. pose proof (lay_stack _ _ _ _ Hl2) as HS.
  destruct (sched_enter_spec _ _ _ _ Hl _ Hfr c v Hr Hp Hlo) as (c1 & v1 & H1 & Ec & E1 & E2 & E3 & E4 & _ & E6).
  rewrite Ec, (proj2 (Z.eqb_neq _ _) Hf). clear Ec.
  destruct (first_scene_spec _ _ _ _ Hl lo2 hi2 c1 v1 wu Hl2 H1 E3) as (v2 & H2 & Q1 & Q2 & Q3); [rewrite ?E6 by lia; lia..|].
  rewrite E6 in Q1, Q3 by lia. rewrite (E6 8%nat), (E6 19%nat) in Q2 by lia. rewrite E4 in Q3. generalize dependent (run CURRENT (first_scene wu) (exec CURRENT (Load ESP ECX 14) c1)).
  intros c2 H2. rewrite <- (land3_u16 (v_d v 19)). destruct (Z.eqb_spec (u16 (v_d v 19) .& 3) (v_seg v CS .& 3)) as [El|El].
  - destruct (iretd_same _ _ _ _ Hl2 dpl c2 v2 _ _ _ _ H2 Q2) as [[G1 G2 G3 G4 G5 G6 G7] Hx]; [by rewrite Q3|].
    split; [done|]. split; [done|]. split; [intros x Hn; rewrite Hx, Q3 by done; by destruct x|].
    split; [rewrite G3; apply if_set|]. unfold ret. rewrite G4, G7, Q1.
    destruct (rep_word _ _ _ _ Hl2 c2 v2 3 wu H2 ltac:(by rewrite Q2)) as [Hw _].
    rewrite (rep_sp _ _ _ _ _ _ H2), Q1, u32_small in Hw by lia.
    split; [rewrite <- Hw; change (ld32 (cmem c2) (v_d v 14 - 16 + 12) = ld32 (cmem c2) (v_d v 14 - 16 + 4 * Z.of_nat 3)); f_equal; lia|].
    change (u32 (v_d v 14 - 16 + 12 + 4) = v_d v 14). rewrite u32_small; lia.
  - destruct (iretd_outer_esp _ _ _ _ Hl2 dpl c2 v2 _ _ _ _ _ H2 Q2) as [G1 G2]; [by rewrite Q3|]. done.
Qed.

(** Sleeping does not return.  task_deal_sleep keeps the stack pointer and the
    address behind its call; a kernel task that is scheduled again gets there, but
    on the stack of whoever was interrupted, where the word on top is the kept
    stack pointer: the return into task_sleep goes to that address. *)
Theorem x86_sleep_return CURRENT p lo hi c v wk ra ws :
  layout CURRENT lo hi p -> p <> 0 -> rep CURRENT lo hi p c v -> lo <= v_sp v - 4 -> 0 <= wk < 4294967296 ->
  v_ws v = ra :: ws ->
  exists c1 v1, c1 = run CURRENT (sleep_save wk) c /\ rep CURRENT lo hi p c1 v1 /\ v_sp v1 = v_sp v /\ v_ws v1 = v_ws v /\
  forall lo2 hi2 c_frame c2 v2 wu dpl, layout CURRENT lo2 hi2 p -> c_frame_ok lo2 c_frame -> rep CURRENT lo2 hi2 p c2 v2 ->
  (forall i, (i < 27)%nat -> v_d v2 i = v_d v1 i) -> v_d v2 37%nat = 0 -> lo2 <= v_sp v2 - 32 ->
  v_d v 19%nat .& 3 = v_seg v2 CS .& 3 ->
  let c' := sched_task CURRENT wu dpl c_frame c2 in
  eip c' = wk /\ esp c' = v_sp v2 - 12 /\ eip (wakup CURRENT c') = v_sp v.
Proof.
  intros Hl Hp Hr Hlo Hwk Hws. destruct (sleep_save_spec _ _ _ _ Hl c v wk Hr Hlo Hwk) as (v1 & H1 & E1 & E2 & _ & Hd & _).
  eexists _, v1. split; [reflexivity|]. split; [exact H1|]. split; [exact E1|]. split; [exact E2|].
  destruct Hd as (D8 & _ & D19 & _ & _ & _ & _ & _ & _ & _ & D14 & _). clear H1 Hr.
  intros lo2 hi2 c_frame c2 v2 wu dpl Hl2 Hfr H2 Hd Hf Hlo2 Hcs. cbv zeta.
  destruct (sched_resume_spec _ _ _ _ Hl2 _ Hfr c2 v2 wu dpl H2 Hp Hlo2 Hf) as [[G1 _ _ _ G5 _] _].
  generalize dependent (sched_task CURRENT wu dpl c_frame c2). intros c' G1 G5.
  rewrite Hd in G1 by lia. rewrite (Hd 19%nat), (Hd 14%nat), land3_u16, D19, Hcs, Z.eqb_refl, D14 in G5 by lia. destruct G5 as (G5 & G6 & _).
  split; [congruence|]. split; [done|]. etrans; [|exact G6]. rewrite <- G5. reflexivity.
Qed.

(** The way to user mode: the user function's caller, in the user segments, on the
    task's user stack. *)
Theorem x86_mov_to_user_mode CURRENT p lo hi c_frame c v cuf dpl :
  layout CURRENT lo hi p -> c_frame_ok lo c_frame -> rep CURRENT lo hi p c v -> lo <= v_sp v - 20 ->
  0 <= cuf < 4294967296 -> v_seg v CS .& 3 = 0 -> 3 <= dpl X86Task.USER_DATA_SECTOR ->
  let c' := mov_to_user_mode CURRENT cuf dpl c_frame c in
  eip c' = cuf /\ sreg_of c' CS = X86Task.USER_CODE_SECTOR /\ esp c' = v_d v 42%nat /\
  forall x, x <> CS -> sreg_of c' x = X86Task.USER_DATA_SECTOR.
Proof.
  intros Hl Hfr Hr Hlo Hcuf Hk Hdpl. cbv zeta. unfold mov_to_user_mode.
  destruct (to_user_words_spec _ _ _ _ Hl _ Hfr c v cuf Hr Hlo Hcuf) as (v' & fl & H1 & E1 & E2).
  generalize dependent (run CURRENT (to_user_words cuf c_frame) c). intros c1 H1.
  destruct (iretd_outer _ _ _ _ Hl dpl c1 v' _ _ _ _ _ _ H1 E1) as [[G1 G2 G3 G4 G5 G6 G7] Hx]; [by rewrite E2, Hk|].
  split; [done|]. split; [done|]. split; [done|]. intros x Hn. destruct (decide (x = SS)) as [->|]; [done|].
  rewrite Hx, E2 by done. change (u16 X86Task.USER_CODE_SECTOR .& 3) with 3. destruct x; try done.
  all: by rewrite (proj2 (Z.ltb_ge _ _)).
Qed.

(** The clock within the time slice: the interrupted code goes on, at its own
    level and stack; ecx and edx are what sub_task_counter left. *)
Theorem x86_clock_tick CURRENT p lo hi sub_task_counter answer c v ip cs fl ws dpl :
  layout CURRENT lo hi p -> p <> 0 -> c_call_ok CURRENT hi p sub_task_counter -> answer <> 1 ->
  (forall c, reg_of (sub_task_counter c) EAX = answer) ->
  rep CURRENT lo hi p c v -> lo <= v_sp v - 8 -> v_ws v = ip :: cs :: fl :: ws -> cs .& 3 = v_seg v CS .& 3 ->
  exists c', clock_handle CURRENT dpl sub_task_counter c = Back c' /\
  eip c' = ip /\ sreg_of c' CS = u16 cs /\ eflags c' = fl /\ esp c' = v_sp v + 12 /\
  (forall x, x <> CS -> sreg_of c' x = v_seg v x) /\
  forall r, r <> ESP -> r <> ECX -> r <> EDX -> reg_of c' r = v_reg v r.
Proof.
  intros Hl Hp Hsub Hne Hans Hr Hlo Hws Hcs.
  destruct (clock_enter_spec _ _ _ _ Hl _ Hsub c v Hr Hp Hlo answer Hans) as (c1 & v1 & H1 & Ec & E1 & E2 & E3 & E4 & _).
  destruct (wps_sound _ _ _ _ Hl [AddEsp 1; PopR EAX] c1 v1 (fun v2 => v_sp v2 = v_sp v /\ v_ws v2 = v_ws v /\
    (forall x, v_seg v2 x = v_seg v x) /\ forall r, r <> ESP -> r <> ECX -> r <> EDX -> v_reg v2 r = v_reg v r) H1)
    as (v2 & H2 & Q1 & Q2 & Q3 & Q4).
  { destruct v1 as [sp1 ws1 f1 s1 fl1 d1]. cbn [v_sp v_ws v_reg v_seg v_fl v_d] in *. subst sp1 ws1. wp_run.
    split; [lia|]. split; [done|]. split; [done|]. intros r N1 N2 N3. destruct r; try done; apply E4; tauto. }
  eexists. split; [rewrite Ec, (proj2 (Z.eqb_neq _ _) Hne); reflexivity|].
  generalize dependent (run CURRENT [AddEsp 1; PopR EAX] c1). intros c2 Ec H2. rewrite Hws in Q2.
  destruct (iretd_same _ _ _ _ Hl dpl c2 v2 _ _ _ _ H2 Q2) as [[G1 G2 G3 G4 G5 G6 G7] Hx]; [by rewrite land3_u16, Q3|].
  split; [done|]. split; [done|]. split; [done|]. split; [by rewrite G4, Q1|]. split; [intros x Hn; by rewrite Hx, Q3|].
  intros r N1 N2 N3. rewrite G6, (rep_regs _ _ _ _ _ _ H2) by done. by apply Q4.
Qed.

(** ** Witnesses *)

(** The task's descriptor is at 200, CURRENT at 100, the kernel's stack from 1000
    to 2000; the task ran in user code at 7000, with its stack at 9000. *)
Definition demo_mem : mem :=
  st32 (st32 (st32 (st32 (st32 (st32 ∅ 100 200) 1900 7000) 1904 27) 1908 0x202) 1912 9000) 1916 35.
Definition demo_words : list Z := [7000; 27; 0x202; 9000; 35].
Definition demo_core : core :=
  Core (fun r => match r with ESP => 1900 | EAX => 11 | ECX => 7 | EDX => 9 | _ => 1 end)
    (fun x => match x with CS => 8 | SS => 16 | _ => 35 end) 2 500 demo_mem.
Definition answer_one : core -> core := set_reg EAX 1.
Definition demo_dpl (sel : Z) : Z := sel .& 3.

Lemma demo_layout : layout 100 1000 2000 200.
Proof. split; lia. Qed.
Lemma demo_layout2 : layout 100 4000 6000 200.
Proof. split; lia. Qed.

Lemma set_eax_ok x lo : c_call_ok 100 lo 200 (set_reg EAX x).
Proof.
  split; try done.
  - intros c r Hr. cbn. rewrite put_ne; [done|]. by intros <-.
  - intros c [H1 H2]. split; [|done]. intros r. cbn. unfold put. destruct (reg_eqb EAX r); [apply u32_bound|apply H1].
Qed.
Lemma id_frame_ok lo : c_frame_ok lo id.
Proof. by split. Qed.

Definition demo_view : view :=
  View 1900 demo_words (reg_of demo_core) (sreg_of demo_core) 2 (fun i => ld32 demo_mem (200 + 4 * Z.of_nat i)).
Lemma demo_rep : rep 100 1000 2000 200 demo_core demo_view.
Proof.
  apply (rep_self 100 1000 2000 200 demo_core demo_words); try done.
  - by intros [].
  - by intros [].
Qed.

Lemma x86_task_switch_witness :
  exists c1, clock_handle 100 demo_dpl answer_one demo_core = ToSched c1 /\
    let c' := sched_task 100 0 demo_dpl id (set_reg ESP 5000 c1) in
    eip c' = 7000 /\ esp c' = 9000 /\ reg_of c' EAX = 11 /\ reg_of c' EBX = 1 /\ sreg_of c' CS = 27.
Proof.
  destruct (x86_task_switch 100 200 1000 2000 answer_one demo_core demo_view 7000 27 0x202 [9000; 35] demo_layout ltac:(lia)
    (set_eax_ok 1 2000) ltac:(reflexivity) demo_rep ltac:(cbn; lia) eq_refl) as (c1 & v1 & cx & dx & Ec & H1 & E1 & E2 & H).
  { intros _. by eexists _, _, _. }
  exists c1. split; [apply Ec|]. cbv zeta.
  assert (v_d v1 37%nat = 0) as H37.
  { rewrite <- (rep_desc _ _ _ _ _ _ H1) by lia. specialize (Ec demo_dpl).
    assert (match clock_handle 100 demo_dpl answer_one demo_core with ToSched c => ld32 (cmem c) 348 | _ => 1 end = 0) as E
      by (vm_compute; reflexivity).
    rewrite Ec in E. exact E. }
  pose proof (rep_new_stack _ _ _ _ 4000 6000 c1 v1 5000 demo_layout2 H1 ltac:(lia)) as H2.
  specialize (H 4000 6000 id _ _ 0 demo_dpl demo_layout2 (id_frame_ok 4000) H2 ltac:(done) H37 ltac:(cbn; lia)).
  assert (v_seg v1 CS .& 3 = v_seg demo_view CS .& 3) as Hcs.
  { rewrite <- (rep_segs _ _ _ _ _ _ H1). specialize (Ec demo_dpl).
    assert (match clock_handle 100 demo_dpl answer_one demo_core with ToSched c => sreg_of c CS | _ => 1 end = 8) as E
      by (vm_compute; reflexivity).
    rewrite Ec in E. by rewrite E. }
  specialize (H Hcs). cbv zeta in H. destruct H as (A1 & A2 & A3 & A4 & _).
  split; [exact A1|]. split; [exact (proj1 A4)|]. split; [by rewrite A3|]. split; [by rewrite A3|exact A2].
Defined.

(** In user code at 500, about to call function 4, which answers 77. *)
Definition demo_user : core :=
  Core (fun r => match r with ESP => 9000 | EAX => 4 | _ => 1 end) (fun x => match x with CS => 27 | _ => 35 end) 2 500 demo_mem.

Lemma demo_user_bounds : (forall r, 0 <= reg_of demo_user r < 4294967296) /\ (forall x, 0 <= sreg_of demo_user x < 65536).
Proof. split; by intros []. Qed.
Lemma demo_user_current : ld32 (cmem demo_user) 100 = 200.
Proof. by vm_compute. Qed.

Lemma x86_syscall_back_witness :
  let c' := syscall_handle 100 3000 demo_dpl (fun _ => set_reg EAX 77) (interrupt 8 16 1950 demo_user) in
  eip c' = 500 /\ reg_of c' EAX = 4 /\ reg_of c' ESP = 9000.
Proof.
  pose proof (x86_syscall_back 100 200 1000 2000 3000 (fun _ => set_reg EAX 77) demo_dpl 8 16 1950 demo_user demo_layout
    (fun _ => set_eax_ok 77 2000) (proj1 demo_user_bounds) (proj2 demo_user_bounds) ltac:(cbn; lia) ltac:(cbn; lia)
    demo_user_current ltac:(vm_compute; discriminate) ltac:(lia) ltac:(lia)) as H.
  cbv zeta in *. destruct H as (A1 & A2 & _). split; [exact A1|]. split; [exact (A2 EAX)|exact (A2 ESP)].
Defined.

(** Another task that is dispatched for the first time, on a stack from 4000. *)
Definition demo_first : core :=
  Core (fun r => match r with ESP => 1900 | _ => 1 end) (fun x => match x with CS => 8 | _ => 16 end) 2 500
    (st32 (st32 (st32 (st32 (st32 (st32 ∅ 100 200) 232 7000) 256 5000) 276 8) 280 16) 348 1).
Definition demo_first_view : view :=
  View 1900 [] (reg_of demo_first) (sreg_of demo_first) 2 (fun i => ld32 (cmem demo_first) (200 + 4 * Z.of_nat i)).
Lemma demo_first_rep : rep 100 1000 2000 200 demo_first demo_first_view.
Proof.
  apply (rep_self 100 1000 2000 200 demo_first []); try done.
  - by intros [].
  - by intros [].
Qed.
Lemma demo_first_desc : v_d demo_first_view 8%nat = 7000 /\ v_d demo_first_view 14%nat = 5000 /\
  v_d demo_first_view 19%nat = 8 /\ v_d demo_first_view 37%nat = 1.
Proof. by vm_compute. Qed.

Lemma x86_first_dispatch_witness :
  let c' := sched_task 100 777 demo_dpl id demo_first in
  eip c' = 7000 /\ eip (ret c') = 777 /\ esp (ret c') = 5000.
Proof.
  destruct demo_first_desc as (D8 & D14 & D19 & D37).
  pose proof (x86_first_dispatch 100 200 1000 2000 4000 6000 id demo_first demo_first_view 777 demo_dpl demo_layout demo_layout2
    ltac:(lia) (id_frame_ok 1000) demo_first_rep ltac:(cbn; lia) ltac:(rewrite D37; lia) ltac:(rewrite D14; lia)
    ltac:(rewrite D14; lia) ltac:(lia)) as H.
  cbv zeta in *. rewrite D8, D14, D19 in H. change (8 .& 3 =? v_seg demo_first_view CS .& 3) with true in H. cbn iota in H.
  destruct H as (A1 & _ & _ & _ & A2 & A3). split; [exact A1|]. split; [exact A2|exact A3].
Defined.

(** The task of [demo_first], already dispatched, goes to sleep with 600 as its
    return address and is scheduled on a stack from 4000. *)
Definition demo_sleep : core :=
  Core (reg_of demo_first) (sreg_of demo_first) 2 500 (st32 (st32 (cmem demo_first) 348 0) 1900 600).
Definition demo_sleep_view : view :=
  View 1900 [600] (reg_of demo_first) (sreg_of demo_first) 2 (fun i => ld32 (cmem demo_sleep) (200 + 4 * Z.of_nat i)).
Lemma demo_sleep_rep : rep 100 1000 2000 200 demo_sleep demo_sleep_view.
Proof.
  apply (rep_self 100 1000 2000 200 demo_sleep [600]); try done.
  - by intros [].
  - by intros [].
Qed.

Lemma x86_sleep_return_witness :
  let c' := sched_task 100 0 demo_dpl id (set_reg ESP 5000 (run 100 (sleep_save 650) demo_sleep)) in
  eip c' = 650 /\ eip (wakup 100 c') = 1900.
Proof.
  destruct (x86_sleep_return 100 200 1000 2000 demo_sleep demo_sleep_view 650 600 [] demo_layout ltac:(lia) demo_sleep_rep
    ltac:(cbn; lia) ltac:(lia) eq_refl) as (c1 & v1 & -> & H1 & _ & _ & H).
  pose proof (rep_new_stack _ _ _ _ 4000 6000 _ v1 5000 demo_layout2 H1 ltac:(lia)) as H2.
  assert (v_d v1 37%nat = 0) as H37.
  { rewrite <- (rep_desc _ _ _ _ _ _ H1) by lia. vm_compute. reflexivity. }
  assert (v_d demo_sleep_view 19%nat .& 3 = v_seg (with_stack 5000 [] v1) CS .& 3) as Hcs.
  { cbn [with_stack v_seg]. rewrite <- (rep_segs _ _ _ _ _ _ H1). vm_compute. reflexivity. }
  destruct (H 4000 6000 id _ _ 0 demo_dpl demo_layout2 (id_frame_ok 4000) H2 ltac:(done) H37 ltac:(cbn; lia) Hcs) as (A1 & _ & A2).
  split; [exact A1|exact A2].
Defined.
