(* ===== verification/Keyboard.v ===== *)
(** The keyboard driver of the 32-bit kernel: kernel/chr_drv/keyboard.c.  The
    key map is one table whose first two columns are characters and whose last
    two hold which keys are down. *)

From S2P Require Import Prelude.
#[local] Open Scope kernel_scope.

(** ** Data *)

Definition INV : Z := 0.
Definition CODE_PRINT_SCREEN_DOWN : Z := 0xB7.

Inductive key_index_t :=
  | KEY_NONE | KEY_ESC | KEY_1 | KEY_2 | KEY_3 | KEY_4 | KEY_5 | KEY_6 | KEY_7 | KEY_8 | KEY_9
  | KEY_0 | KEY_MINUS | KEY_EQUAL | KEY_BACKSPACE | KEY_TAB | KEY_Q | KEY_W | KEY_E | KEY_R
  | KEY_T | KEY_Y | KEY_U | KEY_I | KEY_O | KEY_P | KEY_BRACKET_L | KEY_BRACKET_R | KEY_ENTER
  | KEY_CTRL_L | KEY_A | KEY_S | KEY_D | KEY_F | KEY_G | KEY_H | KEY_J | KEY_K | KEY_L
  | KEY_SEMICOLON | KEY_QUOTE | KEY_BACKQUOTE | KEY_SHIFT_L | KEY_BACKSLASH | KEY_Z | KEY_X
  | KEY_C | KEY_V | KEY_B | KEY_N | KEY_M | KEY_COMMA | KEY_POINT | KEY_SLASH | KEY_SHIFT_R
  | KEY_STAR | KEY_ALT_L | KEY_SPACE | KEY_CAPSLOCK | KEY_F1 | KEY_F2 | KEY_F3 | KEY_F4
  | KEY_F5 | KEY_F6 | KEY_F7 | KEY_F8 | KEY_F9 | KEY_F10 | KEY_NUMLOCK | KEY_SCRLOCK
  | KEY_PAD_7 | KEY_PAD_8 | KEY_PAD_9 | KEY_PAD_MINUS | KEY_PAD_4 | KEY_PAD_5 | KEY_PAD_6
  | KEY_PAD_PLUS | KEY_PAD_1 | KEY_PAD_2 | KEY_PAD_3 | KEY_PAD_0 | KEY_PAD_POINT | KEY_54
  | KEY_55 | KEY_56 | KEY_F11 | KEY_F12 | KEY_59 | KEY_WIN_L | KEY_WIN_R | KEY_CLIPBOARD
  | KEY_5D | KEY_5E | KEY_PRINT_SCREEN.

(** The enumeration's values. *)
Definition key_code (k : key_index_t) : Z :=
  match k with
  | KEY_NONE => 0 | KEY_ESC => 1 | KEY_1 => 2 | KEY_2 => 3 | KEY_3 => 4 | KEY_4 => 5
  | KEY_5 => 6 | KEY_6 => 7 | KEY_7 => 8 | KEY_8 => 9 | KEY_9 => 10 | KEY_0 => 11
  | KEY_MINUS => 12 | KEY_EQUAL => 13 | KEY_BACKSPACE => 14 | KEY_TAB => 15 | KEY_Q => 16
  | KEY_W => 17 | KEY_E => 18 | KEY_R => 19 | KEY_T => 20 | KEY_Y => 21 | KEY_U => 22
  | KEY_I => 23 | KEY_O => 24 | KEY_P => 25 | KEY_BRACKET_L => 26 | KEY_BRACKET_R => 27
  | KEY_ENTER => 28 | KEY_CTRL_L => 29 | KEY_A => 30 | KEY_S => 31 | KEY_D => 32 | KEY_F => 33
  | KEY_G => 34 | KEY_H => 35 | KEY_J => 36 | KEY_K => 37 | KEY_L => 38 | KEY_SEMICOLON => 39
  | KEY_QUOTE => 40 | KEY_BACKQUOTE => 41 | KEY_SHIFT_L => 42 | KEY_BACKSLASH => 43
  | KEY_Z => 44 | KEY_X => 45 | KEY_C => 46 | KEY_V => 47 | KEY_B => 48 | KEY_N => 49
  | KEY_M => 50 | KEY_COMMA => 51 | KEY_POINT => 52 | KEY_SLASH => 53 | KEY_SHIFT_R => 54
  | KEY_STAR => 55 | KEY_ALT_L => 56 | KEY_SPACE => 57 | KEY_CAPSLOCK => 58 | KEY_F1 => 59
  | KEY_F2 => 60 | KEY_F3 => 61 | KEY_F4 => 62 | KEY_F5 => 63 | KEY_F6 => 64 | KEY_F7 => 65
  | KEY_F8 => 66 | KEY_F9 => 67 | KEY_F10 => 68 | KEY_NUMLOCK => 69 | KEY_SCRLOCK => 70
  | KEY_PAD_7 => 71 | KEY_PAD_8 => 72 | KEY_PAD_9 => 73 | KEY_PAD_MINUS => 74
  | KEY_PAD_4 => 75 | KEY_PAD_5 => 76 | KEY_PAD_6 => 77 | KEY_PAD_PLUS => 78 | KEY_PAD_1 => 79
  | KEY_PAD_2 => 80 | KEY_PAD_3 => 81 | KEY_PAD_0 => 82 | KEY_PAD_POINT => 83 | KEY_54 => 84
  | KEY_55 => 85 | KEY_56 => 86 | KEY_F11 => 87 | KEY_F12 => 88 | KEY_59 => 89
  | KEY_WIN_L => 90 | KEY_WIN_R => 91 | KEY_CLIPBOARD => 92 | KEY_5D => 93 | KEY_5E => 94
  | KEY_PRINT_SCREEN => 95
  end.

(** [keymap] as compiled in: plain character, character with shift; no key is
    down. *)
Definition keymap_chars : list (Z * Z) := [
  (0, 0); (27, 27); (49, 33); (50, 64); (51, 35); (52, 36); (53, 37); (54, 94); (55, 38);
  (56, 42); (57, 40); (48, 41); (45, 95); (61, 43); (8, 8); (9, 9); (113, 81); (119, 87);
  (101, 69); (114, 82); (116, 84); (121, 89); (117, 85); (105, 73); (111, 79); (112, 80);
  (91, 123); (93, 125); (10, 10); (0, 0); (97, 65); (115, 83); (100, 68); (102, 70);
  (103, 71); (104, 72); (106, 74); (107, 75); (108, 76); (59, 58); (39, 34); (96, 126);
  (0, 0); (92, 124); (122, 90); (120, 88); (99, 67); (118, 86); (98, 66); (110, 78);
  (109, 77); (44, 60); (46, 62); (47, 63); (0, 0); (42, 42); (0, 0); (32, 32); (0, 0); (0, 0);
  (0, 0); (0, 0); (0, 0); (0, 0); (0, 0); (0, 0); (0, 0); (0, 0); (0, 0); (0, 0); (0, 0);
  (55, 0); (56, 0); (57, 0); (45, 45); (52, 0); (53, 0); (54, 0); (43, 43); (49, 0); (50, 0);
  (51, 0); (48, 0); (46, 127); (0, 0); (0, 0); (0, 0); (0, 0); (0, 0); (0, 0); (0, 0); (0, 0);
  (0, 0); (0, 0); (0, 0); (0, 0)
].
Definition keymap_init : list (list Z) :=
  (fun c => [fst c; snd c; 0; 0]) <$> keymap_chars.

Record kbd := Kbd {
  keymap : list (list Z);
  capslock_state : bool;
  scrlock_state : bool;
  numlock_state : bool;
  extcode_state : bool
}.
Definition kbd_init : kbd := Kbd keymap_init false false false false.

(** ** The handler *)

Definition cell (km : list (list Z)) (i j : Z) : Z := znth 0 (znth [] km i) j.
Definition set_cell (km : list (list Z)) (i j v : Z) : list (list Z) :=
  zset km i (zset (znth [] km i) j v).

Definition shift_state (km : list (list Z)) : bool :=
  truthy (cell km (key_code KEY_SHIFT_L) 2) || truthy (cell km (key_code KEY_SHIFT_R) 2).
Definition ctrl_state (km : list (list Z)) : bool :=
  truthy (cell km (key_code KEY_CTRL_L) 2) || truthy (cell km (key_code KEY_CTRL_L) 3).
Definition alt_state (km : list (list Z)) : bool :=
  truthy (cell km (key_code KEY_ALT_L) 2) || truthy (cell km (key_code KEY_ALT_L) 3).

(** The lock keys toggle on the way down. *)
Definition toggle (s : kbd) (makecode : Z) : kbd :=
  let '(Kbd km caps scr num ext) := s in
  if makecode =? key_code KEY_NUMLOCK then Kbd km caps scr (negb num) ext
  else if makecode =? key_code KEY_CAPSLOCK then Kbd km (negb caps) scr num ext
  else if makecode =? key_code KEY_SCRLOCK then Kbd km caps (negb scr) num ext
  else s.

Definition with_keymap (s : kbd) (km : list (list Z)) : kbd :=
  Kbd km (capslock_state s) (scrlock_state s) (numlock_state s) (extcode_state s).
Definition with_ext (s : kbd) (e : bool) : kbd :=
  Kbd (keymap s) (capslock_state s) (scrlock_state s) (numlock_state s) e.

(** The end of the handler: a key goes down.  [ext] is the state column, 3
    after the prefix 0xe0. *)
Definition key_down (s : kbd) (makecode ext : Z) : kbd * list Z :=
  let s := toggle (with_keymap s (set_cell (keymap s) makecode ext 1)) makecode in
  let shift := xorb (capslock_state s) (shift_state (keymap s)) in
  let ch :=
    if (ext =? 3) && negb (makecode =? key_code KEY_SLASH) then cell (keymap s) makecode 1
    else cell (keymap s) makecode (Z.b2z shift) in
  if ch =? INV then (s, []) else (s, [ch]).

(** [scancode] is the byte read from port 0x60; the result is the new state and
    the character printed, if any. *)
Definition keymap_handler (s : kbd) (scancode : Z) : kbd * list Z :=
  if scancode =? 0xe0 then (with_ext s true, [])
  else
    let '(ext, scancode, s) :=
      if extcode_state s then (3, u8 (scancode .| 0xe000), with_ext s false)
      else (2, scancode, s) in
    let makecode := scancode .& 0x7f in
    let makecode := if makecode =? CODE_PRINT_SCREEN_DOWN then key_code KEY_PRINT_SCREEN else makecode in
    if key_code KEY_PRINT_SCREEN <? makecode then (s, [])
    else if truthy (scancode .& 0x80) then (with_keymap s (set_cell (keymap s) makecode ext 0), [])
    else key_down s makecode ext.

(** A sequence of scan codes *)
Fixpoint type_keys (s : kbd) (codes : list Z) : kbd * list Z :=
  match codes with
  | [] => (s, [])
  | c :: codes' =>
      let '(s1, o) := keymap_handler s c in
      let '(s2, o') := type_keys s1 codes' in (s2, o ++ o')
  end.

(** ** Specification: which keys are down, three locks, a pending prefix *)

Record board := Board {
  down : gset Z;
  down_ext : gset Z;
  caps : bool; scroll : bool; num : bool;
  prefixed : bool
}.

Definition char_of (code : Z) (shifted : bool) : Z :=
  let c := znth (INV, INV) keymap_chars code in if shifted then snd c else fst c.

(** A key goes up: the key it was, prefixed or not, is no longer down. *)
Definition release (b : board) (code : Z) : board :=
  if prefixed b then Board (down b) (down_ext b ∖ {[code]}) (caps b) (scroll b) (num b) false
  else Board (down b ∖ {[code]}) (down_ext b) (caps b) (scroll b) (num b) false.

(** A key goes down: each lock key flips its own lock. *)
Definition press (b : board) (code : Z) : board :=
  Board (if prefixed b then down b else down b ∪ {[code]})
    (if prefixed b then down_ext b ∪ {[code]} else down_ext b)
    (xorb (caps b) (code =? 0x3A)) (xorb (scroll b) (code =? 0x46)) (xorb (num b) (code =? 0x45))
    false.

(** Either shift key and caps lock cancel out, for every key; a prefixed key
    other than the pad's slash prints its shifted character. *)
Definition printed (b : board) (ext : bool) (code : Z) : list Z :=
  let shift := xorb (caps b) (bool_decide (0x2A ∈ down b) || bool_decide (0x36 ∈ down b)) in
  let ch := char_of code ((ext && negb (code =? 0x35)) || (shift && negb (ext && negb (code =? 0x35)))) in
  if ch =? INV then [] else [ch].

Definition board_step (b : board) (c : Z) : board * list Z :=
  if c =? 0xe0 then (Board (down b) (down_ext b) (caps b) (scroll b) (num b) true, [])
  else
    let code := c mod 128 in
    if 95 <? code then (Board (down b) (down_ext b) (caps b) (scroll b) (num b) false, [])
    else if 128 <=? c then (release b code, [])
    else (press b code, printed (press b code) (prefixed b) code).

Fixpoint board_run (b : board) (codes : list Z) : board * list Z :=
  match codes with
  | [] => (b, [])
  | c :: codes' =>
      let '(b1, o) := board_step b c in
      let '(b2, o') := board_run b1 codes' in (b2, o ++ o')
  end.
Definition board_init : board := Board ∅ ∅ false false false false.

(** The key map of a board. *)
Definition table (dn de : gset Z) : list (list Z) :=
  imap (fun i c => [fst c; snd c; Z.b2z (bool_decide (Z.of_nat i ∈ dn));
                    Z.b2z (bool_decide (Z.of_nat i ∈ de))]) keymap_chars.

(** ** Lemmas *)

Lemma keymap_length : length keymap_chars = 96%nat.
Proof. reflexivity. Qed.

Lemma table_row dn de i : 0 <= i <= 95 ->
  znth [] (table dn de) i = [char_of i false; char_of i true; Z.b2z (bool_decide (i ∈ dn));
                             Z.b2z (bool_decide (i ∈ de))].
Proof.
  intros Hi. unfold table, char_of. rewrite <- (Z2Nat.id i) by lia.
  destruct (keymap_chars !! Z.to_nat i) as [c|] eqn:E.
  - rewrite !(znth_lookup _ _ _ c E). erewrite znth_lookup; [done|].
    by rewrite list_lookup_imap, E.
  - apply lookup_ge_None in E. rewrite keymap_length in E. lia.
Qed.

Lemma cell_table dn de i : 0 <= i <= 95 ->
  cell (table dn de) i 0 = char_of i false /\ cell (table dn de) i 1 = char_of i true /\
  cell (table dn de) i 2 = Z.b2z (bool_decide (i ∈ dn)).
Proof. intros Hi. unfold cell. by rewrite table_row. Qed.

(** The set a state column stands for after a write of [v]. *)
Definition put (v : Z) (i : Z) (d : gset Z) : gset Z := if v =? 1 then d ∪ {[i]} else d ∖ {[i]}.

Lemma put_self v i d : v = 0 \/ v = 1 -> Z.b2z (bool_decide (i ∈ put v i d)) = v.
Proof.
  intros [-> | ->]; cbn; [rewrite bool_decide_eq_false_2|rewrite bool_decide_eq_true_2];
    first [done|set_solver].
Qed.

Lemma put_other v i k d : k <> i -> bool_decide (k ∈ put v i d) = bool_decide (k ∈ d).
Proof. intros Hk. apply bool_decide_ext. unfold put. destruct (v =? 1); set_solver. Qed.

(** Writing a state column changes the set it stands for. *)
Lemma set_cell_table dn de i ext v :
  0 <= i <= 95 -> ext = 2 \/ ext = 3 -> v = 0 \/ v = 1 ->
  set_cell (table dn de) i ext v =
    if ext =? 2 then table (put v i dn) de else table dn (put v i de).
Proof.
  intros Hi He Hv. unfold set_cell. rewrite table_row by done. apply list_eq. intros k.
  rewrite zset_lookup by (unfold table; rewrite ?length_imap, ?keymap_length; lia).
  destruct (decide (k = Z.to_nat i)) as [->|Hne].
  - destruct (keymap_chars !! Z.to_nat i) as [c|] eqn:E;
      [|apply lookup_ge_None in E; rewrite keymap_length in E; lia].
    unfold char_of. rewrite <- (Z2Nat.id i) by lia. rewrite (znth_lookup _ _ _ c E).
    unfold table. destruct He as [-> | ->]; cbn [Z.eqb Pos.eqb]; rewrite list_lookup_imap, !Nat2Z.id, E;
      cbn; rewrite put_self by done; done.
  - unfold table. destruct He as [-> | ->]; cbn [Z.eqb Pos.eqb]; rewrite !list_lookup_imap;
      destruct (keymap_chars !! k) as [c|]; try done; cbn; rewrite put_other by lia; done.
Qed.

(** The bit operations on a scan code, checked over the 256 bytes. *)
Lemma scancode_bits c : 0 <= c < 256 ->
  c .& 0x7f = c mod 128 /\ truthy (c .& 0x80) = (128 <=? c) /\ u8 (c .| 0xe000) = c.
Proof.
  intros Hc.
  assert (forallb (fun n => (n .& 0x7f =? n mod 128) && eqb (truthy (n .& 0x80)) (128 <=? n) &&
    (u8 (n .| 0xe000) =? n)) (seqZ 0 256) = true) as Hall by (vm_compute; reflexivity).
  rewrite List.forallb_forall in Hall. specialize (Hall c).
  rewrite <- list_elem_of_In, elem_of_seqZ in Hall. specialize (Hall ltac:(lia)).
  apply andb_prop in Hall as [Hall H3]. apply andb_prop in Hall as [H1 H2].
  bool_hyps. split; [done|]. split; [by apply eqb_prop|done].
Qed.

Lemma toggle_eq km caps scr num ext code :
  toggle (Kbd km caps scr num ext) code =
    Kbd km (xorb caps (code =? 0x3A)) (xorb scr (code =? 0x46)) (xorb num (code =? 0x45)) ext.
Proof.
  unfold toggle. change (key_code KEY_NUMLOCK) with 0x45. change (key_code KEY_CAPSLOCK) with 0x3A.
  change (key_code KEY_SCRLOCK) with 0x46.
  destruct (code =? 0x45) eqn:E1, (code =? 0x3A) eqn:E2, (code =? 0x46) eqn:E3; bool_hyps; try lia;
    by rewrite ?xorb_false_r, ?xorb_true_r.
Qed.

Lemma shift_table dn de :
  shift_state (table dn de) = bool_decide (0x2A ∈ dn) || bool_decide (0x36 ∈ dn).
Proof.
  unfold shift_state. change (key_code KEY_SHIFT_L) with 0x2A. change (key_code KEY_SHIFT_R) with 0x36.
  destruct (cell_table dn de 0x2A ltac:(lia)) as (_ & _ & ->).
  destruct (cell_table dn de 0x36 ltac:(lia)) as (_ & _ & ->).
  by destruct (bool_decide (0x2A ∈ dn)), (bool_decide (0x36 ∈ dn)).
Qed.

Definition kbd_of (b : board) : kbd :=
  Kbd (table (down b) (down_ext b)) (caps b) (scroll b) (num b) (prefixed b).
Definition unprefixed (b : board) : kbd :=
  Kbd (table (down b) (down_ext b)) (caps b) (scroll b) (num b) false.

Lemma key_down_ok b code : 0 <= code <= 95 ->
  key_down (unprefixed b) code (if prefixed b then 3 else 2) =
    (kbd_of (press b code), printed (press b code) (prefixed b) code).
Proof.
  intros Hc. unfold key_down, unprefixed, with_keymap, printed, press, kbd_of.
  cbn [keymap capslock_state scrlock_state numlock_state extcode_state caps scroll num down down_ext
    prefixed]. rewrite set_cell_table by (destruct (prefixed b); auto).
  rewrite toggle_eq. cbn [keymap capslock_state]. change (key_code KEY_SLASH) with 0x35.
  destruct (prefixed b); cbn [Z.eqb Pos.eqb andb orb];
    match goal with |- context [table ?dn ?de] => destruct (cell_table dn de code Hc) as (C0 & C1 & _) end;
    rewrite shift_table; unfold put in *; cbn [Z.eqb Pos.eqb] in *;
    match goal with |- context [xorb ?x (_ || _)] => destruct (xorb x (_ || _)) end.
  all: cbn [Z.b2z]; rewrite ?C0, ?C1; try destruct (code =? 0x35); cbn [negb andb orb];
    rewrite ?C0, ?C1; by destruct (_ =? INV).
Qed.

Lemma key_up_ok b code : 0 <= code <= 95 ->
  with_keymap (unprefixed b) (set_cell (keymap (unprefixed b)) code (if prefixed b then 3 else 2) 0) =
    kbd_of (release b code).
Proof.
  intros Hc. unfold unprefixed, with_keymap, release, kbd_of. cbn [keymap].
  rewrite set_cell_table by (destruct (prefixed b); auto). by destruct (prefixed b).
Qed.

(** One scan code, whether it is prefixed or not. *)
Lemma handler_step b c : 0 <= c < 256 ->
  keymap_handler (kbd_of b) c = (kbd_of (fst (board_step b c)), snd (board_step b c)).
Proof.
  intros Hr. destruct (scancode_bits c Hr) as (E1 & E2 & E3).
  unfold keymap_handler, board_step. destruct (c =? 0xe0); [done|].
  assert ((if extcode_state (kbd_of b) then (3, u8 (c .| 0xe000), with_ext (kbd_of b) false)
    else (2, c, kbd_of b)) = (if prefixed b then 3 else 2, c, unprefixed b)) as ->.
  { rewrite E3. unfold kbd_of, unprefixed. cbn [extcode_state]. by destruct (prefixed b). }
  rewrite E1, E2. assert (0 <= c mod 128 < 128) as Hm by (apply Z.mod_pos_bound; lia).
  assert ((c mod 128 =? CODE_PRINT_SCREEN_DOWN) = false) as ->
    by (apply Z.eqb_neq; unfold CODE_PRINT_SCREEN_DOWN; lia).
  change (key_code KEY_PRINT_SCREEN) with 95.
  destruct (95 <? c mod 128) eqn:El; bool_hyps; [done|].
  destruct (128 <=? c); [by rewrite key_up_ok by lia|by rewrite key_down_ok by lia].
Qed.

(** C20: The driver does what a keyboard with two sets of keys down, three locks and
    a prefix does: for every sequence of scan codes it prints the same
    characters and ends in the state that stands for the same board; in
    particular the two character columns never change. *)
Theorem keyboard_refines codes : Forall (fun c => 0 <= c < 256) codes ->
  type_keys kbd_init codes = (kbd_of (fst (board_run board_init codes)), snd (board_run board_init codes)).
Proof.
  assert (kbd_init = kbd_of board_init) as -> by (vm_compute; reflexivity).
  generalize board_init as b. induction codes as [|c codes IH]; intros b Hc; [done|].
  apply Forall_cons in Hc as [Hr Hc]. cbn [type_keys board_run]. rewrite handler_step by done.
  destruct (board_step b c) as [b1 o]. cbn [fst snd]. rewrite IH by done.
  by destruct (board_run b1 codes) as [b2 o'].
Qed.

(** Shift down, a, A with caps lock too, shift up, then b: [A], [a], [B]. *)
Lemma keyboard_refines_witness :
  snd (type_keys kbd_init [0x2A; 0x1E; 0x3A; 0x1E; 0xAA; 0x30]) = [65; 97; 66].
Proof.
  rewrite (keyboard_refines [0x2A; 0x1E; 0x3A; 0x1E; 0xAA; 0x30]).
  - vm_compute. reflexivity.
  - repeat constructor; lia.
Defined.
