(* ===== verification/Console.v ===== *)
(** The text console: x64_kenerl/driver/console.c, and the 32-bit kernel's copy
    of it, kernel/chr_drv/console.c.  The state is the file's four variables,
    the video memory and the bytes sent to the CRT controller. *)

From S2P Require Import Prelude Mem CString.
#[local] Open Scope kernel_scope.

(** ** Constants *)

Definition CRT_ADDR_REG : Z := 0x3D4.
Definition CRT_DATA_REG : Z := 0x3D5.
Definition CRT_START_ADDR_H : Z := 0xC.
Definition CRT_START_ADDR_L : Z := 0xD.
Definition CRT_CURSOR_H : Z := 0xE.
Definition CRT_CURSOR_L : Z := 0xF.
Definition MEM_BASE : Z := 0xB8000.
Definition MEM_SIZE : Z := 0x4000.
Definition MEM_END : Z := MEM_BASE + MEM_SIZE.
Definition WIDTH : Z := 80.
Definition HEIGHT : Z := 25.
Definition ROW_SIZE : Z := WIDTH * 2.
Definition SCR_SIZE : Z := ROW_SIZE * HEIGHT.

Definition ASCII_NUL : Z := 0x00.
Definition ASCII_BEL : Z := 0x07.
Definition ASCII_BS : Z := 0x08.
Definition ASCII_HT : Z := 0x09.
Definition ASCII_LF : Z := 0x0A.
Definition ASCII_VT : Z := 0x0B.
Definition ASCII_FF : Z := 0x0C.
Definition ASCII_CR : Z := 0x0D.
Definition ASCII_DEL : Z := 0x7F.

Record console := Console {
  screen : Z;
  pos : Z;
  x : Z;
  y : Z;
  vmem : mem;
  ports : list (Z * Z)
}.

(** ** Operations *)

Definition crt_pair (c : console) (hi lo addr : Z) : console :=
  Console (screen c) (pos c) (x c) (y c) (vmem c)
    (ports c ++ [(CRT_ADDR_REG, hi); (CRT_DATA_REG, (u32 (addr - MEM_BASE) .>> 9) .& 0xff);
                 (CRT_ADDR_REG, lo); (CRT_DATA_REG, (u32 (addr - MEM_BASE) .>> 1) .& 0xff)]).

Definition set_screen (c : console) : console :=
  crt_pair c CRT_START_ADDR_H CRT_START_ADDR_L (screen c).
Definition set_cursor (c : console) : console :=
  crt_pair c CRT_CURSOR_H CRT_CURSOR_L (pos c).

(** [n] blank cells from [ptr] on, each a store of [w] bytes. *)
Fixpoint blank_loop (w : nat) (n : nat) (m : mem) (ptr : Z) : mem :=
  match n with
  | O => m
  | S n' => blank_loop w n' (stn w m ptr 0x0720) (ptr + Z.of_nat w)
  end.

Definition console_clear (c : console) : console :=
  let c1 := set_screen (set_cursor (Console MEM_BASE MEM_BASE 0 0 (vmem c) (ports c))) in
  Console (screen c1) (pos c1) (x c1) (y c1)
    (blank_loop 2 (Z.to_nat (MEM_SIZE / 2)) (vmem c1) MEM_BASE) (ports c1).

(** [scroll_up] clears the next row through a [u32] pointer: four bytes a
    step, twice the row's length. *)
Definition scroll_up (c : console) : console :=
  set_screen
    (if u32 (screen c + SCR_SIZE + ROW_SIZE) <? MEM_END then
       Console (u32 (screen c + ROW_SIZE)) (u32 (pos c + ROW_SIZE)) (x c) (y c)
         (blank_loop 4 (Z.to_nat WIDTH) (vmem c) (u32 (screen c + SCR_SIZE))) (ports c)
     else
       Console MEM_BASE (u32 (pos c - (screen c - MEM_BASE))) (x c) (y c)
         (memcpy (vmem c) MEM_BASE (screen c) SCR_SIZE) (ports c)).

Definition command_lf (c : console) : console :=
  if u32 (y c + 1) <? HEIGHT then
    Console (screen c) (u32 (pos c + ROW_SIZE)) (x c) (u32 (y c + 1)) (vmem c) (ports c)
  else scroll_up c.

Definition command_cr (c : console) : console :=
  Console (screen c) (u32 (pos c - u32 (x c .<< 1))) 0 (y c) (vmem c) (ports c).

Definition command_bs (c : console) : console :=
  if truthy (x c) then
    let p := u32 (pos c - 2) in
    Console (screen c) p (u32 (x c - 1)) (y c) (st16 (vmem c) p 0x0720) (ports c)
  else c.

Definition command_del (c : console) : console :=
  Console (screen c) (pos c) (x c) (y c) (st16 (vmem c) (pos c) 0x0720) (ports c).

(** The [default] case of [console_write]: the character goes to [ptr]. *)
Definition put_char (c : console) (ptr ch : Z) : console * Z :=
  let c :=
    if WIDTH <=? x c then
      command_lf (Console (screen c) (u32 (pos c - ROW_SIZE)) (u32 (x c - WIDTH)) (y c) (vmem c) (ports c))
    else c in
  (Console (screen c) (u32 (pos c + 2)) (u32 (x c + 1)) (y c)
     (st8 (st8 (vmem c) ptr ch) (ptr + 1) 0x07) (ports c), ptr + 2).

(** One character of [console_write]; [char] is signed. *)
Definition write_char (c : console) (ptr ch : Z) : console * Z :=
  if ch =? ASCII_NUL then (c, ptr)
  else if ch =? ASCII_BEL then (c, ptr)
  else if ch =? ASCII_BS then (command_bs c, ptr)
  else if ch =? ASCII_HT then (c, ptr)
  else if ch =? ASCII_LF then (command_cr (command_lf c), ptr)
  else if ch =? ASCII_VT then (c, ptr)
  else if ch =? ASCII_FF then (command_lf c, ptr)
  else if ch =? ASCII_CR then (command_cr c, ptr)
  else if ch =? ASCII_DEL then (command_del c, ptr)
  else put_char c ptr ch.

Fixpoint write_loop (count : nat) (c : console) (ptr buf : Z) : console * Z :=
  match count with
  | O => (c, ptr)
  | S count' =>
      let '(c', ptr') := write_char c ptr (ldc (vmem c) buf) in
      write_loop count' c' ptr' (buf + 1)
  end.

(** [ptr] starts at the cursor and is moved by printed characters only. *)
Definition console_write (c : console) (buf count : Z) : console :=
  set_cursor (fst (write_loop (Z.to_nat (u32 count)) c (pos c) buf)).

Definition console_init (c : console) : console := console_clear c.

(** ** The 32-bit kernel's copy *)

Definition x86_set_screen := set_screen.
Definition x86_set_cursor := set_cursor.
Definition x86_console_clear := console_clear.
Definition x86_scroll_up := scroll_up.
Definition x86_command_lf := command_lf.
Definition x86_command_cr := command_cr.
Definition x86_command_bs := command_bs.
Definition x86_command_del := command_del.
Definition x86_console_write := console_write.
Definition x86_console_init := console_init.

(** [sys_write] of x86_kernel/kernel/syscall.c: the value returned is 0 whatever
    was written. *)
Definition x86_sys_write (c : console) (fd buf count : Z) : Z * console := (0, x86_console_write c buf count).

(** ** Specification *)

(** The cursor: at column [x], up to just past the last, of row [y] of a screen
    that lies in the video memory at a multiple of the row size. *)
Record cursor_ok (c : console) : Prop := {
  ck_screen : exists k, 0 <= k /\ screen c = MEM_BASE + ROW_SIZE * k;
  ck_end : screen c + SCR_SIZE <= MEM_END;
  ck_x : 0 <= x c <= WIDTH;
  ck_y : 0 <= y c < HEIGHT;
  ck_pos : pos c = screen c + ROW_SIZE * y c + 2 * x c
}.

(** Characters that are shown. *)
Definition shown (ch : Z) : bool :=
  negb (existsb (Z.eqb ch) [ASCII_NUL; ASCII_BEL; ASCII_BS; ASCII_HT; ASCII_LF; ASCII_VT; ASCII_FF;
                            ASCII_CR; ASCII_DEL]).

(** ** Lemmas *)

Ltac geometry := unfold MEM_END, MEM_SIZE, SCR_SIZE, ROW_SIZE, HEIGHT, WIDTH, MEM_BASE in *; lia.

(** A row down, or the screen scrolled: the cursor keeps its column. *)
Lemma command_lf_ok c : cursor_ok c -> cursor_ok (command_lf c) /\ x (command_lf c) = x c.
Proof.
  intros [[k [Hk Hs]] He Hx Hy Hp]. unfold command_lf, scroll_up.
  assert (MEM_BASE <= screen c <= MEM_END - SCR_SIZE) as Hb by geometry.
  rewrite (u32_small (y c + 1)) by geometry.
  destruct (y c + 1 <? HEIGHT) eqn:E1; bool_hyps.
  { split; [|done]. split; cbn; [by exists k|done|done|lia|]. rewrite u32_small; geometry. }
  rewrite (u32_small (screen c + SCR_SIZE + ROW_SIZE)) by geometry.
  destruct (screen c + SCR_SIZE + ROW_SIZE <? MEM_END) eqn:E2; bool_hyps; (split; [|done]); split; cbn.
  - exists (k + 1). rewrite u32_small; geometry.
  - rewrite u32_small; geometry.
  - done.
  - done.
  - rewrite !u32_small; geometry.
  - exists 0. geometry.
  - geometry.
  - done.
  - done.
  - rewrite u32_small; geometry.
Qed.

Lemma command_cr_ok c : cursor_ok c -> cursor_ok (command_cr c).
Proof.
  intros [[k [Hk Hs]] He Hx Hy Hp]. unfold command_cr. rewrite Z.shiftl_mul_pow2 by lia.
  split; cbn; [by exists k|done|geometry|done|].
  rewrite (u32_small (x c * 2 ^ 1)) by geometry. rewrite u32_small; geometry.
Qed.

Lemma command_bs_ok c : cursor_ok c -> cursor_ok (command_bs c).
Proof.
  intros Hok. pose proof Hok as [[k [Hk Hs]] He Hx Hy Hp]. unfold command_bs, truthy.
  destruct (x c =? 0) eqn:E; bool_hyps; [done|].
  split; cbn; [by exists k|done| |done|]; rewrite ?(u32_small (x c - 1)) by geometry; [geometry|].
  rewrite u32_small; geometry.
Qed.

Lemma put_char_ok c ptr ch : cursor_ok c -> cursor_ok (fst (put_char c ptr ch)).
Proof.
  intros Hok. pose proof Hok as [[k [Hk Hs]] He Hx Hy Hp]. unfold put_char.
  set (c' := if WIDTH <=? x c then _ else c).
  assert (cursor_ok c' /\ x c' < WIDTH) as [[[j [Hj Hs']] He' Hx' Hy' Hp'] Hlt].
  { unfold c'. destruct (WIDTH <=? x c) eqn:E; bool_hyps; [|done].
    destruct (command_lf_ok (Console (screen c) (u32 (pos c - ROW_SIZE)) (u32 (x c - WIDTH)) (y c)
      (vmem c) (ports c))) as [Hok' Ex].
    - split; cbn; [by exists k|done| |done|]; rewrite !u32_small; geometry.
    - split; [done|]. rewrite Ex. cbn. rewrite u32_small; geometry. }
  cbn. split; cbn; [by exists j|done| |done|]; rewrite !u32_small; geometry.
Qed.

Lemma write_char_ok c ptr ch : cursor_ok c -> cursor_ok (fst (write_char c ptr ch)).
Proof.
  intros Hok. unfold write_char.
  repeat match goal with |- context [if ?b then _ else _] => destruct b end; cbn [fst];
    try done; try (by apply command_bs_ok); try (by apply put_char_ok).
  - apply command_cr_ok, command_lf_ok, Hok.
  - apply command_lf_ok, Hok.
  - by apply command_cr_ok.
  - by destruct Hok; split.
Qed.

Lemma write_loop_ok n c ptr buf : cursor_ok c -> cursor_ok (fst (write_loop n c ptr buf)).
Proof.
  revert c ptr buf. induction n as [|n IH]; intros c ptr buf Hok; [done|]. cbn [write_loop].
  pose proof (write_char_ok c ptr (ldc (vmem c) buf) Hok) as Hok'.
  destruct (write_char _ _ _) as [c' ptr']. by apply IH.
Qed.

(** [set_cursor] tells the controller the number of the cursor's cell. *)
Lemma cursor_cell a : MEM_BASE <= a < MEM_BASE + 131072 ->
  256 * ((u32 (a - MEM_BASE) .>> 9) .& 0xff) + ((u32 (a - MEM_BASE) .>> 1) .& 0xff) =
  (a - MEM_BASE) / 2.
Proof.
  intros Ha. rewrite u32_small by geometry. set (o := a - MEM_BASE) in *.
  change 0xff with (Z.ones 8). rewrite !Z.land_ones, !Z.shiftr_div_pow2 by lia.
  change (2 ^ 9) with 512. change (2 ^ 1) with 2. change (2 ^ 8) with 256.
  rewrite (Z.mod_small (o / 512)) by (subst o; zlia). zlia.
Qed.

(** *** Text on one row *)

Fixpoint put_cells (m : mem) (ptr : Z) (t : list Z) : mem :=
  match t with
  | [] => m
  | ch :: t' => put_cells (st8 (st8 m ptr ch) (ptr + 1) 0x07) (ptr + 2) t'
  end.

Lemma put_cells_out m ptr t a : a < ptr \/ ptr + 2 * Z.of_nat (length t) <= a ->
  ld8 (put_cells m ptr t) a = ld8 m a.
Proof.
  revert m ptr. induction t as [|ch t IH]; intros m ptr Ha; [done|]. cbn [put_cells length] in *.
  rewrite IH by lia. by rewrite !ld8_st8_ne by lia.
Qed.

Lemma put_cells_in m ptr t i ch : t !! i = Some ch ->
  ld8 (put_cells m ptr t) (ptr + 2 * Z.of_nat i) = u8 ch /\
  ld8 (put_cells m ptr t) (ptr + 2 * Z.of_nat i + 1) = 7.
Proof.
  revert m ptr i. induction t as [|c t IH]; intros m ptr i Hi; [done|]. cbn [put_cells].
  destruct i as [|i].
  - injection Hi as ->. rewrite !put_cells_out by lia. rewrite Z.add_0_r.
    rewrite ld8_st8_ne by lia. rewrite !ld8_st8_eq. done.
  - specialize (IH (st8 (st8 m ptr c) (ptr + 1) 7) (ptr + 2) i Hi).
    replace (ptr + 2 * Z.of_nat (S i)) with (ptr + 2 + 2 * Z.of_nat i) by lia. done.
Qed.

Lemma put_cells_app m ptr t1 t2 :
  put_cells m ptr (t1 ++ t2) = put_cells (put_cells m ptr t1) (ptr + 2 * Z.of_nat (length t1)) t2.
Proof.
  revert m ptr. induction t1 as [|c t IH]; intros m ptr; cbn [app put_cells length].
  - f_equal. lia.
  - rewrite IH. f_equal. lia.
Qed.

(** The characters at [buf]. *)
Definition text_at (m : mem) (buf : Z) (t : list Z) : Prop :=
  forall i ch, t !! i = Some ch -> ldc m (buf + Z.of_nat i) = ch.

Lemma text_at_cons m buf ch t : text_at m buf (ch :: t) ->
  ldc m buf = ch /\ text_at m (buf + 1) t.
Proof.
  intros Ht. split; [rewrite <- (Z.add_0_r buf); exact (Ht 0%nat ch eq_refl)|].
  intros i d Hi. replace (buf + 1 + Z.of_nat i) with (buf + Z.of_nat (S i)) by lia. by apply Ht.
Qed.

Lemma text_at_app m buf t1 t2 : text_at m buf (t1 ++ t2) ->
  text_at m buf t1 /\ text_at m (buf + Z.of_nat (length t1)) t2.
Proof.
  intros Ht. split; intros i ch Hi.
  - apply Ht. by apply lookup_app_l_Some.
  - rewrite <- Z.add_assoc, <- Nat2Z.inj_add. apply Ht.
    rewrite lookup_app_r by lia. by replace (length t1 + i - length t1)%nat with i by lia.
Qed.

Lemma text_at_ext m m' buf t : (forall a, buf <= a < buf + Z.of_nat (length t) -> ld8 m' a = ld8 m a) ->
  text_at m buf t -> text_at m' buf t.
Proof.
  intros He Ht i ch Hi. rewrite <- (Ht i ch Hi). unfold ldc. rewrite He; [done|].
  apply lookup_lt_Some in Hi. lia.
Qed.

Lemma write_char_shown c ptr ch : shown ch = true -> 0 <= x c < WIDTH -> 0 <= pos c < 4294967294 ->
  write_char c ptr ch =
    (Console (screen c) (pos c + 2) (x c + 1) (y c) (put_cells (vmem c) ptr [ch]) (ports c), ptr + 2).
Proof.
  intros Hs Hx Hp. unfold write_char, shown in *. cbn [existsb] in Hs.
  apply negb_true_iff in Hs. rewrite !orb_false_iff in Hs.
  destruct Hs as (-> & -> & -> & -> & -> & -> & -> & -> & -> & _). unfold put_char.
  destruct (WIDTH <=? x c) eqn:E; bool_hyps; [lia|]. rewrite !u32_small by geometry. done.
Qed.

Lemma write_shown t c ptr buf rest :
  Forall (fun ch => shown ch = true) t -> text_at (vmem c) buf (t ++ rest) ->
  0 <= x c -> x c + Z.of_nat (length t) <= WIDTH -> 0 <= pos c -> 
  pos c + 2 * Z.of_nat (length t) < 4294967296 ->
  (buf + Z.of_nat (length (t ++ rest)) <= ptr \/ ptr + 2 * Z.of_nat (length t) <= buf) ->
  write_loop (length t) c ptr buf =
    (Console (screen c) (pos c + 2 * Z.of_nat (length t)) (x c + Z.of_nat (length t)) (y c)
       (put_cells (vmem c) ptr t) (ports c), ptr + 2 * Z.of_nat (length t)).
Proof.
  revert c ptr buf. induction t as [|ch t IH]; intros c ptr buf Hs Ht Hx0 Hx Hp0 Hp Hd.
  - cbn. rewrite !Z.add_0_r. by destruct c.
  - apply Forall_cons in Hs as [Hc Hs]. cbn [app length] in *. apply text_at_cons in Ht as [Eb Ht].
    cbn [write_loop]. rewrite Eb, write_char_shown by (done || lia).
    rewrite IH; cbn [screen pos x y vmem ports put_cells]; try done; try lia.
    + f_equal; [f_equal|]; lia.
    + eapply text_at_ext; [|exact Ht]. intros a Ha. rewrite !ld8_st8_ne by lia. done.
Qed.

Lemma write_loop_app n1 n2 c ptr buf :
  write_loop (n1 + n2) c ptr buf =
    let '(c1, ptr1) := write_loop n1 c ptr buf in write_loop n2 c1 ptr1 (buf + Z.of_nat n1).
Proof.
  revert c ptr buf. induction n1 as [|n IH]; intros c ptr buf; cbn [Nat.add write_loop].
  - f_equal. lia.
  - destruct (write_char _ _ _) as [c' ptr']. rewrite IH. destruct (write_loop n c' ptr' (buf + 1)).
    f_equal. lia.
Qed.

(** The state [console_write] ends in, for text with one line break. *)
Lemma newline_run c buf t1 t2 :
  cursor_ok c -> y c + 1 < HEIGHT -> x c + Z.of_nat (length t1) <= WIDTH -> Z.of_nat (length t2) <= WIDTH ->
  Forall (fun ch => shown ch = true) t1 -> Forall (fun ch => shown ch = true) t2 ->
  text_at (vmem c) buf (t1 ++ ASCII_LF :: t2) -> buf + Z.of_nat (length (t1 ++ ASCII_LF :: t2)) <= MEM_BASE ->
  let c' := console_write c buf (Z.of_nat (length (t1 ++ ASCII_LF :: t2))) in
  vmem c' = put_cells (vmem c) (pos c) (t1 ++ t2) /\ x c' = Z.of_nat (length t2) /\ y c' = y c + 1.
Proof.
  intros Hok Hy1 Hx1 Hx2 Hs1 Hs2 Ht Hb c'. pose proof Hok as [[k [Hk Hs]] He Hx Hy Hp].
  unfold c', console_write. rewrite length_app in *. cbn [length] in *.
  rewrite u32_small, Nat2Z.id by geometry. rewrite write_loop_app.
  rewrite (write_shown t1 c (pos c) buf (ASCII_LF :: t2)) by (try done; rewrite ?length_app; cbn; geometry).
  apply text_at_app in Ht as [_ Ht]. apply text_at_cons in Ht as [El Ht].
  cbn [write_loop vmem]. unfold ldc. rewrite put_cells_out by geometry. fold (ldc (vmem c) (buf + Z.of_nat (length t1))).
  rewrite El. change (write_char ?d ?p ASCII_LF) with (command_cr (command_lf d), p).
  unfold command_lf, command_cr. cbn [y x pos screen vmem ports]. rewrite (u32_small (y c + 1)) by geometry.
  destruct (y c + 1 <? HEIGHT) eqn:E1; bool_hyps; [|lia]. cbn [y x pos screen vmem ports].
  rewrite Z.shiftl_mul_pow2 by lia. rewrite (u32_small (pos c + _ + ROW_SIZE)) by geometry.
  rewrite (u32_small ((x c + _) * 2 ^ 1)) by geometry. rewrite u32_small by geometry.
  rewrite (write_shown t2 _ _ _ []); cbn [x pos vmem]; rewrite ?app_nil_r; try first [done|geometry].
  2: { eapply text_at_ext; [|exact Ht]. intros a Ha. apply put_cells_out. geometry. }
  cbn. rewrite put_cells_app. split; [done|]. lia.
Qed.

(** ** Theorems *)

(** Whatever text is written, control characters, wrapped lines and scrolling
    included, the cursor stays at its row and column of a screen that lies in
    the video memory, and the controller is told its cell. *)
Theorem console_cursor_correct c buf count :
  cursor_ok (console_clear c) /\
  (cursor_ok c ->
   let c' := console_write c buf count in
   cursor_ok c' /\
   exists before hi lo, ports c' = before ++ [(CRT_ADDR_REG, CRT_CURSOR_H); (CRT_DATA_REG, hi);
       (CRT_ADDR_REG, CRT_CURSOR_L); (CRT_DATA_REG, lo)] /\
     256 * hi + lo = y c' * WIDTH + x c' + (screen c' - MEM_BASE) / 2).
Proof.
  split; [split; cbn; [by exists 0|done|done|done|done]|]. intros Hok c'.
  pose proof (write_loop_ok (Z.to_nat (u32 count)) c (pos c) buf Hok) as [[k [Hk Hs]] He Hx Hy Hp].
  unfold c', console_write, set_cursor, crt_pair. set (d := fst _) in *.
  split; [split; cbn; [by exists k|done|done|done|done]|].
  do 3 eexists. split; [done|]. cbn. rewrite cursor_cell by geometry.
  rewrite Hp. replace (screen d + ROW_SIZE * y d + 2 * x d - MEM_BASE)
    with ((y d * WIDTH + x d) * 2 + (screen d - MEM_BASE)) by geometry.
  rewrite Z.add_comm, Z_div_plus by lia. lia.
Qed.

Lemma console_cursor_correct_witness :
  let c := console_clear (Console 0 0 0 0 (st8 ∅ 0x5000 10) []) in
  let c' := console_write c 0x5000 1 in cursor_ok c' /\ y c' = 1.
Proof.
  intros c c'. destruct (console_cursor_correct (Console 0 0 0 0 (st8 ∅ 0x5000 10) []) 0 0) as [Hc _].
  destruct (console_cursor_correct c 0x5000 1) as [_ H]. destruct (H Hc) as [H' _].
  split; [exact H'|]. vm_compute. reflexivity.
Defined.

(** [console_write] with a line break in its text, the cursor neither at the
    last row nor near the end of its own: the cursor goes to the next row, but
    the text after the break is stored where the text before it ended. *)
Theorem newline_text_misplaced c buf t1 t2 :
  cursor_ok c -> y c + 1 < HEIGHT -> x c + Z.of_nat (length t1) <= WIDTH -> Z.of_nat (length t2) <= WIDTH ->
  Forall (fun ch => shown ch = true) t1 -> Forall (fun ch => shown ch = true) t2 ->
  text_at (vmem c) buf (t1 ++ ASCII_LF :: t2) -> buf + Z.of_nat (length (t1 ++ ASCII_LF :: t2)) <= MEM_BASE ->
  let c' := console_write c buf (Z.of_nat (length (t1 ++ ASCII_LF :: t2))) in
  x c' = Z.of_nat (length t2) /\ y c' = y c + 1 /\
  (forall i ch, t1 !! i = Some ch -> ld8 (vmem c') (pos c + 2 * Z.of_nat i) = u8 ch) /\
  (forall i ch, t2 !! i = Some ch ->
     ld8 (vmem c') (pos c + 2 * Z.of_nat (length t1) + 2 * Z.of_nat i) = u8 ch) /\
  (forall a, a < pos c \/ pos c + 2 * Z.of_nat (length t1 + length t2) <= a -> ld8 (vmem c') a = ld8 (vmem c) a).
Proof.
  intros Hok Hy1 Hx1 Hx2 Hs1 Hs2 Ht Hb c'.
  assert (vmem c' = put_cells (vmem c) (pos c) (t1 ++ t2) /\ x c' = Z.of_nat (length t2) /\ y c' = y c + 1)
    as (Em & Ex & Ey).
  { by apply newline_run. }
  rewrite Em. split; [done|]. split; [done|]. split; [|split].
  - intros i ch Hi. apply put_cells_in. by apply lookup_app_l_Some.
  - intros i ch Hi. replace (pos c + 2 * Z.of_nat (length t1) + 2 * Z.of_nat i)
      with (pos c + 2 * Z.of_nat (length t1 + i)) by lia. apply put_cells_in.
    rewrite lookup_app_r by lia. by replace (length t1 + i - length t1)%nat with i by lia.
  - intros a Ha. apply put_cells_out. rewrite length_app. lia.
Qed.

Definition two_lines : console :=
  Console MEM_BASE MEM_BASE 0 0 (stn 5 ∅ 0x5000 (97 + 256 * (98 + 256 * (10 + 256 * (99 + 256 * 100))))) [].

Lemma newline_text_misplaced_witness :
  let c' := console_write two_lines 0x5000 5 in
  y c' = 1 /\ x c' = 2 /\ ld8 (vmem c') (MEM_BASE + 4) = 99.
Proof.
  assert (text_at (vmem two_lines) 0x5000 ([97; 98] ++ ASCII_LF :: [99; 100])) as Ht.
  { intros i ch Hi. do 5 (destruct i as [|i]; [injection Hi as <-; vm_compute; reflexivity|]). done. }
  destruct (newline_text_misplaced two_lines 0x5000 [97; 98] [99; 100]) as (Hx & Hy & _ & H2 & _).
  - split; cbn; [by exists 0|done|done|done|done].
  - vm_compute. reflexivity.
  - vm_compute. discriminate.
  - vm_compute. discriminate.
  - repeat constructor.
  - repeat constructor.
  - exact Ht.
  - vm_compute. discriminate.
  - split; [exact Hy|]. split; [exact Hx|]. exact (H2 0%nat 99 eq_refl).
Defined.
