(* ===== verification/NetChecksum.v ===== *)
(** Byte order and checksums of the user-space network stack:
    netstack/utils/util.cpp, and the conversions of arpa/inet.h on the
    little-endian machine it runs on.  Packets are lists of bytes.  The checksum
    is the one's complement sum of RFC 1071; what makes it right is that the sum
    over a packet that holds its own checksum comes to zero. *)

From S2P Require Import Prelude.
#[local] Open Scope kernel_scope.

(** ** Bytes *)

Definition byte_ok (b : Z) : Prop := 0 <= b < 256.
Abbreviation bytes_ok := (Forall byte_ok).

#[export] Instance byte_ok_dec b : Decision (byte_ok b).
Proof. unfold byte_ok. apply _. Defined.

(** How a 16-bit and a 32-bit integer lie in memory. *)
Definition le2 (z : Z) : list Z := [z mod 256; z / 256 mod 256].
Definition le4 (z : Z) : list Z := le2 (z mod 65536) ++ le2 (z / 65536).
(** The integer that the bytes at [i] make. *)
Definition word16 (b0 b1 : Z) : Z := b0 + 256 * b1.

(** [htons] and [ntohs], [htonl] and [ntohl]. *)
Definition htons (z : Z) : Z := word16 (u16 z / 256) (u16 z mod 256).
Definition ntohs := htons.
Definition htonl (z : Z) : Z := htons (u32 z / 65536) + 65536 * htons (u32 z mod 65536).
Definition ntohl := htonl.

(** ** The checksums *)

(** The loop of [ip_checksum] over 16-bit words, and its odd last byte. *)
Fixpoint sum_words (sum : Z) (data : list Z) : Z :=
  match data with
  | b0 :: b1 :: rest => sum_words (u32 (sum + word16 b0 b1)) rest
  | [b] => u32 (sum + b)
  | [] => sum
  end.

(** [while (sum >> 16) sum = (sum & 0xFFFF) + (sum >> 16);] *)
Fixpoint fold_carry (fuel : nat) (sum : Z) : option Z :=
  if sum .>> 16 =? 0 then Some sum
  else match fuel with
  | O => None
  | S f => fold_carry f (u32 ((sum .& 0xFFFF) + (sum .>> 16)))
  end.

Definition ip_checksum (data : list Z) : Z :=
  u16 (Z.lnot (default 0 (fold_carry 2 (sum_words 0 data)))).

(** The loop of [tcp_checksum], whose words are in network order. *)
Fixpoint sum_words_net (sum : Z) (data : list Z) : Z :=
  match data with
  | b0 :: b1 :: rest => sum_words_net (u32 (sum + ntohs (word16 b0 b1))) rest
  | _ => sum
  end.

(** [tcp_checksum]: [mem_ok] tells whether [malloc] gave the buffer.  For an odd
    length the padding byte is written behind the end of the buffer. *)
Definition tcp_checksum (mem_ok : bool) (pseudo_header tcp_header options data : list Z) : outcome Z :=
  if mem_ok then
    let packet := pseudo_header ++ tcp_header ++ options ++ data in
    if Z.of_nat (length packet) mod 2 =? 0
    then Done (u16 (Z.lnot (default 0 (fold_carry 2 (sum_words_net 0 packet)))))
    else Stuck WildStore
  else Done 0.

(** ** Lemmas: bytes *)

Lemma byte_mod z : byte_ok (z mod 256).
Proof. apply Z.mod_pos_bound. lia. Qed.

Lemma le2_ok z : bytes_ok (le2 z).
Proof. repeat constructor; apply byte_mod. Qed.
Lemma le4_ok z : bytes_ok (le4 z).
Proof. apply Forall_app. split; apply le2_ok. Qed.
#[export] Hint Resolve byte_mod le2_ok le4_ok : kernel.

Lemma word16_le2 z : 0 <= z < 65536 -> word16 (z mod 256) (z / 256 mod 256) = z.
Proof. unfold word16. zlia. Qed.

Lemma le2_word16 b0 b1 : byte_ok b0 -> byte_ok b1 -> le2 (word16 b0 b1) = [b0; b1].
Proof. unfold byte_ok, le2, word16. intros. f_equal; [zlia|]. f_equal. zlia. Qed.

Lemma word16_bound b0 b1 : byte_ok b0 -> byte_ok b1 -> 0 <= word16 b0 b1 < 65536.
Proof. unfold byte_ok, word16. lia. Qed.

Lemma htons_bound z : 0 <= htons z < 65536.
Proof. unfold htons, word16, u16. zlia. Qed.
#[export] Hint Resolve htons_bound : kernel.

Lemma ntohs_htons z : ntohs (htons z) = u16 z.
Proof. unfold ntohs, htons, word16, u16. zlia. Qed.

Lemma htonl_bound z : 0 <= htonl z < 4294967296.
Proof. unfold htonl. pose proof (htons_bound (u32 z / 65536)). pose proof (htons_bound (u32 z mod 65536)). lia. Qed.

Lemma ntohl_htonl z : ntohl (htonl z) = u32 z.
Proof.
  unfold ntohl. pose proof (htonl_bound z) as Hb. unfold htonl at 1. rewrite (u32_small _ Hb).
  pose proof (htons_bound (u32 z / 65536)). pose proof (htons_bound (u32 z mod 65536)). pose proof (u32_bound z).
  replace (htonl z / 65536) with (htons (u32 z mod 65536)) by (unfold htonl; zlia).
  replace (htonl z mod 65536) with (htons (u32 z / 65536)) by (unfold htonl; zlia).
  change (htons (htons ?x)) with (ntohs (htons x)).
  fold (ntohs (htons (u32 z mod 65536))) (ntohs (htons (u32 z / 65536))).
  rewrite !ntohs_htons, !u16_small by zlia. zlia.
Qed.
#[export] Hint Rewrite ntohs_htons ntohl_htonl : kernel.

(** ** Lemmas: one's complement sums *)

(** The representative of [s] modulo 65535 that is 0 for 0 only. *)
Definition folded (s : Z) : Z := if s =? 0 then 0 else (s - 1) mod 65535 + 1.

Lemma folded_bound s : 0 <= folded s < 65536.
Proof. unfold folded. case_if; zlia. Qed.

(** Two folds are enough for any 32-bit sum. *)
Lemma fold_carry_folded s : 0 <= s < 4294967296 -> fold_carry 2 s = Some (folded s).
Proof.
  assert (forall x, x .& 65535 = x mod 65536) as Hl
    by (intros x; change 65535 with (Z.ones 16); by rewrite Z.land_ones by lia).
  intros Hs. cbn [fold_carry]. rewrite !Hl, !Z.shiftr_div_pow2 by lia. change (2 ^ 16) with 65536.
  set (x := s mod 65536 + s / 65536). assert (0 <= x < 131071) as Hx by (unfold x; zlia).
  rewrite !(u32_small x) by lia. set (y := x mod 65536 + x / 65536).
  assert (0 <= y < 65536) as Hy by (unfold y; zlia). rewrite !(u32_small y) by lia. unfold folded.
  destruct (s =? 0) eqn:E0; bool_hyps; [by subst|].
  destruct (s / 65536 =? 0) eqn:E1; bool_hyps; [f_equal; clear - Hs E0 E1; zlia|].
  destruct (x / 65536 =? 0) eqn:E2; bool_hyps; [f_equal; unfold x in *; zlia|].
  destruct (y / 65536 =? 0) eqn:E3; bool_hyps; [f_equal; unfold y, x in *; zlia|zlia].
Qed.

(** The sum of the words, without a bound. *)
Fixpoint wsum (data : list Z) : Z :=
  match data with
  | b0 :: b1 :: rest => word16 b0 b1 + wsum rest
  | [b] => b
  | [] => 0
  end.

(** Induction two bytes at a time. *)
Lemma pairs_ind (P : list Z -> Prop) :
  P [] -> (forall b, P [b]) -> (forall b0 b1 l, P l -> P (b0 :: b1 :: l)) -> forall l, P l.
Proof.
  intros H0 H1 H2 l. assert (P l /\ forall b, P (b :: l)) as [? _]; [|done].
  induction l as [|b l [IH1 IH2]]; split; auto.
Qed.

Lemma wsum_bound bs : bytes_ok bs -> 0 <= wsum bs <= 65535 * Z.of_nat (length bs).
Proof.
  induction bs as [|b|b0 b1 l IH] using pairs_ind; intros Hok; cbn [wsum length].
  - lia.
  - apply Forall_cons in Hok as [Hb _]. unfold byte_ok in Hb. lia.
  - apply Forall_cons in Hok as [H0 Hok]. apply Forall_cons in Hok as [H1 Hok].
    pose proof (word16_bound _ _ H0 H1). specialize (IH Hok). lia.
Qed.

Lemma sum_words_wsum bs s :
  bytes_ok bs -> 0 <= s -> s + wsum bs < 4294967296 -> sum_words s bs = s + wsum bs.
Proof.
  revert s. induction bs as [|b|b0 b1 l IH] using pairs_ind; intros s Hok Hs Hb; cbn [sum_words wsum] in *.
  - lia.
  - apply Forall_cons in Hok as [Hb0 _]. unfold byte_ok in *. apply u32_small. lia.
  - apply Forall_cons in Hok as [H0 Hok]. apply Forall_cons in Hok as [H1 Hok].
    pose proof (word16_bound _ _ H0 H1). pose proof (wsum_bound _ Hok).
    rewrite u32_small, IH by (done || lia). lia.
Qed.

(** Enough for any packet: the longest IP datagram has 65535 bytes. *)
Definition short_enough (bs : list Z) : Prop := Z.of_nat (length bs) <= 65537.

Lemma wsum_short bs : bytes_ok bs -> short_enough bs -> 0 <= wsum bs < 4294967296.
Proof. intros Hok Hs. pose proof (wsum_bound bs Hok). unfold short_enough in Hs. lia. Qed.

Lemma lnot_16 x : 0 <= x < 65536 -> u16 (Z.lnot x) = 65535 - x.
Proof. intros Hx. unfold Z.lnot, u16. zlia. Qed.

Lemma ip_checksum_folded bs :
  bytes_ok bs -> short_enough bs -> ip_checksum bs = 65535 - folded (wsum bs).
Proof.
  intros Hok Hs. pose proof (wsum_short _ Hok Hs). unfold ip_checksum.
  rewrite sum_words_wsum, Z.add_0_l, fold_carry_folded by (done || lia).
  apply lnot_16, folded_bound.
Qed.

Lemma ip_checksum_bound bs : 0 <= ip_checksum bs < 65536.
Proof. apply u16_bound. Qed.
#[export] Hint Resolve ip_checksum_bound : kernel.

Lemma folded_complement s : 0 <= s -> folded (s + (65535 - folded s)) = 65535.
Proof.
  intros Hs. pose proof (folded_bound s). unfold folded at 1.
  destruct (s + (65535 - folded s) =? 0) eqn:E; bool_hyps.
  - unfold folded in *. destruct (s =? 0) eqn:E0; bool_hyps; zlia.
  - unfold folded in *. destruct (s =? 0) eqn:E0; bool_hyps; [subst; reflexivity|].
    clear E H. zlia.
Qed.

Lemma even_pair n : (S (S n) mod 2 = n mod 2)%nat.
Proof. replace (S (S n)) with (n + 1 * 2)%nat by lia. apply Nat.Div0.mod_add. Qed.

Lemma wsum_app pre suf : (length pre mod 2 = 0)%nat -> wsum (pre ++ suf) = wsum pre + wsum suf.
Proof.
  induction pre as [|b|b0 b1 l IH] using pairs_ind; intros Hl; cbn [app wsum].
  - lia.
  - done.
  - cbn [length] in Hl. rewrite even_pair in Hl. rewrite IH by done. lia.
Qed.

Lemma wsum_le2 c suf : 0 <= c < 65536 -> wsum (le2 c ++ suf) = c + wsum suf.
Proof. intros Hc. cbn [le2 app wsum]. by rewrite word16_le2. Qed.

(** A checksum stored in the field that was zero when it was computed makes the
    whole sum come to zero, which is how a receiver checks it. *)
Lemma checksum_verifies pre suf :
  (length pre mod 2 = 0)%nat -> bytes_ok (pre ++ le2 0 ++ suf) -> short_enough (pre ++ le2 0 ++ suf) ->
  ip_checksum (pre ++ le2 (ip_checksum (pre ++ le2 0 ++ suf)) ++ suf) = 0.
Proof.
  intros Hl Hok Hs. set (c := ip_checksum (pre ++ le2 0 ++ suf)).
  assert (0 <= c < 65536) as Hc by apply ip_checksum_bound.
  assert (bytes_ok (pre ++ le2 c ++ suf)) as Hok'.
  { rewrite !Forall_app in *. split_and!; try apply Hok. apply le2_ok. }
  assert (short_enough (pre ++ le2 c ++ suf)) as Hs'.
  { unfold short_enough in *. by rewrite !length_app in *. }
  rewrite ip_checksum_folded by done. rewrite wsum_app, wsum_le2 by done.
  assert (wsum (pre ++ le2 0 ++ suf) = wsum pre + wsum suf) as E0 by (by rewrite wsum_app, wsum_le2 by done).
  assert (c = 65535 - folded (wsum pre + wsum suf)) as -> by (rewrite <- E0; by apply ip_checksum_folded).
  replace (wsum pre + (65535 - folded (wsum pre + wsum suf) + wsum suf))
    with (wsum pre + wsum suf + (65535 - folded (wsum pre + wsum suf))) by lia.
  rewrite folded_complement; [done|]. rewrite <- E0. by apply wsum_short.
Qed.

(** ** Lemmas: byte order does not matter *)

Fixpoint wsum_net (data : list Z) : Z :=
  match data with
  | b0 :: b1 :: rest => htons (word16 b0 b1) + wsum_net rest
  | _ => 0
  end.

Lemma sum_words_net_wsum bs s :
  0 <= s -> s + 65535 * Z.of_nat (length bs) < 4294967296 -> sum_words_net s bs = s + wsum_net bs.
Proof.
  revert s. induction bs as [|b|b0 b1 l IH] using pairs_ind; intros s Hs Hb; cbn [sum_words_net wsum_net length] in *; [lia..|].
  pose proof (htons_bound (word16 b0 b1)). unfold ntohs. rewrite u32_small, IH by lia. lia.
Qed.

(** Swapping the bytes of a word multiplies it by 256 modulo 65535. *)
Lemma htons_256 x : 0 <= x < 65536 -> exists k, htons x = 256 * x - 65535 * k.
Proof. intros Hx. exists (x / 256). unfold htons, word16. rewrite u16_small by done. zlia. Qed.

Lemma wsum_net_256 bs : bytes_ok bs -> (length bs mod 2 = 0)%nat ->
  0 <= wsum_net bs <= 65535 * Z.of_nat (length bs) /\ (wsum_net bs = 0 <-> wsum bs = 0) /\
  exists k, wsum_net bs = 256 * wsum bs - 65535 * k.
Proof.
  induction bs as [|b|b0 b1 l IH] using pairs_ind; intros Hok Hl; cbn [wsum wsum_net length] in *.
  - split; [lia|]. split; [done|]. by exists 0.
  - done.
  - apply Forall_cons in Hok as [H0 Hok]. apply Forall_cons in Hok as [H1 Hok].
    rewrite even_pair in Hl. destruct (IH Hok Hl) as (Hb & Hz & k & E). pose proof (wsum_bound _ Hok).
    pose proof (word16_bound _ _ H0 H1) as Hw. destruct (htons_256 _ Hw) as [j Ej].
    pose proof (htons_bound (word16 b0 b1)) as Hh.
    assert (htons (word16 b0 b1) = 0 <-> word16 b0 b1 = 0) as Hhz.
    { unfold htons. rewrite u16_small by done. unfold word16 in *. zlia. }
    split; [lia|]. split; [lia|]. exists (k + j). lia.
Qed.

Lemma folded_htons s t k : 0 <= s -> 0 <= t -> (t = 0 <-> s = 0) -> t = 256 * s - 65535 * k ->
  folded t = htons (folded s).
Proof.
  intros Hs Ht Hz E. pose proof (folded_bound s) as Hf. destruct (decide (s = 0)) as [->|Hs0].
  { assert (t = 0) as -> by tauto. done. }
  assert (t <> 0) as Ht0 by tauto. destruct (htons_256 _ Hf) as [j Ej]. pose proof (htons_bound (folded s)) as Hh.
  assert (htons (folded s) <> 0) as Hh0.
  { intros E0. assert (folded s = 0) as F0; [|unfold folded in F0; destruct (s =? 0) eqn:E1; bool_hyps; [done|zlia]].
    unfold htons in E0. rewrite u16_small in E0 by done. unfold word16 in E0. zlia. }
  assert (exists i, folded s = s - 65535 * i) as [i Ei].
  { unfold folded. apply Z.eqb_neq in Hs0 as ->. exists ((s - 1) / 65535). zlia. }
  assert (exists i, folded t = t - 65535 * i /\ 0 < folded t < 65536) as (l & El & Hl).
  { unfold folded. apply Z.eqb_neq in Ht0 as ->. exists ((t - 1) / 65535). zlia. }
  lia.
Qed.

Lemma htons_complement x : 0 <= x < 65536 -> htons (65535 - x) = 65535 - htons x.
Proof. intros Hx. unfold htons. rewrite !u16_small by lia. unfold word16. zlia. Qed.

Lemma even_length (bs : list Z) : (Z.of_nat (length bs) mod 2 =? 0) = true -> (length bs mod 2 = 0)%nat.
Proof. intros H. bool_hyps. apply Nat2Z.inj. by rewrite Nat2Z.inj_mod. Qed.

Lemma tcp_checksum_eq mem_ok ps hdr opts data :
  let packet := ps ++ hdr ++ opts ++ data in
  bytes_ok packet -> short_enough packet ->
  tcp_checksum mem_ok ps hdr opts data =
    if mem_ok then
      if Z.of_nat (length packet) mod 2 =? 0 then Done (htons (ip_checksum packet)) else Stuck WildStore
    else Done 0.
Proof.
  intros packet Hok Hs. unfold tcp_checksum. fold packet. destruct mem_ok; [|done].
  destruct (Z.of_nat (length packet) mod 2 =? 0) eqn:El; [|done]. apply even_length in El.
  destruct (wsum_net_256 packet Hok El) as (Hb & Hz & k & Ek). pose proof (wsum_short _ Hok Hs) as Hw.
  unfold short_enough in Hs. rewrite sum_words_net_wsum, Z.add_0_l, fold_carry_folded by lia.
  cbn [default id]. rewrite lnot_16 by apply folded_bound. rewrite ip_checksum_folded by done.
  rewrite htons_complement by apply folded_bound. do 2 f_equal.
  apply (folded_htons _ _ k); [lia|lia|done|done].
Qed.

(** [tcp_checksum] sums the words in network order; the result is the one of
    [ip_checksum] over the same bytes with its own bytes swapped, so storing it
    with [htons] gives the same field.  Over an odd number of bytes it pads behind
    the end of its buffer, and without memory it answers 0. *)
Theorem tcp_checksum_correct mem_ok ps hdr opts data :
  let packet := ps ++ hdr ++ opts ++ data in
  bytes_ok packet -> short_enough packet ->
  tcp_checksum mem_ok ps hdr opts data =
    if mem_ok then
      if Z.of_nat (length packet) mod 2 =? 0 then Done (htons (ip_checksum packet)) else Stuck WildStore
    else Done 0.
Proof. exact (tcp_checksum_eq mem_ok ps hdr opts data). Qed.

(** ** Witnesses *)

Lemma tcp_checksum_correct_witness :
  tcp_checksum true [192; 168; 1; 2] [4; 210; 31; 144] [] [104; 105] = Done 45449 /\
  ip_checksum [192; 168; 1; 2; 4; 210; 31; 144; 104; 105] = 35249.
Proof.
  split; [|reflexivity].
  rewrite (tcp_checksum_correct true [192; 168; 1; 2] [4; 210; 31; 144] [] [104; 105]);
    [reflexivity|apply (bool_decide_unpack _); vm_compute; exact I|unfold short_enough; cbn; lia].
Defined.
