(* ===== verification/NetPacket.v ===== *)
(** The frames the user-space network stack sends: netstack/protocol/arp.cpp,
    ip.cpp, icmp.cpp, udp.cpp, tcp.cpp and the state of protocol_cache.h.  Headers
    are records of the integers their fields hold in memory (so fields in network
    order are swapped), laid out by the [_bytes] functions as the packed structs
    are.  A send function gives the frame it hands to pcap_sendpacket, whose answer
    to a frame is the argument [pcap_sendpacket].  [calloc] is taken to succeed, as the code
    does; the one allocation it tests, in [tcp_checksum], is the argument
    [mem_ok]. *)

From S2P Require Import Prelude NetChecksum.
#[local] Open Scope kernel_scope.

(** ** protocol_cache.h *)

Definition MTU : Z := 1500.

Inductive tcp_state := TCP_CLOSED | TCP_HAND_1 | TCP_HAND_2 | TCP_CONNECTED.
#[export] Instance tcp_state_eq_dec : EqDecision tcp_state.
Proof. solve_decision. Defined.

(** Addresses are the integers inet_aton leaves, in network order. *)
Record inet_info_t := InetInfo {
  inet_name : list Z;
  local_ip : Z;
  remote_ip : Z;
  local_mac : list Z;
  remote_mac : list Z;
  family : Z;
  local_port : Z;
  remote_port : Z;
  ping_success : bool;
  inet_data : list Z;
  data_valid : Z;
  seq_num : Z;
  ack_num : Z;
  tcp_status : tcp_state
}.

Definition set_remote_mac (mac : list Z) (i : inet_info_t) : inet_info_t :=
  InetInfo (inet_name i) (local_ip i) (remote_ip i) (local_mac i) mac (family i) (local_port i) (remote_port i)
    (ping_success i) (inet_data i) (data_valid i) (seq_num i) (ack_num i) (tcp_status i).
Definition set_ping_success (b : bool) (i : inet_info_t) : inet_info_t :=
  InetInfo (inet_name i) (local_ip i) (remote_ip i) (local_mac i) (remote_mac i) (family i) (local_port i)
    (remote_port i) b (inet_data i) (data_valid i) (seq_num i) (ack_num i) (tcp_status i).
Definition set_data (d : list Z) (n : Z) (i : inet_info_t) : inet_info_t :=
  InetInfo (inet_name i) (local_ip i) (remote_ip i) (local_mac i) (remote_mac i) (family i) (local_port i)
    (remote_port i) (ping_success i) d n (seq_num i) (ack_num i) (tcp_status i).
Definition set_tcp (seq ack : Z) (s : tcp_state) (i : inet_info_t) : inet_info_t :=
  InetInfo (inet_name i) (local_ip i) (remote_ip i) (local_mac i) (remote_mac i) (family i) (local_port i)
    (remote_port i) (ping_success i) (inet_data i) (data_valid i) seq ack s.

(** ** Headers *)

Definition ETHERTYPE_IP : Z := 0x0800.
Definition ETHERTYPE_ARP : Z := 0x0806.
Definition ARPOP_REQUEST : Z := 1.
Definition IP_LOAD_ICMP : Z := 1.
Definition IP_LOAD_TCP : Z := 6.
Definition IP_LOAD_UDP : Z := 17.
Definition ICMP_TYPE_REQ_ECHO : Z := 8.
Definition ICMP_TYPE_REPLY_ECHO : Z := 0.
Definition TCP_ACK : Z := 0x10.
Definition TCP_SYN : Z := 0x02.
Definition TCP_SYN_ACK : Z := 0x02 .| 0x10.
Definition TCP_PSH_ACK : Z := 0x08 .| 0x10.

Record ether_header := EtherHeader { ether_dhost : list Z; ether_shost : list Z; ether_type : Z }.
Definition ether_bytes (h : ether_header) : list Z := ether_dhost h ++ ether_shost h ++ le2 (ether_type h).
Definition sizeof_ether_header : Z := 14.

Record arp_header := ArpHeader {
  hardware_type : Z; protocol_type : Z; hlen : Z; plen : Z; opcode : Z;
  sender_mac : list Z; sender_ip : Z; target_mac : list Z; target_ip : Z
}.
Definition arp_bytes (h : arp_header) : list Z :=
  le2 (hardware_type h) ++ le2 (protocol_type h) ++ [hlen h; plen h] ++ le2 (opcode h) ++
  sender_mac h ++ le4 (sender_ip h) ++ target_mac h ++ le4 (target_ip h).
Definition sizeof_arp_header : Z := 28.

Record ip_header := IpHeader {
  version_ihl : Z; tos : Z; total_length : Z; identification : Z; flags_fragment : Z; ttl : Z;
  protocol : Z; iph_checksum : Z; src_ip : Z; dst_ip : Z
}.
Definition ip_bytes (h : ip_header) : list Z :=
  [version_ihl h; tos h] ++ le2 (total_length h) ++ le2 (identification h) ++ le2 (flags_fragment h) ++
  [ttl h; protocol h] ++ le2 (iph_checksum h) ++ le4 (src_ip h) ++ le4 (dst_ip h).
Definition sizeof_ip_header : Z := 20.
Definition set_iph_checksum (c : Z) (h : ip_header) : ip_header :=
  IpHeader (version_ihl h) (tos h) (total_length h) (identification h) (flags_fragment h) (ttl h) (protocol h) c
    (src_ip h) (dst_ip h).

Record icmp_header := IcmpHeader {
  icmp_type : Z; icmp_code : Z; icmph_checksum : Z; identifier : Z; sequence_num : Z
}.
Definition icmp_bytes (h : icmp_header) : list Z :=
  [icmp_type h; icmp_code h] ++ le2 (icmph_checksum h) ++ le2 (identifier h) ++ le2 (sequence_num h).
Definition sizeof_icmp_header : Z := 8.

Record udp_header := UdpHeader { source_port : Z; dest_port : Z; udp_length : Z; udph_checksum : Z }.
Definition udp_bytes (h : udp_header) : list Z :=
  le2 (source_port h) ++ le2 (dest_port h) ++ le2 (udp_length h) ++ le2 (udph_checksum h).
Definition sizeof_udp_header : Z := 8.

Record pseudo_header := PseudoHeader { src_addr : Z; dest_addr : Z; reserved : Z; ps_protocol : Z; ps_length : Z }.
Definition pseudo_bytes (h : pseudo_header) : list Z :=
  le4 (src_addr h) ++ le4 (dest_addr h) ++ [reserved h; ps_protocol h] ++ le2 (ps_length h).

Record tcp_header := TcpHeader {
  t_source_port : Z; t_dest_port : Z; t_sequence_num : Z; t_ack_num : Z; data_offset : Z; flags : Z;
  window_size : Z; tcph_checksum : Z; urgent_pointer : Z
}.
Definition tcp_bytes (h : tcp_header) : list Z :=
  le2 (t_source_port h) ++ le2 (t_dest_port h) ++ le4 (t_sequence_num h) ++ le4 (t_ack_num h) ++
  [data_offset h; flags h] ++ le2 (window_size h) ++ le2 (tcph_checksum h) ++ le2 (urgent_pointer h).
Definition sizeof_tcp_header : Z := 20.
Definition set_tcph_checksum (c : Z) (h : tcp_header) : tcp_header :=
  TcpHeader (t_source_port h) (t_dest_port h) (t_sequence_num h) (t_ack_num h) (data_offset h) (flags h)
    (window_size h) c (urgent_pointer h).

(** ** Builders *)

Definition create_ether_header (dst_mac src_mac : list Z) (type : Z) : ether_header :=
  EtherHeader dst_mac src_mac (htons type).

Definition create_arp_header (inet : inet_info_t) : arp_header :=
  ArpHeader (htons 1) (htons ETHERTYPE_IP) 6 4 (htons ARPOP_REQUEST) (local_mac inet) (local_ip inet)
    (replicate 6 0) (remote_ip inet).

(** The frame of [send_arp_req]. *)
Definition broadcast_mac : list Z := replicate 6 0xff.
Definition send_arp_req (inet : inet_info_t) : list Z :=
  ether_bytes (create_ether_header broadcast_mac (local_mac inet) ETHERTYPE_ARP) ++
  arp_bytes (create_arp_header inet).

Definition create_icmp_protocol_header (type : Z) : icmp_header :=
  let header := IcmpHeader type 0 0 (htons 1) (htons 1) in
  IcmpHeader type 0 (ip_checksum (icmp_bytes header)) (htons 1) (htons 1).

Definition create_ip_icmp_protocol_header (inet : inet_info_t) (protocol : Z) : ip_header :=
  let header := IpHeader 0x45 0 (htons (sizeof_ip_header + sizeof_icmp_header)) (htons 1) (htons 0x4000) 64
    protocol 0 (local_ip inet) (remote_ip inet) in
  set_iph_checksum (ip_checksum (ip_bytes header)) header.

Definition create_ip_header (tos len identification flags ttl protocol src_ip dst_ip : Z) : ip_header :=
  let header := IpHeader 0x45 tos len (htons identification) (htons flags) ttl protocol 0 src_ip dst_ip in
  set_iph_checksum (ip_checksum (ip_bytes header)) header.

Definition create_ip_protocol_header (inet : inet_info_t) (len protocol : Z) : ip_header :=
  let header := IpHeader 0x45 0 len (htons 0xd0f1) (htons 0x4000) 64 protocol 0 (local_ip inet) (remote_ip inet) in
  set_iph_checksum (ip_checksum (ip_bytes header)) header.

(** [memcpy(packet + off, bytes, ...)] into a packet that has room. *)
Definition paste (packet : list Z) (off : Z) (bytes : list Z) : list Z :=
  take (Z.to_nat off) packet ++ bytes ++ drop (Z.to_nat off + length bytes) packet.

(** [send_icmp_echo_request_packet]: the packet is as long as if an ARP header
    stood where the IP header is. *)
Definition send_icmp_echo_request_packet (g inet : inet_info_t) : list Z :=
  let len := sizeof_ether_header + sizeof_arp_header + sizeof_icmp_header in
  let packet := replicate (Z.to_nat len) 0 in
  let packet := paste packet 0 (ether_bytes (create_ether_header (remote_mac inet) (local_mac inet) ETHERTYPE_IP)) in
  let packet := paste packet sizeof_ether_header (ip_bytes (create_ip_icmp_protocol_header g IP_LOAD_ICMP)) in
  paste packet (sizeof_ether_header + sizeof_ip_header)
    (icmp_bytes (create_icmp_protocol_header ICMP_TYPE_REQ_ECHO)).

(** ** UDP *)

Definition udp_checksum (psh : pseudo_header) (udph : udp_header) (data : list Z) : Z :=
  ip_checksum (pseudo_bytes psh ++ udp_bytes udph ++ data).

(** [create_udp_header]: the header and the data behind it, in a block whose
    size is computed in 16 bits. *)
Definition create_udp_header (inet : inet_info_t) (data : list Z) : outcome (list Z) :=
  let d_len := Z.of_nat (length data) in
  let len := u16 (sizeof_udp_header + d_len) in
  if len <? sizeof_udp_header + d_len then Stuck WildStore
  else
    let header := UdpHeader (htons (local_port inet)) (htons (remote_port inet)) (htons len) 0 in
    let ps := PseudoHeader (local_ip inet) (remote_ip inet) 0 IP_LOAD_UDP (htons len) in
    let c := udp_checksum ps header data in
    Done (udp_bytes (UdpHeader (source_port header) (dest_port header) (udp_length header) c) ++ data).

(** [udp_send]: the frame and the value returned. *)
Definition udp_send (pcap_sendpacket : list Z -> Z) (g inet : inet_info_t) (data : list Z) : outcome (list Z * Z) :=
  let len := Z.of_nat (length data) in
  let ether := create_ether_header (remote_mac inet) (local_mac inet) ETHERTYPE_IP in
  udp ← create_udp_header g data;
  let ip_header_len := u16 (sizeof_ip_header + sizeof_udp_header + len) in
  let ip := create_ip_header 0 (htons ip_header_len) 0x3fa6 0x4000 64 IP_LOAD_UDP (local_ip inet) (remote_ip inet) in
  let packet := ether_bytes ether ++ ip_bytes ip ++ udp in
  Done (packet, if pcap_sendpacket packet <? 0 then -1 else s32 len).

(** ** TCP *)

Definition create_tcp_header (mem_ok : bool) (inet : inet_info_t) (flag seq_num ack_num : Z) (options s : list Z)
  : outcome tcp_header :=
  let options_len := Z.of_nat (length options) in
  let s_len := Z.of_nat (length s) in
  let pseudo := PseudoHeader (local_ip inet) (remote_ip inet) 0 6 (htons (sizeof_tcp_header + options_len + s_len)) in
  let tcp := TcpHeader (htons (local_port inet)) (htons (remote_port inet)) (htonl seq_num) (htonl ack_num)
    (u8 ((sizeof_tcp_header + options_len) / 4 .<< 4)) flag (htons 0xfaf0) 0 0 in
  checksum ← tcp_checksum mem_ok (pseudo_bytes pseudo) (tcp_bytes tcp) options s;
  Done (set_tcph_checksum (htons checksum) tcp).

Definition tcp_init_seq (rand : Z) (inet : inet_info_t) : inet_info_t :=
  set_tcp (u32 rand) 0 TCP_CLOSED inet.

Definition tcp_options : list Z :=
  [0x02; 0x04; 0x05; 0xb4; 0x04; 0x02; 0x08; 0x0a; 0xaf; 0xef;
   0x15; 0x2c; 0x00; 0x00; 0x00; 0x00; 0x01; 0x03; 0x03; 0x07].

(** The frame, and whether the program exits because it was not sent. *)
Definition tcp_send_control (pcap_sendpacket : list Z -> Z) (mem_ok : bool) (g inet : inet_info_t) (flag : Z)
  : outcome (list Z * bool) :=
  tcp ← create_tcp_header mem_ok g flag (seq_num inet) (ack_num inet) tcp_options [];
  let ether := create_ether_header (remote_mac g) (local_mac g) ETHERTYPE_IP in
  let ip := create_ip_protocol_header g (htons (sizeof_ip_header + sizeof_tcp_header + Z.of_nat (length tcp_options)))
    IP_LOAD_TCP in
  let packet := ether_bytes ether ++ ip_bytes ip ++ tcp_bytes tcp ++ tcp_options in
  Done (packet, pcap_sendpacket packet <? 0).

Definition tcp_send (pcap_sendpacket : list Z -> Z) (mem_ok : bool) (g inet : inet_info_t) (data : list Z)
  : outcome (list Z * bool) :=
  tcp ← create_tcp_header mem_ok g TCP_PSH_ACK (seq_num inet) (ack_num inet) [] data;
  let ether := create_ether_header (remote_mac g) (local_mac g) ETHERTYPE_IP in
  let ip := create_ip_protocol_header g (htons (sizeof_ip_header + sizeof_tcp_header + Z.of_nat (length data)))
    IP_LOAD_TCP in
  let packet := ether_bytes ether ++ ip_bytes ip ++ tcp_bytes tcp ++ data in
  Done (packet, pcap_sendpacket packet <? 0).

(** ** Lemmas: layout *)

(** The addresses are 32-bit integers, the hardware addresses six bytes, the
    ports fit their fields and the data buffer has its size. *)
Record inet_ok (i : inet_info_t) : Prop := {
  ok_local_ip : 0 <= local_ip i < 4294967296;
  ok_remote_ip : 0 <= remote_ip i < 4294967296;
  ok_local_mac : length (local_mac i) = 6%nat;
  ok_remote_mac : length (remote_mac i) = 6%nat;
  ok_data : Z.of_nat (length (inet_data i)) = MTU
}.

Lemma length_le2 z : length (le2 z) = 2%nat.
Proof. done. Qed.
Lemma length_le4 z : length (le4 z) = 4%nat.
Proof. done. Qed.

Lemma length_ip_bytes h : length (ip_bytes h) = 20%nat.
Proof. done. Qed.
Lemma length_udp_bytes h : length (udp_bytes h) = 8%nat.
Proof. done. Qed.
Lemma length_tcp_bytes h : length (tcp_bytes h) = 20%nat.
Proof. done. Qed.
Lemma length_pseudo_bytes h : length (pseudo_bytes h) = 12%nat.
Proof. done. Qed.
Lemma length_ether_bytes d s t : length d = 6%nat -> length s = 6%nat ->
  length (ether_bytes (EtherHeader d s t)) = 14%nat.
Proof. intros Hd Hs. unfold ether_bytes. cbn [ether_dhost ether_shost]. rewrite !length_app, Hd, Hs. done. Qed.

Ltac bytes_ok_tac :=
  repeat first [apply Forall_app; split | apply Forall_cons; split | apply List.Forall_nil |
    apply byte_mod | assumption | (unfold byte_ok; lia)].

Lemma ip_bytes_ok h : byte_ok (version_ihl h) -> byte_ok (tos h) -> byte_ok (ttl h) -> byte_ok (protocol h) ->
  bytes_ok (ip_bytes h).
Proof. intros. unfold ip_bytes. bytes_ok_tac. Qed.
Lemma udp_bytes_ok h : bytes_ok (udp_bytes h).
Proof. unfold udp_bytes. bytes_ok_tac. Qed.
Lemma tcp_bytes_ok h : byte_ok (data_offset h) -> byte_ok (flags h) -> bytes_ok (tcp_bytes h).
Proof. intros. unfold tcp_bytes. bytes_ok_tac. Qed.
Lemma pseudo_bytes_ok h : byte_ok (reserved h) -> byte_ok (ps_protocol h) -> bytes_ok (pseudo_bytes h).
Proof. intros. unfold pseudo_bytes. bytes_ok_tac. Qed.

(** ** Lemmas: a receiver's check of what is sent *)

(** An IP header that was given the checksum of itself with an empty field. *)
Lemma ip_header_verifies h :
  byte_ok (version_ihl h) -> byte_ok (tos h) -> byte_ok (ttl h) -> byte_ok (protocol h) -> iph_checksum h = 0 ->
  ip_checksum (ip_bytes (set_iph_checksum (ip_checksum (ip_bytes h)) h)) = 0.
Proof.
  intros H1 H2 H3 H4 H0. pose proof (ip_bytes_ok h H1 H2 H3 H4) as Hok.
  set (pre := [version_ihl h; tos h] ++ le2 (total_length h) ++ le2 (identification h) ++ le2 (flags_fragment h) ++
    [ttl h; protocol h]). set (suf := le4 (src_ip h) ++ le4 (dst_ip h)).
  assert (ip_bytes h = pre ++ le2 0 ++ suf) as E by (by rewrite <- H0).
  change (ip_checksum (pre ++ le2 (ip_checksum (ip_bytes h)) ++ suf) = 0). rewrite E in *.
  apply checksum_verifies; [done|done|]. rewrite <- E. unfold short_enough. by rewrite length_ip_bytes.
Qed.

(** The datagram [create_udp_header] makes, under its pseudo header. *)
Lemma create_udp_header_spec inet data :
  let len := sizeof_udp_header + Z.of_nat (length data) in
  bytes_ok data -> len <= 65535 ->
  exists c, create_udp_header inet data = Done
      (udp_bytes (UdpHeader (htons (local_port inet)) (htons (remote_port inet)) (htons len) c) ++ data) /\
    0 <= c < 65536 /\
    (Z.of_nat (length data) <= 65517 ->
     ip_checksum (pseudo_bytes (PseudoHeader (local_ip inet) (remote_ip inet) 0 IP_LOAD_UDP (htons len)) ++
       udp_bytes (UdpHeader (htons (local_port inet)) (htons (remote_port inet)) (htons len) c) ++ data) = 0).
Proof.
  intros len Hd Hlen. unfold create_udp_header. fold len.
  assert (sizeof_udp_header = 8) as H8 by done. rewrite (u16_small len) by (unfold len in *; lia).
  rewrite Z.ltb_irrefl. eexists. split; [reflexivity|]. split; [apply ip_checksum_bound|]. intros Hs.
  cbn [source_port dest_port udp_length]. unfold udp_checksum.
  set (ps := pseudo_bytes _). set (sp := htons _). set (dp := htons _). set (ln := htons len).
  set (pre := ps ++ le2 sp ++ le2 dp ++ le2 ln).
  assert (forall c, ps ++ udp_bytes (UdpHeader sp dp ln c) ++ data = pre ++ le2 c ++ data) as E.
  { intros c. unfold pre, udp_bytes. cbn [source_port dest_port udp_length udph_checksum]. by rewrite <- !app_assoc. }
  rewrite !E. apply checksum_verifies; [done| |].
  - rewrite <- E. apply Forall_app. split; [by apply pseudo_bytes_ok|]. apply Forall_app. split; [apply udp_bytes_ok|done].
  - unfold short_enough. rewrite !length_app. cbn [length]. change (length pre) with 18%nat. cbn. lia.
Qed.

(** The header [create_tcp_header] makes, under its pseudo header. *)
Lemma create_tcp_header_spec inet flag seq ack opts s :
  let len := sizeof_tcp_header + Z.of_nat (length opts) + Z.of_nat (length s) in
  let pseudo := PseudoHeader (local_ip inet) (remote_ip inet) 0 6 (htons len) in
  let off := u8 ((sizeof_tcp_header + Z.of_nat (length opts)) / 4 .<< 4) in
  byte_ok flag -> bytes_ok opts -> bytes_ok s -> len <= 65525 ->
  if Z.of_nat (length opts + length s) mod 2 =? 0 then
    exists c, create_tcp_header true inet flag seq ack opts s = Done
        (TcpHeader (htons (local_port inet)) (htons (remote_port inet)) (htonl seq) (htonl ack) off flag
           (htons 0xfaf0) c 0) /\ 0 <= c < 65536 /\
      ip_checksum (pseudo_bytes pseudo ++ tcp_bytes (TcpHeader (htons (local_port inet)) (htons (remote_port inet))
        (htonl seq) (htonl ack) off flag (htons 0xfaf0) c 0) ++ opts ++ s) = 0
  else create_tcp_header true inet flag seq ack opts s = Stuck WildStore.
Proof.
  intros len pseudo off Hf Ho Hs Hlen. assert (sizeof_tcp_header = 20) as H20 by done.
  unfold create_tcp_header. cbv zeta. fold len pseudo off.
  set (h c := TcpHeader (htons (local_port inet)) (htons (remote_port inet)) (htonl seq) (htonl ack) off flag
    (htons 0xfaf0) c 0). fold (h 0).
  set (pre := pseudo_bytes pseudo ++ take 16 (tcp_bytes (h 0))). set (suf := [0; 0] ++ opts ++ s).
  assert (forall c, pseudo_bytes pseudo ++ tcp_bytes (h c) ++ opts ++ s = pre ++ le2 c ++ suf) as E.
  { intros c. unfold pre. rewrite <- app_assoc. done. }
  assert (bytes_ok (pre ++ le2 0 ++ suf)) as Hok.
  { rewrite <- E. apply Forall_app. split; [by apply pseudo_bytes_ok|].
    apply Forall_app. split; [apply tcp_bytes_ok; [apply u8_bound|done]|by apply Forall_app]. }
  assert (Z.of_nat (length (pre ++ le2 0 ++ suf)) = 12 + len) as Hl.
  { rewrite <- E, !length_app, length_pseudo_bytes, length_tcp_bytes. unfold len. lia. }
  assert (short_enough (pre ++ le2 0 ++ suf)) as Hsh by (unfold short_enough; lia).
  pose proof (tcp_checksum_eq true (pseudo_bytes pseudo) (tcp_bytes (h 0)) opts s) as Ht.
  cbv zeta in Ht. rewrite E, Hl in Ht. specialize (Ht Hok Hsh). rewrite Ht.
  replace ((12 + len) mod 2) with (Z.of_nat (length opts + length s) mod 2) by (unfold len; zlia).
  destruct (Z.of_nat (length opts + length s) mod 2 =? 0); [|done].
  cbn [mbind outcome_bind]. exists (ip_checksum (pre ++ le2 0 ++ suf)).
  assert (htons (htons (ip_checksum (pre ++ le2 0 ++ suf))) = ip_checksum (pre ++ le2 0 ++ suf)) as ->.
  { change (ntohs (htons (ip_checksum (pre ++ le2 0 ++ suf))) = ip_checksum (pre ++ le2 0 ++ suf)).
    rewrite ntohs_htons. apply u16_small, ip_checksum_bound. }
  split; [done|]. split; [apply ip_checksum_bound|]. set (c := ip_checksum (pre ++ le2 0 ++ suf)).
  change (ip_checksum (pseudo_bytes pseudo ++ tcp_bytes (h c) ++ opts ++ s) = 0).
  rewrite E. by apply checksum_verifies.
Qed.

(** ** Theorems *)

(** The checks of a receiver: over the IP header, and over the segment behind it
    with the pseudo header of the two addresses. *)
Definition ip_valid (frame : list Z) : Prop := ip_checksum (take 20 (drop 14 frame)) = 0.
Definition segment_valid (g : inet_info_t) (proto : Z) (frame : list Z) : Prop :=
  let segment := drop 34 frame in
  ip_checksum (pseudo_bytes (PseudoHeader (local_ip g) (remote_ip g) 0 proto (htons (Z.of_nat (length segment)))) ++
    segment) = 0.

Lemma frame_parts d s t ip rest :
  length d = 6%nat -> length s = 6%nat ->
  let frame := ether_bytes (EtherHeader d s t) ++ ip_bytes ip ++ rest in
  take 20 (drop 14 frame) = ip_bytes ip /\ drop 34 frame = rest.
Proof.
  intros Hd Hs frame. assert (drop 14 frame = ip_bytes ip ++ rest) as E by (apply drop_app_length'; symmetry; by apply length_ether_bytes).
  split; [rewrite E; by apply take_app_length'|].
  change 34%nat with (14 + 20)%nat. rewrite <- drop_drop, E. by apply drop_app_length'.
Qed.

Lemma tcp_frame_valid g d s t ip opts data flag seq ack off c :
  length d = 6%nat -> length s = 6%nat -> ip_checksum (ip_bytes ip) = 0 ->
  let len := Z.of_nat (length opts + length data) in
  let tcp := TcpHeader (htons (local_port g)) (htons (remote_port g)) (htonl seq) (htonl ack) off flag
    (htons 0xfaf0) c 0 in
  ip_checksum (pseudo_bytes (PseudoHeader (local_ip g) (remote_ip g) 0 6 (htons (sizeof_tcp_header + len))) ++
    tcp_bytes tcp ++ opts ++ data) = 0 ->
  let frame := ether_bytes (EtherHeader d s t) ++ ip_bytes ip ++ tcp_bytes tcp ++ opts ++ data in
  ip_valid frame /\ segment_valid g 6 frame.
Proof.
  intros Hd Hs Hip len tcp Ht frame. unfold ip_valid, segment_valid, frame.
  destruct (frame_parts d s t ip (tcp_bytes tcp ++ opts ++ data) Hd Hs) as [-> ->]. split; [done|]. cbv zeta.
  replace (Z.of_nat (length (tcp_bytes tcp ++ opts ++ data))) with (sizeof_tcp_header + len); [done|].
  rewrite !length_app, length_tcp_bytes. unfold sizeof_tcp_header, len. lia.
Qed.

(** C27: What the stack sends passes a receiver's checks: UDP datagrams, TCP control
    segments and TCP data of even length, each under its IP header.  Sending TCP
    data of odd length writes behind the buffer of the checksum. *)
Theorem sent_frames_verify (pcap_sendpacket : list Z -> Z) g data :
  inet_ok g -> bytes_ok data -> Z.of_nat (length data) <= 65495 ->
  (exists f r, udp_send pcap_sendpacket g g data = Done (f, r) /\ ip_valid f /\ segment_valid g IP_LOAD_UDP f) /\
  (forall flag, byte_ok flag -> exists f e, tcp_send_control pcap_sendpacket true g g flag = Done (f, e) /\
     ip_valid f /\ segment_valid g IP_LOAD_TCP f) /\
  if Z.of_nat (length data) mod 2 =? 0 then
    exists f e, tcp_send pcap_sendpacket true g g data = Done (f, e) /\ ip_valid f /\ segment_valid g IP_LOAD_TCP f
  else tcp_send pcap_sendpacket true g g data = Stuck WildStore.
Proof.
  intros Hg Hd Hlen. pose proof (ok_local_mac _ Hg) as Hm. pose proof (ok_remote_mac _ Hg) as Hr.
  split; [|split].
  - destruct (create_udp_header_spec g data Hd) as (c & E & _ & Hc); [unfold sizeof_udp_header; lia|].
    unfold udp_send. rewrite E. cbn [mbind outcome_bind]. eexists _, _. split; [done|].
    unfold ip_valid, segment_valid, create_ether_header. destruct (frame_parts _ _ (htons ETHERTYPE_IP) (create_ip_header 0
      (htons (u16 (sizeof_ip_header + sizeof_udp_header + Z.of_nat (length data)))) 0x3fa6 0x4000 64 IP_LOAD_UDP
      (local_ip g) (remote_ip g)) (udp_bytes (UdpHeader (htons (local_port g)) (htons (remote_port g))
      (htons (sizeof_udp_header + Z.of_nat (length data))) c) ++ data) Hr Hm) as [-> ->].
    split; [by apply ip_header_verifies|]. cbv zeta.
    rewrite length_app, length_udp_bytes, Nat2Z.inj_add. apply Hc. lia.
  - intros flag Hf. pose proof (create_tcp_header_spec g flag (seq_num g) (ack_num g) tcp_options [] Hf) as Ht.
    cbv zeta in Ht. destruct Ht as (c & E & _ & Hc); [bytes_ok_tac|constructor|done|].
    unfold tcp_send_control. rewrite E. cbn [mbind outcome_bind]. eexists _, _. split; [done|].
    rewrite <- (app_nil_r tcp_options) at 2 4. eapply tcp_frame_valid; [done..|by apply ip_header_verifies|exact Hc].
  - pose proof (create_tcp_header_spec g TCP_PSH_ACK (seq_num g) (ack_num g) [] data) as Ht.
    cbv zeta in Ht. cbn [length Nat.add] in Ht. unfold tcp_send.
    destruct (Z.of_nat (length data) mod 2 =? 0) eqn:El.
    + destruct Ht as (c & E & _ & Hc); [done|constructor|done|unfold sizeof_tcp_header; cbn; lia|].
      rewrite E. cbn [mbind outcome_bind]. eexists _, _. split; [done|].
      eapply (tcp_frame_valid g _ _ _ _ [] data); [done..|by apply ip_header_verifies|].
      cbn [length Nat.add]. rewrite Z.add_0_r in Hc. exact Hc.
    + rewrite Ht; [done|done|constructor|done|unfold sizeof_tcp_header; cbn; lia].
Qed.
