(* ===== verification/NetRecv.v ===== *)
(** What the user-space network stack does with a captured frame:
    netstack/protocol/arp.cpp (deal_arp_reply), ip.cpp, icmp.cpp, udp.cpp and
    tcp.cpp (the distribute functions), udp_recv and its use in main.cpp.  A frame
    is the list of the bytes captured, in libpcap's buffer; reading behind it is
    [WildLoad], writing behind an object [WildStore]. *)

From S2P Require Import Prelude NetChecksum NetPacket.
#[local] Open Scope kernel_scope.

(** ** Reading a frame *)

Definition loadn (packet : list Z) (off n : Z) : outcome (list Z) :=
  if ((0 <=? off) && (0 <=? n) && (off + n <=? Z.of_nat (length packet)))%bool
  then Done (take (Z.to_nat n) (drop (Z.to_nat off) packet)) else Stuck WildLoad.
(** The integer of some bytes, lowest first. *)
Fixpoint le_value (bs : list Z) : Z :=
  match bs with [] => 0 | b :: bs' => b + 256 * le_value bs' end.
Definition load8 (packet : list Z) (off : Z) : outcome Z := bs ← loadn packet off 1; Done (le_value bs).
Definition load16 (packet : list Z) (off : Z) : outcome Z := bs ← loadn packet off 2; Done (le_value bs).
Definition load32 (packet : list Z) (off : Z) : outcome Z := bs ← loadn packet off 4; Done (le_value bs).

(** The string at an offset, up to its terminator. *)
Fixpoint until_zero (bs : list Z) : outcome (list Z) :=
  match bs with
  | [] => Stuck WildLoad
  | b :: bs' => if b =? 0 then Done [] else s ← until_zero bs'; Done (b :: s)
  end.
Definition cstring (packet : list Z) (off : Z) : outcome (list Z) :=
  if off <? 0 then Stuck WildLoad else until_zero (drop (Z.to_nat off) packet).

(** ** arp.cpp *)

(** The answer, and the peer's address learnt; the operation code of the ARP
    packet is not looked at. *)
Definition deal_arp_reply (inet : inet_info_t) (packet : list Z) : outcome (Z * inet_info_t) :=
  let arp := sizeof_ether_header in
  sender_ip ← load32 packet (arp + 14);
  if sender_ip =? remote_ip inet then
    target_ip ← load32 packet (arp + 24);
    if target_ip =? local_ip inet then
      mac ← loadn packet (arp + 8) 6;
      Done (0, set_remote_mac mac inet)
    else Done (-1, inet)
  else Done (-1, inet).

(** ** ip.cpp *)

(** The test of addresses of [distribute_ip_reply]. *)
Definition ip_for_us (inet : inet_info_t) (packet : list Z) : outcome bool :=
  let ip := sizeof_ether_header in
  src ← load32 packet (ip + 12);
  if negb (src =? remote_ip inet) then Done false
  else
    dst ← load32 packet (ip + 16);
    Done (dst =? local_ip inet).

(** [tcplen], a [size_t]. *)
Definition tcp_len_of (packet : list Z) : outcome Z :=
  total ← load16 packet (sizeof_ether_header + 2);
  Done (u64 (ntohs total - sizeof_ip_header)).

(** ** icmp.cpp *)

(** The type of the ICMP packet. *)
Definition icmp_type_of (packet : list Z) (icmp : Z) : outcome Z := load8 packet icmp.

(** ** udp.cpp *)

(** [distribute_udp_recv] up to its post, [udp] the offset of the header. *)
Definition distribute_udp_recv (inet : inet_info_t) (packet : list Z) (udp : Z) : outcome inet_info_t :=
  len ← load16 packet (udp + 4);
  let datalen := u64 (ntohs len - sizeof_udp_header) in
  if MTU <? datalen then Stuck WildStore
  else
    data ← loadn packet (udp + sizeof_udp_header) datalen;
    Done (set_data (data ++ drop (length data) (inet_data inet)) datalen inet).

(** [udp_recv] behind its wait, into the buffer [data]. *)
Definition udp_recv (inet : inet_info_t) (data : list Z) (len : Z) : outcome (list Z * Z) :=
  let n := Z.min (data_valid inet) len in
  bs ← loadn (inet_data inet) 0 n;
  if Z.of_nat (length data) <? n then Stuck WildStore
  else Done (bs ++ drop (length bs) data, n).

(** One turn of [udp_recv_handle] of main.cpp: the buffer and the text printed. *)
Definition udp_recv_turn (inet : inet_info_t) (data : list Z) : outcome (list Z * list Z) :=
  r ← udp_recv inet data MTU;
  let '(data, len) := r in
  if len + 1 <? Z.of_nat (length data) then
    let data := <[Z.to_nat (len + 1) := 0]> data in
    text ← cstring data 0;
    Done (data, text)
  else Stuck WildStore.

(** ** tcp.cpp *)

(** The bytes [print_hex_string] prints; its length is an [int]. *)
Definition print_hex_string (packet : list Z) (off len : Z) : outcome (list Z) :=
  if s32 len <=? 0 then Done [] else loadn packet off (s32 len).

(** The second handshake packet, taken only in state TCP_HAND_1. *)
Definition recv_syn_ack (inet : inet_info_t) (packet : list Z) (tcp : Z) : outcome (bool * inet_info_t) :=
  if decide (tcp_status inet = TCP_HAND_1) then
    seq ← load32 packet (tcp + 4);
    Done (true, set_tcp (u32 (seq_num inet + 1)) (u32 (ntohl seq + 1)) TCP_HAND_2 inet)
  else Done (false, inet).

(** A data segment: where its data lie and the numbers of the answer. *)
Definition tcp_data_at (packet : list Z) (tcp tcp_len : Z) : outcome (Z * Z) :=
  off ← load8 packet (tcp + 12);
  let doff := (off .>> 4) * 4 in
  Done (tcp + doff, u64 (tcp_len - doff)).
Definition recv_psh_ack (inet : inet_info_t) (packet : list Z) (tcp datalen : Z) : outcome inet_info_t :=
  seq ← load32 packet (tcp + 4);
  Done (set_tcp (u32 (seq_num inet + 1)) (u32 (ntohl seq + datalen)) (tcp_status inet) inet).

(** [data\[len\] = 0] of [deal_tcp_data_recv], in the captured frame. *)
Definition terminate_data (packet : list Z) (data len : Z) : outcome (list Z) :=
  let i := u64 (data + len) in
  if i <? Z.of_nat (length packet) then Done (<[Z.to_nat i := 0]> packet) else Stuck WildStore.

(** ** Lemmas *)

Lemma loadn_done packet off n :
  0 <= off -> 0 <= n -> off + n <= Z.of_nat (length packet) ->
  loadn packet off n = Done (take (Z.to_nat n) (drop (Z.to_nat off) packet)).
Proof.
  intros H1 H2 H3. unfold loadn. apply Z.leb_le in H1 as ->. apply Z.leb_le in H2 as ->. by apply Z.leb_le in H3 as ->.
Qed.

Lemma loadn_inv packet off n bs :
  loadn packet off n = Done bs -> 0 <= off /\ 0 <= n /\ off + n <= Z.of_nat (length packet) /\
    bs = take (Z.to_nat n) (drop (Z.to_nat off) packet) /\ Z.of_nat (length bs) = n.
Proof.
  unfold loadn. destruct (_ && _)%bool eqn:E; [|done]. intros [= <-]. bool_hyps.
  split_and!; try done; try lia. rewrite length_take, length_drop. lia.
Qed.

Lemma le_value_le2 z : 0 <= z < 65536 -> le_value (le2 z) = z.
Proof. intros Hz. unfold le2. cbn [le_value]. zlia. Qed.
Lemma le_value_le4 z : 0 <= z < 4294967296 -> le_value (le4 z) = z.
Proof. intros Hz. unfold le4, le2. cbn [app le_value]. zlia. Qed.

Lemma le_value_bound bs : bytes_ok bs -> 0 <= le_value bs < 256 ^ Z.of_nat (length bs).
Proof.
  induction bs as [|b bs IH]; intros Hok; [done|]. apply Forall_cons in Hok as [Hb Hok]. unfold byte_ok in Hb.
  specialize (IH Hok). cbn [le_value length]. rewrite Nat2Z.inj_succ, Z.pow_succ_r by lia. lia.
Qed.

(** A list of six as its elements. *)
Lemma six (l : list Z) : length l = 6%nat -> exists a b c d e f, l = [a; b; c; d; e; f].
Proof. intros H. do 6 (destruct l as [|? l]; [done|]). destruct l; [|done]. eauto 10. Qed.

(** Loads at a known place of a frame whose first bytes are spelled out. *)
Ltac load_at := rewrite loadn_done by (try lia; cbn [length]; lia); cbn [mbind outcome_bind];
  cbn [Z.to_nat Pos.to_nat Pos.iter_op Nat.add Init.Nat.add take drop].

(** ** Theorems *)

(** C29: Receiving a datagram is safe exactly when the length in its header is that
    of the header, at least, and of the 1500-byte buffer, at most, and the frame
    holds that many bytes; then the payload is at the front of the buffer.  The
    code checks none of this, so a short or long length overwrites memory. *)
Theorem udp_receive_safe inet packet udp :
  inet_ok inet -> bytes_ok packet -> 0 <= udp -> udp + 8 <= Z.of_nat (length packet) ->
  let len := ntohs (le_value (take 2 (drop (Z.to_nat (udp + 4)) packet))) in
  if ((8 <=? len) && (len <=? 1508) && (udp + len <=? Z.of_nat (length packet)))%bool then
    exists inet', distribute_udp_recv inet packet udp = Done inet' /\ inet_ok inet' /\ data_valid inet' = len - 8 /\
      inet' = set_data (inet_data inet') (len - 8) inet /\
      take (Z.to_nat (len - 8)) (inet_data inet') = take (Z.to_nat (len - 8)) (drop (Z.to_nat (udp + 8)) packet) /\
      drop (Z.to_nat (len - 8)) (inet_data inet') = drop (Z.to_nat (len - 8)) (inet_data inet)
  else exists f, distribute_udp_recv inet packet udp = Stuck f /\ (len < 8 \/ 1508 < len -> f = WildStore).
Proof.
  intros Hok Hbs Hu Hh len. unfold distribute_udp_recv, load16. rewrite loadn_done by lia. cbn [mbind outcome_bind].
  change (Z.to_nat 2) with 2%nat. fold len. assert (0 <= len < 65536) as Hl by apply htons_bound.
  change sizeof_udp_header with 8. pose proof (ok_data _ Hok) as Hd. unfold MTU in *.
  destruct (8 <=? len) eqn:E1; bool_hyps; cbn [andb].
  - rewrite u64_small by lia. destruct (len <=? 1508) eqn:E2; bool_hyps; cbn [andb].
    + destruct (1500 <? len - 8) eqn:E3; bool_hyps; [lia|].
      destruct (udp + len <=? Z.of_nat (length packet)) eqn:E4; bool_hyps.
      * rewrite loadn_done by lia. cbn [mbind outcome_bind]. set (bs := take _ _).
        assert (length bs = Z.to_nat (len - 8)) as Hbl by (unfold bs; rewrite length_take, length_drop; lia).
        eexists. split; [done|]. rewrite Hbl. cbn [inet_data data_valid set_data]. split_and!; try done.
        -- split; try apply Hok. cbn. unfold MTU. rewrite length_app, length_drop. lia.
        -- rewrite take_app_le, take_ge by lia. done.
        -- rewrite drop_app_ge, Hbl, Nat.sub_diag by lia. done.
      * unfold loadn. replace ((0 <=? udp + 8) && (0 <=? len - 8) && (udp + 8 + (len - 8) <=? Z.of_nat (length packet)))%bool
          with false; [|symmetry; apply andb_false_iff; right; apply Z.leb_gt; lia].
        eexists. split; [done|]. lia.
    + destruct (1500 <? len - 8) eqn:E3; bool_hyps; [|lia]. eexists. by split.
  - replace (u64 (len - 8)) with (len - 8 + 18446744073709551616) by (unfold u64; zlia).
    destruct (1500 <? len - 8 + 18446744073709551616) eqn:E3; bool_hyps; [|lia]. eexists. by split.
Qed.

(** Two hosts set up to talk to each other. *)
Definition peers (a b : inet_info_t) : Prop := local_ip a = remote_ip b /\ remote_ip a = local_ip b.

(** The fields of a frame that holds an IP packet. *)
Lemma ip_frame_fields d s t ip rest :
  length d = 6%nat -> length s = 6%nat -> 0 <= t < 65536 -> 0 <= total_length ip < 65536 ->
  0 <= src_ip ip < 4294967296 -> 0 <= dst_ip ip < 4294967296 ->
  let frame := ether_bytes (EtherHeader d s t) ++ ip_bytes ip ++ rest in
  load16 frame 12 = Done t /\ load16 frame 16 = Done (total_length ip) /\ load8 frame 23 = Done (protocol ip) /\
  load32 frame 26 = Done (src_ip ip) /\ load32 frame 30 = Done (dst_ip ip) /\
  forall off n, 0 <= off -> 0 <= n -> off + n <= Z.of_nat (length rest) -> loadn frame (34 + off) n = loadn rest off n.
Proof.
  intros Hd Hs Ht Htl Hsrc Hdst frame. destruct (six d Hd) as (d0 & d1 & d2 & d3 & d4 & d5 & ->).
  destruct (six s Hs) as (s0 & s1 & s2 & s3 & s4 & s5 & ->).
  assert (length frame = 34 + length rest)%nat as Hl by (unfold frame; rewrite !length_app; done).
  assert (forall off n, 0 <= off -> 0 <= n -> off + n <= 34 -> loadn frame off n =
    Done (take (Z.to_nat n) (drop (Z.to_nat off) frame))) as Hload by (intros; apply loadn_done; lia).
  unfold load16, load8, load32. rewrite !Hload by lia. cbn [mbind outcome_bind]. split_and!.
  - change (Done (le_value (le2 t)) = Done t). by rewrite le_value_le2.
  - change (Done (le_value (le2 (total_length ip))) = Done (total_length ip)). by rewrite le_value_le2.
  - change (Done (protocol ip + 256 * 0) = Done (protocol ip)). f_equal. lia.
  - change (Done (le_value (le4 (src_ip ip))) = Done (src_ip ip)). by rewrite le_value_le4.
  - change (Done (le_value (le4 (dst_ip ip))) = Done (dst_ip ip)). by rewrite le_value_le4.
  - intros off n Ho Hn Hon. rewrite !loadn_done by lia. do 2 f_equal.
    rewrite Z2Nat.inj_add by lia. rewrite <- drop_drop. done.
Qed.

Lemma arp_roundtrip a b :
  inet_ok a -> inet_ok b -> peers a b -> deal_arp_reply b (send_arp_req a) = Done (0, set_remote_mac (local_mac a) b).
Proof.
  intros Ha Hb [E1 E2]. unfold send_arp_req, create_ether_header, create_arp_header. pose proof (ok_local_ip _ Ha).
  pose proof (ok_remote_ip _ Ha). destruct (six _ (ok_local_mac _ Ha)) as (d0 & d1 & d2 & d3 & d4 & d5 & ->).
  set (packet := ether_bytes _ ++ _). assert (length packet = 42%nat) as Hl by done.
  unfold deal_arp_reply, load32, sizeof_ether_header. rewrite !loadn_done by lia. cbn [mbind outcome_bind].
  change (le_value (take _ (drop (Z.to_nat (14 + 14)) packet))) with (le_value (le4 (local_ip a))).
  change (le_value (take _ (drop (Z.to_nat (14 + 24)) packet))) with (le_value (le4 (remote_ip a))).
  rewrite !le_value_le4, E1, E2, !Z.eqb_refl by done. done.
Qed.

(** C28: Between two hosts set up for each other, what [udp_send] of one sends goes
    through the tests of the other, [udp_recv] there returns the data, and an ARP
    request teaches the other the sender's hardware address. *)
Theorem udp_roundtrip (pcap_sendpacket : list Z -> Z) a b data buf :
  inet_ok a -> inet_ok b -> peers a b -> bytes_ok data -> Z.of_nat (length data) <= MTU ->
  Z.of_nat (length buf) = MTU ->
  deal_arp_reply b (send_arp_req a) = Done (0, set_remote_mac (local_mac a) b) /\
  exists frame r b', udp_send pcap_sendpacket a a data = Done (frame, r) /\
    load16 frame 12 = Done (htons ETHERTYPE_IP) /\ ip_for_us b frame = Done true /\
    load8 frame (14 + 9) = Done IP_LOAD_UDP /\ distribute_udp_recv b frame 34 = Done b' /\
    udp_recv b' buf MTU = Done (data ++ drop (length data) buf, Z.of_nat (length data)).
Proof.
  intros Ha Hb Hp Hd Hlen Hbuf. split; [by apply arp_roundtrip|]. unfold MTU in *. destruct Hp as [E1 E2].
  destruct (create_udp_header_spec a data Hd) as (c & E & Hc & _); [unfold sizeof_udp_header; lia|].
  unfold udp_send. rewrite E. cbn [mbind outcome_bind]. eexists _, _, _. split; [reflexivity|].
  unfold create_ether_header. set (udp := UdpHeader _ _ _ c).
  pose proof (ip_frame_fields (remote_mac a) (local_mac a) (htons ETHERTYPE_IP) (create_ip_header 0
    (htons (u16 (sizeof_ip_header + sizeof_udp_header + Z.of_nat (length data)))) 0x3fa6 0x4000 64 IP_LOAD_UDP
    (local_ip a) (remote_ip a)) (udp_bytes udp ++ data) (ok_remote_mac _ Ha) (ok_local_mac _ Ha) (htons_bound _)
    (htons_bound _) (ok_local_ip _ Ha) (ok_remote_ip _ Ha)) as F. cbv zeta in F. set (frame := _ ++ _ ++ _) in *.
  destruct F as (F1 & _ & F2 & F3 & F4 & F5). cbn [create_ip_header set_iph_checksum protocol src_ip dst_ip] in *.
  split; [done|]. split; [|split; [done|]].
  - unfold ip_for_us, sizeof_ether_header. change (14 + 12) with 26. change (14 + 16) with 30.
    rewrite F3. cbn [mbind outcome_bind]. rewrite E1, Z.eqb_refl. cbn [negb]. rewrite F4. cbn [mbind outcome_bind].
    by rewrite E2, Z.eqb_refl.
  - assert (loadn frame (34 + 4) 2 = Done (le2 (htons (sizeof_udp_header + Z.of_nat (length data))))) as G1.
    { rewrite F5 by (try lia; rewrite length_app, length_udp_bytes; lia). apply (loadn_done (udp_bytes udp ++ data)); [lia..|].
      rewrite length_app, length_udp_bytes. lia. }
    assert (loadn frame (34 + 8) (Z.of_nat (length data)) = Done data) as G2.
    { rewrite F5 by (try lia; rewrite length_app, length_udp_bytes; lia). rewrite loadn_done by (rewrite ?length_app, ?length_udp_bytes; lia).
      rewrite Nat2Z.id. change (drop (Z.to_nat 8) (udp_bytes udp ++ data)) with data. by rewrite take_ge. }
    assert (sizeof_udp_header = 8) as H8 by done.
    unfold distribute_udp_recv, load16. rewrite G1. cbn [mbind outcome_bind]. rewrite le_value_le2 by apply htons_bound.
    rewrite ntohs_htons, u16_small, u64_small by lia. unfold MTU.
    destruct (1500 <? sizeof_udp_header + Z.of_nat (length data) - sizeof_udp_header) eqn:E3; bool_hyps; [lia|].
    replace (sizeof_udp_header + Z.of_nat (length data) - sizeof_udp_header) with (Z.of_nat (length data)) by lia.
    rewrite H8, G2. cbn [mbind outcome_bind]. split; [reflexivity|].
    unfold udp_recv. cbn [data_valid set_data inet_data]. rewrite Z.min_l by lia.
    pose proof (ok_data _ Hb) as Hbd. unfold MTU in Hbd.
    rewrite loadn_done by (rewrite ?length_app, ?length_drop; lia). cbn [mbind outcome_bind].
    destruct (Z.of_nat (length buf) <? Z.of_nat (length data)) eqn:E4; bool_hyps; [lia|].
    rewrite Nat2Z.id. change (drop (Z.to_nat 0) ?l) with l. rewrite take_app_length. done.
Qed.

(** [udp_recv_handle] ends the text one byte too far: for data without a zero
    byte it prints the data and, unless it is zero, the byte its buffer holds
    behind them. *)
Lemma udp_recv_turn_text inet data len buf stale :
  inet_ok inet -> data_valid inet = Z.of_nat (length data) -> take (length data) (inet_data inet) = data ->
  Z.of_nat (length data) = len -> len + 1 < MTU -> Z.of_nat (length buf) = MTU -> Forall (fun b => b <> 0) data ->
  buf !! Z.to_nat len = Some stale -> stale <> 0 ->
  exists buf', udp_recv_turn inet buf = Done (buf', data ++ [stale]).
Proof.
  intros Hok Hv Hdata Hlen Hmax Hbuf Hnz Hst Hs0. pose proof (ok_data _ Hok) as Hd. unfold MTU in *.
  unfold udp_recv_turn, udp_recv, MTU. rewrite Hv, Z.min_l by lia. rewrite loadn_done by lia. cbn [mbind outcome_bind].
  rewrite Nat2Z.id. change (drop (Z.to_nat 0) ?l) with l. rewrite Hdata.
  destruct (Z.of_nat (length buf) <? Z.of_nat (length data)) eqn:E1; bool_hyps; [lia|]. cbn [mbind outcome_bind].
  assert (length (data ++ drop (length data) buf) = length buf) as Hl by (rewrite length_app, length_drop; lia).
  rewrite Hl. destruct (Z.of_nat (length data) + 1 <? Z.of_nat (length buf)) eqn:E2; bool_hyps; [|lia].
  replace (Z.to_nat (Z.of_nat (length data) + 1)) with (length data + 1)%nat by lia.
  rewrite insert_app_r. replace (Z.to_nat len) with (length data) in Hst by lia.
  assert (drop (length data) buf = stale :: drop (S (length data)) buf) as -> by (by apply drop_S).
  assert (length (drop (S (length data)) buf) > 0)%nat as Hr by (rewrite length_drop; lia).
  destruct (drop (S (length data)) buf) as [|x rest] eqn:Ed; [cbn in Hr; lia|]. cbn [insert list_insert].
  unfold cstring. change (0 <? 0) with false. cbn iota. change (drop (Z.to_nat 0) ?l) with l.
  assert (forall l, until_zero (l ++ stale :: 0 :: rest) = Done (l ++ [stale]) \/ ~ Forall (fun b => b <> 0) l) as Hz.
  { clear - Hs0. induction l as [|b l IH]; cbn [app until_zero].
    - left. apply Z.eqb_neq in Hs0 as ->. done.
    - destruct (b =? 0) eqn:Eb; bool_hyps; [right; intros [Hb _]%Forall_cons; done|].
      destruct IH as [->|Hn]; [by left|right]. by intros [_ Hf]%Forall_cons. }
  destruct (Hz data) as [->|Hn]; [|done]. cbn [mbind outcome_bind]. eauto.
Qed.

(** What a host reads in a TCP segment of another host, [rest] being the bytes
    behind the header, [len] of which the IP header counts. *)
Lemma tcp_frame_reads a b tcp len rest :
  inet_ok a -> inet_ok b -> peers a b -> 0 <= len <= Z.of_nat (length rest) -> len <= 1460 ->
  0 <= t_sequence_num tcp < 4294967296 ->
  let packet := ether_bytes (create_ether_header (remote_mac b) (local_mac b) ETHERTYPE_IP) ++
    ip_bytes (create_ip_protocol_header b (htons (sizeof_ip_header + sizeof_tcp_header + len)) IP_LOAD_TCP) ++
    tcp_bytes tcp ++ rest in
  Z.of_nat (length packet) = 54 + Z.of_nat (length rest) /\
  load16 packet 12 = Done (htons ETHERTYPE_IP) /\ ip_for_us a packet = Done true /\
  load8 packet (14 + 9) = Done IP_LOAD_TCP /\ tcp_len_of packet = Done (20 + len) /\
  load8 packet (34 + 12) = Done (data_offset tcp) /\ load8 packet (34 + 13) = Done (flags tcp) /\
  load32 packet (34 + 4) = Done (t_sequence_num tcp) /\
  (exists hex, print_hex_string packet 34 (20 + len) = Done hex) /\ drop 54 packet = rest.
Proof.
  intros Ha Hb [E1 E2] Hr Hlen Hseq packet. unfold create_ether_header in packet.
  pose proof (ip_frame_fields (remote_mac b) (local_mac b) (htons ETHERTYPE_IP) (create_ip_protocol_header b
    (htons (sizeof_ip_header + sizeof_tcp_header + len)) IP_LOAD_TCP) (tcp_bytes tcp ++ rest)
    (ok_remote_mac _ Hb) (ok_local_mac _ Hb) (htons_bound _) (htons_bound _) (ok_local_ip _ Hb) (ok_remote_ip _ Hb)) as F.
  cbv zeta in F. fold packet in F. destruct F as (F1 & F2 & F3 & F4 & F5 & F6).
  cbn [create_ip_protocol_header set_iph_checksum protocol src_ip dst_ip total_length] in *.
  assert (length (tcp_bytes tcp ++ rest) = 20 + length rest)%nat as Hl by (by rewrite !length_app).
  assert (forall off n, 0 <= off -> 0 <= n -> off + n <= 20 -> loadn packet (34 + off) n =
    Done (take (Z.to_nat n) (drop (Z.to_nat off) (tcp_bytes tcp ++ rest)))) as Hload
    by (intros; rewrite F6, loadn_done by lia; done).
  unfold sizeof_ip_header, sizeof_tcp_header in *. split_and!.
  - unfold packet. rewrite !length_app, length_ether_bytes, length_ip_bytes, length_tcp_bytes by apply Hb. lia.
  - done.
  - unfold ip_for_us, sizeof_ether_header. change (14 + 12) with 26. change (14 + 16) with 30.
    rewrite F4. cbn [mbind outcome_bind]. rewrite <- E2, Z.eqb_refl. cbn [negb]. rewrite F5. cbn [mbind outcome_bind].
    by rewrite <- E1, Z.eqb_refl.
  - done.
  - unfold tcp_len_of, sizeof_ether_header, sizeof_ip_header. change (14 + 2) with 16. rewrite F2. cbn [mbind outcome_bind].
    rewrite ntohs_htons, u16_small, u64_small by lia. f_equal. lia.
  - unfold load8. rewrite Hload by lia. cbn [mbind outcome_bind].
    change (Done (data_offset tcp + 256 * 0) = Done (data_offset tcp)). f_equal. lia.
  - unfold load8. rewrite Hload by lia. cbn [mbind outcome_bind].
    change (Done (flags tcp + 256 * 0) = Done (flags tcp)). f_equal. lia.
  - unfold load32. rewrite Hload by lia. cbn [mbind outcome_bind].
    change (le_value (take _ _)) with (le_value (le4 (t_sequence_num tcp))). by rewrite le_value_le4.
  - unfold print_hex_string. rewrite s32_small by lia. destruct (20 + len <=? 0); [eauto|].
    change 34 with (34 + 0). rewrite F6, loadn_done by lia. eauto.
  - unfold packet. change 54%nat with (14 + (20 + 20))%nat. rewrite <- !drop_drop.
    rewrite drop_app_length' by (symmetry; apply length_ether_bytes; apply Hb). done.
Qed.

(** A data segment of [tcp_send]; [pad] is what the wire adds behind a short
    frame. *)
Lemma tcp_segment_reads (pcap_sendpacket : list Z -> Z) a b data pad :
  inet_ok a -> inet_ok b -> peers a b -> bytes_ok data -> Z.of_nat (length data) <= 1460 ->
  Z.of_nat (length data) mod 2 = 0 -> 0 <= seq_num b < 4294967296 ->
  exists frame ex, tcp_send pcap_sendpacket true b b data = Done (frame, ex) /\
    let packet := frame ++ pad in let len := Z.of_nat (length data) in
    Z.of_nat (length frame) = 54 + len /\
    load16 packet 12 = Done (htons ETHERTYPE_IP) /\ ip_for_us a packet = Done true /\
    load8 packet (14 + 9) = Done IP_LOAD_TCP /\ tcp_len_of packet = Done (20 + len) /\
    load8 packet (34 + 13) = Done TCP_PSH_ACK /\ tcp_data_at packet 34 (20 + len) = Done (54, len) /\
    recv_psh_ack a packet 34 len =
      Done (set_tcp (u32 (seq_num a + 1)) (u32 (seq_num b + len)) (tcp_status a) a) /\
    (exists hex, print_hex_string packet 34 (20 + len) = Done hex) /\ drop 54 packet = data ++ pad.
Proof.
  intros Ha Hb Hp Hd Hlen Hev Hseq. set (len := Z.of_nat (length data)) in *.
  pose proof (create_tcp_header_spec b TCP_PSH_ACK (seq_num b) (ack_num b) [] data) as Ht.
  cbv zeta in Ht. cbn [length Nat.add] in Ht. fold len in Ht. rewrite Hev, Z.eqb_refl in Ht.
  destruct Ht as (c & E & _); [done|constructor|done|unfold sizeof_tcp_header; lia|].
  unfold tcp_send. rewrite E. cbn [mbind outcome_bind]. eexists _, _. split; [done|]. cbv zeta. fold len.
  set (tcp := TcpHeader _ _ _ _ _ _ _ c 0). rewrite <- !app_assoc.
  pose proof (tcp_frame_reads a b tcp len (data ++ pad) Ha Hb Hp) as F. cbv zeta in F.
  set (packet := _ ++ _ ++ _ ++ _ ++ _) in *.
  destruct F as (Fl & F1 & F2 & F3 & F4 & F5 & F6 & F7 & F8 & F9); [rewrite length_app; lia|done|apply htonl_bound|].
  split_and!; try done.
  - unfold packet in Fl. rewrite !length_app in *. lia.
  - unfold tcp_data_at. rewrite F5. cbn [mbind outcome_bind].
    change (Done (34 + 20, u64 (20 + len - 20)) = Done (54, len)). rewrite u64_small by lia. do 2 f_equal. lia.
  - unfold recv_psh_ack. rewrite F7. cbn [mbind outcome_bind t_sequence_num tcp].
    by rewrite ntohl_htonl, (u32_small (seq_num b)).
Qed.

(** A segment of [tcp_send_control]. *)
Lemma tcp_control_reads (pcap_sendpacket : list Z -> Z) a b flag pad :
  inet_ok a -> inet_ok b -> peers a b -> byte_ok flag -> 0 <= seq_num b < 4294967296 ->
  exists frame ex, tcp_send_control pcap_sendpacket true b b flag = Done (frame, ex) /\
    let packet := frame ++ pad in
    load16 packet 12 = Done (htons ETHERTYPE_IP) /\ ip_for_us a packet = Done true /\
    load8 packet (14 + 9) = Done IP_LOAD_TCP /\ tcp_len_of packet = Done 40 /\
    load8 packet (34 + 13) = Done flag /\
    recv_syn_ack a packet 34 = (if decide (tcp_status a = TCP_HAND_1) then
      Done (true, set_tcp (u32 (seq_num a + 1)) (u32 (seq_num b + 1)) TCP_HAND_2 a) else Done (false, a)) /\
    (exists hex, print_hex_string packet 34 40 = Done hex).
Proof.
  intros Ha Hb Hp Hf Hseq.
  pose proof (create_tcp_header_spec b flag (seq_num b) (ack_num b) tcp_options []) as Ht.
  cbv zeta in Ht. destruct Ht as (c & E & _); [done|unfold tcp_options; bytes_ok_tac|constructor|done|].
  unfold tcp_send_control. rewrite E. cbn [mbind outcome_bind]. eexists _, _. split; [done|]. cbv zeta.
  set (tcp := TcpHeader _ _ _ _ _ _ _ c 0). rewrite <- !app_assoc.
  pose proof (tcp_frame_reads a b tcp 20 (tcp_options ++ pad) Ha Hb Hp) as F. cbv zeta in F.
  set (packet := _ ++ _ ++ _ ++ _ ++ _) in *.
  destruct F as (Fl & F1 & F2 & F3 & F4 & F5 & F6 & F7 & F8 & F9); [rewrite length_app; cbn; lia|done|apply htonl_bound|].
  split_and!; try done. unfold recv_syn_ack. destruct (decide _); [|done]. rewrite F7. cbn [mbind outcome_bind t_sequence_num tcp].
  by rewrite ntohl_htonl, (u32_small (seq_num b)).
Qed.

(** The text printed is that of the data; the terminator goes behind them, which
    is behind the captured frame unless the wire has padded it. *)
Lemma until_zero_data data pad : exists text, until_zero (data ++ 0 :: pad) = Done text /\
  (Forall (fun b => b <> 0) data -> text = data).
Proof.
  induction data as [|b data (text & IH & Ht)]; cbn [app until_zero].
  - eexists. by split.
  - destruct (b =? 0) eqn:Eb; bool_hyps.
    + eexists. split; [done|]. by intros [? _]%Forall_cons.
    + rewrite IH. cbn [mbind outcome_bind]. eexists. split; [done|]. intros [_ Hf]%Forall_cons. by rewrite Ht.
Qed.

Lemma terminate_data_padded packet data pad :
  drop 54 packet = data ++ pad -> Z.of_nat (length packet) = 54 + Z.of_nat (length data + length pad) ->
  Z.of_nat (length packet) <= 65536 ->
  if decide (pad = []) then terminate_data packet 54 (Z.of_nat (length data)) = Stuck WildStore
  else exists packet' text, terminate_data packet 54 (Z.of_nat (length data)) = Done packet' /\
    cstring packet' 54 = Done text /\ (Forall (fun b => b <> 0) data -> text = data).
Proof.
  intros Hdrop Hl Hs. unfold terminate_data. rewrite u64_small by lia.
  destruct (decide (pad = [])) as [->|Hp].
  - cbn [length] in Hl. destruct (54 + Z.of_nat (length data) <? Z.of_nat (length packet)) eqn:E; bool_hyps; [lia|done].
  - destruct pad as [|x pad]; [done|]. cbn [length] in Hl.
    destruct (54 + Z.of_nat (length data) <? Z.of_nat (length packet)) eqn:E; bool_hyps; [|lia].
    destruct (until_zero_data data pad) as (text & Ht & Hd). exists (<[(54 + length data)%nat := 0]> packet), text.
    replace (Z.to_nat (54 + Z.of_nat (length data))) with (54 + length data)%nat by lia. split; [done|]. split; [|done].
    unfold cstring. change (54 <? 0) with false. cbn iota. change (Z.to_nat 54) with 54%nat.
    rewrite drop_insert_ge by lia. replace (54 + length data - 54)%nat with (length data) by lia. rewrite Hdrop.
    replace (length data) with (length data + 0)%nat at 1 by lia. rewrite insert_app_r. exact Ht.
Qed.
