(* ===== verification/NetThread.v ===== *)
(** Threads of the user-space network stack: netstack/thread/thread.cpp.  A
    thread waits for another one by name and is woken by a post of that one.  The
    registry of threads, the descriptors and the programs the threads run are the
    state of a step relation.

    A mutex of the library is held from the lock to the unlock of one function,
    or given up inside pthread_cond_wait; such a stretch is one step here, so the
    mutexes themselves need no state.  What the code does outside them is a step
    of its own: the clearing of be_posted before and after the wait.  A thread
    asleep in pthread_cond_wait goes on after a broadcast, or spuriously. *)

From S2P Require Import Prelude.
From stdpp Require Import functions relations.

(** ** Data *)

(** A thread is named by its descriptor, of type [T]; [Wait], [Post] and the
    registry speak of names. *)
Record ns_thread_t (T : Type) := NsThread {
  thread_id : Z;
  be_posted : bool;
  wait_this : gmap string T
}.
Arguments NsThread {T}.
Arguments thread_id {T}.
Arguments be_posted {T}.
Arguments wait_this {T}.

(** What a thread has left to run: [R] are the routines and loops, [G] the state
    the threads share, [E] what they put out.  [Start], [Enlist], [Sleep] and
    [Leave] are the places inside the library's functions. *)
Inductive code (T R G E : Type) :=
| Halt
| Op (f : G -> outcome (bool * G * list E)) (k1 k0 : code T R G E)
| Until (b : G -> bool) (k : code T R G E)
| Forever
| Call (r : R)
| Create (t : T) (r : R) (k : code T R G E)
| Destroy (t : T) (k : code T R G E)
| Wait (wait : string) (k : code T R G E)
| Post (name : string) (k : code T R G E)
| Start (r : R)
| Enlist (cur w : T) (k : code T R G E)
| Sleep (cur w : T) (signalled : bool) (k : code T R G E)
| Leave (cur : T) (k : code T R G E).
Arguments Halt {T R G E}.
Arguments Op {T R G E}.
Arguments Until {T R G E}.
Arguments Forever {T R G E}.
Arguments Call {T R G E}.
Arguments Create {T R G E}.
Arguments Destroy {T R G E}.
Arguments Wait {T R G E}.
Arguments Post {T R G E}.
Arguments Start {T R G E}.
Arguments Enlist {T R G E}.
Arguments Sleep {T R G E}.
Arguments Leave {T R G E}.

(** [operator\[\]] of a map adds a null entry for a missing key, so an entry may
    be null. *)
Record sys (T R G E : Type) := Sys {
  g_all_threads_id : gmap Z (option T);
  g_all_threads_name : gmap string (option T);
  descs : T -> ns_thread_t T;
  procs : T -> option (code T R G E);
  glob : G;
  outs : list E
}.
Arguments Sys {T R G E}.
Arguments g_all_threads_id {T R G E}.
Arguments g_all_threads_name {T R G E}.
Arguments descs {T R G E}.
Arguments procs {T R G E}.
Arguments glob {T R G E}.
Arguments outs {T R G E}.

Section Threads.
Context {T R G E : Type} `{EqDecision T}.
Implicit Types (s : sys T R G E) (p q t w : T) (c k : code T R G E).

(** The name each descriptor is created with, the pthread_t of its thread, what
    the routines do, and whether the program has called exit. *)
Context (name : T -> string) (pthread_self : T -> Z) (body : R -> G -> outcome (code T R G E * G)).
Context (exited : G -> bool).

(** ** The registry *)

(** [std::map::insert] keeps an entry that is there. *)
Definition map_insert `{Countable K} {A} (key : K) (v : A) (m : gmap K A) : gmap K A :=
  match m !! key with Some _ => m | None => <[key := v]> m end.

Definition set_proc s p c : sys T R G E :=
  Sys (g_all_threads_id s) (g_all_threads_name s) (descs s) (<[p := Some c]> (procs s)) (glob s) (outs s).
Definition set_desc s p (d : ns_thread_t T) : sys T R G E :=
  Sys (g_all_threads_id s) (g_all_threads_name s) (<[p := d]> (descs s)) (procs s) (glob s) (outs s).
Definition set_posted s p (b : bool) : sys T R G E :=
  let d := descs s p in set_desc s p (NsThread (thread_id d) b (wait_this d)).
Definition set_waiters s p (m : gmap string T) : sys T R G E :=
  let d := descs s p in set_desc s p (NsThread (thread_id d) (be_posted d) m).

Definition thread_insert s t : sys T R G E :=
  Sys (map_insert (thread_id (descs s t)) (Some t) (g_all_threads_id s))
    (map_insert (name t) (Some t) (g_all_threads_name s)) (descs s) (procs s) (glob s) (outs s).
Definition thread_remove s t : sys T R G E :=
  Sys (delete (thread_id (descs s t)) (g_all_threads_id s))
    (delete (name t) (g_all_threads_name s)) (descs s) (procs s) (glob s) (outs s).

Definition get_thread_by_name s (n : string) : option T * sys T R G E :=
  (default None (g_all_threads_name s !! n),
   Sys (g_all_threads_id s) (map_insert n None (g_all_threads_name s)) (descs s) (procs s) (glob s) (outs s)).
(** The parameter is an [int]. *)
Definition get_thread_by_id s (id : Z) : option T * sys T R G E :=
  (default None (g_all_threads_id s !! s32 id),
   Sys (map_insert (s32 id) None (g_all_threads_id s)) (g_all_threads_name s) (descs s) (procs s) (glob s) (outs s)).

(** ** The operations *)

(** [nst_create]: a descriptor whose thread still runs must not be used again. *)
Definition nst_create s t (r : R) : outcome (sys T R G E) :=
  match procs s t with
  | Some _ => Stuck WildStore
  | None =>
      let d := descs s t in
      Done (set_proc (set_desc s t (NsThread (thread_id d) false (wait_this d))) t (Start r))
  end.

(** [pre_start_routine] up to the routine. *)
Definition pre_start_routine s t (r : R) : sys T R G E :=
  let d := descs s t in
  let s := set_desc s t (NsThread (s32 (pthread_self t)) (be_posted d) (wait_this d)) in
  set_proc (thread_insert s t) t (Call r).

(** [nst_destroy]: [pthread_join] waits for the thread's end. *)
Definition nst_destroy s t : outcome (sys T R G E) :=
  match procs s t with
  | Some Halt =>
      let s := thread_remove s t in
      Done (Sys (g_all_threads_id s) (g_all_threads_name s) (descs s) (<[t := None]> (procs s)) (glob s) (outs s))
  | _ => Stuck Deadlock
  end.

(** [nst_wait_by_name]: the lookups and the first clearing of be_posted. *)
Definition nst_wait_by_name s p (wait : string) k : outcome (sys T R G E) :=
  let '(curthread, s) := get_thread_by_id s (pthread_self p) in
  let '(waitthread, s) := get_thread_by_name s wait in
  match curthread, waitthread with
  | Some cur, Some w => Done (set_proc (set_posted s cur false) p (Enlist cur w k))
  | _, _ => Stuck NullDeref
  end.
(** The test of the loop: on to the end, or to sleep. *)
Definition wait_test s p (cur w : T) k : sys T R G E :=
  set_proc s p (if be_posted (descs s cur) then Leave cur k else Sleep cur w false k).
Definition wait_enlist s p (cur w : T) k : sys T R G E :=
  wait_test (set_waiters s w (map_insert (name cur) cur (wait_this (descs s w)))) p cur w k.

(** [pthread_cond_broadcast] on the condition of [w]. *)
Definition wake (w : T) (c : option (code T R G E)) : option (code T R G E) :=
  match c with
  | Some (Sleep cur w' _ k) => if decide (w' = w) then Some (Sleep cur w' true k) else c
  | _ => c
  end.
Definition broadcast s w : sys T R G E :=
  Sys (g_all_threads_id s) (g_all_threads_name s) (descs s) (fun q => wake w (procs s q)) (glob s) (outs s).

(** [nst_post_by_name] *)
Definition nst_post_by_name s p (n : string) : outcome (sys T R G E) :=
  let '(curthread, s) := get_thread_by_id s (pthread_self p) in
  match curthread with
  | None => Stuck NullDeref
  | Some cur =>
      match wait_this (descs s cur) !! n with
      | Some postthread =>
          let s := set_waiters s cur (delete n (wait_this (descs s cur))) in
          Done (broadcast (set_posted s postthread true) cur)
      | None => Done s
      end
  end.

(** ** Steps *)

(** One step of thread [p]; [Stuck Deadlock] is a thread that has to wait. *)
Definition exec s p : outcome (sys T R G E) :=
  if exited (glob s) then Stuck Deadlock else
  match procs s p with
  | None | Some Halt | Some (Sleep _ _ false _) => Stuck Deadlock
  | Some (Op f k1 k0) =>
      r ← f (glob s);
      let '(b, g, es) := r in
      Done (Sys (g_all_threads_id s) (g_all_threads_name s) (descs s)
              (<[p := Some (if b : bool then k1 else k0)]> (procs s)) g (outs s ++ es))
  | Some (Until b k) => if b (glob s) then Done (set_proc s p k) else Done s
  | Some Forever => Done s
  | Some (Call r) =>
      x ← body r (glob s);
      let '(c, g) := x in
      Done (Sys (g_all_threads_id s) (g_all_threads_name s) (descs s) (<[p := Some c]> (procs s)) g (outs s))
  | Some (Create t r k) => s ← nst_create s t r; Done (set_proc s p k)
  | Some (Destroy t k) => s ← nst_destroy s t; Done (set_proc s p k)
  | Some (Wait n k) => nst_wait_by_name s p n k
  | Some (Post n k) => s ← nst_post_by_name s p n; Done (set_proc s p k)
  | Some (Start r) => Done (pre_start_routine s p r)
  | Some (Enlist cur w k) => Done (wait_enlist s p cur w k)
  | Some (Sleep cur w true k) => Done (wait_test s p cur w k)
  | Some (Leave cur k) => Done (set_proc (set_posted s cur false) p k)
  end.

Inductive step : relation (sys T R G E) :=
| step_exec s s' p : exec s p = Done s' -> step s s'
| step_spurious s p cur w k : procs s p = Some (Sleep cur w false k) ->
    step s (set_proc s p (Sleep cur w true k)).

(** ** The invariant *)

(** A program as it is written: none of the places inside the library. *)
Fixpoint plain c : Prop :=
  match c with
  | Halt | Forever | Call _ => True
  | Op _ k1 k0 => plain k1 /\ plain k0
  | Until _ k | Create _ _ k | Destroy _ k | Wait _ k | Post _ k => plain k
  | Start _ | Enlist _ _ _ | Sleep _ _ _ _ | Leave _ _ => False
  end.

Definition asleep c : Prop := match c with Sleep _ _ _ _ => True | _ => False end.

(** The code of thread [p]: inside the library it works on its own descriptor,
    which is not posted before it is listed. *)
Definition code_ok s p c : Prop :=
  match c with
  | Start _ => True
  | Enlist cur _ k => cur = p /\ plain k /\ be_posted (descs s p) = false
  | Sleep cur _ sig k => cur = p /\ plain k /\ (be_posted (descs s p) = true -> sig = true)
  | Leave cur k => cur = p /\ plain k
  | _ => plain c
  end.

(** The lists of waiting threads hold exactly the threads asleep and not yet
    posted, each under its own name; a posted one has been signalled. *)
Record wait_ok s : Prop := {
  wo_id id t : g_all_threads_id s !! id = Some (Some t) -> id = s32 (pthread_self t);
  wo_code p c : procs s p = Some c -> code_ok s p c;
  wo_list w n q : wait_this (descs s w) !! n = Some q ->
    n = name q /\ be_posted (descs s q) = false /\ exists sig k, procs s q = Some (Sleep q w sig k);
  wo_sleep p w sig k : procs s p = Some (Sleep p w sig k) -> be_posted (descs s p) = false ->
    wait_this (descs s w) !! name p = Some p
}.

Context (name_inj : forall p q, name p = name q -> p = q).
Context (self_inj : forall p q, s32 (pthread_self p) = s32 (pthread_self q) -> p = q).
Context (body_plain : forall r g c g', body r g = Done (c, g') -> plain c).

Lemma plain_code_ok s p c : plain c -> code_ok s p c.
Proof. by destruct c. Qed.

Lemma plain_awake c : plain c -> ~ asleep c.
Proof. intros Hp Ha. by destruct c. Qed.

(** A thread that is not asleep goes on to other code. *)
Lemma set_proc_ok s p c c' :
  wait_ok s -> procs s p = Some c -> ~ asleep c -> ~ asleep c' -> code_ok s p c' -> wait_ok (set_proc s p c').
Proof.
  intros [Hid Hc Hl Hs] Hp Hn Hn' Hok. split; cbn [g_all_threads_id descs procs set_proc]; [done| | |].
  - intros q c1. destruct (decide (q = p)) as [->|Hne].
    + rewrite fn_lookup_insert. by intros [= <-].
    + rewrite fn_lookup_insert_ne by done. apply Hc.
  - intros w n q Hw. destruct (Hl w n q Hw) as (-> & Hb & sig & k & Hq). split; [done|]. split; [done|].
    exists sig, k. rewrite fn_lookup_insert_ne; [done|]. intros ->. rewrite Hp in Hq. by simplify_eq.
  - intros q w sig k. destruct (decide (q = p)) as [->|Hne].
    + rewrite fn_lookup_insert. intros [= ->]. by destruct Hn'.
    + rewrite fn_lookup_insert_ne by done. intros Hq. by eapply Hs.
Qed.

(** be_posted of a thread that is neither asleep nor about to be. *)
Lemma set_desc_ok s p d :
  wait_ok s -> (forall c, procs s p = Some c -> ~ asleep c) -> wait_this d = wait_this (descs s p) ->
  be_posted d = false -> wait_ok (set_desc s p d).
Proof.
  intros [Hid Hc Hl Hs] Hp Hw Hb.
  assert (forall q, wait_this (<[p := d]> (descs s) q) = wait_this (descs s q)) as Ew.
  { intros q. destruct (decide (q = p)) as [->|Hne]; [by rewrite fn_lookup_insert|by rewrite fn_lookup_insert_ne]. }
  split; cbn [g_all_threads_id descs procs set_desc]; [done| | |].
  - intros q c Hq. specialize (Hc q c Hq). destruct (decide (q = p)) as [->|Hne].
    + destruct c; cbn in *; rewrite ?fn_lookup_insert; try done; [tauto|].
      by destruct (Hp _ Hq).
    + destruct c; cbn in *; rewrite ?fn_lookup_insert_ne by done; done.
  - intros w n q. rewrite Ew. intros Hwn. destruct (Hl w n q Hwn) as (-> & Hbq & sig & k & Hq).
    assert (q <> p) as Hne by (intros ->; by destruct (Hp _ Hq)).
    rewrite fn_lookup_insert_ne by done. eauto.
  - intros q w sig k Hq. rewrite Ew. assert (q <> p) as Hne by (intros ->; by destruct (Hp _ Hq)).
    rewrite fn_lookup_insert_ne by done. by eapply Hs.
Qed.

(** Only the registry of ids, the descriptors and the programs matter. *)
Lemma wait_ok_ext s s' :
  wait_ok s -> descs s' = descs s -> procs s' = procs s ->
  (forall id t, g_all_threads_id s' !! id = Some (Some t) ->
     g_all_threads_id s !! id = Some (Some t) \/ id = s32 (pthread_self t)) ->
  wait_ok s'.
Proof.
  intros [Hid Hc Hl Hs] Ed Ep Ei. split.
  - intros id t H. destruct (Ei id t H) as [H'|]; [by apply Hid|done].
  - intros p c. rewrite Ep. intros H. specialize (Hc p c H). unfold code_ok in *. by rewrite Ed.
  - intros w n q. rewrite Ed, Ep. apply Hl.
  - intros p w sig k. rewrite Ed, Ep. intros Hq. by eapply Hs.
Qed.

Lemma map_insert_Some `{Countable K} {A} (key : K) (v : A) m key' v' :
  map_insert key v m !! key' = Some v' -> m !! key' = Some v' \/ (key' = key /\ v' = v).
Proof.
  unfold map_insert. destruct (m !! key) eqn:Em; [by left|].
  destruct (decide (key' = key)) as [->|Hne].
  - rewrite lookup_insert_eq. intros [= ->]. by right.
  - rewrite lookup_insert_ne by done. by left.
Qed.

Lemma get_by_id_ok s p cur s' :
  wait_ok s -> get_thread_by_id s (pthread_self p) = (Some cur, s') ->
  cur = p /\ wait_ok s' /\ descs s' = descs s /\ procs s' = procs s.
Proof.
  intros Hok [= Ec <-]. assert (cur = p) as ->.
  { apply self_inj. destruct (g_all_threads_id s !! s32 (pthread_self p)) as [o|] eqn:Eo; [|done].
    cbn in Ec. subst o. symmetry. by apply (wo_id _ Hok). }
  split; [done|]. split; [|done]. eapply wait_ok_ext; [done..|]. intros id t H.
  apply map_insert_Some in H as [H|[_ [=]]]. by left.
Qed.

Lemma nst_create_ok s t r s' : wait_ok s -> nst_create s t r = Done s' -> wait_ok s'.
Proof.
  intros Hok. unfold nst_create. destruct (procs s t) eqn:Et; [done|]. intros [= <-].
  assert (wait_ok (set_desc s t (NsThread (thread_id (descs s t)) false (wait_this (descs s t))))) as [Hid Hc Hl Hs].
  { apply set_desc_ok; [done| |done|done]. intros c. by rewrite Et. }
  split; cbn [g_all_threads_id descs procs set_proc] in *; [done| | |].
  - intros q c. destruct (decide (q = t)) as [->|Hne].
    + rewrite fn_lookup_insert. by intros [= <-].
    + rewrite fn_lookup_insert_ne by done. apply Hc.
  - intros w n q Hw. destruct (Hl w n q Hw) as (-> & Hb & sig & k & Hq). split; [done|]. split; [done|].
    exists sig, k. cbn in Hq. rewrite fn_lookup_insert_ne; [done|]. intros ->. congruence.
  - intros q w sig k. destruct (decide (q = t)) as [->|Hne]; [by rewrite fn_lookup_insert|].
    rewrite fn_lookup_insert_ne by done. intros Hq. by eapply Hs.
Qed.

Lemma nst_destroy_ok s t s' : wait_ok s -> nst_destroy s t = Done s' -> wait_ok s'.
Proof.
  intros [Hid Hc Hl Hs]. unfold nst_destroy. destruct (procs s t) as [[]|] eqn:Et; try done. intros [= <-].
  split; cbn [g_all_threads_id descs procs thread_remove].
  - intros id q. intros [_ H]%lookup_delete_Some. by apply Hid.
  - intros q c. destruct (decide (q = t)) as [->|Hne]; [by rewrite fn_lookup_insert|].
    rewrite fn_lookup_insert_ne by done. apply Hc.
  - intros w n q Hw. destruct (Hl w n q Hw) as (-> & Hb & sig & k & Hq). split; [done|]. split; [done|].
    exists sig, k. rewrite fn_lookup_insert_ne; [done|]. intros ->. congruence.
  - intros q w sig k. destruct (decide (q = t)) as [->|Hne]; [by rewrite fn_lookup_insert|].
    rewrite fn_lookup_insert_ne by done. intros Hq. by eapply Hs.
Qed.

Lemma pre_start_ok s t r r0 : wait_ok s -> procs s t = Some (Start r0) -> wait_ok (pre_start_routine s t r).
Proof.
  intros Hok Ht. unfold pre_start_routine. set (s1 := set_desc s t _).
  assert (wait_ok s1) as Hok1.
  { destruct Hok as [Hid Hc Hl Hs].
    assert (forall q, be_posted (descs s1 q) = be_posted (descs s q) /\ wait_this (descs s1 q) = wait_this (descs s q)) as Ed.
    { intros q. unfold s1. cbn. destruct (decide (q = t)) as [->|Hne]; [by rewrite fn_lookup_insert|by rewrite fn_lookup_insert_ne]. }
    split; [done| | |].
    - intros q c Hq. specialize (Hc q c Hq). unfold code_ok in *. by rewrite (proj1 (Ed q)).
    - intros w n q. rewrite (proj2 (Ed w)), (proj1 (Ed q)). apply Hl.
    - intros q w sig k. rewrite (proj1 (Ed q)), (proj2 (Ed w)). intros Hq. by eapply Hs. }
  assert (wait_ok (thread_insert s1 t)) as Hok2.
  { eapply wait_ok_ext; [exact Hok1|done..|]. intros id q H. apply map_insert_Some in H as [H|[-> [= ->]]]; [by left|right].
    unfold s1. cbn. by rewrite fn_lookup_insert. }
  eapply set_proc_ok; [exact Hok2|exact Ht|by intros []|by intros []|done].
Qed.

Lemma nst_wait_ok s p n k s' :
  wait_ok s -> procs s p = Some (Wait n k) -> nst_wait_by_name s p n k = Done s' -> wait_ok s'.
Proof.
  intros Hok Hp. unfold nst_wait_by_name. destruct (get_thread_by_id s (pthread_self p)) as [[cur|] s1] eqn:E1.
  2:{ by destruct (get_thread_by_name s1 n). }
  destruct (get_by_id_ok s p cur s1 Hok E1) as (-> & Hok1 & _ & Ep).
  destruct (get_thread_by_name s1 n) as [[w|] s2] eqn:E2; [|done]. intros [= <-].
  assert (wait_ok s2 /\ procs s2 p = Some (Wait n k)) as [Hok2 Hp2].
  { revert E2. intros [= _ <-]. split; [|by rewrite <- Hp, <- Ep].
    eapply wait_ok_ext; [exact Hok1|done..|]. intros id t H. by left. }
  assert (forall c, procs s2 p = Some c -> ~ asleep c) as Hna by (intros c Hc; rewrite Hp2 in Hc; injection Hc as <-; by intros []).
  eapply (set_proc_ok (set_posted s2 p false)).
  - by apply set_desc_ok.
  - exact Hp2.
  - by intros [].
  - by intros [].
  - assert (plain k) as Hk by (apply (wo_code _ Hok _ _ Hp)). cbn. by rewrite fn_lookup_insert.
Qed.

Lemma wait_enlist_ok s p cur w k :
  wait_ok s -> procs s p = Some (Enlist cur w k) -> wait_ok (wait_enlist s p cur w k).
Proof.
  intros Hok Hp. pose proof (wo_code _ Hok _ _ Hp) as (-> & Hk & Hb). destruct Hok as [Hid Hc Hl Hs].
  assert (wait_this (descs s w) !! name p = None) as Hfresh.
  { destruct (wait_this (descs s w) !! name p) as [q|] eqn:Hq; [|done]. exfalso.
    destruct (Hl w _ q Hq) as (En & _ & sig & k' & Hq'). apply name_inj in En as <-. congruence. }
  unfold wait_enlist, wait_test. unfold map_insert. rewrite Hfresh.
  set (s1 := set_waiters s w _).
  assert (forall q, be_posted (descs s1 q) = be_posted (descs s q)) as Eb.
  { intros q. unfold s1. cbn. destruct (decide (q = w)) as [->|Hne]; [by rewrite fn_lookup_insert|by rewrite fn_lookup_insert_ne]. }
  assert (forall w', wait_this (descs s1 w') = if decide (w' = w) then <[name p := p]> (wait_this (descs s w)) else wait_this (descs s w')) as Ew.
  { intros w'. unfold s1. cbn. destruct (decide (w' = w)) as [->|Hne]; [by rewrite fn_lookup_insert|by rewrite fn_lookup_insert_ne]. }
  rewrite Eb, Hb. split; cbn [g_all_threads_id descs procs set_proc]; [done| | |].
  - intros q c. destruct (decide (q = p)) as [->|Hne].
    + rewrite fn_lookup_insert. intros [= <-]. split; [done|]. split; [done|].
      intros Hb'. change (be_posted (descs s1 p) = true) in Hb'. by rewrite Eb, Hb in Hb'.
    + rewrite fn_lookup_insert_ne by done. intros Hq. specialize (Hc q c Hq).
      destruct c; cbn [code_ok] in *; try done; change (descs (set_proc s1 p _)) with (descs s1); by rewrite Eb.
  - intros w' n q. rewrite Ew, Eb. intros Hn.
    assert (w' = w /\ n = name p /\ q = p \/ q <> p /\ wait_this (descs s w') !! n = Some q) as [(-> & -> & ->)|[Hne Hq]].
    { destruct (decide (w' = w)) as [->|]; [|right; split; [|done]].
      - apply lookup_insert_Some in Hn as [[<- <-]|[Hnn Hn]]; [by left|right]. split; [|done].
        intros ->. destruct (Hl w n p Hn) as (-> & _). done.
      - intros ->. destruct (Hl w' n p Hn) as (_ & _ & ? & ? & ?). congruence. }
    + split; [done|]. split; [done|]. eexists _, _. by rewrite fn_lookup_insert.
    + destruct (Hl w' n q Hq) as (-> & Hbq & sig & k' & Hq'). split; [done|]. split; [done|].
      exists sig, k'. by rewrite fn_lookup_insert_ne.
  - intros q w' sig k'. rewrite Eb, Ew. destruct (decide (q = p)) as [->|Hne].
    + rewrite fn_lookup_insert. intros [= <- <- <-] _. rewrite decide_True by done. apply lookup_insert_eq.
    + rewrite fn_lookup_insert_ne by done. intros Hq Hbq. specialize (Hs q w' sig k' Hq Hbq).
      destruct (decide (w' = w)) as [->|]; [|done]. rewrite lookup_insert_ne; [done|].
      intros En. by apply name_inj in En.
Qed.

Lemma wait_test_ok s p cur w k :
  wait_ok s -> procs s p = Some (Sleep cur w true k) -> wait_ok (wait_test s p cur w k).
Proof.
  intros Hok Hp. pose proof (wo_code _ Hok _ _ Hp) as (-> & Hk & _). destruct Hok as [Hid Hc Hl Hs].
  unfold wait_test. split; cbn [g_all_threads_id descs procs set_proc]; [done| | |].
  - intros q c. destruct (decide (q = p)) as [->|Hne].
    + rewrite fn_lookup_insert. intros [= <-]. destruct (be_posted (descs s p)) eqn:Eb; cbn; [done|]. by rewrite Eb.
    + rewrite fn_lookup_insert_ne by done. apply Hc.
  - intros w' n q Hn. destruct (Hl w' n q Hn) as (-> & Hb & sig & k' & Hq). split; [done|]. split; [done|].
    destruct (decide (q = p)) as [->|Hne].
    + rewrite fn_lookup_insert, Hb. rewrite Hp in Hq. injection Hq as <- _ _. eauto.
    + rewrite fn_lookup_insert_ne by done. eauto.
  - intros q w' sig k'. destruct (decide (q = p)) as [->|Hne].
    + rewrite fn_lookup_insert. destruct (be_posted (descs s p)) eqn:Eb; [done|]. intros [= <- <- <-] _. by eapply Hs.
    + rewrite fn_lookup_insert_ne by done. intros Hq. by eapply Hs.
Qed.

Lemma wake_other w (o : option (code T R G E)) c' : wake w o = Some c' -> ~ asleep c' -> o = Some c'.
Proof.
  intros Hc Hn. destruct o as [[]|]; cbn in Hc; try done. destruct (decide _); [|done]. injection Hc as <-. by destruct Hn.
Qed.
Lemma wake_sleep w (o : option (code T R G E)) cur w' sig k :
  wake w o = Some (Sleep cur w' sig k) ->
  exists sig0, o = Some (Sleep cur w' sig0 k) /\ (sig0 = true -> sig = true) /\ (w' = w -> sig = true) .
Proof.
  intros Hc. destruct o as [[]|]; cbn in Hc; try done. destruct (decide _) as [->|Hne].
  - injection Hc as -> -> <- ->. eauto.
  - injection Hc as -> -> -> ->. eexists. split; [done|]. split; [done|]. intros ->. done.
Qed.
Lemma wake_asleep w q w' sig k : exists sig', wake w (Some (Sleep q w' sig k)) = Some (Sleep q w' sig' k).
Proof. cbn. destruct (decide _); eauto. Qed.

(** A post that finds the name in the list of its own thread: that thread alone
    is taken off and posted, and everybody asleep on the poster is signalled. *)
Lemma post_found_ok s p q n :
  wait_ok s -> wait_this (descs s p) !! n = Some q ->
  wait_ok (broadcast (set_posted (set_waiters s p (delete n (wait_this (descs s p)))) q true) p).
Proof.
  intros [Hid Hc Hl Hs] Hq. destruct (Hl p n q Hq) as (-> & Hbq & sig0 & k0 & Hpq).
  set (s1 := set_posted _ q true).
  assert (forall x, be_posted (descs s1 x) = if decide (x = q) then true else be_posted (descs s x)) as Eb.
  { intros x. unfold s1, set_posted, set_waiters. cbn. destruct (decide (x = q)) as [->|Hne]; [by rewrite fn_lookup_insert|].
    rewrite fn_lookup_insert_ne by done. destruct (decide (x = p)) as [->|Hxp]; [by rewrite fn_lookup_insert|by rewrite fn_lookup_insert_ne]. }
  assert (forall x, wait_this (descs s1 x) = if decide (x = p) then delete (name q) (wait_this (descs s p)) else wait_this (descs s x)) as Ew.
  { assert (forall x, wait_this (descs (set_waiters s p (delete (name q) (wait_this (descs s p)))) x) =
      if decide (x = p) then delete (name q) (wait_this (descs s p)) else wait_this (descs s x)) as E1.
    { intros x. cbn. destruct (decide (x = p)) as [->|Hxp]; [by rewrite fn_lookup_insert|by rewrite fn_lookup_insert_ne]. }
    intros x. rewrite <- E1. unfold s1, set_posted. cbn. destruct (decide (x = q)) as [->|Hne]; [by rewrite fn_lookup_insert|by rewrite fn_lookup_insert_ne]. }
  change (procs s1) with (procs s) in *.
  assert (forall x n' q', wait_this (descs s1 x) !! n' = Some q' -> wait_this (descs s x) !! n' = Some q' /\ q' <> q) as Hlist.
  { intros x n' q'. rewrite Ew. destruct (decide (x = p)) as [->|Hxp].
    - intros [Hn Hx]%lookup_delete_Some. split; [done|]. intros ->. by destruct (Hl p n' q Hx) as (-> & _).
    - intros Hx. split; [done|]. intros ->. destruct (Hl x n' q Hx) as (_ & _ & ? & ? & ?). congruence. }
  split; cbn [g_all_threads_id descs procs broadcast]; [done| | |].
  - intros x c Hx. change (procs s1 x) with (procs s x) in Hx.
    destruct c as [| | | | | | | | | |cur w k|cur w sig k|cur k];
      try (apply wake_other in Hx; [|by intros []]; specialize (Hc x _ Hx); exact Hc).
    + apply wake_other in Hx; [|by intros []]. destruct (Hc x _ Hx) as (-> & Hk & Hb). split; [done|]. split; [done|].
      change (be_posted (descs s1 x) = false). rewrite Eb, decide_False; [done|]. intros ->. congruence.
    + apply wake_sleep in Hx as (sig1 & Hx & Hs1 & Hs2). destruct (Hc x _ Hx) as (-> & Hk & Hb). split; [done|]. split; [done|].
      change (be_posted (descs s1 x) = true -> sig = true). rewrite Eb. destruct (decide (x = q)) as [->|]; [|auto].
      intros _. apply Hs2. congruence.
  - intros w n' q' Hw. destruct (Hlist w n' q' Hw) as [Hw' Hne]. destruct (Hl w n' q' Hw') as (-> & Hb & sig & k & Hp').
    split; [done|]. split; [by rewrite Eb, decide_False|]. change (procs s1 q') with (procs s q'). rewrite Hp'.
    destruct (wake_asleep p q' w sig k) as [sig' E1]. eauto.
  - intros x w sig k Hx Hb. change (procs s1 x) with (procs s x) in Hx. apply wake_sleep in Hx as (sig1 & Hx & _).
    rewrite Eb in Hb. destruct (decide (x = q)) as [|Hne]; [done|]. specialize (Hs x w sig1 k Hx Hb).
    rewrite Ew. destruct (decide (w = p)) as [->|]; [|done]. rewrite lookup_delete_ne; [done|]. intros En. by apply name_inj in En.
Qed.

(** Either nothing, or the post above. *)
Lemma nst_post_cases s p n s' :
  wait_ok s -> nst_post_by_name s p n = Done s' ->
  exists s1, wait_ok s1 /\ descs s1 = descs s /\ procs s1 = procs s /\
    (wait_this (descs s p) !! n = None /\ s' = s1 \/
     exists q, wait_this (descs s p) !! n = Some q /\
       s' = broadcast (set_posted (set_waiters s1 p (delete n (wait_this (descs s1 p)))) q true) p).
Proof.
  intros Hok. unfold nst_post_by_name. destruct (get_thread_by_id s (pthread_self p)) as [[cur|] s1] eqn:E1; [|done].
  destruct (get_by_id_ok s p cur s1 Hok E1) as (-> & Hok1 & Ed & Ep). rewrite Ed.
  destruct (wait_this (descs s p) !! n) as [q|] eqn:Eq; intros [= <-].
  - exists s1. do 3 (split; [done|]). right. exists q. by rewrite Ed.
  - exists s1. do 3 (split; [done|]). by left.
Qed.

Lemma nst_post_ok s p n s' : wait_ok s -> nst_post_by_name s p n = Done s' ->
  wait_ok s' /\ (forall x c, procs s x = Some c -> ~ asleep c -> procs s' x = Some c).
Proof.
  intros Hok H. destruct (nst_post_cases s p n s' Hok H) as (s1 & Hok1 & Ed & Ep & [[_ ->]|(q & Hq & ->)]).
  - split; [done|]. intros x c. by rewrite Ep.
  - split; [apply post_found_ok; [done|by rewrite Ed]|]. intros x c Hx Hn. cbn. rewrite Ep, Hx. by destruct c.
Qed.

Lemma exec_ok s p s' : wait_ok s -> exec s p = Done s' -> wait_ok s'.
Proof.
  intros Hok. unfold exec. destruct (exited (glob s)); [done|]. destruct (procs s p) as [c|] eqn:Hp; [|done].
  pose proof (wo_code _ Hok _ _ Hp) as Hc.
  destruct c as [|f k1 k0|b k| |r|t r k|t k|n k|n k|r|cur w k|cur w [] k|cur k]; cbn [code_ok plain] in Hc; try done.
  - intros ([[b g] es] & _ & [= <-])%outcome_bind_Done.
    eapply wait_ok_ext; [eapply (set_proc_ok s p _ (if b then k1 else k0) Hok Hp)|done..|by left].
    + by intros [].
    + apply plain_awake. destruct b; apply Hc.
    + apply plain_code_ok. destruct b; apply Hc.
  - destruct (b (glob s)); intros [= <-]; [|done]. eapply set_proc_ok; [done|exact Hp|by intros []| |by apply plain_code_ok].
    by apply plain_awake.
  - by intros [= <-].
  - intros ([c g] & Hb%body_plain & [= <-])%outcome_bind_Done.
    eapply wait_ok_ext; [eapply (set_proc_ok s p _ c Hok Hp)|done..|by left]; [by intros []|by apply plain_awake, Hb|by apply plain_code_ok].
  - intros (s1 & H1 & [= <-])%outcome_bind_Done. pose proof (nst_create_ok _ _ _ _ Hok H1) as Hok1.
    eapply (set_proc_ok _ _ (Create t r k)); [done| |by intros []|by apply plain_awake|by apply plain_code_ok].
    unfold nst_create in H1. destruct (procs s t) eqn:Et; [done|]. injection H1 as <-. cbn.
    rewrite fn_lookup_insert_ne; [exact Hp|]. intros ->. congruence.
  - intros (s1 & H1 & [= <-])%outcome_bind_Done. pose proof (nst_destroy_ok _ _ _ Hok H1) as Hok1.
    eapply (set_proc_ok _ _ (Destroy t k)); [done| |by intros []|by apply plain_awake|by apply plain_code_ok].
    unfold nst_destroy in H1. destruct (procs s t) as [[]|] eqn:Et; try done. injection H1 as <-. cbn.
    rewrite fn_lookup_insert_ne; [exact Hp|]. intros ->. congruence.
  - by apply nst_wait_ok.
  - intros (s1 & H1 & [= <-])%outcome_bind_Done. destruct (nst_post_ok _ _ _ _ Hok H1) as [Hok1 Hpr].
    eapply set_proc_ok; [done|by apply Hpr; [exact Hp|intros []]|by intros []|by apply plain_awake|by apply plain_code_ok].
  - intros [= <-]. by eapply pre_start_ok.
  - intros [= <-]. by apply wait_enlist_ok.
  - intros [= <-]. by apply wait_test_ok.
  - intros [= <-]. destruct Hc as [-> Hk].
    eapply (set_proc_ok (set_posted s p false)); [|exact Hp|by intros []|by apply plain_awake|by apply plain_code_ok].
    apply set_desc_ok; [done| |done|done]. intros c. rewrite Hp. intros [= <-]. by intros [].
Qed.

Lemma spurious_ok s p cur w k :
  wait_ok s -> procs s p = Some (Sleep cur w false k) -> wait_ok (set_proc s p (Sleep cur w true k)).
Proof.
  intros Hok Hp. pose proof (wo_code _ Hok _ _ Hp) as (-> & Hk & _). destruct Hok as [Hid Hc Hl Hs].
  split; cbn [g_all_threads_id descs procs set_proc]; [done| | |].
  - intros q c. destruct (decide (q = p)) as [->|Hne].
    + rewrite fn_lookup_insert. by intros [= <-].
    + rewrite fn_lookup_insert_ne by done. apply Hc.
  - intros w' n q Hn. destruct (Hl w' n q Hn) as (-> & Hb & sig & k' & Hq). split; [done|]. split; [done|].
    destruct (decide (q = p)) as [->|Hne].
    + rewrite fn_lookup_insert. rewrite Hp in Hq. injection Hq as <- _ _. eauto.
    + rewrite fn_lookup_insert_ne by done. eauto.
  - intros q w' sig k'. destruct (decide (q = p)) as [->|Hne].
    + rewrite fn_lookup_insert. intros [= <- <- <-]. by eapply Hs.
    + rewrite fn_lookup_insert_ne by done. intros Hq. by eapply Hs.
Qed.

Lemma step_ok s s' : wait_ok s -> step s s' -> wait_ok s'.
Proof. intros Hok H. revert Hok. destruct H as [s1 s2 p H|s1 p cur w k H]; intros Hok; [by eapply exec_ok|by eapply spurious_ok]. Qed.

Lemma steps_ok s s' : wait_ok s -> rtc step s s' -> wait_ok s'.
Proof. intros Hok H. induction H as [|s1 s2 s3 Hs _ IH]; [done|]. by apply IH, (step_ok s1). Qed.

(** Before the program runs: nobody registered or listed, and [main] at the
    start of its code. *)
Definition init_sys (main : T) c (g : G) : sys T R G E :=
  Sys ∅ ∅ (fun _ => NsThread 0 false ∅) (fun t => if decide (t = main) then Some c else None) g [].

Lemma init_ok main c g : plain c -> wait_ok (init_sys main c g).
Proof.
  intros Hc. split; cbn; [done| |done|].
  - intros p c'. destruct (decide (p = main)); [|done]. intros [= <-]. by apply plain_code_ok.
  - intros p w sig k. destruct (decide (p = main)); [|done]. by intros [= ->].
Qed.

Lemma exec_post s w n k p s' :
  wait_ok s -> procs s w = Some (Post n k) -> wait_this (descs s w) !! n = Some p -> exec s w = Done s' ->
  exists k', procs s' p = Some (Sleep p w true k') /\ be_posted (descs s' p) = true.
Proof.
  intros Hok Hw Hp. unfold exec. destruct (exited (glob s)); [done|]. rewrite Hw. intros (s1 & H1 & [= <-])%outcome_bind_Done.
  destruct (nst_post_cases s w n s1 Hok H1) as (s2 & _ & Ed & Ep & [[Hn _]|(q & Hq & ->)]); [congruence|].
  rewrite Hp in Hq. injection Hq as <-. destruct (wo_list _ Hok _ _ _ Hp) as (-> & _ & sig & k' & Hpp).
  exists k'. assert (p <> w) as Hne by (intros ->; congruence). cbn. rewrite fn_lookup_insert_ne by done.
  rewrite Ep, Hpp. cbn. rewrite decide_True by done. split; [done|]. by rewrite fn_lookup_insert.
Qed.

(** C19: Waiting and posting.  In every run a thread asleep in nst_wait_by_name is
    either on the list of the thread it waits for, under its own name, so that a
    post of that thread to it marks and signals it; or it has been posted, and
    then it is signalled and its next step leaves the wait.  Everybody on a list
    is asleep there: a post wakes nobody else. *)
Theorem wait_post_correct main c g s :
  plain c -> rtc step (init_sys main c g) s ->
  (forall p w sig k, procs s p = Some (Sleep p w sig k) ->
     if be_posted (descs s p) then
       sig = true /\ (exited (glob s) = false -> exists s', exec s p = Done s' /\ procs s' p = Some (Leave p k))
     else
       wait_this (descs s w) !! name p = Some p /\
       forall kw s', procs s w = Some (Post (name p) kw) -> exec s w = Done s' ->
         exists k', procs s' p = Some (Sleep p w true k') /\ be_posted (descs s' p) = true) /\
  (forall w n p, wait_this (descs s w) !! n = Some p ->
     n = name p /\ exists sig k, procs s p = Some (Sleep p w sig k)).
Proof.
  intros Hc Hr. pose proof (steps_ok _ _ (init_ok main c g Hc) Hr) as Hok. split.
  - intros p w sig k Hp. destruct (be_posted (descs s p)) eqn:Eb.
    + pose proof (wo_code _ Hok _ _ Hp) as (_ & _ & Hs). specialize (Hs Eb) as ->. split; [done|].
      intros Hx. eexists. unfold exec. rewrite Hx, Hp. split; [done|]. unfold wait_test. rewrite Eb. cbn. by rewrite fn_lookup_insert.
    + pose proof (wo_sleep _ Hok _ _ _ _ Hp Eb) as Hl. split; [done|]. intros kw s' Hw He. by eapply exec_post.
  - intros w n p Hn. destruct (wo_list _ Hok _ _ _ Hn) as (-> & _ & H). done.
Qed.

(** ** Lemmas: what one step does *)

Definition put s p c (g : G) (es : list E) : sys T R G E :=
  Sys (g_all_threads_id s) (g_all_threads_name s) (descs s) (<[p := Some c]> (procs s)) g (outs s ++ es).

(** The thread is registered under its id and its name. *)
Definition registered s p : Prop :=
  g_all_threads_id s !! s32 (pthread_self p) = Some (Some p) /\ g_all_threads_name s !! name p = Some (Some p).

Section Rules.
Context s p (Hex : exited (glob s) = false).

Lemma exec_Op f k1 k0 b g es : procs s p = Some (Op f k1 k0) -> f (glob s) = Done (b, g, es) ->
  exec s p = Done (put s p (if b then k1 else k0) g es).
Proof. intros Hp Hf. unfold exec. by rewrite Hex, Hp, Hf. Qed.

Lemma exec_Call r c g : procs s p = Some (Call r) -> body r (glob s) = Done (c, g) ->
  exec s p = Done (Sys (g_all_threads_id s) (g_all_threads_name s) (descs s) (<[p := Some c]> (procs s)) g (outs s)).
Proof. intros Hp Hb. unfold exec. by rewrite Hex, Hp, Hb. Qed.

Lemma exec_Create t r k : procs s p = Some (Create t r k) -> procs s t = None ->
  exec s p = Done (set_proc (set_proc (set_desc s t (NsThread (thread_id (descs s t)) false (wait_this (descs s t))))
    t (Start r)) p k).
Proof. intros Hp Ht. unfold exec, nst_create. by rewrite Hex, Hp, Ht. Qed.

Lemma exec_Start r : procs s p = Some (Start r) -> exec s p = Done (pre_start_routine s p r).
Proof. intros Hp. unfold exec. by rewrite Hex, Hp. Qed.

Lemma get_self : registered s p -> get_thread_by_id s (pthread_self p) = (Some p, s).
Proof. intros [H _]. unfold get_thread_by_id, map_insert. rewrite H. by destruct s. Qed.

Lemma exec_Wait w k : procs s p = Some (Wait (name w) k) -> registered s p -> registered s w ->
  exec s p = Done (set_proc (set_posted s p false) p (Enlist p w k)).
Proof.
  intros Hp Hr [_ Hw]. unfold exec, nst_wait_by_name. rewrite Hex, Hp, (get_self Hr).
  unfold get_thread_by_name, map_insert. rewrite Hw. by destruct s.
Qed.

Lemma exec_Post n k : procs s p = Some (Post n k) -> registered s p ->
  exec s p = Done (set_proc (match wait_this (descs s p) !! n with
    | Some q => broadcast (set_posted (set_waiters s p (delete n (wait_this (descs s p)))) q true) p
    | None => s end) p k).
Proof.
  intros Hp Hr. unfold exec, nst_post_by_name. rewrite Hex, Hp, (get_self Hr).
  by destruct (wait_this (descs s p) !! n).
Qed.

Lemma exec_Enlist cur w k : procs s p = Some (Enlist cur w k) -> exec s p = Done (wait_enlist s p cur w k).
Proof. intros Hp. unfold exec. by rewrite Hex, Hp. Qed.
Lemma exec_Sleep cur w k : procs s p = Some (Sleep cur w true k) -> exec s p = Done (wait_test s p cur w k).
Proof. intros Hp. unfold exec. by rewrite Hex, Hp. Qed.
Lemma exec_Leave cur k : procs s p = Some (Leave cur k) -> exec s p = Done (set_proc (set_posted s cur false) p k).
Proof. intros Hp. unfold exec. by rewrite Hex, Hp. Qed.
End Rules.

(** ** Lemmas: what a step leaves alone *)

(** A step of [p] moves no other thread that runs, unless it is asleep on [p]. *)
Lemma exec_other s p s' t c0 :
  wait_ok s -> exec s p = Done s' -> procs s t = Some c0 -> c0 <> Halt -> (forall cur sig k, c0 <> Sleep cur p sig k) ->
  t <> p -> procs s' t = Some c0 /\ be_posted (descs s' t) = be_posted (descs s t).
Proof.
  intros Hok He Ht Hh Hw Hne. unfold exec in He. destruct (exited (glob s)); [done|].
  destruct (procs s p) as [c|] eqn:Hp; [|done]. pose proof (wo_code _ Hok _ _ Hp) as Hc.
  destruct c as [|f k1 k0|b k'| |r|t' r k'|t' k'|n k'|n k'|r|cur w' k'|cur w' [] k'|cur k']; try done.
  - apply outcome_bind_Done in He as ([[b g] es] & _ & [= <-]). cbn. by rewrite fn_lookup_insert_ne.
  - destruct (b (glob s)); injection He as <-; [|done]. cbn. by rewrite fn_lookup_insert_ne.
  - by injection He as <-.
  - apply outcome_bind_Done in He as ([c g] & _ & [= <-]). cbn. by rewrite fn_lookup_insert_ne.
  - apply outcome_bind_Done in He as (s1 & H1 & [= <-]). unfold nst_create in H1.
    destruct (procs s t') eqn:Et; [done|]. injection H1 as <-. assert (t <> t') by congruence.
    cbn. by rewrite !fn_lookup_insert_ne.
  - apply outcome_bind_Done in He as (s1 & H1 & [= <-]). unfold nst_destroy in H1.
    destruct (procs s t') as [[]|] eqn:Et; try done. injection H1 as <-. assert (t <> t') by congruence.
    cbn. by rewrite !fn_lookup_insert_ne.
  - unfold nst_wait_by_name in He. destruct (get_thread_by_id s (pthread_self p)) as [[cur|] s1] eqn:E1;
      [|by destruct (get_thread_by_name s1 n)].
    destruct (get_by_id_ok s p cur s1 Hok E1) as (-> & _ & Ed & Ep).
    destruct (get_thread_by_name s1 n) as [[w2|] s2] eqn:E2; [|done]. injection He as <-.
    injection E2 as _ <-. cbn. rewrite Ed, Ep. by rewrite !fn_lookup_insert_ne.
  - apply outcome_bind_Done in He as (s1 & H1 & [= <-]).
    destruct (nst_post_cases s p n s1 Hok H1) as (s2 & _ & Ed & Ep & [[_ ->]|(q & Hq & ->)]);
      cbn; rewrite Ed, Ep, fn_lookup_insert_ne, Ht by done; [done|].
    destruct (wo_list _ Hok _ _ _ Hq) as (_ & _ & sq & kq & Hpq). assert (t <> q) by congruence.
    rewrite !fn_lookup_insert_ne by done. split; [|done].
    destruct c0; try done. cbn. rewrite decide_False; [done|]. intros ->. by eapply Hw.
  - injection He as <-. cbn. by rewrite !fn_lookup_insert_ne.
  - injection He as <-. unfold wait_enlist, wait_test. cbn. rewrite fn_lookup_insert_ne by done. split; [done|].
    destruct (decide (t = w')) as [->|Hne']; [by rewrite fn_lookup_insert|by rewrite fn_lookup_insert_ne].
  - injection He as <-. cbn. by rewrite fn_lookup_insert_ne.
  - injection He as <-. destruct Hc as [-> _]. cbn. by rewrite !fn_lookup_insert_ne.
Qed.

End Threads.
