(* ===== verification/NetStack.v ===== *)
(** The threads of the user-space network stack: netstack/protocol/entry.cpp,
    netstack/main.cpp, and the distribute functions of netstack/protocol with
    their posts and waits.  The routines are programs of [NetThread] over the
    state the threads share; each stretch of a routine between two calls of the
    thread library is one step, except that sending a frame and recording that it
    was sent are two.  What libpcap does is a parameter: whether the device opens
    and what pcap_sendpacket answers; the frames it captures, the lines typed and
    the numbers rand gives are part of the state, consumed in order.  The datalock
    of udp.cpp has no state: the copy into the shared buffer is one step and the
    copy out of it another, and what a reader finds between that step and the post,
    where the writer still holds the lock, is what it would find behind the post. *)

From stdpp Require Import functions relations.
From S2P Require Import Prelude NetChecksum NetPacket NetRecv NetThread Printk.
#[local] Open Scope kernel_scope.

(** ** Data *)

Inductive thread := T_main | T_icmp_req | T_monitor | T_udp_recv | T_tcp_data_recv | T_tcp_connect.
#[export] Instance thread_eq_dec : EqDecision thread.
Proof. solve_decision. Defined.

(** The names given to [nst_create]; the main thread has no descriptor and
    neither waits nor posts. *)
Definition name_of (t : thread) : string :=
  match t with
  | T_main => EmptyString
  | T_icmp_req => "icmp_req_handle"%string
  | T_monitor => "monitor_handle"%string
  | T_udp_recv => "udp_recv_handle"%string
  | T_tcp_data_recv => "tcp_data_recv_handle"%string
  | T_tcp_connect => "tcp_connect_handle"%string
  end.

(** The start routines, pcap_loop and the loop of [main]. *)
Inductive routine :=
  icmp_req_handle | monitor_handle | pcap_loop | udp_recv_handle | tcp_data_recv_handle | tcp_connect_handle |
  input_loop.

(** What the threads share: g_inet_info, the buffer of [udp_recv_handle], and the
    outside world. *)
Record stack_t := Stack {
  g_inet_info : inet_info_t;
  udp_buf : list Z;
  captured : list (list Z);
  typed : list (list Z);
  rands : list Z;
  has_exited : bool
}.
Definition set_inet (i : inet_info_t) (g : stack_t) : stack_t :=
  Stack i (udp_buf g) (captured g) (typed g) (rands g) (has_exited g).
Definition set_udp_buf (b : list Z) (g : stack_t) : stack_t :=
  Stack (g_inet_info g) b (captured g) (typed g) (rands g) (has_exited g).
Definition set_captured (c : list (list Z)) (g : stack_t) : stack_t :=
  Stack (g_inet_info g) (udp_buf g) c (typed g) (rands g) (has_exited g).
Definition set_typed (l : list (list Z)) (g : stack_t) : stack_t :=
  Stack (g_inet_info g) (udp_buf g) (captured g) l (rands g) (has_exited g).
Definition set_rands (l : list Z) (g : stack_t) : stack_t :=
  Stack (g_inet_info g) (udp_buf g) (captured g) (typed g) l (has_exited g).
Definition set_exited (b : bool) (g : stack_t) : stack_t :=
  Stack (g_inet_info g) (udp_buf g) (captured g) (typed g) (rands g) b.

(** Frames handed to pcap_sendpacket, and what is printed. *)
Inductive event :=
| Sent (frame : list Z)
| Dumped (bytes : list Z)
| Text (text : list Z)
| PingResult (ok : bool)
| TcpStatus (s : tcp_state)
| Invalid.

Definition prog : Type := code thread routine stack_t event.
Definition system : Type := sys thread routine stack_t event.

(** A stretch that changes the state, one that tests it, and a read of a frame,
    whose bytes do not change. *)
Definition doing (f : stack_t -> outcome (stack_t * list event)) (k : prog) : prog :=
  Op (fun g => r ← f g; Done (true, r.1, r.2)) k Halt.
Definition testing (f : stack_t -> outcome bool) (k1 k0 : prog) : prog :=
  Op (fun g => b ← f g; Done (b, g, [])) k1 k0.
Definition reading {A} (o : outcome A) (f : A -> prog) : prog :=
  match o with Done a => f a | Stuck e => Op (fun _ => Stuck e) Halt Halt end.

Section Stack.
Context (pcap_open_ok : bool) (pcap_sendpacket : list Z -> Z).

(** ** Receiving *)

(** [tcp_send_control(&g_inet_info, flag)], exit included. *)
Definition send_control (flag : Z) (k : prog) : prog :=
  doing (fun g =>
    r ← tcp_send_control pcap_sendpacket true (g_inet_info g) (g_inet_info g) flag;
    let '(frame, exits) := r in
    Done (set_exited (has_exited g || exits) g, [Sent frame])) k.

Definition distribute_icmp_reply (packet : list Z) (icmp : Z) (k : prog) : prog :=
  reading (icmp_type_of packet icmp) (fun type =>
    if type =? ICMP_TYPE_REPLY_ECHO then
      doing (fun g => Done (set_inet (set_ping_success true (g_inet_info g)) g, [])) (Post "icmp_req_handle" k)
    else k).

Definition deal_tcp_data_recv (packet : list Z) (data len : Z) (k : prog) : prog :=
  reading (terminate_data packet data len) (fun packet =>
    testing (fun g => Done (bool_decide (tcp_status (g_inet_info g) = TCP_CONNECTED)))
      (reading (cstring packet data) (fun text =>
        doing (fun g => Done (g, [Text text])) (Wait "tcp_data_recv_handle" k)))
      k).

Definition distribute_tcp_recv (packet : list Z) (tcp tcp_len : Z) (k : prog) : prog :=
  reading (print_hex_string packet tcp tcp_len) (fun hex =>
  doing (fun g => Done (g, [Dumped hex]))
  (reading (load8 packet (tcp + 13)) (fun flags =>
    if flags =? TCP_ACK then k
    else if flags =? TCP_SYN_ACK then
      Op (fun g => r ← recv_syn_ack (g_inet_info g) packet tcp; Done (r.1, set_inet r.2 g, []))
        (Post "tcp_connect_handle" k) k
    else if flags =? TCP_PSH_ACK then
      reading (tcp_data_at packet tcp tcp_len) (fun d =>
        doing (fun g => i ← recv_psh_ack (g_inet_info g) packet tcp d.2; Done (set_inet i g, []))
          (deal_tcp_data_recv packet d.1 d.2 (send_control TCP_ACK k)))
    else k))).

Definition distribute_ip_reply (packet : list Z) (k : prog) : prog :=
  testing (fun g => ip_for_us (g_inet_info g) packet)
    (reading (load8 packet (sizeof_ether_header + 9)) (fun protocol =>
      let l4 := sizeof_ether_header + sizeof_ip_header in
      if protocol =? IP_LOAD_ICMP then distribute_icmp_reply packet l4 k
      else if protocol =? IP_LOAD_TCP then
        reading (tcp_len_of packet) (fun tcp_len => distribute_tcp_recv packet l4 tcp_len k)
      else if protocol =? IP_LOAD_UDP then
        doing (fun g => i ← distribute_udp_recv (g_inet_info g) packet l4; Done (set_inet i g, []))
          (Post "udp_recv_handle" k)
      else k))
    k.

Definition packet_recv (packet : list Z) (k : prog) : prog :=
  reading (load16 packet 12) (fun type =>
    if ntohs type =? ETHERTYPE_ARP then
      Op (fun g => r ← deal_arp_reply (g_inet_info g) packet; Done (r.1 =? 0, set_inet r.2 g, []))
        (Post "icmp_req_handle" k) k
    else if ntohs type =? ETHERTYPE_IP then distribute_ip_reply packet k
    else k).

(** ** The routines *)

Definition icmp_req_code : prog :=
  doing (fun g => Done (g, [Sent (send_arp_req (g_inet_info g))]))
  (Wait "monitor_handle"
  (doing (fun g => Done (g, [Sent (send_icmp_echo_request_packet (g_inet_info g) (g_inet_info g))]))
  (Wait "monitor_handle"
  (doing (fun g => Done (g, [PingResult (ping_success (g_inet_info g))])) Halt)))).

Definition udp_recv_code : prog :=
  Wait "monitor_handle"
  (doing (fun g => r ← udp_recv_turn (g_inet_info g) (udp_buf g); Done (set_udp_buf r.1 g, [Text r.2]))
  (Call udp_recv_handle)).

Definition connected (g : stack_t) : bool := bool_decide (tcp_status (g_inet_info g) = TCP_CONNECTED).
Definition set_status (s : tcp_state) (g : stack_t) : stack_t :=
  set_inet (set_tcp (seq_num (g_inet_info g)) (ack_num (g_inet_info g)) s (g_inet_info g)) g.

(** [tcp_connect_handle] behind its wait. *)
Definition tcp_connect_ack : prog :=
  testing (fun g => Done (bool_decide (tcp_status (g_inet_info g) = TCP_HAND_2)))
    (send_control TCP_ACK
    (doing (fun g => Done (set_status TCP_CONNECTED g, []))
    (doing (fun g => Done (g, [TcpStatus (tcp_status (g_inet_info g))])) Halt)))
    (doing (fun g => Done (g, [TcpStatus (tcp_status (g_inet_info g))])) Halt).
Definition tcp_connect_code : prog :=
  send_control TCP_SYN
  (doing (fun g => Done (set_status TCP_HAND_1 g, []))
  (Wait "monitor_handle" tcp_connect_ack)).

(** ** main *)

Definition init_seq (k : prog) : prog :=
  doing (fun g => Done (set_rands (tail (rands g)) (set_inet (tcp_init_seq (hd 0 (rands g)) (g_inet_info g)) g), [])) k.

(** [performAction]; the texts it prints are left out. *)
Definition performAction (command message : list Z) (k : prog) : prog :=
  if bool_decide (command = bytes "udp") then
    doing (fun g => r ← udp_send pcap_sendpacket (g_inet_info g) (g_inet_info g) message; Done (g, [Sent r.1])) k
  else if bool_decide (command = bytes "tcpconect") then
    testing (fun g => Done (connected g)) k
      (Create T_tcp_connect tcp_connect_handle
      (Destroy T_tcp_connect
      (testing (fun g => Done (connected g)) k (init_seq k))))
  else if bool_decide (command = bytes "tcpsend") then
    testing (fun g => Done (connected g))
      (doing (fun g =>
         r ← tcp_send pcap_sendpacket true (g_inet_info g) (g_inet_info g) message;
         Done (set_exited (has_exited g || r.2) g, [Sent r.1])) k)
      k
  else k.

(** [sscanf(input, "%s %\[^\n\]", command, message)]: the words read, of which the
    first goes to a buffer of ten bytes. *)
Definition is_space (c : Z) : bool := ((c =? 32) || ((9 <=? c) && (c <=? 13)))%bool.
Fixpoint skip_space (l : list Z) : list Z :=
  match l with c :: l' => if is_space c then skip_space l' else l | [] => [] end.
Fixpoint word (l : list Z) : list Z * list Z :=
  match l with
  | c :: l' => if is_space c then ([], l) else let '(w, r) := word l' in (c :: w, r)
  | [] => ([], [])
  end.
Definition scan_command (input : list Z) : outcome (option (list Z * list Z)) :=
  let '(command, rest) := word (skip_space input) in
  if 10 <=? Z.of_nat (length command) then Stuck WildStore
  else
    let message := skip_space rest in
    Done (if ((Z.of_nat (length command) =? 0) || (Z.of_nat (length message) =? 0))%bool then None
          else Some (command, message)).

Definition handle_line (input : list Z) : prog :=
  if bool_decide (input = bytes "q") then Destroy T_monitor Halt
  else reading (scan_command input) (fun r =>
    match r with
    | None => doing (fun g => Done (g, [Invalid])) (Call input_loop)
    | Some (command, message) => performAction command message (Call input_loop)
    end).

(** [main] once the device is found and g_inet_info is filled in. *)
Definition main_code : prog :=
  Create T_monitor monitor_handle
  (Create T_icmp_req icmp_req_handle
  (Destroy T_icmp_req
  (Until (fun g => ping_success (g_inet_info g))
  (Create T_udp_recv udp_recv_handle
  (Create T_tcp_data_recv tcp_data_recv_handle
  (init_seq (Call input_loop))))))).

(** What each routine runs; the loops wait for a frame or a line. *)
Definition body (r : routine) (g : stack_t) : outcome (prog * stack_t) :=
  match r with
  | icmp_req_handle => Done (icmp_req_code, g)
  | monitor_handle => Done (if pcap_open_ok then Call pcap_loop else Halt, g)
  | pcap_loop =>
      match captured g with
      | [] => Stuck Deadlock
      | packet :: rest => Done (packet_recv packet (Call pcap_loop), set_captured rest g)
      end
  | udp_recv_handle => Done (udp_recv_code, g)
  | tcp_data_recv_handle => Done (Until connected Forever, g)
  | tcp_connect_handle => Done (tcp_connect_code, g)
  | input_loop =>
      match typed g with
      | [] => Stuck Deadlock
      | line :: rest => Done (handle_line line, set_typed rest g)
      end
  end.

(** ** Lemmas: the routines are plain programs *)

Lemma plain_reading {A} (o : outcome A) f : (forall a, plain (f a)) -> plain (reading o f).
Proof. intros Hf. by destruct o; cbn. Qed.

Ltac plain_tac :=
  repeat first
    [ assumption | exact I | apply plain_reading; intros ? | progress cbn [plain doing testing send_control init_seq]
    | match goal with |- _ /\ _ => split end
    | match goal with |- plain (if ?b then _ else _) => destruct b end
    | match goal with |- plain (match ?o with _ => _ end) => destruct o end
    | match goal with |- plain (let '(_, _) := ?o in _) => destruct o end ].

Lemma plain_packet_recv packet k : plain k -> plain (packet_recv packet k).
Proof.
  intros Hk. unfold packet_recv, distribute_ip_reply, distribute_icmp_reply, distribute_tcp_recv, deal_tcp_data_recv. plain_tac.
Qed.

Lemma plain_performAction command message k : plain k -> plain (performAction command message k).
Proof. intros Hk. unfold performAction. plain_tac. Qed.

Lemma plain_main : plain main_code.
Proof. unfold main_code. plain_tac. Qed.

Lemma body_plain r g c g' : body r g = Done (c, g') -> plain c.
Proof.
  destruct r; cbn [body].
  - intros [= <- _]. unfold icmp_req_code. plain_tac.
  - intros [= <- _]. by destruct pcap_open_ok.
  - destruct (captured g); [done|]. intros [= <- _]. by apply plain_packet_recv.
  - intros [= <- _]. unfold udp_recv_code. plain_tac.
  - by intros [= <- _].
  - intros [= <- _]. unfold tcp_connect_code, tcp_connect_ack. plain_tac.
  - destruct (typed g) as [|line rest]; [done|]. intros [= <- _]. unfold handle_line.
    destruct (bool_decide _); [done|]. apply plain_reading. intros [[command message]|]; [|by plain_tac].
    by apply plain_performAction.
Qed.

Lemma name_inj p q : name_of p = name_of q -> p = q.
Proof. by destruct p, q. Qed.

(** ** Running *)

Context (pthread_self : thread -> Z).

Definition exec_stack : system -> thread -> outcome system := exec name_of pthread_self body has_exited.
Definition steps : relation system := rtc (step name_of pthread_self body has_exited).
(** The program at its start. *)
Definition start (g : stack_t) : system := init_sys T_main main_code g.

(** The threads take a step each in the order given. *)
Fixpoint run (schedule : list thread) (s : system) : outcome system :=
  match schedule with
  | [] => Done s
  | p :: schedule' => s' ← exec_stack s p; run schedule' s'
  end.

Lemma run_steps schedule s s' : run schedule s = Done s' -> steps s s'.
Proof.
  revert s. induction schedule as [|p l IH]; intros s; cbn [run].
  - intros [= ->]. apply rtc_refl.
  - intros (s1 & H1 & H2)%outcome_bind_Done. eapply rtc_l; [by apply step_exec with p|by apply IH].
Qed.

(** ** A wake-up that is lost *)

(** Everybody waits: [main] for the end of icmp_req_handle, that thread for a post
    of the monitor, and the monitor for a frame. *)
Record frozen (g : stack_t) (o : list event) (s : system) : Prop := {
  fr_main : exists k, procs s T_main = Some (Destroy T_icmp_req k);
  fr_monitor : procs s T_monitor = Some (Call pcap_loop);
  fr_icmp : exists sig k, procs s T_icmp_req = Some (Sleep T_icmp_req T_monitor sig k);
  fr_rest : procs s T_udp_recv = None /\ procs s T_tcp_data_recv = None /\ procs s T_tcp_connect = None;
  fr_posted : be_posted (descs s T_icmp_req) = false;
  fr_glob : glob s = g /\ outs s = o
}.

Lemma frozen_step g o s s' :
  captured g = [] -> frozen g o s -> step name_of pthread_self body has_exited s s' -> frozen g o s'.
Proof.
  intros Hg Hf H. revert Hf. destruct H as [s s' p H|s p cur w k H]; intros [[km Hm] Hmon (sig & ki & Hi) Hr Hb [Hgl Ho]].
  - unfold exec in H. destruct (has_exited (glob s)); [done|]. destruct p.
    + rewrite Hm in H. apply outcome_bind_Done in H as (s1 & H & _). unfold nst_destroy in H. by rewrite Hi in H.
    + rewrite Hi in H. destruct sig; [|done]. injection H as <-. unfold wait_test. rewrite Hb.
      split; cbn; eauto.
    + rewrite Hmon, Hgl in H. cbn [body] in H. by rewrite Hg in H.
    + by rewrite (proj1 Hr) in H.
    + by rewrite (proj1 (proj2 Hr)) in H.
    + by rewrite (proj2 (proj2 Hr)) in H.
  - assert (p = T_icmp_req) as -> by (destruct Hr as (? & ? & ?), p; congruence).
    rewrite Hi in H. injection H as <- <- -> <-. split; cbn; eauto.
Qed.

Lemma frozen_steps g o s s' : captured g = [] -> frozen g o s -> steps s s' -> frozen g o s'.
Proof. intros Hg Hf H. induction H as [|s1 s2 s3 Hs _ IH]; [done|]. by eapply IH, frozen_step. Qed.

(** A frame that, for the addresses of [i], is neither an answer to ARP nor one to
    ping: whatever the monitor does with it, it does not post to icmp_req_handle. *)
Definition quiet (i : inet_info_t) (packet : list Z) : bool :=
  match load16 packet 12 with
  | Done type =>
      if ntohs type =? ETHERTYPE_ARP then
        match deal_arp_reply i packet with Done (r, _) => negb (r =? 0) | Stuck _ => true end
      else if ntohs type =? ETHERTYPE_IP then
        match ip_for_us i packet, load8 packet (sizeof_ether_header + 9),
              icmp_type_of packet (sizeof_ether_header + sizeof_ip_header) with
        | Done true, Done protocol, Done type => negb ((protocol =? IP_LOAD_ICMP) && (type =? ICMP_TYPE_REPLY_ECHO))
        | _, _, _ => true
        end
      else true
  | Stuck _ => true
  end.

Definition same_addresses (i j : inet_info_t) : Prop := local_ip i = local_ip j /\ remote_ip i = remote_ip j.
Definition quiet_from (i : inet_info_t) (g : stack_t) : Prop :=
  same_addresses (g_inet_info g) i /\ Forall (fun p => quiet i p = true) (captured g).

(** Code of the monitor that never posts to icmp_req_handle, from any state with
    the addresses of [i] and quiet frames. *)
Fixpoint calm (i : inet_info_t) (c : prog) : Prop :=
  match c with
  | Op f k1 k0 => forall g b g' es, quiet_from i g -> f g = Done (b, g', es) ->
      quiet_from i g' /\ if b then calm i k1 else calm i k0
  | Post n k => n <> "icmp_req_handle"%string /\ calm i k
  | Wait _ k | Enlist _ _ k | Sleep _ _ _ k | Leave _ k => calm i k
  | Call pcap_loop | Halt => True
  | _ => False
  end.

Lemma calm_reading {A} i (o : outcome A) f : (forall a, o = Done a -> calm i (f a)) -> calm i (reading o f).
Proof. intros Hf. destruct o; cbn; [by apply Hf|done]. Qed.

Lemma calm_doing i f k :
  (forall g g' es, quiet_from i g -> f g = Done (g', es) -> quiet_from i g') -> calm i k -> calm i (doing f k).
Proof.
  intros Hf Hk g b g' es Hg ([g1 es1] & H & [= <- <- <-])%outcome_bind_Done. split; [by eapply Hf|done].
Qed.

Lemma calm_testing i f k1 k0 :
  (forall g, quiet_from i g -> f g = Done true -> calm i k1) -> calm i k0 -> calm i (testing f k1 k0).
Proof.
  intros Hf Hk g b g' es Hg (b1 & H & [= <- <- <-])%outcome_bind_Done. split; [done|]. destruct b1; [by eapply Hf|done].
Qed.

(** What receiving does to g_inet_info leaves the addresses. *)
Lemma quiet_from_set i j g : same_addresses j (g_inet_info g) -> quiet_from i g -> quiet_from i (set_inet j g).
Proof. intros [H1 H2] [[H3 H4] H5]. split; [split; cbn; congruence|done]. Qed.

Lemma ip_for_us_same i j packet : same_addresses i j -> ip_for_us i packet = ip_for_us j packet.
Proof. intros [H1 H2]. unfold ip_for_us. by rewrite H1, H2. Qed.

Lemma deal_arp_same i j packet r i' :
  same_addresses i j -> deal_arp_reply i packet = Done (r, i') ->
  same_addresses i' i /\ exists j', deal_arp_reply j packet = Done (r, j').
Proof.
  intros [H1 H2]. unfold deal_arp_reply. cbv zeta. rewrite <- H1, <- H2. intros H.
  apply outcome_bind_Done in H as (sip & -> & H). cbn [mbind outcome_bind].
  destruct (sip =? _); [|injection H as <- <-; split; [by split|by eexists]].
  apply outcome_bind_Done in H as (tip & -> & H). cbn [mbind outcome_bind].
  destruct (tip =? _); [|injection H as <- <-; split; [by split|by eexists]].
  apply outcome_bind_Done in H as (mac & -> & [= <- <-]). split; [by split|by eexists].
Qed.

Context (self_inj : forall p q, s32 (pthread_self p) = s32 (pthread_self q) -> p = q).

(** The order: the two threads start, icmp_req_handle sends its request, the
    monitor deals with the reply, and only then icmp_req_handle comes to wait. *)
Definition reply_first : list thread :=
  [T_main; T_main; T_monitor; T_monitor; T_icmp_req; T_icmp_req; T_icmp_req; T_monitor; T_monitor; T_monitor;
   T_icmp_req; T_icmp_req].

Lemma run_cons p l s s' : exec_stack s p = Done s' -> run (p :: l) s = run l s'.
Proof. intros H. cbn. by rewrite H. Qed.

Ltac by_id := cbn; unfold map_insert; rewrite ?lookup_empty; repeat first
  [ rewrite lookup_insert_eq | rewrite lookup_insert_ne by (intros E; apply self_inj in E; done) | rewrite lookup_empty ]; try done.

Lemma reply_first_run g reply rest inet' :
  pcap_open_ok = true -> has_exited g = false -> captured g = reply :: rest ->
  load16 reply 12 = Done (htons ETHERTYPE_ARP) -> deal_arp_reply (g_inet_info g) reply = Done (0, inet') ->
  exists s, run reply_first (start g) = Done s /\
    frozen (set_inet inet' (set_captured rest g)) [Sent (send_arp_req (g_inet_info g))] s /\
    registered name_of pthread_self s T_monitor /\ registered name_of pthread_self s T_icmp_req /\
    exists k, procs s T_icmp_req = Some (Sleep T_icmp_req T_monitor false (doing (fun g =>
      Done (g, [Sent (send_icmp_echo_request_packet (g_inet_info g) (g_inet_info g))])) k)).
Proof.
  intros Hopen Hex Hcap Hty Harp. unfold reply_first.
  assert (forall g', body monitor_handle g' = Done (Call pcap_loop, g')) as Hmon by (intros; cbn; by rewrite Hopen).
  assert (body pcap_loop g = Done (packet_recv reply (Call pcap_loop), set_captured rest g)) as Hloop by (cbn; by rewrite Hcap).
  unfold packet_recv in Hloop. rewrite Hty in Hloop. cbn [reading] in Hloop.
  rewrite ntohs_htons in Hloop. change (u16 ETHERTYPE_ARP =? ETHERTYPE_ARP) with true in Hloop. cbn iota in Hloop.
  do 2 (erewrite run_cons by (apply exec_Create; [exact Hex|reflexivity|reflexivity])).
  erewrite run_cons by (apply exec_Start; [exact Hex|reflexivity]).
  erewrite run_cons by (eapply exec_Call; [exact Hex|reflexivity|apply Hmon]).
  erewrite run_cons by (apply exec_Start; [exact Hex|reflexivity]).
  erewrite run_cons by (eapply exec_Call; [exact Hex|reflexivity|reflexivity]).
  erewrite run_cons by (eapply exec_Op; [exact Hex|reflexivity|reflexivity]).
  match goal with |- context [run _ ?s0] => set (s := s0) end.
  assert (registered name_of pthread_self s T_monitor /\ registered name_of pthread_self s T_icmp_req) as [Rm Ri]
    by (split; split; by_id).
  erewrite run_cons by (eapply exec_Call; [exact Hex|reflexivity|exact Hloop]).
  erewrite run_cons by (eapply exec_Op; [exact Hex|reflexivity|]; cbn; rewrite Harp; reflexivity).
  erewrite run_cons by (eapply exec_Post; [exact Hex|reflexivity|exact Rm]).
  erewrite run_cons by (eapply exec_Wait with (w := T_monitor); [exact Hex|reflexivity|exact Ri|exact Rm]).
  erewrite run_cons by (eapply exec_Enlist; [exact Hex|reflexivity]).
  eexists. split; [reflexivity|]. split; [|split; [exact Rm|split; [exact Ri|by eexists]]]. split; try reflexivity.
  - by eexists.
  - by eexists _, _.
  - done.
  - done.
Qed.

(** *** Nothing but quiet frames *)

Lemma calm_send_control i flag k : calm i k -> calm i (send_control flag k).
Proof.
  intros Hk. apply calm_doing; [|done]. intros g g' es Hg ([frame exits] & _ & [= <- _])%outcome_bind_Done. exact Hg.
Qed.

Lemma calm_tcp i packet tcp len k : calm i k -> calm i (distribute_tcp_recv packet tcp len k).
Proof.
  intros Hk. unfold distribute_tcp_recv. apply calm_reading. intros hex _. apply calm_doing; [by intros g g' es Hg [= <- _]|].
  apply calm_reading. intros flags _. destruct (flags =? TCP_ACK); [done|]. destruct (flags =? TCP_SYN_ACK).
  { intros g b g' es Hg ([b1 i1] & H & [= <- <- _])%outcome_bind_Done. split.
    - apply quiet_from_set; [|done]. unfold recv_syn_ack in H. destruct (decide _); [|by injection H as _ <-].
      apply outcome_bind_Done in H as (seq & _ & [= _ <-]). done.
    - by destruct b1. }
  destruct (flags =? TCP_PSH_ACK); [|done]. apply calm_reading. intros [d dlen] _. apply calm_doing.
  { intros g g' es Hg (i1 & H & [= <- _])%outcome_bind_Done. apply quiet_from_set; [|done].
    unfold recv_psh_ack in H. by apply outcome_bind_Done in H as (seq & _ & [= <-]). }
  pose proof (calm_send_control i TCP_ACK k Hk) as Hs. unfold deal_tcp_data_recv. apply calm_reading. intros packet' _.
  apply calm_testing; [|done]. intros g _ _. apply calm_reading. intros text _.
  apply calm_doing; [by intros g0 g' es Hg [= <- _]|exact Hs].
Qed.

Lemma calm_packet_recv i packet k : quiet i packet = true -> calm i k -> calm i (packet_recv packet k).
Proof.
  unfold quiet, packet_recv. intros Hq Hk. apply calm_reading. intros type Ht. rewrite Ht in Hq.
  destruct (ntohs type =? ETHERTYPE_ARP).
  { intros g b g' es [Ha Hc] ([r i1] & H & [= <- <- _])%outcome_bind_Done.
    destruct (deal_arp_same _ _ _ _ _ Ha H) as [Hs [j Hj]]. rewrite Hj in Hq. cbn [fst snd].
    split; [by apply quiet_from_set|]. by destruct (r =? 0). }
  destruct (ntohs type =? ETHERTYPE_IP); [|done]. unfold distribute_ip_reply. apply calm_testing; [|done].
  intros g [Ha _] Hus. rewrite (ip_for_us_same _ _ _ Ha) in Hus. rewrite Hus in Hq.
  apply calm_reading. intros protocol Hp. rewrite Hp in Hq. destruct (protocol =? IP_LOAD_ICMP).
  { apply calm_reading. intros t Et. rewrite Et in Hq. by destruct (t =? ICMP_TYPE_REPLY_ECHO). }
  destruct (protocol =? IP_LOAD_TCP); [apply calm_reading; intros len _; by apply calm_tcp|].
  destruct (protocol =? IP_LOAD_UDP); [|done]. apply calm_doing; [|by split].
  intros g1 g' es Hg (i1 & H & [= <- _])%outcome_bind_Done. apply quiet_from_set; [|done]. unfold distribute_udp_recv in H.
  apply outcome_bind_Done in H as (len & _ & H). destruct (_ <? _); [done|].
  by apply outcome_bind_Done in H as (data & _ & [= <-]).
Qed.

(** [main] waits for the end of icmp_req_handle, that thread for a post of the
    monitor, which has none for it. *)
Record unheard (i : inet_info_t) (s : system) : Prop := {
  sv_ok : wait_ok name_of pthread_self s;
  sv_main : exists k, procs s T_main = Some (Destroy T_icmp_req k);
  sv_icmp : exists sig k, procs s T_icmp_req = Some (Sleep T_icmp_req T_monitor sig k);
  sv_posted : be_posted (descs s T_icmp_req) = false;
  sv_monitor : exists c, procs s T_monitor = Some c /\ calm i c;
  sv_rest : procs s T_udp_recv = None /\ procs s T_tcp_data_recv = None /\ procs s T_tcp_connect = None;
  sv_glob : quiet_from i (glob s)
}.

(** A step of the monitor is all that can happen; it leaves the others alone. *)
Lemma unheard_monitor i s s' :
  unheard i s -> exec_stack s T_monitor = Done s' ->
  (forall t, t <> T_monitor -> procs s' t = procs s t /\ be_posted (descs s' t) = be_posted (descs s t)) /\
  (exists c, procs s' T_monitor = Some c /\ calm i c) /\ quiet_from i (glob s').
Proof.
  intros [Hok [km Hm] (sig & ki & Hi) Hb (c & Hc & Hcalm) Hr Hg] He.
  unfold exec_stack, exec in He. destruct (has_exited (glob s)); [done|]. rewrite Hc in He.
  pose proof (wo_code _ _ _ Hok _ _ Hc) as Hcode.
  destruct c as [|f k1 k0|b k| |r|t r k|t k|n k|n k|r|cur w k|cur w [] k|cur k]; cbn [calm] in Hcalm; try done.
  - apply outcome_bind_Done in He as ([[b g] es] & Hf & [= <-]). destruct (Hcalm _ _ _ _ Hg Hf) as [Hg' Hk].
    cbn. split; [intros t Ht; by rewrite fn_lookup_insert_ne|]. split; [|done].
    rewrite fn_lookup_insert. eexists. split; [done|]. by destruct b.
  - destruct r; try done. apply outcome_bind_Done in He as ([c g] & Hbd & [= <-]). cbn [body] in Hbd.
    destruct (captured (glob s)) as [|packet rest] eqn:Ecap; [done|]. injection Hbd as <- <-.
    destruct Hg as [Ha Hq]. rewrite Ecap in Hq. apply Forall_cons in Hq as [Hp Hq].
    cbn. split; [intros t Ht; by rewrite fn_lookup_insert_ne|]. split; [|by split].
    rewrite fn_lookup_insert. eexists. split; [done|]. by apply calm_packet_recv.
  - unfold nst_wait_by_name in He. destruct (get_thread_by_id s (pthread_self T_monitor)) as [[cur|] s1] eqn:E1;
      [|by destruct (get_thread_by_name s1 n)].
    destruct (get_by_id_ok name_of pthread_self self_inj s T_monitor cur s1 Hok E1) as (-> & _ & Ed & Ep).
    injection E1 as _ <-. destruct (get_thread_by_name _ n) as [[w2|] s2] eqn:E2; [|done]. injection He as <-.
    injection E2 as _ <-. cbn. split; [intros t Ht; by rewrite !fn_lookup_insert_ne|]. split; [|done].
    rewrite fn_lookup_insert. by eexists.
  - destruct Hcalm as [Hn Hk]. apply outcome_bind_Done in He as (s1 & H1 & [= <-]).
    destruct (nst_post_cases name_of pthread_self self_inj s T_monitor n s1 Hok H1) as (s2 & _ & Ed & Ep & Hcase).
    assert (s1 = s2) as ->.
    { destruct Hcase as [[_ ->]|(q & Hq & _)]; [done|]. destruct (wo_list _ _ _ Hok _ _ _ Hq) as (-> & _ & sq & kq & Hpq).
      exfalso. destruct Hr as (R1 & R2 & R3), q; first [by apply Hn | congruence]. }
    unfold nst_post_by_name in H1. cbn. rewrite Ed, Ep. split; [intros t Ht; by rewrite fn_lookup_insert_ne|].
    split; [rewrite fn_lookup_insert; by eexists|]. destruct (get_thread_by_id _ _) as [[cur|] s0] eqn:E0; [|done].
    injection E0 as _ <-. destruct (_ !! n); injection H1 as <-; exact Hg.
  - injection He as <-. unfold wait_enlist, wait_test. cbn. split; [|split; [|done]].
    + intros t Ht. rewrite fn_lookup_insert_ne by done. split; [done|].
      destruct (decide (t = w)) as [->|Hne]; [by rewrite fn_lookup_insert|by rewrite fn_lookup_insert_ne].
    + rewrite fn_lookup_insert. eexists. split; [done|]. match goal with |- calm _ (if ?b then _ else _) => by destruct b end.
  - injection He as <-. unfold wait_test. cbn. split; [intros t Ht; by rewrite fn_lookup_insert_ne|]. split; [|done].
    rewrite fn_lookup_insert. eexists. split; [done|]. match goal with |- calm _ (if ?b then _ else _) => by destruct b end.
  - injection He as <-. destruct Hcode as [-> _]. cbn. split; [intros t Ht; by rewrite !fn_lookup_insert_ne|].
    split; [|done]. rewrite fn_lookup_insert. by eexists.
Qed.

Lemma unheard_step i s s' : unheard i s -> step name_of pthread_self body has_exited s s' -> unheard i s'.
Proof.
  intros Hst H. pose proof (step_ok name_of pthread_self body has_exited name_inj self_inj body_plain s s' (sv_ok _ _ Hst) H) as Hok'.
  pose proof Hst as [_ [km Hm] (sig & ki & Hi) Hb (c & Hc & Hcalm) Hr Hg]. revert Hst Hok' Hm Hi Hb Hc Hr Hg.
  destruct H as [s s' p H|s p cur w k H]; intros Hst Hok' Hm Hi Hb Hc Hr Hg.
  - destruct (decide (p = T_monitor)) as [->|Hp].
    + destruct (unheard_monitor i s s' Hst H) as (Ho & Hm' & Hg'). destruct Hr as (R1 & R2 & R3).
      destruct (Ho T_main ltac:(done)) as [E1 _]. destruct (Ho T_icmp_req ltac:(done)) as [E2 E3].
      pose proof (proj1 (Ho T_udp_recv ltac:(done))) as E4. pose proof (proj1 (Ho T_tcp_data_recv ltac:(done))) as E5.
      pose proof (proj1 (Ho T_tcp_connect ltac:(done))) as E6.
      split; [done|rewrite E1; eauto|rewrite E2; eauto|by rewrite E3|done|by rewrite E4, E5, E6|done].
    + unfold exec in H. destruct (has_exited (glob s)); [done|]. destruct p; try done.
      * rewrite Hm in H. apply outcome_bind_Done in H as (s1 & H & _). unfold nst_destroy in H. by rewrite Hi in H.
      * rewrite Hi in H. destruct sig; [|done]. injection H as <-. unfold wait_test in *. rewrite Hb in *. split; cbn; eauto.
      * by rewrite (proj1 Hr) in H.
      * by rewrite (proj1 (proj2 Hr)) in H.
      * by rewrite (proj2 (proj2 Hr)) in H.
  - assert (p = T_icmp_req \/ p = T_monitor) as [->| ->] by (destruct Hr as (R1 & R2 & R3), p; (by auto) || congruence).
    + rewrite Hi in H. injection H as <- <- -> <-. split; cbn; eauto.
    + rewrite Hc in H. injection H as ->. split; cbn; eauto.
Qed.

Lemma unheard_steps i s s' : unheard i s -> steps s s' -> unheard i s'.
Proof. intros Hst H. induction H as [|s1 s2 s3 Hs _ IH]; [done|]. by eapply IH, unheard_step. Qed.

(** A post to a thread asleep on the one that posts takes it out of its wait. *)
Lemma run_post s w p k kp :
  has_exited (glob s) = false -> wait_ok name_of pthread_self s -> procs s w = Some (Post (name_of p) k) ->
  procs s p = Some (Sleep p w false kp) -> be_posted (descs s p) = false -> registered name_of pthread_self s w ->
  exists s', run [w; p; p] s = Done s' /\ glob s' = glob s /\ outs s' = outs s /\
    procs s' w = Some k /\ procs s' p = Some kp /\
    forall q, registered name_of pthread_self s q -> registered name_of pthread_self s' q.
Proof.
  intros Hex Hok Hw Hp Hb Rw. pose proof (wo_sleep _ _ _ Hok _ _ _ _ Hp Hb) as Hl.
  assert (p <> w) as Hne by (intros ->; congruence).
  erewrite run_cons by (eapply exec_Post; [exact Hex|exact Hw|exact Rw]). rewrite Hl.
  erewrite run_cons by (eapply exec_Sleep; [exact Hex|];
    cbn; rewrite fn_lookup_insert_ne, Hp by done; cbn; by rewrite decide_True).
  unfold wait_test. cbn [descs set_proc broadcast set_posted set_desc set_waiters]. rewrite fn_lookup_insert. cbn [be_posted].
  erewrite run_cons by (eapply exec_Leave; [exact Hex|by cbn; rewrite fn_lookup_insert]).
  eexists. split; [reflexivity|]. cbn. rewrite !fn_lookup_insert. rewrite !fn_lookup_insert_ne by done.
  rewrite fn_lookup_insert. done.
Qed.

Lemma run_app l1 l2 s s1 s2 : run l1 s = Done s1 -> run l2 s1 = Done s2 -> run (l1 ++ l2) s = Done s2.
Proof.
  revert s. induction l1 as [|p l1 IH]; intros s; cbn [run app]; [by intros [= ->]|].
  intros (s0 & -> & H1)%outcome_bind_Done H2. by apply IH.
Qed.

(** Another ARP frame, dealt with when the thread is asleep. *)
Lemma wake_run s again more inet2 k :
  has_exited (glob s) = false -> captured (glob s) = again :: more ->
  deal_arp_reply (g_inet_info (glob s)) again = Done (0, inet2) ->
  load16 again 12 = Done (htons ETHERTYPE_ARP) -> wait_ok name_of pthread_self s ->
  procs s T_monitor = Some (Call pcap_loop) ->
  procs s T_icmp_req = Some (Sleep T_icmp_req T_monitor false (doing (fun g =>
      Done (g, [Sent (send_icmp_echo_request_packet (g_inet_info g) (g_inet_info g))])) k)) ->
  be_posted (descs s T_icmp_req) = false -> registered name_of pthread_self s T_monitor ->
  exists s', run ([T_monitor; T_monitor] ++ [T_monitor; T_icmp_req; T_icmp_req] ++ [T_icmp_req]) s = Done s' /\
    outs s' = outs s ++ [Sent (send_icmp_echo_request_packet inet2 inet2)].
Proof.
  intros Hex Hcap Harp Hty Hok Hmon Hk Hb Rm.
  assert (body pcap_loop (glob s) = Done (packet_recv again (Call pcap_loop), set_captured more (glob s))) as Hloop
    by (cbn; by rewrite Hcap).
  unfold packet_recv in Hloop. rewrite Hty in Hloop. cbn [reading] in Hloop.
  rewrite ntohs_htons in Hloop. change (u16 ETHERTYPE_ARP =? ETHERTYPE_ARP) with true in Hloop. cbn iota in Hloop.
  assert (exists s2, run [T_monitor; T_monitor] s = Done s2 /\ has_exited (glob s2) = false /\
    procs s2 T_monitor = Some (Post "icmp_req_handle" (Call pcap_loop)) /\ procs s2 T_icmp_req = procs s T_icmp_req /\
    be_posted (descs s2 T_icmp_req) = false /\ registered name_of pthread_self s2 T_monitor /\
    g_inet_info (glob s2) = inet2 /\ outs s2 = outs s) as (s2 & R2 & Hex2 & Hm2 & Hk2 & Hb2 & Rm2 & Hi2 & Ho2).
  { erewrite run_cons by (eapply exec_Call; [exact Hex|exact Hmon|exact Hloop]).
    erewrite run_cons by (eapply exec_Op; [exact Hex|by cbn; rewrite fn_lookup_insert|]; cbn; rewrite Harp; reflexivity).
    eexists. split; [reflexivity|]. cbn. rewrite app_nil_r. by rewrite fn_lookup_insert, !fn_lookup_insert_ne by done. }
  assert (wait_ok name_of pthread_self s2) as Hok2
    by (eapply steps_ok; [exact name_inj|exact self_inj|exact body_plain|exact Hok|by eapply run_steps]).
  rewrite Hk in Hk2. destruct (run_post s2 T_monitor T_icmp_req _ _ Hex2 Hok2 Hm2 Hk2 Hb2 Rm2) as (s3 & R3 & G3 & O3 & _ & P3 & _).
  eexists. split.
  - eapply run_app; [exact R2|]. eapply run_app; [exact R3|].
    erewrite run_cons by (eapply exec_Op; [by rewrite G3|exact P3|reflexivity]). reflexivity.
  - cbn. by rewrite O3, Ho2, G3, Hi2.
Qed.

(** C24: A wake-up can be lost.  The monitor posts to icmp_req_handle when the ARP
    reply comes; if that thread has sent its request but has not come to wait, the
    post does nothing.  As long as no other ARP frame of the peer for this host and
    no echo reply of it is captured, the thread sleeps in every later run, whatever
    else is: no echo request is sent, and [main] waits for the end of the thread; with
    no frame at all the program stands still.  If another ARP frame is the next one
    captured - its operation is not looked at, a request of the peer will do -, there
    is a run in which the thread wakes and goes on to its echo request. *)
Theorem arp_reply_lost g reply rest inet' :
  pcap_open_ok = true -> has_exited g = false -> captured g = reply :: rest ->
  load16 reply 12 = Done (htons ETHERTYPE_ARP) -> deal_arp_reply (g_inet_info g) reply = Done (0, inet') ->
  exists s, steps (start g) s /\ g_inet_info (glob s) = inet' /\ outs s = [Sent (send_arp_req (g_inet_info g))] /\
    (Forall (fun p => quiet inet' p = true) rest -> forall s', steps s s' ->
      (exists k, procs s' T_main = Some (Destroy T_icmp_req k)) /\
      (exists sig k, procs s' T_icmp_req = Some (Sleep T_icmp_req T_monitor sig k)) /\
      (rest = [] -> glob s' = glob s /\ outs s' = outs s)) /\
    (forall again more inet2, rest = again :: more -> load16 again 12 = Done (htons ETHERTYPE_ARP) ->
      deal_arp_reply inet' again = Done (0, inet2) ->
      exists s', steps s s' /\ outs s' = outs s ++ [Sent (send_icmp_echo_request_packet inet2 inet2)]).
Proof.
  intros Hopen Hex Hcap Hty Harp.
  destruct (reply_first_run g reply rest inet' Hopen Hex Hcap Hty Harp) as (s & Hr & Hf & Rm & Ri & (k & Hk)).
  exists s. apply run_steps in Hr. split; [done|]. pose proof Hf as [[km Hm] Hmon Hi Hrest Hb [Hg Ho]]. rewrite Hg, Ho.
  pose proof (steps_ok _ _ _ _ name_inj self_inj body_plain _ _ (init_ok _ _ T_main main_code g plain_main) Hr) as Hok.
  split; [done|]. split; [done|]. split.
  - intros Hq s' Hs. assert (unheard inet' s) as Hst.
    { split; [done|by eexists|done|done|by eexists|done|rewrite Hg; by split]. }
    pose proof (unheard_steps _ _ _ Hst Hs) as Hst'. split; [apply Hst'|]. split; [apply Hst'|]. intros ->.
    by apply (frozen_steps (set_inet inet' (set_captured [] g)) _ s s' eq_refl Hf) in Hs as [_ _ _ _ _ ?].
  - intros again more inet2 -> Hty2 Harp2. destruct (wake_run s again more inet2 k) as (s' & Hs & E); [by rewrite ?Hg..|].
    exists s'. split; [by eapply run_steps|]. by rewrite E, Ho.
Qed.

(** ** A wait that never ends *)

(** The monitor asleep on a thread that only loops. *)
Record stalled (s : system) : Prop := {
  st_ok : wait_ok name_of pthread_self s;
  st_monitor : exists sig k, procs s T_monitor = Some (Sleep T_monitor T_tcp_data_recv sig k);
  st_posted : be_posted (descs s T_monitor) = false;
  st_loop : procs s T_tcp_data_recv = Some Forever
}.

Lemma stalled_step s s' : stalled s -> step name_of pthread_self body has_exited s s' -> stalled s'.
Proof.
  intros [Hok (sig & k & Hm) Hb Hl] H. pose proof (step_ok name_of pthread_self body has_exited name_inj self_inj body_plain s s' Hok H) as Hok'.
  revert Hok Hok' Hm Hb Hl. destruct H as [s s' p H|s p cur w k' H]; intros Hok Hok' Hm Hb Hl.
  - destruct (decide (p = T_monitor)) as [->|Hpm].
    + unfold exec in H. destruct (has_exited (glob s)); [done|]. rewrite Hm in H. destruct sig; [|done]. injection H as <-.
      unfold wait_test in *. rewrite Hb in *. split; [done|by eexists _, _|done|done].
    + destruct (decide (p = T_tcp_data_recv)) as [->|Hpt].
      * unfold exec in H. destruct (has_exited (glob s)); [done|]. rewrite Hl in H. injection H as <-.
        split; [done|by eexists _, _|done|done].
      * pose proof (fun c0 => exec_other name_of pthread_self body has_exited self_inj s p s' T_monitor c0 Hok H) as Fm.
        pose proof (fun c0 => exec_other name_of pthread_self body has_exited self_inj s p s' T_tcp_data_recv c0 Hok H) as Fl.
        destruct (Fm _ Hm) as [Hm' Hb']; [done|congruence|done|].
        destruct (Fl _ Hl) as [Hl' _]; [done..|]. split; [done|by eexists _, _|congruence|done].
  - split; [done| |done|].
    + cbn. destruct (decide (T_monitor = p)) as [<-|Hne].
      * rewrite fn_lookup_insert. rewrite Hm in H. injection H as <- <- _ <-. by eexists _, _.
      * rewrite fn_lookup_insert_ne by done. by eexists _, _.
    + cbn. rewrite fn_lookup_insert_ne; [done|]. intros ->. congruence.
Qed.

Lemma stalled_steps s s' : stalled s -> steps s s' -> stalled s'.
Proof. intros Hst H. induction H as [|s1 s2 s3 Hs _ IH]; [done|]. by eapply IH, stalled_step. Qed.

(** A thread that comes to wait for another one falls asleep. *)
Lemma run_wait s p w k :
  has_exited (glob s) = false -> procs s p = Some (Wait (name_of w) k) -> p <> w ->
  registered name_of pthread_self s p -> registered name_of pthread_self s w ->
  exists s', run [p; p] s = Done s' /\ glob s' = glob s /\ outs s' = outs s /\
    procs s' p = Some (Sleep p w false k) /\ be_posted (descs s' p) = false /\
    forall q, (q <> p -> procs s' q = procs s q) /\
      (registered name_of pthread_self s q -> registered name_of pthread_self s' q).
Proof.
  intros Hex Hp Hne Rp Rw.
  erewrite run_cons by (eapply exec_Wait with (w := w); [exact Hex|exact Hp|exact Rp|exact Rw]).
  erewrite run_cons by (eapply exec_Enlist; [exact Hex|by cbn; rewrite fn_lookup_insert]).
  eexists. split; [reflexivity|]. unfold wait_enlist, wait_test, set_waiters, set_posted. cbn.
  rewrite !fn_lookup_insert, !fn_lookup_insert_ne, !fn_lookup_insert by done. cbn. split_and!; try done.
  intros q. split; [|done]. intros Hq. by rewrite !fn_lookup_insert_ne by done.
Qed.

(** A control segment that pcap_sendpacket takes. *)
Lemma exec_send_control s p flag k :
  (forall f, 0 <= pcap_sendpacket f) -> inet_ok (g_inet_info (glob s)) -> byte_ok flag ->
  has_exited (glob s) = false -> procs s p = Some (send_control flag k) ->
  exists f, tcp_send_control pcap_sendpacket true (g_inet_info (glob s)) (g_inet_info (glob s)) flag = Done (f, false) /\
    exec_stack s p = Done (put s p k (glob s) [Sent f]).
Proof.
  intros Hpc Hg Hf Hex Hp. set (g := g_inet_info (glob s)) in *.
  pose proof (create_tcp_header_spec g flag (seq_num g) (ack_num g) tcp_options [] Hf) as Ht.
  cbv zeta in Ht. destruct Ht as (c & E & _ & _); [unfold tcp_options; bytes_ok_tac|constructor|done|].
  assert (exists f, tcp_send_control pcap_sendpacket true g g flag = Done (f, false)) as [f E'].
  { unfold tcp_send_control. rewrite E. cbn [mbind outcome_bind]. eexists. do 2 f_equal. apply Z.ltb_ge, Hpc. }
  exists f. split; [done|]. unfold exec_stack, exec. rewrite Hex, Hp. unfold send_control, doing.
  cbn [mbind outcome_bind]. fold g. rewrite E'. cbn. rewrite Hex. destruct (glob s) eqn:Eg. cbn in *. by subst.
Qed.

(** [packet_recv] on a TCP segment, the reads up to it done. *)
Lemma packet_recv_tcp packet tcp_len k :
  load16 packet 12 = Done (htons ETHERTYPE_IP) -> load8 packet (14 + 9) = Done IP_LOAD_TCP ->
  tcp_len_of packet = Done tcp_len ->
  packet_recv packet k =
    testing (fun g => ip_for_us (g_inet_info g) packet) (distribute_tcp_recv packet 34 tcp_len k) k.
Proof.
  intros H12 H23 Htl. unfold packet_recv, distribute_ip_reply.
  change (sizeof_ether_header + sizeof_ip_header) with 34. change (sizeof_ether_header + 9) with (14 + 9).
  rewrite H12. cbn [reading]. rewrite ntohs_htons.
  change (u16 ETHERTYPE_IP =? ETHERTYPE_ARP) with false. change (u16 ETHERTYPE_IP =? ETHERTYPE_IP) with true. cbn iota.
  rewrite H23. cbn [reading]. change (IP_LOAD_TCP =? IP_LOAD_ICMP) with false. change (IP_LOAD_TCP =? IP_LOAD_TCP) with true.
  cbn iota zeta. by rewrite Htl.
Qed.

(** [packet_recv] on a data segment, its reads done. *)
Lemma packet_recv_data packet packet' tcp_len d len hex text k :
  load16 packet 12 = Done (htons ETHERTYPE_IP) ->
  load8 packet (14 + 9) = Done IP_LOAD_TCP -> tcp_len_of packet = Done tcp_len ->
  load8 packet (34 + 13) = Done TCP_PSH_ACK -> tcp_data_at packet 34 tcp_len = Done (d, len) ->
  print_hex_string packet 34 tcp_len = Done hex -> terminate_data packet d len = Done packet' ->
  cstring packet' d = Done text ->
  packet_recv packet k =
    testing (fun g => ip_for_us (g_inet_info g) packet)
      (doing (fun g => Done (g, [Dumped hex]))
      (doing (fun g => i ← recv_psh_ack (g_inet_info g) packet 34 len; Done (set_inet i g, []))
      (testing (fun g => Done (connected g))
        (doing (fun g => Done (g, [Text text])) (Wait "tcp_data_recv_handle" (send_control TCP_ACK k)))
        (send_control TCP_ACK k))))
      k.
Proof.
  intros H12 H23 Htl Hfl Hat Hhex Hterm Htext. rewrite (packet_recv_tcp _ _ _ H12 H23 Htl). unfold distribute_tcp_recv.
  rewrite Hhex. cbn [reading]. rewrite Hfl. cbn [reading].
  change (TCP_PSH_ACK =? TCP_ACK) with false. change (TCP_PSH_ACK =? TCP_SYN_ACK) with false.
  change (TCP_PSH_ACK =? TCP_PSH_ACK) with true. cbn iota. rewrite Hat. cbn [reading fst snd].
  unfold deal_tcp_data_recv. rewrite Hterm. cbn [reading]. by rewrite Htext.
Qed.

(** The monitor's own steps from a captured data segment to its sleep. *)
Lemma data_stall_run s b data pad rest frame ex :
  let a := g_inet_info (glob s) in
  inet_ok a -> inet_ok b -> peers a b -> bytes_ok data -> Z.of_nat (length data) <= 1460 ->
  Z.of_nat (length data) mod 2 = 0 -> 0 <= seq_num b < 4294967296 -> pad <> [] -> Z.of_nat (length pad) <= 46 ->
  tcp_send pcap_sendpacket true b b data = Done (frame, ex) ->
  tcp_status a = TCP_CONNECTED -> has_exited (glob s) = false -> captured (glob s) = (frame ++ pad) :: rest ->
  procs s T_monitor = Some (Call pcap_loop) ->
  procs s T_tcp_data_recv = Some Forever -> registered name_of pthread_self s T_monitor ->
  registered name_of pthread_self s T_tcp_data_recv ->
  exists hex text s', run (repeat T_monitor 8) s = Done s' /\ outs s' = outs s ++ [Dumped hex; Text text] /\
    (Forall (fun x => x <> 0) data -> text = data) /\
    g_inet_info (glob s') =
      set_tcp (u32 (seq_num a + 1)) (u32 (seq_num b + Z.of_nat (length data))) TCP_CONNECTED a /\
    (exists k, procs s' T_monitor = Some (Sleep T_monitor T_tcp_data_recv false k)) /\
    be_posted (descs s' T_monitor) = false /\ procs s' T_tcp_data_recv = Some Forever.
Proof.
  intros a Ha Hb Hp Hd Hlen Hev Hseq Hpad Hpl Hsend Hconn Hex Hcap Hmon Hloop Rm Rt.
  destruct (tcp_segment_reads pcap_sendpacket a b data pad Ha Hb Hp Hd Hlen Hev Hseq)
    as (frame' & ex' & Hsend' & Hl & H12 & Hus & H23 & Htl & Hfl & Hat & Hpsh & [hex Hhex] & Hdrop).
  rewrite Hsend in Hsend'. injection Hsend' as <- <-. set (packet := frame ++ pad) in *.
  assert (Z.of_nat (length packet) = 54 + Z.of_nat (length data + length pad)) as Hpk
    by (unfold packet; rewrite length_app; lia).
  pose proof (terminate_data_padded packet data pad Hdrop Hpk) as Hterm.
  rewrite decide_False in Hterm by done. destruct Hterm as (packet' & text & Hterm & Htext & Hdata); [lia|].
  exists hex, text. change (repeat T_monitor 8) with (repeat T_monitor 6 ++ [T_monitor; T_monitor]).
  pose proof (packet_recv_data packet packet' _ _ _ hex text (Call pcap_loop) H12 H23 Htl Hfl Hat Hhex Hterm Htext)
    as Hcode.
  assert (exists s1, run (repeat T_monitor 6) s = Done s1 /\ has_exited (glob s1) = false /\
    g_inet_info (glob s1) = set_tcp (u32 (seq_num a + 1)) (u32 (seq_num b + Z.of_nat (length data))) TCP_CONNECTED a /\
    outs s1 = outs s ++ [Dumped hex; Text text] /\ procs s1 T_tcp_data_recv = Some Forever /\
    procs s1 T_monitor = Some (Wait "tcp_data_recv_handle" (send_control TCP_ACK (Call pcap_loop))) /\
    registered name_of pthread_self s1 T_monitor /\ registered name_of pthread_self s1 T_tcp_data_recv)
    as (s1 & Hr & Hex1 & Hi & Ho & Hl1 & Hm1 & Rm1 & Rt1).
  { cbn [repeat].
    erewrite run_cons by (eapply exec_Call; [exact Hex|exact Hmon|cbn; rewrite Hcap, Hcode; reflexivity]).
    erewrite run_cons by (eapply exec_Op; [exact Hex|by cbn; rewrite fn_lookup_insert|cbn; fold a; rewrite Hus; reflexivity]).
    erewrite run_cons by (eapply exec_Op; [exact Hex|by cbn; rewrite fn_lookup_insert|reflexivity]).
    erewrite run_cons by (eapply exec_Op; [exact Hex|by cbn; rewrite fn_lookup_insert|cbn; fold a; rewrite Hpsh; reflexivity]).
    erewrite run_cons by (eapply exec_Op; [exact Hex|by cbn; rewrite fn_lookup_insert|]; cbn; rewrite Hconn; reflexivity).
    erewrite run_cons by (eapply exec_Op; [exact Hex|by cbn; rewrite fn_lookup_insert|reflexivity]).
    eexists. split; [reflexivity|]. cbn. rewrite !fn_lookup_insert, !fn_lookup_insert_ne, Hconn by done.
    split_and!; try done. by rewrite <- !app_assoc. }
  destruct (run_wait s1 T_monitor T_tcp_data_recv _ Hex1 Hm1) as (s' & Hr' & Hg & Ho' & Hp' & Hb' & Hf); [done..|].
  exists s'. split; [by eapply run_app|]. rewrite Ho', Hg, Hi, Ho, (proj1 (Hf T_tcp_data_recv)) by done. split_and!; eauto.
Qed.

(** The order of a handshake: tcp_connect_handle sends its SYN and comes to wait,
    the monitor deals with the answer, and the connecting thread goes on. *)
Definition handshake : list thread :=
  repeat T_tcp_connect 3 ++ repeat T_tcp_connect 2 ++ repeat T_monitor 4 ++ [T_monitor; T_tcp_connect; T_tcp_connect] ++
  repeat T_tcp_connect 4.

(** The monitor's steps from the peer's SYN-ACK to its post. *)
Lemma run_syn_ack s b pad rest frame ex :
  let a := g_inet_info (glob s) in
  inet_ok a -> inet_ok b -> peers a b -> 0 <= seq_num b < 4294967296 ->
  tcp_send_control pcap_sendpacket true b b TCP_SYN_ACK = Done (frame, ex) -> tcp_status a = TCP_HAND_1 ->
  has_exited (glob s) = false -> captured (glob s) = (frame ++ pad) :: rest ->
  procs s T_monitor = Some (Call pcap_loop) ->
  exists hex s', run (repeat T_monitor 4) s = Done s' /\ has_exited (glob s') = false /\ captured (glob s') = rest /\
    g_inet_info (glob s') = set_tcp (u32 (seq_num a + 1)) (u32 (seq_num b + 1)) TCP_HAND_2 a /\
    outs s' = outs s ++ [Dumped hex] /\ procs s' T_monitor = Some (Post "tcp_connect_handle" (Call pcap_loop)) /\
    descs s' = descs s /\ forall q, (q <> T_monitor -> procs s' q = procs s q) /\
      (registered name_of pthread_self s q -> registered name_of pthread_self s' q).
Proof.
  intros a Ha Hb Hp Hseq Hsend Hst Hex Hcap Hmon.
  destruct (tcp_control_reads pcap_sendpacket a b TCP_SYN_ACK pad Ha Hb Hp) as
    (f & e & Hsend' & H12 & Hus & H23 & Htl & Hfl & Hsyn & [hex Hhex]); [done|done|].
  rewrite Hsend in Hsend'. injection Hsend' as <- <-. set (packet := frame ++ pad) in *. rewrite decide_True in Hsyn by done.
  assert (packet_recv packet (Call pcap_loop) =
    testing (fun g => ip_for_us (g_inet_info g) packet)
      (doing (fun g => Done (g, [Dumped hex]))
      (Op (fun g => r ← recv_syn_ack (g_inet_info g) packet 34; Done (r.1, set_inet r.2 g, []))
        (Post "tcp_connect_handle" (Call pcap_loop)) (Call pcap_loop)))
      (Call pcap_loop)) as Hcode.
  { rewrite (packet_recv_tcp _ _ _ H12 H23 Htl). unfold distribute_tcp_recv. rewrite Hhex. cbn [reading]. by rewrite Hfl. }
  exists hex. cbn [repeat].
  erewrite run_cons by (eapply exec_Call; [exact Hex|exact Hmon|cbn; rewrite Hcap, Hcode; reflexivity]).
  erewrite run_cons by (eapply exec_Op; [exact Hex|by cbn; rewrite fn_lookup_insert|cbn; fold a; rewrite Hus; reflexivity]).
  erewrite run_cons by (eapply exec_Op; [exact Hex|by cbn; rewrite fn_lookup_insert|reflexivity]).
  erewrite run_cons by (eapply exec_Op; [exact Hex|by cbn; rewrite fn_lookup_insert|cbn; fold a; rewrite Hsyn; reflexivity]).
  eexists. split; [reflexivity|]. cbn. rewrite !fn_lookup_insert. split_and!; try done.
  - by rewrite <- !app_assoc.
  - intros q. split; [|done]. intros Hq. by rewrite !fn_lookup_insert_ne by done.
Qed.

(** The steps of [tcp_connect_handle] before its wait and behind it. *)
Lemma run_connect_syn s :
  (forall f, 0 <= pcap_sendpacket f) -> inet_ok (g_inet_info (glob s)) -> has_exited (glob s) = false ->
  procs s T_tcp_connect = Some (Call tcp_connect_handle) ->
  exists syn s', run (repeat T_tcp_connect 3) s = Done s' /\ glob s' = set_status TCP_HAND_1 (glob s) /\
    tcp_send_control pcap_sendpacket true (g_inet_info (glob s)) (g_inet_info (glob s)) TCP_SYN = Done (syn, false) /\
    outs s' = outs s ++ [Sent syn] /\ procs s' T_tcp_connect = Some (Wait "monitor_handle" tcp_connect_ack) /\
    forall q, (q <> T_tcp_connect -> procs s' q = procs s q) /\
      (registered name_of pthread_self s q -> registered name_of pthread_self s' q).
Proof.
  intros Hpc Ha Hex Hp. cbn [repeat].
  erewrite run_cons by (eapply exec_Call; [exact Hex|exact Hp|reflexivity]).
  match goal with |- context [run _ ?x] => set (s1 := x) end.
  edestruct (exec_send_control s1 T_tcp_connect TCP_SYN) as (syn & E & Hx);
    [exact Hpc|exact Ha|done|exact Hex|by subst s1; cbn; rewrite fn_lookup_insert|]. subst s1. cbn [glob] in E.
  erewrite run_cons by exact Hx.
  erewrite run_cons by (eapply exec_Op; [exact Hex|by cbn; rewrite fn_lookup_insert|reflexivity]).
  exists syn. eexists. split; [reflexivity|]. cbn [glob outs procs put]. rewrite !fn_lookup_insert, app_nil_r.
  split_and!; try first [exact E|reflexivity].
  intros q. split; [|done]. intros Hq. by rewrite !fn_lookup_insert_ne by done.
Qed.

Lemma run_connect_ack s :
  let a := g_inet_info (glob s) in
  (forall f, 0 <= pcap_sendpacket f) -> inet_ok a -> has_exited (glob s) = false -> tcp_status a = TCP_HAND_2 ->
  procs s T_tcp_connect = Some tcp_connect_ack ->
  exists ack s', run (repeat T_tcp_connect 4) s = Done s' /\ glob s' = set_status TCP_CONNECTED (glob s) /\
    tcp_send_control pcap_sendpacket true a a TCP_ACK = Done (ack, false) /\
    outs s' = outs s ++ [Sent ack; TcpStatus TCP_CONNECTED] /\ procs s' T_tcp_connect = Some Halt /\
    forall q, q <> T_tcp_connect -> procs s' q = procs s q.
Proof.
  intros a Hpc Ha Hex Hst Hp. cbn [repeat].
  erewrite run_cons by (eapply exec_Op; [exact Hex|exact Hp|]; cbn; fold a; rewrite Hst; reflexivity).
  match goal with |- context [run _ ?x] => set (s1 := x) end.
  edestruct (exec_send_control s1 T_tcp_connect TCP_ACK) as (ack & E & Hx);
    [exact Hpc|exact Ha|done|exact Hex|by subst s1; cbn; rewrite fn_lookup_insert|]. subst s1. cbn [glob put] in E.
  erewrite run_cons by exact Hx.
  erewrite run_cons by (eapply exec_Op; [exact Hex|by cbn; rewrite fn_lookup_insert|reflexivity]).
  erewrite run_cons by (eapply exec_Op; [exact Hex|by cbn; rewrite fn_lookup_insert|reflexivity]).
  exists ack. eexists. split; [reflexivity|]. cbn [glob outs procs put]. rewrite !fn_lookup_insert, !app_nil_r, <- app_assoc.
  split_and!; try first [exact E|reflexivity].
  intros q Hq. by rewrite !fn_lookup_insert_ne by done.
Qed.

(** C22: The handshake.  From where the connecting thread starts and the monitor
    waits for frames, the peer's SYN-ACK being the next one, the threads get to a
    connection in the order of [handshake]: a SYN with the initial number is sent,
    then an ACK of the peer's number plus one with the own number plus one, and
    both threads are done with it. *)
Theorem tcp_handshake g0 s b pad rest frame ex :
  steps (start g0) s ->
  let a := g_inet_info (glob s) in
  (forall f, 0 <= pcap_sendpacket f) ->
  inet_ok a -> inet_ok b -> peers a b -> 0 <= seq_num b < 4294967296 ->
  tcp_send_control pcap_sendpacket true b b TCP_SYN_ACK = Done (frame, ex) ->
  has_exited (glob s) = false -> captured (glob s) = (frame ++ pad) :: rest ->
  procs s T_monitor = Some (Call pcap_loop) -> procs s T_tcp_connect = Some (Call tcp_connect_handle) ->
  registered name_of pthread_self s T_monitor -> registered name_of pthread_self s T_tcp_connect ->
  let a1 := set_tcp (u32 (seq_num a + 1)) (u32 (seq_num b + 1)) TCP_HAND_2 a in
  exists syn hex ack s', run handshake s = Done s' /\
    tcp_send_control pcap_sendpacket true a a TCP_SYN = Done (syn, false) /\
    tcp_send_control pcap_sendpacket true a1 a1 TCP_ACK = Done (ack, false) /\
    outs s' = outs s ++ [Sent syn; Dumped hex; Sent ack; TcpStatus TCP_CONNECTED] /\
    g_inet_info (glob s') = set_tcp (u32 (seq_num a + 1)) (u32 (seq_num b + 1)) TCP_CONNECTED a /\
    captured (glob s') = rest /\ procs s' T_tcp_connect = Some Halt /\ procs s' T_monitor = Some (Call pcap_loop).
Proof.
  intros Hsteps a Hpc Ha Hb Hp Hseq Hsend Hex Hcap Hmon Hcon Rm Rc a1.
  destruct (run_connect_syn s Hpc Ha Hex Hcon) as (syn & s1 & R1 & G1 & Esyn & O1 & P1 & F1).
  assert (has_exited (glob s1) = false) as Hex1 by (rewrite G1; exact Hex).
  destruct (run_wait s1 T_tcp_connect T_monitor _ Hex1 P1) as (s2 & R2 & G2 & O2 & P2 & B2 & F2);
    [discriminate|by apply F1|by apply F1|].
  assert (run_syn := run_syn_ack s2 b pad rest frame ex). cbv zeta in run_syn. rewrite G2, G1 in run_syn.
  destruct run_syn as (hex & s3 & R3 & Hex3 & C3 & I3 & O3 & P3 & D3 & F3);
    [by split; apply Ha|exact Hb|exact Hp|exact Hseq|exact Hsend|reflexivity|exact Hex|exact Hcap| |].
  { rewrite (proj1 (F2 _)), (proj1 (F1 _)) by discriminate. exact Hmon. }
  pose proof (run_app _ _ _ _ _ R1 (run_app _ _ _ _ _ R2 R3)) as R123.
  assert (wait_ok name_of pthread_self s3) as Hok3.
  { eapply steps_ok; [exact name_inj|exact self_inj|exact body_plain| |].
    - apply (init_ok _ _ T_main main_code g0), plain_main.
    - etrans; [exact Hsteps|eapply run_steps, R123]. }
  destruct (run_post s3 T_monitor T_tcp_connect (Call pcap_loop) tcp_connect_ack Hex3 Hok3 P3) as (s4 & R4 & G4 & O4 & Pm4 & Pc4 & F4);
    [rewrite (proj1 (F3 _)) by discriminate; exact P2|by rewrite D3|by apply F3, F2, F1|].
  destruct (run_connect_ack s4 Hpc) as (ack & s5 & R5 & G5 & Eack & O5 & P5 & F5);
    [rewrite G4, I3; by split; apply Ha|by rewrite G4|by rewrite G4, I3|exact Pc4|].
  exists syn, hex, ack, s5. split; [|split; [exact Esyn|split]].
  - unfold handshake. rewrite !app_assoc. rewrite <- (app_assoc (repeat T_tcp_connect 3)).
    eapply run_app; [|exact R5]. eapply run_app; [|exact R4]. exact R123.
  - rewrite G4, I3 in Eack. exact Eack.
  - rewrite O5, O4, O3, O2, O1, G5, (F5 T_monitor) by discriminate. cbn [g_inet_info captured set_status set_inet]. rewrite G4, I3, C3.
    rewrite <- !app_assoc. split_and!; first [exact P5|exact Pm4|reflexivity].
Qed.

(** C23: A connection's first data segment stops the program's receiving.  Once
    connected, the monitor deals with a data segment of the peer - an even number
    of bytes, the frame padded by the wire - in its own steps up to printing the
    text, and then waits for tcp_data_recv_handle, which only loops: in no run
    after that does the monitor go on, so the segment is never acknowledged and no
    frame is dealt with any more, although the numbers for the answer have been
    moved on. *)
Theorem tcp_data_stalls_monitor g0 s b data pad rest frame ex :
  steps (start g0) s ->
  let a := g_inet_info (glob s) in
  inet_ok a -> inet_ok b -> peers a b -> bytes_ok data -> Z.of_nat (length data) <= 1460 ->
  Z.of_nat (length data) mod 2 = 0 -> 0 <= seq_num b < 4294967296 -> pad <> [] -> Z.of_nat (length pad) <= 46 ->
  tcp_send pcap_sendpacket true b b data = Done (frame, ex) ->
  tcp_status a = TCP_CONNECTED -> has_exited (glob s) = false -> captured (glob s) = (frame ++ pad) :: rest ->
  procs s T_monitor = Some (Call pcap_loop) ->
  procs s T_tcp_data_recv = Some Forever -> registered name_of pthread_self s T_monitor ->
  registered name_of pthread_self s T_tcp_data_recv ->
  exists hex text s', run (repeat T_monitor 8) s = Done s' /\ outs s' = outs s ++ [Dumped hex; Text text] /\
    (Forall (fun x => x <> 0) data -> text = data) /\
    g_inet_info (glob s') =
      set_tcp (u32 (seq_num a + 1)) (u32 (seq_num b + Z.of_nat (length data))) TCP_CONNECTED a /\
    forall s'', steps s' s'' -> exists sig k, procs s'' T_monitor = Some (Sleep T_monitor T_tcp_data_recv sig k).
Proof.
  intros Hs a Ha Hb Hp Hd Hlen Hev Hseq Hpad Hpl Hsend Hconn Hex Hcap Hmon Hloop Rm Rt.
  destruct (data_stall_run s b data pad rest frame ex Ha Hb Hp Hd Hlen Hev Hseq Hpad Hpl Hsend Hconn Hex Hcap Hmon Hloop Rm Rt)
    as (hex & text & s' & Hr & Ho & Ht & Hi & (k & Hm) & Hbp & Hl).
  exists hex, text, s'. do 4 (split; [done|]). intros s'' Hss. eapply st_monitor, stalled_steps; [|exact Hss].
  split; [|by eexists _, _|done|done]. eapply steps_ok; [exact name_inj|exact self_inj|exact body_plain| |].
  - apply (init_ok _ _ T_main main_code g0), plain_main.
  - etrans; [exact Hs|by eapply run_steps].
Qed.
End Stack.
