(* ===== verification/NetMain.v ===== *)
(** The start of the user-space network stack: netstack/utils/util.cpp,
    protocol/protocol_cache.cpp and the first half of main in netstack/main.cpp,
    up to where [NetStack.main_code] goes on; and a run of the whole program
    between two hosts, from its start to a connection.  What the operating system
    answers is a record of the model, and [inet_aton] a parameter. *)

From S2P Require Import Prelude NetChecksum NetPacket NetRecv NetThread NetStack Printk.
#[local] Open Scope kernel_scope.

(** ** util.cpp *)

Definition ETHERTYPE_IPV6 : Z := 0x86dd.
Definition AF_INET : Z := 2.
Definition AF_INET6 : Z := 10.
Definition AF_PACKET : Z := 17.
Definition IFNAMSIZ : nat := 16.

Definition ether_id_to_string (ethid : Z) : string :=
  if ethid =? ETHERTYPE_IP then "IPV4" else if ethid =? ETHERTYPE_IPV6 then "IPV6"
  else if ethid =? ETHERTYPE_ARP then "ARP" else "????".
Definition family_to_string (family : Z) : string :=
  if family =? AF_INET then "AF_INET" else if family =? AF_INET6 then "AF_INET6"
  else if family =? AF_PACKET then "AF_PACKET" else "???".

(** An entry of getifaddrs: an interface may have no address; [ifa_host] is what
    getnameinfo writes for the address, when it succeeds. *)
Record ifaddr := IfAddr { ifa_name : list Z; ifa_addr : option Z; ifa_host : option (list Z) }.

(** What the operating system and libpcap answer. *)
Record host_env := HostEnv {
  pcap_findalldevs : option (list (list Z));
  getifaddrs : option (list ifaddr);
  hwaddr : list Z -> option (list Z)
}.

Section Start.
Context (inet_aton : list Z -> Z).

(** The loop over the interfaces: the last match counts, a failure ends it. *)
Fixpoint inet_ip_loop (ifaddrs : list ifaddr) (name : list Z) (family ret : Z) : Z :=
  match ifaddrs with
  | [] => ret
  | ifa :: ifaddrs' =>
      match ifa_addr ifa with
      | None => inet_ip_loop ifaddrs' name family ret
      | Some fam =>
          if ((fam =? family) && bool_decide (ifa_name ifa = name))%bool then
            match ifa_host ifa with
            | None => u32 (-1)
            | Some host => inet_ip_loop ifaddrs' name family (inet_aton host)
            end
          else inet_ip_loop ifaddrs' name family ret
      end
  end.
Definition get_inet_ip (env : host_env) (name : list Z) (family : Z) : Z :=
  match getifaddrs env with
  | None => u32 (-1)
  | Some l => inet_ip_loop l name family (u32 (-1))
  end.

(** The value returned, and the address. *)
Definition get_eth_mac (env : host_env) (name mac : list Z) : Z * list Z :=
  match hwaddr env (take (IFNAMSIZ - 1) name) with
  | None => (-1, mac)
  | Some m => (0, m)
  end.

(** ** main.cpp *)

Definition INET_NAME : list Z := bytes "ens38".
Definition REMOTE_IP : list Z := bytes "192.168.133.138".
Definition LOCAL_PORT : Z := 1234.
Definition REMOTE_PORT : Z := 8080.

(** g_inet_info, a static object. *)
Definition g_inet_info_zero : inet_info_t :=
  InetInfo [] 0 0 (repeat 0 6%nat) (repeat 0 6%nat) 0 0 0 false (repeat 0 1500%nat) 0 0 0 TCP_CLOSED.

(** [main] up to its first thread; [None] is the return with 1. *)
Definition main_init (env : host_env) : option inet_info_t :=
  match pcap_findalldevs env with
  | None => None
  | Some devs =>
      if bool_decide (INET_NAME ∈ devs) then
        let g := g_inet_info_zero in
        let mac := snd (get_eth_mac env INET_NAME (local_mac g)) in
        Some (InetInfo INET_NAME (get_inet_ip env INET_NAME AF_INET) (inet_aton REMOTE_IP) mac (remote_mac g) AF_INET
          LOCAL_PORT REMOTE_PORT (ping_success g) (inet_data g) (data_valid g) (seq_num g) (ack_num g) (tcp_status g))
      else None
  end.

(** ** Theorems *)

(** What inet_aton and the ioctl give. *)
Context (inet_aton_bound : forall s, 0 <= inet_aton s < 4294967296).

Lemma inet_ip_loop_bound l name family ret :
  0 <= ret < 4294967296 -> 0 <= inet_ip_loop l name family ret < 4294967296.
Proof.
  revert ret. induction l as [|ifa l IH]; intros ret Hr; cbn [inet_ip_loop]; [done|].
  destruct (ifa_addr ifa); [|by apply IH]. destruct (_ && _)%bool; [|by apply IH].
  destruct (ifa_host ifa); [|done]. by apply IH.
Qed.

(** One usable address of the interface is the answer; with none it is the
    broadcast address, which [main] does not tell from an answer. *)
Lemma inet_ip_loop_unique l name family ret :
  (forall ifa, ifa ∈ l -> ifa_addr ifa = Some family -> ifa_name ifa <> name) -> inet_ip_loop l name family ret = ret.
Proof.
  revert ret. induction l as [|ifa l IH]; intros ret Hl; cbn [inet_ip_loop]; [done|].
  assert (inet_ip_loop l name family ret = ret) as E by (apply IH; intros i Hi; apply Hl; by right).
  destruct (ifa_addr ifa) as [fam|] eqn:Ea; [|done].
  destruct ((fam =? family) && bool_decide (ifa_name ifa = name))%bool eqn:Eb; [|done]. bool_hyps. subst fam.
  apply bool_decide_eq_true in H0. destruct (Hl ifa); [by left|done|done].
Qed.

Lemma inet_ip_loop_app l1 l2 name family ret :
  (forall ifa, ifa ∈ l1 -> ifa_addr ifa = Some family -> ifa_name ifa <> name) ->
  inet_ip_loop (l1 ++ l2) name family ret = inet_ip_loop l2 name family ret.
Proof.
  induction l1 as [|ifa l1 IH]; intros Hl; cbn [app inet_ip_loop]; [done|].
  assert (inet_ip_loop (l1 ++ l2) name family ret = inet_ip_loop l2 name family ret) as E
    by (apply IH; intros i Hi; apply Hl; by right).
  destruct (ifa_addr ifa) as [fam|] eqn:Ea; [|done].
  destruct ((fam =? family) && bool_decide (ifa_name ifa = name))%bool eqn:Eb; [|done].
  apply andb_true_iff in Eb as [->%Z.eqb_eq Eb%bool_decide_eq_true]. destruct (Hl ifa); [by left|done|done].
Qed.

(** The program starts only when the interface exists, with the fields the
    rest relies on: 32-bit addresses, six-byte hardware addresses and a buffer of
    MTU bytes, no peer known and no connection.  The local address is that of the
    interface when it has one; with none, and when the system's list cannot be
    had, the program goes on as 255.255.255.255. *)
Theorem main_init_correct env i :
  (forall n m, hwaddr env n = Some m -> length m = 6%nat) -> main_init env = Some i ->
  inet_ok i /\ INET_NAME ∈ default [] (pcap_findalldevs env) /\
  remote_ip i = inet_aton REMOTE_IP /\ local_port i = 1234 /\ remote_port i = 8080 /\
  ping_success i = false /\ tcp_status i = TCP_CLOSED /\
  (forall l1 ifa l2 host,
    getifaddrs env = Some (l1 ++ ifa :: l2) ->
    (forall x, x ∈ l1 ++ l2 -> ifa_addr x = Some AF_INET -> ifa_name x <> INET_NAME) ->
    ifa_name ifa = INET_NAME -> ifa_addr ifa = Some AF_INET -> ifa_host ifa = Some host ->
    local_ip i = inet_aton host) /\
  ((forall x, x ∈ default [] (getifaddrs env) -> ifa_addr x = Some AF_INET -> ifa_name x <> INET_NAME) ->
    local_ip i = 0xffffffff).
Proof.
  intros Hmac. unfold main_init. destruct (pcap_findalldevs env) as [devs|]; [|done].
  case_bool_decide as Hd; [|done]. intros [= <-]. cbn [local_ip remote_ip local_port remote_port ping_success tcp_status].
  split_and!; try done.
  - split; cbn [local_ip remote_ip local_mac remote_mac inet_data]; [|apply inet_aton_bound| |done..].
    + unfold get_inet_ip. destruct (getifaddrs env); [by apply inet_ip_loop_bound|done].
    + unfold get_eth_mac. destruct (hwaddr env _) eqn:E; [by apply Hmac in E|done].
  - intros l1 ifa l2 host Hl Hno Hn Ha Hh. unfold get_inet_ip. rewrite Hl, inet_ip_loop_app.
    + cbn [inet_ip_loop]. rewrite Ha, Hh, Hn, Z.eqb_refl, bool_decide_true by done. cbn [andb].
      apply inet_ip_loop_unique. intros x Hx. apply Hno, elem_of_app. by right.
    + intros x Hx. apply Hno, elem_of_app. by left.
  - intros Hno. unfold get_inet_ip. destruct (getifaddrs env) as [l|]; [|done]. by rewrite inet_ip_loop_unique.
Qed.
End Start.

(** ** A run between two hosts *)

Module Demo.

(** inet_aton on the two addresses of the run. *)
Definition inet_aton (s : list Z) : Z :=
  if bool_decide (s = REMOTE_IP) then 0x8a85a8c0 else if bool_decide (s = bytes "192.168.133.1") then 0x0185a8c0 else 0.
Definition env : host_env :=
  HostEnv (Some [bytes "lo"; INET_NAME])
    (Some [IfAddr (bytes "lo") (Some AF_INET) (Some (bytes "127.0.0.1")); IfAddr INET_NAME (Some AF_PACKET) None;
           IfAddr INET_NAME (Some AF_INET) (Some (bytes "192.168.133.1"))])
    (fun _ => Some [0x00; 0x0c; 0x29; 0x11; 0x22; 0x33]).

Definition here : inet_info_t := default g_inet_info_zero (main_init inet_aton env).
(** The peer, as the same program would describe it. *)
Definition there : inet_info_t :=
  InetInfo INET_NAME 0x8a85a8c0 0x0185a8c0 [0x00; 0x0c; 0x29; 0xaa; 0xbb; 0xcc] (local_mac here) AF_INET 8080 1234
    true (repeat 0 1500%nat) 0 7000 0 TCP_CLOSED.

Definition sendpacket (frame : list Z) : Z := 0.
Definition self (t : thread) : Z :=
  match t with
  | T_main => 1 | T_icmp_req => 2 | T_monitor => 3 | T_udp_recv => 4 | T_tcp_data_recv => 5 | T_tcp_connect => 6
  end.
Definition frame_of (o : outcome (list Z * bool)) : list Z := match o with Done r => r.1 | Stuck _ => [] end.

Definition arp_reply : list Z := send_arp_req there.
Definition echo_reply : list Z := <[34%nat := ICMP_TYPE_REPLY_ECHO]> (send_icmp_echo_request_packet there there).
Definition syn_ack : list Z := frame_of (tcp_send_control sendpacket true there there TCP_SYN_ACK).
Definition text : list Z := bytes "hello!".
Definition data_frame : list Z := frame_of (tcp_send sendpacket true there there text).

(** The state of the program before its first step. *)
Definition world : stack_t :=
  Stack here (repeat 0 1500%nat) [arp_reply; echo_reply; syn_ack; data_frame ++ [0; 0]] [bytes "tcpconect now"] [41] false.

Definition to_ping : list thread :=
  [T_main; T_main; T_monitor; T_monitor] ++ repeat T_icmp_req 5 ++ repeat T_monitor 3 ++ repeat T_icmp_req 5 ++
  repeat T_monitor 4 ++ repeat T_icmp_req 3.
Definition to_input : list thread := repeat T_main 6.
Definition to_connect : list thread := [T_tcp_data_recv; T_tcp_data_recv; T_main; T_main; T_tcp_connect].

Definition state_of (o : outcome system) : system := match o with Done s => s | Stuck _ => start world end.
Definition runs (schedule : list thread) : outcome system := run true sendpacket self schedule (start world).

Lemma runs_steps schedule :
  match runs schedule with Done _ => true | Stuck _ => false end = true ->
  steps true sendpacket self (start world) (state_of (runs schedule)).
Proof. intros H. unfold state_of. destruct (runs schedule) as [s|] eqn:E; [|done]. by eapply run_steps. Qed.

Lemma self_inj p q : s32 (self p) = s32 (self q) -> p = q.
Proof. by destruct p, q. Qed.

(** The places in the code the run comes to. *)
Lemma asleep_inv (c : option prog) cur w :
  match c with Some (Sleep x y _ _) => bool_decide (x = cur) && bool_decide (y = w) | _ => false end = true ->
  exists sig k, c = Some (Sleep cur w sig k).
Proof.
  destruct c as [[]|]; try done. intros [->%bool_decide_eq_true ->%bool_decide_eq_true]%andb_true_iff. eauto.
Qed.

Lemma inet_ok_dec i :
  ((0 <=? local_ip i) && (local_ip i <? 4294967296) && (0 <=? remote_ip i) && (remote_ip i <? 4294967296) &&
   Nat.eqb (length (local_mac i)) 6 && Nat.eqb (length (remote_mac i)) 6 &&
   (Z.of_nat (length (inet_data i)) =? MTU))%bool = true -> inet_ok i.
Proof.
  intros H. repeat (apply andb_true_iff in H as [H ?]). bool_hyps.
  split; try lia; by apply Nat.eqb_eq.
Qed.

Lemma bytes_ok_dec l : forallb (fun b => (0 <=? b) && (b <? 256))%bool l = true -> bytes_ok l.
Proof.
  intros H. apply Forall_forall. intros x Hx. apply list_elem_of_In in Hx.
  pose proof (proj1 (forallb_forall _ _) H x Hx) as Hb. apply andb_true_iff in Hb. unfold byte_ok. lia.
Qed.

Lemma there_ok : inet_ok there.
Proof. by apply inet_ok_dec. Qed.
Lemma here_ok : inet_ok here.
Proof. by apply inet_ok_dec. Qed.
End Demo.

(** ** Witnesses *)

Import Demo.

Lemma main_init_witness : exists i, main_init inet_aton env = Some i /\ inet_ok i /\ local_ip i = 0x0185a8c0.
Proof.
  exists here. split; [reflexivity|].
  destruct (main_init_correct inet_aton) with (env := env) (i := here) as (H & _ & _ & _ & _ & _ & _ & Hl & _).
  - intros s. unfold inet_aton. repeat case_bool_decide; lia.
  - by intros n m [= <-].
  - reflexivity.
  - split; [exact H|]. rewrite (Hl [IfAddr (bytes "lo") (Some AF_INET) (Some (bytes "127.0.0.1"));
      IfAddr INET_NAME (Some AF_PACKET) None] _ [] (bytes "192.168.133.1") eq_refl); [reflexivity| |reflexivity..].
    intros x Hx. repeat (apply elem_of_cons in Hx as [->|Hx]; [by vm_compute|]). by apply elem_of_nil in Hx.
Defined.

Lemma sent_frames_verify_witness : ip_valid (frame_of (tcp_send sendpacket true here here text)) /\
  tcp_send sendpacket true here here (bytes "odd") = Stuck WildStore.
Proof.
  split.
  - destruct (sent_frames_verify sendpacket here text) as (_ & _ & H); [exact here_ok|by apply bytes_ok_dec|done|].
    cbn [Z.eqb] in H. change (Z.of_nat (length text) mod 2 =? 0) with true in H. cbn iota in H.
    destruct H as (f & e & E & H & _). by rewrite E.
  - destruct (sent_frames_verify sendpacket here (bytes "odd")) as (_ & _ & H); [exact here_ok|by apply bytes_ok_dec|done|].
    exact H.
Defined.

Definition udp_frame : list Z := match udp_send sendpacket there there text with Done r => r.1 | Stuck _ => [] end.

Lemma udp_receive_safe_witness : exists i, distribute_udp_recv here udp_frame 34 = Done i /\ data_valid i = 6 /\
  take 6 (inet_data i) = text.
Proof.
  destruct (udp_receive_safe here udp_frame 34) as (i & E & _ & Hv & _ & Hd & _);
    [exact here_ok|by apply bytes_ok_dec|lia|by vm_compute|].
  exists i. split; [exact E|]. split; [exact Hv|exact Hd].
Defined.

Lemma udp_roundtrip_witness : exists frame r i, udp_send sendpacket there there text = Done (frame, r) /\
  distribute_udp_recv here frame 34 = Done i /\
  udp_recv i (repeat 0 1500%nat) MTU = Done (text ++ repeat 0 1494%nat, 6).
Proof.
  destruct (udp_roundtrip sendpacket there here text (repeat 0 1500%nat)) as (_ & f & r & i & E & _ & _ & _ & E1 & E2);
    [exact there_ok|exact here_ok|by vm_compute|by apply bytes_ok_dec|done|done|].
  exists f, r, i. split; [exact E|]. split; [exact E1|exact E2].
Defined.

(** The states of the run the witnesses start from. *)
Definition waiting : system := state_of (runs (take 9 to_ping)).
Definition connecting : system := state_of (runs (to_ping ++ to_input ++ to_connect)).
Definition connection : system :=
  state_of (runs (to_ping ++ to_input ++ to_connect ++ handshake ++ [T_tcp_data_recv; T_tcp_data_recv])).

Lemma wait_post_correct_witness : exists sig k,
  procs waiting T_icmp_req = Some (Sleep T_icmp_req T_monitor sig k) /\
  wait_this (descs waiting T_monitor) !! "icmp_req_handle"%string = Some T_icmp_req.
Proof.
  destruct (asleep_inv (procs waiting T_icmp_req) T_icmp_req T_monitor) as (sig & k & Hp); [by vm_compute|].
  exists sig, k. split; [exact Hp|].
  destruct (wait_post_correct name_of self (body true sendpacket) has_exited name_inj self_inj
    (body_plain true sendpacket) T_main (main_code) world waiting) as [H _].
  - by apply plain_main.
  - apply (runs_steps (take 9 to_ping)). by vm_compute.
  - specialize (H _ _ _ _ Hp). replace (be_posted (descs waiting T_icmp_req)) with false in H by by vm_compute.
    apply H.
Defined.

(** The reply, and then a datagram of the peer, which wakes nobody, or the reply
    again. *)
Lemma arp_reply_lost_witness :
  (exists s, steps true sendpacket self (start (set_captured [arp_reply; udp_frame] world)) s /\
    forall s', steps true sendpacket self s s' ->
      exists sig k, procs s' T_icmp_req = Some (Sleep T_icmp_req T_monitor sig k)) /\
  exists s o, steps true sendpacket self (start (set_captured [arp_reply; arp_reply] world)) s /\
    outs s = [Sent (send_arp_req here); Sent o].
Proof.
  split.
  - destruct (arp_reply_lost true sendpacket self self_inj (set_captured [arp_reply; udp_frame] world) arp_reply [udp_frame]
      (set_remote_mac (local_mac there) here)) as (s & Hs & _ & _ & H & _); [reflexivity..|].
    exists s. split; [exact Hs|]. intros s' Hs'. apply (H ltac:(repeat constructor; vm_compute; reflexivity) s' Hs').
  - destruct (arp_reply_lost true sendpacket self self_inj (set_captured [arp_reply; arp_reply] world) arp_reply [arp_reply]
      (set_remote_mac (local_mac there) here)) as (s & Hs & _ & Ho & _ & H); [reflexivity..|].
    destruct (H arp_reply [] (set_remote_mac (local_mac there) here)) as (s' & Hs' & Ho'); [reflexivity..|].
    exists s', (send_icmp_echo_request_packet (set_remote_mac (local_mac there) here) (set_remote_mac (local_mac there) here)).
    split; [by transitivity s|]. by rewrite Ho', Ho.
Defined.

Lemma tcp_handshake_witness : exists s', run true sendpacket self handshake connecting = Done s' /\
  tcp_status (g_inet_info (glob s')) = TCP_CONNECTED /\
  ack_num (g_inet_info (glob s')) = 7001.
Proof.
  destruct (tcp_handshake true sendpacket self self_inj world connecting there [] [data_frame ++ [0; 0]] syn_ack false)
    as (syn & hex & ack & s' & Hr & _ & _ & _ & Hi & _).
  - apply (runs_steps (to_ping ++ to_input ++ to_connect)). by vm_compute.
  - done.
  - by apply inet_ok_dec; vm_compute.
  - exact there_ok.
  - by vm_compute.
  - done.
  - by vm_compute.
  - by vm_compute.
  - by vm_compute.
  - by vm_compute.
  - by vm_compute.
  - by vm_compute.
  - by vm_compute.
  - exists s'. split; [exact Hr|]. rewrite Hi. split; [reflexivity|by vm_compute].
Defined.

Lemma tcp_data_stalls_monitor_witness : exists s', run true sendpacket self (repeat T_monitor 8) connection = Done s' /\
  last (outs s') = Some (Text text) /\
  forall s'', steps true sendpacket self s' s'' ->
    exists sig k, procs s'' T_monitor = Some (Sleep T_monitor T_tcp_data_recv sig k).
Proof.
  destruct (tcp_data_stalls_monitor true sendpacket self self_inj world connection there text [0; 0] [] data_frame false)
    as (hex & txt & s' & Hr & Ho & Ht & _ & H).
  - apply (runs_steps (to_ping ++ to_input ++ to_connect ++ handshake ++ [T_tcp_data_recv; T_tcp_data_recv])). by vm_compute.
  - by apply inet_ok_dec; vm_compute.
  - exact there_ok.
  - by vm_compute.
  - by apply bytes_ok_dec.
  - done.
  - done.
  - done.
  - done.
  - done.
  - by vm_compute.
  - by vm_compute.
  - by vm_compute.
  - by vm_compute.
  - by vm_compute.
  - by vm_compute.
  - by vm_compute.
  - by vm_compute.
  - exists s'. split; [exact Hr|]. split; [|exact H]. rewrite Ho, Ht; [by rewrite last_app|].
    by repeat (constructor; [done|]).
Defined.
