(* ===== verification/NetSamples.v ===== *)
(** The sample servers and clients beside the network stack: netstack/client_server,
    its copies in netframework/client_server, and the echo server of
    netframework/main.cpp.  What the socket calls answer is an argument; a program is
    the calls it makes, in order, and how it ends. *)

From Stdlib Require Import String.
From S2P Require Import Prelude Mem CString PageAlloc Vsprintf Printk.
#[local] Open Scope kernel_scope.

(** ** Calls *)

(** An address: the text of the IP, and the port. *)
Definition address : Set := string * Z.
Inductive call :=
| Socket (stream : bool) | Bind (fd : Z) (at_ : address) | Listen (fd backlog : Z) | Connect (fd : Z) (to : address)
| Accept (fd : Z) | Close (fd : Z)
| Read (fd size : Z) | Write (fd : Z) (data : list Z) | WriteSize (fd size : Z)
| Recvfrom (fd size : Z) | Sendto (fd : Z) (data : list Z) (to : address) | Send (fd : Z) (data : list Z)
| Fgets (size : Z) | Setsockopt (fd : Z) | EpollAdd (fd : Z) | Nonblock (fd : Z)
| Perror (text : string)
(** A line whose text is its format and an address; a line with received bytes. *)
| Report (text : string) | Received (text : list Z).

(** It waits for an answer; it has returned; it stores past its buffer. *)
Inductive ending := Blocked | Returned (code : Z) | Overflow.

Definition calls_then (l : list call) (r : list call * ending) : list call * ending := (l ++ fst r, snd r).

Definition PORT : Z := 8080.
Definition BUFFER_SIZE : Z := 1024.
(** What %s prints of a buffer that ends with a NUL. *)
Fixpoint until_nul (bs : list Z) : list Z :=
  match bs with [] => [] | b :: bs' => if b =? 0 then [] else b :: until_nul bs' end.

(** The answers of the calls before the loops. *)
Record net := Net { r_socket : Z; r_pton : Z; r_bind : Z; r_listen : Z; r_connect : Z }.

(** ** tcp_server.cpp *)

(** Up to [listen]; [None] when it goes on. *)
Definition tcp_server_setup (ip_address : string) (n : net) : list call * option ending :=
  let fd := r_socket n in
  if fd <? 0 then ([Socket true; Perror "Socket creation failed"], Some (Returned (-1)))
  else if r_pton n <=? 0 then ([Socket true; Perror "Invalid address"; Close fd], Some (Returned (-1)))
  else if r_bind n <? 0 then ([Socket true; Bind fd (ip_address, PORT); Perror "Bind failed"; Close fd], Some (Returned (-1)))
  else if r_listen n <? 0 then ([Socket true; Bind fd (ip_address, PORT); Listen fd 5; Perror "Listen failed"; Close fd], Some (Returned (-1)))
  else ([Socket true; Bind fd (ip_address, PORT); Listen fd 5], None).

(** The inner loop: bytes, or an error, from each [read]; a negative count is a huge
    size for [write]. *)
Fixpoint tcp_echo (fd : Z) (reads : list (option (list Z))) : list call * ending :=
  match reads with
  | [] => ([Read fd BUFFER_SIZE], Blocked)
  | None :: rest => calls_then [Read fd BUFFER_SIZE; Perror "Read failed"; WriteSize fd 18446744073709551615] (tcp_echo fd rest)
  | Some bs :: rest =>
      if BUFFER_SIZE <=? Z.of_nat (List.length bs) then ([Read fd BUFFER_SIZE], Overflow)
      else calls_then [Read fd BUFFER_SIZE; Received (until_nul bs); Write fd bs] (tcp_echo fd rest)
  end.

(** The outer loop: what each [accept] answers and what is read from it. *)
Fixpoint tcp_accept (sockfd : Z) (conns : list (Z * list (option (list Z)))) : list call * ending :=
  match conns with
  | [] => ([Accept sockfd], Blocked)
  | (fd, reads) :: rest =>
      if fd <? 0 then calls_then [Accept sockfd; Perror "Accept failed"] (tcp_accept sockfd rest)
      else calls_then [Accept sockfd; Report "Connection from"] (tcp_echo fd reads)
  end.

Definition tcp_server (ip_address : string) (n : net) (conns : list (Z * list (option (list Z)))) : list call * ending :=
  match tcp_server_setup ip_address n with
  | (l, Some e) => (l, e)
  | (l, None) => calls_then (l ++ [Report "Server listening on"]) (tcp_accept (r_socket n) conns)
  end.
Definition netstack_tcp_server := tcp_server "192.168.1.10".
Definition netframework_tcp_server := tcp_server "192.168.133.140".

(** ** udp_server.cpp *)

Definition SERVER_IP : string := "192.168.133.138".
Definition udp_server_setup (n : net) : list call * option ending :=
  let fd := r_socket n in
  if fd <? 0 then ([Socket false; Perror "Socket creation failed"], Some (Returned (-1)))
  else if r_pton n <=? 0 then ([Socket false; Perror "Invalid address"; Close fd], Some (Returned (-1)))
  else if r_bind n <? 0 then ([Socket false; Bind fd (SERVER_IP, PORT); Perror "Bind failed"; Close fd], Some (Returned (-1)))
  else ([Socket false; Bind fd (SERVER_IP, PORT)], None).

(** Each [recvfrom]: a datagram and its sender, or an error, which ends it. *)
Fixpoint udp_echo (fd : Z) (recvs : list (option (list Z * address))) : list call * ending :=
  match recvs with
  | [] => ([Recvfrom fd BUFFER_SIZE], Blocked)
  | None :: _ => ([Recvfrom fd BUFFER_SIZE; Perror "Receive failed"; Close fd], Returned 0)
  | Some (bs, from) :: rest =>
      if BUFFER_SIZE <=? Z.of_nat (List.length bs) then ([Recvfrom fd BUFFER_SIZE], Overflow)
      else calls_then [Recvfrom fd BUFFER_SIZE; Received (until_nul bs); Sendto fd bs from] (udp_echo fd rest)
  end.
Definition udp_server (n : net) (recvs : list (option (list Z * address))) : list call * ending :=
  match udp_server_setup n with
  | (l, Some e) => (l, e)
  | (l, None) => calls_then (l ++ [Report "UDP Server is listening on"]) (udp_echo (r_socket n) recvs)
  end.
Definition netframework_udp_server := udp_server.

(** ** The clients *)

(** tcp_client.cpp of netstack: one message. *)
Definition hello_tcp : list Z := bytes "Hello, TCP Server!".
Definition tcp_client (n : net) : list call * ending :=
  let fd := r_socket n in
  if fd <? 0 then ([Socket true; Perror "Socket creation failed"], Returned (-1))
  else if r_pton n <=? 0 then ([Socket true; Perror "Invalid address"; Close fd], Returned (-1))
  else if r_connect n <? 0 then ([Socket true; Connect fd (SERVER_IP, PORT); Perror "Connection failed"; Close fd], Returned (-1))
  else ([Socket true; Connect fd (SERVER_IP, PORT); Send fd hello_tcp; Report "Message sent to server"; Close fd], Returned 0).

(** tcp_client.cpp of netframework: the lines typed.  An answer is what [fgets]
    gives, nothing at the end of the input, when the buffer stays as it is, and
    what [send] returns.  [strcspn] stops at the newline or at the NUL; before the
    first line the buffer holds some text. *)
Definition FRAMEWORK_IP : string := "192.168.133.140".
Fixpoint strip_newline (bs : list Z) : list Z :=
  match bs with [] => [] | b :: bs' => if (b =? 10) || (b =? 0) then [] else b :: strip_newline bs' end.
Definition exit_word : list Z := bytes "exit".
Fixpoint type_loop (fd : Z) (buffer : list Z) (typed : list (option (list Z) * Z)) : list call * ending :=
  match typed with
  | [] => ([Report "Enter message to send"; Fgets BUFFER_SIZE], Blocked)
  | (l, sent) :: rest =>
      let buffer := strip_newline (default buffer l) in
      let before := [Report "Enter message to send"; Fgets BUFFER_SIZE; Send fd buffer] in
      if sent <? 0 then (before ++ [Perror "Send failed"; Close fd], Returned 0)
      else if bool_decide (buffer = exit_word) then (before ++ [Report "Exiting..."; Close fd], Returned 0)
      else calls_then before (type_loop fd buffer rest)
  end.
Definition netframework_tcp_client (n : net) (garbage : list Z) (typed : list (option (list Z) * Z)) : list call * ending :=
  let fd := r_socket n in
  if fd <? 0 then ([Socket true; Perror "Socket creation failed"], Returned 1)
  else if r_connect n <? 0 then ([Socket true; Connect fd (FRAMEWORK_IP, PORT); Perror "Connect failed"; Close fd], Returned 1)
  else calls_then [Socket true; Connect fd (FRAMEWORK_IP, PORT); Report "Connected to server"] (type_loop fd garbage typed).

(** udp_client.cpp: one datagram and its answer. *)
Definition hello_udp : list Z := bytes "Hello, UDP Server!".
Definition udp_client (n : net) (answer : option (list Z)) : list call * ending :=
  let fd := r_socket n in
  if fd <? 0 then ([Socket false; Perror "Socket creation failed"], Returned (-1))
  else
    let before := [Socket false; Sendto fd hello_udp (SERVER_IP, PORT); Recvfrom fd BUFFER_SIZE] in
    match answer with
    | None => (before ++ [Perror "Receive failed"; Close fd], Returned 0)
    | Some bs =>
        if BUFFER_SIZE <=? Z.of_nat (List.length bs) then (before, Overflow)
        else (before ++ [Received (until_nul bs); Close fd], Returned 0)
    end.
Definition netframework_udp_client := udp_client.

(** ** netframework/main.cpp *)

Definition RECV_SIZE : Z := 1500.
Definition echo_setup (n : net) (r_setsockopt : Z) : list call * option ending :=
  let fd := r_socket n in
  if fd <? 0 then ([Socket true; Perror "socket"], Some (Returned (-1)))
  else if truthy (r_bind n) then ([Socket true; Bind fd (FRAMEWORK_IP, PORT); Perror "bind"; Close fd], Some (Returned (-1)))
  else if truthy (r_listen n) then ([Socket true; Bind fd (FRAMEWORK_IP, PORT); Listen fd 10; Perror "listen"; Close fd], Some (Returned (-1)))
  else if r_setsockopt <? 0 then
    ([Socket true; Bind fd (FRAMEWORK_IP, PORT); Listen fd 10; Setsockopt fd; Perror "setsockopt SO_REUSEPORT failed"; Close fd], Some (Returned (-1)))
  else ([Socket true; Bind fd (FRAMEWORK_IP, PORT); Listen fd 10; Setsockopt fd; EpollAdd fd], None).

(** A ready descriptor and what the call on it answers: the listening socket's
    [accept], another one's [recv]. *)
Inductive ready := NewConn (fd : Z) | Input (fd : Z) (r : option (list Z)).

(** The body of the loop over the ready descriptors; a store past the buffer would
    be one at [bytes_read]. *)
Definition handle (ser_fd : Z) (e : ready) : list call * option ending :=
  match e with
  | NewConn fd =>
      if fd <? 0 then ([Accept ser_fd; Perror "Accept failed"], None)
      else ([Accept ser_fd; Report "client connected"; Nonblock fd; EpollAdd fd], None)
  | Input fd None => ([Read fd (RECV_SIZE - 1); Perror "Recv failed"; Close fd], None)
  | Input fd (Some []) => ([Read fd (RECV_SIZE - 1); Report "Client disconnected"; Close fd], None)
  | Input fd (Some bs) =>
      if RECV_SIZE <=? Z.of_nat (List.length bs) then ([Read fd (RECV_SIZE - 1)], Some Overflow)
      else ([Read fd (RECV_SIZE - 1); Received (until_nul bs); Send fd bs], None)
  end.
Fixpoint epoll_loop (ser_fd : Z) (es : list ready) : list call * ending :=
  match es with
  | [] => ([], Blocked)
  | e :: rest => match handle ser_fd e with
                 | (l, Some x) => (l, x)
                 | (l, None) => calls_then l (epoll_loop ser_fd rest)
                 end
  end.
Definition echo_server (n : net) (r_setsockopt : Z) (es : list ready) : list call * ending :=
  match echo_setup n r_setsockopt with
  | (l, Some e) => (l, e)
  | (l, None) => calls_then l (epoll_loop (r_socket n) es)
  end.

(** The listening socket is watched edge-triggered: a turn of the loop that finds
    the edge accepts one connection, arrivals set the edge. *)
Record backlog := Backlog { waiting : nat; edge : bool }.
Inductive net_event := Arrival | Turn.
Definition backlog_step (b : backlog) (e : net_event) : backlog :=
  match e with
  | Arrival => Backlog (S (waiting b)) true
  | Turn => if edge b then Backlog (pred (waiting b)) false else b
  end.

(** ** Theorems *)

(** What is sent on a descriptor; what was received there; the times one is closed. *)
Definition writes_to (fd : Z) (l : list call) : list (list Z) :=
  omap (fun c => match c with Write f d | Send f d => if f =? fd then Some d else None | _ => None end) l.
Definition answers (l : list call) : list (list Z * address) :=
  omap (fun c => match c with Sendto _ d to => Some (d, to) | _ => None end) l.
Definition accepts (l : list call) : nat :=
  List.length (omap (fun c => match c with Accept fd => Some fd | _ => None end) l).
Definition closes (fd : Z) (l : list call) : nat :=
  List.length (omap (fun c => match c with Close f => if f =? fd then Some f else None | _ => None end) l).
Definition received (fd : Z) (es : list ready) : list (list Z) :=
  omap (fun e => match e with Input f (Some (b :: bs)) => if f =? fd then Some (b :: bs) else None | _ => None end) es.

Lemma writes_to_app fd l1 l2 : writes_to fd (l1 ++ l2) = writes_to fd l1 ++ writes_to fd l2.
Proof. apply omap_app. Qed.
Lemma answers_app l1 l2 : answers (l1 ++ l2) = answers l1 ++ answers l2.
Proof. apply omap_app. Qed.
Lemma accepts_app l1 l2 : accepts (l1 ++ l2) = (accepts l1 + accepts l2)%nat.
Proof. unfold accepts. rewrite omap_app, length_app. reflexivity. Qed.
Lemma closes_app fd l1 l2 : closes fd (l1 ++ l2) = (closes fd l1 + closes fd l2)%nat.
Proof. unfold closes. rewrite omap_app, length_app. reflexivity. Qed.

Lemma tcp_echo_accepts fd reads : accepts (fst (tcp_echo fd reads)) = 0%nat.
Proof.
  induction reads as [|[bs|] rest IH]; simpl; [reflexivity| |].
  - destruct (_ <=? _); [reflexivity|]. exact IH.
  - exact IH.
Qed.
Lemma tcp_echo_never_returns fd reads c : snd (tcp_echo fd reads) <> Returned c.
Proof.
  induction reads as [|[bs|] rest IH]; simpl; [discriminate| |exact IH].
  destruct (_ <=? _); [discriminate|exact IH].
Qed.

(** The TCP server writes back what it reads, in order, as long as each read is
    shorter than the buffer, and stores past the buffer at the first that fills it. *)
Theorem tcp_echo_correct fd (good rest : list (list Z)) (full : list Z) :
  Forall (fun bs => Z.of_nat (List.length bs) < BUFFER_SIZE) good -> Z.of_nat (List.length full) = BUFFER_SIZE ->
  writes_to fd (fst (tcp_echo fd (map Some good))) = good /\ snd (tcp_echo fd (map Some good)) = Blocked /\
  writes_to fd (fst (tcp_echo fd (map Some (good ++ full :: rest)))) = good /\
  snd (tcp_echo fd (map Some (good ++ full :: rest))) = Overflow.
Proof.
  intros Hg Hf. induction Hg as [|bs good Hb Hg IH]; simpl.
  - rewrite (proj2 (Z.leb_le _ _)) by lia. repeat split; reflexivity.
  - rewrite (proj2 (Z.leb_gt _ _)) by lia. simpl. rewrite Z.eqb_refl.
    destruct IH as (-> & -> & -> & ->). repeat split; reflexivity.
Qed.

(** After the first connection it accepts, the TCP server accepts no other: what it
    does afterwards depends on that connection's reads only. *)
Theorem tcp_server_serves_one sockfd (failed : list (Z * list (option (list Z)))) fd reads others :
  Forall (fun c => fst c < 0) failed -> 0 <= fd ->
  tcp_accept sockfd (failed ++ (fd, reads) :: others) = tcp_accept sockfd (failed ++ [(fd, reads)]) /\
  accepts (fst (tcp_accept sockfd (failed ++ (fd, reads) :: others))) = S (List.length failed).
Proof.
  intros Hn Hfd. induction Hn as [|[f r] failed Hf Hn [IH1 IH2]]; simpl in *.
  - rewrite (proj2 (Z.ltb_ge _ _) Hfd). split; [reflexivity|].
    simpl. rewrite <- (tcp_echo_accepts fd reads). reflexivity.
  - rewrite (proj2 (Z.ltb_lt _ _) Hf). rewrite IH1 in *. split; [reflexivity|].
    simpl. rewrite <- IH2. reflexivity.
Qed.

(** The UDP server answers each datagram to its sender, and a failed receive closes
    the socket and ends it. *)
Theorem udp_echo_correct fd (good : list (list Z * address)) rest :
  Forall (fun r => Z.of_nat (List.length (fst r)) < BUFFER_SIZE) good ->
  answers (fst (udp_echo fd (map Some good ++ None :: rest))) = good /\
  snd (udp_echo fd (map Some good ++ None :: rest)) = Returned 0 /\
  closes fd (fst (udp_echo fd (map Some good ++ None :: rest))) = 1%nat.
Proof.
  intros Hg. induction Hg as [|[bs from] good Hb Hg (IH1 & IH2 & IH3)]; simpl in *.
  - unfold closes. simpl. rewrite Z.eqb_refl. repeat split; reflexivity.
  - rewrite (proj2 (Z.leb_gt _ _)) by lia. simpl. rewrite IH1. repeat split; [exact IH2|exact IH3].
Qed.

Lemma epoll_loop_never_returns ser_fd es c : snd (epoll_loop ser_fd es) <> Returned c.
Proof.
  induction es as [|e rest IH]; simpl; [discriminate|].
  destruct e as [fd|fd [[|b bs]|]]; simpl; try exact IH.
  - destruct (fd <? 0); exact IH.
  - destruct (_ <=? _); [discriminate|exact IH].
Qed.
Lemma tcp_accept_never_returns sockfd conns c : snd (tcp_accept sockfd conns) <> Returned c.
Proof.
  induction conns as [|[fd reads] rest IH]; simpl; [discriminate|].
  destruct (fd <? 0); [exact IH|]. simpl. apply tcp_echo_never_returns.
Qed.
Lemma udp_echo_closes fd recvs c : snd (udp_echo fd recvs) = Returned c -> closes fd (fst (udp_echo fd recvs)) = 1%nat.
Proof.
  induction recvs as [|[[bs from]|] rest IH]; simpl; [discriminate| |].
  - destruct (_ <=? _); [discriminate|exact IH].
  - intros _. unfold closes. simpl. rewrite Z.eqb_refl. reflexivity.
Qed.
Lemma type_loop_closes fd buffer typed c :
  snd (type_loop fd buffer typed) = Returned c -> closes fd (fst (type_loop fd buffer typed)) = 1%nat.
Proof.
  revert buffer. induction typed as [|[l sent] rest IH]; intros buffer; simpl; [discriminate|].
  destruct (sent <? 0); [|case_bool_decide; [|apply IH]];
    intros _; unfold closes; simpl; rewrite Z.eqb_refl; reflexivity.
Qed.

(** A run of one of the programs. *)
Inductive run_of (n : net) : list call * ending -> Prop :=
| run_tcp_server ip conns : run_of n (tcp_server ip n conns)
| run_udp_server recvs : run_of n (udp_server n recvs)
| run_tcp_client : run_of n (tcp_client n)
| run_netframework_tcp_client garbage typed : run_of n (netframework_tcp_client n garbage typed)
| run_udp_client answer : run_of n (udp_client n answer)
| run_echo_server opt es : run_of n (echo_server n opt es).

Ltac sample_cases :=
  repeat match goal with |- context [if ?b then _ else _] => destruct b eqn:?; simpl end.

Ltac count_closes := unfold closes; simpl; rewrite ?Z.eqb_refl; reflexivity.

(** C40: On every path on which one of the programs returns, each failure of the setup
    included, it has closed the socket it opened exactly once. *)
Theorem samples_close_socket n r c :
  run_of n r -> 0 <= r_socket n -> snd r = Returned c -> closes (r_socket n) (fst r) = 1%nat.
Proof.
  intros Hr Hs.
  destruct Hr as [ip conns|recvs| |garbage typed|answer|opt es];
    [unfold tcp_server, tcp_server_setup|unfold udp_server, udp_server_setup|unfold tcp_client
    |unfold netframework_tcp_client|unfold udp_client|unfold echo_server, echo_setup];
    rewrite (proj2 (Z.ltb_ge _ _) Hs).
  - sample_cases; intros E; try solve [count_closes].
    destruct (tcp_accept_never_returns _ _ _ E).
  - sample_cases; intros E; try solve [count_closes]. apply (udp_echo_closes _ _ _ E).
  - sample_cases; intros _; solve [count_closes].
  - sample_cases; intros E; try solve [count_closes]. apply (type_loop_closes _ _ _ _ E).
  - destruct answer as [bs|]; sample_cases; intros E; try discriminate; solve [count_closes].
  - sample_cases; intros E; try solve [count_closes].
    destruct (epoll_loop_never_returns _ _ _ E).
Qed.
Lemma samples_close_socket_witness :
  closes 3 (fst (udp_server (Net 3 1 0 0 0) [Some ([65], ("10.0.0.2"%string, 9000)); None])) = 1%nat /\
  closes 3 (fst (echo_server (Net 3 1 0 (-1) 0) 0 [])) = 1%nat.
Proof.
  split.
  - apply (samples_close_socket (Net 3 1 0 0 0) _ 0); [apply run_udp_server|simpl; lia|vm_compute; reflexivity].
  - apply (samples_close_socket (Net 3 1 0 (-1) 0) _ (-1)); [apply run_echo_server|simpl; lia|vm_compute; reflexivity].
Defined.

(** The answers a [recv] of at most [RECV_SIZE - 1] bytes can give. *)
Definition recv_fits (e : ready) : Prop :=
  match e with Input _ (Some bs) => Z.of_nat (List.length bs) < RECV_SIZE | _ => True end.

(** However the clients' turns interleave, the echo server sends each descriptor
    exactly what it received there, in the order received, and never stores past its
    buffer. *)
Theorem epoll_loop_correct ser_fd es fd :
  Forall recv_fits es ->
  writes_to fd (fst (epoll_loop ser_fd es)) = received fd es /\ snd (epoll_loop ser_fd es) = Blocked.
Proof.
  induction 1 as [|e es He Hes [IH1 IH2]]; [split; reflexivity|].
  destruct e as [f|f [[|b bs]|]]; simpl in *; try (rewrite IH1; split; [reflexivity|exact IH2]).
  - destruct (f <? 0); simpl; rewrite IH1; split; [reflexivity|exact IH2|reflexivity|exact IH2].
  - rewrite (proj2 (Z.leb_gt _ _)) by lia. simpl.
    destruct (f =? fd); rewrite IH1; split; [reflexivity|exact IH2|reflexivity|exact IH2].
Qed.
Lemma epoll_loop_correct_witness :
  let es := [NewConn 5; Input 5 (Some [72; 105]); NewConn 6; Input 6 (Some [79]); Input 5 (Some [33]); Input 6 None; Input 5 (Some [])] in
  Forall recv_fits es /\ writes_to 5 (fst (epoll_loop 3 es)) = [[72; 105]; [33]].
Proof.
  intros es. assert (H : Forall recv_fits es)
    by (repeat (apply Forall_cons; split; [vm_compute; first [reflexivity|exact I]|]); apply Forall_nil; exact I).
  split; [exact H|]. exact (proj1 (epoll_loop_correct 3 es 5 H)).
Defined.

(** ** The typing client *)

(** The texts of the lines typed, an unread one repeating the text before it. *)
Fixpoint texts (buffer : list Z) (typed : list (option (list Z))) : list (list Z) :=
  match typed with
  | [] => []
  | l :: rest => let t := strip_newline (default buffer l) in t :: texts t rest
  end.
Lemma strip_newline_idem bs : strip_newline (strip_newline bs) = strip_newline bs.
Proof.
  induction bs as [|b bs IH]; simpl; [reflexivity|].
  destruct ((b =? 10) || (b =? 0)) eqn:E; simpl; [reflexivity|]. rewrite E, IH. reflexivity.
Qed.

(** The typing client sends the text of every line up to [exit], which it sends too,
    and then closes and returns. *)
Theorem type_loop_correct fd buffer (typed : list (option (list Z))) last :
  Forall (fun t => t <> exit_word) (texts buffer typed) -> strip_newline last = exit_word ->
  let run := type_loop fd buffer (map (fun l => (l, 0)) (typed ++ [Some last])) in
  writes_to fd (fst run) = texts buffer typed ++ [exit_word] /\ snd run = Returned 0.
Proof.
  intros Ht Hl. revert buffer Ht. induction typed as [|l typed IH]; intros buffer Ht; simpl in *.
  - rewrite Hl, bool_decide_eq_true_2 by reflexivity. simpl. rewrite Z.eqb_refl. split; reflexivity.
  - apply Forall_cons in Ht as [H1 H2]. rewrite bool_decide_eq_false_2 by exact H1. simpl.
    rewrite Z.eqb_refl. destruct (IH _ H2) as [-> ->]. split; reflexivity.
Qed.

(** At the end of its input the client does not stop: it sends its last text again,
    once per turn, for ever. *)
Theorem type_loop_repeats_at_eof fd text k :
  strip_newline text = text -> text <> exit_word ->
  writes_to fd (fst (type_loop fd text (repeat (None, 0) k))) = repeat text k /\
  snd (type_loop fd text (repeat (None, 0) k)) = Blocked.
Proof.
  intros Hs Hx. induction k as [|k IH]; simpl; [split; reflexivity|].
  rewrite Hs, bool_decide_eq_false_2 by exact Hx. simpl. rewrite Z.eqb_refl.
  destruct IH as [-> ->]. split; reflexivity.
Qed.

(** ** The edge-triggered listening socket *)

Definition backlog_run (b : backlog) (es : list net_event) : backlog := fold_left backlog_step es b.

(** Two connections that arrive before the loop's turn set one edge: however many
    turns follow, one of them stays waiting until another client arrives. *)
Theorem backlog_starves turns :
  waiting (backlog_run (Backlog 0 false) (Arrival :: Arrival :: repeat Turn turns)) = (2 - Nat.min 1 turns)%nat.
Proof.
  unfold backlog_run. destruct turns as [|k]; [reflexivity|]. simpl.
  assert (H : forall m, fold_left backlog_step (repeat Turn m) (Backlog 1 false) = Backlog 1 false)
    by (intros m; induction m as [|m IH]; [reflexivity|exact IH]).
  rewrite H. reflexivity.
Qed.
(** When a turn follows each arrival nothing waits. *)
Theorem backlog_turn_by_turn k :
  backlog_run (Backlog 0 false) (concat (repeat [Arrival; Turn] k)) = Backlog 0 false.
Proof. unfold backlog_run. induction k as [|k IH]; [reflexivity|exact IH]. Qed.
